(* ===== verification/_CoqProject ===== *)
-Q . S2P
Prelude.v
GoString.v
Sha256.v
Json.v
JsonText.v
JsonDecode.v
GoTime.v
Schema.v
Tx.v
Command.v
Capability.v
History.v
Config.v
Schedule.v
Worker.v
Lease.v
FilePath.v
Permission.v
RunOnce.v
RunControl.v
Profile.v
Workflow.v
Gates.v
Runner.v
ArtifactMigration.v
EnginePreview.v
ExecutionGate.v
ReadOnlyVerify.v
ApprovedWrite.v
FixtureExecution.v
ProjectFile.v
ArtifactIntegrity.v
ArtifactArchive.v
FixtureWrite.v
ManagedWrite.v
StatusFiles.v
StatusShape.v
StatusStore.v
StatusExport.v
StatusProjection.v
StatusApply.v
Encoding.v
Auth.v
Rbac.v
Session.v
AppConfig.v
Oidc.v
ApiAuth.v
RateLimit.v
Migrate.v
Demo.v
LeaseSpec.v
WorkerSpec.v
RunOnceSpec.v
RunControlSpec.v
Steps.v
ExecutionSteps.v
WriteSteps.v
StatusSteps.v
System.v
RunOnceDrain.v
Idempotency.v
WorkflowSpec.v
WorkflowSystem.v
ExecutionSpec.v
WriteSpec.v
ArtifactSpec.v
ArchiveSpec.v
StatusWrites.v
StatusSpec.v
StatusExportSpec.v
MigrationSteps.v
ArtifactMigrationSpec.v
MigrationLifecycle.v
AuthSpec.v
AuthSystem.v
AuthLifecycle.v
ApiSpec.v
AuthFindings.v
MigrateSpec.v
