(* ===== verification/Prelude.v ===== *)
(** * AreaFlow: a verification of the workflow control plane

    AreaFlow keeps, in PostgreSQL, the projects of a team, the versions of their
    workflows, the runs and tasks that execute them, the workers that claim
    tasks under leases, and the evidence (gate results, approvals, artifacts,
    events, audit events) on which later steps depend.  A web API and a command
    line issue commands to this store.  The development models the commands,
    the access control in front of them and the migrations under them, and
    proves what they promise.

    ** Parts of the program and where they are modelled

    Shared ground
    - [Prelude]: results, machine integers, tactics, lemmas on lists;
      [GoString]: Go's string functions; [Encoding]: splitting, hexadecimal and
      base64; [Sha256]: the hash itself; [Json]: values of type [any] and their
      text; [JsonText] and [JsonDecode]: reading a text back into a struct, a
      value or a map; [GoTime]: dates and their RFC 3339 text.
    - [Schema]: the row types and the tables ([DB]); [Tx]: the state of a command
      ([World]), its environment ([Env]: clock, host, locks held by others, S3)
      and the transaction monad.  A store method is a function from an
      environment, options and a world to a result and a world.

    The project store, [src/internal/project]
    - [Command]: the ledger of command requests that makes commands idempotent
      (workflow.go, store.go).
    - [Capability], [Worker], [History], [Lease], [RunOnce] (worker.go,
      runner.go): the worker registry, leases on tasks, recovery of expired
      leases, and one dry-run step of a worker.
    - [RunControl] (run_control.go): start, drain and cancel of a run.
    - [Schedule] (worker.go): the schedule preview over the worker pools.
    - [Config] (config.go) and [Permission] (store.go and the checks in
      read_only_verify.go, status_projection_apply.go, approved_artifact_write.go,
      managed_generated_write_apply.go): a project's configuration and the
      permissions it grants.
    - [FilePath] ([src/internal/artifact], artifact_path.go): where artifacts are
      written; [ArtifactIntegrity] (artifact_integrity.go): whether they are still
      what was recorded; [ArtifactArchive] (artifact_archive.go): what an archive
      run would do with them.
    - [Profile] ([src/internal/workflow/profile.go]), [Workflow], [Gates]
      (workflow.go): profiles, versions with their stages and items, gates,
      transition previews and approvals.
    - [Runner] (runner.go): preview runs, the queries on runs and artifacts, and
      reading an artifact back; [EnginePreview] (engine_preview.go,
      permission_doctor.go) and [ExecutionGate] (execution_approval_gate.go): what
      a real execution needs; [ReadOnlyVerify], [ApprovedWrite],
      [FixtureExecution] (read_only_verify.go, approved_artifact_write.go,
      fixture_execution.go): three approval-gated executions.
    - [ProjectFile], [FixtureWrite], [ManagedWrite] (fixture_project_write.go,
      managed_generated_write_apply.go): the two executions that write a file of
      the project, verify it and put the old one back.
    - [ArtifactMigration] (artifact_migration.go, runner.go): the locations of an
      artifact; copying it to another backend, activating the copy, completing
      the observation, and reading with fall-back.
    - [StatusFiles], [StatusShape], [StatusStore], [StatusExport]
      ([src/internal/status/exporter.go], store.go): the status file a project
      publishes, the shape it must have, how it is built and put in place, and the
      snapshots and projections that record it; [StatusProjection]
      and [StatusApply] (status_projection_authorization_preview.go, status_projection_apply_gate.go,
      status_projection_apply_packet.go, status_projection_apply.go): what the
      write needs, the gate, the packet that asks for it, and the command that
      writes, verifies, rolls back and records.

    Access control, [src/internal/auth], [src/internal/api], [src/internal/config]
    - [Auth] (token.go, store.go), [Rbac] (rbac.go), [Session] (session.go),
      [Oidc] (oidc.go): service tokens, roles and principals, browser sessions,
      login.
    - [AppConfig] (config.go): the configuration of the service.
    - [ApiAuth] (server.go, auth_handlers.go): the authentication middleware and
      the auth endpoints; [RateLimit] (security_middleware.go): the limiter and
      the security middleware.

    Migrations, [src/internal/migrate]
    - [Migrate] (migrate.go).

    [Demo] is a concrete store on which theorems are instantiated.

    ** What is proved

    - Commands one at a time.  [LeaseSpec], [RunOnceSpec], [WorkerSpec],
      [RunControlSpec], [WorkflowSpec] give the decision of each command as a
      function of the database and prove that the handler returns and stores
      exactly that, on every branch, errors included.  [Profile], [Config],
      [Permission], [Schedule] prove the checks equivalent to their declarative
      meaning.
    - Commands in any order.  [Steps], [ExecutionSteps], [WriteSteps] and
      [StatusSteps] break the commands into elementary changes; [System] and [WorkflowSystem] interleave them
      arbitrarily: at most one active lease per task, the life cycle of a lease,
      append-only history, isolation of projects, approvals only on ready
      previews of the same version, real attempts only in approved runs.
    - Executions.  [ExecutionSpec]: the gate passes exactly under its conditions, a
      verification reads one file below the project's root.  [WriteSpec]: a write
      set is read back as it was stored, a refused execution leaves nothing but
      its record, a write went through every guard, and whatever it comes to, the
      files of the project end as they were.  [ArtifactSpec]: labels are safe path
      components, and what was written is read back or an error.
      [RunOnceDrain]: a worker that runs until it finds no task stops.
    - Migrations of artifacts.  [MigrationSteps] gives the statements as functions
      on the table of locations; [ArtifactMigrationSpec] interleaves the commands
      with the rest of the store and proves the invariant and that no place or
      hash is lost; [MigrationLifecycle]: a copy was verified, an activation keeps
      the artifact readable, an observation lasts until its deadline, what is
      served has the recorded hash, and an artifact is moved only once.
    - Integrity and archiving.  [ArtifactIntegrity]: an artifact passes exactly when
      its content is fully recorded and served, and the report counts its
      artifacts.  [ArchiveSpec]: the decisions of a preview and their summary; a
      recorded preview changes no artifact and no file and is handed out again
      when it is repeated; what was written under the store passes the check.
    - Status projections.  [StatusWrites] follows the files through a write and the
      gate through its items; [StatusSpec]: whatever the apply command answers is
      true of the file, a status that was written was authorized by a matching
      packet, the gate passes exactly on such a packet, and a preview's own packet
      passes it once approved.  [StatusExportSpec]: what the exporter puts in place
      passes the validation of the apply command.
    - Repeated commands.  [Command] refines the ledger to a map from keys to
      requests; [Idempotency] states, as a class, what a keyed command promises
      and derives what a client may rely on when it retries.
    - Access control.  [AuthSpec], [AuthSystem], [AuthLifecycle]: a token or
      session is accepted exactly while it is alive, whatever auth commands run
      in between, and never after it is revoked; the rights of a user are exactly
      those of its live bindings.  [ApiSpec]: which requests reach a handler, that
      a login gives access and a logout ends it.  [AppConfig]: what a service
      that starts is guaranteed.  [RateLimit]: how many logins a window allows.
    - Migrations.  [MigrateSpec]: every migration is applied once and in order,
      a new database ends up fully verified, the release exception is never
      applied without its approval, and edited files are noticed.
    - Behaviours that look unintended are evaluated as examples next to the
      component ([release_as_active], [run_once_strands_task], [AuthFindings], and
      others).

    ** Conventions and assumptions

    - Transactions run one after the other; what the code reads before it begins
      a transaction is read inside it.  Locks held by other sessions
      ([FOR UPDATE SKIP LOCKED]) are part of the environment.  An identity column
      has no gaps.  A NULL BIGINT is 0, as the queries read it.  Foreign keys and
      CHECK constraints appear where an INSERT or UPDATE of the model can violate
      them.  PostgreSQL's refusal of NUL bytes and invalid UTF-8 is not modelled,
      nor is the overflow of an interval.
    - One reading of the clock per call.  Rows come in the order of ORDER BY and
      in table order without it; the order of a Go map does not matter where one
      is ranged over.
    - JSON numbers are integers ([float64] conversions are written out where a
      command reads back a number); [json.Marshal] of the values built here does
      not fail; [%q], [ToLower] and [EqualFold] are those of ASCII.
    - Parameters: randomness, the text of a [jsonb] value and of [now()],
      [time.Parse] in [ApiAuth], [time.ParseDuration], [net] and [net/url] parsing, AES-GCM, the OIDC server
      and its token verification, the execution of SQL files, S3, the file system,
      the YAML decoder, ProjectCutoverReadiness, the active configuration of a
      project, the resolution of symbolic links.
    - The writer the apply command is given is an argument; its theorems ask that
      it leaves every file but the status file alone ([WritesOnly]), which
      [exporter_writes_only] proves of the exporter, the writer of the service.
      [StatusOS] in [StatusFiles] answers for the file system, the statements and
      the order of a map; theorems name what they ask of it ([AbsoluteWd]: the
      working directory is absolute, [RangesKeys]: ranging over a map meets each
      of its keys).
    - Recursion follows the data.  The loops of the code range over lists and are
      structural; only [trim_front], [fields_loop], [json_escape] and the parser of
      [JsonText] take a fuel: the length of the string, which every step shortens,
      or twice that, since a value takes a step to enter and one for its content
      ([unmarshal_marshal] shows that it is enough for every text that was
      printed).
    - A write of a project's file is all or nothing only where the fault oracle of
      [ProjectFile] says so; its mode is not modelled, nor is the text the
      operating system adds to an error.

    ** Not modelled

    - Readiness, proofs and release gates; forwarding and cutover; the upsert of a
      project beyond its permissions.
    - HTTP handlers that copy store results into response structs, the ServeMux
      and the request timeout, the command line, observability, the database
      pool: glue around the calls modelled here.  Adapters, importer, doctor and
      backup walk directories.  The web console and the desktop shell are written
      in other languages. *)

From stdpp Require Import base list strings numbers.
From Stdlib Require Import ZArith Lia Ascii String Sorting.Sorted.

Declare Scope af_scope.
Delimit Scope af_scope with af.
Open Scope string_scope.
Open Scope list_scope.
Open Scope Z_scope.

(** ** Results

    A Go function that returns [(T, error)] is a [res E T]: [Err e] for a
    non-nil error, [Ok v] for the value. *)

Inductive res (E A : Type) : Type :=
| Ok (a : A)
| Err (e : E).
Arguments Ok {E A} a.
Arguments Err {E A} e.

Definition is_ok {E A} (r : res E A) : bool :=
  match r with Ok _ => true | Err _ => false end.

(** ** Boolean equality of strings, as the Go operator [==] on strings *)

Notation "a =s b" := (String.eqb a b) (at level 70) : af_scope.
Notation "a <>s b" := (negb (String.eqb a b)) (at level 70) : af_scope.
Open Scope af_scope.

(** ** Machine integers *)

(** Two's complement wrap-around of Go's [int64] (and of [int], which is
    64-bit on the supported platforms). *)
Definition wrap64 (z : Z) : Z := (z + 2 ^ 63) mod 2 ^ 64 - 2 ^ 63.
Definition in_int64 (z : Z) : Prop := - 2 ^ 63 <= z < 2 ^ 63.
Definition add64 (a b : Z) : Z := wrap64 (a + b).
Definition sub64 (a b : Z) : Z := wrap64 (a - b).

Lemma wrap64_id z : in_int64 z -> wrap64 z = z.
Proof. unfold in_int64, wrap64. intros H. rewrite Z.mod_small; lia. Qed.

Lemma wrap64_range z : in_int64 (wrap64 z).
Proof.
  unfold in_int64, wrap64.
  pose proof (Z.mod_pos_bound (z + 2 ^ 63) (2 ^ 64) ltac:(lia)). lia.
Qed.

(** PostgreSQL [INTEGER] columns hold 32-bit integers. *)
Definition fits_int4 (z : Z) : bool := (- 2 ^ 31 <=? z) && (z <? 2 ^ 31).

(** ** Tactics *)

(** Case analysis on the boolean tests the code is made of, turning each into
    the proposition it decides. *)
Ltac case_eqb :=
  match goal with
  | |- context [String.eqb ?a ?b] => destruct (String.eqb_spec a b)
  | |- context [Z.eqb ?a ?b] => destruct (Z.eqb_spec a b)
  | |- context [Z.leb ?a ?b] => destruct (Z.leb_spec a b)
  | |- context [Z.ltb ?a ?b] => destruct (Z.ltb_spec a b)
  end.

Ltac case_eqb_in H :=
  match type of H with
  | context [String.eqb ?a ?b] => destruct (String.eqb_spec a b)
  | context [Z.eqb ?a ?b] => destruct (Z.eqb_spec a b)
  | context [Z.leb ?a ?b] => destruct (Z.leb_spec a b)
  | context [Z.ltb ?a ?b] => destruct (Z.ltb_spec a b)
  end.

Ltac bool_prop :=
  repeat match goal with
  | H : _ && _ = true |- _ => apply andb_true_iff in H; destruct H
  | H : _ || _ = false |- _ => apply orb_false_iff in H; destruct H
  | H : negb _ = true |- _ => apply negb_true_iff in H
  | H : negb _ = false |- _ => apply negb_false_iff in H
  | H : String.eqb _ _ = true |- _ => apply String.eqb_eq in H
  | H : String.eqb _ _ = false |- _ => apply String.eqb_neq in H
  | H : Z.eqb _ _ = true |- _ => apply Z.eqb_eq in H
  | H : Z.eqb _ _ = false |- _ => apply Z.eqb_neq in H
  | H : Z.leb _ _ = true |- _ => apply Z.leb_le in H
  | H : Z.leb _ _ = false |- _ => apply Z.leb_gt in H
  | H : Z.ltb _ _ = true |- _ => apply Z.ltb_lt in H
  | H : Z.ltb _ _ = false |- _ => apply Z.ltb_ge in H
  end.

Create HintDb af discriminated.

(** ** Lists *)

Definition str_in (x : string) (l : list string) : bool := existsb (String.eqb x) l.

Lemma str_in_spec x l : str_in x l = true <-> In x l.
Proof.
  unfold str_in. rewrite existsb_exists. split.
  - intros (y & Hy & E). apply String.eqb_eq in E. by subst.
  - intros H. exists x. by rewrite String.eqb_refl.
Qed.

Lemma str_in_false x l : str_in x l = false <-> ~ In x l.
Proof.
  rewrite <- str_in_spec. destruct (str_in x l); split; congruence.
Qed.

(** The stable insertion sort that stands for [ORDER BY] and for
    [sort.SliceStable]: [before a b] says that [a] must precede [b] strictly. *)
Section StableSort.
Context {A : Type} (before : A -> A -> bool).

Fixpoint insert_stable (x : A) (l : list A) : list A :=
  match l with
  | [] => [x]
  | y :: ys => if before y x then y :: insert_stable x ys else x :: y :: ys
  end.

Fixpoint sort_stable (l : list A) : list A :=
  match l with
  | [] => []
  | x :: xs => insert_stable x (sort_stable xs)
  end.

Lemma insert_stable_perm x l : Permutation (x :: l) (insert_stable x l).
Proof.
  induction l as [|y ys IH]; [done|]. cbn. destruct (before y x); [|done].
  by rewrite <- IH, perm_swap.
Qed.

Lemma sort_stable_perm l : Permutation l (sort_stable l).
Proof.
  induction l as [|x xs IH]; [done|]. cbn.
  by rewrite <- insert_stable_perm, <- IH.
Qed.

Lemma sort_stable_In x l : In x (sort_stable l) <-> In x l.
Proof.
  rewrite <- !list_elem_of_In. by rewrite <- (sort_stable_perm l).
Qed.

Lemma sort_stable_length l : List.length (sort_stable l) = List.length l.
Proof. by rewrite <- (sort_stable_perm l). Qed.
End StableSort.

Section StableSortOrder.
Context {A : Type} (before : A -> A -> bool).
Hypothesis before_asym : forall a b, before a b = true -> before b a = false.
Hypothesis before_negtrans :
  forall a b c, before b a = false -> before c b = false -> before c a = false.

Let ordered (a b : A) : Prop := before b a = false.

Lemma insert_stable_sorted x l :
  StronglySorted ordered l -> StronglySorted ordered (insert_stable before x l).
Proof.
  induction l as [|y ys IH]; cbn; intros HS.
  - repeat constructor.
  - inversion HS as [|? ? HS' HF]; subst. destruct (before y x) eqn:E.
    + constructor; [by apply IH|].
      assert (P := insert_stable_perm before x ys).
      eapply Permutation_Forall; [exact P|]. constructor; [|done].
      by apply before_asym.
    + constructor; [by constructor|]. constructor; [done|].
      eapply List.Forall_impl; [|exact HF]. intros z Hz. unfold ordered in *.
      by eapply before_negtrans.
Qed.

Lemma sort_stable_sorted l : StronglySorted ordered (sort_stable before l).
Proof.
  induction l as [|x xs IH]; cbn; [constructor|]. by apply insert_stable_sorted.
Qed.
End StableSortOrder.

Lemma filter_perm {A} (p : A -> bool) l l' :
  Permutation l l' -> Permutation (List.filter p l) (List.filter p l').
Proof.
  induction 1 as [|x l l' _ IH|x y l|l l1 l2 _ IH1 _ IH2]; cbn.
  - done.
  - destruct (p x); [by apply perm_skip|done].
  - destruct (p x), (p y); try done. apply perm_swap.
  - by etransitivity.
Qed.

Lemma NoDup_snoc {A} (l : list A) x : List.NoDup l -> ~ In x l -> List.NoDup (l ++ [x]).
Proof.
  intros Hl Hx. apply List.NoDup_app; [done|apply List.NoDup_cons; [by intros []|apply List.NoDup_nil]|].
  intros y Hy [<-|[]]. done.
Qed.

Lemma Forall_In {A} (P : A -> Prop) l x : Forall P l -> In x l -> P x.
Proof. intros H Hx. rewrite List.Forall_forall in H. by apply H. Qed.
