(* ===== verification/GoString.v ===== *)
(** * Go strings

    A Go string is a sequence of bytes; here it is a [string] (a list of 8-bit
    [ascii]).  This file models what the sources use of the packages
    [strings], [strconv], [fmt] and [unicode/utf8]: [strings.TrimSpace],
    [strings.Join], [strings.HasPrefix], [strings.ToLower], slicing, the [%d]
    and [%q] verbs and the UTF-8 decoder that [encoding/json] relies on. *)

From stdpp Require Import base list strings numbers.
From Stdlib Require Import ZArith Lia Ascii String DecimalString DecimalZ DecimalPos.
From S2P Require Import Prelude.

(** ** Bytes *)

Definition byte_of (c : ascii) : Z := Z.of_N (N_of_ascii c).
Definition chr (z : Z) : ascii := ascii_of_N (Z.to_N z).

Definition bytes_of (s : string) : list Z := List.map byte_of (list_ascii_of_string s).
Definition str_of_bytes (l : list Z) : string := string_of_list_ascii (List.map chr l).

(** [len(s)] *)
Definition len (s : string) : Z := Z.of_nat (String.length s).

(** [strings.Join(elems, sep)] *)
Fixpoint strings_join (sep : string) (l : list string) : string :=
  match l with
  | [] => ""
  | [x] => x
  | x :: xs => x +:+ sep +:+ strings_join sep xs
  end.

(** [s[:n]] for [n <= len(s)] *)
Definition str_take (n : nat) (s : string) : string := String.substring 0 n s.

(** [strings.HasPrefix(s, p)] *)
Definition has_prefix (p s : string) : bool := String.prefix p s.

(** [strings.HasSuffix(s, p)] *)
Definition has_suffix (p s : string) : bool :=
  (String.length p <=? String.length s)%nat
  && (String.substring (String.length s - String.length p) (String.length p) s =s p).

(** ** [%d] *)

Definition fmt_d (z : Z) : string := NilZero.string_of_int (Z.to_int z).

(** ** White space

    [unicode.IsSpace] as the byte sequences that encode the space characters:
    the six ASCII ones, U+0085, U+00A0, U+1680, U+2000 to U+200A, U+2028,
    U+2029, U+202F, U+205F and U+3000. *)

Definition ascii_space (b : Z) : bool :=
  (b =? 32) || ((9 <=? b) && (b <=? 13)).

Definition space2 (a b : Z) : bool := (a =? 194) && ((b =? 133) || (b =? 160)).

Definition space3 (a b c : Z) : bool :=
  ((a =? 225) && (b =? 154) && (c =? 128))
  || ((a =? 226) && (b =? 128)
      && (((128 <=? c) && (c <=? 138)) || (c =? 168) || (c =? 169) || (c =? 175)))
  || ((a =? 226) && (b =? 129) && (c =? 159))
  || ((a =? 227) && (b =? 128) && (c =? 128)).

(** Width in bytes of the space character a byte sequence starts with, 0 if
    it starts with none. *)
Definition space_width (l : list Z) : nat :=
  match l with
  | a :: rest =>
      if ascii_space a then 1
      else match rest with
           | b :: rest' =>
               if space2 a b then 2
               else match rest' with
                    | c :: _ => if space3 a b c then 3 else 0
                    | [] => 0
                    end
           | [] => 0
           end
  | [] => 0
  end.

(** The same reading the sequence from its end: [l] is the reversed string. *)
Definition space_width_rev (l : list Z) : nat :=
  match l with
  | a :: rest =>
      if ascii_space a then 1
      else match rest with
           | b :: rest' =>
               if space2 b a then 2
               else match rest' with
                    | c :: _ => if space3 c b a then 3 else 0
                    | [] => 0
                    end
           | [] => 0
           end
  | [] => 0
  end.

(** Repeatedly drop what [width] finds at the front; the length of the list is
    enough fuel since every round drops at least one byte. *)
Fixpoint trim_front (width : list Z -> nat) (fuel : nat) (l : list Z) : list Z :=
  match fuel with
  | O => l
  | S fuel' =>
      match width l with
      | O => l
      | n => trim_front width fuel' (drop n l)
      end
  end.

Definition trim_left_bytes (l : list Z) : list Z :=
  trim_front space_width (List.length l) l.
Definition trim_right_bytes (l : list Z) : list Z :=
  rev (trim_front space_width_rev (List.length l) (rev l)).

(** [strings.TrimSpace(s)] *)
Definition trim_space (s : string) : string :=
  str_of_bytes (trim_right_bytes (trim_left_bytes (bytes_of s))).

(** [strings.ToLower] on ASCII letters; the sources apply it to backend names,
    risk levels and actor names compared against ASCII constants. *)
Definition lower_byte (c : ascii) : ascii :=
  let b := byte_of c in
  if (65 <=? b) && (b <=? 90) then chr (b + 32) else c.
Definition to_lower (s : string) : string :=
  string_of_list_ascii (List.map lower_byte (list_ascii_of_string s)).

(** ** UTF-8 decoding

    [utf8_width l] is the width of the valid rune at the front of [l], as
    [utf8.DecodeRune] reports it, or 0 when the bytes are not valid UTF-8. *)

Definition cont (b : Z) : bool := (128 <=? b) && (b <=? 191).

Definition utf8_width (l : list Z) : nat :=
  match l with
  | a :: rest =>
      if a <? 128 then 1
      else if (194 <=? a) && (a <=? 223) then
        match rest with b :: _ => if cont b then 2 else 0 | _ => 0 end
      else if (224 <=? a) && (a <=? 239) then
        match rest with
        | b :: c :: _ =>
            if cont b && cont c
               && negb ((a =? 224) && (b <? 160)) && negb ((a =? 237) && (159 <? b))
            then 3 else 0
        | _ => 0
        end
      else if (240 <=? a) && (a <=? 244) then
        match rest with
        | b :: c :: d :: _ =>
            if cont b && cont c && cont d
               && negb ((a =? 240) && (b <? 144)) && negb ((a =? 244) && (143 <? b))
            then 4 else 0
        | _ => 0
        end
      else 0
  | [] => 0
  end.

(** ** [%q]

    [strconv.Quote] on strings whose non-ASCII runes are printable: quotes and
    backslashes are escaped, control characters are written as Go escapes, and
    everything else is copied. *)

Definition hex_digit (n : Z) : ascii :=
  chr (if n <? 10 then 48 + n else 87 + n).

Definition quote_byte (c : ascii) : string :=
  let b := byte_of c in
  if b =? 34 then String (chr 92) (String (chr 34) "")
  else if b =? 92 then String (chr 92) (String (chr 92) "")
  else if b =? 7 then "\a" else if b =? 8 then "\b" else if b =? 12 then "\f"
  else if b =? 10 then "\n" else if b =? 13 then "\r" else if b =? 9 then "\t"
  else if b =? 11 then "\v"
  else if (b <? 32) || (b =? 127)
       then "\x" +:+ String (hex_digit (b / 16)) (String (hex_digit (b mod 16)) "")
  else String c "".

Definition fmt_q (s : string) : string :=
  String (chr 34)
    (strings_join "" (List.map quote_byte (list_ascii_of_string s)) +:+ String (chr 34) "").

(** ** Facts *)

Lemma byte_of_range c : 0 <= byte_of c < 256.
Proof. unfold byte_of. pose proof (N_ascii_bounded c). lia. Qed.

Lemma chr_byte_of c : chr (byte_of c) = c.
Proof. unfold chr, byte_of. by rewrite N2Z.id, ascii_N_embedding. Qed.

Lemma byte_of_chr z : 0 <= z < 256 -> byte_of (chr z) = z.
Proof. intros H. unfold chr, byte_of. rewrite N_ascii_embedding; lia. Qed.

Lemma str_of_bytes_of s : str_of_bytes (bytes_of s) = s.
Proof.
  unfold str_of_bytes, bytes_of. rewrite map_map.
  rewrite (map_ext _ id) by (intros; apply chr_byte_of). rewrite map_id.
  apply string_of_list_ascii_of_string.
Qed.

Lemma bytes_of_str l :
  Forall (fun b => 0 <= b < 256) l -> bytes_of (str_of_bytes l) = l.
Proof.
  intros H. unfold str_of_bytes, bytes_of.
  rewrite list_ascii_of_string_of_list_ascii, map_map.
  induction H as [|b l Hb _ IH]; [done|]. cbn. by rewrite byte_of_chr, IH.
Qed.

Lemma bytes_of_range s : Forall (fun b => 0 <= b < 256) (bytes_of s).
Proof.
  unfold bytes_of. induction (list_ascii_of_string s); cbn; constructor; auto.
  apply byte_of_range.
Qed.

(** *** Trimming *)

Lemma space_width_le l : (space_width l <= List.length l)%nat.
Proof.
  unfold space_width. destruct l as [|a [|b [|c l]]]; cbn; repeat case_match; lia.
Qed.

Lemma space_width_rev_le l : (space_width_rev l <= List.length l)%nat.
Proof.
  unfold space_width_rev. destruct l as [|a [|b [|c l]]]; cbn; repeat case_match; lia.
Qed.

Section TrimFront.
Context (width : list Z -> nat).

Lemma trim_front_clean fuel l :
  (List.length l <= fuel)%nat -> width [] = 0%nat ->
  width (trim_front width fuel l) = 0%nat.
Proof.
  revert l. induction fuel as [|fuel IH]; cbn; intros l Hl H0.
  - destruct l; [done|cbn in Hl; lia].
  - destruct (width l) eqn:E; [done|]. apply IH; [|done].
    destruct l; [cbn; lia|]. rewrite length_drop. cbn in *. lia.
Qed.

Lemma trim_front_id fuel l : width l = 0%nat -> trim_front width fuel l = l.
Proof. destruct fuel; [done|]. cbn. by intros ->. Qed.

Lemma trim_front_suffix fuel l : exists p, l = p ++ trim_front width fuel l.
Proof.
  revert l. induction fuel as [|fuel IH]; intros l; cbn; [by exists []|].
  destruct (width l) as [|n] eqn:E; [by exists []|].
  destruct (IH (drop (S n) l)) as [p Hp].
  exists (take (S n) l ++ p). rewrite <- app_assoc, <- Hp. by rewrite take_drop.
Qed.
End TrimFront.

(** A nonempty space found at the front of a prefix is found at the front of
    the whole. *)
Lemma space_width_app l l' : space_width l <> 0%nat -> space_width (l ++ l') <> 0%nat.
Proof.
  unfold space_width. destruct l as [|a [|b [|c l]]]; cbn; repeat case_match; try done; lia.
Qed.

Lemma trim_right_bytes_prefix l : exists p, l = trim_right_bytes l ++ p.
Proof.
  unfold trim_right_bytes.
  destruct (trim_front_suffix space_width_rev (List.length l) (rev l)) as [p Hp].
  exists (rev p). rewrite <- rev_app_distr, <- Hp. by rewrite rev_involutive.
Qed.

Lemma trim_left_bytes_suffix l : exists p, l = p ++ trim_left_bytes l.
Proof. apply trim_front_suffix. Qed.

Lemma trim_left_bytes_clean l : space_width (trim_left_bytes l) = 0%nat.
Proof. by apply trim_front_clean. Qed.

Lemma trim_right_bytes_clean l : space_width_rev (rev (trim_right_bytes l)) = 0%nat.
Proof.
  unfold trim_right_bytes. rewrite rev_involutive.
  apply trim_front_clean; [by rewrite length_rev|done].
Qed.

Definition trim_bytes (l : list Z) : list Z := trim_right_bytes (trim_left_bytes l).

Lemma trim_bytes_front_clean l : space_width (trim_bytes l) = 0%nat.
Proof.
  unfold trim_bytes. destruct (trim_right_bytes_prefix (trim_left_bytes l)) as [p Hp].
  destruct (decide (space_width (trim_right_bytes (trim_left_bytes l)) = 0%nat)); [done|].
  exfalso. apply (space_width_app _ p) in n. rewrite <- Hp in n.
  by rewrite trim_left_bytes_clean in n.
Qed.

Lemma trim_bytes_id l :
  space_width l = 0%nat -> space_width_rev (rev l) = 0%nat -> trim_bytes l = l.
Proof.
  intros H1 H2. unfold trim_bytes, trim_left_bytes.
  rewrite (trim_front_id space_width) by done.
  unfold trim_right_bytes. rewrite trim_front_id by done. by rewrite rev_involutive.
Qed.

Lemma trim_bytes_idemp l : trim_bytes (trim_bytes l) = trim_bytes l.
Proof.
  apply trim_bytes_id; [apply trim_bytes_front_clean|apply trim_right_bytes_clean].
Qed.

Lemma trim_bytes_range l :
  Forall (fun b => 0 <= b < 256) l -> Forall (fun b => 0 <= b < 256) (trim_bytes l).
Proof.
  intros H. unfold trim_bytes.
  destruct (trim_left_bytes_suffix l) as [p Hp].
  destruct (trim_right_bytes_prefix (trim_left_bytes l)) as [q Hq].
  rewrite Hp in H. apply Forall_app in H as [_ H]. rewrite Hq in H.
  by apply Forall_app in H as [H _].
Qed.

Lemma bytes_of_trim_space s : bytes_of (trim_space s) = trim_bytes (bytes_of s).
Proof. apply bytes_of_str, trim_bytes_range, bytes_of_range. Qed.

Lemma trim_space_idemp s : trim_space (trim_space s) = trim_space s.
Proof.
  unfold trim_space at 1. fold (trim_bytes (bytes_of (trim_space s))).
  by rewrite bytes_of_trim_space, trim_bytes_idemp.
Qed.

(** A string with no space character at either end is a fixed point. *)
Lemma trim_space_fixpoint s :
  trim_space s = s <->
  space_width (bytes_of s) = 0%nat /\ space_width_rev (rev (bytes_of s)) = 0%nat.
Proof.
  split.
  - intros E. rewrite <- E, bytes_of_trim_space. split.
    + apply trim_bytes_front_clean.
    + apply trim_right_bytes_clean.
  - intros [H1 H2]. unfold trim_space. fold (trim_bytes (bytes_of s)).
    rewrite trim_bytes_id by done. apply str_of_bytes_of.
Qed.

(** A trimmed argument with a default: [x = TrimSpace(x); if x == "" { x = d }]. *)
Definition trim_default (d s : string) : string :=
  let t := trim_space s in if t =s "" then d else t.

Lemma trim_default_nonempty d s : d <> "" -> trim_default d s <> "".
Proof. unfold trim_default. case_eqb; auto. Qed.

Lemma trim_default_idemp d s :
  trim_space d = d -> trim_default d (trim_default d s) = trim_default d s.
Proof.
  intros Hd. unfold trim_default. destruct (String.eqb_spec (trim_space s) "").
  - rewrite Hd. by case_eqb.
  - rewrite trim_space_idemp. by case_eqb.
Qed.

#[export] Hint Resolve trim_default_nonempty : af.

Lemma to_int_nonnil z : Z.to_int z <> Decimal.Pos Decimal.Nil /\ Z.to_int z <> Decimal.Neg Decimal.Nil.
Proof.
  destruct z as [|p|p]; cbn; split; try done; injection;
    apply DecimalPos.Unsigned.to_uint_nonnil.
Qed.

(** [%d] is injective *)
Lemma fmt_d_inj a b : fmt_d a = fmt_d b -> a = b.
Proof.
  unfold fmt_d. intros H. apply (f_equal NilZero.int_of_string) in H.
  pose proof (to_int_nonnil a) as []. pose proof (to_int_nonnil b) as [].
  rewrite !NilZero.isi in H by done. injection H as H.
  by rewrite <- (DecimalZ.of_to a), <- (DecimalZ.of_to b), H.
Qed.

Example trim_space_ex : trim_space "  worker-1 
" = "worker-1".
Proof. reflexivity. Qed.

Example fmt_d_ex : (fmt_d 0, fmt_d (-17), fmt_d 42) = ("0", "-17", "42").
Proof. reflexivity. Qed.
