(* ===== verification/Sha256.v ===== *)
(** * SHA-256 and hexadecimal encoding

    The sources hash request payloads, artifact bytes, tokens and sessions
    with [crypto/sha256] and print digests with [encoding/hex].  This file
    defines the function itself (FIPS 180-4) on byte lists, so that hashes and
    the idempotency keys derived from them evaluate. *)

From stdpp Require Import base list strings numbers.
From Stdlib Require Import ZArith Lia Ascii String.
From S2P Require Import Prelude GoString.

Definition w32 (z : Z) : Z := Z.land z 0xffffffff.
Definition add32 (a b : Z) : Z := w32 (a + b).
Definition rotr (n x : Z) : Z :=
  Z.lor (Z.shiftr x n) (w32 (Z.shiftl x (32 - n))).

Definition sha_ch (x y z : Z) : Z := Z.lxor (Z.land x y) (Z.land (Z.lxor x 0xffffffff) z).
Definition sha_maj (x y z : Z) : Z :=
  Z.lxor (Z.lxor (Z.land x y) (Z.land x z)) (Z.land y z).
Definition bsig0 (x : Z) : Z := Z.lxor (Z.lxor (rotr 2 x) (rotr 13 x)) (rotr 22 x).
Definition bsig1 (x : Z) : Z := Z.lxor (Z.lxor (rotr 6 x) (rotr 11 x)) (rotr 25 x).
Definition ssig0 (x : Z) : Z := Z.lxor (Z.lxor (rotr 7 x) (rotr 18 x)) (Z.shiftr x 3).
Definition ssig1 (x : Z) : Z := Z.lxor (Z.lxor (rotr 17 x) (rotr 19 x)) (Z.shiftr x 10).

(** The constants are defined as the standard defines them: the first 32 bits
    of the fractional parts of the cube roots of the first 64 primes, and of
    the square roots of the first 8. *)
Definition primes_below (n : nat) : list Z :=
  List.filter (fun p => forallb (fun d => negb (p mod d =? 0))
                          (List.map Z.of_nat (seq 2 (Z.to_nat p - 2))))
    (List.map Z.of_nat (seq 2 (n - 2))).

(** The largest [r] with [r ^ 3 <= n], bit by bit from below [2 ^ bits] *)
Fixpoint cube_root (bits : nat) (r n : Z) : Z :=
  match bits with
  | O => r
  | S b => let r' := r + 2 ^ Z.of_nat b in
           cube_root b (if r' * r' * r' <=? n then r' else r) n
  end.

Definition sha_k : list Z :=
  Eval vm_compute in
    List.map (fun p => w32 (cube_root 36 0 (p * 2 ^ 96))) (primes_below 312).

Record sha_state := ShaState {
  sh_a : Z; sh_b : Z; sh_c : Z; sh_d : Z; sh_e : Z; sh_f : Z; sh_g : Z; sh_h : Z }.

Definition sha_init : sha_state :=
  Eval vm_compute in
    match List.map (fun p => w32 (Z.sqrt (p * 2 ^ 64))) (primes_below 20) with
    | [a; b; c; d; e; f; g; h] => ShaState a b c d e f g h
    | _ => ShaState 0 0 0 0 0 0 0 0
    end.

Definition sha_round (s : sha_state) (k w : Z) : sha_state :=
  let t1 := w32 (sh_h s + bsig1 (sh_e s) + sha_ch (sh_e s) (sh_f s) (sh_g s) + k + w) in
  let t2 := w32 (bsig0 (sh_a s) + sha_maj (sh_a s) (sh_b s) (sh_c s)) in
  ShaState (add32 t1 t2) (sh_a s) (sh_b s) (sh_c s)
           (add32 (sh_d s) t1) (sh_e s) (sh_f s) (sh_g s).

(** The 64 rounds over a sliding window of 16 message words: round [i] uses
    word [i] and appends word [i + 16] of the message schedule. *)
Fixpoint sha_rounds (ks ws : list Z) (s : sha_state) : sha_state :=
  match ks, ws with
  | k :: ks', w :: ws' =>
      let next := w32 (ssig1 (nth 13 ws' 0) + nth 8 ws' 0 + ssig0 (nth 0 ws' 0) + w) in
      sha_rounds ks' (ws' ++ [next]) (sha_round s k w)
  | _, _ => s
  end.

Definition sha_block (s : sha_state) (ws : list Z) : sha_state :=
  let r := sha_rounds sha_k ws s in
  ShaState (add32 (sh_a s) (sh_a r)) (add32 (sh_b s) (sh_b r))
           (add32 (sh_c s) (sh_c r)) (add32 (sh_d s) (sh_d r))
           (add32 (sh_e s) (sh_e r)) (add32 (sh_f s) (sh_f r))
           (add32 (sh_g s) (sh_g r)) (add32 (sh_h s) (sh_h r)).

Definition be32 (a b c d : Z) : Z := ((a * 256 + b) * 256 + c) * 256 + d.

Fixpoint words_of_bytes (l : list Z) : list Z :=
  match l with
  | a :: b :: c :: d :: l' => be32 a b c d :: words_of_bytes l'
  | _ => []
  end.

Fixpoint be_bytes (n : nat) (z : Z) : list Z :=
  match n with
  | O => []
  | S n' => be_bytes n' (z / 256) ++ [z mod 256]
  end.

Definition sha_pad (l : list Z) : list Z :=
  let n := Z.of_nat (List.length l) in
  l ++ [128] ++ repeat 0 (Z.to_nat ((55 - n) mod 64)) ++ be_bytes 8 (8 * n).

Fixpoint sha_blocks (fuel : nat) (s : sha_state) (ws : list Z) : sha_state :=
  match fuel, ws with
  | S fuel', _ :: _ => sha_blocks fuel' (sha_block s (take 16 ws)) (drop 16 ws)
  | _, _ => s
  end.

(** [sha256.Sum256] on a byte list; the number of words is more than the
    number of blocks, so the fuel never runs out. *)
Definition sha256_bytes (l : list Z) : list Z :=
  let ws := words_of_bytes (sha_pad l) in
  let s := sha_blocks (List.length ws) sha_init ws in
  be_bytes 4 (sh_a s) ++ be_bytes 4 (sh_b s) ++ be_bytes 4 (sh_c s) ++ be_bytes 4 (sh_d s)
  ++ be_bytes 4 (sh_e s) ++ be_bytes 4 (sh_f s) ++ be_bytes 4 (sh_g s) ++ be_bytes 4 (sh_h s).

(** [hex.EncodeToString] *)
Definition hex_encode (l : list Z) : string :=
  string_of_list_ascii (flat_map (fun b => [hex_digit (b / 16); hex_digit (b mod 16)]) l).

(** [sum := sha256.Sum256([]byte(s)); hex.EncodeToString(sum[:])] *)
Definition sha256_hex (s : string) : string := hex_encode (sha256_bytes (bytes_of s)).

Lemma be_bytes_length n z : List.length (be_bytes n z) = n.
Proof. revert z. induction n as [|n IH]; intros z; [done|]. cbn. rewrite length_app, IH. cbn. lia. Qed.

Lemma sha256_bytes_length l : List.length (sha256_bytes l) = 32%nat.
Proof. unfold sha256_bytes. by rewrite !length_app, !be_bytes_length. Qed.

Lemma string_of_list_ascii_length l : String.length (string_of_list_ascii l) = List.length l.
Proof. induction l; cbn; congruence. Qed.

Lemma hex_encode_length l : String.length (hex_encode l) = (2 * List.length l)%nat.
Proof.
  unfold hex_encode. rewrite string_of_list_ascii_length.
  induction l as [|b l IH]; [done|]. cbn [flat_map]. rewrite length_app, IH. cbn. lia.
Qed.

(** Every digest printed by the sources has 64 hexadecimal digits. *)
Lemma sha256_hex_length s : String.length (sha256_hex s) = 64%nat.
Proof. unfold sha256_hex. by rewrite hex_encode_length, sha256_bytes_length. Qed.

Lemma sha256_hex_nonempty s : sha256_hex s <> "".
Proof. intros E. pose proof (sha256_hex_length s) as H. by rewrite E in H. Qed.

Example sha256_abc :
  sha256_hex "abc" = "ba7816bf8f01cfea414140de5dae2223b00361a396177a9cb410ff61f20015ad".
Proof. vm_compute. reflexivity. Qed.

Example sha256_two_blocks :
  sha256_hex "abcdbcdecdefdefgefghfghighijhijkijkljklmklmnlmnomnopnopq"
  = "248d6a61d20638b8e5c026930c3e6039a33ce45964ff2167f6ecedd419db06c1".
Proof. vm_compute. reflexivity. Qed.
