(* ===== verification/Json.v ===== *)
(** * JSON values

    Go values of type [any] and [map[string]any] as the sources build them,
    store them in [jsonb] columns and read them back.  A map is an association
    list in increasing key order ([mset] keeps it so), which is the order
    [encoding/json] marshals in; Go maps have no order of their own.

    [json_decode] is what [json.Unmarshal] into [any] yields for a stored
    value: every number becomes a [float64].  Numbers are the integral ones
    the sources produce; a [JFloat] carries the integer value of the float.

    [json.Marshal] cannot fail on these values, so the functions that return
    [(string, error)] only because of it are total here. *)

From stdpp Require Import base list strings numbers.
From Stdlib Require Import ZArith Lia Ascii String Sorting.Sorted.
From S2P Require Import Prelude GoString.

Inductive json : Type :=
| JNull
| JBool (b : bool)
| JInt (z : Z)
| JFloat (z : Z)
| JStr (s : string)
| JArr (l : list json)
| JObj (m : list (string * json)).

Abbreviation jmap := (list (string * json)).

(** ** Maps *)

(** [m[k]], with presence *)
Fixpoint mget (k : string) (m : jmap) : option json :=
  match m with
  | [] => None
  | (k', v) :: m' => if k =s k' then Some v else mget k m'
  end.

(** [m[k] = v] *)
Fixpoint mset (k : string) (v : json) (m : jmap) : jmap :=
  match m with
  | [] => [(k, v)]
  | (k', v') :: m' =>
      if k =s k' then (k, v) :: m'
      else if String.ltb k k' then (k, v) :: (k', v') :: m'
      else (k', v') :: mset k v m'
  end.

(** A map literal, and the loop that copies the entries of one map over
    another; also PostgreSQL's [jsonb || jsonb] on objects. *)
Definition mset_all (kvs : jmap) (m : jmap) : jmap :=
  fold_left (fun acc kv => mset (fst kv) (snd kv) acc) kvs m.
Definition mk (kvs : jmap) : jmap := mset_all kvs [].
Definition jsonb_concat (a b : jmap) : jmap := mset_all b a.

Definition jstrs (l : list string) : json := JArr (List.map JStr l).
Definition jints (l : list Z) : json := JArr (List.map JInt l).

(** A nil Go slice marshals as [null], an empty one as an empty array. *)
Definition jstrs_nil (l : list string) : json :=
  match l with [] => JNull | _ => jstrs l end.

(** ** Marshalling *)

Definition unicode_escape (b : Z) : string :=
  "\u00" +:+ String (hex_digit (b / 16)) (String (hex_digit (b mod 16)) "").

(** The JSON text of one byte of an ASCII character, HTML escaping included. *)
Definition json_ascii (b : Z) : string :=
  if b =? 34 then String (chr 92) (String (chr 34) "")
  else if b =? 92 then String (chr 92) (String (chr 92) "")
  else if b =? 8 then "\b" else if b =? 12 then "\f"
  else if b =? 10 then "\n" else if b =? 13 then "\r" else if b =? 9 then "\t"
  else if (b <? 32) || (b =? 60) || (b =? 62) || (b =? 38) then unicode_escape b
  else String (chr b) "".

(** The JSON text of a rune that is not ASCII: the two line separators are
    escaped, everything else is copied. *)
Definition escape_rune (r : list Z) : string :=
  match r with
  | [226; 128; 168] => "\u2028"
  | [226; 128; 169] => "\u2029"
  | r => str_of_bytes r
  end.

Fixpoint json_escape (fuel : nat) (l : list Z) : string :=
  match fuel, l with
  | S fuel', b :: rest =>
      if b <? 128 then json_ascii b +:+ json_escape fuel' rest
      else match utf8_width l with
           | O => "\ufffd" +:+ json_escape fuel' rest
           | n => escape_rune (take n l) +:+ json_escape fuel' (drop n l)
           end
  | _, _ => ""
  end.

Definition dquote : string := String (chr 34) "".

Definition json_string (s : string) : string :=
  dquote +:+ json_escape (String.length s) (bytes_of s) +:+ dquote.

(** [json.Marshal] *)
Fixpoint marshal (j : json) : string :=
  match j with
  | JNull => "null"
  | JBool true => "true"
  | JBool false => "false"
  | JInt z | JFloat z => fmt_d z
  | JStr s => json_string s
  | JArr l => "[" +:+ strings_join "," (List.map marshal l) +:+ "]"
  | JObj m =>
      "{" +:+ strings_join ","
                (List.map (fun kv => json_string (fst kv) +:+ ":" +:+ marshal (snd kv)) m)
      +:+ "}"
  end.

Definition newline : string := String (chr 10) "".

Fixpoint spaces (n : nat) : string :=
  match n with O => "" | S n' => " " +:+ spaces n' end.

(** [json.MarshalIndent(v, "", "  ")] *)
Fixpoint marshal_indent_at (depth : nat) (j : json) : string :=
  let pad := newline +:+ spaces (2 * S depth) in
  let close := newline +:+ spaces (2 * depth) in
  match j with
  | JArr [] => "[]"
  | JObj [] => "{}"
  | JArr l =>
      "[" +:+ pad +:+ strings_join ("," +:+ pad) (List.map (marshal_indent_at (S depth)) l)
      +:+ close +:+ "]"
  | JObj m =>
      "{" +:+ pad
      +:+ strings_join ("," +:+ pad)
            (List.map (fun kv => json_string (fst kv) +:+ ": "
                                 +:+ marshal_indent_at (S depth) (snd kv)) m)
      +:+ close +:+ "}"
  | j => marshal j
  end.
Definition marshal_indent (j : json) : string := marshal_indent_at 0 j.

(** ** Unmarshalling *)

(** The nearest [float64] of an integer, ties to even. *)
Definition float64_of_Z (z : Z) : Z :=
  let a := Z.abs z in
  if a <? 2 ^ 53 then z
  else
    let e := Z.log2 a - 52 in
    let q := Z.shiftr a e in
    let r := a - Z.shiftl q e in
    let half := Z.shiftl 1 (e - 1) in
    let q' := if (half <? r) || ((r =? half) && Z.odd q) then q + 1 else q in
    Z.sgn z * Z.shiftl q' e.

(** [int64(f)] for a float with an integral value; Go leaves an out-of-range
    conversion to the implementation, amd64 yields the minimum. *)
Definition int64_of_float (z : Z) : Z :=
  if (- 2 ^ 63 <=? z) && (z <? 2 ^ 63) then z else - 2 ^ 63.

Fixpoint json_decode (j : json) : json :=
  match j with
  | JInt z => JFloat (float64_of_Z z)
  | JArr l => JArr (List.map json_decode l)
  | JObj m => JObj (List.map (fun kv => (fst kv, json_decode (snd kv))) m)
  | j => j
  end.
Definition jmap_decode (m : jmap) : jmap :=
  List.map (fun kv => (fst kv, json_decode (snd kv))) m.

(** ** Facts *)

Lemma mget_mset_eq k v m : mget k (mset k v m) = Some v.
Proof.
  induction m as [|[k' v'] m IH]; cbn; [by rewrite String.eqb_refl|].
  destruct (String.eqb_spec k k'); cbn; [by rewrite String.eqb_refl|].
  destruct (String.ltb k k'); cbn; [by rewrite String.eqb_refl|].
  by rewrite (proj2 (String.eqb_neq k k')).
Qed.

Lemma mget_mset_ne k k' v m : k <> k' -> mget k' (mset k v m) = mget k' m.
Proof.
  intros Hne. assert (Hb : (k' =s k) = false) by by apply String.eqb_neq.
  induction m as [|[k0 v0] m IH]; cbn; [by rewrite Hb|].
  destruct (String.eqb_spec k k0); cbn; [subst; by rewrite Hb|].
  destruct (String.ltb k k0); cbn; [by rewrite Hb|]. by case_match.
Qed.

Lemma mget_mset k k' v m :
  mget k' (mset k v m) = if k =s k' then Some v else mget k' m.
Proof.
  destruct (String.eqb_spec k k') as [->|].
  - apply mget_mset_eq.
  - by apply mget_mset_ne.
Qed.

(** Merging: the right map wins, the left map shows through elsewhere. *)
Lemma mget_mset_all_notin k kvs m :
  ~ In k (List.map fst kvs) -> mget k (mset_all kvs m) = mget k m.
Proof.
  unfold mset_all. revert m. induction kvs as [|[k' v'] kvs IH]; cbn; intros m Hn; [done|].
  rewrite IH by tauto. apply mget_mset_ne. tauto.
Qed.

Lemma mget_mset_all_in k v kvs m :
  List.NoDup (List.map fst kvs) -> In (k, v) kvs -> mget k (mset_all kvs m) = Some v.
Proof.
  unfold mset_all. revert m. induction kvs as [|[k' v'] kvs IH]; cbn; intros m Hnd Hin; [done|].
  inversion Hnd as [|? ? Hni Hnd']; subst. destruct Hin as [E|Hin].
  - injection E as -> ->. rewrite (mget_mset_all_notin k kvs) by done. apply mget_mset_eq.
  - by apply IH.
Qed.

(** *** Key order *)

Definition keys (m : jmap) : list string := List.map fst m.
Definition slt (a b : string) : Prop := String.ltb a b = true.
Definition key_sorted (m : jmap) : Prop := Sorted slt (keys m).

Lemma string_compare_trans a b c :
  String.compare a b = Lt -> String.compare b c = Lt -> String.compare a c = Lt.
Proof.
  revert b c. induction a as [|x a IH]; intros [|y b] [|z c]; cbn; try done.
  unfold Ascii.compare.
  destruct (N.compare_spec (N_of_ascii x) (N_of_ascii y)) as [E1|E1|E1];
  destruct (N.compare_spec (N_of_ascii y) (N_of_ascii z)) as [E2|E2|E2]; try done;
  destruct (N.compare_spec (N_of_ascii x) (N_of_ascii z)) as [E3|E3|E3]; try lia; try done.
  apply IH.
Qed.

Lemma slt_trans a b c : slt a b -> slt b c -> slt a c.
Proof.
  unfold slt, String.ltb. intros H1 H2.
  destruct (String.compare a b) eqn:E1; try done.
  destruct (String.compare b c) eqn:E2; try done.
  by rewrite (string_compare_trans a b c).
Qed.

Lemma slt_total a b : a <> b -> String.ltb a b = false -> slt b a.
Proof.
  unfold slt, String.ltb. intros Hne H. rewrite String.compare_antisym.
  destruct (String.compare a b) eqn:E; try done.
  by apply String.compare_eq_iff in E.
Qed.

Lemma ltb_asym a b : String.ltb a b = true -> String.ltb b a = false.
Proof.
  unfold String.ltb. rewrite (String.compare_antisym a b).
  by destruct (String.compare b a).
Qed.

Lemma ltb_negtrans a b c :
  String.ltb b a = false -> String.ltb c b = false -> String.ltb c a = false.
Proof.
  intros H1 H2. destruct (String.ltb c a) eqn:E; [|done]. exfalso.
  destruct (string_dec b c) as [->|Hbc]; [congruence|].
  pose proof (slt_total c b (not_eq_sym Hbc) H2) as Hbc'.
  pose proof (slt_trans b c a Hbc' E) as Hba. unfold slt in Hba. congruence.
Qed.

Lemma mset_keys_hd k v m a :
  slt a k -> HdRel slt a (keys m) -> HdRel slt a (keys (mset k v m)).
Proof.
  intros Hk Hd. destruct m as [|[k' v'] m]; cbn; [by constructor|].
  inversion Hd; subst. destruct (String.eqb_spec k k'); cbn; [by constructor|].
  destruct (String.ltb k k'); cbn; by constructor.
Qed.

(** [mset] keeps maps in key order, whatever the order of the writes. *)
Lemma mset_key_sorted k v m : key_sorted m -> key_sorted (mset k v m).
Proof.
  unfold key_sorted. induction m as [|[k' v'] m IH]; cbn; intros HS; [by repeat constructor|].
  inversion HS as [|? ? HS' Hd]; subst.
  destruct (String.eqb_spec k k'); cbn; [by subst; constructor|].
  destruct (String.ltb k k') eqn:E; cbn.
  - constructor; [by constructor|]. by constructor.
  - constructor; [by apply IH|]. apply mset_keys_hd; [|done]. by apply slt_total.
Qed.

Lemma mset_all_key_sorted kvs m : key_sorted m -> key_sorted (mset_all kvs m).
Proof.
  unfold mset_all. revert m. induction kvs as [|kv kvs IH]; cbn; intros m H; [done|].
  apply IH. by apply mset_key_sorted.
Qed.

Lemma mk_key_sorted kvs : key_sorted (mk kvs).
Proof. apply mset_all_key_sorted. constructor. Qed.

#[export] Hint Resolve mset_key_sorted mset_all_key_sorted mk_key_sorted : af.

(** *** Decoding *)

Lemma mget_decode k m : mget k (jmap_decode m) = json_decode <$> mget k m.
Proof.
  induction m as [|[k' v] m IH]; cbn; [done|]. by destruct (String.eqb k k').
Qed.

Lemma float64_of_Z_small z : Z.abs z < 2 ^ 53 -> float64_of_Z z = z.
Proof. intros H. unfold float64_of_Z. by rewrite (proj2 (Z.ltb_lt _ _)). Qed.

Example marshal_ex :
  marshal (JObj (mk [("b", JInt 2); ("a", jstrs ["x<y"; "z"])]))
  = "{" +:+ dquote +:+ "a" +:+ dquote +:+ ":[" +:+ dquote +:+ "x\u003cy" +:+ dquote +:+ ","
    +:+ dquote +:+ "z" +:+ dquote +:+ "]," +:+ dquote +:+ "b" +:+ dquote +:+ ":2}".
Proof. reflexivity. Qed.

Example float64_rounds : float64_of_Z (2 ^ 53 + 1) = 2 ^ 53.
Proof. reflexivity. Qed.
