(* ===== verification/JsonText.v ===== *)
(** * Reading JSON text

    [json.Unmarshal] into a struct, as the sources use it to read back an
    artifact they wrote with [json.MarshalIndent]: the scanner's grammar, the
    decoding of string literals (escapes, surrogate pairs, the replacement of
    invalid UTF-8), the nesting limit, and the assignment of members to
    fields: by exact name, else by folded name, the last member winning, [null]
    leaving the field alone and a value of another type being an error.

    [unmarshal_marshal] states what is read back from a marshalled value; a
    string comes back unchanged exactly when it is valid UTF-8. *)

From stdpp Require Import base list strings numbers.
From Stdlib Require Import ZArith Lia Ascii String Decimal DecimalString DecimalZ.
From S2P Require Import Prelude GoString Json.

(** ** Text

    The values a text denotes; a number keeps its literal. *)

Inductive jtext : Type :=
| TNull
| TBool (b : bool)
| TNum (literal : string)
| TStr (s : string)
| TArr (l : list jtext)
| TObj (m : list (string * jtext)).

Definition space_byte (b : Z) : bool := (b =? 32) || (b =? 9) || (b =? 10) || (b =? 13).

Fixpoint skip_space (l : list Z) : list Z :=
  match l with
  | b :: rest => if space_byte b then skip_space rest else l
  | [] => []
  end.

(** *** String literals *)

Definition hex_byte (b : Z) : option Z :=
  if (48 <=? b) && (b <=? 57) then Some (b - 48)
  else if (97 <=? b) && (b <=? 102) then Some (b - 87)
  else if (65 <=? b) && (b <=? 70) then Some (b - 55)
  else None.

(** [getu4], after the backslash and the [u] *)
Definition hex4 (l : list Z) : option (Z * list Z) :=
  match l with
  | a :: b :: c :: d :: rest =>
      match hex_byte a, hex_byte b, hex_byte c, hex_byte d with
      | Some a, Some b, Some c, Some d => Some (((a * 16 + b) * 16 + c) * 16 + d, rest)
      | _, _, _, _ => None
      end
  | _ => None
  end.

(** [utf8.AppendRune] for a rune that is not a surrogate *)
Definition utf8_encode (r : Z) : list Z :=
  if r <? 128 then [r]
  else if r <? 2048 then [192 + r / 64; 128 + r mod 64]
  else if r <? 65536 then [224 + r / 4096; 128 + r / 64 mod 64; 128 + r mod 64]
  else [240 + r / 262144; 128 + r / 4096 mod 64; 128 + r / 64 mod 64; 128 + r mod 64].

Definition high_surrogate (r : Z) : bool := (55296 <=? r) && (r <? 56320).
Definition low_surrogate (r : Z) : bool := (56320 <=? r) && (r <? 57344).
Definition replacement : list Z := [239; 191; 189].

(** What follows a [\u]: one code unit, or a surrogate pair *)
Definition unescape_unicode (l : list Z) : option (list Z * list Z) :=
  match hex4 l with
  | None => None
  | Some (r, rest) =>
      if high_surrogate r || low_surrogate r then
        match rest with
        | b :: u :: rest' =>
            if (b =? 92) && (u =? 117) then
              match hex4 rest' with
              | Some (r2, rest2) =>
                  if high_surrogate r && low_surrogate r2
                  then Some (utf8_encode ((r - 55296) * 1024 + (r2 - 56320) + 65536), rest2)
                  else Some (replacement, rest)
              | None => Some (replacement, rest)
              end
            else Some (replacement, rest)
        | _ => Some (replacement, rest)
        end
      else Some (utf8_encode r, rest)
  end.

(** What follows a backslash *)
Definition unescape (l : list Z) : option (list Z * list Z) :=
  match l with
  | [] => None
  | b :: rest =>
      if (b =? 34) || (b =? 92) || (b =? 47) then Some ([b], rest)
      else if b =? 98 then Some ([8], rest)
      else if b =? 102 then Some ([12], rest)
      else if b =? 110 then Some ([10], rest)
      else if b =? 114 then Some ([13], rest)
      else if b =? 116 then Some ([9], rest)
      else if b =? 117 then unescape_unicode rest
      else None
  end.

Definition prepend (out : list Z) (r : option (list Z * list Z)) : option (list Z * list Z) :=
  match r with Some (l, rest) => Some (out ++ l, rest) | None => None end.

(** A string literal after its opening quote; each step consumes a byte. *)
Fixpoint parse_string (fuel : nat) (l : list Z) : option (list Z * list Z) :=
  match fuel, l with
  | S fuel', b :: rest =>
      if b =? 34 then Some ([], rest)
      else if b =? 92 then
        match unescape rest with
        | Some (out, rest') => prepend out (parse_string fuel' rest')
        | None => None
        end
      else if b <? 32 then None
      else if b <? 128 then prepend [b] (parse_string fuel' rest)
      else match utf8_width l with
           | O => prepend replacement (parse_string fuel' rest)
           | n => prepend (take n l) (parse_string fuel' (drop n l))
           end
  | _, _ => None
  end.

(** *** Numbers *)

Definition digit (b : Z) : bool := (48 <=? b) && (b <=? 57).

Fixpoint span_digits (l : list Z) : list Z * list Z :=
  match l with
  | b :: rest =>
      if digit b then let '(ds, r) := span_digits rest in (b :: ds, r) else ([], l)
  | [] => ([], [])
  end.

Definition parse_whole (l : list Z) : option (list Z * list Z) :=
  match l with
  | b :: rest =>
      if b =? 48 then Some ([b], rest)
      else if digit b then Some (span_digits l)
      else None
  | [] => None
  end.

Definition some_digits (l : list Z) : option (list Z * list Z) :=
  match span_digits l with
  | ([], _) => None
  | r => Some r
  end.

Definition parse_fraction (l : list Z) : option (list Z * list Z) :=
  match l with
  | b :: rest => if b =? 46 then prepend [b] (some_digits rest) else Some ([], l)
  | [] => Some ([], [])
  end.

Definition parse_exponent (l : list Z) : option (list Z * list Z) :=
  match l with
  | b :: rest =>
      if (b =? 101) || (b =? 69) then
        match rest with
        | s :: rest' =>
            if (s =? 43) || (s =? 45) then prepend [b; s] (some_digits rest')
            else prepend [b] (some_digits rest)
        | [] => None
        end
      else Some ([], l)
  | [] => Some ([], [])
  end.

Definition then_parse (r : option (list Z * list Z))
    (p : list Z -> option (list Z * list Z)) : option (list Z * list Z) :=
  match r with Some (l, rest) => prepend l (p rest) | None => None end.

Definition parse_number (l : list Z) : option (list Z * list Z) :=
  let sign := match l with b :: rest => if b =? 45 then ([b], rest) else ([], l) | [] => ([], l) end in
  prepend (fst sign)
    (then_parse (then_parse (parse_whole (snd sign)) parse_fraction) parse_exponent).

(** *** Values *)

(** [maxNestingDepth] *)
Definition maxNestingDepth : Z := 10000.

(** A keyword at the front *)
Definition strip (word : list Z) (l : list Z) : option (list Z) :=
  if bool_decide (take (List.length word) l = word) then Some (drop (List.length word) l)
  else None.

Definition keyword (l : list Z) : option (jtext * list Z) :=
  match strip (bytes_of "null") l with
  | Some r => Some (TNull, r)
  | None =>
      match strip (bytes_of "true") l with
      | Some r => Some (TBool true, r)
      | None =>
          match strip (bytes_of "false") l with
          | Some r => Some (TBool false, r)
          | None => None
          end
      end
  end.

Fixpoint parse_value (fuel : nat) (depth : Z) (l : list Z) : option (jtext * list Z) :=
  match fuel with
  | O => None
  | S fuel' =>
      let l := skip_space l in
      match l with
      | [] => None
      | b :: rest =>
          if b =? 123 then
            if maxNestingDepth <=? depth then None
            else match skip_space rest with
                 | [] => None
                 | c :: rest' =>
                     if c =? 125 then Some (TObj [], rest')
                     else match parse_members fuel' (depth + 1) (c :: rest') with
                          | Some (m, r) => Some (TObj m, r)
                          | None => None
                          end
                 end
          else if b =? 91 then
            if maxNestingDepth <=? depth then None
            else match skip_space rest with
                 | [] => None
                 | c :: rest' =>
                     if c =? 93 then Some (TArr [], rest')
                     else match parse_elements fuel' (depth + 1) (c :: rest') with
                          | Some (a, r) => Some (TArr a, r)
                          | None => None
                          end
                 end
          else if b =? 34 then
            match parse_string (List.length rest) rest with
            | Some (s, r) => Some (TStr (str_of_bytes s), r)
            | None => None
            end
          else if (b =? 45) || digit b then
            match parse_number l with
            | Some (n, r) => Some (TNum (str_of_bytes n), r)
            | None => None
            end
          else keyword l
      end
  end
with parse_members (fuel : nat) (depth : Z) (l : list Z)
  : option (list (string * jtext) * list Z) :=
  match fuel with
  | O => None
  | S fuel' =>
      match skip_space l with
      | q :: rest =>
          if q =? 34 then
            match parse_string (List.length rest) rest with
            | None => None
            | Some (k, r1) =>
                match skip_space r1 with
                | colon :: r2 =>
                    if colon =? 58 then
                      match parse_value fuel' depth r2 with
                      | None => None
                      | Some (v, r3) =>
                          match skip_space r3 with
                          | c :: r4 =>
                              if c =? 44 then
                                match parse_members fuel' depth r4 with
                                | Some (m, r5) => Some ((str_of_bytes k, v) :: m, r5)
                                | None => None
                                end
                              else if c =? 125 then Some ([(str_of_bytes k, v)], r4)
                              else None
                          | [] => None
                          end
                      end
                    else None
                | [] => None
                end
            end
          else None
      | [] => None
      end
  end
with parse_elements (fuel : nat) (depth : Z) (l : list Z) : option (list jtext * list Z) :=
  match fuel with
  | O => None
  | S fuel' =>
      match parse_value fuel' depth l with
      | None => None
      | Some (v, r1) =>
          match skip_space r1 with
          | c :: r2 =>
              if c =? 44 then
                match parse_elements fuel' depth r2 with
                | Some (a, r3) => Some (v :: a, r3)
                | None => None
                end
              else if c =? 93 then Some ([v], r2)
              else None
          | [] => None
          end
      end
  end.

(** A whole document: one value between spaces.  Every second call consumes a
    byte, so twice the length is enough fuel. *)
Definition parse_json (s : string) : option jtext :=
  let l := bytes_of s in
  match parse_value (2 * S (List.length l)) 0 l with
  | Some (v, rest) => match skip_space rest with [] => Some v | _ => None end
  | None => None
  end.

Example parse_ex :
  parse_json (" { " +:+ dquote +:+ "a\u00e9\ud83d\ude00\ud800x" +:+ dquote +:+ " : [ -12 , 0.5e+3, "
              +:+ dquote +:+ dquote +:+ ", true,null,{}]} ")
  = Some (TObj [("a" +:+ str_of_bytes [195; 169; 240; 159; 152; 128; 239; 191; 189] +:+ "x",
                 TArr [TNum "-12"; TNum "0.5e+3"; TStr ""; TBool true; TNull; TObj []])]).
Proof. vm_compute. reflexivity. Qed.

Example parse_refuses :
  List.map parse_json ["01"; "[1,]"; "{"; "1 2"; "tru"; "-"; "1."; ""; "[" +:+ dquote]
  = repeat None 9.
Proof. vm_compute. reflexivity. Qed.

(** ** Structs *)

Inductive field_kind : Type := KString | KInt64 | KBool | KStrings.

(** [foldName]: upper case, and the two runes that fold to an ASCII letter *)
Fixpoint fold_name (l : list Z) : list Z :=
  match l with
  | 197 :: 191 :: rest => 83 :: fold_name rest
  | 226 :: 132 :: 170 :: rest => 75 :: fold_name rest
  | b :: rest => (if (97 <=? b) && (b <=? 122) then b - 32 else b) :: fold_name rest
  | [] => []
  end.

Definition same_folded (a b : string) : bool :=
  bool_decide (fold_name (bytes_of a) = fold_name (bytes_of b)).

Definition find_field {K} (fields : list (string * K)) (key : string)
  : option (string * K) :=
  match List.find (fun f => fst f =s key) fields with
  | Some f => Some f
  | None => List.find (fun f => same_folded (fst f) key) fields
  end.

(** [strconv.ParseInt(literal, 10, 64)] on a JSON number *)
Definition parse_int64 (literal : string) : option Z :=
  match NilZero.int_of_string literal with
  | Some d =>
      let z := Z.of_int d in
      if (- 2 ^ 63 <=? z) && (z <? 2 ^ 63) then Some z else None
  | None => None
  end.

Definition text_string (v : jtext) : option string :=
  match v with TStr s => Some s | TNull => Some "" | _ => None end.

Fixpoint text_strings (l : list jtext) : option (list string) :=
  match l with
  | [] => Some []
  | v :: l' =>
      match text_string v, text_strings l' with
      | Some s, Some ss => Some (s :: ss)
      | _, _ => None
      end
  end.

(** Whether a value can be assigned to a field of the kind *)
Definition value_fits (k : field_kind) (v : jtext) : bool :=
  match k, v with
  | _, TNull => true
  | KString, TStr _ => true
  | KBool, TBool _ => true
  | KInt64, TNum lit => match parse_int64 lit with Some _ => true | None => false end
  | KStrings, TArr l => match text_strings l with Some _ => true | None => false end
  | _, _ => false
  end.

Definition member_fits (fields : list (string * field_kind)) (kv : string * jtext) : bool :=
  match find_field fields (fst kv) with
  | Some (_, k) => value_fits k (snd kv)
  | None => true
  end.

(** [json.Unmarshal] into a struct with the fields: the members, once the text
    has been parsed and every member that has a field fits it *)
Definition unmarshal_struct (fields : list (string * field_kind)) (s : string)
  : option (list (string * jtext)) :=
  match parse_json s with
  | Some (TObj m) => if forallb (member_fits fields) m then Some m else None
  | Some TNull => Some []
  | _ => None
  end.

(** The value a field has after the members were assigned in order; [None]
    when nothing was assigned to it.  A [null] clears a slice and leaves every
    other field alone. *)
Definition assigned (fields : list (string * field_kind)) (name : string)
    (m : list (string * jtext)) : option jtext :=
  fold_left
    (fun acc kv =>
       match find_field fields (fst kv) with
       | Some (n, k) =>
           if n =s name
           then match snd kv, k with
                | TNull, KStrings => None
                | TNull, _ => acc
                | v, _ => Some v
                end
           else acc
       | None => acc
       end) m None.

Definition string_field fields name m : string :=
  match assigned fields name m with Some (TStr s) => s | _ => "" end.
Definition bool_field fields name m : bool :=
  match assigned fields name m with Some (TBool b) => b | _ => false end.
Definition int64_field fields name m : Z :=
  match assigned fields name m with
  | Some (TNum lit) => match parse_int64 lit with Some z => z | None => 0 end
  | _ => 0
  end.
Definition strings_field fields name m : list string :=
  match assigned fields name m with
  | Some (TArr l) => match text_strings l with Some ss => ss | None => [] end
  | _ => []
  end.

(** ** What is read back *)

Lemma bytes_of_app a b : bytes_of (a +:+ b) = bytes_of a ++ bytes_of b.
Proof.
  unfold bytes_of. rewrite <- map_app. f_equal.
  induction a as [|c a IH]; [done|]. cbn. by rewrite <- IH.
Qed.

Lemma length_bytes_of s : List.length (bytes_of s) = String.length s.
Proof. unfold bytes_of. rewrite length_map. induction s; cbn; auto. Qed.

(** *** Strings *)

(** A string with every byte that starts no valid rune replaced by U+FFFD *)
Fixpoint to_valid (fuel : nat) (l : list Z) : list Z :=
  match fuel, l with
  | S fuel', b :: rest =>
      if b <? 128 then b :: to_valid fuel' rest
      else match utf8_width l with
           | O => replacement ++ to_valid fuel' rest
           | n => take n l ++ to_valid fuel' (drop n l)
           end
  | _, _ => []
  end.
Definition coerced (s : string) : string :=
  str_of_bytes (to_valid (String.length s) (bytes_of s)).

(** [utf8.ValidString] *)
Fixpoint valid_bytes (fuel : nat) (l : list Z) : bool :=
  match fuel, l with
  | _, [] => true
  | S fuel', _ :: _ =>
      match utf8_width l with
      | O => false
      | n => valid_bytes fuel' (drop n l)
      end
  | O, _ :: _ => false
  end.
Definition valid_utf8 (s : string) : bool := valid_bytes (String.length s) (bytes_of s).

(** The shapes of a valid rune *)
Lemma utf8_width_take l n tail :
  utf8_width l = S n -> utf8_width (take (S n) l ++ tail) = S n /\ (S n <= List.length l)%nat.
Proof.
  unfold utf8_width. destruct l as [|a l]; [done|].
  destruct (a <? 128) eqn:Ea. { intros [= <-]. cbn -[Z.ltb Z.leb Z.eqb cont]. rewrite Ea. split; [done|lia]. }
  destruct ((194 <=? a) && (a <=? 223)) eqn:E2.
  { destruct l as [|b l]; [done|]. destruct (cont b) eqn:Eb; [|done]. intros [= <-].
    cbn -[Z.ltb Z.leb Z.eqb cont]. rewrite Ea, E2, Eb. split; [done|lia]. }
  destruct ((224 <=? a) && (a <=? 239)) eqn:E3.
  { destruct l as [|b [|c l]]; [done|done|].
    destruct (cont b && cont c && negb ((a =? 224) && (b <? 160))
              && negb ((a =? 237) && (159 <? b))) eqn:Eb; [|done]. intros [= <-].
    cbn -[Z.ltb Z.leb Z.eqb cont]. rewrite Ea, E2, E3, Eb. split; [done|lia]. }
  destruct ((240 <=? a) && (a <=? 244)) eqn:E4; [|done].
  destruct l as [|b [|c [|d l]]]; [done|done|done|].
  destruct (cont b && cont c && cont d && negb ((a =? 240) && (b <? 144))
            && negb ((a =? 244) && (143 <? b))) eqn:Eb; [|done]. intros [= <-].
  cbn -[Z.ltb Z.leb Z.eqb cont]. rewrite Ea, E2, E3, E4, Eb. split; [done|lia].
Qed.

(** A rune that is not ASCII starts with a byte from 194 on. *)
Lemma utf8_width_head b l n : utf8_width (b :: l) = S n -> (b <? 128) = false -> 194 <= b.
Proof.
  unfold utf8_width. intros H Hb. rewrite Hb in H. destruct ((194 <=? b) && (b <=? 223)) eqn:E2.
  { apply andb_prop in E2 as [E2 _]. apply Z.leb_le in E2. lia. }
  destruct ((224 <=? b) && (b <=? 239)) eqn:E3.
  { apply andb_prop in E3 as [E3 _]. apply Z.leb_le in E3. lia. }
  destruct ((240 <=? b) && (b <=? 244)) eqn:E4; [|done].
  apply andb_prop in E4 as [E4 _]. apply Z.leb_le in E4. lia.
Qed.

Lemma ascii_cases (P : Z -> Prop) :
  (forall n, (n < 128)%nat -> P (Z.of_nat n)) -> forall b, 0 <= b < 128 -> P b.
Proof.
  intros H b Hb. specialize (H (Z.to_nat b)). rewrite Z2Nat.id in H by lia.
  apply H. lia.
Qed.

Lemma parse_ascii b fuel tail :
  0 <= b < 128 ->
  parse_string (S fuel) (bytes_of (json_ascii b) ++ tail) = prepend [b] (parse_string fuel tail).
Proof.
  revert b. apply ascii_cases. intros n Hn.
  do 128 (destruct n as [|n]; [reflexivity|]). lia.
Qed.

(** The escaped form of a rune is read back as the rune. *)
Lemma parse_rune l n fuel tail :
  utf8_width l = S n -> (hd 0 l <? 128) = false -> Forall (fun b => 0 <= b < 256) l ->
  parse_string (S fuel)
    (bytes_of (escape_rune (take (S n) l)) ++ tail)
  = prepend (take (S n) l) (parse_string fuel tail).
Proof.
  intros Hw Hb Hr.
  destruct (utf8_width_take l n tail Hw) as [Hw' Hlen].
  assert (Hplain : parse_string (S fuel) (take (S n) l ++ tail)
                   = prepend (take (S n) l) (parse_string fuel tail)).
  { destruct l as [|b l]; [done|]. cbn in Hb. pose proof (utf8_width_head b l n Hw Hb) as Hge.
    change (take (S n) (b :: l)) with (b :: take n l) in *. rewrite <- app_comm_cons in *.
    cbn [parse_string].
    rewrite (proj2 (Z.eqb_neq b 34)), (proj2 (Z.eqb_neq b 92)), (proj2 (Z.ltb_ge b 32)), Hb
      by lia.
    rewrite Hw'. cbn [skipn firstn]. rewrite take_app_length', drop_app_length'; [done| |].
    all: rewrite length_take; cbn in Hlen; lia. }
  assert (Hbytes : bytes_of (str_of_bytes (take (S n) l)) = take (S n) l).
  { apply bytes_of_str. by apply Forall_take. }
  destruct (bool_decide (take (S n) l = [226; 128; 168])) eqn:E1.
  { apply bool_decide_eq_true in E1. rewrite E1. reflexivity. }
  destruct (bool_decide (take (S n) l = [226; 128; 169])) eqn:E2.
  { apply bool_decide_eq_true in E2. rewrite E2. reflexivity. }
  apply bool_decide_eq_false in E1, E2.
  replace (escape_rune (take (S n) l)) with (str_of_bytes (take (S n) l));
    [by rewrite Hbytes|]. unfold escape_rune.
  clear -E1 E2. generalize dependent (take (S n) l). intros r E1 E2.
  repeat (case_match; try done); by subst.
Qed.

Lemma prepend_some out l rest : prepend out (Some (l, rest)) = Some (out ++ l, rest).
Proof. done. Qed.

Lemma json_ascii_length b : (1 <= List.length (bytes_of (json_ascii b)))%nat.
Proof.
  rewrite length_bytes_of. unfold json_ascii, unicode_escape. repeat case_match; simpl; lia.
Qed.

Lemma escaped_rune_length (r : list Z) :
  r <> [] -> (1 <= List.length (bytes_of (escape_rune r)))%nat.
Proof.
  intros Hr. rewrite length_bytes_of. unfold escape_rune. repeat (case_match; subst; try done); cbn; lia.
Qed.

Lemma parse_escaped k l fuel rest :
  Forall (fun b => 0 <= b < 256) l ->
  (List.length (bytes_of (json_escape k l)) < fuel)%nat ->
  parse_string fuel (bytes_of (json_escape k l) ++ 34 :: rest) = Some (to_valid k l, rest).
Proof.
  revert l fuel. induction k as [|k IH]; intros l fuel Hl Hf.
  { destruct fuel; [lia|reflexivity]. }
  destruct fuel as [|fuel]; [lia|]. destruct l as [|b l]; [reflexivity|].
  inversion Hl as [|? ? Hb Hl']; subst. cbn [json_escape to_valid] in *.
  destruct (b <? 128) eqn:Eb.
  - rewrite bytes_of_app, <- app_assoc. rewrite bytes_of_app, length_app in Hf.
    pose proof (json_ascii_length b). rewrite parse_ascii by lia.
    rewrite IH by (done || lia). reflexivity.
  - destruct (utf8_width (b :: l)) as [|n] eqn:Ew.
    + rewrite bytes_of_app, <- app_assoc. rewrite bytes_of_app, length_app in Hf.
      change (List.length (bytes_of "\ufffd")) with 6%nat in Hf.
      transitivity (prepend replacement (parse_string fuel (bytes_of (json_escape k l)
        ++ 34 :: rest))); [reflexivity|]. rewrite IH by (done || lia). reflexivity.
    + rewrite bytes_of_app, <- app_assoc. rewrite bytes_of_app, length_app in Hf.
      pose proof (escaped_rune_length (take (S n) (b :: l)) ltac:(done)).
      rewrite parse_rune by done.
      rewrite IH; [reflexivity|by apply Forall_drop|]. clear -Hf H. lia.
Qed.

(** A string literal, opening quote consumed *)
Lemma parse_literal s rest :
  let l := bytes_of (json_escape (String.length s) (bytes_of s)) ++ 34 :: rest in
  parse_string (List.length l) l = Some (to_valid (String.length s) (bytes_of s), rest).
Proof.
  intros l. apply parse_escaped; [apply bytes_of_range|]. unfold l. rewrite length_app. cbn. lia.
Qed.

(** A valid string is its own coercion. *)
Lemma to_valid_id k l : valid_bytes k l = true -> to_valid k l = l.
Proof.
  revert l. induction k as [|k IH]; intros [|b l]; cbn [valid_bytes to_valid]; try done.
  destruct (b <? 128) eqn:Eb.
  - unfold utf8_width. rewrite Eb. cbn [drop]. intros H. by rewrite IH.
  - destruct (utf8_width (b :: l)) as [|n]; [done|]. intros H. rewrite IH by done.
    apply take_drop.
Qed.

Lemma coerced_id s : valid_utf8 s = true -> coerced s = s.
Proof.
  intros H. unfold coerced. rewrite to_valid_id by done. apply str_of_bytes_of.
Qed.

(** *** Numbers *)

(** Nothing follows that would continue a number. *)
Definition ends_number (rest : list Z) : Prop :=
  match rest with
  | b :: _ => digit b = false /\ b <> 46 /\ b <> 101 /\ b <> 69
  | [] => True
  end.

Lemma fmt_d_shape z :
  (exists u, fmt_d z = NilEmpty.string_of_uint u /\ u = D0 Nil)
  \/ exists sign u, fmt_d z = sign +:+ NilEmpty.string_of_uint u /\ (sign = "" \/ sign = "-")
       /\ u <> Nil /\ (forall d, u <> D0 d).
Proof.
  unfold fmt_d. assert (Hn : norm (Z.to_int z) = Z.to_int z).
  { by rewrite <- DecimalZ.to_of, DecimalZ.of_to. }
  rewrite <- Hn. destruct (Z.to_int z) as [d|d]; cbn [norm].
  - unfold unorm. pose proof (DecimalFacts.nzhead_nonzero d) as Hz.
    destruct (nzhead d) as [|u|u|u|u|u|u|u|u|u|u] eqn:E; [by left; exists (D0 Nil)|by edestruct Hz|..];
      (right; match type of E with _ = ?x => exists "", x end; split; [reflexivity|]; auto).
  - pose proof (DecimalFacts.nzhead_nonzero d) as Hz.
    destruct (nzhead d) as [|u|u|u|u|u|u|u|u|u|u] eqn:E; [by left; exists (D0 Nil)|by edestruct Hz|..];
      (right; match type of E with _ = ?x => exists "-", x end; split; [reflexivity|]; auto).
Qed.

Lemma span_uint u rest :
  ends_number rest ->
  span_digits (bytes_of (NilEmpty.string_of_uint u) ++ rest)
  = (bytes_of (NilEmpty.string_of_uint u), rest).
Proof.
  intros Hr. induction u as [|u IH|u IH|u IH|u IH|u IH|u IH|u IH|u IH|u IH|u IH];
    [|unfold bytes_of in *; cbn [NilEmpty.string_of_uint list_ascii_of_string List.map] in *;
      rewrite <- app_comm_cons; cbn [span_digits]; rewrite IH; reflexivity..].
  cbn. destruct rest as [|b rest]; [done|]. destruct Hr as [Hr _]. cbn [span_digits].
  by rewrite Hr.
Qed.

Lemma no_fraction rest : ends_number rest -> parse_fraction rest = Some ([], rest).
Proof.
  destruct rest as [|b rest]; [done|]. intros (_ & H & _). cbn [parse_fraction].
  by rewrite (proj2 (Z.eqb_neq b 46)).
Qed.

Lemma no_exponent rest : ends_number rest -> parse_exponent rest = Some ([], rest).
Proof.
  destruct rest as [|b rest]; [done|]. intros (_ & _ & H1 & H2). cbn [parse_exponent].
  by rewrite (proj2 (Z.eqb_neq b 101)), (proj2 (Z.eqb_neq b 69)).
Qed.

(** An unsigned literal without superfluous zeros, as [parse_whole] sees it *)
Lemma whole_uint u rest :
  u <> Nil -> (forall d, u <> D0 d) -> ends_number rest ->
  parse_whole (bytes_of (NilEmpty.string_of_uint u) ++ rest)
  = Some (bytes_of (NilEmpty.string_of_uint u), rest)
  /\ (exists b t, bytes_of (NilEmpty.string_of_uint u) = b :: t /\ digit b = true).
Proof.
  intros H1 H2 Hr. pose proof (span_uint u rest Hr) as Hs.
  destruct u as [|u|u|u|u|u|u|u|u|u|u]; [done|by edestruct H2|..];
    (split; [|eexists _, _; split; reflexivity]); revert Hs; unfold bytes_of;
    cbn [NilEmpty.string_of_uint list_ascii_of_string List.map]; rewrite <- app_comm_cons;
    intros Hs; cbn [parse_whole]; rewrite Hs; reflexivity.
Qed.

(** A printed integer is read as the literal it is, and starts like a number. *)
Lemma parse_number_fmt z rest :
  ends_number rest ->
  parse_number (bytes_of (fmt_d z) ++ rest) = Some (bytes_of (fmt_d z), rest)
  /\ exists b t, bytes_of (fmt_d z) = b :: t /\ ((b =? 45) || digit b) = true.
Proof.
  intros Hr. unfold parse_number.
  destruct (fmt_d_shape z) as [(u & -> & ->)|(sign & u & -> & Hs & H1 & H2)].
  - split; [|eexists _, _; split; reflexivity].
    change (prepend [] (then_parse (then_parse (Some ([48], rest)) parse_fraction) parse_exponent)
            = Some ([48], rest)).
    cbn [then_parse]. rewrite no_fraction by done. cbn [prepend then_parse].
    by rewrite no_exponent.
  - destruct (whole_uint u rest H1 H2 Hr) as [Hw (b & t & Hb & Hd)].
    rewrite bytes_of_app. destruct Hs as [-> | ->].
    + change (bytes_of "" ++ ?x) with x. split; [|exists b, t; rewrite Hd, orb_true_r; auto].
      revert Hw. rewrite Hb, <- app_comm_cons. intros Hw.
      assert (Hm : (b =? 45) = false).
      { unfold digit in Hd. apply andb_prop in Hd as [Hd _]. apply Z.leb_le in Hd.
        apply Z.eqb_neq. lia. }
      rewrite Hm. cbn [fst snd]. rewrite Hw. cbn [then_parse].
      rewrite no_fraction by done. cbn [prepend then_parse].
      rewrite no_exponent by done. cbn [prepend]. by rewrite !app_nil_r.
    + split; [|eexists _, _; split; reflexivity]. rewrite <- app_assoc. cbn [fst snd].
      change (bytes_of "-" ++ ?x) with (45 :: x). 
      cbn -[parse_whole parse_fraction parse_exponent prepend then_parse NilEmpty.string_of_uint
            bytes_of]. rewrite Hw. cbn [then_parse].
      rewrite no_fraction by done. cbn [prepend then_parse].
      rewrite no_exponent by done. cbn [prepend]. by rewrite !app_nil_r.
Qed.

Lemma parse_int64_fmt z : - 2 ^ 63 <= z < 2 ^ 63 -> parse_int64 (fmt_d z) = Some z.
Proof.
  intros Hz. unfold parse_int64, fmt_d. destruct (to_int_nonnil z) as [H1 H2].
  rewrite NilZero.isi by done. rewrite DecimalZ.of_to.
  cbv zeta. assert (H : (- 2 ^ 63 <=? z) && (z <? 2 ^ 63) = true) by lia. by rewrite H.
Qed.

(** *** Values *)

Fixpoint text_of (j : json) : jtext :=
  match j with
  | JNull => TNull
  | JBool b => TBool b
  | JInt z | JFloat z => TNum (fmt_d z)
  | JStr s => TStr (coerced s)
  | JArr l => TArr (List.map text_of l)
  | JObj m => TObj (List.map (fun kv => (coerced (fst kv), text_of (snd kv))) m)
  end.

(** How deep a value nests *)
Fixpoint nesting (j : json) : Z :=
  match j with
  | JArr l => 1 + fold_right (fun j acc => Z.max (nesting j) acc) 0 l
  | JObj m => 1 + fold_right (fun kv acc => Z.max (nesting (snd kv)) acc) 0 m
  | _ => 0
  end.

(** Induction through the lists of a value *)
Fixpoint json_nested_ind (P : json -> Prop)
    (H0 : P JNull) (Hb : forall b, P (JBool b)) (Hi : forall z, P (JInt z))
    (Hf : forall z, P (JFloat z)) (Hs : forall s, P (JStr s))
    (Ha : forall l, Forall P l -> P (JArr l))
    (Ho : forall m, Forall (fun kv => P (snd kv)) m -> P (JObj m)) (j : json) : P j :=
  let ind := json_nested_ind P H0 Hb Hi Hf Hs Ha Ho in
  match j with
  | JNull => H0
  | JBool b => Hb b
  | JInt z => Hi z
  | JFloat z => Hf z
  | JStr s => Hs s
  | JArr l =>
      Ha l ((fix all (l : list json) : Forall P l :=
               match l with
               | [] => @List.Forall_nil _ _
               | j :: l' => @List.Forall_cons _ _ j l' (ind j) (all l')
               end) l)
  | JObj m =>
      Ho m ((fix all (m : jmap) : Forall (fun kv => P (snd kv)) m :=
               match m with
               | [] => @List.Forall_nil _ _
               | kv :: m' => @List.Forall_cons _ _ kv m' (ind (snd kv)) (all m')
               end) m)
  end.

Definition pad (n : nat) : string := newline +:+ spaces n.

Lemma skip_pad n l : skip_space (bytes_of (pad n) ++ l) = skip_space l.
Proof.
  unfold pad. rewrite bytes_of_app, <- app_assoc. cbn [app]. change (bytes_of newline) with [10].
  cbn. induction n as [|n IH]; [done|]. cbn [spaces]. rewrite bytes_of_app. cbn. exact IH.
Qed.

Lemma pad_head n l : exists t, bytes_of (pad n) ++ l = 10 :: t.
Proof. eexists. unfold pad. rewrite bytes_of_app, <- app_assoc. reflexivity. Qed.

(** No value starts with a space or a closing bracket. *)
Definition opens (b : Z) : Prop := space_byte b = false /\ b <> 93 /\ b <> 125.

Lemma number_opens b : ((b =? 45) || digit b) = true -> opens b.
Proof.
  unfold opens, space_byte, digit. intros H. repeat split; try (intros ->; done).
  apply orb_prop in H as [H|H]; [by apply Z.eqb_eq in H as ->|].
  apply andb_prop in H as [H _]. apply Z.leb_le in H.
  by rewrite !(proj2 (Z.eqb_neq _ _)) by lia.
Qed.

Lemma marshal_opens n j : exists b t, bytes_of (marshal_indent_at n j) = b :: t /\ opens b.
Proof.
  destruct j as [|b|z|z|s|[|x l]|[|kv m]];
    try (eexists _, _; split; [reflexivity|by repeat split]);
    try (destruct b; (eexists _, _; split; [reflexivity|by repeat split])).
  all: destruct (proj2 (parse_number_fmt z [] I)) as (b & t & E & Hb); exists b, t;
    split; [exact E|by apply number_opens].
Qed.

Lemma parse_value_space fuel d l l' :
  skip_space l = skip_space l' -> parse_value fuel d l = parse_value fuel d l'.
Proof. intros E. destruct fuel; [done|]. cbn [parse_value]. by rewrite E. Qed.

Lemma parse_elements_space fuel d l l' :
  skip_space l = skip_space l' -> parse_elements fuel d l = parse_elements fuel d l'.
Proof.
  intros E. destruct fuel; [done|]. cbn [parse_elements].
  by rewrite (parse_value_space _ _ l l' E).
Qed.

Lemma parse_members_space fuel d l l' :
  skip_space l = skip_space l' -> parse_members fuel d l = parse_members fuel d l'.
Proof. intros E. destruct fuel; [done|]. cbn [parse_members]. by rewrite E. Qed.

(** [j] is read back at every indentation. *)
Definition reads_back (j : json) : Prop :=
  forall n d fuel rest,
    d + nesting j <= maxNestingDepth ->
    (2 * List.length (bytes_of (marshal_indent_at n j)) < fuel)%nat -> ends_number rest ->
    parse_value fuel d (bytes_of (marshal_indent_at n j) ++ rest) = Some (text_of j, rest).

Lemma ends_pad n rest : ends_number (bytes_of (pad n) ++ rest).
Proof. destruct (pad_head n rest) as [t ->]. cbn. lia. Qed.

Lemma nesting_cons j l d :
  d + fold_right (fun j acc => Z.max (nesting j) acc) 0 (j :: l) <= maxNestingDepth ->
  d + nesting j <= maxNestingDepth
  /\ d + fold_right (fun j acc => Z.max (nesting j) acc) 0 l <= maxNestingDepth.
Proof. cbn [fold_right]. lia. Qed.

Lemma elements_read_back n m d l fuel rest :
  Forall reads_back l -> l <> [] ->
  d + fold_right (fun j acc => Z.max (nesting j) acc) 0 l <= maxNestingDepth ->
  let text := bytes_of (strings_join ("," +:+ pad n) (List.map (marshal_indent_at m) l)) in
  (2 * List.length text + 1 < fuel)%nat ->
  parse_elements fuel d (text ++ bytes_of (pad (n - 2)) ++ 93 :: rest)
  = Some (List.map text_of l, rest).
Proof.
  intros Hl. revert fuel. induction Hl as [|j l Hj Hl IH]; intros fuel Hne Hd; [done|].
  apply nesting_cons in Hd as [Hdj Hdl]. destruct fuel as [|fuel]; [lia|].
  destruct l as [|j' l].
  - cbn [strings_join List.map]. intros Hf. cbn [parse_elements].
    rewrite Hj; [|done|lia|apply ends_pad]. rewrite skip_pad. reflexivity.
  - cbn [List.map]. set (tl := List.map (marshal_indent_at m) (j' :: l)) in *.
    change (strings_join ("," +:+ pad n) (marshal_indent_at m j :: marshal_indent_at m j'
              :: List.map (marshal_indent_at m) l))
      with (marshal_indent_at m j +:+ ("," +:+ pad n) +:+ strings_join ("," +:+ pad n) tl).
    cbv zeta. rewrite !bytes_of_app, !length_app. rewrite <- !app_assoc.
    intros Hf. change (List.length (bytes_of ",")) with 1%nat in Hf.
    cbn [parse_elements]. rewrite Hj; [|done|lia|by repeat split].
    change (skip_space (bytes_of "," ++ ?x)) with (44 :: x). cbv beta iota.
    rewrite (parse_elements_space fuel d _
      (bytes_of (strings_join ("," +:+ pad n) tl) ++ bytes_of (pad (n - 2)) ++ 93 :: rest))
      by apply skip_pad.
    rewrite IH; [reflexivity|done|done|]. fold tl. lia.
Qed.

Definition member_text (m : nat) (kv : string * json) : string :=
  json_string (fst kv) +:+ ": " +:+ marshal_indent_at m (snd kv).

(** One member, up to what follows its value *)
Lemma member_read_back m d kv fuel rest :
  reads_back (snd kv) -> d + nesting (snd kv) <= maxNestingDepth ->
  (2 * List.length (bytes_of (member_text m kv)) < fuel)%nat -> ends_number rest ->
  parse_members (S fuel) d (bytes_of (member_text m kv) ++ rest)
  = match skip_space rest with
    | c :: r4 =>
        if c =? 44 then
          match parse_members fuel d r4 with
          | Some (ms, r5) => Some ((coerced (fst kv), text_of (snd kv)) :: ms, r5)
          | None => None
          end
        else if c =? 125 then Some ([(coerced (fst kv), text_of (snd kv))], r4)
        else None
    | [] => None
    end.
Proof.
  destruct kv as [k v]. cbn [fst snd]. unfold member_text, json_string. cbn [fst snd].
  intros Hv Hd Hf Hr. rewrite !bytes_of_app, !length_app in *. rewrite <- !app_assoc.
  change (bytes_of dquote) with [34]. cbn [parse_members].
  change (skip_space ([34] ++ ?x)) with (34 :: x). cbv beta iota. rewrite Z.eqb_refl.
  pose proof (parse_literal k (bytes_of ": " ++ bytes_of (marshal_indent_at m v) ++ rest)) as Hk.
  cbv zeta in Hk. change ([34] ++ ?x) with (34 :: x). rewrite Hk. cbv beta iota.
  change (skip_space (bytes_of ": " ++ ?x)) with (58 :: 32 :: x). cbv beta iota.
  rewrite Z.eqb_refl.
  rewrite (parse_value_space fuel d (32 :: bytes_of (marshal_indent_at m v) ++ rest)
             (bytes_of (marshal_indent_at m v) ++ rest)) by reflexivity.
  rewrite Hv; [reflexivity|done| |done]. lia.
Qed.

Lemma members_read_back n m d l fuel rest :
  Forall (fun kv => reads_back (snd kv)) l -> l <> [] ->
  d + fold_right (fun kv acc => Z.max (nesting (snd kv)) acc) 0 l <= maxNestingDepth ->
  let text := bytes_of (strings_join ("," +:+ pad n) (List.map (member_text m) l)) in
  (2 * List.length text + 1 < fuel)%nat ->
  parse_members fuel d (text ++ bytes_of (pad (n - 2)) ++ 125 :: rest)
  = Some (List.map (fun kv => (coerced (fst kv), text_of (snd kv))) l, rest).
Proof.
  intros Hl. revert fuel. induction Hl as [|kv l Hj Hl IH]; intros fuel Hne Hd; [done|].
  cbn [fold_right] in Hd. destruct fuel as [|fuel]; [lia|]. destruct l as [|kv' l].
  - cbn [strings_join List.map]. intros Hf.
    rewrite member_read_back by (done || lia || apply ends_pad). by rewrite skip_pad.
  - cbn [List.map]. set (tl := List.map (member_text m) (kv' :: l)) in *.
    change (strings_join ("," +:+ pad n) (member_text m kv :: member_text m kv'
              :: List.map (member_text m) l))
      with (member_text m kv +:+ ("," +:+ pad n) +:+ strings_join ("," +:+ pad n) tl).
    cbv zeta. rewrite !bytes_of_app, !length_app. rewrite <- !app_assoc.
    intros Hf. change (List.length (bytes_of ",")) with 1%nat in Hf.
    rewrite member_read_back by (done || lia || by repeat split).
    change (skip_space (bytes_of "," ++ ?x)) with (44 :: x). cbv beta iota.
    rewrite (parse_members_space fuel d _
      (bytes_of (strings_join ("," +:+ pad n) tl) ++ bytes_of (pad (n - 2)) ++ 125 :: rest))
      by apply skip_pad.
    rewrite IH; [reflexivity|done| |]; [lia|]. fold tl. lia.
Qed.

Lemma marshal_array n x l :
  marshal_indent_at n (JArr (x :: l))
  = "[" +:+ pad (2 * S n) +:+ strings_join ("," +:+ pad (2 * S n))
                                (List.map (marshal_indent_at (S n)) (x :: l))
    +:+ pad (2 * S n - 2) +:+ "]".
Proof. replace (2 * S n - 2)%nat with (2 * n)%nat by lia. reflexivity. Qed.

Lemma marshal_object n kv m :
  marshal_indent_at n (JObj (kv :: m))
  = "{" +:+ pad (2 * S n) +:+ strings_join ("," +:+ pad (2 * S n))
                                (List.map (member_text (S n)) (kv :: m))
    +:+ pad (2 * S n - 2) +:+ "}".
Proof. replace (2 * S n - 2)%nat with (2 * n)%nat by lia. reflexivity. Qed.

(** The scanner's dispatch on the first byte of a number *)
Lemma number_reads_back z d fuel rest :
  ends_number rest ->
  parse_value (S fuel) d (bytes_of (fmt_d z) ++ rest) = Some (TNum (fmt_d z), rest).
Proof.
  intros Hr. destruct (parse_number_fmt z rest Hr) as [Hn (b & t & E & Hb)].
  cbn [parse_value]. revert Hn. rewrite E, <- app_comm_cons. intros Hn.
  assert (Hs : skip_space (b :: t ++ rest) = b :: t ++ rest).
  { cbn [skip_space]. by rewrite (proj1 (number_opens b Hb)). }
  assert (Hne : b <> 123 /\ b <> 91 /\ b <> 34).
  { repeat split; intros ->; done. }
  destruct Hne as (H1 & H2 & H3). rewrite Hs.
  rewrite (proj2 (Z.eqb_neq b 123)), (proj2 (Z.eqb_neq b 91)), (proj2 (Z.eqb_neq b 34)) by done.
  rewrite Hb, Hn, <- E. by rewrite str_of_bytes_of.
Qed.

(** The text of a non-empty container after its opening bracket and the
    indentation *)
Lemma joined_opens n sep x l rest :
  (exists b t, bytes_of x = b :: t /\ opens b) ->
  exists b t, skip_space (bytes_of (pad n) ++ bytes_of (strings_join sep (x :: l)) ++ rest) = b :: t
    /\ b :: t = bytes_of (strings_join sep (x :: l)) ++ rest /\ b <> 93 /\ b <> 125.
Proof.
  intros (b & t & E & Hb). rewrite skip_pad.
  assert (Ej : exists t', bytes_of (strings_join sep (x :: l)) = b :: t').
  { destruct l as [|y l]; [by exists t|]. cbn [strings_join]. rewrite bytes_of_app, E.
    eexists. reflexivity. }
  destruct Ej as [t' ->]. rewrite <- app_comm_cons. exists b. eexists. cbn [skip_space].
  rewrite (proj1 Hb). by repeat split; try apply Hb.
Qed.

Lemma nesting_fold_nonneg l : 0 <= fold_right (fun j acc => Z.max (nesting j) acc) 0 l.
Proof. induction l; cbn [fold_right]; lia. Qed.

Lemma nesting_members_nonneg (m : jmap) :
  0 <= fold_right (fun kv acc => Z.max (nesting (snd kv)) acc) 0 m.
Proof. induction m; cbn [fold_right]; lia. Qed.

Lemma array_reads_back l : Forall reads_back l -> reads_back (JArr l).
Proof.
  intros IH n d [|fuel] rest Hd Hf Hr; [lia|].
  assert (Hmax : (maxNestingDepth <=? d) = false).
  { apply Z.leb_gt. cbn [nesting] in Hd. pose proof (nesting_fold_nonneg l). lia. }
  destruct l as [|x l].
  { change (bytes_of (marshal_indent_at n (JArr [])) ++ rest) with (91 :: 93 :: rest).
    cbn [parse_value]. change (skip_space (91 :: ?x)) with (91 :: x). cbv beta iota zeta.
    change (91 =? 123) with false. rewrite Z.eqb_refl, Hmax. reflexivity. }
  rewrite marshal_array in *. set (text := strings_join _ _) in *.
  rewrite !bytes_of_app, !length_app in *. rewrite <- !app_assoc.
  change (List.length (bytes_of "[")) with 1%nat in Hf.
  change (List.length (bytes_of "]")) with 1%nat in Hf. cbn [parse_value].
  change (skip_space (bytes_of "[" ++ ?x)) with (91 :: x). cbv beta iota zeta.
  change (91 =? 123) with false. rewrite Z.eqb_refl, Hmax.
  assert (Ho : exists b t', skip_space (bytes_of (pad (2 * S n)) ++ bytes_of text
      ++ bytes_of (pad (2 * S n - 2)) ++ bytes_of "]" ++ rest) = b :: t'
    /\ b :: t' = bytes_of text ++ bytes_of (pad (2 * S n - 2)) ++ bytes_of "]" ++ rest
    /\ b <> 93 /\ b <> 125).
  { apply joined_opens. apply marshal_opens. }
  destruct Ho as (b & t' & Es & Et & Hb & _). rewrite Es, (proj2 (Z.eqb_neq b 93)), Et by done.
  change (bytes_of "]" ++ rest) with (93 :: rest). unfold text.
  rewrite elements_read_back; [reflexivity|done|done| |].
  + cbn [nesting] in Hd. lia.
  + fold text. lia.
Qed.

Lemma object_reads_back m : Forall (fun kv => reads_back (snd kv)) m -> reads_back (JObj m).
Proof.
  intros IH n d [|fuel] rest Hd Hf Hr; [lia|].
  assert (Hmax : (maxNestingDepth <=? d) = false).
  { apply Z.leb_gt. cbn [nesting] in Hd. pose proof (nesting_members_nonneg m). lia. }
  destruct m as [|kv m].
  { change (bytes_of (marshal_indent_at n (JObj [])) ++ rest) with (123 :: 125 :: rest).
    cbn [parse_value]. change (skip_space (123 :: ?x)) with (123 :: x). cbv beta iota zeta.
    rewrite Z.eqb_refl, Hmax. reflexivity. }
  rewrite marshal_object in *. set (text := strings_join _ _) in *.
  rewrite !bytes_of_app, !length_app in *. rewrite <- !app_assoc.
  change (List.length (bytes_of "{")) with 1%nat in Hf.
  change (List.length (bytes_of "}")) with 1%nat in Hf. cbn [parse_value].
  change (skip_space (bytes_of "{" ++ ?x)) with (123 :: x). cbv beta iota zeta.
  rewrite Z.eqb_refl, Hmax.
  assert (Ho : exists b t', skip_space (bytes_of (pad (2 * S n)) ++ bytes_of text
      ++ bytes_of (pad (2 * S n - 2)) ++ bytes_of "}" ++ rest) = b :: t'
    /\ b :: t' = bytes_of text ++ bytes_of (pad (2 * S n - 2)) ++ bytes_of "}" ++ rest
    /\ b <> 93 /\ b <> 125).
  { apply joined_opens. eexists _, _. split; [reflexivity|by repeat split]. }
  destruct Ho as (b & t' & Es & Et & _ & Hb). rewrite Es, (proj2 (Z.eqb_neq b 125)), Et by done.
  change (bytes_of "}" ++ rest) with (125 :: rest). unfold text.
  rewrite members_read_back; [reflexivity|done|done| |].
  + cbn [nesting] in Hd. lia.
  + fold text. lia.
Qed.

Lemma json_reads_back j : reads_back j.
Proof.
  induction j as [|b|z|z|s|l IH|m IH] using json_nested_ind;
    intros n d [|fuel] rest Hd Hf Hr; try (lia || reflexivity).
  - by destruct b.
  - by apply number_reads_back.
  - by apply number_reads_back.
  - cbn [marshal_indent_at marshal]. unfold json_string. rewrite !bytes_of_app, <- !app_assoc.
    change (bytes_of dquote) with [34]. cbn [parse_value].
    change (skip_space ([34] ++ ?x)) with (34 :: x). cbv beta iota zeta.
    change (34 =? 123) with false. change (34 =? 91) with false. rewrite Z.eqb_refl.
    pose proof (parse_literal s rest) as Hk. cbv zeta in Hk.
    change ([34] ++ ?x) with (34 :: x). by rewrite Hk.
  - by apply array_reads_back.
  - by apply object_reads_back.
Qed.

(** The round trip through [json.MarshalIndent] and [json.Unmarshal] *)
Lemma unmarshal_marshal j :
  nesting j <= maxNestingDepth -> parse_json (marshal_indent j) = Some (text_of j).
Proof.
  intros Hd. unfold parse_json, marshal_indent.
  pose proof (json_reads_back j 0%nat 0
    (2 * S (List.length (bytes_of (marshal_indent_at 0 j))))%nat []) as H. rewrite app_nil_r in H. rewrite H by (done || lia). reflexivity.
Qed.
