(* ===== verification/JsonDecode.v ===== *)
(** * Decoding JSON text into Go values

    [json.Unmarshal] into nested structs and slices, as the status exporter
    decodes the file it is about to replace, and into [map[string]any], as the
    stable projection of a status file is checked.

    A struct field takes the member of its exact name, else of a name that
    folds to it; a member that comes again is decoded into the value that is
    there.  A slice keeps the array it was decoded into, so that elements of
    an earlier, longer slice show through the fields a later one leaves out. *)

From stdpp Require Import base list strings numbers.
From Stdlib Require Import ZArith Lia Ascii String.
From S2P Require Import Prelude GoString Json JsonText.

(** ** Typed values *)

Inductive gtype : Type :=
| GString
| GInt
| GBool
| GSlice (elem : gtype)
| GStruct (fields : list (string * gtype)).

(** A slice is nil, or its elements and the rest of its array. *)
Inductive gval : Type :=
| VString (s : string)
| VInt (z : Z)
| VBool (b : bool)
| VSlice (s : option (list gval * list gval))
| VStruct (fields : list (string * gval)).

Fixpoint zero_value (t : gtype) : gval :=
  match t with
  | GString => VString ""
  | GInt => VInt 0
  | GBool => VBool false
  | GSlice _ => VSlice None
  | GStruct fs => VStruct (List.map (fun f => (fst f, zero_value (snd f))) fs)
  end.

Fixpoint field_of (name : string) (fs : list (string * gval)) : gval :=
  match fs with
  | [] => VString ""
  | (n, v) :: fs' => if n =s name then v else field_of name fs'
  end.

Fixpoint set_field (name : string) (v : gval) (fs : list (string * gval))
  : list (string * gval) :=
  match fs with
  | [] => []
  | (n, v') :: fs' => if n =s name then (n, v) :: fs' else (n, v') :: set_field name v fs'
  end.

Definition array_of (v : gval) : list gval :=
  match v with VSlice (Some (live, rest)) => live ++ rest | _ => [] end.

Definition fields_of (v : gval) : list (string * gval) :=
  match v with VStruct fs => fs | _ => [] end.

(** [None] when [Unmarshal] returns an error *)
Fixpoint decode (v : jtext) (t : gtype) (old : gval) : option gval :=
  match v, t with
  | TNull, GSlice _ => Some (VSlice None)
  | TNull, _ => Some old
  | TStr s, GString => Some (VString s)
  | TNum literal, GInt => VInt <$> parse_int64 literal
  | TBool b, GBool => Some (VBool b)
  | TArr l, GSlice elem =>
      let fix elements (l : list jtext) (olds : list gval) : option (list gval * list gval) :=
        match l with
        | [] => Some ([], olds)
        | v :: l' =>
            let old := match olds with o :: _ => o | [] => zero_value elem end in
            match decode v elem old, elements l' (List.tl olds) with
            | Some x, Some (xs, rest) => Some (x :: xs, rest)
            | _, _ => None
            end
        end in
      match elements l (array_of old) with
      | Some ([], _) => Some (VSlice (Some ([], [])))
      | Some s => Some (VSlice (Some s))
      | None => None
      end
  | TObj m, GStruct fields =>
      let fix members (m : list (string * jtext)) (fs : list (string * gval)) : option gval :=
        match m with
        | [] => Some (VStruct fs)
        | (k, v) :: m' =>
            match find_field fields k with
            | None => members m' fs
            | Some (n, ft) =>
                match decode v ft (field_of n fs) with
                | Some x => members m' (set_field n x fs)
                | None => None
                end
            end
        end in
      members m (fields_of old)
  | _, _ => None
  end.

Definition unmarshal_value (t : gtype) (s : string) : option gval :=
  match parse_json s with
  | Some v => decode v t (zero_value t)
  | None => None
  end.

(** [reflect.DeepEqual] on values of one type *)
Fixpoint deep_equal (a b : gval) : bool :=
  match a, b with
  | VString x, VString y => x =s y
  | VInt x, VInt y => x =? y
  | VBool x, VBool y => Bool.eqb x y
  | VSlice None, VSlice None => true
  | VSlice (Some (l, _)), VSlice (Some (l', _)) =>
      (fix all (l l' : list gval) : bool :=
         match l, l' with
         | [], [] => true
         | x :: l, y :: l' => deep_equal x y && all l l'
         | _, _ => false
         end) l l'
  | VStruct fs, VStruct fs' =>
      (fix all (l l' : list (string * gval)) : bool :=
         match l, l' with
         | [], [] => true
         | (n, x) :: l, (n', y) :: l' => (n =s n') && deep_equal x y && all l l'
         | _, _ => false
         end) fs fs'
  | _, _ => false
  end.

(** ** Maps

    The members of an object decoded into [map[string]any]; the last member of
    a name wins.  A number must fit a [float64]. *)

(** The integer a digit list denotes *)
Definition digits_value (l : list Z) : Z := fold_left (fun acc d => acc * 10 + (d - 48)) l 0.

(** The parts of a number literal: digits before and after the point, and the
    exponent *)
Definition number_parts (literal : string) : list Z * list Z * Z :=
  let l := match bytes_of literal with 45 :: r => r | l => l end in
  let '(whole, r) := span_digits l in
  let '(frac, r) := match r with 46 :: r' => span_digits r' | _ => ([], r) end in
  let exp :=
    match r with
    | _ :: 45 :: r' => - digits_value (fst (span_digits r'))
    | _ :: 43 :: r' => digits_value (fst (span_digits r'))
    | _ :: r' => digits_value (fst (span_digits r'))
    | [] => 0
    end in
  (whole, frac, exp).

(** [strconv.ParseFloat] is out of range from the middle between the largest
    [float64] and 2^1024 on. *)
Definition float64_limit : Z := 2 ^ 1024 - 2 ^ 970.

Definition float64_fits (literal : string) : bool :=
  let '(whole, frac, exp) := number_parts literal in
  let m := digits_value (whole ++ frac) in
  let e := exp - Z.of_nat (List.length frac) in
  if m =? 0 then true
  else if 0 <=? e then
    if 400 <? e then false else m * 10 ^ e <? float64_limit
  else if Z.of_nat (List.length (whole ++ frac)) <? - e then true
  else m <? float64_limit * 10 ^ (- e).

Fixpoint any_fits (v : jtext) : bool :=
  match v with
  | TNum literal => float64_fits literal
  | TArr l => forallb any_fits l
  | TObj m => forallb (fun kv => any_fits (snd kv)) m
  | _ => true
  end.

(** [var m map[string]any; json.Unmarshal(s, &m)] *)
Definition unmarshal_map (s : string) : option (list (string * jtext)) :=
  match parse_json s with
  | Some (TObj m) => if forallb (fun kv => any_fits (snd kv)) m then Some m else None
  | Some TNull => Some []
  | _ => None
  end.

(** [m[k]] *)
Definition text_get (k : string) (m : list (string * jtext)) : option jtext :=
  snd <$> List.find (fun kv => fst kv =s k) (rev m).

(** The keys of the map, each once *)
Definition tkeys (m : list (string * jtext)) : list string :=
  nodup String.string_dec (List.map fst m).

Definition text_value (v : option jtext) : string :=
  match v with Some (TStr s) => s | _ => "" end.

Example float_ex :
  List.map float64_fits
    ["0"; "-1.5e3"; "1e308"; "1.8e308"; "-1e309"; "1e-400"; "0e999999"; "1e401";
     "179769313486231580793728971405304e276"; "179769313486231580793728971405303e276"]
  = [true; true; true; false; false; true; true; false; false; true].
Proof. vm_compute. reflexivity. Qed.

(** A repeated object is decoded into the one before; a shorter slice leaves
    what it does not reach in its array. *)
Example decode_merges :
  let t := GStruct [("a", GSlice (GStruct [("x", GInt); ("y", GString)])); ("B", GBool)] in
  let q := dquote in
  let s := "{" +:+ q +:+ "a" +:+ q +:+ ":[{" +:+ q +:+ "x" +:+ q +:+ ":1},{" +:+ q +:+ "x" +:+ q
           +:+ ":2}]," +:+ q +:+ "A" +:+ q +:+ ":[{" +:+ q +:+ "y" +:+ q +:+ ":" +:+ q +:+ "k"
           +:+ q +:+ "}]," +:+ q +:+ "b" +:+ q +:+ ":true," +:+ q +:+ "c" +:+ q +:+ ":1e999}" in
  unmarshal_value t s
  = Some (VStruct
      [("a", VSlice (Some ([VStruct [("x", VInt 1); ("y", VString "k")]],
                           [VStruct [("x", VInt 2); ("y", VString "")]])));
       ("B", VBool true)])
  /\ unmarshal_map s = None.
Proof. vm_compute. done. Qed.
