(* ===== verification/GoTime.v ===== *)
(** * Times and their RFC 3339 text

    The parts of Go's package [time] the sources use on deadlines they store
    as text: [t.UTC().Format(time.RFC3339)] and [time.Parse(time.RFC3339, s)].
    A time is its nanoseconds since the Unix epoch, of any size; the proleptic
    Gregorian calendar has no bounds.  [Format] drops the fraction of the
    second; [Parse] reads what [Format] wrote for every time of the years 0 to
    9999 ([parse_format]). *)

From stdpp Require Import base list strings numbers.
From Stdlib Require Import ZArith Lia String.
From S2P Require Import Prelude GoString.

(** ** The calendar *)

Definition is_leap (y : Z) : bool :=
  (y mod 4 =? 0) && (negb (y mod 100 =? 0) || (y mod 400 =? 0)).

Definition month_lengths (leap : bool) : list Z :=
  [31; if leap then 29 else 28; 31; 30; 31; 30; 31; 31; 30; 31; 30; 31].

Fixpoint sumZ (l : list Z) : Z := match l with [] => 0 | x :: r => x + sumZ r end.

Definition days_before_month (leap : bool) (m : Z) : Z :=
  sumZ (take (Z.to_nat (m - 1)) (month_lengths leap)).

(** [daysIn] *)
Definition days_in (m y : Z) : Z := nth (Z.to_nat (m - 1)) (month_lengths (is_leap y)) 0.

(** Days between 1 January of the year 1 and a date *)
Definition days_before_year (y : Z) : Z :=
  let p := y - 1 in 365 * p + p / 4 - p / 100 + p / 400.
Definition days_of_date (y m d : Z) : Z :=
  days_before_year y + days_before_month (is_leap y) m + (d - 1).

(** The month and the day of a day of the year, counted from 0 *)
Fixpoint find_month (lens : list Z) (m d : Z) : Z * Z :=
  match lens with
  | [] => (m, d + 1)
  | l :: r => if d <? l then (m, d + 1) else find_month r (m + 1) (d - l)
  end.

(** Cycles of 400, 100, 4 years and one year are cut off in turn; the last
    century of 400 years and the last year of 4 take one day more. *)
Definition year_of_days (n : Z) : Z * Z :=
  let n400 := n / 146097 in let d := n mod 146097 in
  let n100 := d / 36524 in let n100 := n100 - n100 / 4 in let d := d - 36524 * n100 in
  let n4 := d / 1461 in let d := d - 1461 * n4 in
  let n1 := d / 365 in let n1 := n1 - n1 / 4 in let d := d - 365 * n1 in
  (400 * n400 + 100 * n100 + 4 * n4 + n1 + 1, d).

Definition date_of_days (n : Z) : Z * Z * Z :=
  let '(y, yday) := year_of_days n in
  let '(m, d) := find_month (month_lengths (is_leap y)) 1 yday in (y, m, d).

Definition unix_epoch_days : Z := 719162.
Definition second_ns : Z := 1000000000.

(** [t.IsZero()]: 1 January of the year 1, 00:00:00 UTC *)
Definition zero_time : Z := - unix_epoch_days * 86400 * second_ns.

(** ** Format *)

Definition pad2 (n : Z) : list Z := [48 + n / 10; 48 + n mod 10].
Definition pad4 (n : Z) : list Z :=
  if n <? 10000 then [48 + n / 1000; 48 + n / 100 mod 10; 48 + n / 10 mod 10; 48 + n mod 10]
  else bytes_of (fmt_d n).

Definition rfc3339_bytes (t : Z) : list Z :=
  let sec := t / second_ns in
  let s := sec mod 86400 in
  let '(y, m, d) := date_of_days (sec / 86400 + unix_epoch_days) in
  (if y <? 0 then 45 :: pad4 (- y) else pad4 y)
  ++ [45] ++ pad2 m ++ [45] ++ pad2 d ++ [84] ++ pad2 (s / 3600) ++ [58]
  ++ pad2 (s / 60 mod 60) ++ [58] ++ pad2 (s mod 60) ++ [90].

Definition format_rfc3339 (t : Z) : string := str_of_bytes (rfc3339_bytes t).

(** ** Parse

    A parser takes the rest of the text and returns a value and what follows. *)

Definition parser (A : Type) : Type := list Z -> option (A * list Z).
Definition pbind {A B} (p : parser A) (k : A -> parser B) : parser B := fun l =>
  match p l with Some (a, r) => k a r | None => None end.
Local Notation "x <~ p ;; k" := (pbind p (fun x => k))
  (at level 100, p at next level, right associativity).
Definition pguard {A} (b : bool) (p : parser A) : parser A := fun l =>
  if b then p l else None.

Definition is_digit (b : Z) : bool := (48 <=? b) && (b <=? 57).

Definition skip (c : Z) : parser unit := fun l =>
  match l with b :: r => if b =? c then Some (tt, r) else None | [] => None end.

(** [getnum] *)
Definition getnum (fixed : bool) : parser Z := fun l =>
  match l with
  | a :: r =>
      if negb (is_digit a) then None
      else match r with
           | b :: r' => if is_digit b then Some ((a - 48) * 10 + (b - 48), r')
                        else if fixed then None else Some (a - 48, r)
           | [] => if fixed then None else Some (a - 48, r)
           end
  | [] => None
  end.

Definition getyear : parser Z := fun l =>
  match l with
  | a :: b :: c :: d :: r =>
      if is_digit a && is_digit b && is_digit c && is_digit d
      then Some ((a - 48) * 1000 + (b - 48) * 100 + (c - 48) * 10 + (d - 48), r)
      else None
  | _ => None
  end.

Fixpoint digits (l : list Z) : list Z * list Z :=
  match l with
  | b :: r => if is_digit b then let '(ds, rest) := digits r in (b - 48 :: ds, rest) else ([], l)
  | [] => ([], [])
  end.

(** [parseNanoseconds]: digits after the ninth are dropped *)
Definition nanoseconds (ds : list Z) : Z :=
  let ds := take 9 ds in
  fold_left (fun a d => 10 * a + d) ds 0 * 10 ^ (9 - Z.of_nat (List.length ds)).

(** A fraction the layout does not name, after a period or a comma *)
Definition getfraction : parser Z := fun l =>
  match l with
  | c :: ((d :: _) as r) =>
      if ((c =? 46) || (c =? 44)) && is_digit d
      then let '(ds, rest) := digits r in Some (nanoseconds ds, rest)
      else Some (0, l)
  | _ => Some (0, l)
  end.

(** The offset from UTC in seconds *)
Definition getzone : parser Z := fun l =>
  match l with
  | 90 :: r => Some (0, r)
  | sign :: l' =>
      (hr <~ getnum true ;; _ <~ skip 58 ;; mm <~ getnum true ;;
       pguard ((hr <=? 24) && (mm <=? 60))
         (fun r => let off := (hr * 60 + mm) * 60 in
                   if sign =? 43 then Some (off, r)
                   else if sign =? 45 then Some (- off, r) else None)) l'
  | [] => None
  end.

Definition getend : parser unit := fun l => match l with [] => Some (tt, []) | _ => None end.

Definition rfc3339 : parser Z :=
  y <~ getyear ;; _ <~ skip 45 ;; m <~ getnum true ;; _ <~ skip 45 ;; d <~ getnum true ;;
  _ <~ skip 84 ;; hh <~ getnum false ;; _ <~ skip 58 ;; mi <~ getnum true ;; _ <~ skip 58 ;;
  ss <~ getnum true ;; ns <~ getfraction ;; off <~ getzone ;; _ <~ getend ;;
  pguard ((1 <=? m) && (m <=? 12) && (1 <=? d) && (d <=? days_in m y)
          && (hh <? 24) && (mi <? 60) && (ss <? 60))
    (fun r => Some (((((days_of_date y m d - unix_epoch_days) * 24 + hh) * 60 + mi) * 60 + ss
                     - off) * second_ns + ns, r)).

(** [time.Parse(time.RFC3339, s)] *)
Definition parse_rfc3339 (s : string) : option Z :=
  match rfc3339 (bytes_of s) with Some (t, _) => Some t | None => None end.

Example rfc3339_examples :
  format_rfc3339 0 = "1970-01-01T00:00:00Z"
  /\ format_rfc3339 1709251199999999999 = "2024-02-29T23:59:59Z"
  /\ format_rfc3339 zero_time = "0001-01-01T00:00:00Z"
  /\ parse_rfc3339 "2024-02-29T23:59:59Z" = Some 1709251199000000000
  /\ parse_rfc3339 "2024-03-01T7:30:00,25+08:00" = Some 1709249400250000000
  /\ parse_rfc3339 "2023-02-29T00:00:00Z" = None
  /\ parse_rfc3339 "2024-02-29 23:59:59Z" = None /\ parse_rfc3339 "" = None.
Proof. vm_compute. done. Qed.

(** ** Dates and day numbers *)

Ltac div_lia := Z.to_euclidean_division_equations; lia.

(** A year as the cycles of its predecessor *)
Lemma year_cycles a b c e :
  0 <= b < 4 -> 0 <= c < 25 -> 0 <= e < 4 ->
  let y := 400 * a + 100 * b + 4 * c + e + 1 in
  days_before_year y = 146097 * a + 36524 * b + 1461 * c + 365 * e
  /\ is_leap y = (e =? 3) && (negb (c =? 24) || (b =? 3)).
Proof.
  intros Hb Hc He y. unfold days_before_year, is_leap. split.
  - rewrite <- (Z.div_unique (y - 1) 4 (100 * a + 25 * b + c) e) by (subst y; lia).
    rewrite <- (Z.div_unique (y - 1) 100 (4 * a + b) (4 * c + e)) by (subst y; lia).
    rewrite <- (Z.div_unique (y - 1) 400 a (100 * b + 4 * c + e)) by (subst y; lia).
    subst y. lia.
  - assert (E4 : (y mod 4 =? 0) = (e =? 3)) by (subst y; div_lia).
    assert (E100 : y mod 4 = 0 -> (y mod 100 =? 0) = (c =? 24)) by (subst y; div_lia).
    assert (E400 : y mod 100 = 0 -> (y mod 400 =? 0) = (b =? 3)) by (subst y; div_lia).
    clearbody y. lia.
Qed.

(** The cut-off leaves the day of the year, and nothing is lost. *)
Lemma year_of_days_spec n y d :
  year_of_days n = (y, d) ->
  n = days_before_year y + d /\ 0 <= d < 365 + Z.b2z (is_leap y).
Proof.
  unfold year_of_days. set (a := n / 146097). set (r := n mod 146097).
  set (b := r / 36524 - r / 36524 / 4). set (r2 := r - 36524 * b).
  set (c := r2 / 1461). set (r3 := r2 - 1461 * c). set (e := r3 / 365 - r3 / 365 / 4).
  intros [= <- <-].
  assert (Hr : n = 146097 * a + r /\ 0 <= r < 146097) by (subst a r; div_lia).
  assert (Hb : 0 <= b < 4 /\ 0 <= r2 /\ (r2 < 36524 \/ b = 3 /\ r2 = 36524))
    by (subst r2 b; clearbody r; div_lia).
  assert (Hc : 0 <= c < 25 /\ 0 <= r3 < 1461) by (subst r3 c; clearbody r2; div_lia).
  assert (He : 0 <= e < 4 /\ 0 <= r3 - 365 * e < 366 /\ (r3 - 365 * e = 365 -> e = 3))
    by (subst e; clearbody r3; div_lia).
  destruct (year_cycles a b c e) as [E1 E2]; [lia..|]. rewrite E1, E2.
  assert (E3 : r3 = r2 - 1461 * c) by done.
  split; [subst r3 r2; lia|]. clearbody a b c e r3 r2. destruct (_ && _) eqn:E; cbn; lia.
Qed.

Lemma find_month_spec lens m0 d m d' :
  0 <= d < sumZ lens -> find_month lens m0 d = (m, d') ->
  m0 <= m < m0 + Z.of_nat (List.length lens)
  /\ sumZ (take (Z.to_nat (m - m0)) lens) + (d' - 1) = d
  /\ 1 <= d' <= nth (Z.to_nat (m - m0)) lens 0.
Proof.
  revert m0 d. induction lens as [|l lens IH]; cbn [sumZ find_month]; intros m0 d Hd; [lia|].
  destruct (d <? l) eqn:E.
  - intros [= <- <-]. rewrite Z.sub_diag. change (Z.to_nat 0) with 0%nat. cbn. bool_prop. lia.
  - intros Hf. bool_prop. destruct (IH (m0 + 1) (d - l)) as (H1 & H2 & H3); [lia|done|].
    replace (Z.to_nat (m - m0)) with (S (Z.to_nat (m - (m0 + 1)))) by lia.
    cbn [take nth sumZ List.length]. lia.
Qed.

Lemma month_lengths_sum leap : sumZ (month_lengths leap) = 365 + Z.b2z leap.
Proof. by destruct leap. Qed.

Lemma month_length_max leap k : nth k (month_lengths leap) 0 <= 31.
Proof. do 12 (destruct k as [|k]; [destruct leap; cbn; lia|]). destruct k; cbn; lia. Qed.

(** Every day number is the day number of its date, which is a date of the
    calendar. *)
Lemma date_of_days_spec n y m d :
  date_of_days n = (y, m, d) ->
  days_of_date y m d = n /\ 1 <= m <= 12 /\ 1 <= d <= days_in m y.
Proof.
  unfold date_of_days. destruct (year_of_days n) as [y' yd] eqn:Ey.
  apply year_of_days_spec in Ey as [-> Hd]. destruct (find_month _ _ _) as [m' d'] eqn:Em.
  intros [= -> -> ->]. apply find_month_spec in Em; [|by rewrite month_lengths_sum].
  destruct Em as (Hm & Hs & Hl). unfold days_of_date, days_before_month, days_in.
  cbn [month_lengths List.length] in Hm. lia.
Qed.

(** ** Round trip *)

Lemma getnum_pad2 fixed n l : 0 <= n < 100 -> getnum fixed (pad2 n ++ l) = Some (n, l).
Proof.
  intros Hn. cbn [getnum pad2 app]. unfold is_digit.
  replace ((48 <=? 48 + n / 10) && (48 + n / 10 <=? 57)) with true by div_lia.
  replace ((48 <=? 48 + n mod 10) && (48 + n mod 10 <=? 57)) with true by div_lia.
  cbn. do 2 f_equal. div_lia.
Qed.

Lemma getyear_pad4 n l : 0 <= n < 10000 -> getyear (pad4 n ++ l) = Some (n, l).
Proof.
  intros Hn. unfold pad4. rewrite (proj2 (Z.ltb_lt _ _)) by lia. cbn [getyear app].
  replace (is_digit (48 + n / 1000)) with true by (unfold is_digit; div_lia).
  replace (is_digit (48 + n / 100 mod 10)) with true by (unfold is_digit; div_lia).
  replace (is_digit (48 + n / 10 mod 10)) with true by (unfold is_digit; div_lia).
  replace (is_digit (48 + n mod 10)) with true by (unfold is_digit; div_lia).
  cbn. do 2 f_equal. div_lia.
Qed.

(** Digits, dashes, colons and two letters *)
Definition printable (b : Z) : Prop := 45 <= b <= 122.

Lemma pad2_printable n : 0 <= n < 100 -> Forall printable (pad2 n).
Proof. intros Hn. unfold printable. repeat constructor; div_lia. Qed.

Lemma pad4_printable n : 0 <= n < 10000 -> Forall printable (pad4 n).
Proof.
  intros Hn. unfold pad4, printable. rewrite (proj2 (Z.ltb_lt _ _)) by lia.
  repeat constructor; div_lia.
Qed.

(** The year of a time, in UTC *)
Definition year_of (t : Z) : Z := fst (year_of_days (t / second_ns / 86400 + unix_epoch_days)).

(** The parts of a time that [Format] writes *)
Lemma format_parts t :
  0 <= year_of t <= 9999 ->
  exists y m d, let s := t / second_ns mod 86400 in
    rfc3339_bytes t
    = pad4 y ++ [45] ++ pad2 m ++ [45] ++ pad2 d ++ [84] ++ pad2 (s / 3600) ++ [58]
      ++ pad2 (s / 60 mod 60) ++ [58] ++ pad2 (s mod 60) ++ [90]
    /\ days_of_date y m d = t / second_ns / 86400 + unix_epoch_days
    /\ 0 <= y <= 9999 /\ 1 <= m <= 12 /\ 1 <= d <= days_in m y /\ days_in m y <= 31.
Proof.
  unfold year_of, rfc3339_bytes. set (sec := t / second_ns).
  destruct (date_of_days (sec / 86400 + unix_epoch_days)) as [[y m] d] eqn:E. intros Hy.
  assert (Hyy : 0 <= y <= 9999).
  { unfold date_of_days in E. destruct (year_of_days _) as [y' yd]. destruct (find_month _ _ _).
    by injection E as <- _ _. }
  apply date_of_days_spec in E as (Hn & Hm & Hd). exists y, m, d. cbv zeta.
  rewrite (proj2 (Z.ltb_ge y 0)) by lia.
  pose proof (month_length_max (is_leap y) (Z.to_nat (m - 1))) as H31. by fold (days_in m y) in H31.
Qed.

Lemma format_printable t : 0 <= year_of t <= 9999 -> Forall printable (rfc3339_bytes t).
Proof.
  intros Hy. destruct (format_parts t Hy) as (y & m & d & -> & _ & Hyy & Hm & Hd & H31).
  repeat (apply Forall_app; split);
    first [ by repeat constructor | apply pad4_printable; lia | apply pad2_printable; div_lia ].
Qed.

Lemma format_bytes_of t :
  0 <= year_of t <= 9999 -> bytes_of (format_rfc3339 t) = rfc3339_bytes t.
Proof.
  intros Hy. apply bytes_of_str. eapply List.Forall_impl; [|by apply format_printable].
  unfold printable. lia.
Qed.

(** What [Format] writes is read back, to the second. *)
Lemma parse_format t :
  0 <= year_of t <= 9999 -> parse_rfc3339 (format_rfc3339 t) = Some (t / second_ns * second_ns).
Proof.
  intros Hy. unfold parse_rfc3339. rewrite format_bytes_of by done.
  destruct (format_parts t Hy) as (y & m & d & -> & Hn & Hyy & Hm & Hd & H31).
  set (sec := t / second_ns) in *. set (s := sec mod 86400).
  assert (Hs : 0 <= s < 86400) by (subst s; div_lia). unfold rfc3339, pbind.
  rewrite getyear_pad4 by lia. cbn [skip app Z.eqb Pos.eqb].
  do 2 (rewrite getnum_pad2 by lia; cbn [skip app Z.eqb Pos.eqb]).
  do 3 (rewrite getnum_pad2 by div_lia; cbn [skip app Z.eqb Pos.eqb]).
  cbn [getfraction getzone getend].
  unfold pguard. match goal with |- context [if ?b then _ else _] => replace b with true end.
  - f_equal. rewrite Hn. assert (E : sec = sec / 86400 * 86400 + s) by (subst s; div_lia).
    rewrite Z.add_0_r, Z.sub_0_r, Z.add_simpl_r. f_equal. clearbody s.
    set (q := sec / 86400) in *. clearbody q. clear - E Hs. div_lia.
  - clearbody s. symmetry. repeat (apply andb_true_iff; split); div_lia.
Qed.

(** Later times have later texts, to the second: the parsed deadline is never
    after the one that was formatted, and less than a second before it. *)
Lemma parse_format_bounds t t' :
  0 <= year_of t <= 9999 -> parse_rfc3339 (format_rfc3339 t) = Some t' -> t' <= t < t' + second_ns.
Proof. intros Hy. rewrite parse_format by done. intros [= <-]. unfold second_ns. div_lia. Qed.
