(* ===== verification/Schema.v ===== *)
(** * The database schema

    One [Record] per row type, with the fields of the Go struct that scans it
    (files and types are named in the manifest), and the [DB] record with one
    table per type.

    A nullable BIGINT column holds 0 for NULL: the sources write NULL exactly
    for 0 ([nullableInt64]) and read it back with [COALESCE(x, 0)], and no
    sequence ever yields 0.  Times are microseconds, as in [timestamptz]. *)

From stdpp Require Import base list strings numbers.
From Stdlib Require Import ZArith Lia String.
From S2P Require Import Prelude GoString Json.

(** A project as the sources read it: the row of [projects] joined with its
    [local_path] and [artifact_store] connections. *)
Record Record_ := MkRecord {
  p_ID : Z; p_Key : string; p_Name : string; p_Kind : string; p_Adapter : string;
  p_WorkflowProfile : string; p_DefaultBranch : string; p_RootPath : string;
  p_ArtifactBackend : string; p_ArtifactRoot : string }.

Record ActorRow := MkActor {
  ac_ID : Z; ac_Kind : string; ac_DisplayName : string; ac_ExternalKey : string;
  ac_CreatedAt : Z }.

(** A row of [command_requests]; a NULL [completed_at] is [None]. *)
Record CommandRequest := MkCommand {
  c_ID : Z; c_ProjectID : Z; c_CommandType : string; c_IdempotencyKey : string;
  c_RequestHash : string; c_Response : jmap; c_CreatedAt : Z; c_CompletedAt : option Z }.

Record WorkerRecord := MkWorker {
  w_ID : Z; w_ProjectID : Z; w_ActorID : Z; w_WorkerKey : string; w_WorkerType : string;
  w_Status : string; w_Hostname : string; w_PID : Z; w_Capabilities : list string;
  w_Metadata : jmap; w_RegisteredAt : Z; w_LastHeartbeatAt : option Z;
  w_HeartbeatIntervalSeconds : Z; w_LeaseTimeoutSeconds : Z; w_UpdatedAt : Z }.

Record HeartbeatRow := MkHeartbeat {
  h_ID : Z; h_ProjectID : Z; h_WorkerID : Z; h_Status : string; h_ObservedAt : Z;
  h_Metadata : jmap }.

Record RunRecord := MkRun {
  r_ID : Z; r_ProjectID : Z; r_WorkflowVersionID : Z; r_RunType : string; r_RunKind : string;
  r_Status : string; r_RiskLevel : string; r_RiskPolicy : string; r_DryRun : bool;
  r_Summary : jmap; r_Metadata : jmap; r_StartedAt : Z; r_FinishedAt : option Z }.

Record RunTaskRecord := MkRunTask {
  t_ID : Z; t_ProjectID : Z; t_WorkflowVersionID : Z; t_WorkflowItemID : Z; t_RunID : Z;
  t_TaskKey : string; t_TaskKind : string; t_Status : string; t_RiskLevel : string;
  t_Sequence : Z; t_Metadata : jmap; t_CreatedAt : Z; t_UpdatedAt : Z }.

Record RunAttemptRecord := MkRunAttempt {
  at_ID : Z; at_ProjectID : Z; at_WorkflowVersionID : Z; at_WorkflowItemID : Z;
  at_RunID : Z; at_RunTaskID : Z; at_AttemptKind : string; at_Status : string;
  at_DryRun : bool; at_Metadata : jmap; at_StartedAt : Z; at_FinishedAt : option Z }.

Record LeaseRecord := MkLease {
  l_ID : Z; l_ProjectID : Z; l_RunID : Z; l_RunTaskID : Z; l_WorkflowItemID : Z;
  l_WorkerID : Z; l_LeaseKind : string; l_Status : string; l_AcquiredAt : Z;
  l_ExpiresAt : Z; l_HeartbeatAt : option Z; l_ReleasedAt : option Z;
  l_AllowedCapabilities : list string; l_Scope : jmap; l_Metadata : jmap }.

Record ArtifactRecord := MkArtifact {
  ar_ID : Z; ar_ProjectID : Z; ar_WorkflowVersionID : Z; ar_RunID : Z;
  ar_WorkflowItemID : Z; ar_ArtifactType : string; ar_StorageBackend : string;
  ar_URI : string; ar_SourcePath : string; ar_SHA256 : string; ar_SizeBytes : Z;
  ar_ContentType : string; ar_Metadata : jmap; ar_CreatedAt : Z }.

(** A place where an artifact's content is kept; a NULL [verified_at] is [None]. *)
Record ArtifactLocation := MkLocation {
  al_ID : Z; al_ProjectID : Z; al_ArtifactID : Z; al_Role : string;
  al_StorageBackend : string; al_URI : string; al_SHA256 : string; al_SizeBytes : Z;
  al_ContentType : string; al_VerifiedAt : option Z; al_Metadata : jmap;
  al_CreatedAt : Z }.

(** A status snapshot of a project, and a projection of one onto a target; a
    [jsonb] column may hold any value, a NULL text or id is empty or 0. *)
Record StatusSnapshotRow := MkStatusSnapshot {
  ss_ID : Z; ss_ProjectID : Z; ss_SnapshotKind : string; ss_Summary : json;
  ss_SourceHash : string; ss_ExportPath : string; ss_CreatedAt : Z }.

Record StatusProjectionRecord := MkStatusProjection {
  sj_ID : Z; sj_ProjectID : Z; sj_WorkflowVersionID : Z; sj_TargetKind : string;
  sj_TargetURI : string; sj_SummaryState : string; sj_Payload : json; sj_SourceEventID : Z;
  sj_SourceHash : string; sj_WriteState : string; sj_GeneratedAt : Z; sj_WrittenAt : option Z;
  sj_Metadata : jmap }.

Record EventRecord := MkEvent {
  e_ID : Z; e_ProjectID : Z; e_RunID : Z; e_WorkflowVersionID : Z; e_Type : string;
  e_Severity : string; e_Message : string; e_Metadata : jmap; e_CreatedAt : Z }.

Record AuditEventRecord := MkAudit {
  au_ID : Z; au_ProjectID : Z; au_ActorID : Z; au_Action : string; au_Capability : string;
  au_ResourceType : string; au_Resource : string; au_Decision : string;
  au_Reason : string; au_Metadata : jmap; au_CreatedAt : Z }.

Record WorkflowVersion := MkVersion {
  v_ID : Z; v_ProjectID : Z; v_DisplayLabel : string; v_VersionKind : string;
  v_LifecycleStatus : string; v_SourcePath : string; v_SourceHash : string;
  v_ImportMode : string; v_Immutable : bool; v_StatusSummary : jmap; v_CreatedAt : Z;
  v_UpdatedAt : Z; v_ImportedAt : option Z }.

Record WorkflowItem := MkItem {
  i_ID : Z; i_ProjectID : Z; i_WorkflowVersionID : Z; i_Stage : string;
  i_ItemType : string; i_ExternalKey : string; i_Title : string; i_Status : string;
  i_SourcePath : string; i_SourceHash : string; i_Metadata : jmap; i_Immutable : bool;
  i_CreatedAt : Z; i_UpdatedAt : Z; i_ImportedAt : option Z }.

Record WorkflowItemLink := MkItemLink {
  k_ID : Z; k_ProjectID : Z; k_WorkflowVersionID : Z; k_FromItemID : Z; k_ToItemID : Z;
  k_RelationType : string; k_Metadata : jmap; k_CreatedAt : Z }.

Record GateResult := MkGateResult {
  g_ID : Z; g_ProjectID : Z; g_WorkflowVersionID : Z; g_WorkflowItemID : Z;
  g_GateName : string; g_ScopeType : string; g_ScopeID : string; g_Status : string;
  g_Inputs : jmap; g_SourceHashes : jmap; g_Failures : list string;
  g_Warnings : list string; g_EvidenceArtifactIDs : list Z; g_Metadata : jmap;
  g_CheckedAt : Z }.

Record WorkflowTransitionPreview := MkPreview {
  tp_ID : Z; tp_ProjectID : Z; tp_WorkflowVersionID : Z; tp_FromStage : string;
  tp_ToStage : string; tp_Status : string; tp_RequiredGateName : string;
  tp_GateResultID : Z; tp_Blockers : list string; tp_Warnings : list string;
  tp_Metadata : jmap; tp_CreatedAt : Z }.

Record ApprovalRecord := MkApproval {
  ap_ID : Z; ap_ProjectID : Z; ap_WorkflowVersionID : Z; ap_TransitionPreviewID : Z;
  ap_ApprovalKind : string; ap_Decision : string; ap_ScopeType : string;
  ap_ScopeID : string; ap_Actor : string; ap_Reason : string; ap_RiskLevel : string;
  ap_Metadata : jmap; ap_CreatedAt : Z }.

(** A row of [project_permissions]; the table is its rows in id order. *)
Record permissionRow := MkPermission {
  pr_ProjectID : Z; pr_Capability : string; pr_Effect : string; pr_ResourceType : string;
  pr_Pattern : string }.

(** ** Identity and access ([internal/auth])

    A NULL text column ([email]) reads as the empty string. *)

Record UserRow := MkUser {
  us_ID : Z; us_ActorID : Z; us_Email : string; us_DisplayName : string; us_Status : string;
  us_ExternalKey : string; us_Metadata : jmap; us_CreatedAt : Z; us_UpdatedAt : Z }.

Record TeamRow := MkTeam { te_ID : Z; te_TeamKey : string; te_Name : string; te_Status : string }.

Record MembershipRow := MkMembership {
  mb_ID : Z; mb_TeamID : Z; mb_UserID : Z; mb_Role : string; mb_Status : string }.

Record IdentityRow := MkIdentity {
  ui_ID : Z; ui_UserID : Z; ui_Issuer : string; ui_Subject : string; ui_EmailSnapshot : string;
  ui_ClaimsHash : string; ui_Status : string; ui_LastAuthenticatedAt : option Z;
  ui_CreatedAt : Z; ui_UpdatedAt : Z }.

Record BindingRow := MkBindingRow {
  rb_ID : Z; rb_ProjectID : Z; rb_UserID : Z; rb_TeamID : Z; rb_Role : string;
  rb_Status : string; rb_Reason : string; rb_AssignedBy : Z; rb_ExpiresAt : option Z;
  rb_RevokedAt : option Z; rb_CreatedAt : Z; rb_UpdatedAt : Z }.

Record SessionRow := MkSession {
  ws_ID : Z; ws_UserID : Z; ws_ActorID : Z; ws_SessionKey : string; ws_SessionHash : string;
  ws_CSRFHash : string; ws_Issuer : string; ws_AuthTime : Z; ws_IdleTTLSeconds : Z;
  ws_IdleExpiresAt : Z; ws_AbsoluteExpiresAt : Z; ws_LastSeenAt : Z; ws_Status : string;
  ws_RevokedAt : option Z; ws_CreatedAt : Z }.

Record TokenRow := MkToken {
  tk_ID : Z; tk_ActorID : Z; tk_TokenKey : string; tk_TokenHash : string; tk_Scope : jmap;
  tk_Status : string; tk_ExpiresAt : option Z; tk_TokenType : string; tk_CreatedBy : Z;
  tk_RotatedFrom : Z; tk_Reason : string; tk_CreatedAt : Z; tk_RevokedAt : option Z }.

(** ** Tables

    A table is its rows in insertion order and the next value of its BIGSERIAL
    sequence. *)

Record table (R : Type) := MkTable { t_rows : list R; t_next : Z }.
Arguments MkTable {R} _ _.
Arguments t_rows {R} _.
Arguments t_next {R} _.

Definition empty_table {R} : table R := MkTable [] 1.

(** INSERT with the row's [id] drawn from the sequence *)
Definition table_insert {R} (mkrow : Z -> R) (t : table R) : table R :=
  MkTable (t_rows t ++ [mkrow (t_next t)]) (t_next t + 1).

(** UPDATE ... SET f WHERE p *)
Definition table_update {R} (p : R -> bool) (f : R -> R) (t : table R) : table R :=
  MkTable (List.map (fun r => if p r then f r else r) (t_rows t)) (t_next t).

(** SELECT ... WHERE p, in table order *)
Definition table_select {R} (p : R -> bool) (t : table R) : list R :=
  List.filter p (t_rows t).

Record DB := MkDB {
  db_projects : table Record_;
  db_actors : table ActorRow;
  db_command_requests : table CommandRequest;
  db_workers : table WorkerRecord;
  db_worker_heartbeats : table HeartbeatRow;
  db_runs : table RunRecord;
  db_run_tasks : table RunTaskRecord;
  db_run_attempts : table RunAttemptRecord;
  db_leases : table LeaseRecord;
  db_artifacts : table ArtifactRecord;
  db_events : table EventRecord;
  db_audit_events : table AuditEventRecord;
  db_workflow_versions : table WorkflowVersion;
  db_workflow_items : table WorkflowItem;
  db_workflow_item_links : table WorkflowItemLink;
  db_gate_results : table GateResult;
  db_transition_previews : table WorkflowTransitionPreview;
  db_approval_records : table ApprovalRecord;
  db_users : table UserRow;
  db_teams : table TeamRow;
  db_memberships : table MembershipRow;
  db_user_identities : table IdentityRow;
  db_role_bindings : table BindingRow;
  db_web_sessions : table SessionRow;
  db_api_tokens : table TokenRow;
  db_artifact_locations : table ArtifactLocation;
  db_project_status_snapshots : table StatusSnapshotRow;
  db_status_projections : table StatusProjectionRecord;
  db_project_permissions : list permissionRow }.

Definition empty_db : DB :=
  MkDB empty_table empty_table empty_table empty_table empty_table empty_table empty_table empty_table empty_table empty_table empty_table empty_table empty_table empty_table empty_table empty_table empty_table empty_table empty_table empty_table empty_table empty_table empty_table empty_table empty_table empty_table empty_table empty_table [].

(** The table that holds rows of a type, and replacing it. *)
Class HasTable (R : Type) := {
  tget : DB -> table R;
  tset : table R -> DB -> DB;
  row_id : R -> Z;
  tget_tset : forall t db, tget (tset t db) = t;
  tset_tget : forall db, tset (tget db) db = db;
  tset_tset : forall t t' db, tset t (tset t' db) = tset t db;
}.

Definition set_projects (t : table Record_) (db : DB) : DB :=
  MkDB t (db_actors db) (db_command_requests db) (db_workers db) (db_worker_heartbeats db) (db_runs db) (db_run_tasks db) (db_run_attempts db) (db_leases db) (db_artifacts db) (db_events db) (db_audit_events db) (db_workflow_versions db) (db_workflow_items db) (db_workflow_item_links db) (db_gate_results db) (db_transition_previews db) (db_approval_records db) (db_users db) (db_teams db) (db_memberships db) (db_user_identities db) (db_role_bindings db) (db_web_sessions db) (db_api_tokens db) (db_artifact_locations db) (db_project_status_snapshots db) (db_status_projections db) (db_project_permissions db).
Definition set_actors (t : table ActorRow) (db : DB) : DB :=
  MkDB (db_projects db) t (db_command_requests db) (db_workers db) (db_worker_heartbeats db) (db_runs db) (db_run_tasks db) (db_run_attempts db) (db_leases db) (db_artifacts db) (db_events db) (db_audit_events db) (db_workflow_versions db) (db_workflow_items db) (db_workflow_item_links db) (db_gate_results db) (db_transition_previews db) (db_approval_records db) (db_users db) (db_teams db) (db_memberships db) (db_user_identities db) (db_role_bindings db) (db_web_sessions db) (db_api_tokens db) (db_artifact_locations db) (db_project_status_snapshots db) (db_status_projections db) (db_project_permissions db).
Definition set_command_requests (t : table CommandRequest) (db : DB) : DB :=
  MkDB (db_projects db) (db_actors db) t (db_workers db) (db_worker_heartbeats db) (db_runs db) (db_run_tasks db) (db_run_attempts db) (db_leases db) (db_artifacts db) (db_events db) (db_audit_events db) (db_workflow_versions db) (db_workflow_items db) (db_workflow_item_links db) (db_gate_results db) (db_transition_previews db) (db_approval_records db) (db_users db) (db_teams db) (db_memberships db) (db_user_identities db) (db_role_bindings db) (db_web_sessions db) (db_api_tokens db) (db_artifact_locations db) (db_project_status_snapshots db) (db_status_projections db) (db_project_permissions db).
Definition set_workers (t : table WorkerRecord) (db : DB) : DB :=
  MkDB (db_projects db) (db_actors db) (db_command_requests db) t (db_worker_heartbeats db) (db_runs db) (db_run_tasks db) (db_run_attempts db) (db_leases db) (db_artifacts db) (db_events db) (db_audit_events db) (db_workflow_versions db) (db_workflow_items db) (db_workflow_item_links db) (db_gate_results db) (db_transition_previews db) (db_approval_records db) (db_users db) (db_teams db) (db_memberships db) (db_user_identities db) (db_role_bindings db) (db_web_sessions db) (db_api_tokens db) (db_artifact_locations db) (db_project_status_snapshots db) (db_status_projections db) (db_project_permissions db).
Definition set_worker_heartbeats (t : table HeartbeatRow) (db : DB) : DB :=
  MkDB (db_projects db) (db_actors db) (db_command_requests db) (db_workers db) t (db_runs db) (db_run_tasks db) (db_run_attempts db) (db_leases db) (db_artifacts db) (db_events db) (db_audit_events db) (db_workflow_versions db) (db_workflow_items db) (db_workflow_item_links db) (db_gate_results db) (db_transition_previews db) (db_approval_records db) (db_users db) (db_teams db) (db_memberships db) (db_user_identities db) (db_role_bindings db) (db_web_sessions db) (db_api_tokens db) (db_artifact_locations db) (db_project_status_snapshots db) (db_status_projections db) (db_project_permissions db).
Definition set_runs (t : table RunRecord) (db : DB) : DB :=
  MkDB (db_projects db) (db_actors db) (db_command_requests db) (db_workers db) (db_worker_heartbeats db) t (db_run_tasks db) (db_run_attempts db) (db_leases db) (db_artifacts db) (db_events db) (db_audit_events db) (db_workflow_versions db) (db_workflow_items db) (db_workflow_item_links db) (db_gate_results db) (db_transition_previews db) (db_approval_records db) (db_users db) (db_teams db) (db_memberships db) (db_user_identities db) (db_role_bindings db) (db_web_sessions db) (db_api_tokens db) (db_artifact_locations db) (db_project_status_snapshots db) (db_status_projections db) (db_project_permissions db).
Definition set_run_tasks (t : table RunTaskRecord) (db : DB) : DB :=
  MkDB (db_projects db) (db_actors db) (db_command_requests db) (db_workers db) (db_worker_heartbeats db) (db_runs db) t (db_run_attempts db) (db_leases db) (db_artifacts db) (db_events db) (db_audit_events db) (db_workflow_versions db) (db_workflow_items db) (db_workflow_item_links db) (db_gate_results db) (db_transition_previews db) (db_approval_records db) (db_users db) (db_teams db) (db_memberships db) (db_user_identities db) (db_role_bindings db) (db_web_sessions db) (db_api_tokens db) (db_artifact_locations db) (db_project_status_snapshots db) (db_status_projections db) (db_project_permissions db).
Definition set_run_attempts (t : table RunAttemptRecord) (db : DB) : DB :=
  MkDB (db_projects db) (db_actors db) (db_command_requests db) (db_workers db) (db_worker_heartbeats db) (db_runs db) (db_run_tasks db) t (db_leases db) (db_artifacts db) (db_events db) (db_audit_events db) (db_workflow_versions db) (db_workflow_items db) (db_workflow_item_links db) (db_gate_results db) (db_transition_previews db) (db_approval_records db) (db_users db) (db_teams db) (db_memberships db) (db_user_identities db) (db_role_bindings db) (db_web_sessions db) (db_api_tokens db) (db_artifact_locations db) (db_project_status_snapshots db) (db_status_projections db) (db_project_permissions db).
Definition set_leases (t : table LeaseRecord) (db : DB) : DB :=
  MkDB (db_projects db) (db_actors db) (db_command_requests db) (db_workers db) (db_worker_heartbeats db) (db_runs db) (db_run_tasks db) (db_run_attempts db) t (db_artifacts db) (db_events db) (db_audit_events db) (db_workflow_versions db) (db_workflow_items db) (db_workflow_item_links db) (db_gate_results db) (db_transition_previews db) (db_approval_records db) (db_users db) (db_teams db) (db_memberships db) (db_user_identities db) (db_role_bindings db) (db_web_sessions db) (db_api_tokens db) (db_artifact_locations db) (db_project_status_snapshots db) (db_status_projections db) (db_project_permissions db).
Definition set_artifacts (t : table ArtifactRecord) (db : DB) : DB :=
  MkDB (db_projects db) (db_actors db) (db_command_requests db) (db_workers db) (db_worker_heartbeats db) (db_runs db) (db_run_tasks db) (db_run_attempts db) (db_leases db) t (db_events db) (db_audit_events db) (db_workflow_versions db) (db_workflow_items db) (db_workflow_item_links db) (db_gate_results db) (db_transition_previews db) (db_approval_records db) (db_users db) (db_teams db) (db_memberships db) (db_user_identities db) (db_role_bindings db) (db_web_sessions db) (db_api_tokens db) (db_artifact_locations db) (db_project_status_snapshots db) (db_status_projections db) (db_project_permissions db).
Definition set_events (t : table EventRecord) (db : DB) : DB :=
  MkDB (db_projects db) (db_actors db) (db_command_requests db) (db_workers db) (db_worker_heartbeats db) (db_runs db) (db_run_tasks db) (db_run_attempts db) (db_leases db) (db_artifacts db) t (db_audit_events db) (db_workflow_versions db) (db_workflow_items db) (db_workflow_item_links db) (db_gate_results db) (db_transition_previews db) (db_approval_records db) (db_users db) (db_teams db) (db_memberships db) (db_user_identities db) (db_role_bindings db) (db_web_sessions db) (db_api_tokens db) (db_artifact_locations db) (db_project_status_snapshots db) (db_status_projections db) (db_project_permissions db).
Definition set_audit_events (t : table AuditEventRecord) (db : DB) : DB :=
  MkDB (db_projects db) (db_actors db) (db_command_requests db) (db_workers db) (db_worker_heartbeats db) (db_runs db) (db_run_tasks db) (db_run_attempts db) (db_leases db) (db_artifacts db) (db_events db) t (db_workflow_versions db) (db_workflow_items db) (db_workflow_item_links db) (db_gate_results db) (db_transition_previews db) (db_approval_records db) (db_users db) (db_teams db) (db_memberships db) (db_user_identities db) (db_role_bindings db) (db_web_sessions db) (db_api_tokens db) (db_artifact_locations db) (db_project_status_snapshots db) (db_status_projections db) (db_project_permissions db).
Definition set_workflow_versions (t : table WorkflowVersion) (db : DB) : DB :=
  MkDB (db_projects db) (db_actors db) (db_command_requests db) (db_workers db) (db_worker_heartbeats db) (db_runs db) (db_run_tasks db) (db_run_attempts db) (db_leases db) (db_artifacts db) (db_events db) (db_audit_events db) t (db_workflow_items db) (db_workflow_item_links db) (db_gate_results db) (db_transition_previews db) (db_approval_records db) (db_users db) (db_teams db) (db_memberships db) (db_user_identities db) (db_role_bindings db) (db_web_sessions db) (db_api_tokens db) (db_artifact_locations db) (db_project_status_snapshots db) (db_status_projections db) (db_project_permissions db).
Definition set_workflow_items (t : table WorkflowItem) (db : DB) : DB :=
  MkDB (db_projects db) (db_actors db) (db_command_requests db) (db_workers db) (db_worker_heartbeats db) (db_runs db) (db_run_tasks db) (db_run_attempts db) (db_leases db) (db_artifacts db) (db_events db) (db_audit_events db) (db_workflow_versions db) t (db_workflow_item_links db) (db_gate_results db) (db_transition_previews db) (db_approval_records db) (db_users db) (db_teams db) (db_memberships db) (db_user_identities db) (db_role_bindings db) (db_web_sessions db) (db_api_tokens db) (db_artifact_locations db) (db_project_status_snapshots db) (db_status_projections db) (db_project_permissions db).
Definition set_workflow_item_links (t : table WorkflowItemLink) (db : DB) : DB :=
  MkDB (db_projects db) (db_actors db) (db_command_requests db) (db_workers db) (db_worker_heartbeats db) (db_runs db) (db_run_tasks db) (db_run_attempts db) (db_leases db) (db_artifacts db) (db_events db) (db_audit_events db) (db_workflow_versions db) (db_workflow_items db) t (db_gate_results db) (db_transition_previews db) (db_approval_records db) (db_users db) (db_teams db) (db_memberships db) (db_user_identities db) (db_role_bindings db) (db_web_sessions db) (db_api_tokens db) (db_artifact_locations db) (db_project_status_snapshots db) (db_status_projections db) (db_project_permissions db).
Definition set_gate_results (t : table GateResult) (db : DB) : DB :=
  MkDB (db_projects db) (db_actors db) (db_command_requests db) (db_workers db) (db_worker_heartbeats db) (db_runs db) (db_run_tasks db) (db_run_attempts db) (db_leases db) (db_artifacts db) (db_events db) (db_audit_events db) (db_workflow_versions db) (db_workflow_items db) (db_workflow_item_links db) t (db_transition_previews db) (db_approval_records db) (db_users db) (db_teams db) (db_memberships db) (db_user_identities db) (db_role_bindings db) (db_web_sessions db) (db_api_tokens db) (db_artifact_locations db) (db_project_status_snapshots db) (db_status_projections db) (db_project_permissions db).
Definition set_transition_previews (t : table WorkflowTransitionPreview) (db : DB) : DB :=
  MkDB (db_projects db) (db_actors db) (db_command_requests db) (db_workers db) (db_worker_heartbeats db) (db_runs db) (db_run_tasks db) (db_run_attempts db) (db_leases db) (db_artifacts db) (db_events db) (db_audit_events db) (db_workflow_versions db) (db_workflow_items db) (db_workflow_item_links db) (db_gate_results db) t (db_approval_records db) (db_users db) (db_teams db) (db_memberships db) (db_user_identities db) (db_role_bindings db) (db_web_sessions db) (db_api_tokens db) (db_artifact_locations db) (db_project_status_snapshots db) (db_status_projections db) (db_project_permissions db).
Definition set_approval_records (t : table ApprovalRecord) (db : DB) : DB :=
  MkDB (db_projects db) (db_actors db) (db_command_requests db) (db_workers db) (db_worker_heartbeats db) (db_runs db) (db_run_tasks db) (db_run_attempts db) (db_leases db) (db_artifacts db) (db_events db) (db_audit_events db) (db_workflow_versions db) (db_workflow_items db) (db_workflow_item_links db) (db_gate_results db) (db_transition_previews db) t (db_users db) (db_teams db) (db_memberships db) (db_user_identities db) (db_role_bindings db) (db_web_sessions db) (db_api_tokens db) (db_artifact_locations db) (db_project_status_snapshots db) (db_status_projections db) (db_project_permissions db).
Definition set_users (t : table UserRow) (db : DB) : DB :=
  MkDB (db_projects db) (db_actors db) (db_command_requests db) (db_workers db) (db_worker_heartbeats db) (db_runs db) (db_run_tasks db) (db_run_attempts db) (db_leases db) (db_artifacts db) (db_events db) (db_audit_events db) (db_workflow_versions db) (db_workflow_items db) (db_workflow_item_links db) (db_gate_results db) (db_transition_previews db) (db_approval_records db) t (db_teams db) (db_memberships db) (db_user_identities db) (db_role_bindings db) (db_web_sessions db) (db_api_tokens db) (db_artifact_locations db) (db_project_status_snapshots db) (db_status_projections db) (db_project_permissions db).
Definition set_teams (t : table TeamRow) (db : DB) : DB :=
  MkDB (db_projects db) (db_actors db) (db_command_requests db) (db_workers db) (db_worker_heartbeats db) (db_runs db) (db_run_tasks db) (db_run_attempts db) (db_leases db) (db_artifacts db) (db_events db) (db_audit_events db) (db_workflow_versions db) (db_workflow_items db) (db_workflow_item_links db) (db_gate_results db) (db_transition_previews db) (db_approval_records db) (db_users db) t (db_memberships db) (db_user_identities db) (db_role_bindings db) (db_web_sessions db) (db_api_tokens db) (db_artifact_locations db) (db_project_status_snapshots db) (db_status_projections db) (db_project_permissions db).
Definition set_memberships (t : table MembershipRow) (db : DB) : DB :=
  MkDB (db_projects db) (db_actors db) (db_command_requests db) (db_workers db) (db_worker_heartbeats db) (db_runs db) (db_run_tasks db) (db_run_attempts db) (db_leases db) (db_artifacts db) (db_events db) (db_audit_events db) (db_workflow_versions db) (db_workflow_items db) (db_workflow_item_links db) (db_gate_results db) (db_transition_previews db) (db_approval_records db) (db_users db) (db_teams db) t (db_user_identities db) (db_role_bindings db) (db_web_sessions db) (db_api_tokens db) (db_artifact_locations db) (db_project_status_snapshots db) (db_status_projections db) (db_project_permissions db).
Definition set_user_identities (t : table IdentityRow) (db : DB) : DB :=
  MkDB (db_projects db) (db_actors db) (db_command_requests db) (db_workers db) (db_worker_heartbeats db) (db_runs db) (db_run_tasks db) (db_run_attempts db) (db_leases db) (db_artifacts db) (db_events db) (db_audit_events db) (db_workflow_versions db) (db_workflow_items db) (db_workflow_item_links db) (db_gate_results db) (db_transition_previews db) (db_approval_records db) (db_users db) (db_teams db) (db_memberships db) t (db_role_bindings db) (db_web_sessions db) (db_api_tokens db) (db_artifact_locations db) (db_project_status_snapshots db) (db_status_projections db) (db_project_permissions db).
Definition set_role_bindings (t : table BindingRow) (db : DB) : DB :=
  MkDB (db_projects db) (db_actors db) (db_command_requests db) (db_workers db) (db_worker_heartbeats db) (db_runs db) (db_run_tasks db) (db_run_attempts db) (db_leases db) (db_artifacts db) (db_events db) (db_audit_events db) (db_workflow_versions db) (db_workflow_items db) (db_workflow_item_links db) (db_gate_results db) (db_transition_previews db) (db_approval_records db) (db_users db) (db_teams db) (db_memberships db) (db_user_identities db) t (db_web_sessions db) (db_api_tokens db) (db_artifact_locations db) (db_project_status_snapshots db) (db_status_projections db) (db_project_permissions db).
Definition set_web_sessions (t : table SessionRow) (db : DB) : DB :=
  MkDB (db_projects db) (db_actors db) (db_command_requests db) (db_workers db) (db_worker_heartbeats db) (db_runs db) (db_run_tasks db) (db_run_attempts db) (db_leases db) (db_artifacts db) (db_events db) (db_audit_events db) (db_workflow_versions db) (db_workflow_items db) (db_workflow_item_links db) (db_gate_results db) (db_transition_previews db) (db_approval_records db) (db_users db) (db_teams db) (db_memberships db) (db_user_identities db) (db_role_bindings db) t (db_api_tokens db) (db_artifact_locations db) (db_project_status_snapshots db) (db_status_projections db) (db_project_permissions db).
Definition set_api_tokens (t : table TokenRow) (db : DB) : DB :=
  MkDB (db_projects db) (db_actors db) (db_command_requests db) (db_workers db) (db_worker_heartbeats db) (db_runs db) (db_run_tasks db) (db_run_attempts db) (db_leases db) (db_artifacts db) (db_events db) (db_audit_events db) (db_workflow_versions db) (db_workflow_items db) (db_workflow_item_links db) (db_gate_results db) (db_transition_previews db) (db_approval_records db) (db_users db) (db_teams db) (db_memberships db) (db_user_identities db) (db_role_bindings db) (db_web_sessions db) t (db_artifact_locations db) (db_project_status_snapshots db) (db_status_projections db) (db_project_permissions db).
Definition set_artifact_locations (t : table ArtifactLocation) (db : DB) : DB :=
  MkDB (db_projects db) (db_actors db) (db_command_requests db) (db_workers db) (db_worker_heartbeats db) (db_runs db) (db_run_tasks db) (db_run_attempts db) (db_leases db) (db_artifacts db) (db_events db) (db_audit_events db) (db_workflow_versions db) (db_workflow_items db) (db_workflow_item_links db) (db_gate_results db) (db_transition_previews db) (db_approval_records db) (db_users db) (db_teams db) (db_memberships db) (db_user_identities db) (db_role_bindings db) (db_web_sessions db) (db_api_tokens db) t (db_project_status_snapshots db) (db_status_projections db) (db_project_permissions db).
Definition set_project_status_snapshots (t : table StatusSnapshotRow) (db : DB) : DB :=
  MkDB (db_projects db) (db_actors db) (db_command_requests db) (db_workers db) (db_worker_heartbeats db) (db_runs db) (db_run_tasks db) (db_run_attempts db) (db_leases db) (db_artifacts db) (db_events db) (db_audit_events db) (db_workflow_versions db) (db_workflow_items db) (db_workflow_item_links db) (db_gate_results db) (db_transition_previews db) (db_approval_records db) (db_users db) (db_teams db) (db_memberships db) (db_user_identities db) (db_role_bindings db) (db_web_sessions db) (db_api_tokens db) (db_artifact_locations db) t (db_status_projections db) (db_project_permissions db).
Definition set_status_projections (t : table StatusProjectionRecord) (db : DB) : DB :=
  MkDB (db_projects db) (db_actors db) (db_command_requests db) (db_workers db) (db_worker_heartbeats db) (db_runs db) (db_run_tasks db) (db_run_attempts db) (db_leases db) (db_artifacts db) (db_events db) (db_audit_events db) (db_workflow_versions db) (db_workflow_items db) (db_workflow_item_links db) (db_gate_results db) (db_transition_previews db) (db_approval_records db) (db_users db) (db_teams db) (db_memberships db) (db_user_identities db) (db_role_bindings db) (db_web_sessions db) (db_api_tokens db) (db_artifact_locations db) (db_project_status_snapshots db) t (db_project_permissions db).
Definition set_project_permissions (l : list permissionRow) (db : DB) : DB :=
  MkDB (db_projects db) (db_actors db) (db_command_requests db) (db_workers db) (db_worker_heartbeats db) (db_runs db) (db_run_tasks db) (db_run_attempts db) (db_leases db) (db_artifacts db) (db_events db) (db_audit_events db) (db_workflow_versions db) (db_workflow_items db) (db_workflow_item_links db) (db_gate_results db) (db_transition_previews db) (db_approval_records db) (db_users db) (db_teams db) (db_memberships db) (db_user_identities db) (db_role_bindings db) (db_web_sessions db) (db_api_tokens db) (db_artifact_locations db) (db_project_status_snapshots db) (db_status_projections db) l.

#[global] Instance projects_table : HasTable Record_ := {
  tget := db_projects; tset := set_projects; row_id := p_ID;
  tget_tset := fun t db => eq_refl;
  tset_tget := fun db => match db with MkDB _ _ _ _ _ _ _ _ _ _ _ _ _ _ _ _ _ _ _ _ _ _ _ _ _ _ _ _ _ => eq_refl end;
  tset_tset := fun t t' db => eq_refl }.
#[global] Instance actors_table : HasTable ActorRow := {
  tget := db_actors; tset := set_actors; row_id := ac_ID;
  tget_tset := fun t db => eq_refl;
  tset_tget := fun db => match db with MkDB _ _ _ _ _ _ _ _ _ _ _ _ _ _ _ _ _ _ _ _ _ _ _ _ _ _ _ _ _ => eq_refl end;
  tset_tset := fun t t' db => eq_refl }.
#[global] Instance command_requests_table : HasTable CommandRequest := {
  tget := db_command_requests; tset := set_command_requests; row_id := c_ID;
  tget_tset := fun t db => eq_refl;
  tset_tget := fun db => match db with MkDB _ _ _ _ _ _ _ _ _ _ _ _ _ _ _ _ _ _ _ _ _ _ _ _ _ _ _ _ _ => eq_refl end;
  tset_tset := fun t t' db => eq_refl }.
#[global] Instance workers_table : HasTable WorkerRecord := {
  tget := db_workers; tset := set_workers; row_id := w_ID;
  tget_tset := fun t db => eq_refl;
  tset_tget := fun db => match db with MkDB _ _ _ _ _ _ _ _ _ _ _ _ _ _ _ _ _ _ _ _ _ _ _ _ _ _ _ _ _ => eq_refl end;
  tset_tset := fun t t' db => eq_refl }.
#[global] Instance worker_heartbeats_table : HasTable HeartbeatRow := {
  tget := db_worker_heartbeats; tset := set_worker_heartbeats; row_id := h_ID;
  tget_tset := fun t db => eq_refl;
  tset_tget := fun db => match db with MkDB _ _ _ _ _ _ _ _ _ _ _ _ _ _ _ _ _ _ _ _ _ _ _ _ _ _ _ _ _ => eq_refl end;
  tset_tset := fun t t' db => eq_refl }.
#[global] Instance runs_table : HasTable RunRecord := {
  tget := db_runs; tset := set_runs; row_id := r_ID;
  tget_tset := fun t db => eq_refl;
  tset_tget := fun db => match db with MkDB _ _ _ _ _ _ _ _ _ _ _ _ _ _ _ _ _ _ _ _ _ _ _ _ _ _ _ _ _ => eq_refl end;
  tset_tset := fun t t' db => eq_refl }.
#[global] Instance run_tasks_table : HasTable RunTaskRecord := {
  tget := db_run_tasks; tset := set_run_tasks; row_id := t_ID;
  tget_tset := fun t db => eq_refl;
  tset_tget := fun db => match db with MkDB _ _ _ _ _ _ _ _ _ _ _ _ _ _ _ _ _ _ _ _ _ _ _ _ _ _ _ _ _ => eq_refl end;
  tset_tset := fun t t' db => eq_refl }.
#[global] Instance run_attempts_table : HasTable RunAttemptRecord := {
  tget := db_run_attempts; tset := set_run_attempts; row_id := at_ID;
  tget_tset := fun t db => eq_refl;
  tset_tget := fun db => match db with MkDB _ _ _ _ _ _ _ _ _ _ _ _ _ _ _ _ _ _ _ _ _ _ _ _ _ _ _ _ _ => eq_refl end;
  tset_tset := fun t t' db => eq_refl }.
#[global] Instance leases_table : HasTable LeaseRecord := {
  tget := db_leases; tset := set_leases; row_id := l_ID;
  tget_tset := fun t db => eq_refl;
  tset_tget := fun db => match db with MkDB _ _ _ _ _ _ _ _ _ _ _ _ _ _ _ _ _ _ _ _ _ _ _ _ _ _ _ _ _ => eq_refl end;
  tset_tset := fun t t' db => eq_refl }.
#[global] Instance artifacts_table : HasTable ArtifactRecord := {
  tget := db_artifacts; tset := set_artifacts; row_id := ar_ID;
  tget_tset := fun t db => eq_refl;
  tset_tget := fun db => match db with MkDB _ _ _ _ _ _ _ _ _ _ _ _ _ _ _ _ _ _ _ _ _ _ _ _ _ _ _ _ _ => eq_refl end;
  tset_tset := fun t t' db => eq_refl }.
#[global] Instance events_table : HasTable EventRecord := {
  tget := db_events; tset := set_events; row_id := e_ID;
  tget_tset := fun t db => eq_refl;
  tset_tget := fun db => match db with MkDB _ _ _ _ _ _ _ _ _ _ _ _ _ _ _ _ _ _ _ _ _ _ _ _ _ _ _ _ _ => eq_refl end;
  tset_tset := fun t t' db => eq_refl }.
#[global] Instance audit_events_table : HasTable AuditEventRecord := {
  tget := db_audit_events; tset := set_audit_events; row_id := au_ID;
  tget_tset := fun t db => eq_refl;
  tset_tget := fun db => match db with MkDB _ _ _ _ _ _ _ _ _ _ _ _ _ _ _ _ _ _ _ _ _ _ _ _ _ _ _ _ _ => eq_refl end;
  tset_tset := fun t t' db => eq_refl }.
#[global] Instance workflow_versions_table : HasTable WorkflowVersion := {
  tget := db_workflow_versions; tset := set_workflow_versions; row_id := v_ID;
  tget_tset := fun t db => eq_refl;
  tset_tget := fun db => match db with MkDB _ _ _ _ _ _ _ _ _ _ _ _ _ _ _ _ _ _ _ _ _ _ _ _ _ _ _ _ _ => eq_refl end;
  tset_tset := fun t t' db => eq_refl }.
#[global] Instance workflow_items_table : HasTable WorkflowItem := {
  tget := db_workflow_items; tset := set_workflow_items; row_id := i_ID;
  tget_tset := fun t db => eq_refl;
  tset_tget := fun db => match db with MkDB _ _ _ _ _ _ _ _ _ _ _ _ _ _ _ _ _ _ _ _ _ _ _ _ _ _ _ _ _ => eq_refl end;
  tset_tset := fun t t' db => eq_refl }.
#[global] Instance workflow_item_links_table : HasTable WorkflowItemLink := {
  tget := db_workflow_item_links; tset := set_workflow_item_links; row_id := k_ID;
  tget_tset := fun t db => eq_refl;
  tset_tget := fun db => match db with MkDB _ _ _ _ _ _ _ _ _ _ _ _ _ _ _ _ _ _ _ _ _ _ _ _ _ _ _ _ _ => eq_refl end;
  tset_tset := fun t t' db => eq_refl }.
#[global] Instance gate_results_table : HasTable GateResult := {
  tget := db_gate_results; tset := set_gate_results; row_id := g_ID;
  tget_tset := fun t db => eq_refl;
  tset_tget := fun db => match db with MkDB _ _ _ _ _ _ _ _ _ _ _ _ _ _ _ _ _ _ _ _ _ _ _ _ _ _ _ _ _ => eq_refl end;
  tset_tset := fun t t' db => eq_refl }.
#[global] Instance transition_previews_table : HasTable WorkflowTransitionPreview := {
  tget := db_transition_previews; tset := set_transition_previews; row_id := tp_ID;
  tget_tset := fun t db => eq_refl;
  tset_tget := fun db => match db with MkDB _ _ _ _ _ _ _ _ _ _ _ _ _ _ _ _ _ _ _ _ _ _ _ _ _ _ _ _ _ => eq_refl end;
  tset_tset := fun t t' db => eq_refl }.
#[global] Instance approval_records_table : HasTable ApprovalRecord := {
  tget := db_approval_records; tset := set_approval_records; row_id := ap_ID;
  tget_tset := fun t db => eq_refl;
  tset_tget := fun db => match db with MkDB _ _ _ _ _ _ _ _ _ _ _ _ _ _ _ _ _ _ _ _ _ _ _ _ _ _ _ _ _ => eq_refl end;
  tset_tset := fun t t' db => eq_refl }.
#[global] Instance users_table : HasTable UserRow := {
  tget := db_users; tset := set_users; row_id := us_ID;
  tget_tset := fun t db => eq_refl;
  tset_tget := fun db => match db with MkDB _ _ _ _ _ _ _ _ _ _ _ _ _ _ _ _ _ _ _ _ _ _ _ _ _ _ _ _ _ => eq_refl end;
  tset_tset := fun t t' db => eq_refl }.
#[global] Instance teams_table : HasTable TeamRow := {
  tget := db_teams; tset := set_teams; row_id := te_ID;
  tget_tset := fun t db => eq_refl;
  tset_tget := fun db => match db with MkDB _ _ _ _ _ _ _ _ _ _ _ _ _ _ _ _ _ _ _ _ _ _ _ _ _ _ _ _ _ => eq_refl end;
  tset_tset := fun t t' db => eq_refl }.
#[global] Instance memberships_table : HasTable MembershipRow := {
  tget := db_memberships; tset := set_memberships; row_id := mb_ID;
  tget_tset := fun t db => eq_refl;
  tset_tget := fun db => match db with MkDB _ _ _ _ _ _ _ _ _ _ _ _ _ _ _ _ _ _ _ _ _ _ _ _ _ _ _ _ _ => eq_refl end;
  tset_tset := fun t t' db => eq_refl }.
#[global] Instance user_identities_table : HasTable IdentityRow := {
  tget := db_user_identities; tset := set_user_identities; row_id := ui_ID;
  tget_tset := fun t db => eq_refl;
  tset_tget := fun db => match db with MkDB _ _ _ _ _ _ _ _ _ _ _ _ _ _ _ _ _ _ _ _ _ _ _ _ _ _ _ _ _ => eq_refl end;
  tset_tset := fun t t' db => eq_refl }.
#[global] Instance role_bindings_table : HasTable BindingRow := {
  tget := db_role_bindings; tset := set_role_bindings; row_id := rb_ID;
  tget_tset := fun t db => eq_refl;
  tset_tget := fun db => match db with MkDB _ _ _ _ _ _ _ _ _ _ _ _ _ _ _ _ _ _ _ _ _ _ _ _ _ _ _ _ _ => eq_refl end;
  tset_tset := fun t t' db => eq_refl }.
#[global] Instance web_sessions_table : HasTable SessionRow := {
  tget := db_web_sessions; tset := set_web_sessions; row_id := ws_ID;
  tget_tset := fun t db => eq_refl;
  tset_tget := fun db => match db with MkDB _ _ _ _ _ _ _ _ _ _ _ _ _ _ _ _ _ _ _ _ _ _ _ _ _ _ _ _ _ => eq_refl end;
  tset_tset := fun t t' db => eq_refl }.
#[global] Instance api_tokens_table : HasTable TokenRow := {
  tget := db_api_tokens; tset := set_api_tokens; row_id := tk_ID;
  tget_tset := fun t db => eq_refl;
  tset_tget := fun db => match db with MkDB _ _ _ _ _ _ _ _ _ _ _ _ _ _ _ _ _ _ _ _ _ _ _ _ _ _ _ _ _ => eq_refl end;
  tset_tset := fun t t' db => eq_refl }.
#[global] Instance artifact_locations_table : HasTable ArtifactLocation := {
  tget := db_artifact_locations; tset := set_artifact_locations; row_id := al_ID;
  tget_tset := fun t db => eq_refl;
  tset_tget := fun db => match db with MkDB _ _ _ _ _ _ _ _ _ _ _ _ _ _ _ _ _ _ _ _ _ _ _ _ _ _ _ _ _ => eq_refl end;
  tset_tset := fun t t' db => eq_refl }.
#[global] Instance project_status_snapshots_table : HasTable StatusSnapshotRow := {
  tget := db_project_status_snapshots; tset := set_project_status_snapshots; row_id := ss_ID;
  tget_tset := fun t db => eq_refl;
  tset_tget := fun db => match db with MkDB _ _ _ _ _ _ _ _ _ _ _ _ _ _ _ _ _ _ _ _ _ _ _ _ _ _ _ _ _ => eq_refl end;
  tset_tset := fun t t' db => eq_refl }.
#[global] Instance status_projections_table : HasTable StatusProjectionRecord := {
  tget := db_status_projections; tset := set_status_projections; row_id := sj_ID;
  tget_tset := fun t db => eq_refl;
  tset_tget := fun db => match db with MkDB _ _ _ _ _ _ _ _ _ _ _ _ _ _ _ _ _ _ _ _ _ _ _ _ _ _ _ _ _ => eq_refl end;
  tset_tset := fun t t' db => eq_refl }.
