(* ===== verification/Tx.v ===== *)
(** * Transactions

    The state a store method runs against and the monad its body is written
    in.  A body runs between [pool.Begin] and [tx.Commit]; its database writes
    become visible when it reaches the commit, and [defer tx.Rollback] undoes
    them on every early return.  Files written and process counters advanced
    on the way are not undone.

    Transactions run one after the other: the row locks the sources take
    ([FOR UPDATE], unique indexes) make each of the modelled bodies behave as
    if it ran alone on the rows it reads.  Rows that another transaction has
    locked, which [FOR UPDATE SKIP LOCKED] passes over, are given by the
    environment. *)

From stdpp Require Import base list strings numbers gmap.
From Stdlib Require Import ZArith Lia String.
From S2P Require Import Prelude GoString Json Schema.

(** ** Errors: the sentinel errors of the sources (what [errors.Is] tells
    apart), the database errors they react to, and plain messages. *)

Inductive error : Type :=
| ErrNoRows
| ErrUniqueViolation (index : string)
| ErrForeignKeyViolation
| ErrNumericOutOfRange
| ErrWorkerNotFound
| ErrLeaseNotFound
| ErrNoLeaseAvailable
| ErrWorkerCapabilityDenied (missing : list string)
| ErrIdempotencyConflict (key : string)
| ErrRunNotFound
| ErrRunControlBlocked (blockers : list string)
| ErrRunnerPreviewBlocked (blockers : list string)
| ErrReadOnlyVerifyBlocked (blockers : list string)
| ErrApprovedArtifactWriteBlocked (blockers : list string)
| ErrFixtureExecutionBlocked (blockers : list string)
| ErrFixtureProjectWriteBlocked (blockers : list string)
| ErrManagedGeneratedWriteBlocked (blockers : list string)
| ErrArtifactNotFound
| ErrArtifactContentUnavailable (msg : string)
| ErrArtifactContentMismatch (msg : string)
| ErrInvalidWorkflowVersionLabel
| ErrWorkflowVersionExists (label : string)
| ErrWorkflowVersionNotFound (label : string)
| ErrWorkflowVersionNotAuthored (label : string)
| ErrUnsupportedWorkflowGate (gate : string)
| ErrInvalidApprovalDecision
| ErrApprovalPreviewNotReady
| ErrInvalidToken
| ErrInvalidSession
| ErrJoin (errs : list error)
| ErrText (msg : string).

(** ** Environment of one call: the transaction timestamp [now()], the wall
    clock ([time.Now().UTC().UnixNano()] and its RFC 3339 rendering), the host
    name, the rows locked by others, whether a file can be written, and the
    S3 client (not part of the sources). *)
Record Env := MkEnv {
  env_now : Z;
  env_unixnano : Z;
  env_rfc3339 : string;
  env_hostname : option string;
  env_home : option string;
  env_lease_locked : Z -> bool;
  env_task_locked : Z -> bool;
  env_can_write : string -> bool;
  env_s3_put : string -> string -> string -> res error string }.

(** ** State *)

Record Counters := MkCounters {
  n_leaseRecover : Z; n_workerLifecycle : Z; n_workflowGate : Z; n_transitionPreview : Z }.

Record World := MkWorld {
  wd_db : DB;
  wd_files : gmap string string;
  wd_counters : Counters }.

Definition set_db (db : DB) (w : World) : World := MkWorld db (wd_files w) (wd_counters w).
Definition set_files (f : gmap string string) (w : World) : World :=
  MkWorld (wd_db w) f (wd_counters w).
Definition set_counters (c : Counters) (w : World) : World :=
  MkWorld (wd_db w) (wd_files w) c.

(** ** The monad *)

Definition M (A : Type) : Type := World -> res error A * World.

Definition ret {A} (a : A) : M A := fun w => (Ok a, w).
Definition fail {A} (e : error) : M A := fun w => (Err e, w).
Definition bind {A B} (m : M A) (k : A -> M B) : M B := fun w =>
  match m w with
  | (Ok a, w') => k a w'
  | (Err e, w') => (Err e, w')
  end.

Notation "x <- m ;; k" := (bind m (fun x => k))
  (at level 100, m at next level, right associativity) : af_scope.
Notation "m ;;; k" := (bind m (fun _ => k))
  (at level 100, right associativity) : af_scope.

(** A result that was computed without the state. *)
Definition lift {A} (r : res error A) : M A := fun w => (r, w).

Definition get_db : M DB := fun w => (Ok (wd_db w), w).
Definition put_db (db : DB) : M unit := fun w => (Ok tt, set_db db w).

Section Tables.
Context {R : Type} `{HasTable R}.

(** INSERT ... RETURNING *)
Definition insert_row (mkrow : Z -> R) : M R := fun w =>
  let t := tget (wd_db w) in
  (Ok (mkrow (t_next t)), set_db (tset (table_insert mkrow t) (wd_db w)) w).

(** UPDATE ... WHERE p RETURNING, rows in table order *)
Definition update_rows (p : R -> bool) (f : R -> R) : M (list R) := fun w =>
  let t := tget (wd_db w) in
  (Ok (List.map f (table_select p t)), set_db (tset (table_update p f t) (wd_db w)) w).

Definition select_rows (p : R -> bool) : M (list R) := fun w =>
  (Ok (table_select p (tget (wd_db w))), w).

(** [QueryRow(...).Scan]: the first row, or [pgx.ErrNoRows] *)
Definition first_row (l : list R) : M R :=
  match l with
  | [] => fail ErrNoRows
  | r :: _ => ret r
  end.
End Tables.

(** Replace one error by another: [if errors.Is(err, from) { return to }]. *)
Definition map_err {A} (f : error -> error) (m : M A) : M A := fun w =>
  match m w with
  | (Ok a, w') => (Ok a, w')
  | (Err e, w') => (Err (f e), w')
  end.
Definition no_rows_to (to : error) (e : error) : error :=
  match e with ErrNoRows => to | e => e end.

(** [pool.Begin ... defer tx.Rollback ... tx.Commit]: an error before the
    commit restores the database; a body that reaches the commit may still
    return an error value (a recorded denial). *)
Definition transact {A} (m : M (res error A)) : World -> res error A * World := fun w =>
  match m w with
  | (Ok r, w') => (r, w')
  | (Err e, w') => (Err e, set_db (wd_db w) w')
  end.

(** ** Reasoning *)

Lemma bind_ok {A B} (m : M A) (k : A -> M B) w b w' :
  bind m k w = (Ok b, w') <-> exists a w1, m w = (Ok a, w1) /\ k a w1 = (Ok b, w').
Proof.
  unfold bind. destruct (m w) as [[a|e] w1]; split.
  - intros E. by exists a, w1.
  - by intros (? & ? & [= <- <-] & ?).
  - done.
  - by intros (? & ? & ? & ?).
Qed.

Lemma ret_ok {A} (a : A) w b w' : ret a w = (Ok b, w') <-> a = b /\ w = w'.
Proof. unfold ret. split; [by intros [= -> ->]|by intros [-> ->]]. Qed.

Lemma fail_ok {A} e w (b : A) w' : fail e w = (Ok b, w') <-> False.
Proof. done. Qed.

Lemma lift_ok {A} r w (b : A) w' : lift r w = (Ok b, w') <-> r = Ok b /\ w = w'.
Proof. unfold lift. split; [by intros [= -> ->]|by intros [-> ->]]. Qed.

Lemma map_err_ok {A} f (m : M A) w a w' :
  map_err f m w = (Ok a, w') <-> m w = (Ok a, w').
Proof. unfold map_err. destruct (m w) as [[]]; split; congruence. Qed.

(** Take a successful run apart into the successful runs of its steps. *)
Ltac step_ok :=
  repeat match goal with
  | H : bind _ _ _ = (Ok _, _) |- _ =>
      apply bind_ok in H; destruct H as (? & ? & ? & ?)
  | H : ret _ _ = (Ok _, _) |- _ => apply ret_ok in H; destruct H as [? ?]; subst
  | H : fail _ _ = (Ok _, _) |- _ => destruct (proj1 (fail_ok _ _ _ _) H)
  | H : lift _ _ = (Ok _, _) |- _ => apply lift_ok in H; destruct H as [? ?]; subst
  | H : map_err _ _ _ = (Ok _, _) |- _ => apply map_err_ok in H
  end.

(** *** Relational specifications

    [m_rel R m]: every successful run of [m] relates the databases before and
    after by [R].  For a preorder [R] this is closed under sequencing, so a
    handler satisfies it when its steps do. *)

Definition m_rel (R : DB -> DB -> Prop) {A} (m : M A) : Prop :=
  forall w a w', m w = (Ok a, w') -> R (wd_db w) (wd_db w').

Section Rel.
Context (R : DB -> DB -> Prop) `{!PreOrder R}.

Lemma m_rel_ret {A} (a : A) : m_rel R (ret a).
Proof. intros w b w' E. injection E as _ <-. reflexivity. Qed.

Lemma m_rel_fail {A} e : m_rel R (@fail A e).
Proof. by intros w b w' E. Qed.

Lemma m_rel_lift {A} (r : res error A) : m_rel R (lift r).
Proof. intros w b w' E. injection E as _ <-. reflexivity. Qed.

Lemma m_rel_bind {A B} (m : M A) (k : A -> M B) :
  m_rel R m -> (forall a, m_rel R (k a)) -> m_rel R (bind m k).
Proof.
  intros Hm Hk w b w' E. apply bind_ok in E as (a & w1 & E1 & E2).
  etransitivity; [by eapply Hm|by eapply Hk].
Qed.

Lemma m_rel_map_err {A} f (m : M A) : m_rel R m -> m_rel R (map_err f m).
Proof. intros Hm w a w' E. apply map_err_ok in E. by eapply Hm. Qed.

Lemma m_rel_select {T} `{HasTable T} (p : T -> bool) : m_rel R (select_rows p).
Proof. intros w a w' E. injection E as _ <-. reflexivity. Qed.

Lemma m_rel_first {T} (l : list T) : m_rel R (first_row l).
Proof. destruct l; [apply m_rel_fail|apply m_rel_ret]. Qed.

Lemma m_rel_get_db : m_rel R get_db.
Proof. intros w a w' E. injection E as _ <-. reflexivity. Qed.

(** A committed transaction satisfies [R] when its body does; a rolled back
    one leaves the database as it was. *)
Lemma transact_rel {A} (m : M (res error A)) w r w' :
  m_rel R m -> transact m w = (r, w') -> R (wd_db w) (wd_db w').
Proof.
  intros Hm. unfold transact. destruct (m w) as [[r0|e] w1] eqn:E; intros [= <- <-].
  - by eapply Hm.
  - done.
Qed.
End Rel.

Create HintDb rel discriminated.
#[export] Hint Resolve m_rel_ret m_rel_fail m_rel_lift m_rel_select m_rel_first m_rel_get_db : rel.

(** Split a body into its steps, leaving the goals for the state-changing
    primitives. *)
Ltac rel_split :=
  repeat first
    [ progress intros
    | match goal with
      | |- m_rel _ (bind _ _) => apply m_rel_bind; [exact _| |]
      | |- m_rel _ (map_err _ _) => apply m_rel_map_err
      | |- m_rel _ (match ?x with _ => _ end) => destruct x
      | |- m_rel _ (if ?x then _ else _) => destruct x
      end
    | solve [eauto with rel typeclass_instances] ].

(** *** Rollback *)

(** A body that fails leaves no trace in the database. *)
Lemma transact_rollback {A} (m : M (res error A)) w e w1 :
  m w = (Err e, w1) -> transact m w = (Err e, set_db (wd_db w) w1).
Proof. unfold transact. by intros ->. Qed.

(** *** The database effect of the table operations *)

Lemma insert_row_ok {R} `{HasTable R} mkrow w r w' :
  insert_row mkrow w = (Ok r, w') <->
  r = mkrow (t_next (tget (wd_db w)))
  /\ w' = set_db (tset (table_insert mkrow (tget (wd_db w))) (wd_db w)) w.
Proof. unfold insert_row. split; [by intros [= <- <-]|by intros [-> ->]]. Qed.

(** [INSERT ... RETURNING] followed by a scan of the row *)
Lemma insert_ret_ok {R A} `{HasTable R} (mkrow : Z -> R) (f : R -> A) w a w' :
  bind (insert_row mkrow) (fun r => ret (f r)) w = (Ok a, w') <->
  a = f (mkrow (t_next (tget (wd_db w))))
  /\ w' = set_db (tset (table_insert mkrow (tget (wd_db w))) (wd_db w)) w.
Proof. unfold bind, insert_row, ret. split; [by intros [= <- <-]|by intros [-> ->]]. Qed.

Lemma select_rows_ok {R} `{HasTable R} p w l w' :
  select_rows p w = (Ok l, w') <-> l = table_select p (tget (wd_db w)) /\ w' = w.
Proof. unfold select_rows. split; [by intros [= <- <-]|by intros [-> ->]]. Qed.

Lemma update_rows_ok {R} `{HasTable R} p f w l w' :
  update_rows p f w = (Ok l, w') <->
  l = List.map f (table_select p (tget (wd_db w)))
  /\ w' = set_db (tset (table_update p f (tget (wd_db w))) (wd_db w)) w.
Proof. unfold update_rows. split; [by intros [= <- <-]|by intros [-> ->]]. Qed.

Lemma first_row_ok {R} (l : list R) w r w' :
  first_row l w = (Ok r, w') <-> (exists l', l = r :: l') /\ w' = w.
Proof.
  destruct l as [|x l]; cbn; split.
  - done.
  - by intros [[? [=]] _].
  - intros [= <- <-]. eauto.
  - by intros [[? [= -> _]] ->].
Qed.

(** *** Facts about the elementary table operations *)

Lemma table_select_In {R} p (t : table R) r :
  In r (table_select p t) <-> In r (t_rows t) /\ p r = true.
Proof. apply filter_In. Qed.

Lemma select_cons_In {R} p (t : table R) x l :
  table_select p t = x :: l -> In x (t_rows t) /\ p x = true.
Proof. intros E. apply table_select_In. rewrite E. by left. Qed.

Lemma table_update_In {R} p f (t : table R) r :
  In r (t_rows (table_update p f t)) <->
  exists r0, In r0 (t_rows t) /\ r = (if p r0 then f r0 else r0).
Proof. cbn. rewrite in_map_iff. firstorder. Qed.

Lemma table_insert_In {R} mkrow (t : table R) r :
  In r (t_rows (table_insert mkrow t)) <-> In r (t_rows t) \/ r = mkrow (t_next t).
Proof. cbn. rewrite in_app_iff. cbn. intuition. Qed.

(** *** Primary keys

    Every id was drawn from the table's sequence and no two rows share one. *)

Section TableOk.
Context {R : Type} `{HasTable R}.

Definition table_ok (t : table R) : Prop :=
  1 <= t_next t
  /\ List.NoDup (List.map row_id (t_rows t))
  /\ Forall (fun r => 1 <= row_id r < t_next t) (t_rows t).

Lemma table_insert_ok mkrow t :
  (forall id, row_id (mkrow id) = id) -> table_ok t -> table_ok (table_insert mkrow t).
Proof.
  intros Hid (Hn & Hnd & Hr). unfold table_insert. split; [cbn; lia|]. split; cbn.
  - rewrite map_app. cbn. rewrite Hid. apply NoDup_snoc; [done|].
    intros Hin. apply in_map_iff in Hin as (r & E & Hin).
    pose proof (Forall_In _ _ _ Hr Hin) as Hb. cbn in Hb. lia.
  - apply Forall_app. split.
    + eapply List.Forall_impl; [|exact Hr]. cbn. lia.
    + constructor; [|constructor]. rewrite Hid. lia.
Qed.

Lemma table_update_ok p f t :
  (forall r, row_id (f r) = row_id r) -> table_ok t -> table_ok (table_update p f t).
Proof.
  intros Hid (Hn & Hnd & Hr). unfold table_update. split; [done|]. split; cbn.
  - rewrite map_map. erewrite map_ext; [done|]. intros r. cbn. by destruct (p r).
  - rewrite Forall_map. eapply List.Forall_impl; [|exact Hr]. cbn. intros r Hr'.
    destruct (p r); [by rewrite Hid|done].
Qed.

Lemma table_ok_inj t r r' :
  table_ok t -> In r (t_rows t) -> In r' (t_rows t) -> row_id r = row_id r' -> r = r'.
Proof.
  intros (_ & Hnd & _). induction (t_rows t) as [|x l IH]; [done|].
  cbn in *. inversion Hnd as [|? ? Hni Hnd']; subst.
  intros [->|H1] [->|H2] E; auto.
  - exfalso. apply Hni. rewrite E. by apply in_map.
  - exfalso. apply Hni. rewrite <- E. by apply in_map.
Qed.

(** With primary keys in force, a selection by id has at most one row. *)
Lemma table_select_id p t r :
  table_ok t -> (forall r', p r' = true -> row_id r' = row_id r) ->
  In r (t_rows t) -> p r = true -> table_select p t = [r].
Proof.
  intros (_ & Hnd & _) Hp Hin Hpr. unfold table_select.
  induction (t_rows t) as [|x l IH]; [done|]. cbn in *.
  inversion Hnd as [|? ? Hni Hnd']; subst. destruct Hin as [->|Hin].
  - rewrite Hpr. f_equal.
    destruct (List.filter p l) as [|y l'] eqn:E; [done|]. exfalso.
    assert (Hy : In y (List.filter p l)) by (rewrite E; by left).
    apply filter_In in Hy as [Hy Hpy]. apply Hni. rewrite <- (Hp y Hpy). by apply in_map.
  - destruct (p x) eqn:Ex; [|by apply IH].
    exfalso. apply Hni. rewrite (Hp x Ex). by apply in_map.
Qed.
End TableOk.

(** Preserving a database predicate, as a relation *)
Definition keeps (I : DB -> Prop) (db db' : DB) : Prop := I db -> I db'.

#[export] Instance keeps_preorder I : PreOrder (keeps I).
Proof. split; unfold keeps; [by intros ?|]. intros a b c H1 H2 H3. auto. Qed.

(** *** Reads *)

Definition reads {A} (m : M A) : Prop := forall w, snd (m w) = w.

Lemma reads_ret {A} (a : A) : reads (ret a).
Proof. done. Qed.
Lemma reads_fail {A} e : reads (@fail A e).
Proof. done. Qed.
Lemma reads_lift {A} (r : res error A) : reads (lift r).
Proof. done. Qed.
Lemma reads_select {R} `{HasTable R} p : reads (select_rows p).
Proof. done. Qed.
Lemma reads_first {R} (l : list R) : reads (first_row l).
Proof. by destruct l. Qed.
Lemma reads_bind {A B} (m : M A) (k : A -> M B) :
  reads m -> (forall a, reads (k a)) -> reads (bind m k).
Proof.
  intros Hm Hk w. unfold bind. specialize (Hm w). destruct (m w) as [[a|e] w1]; cbn in *; subst.
  - apply Hk.
  - done.
Qed.
Lemma reads_map_err {A} f (m : M A) : reads m -> reads (map_err f m).
Proof. intros Hm w. unfold map_err. specialize (Hm w). by destruct (m w) as [[]]. Qed.

Create HintDb reads discriminated.
#[export] Hint Resolve reads_ret reads_fail reads_lift reads_select reads_first reads_map_err : reads.

Ltac reads_split :=
  repeat first
    [ progress intros
    | match goal with
      | |- reads (bind _ _) => apply reads_bind
      | |- reads (map_err _ _) => apply reads_map_err
      | |- reads (match ?x with _ => _ end) => destruct x
      end
    | solve [eauto with reads] ].

Lemma reads_rel {A} (m : M A) R `{!PreOrder R} : reads m -> m_rel R m.
Proof.
  intros Hm w a w' E. specialize (Hm w). rewrite E in Hm. cbn in Hm. subst. reflexivity.
Qed.

(** Reads do not move the state, whatever they return. *)
Lemma reads_ok {A} (m : M A) w a w' : reads m -> m w = (Ok a, w') -> w' = w.
Proof. intros Hm E. specialize (Hm w). by rewrite E in Hm. Qed.

(** A transaction that only reads changes nothing, whatever it returns. *)
Lemma transact_reads {A} (m : M (res error A)) w : reads m -> snd (transact m w) = w.
Proof.
  intros Hm. specialize (Hm w). unfold transact.
  destruct (m w) as [[r|e] w1]; cbn in *; subst; [done|]. by destruct w.
Qed.
