(* ===== verification/Command.v ===== *)
(** * Command requests: the idempotency ledger

    [internal/project/workflow.go] (reserveCommandRequest,
    completeCommandRequestResponse) and [internal/project/store.go]
    (loadCommandResponse).  Every mutating command of the store first reserves
    its (project, command type, idempotency key) triple; a second request with
    the same triple either replays the recorded response or is refused.

    The ledger is specified abstractly as a finite map from triples to the
    request hash and the recorded response; [reserveCommandRequest] and
    [completeCommandRequestResponse] refine the abstract operations. *)

From stdpp Require Import base list strings numbers gmap.
From Stdlib Require Import ZArith Lia String.
From S2P Require Import Prelude GoString Sha256 Json Schema Tx.

(** ** The operations *)

(** WHERE project_id = $1 AND command_type = $2 AND idempotency_key = $3 *)
Definition command_is (pid : Z) (ct key : string) (c : CommandRequest) : bool :=
  (c_ProjectID c =? pid) && (c_CommandType c =s ct) && (c_IdempotencyKey c =s key).

Definition reserveCommandRequest (env : Env) (projectID : Z)
    (commandType idempotencyKey requestHash : string) : M bool :=
  conflict <- select_rows (command_is projectID commandType idempotencyKey) ;;
  match conflict with
  | [] =>
      insert_row (fun id =>
        MkCommand id projectID commandType idempotencyKey requestHash [] (env_now env) None) ;;;
      ret true
  | existing :: _ =>
      if c_RequestHash existing <>s requestHash
      then fail (ErrIdempotencyConflict idempotencyKey)
      else ret false
  end.

Definition completeCommandRequestResponse (env : Env) (projectID : Z)
    (commandType idempotencyKey : string) (responsePayload : jmap) : M unit :=
  update_rows (command_is projectID commandType idempotencyKey)
    (fun c => MkCommand (c_ID c) (c_ProjectID c) (c_CommandType c) (c_IdempotencyKey c)
                (c_RequestHash c) responsePayload (c_CreatedAt c) (Some (env_now env))) ;;;
  ret tt.

Definition loadCommandResponse (projectID : Z) (commandType idempotencyKey : string)
  : M jmap :=
  rows <- select_rows (command_is projectID commandType idempotencyKey) ;;
  c <- first_row rows ;;
  match c_CompletedAt c with
  | None => fail (ErrText ("command request is not complete: " +:+ idempotencyKey))
  | Some _ => ret (jmap_decode (c_Response c))
  end.

(** The shape every command handler of the store shares: reserve, then either
    run the command or replay its recorded outcome. *)
Definition with_command {A} (env : Env) (projectID : Z)
    (commandType idempotencyKey requestHash : string)
    (replay body : M (res error A)) : M (res error A) :=
  created <- reserveCommandRequest env projectID commandType idempotencyKey requestHash ;;
  if (created : bool) then body else replay.

(** [commandHashPrefix] *)
Definition commandHashPrefix (requestHash : string) : string :=
  let requestHash := trim_space requestHash in
  if 16 <? len requestHash then str_take 16 requestHash
  else if requestHash =s "" then "no-request-hash"
  else requestHash.

(** ** Reading values out of a decoded response *)

(** [metadata[key].(string)] *)
Definition metadataString (metadata : jmap) (key : string) : string :=
  match mget key metadata with Some (JStr s) => s | _ => "" end.

Definition anyInt64 (value : json) : Z :=
  match value with
  | JInt z => z
  | JFloat z => int64_of_float z
  | _ => 0
  end.

Definition metadataInt64 (metadata : jmap) (key : string) : Z :=
  match mget key metadata with Some v => anyInt64 v | None => 0 end.

Definition metadataBool (metadata : jmap) (key : string) : bool :=
  match mget key metadata with
  | Some (JBool b) => b
  | Some (JStr s) => s =s "true"
  | _ => false
  end.

(** [nil] for an absent, null or non-array value; the strings of an array *)
Definition metadataStringSlice (metadata : jmap) (key : string) : list string :=
  match mget key metadata with
  | Some (JArr l) =>
      flat_map (fun item => match item with JStr s => [s] | _ => [] end) l
  | _ => []
  end.

Definition int64SliceFromAny (value : option json) : list Z :=
  match value with
  | Some (JArr l) =>
      flat_map (fun item => let p := anyInt64 item in if p =? 0 then [] else [p]) l
  | _ => []
  end.

Definition stringSliceFromAny (value : option json) : list string :=
  match value with
  | Some (JArr l) =>
      flat_map (fun item =>
        match item with
        | JStr s => let t := trim_space s in if t =s "" then [] else [t]
        | _ => []
        end) l
  | _ => []
  end.

(** ** The abstract ledger *)

Abbreviation ckey := (Z * string * string)%type.
Definition command_key (c : CommandRequest) : ckey :=
  (c_ProjectID c, c_CommandType c, c_IdempotencyKey c).

Record entry := MkEntry { en_hash : string; en_response : option jmap }.

Abbreviation ledger := (gmap ckey entry).

Definition entry_of (c : CommandRequest) : entry :=
  MkEntry (c_RequestHash c)
    (match c_CompletedAt c with Some _ => Some (c_Response c) | None => None end).

Definition ledger_of (db : DB) : ledger :=
  list_to_map (List.map (fun c => (command_key c, entry_of c)) (t_rows (db_command_requests db))).

(** What reserving means: a fresh key is recorded, a known key is accepted
    with the same hash and refused with another one. *)
Definition ledger_reserve (k : ckey) (hash : string) (l : ledger) : option bool * ledger :=
  match l !! k with
  | None => (Some true, <[k := MkEntry hash None]> l)
  | Some e => (if en_hash e =s hash then Some false else None, l)
  end.

Definition ledger_complete (k : ckey) (response : jmap) (l : ledger) : ledger :=
  alter (fun e => MkEntry (en_hash e) (Some response)) k l.

(** The unique index [command_requests_project_key_idx] *)
Definition commands_unique (db : DB) : Prop :=
  List.NoDup (List.map command_key (t_rows (db_command_requests db))).

(** ** Lookups *)

Lemma command_is_key pid ct key c :
  command_is pid ct key c = true <-> command_key c = (pid, ct, key).
Proof.
  unfold command_is, command_key. split.
  - intros H. bool_prop. by subst.
  - intros [= -> -> ->]. by rewrite Z.eqb_refl, !String.eqb_refl.
Qed.

Lemma ledger_lookup_rows k (l : list CommandRequest) :
  (list_to_map (List.map (fun c => (command_key c, entry_of c)) l) : ledger) !! k
  = match List.filter (fun c => bool_decide (command_key c = k)) l with
    | c :: _ => Some (entry_of c)
    | [] => None
    end.
Proof.
  induction l as [|c l IH]; [done|]. cbn [List.map List.filter]. rewrite list_to_map_cons.
  destruct (decide (command_key c = k)) as [<-|Hne].
  - rewrite lookup_insert_eq, bool_decide_eq_true_2 by done. done.
  - rewrite lookup_insert_ne, bool_decide_eq_false_2 by done. exact IH.
Qed.

Lemma command_is_decide pid ct key c :
  command_is pid ct key c = bool_decide (command_key c = (pid, ct, key)).
Proof.
  destruct (command_is pid ct key c) eqn:E; symmetry.
  - apply bool_decide_eq_true_2. by apply command_is_key.
  - apply bool_decide_eq_false_2. rewrite <- command_is_key. congruence.
Qed.

Lemma ledger_lookup db pid ct key :
  ledger_of db !! (pid, ct, key)
  = match table_select (command_is pid ct key) (db_command_requests db) with
    | c :: _ => Some (entry_of c)
    | [] => None
    end.
Proof.
  unfold ledger_of, table_select. rewrite ledger_lookup_rows.
  erewrite filter_ext; [done|]. intros c. symmetry. apply command_is_decide.
Qed.

Lemma ledger_app l c :
  ~ In (command_key c) (List.map command_key l) ->
  (list_to_map (List.map (fun c => (command_key c, entry_of c)) (l ++ [c])) : ledger)
  = <[command_key c := entry_of c]> (list_to_map (List.map (fun c => (command_key c, entry_of c)) l)).
Proof.
  intros Hni. rewrite map_app. cbn [List.map]. rewrite list_to_map_snoc; [done|].
  intros Hin. apply Hni. apply list_elem_of_In in Hin. by rewrite map_map in Hin.
Qed.

(** A key that no row carries selects nothing. *)
Lemma select_nil_notin pid ct key db :
  table_select (command_is pid ct key) (db_command_requests db) = [] <->
  ~ In (pid, ct, key) (List.map command_key (t_rows (db_command_requests db))).
Proof.
  unfold table_select. induction (t_rows (db_command_requests db)) as [|c l IH]; cbn; [tauto|].
  rewrite command_is_decide. case_bool_decide as E; split; intros H.
  - done.
  - exfalso. apply H. by left.
  - intros [E'|Hin]; [done|]. by apply IH.
  - apply IH. tauto.
Qed.

(** ** The reservation step, evaluated *)

(** The database with a fresh reservation *)
Definition reserved (env : Env) (pid : Z) (ct key hash : string) (db : DB) : DB :=
  set_command_requests (table_insert (fun id =>
    MkCommand id pid ct key hash [] (env_now env) None) (db_command_requests db)) db.

Lemma reserve_eq env pid ct key hash w :
  reserveCommandRequest env pid ct key hash w
  = match ledger_of (wd_db w) !! (pid, ct, key) with
    | None => (Ok true, set_db (reserved env pid ct key hash (wd_db w)) w)
    | Some e =>
        if en_hash e =s hash then (Ok false, w) else (Err (ErrIdempotencyConflict key), w)
    end.
Proof.
  rewrite ledger_lookup. unfold reserveCommandRequest, bind, select_rows.
  cbn [tget command_requests_table]. destruct (table_select _ _) as [|c l]; [done|].
  cbn [en_hash entry_of]. by destruct (c_RequestHash c =s hash).
Qed.

(** ** Refinement *)

(** [reserveCommandRequest] implements [ledger_reserve]: it answers what the
    abstract ledger answers and leaves a database whose ledger is the abstract
    one; it fails exactly where the abstract ledger refuses. *)
Lemma reserve_refines env pid ct key hash w :
  commands_unique (wd_db w) ->
  match ledger_reserve (pid, ct, key) hash (ledger_of (wd_db w)) with
  | (Some b, l) =>
      exists w', reserveCommandRequest env pid ct key hash w = (Ok b, w')
                 /\ ledger_of (wd_db w') = l /\ commands_unique (wd_db w')
  | (None, l) =>
      reserveCommandRequest env pid ct key hash w = (Err (ErrIdempotencyConflict key), w)
      /\ ledger_of (wd_db w) = l
  end.
Proof.
  intros Hu. unfold ledger_reserve. rewrite reserve_eq.
  destruct (ledger_of (wd_db w) !! (pid, ct, key)) as [e|] eqn:E.
  - destruct (en_hash e =s hash); eauto.
  - rewrite ledger_lookup in E. destruct (table_select _ _) eqn:Es; [|done].
    apply select_nil_notin in Es. eexists. split; [reflexivity|]. split.
    + unfold ledger_of. cbn [wd_db set_db reserved db_command_requests set_command_requests
        table_insert t_rows]. by rewrite ledger_app.
    + unfold commands_unique. cbn. rewrite map_app. by apply NoDup_snoc.
Qed.

Lemma complete_rows_ledger env pid ct key resp (l : list CommandRequest) :
  List.NoDup (List.map command_key l) ->
  (list_to_map (List.map (fun c => (command_key c, entry_of c))
     (List.map (fun c => if command_is pid ct key c then
        MkCommand (c_ID c) (c_ProjectID c) (c_CommandType c) (c_IdempotencyKey c)
          (c_RequestHash c) resp (c_CreatedAt c) (Some (env_now env)) else c) l)) : ledger)
  = ledger_complete (pid, ct, key) resp
      (list_to_map (List.map (fun c => (command_key c, entry_of c)) l)).
Proof.
  unfold ledger_complete.
  induction l as [|c l IH]; cbn [List.map]; intros Hnd; [done|]. rewrite !list_to_map_cons.
  inversion Hnd as [|? ? Hni Hnd']; subst.
  destruct (command_is pid ct key c) eqn:E.
  - apply command_is_key in E. rewrite IH by done. rewrite <- E.
    rewrite alter_insert_eq. cbn. unfold command_key at 1. cbn. f_equal.
    apply map_eq. intros k. rewrite lookup_alter. case_decide as Ek; [|done].
    subst k. rewrite ledger_lookup_rows.
    destruct (List.filter _ l) as [|d l'] eqn:Ef; [done|]. exfalso.
    assert (Hd : In d (List.filter (fun c0 => bool_decide (command_key c0 = command_key c)) l))
      by (rewrite Ef; by left).
    apply filter_In in Hd as [Hd1 Hd2]. apply bool_decide_eq_true_1 in Hd2.
    apply Hni. rewrite <- Hd2. by apply in_map.
  - rewrite IH by done. rewrite alter_insert_ne; [done|].
    intros Ek. symmetry in Ek. apply command_is_key in Ek. congruence.
Qed.

(** [completeCommandRequestResponse] implements [ledger_complete]. *)
Lemma complete_refines env pid ct key resp w :
  commands_unique (wd_db w) ->
  exists w', completeCommandRequestResponse env pid ct key resp w = (Ok tt, w')
    /\ ledger_of (wd_db w') = ledger_complete (pid, ct, key) resp (ledger_of (wd_db w))
    /\ commands_unique (wd_db w').
Proof.
  intros Hu. eexists. split; [reflexivity|]. cbn. split.
  - apply complete_rows_ledger. exact Hu.
  - unfold commands_unique. cbn. rewrite map_map. erewrite map_ext; [exact Hu|].
    intros c. cbn. by destruct (command_is pid ct key c).
Qed.

(** [loadCommandResponse] reads the abstract ledger. *)
Lemma load_refines pid ct key w :
  loadCommandResponse pid ct key w
  = (match ledger_of (wd_db w) !! (pid, ct, key) with
     | None => Err ErrNoRows
     | Some (MkEntry _ None) =>
         Err (ErrText ("command request is not complete: " +:+ key))
     | Some (MkEntry _ (Some resp)) => Ok (jmap_decode resp)
     end, w).
Proof.
  rewrite ledger_lookup. unfold loadCommandResponse, bind, select_rows.
  cbn [tget command_requests_table].
  destruct (table_select _ _) as [|c l]; cbn; [done|].
  unfold entry_of. by destruct (c_CompletedAt c).
Qed.

(** ** Consequences for command handlers *)

Section Handlers.
Context {A : Type} (env : Env) (pid : Z) (ct key hash : string).
Context (replay body : M (res error A)).

Let k := (pid, ct, key).
Let run := transact (with_command env pid ct key hash replay body).

(** A known key with another request hash is refused and nothing changes. *)
Lemma with_command_conflict w e :
  ledger_of (wd_db w) !! k = Some e -> en_hash e <> hash ->
  run w = (Err (ErrIdempotencyConflict key), w).
Proof.
  intros Hl Hh. unfold run, transact, with_command, bind. rewrite reserve_eq.
  unfold k in Hl. rewrite Hl, (proj2 (String.eqb_neq _ _)) by done. by destruct w.
Qed.

(** A known key with the same hash runs the replay instead of the body. *)
Lemma with_command_replay w e :
  ledger_of (wd_db w) !! k = Some e -> en_hash e = hash ->
  run w = transact replay w.
Proof.
  intros Hl Hh. unfold run, transact, with_command, bind. rewrite reserve_eq.
  unfold k in Hl. by rewrite Hl, Hh, String.eqb_refl.
Qed.

(** A fresh key runs the body on the database with the reservation. *)
Lemma with_command_fresh w :
  ledger_of (wd_db w) !! k = None ->
  with_command env pid ct key hash replay body w
  = body (set_db (reserved env pid ct key hash (wd_db w)) w).
Proof. intros Hl. unfold with_command, bind. rewrite reserve_eq. unfold k in Hl. by rewrite Hl. Qed.
End Handlers.

(** ** Preservation of database relations *)

Section CommandRel.
Context (R : DB -> DB -> Prop) `{!PreOrder R}.
Hypothesis R_commands : forall t db, R db (set_command_requests t db).

Lemma reserve_rel env pid ct key hash :
  m_rel R (reserveCommandRequest env pid ct key hash).
Proof.
  unfold reserveCommandRequest. rel_split.
  intros w a w' E. apply insert_row_ok in E as [_ ->]. apply R_commands.
Qed.

Lemma complete_rel env pid ct key resp :
  m_rel R (completeCommandRequestResponse env pid ct key resp).
Proof.
  unfold completeCommandRequestResponse. rel_split.
  intros w a w' E. apply update_rows_ok in E as [_ ->]. apply R_commands.
Qed.

Lemma with_command_rel {A} env pid ct key hash (replay body : M (res error A)) :
  m_rel R replay -> m_rel R body ->
  m_rel R (with_command env pid ct key hash replay body).
Proof.
  intros H1 H2. unfold with_command. apply m_rel_bind; [exact _|apply reserve_rel|].
  by intros [].
Qed.
End CommandRel.

Lemma loadCommandResponse_reads pid ct key : reads (loadCommandResponse pid ct key).
Proof. unfold loadCommandResponse. reads_split. Qed.
#[export] Hint Resolve loadCommandResponse_reads : reads.

(** *** The unique index is kept *)

Lemma reserve_commands_unique env pid ct key hash :
  m_rel (keeps commands_unique) (reserveCommandRequest env pid ct key hash).
Proof.
  intros w a w' E Hu. pose proof (reserve_refines env pid ct key hash w Hu) as H.
  destruct (ledger_reserve _ _ _) as [[b|] l].
  - destruct H as (w2 & E2 & _ & Hu2). by rewrite E2 in E; injection E as <- <-.
  - destruct H as [E2 _]. by rewrite E2 in E.
Qed.

Lemma complete_commands_unique env pid ct key resp :
  m_rel (keeps commands_unique) (completeCommandRequestResponse env pid ct key resp).
Proof.
  intros w a w' E Hu. destruct (complete_refines env pid ct key resp w Hu) as (w2 & E2 & _ & Hu2).
  by rewrite E2 in E; injection E as <- <-.
Qed.

(** [commandHashPrefix] of a digest is its first sixteen digits. *)
Lemma commandHashPrefix_nonempty h : commandHashPrefix h <> "".
Proof.
  unfold commandHashPrefix. destruct (trim_space h) as [|c s]; [done|].
  case_eqb; [done|]. by case_eqb.
Qed.

(** ** The contract *)

(** C32. The stored commands implement the abstract ledger: reserving answers and
    records what [ledger_reserve] says (and fails with the conflict error
    exactly where the ledger refuses), completing records the response under
    the key and nothing else, and loading reads the ledger. *)
Theorem ledger_refinement env pid ct key hash resp w :
  commands_unique (wd_db w) ->
  match ledger_reserve (pid, ct, key) hash (ledger_of (wd_db w)) with
  | (Some b, l) =>
      exists w', reserveCommandRequest env pid ct key hash w = (Ok b, w')
                 /\ ledger_of (wd_db w') = l /\ commands_unique (wd_db w')
  | (None, l) =>
      reserveCommandRequest env pid ct key hash w = (Err (ErrIdempotencyConflict key), w)
      /\ ledger_of (wd_db w) = l
  end
  /\ (exists w', completeCommandRequestResponse env pid ct key resp w = (Ok tt, w')
       /\ ledger_of (wd_db w') = ledger_complete (pid, ct, key) resp (ledger_of (wd_db w))
       /\ commands_unique (wd_db w'))
  /\ loadCommandResponse pid ct key w
     = (match ledger_of (wd_db w) !! (pid, ct, key) with
        | None => Err ErrNoRows
        | Some (MkEntry _ None) => Err (ErrText ("command request is not complete: " +:+ key))
        | Some (MkEntry _ (Some r)) => Ok (jmap_decode r)
        end, w).
Proof.
  intros Hu. split; [by apply reserve_refines|]. split; [by apply complete_refines|].
  apply load_refines.
Qed.

Lemma ledger_refinement_witness :
  let env := MkEnv 0 0 "" None None (fun _ => false) (fun _ => false) (fun _ => true)
               (fun _ _ _ => Err ErrNoRows) in
  let w := MkWorld empty_db ∅ (MkCounters 0 0 0 0) in
  commands_unique (wd_db w)
  /\ exists w', reserveCommandRequest env 1 "t" "k" "h" w = (Ok true, w')
       /\ ledger_of (wd_db w') = {[ (1, "t", "k") := MkEntry "h" None ]}.
Proof.
  cbv zeta. split; [constructor|].
  destruct (ledger_refinement (MkEnv 0 0 "" None None (fun _ => false) (fun _ => false)
    (fun _ => true) (fun _ _ _ => Err ErrNoRows)) 1 "t" "k" "h" []
    (MkWorld empty_db ∅ (MkCounters 0 0 0 0)) ltac:(constructor)) as [(w' & H1 & H2 & _) _].
  exists w'. split; [exact H1|exact H2].
Defined.
