(* ===== verification/Capability.v ===== *)
(** * Capability lists

    [internal/project/worker.go]: the normalisation of capability and string
    lists and the checks a worker's capabilities go through before it gets a
    lease or a slot. *)

From stdpp Require Import base list strings numbers.
From Stdlib Require Import ZArith Lia String.
From S2P Require Import Prelude GoString.

(** The loop of [normalizeCapabilityList], [normalizeStringList] and
    [normalizeConfigStringList]: trim, skip blanks and what was seen before,
    keep the order. *)
Fixpoint normalize_loop (seen : list string) (values : list string) : list string :=
  match values with
  | [] => []
  | value :: rest =>
      let value := trim_space value in
      if (value =s "") || str_in value seen then normalize_loop seen rest
      else value :: normalize_loop (value :: seen) rest
  end.

Definition normalizeCapabilityList (capabilities : list string) : list string :=
  normalize_loop [] capabilities.

(** [sort.Strings] after the loop; the entries are distinct, so the order of
    the sort is the byte order. *)
Definition normalizeStringList (values : list string) : list string :=
  sort_stable String.ltb (normalize_loop [] values).

(** The trimmed, nonempty capabilities a worker holds *)
Definition allowed_set (workerCapabilities : list string) : list string :=
  List.filter (fun c => c <>s "") (List.map trim_space workerCapabilities).

Definition missingWorkerCapabilities (workerCapabilities requestedCapabilities : list string)
  : list string :=
  let allowed := allowed_set workerCapabilities in
  List.filter (fun capability => negb (str_in capability allowed))
    (normalizeCapabilityList requestedCapabilities).

Definition capabilityPresent (capabilities : list string) (required : string) : bool :=
  let required := trim_space required in
  existsb (fun capability => trim_space capability =s required) capabilities.

(** ** What normalisation yields *)

(** A list in normal form: trimmed, nonempty entries without repetition. *)
Definition normal_list (l : list string) : Prop :=
  List.NoDup l /\ Forall (fun s => trim_space s = s /\ s <> "") l.

Lemma normalize_loop_In seen l x :
  In x (normalize_loop seen l) <->
  x <> "" /\ ~ In x seen /\ exists y, In y l /\ trim_space y = x.
Proof.
  revert seen. induction l as [|v l IH]; intros seen; cbn.
  - split; [done|]. by intros (_ & _ & ? & ? & _).
  - destruct ((trim_space v =s "") || str_in (trim_space v) seen) eqn:E.
    + rewrite IH. split.
      * intros (? & ? & y & ? & ?). split; [done|]. split; [done|]. exists y. tauto.
      * intros (Hx & Hs & y & [->|Hy] & Ey); [|by eauto 6].
        subst x. apply orb_true_iff in E as [E|E]; bool_prop; [done|].
        by apply str_in_spec in E.
    + apply orb_false_iff in E as [E1 E2]. bool_prop. apply str_in_false in E2. cbn. rewrite IH.
      split.
      * intros [<-|(Hx & Hs & y & Hy & Ey)]; [by eauto 6|].
        split; [done|]. split; [intros ?; apply Hs; by right|]. eauto.
      * intros (Hx & Hs & y & [->|Hy] & Ey); [by left|].
        destruct (string_dec (trim_space v) x); [by left|]. right.
        split; [done|]. split; [|by eauto]. intros [?|?]; tauto.
Qed.

Lemma normalize_loop_NoDup seen l : List.NoDup (normalize_loop seen l).
Proof.
  revert seen. induction l as [|v l IH]; intros seen; cbn; [constructor|].
  destruct (_ || _); [done|]. constructor; [|done].
  rewrite normalize_loop_In. cbn. tauto.
Qed.

Lemma normalize_normal l : normal_list (normalizeCapabilityList l).
Proof.
  split; [apply normalize_loop_NoDup|]. apply List.Forall_forall. intros x Hx.
  apply normalize_loop_In in Hx as (Hx & _ & y & _ & <-).
  split; [apply trim_space_idemp|done].
Qed.

(** A list in normal form is a fixed point. *)
Lemma normalize_loop_fixpoint seen l :
  normal_list l -> (forall x, In x l -> ~ In x seen) -> normalize_loop seen l = l.
Proof.
  intros [Hnd HF]. revert seen. induction l as [|v l IH]; intros seen Hs; [done|]. cbn.
  inversion Hnd as [|? ? Hni Hnd']; inversion HF as [|? ? [Ht Hne] HF']; subst.
  rewrite Ht. rewrite (proj2 (String.eqb_neq _ _) Hne). cbn.
  rewrite (proj2 (str_in_false v seen)) by (apply Hs; by left).
  f_equal. apply IH; try done. intros x Hx [<-|Hxs]; [done|]. by apply (Hs x); [right|].
Qed.

Lemma normalize_idemp l :
  normalizeCapabilityList (normalizeCapabilityList l) = normalizeCapabilityList l.
Proof. apply normalize_loop_fixpoint; [apply normalize_normal|]. intros ? ? []. Qed.

Lemma normalize_In l x :
  In x (normalizeCapabilityList l) <-> x <> "" /\ exists y, In y l /\ trim_space y = x.
Proof. unfold normalizeCapabilityList. rewrite normalize_loop_In. cbn. tauto. Qed.

Lemma normalizeStringList_In l x :
  In x (normalizeStringList l) <-> x <> "" /\ exists y, In y l /\ trim_space y = x.
Proof. unfold normalizeStringList. rewrite sort_stable_In. apply normalize_In. Qed.

(** ** The capability check *)

Lemma missing_In held requested x :
  In x (missingWorkerCapabilities held requested) <->
  In x (normalizeCapabilityList requested) /\ ~ (exists y, In y held /\ trim_space y = x).
Proof.
  unfold missingWorkerCapabilities. rewrite filter_In, negb_true_iff, str_in_false.
  split; intros [H1 H2]; (split; [done|]).
  - intros (y & Hy & <-). apply H2. unfold allowed_set. rewrite filter_In, negb_true_iff.
    split; [by apply in_map|]. apply normalize_In in H1 as [? _]. by apply String.eqb_neq.
  - intros Hin. apply H2. unfold allowed_set in Hin. apply filter_In in Hin as [Hin _].
    apply in_map_iff in Hin as (y & <- & Hy). eauto.
Qed.

(** Nothing is missing exactly when every requested capability is held. *)
Lemma missing_nil held requested :
  missingWorkerCapabilities held requested = [] <->
  forall x, In x requested -> trim_space x <> "" ->
    exists y, In y held /\ trim_space y = trim_space x.
Proof.
  split.
  - intros E x Hx Hne.
    destruct (in_dec string_dec (trim_space x) (List.map trim_space held)) as [Hin|Hni].
    { apply in_map_iff in Hin as (y & ? & ?). eauto. }
    exfalso. assert (Hm : In (trim_space x) (missingWorkerCapabilities held requested)).
    { apply missing_In. split; [apply normalize_In; eauto|].
      intros (y & Hy & Ey). apply Hni. rewrite <- Ey. by apply in_map. }
    by rewrite E in Hm.
  - intros H. destruct (missingWorkerCapabilities held requested) as [|x l] eqn:E; [done|].
    exfalso. assert (Hx : In x (missingWorkerCapabilities held requested)) by (rewrite E; by left).
    apply missing_In in Hx as [Hx Hn]. apply normalize_In in Hx as (Hne & y & Hy & <-).
    apply Hn. by apply H.
Qed.

Lemma capabilityPresent_spec l r :
  capabilityPresent l r = true <-> exists y, In y l /\ trim_space y = trim_space r.
Proof.
  unfold capabilityPresent. rewrite existsb_exists. split.
  - intros (y & Hy & E). apply String.eqb_eq in E. eauto.
  - intros (y & Hy & E). exists y. split; [done|]. by apply String.eqb_eq.
Qed.

Lemma filter_sublist {A} (p : A -> bool) l : sublist (List.filter p l) l.
Proof.
  induction l as [|x l IH]; cbn; [constructor|]. destruct (p x); by constructor.
Qed.

(** Normalisation keeps the order of what it keeps. *)
Lemma normalize_loop_sublist seen l : sublist (normalize_loop seen l) (List.map trim_space l).
Proof.
  revert seen. induction l as [|v l IH]; intros seen; cbn; [constructor|].
  destruct (_ || _); constructor; apply IH.
Qed.

(** A worker's request passes the capability check exactly when, up to
    surrounding white space, every capability it names is one the worker
    holds; otherwise the check lists the missing ones, trimmed, once each and
    in the order they were asked for. *)
Theorem capability_check held requested :
  (missingWorkerCapabilities held requested = [] <->
   forall x, In x requested -> trim_space x <> "" ->
     exists y, In y held /\ trim_space y = trim_space x)
  /\ (forall x, In x (missingWorkerCapabilities held requested) <->
        x <> "" /\ (exists y, In y requested /\ trim_space y = x)
        /\ ~ (exists y, In y held /\ trim_space y = x))
  /\ List.NoDup (missingWorkerCapabilities held requested)
  /\ sublist (missingWorkerCapabilities held requested) (List.map trim_space requested).
Proof.
  split; [apply missing_nil|]. split_and!.
  - intros x. rewrite missing_In, normalize_In. tauto.
  - apply List.NoDup_filter, normalize_loop_NoDup.
  - unfold missingWorkerCapabilities. etransitivity; [apply filter_sublist|].
    apply normalize_loop_sublist.
Qed.
