(* ===== verification/History.v ===== *)
(** * History: events, audit events and heartbeats

    [internal/project/worker.go]: insertWorkerHeartbeat, insertWorkerEvent,
    insertWorkerAuditEvent.  Events and audit events are only ever appended
    ([append_only]); the sources never update or delete one. *)

From stdpp Require Import base list strings numbers.
From Stdlib Require Import ZArith Lia String.
From S2P Require Import Prelude GoString Json Schema Tx.

Definition insertWorkerHeartbeat (env : Env) (projectID workerID : Z) (status : string)
    (metadata : jmap) : M Z :=
  r <- insert_row (fun id =>
         MkHeartbeat id projectID workerID status (env_now env) metadata) ;;
  ret (h_ID r).

(** The map argument is shared with the caller and receives the worker id;
    the updated map is returned beside the event id. *)
Definition insertWorkerEvent (env : Env) (projectID workerID : Z)
    (eventType message : string) (metadata : jmap) : M (Z * jmap) :=
  let metadata := mset "worker_id" (JInt workerID) metadata in
  r <- insert_row (fun id =>
         MkEvent id projectID 0 0 eventType "info" message metadata (env_now env)) ;;
  ret (e_ID r, metadata).

Definition insertWorkerAuditEvent (env : Env) (projectID actorID : Z)
    (action capability resource decision reason : string) (metadata : jmap) : M Z :=
  r <- insert_row (fun id =>
         MkAudit id projectID actorID action capability "worker" resource decision reason
                 metadata (env_now env)) ;;
  ret (au_ID r).

(** ** Append-only history *)

Definition append_only (db db' : DB) : Prop :=
  (exists new, t_rows (db_events db') = t_rows (db_events db) ++ new)
  /\ (exists new, t_rows (db_audit_events db') = t_rows (db_audit_events db) ++ new).

#[export] Instance append_only_preorder : PreOrder append_only.
Proof.
  split.
  - intros db. split; exists []; by rewrite app_nil_r.
  - intros a b c [[n1 E1] [m1 F1]] [[n2 E2] [m2 F2]]. split.
    + exists (n1 ++ n2). by rewrite E2, E1, app_assoc.
    + exists (m1 ++ m2). by rewrite F2, F1, app_assoc.
Qed.

Lemma append_only_same db db' :
  db_events db' = db_events db -> db_audit_events db' = db_audit_events db ->
  append_only db db'.
Proof. intros E1 E2. split; exists []; by rewrite ?E1, ?E2, app_nil_r. Qed.

(** ** Automation: unfold a handler down to its table operations, and close
    the goals they leave. *)

Create HintDb prims discriminated.
#[export] Hint Unfold insertWorkerHeartbeat insertWorkerEvent insertWorkerAuditEvent : prims.

Ltac rel_leaf :=
  match goal with
  | |- m_rel _ (insert_row _) =>
      intros ?w ?a ?w' ?E; apply insert_row_ok in E as [_ ->]; cbn [wd_db set_db]
  | |- m_rel _ (update_rows _ _) =>
      intros ?w ?a ?w' ?E; apply update_rows_ok in E as [_ ->]; cbn [wd_db set_db]
  end.

Ltac rel_auto :=
  repeat (progress (autounfold with prims; rel_split)); try rel_leaf.

Ltac append_leaf :=
  first
    [ apply append_only_same; reflexivity
    | split; cbn; eexists; first [reflexivity | by rewrite app_nil_r] ].
