(* ===== verification/Config.v ===== *)
(** * Project configuration

    [internal/project/config.go]: the configuration of a project, its two
    validations and its normalisations.  Reading the file, parsing the YAML and
    making a path absolute are done by the operating system and by
    [gopkg.in/yaml.v3]; they are parameters of [LoadConfig]. *)

From stdpp Require Import base list strings numbers.
From Stdlib Require Import ZArith Lia String.
From S2P Require Import Prelude GoString Sha256 Json Capability.

(** ** Data *)

Record ProjectConfig := MkProjectConfig {
  pc_ID : string; pc_Name : string; pc_Root : string; pc_Kind : string; pc_Adapter : string;
  pc_WorkflowProfile : string; pc_DefaultBranch : string }.

Record SourceOfTruth := MkSourceOfTruth {
  so_ProductDocs : string; so_SourceCode : string; so_Workflow : string;
  so_Execution : string; so_StatusSummary : string }.

Record Cutover := MkCutover {
  cu_Enabled : bool; cu_NewVersionsOwnedBy : string; cu_LegacyVersionsMode : string;
  cu_ExecutionOwnedBy : string }.

Record Ownership := MkOwnership {
  ow_Mode : string; ow_SourceOfTruth : SourceOfTruth; ow_Cutover : Cutover }.

Record ArtifactStore := MkArtifactStore { as_Backend : string; as_Root : string }.

(** The capability map is kept as its entries. *)
Record Permissions := MkPermissions {
  pm_Capabilities : list (string * bool); pm_ReadPaths : list string;
  pm_WritePaths : list string; pm_ForbiddenPath : list string }.

Record Commands := MkCommands { cm_Allowed : list string; cm_Forbidden : list string }.

Record Scheduling := MkScheduling {
  sc_Priority : Z; sc_MaxParallelTasks : Z; sc_AgentRole : string;
  sc_RequiredCapabilities : list string; sc_EngineProfile : string }.

Record EngineProfileConfig := MkEngineProfile {
  ep_ID : string; ep_Provider : string; ep_SecretRef : string; ep_Enabled : bool;
  ep_ResourceLimits : option jmap }.

Record Engines := MkEngines { en_Default : string; en_Profiles : list EngineProfileConfig }.

Record HumanSummary := MkHumanSummary {
  hs_Enabled : bool; hs_Path : string; hs_BlockMarker : string }.

Record StatusExport := MkStatusExport {
  se_Enabled : bool; se_Path : string; se_HumanSummary : HumanSummary }.

Record Migration := MkMigration {
  mi_Strategy : string; mi_Phase : string; mi_ImportedVersions : list string;
  mi_ImmutableImports : list string }.

Record Config := MkConfig {
  cf_Version : Z; cf_Project : ProjectConfig; cf_Ownership : Ownership;
  cf_ArtifactStore : ArtifactStore; cf_Permissions : Permissions; cf_Commands : Commands;
  cf_Scheduling : Scheduling; cf_Engines : Engines; cf_StatusExport : StatusExport;
  cf_Migration : Migration; cf_SourcePath : string; cf_SourceHash : string }.

(** ** Validation: [None] for a nil error *)

Definition Validate (cfg : Config) : option string :=
  let p := cf_Project cfg in
  if negb (cf_Version cfg =? 1) then Some ("unsupported config version " +:+ fmt_d (cf_Version cfg))
  else if pc_ID p =s "" then Some "project.id is required"
  else if pc_Name p =s "" then Some "project.name is required"
  else if pc_Root p =s "" then Some "project.root is required"
  else if pc_Adapter p =s "" then Some "project.adapter is required"
  else if pc_WorkflowProfile p =s "" then Some "project.workflow_profile is required"
  else None.

Definition validateOwner (name value : string) : option string :=
  if (value <>s "project") && (value <>s "areaflow") && (value <>s "external")
  then Some (name +:+ " " +:+ fmt_q value +:+ " is not supported")
  else None.

Definition knownOwnershipMode (mode : string) : bool :=
  str_in mode ["import"; "mirror"; "shadow"; "cutover"; "archived"].

Definition knownMigrationPhase (phase : string) : bool :=
  str_in phase ["import"; "mirror"; "shadow"; "cutover"; "authoring_cutover"; "execution_beta";
                "execution_cutover"; "archive"; "shim_retirement"].

(** The first error of a sequence of checks *)
Fixpoint first_error (checks : list (option string)) : option string :=
  match checks with
  | [] => None
  | Some e :: _ => Some e
  | None :: rest => first_error rest
  end.

Definition check (failed : bool) (message : string) : option string :=
  if failed then Some message else None.

Definition ValidateNormalized (cfg : Config) : option string :=
  let ow := cf_Ownership cfg in
  let so := ow_SourceOfTruth ow in
  let cu := ow_Cutover ow in
  let mi := cf_Migration cfg in
  let se := cf_StatusExport cfg in
  let hs := se_HumanSummary se in
  first_error
    [check (negb (knownOwnershipMode (ow_Mode ow)))
       ("ownership.mode " +:+ fmt_q (ow_Mode ow) +:+ " is not supported");
     validateOwner "ownership.source_of_truth.product_docs" (so_ProductDocs so);
     validateOwner "ownership.source_of_truth.source_code" (so_SourceCode so);
     validateOwner "ownership.source_of_truth.workflow" (so_Workflow so);
     validateOwner "ownership.source_of_truth.execution" (so_Execution so);
     validateOwner "ownership.source_of_truth.status_summary" (so_StatusSummary so);
     validateOwner "ownership.cutover.new_versions_owned_by" (cu_NewVersionsOwnedBy cu);
     validateOwner "ownership.cutover.execution_owned_by" (cu_ExecutionOwnedBy cu);
     check (negb (knownMigrationPhase (mi_Phase mi)))
       ("migration.phase " +:+ fmt_q (mi_Phase mi) +:+ " is not supported");
     check (mi_Strategy mi <>s "import_mirror_shadow_cutover_archive")
       ("migration.strategy " +:+ fmt_q (mi_Strategy mi) +:+ " is not supported");
     check (se_Enabled se && (trim_space (se_Path se) =s ""))
       "status_export.path is required when status export is enabled";
     check (hs_Enabled hs && (trim_space (hs_Path hs) =s ""))
       "status_export.human_summary.path is required when human summary is enabled";
     check (hs_Enabled hs && (trim_space (hs_BlockMarker hs) =s ""))
       "status_export.human_summary.block_marker is required when human summary is enabled"].

(** ** Normalisation *)

Definition defaultOwner (value fallback : string) : string := trim_default fallback value.

Definition NormalizeOwnership (ow : Ownership) : Ownership :=
  let so := ow_SourceOfTruth ow in
  let cu := ow_Cutover ow in
  MkOwnership (trim_default "import" (ow_Mode ow))
    (MkSourceOfTruth (defaultOwner (so_ProductDocs so) "project")
       (defaultOwner (so_SourceCode so) "project") (defaultOwner (so_Workflow so) "project")
       (defaultOwner (so_Execution so) "project") (defaultOwner (so_StatusSummary so) "areaflow"))
    (MkCutover (cu_Enabled cu) (defaultOwner (cu_NewVersionsOwnedBy cu) "project")
       (trim_default "project_owned" (cu_LegacyVersionsMode cu))
       (defaultOwner (cu_ExecutionOwnedBy cu) "project")).

Definition NormalizeScheduling (s : Scheduling) : Scheduling :=
  MkScheduling (if sc_Priority s <=? 0 then 100 else sc_Priority s)
    (if sc_MaxParallelTasks s <=? 0 then 1 else sc_MaxParallelTasks s)
    (if sc_AgentRole s =s "" then "local_worker" else sc_AgentRole s)
    (normalizeCapabilityList
       (match sc_RequiredCapabilities s with [] => ["read_project"] | l => l end))
    (sc_EngineProfile s).

(** One turn of the loop over the profiles: skipped without an id *)
Definition normalizeProfile (p : EngineProfileConfig) : option EngineProfileConfig :=
  let id := trim_space (ep_ID p) in
  if id =s "" then None
  else Some (MkEngineProfile id (trim_default id (ep_Provider p))
               (trim_default "none" (ep_SecretRef p)) (ep_Enabled p)
               (Some (match ep_ResourceLimits p with Some m => m | None => [] end))).

Definition NormalizeEngines (engines : Engines) : Engines :=
  let default := trim_space (en_Default engines) in
  let profiles := omap normalizeProfile (en_Profiles engines) in
  MkEngines
    (match profiles with
     | p :: _ => if default =s "" then ep_ID p else default
     | [] => default
     end) profiles.

Definition NormalizeStatusExport (s : StatusExport) : StatusExport :=
  let hs := se_HumanSummary s in
  let filled (enabled : bool) (value fallback : string) :=
    let value := trim_space value in
    if enabled && (value =s "") then fallback else value in
  MkStatusExport (se_Enabled s) (filled (se_Enabled s) (se_Path s) ".areaflow/status.json")
    (MkHumanSummary (hs_Enabled hs)
       (filled (hs_Enabled hs) (hs_Path hs) "workflow/README.md")
       (filled (hs_Enabled hs) (hs_BlockMarker hs) "AREAFLOW_STATUS")).

Definition normalizeConfigStringList (values : list string) : list string :=
  normalize_loop [] values.

Definition NormalizeMigration (m : Migration) : Migration :=
  MkMigration (trim_default "import_mirror_shadow_cutover_archive" (mi_Strategy m))
    (trim_default "import" (mi_Phase m)) (normalizeConfigStringList (mi_ImportedVersions m))
    (normalizeConfigStringList (mi_ImmutableImports m)).

Definition engineProfileByID (engines : Engines) (id : string) : option EngineProfileConfig :=
  let id := trim_space id in
  let id := if id =s "" then en_Default engines else id in
  List.find (fun p => ep_ID p =s id) (en_Profiles engines).

(** ** Loading *)

Section Load.
(** The file system, the YAML parser and [filepath.Abs]: outside the sources *)
Context (readFile : string -> res string string).
Context (yamlUnmarshal : string -> res string Config).
Context (abs : string -> option string).

Definition absoluteConfigPath (path : string) : string :=
  match abs path with Some a => a | None => path end.

Definition normalizeConfig (cfg : Config) (path content : string) : Config :=
  MkConfig (cf_Version cfg) (cf_Project cfg) (NormalizeOwnership (cf_Ownership cfg))
    (cf_ArtifactStore cfg) (cf_Permissions cfg) (cf_Commands cfg)
    (NormalizeScheduling (cf_Scheduling cfg)) (NormalizeEngines (cf_Engines cfg))
    (NormalizeStatusExport (cf_StatusExport cfg)) (NormalizeMigration (cf_Migration cfg))
    (absoluteConfigPath path) (sha256_hex content).

Definition LoadConfig (path : string) : res string Config :=
  match readFile path with
  | Err e => Err ("read project config " +:+ path +:+ ": " +:+ e)
  | Ok content =>
      match yamlUnmarshal content with
      | Err e => Err ("parse project config " +:+ path +:+ ": " +:+ e)
      | Ok cfg =>
          match Validate cfg with
          | Some e => Err ("invalid project config " +:+ path +:+ ": " +:+ e)
          | None =>
              let cfg := normalizeConfig cfg path content in
              match ValidateNormalized cfg with
              | Some e => Err ("invalid project config " +:+ path +:+ ": " +:+ e)
              | None => Ok cfg
              end
          end
      end
  end.
End Load.

(** ** Validation, as propositions *)

Definition owner_ok (value : string) : Prop := In value ["project"; "areaflow"; "external"].

Definition ownership_ok (ow : Ownership) : Prop :=
  let so := ow_SourceOfTruth ow in
  In (ow_Mode ow) ["import"; "mirror"; "shadow"; "cutover"; "archived"]
  /\ Forall owner_ok
       [so_ProductDocs so; so_SourceCode so; so_Workflow so; so_Execution so;
        so_StatusSummary so; cu_NewVersionsOwnedBy (ow_Cutover ow);
        cu_ExecutionOwnedBy (ow_Cutover ow)].

Definition migration_ok (mi : Migration) : Prop :=
  In (mi_Phase mi) ["import"; "mirror"; "shadow"; "cutover"; "authoring_cutover";
    "execution_beta"; "execution_cutover"; "archive"; "shim_retirement"]
  /\ mi_Strategy mi = "import_mirror_shadow_cutover_archive".

Definition status_export_ok (se : StatusExport) : Prop :=
  let hs := se_HumanSummary se in
  (se_Enabled se = true -> trim_space (se_Path se) <> "")
  /\ (hs_Enabled hs = true -> trim_space (hs_Path hs) <> "" /\ trim_space (hs_BlockMarker hs) <> "").

Definition basics_ok (cfg : Config) : Prop :=
  cf_Version cfg = 1
  /\ Forall (fun s => s <> "")
       [pc_ID (cf_Project cfg); pc_Name (cf_Project cfg); pc_Root (cf_Project cfg);
        pc_Adapter (cf_Project cfg); pc_WorkflowProfile (cf_Project cfg)].

Lemma first_error_none checks : first_error checks = None <-> Forall (fun c => c = None) checks.
Proof.
  induction checks as [|[e|] checks IH]; cbn.
  - split; [constructor|done].
  - split; [done|]. intros H. by inversion H.
  - rewrite IH. split; [by constructor|]. intros H. by inversion H.
Qed.

Lemma check_none b m : check b m = None <-> b = false.
Proof. by destruct b. Qed.

Lemma validateOwner_none name value : validateOwner name value = None <-> owner_ok value.
Proof.
  unfold validateOwner, owner_ok. cbn.
  destruct (String.eqb_spec value "project") as [->|]; [tauto|].
  destruct (String.eqb_spec value "areaflow") as [->|]; [tauto|].
  destruct (String.eqb_spec value "external") as [->|]; [tauto|].
  cbn. split; [done|]. intros H. intuition congruence.
Qed.

Lemma Validate_none cfg : Validate cfg = None <-> basics_ok cfg.
Proof.
  unfold Validate, basics_ok. split.
  - intros H. repeat (case_eqb_in H; cbn in H; try done). repeat constructor; done.
  - intros [-> HF]. repeat (inversion HF as [|? ? ? HF' E]; subst; clear HF; rename HF' into HF).
    cbn. by repeat (rewrite (proj2 (String.eqb_neq _ _)) by done).
Qed.

Lemma blank_check (b : bool) s : b && (trim_space s =s "") = false <-> (b = true -> trim_space s <> "").
Proof.
  destruct b; cbn; [|by split]. destruct (String.eqb_spec (trim_space s) ""); split; intros; try done.
  exfalso. by apply H.
Qed.

Lemma ValidateNormalized_none cfg :
  ValidateNormalized cfg = None <->
  ownership_ok (cf_Ownership cfg) /\ migration_ok (cf_Migration cfg)
  /\ status_export_ok (cf_StatusExport cfg).
Proof.
  unfold ValidateNormalized. cbv zeta.
  rewrite first_error_none, !List.Forall_cons_iff, !check_none, !validateOwner_none, !blank_check,
    !negb_false_iff, String.eqb_eq.
  unfold knownOwnershipMode, knownMigrationPhase. rewrite !str_in_spec.
  unfold ownership_ok, migration_ok, status_export_ok. cbv zeta. rewrite !List.Forall_cons_iff.
  split; [|]; intros H; decompose [and] H; clear H; repeat split; auto; intros E;
    match goal with K : hs_Enabled _ = true -> _ /\ _ |- _ => apply (K E) end.
Qed.

(** ** What normalisation guarantees *)

(** The status export checks cannot fail after normalisation. *)
Lemma NormalizeStatusExport_ok se : status_export_ok (NormalizeStatusExport se).
Proof.
  unfold status_export_ok, NormalizeStatusExport. cbn.
  assert (H : forall e v fb, trim_space fb <> "" -> e = true ->
    trim_space (if e && (trim_space v =s "") then fb else trim_space v) <> "").
  { intros e v fb Hfb ->. rewrite andb_true_l.
    destruct (String.eqb_spec (trim_space v) ""); [done|]. by rewrite trim_space_idemp. }
  split; [|split]; intros; apply H; auto; vm_compute; discriminate.
Qed.

Definition scheduling_ok (s : Scheduling) : Prop :=
  0 < sc_Priority s /\ 0 < sc_MaxParallelTasks s /\ sc_AgentRole s <> ""
  /\ normal_list (sc_RequiredCapabilities s).

Definition engines_ok (e : Engines) : Prop :=
  Forall (fun p => ep_ID p <> "" /\ trim_space (ep_ID p) = ep_ID p /\ ep_Provider p <> ""
                   /\ ep_SecretRef p <> "" /\ ep_ResourceLimits p <> None) (en_Profiles e)
  /\ (en_Profiles e <> [] -> en_Default e <> "").

Lemma NormalizeScheduling_ok s : scheduling_ok (NormalizeScheduling s).
Proof.
  unfold scheduling_ok, NormalizeScheduling. cbn. split_and!.
  - case_eqb; lia.
  - case_eqb; lia.
  - by case_eqb.
  - apply normalize_normal.
Qed.

Lemma normalizeProfile_Some p q :
  normalizeProfile p = Some q ->
  ep_ID q <> "" /\ trim_space (ep_ID q) = ep_ID q /\ ep_Provider q <> ""
  /\ ep_SecretRef q <> "" /\ ep_ResourceLimits q <> None.
Proof.
  unfold normalizeProfile. destruct (String.eqb_spec (trim_space (ep_ID p)) ""); [done|].
  intros [= <-]. cbn. split; [done|]. split; [apply trim_space_idemp|].
  split; [by apply trim_default_nonempty|]. split; [by apply trim_default_nonempty|done].
Qed.

Lemma NormalizeEngines_ok e : engines_ok (NormalizeEngines e).
Proof.
  unfold engines_ok, NormalizeEngines. cbn.
  assert (HF : Forall (fun q => exists p, normalizeProfile p = Some q)
                 (omap normalizeProfile (en_Profiles e))).
  { apply List.Forall_forall. intros q Hq. apply list_elem_of_In, list_elem_of_omap in Hq.
    destruct Hq as (p & _ & E). eauto. }
  split.
  - eapply List.Forall_impl; [|exact HF]. intros q [p E]. by eapply normalizeProfile_Some.
  - destruct (omap _ _) as [|q l]; [done|]. intros _. inversion HF as [|? ? [p E] _]; subst.
    apply normalizeProfile_Some in E as [E _].
    destruct (String.eqb_spec (trim_space (en_Default e)) ""); done.
Qed.

(** *** Idempotence *)

Lemma NormalizeOwnership_idemp o : NormalizeOwnership (NormalizeOwnership o) = NormalizeOwnership o.
Proof.
  unfold NormalizeOwnership, defaultOwner. cbn -[trim_default].
  by rewrite !trim_default_idemp.
Qed.

Lemma NormalizeMigration_idemp m : NormalizeMigration (NormalizeMigration m) = NormalizeMigration m.
Proof.
  unfold NormalizeMigration, normalizeConfigStringList. cbn -[trim_default normalize_loop].
  rewrite !trim_default_idemp by done. f_equal; apply normalize_idemp.
Qed.

Lemma NormalizeStatusExport_idemp s :
  NormalizeStatusExport (NormalizeStatusExport s) = NormalizeStatusExport s.
Proof.
  unfold NormalizeStatusExport. cbn.
  assert (H : forall (e : bool) v fb, trim_space fb = fb ->
    let x := if e && (trim_space v =s "") then fb else trim_space v in
    (if e && (trim_space x =s "") then fb else trim_space x) = x).
  { intros e v fb Hfb. cbv zeta. destruct (String.eqb_spec (trim_space v) "") as [E|E].
    - destruct e; cbn [andb]; [rewrite Hfb; by case_eqb|apply trim_space_idemp].
    - rewrite andb_false_r, trim_space_idemp. by rewrite (proj2 (String.eqb_neq _ _) E), andb_false_r. }
  f_equal; [by apply H|]. f_equal; by apply H.
Qed.

Lemma normalizeProfile_idemp p q : normalizeProfile p = Some q -> normalizeProfile q = Some q.
Proof.
  unfold normalizeProfile. destruct (String.eqb_spec (trim_space (ep_ID p)) "") as [|Hne]; [done|].
  intros [= <-]. cbn [ep_ID ep_Provider ep_SecretRef ep_Enabled ep_ResourceLimits].
  rewrite trim_space_idemp, (proj2 (String.eqb_neq _ _) Hne).
  rewrite trim_default_idemp by apply trim_space_idemp. by rewrite trim_default_idemp.
Qed.

Lemma omap_idemp {A} (f : A -> option A) (l : list A) :
  (forall x y, f x = Some y -> f y = Some y) -> omap f (omap f l) = omap f l.
Proof.
  intros H. induction l as [|x l IH]; [done|]. cbn. destruct (f x) as [y|] eqn:E; [|done].
  cbn. rewrite (H _ _ E). by f_equal.
Qed.

Lemma NormalizeEngines_idemp e : NormalizeEngines (NormalizeEngines e) = NormalizeEngines e.
Proof.
  unfold NormalizeEngines. cbn [en_Default en_Profiles].
  rewrite omap_idemp by apply normalizeProfile_idemp. destruct (omap normalizeProfile (en_Profiles e)) as [|q l] eqn:E.
  - by rewrite trim_space_idemp.
  - assert (Hq : exists p, normalizeProfile p = Some q).
    { assert (Hin : q ∈ omap normalizeProfile (en_Profiles e)) by (rewrite E; by left).
      apply list_elem_of_omap in Hin as (p & _ & Ep). eauto. }
    destruct Hq as [p Ep]. apply normalizeProfile_Some in Ep as (Hne & Ht & _).
    f_equal. destruct (String.eqb_spec (trim_space (en_Default e)) "") as [|Hd].
    + rewrite Ht. by case_eqb.
    + rewrite trim_space_idemp. by case_eqb.
Qed.

(** A capability requirement that normalises to something is stable. *)
Lemma NormalizeScheduling_idemp s :
  sc_RequiredCapabilities (NormalizeScheduling s) <> [] ->
  NormalizeScheduling (NormalizeScheduling s) = NormalizeScheduling s.
Proof.
  unfold NormalizeScheduling. cbn. intros Hc.
  set (caps := normalizeCapabilityList _) in *. f_equal.
  - repeat case_eqb; lia.
  - repeat case_eqb; lia.
  - destruct (String.eqb_spec (sc_AgentRole s) ""); [done|]. by case_eqb.
  - destruct caps as [|c l] eqn:E; [done|]. rewrite <- E. apply normalize_idemp.
Qed.

(** ** Loading *)

Section LoadSpec.
Context (readFile : string -> res string string) (yamlUnmarshal : string -> res string Config)
        (abs : string -> option string).

Lemma LoadConfig_inv path cfg :
  LoadConfig readFile yamlUnmarshal abs path = Ok cfg <->
  exists content raw, readFile path = Ok content /\ yamlUnmarshal content = Ok raw
    /\ cfg = normalizeConfig abs raw path content /\ basics_ok raw
    /\ ownership_ok (cf_Ownership cfg) /\ migration_ok (cf_Migration cfg).
Proof.
  unfold LoadConfig. split.
  - destruct (readFile path) as [content|]; [|done].
    destruct (yamlUnmarshal content) as [raw|] eqn:Ey; [|done].
    destruct (Validate raw) eqn:Ev; [done|]. cbv zeta.
    destruct (ValidateNormalized _) eqn:En; [done|]. intros [= <-].
    apply Validate_none in Ev. apply ValidateNormalized_none in En as (H1 & H2 & _).
    exists content, raw. done.
  - intros (content & raw & -> & -> & -> & Hb & Ho & Hm).
    apply Validate_none in Hb as ->. cbv zeta.
    rewrite (proj2 (ValidateNormalized_none _)); [done|]. split; [done|]. split; [done|].
    apply NormalizeStatusExport_ok.
Qed.
End LoadSpec.

(** Whatever the file, the parser and the path resolution yield, a
    configuration is loaded exactly when the file is read and parsed, the
    required fields are present and the normalised ownership and migration are
    supported; the result is the parsed configuration with its sections
    normalised, stamped with the digest of the file's content.  The checks on
    the status export never reject a file. *)
Theorem load_config_exact readFile yamlUnmarshal abs path cfg :
  LoadConfig readFile yamlUnmarshal abs path = Ok cfg <->
  exists content raw, readFile path = Ok content /\ yamlUnmarshal content = Ok raw
    /\ cfg = normalizeConfig abs raw path content /\ basics_ok raw
    /\ ownership_ok (cf_Ownership cfg) /\ migration_ok (cf_Migration cfg).
Proof. apply LoadConfig_inv. Qed.

(** C40. A loaded configuration is well formed: supported owners, mode, phase and
    strategy, positive priority and parallelism, a role, capabilities in
    normal form, engine profiles with ids, providers and secret references, a
    default engine where there are profiles, and a path wherever an export is
    enabled.  Normalising it again changes nothing, provided its capability
    requirement did not consist of blanks only. *)
Theorem loaded_config_wf readFile yamlUnmarshal abs path cfg :
  LoadConfig readFile yamlUnmarshal abs path = Ok cfg ->
  ownership_ok (cf_Ownership cfg) /\ migration_ok (cf_Migration cfg)
  /\ status_export_ok (cf_StatusExport cfg) /\ scheduling_ok (cf_Scheduling cfg)
  /\ engines_ok (cf_Engines cfg)
  /\ (sc_RequiredCapabilities (cf_Scheduling cfg) <> [] ->
      MkConfig (cf_Version cfg) (cf_Project cfg) (NormalizeOwnership (cf_Ownership cfg))
        (cf_ArtifactStore cfg) (cf_Permissions cfg) (cf_Commands cfg)
        (NormalizeScheduling (cf_Scheduling cfg)) (NormalizeEngines (cf_Engines cfg))
        (NormalizeStatusExport (cf_StatusExport cfg)) (NormalizeMigration (cf_Migration cfg))
        (cf_SourcePath cfg) (cf_SourceHash cfg) = cfg).
Proof.
  intros H. apply LoadConfig_inv in H as (content & raw & _ & _ & -> & _ & Ho & Hm).
  split; [done|]. split; [done|]. split; [apply NormalizeStatusExport_ok|].
  split; [apply NormalizeScheduling_ok|]. split; [apply NormalizeEngines_ok|].
  unfold normalizeConfig. cbn -[NormalizeOwnership NormalizeScheduling NormalizeEngines
    NormalizeStatusExport NormalizeMigration]. intros Hc.
  by rewrite NormalizeOwnership_idemp, NormalizeScheduling_idemp, NormalizeEngines_idemp,
    NormalizeStatusExport_idemp, NormalizeMigration_idemp.
Qed.

(** A minimal configuration file *)
Definition demo_config : Config :=
  MkConfig 1 (MkProjectConfig "demo" "Demo" "/srv/demo" "" "generic" "standard" "")
    (MkOwnership "" (MkSourceOfTruth "" "" "" "" "") (MkCutover false "" "" ""))
    (MkArtifactStore "" "") (MkPermissions [] [] [] []) (MkCommands [] [])
    (MkScheduling 0 0 "" [] "") (MkEngines "" [MkEngineProfile " codex " "" "" true None])
    (MkStatusExport true "" (MkHumanSummary false "" "")) (MkMigration "" "" [] []) "" "".

Lemma loaded_config_wf_witness :
  exists cfg,
    LoadConfig (fun _ => Ok "version: 1") (fun _ => Ok demo_config) Some "/srv/areaflow.yaml" = Ok cfg
    /\ ownership_ok (cf_Ownership cfg) /\ en_Default (cf_Engines cfg) = "codex".
Proof.
  eexists. assert (H : LoadConfig (fun _ => Ok "version: 1") (fun _ => Ok demo_config) Some
    "/srv/areaflow.yaml" = Ok (MkConfig _ _ _ _ _ _ _ _ _ _ _ _)) by (vm_compute; reflexivity).
  split; [exact H|]. split; [|reflexivity].
  apply (loaded_config_wf _ _ _ _ _ H).
Defined.

(** Blank requirements normalise to none, and none to the default: normalising
    twice differs from normalising once. *)
Example blank_requirements_not_stable :
  let s := MkScheduling 1 1 "r" [" "] "" in
  sc_RequiredCapabilities (NormalizeScheduling s) = []
  /\ sc_RequiredCapabilities (NormalizeScheduling (NormalizeScheduling s)) = ["read_project"].
Proof. vm_compute. done. Qed.
