(* ===== verification/Schedule.v ===== *)
(** * Worker pool scheduling

    [internal/project/worker.go]: the schedule preview over the projects of a
    worker pool.  For each project it combines slots, role, capability, engine
    and resource readiness into a recommendation, and orders the projects.
    The counts it starts from are a database query ([WorkerPoolSummary]),
    which is not modelled: the summaries are the input. *)

From stdpp Require Import base list strings numbers.
From Stdlib Require Import ZArith Lia String Sorting.Sorted.
From S2P Require Import Prelude GoString Json Schema Tx Command Capability Config.

(** ** Data *)

Record SchedulingPolicy := MkSchedulingPolicy {
  sp_Priority : Z; sp_MaxParallelTasks : Z; sp_AgentRole : string;
  sp_RequiredCapabilities : list string; sp_EngineProfile : string }.

Record RoleReadiness := MkRoleReadiness {
  ro_RequiredRole : string; ro_Matched : bool; ro_MatchedTypes : list string;
  ro_Status : string; ro_BlockedReasons : list string }.

Record EngineReadiness := MkEngineReadiness {
  er_ProfileID : string; er_Provider : string; er_Enabled : bool; er_SecretRef : string;
  er_SecretRequired : bool; er_SecretReady : bool; er_ResourceLimits : option jmap;
  er_Status : string; er_BlockedReasons : list string }.

Record ResourceReadiness := MkResourceReadiness {
  rs_MaxActiveLeases : Z; rs_MaxQueuedTasks : Z; rs_Status : string;
  rs_BlockedReasons : list string }.

Record WorkerPoolProjectSummary := MkPoolSummary {
  ps_Project : Record_; ps_Workers : Z; ps_OnlineWorkers : Z; ps_OfflineWorkers : Z;
  ps_ActiveLeases : Z; ps_NeedsRecoveryLeases : Z; ps_QueuedTasks : Z;
  ps_NeedsRecoveryTasks : Z; ps_Capabilities : list string; ps_WorkerTypes : list string;
  ps_Scheduling : SchedulingPolicy; ps_Role : RoleReadiness; ps_Engine : EngineReadiness;
  ps_Resources : ResourceReadiness; ps_LastWorkerHeartbeat : option Z }.

Record WorkerPoolProjectSchedule := MkProjectSchedule {
  pj_Project : Record_; pj_Priority : Z; pj_MaxParallel : Z; pj_AgentRole : string;
  pj_Role : RoleReadiness; pj_EngineProfile : string; pj_Engine : EngineReadiness;
  pj_Resources : ResourceReadiness; pj_QueuedTasks : Z; pj_ActiveLeases : Z;
  pj_OnlineWorkers : Z; pj_AvailableSlots : Z; pj_NeedsRecovery : Z;
  pj_Capabilities : list string; pj_RequiredCaps : list string; pj_Recommended : bool;
  pj_BlockedReasons : list string; pj_NextAction : string }.

Record WorkerPoolSchedulePolicy := MkSchedulePolicy {
  po_Strategy : string; po_DefaultProjectPriority : Z; po_SlotStrategy : string;
  po_DryRunOnly : bool }.

Record WorkerPoolSummary := MkWorkerPoolSummary {
  wp_Projects : list WorkerPoolProjectSummary; wp_GeneratedAt : Z }.

Record WorkerPoolSchedulePreview := MkSchedulePreview {
  pv_Projects : list WorkerPoolProjectSchedule; pv_Policy : WorkerPoolSchedulePolicy;
  pv_GeneratedAt : Z; pv_Recommended : Z; pv_Blocked : Z; pv_QueuedTasks : Z;
  pv_AvailableSlot : Z }.

(** ** Readiness *)

Definition schedulingPolicyFromConfig (cfg : Scheduling) : SchedulingPolicy :=
  let n := NormalizeScheduling cfg in
  MkSchedulingPolicy (sc_Priority n) (sc_MaxParallelTasks n) (sc_AgentRole n)
    (sc_RequiredCapabilities n) (trim_space (sc_EngineProfile n)).

Definition normalizeSchedulingPolicy (p : SchedulingPolicy) : SchedulingPolicy :=
  schedulingPolicyFromConfig
    (MkScheduling (sp_Priority p) (sp_MaxParallelTasks p) (sp_AgentRole p)
       (sp_RequiredCapabilities p) (sp_EngineProfile p)).

Definition workerTypeMatchesRole (workerType requiredRole : string) : bool :=
  let workerType := trim_space workerType in
  let requiredRole := trim_space requiredRole in
  (workerType =s requiredRole)
  || ((requiredRole =s "local_worker") && (workerType =s "local_host")).

Definition roleReadinessFromWorkerTypes (requiredRole : string) (workerTypes : list string)
  : RoleReadiness :=
  let requiredRole := trim_space requiredRole in
  if requiredRole =s "" then MkRoleReadiness requiredRole false [] "ready" []
  else
    let matched := List.filter (fun t => workerTypeMatchesRole t requiredRole)
                     (normalizeStringList workerTypes) in
    match matched with
    | [] => MkRoleReadiness requiredRole false [] "blocked" ["missing_agent_role:" +:+ requiredRole]
    | _ => MkRoleReadiness requiredRole true matched "ready" []
    end.

Definition int64FromLimit (limits : option jmap) (key : string) : Z :=
  match limits with
  | None => 0
  | Some m =>
      match mget key m with
      | Some (JInt z) => z
      | Some (JFloat z) => int64_of_float z
      | _ => 0
      end
  end.

Definition resourceReadinessFromLimits (limits : option jmap) (activeLeases queuedTasks : Z)
  : ResourceReadiness :=
  let maxActive := int64FromLimit limits "max_active_leases" in
  let maxQueued := int64FromLimit limits "max_queued_tasks" in
  let reasons :=
    (if (0 <? maxActive) && (maxActive <=? activeLeases)
     then ["resource_limit:max_active_leases"] else [])
    ++ (if (0 <? maxQueued) && (maxQueued <? queuedTasks)
        then ["resource_limit:max_queued_tasks"] else []) in
  MkResourceReadiness maxActive maxQueued
    (match reasons with [] => "ready" | _ => "blocked" end) reasons.

Definition engineReadinessFromProfile (profile : EngineProfileConfig) : EngineReadiness :=
  let secretRef := trim_space (ep_SecretRef profile) in
  let secretRequired := (secretRef <>s "") && (secretRef <>s "none") in
  let secretReady := negb secretRequired in
  let reasons :=
    (if ep_Enabled profile then [] else ["engine_profile_disabled"])
    ++ (if secretRequired && negb secretReady then ["secret_ref_unavailable"] else []) in
  MkEngineReadiness (trim_space (ep_ID profile)) (trim_space (ep_Provider profile))
    (ep_Enabled profile) (if secretRef =s "" then "none" else secretRef) secretRequired
    secretReady (Some (match ep_ResourceLimits profile with Some m => m | None => [] end))
    (match reasons with [] => "ready" | _ => "blocked" end) reasons.

Definition engineReadinessFromConfig (cfg : Config) : EngineReadiness :=
  match engineProfileByID (cf_Engines cfg) (sc_EngineProfile (cf_Scheduling cfg)) with
  | Some profile => engineReadinessFromProfile profile
  | None =>
      let profileID := trim_space (sc_EngineProfile (cf_Scheduling cfg)) in
      let profileID :=
        if profileID =s "" then trim_space (en_Default (cf_Engines cfg)) else profileID in
      MkEngineReadiness profileID "" false "none" false true (Some []) "blocked"
        ["engine_profile_missing"]
  end.

Definition normalizeEngineReadiness (r : EngineReadiness) (fallbackProfile : string)
  : EngineReadiness :=
  MkEngineReadiness
    (if er_ProfileID r =s "" then trim_space fallbackProfile else er_ProfileID r)
    (er_Provider r) (er_Enabled r) (if er_SecretRef r =s "" then "none" else er_SecretRef r)
    (er_SecretRequired r) (er_SecretReady r)
    (Some (match er_ResourceLimits r with Some m => m | None => [] end))
    (match er_BlockedReasons r with
     | [] => if er_Status r =s "" then "ready" else er_Status r
     | _ => "blocked"
     end)
    (er_BlockedReasons r).

Definition nonNegativeInt64 (value : Z) : Z := if value <? 0 then 0 else value.
Definition minInt64 (left right : Z) : Z := if left <? right then left else right.

(** ** One project *)

Definition availableSlots (s : WorkerPoolProjectSummary) (policy : SchedulingPolicy) : Z :=
  minInt64 (nonNegativeInt64 (sub64 (ps_OnlineWorkers s) (ps_ActiveLeases s)))
           (nonNegativeInt64 (sub64 (sp_MaxParallelTasks policy) (ps_ActiveLeases s))).

(** The reasons collected when there is work *)
Definition scheduleReasons (s : WorkerPoolProjectSummary) (policy : SchedulingPolicy)
    (role : RoleReadiness) (engine : EngineReadiness) (resources : ResourceReadiness)
    (slots : Z) : list string :=
  (if ps_OnlineWorkers s =? 0 then ["no_online_workers"] else [])
  ++ (if ro_Status role =s "blocked" then ro_BlockedReasons role else [])
  ++ (if slots =? 0 then ["no_available_worker_slots"] else [])
  ++ flat_map (fun required =>
       if capabilityPresent (ps_Capabilities s) required then []
       else ["missing_required_capability:" +:+ required]) (sp_RequiredCapabilities policy)
  ++ (if er_Status engine =s "blocked" then er_BlockedReasons engine else [])
  ++ (if rs_Status resources =s "blocked" then rs_BlockedReasons resources else []).

Definition buildWorkerPoolProjectSchedule (s : WorkerPoolProjectSummary)
  : WorkerPoolProjectSchedule :=
  let policy := normalizeSchedulingPolicy (ps_Scheduling s) in
  let slots := availableSlots s policy in
  let role := roleReadinessFromWorkerTypes (sp_AgentRole policy) (ps_WorkerTypes s) in
  let engine := normalizeEngineReadiness (ps_Engine s) (sp_EngineProfile policy) in
  let resources := resourceReadinessFromLimits (er_ResourceLimits (ps_Engine s))
                     (ps_ActiveLeases s) (ps_QueuedTasks s) in
  let item := MkProjectSchedule (ps_Project s) (sp_Priority policy)
    (sp_MaxParallelTasks policy) (sp_AgentRole policy) role (sp_EngineProfile policy) engine
    resources (ps_QueuedTasks s) (ps_ActiveLeases s) (ps_OnlineWorkers s) slots
    (add64 (ps_NeedsRecoveryLeases s) (ps_NeedsRecoveryTasks s)) (ps_Capabilities s)
    (sp_RequiredCapabilities policy) in
  if ps_QueuedTasks s =? 0 then item false ["no_queued_tasks"] "idle"
  else match scheduleReasons s policy role engine resources slots with
       | [] => item true [] "worker_run_once_preview"
       | reasons => item false reasons "idle"
       end.

(** ** The pool *)

(** The comparison of [sort.SliceStable] *)
Definition schedule_before (a b : WorkerPoolProjectSchedule) : bool :=
  if negb (Bool.eqb (pj_Recommended a) (pj_Recommended b)) then pj_Recommended a
  else if negb (pj_Priority a =? pj_Priority b) then pj_Priority b <? pj_Priority a
  else if negb (pj_QueuedTasks a =? pj_QueuedTasks b) then pj_QueuedTasks b <? pj_QueuedTasks a
  else String.ltb (p_Key (pj_Project a)) (p_Key (pj_Project b)).

Definition sortWorkerPoolSchedule (items : list WorkerPoolProjectSchedule)
  : list WorkerPoolProjectSchedule := sort_stable schedule_before items.

(** One turn of the loop: the counters of the preview so far *)
Definition preview_step (pv : WorkerPoolSchedulePreview) (s : WorkerPoolProjectSummary)
  : WorkerPoolSchedulePreview :=
  let item := buildWorkerPoolProjectSchedule s in
  MkSchedulePreview (pv_Projects pv ++ [item]) (pv_Policy pv) (pv_GeneratedAt pv)
    (if pj_Recommended item then add64 (pv_Recommended pv) 1 else pv_Recommended pv)
    (if pj_Recommended item then pv_Blocked pv
     else if 0 <? pj_QueuedTasks item then add64 (pv_Blocked pv) 1 else pv_Blocked pv)
    (add64 (pv_QueuedTasks pv) (pj_QueuedTasks item))
    (add64 (pv_AvailableSlot pv) (pj_AvailableSlots item)).

Definition BuildWorkerPoolSchedulePreview (summary : WorkerPoolSummary)
  : WorkerPoolSchedulePreview :=
  let pv := fold_left preview_step (wp_Projects summary)
    (MkSchedulePreview []
       (MkSchedulePolicy "default_fifo" 100
          "min_online_workers_and_project_parallelism_minus_active_leases" true)
       (wp_GeneratedAt summary) 0 0 0 0) in
  MkSchedulePreview (sortWorkerPoolSchedule (pv_Projects pv)) (pv_Policy pv)
    (pv_GeneratedAt pv) (pv_Recommended pv) (pv_Blocked pv) (pv_QueuedTasks pv)
    (pv_AvailableSlot pv).

(** ** Lemmas *)

(** A role is ready when it is blank or some worker type matches it. *)
Definition role_served (role : string) (types : list string) : Prop :=
  trim_space role = ""
  \/ exists t, In t types /\ trim_space t <> "" /\ workerTypeMatchesRole t role = true.

Lemma matches_trim t role : workerTypeMatchesRole (trim_space t) (trim_space role) = workerTypeMatchesRole t role.
Proof. unfold workerTypeMatchesRole. by rewrite !trim_space_idemp. Qed.

Lemma role_reasons_nil role types :
  (if ro_Status (roleReadinessFromWorkerTypes role types) =s "blocked"
   then ro_BlockedReasons (roleReadinessFromWorkerTypes role types) else []) = []
  <-> role_served role types.
Proof.
  unfold roleReadinessFromWorkerTypes, role_served.
  destruct (String.eqb_spec (trim_space role) "") as [E|E]; [by split; [left|]|].
  destruct (List.filter _ _) as [|t l] eqn:Ef; cbn.
  - split; [done|]. intros [?|(t & Ht & Hne & Hm)]; [done|]. exfalso.
    assert (Hin : In (trim_space t) (List.filter (fun t => workerTypeMatchesRole t (trim_space role))
                    (normalizeStringList types))).
    { apply filter_In. split; [apply normalizeStringList_In; eauto|by rewrite matches_trim]. }
    by rewrite Ef in Hin.
  - split; [|done]. intros _. right.
    assert (Hin : In t (List.filter (fun t => workerTypeMatchesRole t (trim_space role))
                    (normalizeStringList types))) by (rewrite Ef; by left).
    apply filter_In in Hin as [Hin Hm]. apply normalizeStringList_In in Hin as (Hne & y & Hy & <-).
    exists y. split; [done|]. split; [done|]. by rewrite matches_trim in Hm.
Qed.

Lemma engine_reasons_nil r p :
  (if er_Status (normalizeEngineReadiness r p) =s "blocked"
   then er_BlockedReasons (normalizeEngineReadiness r p) else []) = []
  <-> er_BlockedReasons r = [].
Proof.
  unfold normalizeEngineReadiness. cbn [er_Status er_BlockedReasons].
  destruct (er_BlockedReasons r); [|done]. by destruct (_ =s "blocked").
Qed.

(** The active leases and queued tasks are within the limits that are set. *)
Definition within_limits (limits : option jmap) (activeLeases queuedTasks : Z) : Prop :=
  (0 < int64FromLimit limits "max_active_leases" ->
   activeLeases < int64FromLimit limits "max_active_leases")
  /\ (0 < int64FromLimit limits "max_queued_tasks" ->
      queuedTasks <= int64FromLimit limits "max_queued_tasks").

Lemma resource_reasons_nil limits a q :
  (if rs_Status (resourceReadinessFromLimits limits a q) =s "blocked"
   then rs_BlockedReasons (resourceReadinessFromLimits limits a q) else []) = []
  <-> within_limits limits a q.
Proof.
  unfold resourceReadinessFromLimits, within_limits. cbn [rs_Status rs_BlockedReasons].
  generalize (int64FromLimit limits "max_active_leases") as ma.
  generalize (int64FromLimit limits "max_queued_tasks") as mq. intros mq ma.
  destruct (Z.ltb_spec 0 ma), (Z.leb_spec ma a), (Z.ltb_spec 0 mq), (Z.ltb_spec mq q); cbn;
    (split; intros HH; [done || lia | try done; exfalso; lia]).
Qed.

Lemma capability_reasons_nil held required :
  flat_map (fun r => if capabilityPresent held r then []
                     else ["missing_required_capability:" +:+ r]) required = []
  <-> Forall (fun r => exists y, In y held /\ trim_space y = trim_space r) required.
Proof.
  induction required as [|r l IH]; cbn [flat_map]; [by split|]. rewrite List.Forall_cons_iff.
  destruct (capabilityPresent held r) eqn:E.
  - apply capabilityPresent_spec in E. rewrite app_nil_l, IH. tauto.
  - split; [done|]. intros [H _]. apply capabilityPresent_spec in H. congruence.
Qed.

Lemma if_nil {A} (b : bool) (x : A) : (if b then [x] else []) = [] <-> b = false.
Proof. by destruct b. Qed.

Lemma app_nil_iff {A} (l l' : list A) : l ++ l' = [] <-> l = [] /\ l' = [].
Proof. destruct l; cbn; [tauto|]. split; [done|]. by intros [? _]. Qed.

Lemma scheduleReasons_nil s policy slots :
  scheduleReasons s policy
    (roleReadinessFromWorkerTypes (sp_AgentRole policy) (ps_WorkerTypes s))
    (normalizeEngineReadiness (ps_Engine s) (sp_EngineProfile policy))
    (resourceReadinessFromLimits (er_ResourceLimits (ps_Engine s)) (ps_ActiveLeases s)
       (ps_QueuedTasks s)) slots = []
  <-> ps_OnlineWorkers s <> 0 /\ slots <> 0
      /\ role_served (sp_AgentRole policy) (ps_WorkerTypes s)
      /\ Forall (fun r => exists y, In y (ps_Capabilities s) /\ trim_space y = trim_space r)
           (sp_RequiredCapabilities policy)
      /\ er_BlockedReasons (ps_Engine s) = []
      /\ within_limits (er_ResourceLimits (ps_Engine s)) (ps_ActiveLeases s) (ps_QueuedTasks s).
Proof.
  unfold scheduleReasons.
  rewrite !app_nil_iff, !if_nil, role_reasons_nil, engine_reasons_nil, resource_reasons_nil,
    capability_reasons_nil, !Z.eqb_neq. tauto.
Qed.

(** What makes a project worth sending a worker to *)
Definition schedulable (s : WorkerPoolProjectSummary) : Prop :=
  let policy := normalizeSchedulingPolicy (ps_Scheduling s) in
  ps_QueuedTasks s <> 0 /\ ps_OnlineWorkers s <> 0 /\ availableSlots s policy <> 0
  /\ role_served (sp_AgentRole policy) (ps_WorkerTypes s)
  /\ Forall (fun r => exists y, In y (ps_Capabilities s) /\ trim_space y = trim_space r)
       (sp_RequiredCapabilities policy)
  /\ er_BlockedReasons (ps_Engine s) = []
  /\ within_limits (er_ResourceLimits (ps_Engine s)) (ps_ActiveLeases s) (ps_QueuedTasks s).

Lemma recommended_schedulable s :
  pj_Recommended (buildWorkerPoolProjectSchedule s) = true <-> schedulable s.
Proof.
  unfold buildWorkerPoolProjectSchedule, schedulable. cbv zeta.
  destruct (Z.eqb_spec (ps_QueuedTasks s) 0); [cbn; split; [done|by intros [? _]]|].
  destruct (scheduleReasons _ _ _ _ _ _) eqn:E; cbn [pj_Recommended].
  - apply scheduleReasons_nil in E. tauto.
  - split; [done|]. intros (_ & H). apply scheduleReasons_nil in H.
    by rewrite E in H.
Qed.

Lemma minInt64_min a b : minInt64 a b = Z.min a b.
Proof. unfold minInt64. case_eqb; lia. Qed.

Lemma nonNegativeInt64_max a : nonNegativeInt64 a = Z.max 0 a.
Proof. unfold nonNegativeInt64. case_eqb; lia. Qed.

(** *** The order of the preview *)

Lemma schedule_before_asym a b : schedule_before a b = true -> schedule_before b a = false.
Proof.
  unfold schedule_before. rewrite (Z.eqb_sym (pj_Priority b)), (Z.eqb_sym (pj_QueuedTasks b)).
  destruct (pj_Recommended a), (pj_Recommended b); cbn; try done;
    repeat case_eqb; cbn; try done; try lia; apply ltb_asym.
Qed.

Lemma schedule_before_negtrans a b c :
  schedule_before b a = false -> schedule_before c b = false -> schedule_before c a = false.
Proof.
  unfold schedule_before.
  destruct (pj_Recommended a), (pj_Recommended b), (pj_Recommended c); cbn; try done;
    repeat case_eqb; cbn; try done; try lia; apply ltb_negtrans.
Qed.

(** *** The counters of the preview *)

Definition count (p : WorkerPoolProjectSchedule -> bool) (l : list WorkerPoolProjectSchedule) : Z :=
  Z.of_nat (List.length (List.filter p l)).

(** Not recommended although there is work *)
Definition blocked_item (i : WorkerPoolProjectSchedule) : bool :=
  negb (pj_Recommended i) && (0 <? pj_QueuedTasks i).

Lemma count_snoc p l x : count p (l ++ [x]) = count p l + (if p x then 1 else 0).
Proof.
  unfold count. rewrite List.filter_app, length_app. cbn. destruct (p x); cbn; lia.
Qed.

Lemma count_bound p l : 0 <= count p l <= Z.of_nat (List.length l).
Proof. unfold count. pose proof (List.filter_length_le p l). lia. Qed.

Lemma preview_fold summaries pv :
  pv_Recommended pv = count pj_Recommended (pv_Projects pv) ->
  pv_Blocked pv = count blocked_item (pv_Projects pv) ->
  Z.of_nat (List.length (pv_Projects pv) + List.length summaries) < 2 ^ 63 ->
  let pv' := fold_left preview_step summaries pv in
  pv_Projects pv' = pv_Projects pv ++ List.map buildWorkerPoolProjectSchedule summaries
  /\ pv_Recommended pv' = count pj_Recommended (pv_Projects pv')
  /\ pv_Blocked pv' = count blocked_item (pv_Projects pv')
  /\ pv_Policy pv' = pv_Policy pv.
Proof.
  revert pv. induction summaries as [|s l IH]; intros pv HR HB Hlen; cbn [fold_left List.map].
  { rewrite app_nil_r. done. }
  specialize (IH (preview_step pv s)). cbv zeta in *.
  set (item := buildWorkerPoolProjectSchedule s) in *.
  pose proof (count_bound pj_Recommended (pv_Projects pv)) as B1.
  pose proof (count_bound blocked_item (pv_Projects pv)) as B2.
  cbn [List.length] in Hlen.
  destruct IH as (I1 & I2 & I3 & I4).
  - cbn [preview_step pv_Recommended pv_Projects]. fold item. rewrite count_snoc, HR.
    destruct (pj_Recommended item); [unfold add64; apply wrap64_id; unfold in_int64; lia|lia].
  - cbn [preview_step pv_Blocked pv_Projects]. fold item. rewrite count_snoc, HB.
    change (blocked_item item) with (negb (pj_Recommended item) && (0 <? pj_QueuedTasks item)).
    destruct (pj_Recommended item); cbn [negb andb]; [lia|].
    destruct (0 <? pj_QueuedTasks item); [unfold add64; apply wrap64_id; unfold in_int64; lia|lia].
  - cbn [preview_step pv_Projects]. rewrite length_app. cbn. lia.
  - split; [|done]. rewrite I1. cbn [preview_step pv_Projects]. fold item. by rewrite <- app_assoc.
Qed.

(** ** Properties *)

(** A project is recommended exactly when it has queued tasks, an online
    worker, a free slot, a worker type for its role (if it names one), every
    capability it requires, no engine blocker and no exhausted limit. *)
Theorem schedule_recommended s :
  pj_Recommended (buildWorkerPoolProjectSchedule s) = true <-> schedulable s.
Proof. apply recommended_schedulable. Qed.

(** A recommendation never oversubscribes: one more lease still fits the
    online workers, the project's parallelism and its lease limit, whatever
    (machine-width, not negative) counts the summary reports. *)
Theorem schedule_no_oversubscription s :
  0 <= ps_ActiveLeases s -> in_int64 (ps_ActiveLeases s) ->
  0 <= ps_OnlineWorkers s -> in_int64 (ps_OnlineWorkers s) ->
  in_int64 (sp_MaxParallelTasks (ps_Scheduling s)) ->
  let item := buildWorkerPoolProjectSchedule s in
  pj_Recommended item = true ->
  ps_ActiveLeases s + 1 <= ps_OnlineWorkers s
  /\ ps_ActiveLeases s + 1 <= pj_MaxParallel item
  /\ ps_ActiveLeases s + pj_AvailableSlots item <= ps_OnlineWorkers s
  /\ ps_ActiveLeases s + pj_AvailableSlots item <= pj_MaxParallel item
  /\ (0 < rs_MaxActiveLeases (pj_Resources item) ->
      ps_ActiveLeases s + 1 <= rs_MaxActiveLeases (pj_Resources item)).
Proof.
  intros Ha Hai Ho Hoi Hm item Hr. apply recommended_schedulable in Hr.
  destruct Hr as (_ & _ & Hs & _ & _ & _ & Hl & _).
  set (policy := normalizeSchedulingPolicy (ps_Scheduling s)) in *.
  assert (E1 : pj_MaxParallel item = sp_MaxParallelTasks policy)
    by (unfold item, buildWorkerPoolProjectSchedule; cbv zeta; by repeat case_match).
  assert (E2 : pj_AvailableSlots item = availableSlots s policy)
    by (unfold item, buildWorkerPoolProjectSchedule; cbv zeta; by repeat case_match).
  assert (E3 : rs_MaxActiveLeases (pj_Resources item)
               = int64FromLimit (er_ResourceLimits (ps_Engine s)) "max_active_leases")
    by (unfold item, buildWorkerPoolProjectSchedule; cbv zeta; by repeat case_match).
  assert (Hp : 1 <= sp_MaxParallelTasks policy < 2 ^ 63).
  { unfold policy, normalizeSchedulingPolicy, schedulingPolicyFromConfig, NormalizeScheduling.
    cbn. unfold in_int64 in Hm. case_eqb; lia. }
  rewrite E1, E2, E3. revert Hs. unfold availableSlots, sub64.
  rewrite minInt64_min, !nonNegativeInt64_max.
  unfold in_int64 in *. rewrite !wrap64_id by (unfold in_int64; lia). intros Hs.
  repeat split; lia.
Qed.

(** A project with one online worker and a queued task *)
Definition demo_summary (key : string) (priority : Z) : WorkerPoolProjectSummary :=
  MkPoolSummary (MkRecord 1 key key "" "" "" "" "" "" "") 1 1 0 0 0 1 0 ["read_project"]
    ["local_host"] (MkSchedulingPolicy priority 2 "" [] "")
    (MkRoleReadiness "" false [] "" [])
    (MkEngineReadiness "" "" true "" false true None "" [])
    (MkResourceReadiness 0 0 "" []) None.

Lemma schedule_no_oversubscription_witness :
  pj_Recommended (buildWorkerPoolProjectSchedule (demo_summary "a" 5)) = true
  /\ pj_AvailableSlots (buildWorkerPoolProjectSchedule (demo_summary "a" 5)) <= 1.
Proof.
  split; [vm_compute; reflexivity|].
  destruct (schedule_no_oversubscription (demo_summary "a" 5)) as (_ & _ & H & _);
    [cbn; lia|split; cbn; lia|cbn; lia|split; cbn; lia|split; cbn; lia|vm_compute; reflexivity|].
  exact H.
Defined.

(** The preview lists every project once, recommended ones first, then by
    falling priority, falling number of queued tasks and rising key, and its
    counters are the numbers of recommended projects and of projects that are
    blocked although they have work; it never leaves dry-run mode. *)
Theorem preview_orders_and_counts summary :
  Z.of_nat (List.length (wp_Projects summary)) < 2 ^ 63 ->
  let pv := BuildWorkerPoolSchedulePreview summary in
  Permutation (List.map buildWorkerPoolProjectSchedule (wp_Projects summary)) (pv_Projects pv)
  /\ StronglySorted (fun a b => schedule_before b a = false) (pv_Projects pv)
  /\ pv_Recommended pv = count pj_Recommended (pv_Projects pv)
  /\ pv_Blocked pv = count blocked_item (pv_Projects pv)
  /\ po_DryRunOnly (pv_Policy pv) = true.
Proof.
  intros Hlen. cbv zeta. unfold BuildWorkerPoolSchedulePreview, sortWorkerPoolSchedule. cbv zeta.
  match goal with |- context [fold_left preview_step _ ?pv0] =>
    destruct (preview_fold (wp_Projects summary) pv0) as (I1 & I2 & I3 & I4);
      [done|done|cbn; lia|] end.
  cbn [pv_Projects pv_Recommended pv_Blocked pv_Policy app] in *. rewrite I4, I1 in *.
  rewrite I2, I3. split; [apply sort_stable_perm|]. split.
  - apply sort_stable_sorted; [apply schedule_before_asym|apply schedule_before_negtrans].
  - split; [|split; [|done]]; unfold count; f_equal; apply Permutation_length, filter_perm,
      sort_stable_perm.
Qed.

Lemma preview_orders_and_counts_witness :
  let summary := MkWorkerPoolSummary [demo_summary "b" 5; demo_summary "a" 9] 0 in
  let pv := BuildWorkerPoolSchedulePreview summary in
  List.map (fun i => p_Key (pj_Project i)) (pv_Projects pv) = ["a"; "b"]
  /\ pv_Recommended pv = count pj_Recommended (pv_Projects pv).
Proof.
  cbv zeta. split; [vm_compute; reflexivity|].
  apply (preview_orders_and_counts
           (MkWorkerPoolSummary [demo_summary "b" 5; demo_summary "a" 9] 0)).
  vm_compute. reflexivity.
Defined.

(** An engine recorded as blocked without a reason does not block. *)
Example blocked_engine_without_reason :
  let s := demo_summary "a" 5 in
  let engine := MkEngineReadiness "" "" true "" false true None "blocked" [] in
  er_Status (normalizeEngineReadiness engine "") = "blocked"
  /\ pj_Recommended (buildWorkerPoolProjectSchedule
       (MkPoolSummary (ps_Project s) 1 1 0 0 0 1 0 (ps_Capabilities s) (ps_WorkerTypes s)
          (ps_Scheduling s) (ps_Role s) engine (ps_Resources s) None)) = true.
Proof. vm_compute. done. Qed.
