(* ===== verification/Worker.v ===== *)
(** * Worker registry

    [internal/project/worker.go]: RegisterWorker, RecordWorkerHeartbeat,
    ListWorkers and the helpers they call.  A worker row is keyed by
    (project, worker key); registering it again updates the row in place. *)

From stdpp Require Import base list strings numbers.
From Stdlib Require Import ZArith Lia String.
From S2P Require Import Prelude GoString Sha256 Json Schema Tx Command Capability History.

(** ** Options *)

Record RegisterWorkerOptions := MkRegisterWorker {
  rw_WorkerKey : string; rw_WorkerType : string; rw_Hostname : string; rw_PID : Z;
  rw_Capabilities : list string; rw_Metadata : option jmap;
  rw_HeartbeatIntervalSeconds : Z; rw_LeaseTimeoutSeconds : Z;
  rw_Actor : string; rw_Reason : string; rw_IdempotencyKey : string }.

Record WorkerHeartbeatOptions := MkWorkerHeartbeat {
  wh_Status : string; wh_Metadata : option jmap; wh_Actor : string; wh_Reason : string;
  wh_IdempotencyKey : string }.

(** [if m == nil { m = map[string]any{} }] *)
Definition map_or_empty (m : option jmap) : jmap :=
  match m with Some m => m | None => [] end.

Definition default_capabilities : list string :=
  ["read_project"; "write_artifacts"; "execute_agents"].

Definition normalizeRegisterWorkerOptions (env : Env) (record : Record_)
    (o : RegisterWorkerOptions) : RegisterWorkerOptions :=
  {| rw_WorkerKey := trim_default (p_Key record +:+ "-local") (rw_WorkerKey o);
     rw_WorkerType := trim_default "local_host" (rw_WorkerType o);
     rw_Hostname :=
       let h := trim_space (rw_Hostname o) in
       if h =s "" then match env_hostname env with Some hn => hn | None => h end else h;
     rw_PID := rw_PID o;
     rw_Capabilities :=
       normalizeCapabilityList
         (match rw_Capabilities o with [] => default_capabilities | l => l end);
     rw_Metadata := Some (map_or_empty (rw_Metadata o));
     rw_HeartbeatIntervalSeconds :=
       if rw_HeartbeatIntervalSeconds o <=? 0 then 30 else rw_HeartbeatIntervalSeconds o;
     rw_LeaseTimeoutSeconds :=
       if rw_LeaseTimeoutSeconds o <=? 0 then 300 else rw_LeaseTimeoutSeconds o;
     rw_Actor := trim_default "local-user" (rw_Actor o);
     rw_Reason := trim_default "worker registry update" (rw_Reason o);
     rw_IdempotencyKey := trim_space (rw_IdempotencyKey o) |}.

Definition normalizeWorkerHeartbeatOptions (o : WorkerHeartbeatOptions)
  : WorkerHeartbeatOptions :=
  {| wh_Status := trim_default "online" (wh_Status o);
     wh_Metadata := Some (map_or_empty (wh_Metadata o));
     wh_Actor := trim_default "local-user" (wh_Actor o);
     wh_Reason := trim_default "worker heartbeat" (wh_Reason o);
     wh_IdempotencyKey := trim_space (wh_IdempotencyKey o) |}.

(** ** Request hashes and default idempotency keys *)

Definition request_hash (payload : jmap) : string := sha256_hex (marshal (JObj (mk payload))).

Definition workerRegisterRequestHash (record : Record_) (o : RegisterWorkerOptions) : string :=
  request_hash
    [("command_type", JStr "worker.register");
     ("project_key", JStr (p_Key record));
     ("worker_key", JStr (rw_WorkerKey o));
     ("worker_type", JStr (rw_WorkerType o));
     ("hostname", JStr (rw_Hostname o));
     ("pid", JInt (rw_PID o));
     ("capabilities", jstrs (rw_Capabilities o));
     ("metadata", JObj (map_or_empty (rw_Metadata o)));
     ("heartbeat_interval_seconds", JInt (rw_HeartbeatIntervalSeconds o));
     ("lease_timeout_seconds", JInt (rw_LeaseTimeoutSeconds o));
     ("actor", JStr (rw_Actor o));
     ("reason", JStr (rw_Reason o))].

Definition workerHeartbeatRequestHash (record : Record_) (workerKey : string)
    (o : WorkerHeartbeatOptions) : string :=
  request_hash
    [("command_type", JStr "worker.heartbeat");
     ("project_key", JStr (p_Key record));
     ("worker_key", JStr (trim_space workerKey));
     ("status", JStr (wh_Status o));
     ("metadata", JObj (map_or_empty (wh_Metadata o)));
     ("actor", JStr (wh_Actor o));
     ("reason", JStr (wh_Reason o))].

(** [workerLifecycleDefaultKeySequence.Add(1)] *)
Definition next_workerLifecycle (w : World) : Z * World :=
  let c := wd_counters w in
  let n := add64 (n_workerLifecycle c) 1 in
  (n, set_counters (MkCounters (n_leaseRecover c) n (n_workflowGate c) (n_transitionPreview c)) w).

Definition workerRegisterIdempotencyKey (env : Env) (record : Record_)
    (o : RegisterWorkerOptions) (requestHash : string) (w : World) : string * World :=
  let (sequence, w) := next_workerLifecycle w in
  ("worker.register:" +:+ p_Key record +:+ ":" +:+ rw_WorkerKey o +:+ ":"
   +:+ fmt_d (env_unixnano env) +:+ ":" +:+ fmt_d sequence +:+ ":"
   +:+ commandHashPrefix requestHash, w).

Definition workerHeartbeatIdempotencyKey (env : Env) (record : Record_) (workerKey : string)
    (requestHash : string) (w : World) : string * World :=
  let (sequence, w) := next_workerLifecycle w in
  ("worker.heartbeat:" +:+ p_Key record +:+ ":" +:+ trim_space workerKey +:+ ":"
   +:+ fmt_d (env_unixnano env) +:+ ":" +:+ fmt_d sequence +:+ ":"
   +:+ commandHashPrefix requestHash, w).

(** ** Command responses: the outcome, stamped with the safety facts *)

Definition workerLifecycleCommandResponse (response : jmap) : jmap :=
  mset_all
    [("project_write_attempted", JBool false); ("execution_write_attempted", JBool false);
     ("engine_call_attempted", JBool false); ("commands_run", JBool false);
     ("secrets_resolved", JBool false); ("network_used", JBool false);
     ("lease_created", JBool false); ("attempt_created", JBool false);
     ("artifact_created", JBool false); ("worker_run_once", JBool false)]
    (mk response).

(** ** Rows *)

(** [scanWorker]: the JSON columns are decoded *)
Definition scanWorker (r : WorkerRecord) : WorkerRecord :=
  {| w_ID := w_ID r; w_ProjectID := w_ProjectID r; w_ActorID := w_ActorID r;
     w_WorkerKey := w_WorkerKey r; w_WorkerType := w_WorkerType r; w_Status := w_Status r;
     w_Hostname := w_Hostname r; w_PID := w_PID r; w_Capabilities := w_Capabilities r;
     w_Metadata := jmap_decode (w_Metadata r); w_RegisteredAt := w_RegisteredAt r;
     w_LastHeartbeatAt := w_LastHeartbeatAt r;
     w_HeartbeatIntervalSeconds := w_HeartbeatIntervalSeconds r;
     w_LeaseTimeoutSeconds := w_LeaseTimeoutSeconds r; w_UpdatedAt := w_UpdatedAt r |}.

(** NULL, read back as 0, for a pid that is not positive *)
Definition nullablePID (pid : Z) : Z := if pid <=? 0 then 0 else pid.

Definition worker_is (projectID : Z) (workerKey : string) (r : WorkerRecord) : bool :=
  (w_ProjectID r =? projectID) && (w_WorkerKey r =s workerKey).

Definition ensureWorkerActor (env : Env) (record : Record_) (workerKey : string) : M Z :=
  let externalKey := "worker:" +:+ p_Key record +:+ ":" +:+ workerKey in
  rows <- select_rows (fun a => ac_ExternalKey a =s externalKey) ;;
  match rows with
  | a :: _ => ret (ac_ID a)
  | [] =>
      a <- insert_row (fun id => MkActor id "worker" workerKey externalKey (env_now env)) ;;
      ret (ac_ID a)
  end.

Definition loadWorkerByID (projectID workerID : Z) : M WorkerRecord :=
  rows <- select_rows (fun r => (w_ProjectID r =? projectID) && (w_ID r =? workerID)) ;;
  r <- map_err (no_rows_to ErrWorkerNotFound) (first_row rows) ;;
  ret (scanWorker r).

Definition loadWorkerByCommandResponse (projectID : Z) (commandType idempotencyKey : string)
  : M WorkerRecord :=
  response <- loadCommandResponse projectID commandType idempotencyKey ;;
  let workerID := metadataInt64 response "worker_id" in
  if workerID =? 0
  then fail (ErrText ("worker id missing from command response: " +:+ idempotencyKey))
  else loadWorkerByID projectID workerID.

Definition loadWorkerForUpdate (projectID : Z) (workerKey : string) : M WorkerRecord :=
  if trim_space workerKey =s "" then fail (ErrText "worker key is required")
  else
    rows <- select_rows (worker_is projectID workerKey) ;;
    r <- map_err (no_rows_to ErrWorkerNotFound) (first_row rows) ;;
    ret (scanWorker r).

(** INSERT INTO workers ... ON CONFLICT (project_id, worker_key) DO UPDATE;
    the three INTEGER columns refuse values beyond 32 bits. *)
Definition upsertWorker (env : Env) (projectID actorID : Z) (o : RegisterWorkerOptions)
  : M WorkerRecord :=
  if negb (fits_int4 (nullablePID (rw_PID o)) && fits_int4 (rw_HeartbeatIntervalSeconds o)
           && fits_int4 (rw_LeaseTimeoutSeconds o))
  then fail ErrNumericOutOfRange
  else
    let now := env_now env in
    conflict <- select_rows (worker_is projectID (rw_WorkerKey o)) ;;
    match conflict with
    | [] =>
        r <- insert_row (fun id =>
               MkWorker id projectID actorID (rw_WorkerKey o) (rw_WorkerType o) "online"
                 (rw_Hostname o) (nullablePID (rw_PID o)) (rw_Capabilities o)
                 (map_or_empty (rw_Metadata o)) now (Some now)
                 (rw_HeartbeatIntervalSeconds o) (rw_LeaseTimeoutSeconds o) now) ;;
        ret (scanWorker r)
    | _ =>
        rows <- update_rows (worker_is projectID (rw_WorkerKey o)) (fun r =>
               MkWorker (w_ID r) (w_ProjectID r) actorID (w_WorkerKey r) (rw_WorkerType o)
                 "online" (rw_Hostname o) (nullablePID (rw_PID o)) (rw_Capabilities o)
                 (map_or_empty (rw_Metadata o)) (w_RegisteredAt r) (Some now)
                 (rw_HeartbeatIntervalSeconds o) (rw_LeaseTimeoutSeconds o) now) ;;
        r <- first_row rows ;;
        ret (scanWorker r)
    end.

(** UPDATE workers SET status, last_heartbeat_at, metadata || ... *)
Definition heartbeatWorker (env : Env) (projectID : Z) (workerKey status : string)
    (metadata : jmap) : M WorkerRecord :=
  rows <- update_rows (worker_is projectID workerKey) (fun r =>
         MkWorker (w_ID r) (w_ProjectID r) (w_ActorID r) (w_WorkerKey r) (w_WorkerType r)
           status (w_Hostname r) (w_PID r) (w_Capabilities r)
           (jsonb_concat (w_Metadata r) metadata) (w_RegisteredAt r) (Some (env_now env))
           (w_HeartbeatIntervalSeconds r) (w_LeaseTimeoutSeconds r) (env_now env)) ;;
  r <- map_err (no_rows_to ErrWorkerNotFound) (first_row rows) ;;
  ret (scanWorker r).

(** ** Commands *)

(** Replaying a worker command: load the worker the response names. *)
Definition replayWorker (projectID : Z) (commandType key : string)
  : M (res error WorkerRecord) :=
  worker <- loadWorkerByCommandResponse projectID commandType key ;;
  ret (Ok worker).

Definition registerBody (env : Env) (record : Record_) (o : RegisterWorkerOptions)
  : M (res error WorkerRecord) :=
  actorID <- ensureWorkerActor env record (rw_WorkerKey o) ;;
  worker <- upsertWorker env (p_ID record) actorID o ;;
  heartbeatID <- insertWorkerHeartbeat env (p_ID record) (w_ID worker) (w_Status worker)
                   (map_or_empty (rw_Metadata o)) ;;
  event <- insertWorkerEvent env (p_ID record) (w_ID worker) "worker.registered"
             "Worker registered"
             (mk [("worker_key", JStr (w_WorkerKey worker));
                  ("worker_type", JStr (w_WorkerType worker));
                  ("capabilities", jstrs (w_Capabilities worker))]) ;;
  auditEventID <- insertWorkerAuditEvent env (p_ID record) actorID "worker.register"
             "manage_workers" (w_WorkerKey worker) "allowed" (rw_Reason o)
             (mk [("worker_id", JInt (w_ID worker));
                  ("worker_type", JStr (w_WorkerType worker))]) ;;
  completeCommandRequestResponse env (p_ID record) "worker.register" (rw_IdempotencyKey o)
    (workerLifecycleCommandResponse
       [("decision", JStr "allowed"); ("worker_id", JInt (w_ID worker));
        ("worker_key", JStr (w_WorkerKey worker)); ("worker_type", JStr (w_WorkerType worker));
        ("worker_status", JStr (w_Status worker)); ("heartbeat_id", JInt heartbeatID);
        ("event_id", JInt (fst event)); ("audit_event_id", JInt auditEventID);
        ("worker_registered", JBool true); ("heartbeat_recorded", JBool true);
        ("worker_record_write", JBool true)]) ;;;
  ret (Ok worker).

(** [options.IdempotencyKey = ...] when the caller gave none *)
Definition set_rw_key (key : string) (o : RegisterWorkerOptions) : RegisterWorkerOptions :=
  MkRegisterWorker (rw_WorkerKey o) (rw_WorkerType o) (rw_Hostname o) (rw_PID o)
    (rw_Capabilities o) (rw_Metadata o) (rw_HeartbeatIntervalSeconds o)
    (rw_LeaseTimeoutSeconds o) (rw_Actor o) (rw_Reason o) key.

Definition RegisterWorker (env : Env) (record : Record_) (options : RegisterWorkerOptions)
    (w : World) : res error WorkerRecord * World :=
  let options := normalizeRegisterWorkerOptions env record options in
  let requestHash := workerRegisterRequestHash record options in
  let '(options, w) :=
    if rw_IdempotencyKey options =s "" then
      let (key, w) := workerRegisterIdempotencyKey env record options requestHash w in
      (set_rw_key key options, w)
    else (options, w) in
  transact (with_command env (p_ID record) "worker.register" (rw_IdempotencyKey options)
              requestHash
              (replayWorker (p_ID record) "worker.register" (rw_IdempotencyKey options))
              (registerBody env record options)) w.

Definition heartbeatBody (env : Env) (record : Record_) (workerKey : string)
    (o : WorkerHeartbeatOptions) : M (res error WorkerRecord) :=
  worker <- heartbeatWorker env (p_ID record) workerKey (wh_Status o)
              (map_or_empty (wh_Metadata o)) ;;
  heartbeatID <- insertWorkerHeartbeat env (p_ID record) (w_ID worker) (w_Status worker)
                   (map_or_empty (wh_Metadata o)) ;;
  event <- insertWorkerEvent env (p_ID record) (w_ID worker) "worker.heartbeat"
             "Worker heartbeat recorded"
             (mk [("worker_key", JStr (w_WorkerKey worker));
                  ("status", JStr (w_Status worker))]) ;;
  auditEventID <- insertWorkerAuditEvent env (p_ID record) (w_ActorID worker)
             "worker.heartbeat" "manage_workers" (w_WorkerKey worker) "allowed" (wh_Reason o)
             (mk [("worker_id", JInt (w_ID worker)); ("status", JStr (w_Status worker))]) ;;
  completeCommandRequestResponse env (p_ID record) "worker.heartbeat" (wh_IdempotencyKey o)
    (workerLifecycleCommandResponse
       [("decision", JStr "allowed"); ("worker_id", JInt (w_ID worker));
        ("worker_key", JStr (w_WorkerKey worker)); ("worker_type", JStr (w_WorkerType worker));
        ("worker_status", JStr (w_Status worker)); ("heartbeat_id", JInt heartbeatID);
        ("event_id", JInt (fst event)); ("audit_event_id", JInt auditEventID);
        ("worker_registered", JBool false); ("heartbeat_recorded", JBool true);
        ("worker_record_write", JBool true)]) ;;;
  ret (Ok worker).

Definition set_wh_key (key : string) (o : WorkerHeartbeatOptions) : WorkerHeartbeatOptions :=
  MkWorkerHeartbeat (wh_Status o) (wh_Metadata o) (wh_Actor o) (wh_Reason o) key.

Definition RecordWorkerHeartbeat (env : Env) (record : Record_) (workerKey : string)
    (options : WorkerHeartbeatOptions) (w : World) : res error WorkerRecord * World :=
  let workerKey := trim_space workerKey in
  if workerKey =s "" then (Err (ErrText "worker key is required"), w)
  else
    let options := normalizeWorkerHeartbeatOptions options in
    let requestHash := workerHeartbeatRequestHash record workerKey options in
    let '(options, w) :=
      if wh_IdempotencyKey options =s "" then
        let (key, w) := workerHeartbeatIdempotencyKey env record workerKey requestHash w in
        (set_wh_key key options, w)
      else (options, w) in
    transact (with_command env (p_ID record) "worker.heartbeat" (wh_IdempotencyKey options)
                requestHash
                (replayWorker (p_ID record) "worker.heartbeat" (wh_IdempotencyKey options))
                (heartbeatBody env record workerKey options)) w.

(** ORDER BY updated_at DESC, id DESC *)
Definition worker_before (a b : WorkerRecord) : bool :=
  (w_UpdatedAt b <? w_UpdatedAt a)
  || ((w_UpdatedAt a =? w_UpdatedAt b) && (w_ID b <? w_ID a)).

Definition ListWorkers (record : Record_) (limit : Z) (w : World) : list WorkerRecord :=
  let limit := if limit <=? 0 then 20 else limit in
  List.map scanWorker
    (take (Z.to_nat limit)
       (sort_stable worker_before
          (table_select (fun r => w_ProjectID r =? p_ID record) (db_workers (wd_db w))))).

#[export] Hint Unfold ensureWorkerActor loadWorkerByID loadWorkerByCommandResponse
  loadWorkerForUpdate upsertWorker heartbeatWorker replayWorker registerBody heartbeatBody
  with_command reserveCommandRequest completeCommandRequestResponse loadCommandResponse : prims.

(** ** Lemmas *)

(** The unique index [workers_project_key_idx] *)
Definition worker_key_of (r : WorkerRecord) : Z * string := (w_ProjectID r, w_WorkerKey r).
Definition workers_unique (db : DB) : Prop :=
  List.NoDup (List.map worker_key_of (t_rows (db_workers db))).

Lemma worker_is_key pid key r :
  worker_is pid key r = true <-> worker_key_of r = (pid, key).
Proof.
  unfold worker_is, worker_key_of. split.
  - intros H. bool_prop. by subst.
  - intros [= -> ->]. by rewrite Z.eqb_refl, String.eqb_refl.
Qed.

Lemma select_worker_nil pid key (t : table WorkerRecord) :
  table_select (worker_is pid key) t = [] ->
  ~ In (pid, key) (List.map worker_key_of (t_rows t)).
Proof.
  unfold table_select. intros E Hin. apply in_map_iff in Hin as (r & Ek & Hin).
  apply worker_is_key in Ek.
  assert (Hr : In r (List.filter (worker_is pid key) (t_rows t))) by (by apply filter_In).
  by rewrite E in Hr.
Qed.

(** Updating rows without touching their key keeps the keys. *)
Lemma update_worker_keys p f (t : table WorkerRecord) :
  (forall r, worker_key_of (f r) = worker_key_of r) ->
  List.map worker_key_of (t_rows (table_update p f t)) = List.map worker_key_of (t_rows t).
Proof.
  intros Hf. cbn. rewrite map_map. apply map_ext. intros r. by destruct (p r).
Qed.

Lemma upsertWorker_unique env pid actor o :
  m_rel (keeps workers_unique) (upsertWorker env pid actor o).
Proof.
  intros w a w' E Hu. unfold upsertWorker in E.
  destruct (negb _); [done|]. apply bind_ok in E as (rows & w1 & Es & E).
  apply select_rows_ok in Es as [-> ->].
  destruct (table_select _ _) eqn:Esel.
  - apply bind_ok in E as (r & w1 & Ei & E). apply insert_row_ok in Ei as [_ ->].
    apply ret_ok in E as [_ <-]. unfold workers_unique. cbn. rewrite map_app.
    apply NoDup_snoc; [done|]. by apply select_worker_nil.
  - apply bind_ok in E as (rows & w1 & Eu & E). apply update_rows_ok in Eu as [_ ->].
    apply bind_ok in E as (r & w2 & Ef & E). apply first_row_ok in Ef as [_ ->].
    apply ret_ok in E as [_ <-]. unfold workers_unique. cbn [wd_db set_db tset workers_table
      db_workers set_workers tget]. by rewrite update_worker_keys.
Qed.
