(* ===== verification/Lease.v ===== *)
(** * Leases

    [internal/project/worker.go]: AcquireLease, ReleaseLease,
    RecoverExpiredLeases and the helpers they share with run-once.  A lease
    binds a worker to a run task until it expires; it starts [active] and ends
    with the status it is released with or with [needs_recovery]. *)

From stdpp Require Import base list strings numbers.
From Stdlib Require Import ZArith Lia String.
From S2P Require Import Prelude GoString Sha256 Json Schema Tx Command Capability History Worker.

(** ** Options *)

Record AcquireLeaseOptions := MkAcquireLease {
  al_WorkerKey : string; al_RunTaskID : Z; al_LeaseKind : string;
  al_AllowedCapabilities : list string; al_Scope : option jmap; al_Metadata : option jmap;
  al_LeaseTimeoutSeconds : Z; al_RecoverExpiredBefore : bool;
  al_Actor : string; al_Reason : string; al_IdempotencyKey : string }.

Record ReleaseLeaseOptions := MkReleaseLease {
  rl_WorkerKey : string; rl_LeaseID : Z; rl_Status : string; rl_Metadata : option jmap;
  rl_Actor : string; rl_Reason : string; rl_IdempotencyKey : string }.

Record RecoverLeasesOptions := MkRecoverLeases {
  vl_Limit : Z; vl_Actor : string; vl_Reason : string; vl_Metadata : option jmap;
  vl_IdempotencyKey : string }.

Definition capabilities_or_default (l : list string) : list string :=
  normalizeCapabilityList (match l with [] => default_capabilities | l => l end).

Definition normalizeAcquireLeaseOptions (o : AcquireLeaseOptions) : AcquireLeaseOptions :=
  {| al_WorkerKey := trim_space (al_WorkerKey o);
     al_RunTaskID := al_RunTaskID o;
     al_LeaseKind := trim_default "run_task" (al_LeaseKind o);
     al_AllowedCapabilities := capabilities_or_default (al_AllowedCapabilities o);
     al_Scope := Some (map_or_empty (al_Scope o));
     al_Metadata := Some (map_or_empty (al_Metadata o));
     al_LeaseTimeoutSeconds :=
       if al_LeaseTimeoutSeconds o <=? 0 then 300 else al_LeaseTimeoutSeconds o;
     al_RecoverExpiredBefore := al_RecoverExpiredBefore o;
     al_Actor := trim_default "local-user" (al_Actor o);
     al_Reason := trim_default "lease acquire" (al_Reason o);
     al_IdempotencyKey := trim_space (al_IdempotencyKey o) |}.

Definition normalizeReleaseLeaseOptions (o : ReleaseLeaseOptions) : ReleaseLeaseOptions :=
  {| rl_WorkerKey := trim_space (rl_WorkerKey o);
     rl_LeaseID := rl_LeaseID o;
     rl_Status := trim_default "released" (rl_Status o);
     rl_Metadata := Some (map_or_empty (rl_Metadata o));
     rl_Actor := trim_default "local-user" (rl_Actor o);
     rl_Reason := trim_default "lease release" (rl_Reason o);
     rl_IdempotencyKey := trim_space (rl_IdempotencyKey o) |}.

Definition normalizeRecoverLeasesOptions (o : RecoverLeasesOptions) : RecoverLeasesOptions :=
  {| vl_Limit := if vl_Limit o <=? 0 then 20 else vl_Limit o;
     vl_Actor := trim_default "local-user" (vl_Actor o);
     vl_Reason := trim_default "lease recovery" (vl_Reason o);
     vl_Metadata := Some (map_or_empty (vl_Metadata o));
     vl_IdempotencyKey := trim_space (vl_IdempotencyKey o) |}.

(** ** Request hashes and default idempotency keys *)

Definition leaseAcquireRequestHash (record : Record_) (o : AcquireLeaseOptions) : string :=
  request_hash
    [("command_type", JStr "lease.acquire");
     ("project_key", JStr (p_Key record));
     ("worker_key", JStr (al_WorkerKey o));
     ("run_task_id", JInt (al_RunTaskID o));
     ("lease_kind", JStr (al_LeaseKind o));
     ("allowed_capabilities", jstrs (al_AllowedCapabilities o));
     ("scope", JObj (map_or_empty (al_Scope o)));
     ("metadata", JObj (map_or_empty (al_Metadata o)));
     ("lease_timeout_seconds", JInt (al_LeaseTimeoutSeconds o));
     ("recover_expired_before", JBool (al_RecoverExpiredBefore o));
     ("actor", JStr (al_Actor o));
     ("reason", JStr (al_Reason o))].

Definition leaseReleaseRequestHash (record : Record_) (o : ReleaseLeaseOptions) : string :=
  request_hash
    [("command_type", JStr "lease.release");
     ("project_key", JStr (p_Key record));
     ("worker_key", JStr (rl_WorkerKey o));
     ("lease_id", JInt (rl_LeaseID o));
     ("status", JStr (rl_Status o));
     ("metadata", JObj (map_or_empty (rl_Metadata o)));
     ("actor", JStr (rl_Actor o));
     ("reason", JStr (rl_Reason o))].

Definition leaseRecoverRequestHash (record : Record_) (o : RecoverLeasesOptions) : string :=
  request_hash
    [("command_type", JStr "lease.recover");
     ("project_key", JStr (p_Key record));
     ("limit", JInt (vl_Limit o));
     ("metadata", JObj (map_or_empty (vl_Metadata o)));
     ("actor", JStr (vl_Actor o));
     ("reason", JStr (vl_Reason o))].

Definition leaseAcquireIdempotencyKey (record : Record_) (o : AcquireLeaseOptions)
    (requestHash : string) : string :=
  "lease.acquire:" +:+ p_Key record +:+ ":" +:+ al_WorkerKey o +:+ ":"
  +:+ fmt_d (al_RunTaskID o) +:+ ":" +:+ commandHashPrefix requestHash.

Definition leaseReleaseIdempotencyKey (record : Record_) (o : ReleaseLeaseOptions)
    (requestHash : string) : string :=
  "lease.release:" +:+ p_Key record +:+ ":" +:+ rl_WorkerKey o +:+ ":"
  +:+ fmt_d (rl_LeaseID o) +:+ ":" +:+ rl_Status o +:+ ":" +:+ commandHashPrefix requestHash.

(** [leaseRecoverDefaultKeySequence.Add(1)] *)
Definition next_leaseRecover (w : World) : Z * World :=
  let c := wd_counters w in
  let n := add64 (n_leaseRecover c) 1 in
  (n, set_counters
        (MkCounters n (n_workerLifecycle c) (n_workflowGate c) (n_transitionPreview c)) w).

Definition leaseRecoverIdempotencyKey (env : Env) (record : Record_)
    (o : RecoverLeasesOptions) (requestHash : string) (w : World) : string * World :=
  let (sequence, w) := next_leaseRecover w in
  ("lease.recover:" +:+ p_Key record +:+ ":" +:+ fmt_d (vl_Limit o) +:+ ":"
   +:+ fmt_d (env_unixnano env) +:+ ":" +:+ fmt_d sequence +:+ ":"
   +:+ commandHashPrefix requestHash, w).

(** [leaseCommandResponse]: [lease_created] keeps the value it was given *)
Definition leaseCommandResponse (response : jmap) : jmap :=
  let out := mk response in
  let out := match mget "lease_created" out with
             | Some _ => out
             | None => mset "lease_created" (JBool false) out
             end in
  mset_all
    [("project_write_attempted", JBool false); ("execution_write_attempted", JBool false);
     ("engine_call_attempted", JBool false); ("commands_run", JBool false);
     ("secrets_resolved", JBool false); ("network_used", JBool false);
     ("attempt_created", JBool false); ("artifact_created", JBool false);
     ("worker_run_once", JBool false)]
    out.

(** ** Rows *)

Definition scanLease (l : LeaseRecord) : LeaseRecord :=
  {| l_ID := l_ID l; l_ProjectID := l_ProjectID l; l_RunID := l_RunID l;
     l_RunTaskID := l_RunTaskID l; l_WorkflowItemID := l_WorkflowItemID l;
     l_WorkerID := l_WorkerID l; l_LeaseKind := l_LeaseKind l; l_Status := l_Status l;
     l_AcquiredAt := l_AcquiredAt l; l_ExpiresAt := l_ExpiresAt l;
     l_HeartbeatAt := l_HeartbeatAt l; l_ReleasedAt := l_ReleasedAt l;
     l_AllowedCapabilities := l_AllowedCapabilities l;
     l_Scope := jmap_decode (l_Scope l); l_Metadata := jmap_decode (l_Metadata l) |}.

Definition scanRunTask (t : RunTaskRecord) : RunTaskRecord :=
  {| t_ID := t_ID t; t_ProjectID := t_ProjectID t; t_WorkflowVersionID := t_WorkflowVersionID t;
     t_WorkflowItemID := t_WorkflowItemID t; t_RunID := t_RunID t; t_TaskKey := t_TaskKey t;
     t_TaskKind := t_TaskKind t; t_Status := t_Status t; t_RiskLevel := t_RiskLevel t;
     t_Sequence := t_Sequence t; t_Metadata := jmap_decode (t_Metadata t);
     t_CreatedAt := t_CreatedAt t; t_UpdatedAt := t_UpdatedAt t |}.

Definition loadRunTaskForLease (projectID runTaskID : Z) : M RunTaskRecord :=
  if runTaskID <=? 0 then fail (ErrText "run task id is required")
  else
    rows <- select_rows (fun t => (t_ProjectID t =? projectID) && (t_ID t =? runTaskID)) ;;
    r <- map_err (no_rows_to ErrNoLeaseAvailable) (first_row rows) ;;
    ret (scanRunTask r).

(** The row of a task with a new status, stamped with the time of the change *)
Definition task_with_status (now : Z) (status : string) (t : RunTaskRecord) : RunTaskRecord :=
  MkRunTask (t_ID t) (t_ProjectID t) (t_WorkflowVersionID t) (t_WorkflowItemID t) (t_RunID t)
    (t_TaskKey t) (t_TaskKind t) status (t_RiskLevel t) (t_Sequence t) (t_Metadata t)
    (t_CreatedAt t) now.

Definition updateRunTaskStatus (env : Env) (runTaskID : Z) (status : string) : M unit :=
  if runTaskID =? 0 then ret tt
  else
    update_rows (fun t => t_ID t =? runTaskID) (task_with_status (env_now env) status) ;;;
    ret tt.

Definition loadLeaseByID (projectID leaseID : Z) : M LeaseRecord :=
  rows <- select_rows (fun l => (l_ProjectID l =? projectID) && (l_ID l =? leaseID)) ;;
  l <- map_err (no_rows_to ErrLeaseNotFound) (first_row rows) ;;
  ret (scanLease l).

Definition loadLeaseByCommandResponse (projectID : Z) (commandType idempotencyKey : string)
  : M LeaseRecord :=
  response <- loadCommandResponse projectID commandType idempotencyKey ;;
  if metadataString response "decision" =s "denied" then
    fail (ErrWorkerCapabilityDenied (stringSliceFromAny (mget "missing_capabilities" response)))
  else
    let leaseID := metadataInt64 response "lease_id" in
    if leaseID =? 0
    then fail (ErrText ("lease id missing from command response: " +:+ idempotencyKey))
    else loadLeaseByID projectID leaseID.

(** The loop over [leaseIDs] of [loadLeasesByCommandResponse] *)
Fixpoint loadLeasesByIDs (projectID : Z) (leaseIDs : list Z) : M (list LeaseRecord) :=
  match leaseIDs with
  | [] => ret []
  | leaseID :: rest =>
      lease <- loadLeaseByID projectID leaseID ;;
      leases <- loadLeasesByIDs projectID rest ;;
      ret (lease :: leases)
  end.

Definition loadLeasesByCommandResponse (projectID : Z) (commandType idempotencyKey : string)
  : M (list LeaseRecord) :=
  response <- loadCommandResponse projectID commandType idempotencyKey ;;
  loadLeasesByIDs projectID (int64SliceFromAny (mget "lease_ids" response)).

(** The partial unique index [leases_active_run_task_idx]: an active lease of
    a task blocks another one. *)
Definition blocks_task (taskID : Z) (l : LeaseRecord) : bool :=
  (l_RunTaskID l =? taskID) && negb (taskID =? 0) && (l_Status l =s "active").

Definition insertLeaseForTask (env : Env) (projectID : Z) (worker : WorkerRecord)
    (task : RunTaskRecord) (leaseKind : string) (capabilities : list string)
    (scope : jmap) (metadata : option jmap) (timeoutSeconds : Z) : M LeaseRecord :=
  let scopePayload :=
    mset "task_kind" (JStr (t_TaskKind task))
      (mset "task_key" (JStr (t_TaskKey task))
         (mset "run_task_id" (JInt (t_ID task)) (mk scope))) in
  blocking <- select_rows (blocks_task (t_ID task)) ;;
  match blocking with
  | _ :: _ => fail (ErrUniqueViolation "leases_active_run_task_idx")
  | [] =>
      l <- insert_row (fun id =>
             MkLease id projectID (t_RunID task) (t_ID task) (t_WorkflowItemID task)
               (w_ID worker) leaseKind "active" (env_now env)
               (env_now env + timeoutSeconds * 1000000) (Some (env_now env)) None
               capabilities scopePayload (map_or_empty metadata)) ;;
      ret (scanLease l)
  end.

(** UPDATE leases SET status, released_at = now(), metadata = metadata || ... *)
Definition lease_ended (now : Z) (status : string) (metadata : jmap) (l : LeaseRecord)
  : LeaseRecord :=
  MkLease (l_ID l) (l_ProjectID l) (l_RunID l) (l_RunTaskID l) (l_WorkflowItemID l)
    (l_WorkerID l) (l_LeaseKind l) status (l_AcquiredAt l) (l_ExpiresAt l) (l_HeartbeatAt l)
    (Some now) (l_AllowedCapabilities l) (l_Scope l) (jsonb_concat (l_Metadata l) metadata).

Definition releasable (projectID leaseID workerID : Z) (l : LeaseRecord) : bool :=
  (l_ProjectID l =? projectID) && (l_ID l =? leaseID) && (l_WorkerID l =? workerID)
  && (l_Status l =s "active").

Definition releaseLeaseForWorker (env : Env) (projectID : Z) (worker : WorkerRecord)
    (leaseID : Z) (status : string) (metadata : option jmap) : M LeaseRecord :=
  rows <- update_rows (releasable projectID leaseID (w_ID worker))
            (lease_ended (env_now env) status (map_or_empty metadata)) ;;
  l <- map_err (no_rows_to ErrLeaseNotFound) (first_row rows) ;;
  ret (scanLease l).

(** ORDER BY expires_at ASC, id ASC *)
Definition lease_expires_before (a b : LeaseRecord) : bool :=
  (l_ExpiresAt a <? l_ExpiresAt b)
  || ((l_ExpiresAt a =? l_ExpiresAt b) && (l_ID a <? l_ID b)).

(** The ids of the CTE [expired] *)
Definition expired_lease (env : Env) (projectID : Z) (l : LeaseRecord) : bool :=
  (l_ProjectID l =? projectID) && (l_Status l =s "active") && (l_ExpiresAt l <? env_now env)
  && negb (env_lease_locked env (l_ID l)).

Definition expired_ids (env : Env) (projectID limit : Z) (t : table LeaseRecord) : list Z :=
  List.map l_ID
    (take (Z.to_nat limit)
       (sort_stable lease_expires_before (table_select (expired_lease env projectID) t))).

Definition recoverExpiredLeases (env : Env) (projectID limit : Z) (metadata : jmap)
  : M (list LeaseRecord) :=
  let limit := if limit <=? 0 then 20 else limit in
  db <- get_db ;;
  let expired := expired_ids env projectID limit (db_leases db) in
  rows <- update_rows (fun l => existsb (Z.eqb (l_ID l)) expired)
            (lease_ended (env_now env) "needs_recovery" metadata) ;;
  ret (List.map scanLease rows).

(** The map is shared: [insertWorkerEvent] adds the worker id to it before the
    audit row is written from it. *)
Definition recordWorkerCapabilityDenied (env : Env) (projectID : Z) (worker : WorkerRecord)
    (action resource reason : string) (requested missing : list string) (metadata : jmap)
  : M unit :=
  let metadata :=
    mset_all [("worker_key", JStr (w_WorkerKey worker));
              ("worker_capabilities", jstrs (w_Capabilities worker));
              ("requested_capabilities", jstrs requested);
              ("missing_capabilities", jstrs missing)] metadata in
  event <- insertWorkerEvent env projectID (w_ID worker) (action +:+ ".denied")
             "Worker capability denied" metadata ;;
  insertWorkerAuditEvent env projectID (w_ActorID worker) action "manage_workers" resource
    "denied" reason (snd event) ;;;
  ret tt.

(** ** Acquire *)

Definition acquireDenied (env : Env) (record : Record_) (o : AcquireLeaseOptions)
    (worker : WorkerRecord) (missing : list string) : M (res error LeaseRecord) :=
  recordWorkerCapabilityDenied env (p_ID record) worker "lease.acquire"
    (fmt_d (al_RunTaskID o)) (al_Reason o) (al_AllowedCapabilities o) missing
    (mk [("run_task_id", JInt (al_RunTaskID o)); ("lease_kind", JStr (al_LeaseKind o))]) ;;;
  completeCommandRequestResponse env (p_ID record) "lease.acquire" (al_IdempotencyKey o)
    (leaseCommandResponse
       [("decision", JStr "denied"); ("worker_id", JInt (w_ID worker));
        ("worker_key", JStr (w_WorkerKey worker)); ("run_task_id", JInt (al_RunTaskID o));
        ("lease_kind", JStr (al_LeaseKind o)); ("missing_capabilities", jstrs missing);
        ("lease_created", JBool false)]) ;;;
  ret (Err (ErrWorkerCapabilityDenied missing)).

Definition acquireAllowed (env : Env) (record : Record_) (o : AcquireLeaseOptions)
    (worker : WorkerRecord) : M (res error LeaseRecord) :=
  (if al_RecoverExpiredBefore o
   then recoverExpiredLeases env (p_ID record) 50 (map_or_empty (al_Metadata o))
   else ret []) ;;;
  task <- loadRunTaskForLease (p_ID record) (al_RunTaskID o) ;;
  lease <- insertLeaseForTask env (p_ID record) worker task (al_LeaseKind o)
             (al_AllowedCapabilities o) (map_or_empty (al_Scope o)) (al_Metadata o)
             (al_LeaseTimeoutSeconds o) ;;
  updateRunTaskStatus env (t_ID task) "leased" ;;;
  insertWorkerEvent env (p_ID record) (w_ID worker) "lease.acquired" "Worker lease acquired"
    (mk [("worker_key", JStr (w_WorkerKey worker)); ("lease_id", JInt (l_ID lease));
         ("run_id", JInt (l_RunID lease)); ("run_task_id", JInt (l_RunTaskID lease));
         ("lease_kind", JStr (l_LeaseKind lease))]) ;;;
  insertWorkerAuditEvent env (p_ID record) (w_ActorID worker) "lease.acquire"
    "manage_workers" (fmt_d (l_ID lease)) "allowed" (al_Reason o)
    (mk [("worker_id", JInt (w_ID worker)); ("worker_key", JStr (w_WorkerKey worker));
         ("run_task_id", JInt (l_RunTaskID lease));
         ("lease_kind", JStr (l_LeaseKind lease))]) ;;;
  completeCommandRequestResponse env (p_ID record) "lease.acquire" (al_IdempotencyKey o)
    (leaseCommandResponse
       [("decision", JStr "allowed"); ("lease_id", JInt (l_ID lease));
        ("run_id", JInt (l_RunID lease)); ("run_task_id", JInt (l_RunTaskID lease));
        ("worker_id", JInt (w_ID worker)); ("worker_key", JStr (w_WorkerKey worker));
        ("lease_kind", JStr (l_LeaseKind lease)); ("lease_status", JStr (l_Status lease));
        ("lease_created", JBool true)]) ;;;
  ret (Ok lease).

Definition acquireBody (env : Env) (record : Record_) (o : AcquireLeaseOptions)
  : M (res error LeaseRecord) :=
  worker <- loadWorkerForUpdate (p_ID record) (al_WorkerKey o) ;;
  match missingWorkerCapabilities (w_Capabilities worker) (al_AllowedCapabilities o) with
  | [] => acquireAllowed env record o worker
  | missing => acquireDenied env record o worker missing
  end.

Definition replayLease (projectID : Z) (commandType key : string)
  : M (res error LeaseRecord) :=
  lease <- loadLeaseByCommandResponse projectID commandType key ;;
  ret (Ok lease).

Definition set_al_key (key : string) (o : AcquireLeaseOptions) : AcquireLeaseOptions :=
  MkAcquireLease (al_WorkerKey o) (al_RunTaskID o) (al_LeaseKind o)
    (al_AllowedCapabilities o) (al_Scope o) (al_Metadata o) (al_LeaseTimeoutSeconds o)
    (al_RecoverExpiredBefore o) (al_Actor o) (al_Reason o) key.

(** The options an acquire request runs with: normalised, with a key *)
Definition acquireOptions (record : Record_) (options : AcquireLeaseOptions)
  : AcquireLeaseOptions :=
  let o := normalizeAcquireLeaseOptions options in
  if al_IdempotencyKey o =s ""
  then set_al_key (leaseAcquireIdempotencyKey record o (leaseAcquireRequestHash record o)) o
  else o.

Definition AcquireLease (env : Env) (record : Record_) (options : AcquireLeaseOptions)
    (w : World) : res error LeaseRecord * World :=
  let requestHash := leaseAcquireRequestHash record (normalizeAcquireLeaseOptions options) in
  let o := acquireOptions record options in
  transact (with_command env (p_ID record) "lease.acquire" (al_IdempotencyKey o) requestHash
              (replayLease (p_ID record) "lease.acquire" (al_IdempotencyKey o))
              (acquireBody env record o)) w.

(** ** Release *)

Definition releaseBody (env : Env) (record : Record_) (o : ReleaseLeaseOptions)
  : M (res error LeaseRecord) :=
  worker <- loadWorkerForUpdate (p_ID record) (rl_WorkerKey o) ;;
  lease <- releaseLeaseForWorker env (p_ID record) worker (rl_LeaseID o) (rl_Status o)
             (rl_Metadata o) ;;
  (if l_RunTaskID lease =? 0 then ret tt
   else updateRunTaskStatus env (l_RunTaskID lease)
          (if rl_Status o =s "completed" then "passed" else "queued")) ;;;
  insertWorkerEvent env (p_ID record) (w_ID worker) "lease.released" "Worker lease released"
    (mk [("worker_key", JStr (w_WorkerKey worker)); ("lease_id", JInt (l_ID lease));
         ("run_id", JInt (l_RunID lease)); ("run_task_id", JInt (l_RunTaskID lease));
         ("status", JStr (l_Status lease))]) ;;;
  insertWorkerAuditEvent env (p_ID record) (w_ActorID worker) "lease.release"
    "manage_workers" (fmt_d (l_ID lease)) "allowed" (rl_Reason o)
    (mk [("worker_id", JInt (w_ID worker)); ("worker_key", JStr (w_WorkerKey worker));
         ("run_task_id", JInt (l_RunTaskID lease)); ("status", JStr (l_Status lease))]) ;;;
  completeCommandRequestResponse env (p_ID record) "lease.release" (rl_IdempotencyKey o)
    (leaseCommandResponse
       [("decision", JStr "allowed"); ("lease_id", JInt (l_ID lease));
        ("run_id", JInt (l_RunID lease)); ("run_task_id", JInt (l_RunTaskID lease));
        ("worker_id", JInt (w_ID worker)); ("worker_key", JStr (w_WorkerKey worker));
        ("lease_kind", JStr (l_LeaseKind lease)); ("lease_status", JStr (l_Status lease));
        ("lease_created", JBool false)]) ;;;
  ret (Ok lease).

Definition set_rl_key (key : string) (o : ReleaseLeaseOptions) : ReleaseLeaseOptions :=
  MkReleaseLease (rl_WorkerKey o) (rl_LeaseID o) (rl_Status o) (rl_Metadata o) (rl_Actor o)
    (rl_Reason o) key.

Definition releaseOptions (record : Record_) (options : ReleaseLeaseOptions)
  : ReleaseLeaseOptions :=
  let o := normalizeReleaseLeaseOptions options in
  if rl_IdempotencyKey o =s ""
  then set_rl_key (leaseReleaseIdempotencyKey record o (leaseReleaseRequestHash record o)) o
  else o.

Definition ReleaseLease (env : Env) (record : Record_) (options : ReleaseLeaseOptions)
    (w : World) : res error LeaseRecord * World :=
  let requestHash := leaseReleaseRequestHash record (normalizeReleaseLeaseOptions options) in
  let o := releaseOptions record options in
  transact (with_command env (p_ID record) "lease.release" (rl_IdempotencyKey o) requestHash
              (replayLease (p_ID record) "lease.release" (rl_IdempotencyKey o))
              (releaseBody env record o)) w.

(** ** Recovery *)

(** The loop over the recovered leases *)
Fixpoint recoverLoop (env : Env) (record : Record_) (reason : string)
    (leases : list LeaseRecord) : M unit :=
  match leases with
  | [] => ret tt
  | lease :: rest =>
      (if l_RunTaskID lease =? 0 then ret tt
       else updateRunTaskStatus env (l_RunTaskID lease) "needs_recovery") ;;;
      insertWorkerEvent env (p_ID record) (l_WorkerID lease) "lease.recovered"
        "Expired lease marked for recovery"
        (mk [("lease_id", JInt (l_ID lease)); ("run_id", JInt (l_RunID lease));
             ("run_task_id", JInt (l_RunTaskID lease)); ("status", JStr (l_Status lease))]) ;;;
      insertWorkerAuditEvent env (p_ID record) 0 "lease.recover" "manage_workers"
        (fmt_d (l_ID lease)) "allowed" reason
        (mk [("run_task_id", JInt (l_RunTaskID lease)); ("status", JStr (l_Status lease))]) ;;;
      recoverLoop env record reason rest
  end.

Definition recoverBody (env : Env) (record : Record_) (o : RecoverLeasesOptions)
  : M (res error (list LeaseRecord)) :=
  leases <- recoverExpiredLeases env (p_ID record) (vl_Limit o) (map_or_empty (vl_Metadata o)) ;;
  recoverLoop env record (vl_Reason o) leases ;;;
  completeCommandRequestResponse env (p_ID record) "lease.recover" (vl_IdempotencyKey o)
    (leaseCommandResponse
       [("decision", JStr "allowed"); ("lease_ids", jints (List.map l_ID leases));
        ("count", JInt (Z.of_nat (List.length leases))); ("lease_created", JBool false)]) ;;;
  ret (Ok leases).

Definition replayLeases (projectID : Z) (commandType key : string)
  : M (res error (list LeaseRecord)) :=
  leases <- loadLeasesByCommandResponse projectID commandType key ;;
  ret (Ok leases).

Definition set_vl_key (key : string) (o : RecoverLeasesOptions) : RecoverLeasesOptions :=
  MkRecoverLeases (vl_Limit o) (vl_Actor o) (vl_Reason o) (vl_Metadata o) key.

Definition RecoverExpiredLeases (env : Env) (record : Record_) (options : RecoverLeasesOptions)
    (w : World) : res error (list LeaseRecord) * World :=
  let o := normalizeRecoverLeasesOptions options in
  let requestHash := leaseRecoverRequestHash record o in
  let '(o, w) :=
    if vl_IdempotencyKey o =s "" then
      let (key, w) := leaseRecoverIdempotencyKey env record o requestHash w in
      (set_vl_key key o, w)
    else (o, w) in
  transact (with_command env (p_ID record) "lease.recover" (vl_IdempotencyKey o) requestHash
              (replayLeases (p_ID record) "lease.recover" (vl_IdempotencyKey o))
              (recoverBody env record o)) w.

#[export] Hint Unfold loadRunTaskForLease updateRunTaskStatus loadLeaseByID
  loadLeaseByCommandResponse loadLeasesByCommandResponse insertLeaseForTask
  releaseLeaseForWorker recoverExpiredLeases recordWorkerCapabilityDenied acquireDenied
  acquireAllowed acquireBody replayLease releaseBody recoverBody replayLeases : prims.

(** ** Lemmas *)

(** The ids the recovery picks are ids of expired leases; with primary keys in
    force, a row that carries such an id is one. *)
Lemma expired_ids_In env pid limit t id :
  In id (expired_ids env pid limit t) ->
  exists l, In l (t_rows t) /\ l_ID l = id /\ expired_lease env pid l = true.
Proof.
  unfold expired_ids. intros Hin. apply in_map_iff in Hin as (l & <- & Hin).
  exists l. apply list_elem_of_In in Hin.
  assert (Hs : In l (sort_stable lease_expires_before (table_select (expired_lease env pid) t))).
  { apply list_elem_of_In. by eapply elem_of_take in Hin as (i & Hi & _); eapply list_elem_of_lookup_2. }
  apply sort_stable_In, table_select_In in Hs as [? ?]. done.
Qed.

Lemma expired_row env pid limit t l :
  table_ok t -> In l (t_rows t) ->
  existsb (Z.eqb (l_ID l)) (expired_ids env pid limit t) = true ->
  expired_lease env pid l = true.
Proof.
  intros Hok Hl Hex. apply existsb_exists in Hex as (id & Hid & E). apply Z.eqb_eq in E.
  apply expired_ids_In in Hid as (l' & Hl' & El & Hexp).
  assert (l = l') as -> by (eapply (table_ok_inj (R:=LeaseRecord)); eauto; cbn; congruence).
  done.
Qed.
