(* ===== verification/FilePath.v ===== *)
(** * Artifact paths

    [path/filepath] on Unix ([Clean], [Join], [IsAbs]) and the path guards of
    the artifact store: [internal/project/artifact_path.go],
    [internal/artifact/backend.go], [internal/artifact/local.go] and
    [internal/artifact/store.go]. *)

From stdpp Require Import base list strings numbers gmap.
From Stdlib Require Import ZArith Lia Ascii String.
From S2P Require Import Prelude GoString Sha256 Json Schema Tx.

(** ** Components *)

Definition is_slash (c : ascii) : bool := Ascii.eqb c "/"%char.

(** The parts of a path between slashes; never empty *)
Fixpoint split_slash (s : string) : list string :=
  match s with
  | "" => [""]
  | String c s' =>
      if is_slash c then "" :: split_slash s'
      else match split_slash s' with
           | x :: xs => String c x :: xs
           | [] => [String c ""]
           end
  end.

(** [filepath.IsAbs] *)
Definition is_abs (s : string) : bool :=
  match s with String c _ => is_slash c | "" => false end.

(** One component of the scan of [filepath.Clean]; [out] is reversed. *)
Definition clean_step (rooted : bool) (out : list string) (c : string) : list string :=
  if (c =s "") || (c =s ".") then out
  else if c =s ".." then
    match out with
    | [] => if rooted then [] else [".."]
    | x :: out' => if x =s ".." then ".." :: out else out'
    end
  else c :: out.

Definition clean_components (rooted : bool) (cs : list string) : list string :=
  rev (fold_left (clean_step rooted) cs []).

Definition path_clean (path : string) : string :=
  let rooted := is_abs path in
  let body := strings_join "/" (clean_components rooted (split_slash path)) in
  if rooted then "/" +:+ body
  else if body =s "" then "." else body.

(** [filepath.Join] *)
Definition path_join (elems : list string) : string :=
  match List.filter (fun e => e <>s "") elems with
  | [] => ""
  | l => path_clean (strings_join "/" l)
  end.

(** [filepath.Dir] is not needed: [MkdirAll] and [WriteFile] are one file write. *)

(** ** The guards *)

(** [internal/artifact/backend.go] *)
Definition safeRelativePath (path : string) : res error string :=
  let clean := path_clean path in
  if (clean =s ".") || is_abs clean || has_prefix "../" clean
  then Err (ErrText "artifact path must stay under artifact store root")
  else Ok clean.

Record Stored := MkStored {
  s_Backend : string; s_URI : string; s_SHA256 : string; s_SizeBytes : Z;
  s_ContentType : string }.

Definition stored (backend uri content contentType : string) : Stored :=
  MkStored backend uri (sha256_hex content) (len content) contentType.

(** [expandHome]; [strings.TrimPrefix(path, "~/")] drops the two bytes *)
Definition expandHome (env : Env) (path : string) : string :=
  if path =s "~" then match env_home env with Some home => home | None => path end
  else if has_prefix "~/" path then
    match env_home env with
    | Some home => path_join [home; String.substring 2 (String.length path - 2) path]
    | None => path
    end
  else path.

(** [strings.Trim(s, "/")] *)
Fixpoint trim_slashes_l (l : list ascii) : list ascii :=
  match l with
  | c :: l' => if is_slash c then trim_slashes_l l' else l
  | [] => []
  end.
Definition trim_slashes (s : string) : string :=
  string_of_list_ascii
    (rev (trim_slashes_l (rev (trim_slashes_l (list_ascii_of_string s))))).

(** [LocalBackend.Put]: the file becomes part of the state *)
Definition putLocal (env : Env) (root relativePath content contentType : string) : M Stored :=
  fun w =>
  let root := expandHome env (trim_space root) in
  if root =s "" then (Err (ErrText "artifact store root is required"), w)
  else match safeRelativePath relativePath with
       | Err e => (Err e, w)
       | Ok cleanRelative =>
           let target := path_join [root; cleanRelative] in
           if env_can_write env target
           then (Ok (stored "local" target content contentType),
                 set_files (<[target := content]> (wd_files w)) w)
           else (Err (ErrText "write artifact"), w)
       end.

(** [WriteConfigured]; the S3 client is given by the environment *)
Definition WriteConfigured (env : Env) (backend root relativePath content contentType : string)
  : M Stored :=
  cleanRelative <- lift (safeRelativePath relativePath) ;;
  let b := to_lower (trim_space backend) in
  if (b =s "") || (b =s "local") then putLocal env root cleanRelative content contentType
  else if (b =s "s3") || (b =s "object") then
    let key := path_join [trim_slashes root; cleanRelative] in
    uri <- lift (env_s3_put env key content contentType) ;;
    ret (stored "s3" uri content contentType)
  else fail (ErrText ("unsupported artifact backend " +:+ fmt_q backend)).

(** [internal/project/artifact_path.go] *)
Definition writeProjectArtifact (env : Env) (record : Record_)
    (relativePath content contentType : string) : M Stored :=
  let cleanRelative := path_clean relativePath in
  if (cleanRelative =s ".") || is_abs cleanRelative || has_prefix "../" cleanRelative
  then fail (ErrText "artifact path must stay under project artifact namespace")
  else WriteConfigured env (p_ArtifactBackend record) (p_ArtifactRoot record)
         (path_join [p_Key record; cleanRelative]) content contentType.

(** ** Cleaned paths *)

(** A normal component: not empty, not [.] or [..], without a slash *)
Definition has_slash (s : string) : bool :=
  existsb is_slash (list_ascii_of_string s).
Definition normal (c : string) : bool :=
  negb ((c =s "") || (c =s ".") || (c =s "..") || has_slash c).

Lemma split_slash_nonempty s : split_slash s <> [].
Proof. destruct s; cbn; [done|]. repeat case_match; done. Qed.

Lemma split_slash_no_slash s : Forall (fun c => has_slash c = false) (split_slash s).
Proof.
  induction s as [|c s IH]; cbn [split_slash]; [by repeat constructor|].
  destruct (is_slash c) eqn:E; [by constructor|].
  assert (Hc : forall x, has_slash x = false -> has_slash (String c x) = false).
  { intros x Hx. unfold has_slash in *. cbn [list_ascii_of_string existsb]. by rewrite E. }
  destruct (split_slash s) as [|x xs]; inversion IH; subst; constructor; auto.
Qed.

Lemma split_slash_single s : has_slash s = false -> split_slash s = [s].
Proof.
  induction s as [|c s IH]; [done|]. unfold has_slash.
  cbn [split_slash list_ascii_of_string existsb]. intros H. apply orb_false_iff in H as [H1 H2]. rewrite H1, IH by done. done.
Qed.

Lemma split_slash_app a s :
  has_slash a = false -> split_slash (a +:+ "/" +:+ s) = a :: split_slash s.
Proof.
  induction a as [|c a IH]; [done|]. unfold has_slash.
  change (String c a +:+ "/" +:+ s) with (String c (a +:+ "/" +:+ s)).
  cbn [split_slash list_ascii_of_string existsb].
  intros H. apply orb_false_iff in H as [H1 H2]. by rewrite H1, IH.
Qed.

(** Splitting undoes joining. *)
Lemma split_join cs :
  cs <> [] -> Forall (fun c => has_slash c = false) cs ->
  split_slash (strings_join "/" cs) = cs.
Proof.
  induction cs as [|c cs IH]; [done|]. intros _ H. inversion H; subst.
  destruct cs as [|d cs]; [by apply split_slash_single|].
  change (strings_join "/" (c :: d :: cs)) with (c +:+ "/" +:+ strings_join "/" (d :: cs)).
  rewrite split_slash_app by done. by rewrite IH.
Qed.

(** What a cleaned relative path looks like: some [..] and then normal
    components; on the reversed stack the normal ones come first. *)
Definition clean_stack (out : list string) : Prop :=
  exists ns k, out = ns ++ repeat ".." k /\ Forall (fun c => normal c = true) ns.

Lemma normal_not_dotdot c : normal c = true -> (c =s "..") = false.
Proof. unfold normal. intros H. bool_prop. by apply String.eqb_neq. Qed.

Lemma clean_step_stack rooted out c :
  has_slash c = false -> clean_stack out -> clean_stack (clean_step rooted out c).
Proof.
  intros Hc (ns & k & -> & Hns). unfold clean_step.
  destruct ((c =s "") || (c =s ".")) eqn:E1; [by exists ns, k|].
  destruct (c =s "..") eqn:E2.
  - destruct ns as [|n ns]; cbn.
    + destruct k as [|k]; cbn.
      * destruct rooted; [by exists [], 0%nat|by exists [], 1%nat].
      * by exists [], (S (S k)).
    + inversion Hns; subst. rewrite normal_not_dotdot by done. by exists ns, k.
  - exists (c :: ns), k. split; [done|]. constructor; [|done].
    apply orb_false_iff in E1 as [E1 E1']. unfold normal. by rewrite E1, E1', E2, Hc.
Qed.

Lemma clean_fold_stack rooted cs out :
  Forall (fun c => has_slash c = false) cs -> clean_stack out ->
  clean_stack (fold_left (clean_step rooted) cs out).
Proof.
  revert out. induction cs as [|c cs IH]; cbn; intros out HF Ho; [done|].
  inversion HF; subst. apply IH; [done|]. by apply clean_step_stack.
Qed.

Lemma rev_repeat {A} (x : A) n : rev (repeat x n) = repeat x n.
Proof.
  induction n as [|n IH]; [done|]. cbn. rewrite IH.
  clear IH. induction n; cbn; [done|]. by f_equal.
Qed.

Lemma clean_components_shape rooted s :
  exists k ns, clean_components rooted (split_slash s) = repeat ".." k ++ ns
    /\ Forall (fun c => normal c = true) ns.
Proof.
  unfold clean_components.
  destruct (clean_fold_stack rooted (split_slash s) []) as (ns & k & E & Hns).
  - apply split_slash_no_slash.
  - by exists [], 0%nat.
  - exists k, (rev ns). rewrite E, rev_app_distr, rev_repeat. split; [done|].
    by apply Forall_rev.
Qed.

(** Scanning normal components pushes them. *)
Lemma clean_fold_normal rooted ns out :
  Forall (fun c => normal c = true) ns ->
  fold_left (clean_step rooted) ns out = rev ns ++ out.
Proof.
  revert out. induction ns as [|n ns IH]; cbn; intros out H; [done|].
  inversion H as [|? ? Hn Hns]; subst. rewrite IH by done.
  assert (E : clean_step rooted out n = n :: out).
  { unfold clean_step. unfold normal in Hn. bool_prop.
    repeat (rewrite (proj2 (String.eqb_neq _ _)) by done). done. }
  by rewrite E, <- app_assoc.
Qed.

Lemma clean_components_normal rooted ns :
  Forall (fun c => normal c = true) ns -> clean_components rooted ns = ns.
Proof.
  intros H. unfold clean_components. rewrite clean_fold_normal by done.
  by rewrite app_nil_r, rev_involutive.
Qed.

Lemma normal_no_slash c : normal c = true -> has_slash c = false.
Proof. unfold normal. intros H. by bool_prop. Qed.

Lemma normals_no_slash ns :
  Forall (fun c => normal c = true) ns -> Forall (fun c => has_slash c = false) ns.
Proof. apply List.Forall_impl. apply normal_no_slash. Qed.

Lemma normal_nonempty c : normal c = true -> c <> "".
Proof. unfold normal. intros H. by bool_prop. Qed.

(** A path of normal components is clean and relative. *)
Lemma join_normal_not_abs ns :
  Forall (fun c => normal c = true) ns -> is_abs (strings_join "/" ns) = false.
Proof.
  intros H. destruct ns as [|n ns]; [done|]. inversion H; subst.
  assert (Hs := normal_no_slash n ltac:(done)). assert (Hne := normal_nonempty n ltac:(done)).
  destruct n as [|c n]; [done|]. unfold has_slash in Hs. cbn [list_ascii_of_string existsb] in Hs.
  apply orb_false_iff in Hs as [Hs _]. by destruct ns; cbn.
Qed.

Lemma join_normal_nonempty ns :
  ns <> [] -> Forall (fun c => normal c = true) ns -> strings_join "/" ns <> "".
Proof.
  intros Hne H. destruct ns as [|n ns]; [done|]. inversion H; subst.
  assert (Hn := normal_nonempty n ltac:(done)). destruct n; [done|]. by destruct ns.
Qed.

Lemma path_clean_normal ns :
  ns <> [] -> Forall (fun c => normal c = true) ns ->
  path_clean (strings_join "/" ns) = strings_join "/" ns.
Proof.
  intros Hne H. unfold path_clean. rewrite join_normal_not_abs by done.
  rewrite split_join by (done || by apply normals_no_slash).
  rewrite clean_components_normal by done.
  by rewrite (proj2 (String.eqb_neq _ _)) by by apply join_normal_nonempty.
Qed.

(** [has_prefix "../"] on a joined path looks at its first two components. *)
Lemma has_prefix_dotdot_ns n ns :
  has_prefix "../" (strings_join "/" (".." :: n :: ns)) = true.
Proof. by destruct n, ns. Qed.

(** ** Containment *)

(** A path that passes the guard is [..] itself or consists of normal
    components. *)
Lemma guard_shape path :
  (path_clean path =s ".") || is_abs (path_clean path) || has_prefix "../" (path_clean path)
    = false ->
  path_clean path = ".."
  \/ exists ns, ns <> [] /\ Forall (fun c => normal c = true) ns
                /\ path_clean path = strings_join "/" ns.
Proof.
  intros H. apply orb_false_iff in H as [H Hp]. apply orb_false_iff in H as [Hd Ha].
  unfold path_clean in *. destruct (is_abs path) eqn:Eabs; [by cbn in Ha|].
  destruct (clean_components_shape false path) as (k & ns & E & Hns). rewrite E in *.
  destruct (strings_join "/" (repeat ".." k ++ ns) =s "") eqn:Ee; [done|].
  destruct k as [|[|k]]; cbn [repeat app] in *.
  - right. exists ns. bool_prop. split; [by intros ->|]. done.
  - destruct ns as [|n ns]; [by left|]. by rewrite has_prefix_dotdot_ns in Hp.
  - by rewrite has_prefix_dotdot_ns in Hp.
Qed.

Lemma join_key key ns :
  normal key = true -> ns <> [] -> Forall (fun c => normal c = true) ns ->
  path_join [key; strings_join "/" ns] = strings_join "/" (key :: ns).
Proof.
  intros Hk Hne Hns. unfold path_join. cbn [List.filter].
  rewrite (proj2 (String.eqb_neq _ _) (normal_nonempty _ Hk)).
  rewrite (proj2 (String.eqb_neq _ _) (join_normal_nonempty _ Hne Hns)). cbn [negb].
  change (strings_join "/" [key; strings_join "/" ns])
    with (key +:+ "/" +:+ strings_join "/" ns).
  replace (key +:+ "/" +:+ strings_join "/" ns) with (strings_join "/" (key :: ns))
    by by destruct ns.
  apply path_clean_normal; [done|]. by constructor.
Qed.

(** The relative path the artifact store is asked to write, if any. *)
Definition artifact_relative (key relativePath : string) : res error string :=
  let cleanRelative := path_clean relativePath in
  if (cleanRelative =s ".") || is_abs cleanRelative || has_prefix "../" cleanRelative
  then Err (ErrText "artifact path must stay under project artifact namespace")
  else safeRelativePath (path_join [key; cleanRelative]).

(** Every artifact a project writes lies under its own namespace: the store
    path is the project key followed by normal components. *)
Lemma artifact_relative_contained key rel p :
  normal key = true -> artifact_relative key rel = Ok p ->
  exists ns, ns <> [] /\ Forall (fun c => normal c = true) ns
             /\ p = strings_join "/" (key :: ns).
Proof.
  intros Hk H. unfold artifact_relative in H.
  destruct ((path_clean rel =s ".") || _ || _) eqn:G; [done|].
  apply guard_shape in G as [E|(ns & Hne & Hns & E)]; rewrite E in H.
  - exfalso. assert (Ec : path_join [key; ".."] = ".").
    { unfold path_join. cbn [List.filter].
      rewrite (proj2 (String.eqb_neq _ _) (normal_nonempty _ Hk)). cbn [negb String.eqb].
      change (strings_join "/" [key; ".."]) with (key +:+ "/" +:+ "..").
      assert (Habs : is_abs (key +:+ "/" +:+ "..") = false).
      { pose proof (join_normal_not_abs [key] ltac:(by repeat constructor)) as Ha. cbn in Ha.
        pose proof (normal_nonempty _ Hk). by destruct key. }
      unfold path_clean. rewrite Habs, split_slash_app by by apply normal_no_slash.
      unfold clean_components. cbn [split_slash fold_left].
      assert (E1 : clean_step false [] key = [key]).
      { change (clean_step false [] key) with (fold_left (clean_step false) [key] []).
        rewrite clean_fold_normal; [done|by repeat constructor]. }
      rewrite E1. cbn. by rewrite normal_not_dotdot. }
    rewrite Ec in H. by vm_compute in H.
  - rewrite join_key in H by done. unfold safeRelativePath in H.
    rewrite path_clean_normal in H by (done || by constructor).
    destruct (_ || _ || _); [done|]. injection H as <-. by exists ns.
Qed.

(** ** Where the file lands *)

Lemma string_app_assoc (a b c : string) : (a +:+ b) +:+ c = a +:+ b +:+ c.
Proof.
  induction a as [|x a IH]; [reflexivity|].
  change ((String x a +:+ b) +:+ c) with (String x ((a +:+ b) +:+ c)). by rewrite IH.
Qed.

Lemma join_app rs ps :
  rs <> [] -> ps <> [] ->
  strings_join "/" rs +:+ "/" +:+ strings_join "/" ps = strings_join "/" (rs ++ ps).
Proof.
  intros Hr Hp. induction rs as [|r rs IH]; [done|]. destruct rs as [|r' rs].
  - by destruct ps.
  - change (strings_join "/" (r :: r' :: rs)) with (r +:+ "/" +:+ strings_join "/" (r' :: rs)).
    change (strings_join "/" ((r :: r' :: rs) ++ ps))
      with (r +:+ "/" +:+ strings_join "/" ((r' :: rs) ++ ps)).
    by rewrite !string_app_assoc, IH.
Qed.

Lemma path_clean_rooted ns :
  ns <> [] -> Forall (fun c => normal c = true) ns ->
  path_clean ("/" +:+ strings_join "/" ns) = "/" +:+ strings_join "/" ns.
Proof.
  intros Hne H. unfold path_clean.
  change (is_abs ("/" +:+ strings_join "/" ns)) with true. cbv iota.
  change (split_slash ("/" +:+ strings_join "/" ns))
    with ("" :: split_slash (strings_join "/" ns)).
  rewrite split_join by (done || by apply normals_no_slash).
  change (clean_components true ("" :: ns)) with (clean_components true ns).
  by rewrite clean_components_normal.
Qed.

(** Joining an absolute clean root with a relative clean path *)
Lemma join_root rs ps :
  rs <> [] -> ps <> [] -> Forall (fun c => normal c = true) (rs ++ ps) ->
  path_join ["/" +:+ strings_join "/" rs; strings_join "/" ps]
  = "/" +:+ strings_join "/" (rs ++ ps).
Proof.
  intros Hr Hp HF. pose proof HF as HF'. apply Forall_app in HF' as [_ HFp].
  unfold path_join. cbn [List.filter].
  rewrite (proj2 (String.eqb_neq _ _) (join_normal_nonempty _ Hp HFp)).
  change (("/" +:+ strings_join "/" rs) =s "") with false. cbv iota beta.
  assert (E : strings_join "/" ["/" +:+ strings_join "/" rs; strings_join "/" ps]
              = "/" +:+ strings_join "/" (rs ++ ps)) by (by rewrite <- join_app).
  cbn [negb]. rewrite E.
  apply path_clean_rooted; [by destruct rs|done].
Qed.

Lemma safe_normal ns p :
  ns <> [] -> Forall (fun c => normal c = true) ns ->
  safeRelativePath (strings_join "/" ns) = Ok p -> p = strings_join "/" ns.
Proof.
  intros Hne HF. unfold safeRelativePath. rewrite path_clean_normal by done.
  destruct (_ || _ || _); [done|]. by intros [= <-].
Qed.

(** A successful project write went through both guards to a backend. *)
Lemma writeProjectArtifact_inv env record rel content ct w st w' :
  writeProjectArtifact env record rel content ct w = (Ok st, w') -> s_Backend st = "local" ->
  exists p, artifact_relative (p_Key record) rel = Ok p
    /\ putLocal env (p_ArtifactRoot record) p content ct w = (Ok st, w').
Proof.
  unfold writeProjectArtifact, WriteConfigured, artifact_relative. intros E Hb.
  destruct (_ || _ || _); [done|]. apply bind_ok in E as (p & w1 & E1 & E).
  apply lift_ok in E1 as [E1 <-]. exists p. split; [done|].
  destruct (_ || _); [done|]. destruct (_ || _); [|done]. step_ok. by subst.
Qed.


(** A write of the project [demo] below [/var/areaflow] *)
Definition demo_write : res error Stored * World :=
  writeProjectArtifact
    (MkEnv 0 0 "" None None (fun _ => false) (fun _ => false) (fun _ => true)
       (fun _ _ _ => Err ErrNoRows))
    (MkRecord 1 "demo" "" "" "" "" "" "" "local" "/var/areaflow")
    "a/./b/../c.json" "x" "text/plain" (MkWorld empty_db ∅ (MkCounters 0 0 0 0)).


(** The guard tests the prefix [../] only, so [..] alone passes it. *)
Example dotdot_passes_guard : safeRelativePath ".." = Ok "..".
Proof. reflexivity. Qed.
