(* ===== verification/Permission.v ===== *)
(** * Project permissions

    [internal/project/store.go] (insertPermissions, CanWritePath,
    CommandPermission, CanRunCommand, globMatch) with its siblings in
    [read_only_verify.go], [status_projection_apply.go] and
    [approved_artifact_write.go].  A project's permissions are rows of
    [project_permissions], written from its configuration and read in id order
    by the checks. *)

From stdpp Require Import base list strings numbers.
From Stdlib Require Import ZArith Lia String.
From S2P Require Import Prelude GoString Json Schema Tx Capability Config FilePath.

(** ** Patterns *)

(** The pattern [prefix/**] *)
Definition globMatch (pattern path : string) : bool :=
  if (pattern =s path) || (pattern =s "*") then true
  else
    let n := (String.length pattern - 3)%nat in
    if (3 <=? len pattern) && (String.substring n 3 pattern =s "/**") then
      let prefix := String.substring 0 n pattern in
      (path =s prefix)
      || ((len prefix <? len path)
          && (String.substring 0 (String.length prefix + 1) path =s prefix +:+ "/"))
    else false.

(** ** Checks *)

(** The loop of the path checks: a matching forbidden path ends it. *)
Fixpoint path_loop (capability path : string) (capabilityAllowed pathAllowed : bool)
    (rows : list permissionRow) : option (bool * bool) :=
  match rows with
  | [] => Some (capabilityAllowed, pathAllowed)
  | r :: rest =>
      if (pr_Effect r =s "deny") && (pr_ResourceType r =s "path") && globMatch (pr_Pattern r) path
      then None
      else
        let capabilityAllowed :=
          if (pr_ResourceType r =s "capability") && (pr_Capability r =s capability)
             && (pr_Effect r =s "allow") then true else capabilityAllowed in
        let pathAllowed :=
          if (pr_ResourceType r =s "path") && (pr_Capability r =s capability)
             && (pr_Effect r =s "allow") && globMatch (pr_Pattern r) path
          then true else pathAllowed in
        path_loop capability path capabilityAllowed pathAllowed rest
  end.

Definition CanWritePath (rows : list permissionRow) (projectID : Z) (capability path : string)
  : bool * string :=
  let rows := List.filter (fun r => (pr_ProjectID r =? projectID)
    && ((pr_ResourceType r =s "capability") || (pr_ResourceType r =s "path"))) rows in
  match path_loop capability path false false rows with
  | None => (false, "path denied by forbidden path")
  | Some (capabilityAllowed, pathAllowed) =>
      if negb capabilityAllowed then (false, "capability not allowed")
      else if negb pathAllowed then (false, "path not allowed")
      else (true, "allowed")
  end.

(** The same check inside a transaction: the two siblings repeat its body. *)
Definition canProjectPathInTx := CanWritePath.
Definition canWritePathTx := CanWritePath.

Record CommandPermission := MkCommandPermission {
  cp_CapabilityAllowed : bool; cp_CommandAllowed : bool; cp_Denied : bool; cp_Reason : string }.

Fixpoint command_loop (command : string) (permission : CommandPermission)
    (rows : list permissionRow) : CommandPermission :=
  match rows with
  | [] => permission
  | r :: rest =>
      if (pr_Effect r =s "deny") && (pr_ResourceType r =s "command")
         && globMatch (pr_Pattern r) command
      then MkCommandPermission (cp_CapabilityAllowed permission) (cp_CommandAllowed permission)
             true "command denied by forbidden command"
      else
        command_loop command
          (MkCommandPermission
             (if (pr_ResourceType r =s "capability") && (pr_Capability r =s "run_commands")
                 && (pr_Effect r =s "allow") then true else cp_CapabilityAllowed permission)
             (if (pr_ResourceType r =s "command") && (pr_Capability r =s "run_commands")
                 && (pr_Effect r =s "allow") && globMatch (pr_Pattern r) command
              then true else cp_CommandAllowed permission)
             (cp_Denied permission) (cp_Reason permission)) rest
  end.

Definition CommandPermission_ (rows : list permissionRow) (projectID : Z) (command : string)
  : CommandPermission :=
  command_loop command (MkCommandPermission false false false "")
    (List.filter (fun r => (pr_ProjectID r =? projectID)
       && ((pr_ResourceType r =s "capability") || (pr_ResourceType r =s "command"))) rows).

Definition CanRunCommand (rows : list permissionRow) (projectID : Z) (command : string)
  : bool * string :=
  let permission := CommandPermission_ rows projectID command in
  if cp_Denied permission then (false, cp_Reason permission)
  else if negb (cp_CapabilityAllowed permission)
  then (false, "run_commands capability not allowed")
  else if negb (cp_CommandAllowed permission) then (false, "command not allowed")
  else (true, "allowed").

Fixpoint capability_loop (capability : string) (allowed : bool) (rows : list permissionRow)
  : option bool :=
  match rows with
  | [] => Some allowed
  | r :: rest =>
      if (pr_Capability r <>s capability) && (pr_Pattern r <>s capability)
      then capability_loop capability allowed rest
      else if pr_Effect r =s "deny" then None
      else capability_loop capability (if pr_Effect r =s "allow" then true else allowed) rest
  end.

Definition canProjectCapabilityInTx (rows : list permissionRow) (projectID : Z)
    (capability : string) : bool * string :=
  match capability_loop capability false
          (List.filter (fun r => (pr_ProjectID r =? projectID)
                                 && (pr_ResourceType r =s "capability")) rows) with
  | None => (false, "capability denied")
  | Some false => (false, "capability not allowed")
  | Some true => (true, "allowed")
  end.

(** ** Writing the permissions of a configuration *)

Definition normalizeProjectRelativePath (path : string) : string :=
  let path := trim_space path in
  if path =s "" then ""
  else
    let clean := path_clean path in
    if (clean =s ".") || is_abs clean || has_prefix "../" clean || (clean =s "..") then ""
    else clean.

Definition managedGeneratedWritePrefixes : list string :=
  [".areaflow/generated/"; ".areamatrix/generated/"].

Definition isManagedGeneratedPath (targetPath : string) : bool :=
  let relative := normalizeProjectRelativePath targetPath in
  existsb (fun prefix => has_prefix prefix relative && (len prefix <? len relative))
    managedGeneratedWritePrefixes.

(** The capability map of the configuration, [m[key]] *)
Definition capability_of (cfg : Config) (key : string) : bool :=
  match List.find (fun kv => fst kv =s key) (pm_Capabilities (cf_Permissions cfg)) with
  | Some (_, b) => b
  | None => false
  end.

Definition shouldAllowGeneratedWritePath (cfg : Config) (path : string) : bool :=
  capability_of cfg "write_generated" && isManagedGeneratedPath path.

Definition insertPathPermission (projectID : Z) (capability effect pattern : string)
  : permissionRow := MkPermission projectID capability effect "path" pattern.

Definition insertCommandPermission (projectID : Z) (capability effect pattern : string)
  : permissionRow := MkPermission projectID capability effect "command" pattern.

(** The rows of a configuration in the order they are inserted; Go ranges over
    the capability map in an unspecified order, here the order of its
    entries. *)
Definition insertPermissions (projectID : Z) (cfg : Config) : list permissionRow :=
  let pm := cf_Permissions cfg in
  List.map (fun kv : string * bool =>
      MkPermission projectID (fst kv) (if snd kv then "allow" else "deny") "capability" (fst kv))
    (pm_Capabilities pm)
  ++ List.map (insertPathPermission projectID "read_project" "allow") (pm_ReadPaths pm)
  ++ flat_map (fun path =>
       insertPathPermission projectID "write_status" "allow" path
       :: (if shouldAllowGeneratedWritePath cfg path
           then [insertPathPermission projectID "write_generated" "allow" path] else []))
       (pm_WritePaths pm)
  ++ List.map (insertPathPermission projectID "*" "deny") (pm_ForbiddenPath pm)
  ++ List.map (insertCommandPermission projectID "run_commands" "allow")
       (cm_Allowed (cf_Commands cfg))
  ++ List.map (insertCommandPermission projectID "run_commands" "deny")
       (cm_Forbidden (cf_Commands cfg)).

(** UpsertFromConfig replaces the project's rows:
    DELETE FROM project_permissions WHERE project_id = $1, then the inserts *)
Definition replacePermissions (projectID : Z) (cfg : Config) (rows : list permissionRow)
  : list permissionRow :=
  List.filter (fun r => negb (pr_ProjectID r =? projectID)) rows
  ++ insertPermissions projectID cfg.

(** ** Patterns, specified *)

Lemma substring_full s : String.substring 0 (String.length s) s = s.
Proof. induction s as [|c s IH]; [done|]. cbn [String.length String.substring]. by rewrite IH. Qed.

Lemma substring_split s n :
  (n <= String.length s)%nat ->
  s = String.substring 0 n s +:+ String.substring n (String.length s - n) s.
Proof.
  revert n. induction s as [|c s IH]; intros n Hn; [by destruct n|].
  destruct n as [|n].
  - rewrite Nat.sub_0_r, substring_full. done.
  - cbn [String.length Nat.sub] in *.
    change (String.substring 0 (S n) (String c s)) with (String c (String.substring 0 n s)).
    change (String.substring (S n) (String.length s - n) (String c s))
      with (String.substring n (String.length s - n) s).
    change (String c ?a +:+ ?b) with (String c (a +:+ b)). f_equal. apply IH. lia.
Qed.

Lemma substring_app a b : String.substring 0 (String.length a) (a +:+ b) = a.
Proof.
  induction a as [|c a IH]; [by destruct b|].
  change (String c a +:+ b) with (String c (a +:+ b)). cbn [String.length String.substring].
  by rewrite IH.
Qed.

Lemma substring_suffix a b n :
  String.substring (String.length a) n (a +:+ b) = String.substring 0 n b.
Proof.
  induction a as [|c a IH]; [done|].
  change (String c a +:+ b) with (String c (a +:+ b)). exact IH.
Qed.

Lemma length_app_string a b :
  String.length (a +:+ b) = (String.length a + String.length b)%nat.
Proof.
  induction a as [|c a IH]; [done|].
  change (String c a +:+ b) with (String c (a +:+ b)). cbn [String.length]. by rewrite IH.
Qed.

Definition glob_spec (pattern path : string) : Prop :=
  pattern = path \/ pattern = "*"
  \/ exists prefix, pattern = prefix +:+ "/**"
       /\ (path = prefix \/ exists rest, path = prefix +:+ "/" +:+ rest).

Lemma globMatch_spec pattern path : globMatch pattern path = true <-> glob_spec pattern path.
Proof.
  unfold globMatch, glob_spec.
  destruct (String.eqb_spec pattern path) as [->|N1]; [cbn; tauto|].
  destruct (String.eqb_spec pattern "*") as [->|N2]; [cbn; tauto|]. cbn [orb]. split.
  - destruct (_ && _) eqn:E; [|done]. bool_prop. intros Hm. right. right.
    unfold len in *. set (n := (String.length pattern - 3)%nat) in *.
    exists (String.substring 0 n pattern). split.
    + rewrite (substring_split pattern n) at 1 by lia. f_equal.
      replace (String.length pattern - n)%nat with 3%nat by lia. done.
    + apply orb_true_iff in Hm as [Hm|Hm]; bool_prop; [by left|right].
      set (prefix := String.substring 0 n pattern) in *.
      exists (String.substring (String.length prefix + 1)
                (String.length path - (String.length prefix + 1)) path).
      rewrite (substring_split path (String.length prefix + 1)) at 1 by lia.
      match goal with K : String.substring 0 _ path = _ |- _ => rewrite K end.
      by rewrite string_app_assoc.
  - intros [?|[?|(prefix & -> & H)]]; [done|done|].
    rewrite length_app_string. cbn [String.length].
    replace (String.length prefix + 3 - 3)%nat with (String.length prefix) by lia.
    rewrite substring_suffix, substring_app. unfold len.
    rewrite length_app_string. cbn [String.length String.substring].
    rewrite (proj2 (Z.leb_le _ _)) by lia. cbn [andb].
    change ("/**" =s "/**") with true. cbv iota.
    destruct H as [->|(rest & ->)]; [by rewrite String.eqb_refl|].
    apply orb_true_iff. right. rewrite !length_app_string. cbn [String.length].
    rewrite (proj2 (Z.ltb_lt _ _)) by lia. cbn [andb]. apply String.eqb_eq.
    rewrite <- string_app_assoc.
    replace (String.length prefix + 1)%nat with (String.length (prefix +:+ "/"))
      by (by rewrite length_app_string).
    apply substring_app.
Qed.

(** ** The checks, specified *)

Definition denies_path (path : string) (r : permissionRow) : bool :=
  (pr_Effect r =s "deny") && (pr_ResourceType r =s "path") && globMatch (pr_Pattern r) path.
Definition allows_capability (capability : string) (r : permissionRow) : bool :=
  (pr_ResourceType r =s "capability") && (pr_Capability r =s capability) && (pr_Effect r =s "allow").
Definition allows_path (capability path : string) (r : permissionRow) : bool :=
  (pr_ResourceType r =s "path") && (pr_Capability r =s capability) && (pr_Effect r =s "allow")
  && globMatch (pr_Pattern r) path.

Lemma path_loop_eq cap path c p rows :
  path_loop cap path c p rows
  = if existsb (denies_path path) rows then None
    else Some (c || existsb (allows_capability cap) rows, p || existsb (allows_path cap path) rows).
Proof.
  revert c p. induction rows as [|r rows IH]; intros c p; cbn [path_loop existsb].
  - by rewrite !orb_false_r.
  - fold (denies_path path r) (allows_capability cap r) (allows_path cap path r).
    destruct (denies_path path r); [done|]. rewrite IH. cbn [orb].
    destruct (existsb (denies_path path) rows); [done|].
    destruct (allows_capability cap r), (allows_path cap path r); cbn [orb];
      by rewrite ?orb_true_r.
Qed.

(** The rows of a project *)
Definition project_rows (pid : Z) (rows : list permissionRow) : list permissionRow :=
  List.filter (fun r => pr_ProjectID r =? pid) rows.

Lemma existsb_filter {A} (p q : A -> bool) l :
  existsb p (List.filter q l) = existsb (fun x => q x && p x) l.
Proof.
  induction l as [|x l IH]; [done|]. cbn. destruct (q x); cbn; by rewrite IH.
Qed.

Lemma existsb_ext' {A} (p q : A -> bool) l : (forall x, p x = q x) -> existsb p l = existsb q l.
Proof. intros H. induction l as [|x l IH]; [done|]. cbn. by rewrite H, IH. Qed.

(** The filter by resource type does not hide what the checks look for. *)
Lemma CanWritePath_eq rows pid cap path :
  CanWritePath rows pid cap path
  = if existsb (denies_path path) (project_rows pid rows)
    then (false, "path denied by forbidden path")
    else if negb (existsb (allows_capability cap) (project_rows pid rows))
    then (false, "capability not allowed")
    else if negb (existsb (allows_path cap path) (project_rows pid rows))
    then (false, "path not allowed") else (true, "allowed").
Proof.
  unfold CanWritePath, project_rows. rewrite path_loop_eq, !existsb_filter.
  assert (H : forall p : permissionRow -> bool,
    (forall r, p r = true -> (pr_ResourceType r =s "capability") || (pr_ResourceType r =s "path") = true) ->
    existsb (fun r => (pr_ProjectID r =? pid)
      && ((pr_ResourceType r =s "capability") || (pr_ResourceType r =s "path")) && p r) rows
    = existsb (fun r => (pr_ProjectID r =? pid) && p r) rows).
  { intros p Hp. apply existsb_ext'. intros r. destruct (p r) eqn:E; [|by rewrite !andb_false_r].
    rewrite (Hp r E). by rewrite !andb_true_r. }
  rewrite !H; [by destruct (existsb _ rows)| | |];
    intros r; unfold denies_path, allows_capability, allows_path;
    intros E; bool_prop; repeat match goal with K : pr_ResourceType r = _ |- _ => rewrite K end; done.
Qed.

Definition denies_command (command : string) (r : permissionRow) : bool :=
  (pr_Effect r =s "deny") && (pr_ResourceType r =s "command") && globMatch (pr_Pattern r) command.
Definition allows_command (command : string) (r : permissionRow) : bool :=
  (pr_ResourceType r =s "command") && (pr_Capability r =s "run_commands")
  && (pr_Effect r =s "allow") && globMatch (pr_Pattern r) command.

Lemma command_loop_eq command p rows :
  cp_Denied p = false ->
  let q := command_loop command p rows in
  if existsb (denies_command command) rows
  then cp_Denied q = true /\ cp_Reason q = "command denied by forbidden command"
  else cp_Denied q = false
       /\ cp_CapabilityAllowed q
          = cp_CapabilityAllowed p || existsb (allows_capability "run_commands") rows
       /\ cp_CommandAllowed q = cp_CommandAllowed p || existsb (allows_command command) rows.
Proof.
  cbv zeta. revert p. induction rows as [|r rows IH]; intros p Hp; cbn [command_loop existsb].
  - by rewrite !orb_false_r.
  - fold (denies_command command r) (allows_capability "run_commands" r) (allows_command command r).
    destruct (denies_command command r); [done|]. cbn [orb].
    specialize (IH (MkCommandPermission
      (if allows_capability "run_commands" r then true else cp_CapabilityAllowed p)
      (if allows_command command r then true else cp_CommandAllowed p)
      (cp_Denied p) (cp_Reason p)) Hp).
    destruct (existsb (denies_command command) rows); [done|].
    destruct IH as (H1 & H2 & H3). split; [done|]. rewrite H2, H3. cbn.
    by destruct (allows_capability "run_commands" r), (allows_command command r); cbn;
      rewrite ?orb_true_r.
Qed.

Lemma CanRunCommand_eq rows pid command :
  CanRunCommand rows pid command
  = if existsb (denies_command command) (project_rows pid rows)
    then (false, "command denied by forbidden command")
    else if negb (existsb (allows_capability "run_commands") (project_rows pid rows))
    then (false, "run_commands capability not allowed")
    else if negb (existsb (allows_command command) (project_rows pid rows))
    then (false, "command not allowed") else (true, "allowed").
Proof.
  unfold CanRunCommand, CommandPermission_, project_rows.
  pose proof (command_loop_eq command (MkCommandPermission false false false "")
    (List.filter (fun r => (pr_ProjectID r =? pid) && ((pr_ResourceType r =s "capability")
       || (pr_ResourceType r =s "command"))) rows) eq_refl) as Hl. cbv zeta in Hl.
  rewrite !existsb_filter in *.
  assert (H : forall p : permissionRow -> bool,
    (forall r, p r = true -> (pr_ResourceType r =s "capability") || (pr_ResourceType r =s "command") = true) ->
    existsb (fun r => (pr_ProjectID r =? pid)
      && ((pr_ResourceType r =s "capability") || (pr_ResourceType r =s "command")) && p r) rows
    = existsb (fun r => (pr_ProjectID r =? pid) && p r) rows).
  { intros p Hp. apply existsb_ext'. intros r. destruct (p r) eqn:E; [|by rewrite !andb_false_r].
    rewrite (Hp r E). by rewrite !andb_true_r. }
  rewrite !H in Hl;
    try (intros r; unfold denies_command, allows_capability, allows_command; intros E; bool_prop;
         repeat match goal with K : pr_ResourceType r = _ |- _ => rewrite K end; done).
  destruct (existsb (fun r => _ && denies_command command r) rows).
  - destruct Hl as [-> ->]. done.
  - destruct Hl as (-> & -> & ->). cbn [orb cp_CapabilityAllowed cp_CommandAllowed]. done.
Qed.

(** ** The permissions of a configuration *)

Lemma existsb_map {A B} (p : B -> bool) (f : A -> B) l :
  existsb p (List.map f l) = existsb (fun x => p (f x)) l.
Proof. induction l as [|x l IH]; [done|]. cbn. by rewrite IH. Qed.

Lemma existsb_flat_map {A B} (p : B -> bool) (f : A -> list B) l :
  existsb p (flat_map f l) = existsb (fun x => existsb p (f x)) l.
Proof. induction l as [|x l IH]; [done|]. cbn. by rewrite existsb_app, IH. Qed.

Lemma existsb_false {A} (p : A -> bool) l : (forall x, p x = false) -> existsb p l = false.
Proof. intros H. induction l as [|x l IH]; [done|]. cbn. by rewrite H, IH. Qed.

Lemma insertPermissions_project pid cfg :
  Forall (fun r => pr_ProjectID r = pid) (insertPermissions pid cfg).
Proof.
  unfold insertPermissions. rewrite !Forall_app, !Forall_map.
  split_and!; apply List.Forall_forall; try done. intros r Hr.
  apply in_flat_map in Hr as (path & _ & [<-|Hr]); [done|].
  destruct (shouldAllowGeneratedWritePath cfg path); [|done]. by destruct Hr as [<-|[]].
Qed.

Lemma project_rows_replace pid cfg rows :
  project_rows pid (replacePermissions pid cfg rows) = insertPermissions pid cfg.
Proof.
  unfold project_rows, replacePermissions. rewrite List.filter_app.
  replace (List.filter _ (List.filter _ rows)) with (@nil permissionRow).
  - cbn. induction (insertPermissions_project pid cfg) as [|r l Hr Hl IH]; [done|]. cbn. rewrite Hr, Z.eqb_refl. by f_equal.
  - induction rows as [|r rows IH]; [done|]. cbn.
    destruct (pr_ProjectID r =? pid) eqn:E; cbn; [done|]. by rewrite E.
Qed.

Lemma project_rows_other pid pid' cfg rows :
  pid' <> pid -> project_rows pid' (replacePermissions pid cfg rows) = project_rows pid' rows.
Proof.
  intros Hne. unfold replacePermissions. unfold project_rows at 1. rewrite List.filter_app.
  replace (List.filter _ (insertPermissions pid cfg)) with (@nil permissionRow).
  - rewrite app_nil_r. unfold project_rows. induction rows as [|r rows IH]; [done|]. cbn.
    destruct (Z.eqb_spec (pr_ProjectID r) pid) as [E|E]; cbn.
    + rewrite (proj2 (Z.eqb_neq _ _)) by congruence. done.
    + destruct (pr_ProjectID r =? pid'); [by f_equal|done].
  - induction (insertPermissions_project pid cfg) as [|r l Hr Hl IH]; [done|]. cbn.
    by rewrite Hr, (proj2 (Z.eqb_neq _ _)) by congruence.
Qed.

Section ConfigRows.
Context (pid : Z) (cfg : Config).

Lemma config_denies path :
  existsb (denies_path path) (insertPermissions pid cfg)
  = existsb (fun p => globMatch p path) (pm_ForbiddenPath (cf_Permissions cfg)).
Proof.
  unfold insertPermissions. rewrite !existsb_app, !existsb_map, existsb_flat_map.
  rewrite (existsb_false (fun x => denies_path path (MkPermission _ _ _ _ _))) by
    (intros x; unfold denies_path; cbn; by rewrite andb_false_r).
  rewrite (existsb_false (fun x => denies_path path (insertPathPermission pid "read_project" _ x)))
    by done.
  rewrite (existsb_false (fun x => existsb _ _)) by
    (intros x; by destruct (shouldAllowGeneratedWritePath cfg x)).
  rewrite !(existsb_false (fun x => denies_path path (insertCommandPermission _ _ _ x))) by done.
  cbn [orb]. rewrite !orb_false_r. apply existsb_ext'. done.
Qed.

Lemma config_capability c :
  existsb (allows_capability c) (insertPermissions pid cfg)
  = existsb (fun kv => (fst kv =s c) && snd kv) (pm_Capabilities (cf_Permissions cfg)).
Proof.
  unfold insertPermissions. rewrite !existsb_app, !existsb_map, existsb_flat_map.
  rewrite !(existsb_false (fun x => allows_capability c (insertPathPermission _ _ _ x))) by done.
  rewrite (existsb_false (fun x => existsb _ _)) by
    (intros x; by destruct (shouldAllowGeneratedWritePath cfg x)).
  rewrite !(existsb_false (fun x => allows_capability c (insertCommandPermission _ _ _ x))) by done.
  rewrite !orb_false_r. apply existsb_ext'. intros [k b]. unfold allows_capability. cbn.
  by destruct (k =s c), b.
Qed.

Lemma config_allows_path c path :
  c <> "read_project" ->
  existsb (allows_path c path) (insertPermissions pid cfg)
  = existsb (fun p => ((c =s "write_status")
                       || ((c =s "write_generated") && shouldAllowGeneratedWritePath cfg p))
                      && globMatch p path) (pm_WritePaths (cf_Permissions cfg)).
Proof.
  intros Hc. unfold insertPermissions. rewrite !existsb_app, !existsb_map, existsb_flat_map.
  rewrite (existsb_false (fun x => allows_path c path (MkPermission _ _ _ _ _))) by done.
  rewrite (existsb_false (fun x => allows_path c path (insertPathPermission pid "read_project" _ x)))
    by (intros x; unfold allows_path, insertPathPermission; cbn [pr_ResourceType pr_Capability];
        rewrite (proj2 (String.eqb_neq "read_project" c)) by congruence;
        by rewrite andb_false_r).
  rewrite (existsb_false (fun x => allows_path c path (insertPathPermission pid "*" _ x)))
    by (intros x; unfold allows_path, insertPathPermission; cbn [pr_Effect pr_Capability];
        change ("deny" =s "allow") with false; by rewrite andb_false_r).
  rewrite !(existsb_false (fun x => allows_path c path (insertCommandPermission _ _ _ x))) by done.
  cbn [orb]. rewrite !orb_false_r. apply existsb_ext'. intros p. cbn [existsb].
  assert (Ha : forall k, allows_path c path (insertPathPermission pid k "allow" p)
                         = (c =s k) && globMatch p path).
  { intros k. unfold allows_path, insertPathPermission.
    cbn [pr_ResourceType pr_Capability pr_Effect pr_Pattern].
    change ("path" =s "path") with true. change ("allow" =s "allow") with true.
    by rewrite (String.eqb_sym k c), andb_true_r. }
  rewrite Ha. destruct (shouldAllowGeneratedWritePath cfg p); cbn [existsb].
  - rewrite Ha, orb_false_r, andb_true_r. by destruct (c =s "write_status"), (globMatch p path),
      (c =s "write_generated").
  - by rewrite andb_false_r, !orb_false_r.
Qed.
End ConfigRows.

(** *** The rows a check looks for, as propositions *)

Lemma exists_rows (p : permissionRow -> bool) (P : permissionRow -> Prop) rows :
  (forall r, p r = true <-> P r) -> (existsb p rows = true <-> exists r, In r rows /\ P r).
Proof.
  intros H. rewrite existsb_exists. split; intros (r & Hr & Hp); exists r; (split; [done|]);
    by apply H.
Qed.

Lemma no_rows (p : permissionRow -> bool) (P : permissionRow -> Prop) rows :
  (forall r, p r = true <-> P r) -> (existsb p rows = false <-> forall r, In r rows -> ~ P r).
Proof.
  intros H. rewrite <- not_true_iff_false, (exists_rows p P rows H). split.
  - intros Hn r Hr Hp. apply Hn. eauto.
  - intros Hn (r & Hr & Hp). by apply (Hn r).
Qed.

(** A row of the project that forbids, or that allows *)
Definition forbids (pid : Z) (kind target : string) (r : permissionRow) : Prop :=
  pr_ProjectID r = pid /\ pr_Effect r = "deny" /\ pr_ResourceType r = kind
  /\ glob_spec (pr_Pattern r) target.
Definition grants_capability (pid : Z) (cap : string) (r : permissionRow) : Prop :=
  pr_ProjectID r = pid /\ pr_ResourceType r = "capability" /\ pr_Capability r = cap
  /\ pr_Effect r = "allow".
Definition grants (pid : Z) (kind cap target : string) (r : permissionRow) : Prop :=
  pr_ProjectID r = pid /\ pr_ResourceType r = kind /\ pr_Capability r = cap
  /\ pr_Effect r = "allow" /\ glob_spec (pr_Pattern r) target.

Ltac row_spec :=
  rewrite !andb_true_iff, Z.eqb_eq, !String.eqb_eq, ?globMatch_spec; tauto.

Lemma denies_path_spec pid path r :
  (pr_ProjectID r =? pid) && denies_path path r = true <-> forbids pid "path" path r.
Proof. unfold denies_path, forbids. row_spec. Qed.

Lemma denies_command_spec pid command r :
  (pr_ProjectID r =? pid) && denies_command command r = true <-> forbids pid "command" command r.
Proof. unfold denies_command, forbids. row_spec. Qed.

Lemma allows_capability_spec pid cap r :
  (pr_ProjectID r =? pid) && allows_capability cap r = true <-> grants_capability pid cap r.
Proof. unfold allows_capability, grants_capability. row_spec. Qed.

Lemma allows_path_spec pid cap path r :
  (pr_ProjectID r =? pid) && allows_path cap path r = true <-> grants pid "path" cap path r.
Proof. unfold allows_path, grants. row_spec. Qed.

Lemma allows_command_spec pid command r :
  (pr_ProjectID r =? pid) && allows_command command r = true
  <-> grants pid "command" "run_commands" command r.
Proof. unfold allows_command, grants. row_spec. Qed.

Lemma three_checks (b c d : bool) (m1 m2 m3 : string) :
  fst (if b then (false, m1) else if negb c then (false, m2) else if negb d then (false, m3)
       else (true, "allowed")) = true <-> b = false /\ c = true /\ d = true.
Proof. destruct b, c, d; cbn; intuition congruence. Qed.

(** A capability check names the capability or uses it as its pattern. *)
Definition names_capability (pid : Z) (cap effect : string) (r : permissionRow) : bool :=
  (pr_ProjectID r =? pid) && (pr_ResourceType r =s "capability")
  && ((pr_Capability r =s cap) || (pr_Pattern r =s cap)) && (pr_Effect r =s effect).

Lemma capability_loop_eq cap allowed rows :
  capability_loop cap allowed rows
  = let named r := (pr_Capability r =s cap) || (pr_Pattern r =s cap) in
    if existsb (fun r => named r && (pr_Effect r =s "deny")) rows then None
    else Some (allowed || existsb (fun r => named r && (pr_Effect r =s "allow")) rows).
Proof.
  cbv zeta. revert allowed. induction rows as [|r rows IH]; intros allowed;
    cbn [capability_loop existsb]; [by rewrite orb_false_r|].
  rewrite <- negb_orb. destruct ((pr_Capability r =s cap) || (pr_Pattern r =s cap)); cbn [negb andb orb].
  - destruct (pr_Effect r =s "deny"); [done|]. rewrite IH. cbn [orb].
    destruct (existsb _ rows); [done|]. by destruct (pr_Effect r =s "allow"), allowed; cbn [orb].
  - by rewrite IH.
Qed.

Lemma capability_check_eq rows pid cap :
  fst (canProjectCapabilityInTx rows pid cap)
  = negb (existsb (names_capability pid cap "deny") rows)
    && existsb (names_capability pid cap "allow") rows.
Proof.
  unfold canProjectCapabilityInTx. rewrite capability_loop_eq. cbv zeta. rewrite !existsb_filter.
  assert (H : forall effect,
    existsb (fun r => (pr_ProjectID r =? pid) && (pr_ResourceType r =s "capability")
      && (((pr_Capability r =s cap) || (pr_Pattern r =s cap)) && (pr_Effect r =s effect))) rows
    = existsb (names_capability pid cap effect) rows).
  { intros effect. apply existsb_ext'. intros r. unfold names_capability.
    by rewrite !andb_assoc. }
  rewrite !H. by destruct (existsb (names_capability pid cap "deny") rows),
    (existsb (names_capability pid cap "allow") rows).
Qed.

(** ** Properties *)

(** A write is permitted exactly when no forbidden pattern of the project
    matches the path (wherever in the table it stands), the capability is
    allowed and a pattern allowed for that capability matches; the three path
    checks agree. *)
Theorem write_permission_exact rows pid cap path :
  (fst (CanWritePath rows pid cap path) = true <->
   (forall r, In r rows -> ~ forbids pid "path" path r)
   /\ (exists r, In r rows /\ grants_capability pid cap r)
   /\ (exists r, In r rows /\ grants pid "path" cap path r))
  /\ canProjectPathInTx rows pid cap path = CanWritePath rows pid cap path
  /\ canWritePathTx rows pid cap path = CanWritePath rows pid cap path.
Proof.
  split; [|done]. rewrite CanWritePath_eq. unfold project_rows.
  rewrite !existsb_filter, three_checks.
  rewrite (no_rows _ _ rows (denies_path_spec pid path)).
  rewrite (exists_rows _ _ rows (allows_capability_spec pid cap)).
  by rewrite (exists_rows _ _ rows (allows_path_spec pid cap path)).
Qed.

(** A command may run exactly when no forbidden pattern of the project matches
    it, [run_commands] is allowed and an allowed command pattern matches; and a
    capability alone is granted exactly when a row of the project allows it
    and none denies it. *)
Theorem command_permission_exact rows pid command cap :
  (fst (CanRunCommand rows pid command) = true <->
   (forall r, In r rows -> ~ forbids pid "command" command r)
   /\ (exists r, In r rows /\ grants_capability pid "run_commands" r)
   /\ (exists r, In r rows /\ grants pid "command" "run_commands" command r))
  /\ fst (canProjectCapabilityInTx rows pid cap)
     = negb (existsb (names_capability pid cap "deny") rows)
       && existsb (names_capability pid cap "allow") rows.
Proof.
  split; [|apply capability_check_eq].
  rewrite CanRunCommand_eq. unfold project_rows. rewrite !existsb_filter, three_checks.
  rewrite (no_rows _ _ rows (denies_command_spec pid command)).
  rewrite (exists_rows _ _ rows (allows_capability_spec pid "run_commands")).
  by rewrite (exists_rows _ _ rows (allows_command_spec pid command)).
Qed.

(** After a project is registered from its configuration, whatever rows were
    there before: status writes are permitted exactly on its write paths less
    its forbidden paths, and only with the capability; generated writes
    moreover only for write paths inside a managed generated directory; and
    no other project's permissions changed. *)
Theorem config_permissions_exact pid cfg rows path :
  let allowed c := existsb (fun kv => (fst kv =s c) && snd kv) (pm_Capabilities (cf_Permissions cfg)) in
  let forbidden := existsb (fun p => globMatch p path) (pm_ForbiddenPath (cf_Permissions cfg)) in
  let rows' := replacePermissions pid cfg rows in
  fst (CanWritePath rows' pid "write_status" path)
    = negb forbidden && allowed "write_status"
      && existsb (fun p => globMatch p path) (pm_WritePaths (cf_Permissions cfg))
  /\ fst (CanWritePath rows' pid "write_generated" path)
    = negb forbidden && allowed "write_generated"
      && existsb (fun p => shouldAllowGeneratedWritePath cfg p && globMatch p path)
           (pm_WritePaths (cf_Permissions cfg))
  /\ forall pid' cap, pid' <> pid -> CanWritePath rows' pid' cap path = CanWritePath rows pid' cap path.
Proof.
  cbv zeta. rewrite !CanWritePath_eq, !project_rows_replace, config_denies, !config_capability,
    !config_allows_path by done.
  split; [|split].
  - destruct (existsb _ (pm_ForbiddenPath _)); [done|]. cbn [negb andb].
    destruct (existsb _ (pm_Capabilities _)); [|done]. cbn [negb andb].
    match goal with |- fst (if negb ?b then _ else _) = ?c => change c with b; by destruct b end.
  - destruct (existsb _ (pm_ForbiddenPath _)); [done|]. cbn [negb andb].
    destruct (existsb _ (pm_Capabilities _)); [|done]. cbn [negb andb].
    match goal with |- fst (if negb ?b then _ else _) = ?c => change c with b; by destruct b end.
  - intros pid' cap Hne. by rewrite !CanWritePath_eq, project_rows_other.
Qed.

(** The path is matched as it is given: a dotted path that leaves the permitted
    directory matches its pattern. *)
Example glob_matches_unclean_path : globMatch "docs/**" "docs/../secret" = true.
Proof. reflexivity. Qed.
