(* ===== verification/RunOnce.v ===== *)
(** * Worker run-once

    [internal/project/worker.go]: RunWorkerOnce claims the oldest dry-run task
    without an active lease, writes a report artifact, records an attempt and
    completes the lease, all in one transaction. *)

From stdpp Require Import base list strings numbers gmap.
From Stdlib Require Import ZArith Lia String.
From S2P Require Import Prelude GoString Sha256 Json Schema Tx Command Capability History Worker.
From S2P Require Import Lease FilePath.

Record WorkerRunOnceOptions := MkRunOnce {
  ro_WorkerKey : string; ro_RunID : Z; ro_AllowedCapabilities : list string;
  ro_LeaseTimeoutSeconds : Z; ro_Actor : string; ro_Reason : string;
  ro_Metadata : option jmap }.

Record WorkerRunOnceResult := MkRunOnceResult {
  rr_Project : Record_; rr_Worker : WorkerRecord; rr_Lease : option LeaseRecord;
  rr_Task : option RunTaskRecord; rr_Attempt : option RunAttemptRecord;
  rr_Artifact : option ArtifactRecord; rr_Claimed : bool }.

Definition normalizeWorkerRunOnceOptions (o : WorkerRunOnceOptions) : WorkerRunOnceOptions :=
  {| ro_WorkerKey := trim_space (ro_WorkerKey o);
     ro_RunID := if ro_RunID o <? 0 then 0 else ro_RunID o;
     ro_AllowedCapabilities := capabilities_or_default (ro_AllowedCapabilities o);
     ro_LeaseTimeoutSeconds :=
       if ro_LeaseTimeoutSeconds o <=? 0 then 300 else ro_LeaseTimeoutSeconds o;
     ro_Actor := trim_default "local-user" (ro_Actor o);
     ro_Reason := trim_default "worker run once" (ro_Reason o);
     ro_Metadata := Some (map_or_empty (ro_Metadata o)) |}.

(** ** Choosing the task *)

(** ORDER BY created_at ASC, id ASC *)
Definition task_created_before (a b : RunTaskRecord) : bool :=
  (t_CreatedAt a <? t_CreatedAt b)
  || ((t_CreatedAt a =? t_CreatedAt b) && (t_ID a <? t_ID b)).

(** The WHERE clause of [nextDryRunTaskForLease] *)
Definition dry_run_candidate (env : Env) (db : DB) (projectID runID : Z) (t : RunTaskRecord)
  : bool :=
  (t_ProjectID t =? projectID)
  && ((runID =? 0) || (t_RunID t =? runID))
  && existsb (fun r => (r_ID r =? t_RunID t) && r_DryRun r) (t_rows (db_runs db))
  && ((t_Status t =s "queued") || (t_Status t =s "needs_recovery"))
  && negb (existsb (fun l => (l_RunTaskID l =? t_ID t) && (l_Status l =s "active"))
                   (t_rows (db_leases db)))
  && negb (env_task_locked env (t_ID t)).

Definition nextDryRunTaskForLease (env : Env) (projectID runID : Z)
  : M (option RunTaskRecord) :=
  db <- get_db ;;
  match sort_stable task_created_before
          (table_select (dry_run_candidate env db projectID runID) (db_run_tasks db)) with
  | [] => ret None
  | t :: _ => ret (Some (scanRunTask t))
  end.

(** ** Evidence *)

Definition scanArtifactRecord (a : ArtifactRecord) : ArtifactRecord :=
  {| ar_ID := ar_ID a; ar_ProjectID := ar_ProjectID a;
     ar_WorkflowVersionID := ar_WorkflowVersionID a; ar_RunID := 0;
     ar_WorkflowItemID := ar_WorkflowItemID a; ar_ArtifactType := ar_ArtifactType a;
     ar_StorageBackend := ar_StorageBackend a; ar_URI := ar_URI a;
     ar_SourcePath := ar_SourcePath a; ar_SHA256 := ar_SHA256 a; ar_SizeBytes := ar_SizeBytes a;
     ar_ContentType := ar_ContentType a; ar_Metadata := jmap_decode (ar_Metadata a);
     ar_CreatedAt := ar_CreatedAt a |}.

(** The version id is written as it is, so a task without a workflow version
    (id 0) violates the foreign key. *)
Definition insertRunArtifactRecord (env : Env) (projectID versionID runID itemID : Z)
    (artifactType sourcePath : string) (st : Stored) (metadata : jmap) : M ArtifactRecord :=
  if versionID =? 0 then fail ErrForeignKeyViolation
  else
    a <- insert_row (fun id =>
           MkArtifact id projectID versionID runID itemID artifactType (s_Backend st) (s_URI st)
             sourcePath (s_SHA256 st) (s_SizeBytes st) (s_ContentType st) metadata
             (env_now env)) ;;
    ret (scanArtifactRecord a).

Definition runOnceReport (record : Record_) (worker : WorkerRecord) (task : RunTaskRecord)
    (lease : LeaseRecord) (o : WorkerRunOnceOptions) : string :=
  marshal_indent (JObj (mk
    [("project", JStr (p_Key record)); ("worker_id", JInt (w_ID worker));
     ("worker_key", JStr (w_WorkerKey worker)); ("run_id", JInt (t_RunID task));
     ("run_task_id", JInt (t_ID task)); ("task_key", JStr (t_TaskKey task));
     ("task_kind", JStr (t_TaskKind task)); ("lease_id", JInt (l_ID lease));
     ("dry_run", JBool true); ("writes_attempted", JBool false);
     ("commands_run", JBool false); ("secrets_resolved", JBool false);
     ("network_used", JBool false); ("executed_attempt", JBool false);
     ("allowed_capabilities", jstrs (ro_AllowedCapabilities o));
     ("requested_run_id", JInt (ro_RunID o))])).

Definition runOncePath (worker : WorkerRecord) (task : RunTaskRecord) : string :=
  path_join ["workers"; w_WorkerKey worker; "run-once";
             "run-task-" +:+ fmt_d (t_ID task) +:+ "-report.json"].

Definition writeAndInsertWorkerRunOnceArtifact (env : Env) (record : Record_)
    (worker : WorkerRecord) (task : RunTaskRecord) (lease : LeaseRecord)
    (o : WorkerRunOnceOptions) : M ArtifactRecord :=
  let relativePath := runOncePath worker task in
  st <- writeProjectArtifact env record relativePath
          (runOnceReport record worker task lease o) "application/json" ;;
  insertRunArtifactRecord env (p_ID record) (t_WorkflowVersionID task) (t_RunID task)
    (t_WorkflowItemID task) "worker_run_once_report" relativePath st
    (mk [("phase", JStr "v0.6d"); ("owned_by", JStr "areaflow"); ("dry_run", JBool true);
         ("worker_id", JInt (w_ID worker)); ("worker_key", JStr (w_WorkerKey worker));
         ("run_id", JInt (t_RunID task)); ("requested_run_id", JInt (ro_RunID o));
         ("run_task_id", JInt (t_ID task)); ("lease_id", JInt (l_ID lease));
         ("actor", JStr (ro_Actor o)); ("reason", JStr (ro_Reason o));
         ("run_once", JBool true)]).

Definition scanRunAttempt (a : RunAttemptRecord) : RunAttemptRecord :=
  MkRunAttempt (at_ID a) (at_ProjectID a) (at_WorkflowVersionID a) (at_WorkflowItemID a)
    (at_RunID a) (at_RunTaskID a) (at_AttemptKind a) (at_Status a) (at_DryRun a)
    (jmap_decode (at_Metadata a)) (at_StartedAt a) (at_FinishedAt a).

Definition insertWorkerRunOnceAttempt (env : Env) (record : Record_) (task : RunTaskRecord)
    (lease : LeaseRecord) (report : ArtifactRecord) (o : WorkerRunOnceOptions)
  : M RunAttemptRecord :=
  a <- insert_row (fun id =>
         MkRunAttempt id (p_ID record) (t_WorkflowVersionID task) (t_WorkflowItemID task)
           (t_RunID task) (t_ID task) "worker_run_once" "passed" true
           (mk [("actor", JStr (ro_Actor o)); ("reason", JStr (ro_Reason o));
                ("dry_run", JBool true); ("would_execute", JBool false);
                ("writes_attempted", JBool false); ("commands_run", JBool false);
                ("secrets_resolved", JBool false); ("network_used", JBool false);
                ("lease_id", JInt (l_ID lease)); ("worker_id", JInt (l_WorkerID lease));
                ("evidence_artifact_id", JInt (ar_ID report))])
           (env_now env) (Some (env_now env))) ;;
  ret (scanRunAttempt a).

(** ** The command *)

Definition task_passed (t : RunTaskRecord) : RunTaskRecord :=
  MkRunTask (t_ID t) (t_ProjectID t) (t_WorkflowVersionID t) (t_WorkflowItemID t) (t_RunID t)
    (t_TaskKey t) (t_TaskKind t) "passed" (t_RiskLevel t) (t_Sequence t) (t_Metadata t)
    (t_CreatedAt t) (t_UpdatedAt t).

Definition runOnceDenied (env : Env) (record : Record_) (o : WorkerRunOnceOptions)
    (worker : WorkerRecord) (missing : list string) : M (res error WorkerRunOnceResult) :=
  recordWorkerCapabilityDenied env (p_ID record) worker "worker.run_once" (w_WorkerKey worker)
    (ro_Reason o) (ro_AllowedCapabilities o) missing
    (mk [("run_once", JBool true); ("run_id", JInt (ro_RunID o))]) ;;;
  ret (Err (ErrWorkerCapabilityDenied missing)).

Definition runOnceIdle (env : Env) (record : Record_) (o : WorkerRunOnceOptions)
    (worker : WorkerRecord) : M (res error WorkerRunOnceResult) :=
  insertWorkerEvent env (p_ID record) (w_ID worker) "worker.run_once.idle"
    "Worker run-once found no dry-run task"
    (mk [("worker_key", JStr (w_WorkerKey worker)); ("run_id", JInt (ro_RunID o))]) ;;;
  ret (Ok (MkRunOnceResult record worker None None None None false)).

Definition runOnceClaim (env : Env) (record : Record_) (o : WorkerRunOnceOptions)
    (worker : WorkerRecord) (task : RunTaskRecord) : M (res error WorkerRunOnceResult) :=
  lease <- insertLeaseForTask env (p_ID record) worker task "run_task"
             (ro_AllowedCapabilities o)
             (mk [("run_task_id", JInt (t_ID task)); ("run_id", JInt (t_RunID task));
                  ("task_key", JStr (t_TaskKey task)); ("task_kind", JStr (t_TaskKind task));
                  ("run_once", JBool true)])
             (ro_Metadata o) (ro_LeaseTimeoutSeconds o) ;;
  updateRunTaskStatus env (t_ID task) "leased" ;;;
  report <- writeAndInsertWorkerRunOnceArtifact env record worker task lease o ;;
  attempt <- insertWorkerRunOnceAttempt env record task lease report o ;;
  released <- releaseLeaseForWorker env (p_ID record) worker (l_ID lease) "completed"
                (Some (mk [("run_once", JBool true); ("dry_run", JBool true);
                           ("attempt_id", JInt (at_ID attempt));
                           ("artifact_id", JInt (ar_ID report))])) ;;
  updateRunTaskStatus env (t_ID task) "passed" ;;;
  insertWorkerEvent env (p_ID record) (w_ID worker) "worker.run_once.completed"
    "Worker run-once dry-run completed"
    (mk [("worker_key", JStr (w_WorkerKey worker)); ("lease_id", JInt (l_ID released));
         ("run_id", JInt (l_RunID released)); ("run_task_id", JInt (l_RunTaskID released));
         ("attempt_id", JInt (at_ID attempt)); ("artifact_id", JInt (ar_ID report))]) ;;;
  insertWorkerAuditEvent env (p_ID record) (w_ActorID worker) "worker.run_once"
    "manage_workers" (w_WorkerKey worker) "allowed" (ro_Reason o)
    (mk [("lease_id", JInt (l_ID released)); ("run_id", JInt (l_RunID released));
         ("run_task_id", JInt (l_RunTaskID released)); ("attempt_id", JInt (at_ID attempt));
         ("artifact_id", JInt (ar_ID report)); ("dry_run", JBool true)]) ;;;
  ret (Ok (MkRunOnceResult record worker (Some released) (Some (task_passed task))
             (Some attempt) (Some report) true)).

Definition runOnceBody (env : Env) (record : Record_) (o : WorkerRunOnceOptions)
  : M (res error WorkerRunOnceResult) :=
  worker <- loadWorkerForUpdate (p_ID record) (ro_WorkerKey o) ;;
  match missingWorkerCapabilities (w_Capabilities worker) (ro_AllowedCapabilities o) with
  | [] =>
      recoverExpiredLeases env (p_ID record) 50 (mk [("trigger", JStr "worker_run_once")]) ;;;
      next <- nextDryRunTaskForLease env (p_ID record) (ro_RunID o) ;;
      match next with
      | None => runOnceIdle env record o worker
      | Some task => runOnceClaim env record o worker task
      end
  | missing => runOnceDenied env record o worker missing
  end.

Definition RunWorkerOnce (env : Env) (record : Record_) (options : WorkerRunOnceOptions)
    (w : World) : res error WorkerRunOnceResult * World :=
  transact (runOnceBody env record (normalizeWorkerRunOnceOptions options)) w.

#[export] Hint Unfold nextDryRunTaskForLease insertRunArtifactRecord
  writeAndInsertWorkerRunOnceArtifact insertWorkerRunOnceAttempt runOnceDenied runOnceIdle
  runOnceClaim runOnceBody WriteConfigured writeProjectArtifact : prims.
