(* ===== verification/RunControl.v ===== *)
(** * Run control

    [internal/project/run_control.go]: the start, drain and cancel commands on
    a run.  [evaluateRunControl] decides from the run's status; an allowed
    decision updates the run and, for a cancel, its waiting tasks. *)

From stdpp Require Import base list strings numbers.
From Stdlib Require Import ZArith Lia String.
From S2P Require Import Prelude GoString Sha256 Json Schema Tx Command History Worker Lease.

Record RunControlOptions := MkRunControl {
  rc_Action : string; rc_IdempotencyKey : string; rc_Actor : string; rc_Reason : string }.

Record RunControlResult := MkRunControlResult {
  cr_Project : Record_; cr_Run : RunRecord; cr_PreviousStatus : string; cr_Status : string;
  cr_Decision : string; cr_Message : string; cr_Blockers : list string; cr_EventID : Z;
  cr_AuditEventID : Z; cr_IdempotencyKey : string; cr_Created : bool;
  cr_ProjectWriteAttempted : bool; cr_ExecutionWriteAttempted : bool;
  cr_AreaMatrixWriteAttempted : bool; cr_EngineCallAttempted : bool }.

Definition normalizeRunControlOptions (runID : Z) (o : RunControlOptions) : RunControlOptions :=
  let action := trim_space (rc_Action o) in
  let key := trim_space (rc_IdempotencyKey o) in
  {| rc_Action := action;
     rc_IdempotencyKey :=
       if (key =s "") && (runID <=? 0) then "run.control:unknown" else key;
     rc_Actor := trim_default "local-user" (rc_Actor o);
     rc_Reason :=
       let reason := trim_space (rc_Reason o) in
       if reason =s "" then "run " +:+ action +:+ " protected control" else reason |}.

Definition runControlCommandType (action : string) : string := "run." +:+ trim_space action.

Definition runControlRequestHash (runID : Z) (o : RunControlOptions) : string :=
  request_hash
    [("command_type", JStr (runControlCommandType (rc_Action o)));
     ("run_id", JInt runID); ("actor", JStr (rc_Actor o)); ("reason", JStr (rc_Reason o));
     ("protected", JBool true); ("dry_run_only", JBool true)].

Definition runControlIdempotencyKey (runID : Z) (o : RunControlOptions) (requestHash : string)
  : string :=
  let prefix := if 16 <? len requestHash then str_take 16 requestHash else requestHash in
  "run." +:+ rc_Action o +:+ ":" +:+ fmt_d runID +:+ ":" +:+ prefix.

(** ** The decision *)

Definition with_status_message (status message : string) (r : RunControlResult)
  : RunControlResult :=
  MkRunControlResult (cr_Project r) (cr_Run r) (cr_PreviousStatus r) status (cr_Decision r)
    message (cr_Blockers r) (cr_EventID r) (cr_AuditEventID r) (cr_IdempotencyKey r)
    (cr_Created r) (cr_ProjectWriteAttempted r) (cr_ExecutionWriteAttempted r)
    (cr_AreaMatrixWriteAttempted r) (cr_EngineCallAttempted r).

(** What the switch on the action yields: an early return, or the result so
    far with the blockers it found. *)
Inductive control_case : Type :=
| EarlyReturn (r : RunControlResult)
| Continue (r : RunControlResult) (blockers : list string).

Definition control_switch (run : RunRecord) (action : string) (result : RunControlResult)
  : control_case :=
  let st := r_Status run in
  if action =s "start" then
    if st =s "running"
    then EarlyReturn (with_status_message (cr_Status result) "run was already running" result)
    else if st <>s "queued"
    then Continue result
           ["run status " +:+ fmt_q st +:+ " cannot be started; expected queued"]
    else Continue (with_status_message "running" "run marked running in protected mode" result) []
  else if action =s "drain" then
    if (st =s "draining") || (st =s "drained")
    then EarlyReturn (with_status_message (cr_Status result)
                        "run was already draining or drained" result)
    else if st <>s "running"
    then Continue result
           ["run status " +:+ fmt_q st +:+ " cannot be drained; expected running"]
    else Continue (with_status_message "draining" "run drain requested in protected mode" result) []
  else if action =s "cancel" then
    if (st =s "cancelled") || (st =s "cancelling")
    then EarlyReturn (with_status_message (cr_Status result)
                        "run was already cancelled or cancelling" result)
    else if st =s "queued"
    then Continue (with_status_message "cancelled" "queued run cancelled in protected mode"
                     result) []
    else if (st =s "running") || (st =s "draining")
    then Continue (with_status_message "cancelling"
                     "run cancellation requested in protected mode" result) []
    else Continue result ["run status " +:+ fmt_q st +:+ " cannot be cancelled"]
  else Continue result ["run control action " +:+ fmt_q action +:+ " is not supported"].

Definition evaluateRunControl (record : Record_) (run : RunRecord) (options : RunControlOptions)
  : RunControlResult :=
  let result :=
    MkRunControlResult record run (r_Status run) (r_Status run) "allowed"
      "run control applied in AreaFlow state" [] 0 0 "" false false false false false in
  match control_switch run (rc_Action options) result with
  | EarlyReturn r => r
  | Continue r blockers =>
      let blockers :=
        if r_DryRun run then blockers
        else blockers ++ ["protected run control is only enabled for dry-run runs"] in
      match blockers with
      | [] => r
      | _ =>
          MkRunControlResult record run (r_Status run) (r_Status run) "denied"
            "run control blocked by protected boundary" blockers 0 0 "" false
            false false false false
      end
  end.

(** ** Rows *)

Definition scanRun (r : RunRecord) : RunRecord :=
  MkRun (r_ID r) (r_ProjectID r) (r_WorkflowVersionID r) (r_RunType r) (r_RunKind r)
    (r_Status r) (r_RiskLevel r) (r_RiskPolicy r) (r_DryRun r) (jmap_decode (r_Summary r))
    (jmap_decode (r_Metadata r)) (r_StartedAt r) (r_FinishedAt r).

Definition loadRunForUpdate (runID : Z) : M RunRecord :=
  rows <- select_rows (fun r => r_ID r =? runID) ;;
  r <- map_err (no_rows_to ErrRunNotFound) (first_row rows) ;;
  ret (scanRun r).

Definition loadProjectRecordByID (projectID : Z) : M Record_ :=
  if projectID <=? 0 then fail (ErrText "run project id is required")
  else
    rows <- select_rows (fun p => p_ID p =? projectID) ;;
    first_row rows.

(** [copyMap] *)
Definition copyMap (m : jmap) : jmap := mset_all m [].

Definition no_writes : jmap :=
  [("project_write_attempted", JBool false); ("execution_write_attempted", JBool false);
   ("area_matrix_write_attempted", JBool false); ("engine_call_attempted", JBool false)].

Definition controlSummary (env : Env) (run : RunRecord) (status : string)
    (o : RunControlOptions) : jmap :=
  mset_all ([("control_status", JStr status); ("last_control_action", JStr (rc_Action o));
             ("last_control_actor", JStr (rc_Actor o));
             ("last_control_reason", JStr (rc_Reason o));
             ("last_control_at", JStr (env_rfc3339 env))] ++ no_writes)
    (copyMap (r_Summary run)).

Definition controlMetadata (run : RunRecord) (o : RunControlOptions) : jmap :=
  mset_all ([("protected_control", JBool true); ("last_control_action", JStr (rc_Action o));
             ("last_control_actor", JStr (rc_Actor o));
             ("last_control_reason", JStr (rc_Reason o));
             ("last_control_idempotency_key", JStr (rc_IdempotencyKey o))] ++ no_writes)
    (copyMap (r_Metadata run)).

(** The SQL expression chosen for [finished_at], applied to the row's value *)
Definition controlFinishedAt (env : Env) (run : RunRecord) (status : string)
    (result : RunControlResult) (stored_finished : option Z) : option Z :=
  if (status =s "cancelled") || (status =s "drained") then Some (env_now env)
  else match r_FinishedAt run with
       | Some _ => if cr_PreviousStatus result <>s status then None else stored_finished
       | None => stored_finished
       end.

Definition waiting_task (runID : Z) (t : RunTaskRecord) : bool :=
  (t_RunID t =? runID)
  && ((t_Status t =s "pending") || (t_Status t =s "queued") || (t_Status t =s "retry_waiting")
      || (t_Status t =s "needs_recovery")).

Definition cancelTasks (env : Env) (runID : Z) (status : string) : M unit :=
  update_rows (waiting_task runID) (task_with_status (env_now env) status) ;;; ret tt.

Definition updateRunControlStatus (env : Env) (run : RunRecord) (status : string)
    (o : RunControlOptions) (result : RunControlResult) : M RunRecord :=
  rows <- update_rows (fun r => r_ID r =? r_ID run) (fun r =>
         MkRun (r_ID r) (r_ProjectID r) (r_WorkflowVersionID r) (r_RunType r) (r_RunKind r)
           status (r_RiskLevel r) (r_RiskPolicy r) (r_DryRun r)
           (controlSummary env run status o) (controlMetadata run o) (r_StartedAt r)
           (controlFinishedAt env run status result (r_FinishedAt r))) ;;
  updated <- first_row rows ;;
  (if (rc_Action o =s "cancel") && (status =s "cancelled")
   then cancelTasks env (r_ID run) "cancelled" else ret tt) ;;;
  (if (rc_Action o =s "cancel") && (status =s "cancelling")
   then cancelTasks env (r_ID run) "cancel_requested" else ret tt) ;;;
  ret (scanRun updated).

Definition runControlMetadata (result : RunControlResult) (o : RunControlOptions) : jmap :=
  mk [("run_id", JInt (r_ID (cr_Run result)));
      ("workflow_version_id", JInt (r_WorkflowVersionID (cr_Run result)));
      ("action", JStr (rc_Action o)); ("previous_status", JStr (cr_PreviousStatus result));
      ("status", JStr (cr_Status result)); ("decision", JStr (cr_Decision result));
      ("actor", JStr (rc_Actor o)); ("idempotency_key", JStr (rc_IdempotencyKey o));
      ("protected_control", JBool true); ("dry_run", JBool (r_DryRun (cr_Run result)));
      ("project_write_attempted", JBool false); ("execution_write_attempted", JBool false);
      ("area_matrix_write_attempted", JBool false); ("engine_call_attempted", JBool false);
      ("blockers", jstrs_nil (cr_Blockers result))].

Definition insertRunControlEvent (env : Env) (result : RunControlResult)
    (o : RunControlOptions) : M Z :=
  let severity := if cr_Decision result =s "denied" then "warning" else "info" in
  e <- insert_row (fun id =>
         MkEvent id (p_ID (cr_Project result)) (r_ID (cr_Run result))
           (r_WorkflowVersionID (cr_Run result))
           ("run." +:+ rc_Action o +:+ "." +:+ cr_Decision result) severity
           (cr_Message result) (runControlMetadata result o) (env_now env)) ;;
  ret (e_ID e).

Definition insertRunControlAuditEvent (env : Env) (result : RunControlResult)
    (o : RunControlOptions) : M Z :=
  a <- insert_row (fun id =>
         MkAudit id (p_ID (cr_Project result)) 0 (runControlCommandType (rc_Action o))
           "manage_runs" "run" (fmt_d (r_ID (cr_Run result))) (cr_Decision result)
           (rc_Reason o) (runControlMetadata result o) (env_now env)) ;;
  ret (au_ID a).

Definition runControlCommandResponse (result : RunControlResult) : jmap :=
  mk [("project_id", JInt (p_ID (cr_Project result)));
      ("project_key", JStr (p_Key (cr_Project result)));
      ("run_id", JInt (r_ID (cr_Run result)));
      ("workflow_version_id", JInt (r_WorkflowVersionID (cr_Run result)));
      ("previous_status", JStr (cr_PreviousStatus result));
      ("status", JStr (cr_Status result)); ("decision", JStr (cr_Decision result));
      ("message", JStr (cr_Message result)); ("blockers", jstrs_nil (cr_Blockers result));
      ("event_id", JInt (cr_EventID result)); ("audit_event_id", JInt (cr_AuditEventID result));
      ("dry_run", JBool (r_DryRun (cr_Run result))); ("task_claimed", JBool false);
      ("worker_started", JBool false); ("project_write_attempted", JBool false);
      ("execution_write_attempted", JBool false); ("area_matrix_write_attempted", JBool false);
      ("engine_call_attempted", JBool false); ("commands_run", JBool false);
      ("secrets_resolved", JBool false); ("network_used", JBool false)].

Definition loadRunControlByCommandResponse (record : Record_)
    (commandType idempotencyKey : string) : M RunControlResult :=
  response <- loadCommandResponse (p_ID record) commandType idempotencyKey ;;
  run <- loadRunForUpdate (metadataInt64 response "run_id") ;;
  ret (MkRunControlResult record run
         (metadataString response "previous_status") (metadataString response "status")
         (metadataString response "decision") (metadataString response "message")
         (metadataStringSlice response "blockers") (metadataInt64 response "event_id")
         (metadataInt64 response "audit_event_id") idempotencyKey false
         (metadataBool response "project_write_attempted")
         (metadataBool response "execution_write_attempted")
         (metadataBool response "area_matrix_write_attempted")
         (metadataBool response "engine_call_attempted")).

(** ** The command

    A denial returns the result together with an error. *)

Definition control_outcome : Type := RunControlResult * option error.

Definition set_result_run (run : RunRecord) (r : RunControlResult) : RunControlResult :=
  MkRunControlResult (cr_Project r) run (cr_PreviousStatus r) (cr_Status r) (cr_Decision r)
    (cr_Message r) (cr_Blockers r) (cr_EventID r) (cr_AuditEventID r) (cr_IdempotencyKey r)
    (cr_Created r) (cr_ProjectWriteAttempted r) (cr_ExecutionWriteAttempted r)
    (cr_AreaMatrixWriteAttempted r) (cr_EngineCallAttempted r).

Definition set_result_ids (eventID auditEventID : Z) (key : string) (r : RunControlResult)
  : RunControlResult :=
  MkRunControlResult (cr_Project r) (cr_Run r) (cr_PreviousStatus r) (cr_Status r)
    (cr_Decision r) (cr_Message r) (cr_Blockers r) eventID auditEventID key true
    (cr_ProjectWriteAttempted r) (cr_ExecutionWriteAttempted r)
    (cr_AreaMatrixWriteAttempted r) (cr_EngineCallAttempted r).

Definition set_result_event (eventID : Z) (r : RunControlResult) : RunControlResult :=
  MkRunControlResult (cr_Project r) (cr_Run r) (cr_PreviousStatus r) (cr_Status r)
    (cr_Decision r) (cr_Message r) (cr_Blockers r) eventID (cr_AuditEventID r)
    (cr_IdempotencyKey r) (cr_Created r) (cr_ProjectWriteAttempted r)
    (cr_ExecutionWriteAttempted r) (cr_AreaMatrixWriteAttempted r) (cr_EngineCallAttempted r).

(** The update of an allowed decision *)
Definition controlApply (env : Env) (run : RunRecord) (o : RunControlOptions)
    (result : RunControlResult) : M RunControlResult :=
  if cr_Decision result =s "allowed"
  then updated <- updateRunControlStatus env run (cr_Status result) o result ;;
       ret (set_result_run updated result)
  else ret result.

(** The event, the audit event and the recorded response of a decision *)
Definition controlRecord (env : Env) (record : Record_) (o : RunControlOptions)
    (result : RunControlResult) : M (res error control_outcome) :=
  eventID <- insertRunControlEvent env result o ;;
  auditEventID <- insertRunControlAuditEvent env (set_result_event eventID result) o ;;
  let result := set_result_ids eventID auditEventID (rc_IdempotencyKey o) result in
  completeCommandRequestResponse env (p_ID record) (runControlCommandType (rc_Action o))
    (rc_IdempotencyKey o) (runControlCommandResponse result) ;;;
  if cr_Decision result =s "denied"
  then ret (Ok (result, Some (ErrRunControlBlocked (cr_Blockers result))))
  else ret (Ok (result, None)).

Definition controlBody (env : Env) (record : Record_) (run : RunRecord)
    (o : RunControlOptions) : M (res error control_outcome) :=
  result <- controlApply env run o (evaluateRunControl record run o) ;;
  controlRecord env record o result.

Definition replayControl (record : Record_) (commandType key : string)
  : M (res error control_outcome) :=
  result <- loadRunControlByCommandResponse record commandType key ;;
  ret (Ok (result, None)).

Definition controlTx (env : Env) (runID : Z) (o : RunControlOptions) (requestHash : string)
  : M (res error control_outcome) :=
  run <- loadRunForUpdate runID ;;
  record <- loadProjectRecordByID (r_ProjectID run) ;;
  with_command env (p_ID record) (runControlCommandType (rc_Action o)) (rc_IdempotencyKey o)
    requestHash
    (replayControl record (runControlCommandType (rc_Action o)) (rc_IdempotencyKey o))
    (controlBody env record run o).

Definition controlOptions (runID : Z) (options : RunControlOptions) : RunControlOptions :=
  let o := normalizeRunControlOptions runID options in
  if rc_IdempotencyKey o =s "" then
    MkRunControl (rc_Action o) (runControlIdempotencyKey runID o (runControlRequestHash runID o))
      (rc_Actor o) (rc_Reason o)
  else o.

Definition ControlRun (env : Env) (runID : Z) (options : RunControlOptions) (w : World)
  : res error control_outcome * World :=
  if runID <=? 0 then (Err (ErrText "run id is required"), w)
  else
    transact (controlTx env runID (controlOptions runID options)
                (runControlRequestHash runID (normalizeRunControlOptions runID options))) w.

#[export] Hint Unfold loadRunForUpdate loadProjectRecordByID cancelTasks updateRunControlStatus
  insertRunControlEvent insertRunControlAuditEvent loadRunControlByCommandResponse controlBody
  replayControl controlTx : prims.
