(* ===== verification/Profile.v ===== *)
(** * Workflow profiles

    [internal/workflow/profile.go]: loading and validating the profile a
    workflow version is bound to, and the functions of
    [internal/project/workflow.go] that find it (workflowProfileRoot,
    loadProfileBinding).  The file system and the YAML decoder are outside the
    sources; [ProfileFS] holds what the code asks of them. *)

From stdpp Require Import base list strings numbers.
From Stdlib Require Import ZArith Lia String.
From S2P Require Import Prelude GoString Sha256 Json Schema Tx FilePath.

(** ** Data *)

Record AdapterDefaults := MkAdapterDefaults { ad_Adapter : string; ad_WorkflowProfile : string }.
Record VersionBinding := MkVersionBinding { vb_FreezeProfileHash : bool; vb_UpgradePolicy : string }.
Record Stage := MkStage {
  sg_Name : string; sg_Purpose : string; sg_RequiredArtifacts : list string;
  sg_AllowedOutputs : list string; sg_GateChecks : list string; sg_FailureRoutes : list string }.
Record Transition := MkTransition { tr_From : string; tr_To : string; tr_RequiredGate : string }.
Record Gate := MkGate { ga_Name : string; ga_EarliestPhase : string; ga_StatusSource : string }.
Record ArtifactPolicy := MkArtifactPolicy {
  arp_MetadataSource : string; arp_ContentSource : string; arp_SourceDocsOwner : string;
  arp_GeneratedOutputOwner : string; arp_DefaultContentBackend : string }.
Record PermissionPolicy := MkPermissionPolicy {
  pp_DefaultMode : string; pp_WriteRequires : list string }.
Record CutoverPolicy := MkCutoverPolicy {
  cu_Strategy : string; cu_V04Scope : string; cu_ExecutionCutoverPhase : string }.

Record Profile := MkProfile {
  pf_ProfileID : string; pf_ProfileVersion : Z; pf_DisplayName : string;
  pf_Description : string; pf_AdapterDefaults : AdapterDefaults;
  pf_VersionBinding : VersionBinding; pf_ItemStates : list string; pf_Stages : list Stage;
  pf_Transitions : list Transition; pf_Gates : list Gate; pf_HardRules : list string;
  pf_ArtifactPolicy : ArtifactPolicy; pf_Permissions : PermissionPolicy;
  pf_Cutover : CutoverPolicy }.

Record LoadedProfile := MkLoadedProfile {
  lp_Path : string; lp_SHA256 : string; lp_Profile : Profile; lp_Warnings : list string }.

Record ProfileBinding := MkBinding {
  b_ProfileID : string; b_ProfileVersion : Z; b_ProfileHash : string; b_ProfilePath : string }.

Definition requiredWriteGuards : list string :=
  ["capability"; "path_allowlist"; "gate_result"; "approval_record"; "audit_event"].

(** ** Validation *)

(** The loop over named things: a blank name is a failure and is skipped, a
    name seen before is a failure; the names seen are the keys of the map. *)
Section Names.
Context {A : Type} (name_of : A -> string) (what : string).

Fixpoint name_loop (index : nat) (seen : list string) (l : list A)
  : list string * list string :=
  match l with
  | [] => ([], seen)
  | x :: l' =>
      let name := trim_space (name_of x) in
      if name =s "" then
        let (failures, seen') := name_loop (S index) seen l' in
        ((what +:+ "s[" +:+ fmt_d (Z.of_nat index) +:+ "].name is required") :: failures, seen')
      else
        let (failures, seen') := name_loop (S index) (name :: seen) l' in
        ((if str_in name seen then ["duplicate " +:+ what +:+ ": " +:+ name] else [])
         ++ failures, seen')
  end.
End Names.

(** The warnings of the two loops *)
Definition stage_warnings (stages : list Stage) : list string :=
  flat_map (fun s =>
    let name := trim_space (sg_Name s) in
    if name =s "" then []
    else match sg_RequiredArtifacts s with
         | [] => ["stage has no required_artifacts: " +:+ name]
         | _ => []
         end) stages.
Definition gate_warnings (gates : list Gate) : list string :=
  flat_map (fun g =>
    let name := trim_space (ga_Name g) in
    if name =s "" then []
    else if trim_space (ga_StatusSource g) =s "" then ["gate has no status_source: " +:+ name]
    else []) gates.

Definition when (b : bool) (msg : string) : list string := if b then [msg] else [].

Definition transition_failures (stageNames gateNames : list string) (index : nat)
    (t : Transition) : list string :=
  let at_ := "transitions[" +:+ fmt_d (Z.of_nat index) +:+ "]" in
  when (negb (str_in (tr_From t) stageNames))
    (at_ +:+ ".from references unknown stage: " +:+ tr_From t)
  ++ when (negb (str_in (tr_To t) stageNames))
       (at_ +:+ ".to references unknown stage: " +:+ tr_To t)
  ++ when ((tr_RequiredGate t <>s "") && negb (str_in (tr_RequiredGate t) gateNames))
       (at_ +:+ ".required_gate references unknown gate: " +:+ tr_RequiredGate t).

Fixpoint transition_loop (stageNames gateNames : list string) (index : nat)
    (l : list Transition) : list string :=
  match l with
  | [] => []
  | t :: l' => transition_failures stageNames gateNames index t
               ++ transition_loop stageNames gateNames (S index) l'
  end.

Definition stage_reference_failures (stageNames gateNames : list string) (s : Stage)
  : list string :=
  flat_map (fun g => when (negb (str_in g gateNames))
    ("stage " +:+ sg_Name s +:+ " references unknown gate: " +:+ g)) (sg_GateChecks s)
  ++ flat_map (fun r => when (negb (str_in r stageNames))
       ("stage " +:+ sg_Name s +:+ " references unknown failure route: " +:+ r))
       (sg_FailureRoutes s).

Definition permission_failures (p : PermissionPolicy) : list string :=
  (if trim_space (pp_DefaultMode p) =s "" then ["permissions.default_mode is required"]
   else when (pp_DefaultMode p <>s "readonly") "permissions.default_mode must be readonly")
  ++ flat_map (fun required =>
       when (negb (str_in required
                     (List.filter (fun g => g <>s "") (List.map trim_space (pp_WriteRequires p)))))
         ("permissions.write_requires missing required guard: " +:+ required))
       requiredWriteGuards.

Definition profile_failures (p : Profile) : list string :=
  let (stageFailures, stageNames) := name_loop sg_Name "stage" 0 [] (pf_Stages p) in
  let (gateFailures, gateNames) := name_loop ga_Name "gate" 0 [] (pf_Gates p) in
  when (trim_space (pf_ProfileID p) =s "") "profile_id is required"
  ++ when (pf_ProfileVersion p <? 0) "profile_version must be non-negative"
  ++ when ((trim_space (ad_WorkflowProfile (pf_AdapterDefaults p)) <>s "")
           && (ad_WorkflowProfile (pf_AdapterDefaults p) <>s pf_ProfileID p))
       "adapter_defaults.workflow_profile must match profile_id"
  ++ when (match pf_ItemStates p with [] => true | _ => false end)
       "item_states must not be empty"
  ++ when (match pf_Stages p with [] => true | _ => false end) "stages must not be empty"
  ++ when (match pf_Gates p with [] => true | _ => false end) "gates must not be empty"
  ++ stageFailures ++ gateFailures
  ++ transition_loop stageNames gateNames 0 (pf_Transitions p)
  ++ flat_map (stage_reference_failures stageNames gateNames) (pf_Stages p)
  ++ when (vb_FreezeProfileHash (pf_VersionBinding p)
           && (trim_space (vb_UpgradePolicy (pf_VersionBinding p)) =s ""))
       "version_binding.upgrade_policy is required when freeze_profile_hash is true"
  ++ permission_failures (pf_Permissions p).

(** The warnings, and the error text if the profile is refused *)
Definition ValidateProfile (p : Profile) : list string * option string :=
  (stage_warnings (pf_Stages p) ++ gate_warnings (pf_Gates p),
   match profile_failures p with
   | [] => None
   | failures => Some ("invalid workflow profile: " +:+ strings_join "; " failures)
   end).

(** ** Loading *)

(** [os.ReadFile]: the content, or an error that says the file does not exist,
    or another error *)
Inductive read_result : Type :=
| ReadOk (content : string)
| ReadMissing
| ReadErr (msg : string).

(** [os.ReadDir]: names, each with whether it is a directory *)
Inductive dir_result : Type :=
| DirOk (entries : list (string * bool))
| DirMissing
| DirErr (msg : string).

(** What the code asks of the operating system and of the YAML decoder.
    [os.Getwd] returns an absolute path; here its components. *)
Record ProfileFS := MkProfileFS {
  fs_getwd : res string (list string);
  fs_exists : string -> bool;
  fs_readFile : string -> read_result;
  fs_readDir : string -> dir_result;
  fs_yamlDecode : string -> res string Profile }.

Section Load.
Context (fs : ProfileFS).

Definition LoadProfile (path : string) : res string LoadedProfile :=
  let cleanPath := trim_space path in
  if cleanPath =s "" then Err "workflow profile not found: path is required"
  else match fs_readFile fs cleanPath with
       | ReadMissing => Err ("workflow profile not found: " +:+ cleanPath)
       | ReadErr e => Err ("read workflow profile: " +:+ e)
       | ReadOk content =>
           match fs_yamlDecode fs content with
           | Err e => Err ("invalid workflow profile: " +:+ e)
           | Ok profile =>
               match ValidateProfile profile with
               | (_, Some e) => Err e
               | (warnings, None) =>
                   Ok (MkLoadedProfile cleanPath (sha256_hex content) profile warnings)
               end
           end
       end.

Definition LoadBuiltInProfile (root profileID : string) : res string LoadedProfile :=
  let id := trim_space profileID in
  if id =s "" then Err "workflow profile not found: profile id is required"
  else LoadProfile (path_join [root; "workflow"; "profiles"; id; "profile.yaml"]).

(** [sort.Slice] by id, then version; the sort is not stable in the source, and
    profiles that agree on both come here in directory order. *)
Definition profile_before (a b : LoadedProfile) : bool :=
  let left := pf_ProfileID (lp_Profile a) in
  let right := pf_ProfileID (lp_Profile b) in
  if left =s right
  then pf_ProfileVersion (lp_Profile a) <? pf_ProfileVersion (lp_Profile b)
  else String.ltb left right.

Fixpoint load_profiles (root : string) (names : list string) : res string (list LoadedProfile) :=
  match names with
  | [] => Ok []
  | name :: names' =>
      match LoadBuiltInProfile root name with
      | Err e => Err e
      | Ok loaded =>
          match load_profiles root names' with
          | Err e => Err e
          | Ok rest => Ok (loaded :: rest)
          end
      end
  end.

Definition ListBuiltInProfiles (root : string) : res string (list LoadedProfile) :=
  let profilesRoot := path_join [root; "workflow"; "profiles"] in
  match fs_readDir fs profilesRoot with
  | DirMissing => Err ("workflow profile not found: " +:+ profilesRoot)
  | DirErr e => Err ("read workflow profiles: " +:+ e)
  | DirOk entries =>
      match load_profiles root (List.map fst (List.filter snd entries)) with
      | Err e => Err e
      | Ok profiles => Ok (sort_stable profile_before profiles)
      end
  end.

(** The walk from the working directory towards the root; [up] is the
    directory's components, last first, so that [filepath.Dir] is the tail. *)
Fixpoint profile_root_up (up : list string) : res string string :=
  let dir := "/" +:+ strings_join "/" (rev up) in
  if fs_exists fs (path_join [dir; "workflow"; "profiles"]) then Ok dir
  else match up with
       | [] => Err "workflow profiles root not found"
       | _ :: parent => profile_root_up parent
       end.

Definition workflowProfileRoot : res string string :=
  match fs_getwd fs with
  | Err e => Err e
  | Ok dir => profile_root_up (rev dir)
  end.

Definition loadedProfileBinding (loaded : LoadedProfile) : ProfileBinding :=
  MkBinding (pf_ProfileID (lp_Profile loaded)) (pf_ProfileVersion (lp_Profile loaded))
    (lp_SHA256 loaded) (lp_Path loaded).

Definition loadProfileBinding (profileID : string) : res string ProfileBinding :=
  match workflowProfileRoot with
  | Err e => Err e
  | Ok root =>
      match LoadBuiltInProfile root profileID with
      | Err e => Err e
      | Ok loaded => Ok (loadedProfileBinding loaded)
      end
  end.
End Load.

(** ** Which profiles are accepted *)

Lemma when_nil b msg : when b msg = [] <-> b = false.
Proof. by destruct b. Qed.

Lemma app_nil_and {A} (l l' : list A) : l ++ l' = [] <-> l = [] /\ l' = [].
Proof. destruct l; cbn; [tauto|]. split; [done|]. by intros [? _]. Qed.

Lemma flat_map_nil {A B} (f : A -> list B) l :
  flat_map f l = [] <-> forall x, In x l -> f x = [].
Proof.
  induction l as [|x l IH]; cbn; [by split|]. rewrite app_nil_and, IH. split.
  - intros [Hx Hl] y [<-|Hy]; auto.
  - intros H. split; [apply H; by left|]. intros y Hy. apply H. by right.
Qed.

Section NamesSpec.
Context {A : Type} (name_of : A -> string) (what : string).

(** Non-blank names, no two of them equal once trimmed *)
Definition names_ok (l : list A) : Prop :=
  (forall x, In x l -> trim_space (name_of x) <> "")
  /\ List.NoDup (List.map (fun x => trim_space (name_of x)) l).

Lemma name_loop_seen index seen l n :
  In n (snd (name_loop name_of what index seen l)) <->
  In n seen \/ (n <> "" /\ exists x, In x l /\ trim_space (name_of x) = n).
Proof.
  revert index seen. induction l as [|x l IH]; intros index seen; cbn -[trim_space].
  - split; [by left|]. intros [?|(_ & y & [] & _)]. done.
  - destruct (String.eqb_spec (trim_space (name_of x)) "") as [E|E].
    + specialize (IH (S index) seen). destruct (name_loop _ _ _ _ l) as [f s]. cbn [snd] in *.
      rewrite IH. split; (intros [?|(Hn & y & Hy & Ey)]; [by left|right; split; [done|]]).
      * exists y. auto.
      * destruct Hy as [->|Hy]; [congruence|]. by exists y.
    + specialize (IH (S index) (trim_space (name_of x) :: seen)).
      destruct (name_loop _ _ _ _ l) as [f s]. cbn [snd] in *. rewrite IH. cbn [In]. split.
      * intros [[<-|?]|(Hn & y & Hy & Ey)]; [right|by left|right; split; [done|]; exists y; auto].
        split; [done|]. exists x. auto.
      * intros [?|(Hn & y & [<-|Hy] & Ey)]; [auto|auto|]. right. split; [done|]. by exists y.
Qed.

Lemma name_loop_nil index seen l :
  fst (name_loop name_of what index seen l) = [] <->
  names_ok l /\ forall x, In x l -> ~ In (trim_space (name_of x)) seen.
Proof.
  unfold names_ok. revert index seen.
  induction l as [|x l IH]; intros index seen; cbn -[trim_space].
  - split; [|done]. intros _. split; [split; [by intros|constructor]|by intros].
  - destruct (String.eqb_spec (trim_space (name_of x)) "") as [E|E].
    + specialize (IH (S index) seen). destruct (name_loop _ _ _ _ l) as [f s]. cbn [fst] in *.
      split; [done|]. intros [[H _] _]. exfalso. apply (H x); [by left|done].
    + specialize (IH (S index) (trim_space (name_of x) :: seen)).
      destruct (name_loop _ _ _ _ l) as [f s]. cbn [fst] in *. rewrite app_nil_and, IH.
      change (str_in _ seen) with (str_in (trim_space (name_of x)) seen).
      assert (Hd : (if str_in (trim_space (name_of x)) seen
                    then ["duplicate " +:+ what +:+ ": " +:+ trim_space (name_of x)] else []) = []
                   <-> ~ In (trim_space (name_of x)) seen).
      { rewrite <- str_in_false. by destruct (str_in _ seen). }
      rewrite Hd. clear Hd IH. split.
      * intros (Hx & (Hne & Hnd) & Hs). split; [split|].
        -- intros y [<-|Hy]; auto.
        -- constructor; [|done]. intros Hin. apply in_map_iff in Hin as (y & Ey & Hy).
           apply (Hs y Hy). left. congruence.
        -- intros y [<-|Hy]; [done|]. intros Hin. apply (Hs y Hy). by right.
      * intros ((Hne & Hnd) & Hs). inversion Hnd as [|? ? Hni Hnd']; subst. split; [auto|].
        split; [split; [auto|done]|]. intros y Hy [Ey|Hin]; [|by apply (Hs y); [right|]].
        apply Hni. rewrite Ey. by apply (in_map (fun x => trim_space (name_of x))).
Qed.
End NamesSpec.

(** A name some stage or gate declares *)
Definition declared {A} (name_of : A -> string) (l : list A) (n : string) : Prop :=
  n <> "" /\ exists x, In x l /\ trim_space (name_of x) = n.

Lemma name_loop_declared {A} (name_of : A -> string) what l n :
  str_in n (snd (name_loop name_of what 0 [] l)) = true <-> declared name_of l n.
Proof. rewrite str_in_spec, name_loop_seen. cbn. unfold declared. tauto. Qed.

Definition profile_ok (p : Profile) : Prop :=
  trim_space (pf_ProfileID p) <> "" /\ 0 <= pf_ProfileVersion p
  /\ (trim_space (ad_WorkflowProfile (pf_AdapterDefaults p)) = ""
      \/ ad_WorkflowProfile (pf_AdapterDefaults p) = pf_ProfileID p)
  /\ pf_ItemStates p <> [] /\ pf_Stages p <> [] /\ pf_Gates p <> []
  /\ names_ok sg_Name (pf_Stages p) /\ names_ok ga_Name (pf_Gates p)
  /\ (forall t, In t (pf_Transitions p) ->
        declared sg_Name (pf_Stages p) (tr_From t) /\ declared sg_Name (pf_Stages p) (tr_To t)
        /\ (tr_RequiredGate t = "" \/ declared ga_Name (pf_Gates p) (tr_RequiredGate t)))
  /\ (forall s, In s (pf_Stages p) ->
        (forall g, In g (sg_GateChecks s) -> declared ga_Name (pf_Gates p) g)
        /\ (forall r, In r (sg_FailureRoutes s) -> declared sg_Name (pf_Stages p) r))
  /\ (vb_FreezeProfileHash (pf_VersionBinding p) = true ->
      trim_space (vb_UpgradePolicy (pf_VersionBinding p)) <> "")
  /\ pp_DefaultMode (pf_Permissions p) = "readonly"
  /\ (forall g, In g requiredWriteGuards ->
        exists w, In w (pp_WriteRequires (pf_Permissions p)) /\ trim_space w = g).

Lemma transition_loop_nil sn gn index l :
  transition_loop sn gn index l = [] <->
  forall t, In t l -> str_in (tr_From t) sn = true /\ str_in (tr_To t) sn = true
    /\ (tr_RequiredGate t = "" \/ str_in (tr_RequiredGate t) gn = true).
Proof.
  revert index. induction l as [|t l IH]; intros index; cbn [transition_loop In]; [by split|].
  assert (Ht : transition_failures sn gn index t = [] <->
    str_in (tr_From t) sn = true /\ str_in (tr_To t) sn = true
    /\ (tr_RequiredGate t = "" \/ str_in (tr_RequiredGate t) gn = true)).
  { unfold transition_failures. rewrite !app_nil_and, !when_nil, !negb_false_iff.
    destruct (String.eqb_spec (tr_RequiredGate t) ""), (str_in (tr_RequiredGate t) gn); cbn;
      intuition congruence. }
  rewrite app_nil_and, Ht, IH. split.
  - intros [H1 H2] t' [<-|H]; auto.
  - intros H. split; [apply H; by left|]. intros t' Ht'. apply H. by right.
Qed.

Lemma permission_failures_nil p :
  permission_failures p = [] <->
  pp_DefaultMode p = "readonly"
  /\ forall g, In g requiredWriteGuards ->
       exists w, In w (pp_WriteRequires p) /\ trim_space w = g.
Proof.
  unfold permission_failures. rewrite app_nil_and, flat_map_nil.
  assert (H1 : (if trim_space (pp_DefaultMode p) =s "" then ["permissions.default_mode is required"]
     else when (pp_DefaultMode p <>s "readonly") "permissions.default_mode must be readonly") = []
     <-> pp_DefaultMode p = "readonly").
  { destruct (String.eqb_spec (trim_space (pp_DefaultMode p)) "") as [E|E].
    - split; [done|]. intros Hm. rewrite Hm in E. by vm_compute in E.
    - rewrite when_nil, negb_false_iff. apply String.eqb_eq. }
  rewrite H1. clear H1.
  split; (intros [Hm Hg]; split; [done|]; intros g Hin; specialize (Hg g Hin)).
  - rewrite when_nil, negb_false_iff, str_in_spec in Hg. apply filter_In in Hg as [Hg _].
    apply in_map_iff in Hg as (w & <- & Hw). eauto.
  - rewrite when_nil, negb_false_iff, str_in_spec. destruct Hg as (w & Hw & <-).
    apply filter_In. split; [by apply in_map|]. apply negb_true_iff, String.eqb_neq.
    intros E. rewrite E in Hin. cbn in Hin. intuition congruence.
Qed.

Lemma stage_references_nil sn gn l :
  flat_map (stage_reference_failures sn gn) l = [] <->
  forall s, In s l -> (forall g, In g (sg_GateChecks s) -> str_in g gn = true)
                      /\ (forall r, In r (sg_FailureRoutes s) -> str_in r sn = true).
Proof.
  rewrite flat_map_nil. apply forall_proper. intros s. unfold stage_reference_failures.
  rewrite app_nil_and, !flat_map_nil. setoid_rewrite when_nil.
  setoid_rewrite negb_false_iff. tauto.
Qed.

(** A profile is accepted exactly when it is well formed: an id and a
    non-negative version, a matching adapter default, states, stages and gates,
    with non-blank names no two of which coincide; every transition, gate check
    and failure route refers to a declared stage or gate; a frozen hash comes
    with an upgrade policy; and the permissions are read-only by default with
    all five write guards.  Loading succeeds exactly when the path is not blank
    and the file can be read and decoded to such a profile, and then returns it
    with the digest of the file's content. *)
Theorem validate_profile_exact p fs path loaded :
  (snd (ValidateProfile p) = None <-> profile_ok p)
  /\ (LoadProfile fs path = Ok loaded <->
      trim_space path <> ""
      /\ exists content q, fs_readFile fs (trim_space path) = ReadOk content
           /\ fs_yamlDecode fs content = Ok q /\ profile_ok q
           /\ loaded = MkLoadedProfile (trim_space path) (sha256_hex content) q
                         (fst (ValidateProfile q))).
Proof.
  assert (Hv : forall p, snd (ValidateProfile p) = None <-> profile_ok p).
  { clear p. intros p. unfold ValidateProfile, profile_ok. cbn [snd].
    transitivity (profile_failures p = []); [by destruct (profile_failures p)|].
    unfold profile_failures.
    pose proof (name_loop_nil sg_Name "stage" 0 [] (pf_Stages p)) as Hs.
    pose proof (name_loop_nil ga_Name "gate" 0 [] (pf_Gates p)) as Hg.
    pose proof (name_loop_declared sg_Name "stage" (pf_Stages p)) as Ds.
    pose proof (name_loop_declared ga_Name "gate" (pf_Gates p)) as Dg.
    destruct (name_loop sg_Name "stage" 0 [] (pf_Stages p)) as [sf sn].
    destruct (name_loop ga_Name "gate" 0 [] (pf_Gates p)) as [gf gn]. cbn [fst snd] in *.
    rewrite !app_nil_and, !when_nil, transition_loop_nil, stage_references_nil,
      permission_failures_nil, Hs, Hg, String.eqb_neq, Z.ltb_ge, !andb_false_iff,
      !negb_false_iff, !String.eqb_eq, String.eqb_neq.
    setoid_rewrite Ds. setoid_rewrite Dg.
    destruct (pf_ItemStates p), (pf_Stages p), (pf_Gates p),
      (vb_FreezeProfileHash (pf_VersionBinding p)); cbn [In];
      intuition (try done; try congruence). }
  split; [apply Hv|]. unfold LoadProfile.
  destruct (String.eqb_spec (trim_space path) "") as [E|E]; [by split; [|intros [? _]]|].
  split.
  - destruct (fs_readFile fs _) as [content| |]; [|done|done].
    destruct (fs_yamlDecode fs content) as [q|] eqn:Ey; [|done].
    pose proof (Hv q) as Hq. destruct (ValidateProfile q) as [ws [e|]] eqn:Eq; [done|].
    intros [= <-]. split; [done|]. exists content, q. rewrite Eq. split_and!; try done.
    by apply Hq.
  - intros (_ & content & q & -> & -> & Hq & ->). apply Hv in Hq.
    by destruct (ValidateProfile q) as [ws [e|]].
Qed.
