(* ===== verification/Workflow.v ===== *)
(** * Workflow versions and their stages

    [internal/project/workflow.go]: creating an authored workflow version,
    its skeleton of stage items, artifacts and links, and marking an item
    ready.  Reads that the code makes before it begins its transaction are made
    inside it here: transactions run one after the other. *)

From stdpp Require Import base list strings numbers.
From Stdlib Require Import ZArith Lia Ascii String.
From S2P Require Import Prelude GoString Sha256 Json Schema Tx Command History Worker.
From S2P Require Import FilePath RunOnce Profile.

(** ** Labels *)

Definition alnum (b : Z) : bool :=
  ((65 <=? b) && (b <=? 90)) || ((97 <=? b) && (b <=? 122)) || ((48 <=? b) && (b <=? 57)).

(** The pattern [^[A-Za-z0-9][A-Za-z0-9._-]{0,63}$] *)
Definition label_ok (label : string) : bool :=
  match bytes_of label with
  | [] => false
  | b :: rest =>
      alnum b && (Z.of_nat (List.length rest) <=? 63)
      && forallb (fun b => alnum b || (b =? 46) || (b =? 95) || (b =? 45)) rest
  end.

Definition ValidateWorkflowVersionLabel (label : string) : res error unit :=
  if label_ok label then Ok tt else Err ErrInvalidWorkflowVersionLabel.

(** ** The skeleton *)

Record stageSkeletonSpec := MkSkeleton {
  sk_Stage : string; sk_ItemType : string; sk_ArtifactType : string; sk_FileName : string;
  sk_Title : string; sk_Status : string }.

Definition authoredStageSkeleton : list stageSkeletonSpec :=
  [MkSkeleton "discussion" "discussion_package" "discussion" "discussion.md"
     "Discussion package" "draft";
   MkSkeleton "middle_layer" "middle_layer_ledger" "middle_layer" "middle-layer.yaml"
     "Middle-layer ledger" "blocked";
   MkSkeleton "changes" "change_ledger" "change" "changes.yaml" "Change ledger" "blocked";
   MkSkeleton "plans" "plan" "plan" "plan.md" "Plan draft" "blocked";
   MkSkeleton "drafts" "draft_manifest" "manifest" "drafts-manifest.yaml" "Draft manifest"
     "blocked";
   MkSkeleton "drafts" "draft_copy" "draft_copy" "copy-ready.md" "Copy-ready draft" "blocked";
   MkSkeleton "drafts" "draft_verify" "draft_verify" "verify-ready.md" "Verify-ready draft"
     "blocked";
   MkSkeleton "queue" "queue_candidate" "queue" "queue.yaml" "Queue candidate" "blocked";
   MkSkeleton "promotion_preview" "promotion_preview" "promotion_preview"
     "promotion-preview.yaml" "Promotion preview" "blocked"].

Record stageSkeletonLinkSpec := MkSkeletonLink {
  kl_FromStage : string; kl_FromItemType : string; kl_ToStage : string;
  kl_ToItemType : string; kl_RelationType : string }.

Definition authoredStageSkeletonLinks : list stageSkeletonLinkSpec :=
  [MkSkeletonLink "discussion" "discussion_package" "middle_layer" "middle_layer_ledger"
     "derives_from";
   MkSkeletonLink "middle_layer" "middle_layer_ledger" "changes" "change_ledger" "derives_from";
   MkSkeletonLink "changes" "change_ledger" "plans" "plan" "derives_from";
   MkSkeletonLink "plans" "plan" "drafts" "draft_manifest" "derives_from";
   MkSkeletonLink "drafts" "draft_manifest" "drafts" "draft_copy" "derives_from";
   MkSkeletonLink "drafts" "draft_manifest" "drafts" "draft_verify" "derives_from";
   MkSkeletonLink "drafts" "draft_copy" "queue" "queue_candidate" "derives_from";
   MkSkeletonLink "drafts" "draft_verify" "queue" "queue_candidate" "derives_from";
   MkSkeletonLink "queue" "queue_candidate" "promotion_preview" "promotion_preview"
     "derives_from"].

(** ** Options and results *)

Record CreateWorkflowVersionOptions := MkCreateVersion {
  cv_DisplayLabel : string; cv_IdempotencyKey : string; cv_Actor : string; cv_Reason : string;
  cv_ProfileBinding : ProfileBinding }.

Record EnsureStageSkeletonOptions := MkEnsureSkeleton { es_Actor : string; es_Reason : string }.

Record MarkWorkflowItemReadyOptions := MkMarkReady {
  mr_Stage : string; mr_ItemType : string; mr_Actor : string; mr_Reason : string }.

Record CreateWorkflowVersionResult := MkCreateVersionResult {
  vr_Project : Record_; vr_Version : WorkflowVersion; vr_InitialItem : WorkflowItem;
  vr_StageItems : list WorkflowItem; vr_Created : bool; vr_IdempotencyKey : string }.

Record EnsureStageSkeletonResult := MkEnsureSkeletonResult {
  er_Project : Record_; er_Version : WorkflowVersion; er_Items : list WorkflowItem;
  er_Artifacts : list ArtifactRecord; er_Links : list WorkflowItemLink; er_Created : Z }.

Record MarkWorkflowItemReadyResult := MkMarkReadyResult {
  mk_Project : Record_; mk_Version : WorkflowVersion; mk_Item : WorkflowItem;
  mk_Artifact : ArtifactRecord }.

Definition normalizeCreateWorkflowVersionOptions (record : Record_)
    (o : CreateWorkflowVersionOptions) : CreateWorkflowVersionOptions :=
  let label := trim_space (cv_DisplayLabel o) in
  let key := trim_space (cv_IdempotencyKey o) in
  MkCreateVersion label
    (if key =s "" then "workflow.version.create:" +:+ p_Key record +:+ ":" +:+ label else key)
    (trim_default "local-user" (cv_Actor o))
    (trim_default "local CLI workflow version authoring" (cv_Reason o))
    (cv_ProfileBinding o).

Definition normalizeEnsureStageSkeletonOptions (o : EnsureStageSkeletonOptions)
  : EnsureStageSkeletonOptions :=
  MkEnsureSkeleton (trim_default "local-user" (es_Actor o))
    (trim_default "ensure AreaFlow stage skeleton" (es_Reason o)).

Definition normalizeMarkWorkflowItemReadyOptions (o : MarkWorkflowItemReadyOptions)
  : MarkWorkflowItemReadyOptions :=
  MkMarkReady (trim_space (mr_Stage o)) (trim_space (mr_ItemType o))
    (trim_default "local-user" (mr_Actor o))
    (trim_default "mark workflow item ready" (mr_Reason o)).

Definition profileBindingMetadata (b : ProfileBinding) : jmap :=
  mk [("profile_id", JStr (b_ProfileID b)); ("profile_version", JInt (b_ProfileVersion b));
      ("profile_hash", JStr (b_ProfileHash b)); ("profile_path", JStr (b_ProfilePath b))].

Definition workflowVersionRequestHash (record : Record_) (o : CreateWorkflowVersionOptions)
  : string :=
  request_hash
    [("command_type", JStr "workflow.version.create"); ("project_key", JStr (p_Key record));
     ("display_label", JStr (cv_DisplayLabel o)); ("version_kind", JStr "workflow_version");
     ("profile_binding", JObj (profileBindingMetadata (cv_ProfileBinding o)))].

(** ** Rows *)

Definition scanWorkflowVersion (v : WorkflowVersion) : WorkflowVersion :=
  MkVersion (v_ID v) (v_ProjectID v) (v_DisplayLabel v) (v_VersionKind v)
    (v_LifecycleStatus v) (v_SourcePath v) (v_SourceHash v) (v_ImportMode v) (v_Immutable v)
    (jmap_decode (v_StatusSummary v)) (v_CreatedAt v) (v_UpdatedAt v) (v_ImportedAt v).

Definition scanWorkflowItem (i : WorkflowItem) : WorkflowItem :=
  MkItem (i_ID i) (i_ProjectID i) (i_WorkflowVersionID i) (i_Stage i) (i_ItemType i)
    (i_ExternalKey i) (i_Title i) (i_Status i) (i_SourcePath i) (i_SourceHash i)
    (jmap_decode (i_Metadata i)) (i_Immutable i) (i_CreatedAt i) (i_UpdatedAt i)
    (i_ImportedAt i).

Definition scanWorkflowItemLink (k : WorkflowItemLink) : WorkflowItemLink :=
  MkItemLink (k_ID k) (k_ProjectID k) (k_WorkflowVersionID k) (k_FromItemID k) (k_ToItemID k)
    (k_RelationType k) (jmap_decode (k_Metadata k)) (k_CreatedAt k).

Definition version_is (projectID : Z) (label : string) (v : WorkflowVersion) : bool :=
  (v_ProjectID v =? projectID) && (v_DisplayLabel v =s label).

Definition GetWorkflowVersion (record : Record_) (label : string) : M WorkflowVersion :=
  lift (ValidateWorkflowVersionLabel label) ;;;
  rows <- select_rows (version_is (p_ID record) label) ;;
  v <- map_err (no_rows_to (ErrWorkflowVersionNotFound label)) (first_row rows) ;;
  ret (scanWorkflowVersion v).

(** The version of a command on an authored version *)
Definition authoredVersion (record : Record_) (label : string) : M WorkflowVersion :=
  version <- GetWorkflowVersion record label ;;
  if v_ImportMode version <>s "authored" then fail (ErrWorkflowVersionNotAuthored label)
  else ret version.

Definition workflowVersionLabelExists (projectID : Z) (label : string) : M bool :=
  rows <- select_rows (version_is projectID label) ;;
  ret (match rows with [] => false | _ => true end).

Definition item_key_is (projectID versionID : Z) (externalKey : string) (i : WorkflowItem)
  : bool :=
  (i_ProjectID i =? projectID) && (i_WorkflowVersionID i =? versionID)
  && (i_ExternalKey i =s externalKey).

Definition loadWorkflowItemByExternalKey (projectID versionID : Z) (externalKey : string)
  : M (option WorkflowItem) :=
  rows <- select_rows (item_key_is projectID versionID externalKey) ;;
  ret (match rows with [] => None | i :: _ => Some (scanWorkflowItem i) end).

Definition loadWorkflowItemByStageType (projectID versionID : Z) (stage itemType : string)
  : M (option WorkflowItem) :=
  rows <- select_rows (fun i => (i_ProjectID i =? projectID)
            && (i_WorkflowVersionID i =? versionID) && (i_Stage i =s stage)
            && (i_ItemType i =s itemType)) ;;
  ret (match rows with [] => None | i :: _ => Some (scanWorkflowItem i) end).

(** ORDER BY created_at ASC, id ASC *)
Definition item_before (a b : WorkflowItem) : bool :=
  (i_CreatedAt a <? i_CreatedAt b) || ((i_CreatedAt a =? i_CreatedAt b) && (i_ID a <? i_ID b)).

Definition ListWorkflowItems (record : Record_) (version : WorkflowVersion)
  : M (list WorkflowItem) :=
  rows <- select_rows (fun i => (i_ProjectID i =? p_ID record)
                                && (i_WorkflowVersionID i =? v_ID version)) ;;
  ret (List.map scanWorkflowItem (sort_stable item_before rows)).

(** LIMIT $3, after the default *)
Definition limit_rows {R} (fallback limit : Z) (rows : list R) : list R :=
  firstn (Z.to_nat (if limit <=? 0 then fallback else limit)) rows.

Definition version_before (a b : WorkflowVersion) : bool :=
  (v_CreatedAt a <? v_CreatedAt b) || ((v_CreatedAt a =? v_CreatedAt b) && (v_ID a <? v_ID b)).

Definition ListWorkflowVersions (record : Record_) : M (list WorkflowVersion) :=
  rows <- select_rows (fun v => v_ProjectID v =? p_ID record) ;;
  ret (List.map scanWorkflowVersion (sort_stable version_before rows)).

Definition link_before (a b : WorkflowItemLink) : bool :=
  (k_CreatedAt a <? k_CreatedAt b) || ((k_CreatedAt a =? k_CreatedAt b) && (k_ID a <? k_ID b)).

Definition listWorkflowItemLinksInTx (projectID versionID limit : Z)
  : M (list WorkflowItemLink) :=
  rows <- select_rows (fun k => (k_ProjectID k =? projectID)
                                && (k_WorkflowVersionID k =? versionID)) ;;
  ret (List.map scanWorkflowItemLink (limit_rows 100 limit (sort_stable link_before rows))).

Definition ListWorkflowItemLinks (record : Record_) (version : WorkflowVersion) (limit : Z)
  : M (list WorkflowItemLink) :=
  listWorkflowItemLinksInTx (p_ID record) (v_ID version) limit.

Definition listWorkflowItemsInTx (projectID versionID : Z) (excludeStage : string)
  : M (list WorkflowItem) :=
  rows <- select_rows (fun i => (i_ProjectID i =? projectID)
            && (i_WorkflowVersionID i =? versionID) && (i_Stage i <>s excludeStage)) ;;
  ret (List.map scanWorkflowItem (sort_stable item_before rows)).

(** ** Inserts

    The unique indexes on (project, label) and (project, version, external
    key) refuse a second row; a NULL text column reads as [""]. *)

Definition insertAuthoredWorkflowVersion (env : Env) (projectID : Z)
    (o : CreateWorkflowVersionOptions) : M WorkflowVersion :=
  same <- select_rows (version_is projectID (cv_DisplayLabel o)) ;;
  match same with
  | [] =>
      v <- insert_row (fun id =>
             MkVersion id projectID (cv_DisplayLabel o) "workflow_version" "draft" "" ""
               "authored" false
               (mk [("authoring", JBool true); ("phase", JStr "v0.3a");
                    ("owned_by", JStr "areaflow");
                    ("profile_binding", JObj (profileBindingMetadata (cv_ProfileBinding o)))])
               (env_now env) (env_now env) None) ;;
      ret (scanWorkflowVersion v)
  | _ :: _ => fail (ErrUniqueViolation "workflow_versions_project_label_idx")
  end.

Definition insert_item (env : Env) (projectID versionID : Z)
    (stage itemType externalKey title status : string) (metadata : jmap) : M WorkflowItem :=
  same <- select_rows (item_key_is projectID versionID externalKey) ;;
  match same with
  | [] =>
      i <- insert_row (fun id =>
             MkItem id projectID versionID stage itemType externalKey title status "" ""
               metadata false (env_now env) (env_now env) None) ;;
      ret (scanWorkflowItem i)
  | _ :: _ => fail (ErrUniqueViolation "workflow_items_external_key_idx")
  end.

Definition insertVersionInitItem (env : Env) (versionID projectID : Z)
    (o : CreateWorkflowVersionOptions) : M WorkflowItem :=
  insert_item env projectID versionID "version_init" "workflow_version_candidate"
    (cv_DisplayLabel o +:+ ":version_init") (cv_DisplayLabel o +:+ " workflow version candidate")
    "draft"
    (mk [("phase", JStr "v0.3a"); ("owned_by", JStr "areaflow");
         ("idempotency_key", JStr (cv_IdempotencyKey o)); ("actor", JStr (cv_Actor o));
         ("reason", JStr (cv_Reason o));
         ("profile_binding", JObj (profileBindingMetadata (cv_ProfileBinding o)))]).

Definition blockedUntil (stage : string) : string :=
  if stage =s "discussion" then "" else "upstream gate pass".

Definition insertStageSkeletonItem (env : Env) (projectID : Z) (version : WorkflowVersion)
    (spec : stageSkeletonSpec) (externalKey : string) (o : EnsureStageSkeletonOptions)
  : M WorkflowItem :=
  insert_item env projectID (v_ID version) (sk_Stage spec) (sk_ItemType spec) externalKey
    (sk_Title spec) (sk_Status spec)
    (mk [("phase", JStr "v0.3b"); ("owned_by", JStr "areaflow");
         ("artifact", JStr (sk_FileName spec)); ("actor", JStr (es_Actor o));
         ("reason", JStr (es_Reason o)); ("blocked_until", JStr (blockedUntil (sk_Stage spec)))]).

(** ** Artifacts *)

Definition contentTypeForArtifact (fileName : string) : string :=
  if has_suffix ".yaml" fileName || has_suffix ".yml" fileName then "application/yaml"
  else if has_suffix ".json" fileName then "application/json"
  else "text/markdown".

Definition stageArtifactContent (record : Record_) (version : WorkflowVersion)
    (spec : stageSkeletonSpec) (o : EnsureStageSkeletonOptions) : string :=
  strings_join newline
    ["# " +:+ sk_Title spec; ""; "project: " +:+ p_Key record;
     "workflow_version: " +:+ v_DisplayLabel version; "stage: " +:+ sk_Stage spec;
     "item_type: " +:+ sk_ItemType spec; "status: " +:+ sk_Status spec; "owner: areaflow";
     "phase: v0.3b"; "actor: " +:+ es_Actor o; "reason: " +:+ es_Reason o; "";
     "This AreaFlow-owned placeholder is stored in the AreaFlow artifact store.";
     "It is not written into the managed project."; ""].

Definition insertArtifactRecord (env : Env) (projectID versionID itemID : Z)
    (artifactType sourcePath : string) (st : Stored) (metadata : jmap) : M ArtifactRecord :=
  a <- insert_row (fun id =>
         MkArtifact id projectID versionID 0 itemID artifactType (s_Backend st) (s_URI st)
           sourcePath (s_SHA256 st) (s_SizeBytes st) (s_ContentType st) metadata
           (env_now env)) ;;
  ret (scanArtifactRecord a).

Definition writeAndInsertStageArtifact (env : Env) (record : Record_)
    (version : WorkflowVersion) (item : WorkflowItem) (spec : stageSkeletonSpec)
    (o : EnsureStageSkeletonOptions) : M ArtifactRecord :=
  let relativePath := path_join [v_DisplayLabel version; sk_Stage spec; sk_FileName spec] in
  st <- writeProjectArtifact env record relativePath
          (stageArtifactContent record version spec o)
          (contentTypeForArtifact (sk_FileName spec)) ;;
  insertArtifactRecord env (p_ID record) (v_ID version) (i_ID item) (sk_ArtifactType spec)
    relativePath st
    (mk [("phase", JStr "v0.3b"); ("owned_by", JStr "areaflow"); ("stage", JStr (sk_Stage spec));
         ("item_type", JStr (sk_ItemType spec));
         ("display_label", JStr (v_DisplayLabel version))]).

(** ** Links *)

Definition skeletonItemKey (stage itemType : string) : string := stage +:+ ":" +:+ itemType.

Definition skeletonLinkID (spec : stageSkeletonLinkSpec) : string :=
  skeletonItemKey (kl_FromStage spec) (kl_FromItemType spec) +:+ "->"
  +:+ skeletonItemKey (kl_ToStage spec) (kl_ToItemType spec).

Definition external_key (version : WorkflowVersion) (stage itemType : string) : string :=
  v_DisplayLabel version +:+ ":" +:+ stage +:+ ":" +:+ itemType.

Definition link_is (projectID versionID fromItemID toItemID : Z) (relationType : string)
    (k : WorkflowItemLink) : bool :=
  (k_ProjectID k =? projectID) && (k_WorkflowVersionID k =? versionID)
  && (k_FromItemID k =? fromItemID) && (k_ToItemID k =? toItemID)
  && (k_RelationType k =s relationType).

(** ON CONFLICT DO UPDATE SET metadata = workflow_item_links.metadata: an
    existing link is returned as it is. *)
Definition insertWorkflowItemLink (env : Env) (projectID versionID fromItemID toItemID : Z)
    (relationType : string) (metadata : jmap) : M WorkflowItemLink :=
  same <- select_rows (link_is projectID versionID fromItemID toItemID relationType) ;;
  match same with
  | [] =>
      k <- insert_row (fun id =>
             MkItemLink id projectID versionID fromItemID toItemID relationType metadata
               (env_now env)) ;;
      ret (scanWorkflowItemLink k)
  | k :: _ => ret (scanWorkflowItemLink k)
  end.

(** The map [items], by skeleton key *)
Fixpoint loadStageSkeletonItems (projectID : Z) (version : WorkflowVersion)
    (specs : list stageSkeletonSpec) : M (list (string * WorkflowItem)) :=
  match specs with
  | [] => ret []
  | spec :: rest =>
      let externalKey := external_key version (sk_Stage spec) (sk_ItemType spec) in
      found <- loadWorkflowItemByExternalKey projectID (v_ID version) externalKey ;;
      match found with
      | None => fail (ErrText ("stage skeleton item missing: " +:+ externalKey))
      | Some item =>
          items <- loadStageSkeletonItems projectID version rest ;;
          ret ((skeletonItemKey (sk_Stage spec) (sk_ItemType spec), item) :: items)
      end
  end.

Definition skeleton_item (items : list (string * WorkflowItem)) (key : string)
  : option WorkflowItem :=
  match List.find (fun kv => fst kv =s key) items with Some (_, i) => Some i | None => None end.

Fixpoint skeleton_link_loop (env : Env) (projectID : Z) (version : WorkflowVersion)
    (o : EnsureStageSkeletonOptions) (items : list (string * WorkflowItem))
    (specs : list stageSkeletonLinkSpec) : M (list WorkflowItemLink) :=
  match specs with
  | [] => ret []
  | spec :: rest =>
      match skeleton_item items (skeletonItemKey (kl_FromStage spec) (kl_FromItemType spec)),
            skeleton_item items (skeletonItemKey (kl_ToStage spec) (kl_ToItemType spec)) with
      | Some from, Some to =>
          link <- insertWorkflowItemLink env projectID (v_ID version) (i_ID from) (i_ID to)
                    (kl_RelationType spec)
                    (mk [("phase", JStr "v0.3-link"); ("owned_by", JStr "areaflow");
                         ("source", JStr "stage_skeleton"); ("actor", JStr (es_Actor o));
                         ("reason", JStr (es_Reason o)); ("from_stage", JStr (kl_FromStage spec));
                         ("to_stage", JStr (kl_ToStage spec));
                         ("from_type", JStr (kl_FromItemType spec));
                         ("to_type", JStr (kl_ToItemType spec));
                         ("relation_id", JStr (skeletonLinkID spec))]) ;;
          links <- skeleton_link_loop env projectID version o items rest ;;
          ret (link :: links)
      | _, _ =>
          fail (ErrText ("stage skeleton link missing item " +:+ kl_FromStage spec +:+ "/"
                  +:+ kl_FromItemType spec +:+ " -> " +:+ kl_ToStage spec +:+ "/"
                  +:+ kl_ToItemType spec))
      end
  end.

Definition ensureStageSkeletonLinks (env : Env) (projectID : Z) (version : WorkflowVersion)
    (o : EnsureStageSkeletonOptions) : M (list WorkflowItemLink) :=
  items <- loadStageSkeletonItems projectID version authoredStageSkeleton ;;
  skeleton_link_loop env projectID version o items authoredStageSkeletonLinks.

(** The loop over the skeleton: items that exist are skipped. *)
Fixpoint skeleton_item_loop (env : Env) (record : Record_) (version : WorkflowVersion)
    (o : EnsureStageSkeletonOptions) (specs : list stageSkeletonSpec)
  : M (list WorkflowItem * list ArtifactRecord) :=
  match specs with
  | [] => ret ([], [])
  | spec :: rest =>
      let externalKey := external_key version (sk_Stage spec) (sk_ItemType spec) in
      found <- loadWorkflowItemByExternalKey (p_ID record) (v_ID version) externalKey ;;
      match found with
      | Some _ => skeleton_item_loop env record version o rest
      | None =>
          item <- insertStageSkeletonItem env (p_ID record) version spec externalKey o ;;
          artifact <- writeAndInsertStageArtifact env record version item spec o ;;
          more <- skeleton_item_loop env record version o rest ;;
          ret (item :: fst more, artifact :: snd more)
      end
  end.

Definition ensureStageSkeletonInTx (env : Env) (record : Record_) (version : WorkflowVersion)
    (o : EnsureStageSkeletonOptions)
  : M (list WorkflowItem * list ArtifactRecord * list WorkflowItemLink) :=
  created <- skeleton_item_loop env record version o authoredStageSkeleton ;;
  links <- ensureStageSkeletonLinks env (p_ID record) version o ;;
  ret (fst created, snd created, links).

(** ** History of a version *)

Definition insertWorkflowVersionCreatedEvent (env : Env) (version : WorkflowVersion)
    (item : WorkflowItem) (o : CreateWorkflowVersionOptions) : M unit :=
  insert_row (fun id =>
    MkEvent id (v_ProjectID version) 0 (v_ID version) "workflow.version.created" "info"
      "Workflow version candidate created"
      (mk [("display_label", JStr (v_DisplayLabel version));
           ("workflow_version_id", JInt (v_ID version)); ("workflow_item_id", JInt (i_ID item));
           ("initial_stage", JStr (i_Stage item)); ("actor", JStr (cv_Actor o));
           ("reason", JStr (cv_Reason o));
           ("profile_binding", JObj (profileBindingMetadata (cv_ProfileBinding o)))])
      (env_now env)) ;;;
  ret tt.

Definition insertWorkflowVersionAuditEvent (env : Env) (record : Record_)
    (version : WorkflowVersion) (item : WorkflowItem) (o : CreateWorkflowVersionOptions)
  : M unit :=
  insert_row (fun id =>
    MkAudit id (p_ID record) 0 "workflow.version.create" "" "workflow_version"
      (v_DisplayLabel version) "allowed" (cv_Reason o)
      (mk [("display_label", JStr (v_DisplayLabel version));
           ("workflow_version_id", JInt (v_ID version)); ("workflow_item_id", JInt (i_ID item));
           ("import_mode", JStr (v_ImportMode version)); ("actor", JStr (cv_Actor o));
           ("idempotency_key", JStr (cv_IdempotencyKey o));
           ("profile_binding", JObj (profileBindingMetadata (cv_ProfileBinding o)))])
      (env_now env)) ;;;
  ret tt.

Definition recordStageSkeletonEvent (env : Env) (record : Record_) (version : WorkflowVersion)
    (created : Z) (o : EnsureStageSkeletonOptions) : M unit :=
  if created =? 0 then ret tt
  else
    let metadata :=
      mk [("display_label", JStr (v_DisplayLabel version));
          ("workflow_version_id", JInt (v_ID version)); ("created_items", JInt created);
          ("actor", JStr (es_Actor o)); ("reason", JStr (es_Reason o))] in
    insert_row (fun id =>
      MkEvent id (p_ID record) 0 (v_ID version) "workflow.stage_skeleton.created" "info"
        "Workflow stage skeleton created" metadata (env_now env)) ;;;
    insert_row (fun id =>
      MkAudit id (p_ID record) 0 "workflow.stage_skeleton.create" "" "workflow_version"
        (v_DisplayLabel version) "allowed" (es_Reason o) metadata (env_now env)) ;;;
    ret tt.

Definition completeCommandRequest (env : Env) (projectID : Z)
    (commandType idempotencyKey : string) (version : WorkflowVersion) (item : WorkflowItem)
  : M unit :=
  completeCommandRequestResponse env projectID commandType idempotencyKey
    (mk [("workflow_version_id", JInt (v_ID version));
         ("display_label", JStr (v_DisplayLabel version)); ("workflow_item_id", JInt (i_ID item));
         ("initial_stage", JStr (i_Stage item))]).

(** ** Creating a version *)

(** ORDER BY id ASC LIMIT 1 *)
Definition item_id_before (a b : WorkflowItem) : bool := i_ID a <? i_ID b.

Definition loadWorkflowVersionCreation (record : Record_) (label : string)
  : M CreateWorkflowVersionResult :=
  versions <- select_rows (version_is (p_ID record) label) ;;
  v <- map_err (no_rows_to (ErrWorkflowVersionNotFound label)) (first_row versions) ;;
  inits <- select_rows (fun i => (i_ProjectID i =? p_ID record)
             && (i_WorkflowVersionID i =? v_ID v) && (i_Stage i =s "version_init")) ;;
  item <- map_err (no_rows_to (ErrWorkflowVersionNotFound label))
            (first_row (sort_stable item_id_before inits)) ;;
  stageItems <- listWorkflowItemsInTx (p_ID record) (v_ID v) "version_init" ;;
  ret (MkCreateVersionResult record (scanWorkflowVersion v) (scanWorkflowItem item) stageItems
         false "").

Definition skeleton_options (o : CreateWorkflowVersionOptions) : EnsureStageSkeletonOptions :=
  MkEnsureSkeleton (cv_Actor o) (cv_Reason o).

Definition createVersionBody (env : Env) (record : Record_) (o : CreateWorkflowVersionOptions)
  : M (res error CreateWorkflowVersionResult) :=
  exists_ <- workflowVersionLabelExists (p_ID record) (cv_DisplayLabel o) ;;
  if exists_ : bool then fail (ErrWorkflowVersionExists (cv_DisplayLabel o))
  else
    version <- insertAuthoredWorkflowVersion env (p_ID record) o ;;
    item <- insertVersionInitItem env (v_ID version) (p_ID record) o ;;
    skeleton <- ensureStageSkeletonInTx env record version (skeleton_options o) ;;
    let stageItems := fst (fst skeleton) in
    insertWorkflowVersionCreatedEvent env version item o ;;;
    insertWorkflowVersionAuditEvent env record version item o ;;;
    recordStageSkeletonEvent env record version (Z.of_nat (List.length stageItems))
      (skeleton_options o) ;;;
    completeCommandRequest env (p_ID record) "workflow.version.create" (cv_IdempotencyKey o)
      version item ;;;
    ret (Ok (MkCreateVersionResult record version item stageItems true (cv_IdempotencyKey o))).

Definition set_creation_key (key : string) (r : CreateWorkflowVersionResult)
  : CreateWorkflowVersionResult :=
  MkCreateVersionResult (vr_Project r) (vr_Version r) (vr_InitialItem r) (vr_StageItems r)
    (vr_Created r) key.

Definition replayCreation (record : Record_) (o : CreateWorkflowVersionOptions)
  : M (res error CreateWorkflowVersionResult) :=
  result <- loadWorkflowVersionCreation record (cv_DisplayLabel o) ;;
  ret (Ok (set_creation_key (cv_IdempotencyKey o) result)).

(** The options with the binding they leave open *)
Definition bind_profile (fs : ProfileFS) (record : Record_) (o : CreateWorkflowVersionOptions)
  : res error CreateWorkflowVersionOptions :=
  if b_ProfileID (cv_ProfileBinding o) =s "" then
    match loadProfileBinding fs (p_WorkflowProfile record) with
    | Err e => Err (ErrText e)
    | Ok binding =>
        Ok (MkCreateVersion (cv_DisplayLabel o) (cv_IdempotencyKey o) (cv_Actor o)
              (cv_Reason o) binding)
    end
  else Ok o.

Definition CreateWorkflowVersion (env : Env) (fs : ProfileFS) (record : Record_)
    (options : CreateWorkflowVersionOptions) (w : World)
  : res error CreateWorkflowVersionResult * World :=
  let o := normalizeCreateWorkflowVersionOptions record options in
  match ValidateWorkflowVersionLabel (cv_DisplayLabel o) with
  | Err e => (Err e, w)
  | Ok _ =>
      match bind_profile fs record o with
      | Err e => (Err e, w)
      | Ok o =>
          transact (with_command env (p_ID record) "workflow.version.create"
                      (cv_IdempotencyKey o) (workflowVersionRequestHash record o)
                      (replayCreation record o) (createVersionBody env record o)) w
      end
  end.

(** ** Completing the skeleton *)

Definition ensureSkeletonBody (env : Env) (record : Record_) (label : string)
    (o : EnsureStageSkeletonOptions) : M (res error EnsureStageSkeletonResult) :=
  version <- authoredVersion record label ;;
  skeleton <- ensureStageSkeletonInTx env record version o ;;
  let items := fst (fst skeleton) in
  recordStageSkeletonEvent env record version (Z.of_nat (List.length items)) o ;;;
  ret (Ok (MkEnsureSkeletonResult record version items (snd (fst skeleton)) (snd skeleton)
             (Z.of_nat (List.length items)))).

Definition EnsureStageSkeleton (env : Env) (record : Record_) (label : string)
    (options : EnsureStageSkeletonOptions) (w : World)
  : res error EnsureStageSkeletonResult * World :=
  transact (ensureSkeletonBody env record label (normalizeEnsureStageSkeletonOptions options)) w.

(** ** Marking an item ready *)

Definition ready_marker_content (record : Record_) (version : WorkflowVersion)
    (item : WorkflowItem) (o : MarkWorkflowItemReadyOptions) : string :=
  marshal_indent (JObj (mk
    [("kind", JStr "workflow_item_ready_marker"); ("project", JStr (p_Key record));
     ("display_label", JStr (v_DisplayLabel version)); ("stage", JStr (i_Stage item));
     ("item_type", JStr (i_ItemType item)); ("external_key", JStr (i_ExternalKey item));
     ("actor", JStr (mr_Actor o)); ("reason", JStr (mr_Reason o));
     ("phase", JStr "v0.4-ready-path"); ("read_only", JBool true)])) +:+ newline.

Definition ready_marker_path (version : WorkflowVersion) (item : WorkflowItem) : string :=
  path_join [v_DisplayLabel version; i_Stage item; i_ItemType item +:+ "-ready.json"].

Definition writeAndInsertReadyMarkerArtifact (env : Env) (record : Record_)
    (version : WorkflowVersion) (item : WorkflowItem) (o : MarkWorkflowItemReadyOptions)
  : M ArtifactRecord :=
  let relativePath := ready_marker_path version item in
  st <- writeProjectArtifact env record relativePath (ready_marker_content record version item o)
          "application/json" ;;
  insertArtifactRecord env (p_ID record) (v_ID version) (i_ID item)
    "workflow_item_ready_marker" relativePath st
    (mk [("phase", JStr "v0.4-ready-path"); ("owned_by", JStr "areaflow");
         ("stage", JStr (i_Stage item)); ("item_type", JStr (i_ItemType item));
         ("display_label", JStr (v_DisplayLabel version)); ("read_only", JBool true)]).

(** The metadata of an item that is ready: [delete(metadata, "blocked_until")] *)
Definition ready_metadata (item : WorkflowItem) (artifact : ArtifactRecord)
    (o : MarkWorkflowItemReadyOptions) : jmap :=
  List.filter (fun kv => fst kv <>s "blocked_until")
    (mset_all [("ready_actor", JStr (mr_Actor o)); ("ready_reason", JStr (mr_Reason o));
               ("ready_artifact_id", JInt (ar_ID artifact));
               ("ready_artifact_type", JStr (ar_ArtifactType artifact));
               ("ready_phase", JStr "v0.4-ready-path"); ("read_only", JBool true)]
       (mk (i_Metadata item))).

Definition item_ready (env : Env) (artifact : ArtifactRecord) (metadata : jmap)
    (i : WorkflowItem) : WorkflowItem :=
  MkItem (i_ID i) (i_ProjectID i) (i_WorkflowVersionID i) (i_Stage i) (i_ItemType i)
    (i_ExternalKey i) (i_Title i) "ready" (ar_SourcePath artifact) (ar_SHA256 artifact)
    metadata (i_Immutable i) (i_CreatedAt i) (env_now env) (i_ImportedAt i).

Definition updateWorkflowItemReady (env : Env) (item : WorkflowItem) (artifact : ArtifactRecord)
    (o : MarkWorkflowItemReadyOptions) : M WorkflowItem :=
  rows <- update_rows (fun i => i_ID i =? i_ID item)
            (item_ready env artifact (ready_metadata item artifact o)) ;;
  i <- first_row rows ;;
  ret (scanWorkflowItem i).

Definition ready_fields (version : WorkflowVersion) (item : WorkflowItem)
    (artifact : ArtifactRecord) (o : MarkWorkflowItemReadyOptions) : jmap :=
  [("display_label", JStr (v_DisplayLabel version)); ("workflow_version_id", JInt (v_ID version));
   ("workflow_item_id", JInt (i_ID item)); ("stage", JStr (i_Stage item));
   ("item_type", JStr (i_ItemType item)); ("artifact_id", JInt (ar_ID artifact));
   ("source_hash", JStr (i_SourceHash item)); ("actor", JStr (mr_Actor o));
   ("read_only", JBool true)].

Definition insertWorkflowItemReadyEvent (env : Env) (record : Record_)
    (version : WorkflowVersion) (item : WorkflowItem) (artifact : ArtifactRecord)
    (o : MarkWorkflowItemReadyOptions) : M unit :=
  insert_row (fun id =>
    MkEvent id (p_ID record) 0 (v_ID version) "workflow.item.ready_marked" "info"
      "Workflow item marked ready"
      (mk (ready_fields version item artifact o ++ [("reason", JStr (mr_Reason o))]))
      (env_now env)) ;;;
  ret tt.

Definition insertWorkflowItemReadyAuditEvent (env : Env) (record : Record_)
    (version : WorkflowVersion) (item : WorkflowItem) (artifact : ArtifactRecord)
    (o : MarkWorkflowItemReadyOptions) : M unit :=
  insert_row (fun id =>
    MkAudit id (p_ID record) 0 "workflow.item.mark_ready" "" "workflow_item"
      (i_ExternalKey item) "allowed" (mr_Reason o) (mk (ready_fields version item artifact o))
      (env_now env)) ;;;
  ret tt.

Definition markReadyBody (env : Env) (record : Record_) (label : string)
    (o : MarkWorkflowItemReadyOptions) : M (res error MarkWorkflowItemReadyResult) :=
  if (mr_Stage o =s "") || (mr_ItemType o =s "")
  then fail (ErrText "stage and item type are required")
  else
    version <- authoredVersion record label ;;
    found <- loadWorkflowItemByStageType (p_ID record) (v_ID version) (mr_Stage o)
               (mr_ItemType o) ;;
    match found with
    | None => fail (ErrText ("workflow item not found: " +:+ mr_Stage o +:+ "/"
                      +:+ mr_ItemType o))
    | Some item =>
        artifact <- writeAndInsertReadyMarkerArtifact env record version item o ;;
        item <- updateWorkflowItemReady env item artifact o ;;
        insertWorkflowItemReadyEvent env record version item artifact o ;;;
        insertWorkflowItemReadyAuditEvent env record version item artifact o ;;;
        ret (Ok (MkMarkReadyResult record version item artifact))
    end.

Definition MarkWorkflowItemReady (env : Env) (record : Record_) (label : string)
    (options : MarkWorkflowItemReadyOptions) (w : World)
  : res error MarkWorkflowItemReadyResult * World :=
  transact (markReadyBody env record label (normalizeMarkWorkflowItemReadyOptions options)) w.
