(* ===== verification/Gates.v ===== *)
(** * Gates, transition previews and approvals

    [internal/project/workflow.go]: RunWorkflowGate with the gates it can run,
    PreviewWorkflowTransition and CreateApprovalRecord.  Gate results, previews
    and approvals are facts: they are inserted and never changed. *)

From stdpp Require Import base list strings numbers.
From Stdlib Require Import ZArith Lia String.
From S2P Require Import Prelude GoString Sha256 Json Schema Tx Command History Worker.
From S2P Require Import FilePath RunOnce Profile Workflow.

(** ** Gate specifications *)

Record workflowGateRequiredItem := MkRequiredItem {
  ri_Stage : string; ri_ItemType : string; ri_Name : string }.

Record workflowGateSpec := MkGateSpec {
  gs_GateName : string; gs_Phase : string; gs_ScopeType : string; gs_TargetStage : string;
  gs_TargetItem : string; gs_RequiredItems : list workflowGateRequiredItem;
  gs_PlaceholderFailure : string }.

Definition workflowGateSpecs : list workflowGateSpec :=
  let ledger := MkRequiredItem "middle_layer" "middle_layer_ledger" "middle_layer ledger" in
  let changes := MkRequiredItem "changes" "change_ledger" "changes ledger" in
  let plan := MkRequiredItem "plans" "plan" "plan draft" in
  let manifest := MkRequiredItem "drafts" "draft_manifest" "draft manifest" in
  let copy := MkRequiredItem "drafts" "draft_copy" "copy-ready draft" in
  let verify := MkRequiredItem "drafts" "draft_verify" "verify-ready draft" in
  let queue := MkRequiredItem "queue" "queue_candidate" "queue candidate" in
  [MkGateSpec "discussion_gate" "v0.3c" "workflow_version" "discussion" "discussion_package"
     [MkRequiredItem "discussion" "discussion_package" "discussion package"; ledger; changes]
     "discussion artifact is placeholder-only; Exact Docs, open questions, and risk boundaries are not proven yet";
   MkGateSpec "plan_doctor" "v0.3c" "workflow_version" "plans" "plan" [ledger; changes; plan]
     "plan artifact is placeholder-only; dependencies, ordered steps, validation, and rollback wording are not proven yet";
   MkGateSpec "draft_doctor" "v0.3c" "workflow_version" "drafts" "draft_manifest"
     [plan; manifest; copy; verify]
     "draft artifacts are placeholder-only; copy-ready, verify-ready, and manifest boundaries are not proven yet";
   MkGateSpec "queue_doctor" "v0.3c" "workflow_version" "queue" "queue_candidate"
     [manifest; copy; verify; queue]
     "queue artifact is placeholder-only; labels, dependencies, readiness, and ordering are not proven yet";
   MkGateSpec "promotion_preview" "v0.3c" "workflow_version" "promotion_preview"
     "promotion_preview"
     [queue; MkRequiredItem "promotion_preview" "promotion_preview" "promotion preview"]
     "promotion preview artifact is placeholder-only; live mapping, collision checks, and scope checks are not proven yet";
   MkGateSpec "approval_gate" "v0.4" "workflow_version" "approval" "approval_record" [] "";
   MkGateSpec "live_mapping_gate" "v0.4" "workflow_version" "approval" "live_mapping" [] "";
   MkGateSpec "cutover_readiness_gate" "v0.4c" "workflow_version" "approval"
     "cutover_readiness" [] "";
   MkGateSpec "profile_binding_drift" "v0.4" "workflow_version" "version_init"
     "profile_binding" [] ""].

Definition gate_spec (name : string) : option workflowGateSpec :=
  List.find (fun s => gs_GateName s =s name) workflowGateSpecs.

(** ** Options *)

Record RunGateOptions := MkRunGate {
  rg_GateName : string; rg_Actor : string; rg_Reason : string; rg_IdempotencyKey : string }.

Record PreviewTransitionOptions := MkPreviewTransition {
  po_FromStage : string; po_ToStage : string; po_Actor : string; po_Reason : string;
  po_IdempotencyKey : string }.

Record CreateApprovalOptions := MkCreateApproval {
  ca_Decision : string; ca_ApprovalKind : string; ca_Actor : string; ca_Reason : string;
  ca_RiskLevel : string; ca_IdempotencyKey : string; ca_TransitionPreviewID : Z;
  ca_Metadata : option jmap }.

(** The key of a gate run is not trimmed. *)
Definition normalizeRunGateOptions (o : RunGateOptions) : RunGateOptions :=
  MkRunGate (trim_default "discussion_gate" (rg_GateName o))
    (trim_default "local-user" (rg_Actor o)) (trim_default "run workflow gate" (rg_Reason o))
    (rg_IdempotencyKey o).

Definition normalizePreviewTransitionOptions (o : PreviewTransitionOptions)
  : PreviewTransitionOptions :=
  MkPreviewTransition (trim_default "promotion_preview" (po_FromStage o))
    (trim_default "approval" (po_ToStage o)) (trim_default "local-user" (po_Actor o))
    (trim_default "preview workflow transition" (po_Reason o)) (po_IdempotencyKey o).

Definition normalizeCreateApprovalOptions (o : CreateApprovalOptions) : CreateApprovalOptions :=
  MkCreateApproval (trim_default "approved" (ca_Decision o))
    (trim_default "workflow_transition" (ca_ApprovalKind o))
    (trim_default "local-user" (ca_Actor o))
    (trim_default "explicit workflow approval" (ca_Reason o))
    (trim_default "normal" (ca_RiskLevel o)) (trim_space (ca_IdempotencyKey o))
    (ca_TransitionPreviewID o) (Some (map_or_empty (ca_Metadata o))).

Definition highRiskApproval (riskLevel : string) : bool :=
  let r := to_lower (trim_space riskLevel) in
  (r =s "high") || (r =s "critical") || (r =s "l4").

(** [strings.EqualFold] on ASCII *)
Definition sameActor (approver : string) (requester : option json) : bool :=
  match requester with
  | Some (JStr name) =>
      (name <>s "") && (to_lower (trim_space approver) =s to_lower (trim_space name))
  | _ => false
  end.

(** [shortSHA256Hex] *)
Definition shortSHA256Hex (payload : string) : string := str_take 16 (sha256_hex payload).

(** ** Rows *)

Definition scanGateResult (g : GateResult) : GateResult :=
  MkGateResult (g_ID g) (g_ProjectID g) (g_WorkflowVersionID g) (g_WorkflowItemID g)
    (g_GateName g) (g_ScopeType g) (g_ScopeID g) (g_Status g) (jmap_decode (g_Inputs g))
    (jmap_decode (g_SourceHashes g)) (g_Failures g) (g_Warnings g) (g_EvidenceArtifactIDs g)
    (jmap_decode (g_Metadata g)) (g_CheckedAt g).

Definition scanTransitionPreview (p : WorkflowTransitionPreview) : WorkflowTransitionPreview :=
  MkPreview (tp_ID p) (tp_ProjectID p) (tp_WorkflowVersionID p) (tp_FromStage p) (tp_ToStage p)
    (tp_Status p) (tp_RequiredGateName p) (tp_GateResultID p) (tp_Blockers p) (tp_Warnings p)
    (jmap_decode (tp_Metadata p)) (tp_CreatedAt p).

Definition scanApprovalRecord (a : ApprovalRecord) : ApprovalRecord :=
  MkApproval (ap_ID a) (ap_ProjectID a) (ap_WorkflowVersionID a) (ap_TransitionPreviewID a)
    (ap_ApprovalKind a) (ap_Decision a) (ap_ScopeType a) (ap_ScopeID a) (ap_Actor a)
    (ap_Reason a) (ap_RiskLevel a) (jmap_decode (ap_Metadata a)) (ap_CreatedAt a).

(** ORDER BY time DESC, id DESC LIMIT 1 *)
Definition later {R} (time id : R -> Z) (a b : R) : bool :=
  (time b <? time a) || ((time a =? time b) && (id b <? id a)).

Definition latest {R} (time id : R -> Z) (rows : list R) : option R :=
  match sort_stable (later time id) rows with [] => None | r :: _ => Some r end.

Definition latestGateResult (projectID versionID : Z) (gateName : string)
  : M (option GateResult) :=
  rows <- select_rows (fun g => (g_ProjectID g =? projectID)
            && (g_WorkflowVersionID g =? versionID) && (g_GateName g =s gateName)) ;;
  ret (scanGateResult <$> latest g_CheckedAt g_ID rows).

Definition resolveApprovalTransitionPreview (projectID versionID previewID : Z)
  : M (option WorkflowTransitionPreview) :=
  rows <- select_rows (fun p => (tp_ProjectID p =? projectID)
            && (tp_WorkflowVersionID p =? versionID)
            && ((previewID =? 0) || (tp_ID p =? previewID))) ;;
  ret (scanTransitionPreview <$> latest tp_CreatedAt tp_ID rows).

Definition ListGateResults (record : Record_) (version : WorkflowVersion) (limit : Z)
  : M (list GateResult) :=
  rows <- select_rows (fun g => (g_ProjectID g =? p_ID record)
                                && (g_WorkflowVersionID g =? v_ID version)) ;;
  ret (List.map scanGateResult
         (limit_rows 10 limit (sort_stable (later g_CheckedAt g_ID) rows))).

Definition ListWorkflowTransitionPreviews (record : Record_) (version : WorkflowVersion)
    (limit : Z) : M (list WorkflowTransitionPreview) :=
  rows <- select_rows (fun p => (tp_ProjectID p =? p_ID record)
                                && (tp_WorkflowVersionID p =? v_ID version)) ;;
  ret (List.map scanTransitionPreview
         (limit_rows 10 limit (sort_stable (later tp_CreatedAt tp_ID) rows))).

Definition ListApprovalRecords (record : Record_) (version : WorkflowVersion) (limit : Z)
  : M (list ApprovalRecord) :=
  rows <- select_rows (fun a => (ap_ProjectID a =? p_ID record)
                                && (ap_WorkflowVersionID a =? v_ID version)) ;;
  ret (List.map scanApprovalRecord
         (limit_rows 10 limit (sort_stable (later ap_CreatedAt ap_ID) rows))).

Definition latestApprovalRecord (projectID versionID : Z) : M (option ApprovalRecord) :=
  rows <- select_rows (fun a => (ap_ProjectID a =? projectID)
                                && (ap_WorkflowVersionID a =? versionID)) ;;
  ret (scanApprovalRecord <$> latest ap_CreatedAt ap_ID rows).

(** ** Evaluation *)

Definition gate_metadata (actor reason phase stage item : string) : jmap :=
  mk [("actor", JStr actor); ("reason", JStr reason); ("phase", JStr phase);
      ("target_stage", JStr stage); ("target_item", JStr item)].

Definition spec_metadata (spec : workflowGateSpec) (o : RunGateOptions) : jmap :=
  gate_metadata (rg_Actor o) (rg_Reason o) (gs_Phase spec) (gs_TargetStage spec)
    (gs_TargetItem spec).

Definition findWorkflowItem (items : list WorkflowItem) (stage itemType : string)
  : option WorkflowItem :=
  List.find (fun i => (i_Stage i =s stage) && (i_ItemType i =s itemType)) items.

(** A decoded metadata column is never [nil] here. *)
Definition isStageSkeletonPlaceholder (item : WorkflowItem) : bool :=
  if i_SourceHash item <>s "" then false
  else if (i_Status item =s "draft") || (i_Status item =s "blocked") then true
  else (metadataString (i_Metadata item) "owned_by" =s "areaflow")
       && has_prefix "v0.3" (metadataString (i_Metadata item) "phase").

Definition requiredGateItemNames (l : list workflowGateRequiredItem) : list string :=
  List.map ri_Name l.

(** What the loop over the required items collects: the failures and names of
    missing items, the source hashes, the names of placeholders *)
Record gate_scan := MkGateScan {
  gc_missing : list string; gc_failures : list string; gc_hashes : jmap;
  gc_placeholders : list string }.

Definition gate_scan_step (items : list WorkflowItem) (acc : gate_scan)
    (required : workflowGateRequiredItem) : gate_scan :=
  match findWorkflowItem items (ri_Stage required) (ri_ItemType required) with
  | None =>
      MkGateScan (gc_missing acc ++ [ri_Name required])
        (gc_failures acc ++ [ri_Name required +:+ " workflow item is missing"])
        (gc_hashes acc) (gc_placeholders acc)
  | Some item =>
      MkGateScan (gc_missing acc) (gc_failures acc)
        (if i_SourceHash item <>s ""
         then mset (i_ExternalKey item) (JStr (i_SourceHash item)) (gc_hashes acc)
         else gc_hashes acc)
        (if isStageSkeletonPlaceholder item then gc_placeholders acc ++ [ri_Name required]
         else gc_placeholders acc)
  end.

Definition gate_scan_all (items : list WorkflowItem) (l : list workflowGateRequiredItem)
  : gate_scan := fold_left (gate_scan_step items) l (MkGateScan [] [] [] []).

Definition evaluateWorkflowGate (record : Record_) (version : WorkflowVersion)
    (items : list WorkflowItem) (spec : workflowGateSpec) (o : RunGateOptions) : GateResult :=
  let s := gate_scan_all items (gs_RequiredItems spec) in
  let missing := gc_missing s in
  let placeholders := gc_placeholders s in
  let nothing_missing := match missing with [] => true | _ => false end in
  let some_placeholder := match placeholders with [] => false | _ => true end in
  let status := if negb nothing_missing then "blocked"
                else if some_placeholder then "fail" else "pass" in
  MkGateResult 0 (p_ID record) (v_ID version)
    (match findWorkflowItem items (gs_TargetStage spec) (gs_TargetItem spec) with
     | Some i => i_ID i | None => 0 end)
    (gs_GateName spec) (gs_ScopeType spec) (v_DisplayLabel version) status
    (mk [("workflow_profile", JStr (p_WorkflowProfile record));
         ("display_label", JStr (v_DisplayLabel version));
         ("item_count", JInt (Z.of_nat (List.length items)));
         ("required_items", jstrs (requiredGateItemNames (gs_RequiredItems spec)));
         ("missing_items", jstrs missing); ("placeholder_items", jstrs placeholders)])
    (gc_hashes s)
    (gc_failures s ++ (if nothing_missing && some_placeholder
                       then [gs_PlaceholderFailure spec] else []))
    (if nothing_missing
     then ["v0.3c does not mutate workflow item status from gate checks"] else [])
    [] (spec_metadata spec o) 0.

(** Absent rows read as the zero value of their struct. *)
Definition no_approval : ApprovalRecord := MkApproval 0 0 0 0 "" "" "" "" "" "" "" [] 0.
Definition no_preview : WorkflowTransitionPreview := MkPreview 0 0 0 "" "" "" "" 0 [] [] [] 0.
Definition no_gate : GateResult := MkGateResult 0 0 0 0 "" "" "" "" [] [] [] [] [] [] 0.

Definition blocked_if_any (failures : list string) : string :=
  match failures with [] => "pass" | _ => "blocked" end.

Definition evaluateApprovalGate (record : Record_) (version : WorkflowVersion)
    (approval : option ApprovalRecord) (preview : option WorkflowTransitionPreview)
    (o : RunGateOptions) : GateResult :=
  let failures :=
    match approval with
    | None => ["missing approval record"]
    | Some a =>
        (if ap_Decision a <>s "approved"
         then ["latest approval decision is " +:+ ap_Decision a] else [])
        ++ match preview with
           | None => ["approval is not linked to a transition preview"]
           | Some p => if tp_Status p <>s "ready"
                       then ["linked transition preview status is " +:+ tp_Status p] else []
           end
    end in
  let a := default no_approval approval in
  let previewID :=
    match approval, preview with Some _, Some p => tp_ID p | _, _ => 0 end in
  MkGateResult 0 (p_ID record) (v_ID version) 0 "approval_gate" "workflow_version"
    (v_DisplayLabel version) (blocked_if_any failures)
    (mk [("workflow_profile", JStr (p_WorkflowProfile record));
         ("display_label", JStr (v_DisplayLabel version));
         ("approval_found", JBool (match approval with Some _ => true | None => false end));
         ("approval_decision", JStr (ap_Decision a)); ("approval_record_id", JInt (ap_ID a));
         ("transition_preview_id", JInt previewID);
         ("transition_status", JStr (tp_Status (default no_preview preview)))])
    [] failures ["approval gate is read-only; it does not promote or execute"] []
    (gate_metadata (rg_Actor o) (rg_Reason o) "v0.4" "approval" "approval_record") 0.

Definition evaluateLiveMappingGate (record : Record_) (version : WorkflowVersion)
    (approval : option ApprovalRecord) (preview : option WorkflowTransitionPreview)
    (promotionGate : option GateResult) (o : RunGateOptions) : GateResult :=
  let a := default no_approval approval in
  let p := default no_preview preview in
  let g := default no_gate promotionGate in
  let failures :=
    (match approval with
     | Some a => if ap_Decision a <>s "approved" then ["approval_gate has not passed"] else []
     | None => ["approval_gate has not passed"]
     end)
    ++ (match preview with
        | None => ["missing transition preview"]
        | Some p => if tp_Status p <>s "ready"
                    then ["transition preview status is " +:+ tp_Status p] else []
        end)
    ++ (match promotionGate with
        | None => ["missing promotion_preview gate result"]
        | Some g => if g_Status g <>s "pass"
                    then ["promotion_preview gate status is " +:+ g_Status g] else []
        end) in
  MkGateResult 0 (p_ID record) (v_ID version) 0 "live_mapping_gate" "workflow_version"
    (v_DisplayLabel version) (blocked_if_any failures)
    (mk [("workflow_profile", JStr (p_WorkflowProfile record));
         ("display_label", JStr (v_DisplayLabel version));
         ("approval_record_id", JInt (ap_ID a)); ("approval_decision", JStr (ap_Decision a));
         ("transition_preview_id", JInt (tp_ID p)); ("transition_status", JStr (tp_Status p));
         ("promotion_gate_result_id", JInt (g_ID g));
         ("promotion_gate_status", JStr (g_Status g));
         ("execution_write_attempted", JBool false)])
    [] failures ["live mapping gate is read-only in v0.4; it does not write execution"] []
    (gate_metadata (rg_Actor o) (rg_Reason o) "v0.4" "approval" "live_mapping") 0.

(** The binding frozen in a version's summary; the flag says whether it is
    usable. *)
Definition workflowVersionProfileBinding (version : WorkflowVersion) : ProfileBinding * bool :=
  match mget "profile_binding" (v_StatusSummary version) with
  | Some (JObj metadata) =>
      let b := MkBinding (metadataString metadata "profile_id")
                 (match mget "profile_version" metadata with
                  | Some (JInt z) => z
                  | Some (JFloat z) => int64_of_float z
                  | _ => 0
                  end)
                 (metadataString metadata "profile_hash")
                 (metadataString metadata "profile_path") in
      (b, negb ((b_ProfileID b =s "") || (b_ProfileHash b =s "")))
  | _ => (MkBinding "" 0 "" "", false)
  end.

Definition evaluateProfileBindingDriftGate (record : Record_) (version : WorkflowVersion)
    (binding : ProfileBinding) (bindingFound : bool) (current : ProfileBinding)
    (currentFound : bool) (currentError : string) (spec : workflowGateSpec)
    (o : RunGateOptions) : GateResult :=
  let currentError :=
    if bindingFound && negb currentFound && (currentError =s "")
    then "current profile binding could not be loaded" else currentError in
  let failures :=
    (if bindingFound then [] else ["workflow version has no frozen profile_binding"])
    ++ (if bindingFound && negb currentFound then [currentError] else []) in
  let drift :=
    if bindingFound && currentFound then
      (if b_ProfileID binding <>s b_ProfileID current
       then ["profile id drift: frozen=" +:+ b_ProfileID binding +:+ " current="
             +:+ b_ProfileID current] else [])
      ++ (if negb (b_ProfileVersion binding =? b_ProfileVersion current)
          then ["profile version drift: frozen=" +:+ fmt_d (b_ProfileVersion binding)
                +:+ " current=" +:+ fmt_d (b_ProfileVersion current)] else [])
      ++ (if b_ProfileHash binding <>s b_ProfileHash current
          then ["profile hash drift detected; explicit profile migration is required before silently changing gate rules"]
          else [])
    else [] in
  let status := match failures, drift with
                | _ :: _, _ => "blocked"
                | [], _ :: _ => "warn"
                | [], [] => "pass"
                end in
  MkGateResult 0 (p_ID record) (v_ID version) 0 (gs_GateName spec) (gs_ScopeType spec)
    (v_DisplayLabel version) status
    (mk [("workflow_profile", JStr (p_WorkflowProfile record));
         ("display_label", JStr (v_DisplayLabel version)); ("binding_found", JBool bindingFound);
         ("current_profile_found", JBool currentFound);
         ("current_profile_error", JStr currentError);
         ("frozen_profile_id", JStr (b_ProfileID binding));
         ("frozen_profile_version", JInt (b_ProfileVersion binding));
         ("frozen_profile_hash", JStr (b_ProfileHash binding));
         ("frozen_profile_path", JStr (b_ProfilePath binding));
         ("current_profile_id", JStr (b_ProfileID current));
         ("current_profile_version", JInt (b_ProfileVersion current));
         ("current_profile_hash", JStr (b_ProfileHash current));
         ("current_profile_path", JStr (b_ProfilePath current));
         ("profile_migration_done", JBool false)])
    (mk [("frozen_profile_hash", JStr (b_ProfileHash binding));
         ("current_profile_hash", JStr (b_ProfileHash current))])
    failures
    ("profile binding drift gate is read-only; it does not migrate or rewrite workflow versions"
     :: drift)
    [] (spec_metadata spec o) 0.

(** What the cutover gate reads of [ProjectCutoverReadiness] (store.go, which
    assembles it from the whole state of the project): a parameter here. *)
Record CutoverReadiness := MkCutoverReadiness {
  rd_Items : list (string * (string * string));
  rd_PhaseGateName : string; rd_PhaseGateStatus : string; rd_AcceptedWarnings : list string;
  rd_Blockers : list string; rd_VerificationStatus : string;
  rd_VerificationPhaseStatus : string; rd_CompatibilityStatus : string;
  rd_ImportSourceHash : string }.

Definition evaluateCutoverReadinessGate (record : Record_) (version : WorkflowVersion)
    (readiness : CutoverReadiness) (spec : workflowGateSpec) (o : RunGateOptions) : GateResult :=
  MkGateResult 0 (p_ID record) (v_ID version) 0 (gs_GateName spec) (gs_ScopeType spec)
    (v_DisplayLabel version)
    (if rd_PhaseGateStatus readiness <>s "pass" then "blocked" else "pass")
    (mk [("workflow_profile", JStr (p_WorkflowProfile record));
         ("display_label", JStr (v_DisplayLabel version));
         ("verification_status", JStr (rd_VerificationStatus readiness));
         ("verification_phase_status", JStr (rd_VerificationPhaseStatus readiness));
         ("compatibility_status", JStr (rd_CompatibilityStatus readiness));
         ("phase_gate", JStr (rd_PhaseGateName readiness));
         ("phase_gate_status", JStr (rd_PhaseGateStatus readiness));
         ("item_statuses", JObj (mk (List.map (fun i : string * (string * string) =>
            (fst i, JObj (mk [("status", JStr (fst (snd i))); ("message", JStr (snd (snd i)))])))
            (rd_Items readiness))));
         ("cutover_apply_attempted", JBool false); ("execution_write_attempted", JBool false)])
    (mk [("latest_import", JStr (rd_ImportSourceHash readiness))])
    (rd_Blockers readiness)
    ("cutover readiness gate is read-only in v0.4c; it does not apply cutover or write execution"
     :: rd_AcceptedWarnings readiness)
    [] (spec_metadata spec o) 0.

Definition evaluateWorkflowTransitionPreview (record : Record_) (version : WorkflowVersion)
    (gate : option GateResult) (o : PreviewTransitionOptions) : WorkflowTransitionPreview :=
  let blockers :=
    match gate with
    | None => ["missing promotion_preview gate result"]
    | Some g => if g_Status g <>s "pass"
                then ["latest promotion_preview gate status is " +:+ g_Status g] else []
    end in
  MkPreview 0 (p_ID record) (v_ID version) (po_FromStage o) (po_ToStage o)
    (match blockers with [] => "ready" | _ => "blocked" end) "promotion_preview"
    (match gate with Some g => g_ID g | None => 0 end) blockers
    ["transition preview is read-only; it does not promote or execute"]
    (mk [("actor", JStr (po_Actor o)); ("reason", JStr (po_Reason o)); ("phase", JStr "v0.3d");
         ("display_label", JStr (v_DisplayLabel version));
         ("gate_found", JBool (match gate with Some _ => true | None => false end))]) 0.

Definition buildApprovalRecord (record : Record_) (version : WorkflowVersion)
    (preview : option WorkflowTransitionPreview) (o : CreateApprovalOptions) : ApprovalRecord :=
  let metadata :=
    mset_all (map_or_empty (ca_Metadata o))
      (mk [("phase", JStr "v0.3d");
           ("preview_found", JBool (match preview with Some _ => true | None => false end));
           ("approval_is_execution", JBool false)]) in
  let metadata :=
    match preview with
    | Some p => mset_all [("transition_status", JStr (tp_Status p));
                          ("from_stage", JStr (tp_FromStage p));
                          ("to_stage", JStr (tp_ToStage p))] metadata
    | None => metadata
    end in
  MkApproval 0 (p_ID record) (v_ID version)
    (match preview with Some p => tp_ID p | None => 0 end) (ca_ApprovalKind o) (ca_Decision o)
    "workflow_version" (v_DisplayLabel version) (ca_Actor o) (ca_Reason o) (ca_RiskLevel o)
    metadata 0.

(** ** Requests *)

Definition workflowGateRequestHash (record : Record_) (version : WorkflowVersion)
    (result : GateResult) (o : RunGateOptions) : string :=
  request_hash
    [("command_type", JStr "workflow.gate.run"); ("project_key", JStr (p_Key record));
     ("workflow_version_id", JInt (v_ID version));
     ("display_label", JStr (v_DisplayLabel version)); ("gate_name", JStr (g_GateName result));
     ("scope_type", JStr (g_ScopeType result)); ("scope_id", JStr (g_ScopeID result));
     ("status", JStr (g_Status result)); ("inputs", JObj (g_Inputs result));
     ("source_hashes", JObj (g_SourceHashes result)); ("failures", jstrs (g_Failures result));
     ("warnings", jstrs (g_Warnings result)); ("actor", JStr (rg_Actor o));
     ("reason", JStr (rg_Reason o)); ("read_only", JBool true)].

(** [workflowGateDefaultKeySequence.Add(1)]: a counter of the process, which a
    rollback does not reset *)
Definition next_workflowGate : M Z := fun w =>
  let c := wd_counters w in
  let n := add64 (n_workflowGate c) 1 in
  (Ok n, set_counters (MkCounters (n_leaseRecover c) (n_workerLifecycle c) n
                         (n_transitionPreview c)) w).

Definition next_transitionPreview : M Z := fun w =>
  let c := wd_counters w in
  let n := add64 (n_transitionPreview c) 1 in
  (Ok n, set_counters (MkCounters (n_leaseRecover c) (n_workerLifecycle c) (n_workflowGate c)
                         n) w).

Definition workflowGateIdempotencyKey (env : Env) (record : Record_) (version : WorkflowVersion)
    (spec : workflowGateSpec) (o : RunGateOptions) : M string :=
  sequence <- next_workflowGate ;;
  ret ("workflow.gate.run:" +:+ p_Key record +:+ ":" +:+ v_DisplayLabel version +:+ ":"
       +:+ gs_GateName spec +:+ ":" +:+ fmt_d (env_unixnano env) +:+ ":" +:+ fmt_d sequence
       +:+ ":" +:+ shortSHA256Hex (p_Key record +:+ ":" +:+ v_DisplayLabel version +:+ ":"
                     +:+ gs_GateName spec +:+ ":" +:+ rg_Actor o +:+ ":" +:+ rg_Reason o)).

Definition workflowGateCommandResponse (result : GateResult) (eventID auditEventID : Z) : jmap :=
  mk [("gate_result_id", JInt (g_ID result)); ("event_id", JInt eventID);
      ("audit_event_id", JInt auditEventID);
      ("workflow_version_id", JInt (g_WorkflowVersionID result));
      ("gate_name", JStr (g_GateName result)); ("status", JStr (g_Status result));
      ("scope_type", JStr (g_ScopeType result)); ("scope_id", JStr (g_ScopeID result));
      ("project_write_attempted", JBool false);
      ("execution_write_attempted",
       JBool (metadataBool (g_Inputs result) "execution_write_attempted"));
      ("read_only", JBool true)].

(** ** Running a gate *)

Definition insertGateResult (env : Env) (r : GateResult) : M GateResult :=
  g <- insert_row (fun id =>
         MkGateResult id (g_ProjectID r) (g_WorkflowVersionID r) (g_WorkflowItemID r)
           (g_GateName r) (g_ScopeType r) (g_ScopeID r) (g_Status r) (g_Inputs r)
           (g_SourceHashes r) (g_Failures r) (g_Warnings r) (g_EvidenceArtifactIDs r)
           (g_Metadata r) (env_now env)) ;;
  ret (scanGateResult g).

Definition insertGateEvent (env : Env) (record : Record_) (version : WorkflowVersion)
    (result : GateResult) : M Z :=
  let severity := if g_Status result =s "warn" then "warning"
                  else if g_Status result =s "fail" then "error" else "info" in
  e <- insert_row (fun id =>
         MkEvent id (p_ID record) 0 (v_ID version) "workflow.gate.checked" severity
           "Workflow gate checked"
           (mk [("gate_result_id", JInt (g_ID result)); ("gate_name", JStr (g_GateName result));
                ("status", JStr (g_Status result));
                ("display_label", JStr (v_DisplayLabel version));
                ("workflow_version_id", JInt (v_ID version));
                ("failures", jstrs (g_Failures result)); ("warnings", jstrs (g_Warnings result))])
           (env_now env)) ;;
  ret (e_ID e).

Definition insertGateAuditEvent (env : Env) (record : Record_) (version : WorkflowVersion)
    (result : GateResult) (o : RunGateOptions) : M Z :=
  a <- insert_row (fun id =>
         MkAudit id (p_ID record) 0 "workflow.gate.run" "" "workflow_gate"
           (v_DisplayLabel version +:+ ":" +:+ g_GateName result) "allowed" (rg_Reason o)
           (workflowGateCommandResponse result 0 0) (env_now env)) ;;
  ret (au_ID a).

(** The transaction every gate run ends with; whether the key was new is not
    looked at. *)
Definition insertWorkflowGateResult (env : Env) (record : Record_) (version : WorkflowVersion)
    (result : GateResult) (o : RunGateOptions) : M (res error GateResult) :=
  reserveCommandRequest env (p_ID record) "workflow.gate.run" (rg_IdempotencyKey o)
    (workflowGateRequestHash record version result o) ;;;
  inserted <- insertGateResult env result ;;
  eventID <- insertGateEvent env record version inserted ;;
  auditEventID <- insertGateAuditEvent env record version inserted o ;;
  completeCommandRequestResponse env (p_ID record) "workflow.gate.run" (rg_IdempotencyKey o)
    (workflowGateCommandResponse inserted eventID auditEventID) ;;;
  ret (Ok inserted).

Definition profileDriftResult (fs : ProfileFS) (record : Record_) (version : WorkflowVersion)
    (spec : workflowGateSpec) (o : RunGateOptions) : GateResult :=
  let (binding, bindingFound) := workflowVersionProfileBinding version in
  let evaluate := evaluateProfileBindingDriftGate record version binding bindingFound in
  if bindingFound then
    match workflowProfileRoot fs with
    | Err e => evaluate (MkBinding "" 0 "" "") false e spec o
    | Ok root =>
        match LoadBuiltInProfile fs root (b_ProfileID binding) with
        | Err e => evaluate (MkBinding (b_ProfileID binding) 0 "" "") false e spec o
        | Ok loaded => evaluate (loadedProfileBinding loaded) true "" spec o
        end
    end
  else evaluate (MkBinding (p_WorkflowProfile record) 0 "" "") false "" spec o.

Definition approvalBackedResult (record : Record_) (version : WorkflowVersion)
    (spec : workflowGateSpec) (o : RunGateOptions) : M GateResult :=
  approval <- latestApprovalRecord (p_ID record) (v_ID version) ;;
  preview <- resolveApprovalTransitionPreview (p_ID record) (v_ID version)
               (ap_TransitionPreviewID (default no_approval approval)) ;;
  if gs_GateName spec =s "approval_gate"
  then ret (evaluateApprovalGate record version approval preview o)
  else if gs_GateName spec =s "live_mapping_gate" then
    gate <- latestGateResult (p_ID record) (v_ID version) "promotion_preview" ;;
    ret (evaluateLiveMappingGate record version approval preview gate o)
  else fail (ErrUnsupportedWorkflowGate (gs_GateName spec)).

Section Run.
Context (env : Env) (fs : ProfileFS).
(** [Store.ProjectCutoverReadiness] *)
Context (readinessOf : World -> Record_ -> string -> res error CutoverReadiness).

Definition cutoverResult (record : Record_) (version : WorkflowVersion)
    (spec : workflowGateSpec) (o : RunGateOptions) : M GateResult := fun w =>
  match readinessOf w record (v_DisplayLabel version) with
  | Err e => (Err e, w)
  | Ok readiness => (Ok (evaluateCutoverReadinessGate record version readiness spec o), w)
  end.

(** The result of a gate, by its name *)
Definition gateResult (record : Record_) (version : WorkflowVersion) (spec : workflowGateSpec)
    (o : RunGateOptions) : M GateResult :=
  if gs_GateName spec =s "profile_binding_drift"
  then ret (profileDriftResult fs record version spec o)
  else if (gs_GateName spec =s "approval_gate") || (gs_GateName spec =s "live_mapping_gate")
  then approvalBackedResult record version spec o
  else if gs_GateName spec =s "cutover_readiness_gate"
  then cutoverResult record version spec o
  else
    items <- ListWorkflowItems record version ;;
    ret (evaluateWorkflowGate record version items spec o).

Definition set_rg_key (key : string) (o : RunGateOptions) : RunGateOptions :=
  MkRunGate (rg_GateName o) (rg_Actor o) (rg_Reason o) key.

Definition runGateBody (record : Record_) (label : string) (o : RunGateOptions)
  : M (res error GateResult) :=
  match gate_spec (rg_GateName o) with
  | None => fail (ErrUnsupportedWorkflowGate (rg_GateName o))
  | Some spec =>
      version <- authoredVersion record label ;;
      key <- (if rg_IdempotencyKey o =s ""
              then workflowGateIdempotencyKey env record version spec o
              else ret (rg_IdempotencyKey o)) ;;
      let o := set_rg_key key o in
      result <- gateResult record version spec o ;;
      insertWorkflowGateResult env record version result o
  end.

Definition RunWorkflowGate (record : Record_) (label : string) (options : RunGateOptions)
    (w : World) : res error GateResult * World :=
  transact (runGateBody record label (normalizeRunGateOptions options)) w.

Definition RunDiscussionGate (record : Record_) (label : string) (options : RunGateOptions)
    (w : World) : res error GateResult * World :=
  RunWorkflowGate record label
    (MkRunGate "discussion_gate" (rg_Actor options) (rg_Reason options)
       (rg_IdempotencyKey options)) w.
End Run.

(** ** Previewing a transition *)

Definition workflowTransitionPreviewIdempotencyKey (env : Env) (record : Record_)
    (version : WorkflowVersion) (preview : WorkflowTransitionPreview)
    (o : PreviewTransitionOptions) : M string :=
  sequence <- next_transitionPreview ;;
  ret ("workflow.transition.preview:" +:+ p_Key record +:+ ":" +:+ v_DisplayLabel version
       +:+ ":" +:+ tp_FromStage preview +:+ ":" +:+ tp_ToStage preview +:+ ":"
       +:+ fmt_d (env_unixnano env) +:+ ":" +:+ fmt_d sequence +:+ ":"
       +:+ shortSHA256Hex (p_Key record +:+ ":" +:+ v_DisplayLabel version +:+ ":"
             +:+ tp_FromStage preview +:+ ":" +:+ tp_ToStage preview +:+ ":" +:+ po_Actor o
             +:+ ":" +:+ po_Reason o)).

Definition workflowTransitionPreviewRequestHash (record : Record_) (version : WorkflowVersion)
    (preview : WorkflowTransitionPreview) (o : PreviewTransitionOptions) : string :=
  request_hash
    [("command_type", JStr "workflow.transition.preview"); ("project_key", JStr (p_Key record));
     ("workflow_version_id", JInt (v_ID version));
     ("display_label", JStr (v_DisplayLabel version)); ("from_stage", JStr (tp_FromStage preview));
     ("to_stage", JStr (tp_ToStage preview)); ("status", JStr (tp_Status preview));
     ("required_gate_name", JStr (tp_RequiredGateName preview));
     ("gate_result_id", JInt (tp_GateResultID preview));
     ("blockers", jstrs (tp_Blockers preview)); ("warnings", jstrs (tp_Warnings preview));
     ("actor", JStr (po_Actor o)); ("reason", JStr (po_Reason o)); ("read_only", JBool true)].

Definition transitionPreviewCommandResponse (p : WorkflowTransitionPreview)
    (eventID auditEventID : Z) : jmap :=
  mk [("transition_preview_id", JInt (tp_ID p)); ("event_id", JInt eventID);
      ("audit_event_id", JInt auditEventID);
      ("workflow_version_id", JInt (tp_WorkflowVersionID p));
      ("from_stage", JStr (tp_FromStage p)); ("to_stage", JStr (tp_ToStage p));
      ("status", JStr (tp_Status p)); ("required_gate_name", JStr (tp_RequiredGateName p));
      ("gate_result_id", JInt (tp_GateResultID p)); ("project_write_attempted", JBool false);
      ("execution_write_attempted", JBool false); ("read_only", JBool true)].

Definition insertWorkflowTransitionPreview (env : Env) (p : WorkflowTransitionPreview)
  : M WorkflowTransitionPreview :=
  r <- insert_row (fun id =>
         MkPreview id (tp_ProjectID p) (tp_WorkflowVersionID p) (tp_FromStage p) (tp_ToStage p)
           (tp_Status p) (tp_RequiredGateName p) (tp_GateResultID p) (tp_Blockers p)
           (tp_Warnings p) (tp_Metadata p) (env_now env)) ;;
  ret (scanTransitionPreview r).

Definition insertTransitionPreviewEvent (env : Env) (record : Record_)
    (version : WorkflowVersion) (p : WorkflowTransitionPreview) (o : PreviewTransitionOptions)
  : M Z :=
  e <- insert_row (fun id =>
         MkEvent id (p_ID record) 0 (v_ID version) "workflow.transition.previewed"
           (if tp_Status p =s "blocked" then "warning" else "info")
           "Workflow transition previewed"
           (mk [("transition_preview_id", JInt (tp_ID p));
                ("display_label", JStr (v_DisplayLabel version));
                ("workflow_version_id", JInt (v_ID version));
                ("from_stage", JStr (tp_FromStage p)); ("to_stage", JStr (tp_ToStage p));
                ("status", JStr (tp_Status p)); ("blockers", jstrs (tp_Blockers p));
                ("warnings", jstrs (tp_Warnings p)); ("actor", JStr (po_Actor o));
                ("reason", JStr (po_Reason o))])
           (env_now env)) ;;
  ret (e_ID e).

Definition insertTransitionPreviewAuditEvent (env : Env) (record : Record_)
    (version : WorkflowVersion) (p : WorkflowTransitionPreview) (o : PreviewTransitionOptions)
  : M Z :=
  a <- insert_row (fun id =>
         MkAudit id (p_ID record) 0 "workflow.transition.preview" "" "workflow_transition"
           (v_DisplayLabel version +:+ ":" +:+ tp_FromStage p +:+ "->" +:+ tp_ToStage p)
           "allowed" (po_Reason o) (transitionPreviewCommandResponse p 0 0) (env_now env)) ;;
  ret (au_ID a).

Definition previewBody (env : Env) (record : Record_) (label : string)
    (o : PreviewTransitionOptions) : M (res error WorkflowTransitionPreview) :=
  version <- authoredVersion record label ;;
  gate <- latestGateResult (p_ID record) (v_ID version) "promotion_preview" ;;
  let preview := evaluateWorkflowTransitionPreview record version gate o in
  key <- (if po_IdempotencyKey o =s ""
          then workflowTransitionPreviewIdempotencyKey env record version preview o
          else ret (po_IdempotencyKey o)) ;;
  reserveCommandRequest env (p_ID record) "workflow.transition.preview" key
    (workflowTransitionPreviewRequestHash record version preview o) ;;;
  inserted <- insertWorkflowTransitionPreview env preview ;;
  eventID <- insertTransitionPreviewEvent env record version inserted o ;;
  auditEventID <- insertTransitionPreviewAuditEvent env record version inserted o ;;
  completeCommandRequestResponse env (p_ID record) "workflow.transition.preview" key
    (transitionPreviewCommandResponse inserted eventID auditEventID) ;;;
  ret (Ok inserted).

Definition PreviewWorkflowTransition (env : Env) (record : Record_) (label : string)
    (options : PreviewTransitionOptions) (w : World)
  : res error WorkflowTransitionPreview * World :=
  transact (previewBody env record label (normalizePreviewTransitionOptions options)) w.

(** ** Approving *)

Definition approvalRecordRequestHash (record : Record_) (version : WorkflowVersion)
    (a : ApprovalRecord) : string :=
  request_hash
    [("command_type", JStr "workflow.approval.record"); ("project_key", JStr (p_Key record));
     ("workflow_version_id", JInt (v_ID version));
     ("display_label", JStr (v_DisplayLabel version));
     ("transition_preview_id", JInt (ap_TransitionPreviewID a));
     ("approval_kind", JStr (ap_ApprovalKind a)); ("decision", JStr (ap_Decision a));
     ("scope_type", JStr (ap_ScopeType a)); ("scope_id", JStr (ap_ScopeID a));
     ("actor", JStr (ap_Actor a)); ("reason", JStr (ap_Reason a));
     ("risk_level", JStr (ap_RiskLevel a)); ("metadata", JObj (ap_Metadata a))].

Definition approvalRecordIdempotencyKey (record : Record_) (version : WorkflowVersion)
    (a : ApprovalRecord) (requestHash : string) : string :=
  "workflow.approval.record:" +:+ p_Key record +:+ ":" +:+ v_DisplayLabel version +:+ ":"
  +:+ ap_Decision a +:+ ":"
  +:+ (if ap_TransitionPreviewID a =? 0 then "none" else fmt_d (ap_TransitionPreviewID a))
  +:+ ":" +:+ (if 16 <? len requestHash then str_take 16 requestHash else requestHash).

Definition insertApprovalRecord (env : Env) (a : ApprovalRecord) : M ApprovalRecord :=
  r <- insert_row (fun id =>
         MkApproval id (ap_ProjectID a) (ap_WorkflowVersionID a) (ap_TransitionPreviewID a)
           (ap_ApprovalKind a) (ap_Decision a) (ap_ScopeType a) (ap_ScopeID a) (ap_Actor a)
           (ap_Reason a) (ap_RiskLevel a) (ap_Metadata a) (env_now env)) ;;
  ret (scanApprovalRecord r).

Definition approval_fields (version : WorkflowVersion) (a : ApprovalRecord) : jmap :=
  mk [("approval_record_id", JInt (ap_ID a)); ("display_label", JStr (v_DisplayLabel version));
      ("workflow_version_id", JInt (v_ID version));
      ("transition_preview_id", JInt (ap_TransitionPreviewID a));
      ("approval_kind", JStr (ap_ApprovalKind a)); ("decision", JStr (ap_Decision a));
      ("actor", JStr (ap_Actor a)); ("risk_level", JStr (ap_RiskLevel a))].

Definition insertApprovalEvent (env : Env) (record : Record_) (version : WorkflowVersion)
    (a : ApprovalRecord) : M Z :=
  e <- insert_row (fun id =>
         MkEvent id (p_ID record) 0 (v_ID version) "workflow.approval.recorded"
           (if ap_Decision a =s "rejected" then "warning" else "info")
           "Workflow approval recorded" (approval_fields version a) (env_now env)) ;;
  ret (e_ID e).

Definition insertApprovalAuditEvent (env : Env) (record : Record_) (version : WorkflowVersion)
    (a : ApprovalRecord) : M Z :=
  r <- insert_row (fun id =>
         MkAudit id (p_ID record) 0 "workflow.approval.record" "" "workflow_version"
           (v_DisplayLabel version) (ap_Decision a) (ap_Reason a) (approval_fields version a)
           (env_now env)) ;;
  ret (au_ID r).

(** The join of [command_requests] with [approval_records] over the recorded
    id, which is an integer of the stored response *)
Definition loadApprovalRecordByIdempotency (projectID : Z) (idempotencyKey : string)
  : M ApprovalRecord :=
  commands <- select_rows (command_is projectID "workflow.approval.record" idempotencyKey) ;;
  match commands with
  | [] => fail (ErrText ("approval record for idempotency key " +:+ idempotencyKey
                  +:+ " not found"))
  | c :: _ =>
      let id := metadataInt64 (c_Response c) "approval_record_id" in
      rows <- select_rows (fun a => negb (id =? 0) && (ap_ID a =? id)) ;;
      a <- map_err (no_rows_to (ErrText ("approval record for idempotency key "
             +:+ idempotencyKey +:+ " not found"))) (first_row rows) ;;
      ret (scanApprovalRecord a)
  end.

Definition replayApproval (projectID : Z) (key : string) : M (res error ApprovalRecord) :=
  a <- loadApprovalRecordByIdempotency projectID key ;; ret (Ok a).

Definition approvalInsertBody (env : Env) (record : Record_) (version : WorkflowVersion)
    (key : string) (approval : ApprovalRecord) : M (res error ApprovalRecord) :=
  inserted <- insertApprovalRecord env approval ;;
  eventID <- insertApprovalEvent env record version inserted ;;
  auditEventID <- insertApprovalAuditEvent env record version inserted ;;
  completeCommandRequestResponse env (p_ID record) "workflow.approval.record" key
    (mk [("approval_record_id", JInt (ap_ID inserted)); ("event_id", JInt eventID);
         ("audit_event_id", JInt auditEventID); ("workflow_version_id", JInt (v_ID version));
         ("display_label", JStr (v_DisplayLabel version));
         ("transition_preview_id", JInt (ap_TransitionPreviewID inserted));
         ("decision", JStr (ap_Decision inserted))]) ;;;
  ret (Ok inserted).

(** The guards of an approval, in the order they are checked *)
Definition approval_refusal (o : CreateApprovalOptions)
    (preview : option WorkflowTransitionPreview) : option error :=
  let found := match preview with Some _ => true | None => false end in
  let p := default no_preview preview in
  if negb (ca_TransitionPreviewID o =? 0) && negb found
  then Some (ErrText ("transition preview not found: " +:+ fmt_d (ca_TransitionPreviewID o)))
  else if (ca_Decision o =s "approved") && (negb found || (tp_Status p <>s "ready"))
  then Some ErrApprovalPreviewNotReady
  else if (ca_Decision o =s "approved") && highRiskApproval (ca_RiskLevel o)
          && sameActor (ca_Actor o) (mget "actor" (tp_Metadata p))
  then Some (ErrText "high-risk approval requires an approver different from the transition requester")
  else None.

Definition approvalBody (env : Env) (record : Record_) (label : string)
    (o : CreateApprovalOptions) : M (res error ApprovalRecord) :=
  if (ca_Decision o <>s "approved") && (ca_Decision o <>s "rejected")
  then fail ErrInvalidApprovalDecision
  else
    version <- authoredVersion record label ;;
    preview <- resolveApprovalTransitionPreview (p_ID record) (v_ID version)
                 (ca_TransitionPreviewID o) ;;
    match approval_refusal o preview with
    | Some e => fail e
    | None =>
        let approval := buildApprovalRecord record version preview o in
        let requestHash := approvalRecordRequestHash record version approval in
        let key := if ca_IdempotencyKey o =s ""
                   then approvalRecordIdempotencyKey record version approval requestHash
                   else ca_IdempotencyKey o in
        with_command env (p_ID record) "workflow.approval.record" key requestHash
          (replayApproval (p_ID record) key)
          (approvalInsertBody env record version key approval)
    end.

Definition CreateApprovalRecord (env : Env) (record : Record_) (label : string)
    (options : CreateApprovalOptions) (w : World) : res error ApprovalRecord * World :=
  transact (approvalBody env record label (normalizeCreateApprovalOptions options)) w.
