(* ===== verification/Runner.v ===== *)
(** * Runner preview and run queries

    [internal/project/runner.go]: the dry-run preview of a workflow version
    (its preflight, the run, task, attempts and report it records), the
    queries on runs, events and artifacts, and reading an artifact back with
    its checksum.  Reads made before the transaction begins are made inside
    it: transactions run one after the other. *)

From stdpp Require Import base list strings numbers gmap.
From Stdlib Require Import ZArith Lia String.
From S2P Require Import Prelude GoString Sha256 Json Schema Tx Command Capability History Worker.
From S2P Require Import Lease FilePath RunOnce RunControl Profile Workflow Gates.

(** ** Options and results *)

Record RunnerPreviewOptions := MkRunnerPreview {
  rp_Actor : string; rp_Reason : string; rp_RiskLevel : string; rp_RiskPolicy : string;
  rp_IdempotencyKey : string; rp_RequireApproval : bool }.

(** A check of a preflight or gate *)
Record ReadinessItem := MkReadinessItem {
  it_Key : string; it_Status : string; it_Message : string; it_Metadata : jmap }.

Record RunnerPreflight := MkPreflight {
  pf_Status : string; pf_Checks : list ReadinessItem; pf_Blockers : list string }.

Record RunnerPreviewResult := MkRunnerPreviewResult {
  pw_Project : Record_; pw_Version : WorkflowVersion; pw_Run : RunRecord;
  pw_Tasks : list RunTaskRecord; pw_Attempts : list RunAttemptRecord;
  pw_Artifacts : list ArtifactRecord; pw_Preflight : RunnerPreflight; pw_Created : bool;
  pw_IdempotencyKey : string; pw_EventID : Z; pw_AuditEventID : Z }.

Record RunDetail := MkRunDetail {
  rd_Run : RunRecord; rd_Tasks : list RunTaskRecord; rd_Attempts : list RunAttemptRecord;
  rd_Artifacts : list ArtifactRecord }.

Record ArtifactContent := MkContent {
  cn_Artifact : ArtifactRecord; cn_Content : string; cn_ContentType : string }.

Definition normalizeRunnerPreviewOptions (record : Record_) (version : WorkflowVersion)
    (o : RunnerPreviewOptions) : RunnerPreviewOptions :=
  MkRunnerPreview (trim_default "local-user" (rp_Actor o))
    (trim_default "runner preview dry-run" (rp_Reason o)) (trim_default "low" (rp_RiskLevel o))
    (trim_default "pause" (rp_RiskPolicy o))
    (trim_default ("runner.preview:" +:+ p_Key record +:+ ":" +:+ v_DisplayLabel version)
       (rp_IdempotencyKey o))
    (rp_RequireApproval o).

Definition runnerPreviewRequestHash (record : Record_) (version : WorkflowVersion)
    (o : RunnerPreviewOptions) : string :=
  request_hash
    [("command_type", JStr "runner.preview"); ("project_id", JInt (p_ID record));
     ("project_key", JStr (p_Key record)); ("workflow_version_id", JInt (v_ID version));
     ("display_label", JStr (v_DisplayLabel version)); ("actor", JStr (rp_Actor o));
     ("reason", JStr (rp_Reason o)); ("risk_level", JStr (rp_RiskLevel o));
     ("risk_policy", JStr (rp_RiskPolicy o)); ("require_approval", JBool (rp_RequireApproval o));
     ("dry_run", JBool true)].

(** ** Preflight *)

Definition statusBool (ok : bool) : string := if ok then "pass" else "warn".

Definition runnerVersionMessage (version : WorkflowVersion) : string :=
  if v_ImportMode version =s "authored" then "workflow version is authored by AreaFlow"
  else "runner preview requires an AreaFlow-authored workflow version".

(** [blocked] and [fail] block *)
Definition blocking (status : string) : bool := (status =s "blocked") || (status =s "fail").

Definition addPreflight (key status message : string) (metadata : jmap) (p : RunnerPreflight)
  : RunnerPreflight :=
  let checks := pf_Checks p ++ [MkReadinessItem key status message (mk metadata)] in
  if blocking status
  then MkPreflight "blocked" checks (pf_Blockers p ++ [key +:+ ": " +:+ message])
  else MkPreflight (pf_Status p) checks (pf_Blockers p).

Definition riskBlocked (o : RunnerPreviewOptions) : bool :=
  ((rp_RiskLevel o =s "high") || (rp_RiskLevel o =s "mission_critical"))
  && (rp_RiskPolicy o <>s "allow").

Definition EvaluateRunnerPreflight (record : Record_) (version : WorkflowVersion)
    (o : RunnerPreviewOptions) : RunnerPreflight :=
  let p := MkPreflight "pass" [] [] in
  let p := addPreflight "dry_run" "pass" "runner preview is dry-run only"
             [("dry_run", JBool true)] p in
  let p := addPreflight "workflow_version_authored" (statusBool (v_ImportMode version =s "authored"))
             (runnerVersionMessage version)
             [("display_label", JStr (v_DisplayLabel version));
              ("import_mode", JStr (v_ImportMode version))] p in
  let p := addPreflight "write_permissions" "pass"
             "write operations are not attempted in runner preview"
             [("write_attempted", JBool false); ("capability", JStr "write_code")] p in
  let p := addPreflight "command_permissions" "pass"
             "commands are not executed in runner preview"
             [("command_attempted", JBool false); ("capability", JStr "run_commands")] p in
  let p := addPreflight "secret_permissions" "pass"
             "secrets are not resolved in runner preview"
             [("secret_attempted", JBool false); ("capability", JStr "use_secrets")] p in
  let p := addPreflight "network_permissions" "pass"
             "network access is not attempted in runner preview"
             [("network_attempted", JBool false); ("capability", JStr "network")] p in
  let risk := [("risk_level", JStr (rp_RiskLevel o)); ("risk_policy", JStr (rp_RiskPolicy o))] in
  if riskBlocked o
  then addPreflight "risk_gate" "blocked" "high risk runner preview requires risk policy allow"
         risk p
  else addPreflight "risk_gate" "pass" "risk policy allows dry-run preview" risk p.

(** The struct marshals its fields in declaration order. *)
Definition check_json (i : ReadinessItem) : json :=
  JObj [("Key", JStr (it_Key i)); ("Status", JStr (it_Status i)); ("Message", JStr (it_Message i));
        ("Metadata", JObj (it_Metadata i))].

Definition checks_json (l : list ReadinessItem) : json := JArr (List.map check_json l).

(** ** Rows *)

Definition insertRunnerPreviewRun (env : Env) (record : Record_) (version : WorkflowVersion)
    (o : RunnerPreviewOptions) (preflight : RunnerPreflight) : M RunRecord :=
  r <- insert_row (fun id =>
         MkRun id (p_ID record) (v_ID version) "runner_preview" "execution" "passed"
           (rp_RiskLevel o) (rp_RiskPolicy o) true
           (mk [("dry_run", JBool true); ("preflight_status", JStr (pf_Status preflight));
                ("task_count", JInt 1); ("attempt_count", JInt 2); ("artifact_count", JInt 1)])
           (mk [("actor", JStr (rp_Actor o)); ("reason", JStr (rp_Reason o));
                ("idempotency_key", JStr (rp_IdempotencyKey o)); ("phase", JStr "v0.5");
                ("dry_run", JBool true)])
           (env_now env) (Some (env_now env))) ;;
  ret (scanRun r).

Definition insertRunnerPreviewTask (env : Env) (record : Record_) (version : WorkflowVersion)
    (run : RunRecord) (o : RunnerPreviewOptions) (preflight : RunnerPreflight)
  : M RunTaskRecord :=
  t <- insert_row (fun id =>
         MkRunTask id (p_ID record) (v_ID version) 0 (r_ID run)
           (v_DisplayLabel version +:+ ":runner-preview") "workflow_item_preview" "queued"
           (rp_RiskLevel o) 1
           (mk [("actor", JStr (rp_Actor o)); ("reason", JStr (rp_Reason o));
                ("preflight_status", JStr (pf_Status preflight));
                ("copy_ready_source", JStr "not_materialized_in_v0.5_preview");
                ("verify_ready_source", JStr "not_materialized_in_v0.5_preview")])
           (env_now env) (env_now env)) ;;
  ret (scanRunTask t).

Definition runnerPreviewReport (record : Record_) (version : WorkflowVersion) (run : RunRecord)
    (task : RunTaskRecord) (o : RunnerPreviewOptions) (preflight : RunnerPreflight) : string :=
  marshal_indent (JObj (mk
    [("project", JStr (p_Key record)); ("display_label", JStr (v_DisplayLabel version));
     ("run_id", JInt (r_ID run)); ("run_task_id", JInt (t_ID task)); ("dry_run", JBool true);
     ("risk_level", JStr (rp_RiskLevel o)); ("risk_policy", JStr (rp_RiskPolicy o));
     ("preflight_status", JStr (pf_Status preflight));
     ("preflight_checks", checks_json (pf_Checks preflight));
     ("attempts", jstrs ["copy"; "verify"]); ("writes_attempted", JBool false);
     ("commands_run", JBool false); ("secrets_resolved", JBool false);
     ("network_used", JBool false)])).

Definition runnerPreviewPath (version : WorkflowVersion) (run : RunRecord) : string :=
  path_join [v_DisplayLabel version; "runner-preview";
             "run-" +:+ fmt_d (r_ID run) +:+ "-report.json"].

Definition writeAndInsertRunnerPreviewArtifact (env : Env) (record : Record_)
    (version : WorkflowVersion) (run : RunRecord) (task : RunTaskRecord)
    (o : RunnerPreviewOptions) (preflight : RunnerPreflight) : M ArtifactRecord :=
  let relativePath := runnerPreviewPath version run in
  st <- writeProjectArtifact env record relativePath
          (runnerPreviewReport record version run task o preflight) "application/json" ;;
  insertRunArtifactRecord env (p_ID record) (v_ID version) (r_ID run) (t_WorkflowItemID task)
    "runner_preview_report" relativePath st
    (mk [("phase", JStr "v0.5"); ("owned_by", JStr "areaflow"); ("dry_run", JBool true);
         ("run_id", JInt (r_ID run)); ("run_task_id", JInt (t_ID task));
         ("actor", JStr (rp_Actor o)); ("reason", JStr (rp_Reason o));
         ("idempotency_key", JStr (rp_IdempotencyKey o))]).

Definition insertRunnerPreviewAttempt (env : Env) (record : Record_) (version : WorkflowVersion)
    (run : RunRecord) (task : RunTaskRecord) (reportArtifactID : Z) (attemptKind : string)
    (o : RunnerPreviewOptions) : M RunAttemptRecord :=
  a <- insert_row (fun id =>
         MkRunAttempt id (p_ID record) (v_ID version) 0 (r_ID run) (t_ID task) attemptKind
           "passed" true
           (mk [("actor", JStr (rp_Actor o)); ("reason", JStr (rp_Reason o));
                ("dry_run", JBool true); ("would_execute", JBool false);
                ("evidence_artifact_id", JInt reportArtifactID);
                ("writes_attempted", JBool false); ("commands_run", JBool false);
                ("secrets_resolved", JBool false); ("network_used", JBool false);
                ("verify_can_mark_done", JBool false);
                ("checkpoint_would_execute", JBool false)])
           (env_now env) (Some (env_now env))) ;;
  ret (scanRunAttempt a).

Definition preview_fields (version : WorkflowVersion) (run : RunRecord) (task : RunTaskRecord)
    (report : ArtifactRecord) (o : RunnerPreviewOptions) (preflight : RunnerPreflight) : jmap :=
  [("display_label", JStr (v_DisplayLabel version)); ("workflow_version_id", JInt (v_ID version));
   ("run_id", JInt (r_ID run)); ("run_task_id", JInt (t_ID task));
   ("artifact_id", JInt (ar_ID report)); ("actor", JStr (rp_Actor o));
   ("risk_level", JStr (rp_RiskLevel o)); ("risk_policy", JStr (rp_RiskPolicy o));
   ("dry_run", JBool true); ("preflight_status", JStr (pf_Status preflight))].

Definition insertRunnerPreviewEvent (env : Env) (record : Record_) (version : WorkflowVersion)
    (run : RunRecord) (task : RunTaskRecord) (report : ArtifactRecord)
    (o : RunnerPreviewOptions) (preflight : RunnerPreflight) : M Z :=
  e <- insert_row (fun id =>
         MkEvent id (p_ID record) (r_ID run) (v_ID version) "runner.preview.completed" "info"
           "Runner preview dry-run completed"
           (mk (preview_fields version run task report o preflight
                ++ [("reason", JStr (rp_Reason o))]))
           (env_now env)) ;;
  ret (e_ID e).

Definition insertRunnerPreviewAuditEvent (env : Env) (record : Record_)
    (version : WorkflowVersion) (run : RunRecord) (task : RunTaskRecord)
    (report : ArtifactRecord) (o : RunnerPreviewOptions) (preflight : RunnerPreflight) : M Z :=
  a <- insert_row (fun id =>
         MkAudit id (p_ID record) 0 "runner.preview" "execute_agents" "workflow_version"
           (v_DisplayLabel version) "allowed" (rp_Reason o)
           (mk (preview_fields version run task report o preflight
                ++ [("checks", checks_json (pf_Checks preflight))]))
           (env_now env)) ;;
  ret (au_ID a).

(** The type, hash and size recorded are those of the first artifact with a
    type. *)
Definition first_typed (l : list ArtifactRecord) : option ArtifactRecord :=
  List.find (fun a => ar_ArtifactType a <>s "") l.

Definition runnerPreviewCommandResponse (r : RunnerPreviewResult) : jmap :=
  let a := first_typed (pw_Artifacts r) in
  mk [("project_id", JInt (p_ID (pw_Project r))); ("project_key", JStr (p_Key (pw_Project r)));
      ("workflow_version_id", JInt (v_ID (pw_Version r)));
      ("display_label", JStr (v_DisplayLabel (pw_Version r)));
      ("run_id", JInt (r_ID (pw_Run r))); ("run_type", JStr (r_RunType (pw_Run r)));
      ("run_status", JStr (r_Status (pw_Run r))); ("dry_run", JBool (r_DryRun (pw_Run r)));
      ("run_task_ids", jints (List.map t_ID (pw_Tasks r)));
      ("attempt_ids", jints (List.map at_ID (pw_Attempts r)));
      ("artifact_ids", jints (List.map ar_ID (pw_Artifacts r)));
      ("artifact_type", JStr (default "" (ar_ArtifactType <$> a)));
      ("artifact_sha256",
        JStr (match a with Some a => ar_SHA256 a
              | None => default "" (ar_SHA256 <$> last (pw_Artifacts r)) end));
      ("artifact_size_bytes",
        JInt (match a with Some a => ar_SizeBytes a
              | None => default 0 (ar_SizeBytes <$> last (pw_Artifacts r)) end));
      ("preflight_status", JStr (pf_Status (pw_Preflight r))); ("event_id", JInt (pw_EventID r));
      ("audit_event_id", JInt (pw_AuditEventID r));
      ("idempotency_key", JStr (pw_IdempotencyKey r)); ("project_write_attempted", JBool false);
      ("execution_write_attempted", JBool false); ("engine_call_attempted", JBool false);
      ("commands_run", JBool false); ("secrets_resolved", JBool false);
      ("network_used", JBool false); ("area_matrix_write_attempted", JBool false)].

(** ** Queries *)

(** ORDER BY key ASC, id ASC *)
Definition earlier {R} (key id : R -> Z) (a b : R) : bool :=
  (key a <? key b) || ((key a =? key b) && (id a <? id b)).

(** [scanArtifactRecordWithRun] keeps the run id. *)
Definition scanArtifactRecordWithRun (a : ArtifactRecord) : ArtifactRecord :=
  MkArtifact (ar_ID a) (ar_ProjectID a) (ar_WorkflowVersionID a) (ar_RunID a)
    (ar_WorkflowItemID a) (ar_ArtifactType a) (ar_StorageBackend a) (ar_URI a) (ar_SourcePath a)
    (ar_SHA256 a) (ar_SizeBytes a) (ar_ContentType a) (jmap_decode (ar_Metadata a))
    (ar_CreatedAt a).

Definition scanEvent (e : EventRecord) : EventRecord :=
  MkEvent (e_ID e) (e_ProjectID e) (e_RunID e) (e_WorkflowVersionID e) (e_Type e)
    (e_Severity e) (e_Message e) (jmap_decode (e_Metadata e)) (e_CreatedAt e).

Definition scanEventRows (l : list EventRecord) : list EventRecord := List.map scanEvent l.

Definition listRunTasks (runID : Z) : M (list RunTaskRecord) :=
  rows <- select_rows (fun t => t_RunID t =? runID) ;;
  ret (List.map scanRunTask (sort_stable (earlier t_Sequence t_ID) rows)).

Definition listRunAttempts (runID : Z) : M (list RunAttemptRecord) :=
  rows <- select_rows (fun a => at_RunID a =? runID) ;;
  ret (List.map scanRunAttempt (sort_stable (earlier at_StartedAt at_ID) rows)).

Definition listRunArtifacts (runID : Z) : M (list ArtifactRecord) :=
  rows <- select_rows (fun a => ar_RunID a =? runID) ;;
  ret (List.map scanArtifactRecordWithRun (sort_stable (earlier ar_CreatedAt ar_ID) rows)).

Definition GetRun (runID : Z) : M RunDetail :=
  if runID <=? 0 then fail (ErrText "run id is required")
  else
    run <- loadRunForUpdate runID ;;
    tasks <- listRunTasks (r_ID run) ;;
    attempts <- listRunAttempts (r_ID run) ;;
    artifacts <- listRunArtifacts (r_ID run) ;;
    ret (MkRunDetail run tasks attempts artifacts).

Definition ListWorkflowVersionRuns (record : Record_) (version : WorkflowVersion) (limit : Z)
  : M (list RunRecord) :=
  if p_ID record <=? 0 then fail (ErrText "project id is required")
  else if v_ID version <=? 0 then fail (ErrText "workflow version id is required")
  else
    rows <- select_rows (fun r => (r_ProjectID r =? p_ID record)
                                  && (r_WorkflowVersionID r =? v_ID version)) ;;
    ret (List.map scanRun (limit_rows 20 limit (sort_stable (later r_StartedAt r_ID) rows))).

Definition ListRunEvents (runID limit : Z) : M (list EventRecord) :=
  if runID <=? 0 then fail (ErrText "run id is required")
  else
    rows <- select_rows (fun e => e_RunID e =? runID) ;;
    ret (scanEventRows (limit_rows 20 limit (sort_stable (later e_CreatedAt e_ID) rows))).

Definition GetArtifact (artifactID : Z) : M ArtifactRecord :=
  if artifactID <=? 0 then fail (ErrText "artifact id is required")
  else
    rows <- select_rows (fun a => ar_ID a =? artifactID) ;;
    a <- map_err (no_rows_to ErrArtifactNotFound) (first_row rows) ;;
    ret (scanArtifactRecordWithRun a).

Definition ListProjectArtifacts (record : Record_) (limit : Z) : M (list ArtifactRecord) :=
  if p_ID record <=? 0 then fail (ErrText "project id is required")
  else
    rows <- select_rows (fun a => ar_ProjectID a =? p_ID record) ;;
    ret (List.map scanArtifactRecordWithRun
           (limit_rows 20 limit (sort_stable (later ar_CreatedAt ar_ID) rows))).

Definition ListWorkflowVersionArtifacts (record : Record_) (version : WorkflowVersion)
    (limit : Z) : M (list ArtifactRecord) :=
  if p_ID record <=? 0 then fail (ErrText "project id is required")
  else if v_ID version <=? 0 then fail (ErrText "workflow version id is required")
  else
    rows <- select_rows (fun a => (ar_ProjectID a =? p_ID record)
                                  && (ar_WorkflowVersionID a =? v_ID version)) ;;
    ret (List.map scanArtifactRecordWithRun
           (limit_rows 20 limit (sort_stable (later ar_CreatedAt ar_ID) rows))).

(** ** Reading an artifact back

    [s3_get] is the object store's client. *)

(** [LocalBackend.Get] *)
Definition getLocal (files : gmap string string) (uri : string) : res error string :=
  let path := trim_space uri in
  if path =s "" then Err (ErrText "local artifact URI is required")
  else match files !! path with
       | Some content => Ok content
       | None => Err (ErrText "read local artifact")
       end.

Definition ReadConfigured (s3_get : string -> res error string) (files : gmap string string)
    (backend uri : string) : res error string :=
  let b := to_lower (trim_space backend) in
  if b =s "local" then getLocal files uri
  else if (b =s "s3") || (b =s "object") then s3_get uri
  else Err (ErrText ("artifact backend " +:+ fmt_q backend +:+ " does not expose content")).

Definition content_error (e : error) : string :=
  match e with ErrText m => m | _ => "" end.

Definition readArtifactRecordContent (s3_get : string -> res error string)
    (record : ArtifactRecord) (w : World) : res error ArtifactContent :=
  let backend := ar_StorageBackend record in
  if (backend <>s "local") && (backend <>s "s3") && (backend <>s "object")
  then Err (ErrArtifactContentUnavailable
              ("storage backend " +:+ fmt_q backend +:+ " is metadata-only for content API"))
  else if trim_space (ar_URI record) =s ""
  then Err (ErrArtifactContentUnavailable "artifact URI is missing")
  else match ReadConfigured s3_get (wd_files w) backend (ar_URI record) with
       | Err e => Err (ErrArtifactContentUnavailable ("read artifact: " +:+ content_error e))
       | Ok content =>
           if (ar_SHA256 record <>s "") && (ar_SHA256 record <>s sha256_hex content)
           then Err (ErrArtifactContentMismatch "sha256 mismatch")
           else if (0 <? ar_SizeBytes record) && negb (ar_SizeBytes record =? len content)
           then Err (ErrArtifactContentMismatch "size mismatch")
           else Ok (MkContent record content
                      (trim_default "application/octet-stream" (ar_ContentType record)))
       end.

Definition ReadArtifactContent := readArtifactRecordContent.

(** ** The command *)

(** [metadata->>k = v] *)
Definition jsonb_text_is (k v : string) (m : jmap) : bool :=
  match mget k m with
  | None | Some JNull => false
  | Some (JStr s) => s =s v
  | Some j => marshal j =s v
  end.

Definition loadRunnerPreviewByIdempotency (record : Record_) (version : WorkflowVersion)
    (idempotencyKey : string) : M RunnerPreviewResult :=
  rows <- select_rows (fun r => (r_ProjectID r =? p_ID record)
            && (r_WorkflowVersionID r =? v_ID version) && (r_RunType r =s "runner_preview")
            && jsonb_text_is "idempotency_key" idempotencyKey (r_Metadata r)) ;;
  r <- first_row (sort_stable (later r_StartedAt r_ID) rows) ;;
  let run := scanRun r in
  tasks <- listRunTasks (r_ID run) ;;
  attempts <- listRunAttempts (r_ID run) ;;
  artifacts <- listRunArtifacts (r_ID run) ;;
  let o := MkRunnerPreview "" "" (r_RiskLevel run) (r_RiskPolicy run) idempotencyKey false in
  let preflight :=
    EvaluateRunnerPreflight record version (normalizeRunnerPreviewOptions record version o) in
  ret (MkRunnerPreviewResult record version run tasks attempts artifacts preflight false
         idempotencyKey 0 0).

Definition set_preview_ids (eventID auditEventID : Z) (r : RunnerPreviewResult)
  : RunnerPreviewResult :=
  MkRunnerPreviewResult (pw_Project r) (pw_Version r) (pw_Run r) (pw_Tasks r) (pw_Attempts r)
    (pw_Artifacts r) (pw_Preflight r) (pw_Created r) (pw_IdempotencyKey r) eventID auditEventID.

(** The response is used when it can be loaded. *)
Definition replayRunnerPreview (record : Record_) (version : WorkflowVersion) (key : string)
  : M (res error RunnerPreviewResult) :=
  result <- loadRunnerPreviewByIdempotency record version key ;;
  fun w =>
  match loadCommandResponse (p_ID record) "runner.preview" key w with
  | (Ok response, w) =>
      (Ok (Ok (set_preview_ids (metadataInt64 response "event_id")
                 (metadataInt64 response "audit_event_id") result)), w)
  | (Err _, w) => (Ok (Ok result), w)
  end.

Definition runnerPreviewBody (env : Env) (record : Record_) (version : WorkflowVersion)
    (o : RunnerPreviewOptions) (preflight : RunnerPreflight)
  : M (res error RunnerPreviewResult) :=
  run <- insertRunnerPreviewRun env record version o preflight ;;
  task <- insertRunnerPreviewTask env record version run o preflight ;;
  report <- writeAndInsertRunnerPreviewArtifact env record version run task o preflight ;;
  copy <- insertRunnerPreviewAttempt env record version run task (ar_ID report) "copy" o ;;
  verify <- insertRunnerPreviewAttempt env record version run task (ar_ID report) "verify" o ;;
  eventID <- insertRunnerPreviewEvent env record version run task report o preflight ;;
  auditEventID <- insertRunnerPreviewAuditEvent env record version run task report o preflight ;;
  let result :=
    MkRunnerPreviewResult record version run [task] [copy; verify] [report] preflight true
      (rp_IdempotencyKey o) eventID auditEventID in
  completeCommandRequestResponse env (p_ID record) "runner.preview" (rp_IdempotencyKey o)
    (runnerPreviewCommandResponse result) ;;;
  ret (Ok result).

Definition runnerPreviewTx (env : Env) (record : Record_) (label : string)
    (options : RunnerPreviewOptions) : M (res error RunnerPreviewResult) :=
  version <- authoredVersion record label ;;
  let o := normalizeRunnerPreviewOptions record version options in
  let preflight := EvaluateRunnerPreflight record version o in
  if pf_Status preflight =s "blocked" then fail (ErrRunnerPreviewBlocked (pf_Blockers preflight))
  else
    with_command env (p_ID record) "runner.preview" (rp_IdempotencyKey o)
      (runnerPreviewRequestHash record version o)
      (replayRunnerPreview record version (rp_IdempotencyKey o))
      (runnerPreviewBody env record version o preflight).

Definition PreviewRunner (env : Env) (record : Record_) (label : string)
    (options : RunnerPreviewOptions) (w : World) : res error RunnerPreviewResult * World :=
  transact (runnerPreviewTx env record label options) w.

#[export] Hint Unfold insertRunnerPreviewRun insertRunnerPreviewTask
  writeAndInsertRunnerPreviewArtifact insertRunnerPreviewAttempt insertRunnerPreviewEvent
  insertRunnerPreviewAuditEvent runnerPreviewBody runnerPreviewTx : prims.
