(* ===== verification/ArtifactMigration.v ===== *)
(** * Artifact locations: copying, activating, observing, reading

    [internal/project/artifact_migration.go], and [GetArtifactContent] of
    [internal/project/runner.go].  An artifact row names the place its content
    is read from; [artifact_locations] holds the places it was copied to and
    the places it left.  A migration copies the content to another backend and
    reads it back, activates the copy with an observation deadline, and
    completes the observation; reads fall back on the other locations.

    Deadlines are kept as RFC 3339 text in the row's metadata ([GoTime]).  The
    object store is not part of the sources: [s3_get] is what it answers to a
    read, before ([s3_get]) and after ([s3_back]) the copy was put.  The text
    PostgreSQL renders [now()] as is the argument [now_text]. *)

From stdpp Require Import base list strings numbers gmap.
From Stdlib Require Import ZArith Lia String.
From S2P Require Import Prelude GoString Sha256 Json GoTime Schema Tx FilePath Runner.

Record ArtifactMigrationItem := MkMigrationItem {
  mi_Artifact : ArtifactRecord; mi_Source : ArtifactLocation;
  mi_Target : option ArtifactLocation; mi_Status : string }.

Record ArtifactMigrationInventory_ := MkInventory {
  mv_Project : Record_; mv_SourceBackend : string; mv_TargetBackend : string;
  mv_Items : list ArtifactMigrationItem; mv_Pending : Z; mv_Verified : Z; mv_Activated : Z;
  mv_Observing : Z; mv_Stable : Z }.

Record CopyArtifactOptions := MkCopyArtifact {
  co_TargetBackend : string; co_TargetRoot : string; co_Actor : string; co_Reason : string }.

(** [ObservationUntil] in nanoseconds; the zero time is [zero_time]. *)
Record ActivateArtifactOptions := MkActivateArtifact {
  ao_TargetLocationID : Z; ao_ObservationUntil : Z; ao_Actor : string; ao_Reason : string }.

Record CompleteArtifactObservationOptions := MkCompleteObservation {
  cb_Actor : string; cb_Reason : string }.

(** ** Helpers *)

Definition normalizedArtifactBackend (value : string) : string :=
  let value := to_lower (trim_space value) in
  if value =s "object" then "s3" else value.

Definition artifactMigrationRelativePath (record : Record_) (source : ArtifactRecord)
  : res error string :=
  let path := trim_space (ar_SourcePath source) in
  let path := if path =s "" then "artifact-" +:+ fmt_d (ar_ID source) else path in
  let path := path_clean path in
  if is_abs path || (path =s ".") || has_prefix "../" path
  then Err (ErrText "artifact source path is outside project namespace")
  else Ok (path_join [p_Key record; "migration"; "artifact-" +:+ fmt_d (ar_ID source); path]).

Definition verifyMigratedArtifact (source : ArtifactRecord) (st : Stored) : res error unit :=
  if (ar_SHA256 source <>s "") && (ar_SHA256 source <>s s_SHA256 st)
  then Err (ErrText "migrated artifact sha256 mismatch")
  else if (0 <? ar_SizeBytes source) && negb (ar_SizeBytes source =? s_SizeBytes st)
  then Err (ErrText "migrated artifact size mismatch")
  else Ok tt.

Definition verifyMigratedArtifactContent (source : ArtifactRecord) (content : string)
  : res error unit :=
  if (ar_SHA256 source <>s "") && (ar_SHA256 source <>s sha256_hex content)
  then Err (ErrText "migrated artifact readback sha256 mismatch")
  else if (0 <? ar_SizeBytes source) && negb (ar_SizeBytes source =? len content)
  then Err (ErrText "migrated artifact readback size mismatch")
  else Ok tt.

(** [value, _ := metadata[key].(string)]: the empty string unless a string is there *)
Definition artifactMetadataString (metadata : jmap) (key : string) : string :=
  match mget key metadata with Some (JStr s) => trim_space s | _ => "" end.

Definition locationFromArtifact (record : ArtifactRecord) (role : string) : ArtifactLocation :=
  MkLocation 0 (ar_ProjectID record) (ar_ID record) role (ar_StorageBackend record)
    (ar_URI record) (ar_SHA256 record) (ar_SizeBytes record) (ar_ContentType record)
    (Some (ar_CreatedAt record)) [] 0.

Definition scanArtifactLocation (l : ArtifactLocation) : ArtifactLocation :=
  MkLocation (al_ID l) (al_ProjectID l) (al_ArtifactID l) (al_Role l) (al_StorageBackend l)
    (al_URI l) (al_SHA256 l) (al_SizeBytes l) (al_ContentType l) (al_VerifiedAt l)
    (jmap_decode (al_Metadata l)) (al_CreatedAt l).

(** ** The table

    Its unique index is on [(artifact_id, location_role, uri)]. *)

Definition location_is (artifactID : Z) (role uri : string) (l : ArtifactLocation) : bool :=
  (al_ArtifactID l =? artifactID) && (al_Role l =s role) && (al_URI l =s uri).
Definition location_clash (l l' : ArtifactLocation) : bool :=
  location_is (al_ArtifactID l) (al_Role l) (al_URI l) l'.

(** [UPDATE ... SET f WHERE p] on a table with a unique index that is not
    deferrable: the rows are visited one after the other, in table order, and
    a new version that clashes with a live row ends the statement. *)
Fixpoint update_each (p : ArtifactLocation -> bool) (f : ArtifactLocation -> ArtifactLocation)
    (done todo : list ArtifactLocation) : option (list ArtifactLocation) :=
  match todo with
  | [] => Some done
  | l :: rest =>
      if p l then
        if existsb (location_clash (f l)) (done ++ rest) then None
        else update_each p f (done ++ [f l]) rest
      else update_each p f (done ++ [l]) rest
  end.

Definition update_locations (p : ArtifactLocation -> bool)
    (f : ArtifactLocation -> ArtifactLocation) : M unit := fun w =>
  let t := db_artifact_locations (wd_db w) in
  match update_each p f [] (t_rows t) with
  | Some rows => (Ok tt, set_db (set_artifact_locations (MkTable rows (t_next t)) (wd_db w)) w)
  | None => (Err (ErrUniqueViolation "artifact_locations_artifact_role_uri_idx"), w)
  end.

(** [ON CONFLICT (artifact_id, location_role, uri) DO UPDATE SET merge] *)
Definition upsert_location (row : Z -> ArtifactLocation)
    (merge : ArtifactLocation -> ArtifactLocation) : M ArtifactLocation :=
  let key := row 0 in
  rows <- select_rows (location_clash key) ;;
  match rows with
  | [] => insert_row row
  | _ => rows <- update_rows (location_clash key) merge ;; first_row rows
  end.

Definition location_with (sha : string) (size : Z) (ct : string) (verified : option Z)
    (metadata : jmap) (l : ArtifactLocation) : ArtifactLocation :=
  MkLocation (al_ID l) (al_ProjectID l) (al_ArtifactID l) (al_Role l) (al_StorageBackend l)
    (al_URI l) sha size ct verified metadata (al_CreatedAt l).

(** The row the statement inserts, and what it makes of a row that is there *)
Definition location_row (env : Env) (source : ArtifactRecord) (location : ArtifactLocation)
    (verifiedAt : option Z) (metadata : jmap) (id : Z) : ArtifactLocation :=
  MkLocation id (ar_ProjectID source) (ar_ID source) (al_Role location)
    (al_StorageBackend location) (al_URI location) (al_SHA256 location) (al_SizeBytes location)
    (al_ContentType location) verifiedAt metadata (env_now env).
Definition location_merge (location : ArtifactLocation) (verifiedAt : option Z) (metadata : jmap)
    (l : ArtifactLocation) : ArtifactLocation :=
  location_with (al_SHA256 location) (al_SizeBytes location) (al_ContentType location)
    (match verifiedAt with Some t => Some t | None => al_VerifiedAt l end)
    (jsonb_concat (al_Metadata l) metadata) l.

Definition upsertArtifactLocation (env : Env) (source : ArtifactRecord)
    (location : ArtifactLocation) (verifiedAt : option Z) (metadata : jmap)
  : M ArtifactLocation :=
  l <- upsert_location (location_row env source location verifiedAt metadata)
         (location_merge location verifiedAt metadata) ;;
  ret (scanArtifactLocation l).

Definition loadArtifactForMigration (projectID artifactID : Z) : M ArtifactRecord :=
  rows <- select_rows (fun a => (ar_ProjectID a =? projectID) && (ar_ID a =? artifactID)) ;;
  a <- map_err (no_rows_to ErrArtifactNotFound) (first_row rows) ;;
  ret (scanArtifactRecordWithRun a).

Definition loadArtifactLocationForUpdate (projectID artifactID locationID : Z)
  : M ArtifactLocation :=
  rows <- select_rows (fun l => (al_ProjectID l =? projectID) && (al_ArtifactID l =? artifactID)
                                && (al_ID l =? locationID)) ;;
  l <- map_err (no_rows_to (ErrText "artifact migration target location not found"))
         (first_row rows) ;;
  ret (scanArtifactLocation l).

(** The audit row has no actor id; the actor is in its metadata. *)
Definition insertArtifactMigrationAudit (env : Env) (projectID : Z) (action : string)
    (artifactID : Z) (actor reason : string) (metadata : jmap) : M unit :=
  insert_row (fun id =>
    MkAudit id projectID 0 action "manage_artifacts" "artifact" (fmt_d artifactID) "allowed"
      (trim_space reason) (mset "actor" (JStr (trim_space actor)) metadata) (env_now env)) ;;;
  ret tt.

(** ** Copy *)

Definition retained : jmap := mk [("status", JStr "retained"); ("delete_allowed", JBool false)].

Definition candidateLocation (source : ArtifactRecord) (st : Stored) : ArtifactLocation :=
  MkLocation 0 (ar_ProjectID source) (ar_ID source) "migration_candidate" (s_Backend st)
    (s_URI st) (s_SHA256 st) (s_SizeBytes st) (s_ContentType st) None [] 0.

(** What happens before the transaction: the copy is written and read back. *)
Definition copyToTarget (env : Env) (s3_get s3_back : string -> res error string)
    (record : Record_) (artifactID : Z) (o : CopyArtifactOptions)
  : M (ArtifactRecord * Stored) :=
  source <- GetArtifact artifactID ;;
  if negb (ar_ProjectID source =? p_ID record) then fail ErrArtifactNotFound
  else
    content <- (fun w => (readArtifactRecordContent s3_get source w, w)) ;;
    relativePath <- lift (artifactMigrationRelativePath record source) ;;
    st <- WriteConfigured env (co_TargetBackend o) (co_TargetRoot o) relativePath
            (cn_Content content) (cn_ContentType content) ;;
    lift (verifyMigratedArtifact source st) ;;;
    verifiedContent <- (fun w => (ReadConfigured s3_back (wd_files w) (s_Backend st) (s_URI st), w)) ;;
    lift (verifyMigratedArtifactContent source verifiedContent) ;;;
    ret (source, st).

Definition copyTx (env : Env) (o : CopyArtifactOptions) (source : ArtifactRecord) (st : Stored)
  : M (res error ArtifactLocation) :=
  upsertArtifactLocation env source (locationFromArtifact source "migration_source") None
    retained ;;;
  let verifiedAt := env_unixnano env / 1000 in
  target <- upsertArtifactLocation env source (candidateLocation source st) (Some verifiedAt)
    (mk [("status", JStr "verified"); ("actor", JStr (trim_space (co_Actor o)));
         ("reason", JStr (trim_space (co_Reason o)))]) ;;
  insertArtifactMigrationAudit env (ar_ProjectID source) "artifact.migration.copy"
    (ar_ID source) (co_Actor o) (co_Reason o)
    (mk [("source_backend", JStr (ar_StorageBackend source)); ("source_uri", JStr (ar_URI source));
         ("target_backend", JStr (al_StorageBackend target)); ("target_uri", JStr (al_URI target));
         ("target_location_id", JInt (al_ID target)); ("sha256", JStr (al_SHA256 target));
         ("size_bytes", JInt (al_SizeBytes target))]) ;;;
  ret (Ok target).

Definition CopyArtifactToBackend (env : Env) (s3_get s3_back : string -> res error string)
    (record : Record_) (artifactID : Z) (o : CopyArtifactOptions) (w : World)
  : res error ArtifactLocation * World :=
  if (p_ID record <=? 0) || (artifactID <=? 0)
  then (Err (ErrText "project id and artifact id are required"), w)
  else
    let o := MkCopyArtifact (normalizedArtifactBackend (co_TargetBackend o)) (co_TargetRoot o)
               (co_Actor o) (co_Reason o) in
    if (co_TargetBackend o =s "") || (trim_space (co_Actor o) =s "")
       || (trim_space (co_Reason o) =s "")
    then (Err (ErrText "target backend, actor and reason are required"), w)
    else match copyToTarget env s3_get s3_back record artifactID o w with
         | (Err e, w1) => (Err e, w1)
         | (Ok (source, st), w1) => transact (copyTx env o source st) w1
         end.

(** ** Activate *)

(** The role and the metadata the promotion gives a location of the artifact *)
Definition promote (o : ActivateArtifactOptions) (l : ArtifactLocation) : ArtifactLocation :=
  let chosen := al_ID l =? ao_TargetLocationID o in
  MkLocation (al_ID l) (al_ProjectID l) (al_ArtifactID l)
    (if chosen then "primary"
     else if al_Role l =s "primary" then "migration_source" else al_Role l)
    (al_StorageBackend l) (al_URI l) (al_SHA256 l) (al_SizeBytes l) (al_ContentType l)
    (al_VerifiedAt l)
    (jsonb_concat (al_Metadata l)
       (if chosen
        then mk [("status", JStr "observing");
                 ("observation_until", JStr (format_rfc3339 (ao_ObservationUntil o)));
                 ("actor", JStr (trim_space (ao_Actor o)));
                 ("reason", JStr (trim_space (ao_Reason o)))]
        else retained))
    (al_CreatedAt l).

(** The place the artifact leaves stays, marked as retained. *)
Definition keep_retained (l : ArtifactLocation) : ArtifactLocation :=
  location_with (al_SHA256 l) (al_SizeBytes l) (al_ContentType l) (al_VerifiedAt l)
    (jsonb_concat (al_Metadata l) retained) l.

(** The artifact row moves to the chosen location. *)
Definition moved_to (target : ArtifactLocation) (metadata : jmap) (a : ArtifactRecord)
  : ArtifactRecord :=
  MkArtifact (ar_ID a) (ar_ProjectID a) (ar_WorkflowVersionID a) (ar_RunID a)
    (ar_WorkflowItemID a) (ar_ArtifactType a) (al_StorageBackend target) (al_URI target)
    (ar_SourcePath a) (al_SHA256 target) (al_SizeBytes target) (al_ContentType target)
    (jsonb_concat (ar_Metadata a) metadata) (ar_CreatedAt a).

Definition activateTx (env : Env) (record : Record_) (artifactID : Z)
    (o : ActivateArtifactOptions) : M (res error ArtifactRecord) :=
  source <- loadArtifactForMigration (p_ID record) artifactID ;;
  target <- loadArtifactLocationForUpdate (p_ID record) artifactID (ao_TargetLocationID o) ;;
  if negb (match al_VerifiedAt target with Some _ => true | None => false end)
     || (al_SHA256 target <>s ar_SHA256 source)
     || negb (al_SizeBytes target =? ar_SizeBytes source)
  then fail (ErrText "target artifact location is not verified against source metadata")
  else
    update_locations (fun l => (al_ProjectID l =? p_ID record) && (al_ArtifactID l =? artifactID))
      (promote o) ;;;
    upsert_location
      (location_row env source (locationFromArtifact source "migration_source")
         (Some (env_now env)) retained)
      keep_retained ;;;
    rows <- update_rows
              (fun a => (ar_ProjectID a =? p_ID record) && (ar_ID a =? artifactID))
              (moved_to target
                 (mk [("artifact_migration_status", JStr "observing");
                      ("artifact_migration_observation_until",
                        JStr (format_rfc3339 (ao_ObservationUntil o)))])) ;;
    updated <- first_row rows ;;
    insertArtifactMigrationAudit env (ar_ProjectID source) "artifact.migration.activate"
      (ar_ID source) (ao_Actor o) (ao_Reason o)
      (mk [("source_backend", JStr (ar_StorageBackend source));
           ("source_uri", JStr (ar_URI source));
           ("target_backend", JStr (al_StorageBackend target));
           ("target_uri", JStr (al_URI target)); ("target_location_id", JInt (al_ID target));
           ("observation_until", JStr (format_rfc3339 (ao_ObservationUntil o)))]) ;;;
    ret (Ok (scanArtifactRecordWithRun updated)).

Definition ActivateArtifactLocation (env : Env) (record : Record_) (artifactID : Z)
    (o : ActivateArtifactOptions) (w : World) : res error ArtifactRecord * World :=
  if (p_ID record <=? 0) || (artifactID <=? 0) || (ao_TargetLocationID o <=? 0)
  then (Err (ErrText "project, artifact and target location ids are required"), w)
  else if (trim_space (ao_Actor o) =s "") || (trim_space (ao_Reason o) =s "")
          || (ao_ObservationUntil o =? zero_time)
  then (Err (ErrText "actor, reason and observation deadline are required"), w)
  else if negb (env_unixnano env <? ao_ObservationUntil o)
  then (Err (ErrText "observation deadline must be in the future"), w)
  else transact (activateTx env record artifactID o) w.

(** ** Complete *)

Definition observed (now_text : string) (o : CompleteArtifactObservationOptions)
    (l : ArtifactLocation) : ArtifactLocation :=
  location_with (al_SHA256 l) (al_SizeBytes l) (al_ContentType l) (al_VerifiedAt l)
    (jsonb_concat (al_Metadata l)
       (mk [("status", JStr "stable"); ("observed_at", JStr now_text);
            ("actor", JStr (trim_space (cb_Actor o))); ("reason", JStr (trim_space (cb_Reason o)))]))
    l.

Definition artifact_with_metadata (metadata : jmap) (a : ArtifactRecord) : ArtifactRecord :=
  MkArtifact (ar_ID a) (ar_ProjectID a) (ar_WorkflowVersionID a) (ar_RunID a)
    (ar_WorkflowItemID a) (ar_ArtifactType a) (ar_StorageBackend a) (ar_URI a) (ar_SourcePath a)
    (ar_SHA256 a) (ar_SizeBytes a) (ar_ContentType a) (jsonb_concat (ar_Metadata a) metadata)
    (ar_CreatedAt a).

Definition verified_primary (projectID artifactID : Z) (l : ArtifactLocation) : bool :=
  (al_ProjectID l =? projectID) && (al_ArtifactID l =? artifactID) && (al_Role l =s "primary")
  && match al_VerifiedAt l with Some _ => true | None => false end.

Definition completeTx (env : Env) (now_text : string) (record : Record_) (artifactID : Z)
    (o : CompleteArtifactObservationOptions) : M (res error ArtifactRecord) :=
  recordState <- loadArtifactForMigration (p_ID record) artifactID ;;
  if artifactMetadataString (ar_Metadata recordState) "artifact_migration_status" =s "stable"
  then ret (Ok recordState)
  else match parse_rfc3339 (artifactMetadataString (ar_Metadata recordState)
                              "artifact_migration_observation_until") with
       | None => fail (ErrText "artifact observation deadline is missing or invalid")
       | Some deadline =>
           if env_unixnano env <? deadline
           then fail (ErrText "artifact observation period has not completed")
           else
             result <- update_rows (verified_primary (p_ID record) artifactID)
                         (observed now_text o) ;;
             if negb (Z.of_nat (List.length result) =? 1)
             then fail (ErrText "exactly one verified primary artifact location is required")
             else
               rows <- update_rows
                         (fun a => (ar_ProjectID a =? p_ID record) && (ar_ID a =? artifactID))
                         (artifact_with_metadata
                            (mk [("artifact_migration_status", JStr "stable");
                                 ("artifact_migration_observed_at", JStr now_text)])) ;;
               updated <- first_row rows ;;
               insertArtifactMigrationAudit env (p_ID record)
                 "artifact.migration.observe.complete" artifactID (cb_Actor o) (cb_Reason o)
                 (mk [("storage_backend", JStr (ar_StorageBackend updated));
                      ("uri", JStr (ar_URI updated));
                      ("observation_until", JStr (format_rfc3339 deadline))]) ;;;
               ret (Ok (scanArtifactRecordWithRun updated))
       end.

Definition CompleteArtifactObservation (env : Env) (now_text : string) (record : Record_)
    (artifactID : Z) (o : CompleteArtifactObservationOptions) (w : World)
  : res error ArtifactRecord * World :=
  if (p_ID record <=? 0) || (artifactID <=? 0)
  then (Err (ErrText "project id and artifact id are required"), w)
  else if (trim_space (cb_Actor o) =s "") || (trim_space (cb_Reason o) =s "")
  then (Err (ErrText "actor and reason are required"), w)
  else transact (completeTx env now_text record artifactID o) w.

(** ** Inventory *)

Definition artifactMigrationStatus (item : ArtifactMigrationItem) : string :=
  match mi_Target item with
  | None => "pending"
  | Some target =>
      if al_Role target =s "primary" then
        let status := artifactMetadataString (al_Metadata target) "status" in
        if (status =s "observing") || (status =s "stable") then status else "activated"
      else if match al_VerifiedAt target with Some _ => true | None => false end
              && (al_SHA256 target =s ar_SHA256 (mi_Artifact item))
              && (al_SizeBytes target =? ar_SizeBytes (mi_Artifact item))
      then "verified" else "pending"
  end.

(** [ORDER BY (location_role = role) DESC, verified_at DESC NULLS LAST, id DESC] *)
Definition location_before (role : string) (a b : ArtifactLocation) : bool :=
  let ra := al_Role a =s role in let rb := al_Role b =s role in
  if negb (Bool.eqb ra rb) then ra
  else match al_VerifiedAt a, al_VerifiedAt b with
       | Some ta, Some tb => (tb <? ta) || ((ta =? tb) && (al_ID b <? al_ID a))
       | Some _, None => true
       | None, Some _ => false
       | None, None => al_ID b <? al_ID a
       end.

(** The lateral join: the first location of the artifact on a backend *)
Definition location_on (backend role : string) (locations : list ArtifactLocation)
    (a : ArtifactRecord) : option ArtifactLocation :=
  head (sort_stable (location_before role)
    (List.filter (fun l => (al_ArtifactID l =? ar_ID a) && (al_StorageBackend l =s backend))
       locations)).

(** The query replaces the location's project by the inventory's. *)
Definition inventory_location (record : Record_) (l : ArtifactLocation) : ArtifactLocation :=
  let l := scanArtifactLocation l in
  MkLocation (al_ID l) (p_ID record) (al_ArtifactID l) (al_Role l) (al_StorageBackend l)
    (al_URI l) (al_SHA256 l) (al_SizeBytes l) (al_ContentType l) (al_VerifiedAt l)
    (al_Metadata l) (al_CreatedAt l).

Definition migration_item (record : Record_) (sourceBackend targetBackend : string)
    (locations : list ArtifactLocation) (a : ArtifactRecord) : ArtifactMigrationItem :=
  let artifact := scanArtifactRecordWithRun a in
  let item := MkMigrationItem artifact
    (match location_on sourceBackend "migration_source" locations a with
     | Some l => inventory_location record l
     | None => locationFromArtifact artifact "primary"
     end)
    (inventory_location record <$> location_on targetBackend "primary" locations a) "" in
  MkMigrationItem (mi_Artifact item) (mi_Source item) (mi_Target item)
    (artifactMigrationStatus item).

Definition count_status (item : ArtifactMigrationItem) (v : ArtifactMigrationInventory_)
  : ArtifactMigrationInventory_ :=
  let s := mi_Status item in
  let items := mv_Items v ++ [item] in
  if (s =s "activated") || (s =s "observing") || (s =s "stable")
  then MkInventory (mv_Project v) (mv_SourceBackend v) (mv_TargetBackend v) items (mv_Pending v)
         (mv_Verified v) (mv_Activated v + 1)
         (if s =s "observing" then mv_Observing v + 1 else mv_Observing v)
         (if s =s "stable" then mv_Stable v + 1 else mv_Stable v)
  else if s =s "verified"
  then MkInventory (mv_Project v) (mv_SourceBackend v) (mv_TargetBackend v) items (mv_Pending v)
         (mv_Verified v + 1) (mv_Activated v) (mv_Observing v) (mv_Stable v)
  else MkInventory (mv_Project v) (mv_SourceBackend v) (mv_TargetBackend v) items
         (mv_Pending v + 1) (mv_Verified v) (mv_Activated v) (mv_Observing v) (mv_Stable v).

Definition ArtifactMigrationInventory (record : Record_) (sourceBackend targetBackend : string)
  : M ArtifactMigrationInventory_ :=
  if p_ID record <=? 0 then fail (ErrText "project id is required")
  else
    let sourceBackend := normalizedArtifactBackend sourceBackend in
    let targetBackend := normalizedArtifactBackend targetBackend in
    locations <- select_rows (fun _ : ArtifactLocation => true) ;;
    artifacts <- select_rows (fun a => (ar_ProjectID a =? p_ID record)
                   && ((ar_StorageBackend a =s sourceBackend)
                       || match location_on sourceBackend "migration_source" locations a with
                          | Some _ => true | None => false
                          end)) ;;
    ret (fold_left
           (fun v a => count_status (migration_item record sourceBackend targetBackend locations a) v)
           (sort_stable (fun a b => ar_ID a <? ar_ID b) artifacts)
           (MkInventory record sourceBackend targetBackend [] 0 0 0 0 0)).

(** ** Reading with fallback *)

Definition role_rank (role : string) : Z :=
  if role =s "primary" then 0 else if role =s "migration_candidate" then 1 else 2.

Definition artifactReadLocations (artifactID : Z) : M (list ArtifactLocation) :=
  rows <- select_rows (fun l => (al_ArtifactID l =? artifactID)
            && str_in (al_Role l) ["primary"; "migration_candidate"; "migration_source"]) ;;
  ret (List.map scanArtifactLocation
         (sort_stable (fun a b => (role_rank (al_Role a) <? role_rank (al_Role b))
                         || ((role_rank (al_Role a) =? role_rank (al_Role b))
                             && (al_ID b <? al_ID a))) rows)).

(** The artifact as read from another location *)
Definition at_location (record : ArtifactRecord) (l : ArtifactLocation) : ArtifactRecord :=
  MkArtifact (ar_ID record) (ar_ProjectID record) (ar_WorkflowVersionID record)
    (ar_RunID record) (ar_WorkflowItemID record) (ar_ArtifactType record) (al_StorageBackend l)
    (al_URI l) (ar_SourcePath record) (al_SHA256 l) (al_SizeBytes l) (al_ContentType l)
    (ar_Metadata record) (ar_CreatedAt record).

Definition skipped (record : ArtifactRecord) (l : ArtifactLocation) : bool :=
  ((al_StorageBackend l =s ar_StorageBackend record) && (al_URI l =s ar_URI record))
  || ((al_Role l =s "migration_source")
      && (artifactMetadataString (ar_Metadata record) "artifact_migration_status" <>s "observing")).

Fixpoint read_fallback (s3_get : string -> res error string) (record : ArtifactRecord)
    (locations : list ArtifactLocation) (primaryErr : error) (w : World)
  : res error ArtifactContent :=
  match locations with
  | [] => Err primaryErr
  | l :: rest =>
      if skipped record l then read_fallback s3_get record rest primaryErr w
      else match readArtifactRecordContent s3_get (at_location record l) w with
           | Ok c => Ok (MkContent record (cn_Content c) (cn_ContentType c))
           | Err e => read_fallback s3_get record rest (ErrJoin [primaryErr; e]) w
           end
  end.

Definition GetArtifactContent (s3_get : string -> res error string) (artifactID : Z)
  : M ArtifactContent :=
  record <- GetArtifact artifactID ;;
  fun w => match readArtifactRecordContent s3_get record w with
           | Ok content => (Ok content, w)
           | Err primaryErr =>
               (locations <- artifactReadLocations artifactID ;;
                fun w => (read_fallback s3_get record locations primaryErr w, w)) w
           end.
