(* ===== verification/EnginePreview.v ===== *)
(** * Engine adapter preview

    [internal/project/engine_preview.go]: the read-only preview of the Codex
    CLI adapter, computed from the project's active configuration and its
    permissions ([permission_doctor.go] holds the index).  It never allows an
    execution: at best it asks for an approval. *)

From stdpp Require Import base list strings numbers.
From Stdlib Require Import ZArith Lia Ascii String.
From S2P Require Import Prelude GoString Json Schema Tx Command Capability Config Schedule.
From S2P Require Import FilePath Permission.

(** The active configuration snapshot of a project, as it is read back *)
Record ProjectConfigRecord := MkConfigRecord {
  pc_ID : Z; pc_ProjectID : Z; pc_ProtocolVersion : Z; pc_ConfigPath : string;
  pc_ConfigHash : string; pc_Ownership : jmap; pc_Permissions : jmap; pc_Scheduling : jmap;
  pc_Engines : jmap; pc_StatusExport : jmap; pc_Migration : jmap; pc_Metadata : jmap;
  pc_Active : bool; pc_LoadedAt : Z; pc_LoadedByActorID : Z }.

Record EngineCommandPreview := MkCommandPreview {
  ec_Command : string; ec_Allowed : bool; ec_Reason : string; ec_CapabilityAllowed : bool;
  ec_CommandAllowed : bool; ec_Denied : bool }.

Record EngineCapabilityPreflight := MkCapabilityPreflight {
  cf_Capability : string; cf_Required : bool; cf_Allowed : bool; cf_Reason : string }.

Record EnginePathPreflight := MkPathPreflight {
  pp_Path : string; pp_Capability : string; pp_Effect : string; pp_Allowed : bool;
  pp_Reason : string }.

Record ArtifactRedactionPlan := MkRedactionPlan {
  rd_Status : string; rd_RetentionClass : string; rd_Rules : list string;
  rd_RedactedFields : list string }.

(** The safety facts ([ProjectWriteAttempted] and the like) are never set. *)
Record CodexCLIAdapterPreview := MkAdapterPreview {
  cx_Project : Record_; cx_Status : string; cx_Mode : string; cx_Engine : EngineReadiness;
  cx_Command : EngineCommandPreview; cx_Capabilities : list EngineCapabilityPreflight;
  cx_Paths : list EnginePathPreflight; cx_ArtifactRedaction : ArtifactRedactionPlan;
  cx_ForbiddenActions : list string; cx_Blockers : list string; cx_ExecutionAllowed : bool }.

(** ** Reading the configuration *)

Definition stringFromMap (values : jmap) (key : string) : string :=
  match mget key values with Some (JStr s) => trim_space s | _ => "" end.

Definition boolFromMap (values : jmap) (key : string) : bool :=
  match mget key values with
  | Some (JBool b) => b
  | Some (JStr s) => s =s "true"
  | _ => false
  end.

Definition mapAnyFromMap (values : jmap) (key : string) : jmap :=
  match mget key values with Some (JObj m) => m | _ => [] end.

(** The boolean entries of a section; [capabilities[k]] of an absent key is
    false. *)
Definition mapFromConfigPart (root : jmap) (key : string) : list (string * bool) :=
  match mget key root with
  | Some (JObj m) =>
      flat_map (fun kv => match snd kv with
                          | JBool b => [(fst kv, b)]
                          | JStr s => [(fst kv, s =s "true")]
                          | _ => []
                          end) m
  | _ => []
  end.

Definition flag (capabilities : list (string * bool)) (k : string) : bool :=
  match List.find (fun kv => fst kv =s k) capabilities with Some kv => snd kv | None => false end.

(** The path has one key at every call. *)
Definition stringSliceFromConfigPart (root : jmap) (key : string) : list string :=
  match mget key root with
  | Some (JArr l) =>
      flat_map (fun item => match item with
                            | JStr s => if trim_space s =s "" then [] else [trim_space s]
                            | _ => []
                            end) l
  | _ => []
  end.

(** ** Permissions *)

Definition nul : string := String (chr 0) "".

Definition permissionPolicyKey (effect capability resourceType pattern : string) : string :=
  trim_space effect +:+ nul +:+ trim_space capability +:+ nul +:+ trim_space resourceType
  +:+ nul +:+ trim_space pattern.

(** The keys of the index *)
Definition permissionPolicyIndex (rows : list permissionRow) : list string :=
  List.map (fun r => permissionPolicyKey (pr_Effect r) (pr_Capability r) (pr_ResourceType r)
                       (pr_Pattern r)) rows.

Definition hasPermission (index : list string) (effect capability resourceType pattern : string)
  : bool :=
  existsb (String.eqb (permissionPolicyKey effect capability resourceType pattern)) index.

Definition projectPermissionRows (rows : list permissionRow) (projectID : Z)
  : list permissionRow := List.filter (fun r => pr_ProjectID r =? projectID) rows.

(** ** The preview *)

Definition codexPreviewCommand (command : string) : string := trim_default "codex exec" command.

Definition codexCommandReason (p : CommandPermission) : string :=
  if cp_Denied p then if cp_Reason p <>s "" then cp_Reason p else "command denied"
  else if negb (cp_CapabilityAllowed p) then "run_commands capability not allowed"
  else if negb (cp_CommandAllowed p) then "command not allowed"
  else "allowed".

Definition engineProfileFromConfigMap (engines : jmap) (profileID : string)
  : option EngineProfileConfig :=
  match mget "profiles" engines with
  | Some (JArr l) =>
      match List.find (fun raw => match raw with
                                  | JObj m => stringFromMap m "id" =s profileID
                                  | _ => false
                                  end) l with
      | Some (JObj m) =>
          Some (MkEngineProfile (stringFromMap m "id") (stringFromMap m "provider")
                  (stringFromMap m "secret_ref") (boolFromMap m "enabled")
                  (Some (mapAnyFromMap m "resource_limits")))
      | _ => None
      end
  | _ => None
  end.

Definition engine_missing (profileID reason : string) : EngineReadiness :=
  MkEngineReadiness profileID "codex-cli" false "none" false true (Some []) "blocked" [reason].

Definition codexPreviewEngineReadiness (config : option ProjectConfigRecord) : EngineReadiness :=
  match config with
  | None => engine_missing "codex-cli" "project_config_missing"
  | Some c =>
      let profileID := stringFromMap (pc_Scheduling c) "engine_profile" in
      let profileID :=
        if profileID =s "" then stringFromMap (pc_Engines c) "default" else profileID in
      let profileID := if profileID =s "" then "codex-cli" else profileID in
      match engineProfileFromConfigMap (pc_Engines c) profileID with
      | None => engine_missing profileID "engine_profile_missing"
      | Some profile => engineReadinessFromProfile profile
      end
  end.

Definition codexPreviewRequiredCapabilities (config : option ProjectConfigRecord)
  : list string :=
  normalizeStringList
    (["read_project"; "write_artifacts"; "execute_agents"; "run_commands"]
     ++ match config with
        | Some c => stringSliceFromConfigPart (pc_Scheduling c) "required_capabilities"
        | None => []
        end).

Definition pathPreflight (path capability effect : string) (capabilities : list (string * bool))
    (index : list string) : EnginePathPreflight :=
  let allowed := flag capabilities capability && hasPermission index effect capability "path" path in
  MkPathPreflight path capability effect allowed
    (if negb (flag capabilities capability) then capability +:+ " capability not allowed"
     else if negb allowed then "path not allowed" else "allowed").

Definition artifactStoreAllowed (capabilities : list (string * bool)) (index : list string)
  : bool :=
  flag capabilities "write_artifacts"
  || hasPermission index "allow" "write_artifacts" "capability" "write_artifacts".

Definition artifactStoreReason (capabilities : list (string * bool)) (index : list string)
  : string :=
  if artifactStoreAllowed capabilities index
  then "artifact store metadata write is allowed; managed project writes remain forbidden"
  else "write_artifacts capability not allowed".

Definition forbiddenPreflight (index : list string) (path : string) : EnginePathPreflight :=
  let allowed := hasPermission index "deny" "*" "path" path in
  MkPathPreflight path "*" "deny" allowed
    (if allowed then "forbidden path denied" else "forbidden path deny missing").

Definition codexPreviewPaths (config : option ProjectConfigRecord)
    (capabilities : list (string * bool)) (index : list string) : list EnginePathPreflight :=
  match config with
  | None => []
  | Some c =>
      List.map (fun path => pathPreflight path "read_project" "allow" capabilities index)
        (stringSliceFromConfigPart (pc_Permissions c) "read_paths")
      ++ List.map (forbiddenPreflight index)
           (stringSliceFromConfigPart (pc_Permissions c) "forbidden_paths")
      ++ [MkPathPreflight "artifact_store" "write_artifacts" "allow"
            (artifactStoreAllowed capabilities index) (artifactStoreReason capabilities index)]
  end.

Definition capabilityPreflight (capabilities : list (string * bool)) (index : list string)
    (capability : string) : EngineCapabilityPreflight :=
  let allowed := flag capabilities capability
                 || hasPermission index "allow" capability "capability" capability in
  MkCapabilityPreflight capability true allowed
    (if allowed then "allowed" else "capability not allowed").

Definition path_blocker (p : EnginePathPreflight) : list string :=
  if pp_Allowed p then []
  else if pp_Effect p =s "deny" then ["forbidden_path_deny_missing:" +:+ pp_Path p]
  else ["path_not_allowed:" +:+ pp_Path p].

Definition redactionPlan : ArtifactRedactionPlan :=
  MkRedactionPlan "ready" "run_evidence"
    ["store raw stdout and stderr only as redacted artifacts";
     "redact secret-like environment variables before artifact metadata is persisted";
     "hash prompt and report bodies before they are referenced from audit metadata";
     "do not copy managed project files into artifact store without explicit archive approval"]
    ["env"; "secret_ref"; "stdout"; "stderr"; "prompt_body"].

(** What keeps the preview blocked, in the order it is found *)
Definition preview_blockers (config : option ProjectConfigRecord)
    (capabilities : list EngineCapabilityPreflight) (engine : EngineReadiness)
    (command : EngineCommandPreview) (paths : list EnginePathPreflight) : list string :=
  (match config with None => ["project_config_missing"] | Some _ => [] end)
  ++ flat_map (fun c => if cf_Allowed c then [] else ["missing_capability:" +:+ cf_Capability c])
       capabilities
  ++ (if (er_Provider engine <>s "") && (er_Provider engine <>s "codex-cli")
      then ["engine_provider_not_codex_cli"] else [])
  ++ (if er_Status engine =s "blocked" then er_BlockedReasons engine else [])
  ++ (if ec_Allowed command then [] else ["command_not_allowed"])
  ++ flat_map path_blocker paths.

Definition BuildCodexCLIAdapterPreview (record : Record_) (config : option ProjectConfigRecord)
    (permissions : list permissionRow) (permission : CommandPermission) (command : string)
  : CodexCLIAdapterPreview :=
  let capabilities :=
    match config with Some c => mapFromConfigPart (pc_Permissions c) "capabilities" | None => [] end in
  let index := permissionPolicyIndex permissions in
  let engine := codexPreviewEngineReadiness config in
  let commandPreview :=
    MkCommandPreview (codexPreviewCommand command)
      (cp_CapabilityAllowed permission && cp_CommandAllowed permission
       && negb (cp_Denied permission))
      (codexCommandReason permission) (cp_CapabilityAllowed permission)
      (cp_CommandAllowed permission) (cp_Denied permission) in
  let preflights :=
    List.map (capabilityPreflight capabilities index) (codexPreviewRequiredCapabilities config) in
  let paths := codexPreviewPaths config capabilities index in
  let blockers := preview_blockers config preflights engine commandPreview paths in
  MkAdapterPreview record (match blockers with [] => "needs_approval" | _ => "blocked" end)
    "read_only_codex_cli_adapter_preview" engine commandPreview preflights paths redactionPlan
    ["execute_codex_cli"; "resolve_secrets"; "write_managed_project"; "write_workflow_execution";
     "open_network"]
    (match blockers with [] => ["execution_approval_required"] | _ => blockers end) false.

(** [activeConfig] is the active row of [project_configs]. *)
Definition CodexCLIAdapterPreview_ (activeConfig : Z -> option ProjectConfigRecord)
    (record : Record_) (command : string) : M CodexCLIAdapterPreview :=
  db <- get_db ;;
  let rows := db_project_permissions db in
  ret (BuildCodexCLIAdapterPreview record (activeConfig (p_ID record))
         (projectPermissionRows rows (p_ID record))
         (CommandPermission_ rows (p_ID record) (codexPreviewCommand command)) command).
