(* ===== verification/ExecutionGate.v ===== *)
(** * Execution approval gate

    [internal/project/execution_approval_gate.go]: the read-only gate every
    real execution passes through.  It collects checks on the run, its
    version, the latest approval, the latest approval and live-mapping gate
    results, the engine preview and the workers; one blocking check blocks the
    gate. *)

From stdpp Require Import base list strings numbers.
From Stdlib Require Import ZArith Lia String.
From S2P Require Import Prelude GoString Json Schema Tx Command Capability Worker Lease.
From S2P Require Import RunOnce RunControl Profile Workflow Gates Config Schedule Permission.
From S2P Require Import Runner EnginePreview.

Record ExecutionApprovalGateOptions := MkGateOptions {
  go_RequiredCapabilities : list string; go_SkipEnginePreview : bool; go_Mode : string }.

(** The safety facts of the struct ([TaskClaimed] and the like) are never
    set. *)
Record ExecutionApprovalGate := MkExecutionGate {
  eg_Project : Record_; eg_Run : RunRecord; eg_Version : WorkflowVersion; eg_Status : string;
  eg_Mode : string; eg_Items : list ReadinessItem; eg_Blockers : list string;
  eg_Warnings : list string; eg_RequiredCapabilities : list string;
  eg_Approval : option ApprovalRecord; eg_ApprovalGate : option GateResult;
  eg_LiveMappingGate : option GateResult; eg_EnginePreview : CodexCLIAdapterPreview;
  eg_Workers : list WorkerRecord; eg_ForbiddenActions : list string }.

Definition gateStatusBool (ok : bool) : string := if ok then "pass" else "blocked".

Definition runnableRunTaskCount (tasks : list RunTaskRecord) : Z :=
  Z.of_nat (List.length (List.filter
    (fun t => (t_Status t =s "queued") || (t_Status t =s "pending")) tasks)).

Definition hasRunnableRunTask (tasks : list RunTaskRecord) : bool :=
  0 <? runnableRunTaskCount tasks.

Definition onlineWorkers (workers : list WorkerRecord) : list WorkerRecord :=
  List.filter (fun w => w_Status w =s "online") workers.

Definition workerWithCapabilities (workers : list WorkerRecord) (required : list string) : bool :=
  existsb (fun w => match missingWorkerCapabilities (w_Capabilities w) required with
                    | [] => true | _ => false end) workers.

(** The status, items, blockers and warnings the checks build up *)
Record gate_state := MkGateState {
  gt_Status : string; gt_Items : list ReadinessItem; gt_Blockers : list string;
  gt_Warnings : list string }.

Definition gate_add (key status message : string) (metadata : jmap) (g : gate_state)
  : gate_state :=
  MkGateState (if blocking status then "blocked" else gt_Status g)
    (gt_Items g ++ [MkReadinessItem key status message (mk metadata)])
    (gt_Blockers g ++ (if blocking status then [key +:+ ": " +:+ message] else []))
    (gt_Warnings g ++ (if status =s "warn" then [key +:+ ": " +:+ message] else [])).

Definition present {A} (o : option A) : bool := match o with Some _ => true | None => false end.

(** [gateFound && gate.Status == "pass"] *)
Definition gate_passes (g : option GateResult) : bool :=
  match g with Some g => g_Status g =s "pass" | None => false end.

Definition gate_fields (g : option GateResult) : jmap :=
  let r := default no_gate g in
  [("gate_found", JBool (present g)); ("gate_id", JInt (g_ID r)); ("status", JStr (g_Status r))].

Definition add_run_checks (version : WorkflowVersion) (detail : RunDetail) (g : gate_state)
  : gate_state :=
  let run := rd_Run detail in
  let g := gate_add "run_kind" (gateStatusBool (r_RunKind run =s "execution"))
             "run must be an execution run" [("run_kind", JStr (r_RunKind run))] g in
  let g := gate_add "run_status" (gateStatusBool (r_Status run =s "queued"))
             "real execution apply starts from queued run state"
             [("run_status", JStr (r_Status run))] g in
  let g := gate_add "dry_run_boundary" (gateStatusBool (negb (r_DryRun run)))
             "dry-run preview runs cannot enter real execution apply"
             [("dry_run", JBool (r_DryRun run))] g in
  let g := gate_add "workflow_version_authored"
             (gateStatusBool (v_ImportMode version =s "authored"))
             "execution applies only to AreaFlow-authored workflow versions"
             [("display_label", JStr (v_DisplayLabel version));
              ("import_mode", JStr (v_ImportMode version))] g in
  gate_add "run_tasks_ready" (gateStatusBool (hasRunnableRunTask (rd_Tasks detail)))
    "run must have at least one queued or pending run_task"
    [("task_count", JInt (Z.of_nat (List.length (rd_Tasks detail))));
     ("runnable_task_count", JInt (runnableRunTaskCount (rd_Tasks detail)))] g.

Definition approvalStatus (approval : option ApprovalRecord) : string :=
  match approval with
  | Some a => gateStatusBool (ap_Decision a =s "approved")
  | None => "blocked"
  end.

Definition add_approval_checks (approval : option ApprovalRecord)
    (approvalGate liveMappingGate : option GateResult) (g : gate_state) : gate_state :=
  let a := default no_approval approval in
  let g := gate_add "workflow_approval" (approvalStatus approval)
             (if present approval then "latest workflow approval record must be approved"
              else "missing approved workflow approval record")
             [("approval_found", JBool (present approval)); ("approval_record_id", JInt (ap_ID a));
              ("approval_decision", JStr (ap_Decision a));
              ("approval_kind", JStr (ap_ApprovalKind a))] g in
  let g := gate_add "approval_gate" (gateStatusBool (gate_passes approvalGate))
             "approval_gate must pass before execution apply" (gate_fields approvalGate) g in
  gate_add "live_mapping_gate" (gateStatusBool (gate_passes liveMappingGate))
    "live_mapping_gate must pass before execution apply" (gate_fields liveMappingGate) g.

Definition engineStatus (skip : bool) (enginePreview : CodexCLIAdapterPreview) : string :=
  if skip then "pass" else if cx_Status enginePreview =s "blocked" then "blocked" else "pass".

Definition engineMessage (skip : bool) (enginePreview : CodexCLIAdapterPreview) : string :=
  if skip then "engine preflight is not required for this read-only execution step"
  else if cx_Status enginePreview =s "blocked" then "engine adapter preview is blocked"
  else if cx_Status enginePreview =s "needs_approval"
  then "engine adapter preview is ready but still requires this execution approval gate"
  else "engine preflight is ready for approval-gated execution".

Definition add_engine_checks (skip : bool) (enginePreview : CodexCLIAdapterPreview)
    (workers : list WorkerRecord) (requiredCaps : list string) (g : gate_state) : gate_state :=
  let online := onlineWorkers workers in
  let g := gate_add "engine_adapter_preview" (engineStatus skip enginePreview)
             (engineMessage skip enginePreview)
             [("status", JStr (cx_Status enginePreview));
              ("execution_allowed", JBool (cx_ExecutionAllowed enginePreview));
              ("blockers", jstrs_nil (cx_Blockers enginePreview)); ("skipped", JBool skip)] g in
  let g := gate_add "worker_online"
             (gateStatusBool (0 <? Z.of_nat (List.length online)))
             "at least one online worker must be available"
             [("online_worker_count", JInt (Z.of_nat (List.length online)));
              ("worker_count", JInt (Z.of_nat (List.length workers)))] g in
  let g := gate_add "worker_capabilities"
             (gateStatusBool (workerWithCapabilities online requiredCaps))
             "an online worker must satisfy required execution capabilities"
             [("required_capabilities", jstrs requiredCaps);
              ("online_worker_count", JInt (Z.of_nat (List.length online)))] g in
  gate_add "read_only_boundary" "pass"
    "execution approval gate did not claim tasks, start workers, run commands, resolve secrets or write project files"
    [("project_write_attempted", JBool false); ("execution_write_attempted", JBool false);
     ("engine_call_attempted", JBool false); ("commands_run", JBool false);
     ("secrets_resolved", JBool false); ("network_used", JBool false);
     ("task_claimed", JBool false); ("worker_started", JBool false);
     ("attempt_created", JBool false); ("artifact_created", JBool false)] g.

Definition requiredCapabilities (o : ExecutionApprovalGateOptions) : list string :=
  match normalizeCapabilityList (go_RequiredCapabilities o) with
  | [] => ["execute_agents"; "read_project"; "run_commands"; "write_artifacts"]
  | caps => caps
  end.

Definition BuildExecutionApprovalGate (record : Record_) (version : WorkflowVersion)
    (detail : RunDetail) (approval : option ApprovalRecord)
    (approvalGate liveMappingGate : option GateResult) (enginePreview : CodexCLIAdapterPreview)
    (workers : list WorkerRecord) (o : ExecutionApprovalGateOptions) : ExecutionApprovalGate :=
  let requiredCaps := requiredCapabilities o in
  let g := MkGateState "pass" [] [] [] in
  let g := add_run_checks version detail g in
  let g := add_approval_checks approval approvalGate liveMappingGate g in
  let g := add_engine_checks (go_SkipEnginePreview o) enginePreview workers requiredCaps g in
  MkExecutionGate record (rd_Run detail) version (gt_Status g)
    (trim_default "read_only_execution_approval_gate" (go_Mode o)) (gt_Items g) (gt_Blockers g)
    (gt_Warnings g) requiredCaps approval approvalGate liveMappingGate enginePreview workers
    ["claim_task"; "start_worker"; "create_attempt"; "create_artifact"; "execute_engine";
     "run_commands"; "resolve_secrets"; "write_managed_project"; "write_workflow_execution"].

Definition projectRecordByID (projectID : Z) : M Record_ :=
  rows <- select_rows (fun p => p_ID p =? projectID) ;;
  map_err (no_rows_to (ErrText ("project not found: " +:+ fmt_d projectID))) (first_row rows).

Definition workflowVersionByID (projectID versionID : Z) : M WorkflowVersion :=
  rows <- select_rows (fun v => (v_ProjectID v =? projectID) && (v_ID v =? versionID)) ;;
  v <- map_err (no_rows_to (ErrWorkflowVersionNotFound ("id " +:+ fmt_d versionID)))
         (first_row rows) ;;
  ret (scanWorkflowVersion v).

Definition no_engine : EngineReadiness := MkEngineReadiness "" "" false "" false false None "" [].
Definition no_command : EngineCommandPreview := MkCommandPreview "" false "" false false false.
Definition no_redaction : ArtifactRedactionPlan := MkRedactionPlan "" "" [] [].

Definition skipped_preview (record : Record_) : CodexCLIAdapterPreview :=
  MkAdapterPreview record "not_required" "engine_preview_skipped" no_engine no_command [] []
    no_redaction ["execute_codex_cli"; "resolve_secrets"; "write_managed_project"] [] false.

Definition listWorkers (record : Record_) (limit : Z) : M (list WorkerRecord) :=
  fun w => (Ok (ListWorkers record limit w), w).

Definition ExecutionApprovalGate_ (activeConfig : Z -> option ProjectConfigRecord) (runID : Z)
    (o : ExecutionApprovalGateOptions) : M ExecutionApprovalGate :=
  detail <- GetRun runID ;;
  record <- projectRecordByID (r_ProjectID (rd_Run detail)) ;;
  version <- workflowVersionByID (p_ID record) (r_WorkflowVersionID (rd_Run detail)) ;;
  approval <- latestApprovalRecord (p_ID record) (v_ID version) ;;
  approvalGate <- latestGateResult (p_ID record) (v_ID version) "approval_gate" ;;
  liveMappingGate <- latestGateResult (p_ID record) (v_ID version) "live_mapping_gate" ;;
  enginePreview <- (if go_SkipEnginePreview o then ret (skipped_preview record)
                    else CodexCLIAdapterPreview_ activeConfig record "") ;;
  workers <- listWorkers record 100 ;;
  ret (BuildExecutionApprovalGate record version detail approval approvalGate liveMappingGate
         enginePreview workers o).

(** ** Rows of an execution, by id ([fixture_execution.go]) *)

Definition loadRunTaskByID (projectID taskID : Z) : M RunTaskRecord :=
  rows <- select_rows (fun t => (t_ProjectID t =? projectID) && (t_ID t =? taskID)) ;;
  t <- first_row rows ;;
  ret (scanRunTask t).

Definition loadRunAttemptByID (projectID attemptID : Z) : M RunAttemptRecord :=
  rows <- select_rows (fun a => (at_ProjectID a =? projectID) && (at_ID a =? attemptID)) ;;
  a <- first_row rows ;;
  ret (scanRunAttempt a).

Definition loadArtifactByIDTx (projectID artifactID : Z) : M ArtifactRecord :=
  rows <- select_rows (fun a => (ar_ProjectID a =? projectID) && (ar_ID a =? artifactID)) ;;
  a <- first_row rows ;;
  ret (scanArtifactRecord a).

Definition workflowVersionByIDTx := workflowVersionByID.

(** A row named in a response, or the zero value when it names none *)
Definition load_if {A} (id : Z) (zero : A) (load : Z -> M A) : M A :=
  if id =? 0 then ret zero else load id.

Definition no_worker : WorkerRecord := MkWorker 0 0 0 "" "" "" "" 0 [] [] 0 None 0 0 0.
Definition no_task : RunTaskRecord := MkRunTask 0 0 0 0 0 "" "" "" "" 0 [] 0 0.
Definition no_lease : LeaseRecord := MkLease 0 0 0 0 0 0 "" "" 0 0 None None [] [] [].
Definition no_attempt : RunAttemptRecord := MkRunAttempt 0 0 0 0 0 0 "" "" false [] 0 None.
Definition no_artifact : ArtifactRecord := MkArtifact 0 0 0 0 0 "" "" "" "" "" 0 "" [] 0.

(** ** Claiming and finishing a task of an execution run

    The three executions select their task and count what remains with the
    same query, up to the task kind. *)

(** The WHERE clause of [next...TaskForLease] *)
Definition execution_candidate (env : Env) (db : DB) (projectID runID : Z) (kind : string)
    (t : RunTaskRecord) : bool :=
  (t_ProjectID t =? projectID) && (t_RunID t =? runID)
  && existsb (fun r => (r_ID r =? t_RunID t) && negb (r_DryRun r) && (r_RunKind r =s "execution")
                       && (r_Status r =s "queued")) (t_rows (db_runs db))
  && (t_TaskKind t =s kind)
  && ((t_Status t =s "queued") || (t_Status t =s "needs_recovery"))
  && negb (existsb (fun l => (l_RunTaskID l =? t_ID t) && (l_Status l =s "active"))
                   (t_rows (db_leases db)))
  && negb (env_task_locked env (t_ID t)).

(** ORDER BY sequence ASC, id ASC LIMIT 1 FOR UPDATE SKIP LOCKED *)
Definition next_execution_task (env : Env) (projectID runID : Z) (kind : string)
  : M (option RunTaskRecord) :=
  db <- get_db ;;
  match sort_stable (earlier t_Sequence t_ID)
          (table_select (execution_candidate env db projectID runID kind) (db_run_tasks db)) with
  | [] => ret None
  | t :: _ => ret (Some (scanRunTask t))
  end.

Definition count_tasks (p : RunTaskRecord -> bool) : M Z :=
  rows <- select_rows p ;;
  ret (Z.of_nat (List.length rows)).

Definition remaining_task (runID : Z) (kind : string) (t : RunTaskRecord) : bool :=
  (t_RunID t =? runID) && (t_TaskKind t =s kind)
  && ((t_Status t =s "queued") || (t_Status t =s "pending") || (t_Status t =s "needs_recovery")
      || (t_Status t =s "leased")).

Definition done_task (runID : Z) (status : string) (t : RunTaskRecord) : bool :=
  (t_RunID t =? runID) && (t_Status t =s status).

(** [task.Status = status] on the copy in hand *)
Definition task_marked (status : string) (t : RunTaskRecord) : RunTaskRecord :=
  MkRunTask (t_ID t) (t_ProjectID t) (t_WorkflowVersionID t) (t_WorkflowItemID t) (t_RunID t)
    (t_TaskKey t) (t_TaskKind t) status (t_RiskLevel t) (t_Sequence t) (t_Metadata t)
    (t_CreatedAt t) (t_UpdatedAt t).

(** UPDATE runs SET status, summary, metadata, finished_at *)
Definition run_progress (now : Z) (finished : bool) (status : string) (summary metadata : jmap)
    (r : RunRecord) : RunRecord :=
  MkRun (r_ID r) (r_ProjectID r) (r_WorkflowVersionID r) (r_RunType r) (r_RunKind r) status
    (r_RiskLevel r) (r_RiskPolicy r) (r_DryRun r) summary metadata (r_StartedAt r)
    (if finished then Some now else r_FinishedAt r).

#[export] Hint Unfold loadRunTaskByID loadRunAttemptByID loadArtifactByIDTx
  workflowVersionByIDTx workflowVersionByID next_execution_task count_tasks load_if : prims.
