(* ===== verification/ReadOnlyVerify.v ===== *)
(** * Read-only verification

    [internal/project/read_only_verify.go]: queueing a run that verifies one
    file of the managed project, and the command a worker executes it with.
    The command passes the execution approval gate, checks the worker's
    capabilities, the project's read permission and that the file really lies
    below the project root, claims the task, hashes the file and records a
    report, an attempt and the progress of the run. *)

From stdpp Require Import base list strings numbers gmap.
From Stdlib Require Import ZArith Lia Ascii String.
From S2P Require Import Prelude GoString Sha256 Json Schema Tx Command Capability History Worker.
From S2P Require Import Lease FilePath Permission RunOnce RunControl Profile Workflow Gates.
From S2P Require Import Runner EnginePreview ExecutionGate.

(** ** Options and results *)

Record ReadOnlyVerifyQueueOptions := MkReadOnlyVerifyQueueOptions {
  rvq_TargetPath : string; rvq_IdempotencyKey : string; rvq_Actor : string; rvq_Reason : string }.

Record ReadOnlyVerifyQueueResult := MkReadOnlyVerifyQueueResult {
  rvqr_Project : Record_; rvqr_Version : WorkflowVersion; rvqr_Run : RunRecord;
  rvqr_Task : RunTaskRecord; rvqr_TargetPath : string; rvqr_Created : bool;
  rvqr_IdempotencyKey : string; rvqr_EventID : Z; rvqr_AuditEventID : Z;
  rvqr_ProjectReadAttempted : bool; rvqr_ProjectReadAllowed : bool;
  rvqr_ProjectWriteAttempted : bool; rvqr_ExecutionWriteAttempted : bool;
  rvqr_EngineCallAttempted : bool; rvqr_CommandsRun : bool; rvqr_SecretsResolved : bool;
  rvqr_NetworkUsed : bool }.

Record ReadOnlyVerifyOptions := MkReadOnlyVerifyOptions {
  rvo_WorkerKey : string; rvo_RunID : Z; rvo_AllowedCapabilities : list string;
  rvo_LeaseTimeoutSeconds : Z; rvo_Metadata : option jmap; rvo_IdempotencyKey : string;
  rvo_Actor : string; rvo_Reason : string }.

Record ReadOnlyVerifyResult := MkReadOnlyVerifyResult {
  rvr_Project : Record_; rvr_Version : WorkflowVersion; rvr_Run : RunRecord;
  rvr_Worker : WorkerRecord; rvr_Lease : LeaseRecord; rvr_Task : RunTaskRecord;
  rvr_Attempt : RunAttemptRecord; rvr_Artifact : ArtifactRecord;
  rvr_Gate : ExecutionApprovalGate; rvr_TargetPath : string; rvr_TargetSHA256 : string;
  rvr_TargetSizeBytes : Z; rvr_Status : string; rvr_Decision : string; rvr_Message : string;
  rvr_Blockers : list string; rvr_Created : bool; rvr_IdempotencyKey : string; rvr_EventID : Z;
  rvr_AuditEventID : Z; rvr_ProjectReadAttempted : bool; rvr_ProjectReadAllowed : bool;
  rvr_ProjectWriteAttempted : bool; rvr_ExecutionWriteAttempted : bool;
  rvr_AreaFlowExecutionStateWritten : bool; rvr_EngineCallAttempted : bool;
  rvr_CommandsRun : bool; rvr_SecretsResolved : bool; rvr_NetworkUsed : bool;
  rvr_TaskClaimed : bool; rvr_WorkerStarted : bool; rvr_LeaseCreated : bool;
  rvr_AttemptCreated : bool; rvr_ArtifactCreated : bool; rvr_VerificationPassed : bool }.

Record readOnlyVerifyFileResult := MkFileResult { rf_SHA256 : string; rf_SizeBytes : Z }.

(** ** Reading a file of the managed project

    [os_EvalSymlinks] is [filepath.EvalSymlinks] on the file system of the
    call and [os_IsDir] what [os.Stat] says of a path; the contents are the
    files of the world. *)

Record OS := MkOS { os_EvalSymlinks : string -> res string string; os_IsDir : string -> bool }.

(** The components left of two lists after their common prefix *)
Fixpoint strip_common (base targ : list string) : list string * list string :=
  match base, targ with
  | b :: base', t :: targ' => if b =s t then strip_common base' targ' else (base, targ)
  | _, _ => (base, targ)
  end.

(** The components of a cleaned path, without the root *)
Definition rel_components (clean : string) : list string :=
  if (clean =s "") || (clean =s "/") then []
  else if is_abs clean then List.tl (split_slash clean) else split_slash clean.

(** [filepath.Rel] *)
Definition path_rel (basepath targpath : string) : res string string :=
  let base := path_clean basepath in
  let targ := path_clean targpath in
  if targ =s base then Ok "."
  else
    let base := if base =s "." then "" else base in
    let cannot := Err ("Rel: can't make " +:+ targpath +:+ " relative to " +:+ basepath) in
    if negb (Bool.eqb (is_abs base) (is_abs targ)) then cannot
    else match strip_common (rel_components base) (rel_components targ) with
         | (b :: _, _ :: _) as rest =>
             if b =s ".." then cannot
             else Ok (strings_join "/" (repeat ".." (List.length (fst rest)) ++ snd rest))
         | (bs, ts) => Ok (strings_join "/" (repeat ".." (List.length bs) ++ ts))
         end.

Definition safeProjectReadPath (os : OS) (root targetPath : string) : res string string :=
  if trim_space root =s "" then Err "project root is empty"
  else
    let relative := normalizeProjectRelativePath targetPath in
    if relative =s "" then Err "target path must stay under project root"
    else match os_EvalSymlinks os root with
         | Err e => Err ("resolve project root: " +:+ e)
         | Ok rootReal =>
             match os_EvalSymlinks os (path_join [rootReal; relative]) with
             | Err e => Err ("resolve target path: " +:+ e)
             | Ok fullReal =>
                 match path_rel rootReal fullReal with
                 | Err e => Err ("compare target path: " +:+ e)
                 | Ok rel =>
                     if (rel =s ".") || has_prefix "../" rel || (rel =s "..") || is_abs rel
                     then Err "target path escapes project root" else Ok fullReal
                 end
             end
         end.

Definition maxReadOnlyVerifyFileBytes : Z := 2 * 1024 * 1024.

Definition readProjectFileForVerify (os : OS) (path : string) : M readOnlyVerifyFileResult :=
  fun w =>
  if os_IsDir os path then (Err (ErrText "verify target must be a file"), w)
  else match wd_files w !! path with
       | None => (Err (ErrText "stat verify target"), w)
       | Some content =>
           if maxReadOnlyVerifyFileBytes <? len content
           then (Err (ErrText "verify target exceeds 2097152 bytes"), w)
           else (Ok (MkFileResult (sha256_hex content) (len content)), w)
       end.

(** ** Requests *)

Definition readOnlyVerifyQueueRequestHash (record : Record_) (version : WorkflowVersion)
    (o : ReadOnlyVerifyQueueOptions) : string :=
  request_hash
    [("command_type", JStr "run.read_only_verify_queue"); ("project_id", JInt (p_ID record));
     ("project_key", JStr (p_Key record)); ("version_id", JInt (v_ID version));
     ("display_label", JStr (v_DisplayLabel version)); ("target_path", JStr (rvq_TargetPath o));
     ("actor", JStr (rvq_Actor o)); ("reason", JStr (rvq_Reason o)); ("read_only", JBool true)].

Definition readOnlyVerifyRequestHash (record : Record_) (o : ReadOnlyVerifyOptions) : string :=
  request_hash
    [("command_type", JStr "worker.read_only_verify"); ("project_id", JInt (p_ID record));
     ("project_key", JStr (p_Key record)); ("worker_key", JStr (rvo_WorkerKey o));
     ("run_id", JInt (rvo_RunID o));
     ("allowed_capabilities", jstrs (rvo_AllowedCapabilities o));
     ("lease_timeout_seconds", JInt (rvo_LeaseTimeoutSeconds o)); ("actor", JStr (rvo_Actor o));
     ("reason", JStr (rvo_Reason o)); ("read_only", JBool true)].

Definition readOnlyVerifyQueueIdempotencyKey (record : Record_) (version : WorkflowVersion)
    (requestHash : string) : string :=
  "run.read_only_verify_queue:" +:+ p_Key record +:+ ":" +:+ v_DisplayLabel version +:+ ":"
  +:+ commandHashPrefix requestHash.

Definition readOnlyVerifyIdempotencyKey (record : Record_) (o : ReadOnlyVerifyOptions)
    (requestHash : string) : string :=
  "worker.read_only_verify:" +:+ p_Key record +:+ ":" +:+ rvo_WorkerKey o +:+ ":"
  +:+ fmt_d (rvo_RunID o) +:+ ":" +:+ commandHashPrefix requestHash.

(** ** Normalisation *)

Definition normalizeReadOnlyVerifyQueueOptions (record : Record_) (version : WorkflowVersion)
    (o : ReadOnlyVerifyQueueOptions) : ReadOnlyVerifyQueueOptions :=
  let o :=
    MkReadOnlyVerifyQueueOptions (normalizeProjectRelativePath (rvq_TargetPath o))
      (trim_space (rvq_IdempotencyKey o))
      (trim_default "local-user" (rvq_Actor o))
      (trim_default "queue read-only verify run" (rvq_Reason o)) in
  if (rvq_IdempotencyKey o =s "") && (rvq_TargetPath o <>s "")
  then MkReadOnlyVerifyQueueOptions (rvq_TargetPath o)
         (readOnlyVerifyQueueIdempotencyKey record version
            (readOnlyVerifyQueueRequestHash record version o)) (rvq_Actor o) (rvq_Reason o)
  else o.

Definition normalizeReadOnlyVerifyOptions (o : ReadOnlyVerifyOptions) : ReadOnlyVerifyOptions :=
  {| rvo_WorkerKey := trim_space (rvo_WorkerKey o); rvo_RunID := rvo_RunID o;
     rvo_AllowedCapabilities :=
       normalizeCapabilityList
         (match rvo_AllowedCapabilities o with
          | [] => ["read_project"; "write_artifacts"]
          | l => l end);
     rvo_LeaseTimeoutSeconds :=
       if rvo_LeaseTimeoutSeconds o <=? 0 then 300 else rvo_LeaseTimeoutSeconds o;
     rvo_Metadata := Some (map_or_empty (rvo_Metadata o));
     rvo_IdempotencyKey := trim_space (rvo_IdempotencyKey o);
     rvo_Actor := trim_default "local-user" (rvo_Actor o);
     rvo_Reason := trim_default "approval-gated read-only verify" (rvo_Reason o) |}.

(** ** Queueing a run *)

Definition insertReadOnlyVerifyRun (env : Env) (record : Record_) (version : WorkflowVersion)
    (o : ReadOnlyVerifyQueueOptions) : M RunRecord :=
  r <- insert_row (fun id =>
         MkRun id (p_ID record) (v_ID version) "read_only_verify" "execution" "queued" "low"
           "pause" false
           (mk [("read_only_verify", JBool true); ("approval_gated", JBool true);
                ("target_path", JStr (rvq_TargetPath o));
                ("project_read_attempted", JBool false);
                ("project_write_attempted", JBool false);
                ("engine_call_attempted", JBool false); ("commands_run", JBool false);
                ("secrets_resolved", JBool false); ("network_used", JBool false)])
           (mk [("phase", JStr "v0.6j"); ("read_only_verify", JBool true);
                ("approval_gated", JBool true); ("target_path", JStr (rvq_TargetPath o));
                ("actor", JStr (rvq_Actor o)); ("reason", JStr (rvq_Reason o))])
           (env_now env) None) ;;
  ret (scanRun r).

Definition insertReadOnlyVerifyTask (env : Env) (record : Record_) (version : WorkflowVersion)
    (run : RunRecord) (o : ReadOnlyVerifyQueueOptions) : M RunTaskRecord :=
  t <- insert_row (fun id =>
         MkRunTask id (p_ID record) (v_ID version) 0 (r_ID run)
           (v_DisplayLabel version +:+ ":read-only-verify:" +:+ rvq_TargetPath o)
             "read_only_verify_task" "queued" "low" 1
           (mk [("read_only_verify", JBool true); ("approval_gated", JBool true);
                ("target_path", JStr (rvq_TargetPath o)); ("actor", JStr (rvq_Actor o));
                ("reason", JStr (rvq_Reason o))])
           (env_now env) (env_now env)) ;;
  ret (scanRunTask t).

Definition readOnlyVerifyQueueMetadata (r : ReadOnlyVerifyQueueResult)
    (o : ReadOnlyVerifyQueueOptions) : jmap :=
  mk [("project_key", JStr (p_Key (rvqr_Project r)));
      ("workflow_version_id", JInt (v_ID (rvqr_Version r)));
      ("display_label", JStr (v_DisplayLabel (rvqr_Version r)));
      ("run_id", JInt (r_ID (rvqr_Run r))); ("run_task_id", JInt (t_ID (rvqr_Task r)));
      ("target_path", JStr (rvqr_TargetPath r)); ("actor", JStr (rvq_Actor o));
      ("idempotency_key", JStr (rvq_IdempotencyKey o)); ("read_only_verify", JBool true);
      ("approval_gated", JBool true); ("project_read_attempted", JBool false);
      ("project_read_allowed", JBool false); ("project_write_attempted", JBool false);
      ("execution_write_attempted", JBool false); ("engine_call_attempted", JBool false);
      ("commands_run", JBool false); ("secrets_resolved", JBool false);
      ("network_used", JBool false)].

Definition insertReadOnlyVerifyQueueEvent (env : Env) (r : ReadOnlyVerifyQueueResult)
    (o : ReadOnlyVerifyQueueOptions) : M Z :=
  e <- insert_row (fun id =>
         MkEvent id (p_ID (rvqr_Project r)) (r_ID (rvqr_Run r)) (v_ID (rvqr_Version r))
           "run.read_only_verify_queue.created" "info" "Read-only verify run queued"
           (readOnlyVerifyQueueMetadata r o) (env_now env)) ;;
  ret (e_ID e).

Definition insertReadOnlyVerifyQueueAuditEvent (env : Env) (r : ReadOnlyVerifyQueueResult)
    (o : ReadOnlyVerifyQueueOptions) : M Z :=
  a <- insert_row (fun id =>
         MkAudit id (p_ID (rvqr_Project r)) 0 "run.read_only_verify_queue" "manage_runs" "run"
           (fmt_d (r_ID (rvqr_Run r))) "allowed" (rvq_Reason o)
           (readOnlyVerifyQueueMetadata r o) (env_now env)) ;;
  ret (au_ID a).

Definition readOnlyVerifyQueueCommandResponse (r : ReadOnlyVerifyQueueResult) : jmap :=
  mk [("project_id", JInt (p_ID (rvqr_Project r)));
      ("project_key", JStr (p_Key (rvqr_Project r)));
      ("workflow_version_id", JInt (v_ID (rvqr_Version r)));
      ("display_label", JStr (v_DisplayLabel (rvqr_Version r)));
      ("run_id", JInt (r_ID (rvqr_Run r))); ("run_task_id", JInt (t_ID (rvqr_Task r)));
      ("target_path", JStr (rvqr_TargetPath r)); ("event_id", JInt (rvqr_EventID r));
      ("audit_event_id", JInt (rvqr_AuditEventID r)); ("read_only_verify", JBool true);
      ("approval_gated", JBool true); ("project_read_attempted", JBool false);
      ("project_read_allowed", JBool false); ("project_write_attempted", JBool false);
      ("execution_write_attempted", JBool false); ("engine_call_attempted", JBool false);
      ("commands_run", JBool false); ("secrets_resolved", JBool false);
      ("network_used", JBool false)].

Definition set_rvqr_event (eventID : Z) (r : ReadOnlyVerifyQueueResult) :
    ReadOnlyVerifyQueueResult :=
  {| rvqr_Project := rvqr_Project r; rvqr_Version := rvqr_Version r; rvqr_Run := rvqr_Run r;
   rvqr_Task := rvqr_Task r; rvqr_TargetPath := rvqr_TargetPath r;
   rvqr_Created := rvqr_Created r; rvqr_IdempotencyKey := rvqr_IdempotencyKey r;
   rvqr_EventID := eventID; rvqr_AuditEventID := rvqr_AuditEventID r;
   rvqr_ProjectReadAttempted := rvqr_ProjectReadAttempted r;
   rvqr_ProjectReadAllowed := rvqr_ProjectReadAllowed r;
   rvqr_ProjectWriteAttempted := rvqr_ProjectWriteAttempted r;
   rvqr_ExecutionWriteAttempted := rvqr_ExecutionWriteAttempted r;
   rvqr_EngineCallAttempted := rvqr_EngineCallAttempted r;
   rvqr_CommandsRun := rvqr_CommandsRun r; rvqr_SecretsResolved := rvqr_SecretsResolved r;
   rvqr_NetworkUsed := rvqr_NetworkUsed r |}.

Definition set_rvqr_audit (auditEventID : Z) (r : ReadOnlyVerifyQueueResult) :
    ReadOnlyVerifyQueueResult :=
  {| rvqr_Project := rvqr_Project r; rvqr_Version := rvqr_Version r; rvqr_Run := rvqr_Run r;
   rvqr_Task := rvqr_Task r; rvqr_TargetPath := rvqr_TargetPath r;
   rvqr_Created := rvqr_Created r; rvqr_IdempotencyKey := rvqr_IdempotencyKey r;
   rvqr_EventID := rvqr_EventID r; rvqr_AuditEventID := auditEventID;
   rvqr_ProjectReadAttempted := rvqr_ProjectReadAttempted r;
   rvqr_ProjectReadAllowed := rvqr_ProjectReadAllowed r;
   rvqr_ProjectWriteAttempted := rvqr_ProjectWriteAttempted r;
   rvqr_ExecutionWriteAttempted := rvqr_ExecutionWriteAttempted r;
   rvqr_EngineCallAttempted := rvqr_EngineCallAttempted r;
   rvqr_CommandsRun := rvqr_CommandsRun r; rvqr_SecretsResolved := rvqr_SecretsResolved r;
   rvqr_NetworkUsed := rvqr_NetworkUsed r |}.

Definition loadReadOnlyVerifyQueueByCommandResponse (record : Record_)
    (version : WorkflowVersion) (idempotencyKey : string) : M ReadOnlyVerifyQueueResult :=
  response <- loadCommandResponse (p_ID record) "run.read_only_verify_queue" idempotencyKey ;;
  run <- loadRunForUpdate (metadataInt64 response "run_id") ;;
  task <- loadRunTaskByID (p_ID record) (metadataInt64 response "run_task_id") ;;
  ret {| rvqr_Project := record; rvqr_Version := version; rvqr_Run := run; rvqr_Task := task;
       rvqr_TargetPath := metadataString response "target_path"; rvqr_Created := false;
       rvqr_IdempotencyKey := idempotencyKey; rvqr_EventID := metadataInt64 response "event_id";
       rvqr_AuditEventID := metadataInt64 response "audit_event_id";
       rvqr_ProjectReadAttempted := metadataBool response "project_read_attempted";
       rvqr_ProjectReadAllowed := metadataBool response "project_read_allowed";
       rvqr_ProjectWriteAttempted := metadataBool response "project_write_attempted";
       rvqr_ExecutionWriteAttempted := metadataBool response "execution_write_attempted";
       rvqr_EngineCallAttempted := metadataBool response "engine_call_attempted";
       rvqr_CommandsRun := metadataBool response "commands_run";
       rvqr_SecretsResolved := metadataBool response "secrets_resolved";
       rvqr_NetworkUsed := metadataBool response "network_used" |}.

Definition queueVerifyBody (env : Env) (record : Record_) (version : WorkflowVersion)
    (o : ReadOnlyVerifyQueueOptions) : M (res error ReadOnlyVerifyQueueResult) :=
  run <- insertReadOnlyVerifyRun env record version o ;;
  task <- insertReadOnlyVerifyTask env record version run o ;;
  let r :=
    {| rvqr_Project := record; rvqr_Version := version; rvqr_Run := run; rvqr_Task := task;
     rvqr_TargetPath := rvq_TargetPath o; rvqr_Created := true;
     rvqr_IdempotencyKey := rvq_IdempotencyKey o; rvqr_EventID := 0; rvqr_AuditEventID := 0;
     rvqr_ProjectReadAttempted := false; rvqr_ProjectReadAllowed := false;
     rvqr_ProjectWriteAttempted := false; rvqr_ExecutionWriteAttempted := false;
     rvqr_EngineCallAttempted := false; rvqr_CommandsRun := false;
     rvqr_SecretsResolved := false; rvqr_NetworkUsed := false |} in
  eventID <- insertReadOnlyVerifyQueueEvent env r o ;;
  let r := set_rvqr_event eventID r in
  auditEventID <- insertReadOnlyVerifyQueueAuditEvent env r o ;;
  let r := set_rvqr_audit auditEventID r in
  completeCommandRequestResponse env (p_ID record) "run.read_only_verify_queue"
    (rvq_IdempotencyKey o)
    (readOnlyVerifyQueueCommandResponse r) ;;;
  ret (Ok r).

(** [normalizeReadOnlyVerifyQueueOptions] has filled in the key. *)
Definition queueVerifyTx (env : Env) (record : Record_) (label : string)
    (options : ReadOnlyVerifyQueueOptions) : M (res error ReadOnlyVerifyQueueResult) :=
  version <- authoredVersion record label ;;
  let o := normalizeReadOnlyVerifyQueueOptions record version options in
  if rvq_TargetPath o =s "" then fail (ErrText "target path is required")
  else with_command env (p_ID record) "run.read_only_verify_queue" (rvq_IdempotencyKey o)
    (readOnlyVerifyQueueRequestHash record version o)
    (r <- loadReadOnlyVerifyQueueByCommandResponse record version (rvq_IdempotencyKey o) ;;
     ret (Ok r))
    (queueVerifyBody env record version o).

Definition QueueReadOnlyVerify (env : Env) (record : Record_) (label : string)
    (options : ReadOnlyVerifyQueueOptions) (w : World)
  : res error ReadOnlyVerifyQueueResult * World :=
  transact (queueVerifyTx env record label options) w.

(** ** Claiming the task *)

Definition nextReadOnlyVerifyTaskForLease (env : Env) (projectID runID : Z)
  : M (option RunTaskRecord) :=
  next_execution_task env projectID runID "read_only_verify_task".

Definition verifiedRunTaskCount (runID : Z) : M Z := count_tasks (done_task runID "verified").

Definition remainingReadOnlyVerifyTaskCount (runID : Z) : M Z :=
  count_tasks (remaining_task runID "read_only_verify_task").

Definition readOnlyVerifyReport (record : Record_) (version : WorkflowVersion)
    (run : RunRecord) (worker : WorkerRecord) (task : RunTaskRecord) (lease : LeaseRecord)
    (gate : ExecutionApprovalGate) (targetPath : string) (readResult : readOnlyVerifyFileResult)
    (o : ReadOnlyVerifyOptions) : string :=
  marshal_indent (JObj (mk
    [("project", JStr (p_Key record)); ("workflow_version", JStr (v_DisplayLabel version));
     ("run_id", JInt (r_ID run)); ("run_task_id", JInt (t_ID task));
     ("task_key", JStr (t_TaskKey task)); ("task_kind", JStr (t_TaskKind task));
     ("worker_id", JInt (w_ID worker)); ("worker_key", JStr (w_WorkerKey worker));
     ("lease_id", JInt (l_ID lease)); ("read_only_verify", JBool true);
     ("approval_gated", JBool true); ("execution_gate_status", JStr (eg_Status gate));
     ("target_path", JStr targetPath); ("target_sha256", JStr (rf_SHA256 readResult));
     ("target_size_bytes", JInt (rf_SizeBytes readResult));
     ("project_read_attempted", JBool true); ("project_read_allowed", JBool true);
     ("project_write_attempted", JBool false); ("execution_write_attempted", JBool false);
     ("area_flow_execution_state_written", JBool true); ("engine_call_attempted", JBool false);
     ("commands_run", JBool false); ("secrets_resolved", JBool false);
     ("network_used", JBool false); ("allowed_capabilities", jstrs
       (rvo_AllowedCapabilities o))])).

Definition writeAndInsertReadOnlyVerifyArtifact (env : Env) (record : Record_)
    (version : WorkflowVersion) (run : RunRecord) (worker : WorkerRecord) (task : RunTaskRecord)
    (lease : LeaseRecord) (gate : ExecutionApprovalGate) (targetPath : string)
    (readResult : readOnlyVerifyFileResult)
    (o : ReadOnlyVerifyOptions) : M ArtifactRecord :=
  let relativePath :=
    path_join ["versions"; v_DisplayLabel version; "read-only-verify";
               "run-" +:+ fmt_d (r_ID run) +:+ "-task-" +:+ fmt_d (t_ID task) +:+ "-"
               +:+ "report" +:+ ".json"] in
  st <- writeProjectArtifact env record relativePath
          (readOnlyVerifyReport record version run worker task lease gate targetPath readResult o)
          "application/json" ;;
  insertRunArtifactRecord env (p_ID record) (v_ID version) (r_ID run) (t_WorkflowItemID task)
    "read_only_verify_report" relativePath st
    (mk [("phase", JStr "v0.6j"); ("owned_by", JStr "areaflow");
         ("read_only_verify", JBool true); ("approval_gated", JBool true);
         ("worker_id", JInt (w_ID worker)); ("worker_key", JStr (w_WorkerKey worker));
         ("run_id", JInt (r_ID run)); ("run_task_id", JInt (t_ID task));
         ("lease_id", JInt (l_ID lease)); ("actor", JStr (rvo_Actor o));
         ("reason", JStr (rvo_Reason o)); ("target_path", JStr targetPath);
         ("target_sha256", JStr (rf_SHA256 readResult));
         ("target_size_bytes", JInt (rf_SizeBytes readResult));
         ("execution_gate_status", JStr (eg_Status gate))]).

Definition insertReadOnlyVerifyAttempt (env : Env) (record : Record_) (task : RunTaskRecord)
    (lease : LeaseRecord) (report : ArtifactRecord) (targetPath : string)
    (readResult : readOnlyVerifyFileResult)
    (o : ReadOnlyVerifyOptions) : M RunAttemptRecord :=
  a <- insert_row (fun id =>
         MkRunAttempt id (p_ID record) (t_WorkflowVersionID task) (t_WorkflowItemID task)
           (t_RunID task) (t_ID task) "read_only_verify" "passed" false
           (mk [("actor", JStr (rvo_Actor o)); ("reason", JStr (rvo_Reason o));
                ("read_only_verify", JBool true); ("approval_gated", JBool true);
                ("target_path", JStr targetPath);
                ("target_sha256", JStr (rf_SHA256 readResult));
                ("target_size_bytes", JInt (rf_SizeBytes readResult));
                ("project_read_attempted", JBool true); ("project_read_allowed", JBool true);
                ("project_write_attempted", JBool false);
                ("execution_write_attempted", JBool false);
                ("area_flow_execution_state_written", JBool true);
                ("engine_call_attempted", JBool false); ("commands_run", JBool false);
                ("secrets_resolved", JBool false); ("network_used", JBool false);
                ("lease_id", JInt (l_ID lease)); ("worker_id", JInt (l_WorkerID lease));
                ("evidence_artifact_id", JInt (ar_ID report))])
           (env_now env) (Some (env_now env))) ;;
  ret (scanRunAttempt a).

Definition updateReadOnlyVerifyRunAfterTask (env : Env) (run : RunRecord)
    (o : ReadOnlyVerifyOptions) (artifactID attemptID : Z) : M RunRecord :=
  done <- verifiedRunTaskCount (r_ID run) ;;
  remaining <- remainingReadOnlyVerifyTaskCount (r_ID run) ;;
  let summary :=
    mset_all [("read_only_verify", JBool true); ("approval_gated", JBool true);
              ("last_artifact_id", JInt artifactID); ("last_attempt_id", JInt attemptID);
              ("project_read_attempted", JBool true); ("project_read_allowed", JBool true);
              ("project_write_attempted", JBool false);
              ("execution_write_attempted", JBool false);
              ("area_flow_execution_state_written", JBool true);
              ("engine_call_attempted", JBool false); ("commands_run", JBool false);
              ("secrets_resolved", JBool false); ("network_used", JBool false);
              ("verified_task_count", JInt done); ("remaining_task_count", JInt remaining)]
                (copyMap (r_Summary run)) in
  let metadata :=
    mset_all [("last_read_only_verify_actor", JStr (rvo_Actor o));
              ("last_read_only_verify_reason", JStr (rvo_Reason o));
              ("last_read_only_verify_at", JStr (env_rfc3339 env));
              ("last_artifact_id", JInt artifactID); ("last_attempt_id", JInt attemptID);
              ("read_only_verify", JBool true); ("approval_gated", JBool true)]
                (copyMap (r_Metadata run)) in
  rows <- update_rows (fun r => r_ID r =? r_ID run)
            (run_progress (env_now env) (remaining =? 0)
               (if remaining =? 0 then "verified" else "running") summary metadata) ;;
  r <- first_row rows ;;
  ret (scanRun r).

(** ** History and responses *)

Definition readOnlyVerifyMetadata (r : ReadOnlyVerifyResult) (o : ReadOnlyVerifyOptions) : jmap :=
  mk [("project_key", JStr (p_Key (rvr_Project r)));
      ("workflow_version_id", JInt (v_ID (rvr_Version r)));
      ("display_label", JStr (v_DisplayLabel (rvr_Version r)));
      ("run_id", JInt (r_ID (rvr_Run r))); ("run_task_id", JInt (t_ID (rvr_Task r)));
      ("lease_id", JInt (l_ID (rvr_Lease r))); ("attempt_id", JInt (at_ID (rvr_Attempt r)));
      ("artifact_id", JInt (ar_ID (rvr_Artifact r))); ("worker_id", JInt (w_ID (rvr_Worker r)));
      ("worker_key", JStr (w_WorkerKey (rvr_Worker r)));
      ("target_path", JStr (rvr_TargetPath r)); ("target_sha256", JStr (rvr_TargetSHA256 r));
      ("target_size_bytes", JInt (rvr_TargetSizeBytes r)); ("status", JStr (rvr_Status r));
      ("decision", JStr (rvr_Decision r)); ("blockers", jstrs_nil (rvr_Blockers r));
      ("actor", JStr (rvo_Actor o)); ("idempotency_key", JStr (rvo_IdempotencyKey o));
      ("read_only_verify", JBool true); ("approval_gated", JBool true);
      ("execution_gate_status", JStr (eg_Status (rvr_Gate r)));
      ("project_read_attempted", JBool (rvr_ProjectReadAttempted r));
      ("project_read_allowed", JBool (rvr_ProjectReadAllowed r));
      ("task_claimed", JBool (rvr_TaskClaimed r));
      ("worker_started", JBool (rvr_WorkerStarted r));
      ("lease_created", JBool (rvr_LeaseCreated r));
      ("attempt_created", JBool (rvr_AttemptCreated r));
      ("artifact_created", JBool (rvr_ArtifactCreated r));
      ("verification_passed", JBool (rvr_VerificationPassed r));
      ("area_flow_execution_state_written", JBool (rvr_AreaFlowExecutionStateWritten r));
      ("project_write_attempted", JBool (rvr_ProjectWriteAttempted r));
      ("execution_write_attempted", JBool (rvr_ExecutionWriteAttempted r));
      ("engine_call_attempted", JBool (rvr_EngineCallAttempted r));
      ("commands_run", JBool (rvr_CommandsRun r));
      ("secrets_resolved", JBool (rvr_SecretsResolved r));
      ("network_used", JBool (rvr_NetworkUsed r))].

Definition insertReadOnlyVerifyEvent (env : Env) (r : ReadOnlyVerifyResult)
    (o : ReadOnlyVerifyOptions) : M Z :=
  e <- insert_row (fun id =>
         MkEvent id (p_ID (rvr_Project r)) (r_ID (rvr_Run r)) (v_ID (rvr_Version r))
           ("worker.read_only_verify." +:+ rvr_Decision r)
           (if rvr_Decision r =s "denied" then "warning" else "info") (rvr_Message r)
           (readOnlyVerifyMetadata r o) (env_now env)) ;;
  ret (e_ID e).

Definition insertReadOnlyVerifyAuditEvent (env : Env) (r : ReadOnlyVerifyResult)
    (o : ReadOnlyVerifyOptions) : M Z :=
  a <- insert_row (fun id =>
         MkAudit id (p_ID (rvr_Project r)) (w_ActorID (rvr_Worker r)) "worker.read_only_verify"
           "read_project" "path" (rvr_TargetPath r) (rvr_Decision r) (rvo_Reason o)
           (readOnlyVerifyMetadata r o) (env_now env)) ;;
  ret (au_ID a).

Definition readOnlyVerifyCommandResponse (r : ReadOnlyVerifyResult) : jmap :=
  mk [("project_id", JInt (p_ID (rvr_Project r)));
      ("project_key", JStr (p_Key (rvr_Project r)));
      ("workflow_version_id", JInt (v_ID (rvr_Version r)));
      ("display_label", JStr (v_DisplayLabel (rvr_Version r)));
      ("run_id", JInt (r_ID (rvr_Run r))); ("run_status", JStr (r_Status (rvr_Run r)));
      ("worker_id", JInt (w_ID (rvr_Worker r)));
      ("worker_key", JStr (w_WorkerKey (rvr_Worker r)));
      ("run_task_id", JInt (t_ID (rvr_Task r))); ("task_status", JStr (t_Status (rvr_Task r)));
      ("lease_id", JInt (l_ID (rvr_Lease r))); ("attempt_id", JInt (at_ID (rvr_Attempt r)));
      ("artifact_id", JInt (ar_ID (rvr_Artifact r)));
      ("artifact_type", JStr (ar_ArtifactType (rvr_Artifact r)));
      ("target_path", JStr (rvr_TargetPath r)); ("target_sha256", JStr (rvr_TargetSHA256 r));
      ("target_size_bytes", JInt (rvr_TargetSizeBytes r)); ("event_id", JInt (rvr_EventID r));
      ("audit_event_id", JInt (rvr_AuditEventID r)); ("status", JStr (rvr_Status r));
      ("decision", JStr (rvr_Decision r)); ("message", JStr (rvr_Message r));
      ("blockers", jstrs_nil (rvr_Blockers r)); ("read_only_verify", JBool true);
      ("approval_gated", JBool true); ("execution_gate_status", JStr (eg_Status (rvr_Gate r)));
      ("project_read_attempted", JBool (rvr_ProjectReadAttempted r));
      ("project_read_allowed", JBool (rvr_ProjectReadAllowed r));
      ("task_claimed", JBool (rvr_TaskClaimed r));
      ("worker_started", JBool (rvr_WorkerStarted r));
      ("lease_created", JBool (rvr_LeaseCreated r));
      ("attempt_created", JBool (rvr_AttemptCreated r));
      ("artifact_created", JBool (rvr_ArtifactCreated r));
      ("verification_passed", JBool (rvr_VerificationPassed r));
      ("area_flow_execution_state_written", JBool (rvr_AreaFlowExecutionStateWritten r));
      ("project_write_attempted", JBool (rvr_ProjectWriteAttempted r));
      ("execution_write_attempted", JBool (rvr_ExecutionWriteAttempted r));
      ("engine_call_attempted", JBool (rvr_EngineCallAttempted r));
      ("commands_run", JBool (rvr_CommandsRun r));
      ("secrets_resolved", JBool (rvr_SecretsResolved r));
      ("network_used", JBool (rvr_NetworkUsed r))].

Definition set_rvr_event (eventID : Z) (r : ReadOnlyVerifyResult) : ReadOnlyVerifyResult :=
  {| rvr_Project := rvr_Project r; rvr_Version := rvr_Version r; rvr_Run := rvr_Run r;
   rvr_Worker := rvr_Worker r; rvr_Lease := rvr_Lease r; rvr_Task := rvr_Task r;
   rvr_Attempt := rvr_Attempt r; rvr_Artifact := rvr_Artifact r; rvr_Gate := rvr_Gate r;
   rvr_TargetPath := rvr_TargetPath r; rvr_TargetSHA256 := rvr_TargetSHA256 r;
   rvr_TargetSizeBytes := rvr_TargetSizeBytes r; rvr_Status := rvr_Status r;
   rvr_Decision := rvr_Decision r; rvr_Message := rvr_Message r; rvr_Blockers := rvr_Blockers r;
   rvr_Created := rvr_Created r; rvr_IdempotencyKey := rvr_IdempotencyKey r;
   rvr_EventID := eventID; rvr_AuditEventID := rvr_AuditEventID r;
   rvr_ProjectReadAttempted := rvr_ProjectReadAttempted r;
   rvr_ProjectReadAllowed := rvr_ProjectReadAllowed r;
   rvr_ProjectWriteAttempted := rvr_ProjectWriteAttempted r;
   rvr_ExecutionWriteAttempted := rvr_ExecutionWriteAttempted r;
   rvr_AreaFlowExecutionStateWritten := rvr_AreaFlowExecutionStateWritten r;
   rvr_EngineCallAttempted := rvr_EngineCallAttempted r; rvr_CommandsRun := rvr_CommandsRun r;
   rvr_SecretsResolved := rvr_SecretsResolved r; rvr_NetworkUsed := rvr_NetworkUsed r;
   rvr_TaskClaimed := rvr_TaskClaimed r; rvr_WorkerStarted := rvr_WorkerStarted r;
   rvr_LeaseCreated := rvr_LeaseCreated r; rvr_AttemptCreated := rvr_AttemptCreated r;
   rvr_ArtifactCreated := rvr_ArtifactCreated r;
   rvr_VerificationPassed := rvr_VerificationPassed r |}.

Definition set_rvr_audit (auditEventID : Z) (r : ReadOnlyVerifyResult) : ReadOnlyVerifyResult :=
  {| rvr_Project := rvr_Project r; rvr_Version := rvr_Version r; rvr_Run := rvr_Run r;
   rvr_Worker := rvr_Worker r; rvr_Lease := rvr_Lease r; rvr_Task := rvr_Task r;
   rvr_Attempt := rvr_Attempt r; rvr_Artifact := rvr_Artifact r; rvr_Gate := rvr_Gate r;
   rvr_TargetPath := rvr_TargetPath r; rvr_TargetSHA256 := rvr_TargetSHA256 r;
   rvr_TargetSizeBytes := rvr_TargetSizeBytes r; rvr_Status := rvr_Status r;
   rvr_Decision := rvr_Decision r; rvr_Message := rvr_Message r; rvr_Blockers := rvr_Blockers r;
   rvr_Created := rvr_Created r; rvr_IdempotencyKey := rvr_IdempotencyKey r;
   rvr_EventID := rvr_EventID r; rvr_AuditEventID := auditEventID;
   rvr_ProjectReadAttempted := rvr_ProjectReadAttempted r;
   rvr_ProjectReadAllowed := rvr_ProjectReadAllowed r;
   rvr_ProjectWriteAttempted := rvr_ProjectWriteAttempted r;
   rvr_ExecutionWriteAttempted := rvr_ExecutionWriteAttempted r;
   rvr_AreaFlowExecutionStateWritten := rvr_AreaFlowExecutionStateWritten r;
   rvr_EngineCallAttempted := rvr_EngineCallAttempted r; rvr_CommandsRun := rvr_CommandsRun r;
   rvr_SecretsResolved := rvr_SecretsResolved r; rvr_NetworkUsed := rvr_NetworkUsed r;
   rvr_TaskClaimed := rvr_TaskClaimed r; rvr_WorkerStarted := rvr_WorkerStarted r;
   rvr_LeaseCreated := rvr_LeaseCreated r; rvr_AttemptCreated := rvr_AttemptCreated r;
   rvr_ArtifactCreated := rvr_ArtifactCreated r;
   rvr_VerificationPassed := rvr_VerificationPassed r |}.

Definition set_rvr_target (targetPath : string) (r : ReadOnlyVerifyResult) :
    ReadOnlyVerifyResult :=
  {| rvr_Project := rvr_Project r; rvr_Version := rvr_Version r; rvr_Run := rvr_Run r;
   rvr_Worker := rvr_Worker r; rvr_Lease := rvr_Lease r; rvr_Task := rvr_Task r;
   rvr_Attempt := rvr_Attempt r; rvr_Artifact := rvr_Artifact r; rvr_Gate := rvr_Gate r;
   rvr_TargetPath := targetPath; rvr_TargetSHA256 := rvr_TargetSHA256 r;
   rvr_TargetSizeBytes := rvr_TargetSizeBytes r; rvr_Status := rvr_Status r;
   rvr_Decision := rvr_Decision r; rvr_Message := rvr_Message r; rvr_Blockers := rvr_Blockers r;
   rvr_Created := rvr_Created r; rvr_IdempotencyKey := rvr_IdempotencyKey r;
   rvr_EventID := rvr_EventID r; rvr_AuditEventID := rvr_AuditEventID r;
   rvr_ProjectReadAttempted := rvr_ProjectReadAttempted r;
   rvr_ProjectReadAllowed := rvr_ProjectReadAllowed r;
   rvr_ProjectWriteAttempted := rvr_ProjectWriteAttempted r;
   rvr_ExecutionWriteAttempted := rvr_ExecutionWriteAttempted r;
   rvr_AreaFlowExecutionStateWritten := rvr_AreaFlowExecutionStateWritten r;
   rvr_EngineCallAttempted := rvr_EngineCallAttempted r; rvr_CommandsRun := rvr_CommandsRun r;
   rvr_SecretsResolved := rvr_SecretsResolved r; rvr_NetworkUsed := rvr_NetworkUsed r;
   rvr_TaskClaimed := rvr_TaskClaimed r; rvr_WorkerStarted := rvr_WorkerStarted r;
   rvr_LeaseCreated := rvr_LeaseCreated r; rvr_AttemptCreated := rvr_AttemptCreated r;
   rvr_ArtifactCreated := rvr_ArtifactCreated r;
   rvr_VerificationPassed := rvr_VerificationPassed r |}.

Definition deniedReadOnlyVerifyResult (record : Record_) (version : WorkflowVersion)
    (run : RunRecord) (worker : WorkerRecord) (gate : ExecutionApprovalGate)
    (o : ReadOnlyVerifyOptions) (message : string) (blockers : list string)
  : ReadOnlyVerifyResult :=
  {| rvr_Project := record; rvr_Version := version; rvr_Run := run; rvr_Worker := worker;
   rvr_Lease := no_lease; rvr_Task := no_task; rvr_Attempt := no_attempt;
   rvr_Artifact := no_artifact; rvr_Gate := gate; rvr_TargetPath := ""; rvr_TargetSHA256 := "";
   rvr_TargetSizeBytes := 0; rvr_Status := "blocked"; rvr_Decision := "denied";
   rvr_Message := message; rvr_Blockers := blockers; rvr_Created := true;
   rvr_IdempotencyKey := rvo_IdempotencyKey o; rvr_EventID := 0; rvr_AuditEventID := 0;
   rvr_ProjectReadAttempted := false; rvr_ProjectReadAllowed := false;
   rvr_ProjectWriteAttempted := false; rvr_ExecutionWriteAttempted := false;
   rvr_AreaFlowExecutionStateWritten := false; rvr_EngineCallAttempted := false;
   rvr_CommandsRun := false; rvr_SecretsResolved := false; rvr_NetworkUsed := false;
   rvr_TaskClaimed := false; rvr_WorkerStarted := false; rvr_LeaseCreated := false;
   rvr_AttemptCreated := false; rvr_ArtifactCreated := false; rvr_VerificationPassed := false |}.

(** The caller's copy of the result keeps its zero event ids. *)
Definition finishDeniedReadOnlyVerify (env : Env) (r : ReadOnlyVerifyResult)
    (o : ReadOnlyVerifyOptions) : M unit :=
  eventID <- insertReadOnlyVerifyEvent env r o ;;
  let r := set_rvr_event eventID r in
  auditEventID <- insertReadOnlyVerifyAuditEvent env r o ;;
  let r := set_rvr_audit auditEventID r in
  completeCommandRequestResponse env (p_ID (rvr_Project r)) "worker.read_only_verify"
    (rvo_IdempotencyKey o) (readOnlyVerifyCommandResponse r).

Definition loadReadOnlyVerifyByCommandResponse (record : Record_) (version : WorkflowVersion)
    (gate : ExecutionApprovalGate) (idempotencyKey : string) : M ReadOnlyVerifyResult :=
  response <- loadCommandResponse (p_ID record) "worker.read_only_verify" idempotencyKey ;;
  run <- loadRunForUpdate (metadataInt64 response "run_id") ;;
  worker <- load_if (metadataInt64 response "worker_id") no_worker
    (loadWorkerByID (p_ID record)) ;;
  task <- load_if (metadataInt64 response "run_task_id") no_task
    (loadRunTaskByID (p_ID record)) ;;
  lease <- load_if (metadataInt64 response "lease_id") no_lease (loadLeaseByID (p_ID record)) ;;
  attempt <- load_if (metadataInt64 response "attempt_id") no_attempt
               (loadRunAttemptByID (p_ID record)) ;;
  artifact <- load_if (metadataInt64 response "artifact_id") no_artifact
                (loadArtifactByIDTx (p_ID record)) ;;
  ret {| rvr_Project := record; rvr_Version := version; rvr_Run := run; rvr_Worker := worker;
       rvr_Lease := lease; rvr_Task := task; rvr_Attempt := attempt; rvr_Artifact := artifact;
       rvr_Gate := gate; rvr_TargetPath := metadataString response "target_path";
       rvr_TargetSHA256 := metadataString response "target_sha256";
       rvr_TargetSizeBytes := metadataInt64 response "target_size_bytes";
       rvr_Status := metadataString response "status";
       rvr_Decision := metadataString response "decision";
       rvr_Message := metadataString response "message";
       rvr_Blockers := metadataStringSlice response "blockers"; rvr_Created := false;
       rvr_IdempotencyKey := idempotencyKey; rvr_EventID := metadataInt64 response "event_id";
       rvr_AuditEventID := metadataInt64 response "audit_event_id";
       rvr_ProjectReadAttempted := metadataBool response "project_read_attempted";
       rvr_ProjectReadAllowed := metadataBool response "project_read_allowed";
       rvr_ProjectWriteAttempted := metadataBool response "project_write_attempted";
       rvr_ExecutionWriteAttempted := metadataBool response "execution_write_attempted";
       rvr_AreaFlowExecutionStateWritten := metadataBool response
         "area_flow_execution_state_written";
       rvr_EngineCallAttempted := metadataBool response "engine_call_attempted";
       rvr_CommandsRun := metadataBool response "commands_run";
       rvr_SecretsResolved := metadataBool response "secrets_resolved";
       rvr_NetworkUsed := metadataBool response "network_used";
       rvr_TaskClaimed := metadataBool response "task_claimed";
       rvr_WorkerStarted := metadataBool response "worker_started";
       rvr_LeaseCreated := metadataBool response "lease_created";
       rvr_AttemptCreated := metadataBool response "attempt_created";
       rvr_ArtifactCreated := metadataBool response "artifact_created";
       rvr_VerificationPassed := metadataBool response "verification_passed" |}.

(** ** The command

    A denial is committed and returned together with an error. *)

Definition verify_outcome : Type := ReadOnlyVerifyResult * option error.

Definition verifyDenied (env : Env) (r : ReadOnlyVerifyResult) (o : ReadOnlyVerifyOptions)
    (e : error)
  : M (res error verify_outcome) :=
  finishDeniedReadOnlyVerify env r o ;;;
  ret (Ok (r, Some e)).

Definition verifyClaim (env : Env) (os : OS) (record : Record_) (o : ReadOnlyVerifyOptions)
    (gate : ExecutionApprovalGate) (run : RunRecord) (version : WorkflowVersion)
    (worker : WorkerRecord) (task : RunTaskRecord) (targetPath fullPath : string)
  : M (res error verify_outcome) :=
  lease <- insertLeaseForTask env (p_ID record) worker task "read_only_verify"
             (rvo_AllowedCapabilities o)
             (mk [("run_id", JInt (t_RunID task)); ("run_task_id", JInt (t_ID task));
                  ("task_key", JStr (t_TaskKey task)); ("task_kind", JStr (t_TaskKind task));
                  ("target_path", JStr targetPath); ("read_only_verify", JBool true);
                  ("approval_gated", JBool true)])
             (rvo_Metadata o) (rvo_LeaseTimeoutSeconds o) ;;
  updateRunTaskStatus env (t_ID task) "leased" ;;;
  readResult <- readProjectFileForVerify os fullPath ;;
  artifact <- writeAndInsertReadOnlyVerifyArtifact env record version run worker task lease gate
    targetPath readResult o ;;
  attempt <- insertReadOnlyVerifyAttempt env record task lease artifact targetPath readResult o ;;
  released <- releaseLeaseForWorker env (p_ID record) worker (l_ID lease) "completed"
                (Some (mk [("read_only_verify", JBool true); ("target_path", JStr targetPath);
                           ("target_sha256", JStr (rf_SHA256 readResult));
                           ("target_size", JInt (rf_SizeBytes readResult));
                           ("attempt_id", JInt (at_ID attempt));
                           ("artifact_id", JInt (ar_ID artifact))])) ;;
  updateRunTaskStatus env (t_ID task) "verified" ;;;
  updated <- updateReadOnlyVerifyRunAfterTask env run o (ar_ID artifact) (at_ID attempt) ;;
  let r :=
    {| rvr_Project := record; rvr_Version := version; rvr_Run := updated; rvr_Worker := worker;
     rvr_Lease := released; rvr_Task := (task_marked "verified" task); rvr_Attempt := attempt;
     rvr_Artifact := artifact; rvr_Gate := gate; rvr_TargetPath := targetPath;
     rvr_TargetSHA256 := rf_SHA256 readResult; rvr_TargetSizeBytes := rf_SizeBytes readResult;
     rvr_Status := "verified"; rvr_Decision := "allowed";
     rvr_Message := "read-only verify completed without managed project writes";
     rvr_Blockers := []; rvr_Created := true; rvr_IdempotencyKey := rvo_IdempotencyKey o;
     rvr_EventID := 0; rvr_AuditEventID := 0; rvr_ProjectReadAttempted := true;
     rvr_ProjectReadAllowed := true; rvr_ProjectWriteAttempted := false;
     rvr_ExecutionWriteAttempted := false; rvr_AreaFlowExecutionStateWritten := true;
     rvr_EngineCallAttempted := false; rvr_CommandsRun := false; rvr_SecretsResolved := false;
     rvr_NetworkUsed := false; rvr_TaskClaimed := true; rvr_WorkerStarted := false;
     rvr_LeaseCreated := true; rvr_AttemptCreated := true; rvr_ArtifactCreated := true;
     rvr_VerificationPassed := true |} in
  eventID <- insertReadOnlyVerifyEvent env r o ;;
  let r := set_rvr_event eventID r in
  auditEventID <- insertReadOnlyVerifyAuditEvent env r o ;;
  let r := set_rvr_audit auditEventID r in
  completeCommandRequestResponse env (p_ID record) "worker.read_only_verify"
    (rvo_IdempotencyKey o)
    (readOnlyVerifyCommandResponse r) ;;;
  ret (Ok (r, None)).

Definition verifyBody (env : Env) (os : OS) (record : Record_) (o : ReadOnlyVerifyOptions)
    (gate : ExecutionApprovalGate) (run : RunRecord) (version : WorkflowVersion)
    (worker : WorkerRecord) : M (res error verify_outcome) :=
  let denied := deniedReadOnlyVerifyResult record version run worker gate o in
  if eg_Status gate <>s "pass" then
    verifyDenied env (denied "read-only verify gate blocked" (eg_Blockers gate)) o
      (ErrReadOnlyVerifyBlocked (eg_Blockers gate))
  else match missingWorkerCapabilities (w_Capabilities worker) (rvo_AllowedCapabilities o) with
  | (_ :: _) as missing =>
      verifyDenied env
        (denied "worker capability denied"
           ["worker missing required capabilities: " +:+ strings_join "," missing]) o
        (ErrWorkerCapabilityDenied missing)
  | [] =>
      next <- nextReadOnlyVerifyTaskForLease env (p_ID record) (r_ID run) ;;
      match next with
      | None =>
          verifyDenied env
            (denied "no queued read-only verify task"
               ["no queued or needs_recovery read-only verify task is available"]) o
            ErrNoLeaseAvailable
      | Some task =>
          let targetPath := metadataString (t_Metadata task) "target_path" in
          db <- get_db ;;
          match canProjectPathInTx (db_project_permissions db) (p_ID record) "read_project"
                  targetPath with
          | (false, reason) =>
              let blockers := ["target path is not readable: " +:+ reason] in
              verifyDenied env (set_rvr_target targetPath (denied "read path denied" blockers)) o
                (ErrReadOnlyVerifyBlocked blockers)
          | (true, _) =>
              match safeProjectReadPath os (p_RootPath record) targetPath with
              | Err e =>
                  let blockers := ["target path escaped project root: " +:+ e] in
                  verifyDenied env (set_rvr_target targetPath
                    (denied "read path unsafe" blockers))
                    o (ErrReadOnlyVerifyBlocked blockers)
              | Ok fullPath =>
                  verifyClaim env os record o gate run version worker task targetPath fullPath
              end
          end
      end
  end.

Definition verifyTx (env : Env) (os : OS) (record : Record_)
    (o : ReadOnlyVerifyOptions) (requestHash : string) : M (res error verify_outcome) :=
  gate <- ExecutionApprovalGate_ (fun _ => None) (rvo_RunID o)
            (MkGateOptions (rvo_AllowedCapabilities o) true "read_only_verify_gate") ;;
  run <- loadRunForUpdate (rvo_RunID o) ;;
  if negb (r_ProjectID run =? p_ID record) then fail ErrRunNotFound
  else
    version <- workflowVersionByIDTx (p_ID record) (r_WorkflowVersionID run) ;;
    worker <- loadWorkerForUpdate (p_ID record) (rvo_WorkerKey o) ;;
    with_command env (p_ID record) "worker.read_only_verify" (rvo_IdempotencyKey o) requestHash
      (r <- loadReadOnlyVerifyByCommandResponse record version gate (rvo_IdempotencyKey o) ;;
       ret (Ok (r, None)))
      (verifyBody env os record o gate run version worker).

Definition set_rvo_key (key : string) (o : ReadOnlyVerifyOptions) : ReadOnlyVerifyOptions :=
  {| rvo_WorkerKey := rvo_WorkerKey o; rvo_RunID := rvo_RunID o;
   rvo_AllowedCapabilities := rvo_AllowedCapabilities o;
   rvo_LeaseTimeoutSeconds := rvo_LeaseTimeoutSeconds o; rvo_Metadata := rvo_Metadata o;
   rvo_IdempotencyKey := key; rvo_Actor := rvo_Actor o; rvo_Reason := rvo_Reason o |}.

Definition verifyOptions (record : Record_) (options : ReadOnlyVerifyOptions)
  : ReadOnlyVerifyOptions :=
  let o := normalizeReadOnlyVerifyOptions options in
  if rvo_IdempotencyKey o =s ""
  then set_rvo_key (readOnlyVerifyIdempotencyKey record o (readOnlyVerifyRequestHash record o)) o
  else o.

Definition VerifyReadOnly (env : Env) (os : OS) (record : Record_)
    (options : ReadOnlyVerifyOptions) (w : World) : res error verify_outcome * World :=
  if rvo_RunID options <=? 0 then (Err (ErrText "run id is required"), w)
  else
    transact (verifyTx env os record (verifyOptions record options)
                (readOnlyVerifyRequestHash record (normalizeReadOnlyVerifyOptions options))) w.

#[export] Hint Unfold insertReadOnlyVerifyRun insertReadOnlyVerifyTask
  insertReadOnlyVerifyQueueEvent
   insertReadOnlyVerifyQueueAuditEvent loadReadOnlyVerifyQueueByCommandResponse queueVerifyBody
   queueVerifyTx nextReadOnlyVerifyTaskForLease verifiedRunTaskCount
   remainingReadOnlyVerifyTaskCount writeAndInsertReadOnlyVerifyArtifact
   insertReadOnlyVerifyAttempt updateReadOnlyVerifyRunAfterTask insertReadOnlyVerifyEvent
   insertReadOnlyVerifyAuditEvent finishDeniedReadOnlyVerify loadReadOnlyVerifyByCommandResponse
   verifyDenied verifyClaim verifyBody verifyTx : prims.
