(* ===== verification/ApprovedWrite.v ===== *)
(** * Approved artifact writes

    [internal/project/approved_artifact_write.go]: queueing a run that writes
    one labelled artifact, and the command a worker executes it with: behind
    the execution approval gate, the worker's capabilities and the project's
    [write_artifacts] permission, and into the artifact store only. *)

From stdpp Require Import base list strings numbers gmap.
From Stdlib Require Import ZArith Lia Ascii String.
From S2P Require Import Prelude GoString Sha256 Json Schema Tx Command Capability History Worker.
From S2P Require Import Lease FilePath Permission RunOnce RunControl Profile Workflow Gates.
From S2P Require Import Runner EnginePreview ExecutionGate.

(** ** Options and results *)

Record ApprovedArtifactWriteQueueOptions := MkApprovedArtifactWriteQueueOptions {
  awq_ArtifactLabel : string; awq_IdempotencyKey : string; awq_Actor : string;
  awq_Reason : string }.

Record ApprovedArtifactWriteQueueResult := MkApprovedArtifactWriteQueueResult {
  awqr_Project : Record_; awqr_Version : WorkflowVersion; awqr_Run : RunRecord;
  awqr_Task : RunTaskRecord; awqr_ArtifactLabel : string; awqr_Created : bool;
  awqr_IdempotencyKey : string; awqr_EventID : Z; awqr_AuditEventID : Z;
  awqr_ProjectReadAttempted : bool; awqr_ProjectWriteAttempted : bool;
  awqr_ExecutionWriteAttempted : bool; awqr_AreaFlowArtifactWritten : bool;
  awqr_AreaFlowExecutionStateWritten : bool; awqr_EngineCallAttempted : bool;
  awqr_CommandsRun : bool; awqr_SecretsResolved : bool; awqr_NetworkUsed : bool }.

Record ApprovedArtifactWriteOptions := MkApprovedArtifactWriteOptions {
  awo_WorkerKey : string; awo_RunID : Z; awo_AllowedCapabilities : list string;
  awo_LeaseTimeoutSeconds : Z; awo_Metadata : option jmap; awo_IdempotencyKey : string;
  awo_Actor : string; awo_Reason : string }.

Record ApprovedArtifactWriteResult := MkApprovedArtifactWriteResult {
  awr_Project : Record_; awr_Version : WorkflowVersion; awr_Run : RunRecord;
  awr_Worker : WorkerRecord; awr_Lease : LeaseRecord; awr_Task : RunTaskRecord;
  awr_Attempt : RunAttemptRecord; awr_Artifact : ArtifactRecord;
  awr_Gate : ExecutionApprovalGate; awr_ArtifactLabel : string; awr_Status : string;
  awr_Decision : string; awr_Message : string; awr_Blockers : list string; awr_Created : bool;
  awr_IdempotencyKey : string; awr_EventID : Z; awr_AuditEventID : Z;
  awr_ProjectReadAttempted : bool; awr_ProjectWriteAttempted : bool;
  awr_ExecutionWriteAttempted : bool; awr_AreaFlowArtifactWritten : bool;
  awr_AreaFlowExecutionStateWritten : bool; awr_EngineCallAttempted : bool;
  awr_CommandsRun : bool; awr_SecretsResolved : bool; awr_NetworkUsed : bool;
  awr_TaskClaimed : bool; awr_WorkerStarted : bool; awr_LeaseCreated : bool;
  awr_AttemptCreated : bool; awr_ArtifactCreated : bool; awr_ArtifactWritePassed : bool }.

(** ** Labels *)

(** A byte a label may contain besides the dash *)
Definition label_byte (b : Z) : bool := alnum b || (b =? 95) || (b =? 46).

(** The loop: everything else becomes a dash, and runs of dashes one dash. *)
Fixpoint label_loop (lastDash : bool) (l : list Z) : list Z :=
  match l with
  | [] => []
  | ch :: rest =>
      if label_byte ch then ch :: label_loop false rest
      else if lastDash then label_loop true rest
      else 45 :: label_loop true rest
  end.

(** [strings.Trim(s, "-.")] *)
Definition dash_dot (b : Z) : bool := (b =? 45) || (b =? 46).
Fixpoint trim_dash_l (l : list Z) : list Z :=
  match l with
  | b :: l' => if dash_dot b then trim_dash_l l' else l
  | [] => []
  end.
Definition trim_dash (l : list Z) : list Z := rev (trim_dash_l (rev (trim_dash_l l))).

Definition normalizeApprovedArtifactLabel (label : string) : string :=
  let label := trim_space label in
  if label =s "" then "approved-artifact"
  else
    let normalized := trim_dash (label_loop false (bytes_of label)) in
    match normalized with
    | [] => "approved-artifact"
    | _ =>
        let normalized :=
          if 80 <? Z.of_nat (List.length normalized) then trim_dash (take 80 normalized)
          else normalized in
        match normalized with [] => "approved-artifact" | _ => str_of_bytes normalized end
    end.

(** ** Requests *)

Definition approvedArtifactWriteQueueRequestHash (record : Record_) (version : WorkflowVersion)
    (o : ApprovedArtifactWriteQueueOptions) : string :=
  request_hash
    [("command_type", JStr "run.approved_artifact_write_queue");
     ("project_id", JInt (p_ID record)); ("project_key", JStr (p_Key record));
     ("version_id", JInt (v_ID version)); ("display_label", JStr (v_DisplayLabel version));
     ("artifact_label", JStr (awq_ArtifactLabel o)); ("actor", JStr (awq_Actor o));
     ("reason", JStr (awq_Reason o)); ("artifact_write", JBool true)].

Definition approvedArtifactWriteRequestHash (record : Record_)
    (o : ApprovedArtifactWriteOptions) : string :=
  request_hash
    [("command_type", JStr "worker.approved_artifact_write");
     ("project_id", JInt (p_ID record)); ("project_key", JStr (p_Key record));
     ("worker_key", JStr (awo_WorkerKey o)); ("run_id", JInt (awo_RunID o));
     ("allowed_capabilities", jstrs (awo_AllowedCapabilities o));
     ("lease_timeout_seconds", JInt (awo_LeaseTimeoutSeconds o));
     ("metadata", JObj (map_or_empty (awo_Metadata o))); ("actor", JStr (awo_Actor o));
     ("reason", JStr (awo_Reason o)); ("artifact_write", JBool true)].

Definition approvedArtifactWriteQueueIdempotencyKey (record : Record_) (version : WorkflowVersion)
    (requestHash : string) : string :=
  "run.approved_artifact_write_queue:" +:+ p_Key record +:+ ":" +:+ v_DisplayLabel version +:+ ":"
  +:+ commandHashPrefix requestHash.

Definition approvedArtifactWriteIdempotencyKey (record : Record_)
    (o : ApprovedArtifactWriteOptions)
    (requestHash : string) : string :=
  "worker.approved_artifact_write:" +:+ p_Key record +:+ ":" +:+ awo_WorkerKey o +:+ ":"
  +:+ fmt_d (awo_RunID o) +:+ ":" +:+ commandHashPrefix requestHash.

(** ** Normalisation *)

Definition normalizeApprovedArtifactWriteQueueOptions (record : Record_)
    (version : WorkflowVersion)
    (o : ApprovedArtifactWriteQueueOptions) : ApprovedArtifactWriteQueueOptions :=
  let o :=
    MkApprovedArtifactWriteQueueOptions (normalizeApprovedArtifactLabel (awq_ArtifactLabel o))
      (trim_space (awq_IdempotencyKey o))
      (trim_default "local-user" (awq_Actor o))
      (trim_default "queue approved artifact write run" (awq_Reason o)) in
  if awq_IdempotencyKey o =s ""
  then MkApprovedArtifactWriteQueueOptions (awq_ArtifactLabel o)
         (approvedArtifactWriteQueueIdempotencyKey record version
            (approvedArtifactWriteQueueRequestHash record version o)) (awq_Actor o) (awq_Reason o)
  else o.

Definition normalizeApprovedArtifactWriteOptions (o : ApprovedArtifactWriteOptions) :
    ApprovedArtifactWriteOptions :=
  {| awo_WorkerKey := trim_space (awo_WorkerKey o); awo_RunID := awo_RunID o;
     awo_AllowedCapabilities :=
       normalizeCapabilityList
         (match awo_AllowedCapabilities o with
          | [] => ["write_artifacts"]
          | l => l end);
     awo_LeaseTimeoutSeconds :=
       if awo_LeaseTimeoutSeconds o <=? 0 then 300 else awo_LeaseTimeoutSeconds o;
     awo_Metadata := Some (map_or_empty (awo_Metadata o));
     awo_IdempotencyKey := trim_space (awo_IdempotencyKey o);
     awo_Actor := trim_default "local-user" (awo_Actor o);
     awo_Reason := trim_default "approval-gated approved artifact write" (awo_Reason o) |}.

(** ** Queueing a run *)

Definition insertApprovedArtifactWriteRun (env : Env) (record : Record_)
    (version : WorkflowVersion)
    (o : ApprovedArtifactWriteQueueOptions) : M RunRecord :=
  r <- insert_row (fun id =>
         MkRun id (p_ID record) (v_ID version) "approved_artifact_write" "execution" "queued"
           "low"
           "pause" false
           (mk [("approved_artifact_write", JBool true); ("approval_gated", JBool true);
                ("artifact_label", JStr (awq_ArtifactLabel o));
                ("project_read_attempted", JBool false);
                ("project_write_attempted", JBool false);
                ("execution_write_attempted", JBool false);
                ("area_flow_artifact_written", JBool false);
                ("engine_call_attempted", JBool false); ("commands_run", JBool false);
                ("secrets_resolved", JBool false); ("network_used", JBool false);
                ("area_flow_execution_state", JStr "queued");
                ("area_flow_execution_state_set", JBool true)])
           (mk [("phase", JStr "v0.6k"); ("approved_artifact_write", JBool true);
                ("approval_gated", JBool true); ("artifact_label", JStr (awq_ArtifactLabel o));
                ("actor", JStr (awq_Actor o)); ("reason", JStr (awq_Reason o))])
           (env_now env) None) ;;
  ret (scanRun r).

Definition insertApprovedArtifactWriteTask (env : Env) (record : Record_)
    (version : WorkflowVersion)
    (run : RunRecord) (o : ApprovedArtifactWriteQueueOptions) : M RunTaskRecord :=
  t <- insert_row (fun id =>
         MkRunTask id (p_ID record) (v_ID version) 0 (r_ID run)
           (v_DisplayLabel version +:+ ":approved-artifact-write:" +:+ awq_ArtifactLabel o)
             "approved_artifact_write_task" "queued" "low" 1
           (mk [("approved_artifact_write", JBool true); ("approval_gated", JBool true);
                ("artifact_label", JStr (awq_ArtifactLabel o)); ("actor", JStr (awq_Actor o));
                ("reason", JStr (awq_Reason o))])
           (env_now env) (env_now env)) ;;
  ret (scanRunTask t).

Definition approvedArtifactWriteQueueMetadata (r : ApprovedArtifactWriteQueueResult)
    (o : ApprovedArtifactWriteQueueOptions) : jmap :=
  mk [("project_key", JStr (p_Key (awqr_Project r)));
      ("workflow_version_id", JInt (v_ID (awqr_Version r)));
      ("display_label", JStr (v_DisplayLabel (awqr_Version r)));
      ("run_id", JInt (r_ID (awqr_Run r))); ("run_task_id", JInt (t_ID (awqr_Task r)));
      ("artifact_label", JStr (awqr_ArtifactLabel r)); ("actor", JStr (awq_Actor o));
      ("idempotency_key", JStr (awq_IdempotencyKey o)); ("approved_artifact_write", JBool true);
      ("approval_gated", JBool true); ("project_read_attempted", JBool false);
      ("project_write_attempted", JBool false); ("execution_write_attempted", JBool false);
      ("area_flow_artifact_written", JBool false);
      ("area_flow_execution_state_written", JBool true); ("engine_call_attempted", JBool false);
      ("commands_run", JBool false); ("secrets_resolved", JBool false);
      ("network_used", JBool false)].

Definition insertApprovedArtifactWriteQueueEvent (env : Env)
    (r : ApprovedArtifactWriteQueueResult)
    (o : ApprovedArtifactWriteQueueOptions) : M Z :=
  e <- insert_row (fun id =>
         MkEvent id (p_ID (awqr_Project r)) (r_ID (awqr_Run r)) (v_ID (awqr_Version r))
           "run.approved_artifact_write_queue.created" "info" "Approved artifact write run queued"
           (approvedArtifactWriteQueueMetadata r o) (env_now env)) ;;
  ret (e_ID e).

Definition insertApprovedArtifactWriteQueueAuditEvent (env : Env)
    (r : ApprovedArtifactWriteQueueResult)
    (o : ApprovedArtifactWriteQueueOptions) : M Z :=
  a <- insert_row (fun id =>
         MkAudit id (p_ID (awqr_Project r)) 0 "run.approved_artifact_write_queue" "manage_runs"
           "run"
           (fmt_d (r_ID (awqr_Run r))) "allowed" (awq_Reason o)
           (approvedArtifactWriteQueueMetadata r o) (env_now env)) ;;
  ret (au_ID a).

Definition approvedArtifactWriteQueueCommandResponse (r : ApprovedArtifactWriteQueueResult) :
    jmap :=
  mk [("project_id", JInt (p_ID (awqr_Project r)));
      ("project_key", JStr (p_Key (awqr_Project r)));
      ("workflow_version_id", JInt (v_ID (awqr_Version r)));
      ("display_label", JStr (v_DisplayLabel (awqr_Version r)));
      ("run_id", JInt (r_ID (awqr_Run r))); ("run_task_id", JInt (t_ID (awqr_Task r)));
      ("artifact_label", JStr (awqr_ArtifactLabel r)); ("event_id", JInt (awqr_EventID r));
      ("audit_event_id", JInt (awqr_AuditEventID r)); ("approved_artifact_write", JBool true);
      ("approval_gated", JBool true); ("project_read_attempted", JBool false);
      ("project_write_attempted", JBool false); ("execution_write_attempted", JBool false);
      ("area_flow_artifact_written", JBool false);
      ("area_flow_execution_state_written", JBool (awqr_AreaFlowExecutionStateWritten r));
      ("engine_call_attempted", JBool false); ("commands_run", JBool false);
      ("secrets_resolved", JBool false); ("network_used", JBool false)].

Definition set_awqr_event (eventID : Z) (r : ApprovedArtifactWriteQueueResult) :
    ApprovedArtifactWriteQueueResult :=
  {| awqr_Project := awqr_Project r; awqr_Version := awqr_Version r; awqr_Run := awqr_Run r;
   awqr_Task := awqr_Task r; awqr_ArtifactLabel := awqr_ArtifactLabel r;
   awqr_Created := awqr_Created r; awqr_IdempotencyKey := awqr_IdempotencyKey r;
   awqr_EventID := eventID; awqr_AuditEventID := awqr_AuditEventID r;
   awqr_ProjectReadAttempted := awqr_ProjectReadAttempted r;
   awqr_ProjectWriteAttempted := awqr_ProjectWriteAttempted r;
   awqr_ExecutionWriteAttempted := awqr_ExecutionWriteAttempted r;
   awqr_AreaFlowArtifactWritten := awqr_AreaFlowArtifactWritten r;
   awqr_AreaFlowExecutionStateWritten := awqr_AreaFlowExecutionStateWritten r;
   awqr_EngineCallAttempted := awqr_EngineCallAttempted r;
   awqr_CommandsRun := awqr_CommandsRun r; awqr_SecretsResolved := awqr_SecretsResolved r;
   awqr_NetworkUsed := awqr_NetworkUsed r |}.

Definition set_awqr_audit (auditEventID : Z) (r : ApprovedArtifactWriteQueueResult) :
    ApprovedArtifactWriteQueueResult :=
  {| awqr_Project := awqr_Project r; awqr_Version := awqr_Version r; awqr_Run := awqr_Run r;
   awqr_Task := awqr_Task r; awqr_ArtifactLabel := awqr_ArtifactLabel r;
   awqr_Created := awqr_Created r; awqr_IdempotencyKey := awqr_IdempotencyKey r;
   awqr_EventID := awqr_EventID r; awqr_AuditEventID := auditEventID;
   awqr_ProjectReadAttempted := awqr_ProjectReadAttempted r;
   awqr_ProjectWriteAttempted := awqr_ProjectWriteAttempted r;
   awqr_ExecutionWriteAttempted := awqr_ExecutionWriteAttempted r;
   awqr_AreaFlowArtifactWritten := awqr_AreaFlowArtifactWritten r;
   awqr_AreaFlowExecutionStateWritten := awqr_AreaFlowExecutionStateWritten r;
   awqr_EngineCallAttempted := awqr_EngineCallAttempted r;
   awqr_CommandsRun := awqr_CommandsRun r; awqr_SecretsResolved := awqr_SecretsResolved r;
   awqr_NetworkUsed := awqr_NetworkUsed r |}.

Definition loadApprovedArtifactWriteQueueByCommandResponse (record : Record_)
    (version : WorkflowVersion) (idempotencyKey : string) : M ApprovedArtifactWriteQueueResult :=
  response <- loadCommandResponse (p_ID record) "run.approved_artifact_write_queue"
    idempotencyKey ;;
  run <- loadRunForUpdate (metadataInt64 response "run_id") ;;
  task <- loadRunTaskByID (p_ID record) (metadataInt64 response "run_task_id") ;;
  ret {| awqr_Project := record; awqr_Version := version; awqr_Run := run; awqr_Task := task;
       awqr_ArtifactLabel := metadataString response "artifact_label"; awqr_Created := false;
       awqr_IdempotencyKey := idempotencyKey; awqr_EventID := metadataInt64 response "event_id";
       awqr_AuditEventID := metadataInt64 response "audit_event_id";
       awqr_ProjectReadAttempted := metadataBool response "project_read_attempted";
       awqr_ProjectWriteAttempted := metadataBool response "project_write_attempted";
       awqr_ExecutionWriteAttempted := metadataBool response "execution_write_attempted";
       awqr_AreaFlowArtifactWritten := metadataBool response "area_flow_artifact_written";
       awqr_AreaFlowExecutionStateWritten := metadataBool response
         "area_flow_execution_state_written";
       awqr_EngineCallAttempted := metadataBool response "engine_call_attempted";
       awqr_CommandsRun := metadataBool response "commands_run";
       awqr_SecretsResolved := metadataBool response "secrets_resolved";
       awqr_NetworkUsed := metadataBool response "network_used" |}.

Definition queueArtifactBody (env : Env) (record : Record_) (version : WorkflowVersion)
    (o : ApprovedArtifactWriteQueueOptions) : M (res error ApprovedArtifactWriteQueueResult) :=
  run <- insertApprovedArtifactWriteRun env record version o ;;
  task <- insertApprovedArtifactWriteTask env record version run o ;;
  let r :=
    {| awqr_Project := record; awqr_Version := version; awqr_Run := run; awqr_Task := task;
     awqr_ArtifactLabel := awq_ArtifactLabel o; awqr_Created := true;
     awqr_IdempotencyKey := awq_IdempotencyKey o; awqr_EventID := 0; awqr_AuditEventID := 0;
     awqr_ProjectReadAttempted := false; awqr_ProjectWriteAttempted := false;
     awqr_ExecutionWriteAttempted := false; awqr_AreaFlowArtifactWritten := false;
     awqr_AreaFlowExecutionStateWritten := true; awqr_EngineCallAttempted := false;
     awqr_CommandsRun := false; awqr_SecretsResolved := false; awqr_NetworkUsed := false |} in
  eventID <- insertApprovedArtifactWriteQueueEvent env r o ;;
  let r := set_awqr_event eventID r in
  auditEventID <- insertApprovedArtifactWriteQueueAuditEvent env r o ;;
  let r := set_awqr_audit auditEventID r in
  completeCommandRequestResponse env (p_ID record) "run.approved_artifact_write_queue"
    (awq_IdempotencyKey o)
    (approvedArtifactWriteQueueCommandResponse r) ;;;
  ret (Ok r).

(** [normalizeApprovedArtifactWriteQueueOptions] has filled in the key. *)
Definition queueArtifactTx (env : Env) (record : Record_) (label : string)
    (options : ApprovedArtifactWriteQueueOptions) : M
    (res error ApprovedArtifactWriteQueueResult) :=
  version <- authoredVersion record label ;;
  let o := normalizeApprovedArtifactWriteQueueOptions record version options in
  with_command env (p_ID record) "run.approved_artifact_write_queue" (awq_IdempotencyKey o)
    (approvedArtifactWriteQueueRequestHash record version o)
    (r <- loadApprovedArtifactWriteQueueByCommandResponse record version (awq_IdempotencyKey o) ;;
     ret (Ok r))
    (queueArtifactBody env record version o).

Definition QueueApprovedArtifactWrite (env : Env) (record : Record_) (label : string)
    (options : ApprovedArtifactWriteQueueOptions) (w : World)
  : res error ApprovedArtifactWriteQueueResult * World :=
  transact (queueArtifactTx env record label options) w.

(** ** Claiming the task *)

Definition nextApprovedArtifactWriteTaskForLease (env : Env) (projectID runID : Z)
  : M (option RunTaskRecord) :=
  next_execution_task env projectID runID "approved_artifact_write_task".

Definition artifactWrittenRunTaskCount (runID : Z) : M Z := count_tasks
    (done_task runID "artifact_written").

Definition remainingApprovedArtifactWriteTaskCount (runID : Z) : M Z :=
  count_tasks (remaining_task runID "approved_artifact_write_task").

Definition approvedArtifactReport (env : Env) (record : Record_) (version : WorkflowVersion)
    (run : RunRecord) (worker : WorkerRecord) (task : RunTaskRecord) (lease : LeaseRecord)
    (gate : ExecutionApprovalGate) (artifactLabel : string)
    (o : ApprovedArtifactWriteOptions) : string :=
  marshal_indent (JObj (mk
    [("project", JStr (p_Key record)); ("workflow_version", JStr (v_DisplayLabel version));
     ("run_id", JInt (r_ID run)); ("run_task_id", JInt (t_ID task));
     ("task_key", JStr (t_TaskKey task)); ("task_kind", JStr (t_TaskKind task));
     ("worker_id", JInt (w_ID worker)); ("worker_key", JStr (w_WorkerKey worker));
     ("lease_id", JInt (l_ID lease)); ("artifact_label", JStr artifactLabel);
     ("approved_artifact_write", JBool true); ("approval_gated", JBool true);
     ("execution_gate_status", JStr (eg_Status gate)); ("project_read_attempted", JBool false);
     ("project_write_attempted", JBool false); ("execution_write_attempted", JBool false);
     ("area_flow_artifact_written", JBool true);
     ("area_flow_execution_state_written", JBool true); ("engine_call_attempted", JBool false);
     ("commands_run", JBool false); ("secrets_resolved", JBool false);
     ("network_used", JBool false); ("allowed_capabilities", jstrs (awo_AllowedCapabilities o));
     ("generated_at", JStr (env_rfc3339 env))])).

Definition writeAndInsertApprovedArtifact (env : Env) (record : Record_)
    (version : WorkflowVersion) (run : RunRecord) (worker : WorkerRecord) (task : RunTaskRecord)
    (lease : LeaseRecord) (gate : ExecutionApprovalGate) (artifactLabel : string)
    (o : ApprovedArtifactWriteOptions) : M ArtifactRecord :=
  let relativePath :=
    path_join ["versions"; v_DisplayLabel version; "approved-artifact-write";
               "run-" +:+ fmt_d (r_ID run) +:+ "-task-" +:+ fmt_d (t_ID task) +:+ "-"
               +:+ artifactLabel +:+ ".json"] in
  st <- writeProjectArtifact env record relativePath
          (approvedArtifactReport env record version run worker task lease gate artifactLabel o)
          "application/json" ;;
  insertRunArtifactRecord env (p_ID record) (v_ID version) (r_ID run) (t_WorkflowItemID task)
    "approved_artifact_write_report" relativePath st
    (mk [("phase", JStr "v0.6k"); ("owned_by", JStr "areaflow");
         ("approved_artifact_write", JBool true); ("approval_gated", JBool true);
         ("artifact_label", JStr artifactLabel); ("worker_id", JInt (w_ID worker));
         ("worker_key", JStr (w_WorkerKey worker)); ("run_id", JInt (r_ID run));
         ("run_task_id", JInt (t_ID task)); ("lease_id", JInt (l_ID lease));
         ("actor", JStr (awo_Actor o)); ("reason", JStr (awo_Reason o));
         ("execution_gate_status", JStr (eg_Status gate))]).

Definition insertApprovedArtifactWriteAttempt (env : Env) (record : Record_)
    (task : RunTaskRecord)
    (lease : LeaseRecord) (report : ArtifactRecord) (artifactLabel : string)
    (o : ApprovedArtifactWriteOptions) : M RunAttemptRecord :=
  a <- insert_row (fun id =>
         MkRunAttempt id (p_ID record) (t_WorkflowVersionID task) (t_WorkflowItemID task)
           (t_RunID task) (t_ID task) "approved_artifact_write" "passed" false
           (mk [("actor", JStr (awo_Actor o)); ("reason", JStr (awo_Reason o));
                ("approved_artifact_write", JBool true); ("approval_gated", JBool true);
                ("artifact_label", JStr artifactLabel); ("project_read_attempted", JBool false);
                ("project_write_attempted", JBool false);
                ("execution_write_attempted", JBool false);
                ("area_flow_artifact_written", JBool true);
                ("area_flow_execution_state_written", JBool true);
                ("engine_call_attempted", JBool false); ("commands_run", JBool false);
                ("secrets_resolved", JBool false); ("network_used", JBool false);
                ("lease_id", JInt (l_ID lease)); ("worker_id", JInt (l_WorkerID lease));
                ("evidence_artifact_id", JInt (ar_ID report))])
           (env_now env) (Some (env_now env))) ;;
  ret (scanRunAttempt a).

Definition updateApprovedArtifactWriteRunAfterTask (env : Env) (run : RunRecord)
    (o : ApprovedArtifactWriteOptions) (artifactID attemptID : Z) : M RunRecord :=
  done <- artifactWrittenRunTaskCount (r_ID run) ;;
  remaining <- remainingApprovedArtifactWriteTaskCount (r_ID run) ;;
  let summary :=
    mset_all [("approved_artifact_write", JBool true); ("approval_gated", JBool true);
              ("last_artifact_id", JInt artifactID); ("last_attempt_id", JInt attemptID);
              ("project_read_attempted", JBool false); ("project_write_attempted", JBool false);
              ("execution_write_attempted", JBool false);
              ("area_flow_artifact_written", JBool true);
              ("area_flow_execution_state_written", JBool true);
              ("engine_call_attempted", JBool false); ("commands_run", JBool false);
              ("secrets_resolved", JBool false); ("network_used", JBool false);
              ("artifact_written_task_count", JInt done);
              ("remaining_task_count", JInt remaining)] (copyMap (r_Summary run)) in
  let metadata :=
    mset_all [("last_approved_artifact_write_actor", JStr (awo_Actor o));
              ("last_approved_artifact_write_reason", JStr (awo_Reason o));
              ("last_approved_artifact_write_at", JStr (env_rfc3339 env));
              ("last_artifact_id", JInt artifactID); ("last_attempt_id", JInt attemptID);
              ("approved_artifact_write", JBool true); ("approval_gated", JBool true)]
                (copyMap (r_Metadata run)) in
  rows <- update_rows (fun r => r_ID r =? r_ID run)
            (run_progress (env_now env) (remaining =? 0)
               (if remaining =? 0 then "artifact_written" else "running") summary metadata) ;;
  r <- first_row rows ;;
  ret (scanRun r).

(** ** History and responses *)

Definition approvedArtifactWriteMetadata (r : ApprovedArtifactWriteResult)
    (o : ApprovedArtifactWriteOptions) : jmap :=
  mk [("project_key", JStr (p_Key (awr_Project r)));
      ("workflow_version_id", JInt (v_ID (awr_Version r)));
      ("display_label", JStr (v_DisplayLabel (awr_Version r)));
      ("run_id", JInt (r_ID (awr_Run r))); ("run_task_id", JInt (t_ID (awr_Task r)));
      ("lease_id", JInt (l_ID (awr_Lease r))); ("attempt_id", JInt (at_ID (awr_Attempt r)));
      ("artifact_id", JInt (ar_ID (awr_Artifact r))); ("worker_id", JInt (w_ID (awr_Worker r)));
      ("worker_key", JStr (w_WorkerKey (awr_Worker r)));
      ("artifact_label", JStr (awr_ArtifactLabel r)); ("status", JStr (awr_Status r));
      ("decision", JStr (awr_Decision r)); ("blockers", jstrs_nil (awr_Blockers r));
      ("actor", JStr (awo_Actor o)); ("idempotency_key", JStr (awo_IdempotencyKey o));
      ("approved_artifact_write", JBool true); ("approval_gated", JBool true);
      ("execution_gate_status", JStr (eg_Status (awr_Gate r)));
      ("task_claimed", JBool (awr_TaskClaimed r));
      ("worker_started", JBool (awr_WorkerStarted r));
      ("lease_created", JBool (awr_LeaseCreated r));
      ("attempt_created", JBool (awr_AttemptCreated r));
      ("artifact_created", JBool (awr_ArtifactCreated r));
      ("artifact_write_passed", JBool (awr_ArtifactWritePassed r));
      ("area_flow_artifact_written", JBool (awr_AreaFlowArtifactWritten r));
      ("area_flow_execution_state_written", JBool (awr_AreaFlowExecutionStateWritten r));
      ("project_read_attempted", JBool (awr_ProjectReadAttempted r));
      ("project_write_attempted", JBool (awr_ProjectWriteAttempted r));
      ("execution_write_attempted", JBool (awr_ExecutionWriteAttempted r));
      ("engine_call_attempted", JBool (awr_EngineCallAttempted r));
      ("commands_run", JBool (awr_CommandsRun r));
      ("secrets_resolved", JBool (awr_SecretsResolved r));
      ("network_used", JBool (awr_NetworkUsed r))].

Definition insertApprovedArtifactWriteEvent (env : Env) (r : ApprovedArtifactWriteResult)
    (o : ApprovedArtifactWriteOptions) : M Z :=
  e <- insert_row (fun id =>
         MkEvent id (p_ID (awr_Project r)) (r_ID (awr_Run r)) (v_ID (awr_Version r))
           ("worker.approved_artifact_write." +:+ awr_Decision r)
           (if awr_Decision r =s "denied" then "warning" else "info") (awr_Message r)
           (approvedArtifactWriteMetadata r o) (env_now env)) ;;
  ret (e_ID e).

Definition insertApprovedArtifactWriteAuditEvent (env : Env) (r : ApprovedArtifactWriteResult)
    (o : ApprovedArtifactWriteOptions) : M Z :=
  a <- insert_row (fun id =>
         MkAudit id (p_ID (awr_Project r)) (w_ActorID (awr_Worker r))
           "worker.approved_artifact_write"
           "write_artifacts" "artifact" (awr_ArtifactLabel r) (awr_Decision r) (awo_Reason o)
           (approvedArtifactWriteMetadata r o) (env_now env)) ;;
  ret (au_ID a).

Definition approvedArtifactWriteCommandResponse (r : ApprovedArtifactWriteResult) : jmap :=
  mk [("project_id", JInt (p_ID (awr_Project r)));
      ("project_key", JStr (p_Key (awr_Project r)));
      ("workflow_version_id", JInt (v_ID (awr_Version r)));
      ("display_label", JStr (v_DisplayLabel (awr_Version r)));
      ("run_id", JInt (r_ID (awr_Run r))); ("run_status", JStr (r_Status (awr_Run r)));
      ("worker_id", JInt (w_ID (awr_Worker r)));
      ("worker_key", JStr (w_WorkerKey (awr_Worker r)));
      ("run_task_id", JInt (t_ID (awr_Task r))); ("task_status", JStr (t_Status (awr_Task r)));
      ("lease_id", JInt (l_ID (awr_Lease r))); ("attempt_id", JInt (at_ID (awr_Attempt r)));
      ("artifact_id", JInt (ar_ID (awr_Artifact r)));
      ("artifact_type", JStr (ar_ArtifactType (awr_Artifact r)));
      ("artifact_label", JStr (awr_ArtifactLabel r)); ("event_id", JInt (awr_EventID r));
      ("audit_event_id", JInt (awr_AuditEventID r)); ("status", JStr (awr_Status r));
      ("decision", JStr (awr_Decision r)); ("message", JStr (awr_Message r));
      ("blockers", jstrs_nil (awr_Blockers r)); ("approved_artifact_write", JBool true);
      ("approval_gated", JBool true); ("execution_gate_status", JStr (eg_Status (awr_Gate r)));
      ("project_read_attempted", JBool (awr_ProjectReadAttempted r));
      ("project_write_attempted", JBool (awr_ProjectWriteAttempted r));
      ("execution_write_attempted", JBool (awr_ExecutionWriteAttempted r));
      ("area_flow_artifact_written", JBool (awr_AreaFlowArtifactWritten r));
      ("area_flow_execution_state_written", JBool (awr_AreaFlowExecutionStateWritten r));
      ("engine_call_attempted", JBool (awr_EngineCallAttempted r));
      ("commands_run", JBool (awr_CommandsRun r));
      ("secrets_resolved", JBool (awr_SecretsResolved r));
      ("network_used", JBool (awr_NetworkUsed r)); ("task_claimed", JBool (awr_TaskClaimed r));
      ("worker_started", JBool (awr_WorkerStarted r));
      ("lease_created", JBool (awr_LeaseCreated r));
      ("attempt_created", JBool (awr_AttemptCreated r));
      ("artifact_created", JBool (awr_ArtifactCreated r));
      ("artifact_write_passed", JBool (awr_ArtifactWritePassed r))].

Definition set_awr_event (eventID : Z) (r : ApprovedArtifactWriteResult) :
    ApprovedArtifactWriteResult :=
  {| awr_Project := awr_Project r; awr_Version := awr_Version r; awr_Run := awr_Run r;
   awr_Worker := awr_Worker r; awr_Lease := awr_Lease r; awr_Task := awr_Task r;
   awr_Attempt := awr_Attempt r; awr_Artifact := awr_Artifact r; awr_Gate := awr_Gate r;
   awr_ArtifactLabel := awr_ArtifactLabel r; awr_Status := awr_Status r;
   awr_Decision := awr_Decision r; awr_Message := awr_Message r; awr_Blockers := awr_Blockers r;
   awr_Created := awr_Created r; awr_IdempotencyKey := awr_IdempotencyKey r;
   awr_EventID := eventID; awr_AuditEventID := awr_AuditEventID r;
   awr_ProjectReadAttempted := awr_ProjectReadAttempted r;
   awr_ProjectWriteAttempted := awr_ProjectWriteAttempted r;
   awr_ExecutionWriteAttempted := awr_ExecutionWriteAttempted r;
   awr_AreaFlowArtifactWritten := awr_AreaFlowArtifactWritten r;
   awr_AreaFlowExecutionStateWritten := awr_AreaFlowExecutionStateWritten r;
   awr_EngineCallAttempted := awr_EngineCallAttempted r; awr_CommandsRun := awr_CommandsRun r;
   awr_SecretsResolved := awr_SecretsResolved r; awr_NetworkUsed := awr_NetworkUsed r;
   awr_TaskClaimed := awr_TaskClaimed r; awr_WorkerStarted := awr_WorkerStarted r;
   awr_LeaseCreated := awr_LeaseCreated r; awr_AttemptCreated := awr_AttemptCreated r;
   awr_ArtifactCreated := awr_ArtifactCreated r;
   awr_ArtifactWritePassed := awr_ArtifactWritePassed r |}.

Definition set_awr_audit (auditEventID : Z) (r : ApprovedArtifactWriteResult) :
    ApprovedArtifactWriteResult :=
  {| awr_Project := awr_Project r; awr_Version := awr_Version r; awr_Run := awr_Run r;
   awr_Worker := awr_Worker r; awr_Lease := awr_Lease r; awr_Task := awr_Task r;
   awr_Attempt := awr_Attempt r; awr_Artifact := awr_Artifact r; awr_Gate := awr_Gate r;
   awr_ArtifactLabel := awr_ArtifactLabel r; awr_Status := awr_Status r;
   awr_Decision := awr_Decision r; awr_Message := awr_Message r; awr_Blockers := awr_Blockers r;
   awr_Created := awr_Created r; awr_IdempotencyKey := awr_IdempotencyKey r;
   awr_EventID := awr_EventID r; awr_AuditEventID := auditEventID;
   awr_ProjectReadAttempted := awr_ProjectReadAttempted r;
   awr_ProjectWriteAttempted := awr_ProjectWriteAttempted r;
   awr_ExecutionWriteAttempted := awr_ExecutionWriteAttempted r;
   awr_AreaFlowArtifactWritten := awr_AreaFlowArtifactWritten r;
   awr_AreaFlowExecutionStateWritten := awr_AreaFlowExecutionStateWritten r;
   awr_EngineCallAttempted := awr_EngineCallAttempted r; awr_CommandsRun := awr_CommandsRun r;
   awr_SecretsResolved := awr_SecretsResolved r; awr_NetworkUsed := awr_NetworkUsed r;
   awr_TaskClaimed := awr_TaskClaimed r; awr_WorkerStarted := awr_WorkerStarted r;
   awr_LeaseCreated := awr_LeaseCreated r; awr_AttemptCreated := awr_AttemptCreated r;
   awr_ArtifactCreated := awr_ArtifactCreated r;
   awr_ArtifactWritePassed := awr_ArtifactWritePassed r |}.

Definition deniedApprovedArtifactWriteResult (record : Record_) (version : WorkflowVersion)
    (run : RunRecord) (worker : WorkerRecord) (gate : ExecutionApprovalGate)
    (o : ApprovedArtifactWriteOptions) (message : string) (blockers : list string)
  : ApprovedArtifactWriteResult :=
  {| awr_Project := record; awr_Version := version; awr_Run := run; awr_Worker := worker;
   awr_Lease := no_lease; awr_Task := no_task; awr_Attempt := no_attempt;
   awr_Artifact := no_artifact; awr_Gate := gate; awr_ArtifactLabel := "";
   awr_Status := "blocked"; awr_Decision := "denied"; awr_Message := message;
   awr_Blockers := blockers; awr_Created := true; awr_IdempotencyKey := awo_IdempotencyKey o;
   awr_EventID := 0; awr_AuditEventID := 0; awr_ProjectReadAttempted := false;
   awr_ProjectWriteAttempted := false; awr_ExecutionWriteAttempted := false;
   awr_AreaFlowArtifactWritten := false; awr_AreaFlowExecutionStateWritten := false;
   awr_EngineCallAttempted := false; awr_CommandsRun := false; awr_SecretsResolved := false;
   awr_NetworkUsed := false; awr_TaskClaimed := false; awr_WorkerStarted := false;
   awr_LeaseCreated := false; awr_AttemptCreated := false; awr_ArtifactCreated := false;
   awr_ArtifactWritePassed := false |}.

(** The caller's copy of the result keeps its zero event ids. *)
Definition finishDeniedApprovedArtifactWrite (env : Env) (r : ApprovedArtifactWriteResult)
    (o : ApprovedArtifactWriteOptions) : M unit :=
  eventID <- insertApprovedArtifactWriteEvent env r o ;;
  let r := set_awr_event eventID r in
  auditEventID <- insertApprovedArtifactWriteAuditEvent env r o ;;
  let r := set_awr_audit auditEventID r in
  completeCommandRequestResponse env (p_ID (awr_Project r)) "worker.approved_artifact_write"
    (awo_IdempotencyKey o) (approvedArtifactWriteCommandResponse r).

Definition loadApprovedArtifactWriteByCommandResponse (record : Record_)
    (version : WorkflowVersion)
    (gate : ExecutionApprovalGate) (idempotencyKey : string) : M ApprovedArtifactWriteResult :=
  response <- loadCommandResponse (p_ID record) "worker.approved_artifact_write" idempotencyKey ;;
  run <- loadRunForUpdate (metadataInt64 response "run_id") ;;
  worker <- load_if (metadataInt64 response "worker_id") no_worker
    (loadWorkerByID (p_ID record)) ;;
  task <- load_if (metadataInt64 response "run_task_id") no_task
    (loadRunTaskByID (p_ID record)) ;;
  lease <- load_if (metadataInt64 response "lease_id") no_lease (loadLeaseByID (p_ID record)) ;;
  attempt <- load_if (metadataInt64 response "attempt_id") no_attempt
               (loadRunAttemptByID (p_ID record)) ;;
  artifact <- load_if (metadataInt64 response "artifact_id") no_artifact
                (loadArtifactByIDTx (p_ID record)) ;;
  ret {| awr_Project := record; awr_Version := version; awr_Run := run; awr_Worker := worker;
       awr_Lease := lease; awr_Task := task; awr_Attempt := attempt; awr_Artifact := artifact;
       awr_Gate := gate; awr_ArtifactLabel := metadataString response "artifact_label";
       awr_Status := metadataString response "status";
       awr_Decision := metadataString response "decision";
       awr_Message := metadataString response "message";
       awr_Blockers := metadataStringSlice response "blockers"; awr_Created := false;
       awr_IdempotencyKey := idempotencyKey; awr_EventID := metadataInt64 response "event_id";
       awr_AuditEventID := metadataInt64 response "audit_event_id";
       awr_ProjectReadAttempted := metadataBool response "project_read_attempted";
       awr_ProjectWriteAttempted := metadataBool response "project_write_attempted";
       awr_ExecutionWriteAttempted := metadataBool response "execution_write_attempted";
       awr_AreaFlowArtifactWritten := metadataBool response "area_flow_artifact_written";
       awr_AreaFlowExecutionStateWritten := metadataBool response
         "area_flow_execution_state_written";
       awr_EngineCallAttempted := metadataBool response "engine_call_attempted";
       awr_CommandsRun := metadataBool response "commands_run";
       awr_SecretsResolved := metadataBool response "secrets_resolved";
       awr_NetworkUsed := metadataBool response "network_used";
       awr_TaskClaimed := metadataBool response "task_claimed";
       awr_WorkerStarted := metadataBool response "worker_started";
       awr_LeaseCreated := metadataBool response "lease_created";
       awr_AttemptCreated := metadataBool response "attempt_created";
       awr_ArtifactCreated := metadataBool response "artifact_created";
       awr_ArtifactWritePassed := metadataBool response "artifact_write_passed" |}.

(** ** The command

    A denial is committed and returned together with an error. *)

Definition artifact_outcome : Type := ApprovedArtifactWriteResult * option error.

Definition artifactDenied (env : Env) (r : ApprovedArtifactWriteResult)
    (o : ApprovedArtifactWriteOptions) (e : error)
  : M (res error artifact_outcome) :=
  finishDeniedApprovedArtifactWrite env r o ;;;
  ret (Ok (r, Some e)).

Definition artifactClaim (env : Env) (record : Record_) (o : ApprovedArtifactWriteOptions)
    (gate : ExecutionApprovalGate) (run : RunRecord) (version : WorkflowVersion)
    (worker : WorkerRecord) (task : RunTaskRecord) (artifactLabel : string)
  : M (res error artifact_outcome) :=
  lease <- insertLeaseForTask env (p_ID record) worker task "approved_artifact_write"
             (awo_AllowedCapabilities o)
             (mk [("run_id", JInt (t_RunID task)); ("run_task_id", JInt (t_ID task));
                  ("task_key", JStr (t_TaskKey task)); ("task_kind", JStr (t_TaskKind task));
                  ("artifact_label", JStr artifactLabel);
                  ("approved_artifact_write", JBool true); ("approval_gated", JBool true)])
             (awo_Metadata o) (awo_LeaseTimeoutSeconds o) ;;
  updateRunTaskStatus env (t_ID task) "leased" ;;;
  artifact <- writeAndInsertApprovedArtifact env record version run worker task lease gate
    artifactLabel o ;;
  attempt <- insertApprovedArtifactWriteAttempt env record task lease artifact artifactLabel o ;;
  released <- releaseLeaseForWorker env (p_ID record) worker (l_ID lease) "completed"
                (Some (mk [("approved_artifact_write", JBool true);
                           ("artifact_label", JStr artifactLabel);
                           ("attempt_id", JInt (at_ID attempt));
                           ("artifact_id", JInt (ar_ID artifact))])) ;;
  updateRunTaskStatus env (t_ID task) "artifact_written" ;;;
  updated <- updateApprovedArtifactWriteRunAfterTask env run o (ar_ID artifact) (at_ID attempt) ;;
  let r :=
    {| awr_Project := record; awr_Version := version; awr_Run := updated; awr_Worker := worker;
     awr_Lease := released; awr_Task := (task_marked "artifact_written" task);
     awr_Attempt := attempt; awr_Artifact := artifact; awr_Gate := gate;
     awr_ArtifactLabel := artifactLabel; awr_Status := "artifact_written";
     awr_Decision := "allowed";
     awr_Message := "approved artifact write completed in AreaFlow artifact store only";
     awr_Blockers := []; awr_Created := true; awr_IdempotencyKey := awo_IdempotencyKey o;
     awr_EventID := 0; awr_AuditEventID := 0; awr_ProjectReadAttempted := false;
     awr_ProjectWriteAttempted := false; awr_ExecutionWriteAttempted := false;
     awr_AreaFlowArtifactWritten := true; awr_AreaFlowExecutionStateWritten := true;
     awr_EngineCallAttempted := false; awr_CommandsRun := false; awr_SecretsResolved := false;
     awr_NetworkUsed := false; awr_TaskClaimed := true; awr_WorkerStarted := false;
     awr_LeaseCreated := true; awr_AttemptCreated := true; awr_ArtifactCreated := true;
     awr_ArtifactWritePassed := true |} in
  eventID <- insertApprovedArtifactWriteEvent env r o ;;
  let r := set_awr_event eventID r in
  auditEventID <- insertApprovedArtifactWriteAuditEvent env r o ;;
  let r := set_awr_audit auditEventID r in
  completeCommandRequestResponse env (p_ID record) "worker.approved_artifact_write"
    (awo_IdempotencyKey o)
    (approvedArtifactWriteCommandResponse r) ;;;
  ret (Ok (r, None)).

Definition artifactBody (env : Env) (record : Record_) (o : ApprovedArtifactWriteOptions)
    (gate : ExecutionApprovalGate) (run : RunRecord) (version : WorkflowVersion)
    (worker : WorkerRecord) : M (res error artifact_outcome) :=
  let denied := deniedApprovedArtifactWriteResult record version run worker gate o in
  if eg_Status gate <>s "pass" then
    artifactDenied env (denied "approved artifact write gate blocked" (eg_Blockers gate)) o
      (ErrApprovedArtifactWriteBlocked (eg_Blockers gate))
  else match missingWorkerCapabilities (w_Capabilities worker) (awo_AllowedCapabilities o) with
  | (_ :: _) as missing =>
      artifactDenied env
        (denied "worker capability denied"
           ["worker missing required capabilities: " +:+ strings_join "," missing]) o
        (ErrWorkerCapabilityDenied missing)
  | [] =>
      db <- get_db ;;
      match canProjectCapabilityInTx (db_project_permissions db) (p_ID record)
              "write_artifacts" with
      | (false, reason) =>
          let blockers := ["project write_artifacts capability denied: " +:+ reason] in
          artifactDenied env (denied "project artifact write denied" blockers) o
            (ErrApprovedArtifactWriteBlocked blockers)
      | (true, _) =>
          next <- nextApprovedArtifactWriteTaskForLease env (p_ID record) (r_ID run) ;;
          match next with
          | None =>
              artifactDenied env
                (denied "no queued approved artifact write task"
                   ["no queued or needs_recovery approved artifact write task is available"]) o
                ErrNoLeaseAvailable
          | Some task =>
              let artifactLabel := metadataString (t_Metadata task) "artifact_label" in
              let artifactLabel :=
                if artifactLabel =s "" then "approved-artifact" else artifactLabel in
              artifactClaim env record o gate run version worker task artifactLabel
          end
      end
  end.

Definition artifactTx (env : Env) (record : Record_)
    (o : ApprovedArtifactWriteOptions) (requestHash : string) : M (res error artifact_outcome) :=
  gate <- ExecutionApprovalGate_ (fun _ => None) (awo_RunID o)
            (MkGateOptions (awo_AllowedCapabilities o) true "approved_artifact_write_gate") ;;
  run <- loadRunForUpdate (awo_RunID o) ;;
  if negb (r_ProjectID run =? p_ID record) then fail ErrRunNotFound
  else
    version <- workflowVersionByIDTx (p_ID record) (r_WorkflowVersionID run) ;;
    worker <- loadWorkerForUpdate (p_ID record) (awo_WorkerKey o) ;;
    with_command env (p_ID record) "worker.approved_artifact_write" (awo_IdempotencyKey o)
      requestHash
      (r <- loadApprovedArtifactWriteByCommandResponse record version gate
        (awo_IdempotencyKey o) ;;
       ret (Ok (r, None)))
      (artifactBody env record o gate run version worker).

Definition set_awo_key (key : string) (o : ApprovedArtifactWriteOptions) :
    ApprovedArtifactWriteOptions :=
  {| awo_WorkerKey := awo_WorkerKey o; awo_RunID := awo_RunID o;
   awo_AllowedCapabilities := awo_AllowedCapabilities o;
   awo_LeaseTimeoutSeconds := awo_LeaseTimeoutSeconds o; awo_Metadata := awo_Metadata o;
   awo_IdempotencyKey := key; awo_Actor := awo_Actor o; awo_Reason := awo_Reason o |}.

Definition artifactOptions (record : Record_) (options : ApprovedArtifactWriteOptions)
  : ApprovedArtifactWriteOptions :=
  let o := normalizeApprovedArtifactWriteOptions options in
  if awo_IdempotencyKey o =s ""
  then set_awo_key (approvedArtifactWriteIdempotencyKey record o
    (approvedArtifactWriteRequestHash record o)) o
  else o.

Definition WriteApprovedArtifact (env : Env) (record : Record_)
    (options : ApprovedArtifactWriteOptions) (w : World) : res error artifact_outcome * World :=
  if awo_RunID options <=? 0 then (Err (ErrText "run id is required"), w)
  else
    transact (artifactTx env record (artifactOptions record options)
                (approvedArtifactWriteRequestHash record
                  (normalizeApprovedArtifactWriteOptions options))) w.

#[export] Hint Unfold insertApprovedArtifactWriteRun insertApprovedArtifactWriteTask
   insertApprovedArtifactWriteQueueEvent insertApprovedArtifactWriteQueueAuditEvent
   loadApprovedArtifactWriteQueueByCommandResponse queueArtifactBody queueArtifactTx
   nextApprovedArtifactWriteTaskForLease artifactWrittenRunTaskCount
   remainingApprovedArtifactWriteTaskCount writeAndInsertApprovedArtifact
   insertApprovedArtifactWriteAttempt updateApprovedArtifactWriteRunAfterTask
   insertApprovedArtifactWriteEvent insertApprovedArtifactWriteAuditEvent
   finishDeniedApprovedArtifactWrite loadApprovedArtifactWriteByCommandResponse artifactDenied
   artifactClaim artifactBody artifactTx : prims.
