(* ===== verification/FixtureExecution.v ===== *)
(** * Fixture execution

    [internal/project/fixture_execution.go]: queueing a fixture run, and the
    command a worker executes it with.  It changes the store only, but passes
    the whole execution approval gate, engine preview included. *)

From stdpp Require Import base list strings numbers gmap.
From Stdlib Require Import ZArith Lia Ascii String.
From S2P Require Import Prelude GoString Sha256 Json Schema Tx Command Capability History Worker.
From S2P Require Import Lease FilePath Permission RunOnce RunControl Profile Workflow Gates.
From S2P Require Import Runner EnginePreview ExecutionGate.

(** ** Options and results *)

Record FixtureExecutionQueueOptions := MkFixtureExecutionQueueOptions {
  fxq_IdempotencyKey : string; fxq_Actor : string; fxq_Reason : string }.

Record FixtureExecutionQueueResult := MkFixtureExecutionQueueResult {
  fxqr_Project : Record_; fxqr_Version : WorkflowVersion; fxqr_Run : RunRecord;
  fxqr_Task : RunTaskRecord; fxqr_Created : bool; fxqr_IdempotencyKey : string;
  fxqr_EventID : Z; fxqr_AuditEventID : Z; fxqr_ProjectWriteAttempted : bool;
  fxqr_ExecutionWriteAttempted : bool; fxqr_EngineCallAttempted : bool; fxqr_CommandsRun : bool;
  fxqr_SecretsResolved : bool; fxqr_NetworkUsed : bool }.

Record FixtureExecutionOptions := MkFixtureExecutionOptions {
  fxo_WorkerKey : string; fxo_RunID : Z; fxo_AllowedCapabilities : list string;
  fxo_LeaseTimeoutSeconds : Z; fxo_Metadata : option jmap; fxo_IdempotencyKey : string;
  fxo_Actor : string; fxo_Reason : string }.

Record FixtureExecutionResult := MkFixtureExecutionResult {
  fxr_Project : Record_; fxr_Version : WorkflowVersion; fxr_Run : RunRecord;
  fxr_Worker : WorkerRecord; fxr_Lease : LeaseRecord; fxr_Task : RunTaskRecord;
  fxr_Attempt : RunAttemptRecord; fxr_Artifact : ArtifactRecord;
  fxr_Gate : ExecutionApprovalGate; fxr_Status : string; fxr_Decision : string;
  fxr_Message : string; fxr_Blockers : list string; fxr_Created : bool;
  fxr_IdempotencyKey : string; fxr_EventID : Z; fxr_AuditEventID : Z;
  fxr_ProjectWriteAttempted : bool; fxr_ExecutionWriteAttempted : bool;
  fxr_AreaFlowExecutionStateWritten : bool; fxr_EngineCallAttempted : bool;
  fxr_CommandsRun : bool; fxr_SecretsResolved : bool; fxr_NetworkUsed : bool;
  fxr_TaskClaimed : bool; fxr_WorkerStarted : bool; fxr_LeaseCreated : bool;
  fxr_AttemptCreated : bool; fxr_ArtifactCreated : bool }.


(** ** Requests *)

Definition fixtureExecutionQueueRequestHash (record : Record_) (version : WorkflowVersion)
    (o : FixtureExecutionQueueOptions) : string :=
  request_hash
    [("command_type", JStr "run.fixture_queue"); ("project_key", JStr (p_Key record));
     ("version", JStr (v_DisplayLabel version)); ("actor", JStr (fxq_Actor o));
     ("reason", JStr (fxq_Reason o)); ("fixture_only", JBool true); ("dry_run", JBool false)].

Definition fixtureExecutionRequestHash (record : Record_) (o : FixtureExecutionOptions) :
    string :=
  request_hash
    [("command_type", JStr "worker.fixture_execute"); ("project_key", JStr (p_Key record));
     ("worker_key", JStr (fxo_WorkerKey o)); ("run_id", JInt (fxo_RunID o));
     ("allowed_capabilities", jstrs (fxo_AllowedCapabilities o));
     ("lease_timeout", JInt (fxo_LeaseTimeoutSeconds o));
     ("metadata", JObj (map_or_empty (fxo_Metadata o))); ("actor", JStr (fxo_Actor o));
     ("reason", JStr (fxo_Reason o)); ("fixture_only", JBool true)].

Definition fixtureExecutionQueueIdempotencyKey (record : Record_) (version : WorkflowVersion)
    (requestHash : string) : string :=
  "run.fixture_queue:" +:+ p_Key record +:+ ":" +:+ v_DisplayLabel version +:+ ":"
  +:+ commandHashPrefix requestHash.

Definition fixtureExecutionIdempotencyKey (record : Record_) (o : FixtureExecutionOptions)
    (requestHash : string) : string :=
  "worker.fixture_execute:" +:+ p_Key record +:+ ":" +:+ fxo_WorkerKey o +:+ ":"
  +:+ fmt_d (fxo_RunID o) +:+ ":" +:+ commandHashPrefix requestHash.

(** ** Normalisation *)

Definition normalizeFixtureExecutionQueueOptions (record : Record_) (version : WorkflowVersion)
    (o : FixtureExecutionQueueOptions) : FixtureExecutionQueueOptions :=
  let o :=
    MkFixtureExecutionQueueOptions (trim_space (fxq_IdempotencyKey o))
      (trim_default "local-user" (fxq_Actor o))
      (trim_default "queue fixture execution run" (fxq_Reason o)) in
  if fxq_IdempotencyKey o =s ""
  then MkFixtureExecutionQueueOptions
         (fixtureExecutionQueueIdempotencyKey record version
            (fixtureExecutionQueueRequestHash record version o)) (fxq_Actor o) (fxq_Reason o)
  else o.

Definition normalizeFixtureExecutionOptions (o : FixtureExecutionOptions) :
    FixtureExecutionOptions :=
  {| fxo_WorkerKey := trim_space (fxo_WorkerKey o); fxo_RunID := fxo_RunID o;
     fxo_AllowedCapabilities :=
       normalizeCapabilityList
         (match fxo_AllowedCapabilities o with
          | [] => ["execute_agents"; "read_project"; "run_commands"; "write_artifacts"]
          | l => l end);
     fxo_LeaseTimeoutSeconds :=
       if fxo_LeaseTimeoutSeconds o <=? 0 then 300 else fxo_LeaseTimeoutSeconds o;
     fxo_Metadata := Some (map_or_empty (fxo_Metadata o));
     fxo_IdempotencyKey := trim_space (fxo_IdempotencyKey o);
     fxo_Actor := trim_default "local-user" (fxo_Actor o);
     fxo_Reason := trim_default "approval-gated fixture execution" (fxo_Reason o) |}.

(** ** Queueing a run *)

Definition insertFixtureExecutionRun (env : Env) (record : Record_) (version : WorkflowVersion)
    (o : FixtureExecutionQueueOptions) : M RunRecord :=
  r <- insert_row (fun id =>
         MkRun id (p_ID record) (v_ID version) "fixture_execution" "execution" "queued" "low"
           "pause" false
           (mk [("fixture_only", JBool true); ("approval_gated", JBool true);
                ("dry_run", JBool false); ("task_count", JInt 1);
                ("project_write_attempted", JBool false);
                ("execution_write_attempted", JBool false);
                ("engine_call_attempted", JBool false); ("commands_run", JBool false);
                ("secrets_resolved", JBool false); ("network_used", JBool false)])
           (mk [("phase", JStr "v0.6i"); ("owned_by", JStr "areaflow");
                ("actor", JStr (fxq_Actor o)); ("reason", JStr (fxq_Reason o));
                ("idempotency_key", JStr (fxq_IdempotencyKey o)); ("fixture_only", JBool true);
                ("approval_gated", JBool true); ("dry_run", JBool false)])
           (env_now env) None) ;;
  ret (scanRun r).

Definition insertFixtureExecutionTask (env : Env) (record : Record_) (version : WorkflowVersion)
    (run : RunRecord) (o : FixtureExecutionQueueOptions) : M RunTaskRecord :=
  t <- insert_row (fun id =>
         MkRunTask id (p_ID record) (v_ID version) 0 (r_ID run)
           (v_DisplayLabel version +:+ ":fixture-execution") "fixture_execution_task" "queued"
             "low" 1
           (mk [("phase", JStr "v0.6i"); ("owned_by", JStr "areaflow");
                ("actor", JStr (fxq_Actor o)); ("reason", JStr (fxq_Reason o));
                ("fixture_only", JBool true); ("approval_gated", JBool true);
                ("dry_run", JBool false); ("copy_ready", JStr "fixture");
                ("verify_ready", JStr "fixture"); ("commands_run", JBool false);
                ("secrets_resolved", JBool false); ("network_used", JBool false)])
           (env_now env) (env_now env)) ;;
  ret (scanRunTask t).

Definition fixtureExecutionQueueMetadata (r : FixtureExecutionQueueResult)
    (o : FixtureExecutionQueueOptions) : jmap :=
  mk [("project_key", JStr (p_Key (fxqr_Project r)));
      ("workflow_version_id", JInt (v_ID (fxqr_Version r)));
      ("display_label", JStr (v_DisplayLabel (fxqr_Version r)));
      ("run_id", JInt (r_ID (fxqr_Run r))); ("run_task_id", JInt (t_ID (fxqr_Task r)));
      ("actor", JStr (fxq_Actor o)); ("idempotency_key", JStr (fxq_IdempotencyKey o));
      ("fixture_only", JBool true); ("approval_gated", JBool true); ("dry_run", JBool false);
      ("project_write_attempted", JBool false); ("execution_write_attempted", JBool false);
      ("engine_call_attempted", JBool false); ("commands_run", JBool false);
      ("secrets_resolved", JBool false); ("network_used", JBool false)].

Definition insertFixtureExecutionQueueEvent (env : Env) (r : FixtureExecutionQueueResult)
    (o : FixtureExecutionQueueOptions) : M Z :=
  e <- insert_row (fun id =>
         MkEvent id (p_ID (fxqr_Project r)) (r_ID (fxqr_Run r)) (v_ID (fxqr_Version r))
           "run.fixture_queue.created" "info" "Fixture execution run queued"
           (fixtureExecutionQueueMetadata r o) (env_now env)) ;;
  ret (e_ID e).

Definition insertFixtureExecutionQueueAuditEvent (env : Env) (r : FixtureExecutionQueueResult)
    (o : FixtureExecutionQueueOptions) : M Z :=
  a <- insert_row (fun id =>
         MkAudit id (p_ID (fxqr_Project r)) 0 "run.fixture_queue" "manage_runs" "run"
           (fmt_d (r_ID (fxqr_Run r))) "allowed" (fxq_Reason o)
           (fixtureExecutionQueueMetadata r o) (env_now env)) ;;
  ret (au_ID a).

Definition fixtureExecutionQueueCommandResponse (r : FixtureExecutionQueueResult) : jmap :=
  mk [("project_id", JInt (p_ID (fxqr_Project r)));
      ("project_key", JStr (p_Key (fxqr_Project r)));
      ("workflow_version_id", JInt (v_ID (fxqr_Version r)));
      ("display_label", JStr (v_DisplayLabel (fxqr_Version r)));
      ("run_id", JInt (r_ID (fxqr_Run r))); ("run_task_id", JInt (t_ID (fxqr_Task r)));
      ("event_id", JInt (fxqr_EventID r)); ("audit_event_id", JInt (fxqr_AuditEventID r));
      ("fixture_only", JBool true); ("approval_gated", JBool true); ("dry_run", JBool false);
      ("project_write_attempted", JBool false); ("execution_write_attempted", JBool false);
      ("engine_call_attempted", JBool false); ("commands_run", JBool false);
      ("secrets_resolved", JBool false); ("network_used", JBool false)].

Definition set_fxqr_event (eventID : Z) (r : FixtureExecutionQueueResult) :
    FixtureExecutionQueueResult :=
  {| fxqr_Project := fxqr_Project r; fxqr_Version := fxqr_Version r; fxqr_Run := fxqr_Run r;
   fxqr_Task := fxqr_Task r; fxqr_Created := fxqr_Created r;
   fxqr_IdempotencyKey := fxqr_IdempotencyKey r; fxqr_EventID := eventID;
   fxqr_AuditEventID := fxqr_AuditEventID r;
   fxqr_ProjectWriteAttempted := fxqr_ProjectWriteAttempted r;
   fxqr_ExecutionWriteAttempted := fxqr_ExecutionWriteAttempted r;
   fxqr_EngineCallAttempted := fxqr_EngineCallAttempted r;
   fxqr_CommandsRun := fxqr_CommandsRun r; fxqr_SecretsResolved := fxqr_SecretsResolved r;
   fxqr_NetworkUsed := fxqr_NetworkUsed r |}.

Definition set_fxqr_audit (auditEventID : Z) (r : FixtureExecutionQueueResult) :
    FixtureExecutionQueueResult :=
  {| fxqr_Project := fxqr_Project r; fxqr_Version := fxqr_Version r; fxqr_Run := fxqr_Run r;
   fxqr_Task := fxqr_Task r; fxqr_Created := fxqr_Created r;
   fxqr_IdempotencyKey := fxqr_IdempotencyKey r; fxqr_EventID := fxqr_EventID r;
   fxqr_AuditEventID := auditEventID;
   fxqr_ProjectWriteAttempted := fxqr_ProjectWriteAttempted r;
   fxqr_ExecutionWriteAttempted := fxqr_ExecutionWriteAttempted r;
   fxqr_EngineCallAttempted := fxqr_EngineCallAttempted r;
   fxqr_CommandsRun := fxqr_CommandsRun r; fxqr_SecretsResolved := fxqr_SecretsResolved r;
   fxqr_NetworkUsed := fxqr_NetworkUsed r |}.

Definition loadFixtureExecutionQueueByCommandResponse (record : Record_)
    (version : WorkflowVersion) (idempotencyKey : string) : M FixtureExecutionQueueResult :=
  response <- loadCommandResponse (p_ID record) "run.fixture_queue" idempotencyKey ;;
  run <- loadRunForUpdate (metadataInt64 response "run_id") ;;
  task <- loadRunTaskByID (p_ID record) (metadataInt64 response "run_task_id") ;;
  ret {| fxqr_Project := record; fxqr_Version := version; fxqr_Run := run; fxqr_Task := task;
       fxqr_Created := false; fxqr_IdempotencyKey := idempotencyKey;
       fxqr_EventID := metadataInt64 response "event_id";
       fxqr_AuditEventID := metadataInt64 response "audit_event_id";
       fxqr_ProjectWriteAttempted := metadataBool response "project_write_attempted";
       fxqr_ExecutionWriteAttempted := metadataBool response "execution_write_attempted";
       fxqr_EngineCallAttempted := metadataBool response "engine_call_attempted";
       fxqr_CommandsRun := metadataBool response "commands_run";
       fxqr_SecretsResolved := metadataBool response "secrets_resolved";
       fxqr_NetworkUsed := metadataBool response "network_used" |}.

Definition queueFixtureBody (env : Env) (record : Record_) (version : WorkflowVersion)
    (o : FixtureExecutionQueueOptions) : M (res error FixtureExecutionQueueResult) :=
  run <- insertFixtureExecutionRun env record version o ;;
  task <- insertFixtureExecutionTask env record version run o ;;
  let r :=
    {| fxqr_Project := record; fxqr_Version := version; fxqr_Run := run; fxqr_Task := task;
     fxqr_Created := true; fxqr_IdempotencyKey := fxq_IdempotencyKey o; fxqr_EventID := 0;
     fxqr_AuditEventID := 0; fxqr_ProjectWriteAttempted := false;
     fxqr_ExecutionWriteAttempted := false; fxqr_EngineCallAttempted := false;
     fxqr_CommandsRun := false; fxqr_SecretsResolved := false; fxqr_NetworkUsed := false |} in
  eventID <- insertFixtureExecutionQueueEvent env r o ;;
  let r := set_fxqr_event eventID r in
  auditEventID <- insertFixtureExecutionQueueAuditEvent env r o ;;
  let r := set_fxqr_audit auditEventID r in
  completeCommandRequestResponse env (p_ID record) "run.fixture_queue" (fxq_IdempotencyKey o)
    (fixtureExecutionQueueCommandResponse r) ;;;
  ret (Ok r).

(** [normalizeFixtureExecutionQueueOptions] has filled in the key. *)
Definition queueFixtureTx (env : Env) (record : Record_) (label : string)
    (options : FixtureExecutionQueueOptions) : M (res error FixtureExecutionQueueResult) :=
  version <- authoredVersion record label ;;
  let o := normalizeFixtureExecutionQueueOptions record version options in
  with_command env (p_ID record) "run.fixture_queue" (fxq_IdempotencyKey o)
    (fixtureExecutionQueueRequestHash record version o)
    (r <- loadFixtureExecutionQueueByCommandResponse record version (fxq_IdempotencyKey o) ;;
     ret (Ok r))
    (queueFixtureBody env record version o).

Definition QueueFixtureExecution (env : Env) (record : Record_) (label : string)
    (options : FixtureExecutionQueueOptions) (w : World)
  : res error FixtureExecutionQueueResult * World :=
  transact (queueFixtureTx env record label options) w.

(** ** Claiming the task *)

Definition nextFixtureExecutionTaskForLease (env : Env) (projectID runID : Z)
  : M (option RunTaskRecord) :=
  next_execution_task env projectID runID "fixture_execution_task".

Definition passedRunTaskCount (runID : Z) : M Z := count_tasks (done_task runID "passed").

Definition remainingFixtureExecutionTaskCount (runID : Z) : M Z :=
  count_tasks (remaining_task runID "fixture_execution_task").

Definition fixtureExecutionReport (record : Record_) (version : WorkflowVersion)
    (run : RunRecord) (worker : WorkerRecord) (task : RunTaskRecord) (lease : LeaseRecord)
    (gate : ExecutionApprovalGate)
    (o : FixtureExecutionOptions) : string :=
  marshal_indent (JObj (mk
    [("project", JStr (p_Key record)); ("workflow_version", JStr (v_DisplayLabel version));
     ("run_id", JInt (r_ID run)); ("run_task_id", JInt (t_ID task));
     ("task_key", JStr (t_TaskKey task)); ("task_kind", JStr (t_TaskKind task));
     ("worker_id", JInt (w_ID worker)); ("worker_key", JStr (w_WorkerKey worker));
     ("lease_id", JInt (l_ID lease)); ("fixture_only", JBool true);
     ("approval_gated", JBool true); ("execution_gate_status", JStr (eg_Status gate));
     ("dry_run", JBool false); ("project_write_attempted", JBool false);
     ("execution_write_attempted", JBool false);
     ("area_flow_execution_state_written", JBool true); ("engine_call_attempted", JBool false);
     ("commands_run", JBool false); ("secrets_resolved", JBool false);
     ("network_used", JBool false); ("allowed_capabilities", jstrs
       (fxo_AllowedCapabilities o))])).

Definition writeAndInsertFixtureExecutionArtifact (env : Env) (record : Record_)
    (version : WorkflowVersion) (run : RunRecord) (worker : WorkerRecord) (task : RunTaskRecord)
    (lease : LeaseRecord) (gate : ExecutionApprovalGate)
    (o : FixtureExecutionOptions) : M ArtifactRecord :=
  let relativePath :=
    path_join ["versions"; v_DisplayLabel version; "fixture-execution";
               "run-" +:+ fmt_d (r_ID run) +:+ "-task-" +:+ fmt_d (t_ID task) +:+ "-"
               +:+ "report" +:+ ".json"] in
  st <- writeProjectArtifact env record relativePath
          (fixtureExecutionReport record version run worker task lease gate o)
          "application/json" ;;
  insertRunArtifactRecord env (p_ID record) (v_ID version) (r_ID run) (t_WorkflowItemID task)
    "fixture_execution_report" relativePath st
    (mk [("phase", JStr "v0.6i"); ("owned_by", JStr "areaflow"); ("fixture_only", JBool true);
         ("approval_gated", JBool true); ("dry_run", JBool false);
         ("worker_id", JInt (w_ID worker)); ("worker_key", JStr (w_WorkerKey worker));
         ("run_id", JInt (r_ID run)); ("run_task_id", JInt (t_ID task));
         ("lease_id", JInt (l_ID lease)); ("actor", JStr (fxo_Actor o));
         ("reason", JStr (fxo_Reason o)); ("execution_gate_status", JStr (eg_Status gate))]).

Definition insertFixtureExecutionAttempt (env : Env) (record : Record_) (task : RunTaskRecord)
    (lease : LeaseRecord) (report : ArtifactRecord)
    (o : FixtureExecutionOptions) : M RunAttemptRecord :=
  a <- insert_row (fun id =>
         MkRunAttempt id (p_ID record) (t_WorkflowVersionID task) (t_WorkflowItemID task)
           (t_RunID task) (t_ID task) "fixture_execution" "passed" false
           (mk [("actor", JStr (fxo_Actor o)); ("reason", JStr (fxo_Reason o));
                ("fixture_only", JBool true); ("approval_gated", JBool true);
                ("dry_run", JBool false); ("would_execute", JBool false);
                ("project_write_attempted", JBool false);
                ("execution_write_attempted", JBool false);
                ("area_flow_execution_state_written", JBool true);
                ("engine_call_attempted", JBool false); ("commands_run", JBool false);
                ("secrets_resolved", JBool false); ("network_used", JBool false);
                ("lease_id", JInt (l_ID lease)); ("worker_id", JInt (l_WorkerID lease));
                ("evidence_artifact_id", JInt (ar_ID report))])
           (env_now env) (Some (env_now env))) ;;
  ret (scanRunAttempt a).

Definition updateFixtureExecutionRunAfterTask (env : Env) (run : RunRecord)
    (o : FixtureExecutionOptions) (artifactID attemptID : Z) : M RunRecord :=
  done <- passedRunTaskCount (r_ID run) ;;
  remaining <- remainingFixtureExecutionTaskCount (r_ID run) ;;
  let summary :=
    mset_all [("fixture_only", JBool true); ("approval_gated", JBool true);
              ("last_artifact_id", JInt artifactID); ("last_attempt_id", JInt attemptID);
              ("project_write_attempted", JBool false);
              ("execution_write_attempted", JBool false);
              ("area_flow_execution_state_written", JBool true);
              ("engine_call_attempted", JBool false); ("commands_run", JBool false);
              ("secrets_resolved", JBool false); ("network_used", JBool false);
              ("passed_task_count", JInt done); ("remaining_task_count", JInt remaining)]
                (copyMap (r_Summary run)) in
  let metadata :=
    mset_all [("last_fixture_execution_actor", JStr (fxo_Actor o));
              ("last_fixture_execution_reason", JStr (fxo_Reason o));
              ("last_fixture_execution_at", JStr (env_rfc3339 env));
              ("last_artifact_id", JInt artifactID); ("last_attempt_id", JInt attemptID);
              ("fixture_only", JBool true); ("approval_gated", JBool true)]
                (copyMap (r_Metadata run)) in
  rows <- update_rows (fun r => r_ID r =? r_ID run)
            (run_progress (env_now env) (remaining =? 0)
               (if remaining =? 0 then "passed" else "running") summary metadata) ;;
  r <- first_row rows ;;
  ret (scanRun r).

(** ** History and responses *)

Definition fixtureExecutionMetadata (r : FixtureExecutionResult) (o : FixtureExecutionOptions) :
    jmap :=
  mk [("project_key", JStr (p_Key (fxr_Project r)));
      ("workflow_version_id", JInt (v_ID (fxr_Version r)));
      ("display_label", JStr (v_DisplayLabel (fxr_Version r)));
      ("run_id", JInt (r_ID (fxr_Run r))); ("run_task_id", JInt (t_ID (fxr_Task r)));
      ("lease_id", JInt (l_ID (fxr_Lease r))); ("attempt_id", JInt (at_ID (fxr_Attempt r)));
      ("artifact_id", JInt (ar_ID (fxr_Artifact r))); ("worker_id", JInt (w_ID (fxr_Worker r)));
      ("worker_key", JStr (w_WorkerKey (fxr_Worker r))); ("status", JStr (fxr_Status r));
      ("decision", JStr (fxr_Decision r)); ("blockers", jstrs_nil (fxr_Blockers r));
      ("actor", JStr (fxo_Actor o)); ("idempotency_key", JStr (fxo_IdempotencyKey o));
      ("fixture_only", JBool true); ("approval_gated", JBool true); ("dry_run", JBool false);
      ("execution_gate_status", JStr (eg_Status (fxr_Gate r)));
      ("task_claimed", JBool (fxr_TaskClaimed r));
      ("worker_started", JBool (fxr_WorkerStarted r));
      ("lease_created", JBool (fxr_LeaseCreated r));
      ("attempt_created", JBool (fxr_AttemptCreated r));
      ("artifact_created", JBool (fxr_ArtifactCreated r));
      ("area_flow_execution_state_written", JBool (fxr_AreaFlowExecutionStateWritten r));
      ("project_write_attempted", JBool (fxr_ProjectWriteAttempted r));
      ("execution_write_attempted", JBool (fxr_ExecutionWriteAttempted r));
      ("engine_call_attempted", JBool (fxr_EngineCallAttempted r));
      ("commands_run", JBool (fxr_CommandsRun r));
      ("secrets_resolved", JBool (fxr_SecretsResolved r));
      ("network_used", JBool (fxr_NetworkUsed r))].

Definition insertFixtureExecutionEvent (env : Env) (r : FixtureExecutionResult)
    (o : FixtureExecutionOptions) : M Z :=
  e <- insert_row (fun id =>
         MkEvent id (p_ID (fxr_Project r)) (r_ID (fxr_Run r)) (v_ID (fxr_Version r))
           ("worker.fixture_execute." +:+ fxr_Decision r)
           (if fxr_Decision r =s "denied" then "warning" else "info") (fxr_Message r)
           (fixtureExecutionMetadata r o) (env_now env)) ;;
  ret (e_ID e).

Definition insertFixtureExecutionAuditEvent (env : Env) (r : FixtureExecutionResult)
    (o : FixtureExecutionOptions) : M Z :=
  a <- insert_row (fun id =>
         MkAudit id (p_ID (fxr_Project r)) (w_ActorID (fxr_Worker r)) "worker.fixture_execute"
           "execute_agents" "run" (fmt_d (r_ID (fxr_Run r))) (fxr_Decision r) (fxo_Reason o)
           (fixtureExecutionMetadata r o) (env_now env)) ;;
  ret (au_ID a).

Definition fixtureExecutionCommandResponse (r : FixtureExecutionResult) : jmap :=
  mk [("project_id", JInt (p_ID (fxr_Project r)));
      ("project_key", JStr (p_Key (fxr_Project r)));
      ("workflow_version_id", JInt (v_ID (fxr_Version r)));
      ("display_label", JStr (v_DisplayLabel (fxr_Version r)));
      ("run_id", JInt (r_ID (fxr_Run r))); ("run_status", JStr (r_Status (fxr_Run r)));
      ("worker_id", JInt (w_ID (fxr_Worker r)));
      ("worker_key", JStr (w_WorkerKey (fxr_Worker r)));
      ("run_task_id", JInt (t_ID (fxr_Task r))); ("task_status", JStr (t_Status (fxr_Task r)));
      ("lease_id", JInt (l_ID (fxr_Lease r))); ("attempt_id", JInt (at_ID (fxr_Attempt r)));
      ("artifact_id", JInt (ar_ID (fxr_Artifact r)));
      ("artifact_type", JStr (ar_ArtifactType (fxr_Artifact r)));
      ("event_id", JInt (fxr_EventID r)); ("audit_event_id", JInt (fxr_AuditEventID r));
      ("status", JStr (fxr_Status r)); ("decision", JStr (fxr_Decision r));
      ("message", JStr (fxr_Message r)); ("blockers", jstrs_nil (fxr_Blockers r));
      ("fixture_only", JBool true); ("approval_gated", JBool true); ("dry_run", JBool false);
      ("execution_gate_status", JStr (eg_Status (fxr_Gate r)));
      ("task_claimed", JBool (fxr_TaskClaimed r));
      ("worker_started", JBool (fxr_WorkerStarted r));
      ("lease_created", JBool (fxr_LeaseCreated r));
      ("attempt_created", JBool (fxr_AttemptCreated r));
      ("artifact_created", JBool (fxr_ArtifactCreated r));
      ("area_flow_execution_state_written", JBool (fxr_AreaFlowExecutionStateWritten r));
      ("project_write_attempted", JBool (fxr_ProjectWriteAttempted r));
      ("execution_write_attempted", JBool (fxr_ExecutionWriteAttempted r));
      ("engine_call_attempted", JBool (fxr_EngineCallAttempted r));
      ("commands_run", JBool (fxr_CommandsRun r));
      ("secrets_resolved", JBool (fxr_SecretsResolved r));
      ("network_used", JBool (fxr_NetworkUsed r))].

Definition set_fxr_event (eventID : Z) (r : FixtureExecutionResult) : FixtureExecutionResult :=
  {| fxr_Project := fxr_Project r; fxr_Version := fxr_Version r; fxr_Run := fxr_Run r;
   fxr_Worker := fxr_Worker r; fxr_Lease := fxr_Lease r; fxr_Task := fxr_Task r;
   fxr_Attempt := fxr_Attempt r; fxr_Artifact := fxr_Artifact r; fxr_Gate := fxr_Gate r;
   fxr_Status := fxr_Status r; fxr_Decision := fxr_Decision r; fxr_Message := fxr_Message r;
   fxr_Blockers := fxr_Blockers r; fxr_Created := fxr_Created r;
   fxr_IdempotencyKey := fxr_IdempotencyKey r; fxr_EventID := eventID;
   fxr_AuditEventID := fxr_AuditEventID r;
   fxr_ProjectWriteAttempted := fxr_ProjectWriteAttempted r;
   fxr_ExecutionWriteAttempted := fxr_ExecutionWriteAttempted r;
   fxr_AreaFlowExecutionStateWritten := fxr_AreaFlowExecutionStateWritten r;
   fxr_EngineCallAttempted := fxr_EngineCallAttempted r; fxr_CommandsRun := fxr_CommandsRun r;
   fxr_SecretsResolved := fxr_SecretsResolved r; fxr_NetworkUsed := fxr_NetworkUsed r;
   fxr_TaskClaimed := fxr_TaskClaimed r; fxr_WorkerStarted := fxr_WorkerStarted r;
   fxr_LeaseCreated := fxr_LeaseCreated r; fxr_AttemptCreated := fxr_AttemptCreated r;
   fxr_ArtifactCreated := fxr_ArtifactCreated r |}.

Definition set_fxr_audit (auditEventID : Z) (r : FixtureExecutionResult) :
    FixtureExecutionResult :=
  {| fxr_Project := fxr_Project r; fxr_Version := fxr_Version r; fxr_Run := fxr_Run r;
   fxr_Worker := fxr_Worker r; fxr_Lease := fxr_Lease r; fxr_Task := fxr_Task r;
   fxr_Attempt := fxr_Attempt r; fxr_Artifact := fxr_Artifact r; fxr_Gate := fxr_Gate r;
   fxr_Status := fxr_Status r; fxr_Decision := fxr_Decision r; fxr_Message := fxr_Message r;
   fxr_Blockers := fxr_Blockers r; fxr_Created := fxr_Created r;
   fxr_IdempotencyKey := fxr_IdempotencyKey r; fxr_EventID := fxr_EventID r;
   fxr_AuditEventID := auditEventID; fxr_ProjectWriteAttempted := fxr_ProjectWriteAttempted r;
   fxr_ExecutionWriteAttempted := fxr_ExecutionWriteAttempted r;
   fxr_AreaFlowExecutionStateWritten := fxr_AreaFlowExecutionStateWritten r;
   fxr_EngineCallAttempted := fxr_EngineCallAttempted r; fxr_CommandsRun := fxr_CommandsRun r;
   fxr_SecretsResolved := fxr_SecretsResolved r; fxr_NetworkUsed := fxr_NetworkUsed r;
   fxr_TaskClaimed := fxr_TaskClaimed r; fxr_WorkerStarted := fxr_WorkerStarted r;
   fxr_LeaseCreated := fxr_LeaseCreated r; fxr_AttemptCreated := fxr_AttemptCreated r;
   fxr_ArtifactCreated := fxr_ArtifactCreated r |}.

Definition deniedFixtureExecutionResult (record : Record_) (version : WorkflowVersion)
    (run : RunRecord) (worker : WorkerRecord) (gate : ExecutionApprovalGate)
    (o : FixtureExecutionOptions) (message : string) (blockers : list string)
  : FixtureExecutionResult :=
  {| fxr_Project := record; fxr_Version := version; fxr_Run := run; fxr_Worker := worker;
   fxr_Lease := no_lease; fxr_Task := no_task; fxr_Attempt := no_attempt;
   fxr_Artifact := no_artifact; fxr_Gate := gate; fxr_Status := "blocked";
   fxr_Decision := "denied"; fxr_Message := message; fxr_Blockers := blockers;
   fxr_Created := true; fxr_IdempotencyKey := fxo_IdempotencyKey o; fxr_EventID := 0;
   fxr_AuditEventID := 0; fxr_ProjectWriteAttempted := false;
   fxr_ExecutionWriteAttempted := false; fxr_AreaFlowExecutionStateWritten := false;
   fxr_EngineCallAttempted := false; fxr_CommandsRun := false; fxr_SecretsResolved := false;
   fxr_NetworkUsed := false; fxr_TaskClaimed := false; fxr_WorkerStarted := false;
   fxr_LeaseCreated := false; fxr_AttemptCreated := false; fxr_ArtifactCreated := false |}.

(** The caller's copy of the result keeps its zero event ids. *)
Definition finishDeniedFixtureExecution (env : Env) (r : FixtureExecutionResult)
    (o : FixtureExecutionOptions) : M unit :=
  eventID <- insertFixtureExecutionEvent env r o ;;
  let r := set_fxr_event eventID r in
  auditEventID <- insertFixtureExecutionAuditEvent env r o ;;
  let r := set_fxr_audit auditEventID r in
  completeCommandRequestResponse env (p_ID (fxr_Project r)) "worker.fixture_execute"
    (fxo_IdempotencyKey o) (fixtureExecutionCommandResponse r).

Definition loadFixtureExecutionByCommandResponse (record : Record_) (version : WorkflowVersion)
    (gate : ExecutionApprovalGate) (idempotencyKey : string) : M FixtureExecutionResult :=
  response <- loadCommandResponse (p_ID record) "worker.fixture_execute" idempotencyKey ;;
  run <- loadRunForUpdate (metadataInt64 response "run_id") ;;
  worker <- load_if (metadataInt64 response "worker_id") no_worker
    (loadWorkerByID (p_ID record)) ;;
  task <- load_if (metadataInt64 response "run_task_id") no_task
    (loadRunTaskByID (p_ID record)) ;;
  lease <- load_if (metadataInt64 response "lease_id") no_lease (loadLeaseByID (p_ID record)) ;;
  attempt <- load_if (metadataInt64 response "attempt_id") no_attempt
               (loadRunAttemptByID (p_ID record)) ;;
  artifact <- load_if (metadataInt64 response "artifact_id") no_artifact
                (loadArtifactByIDTx (p_ID record)) ;;
  ret {| fxr_Project := record; fxr_Version := version; fxr_Run := run; fxr_Worker := worker;
       fxr_Lease := lease; fxr_Task := task; fxr_Attempt := attempt; fxr_Artifact := artifact;
       fxr_Gate := gate; fxr_Status := metadataString response "status";
       fxr_Decision := metadataString response "decision";
       fxr_Message := metadataString response "message";
       fxr_Blockers := metadataStringSlice response "blockers"; fxr_Created := false;
       fxr_IdempotencyKey := idempotencyKey; fxr_EventID := metadataInt64 response "event_id";
       fxr_AuditEventID := metadataInt64 response "audit_event_id";
       fxr_ProjectWriteAttempted := metadataBool response "project_write_attempted";
       fxr_ExecutionWriteAttempted := metadataBool response "execution_write_attempted";
       fxr_AreaFlowExecutionStateWritten := metadataBool response
         "area_flow_execution_state_written";
       fxr_EngineCallAttempted := metadataBool response "engine_call_attempted";
       fxr_CommandsRun := metadataBool response "commands_run";
       fxr_SecretsResolved := metadataBool response "secrets_resolved";
       fxr_NetworkUsed := metadataBool response "network_used";
       fxr_TaskClaimed := metadataBool response "task_claimed";
       fxr_WorkerStarted := metadataBool response "worker_started";
       fxr_LeaseCreated := metadataBool response "lease_created";
       fxr_AttemptCreated := metadataBool response "attempt_created";
       fxr_ArtifactCreated := metadataBool response "artifact_created" |}.

(** ** The command

    A denial is committed and returned together with an error. *)

Definition fixture_outcome : Type := FixtureExecutionResult * option error.

Definition fixtureDenied (env : Env) (r : FixtureExecutionResult) (o : FixtureExecutionOptions)
    (e : error)
  : M (res error fixture_outcome) :=
  finishDeniedFixtureExecution env r o ;;;
  ret (Ok (r, Some e)).

Definition fixtureClaim (env : Env) (record : Record_) (o : FixtureExecutionOptions)
    (gate : ExecutionApprovalGate) (run : RunRecord) (version : WorkflowVersion)
    (worker : WorkerRecord) (task : RunTaskRecord)
  : M (res error fixture_outcome) :=
  lease <- insertLeaseForTask env (p_ID record) worker task "fixture_execution"
             (fxo_AllowedCapabilities o)
             (mk [("run_id", JInt (t_RunID task)); ("run_task_id", JInt (t_ID task));
                  ("task_key", JStr (t_TaskKey task)); ("task_kind", JStr (t_TaskKind task));
                  ("fixture_only", JBool true); ("approval_gated", JBool true)])
             (fxo_Metadata o) (fxo_LeaseTimeoutSeconds o) ;;
  updateRunTaskStatus env (t_ID task) "leased" ;;;
  artifact <- writeAndInsertFixtureExecutionArtifact env record version run worker task lease
    gate o ;;
  attempt <- insertFixtureExecutionAttempt env record task lease artifact o ;;
  released <- releaseLeaseForWorker env (p_ID record) worker (l_ID lease) "completed"
                (Some (mk [("fixture_only", JBool true); ("dry_run", JBool false);
                           ("attempt_id", JInt (at_ID attempt));
                           ("artifact_id", JInt (ar_ID artifact))])) ;;
  updateRunTaskStatus env (t_ID task) "passed" ;;;
  updated <- updateFixtureExecutionRunAfterTask env run o (ar_ID artifact) (at_ID attempt) ;;
  let r :=
    {| fxr_Project := record; fxr_Version := version; fxr_Run := updated; fxr_Worker := worker;
     fxr_Lease := released; fxr_Task := (task_marked "passed" task); fxr_Attempt := attempt;
     fxr_Artifact := artifact; fxr_Gate := gate; fxr_Status := "passed";
     fxr_Decision := "allowed";
     fxr_Message := "fixture execution applied in AreaFlow state only"; fxr_Blockers := [];
     fxr_Created := true; fxr_IdempotencyKey := fxo_IdempotencyKey o; fxr_EventID := 0;
     fxr_AuditEventID := 0; fxr_ProjectWriteAttempted := false;
     fxr_ExecutionWriteAttempted := false; fxr_AreaFlowExecutionStateWritten := true;
     fxr_EngineCallAttempted := false; fxr_CommandsRun := false; fxr_SecretsResolved := false;
     fxr_NetworkUsed := false; fxr_TaskClaimed := true; fxr_WorkerStarted := false;
     fxr_LeaseCreated := true; fxr_AttemptCreated := true; fxr_ArtifactCreated := true |} in
  eventID <- insertFixtureExecutionEvent env r o ;;
  let r := set_fxr_event eventID r in
  auditEventID <- insertFixtureExecutionAuditEvent env r o ;;
  let r := set_fxr_audit auditEventID r in
  completeCommandRequestResponse env (p_ID record) "worker.fixture_execute" (fxo_IdempotencyKey o)
    (fixtureExecutionCommandResponse r) ;;;
  ret (Ok (r, None)).

Definition fixtureBody (env : Env) (record : Record_) (o : FixtureExecutionOptions)
    (gate : ExecutionApprovalGate) (run : RunRecord) (version : WorkflowVersion)
    (worker : WorkerRecord) : M (res error fixture_outcome) :=
  let denied := deniedFixtureExecutionResult record version run worker gate o in
  if eg_Status gate <>s "pass" then
    fixtureDenied env (denied "execution approval gate blocked" (eg_Blockers gate)) o
      (ErrFixtureExecutionBlocked (eg_Blockers gate))
  else match missingWorkerCapabilities (w_Capabilities worker) (fxo_AllowedCapabilities o) with
  | (_ :: _) as missing =>
      fixtureDenied env
        (denied "worker capability denied"
           ["worker missing required capabilities: " +:+ strings_join "," missing]) o
        (ErrWorkerCapabilityDenied missing)
  | [] =>
      next <- nextFixtureExecutionTaskForLease env (p_ID record) (r_ID run) ;;
      match next with
      | None =>
          fixtureDenied env
            (denied "no queued fixture execution task"
               ["no queued or needs_recovery fixture execution task is available"]) o
            ErrNoLeaseAvailable
      | Some task => fixtureClaim env record o gate run version worker task
      end
  end.

Definition fixtureTx (env : Env) (activeConfig : Z -> option ProjectConfigRecord)
    (record : Record_)
    (o : FixtureExecutionOptions) (requestHash : string) : M (res error fixture_outcome) :=
  gate <- ExecutionApprovalGate_ activeConfig (fxo_RunID o)
            (MkGateOptions (fxo_AllowedCapabilities o) false "") ;;
  run <- loadRunForUpdate (fxo_RunID o) ;;
  if negb (r_ProjectID run =? p_ID record) then fail ErrRunNotFound
  else
    version <- workflowVersionByIDTx (p_ID record) (r_WorkflowVersionID run) ;;
    worker <- loadWorkerForUpdate (p_ID record) (fxo_WorkerKey o) ;;
    with_command env (p_ID record) "worker.fixture_execute" (fxo_IdempotencyKey o) requestHash
      (r <- loadFixtureExecutionByCommandResponse record version gate (fxo_IdempotencyKey o) ;;
       ret (Ok (r, None)))
      (fixtureBody env record o gate run version worker).

Definition set_fxo_key (key : string) (o : FixtureExecutionOptions) : FixtureExecutionOptions :=
  {| fxo_WorkerKey := fxo_WorkerKey o; fxo_RunID := fxo_RunID o;
   fxo_AllowedCapabilities := fxo_AllowedCapabilities o;
   fxo_LeaseTimeoutSeconds := fxo_LeaseTimeoutSeconds o; fxo_Metadata := fxo_Metadata o;
   fxo_IdempotencyKey := key; fxo_Actor := fxo_Actor o; fxo_Reason := fxo_Reason o |}.

Definition fixtureOptions (record : Record_) (options : FixtureExecutionOptions)
  : FixtureExecutionOptions :=
  let o := normalizeFixtureExecutionOptions options in
  if fxo_IdempotencyKey o =s ""
  then set_fxo_key (fixtureExecutionIdempotencyKey record o
    (fixtureExecutionRequestHash record o)) o
  else o.

Definition ExecuteFixture (env : Env) (activeConfig : Z -> option ProjectConfigRecord)
    (record : Record_)
    (options : FixtureExecutionOptions) (w : World) : res error fixture_outcome * World :=
  if fxo_RunID options <=? 0 then (Err (ErrText "run id is required"), w)
  else
    transact (fixtureTx env activeConfig record (fixtureOptions record options)
                (fixtureExecutionRequestHash record (normalizeFixtureExecutionOptions options)))
                  w.

#[export] Hint Unfold insertFixtureExecutionRun insertFixtureExecutionTask
  insertFixtureExecutionQueueEvent
   insertFixtureExecutionQueueAuditEvent loadFixtureExecutionQueueByCommandResponse
   queueFixtureBody queueFixtureTx nextFixtureExecutionTaskForLease passedRunTaskCount
   remainingFixtureExecutionTaskCount writeAndInsertFixtureExecutionArtifact
   insertFixtureExecutionAttempt updateFixtureExecutionRunAfterTask insertFixtureExecutionEvent
   insertFixtureExecutionAuditEvent finishDeniedFixtureExecution
   loadFixtureExecutionByCommandResponse fixtureDenied fixtureClaim fixtureBody fixtureTx : prims.
