(* ===== verification/ProjectFile.v ===== *)
(** * Files of the managed project

    The part of [internal/project/fixture_project_write.go] that
    [managed_generated_write_apply.go] shares: which projects may be written
    to, how a target path is resolved, the image of a file, writing it, and
    the metadata and counts of a task whose write was rolled back. *)

From stdpp Require Import base list strings numbers gmap.
From Stdlib Require Import ZArith Lia Ascii String.
From S2P Require Import Prelude GoString Sha256 Json Schema Tx Command Capability History Worker.
From S2P Require Import Lease FilePath Permission RunOnce RunControl Profile Workflow Gates Runner.
From S2P Require Import EnginePreview ExecutionGate ReadOnlyVerify.

(** ** The file system of a call

    [os_IsSymlink] is the mode [os.Lstat] reports; what it reports to be a link
    is no directory to it, whatever the link leads to.  [os_WriteFile] is the
    outcome of each of the three places that write the target: everything was
    written, or an error was returned and the file either is untouched (it
    could not be opened) or holds what was written before the error (it had
    been truncated when it was opened).  The mode of the file is not part of
    the state: [os.WriteFile] uses it only to create a file, and the target
    exists.  [os_S3Get] reads an object of the artifact store. *)

Inductive write_site : Type := WriteTarget | WriteRollback | WriteRestore.

Inductive write_outcome : Type :=
| Written
| WriteFailed (partial : option string).

Record WriteOS := MkWriteOS {
  os_read : OS;
  os_IsSymlink : string -> bool;
  os_WriteFile : write_site -> string -> string -> write_outcome;
  os_S3Get : string -> res error string }.

Definition write_file (os : WriteOS) (site : write_site) (path content message : string) : M unit :=
  fun w =>
  match os_WriteFile os site path content with
  | Written => (Ok tt, set_files (<[path := content]> (wd_files w)) w)
  | WriteFailed None => (Err (ErrText message), w)
  | WriteFailed (Some partial) =>
      (Err (ErrText message), set_files (<[path := partial]> (wd_files w)) w)
  end.

(** The deferred restore: while the target is changed and not yet restored, an
    error puts the image back, and the outcome of that write is ignored. *)
Definition restoring {A} (os : WriteOS) (path content : string) (m : M A) : M A := fun w =>
  match m w with
  | (Ok a, w') => (Ok a, w')
  | (Err e, w') => (Err e, snd (write_file os WriteRestore path content "" w'))
  end.

(** ** Scope *)

(** [strings.ToLower]; U+0130 is the one other rune that becomes a letter of
    the words looked for. *)
Fixpoint lower_bytes (l : list Z) : list Z :=
  match l with
  | 196 :: 176 :: rest => 105 :: lower_bytes rest
  | b :: rest => byte_of (lower_byte (chr b)) :: lower_bytes rest
  | [] => []
  end.

(** [strings.Contains(s, word)] *)
Fixpoint contains_bytes (word l : list Z) : bool :=
  bool_decide (take (List.length word) l = word)
  || match l with [] => false | _ :: rest => contains_bytes word rest end.

Definition mentions (word s : string) : bool :=
  contains_bytes (bytes_of word) (lower_bytes (bytes_of s)).

Definition isFixtureProjectRecord (record : Record_) : bool :=
  mentions "fixture" (p_Key record) || mentions "fixture" (p_Kind record).

Definition isFixtureOrTempProjectRecord (record : Record_) : bool :=
  mentions "fixture" (p_Key record) || mentions "fixture" (p_Kind record)
  || mentions "temp" (p_Key record) || mentions "temp" (p_Kind record)
  || mentions "temporary" (p_Key record) || mentions "temporary" (p_Kind record).

Definition safeFixtureProjectWritePath (os : WriteOS) (root targetPath : string) (w : World)
  : res string string :=
  if trim_space root =s "" then Err "project root is empty"
  else
    let relative := normalizeProjectRelativePath targetPath in
    if relative =s "" then Err "target path must stay under project root"
    else match os_EvalSymlinks (os_read os) root with
         | Err e => Err ("resolve project root: " +:+ e)
         | Ok rootReal =>
             let full := path_join [rootReal; relative] in
             if os_IsSymlink os full then Err "symlink target is not supported"
             else if os_IsDir (os_read os) full then Err "fixture target must be a file"
             else match wd_files w !! full with
                  | None => Err "fixture target must already exist"
                  | Some _ =>
                      match os_EvalSymlinks (os_read os) full with
                      | Err e => Err ("resolve fixture target: " +:+ e)
                      | Ok fullReal =>
                          match path_rel rootReal fullReal with
                          | Err e => Err ("compare fixture target path: " +:+ e)
                          | Ok rel =>
                              if (rel =s ".") || has_prefix "../" rel || (rel =s "..")
                                 || is_abs rel
                              then Err "target path escapes project root" else Ok fullReal
                          end
                      end
                  end
         end.

(** ** Images *)

Record fixtureProjectFileImage := MkImage {
  im_Content : string; im_SHA256 : string; im_SizeBytes : Z }.

Definition hashBytes (content : string) : string * Z := (sha256_hex content, len content).

Definition maxFixtureProjectWriteFileBytes : Z := 2 * 1024 * 1024.

Definition readFixtureProjectFileImage (os : WriteOS) (path : string)
  : M fixtureProjectFileImage :=
  fun w =>
  if os_IsDir (os_read os) path then (Err (ErrText "fixture target must be a file"), w)
  else match wd_files w !! path with
       | None => (Err (ErrText "stat fixture target"), w)
       | Some content =>
           if maxFixtureProjectWriteFileBytes <? len content
           then (Err (ErrText "fixture target exceeds 2097152 bytes"), w)
           else let '(sha, size) := hashBytes content in (Ok (MkImage content sha size), w)
       end.

Definition same_image (a b : fixtureProjectFileImage) : bool :=
  (im_SHA256 a =s im_SHA256 b) && (im_SizeBytes a =? im_SizeBytes b).

(** ** Tasks *)

(** UPDATE run_tasks SET metadata, updated_at *)
Definition task_with_metadata (now : Z) (metadata : jmap) (t : RunTaskRecord) : RunTaskRecord :=
  MkRunTask (t_ID t) (t_ProjectID t) (t_WorkflowVersionID t) (t_WorkflowItemID t) (t_RunID t)
    (t_TaskKey t) (t_TaskKind t) (t_Status t) (t_RiskLevel t) (t_Sequence t) metadata
    (t_CreatedAt t) now.

Definition updateRunTaskMetadata (env : Env) (taskID : Z) (additions : jmap) : M unit :=
  rows <- select_rows (fun t => t_ID t =? taskID) ;;
  task <- first_row rows ;;
  let current := mset_all additions (jmap_decode (t_Metadata task)) in
  update_rows (fun t => t_ID t =? taskID) (task_with_metadata (env_now env) current) ;;;
  ret tt.

(** [task.Metadata[key] = value] on the copy in hand *)
Definition task_noted (key : string) (value : json) (t : RunTaskRecord) : RunTaskRecord :=
  MkRunTask (t_ID t) (t_ProjectID t) (t_WorkflowVersionID t) (t_WorkflowItemID t) (t_RunID t)
    (t_TaskKey t) (t_TaskKind t) (t_Status t) (t_RiskLevel t) (t_Sequence t)
    (mset key value (t_Metadata t)) (t_CreatedAt t) (t_UpdatedAt t).

Definition rollbackVerifiedRunTaskCount (runID : Z) : M Z :=
  count_tasks (done_task runID "rollback_verified").

#[export] Hint Unfold updateRunTaskMetadata rollbackVerifiedRunTaskCount : prims.

(** ** Facts *)

(** Writing a file does not touch the database. *)
Lemma write_file_db os site path content message w :
  wd_db (snd (write_file os site path content message w)) = wd_db w.
Proof. unfold write_file. by repeat case_match. Qed.

Lemma m_rel_write_file R `{!PreOrder R} os site path content message :
  m_rel R (write_file os site path content message).
Proof.
  intros w a w' E. pose proof (write_file_db os site path content message w) as H.
  rewrite E in H. cbn in H. rewrite H. reflexivity.
Qed.

Lemma restoring_ok {A} os path content (m : M A) w a w' :
  restoring os path content m w = (Ok a, w') <-> m w = (Ok a, w').
Proof. unfold restoring. destruct (m w) as [[]]; split; congruence. Qed.

Lemma m_rel_restoring R {A} os path content (m : M A) :
  m_rel R m -> m_rel R (restoring os path content m).
Proof. intros Hm w a w' E. apply restoring_ok in E. by eapply Hm. Qed.

#[export] Hint Resolve m_rel_write_file : rel.

Lemma readFixtureProjectFileImage_reads os path : reads (readFixtureProjectFileImage os path).
Proof.
  intros w. unfold readFixtureProjectFileImage. repeat case_match; try done.
Qed.
#[export] Hint Resolve readFixtureProjectFileImage_reads : reads.
