(* ===== verification/ArtifactIntegrity.v ===== *)
(** * Artifact integrity

    [internal/project/artifact_integrity.go]: the read-only report that
    compares every artifact row of a project with the content it names.

    What opening and reading a local file does is the argument [open];
    [s3_get] is the object store's client, as in [Runner].  The texts of the
    operating system's errors are its answers. *)

From stdpp Require Import base list strings numbers gmap.
From Stdlib Require Import ZArith Lia String.
From S2P Require Import Prelude GoString Sha256 Json Schema Tx FilePath RunOnce Runner Gates.

(** What [os.Open] and copying the file into the hash yield *)
Inductive opened : Type :=
| Opened (content : string)
| NotExist (text : string)
| OpenFailed (text : string)
| CopyFailed (text : string).

Record ArtifactIntegrityCheck := MkIntegrityCheck {
  ic_Artifact : ArtifactRecord; ic_Status : string; ic_Message : string; ic_Metadata : jmap }.

Record ArtifactIntegrityReport := MkIntegrityReport {
  ir_Status : string; ir_Mode : string; ir_Project : Record_; ir_CheckedArtifacts : Z;
  ir_PassedArtifacts : Z; ir_WarnArtifacts : Z; ir_FailedArtifacts : Z;
  ir_SkippedArtifacts : Z; ir_Checks : list ArtifactIntegrityCheck; ir_GeneratedAt : Z }.

(** ORDER BY created_at DESC, id DESC *)
Definition listAllProjectArtifacts (projectID : Z) : M (list ArtifactRecord) :=
  if projectID <=? 0 then fail (ErrText "project id is required")
  else
    rows <- select_rows (fun a => ar_ProjectID a =? projectID) ;;
    ret (List.map scanArtifactRecord (sort_stable (later ar_CreatedAt ar_ID) rows)).

(** ** One artifact *)

Section Check.
Context (open : string -> opened) (s3_get : string -> res error string).

Definition local_failures (a : ArtifactRecord) (actualSHA : string) (size : Z) : list string :=
  (if ar_SHA256 a =s "" then ["missing_sha256"]
   else if ar_SHA256 a <>s actualSHA then ["sha256_mismatch"] else [])
  ++ (if ar_SizeBytes a <=? 0 then ["missing_size_bytes"]
      else if negb (ar_SizeBytes a =? size) then ["size_mismatch"] else []).

Definition remote_failures (a : ArtifactRecord) (actualSHA : string) (size : Z) : list string :=
  (if (ar_SHA256 a =s "") || (ar_SHA256 a <>s actualSHA)
   then ["sha256_missing_or_mismatch"] else [])
  ++ (if (ar_SizeBytes a <=? 0) || negb (ar_SizeBytes a =? size)
      then ["size_missing_or_mismatch"] else []).

Definition checkLocalArtifactIntegrity (a : ArtifactRecord) : ArtifactIntegrityCheck :=
  let failed message text readContents :=
    MkIntegrityCheck a "fail" message
      (mk [("path", JStr (ar_URI a)); ("error", JStr text);
           ("read_contents", JBool readContents)]) in
  if trim_space (ar_URI a) =s ""
  then MkIntegrityCheck a "fail" "local artifact URI is missing"
         (mk [("read_contents", JBool false)])
  else
    match open (ar_URI a) with
    | NotExist text => failed "local artifact file is missing" text false
    | OpenFailed text => failed "local artifact is not readable" text false
    | CopyFailed text => failed "local artifact could not be hashed" text true
    | Opened content =>
        let actualSHA := sha256_hex content in
        let size := len content in
        let failures := local_failures a actualSHA size in
        let metadata :=
          mk [("path", JStr (ar_URI a)); ("expected_sha256", JStr (ar_SHA256 a));
              ("actual_sha256", JStr actualSHA); ("expected_size", JInt (ar_SizeBytes a));
              ("actual_size", JInt size); ("read_contents", JBool true);
              ("storage_backend", JStr (ar_StorageBackend a));
              ("artifact_type", JStr (ar_ArtifactType a));
              ("workflow_item_id", JInt (ar_WorkflowItemID a));
              ("workflow_version_id", JInt (ar_WorkflowVersionID a))] in
        match failures with
        | [] => MkIntegrityCheck a "pass" "local artifact hash and size match metadata" metadata
        | _ => MkIntegrityCheck a "fail" "local artifact metadata does not match stored content"
                 (mset "failures" (jstrs failures) metadata)
        end
    end.

Definition checkRemoteArtifactIntegrity (a : ArtifactRecord) : ArtifactIntegrityCheck :=
  match ReadConfigured s3_get ∅ (ar_StorageBackend a) (ar_URI a) with
  | Err e =>
      MkIntegrityCheck a "fail" "object artifact is not readable"
        (mk [("storage_backend", JStr (ar_StorageBackend a)); ("uri", JStr (ar_URI a));
             ("error", JStr (content_error e)); ("read_contents", JBool false)])
  | Ok content =>
      let actualSHA := sha256_hex content in
      let failures := remote_failures a actualSHA (len content) in
      let metadata :=
        mk [("storage_backend", JStr (ar_StorageBackend a)); ("uri", JStr (ar_URI a));
            ("read_contents", JBool true); ("expected_sha256", JStr (ar_SHA256 a));
            ("actual_sha256", JStr actualSHA); ("expected_size", JInt (ar_SizeBytes a));
            ("actual_size", JInt (len content))] in
      match failures with
      | [] => MkIntegrityCheck a "pass" "object artifact hash and size match metadata" metadata
      | _ => MkIntegrityCheck a "fail" "object artifact metadata does not match stored content"
               (mset "failures" (jstrs failures) metadata)
      end
  end.

Definition checkReferencedArtifactIntegrity (a : ArtifactRecord) : ArtifactIntegrityCheck :=
  let missing :=
    (if trim_space (ar_URI a) =s "" then ["uri"] else [])
    ++ (if trim_space (ar_SourcePath a) =s "" then ["source_path"] else [])
    ++ (if trim_space (ar_SHA256 a) =s "" then ["sha256"] else [])
    ++ (if ar_SizeBytes a <=? 0 then ["size_bytes"] else []) in
  match missing with
  | _ :: _ =>
      MkIntegrityCheck a "warn" "referenced project artifact metadata is incomplete"
        (mk [("storage_backend", JStr (ar_StorageBackend a)); ("missing", jstrs missing);
             ("read_contents", JBool false)])
  | [] =>
      MkIntegrityCheck a "skipped"
        "referenced project artifact content remains in managed project"
        (mk [("storage_backend", JStr (ar_StorageBackend a));
             ("source_path", JStr (ar_SourcePath a)); ("read_contents", JBool false);
             ("reason", JStr "project_reference_metadata_only")])
  end.

Definition checkArtifactIntegrity (a : ArtifactRecord) : ArtifactIntegrityCheck :=
  let b := ar_StorageBackend a in
  if b =s "local" then checkLocalArtifactIntegrity a
  else if (b =s "external_project") || (b =s "project_reference")
  then checkReferencedArtifactIntegrity a
  else if (b =s "s3") || (b =s "object") then checkRemoteArtifactIntegrity a
  else MkIntegrityCheck a "warn" "artifact uses an unknown storage backend"
         (mk [("storage_backend", JStr b); ("read_contents", JBool false)]).

(** ** The report *)

Definition artifactIntegrityStatusRank (status : string) : Z :=
  if status =s "fail" then 4 else if status =s "warn" then 3
  else if status =s "skipped" then 2 else if status =s "pass" then 1 else 0.

Definition worseArtifactIntegrityStatus (candidate current : string) : bool :=
  artifactIntegrityStatusRank current <? artifactIntegrityStatusRank candidate.

Definition bump (status expected : string) (n : Z) : Z := if status =s expected then n + 1 else n.

(** One turn of the loop over the artifacts *)
Definition report_add (r : ArtifactIntegrityReport) (a : ArtifactRecord)
  : ArtifactIntegrityReport :=
  let check := checkArtifactIntegrity a in
  let st := ic_Status check in
  let reportStatus := if st =s "skipped" then "warn" else st in
  MkIntegrityReport
    (if worseArtifactIntegrityStatus reportStatus (ir_Status r) then reportStatus
     else ir_Status r)
    (ir_Mode r) (ir_Project r) (ir_CheckedArtifacts r + 1)
    (bump st "pass" (ir_PassedArtifacts r)) (bump st "warn" (ir_WarnArtifacts r))
    (bump st "fail" (ir_FailedArtifacts r)) (bump st "skipped" (ir_SkippedArtifacts r))
    (ir_Checks r ++ [check]) (ir_GeneratedAt r).

Definition BuildArtifactIntegrityReport (record : Record_) (artifacts : list ArtifactRecord)
    (generatedAt : Z) : ArtifactIntegrityReport :=
  fold_left report_add artifacts
    (MkIntegrityReport "pass" "read_only_artifact_integrity" record 0 0 0 0 0 [] generatedAt).

(** The zero [GeneratedAt] ([None]) stands for the present. *)
Definition normalizeArtifactIntegrityOptions (env : Env) (generatedAt : option Z) : Z :=
  match generatedAt with Some t => t | None => env_unixnano env end.

Definition ArtifactIntegrity (env : Env) (record : Record_) (generatedAt : option Z)
  : M ArtifactIntegrityReport :=
  artifacts <- listAllProjectArtifacts (p_ID record) ;;
  ret (BuildArtifactIntegrityReport record artifacts
         (normalizeArtifactIntegrityOptions env generatedAt)).
End Check.

(** ** What the report says *)

Section Report.
Context (open : string -> opened) (s3_get : string -> res error string).

Let check := checkArtifactIntegrity open s3_get.

Lemma check_status_cases a :
  In (ic_Status (check a)) ["pass"; "warn"; "fail"; "skipped"].
Proof.
  unfold check, checkArtifactIntegrity, checkLocalArtifactIntegrity,
    checkReferencedArtifactIntegrity, checkRemoteArtifactIntegrity.
  repeat case_match; cbn; auto.
Qed.

Definition count_status (st : string) (l : list ArtifactRecord) : Z :=
  Z.of_nat (List.length (List.filter (fun a => ic_Status (check a) =s st) l)).

(** The worst of the statuses seen; a skipped artifact counts as a warning. *)
Definition worst (l : list ArtifactRecord) : string :=
  if 0 <? count_status "fail" l then "fail"
  else if 0 <? count_status "warn" l + count_status "skipped" l then "warn" else "pass".

Lemma count_status_snoc st l a :
  count_status st (l ++ [a])
  = count_status st l + if ic_Status (check a) =s st then 1 else 0.
Proof.
  unfold count_status. rewrite List.filter_app, length_app. cbn.
  destruct (_ =s st); cbn; lia.
Qed.

Lemma count_status_nonneg st l : 0 <= count_status st l.
Proof. unfold count_status. lia. Qed.

Lemma count_status_sum l :
  count_status "pass" l + count_status "warn" l + count_status "fail" l
  + count_status "skipped" l = Z.of_nat (List.length l).
Proof.
  induction l as [|a l IH] using rev_ind; [done|]. rewrite !count_status_snoc, length_app.
  destruct (check_status_cases a) as [E|[E|[E|[E|[]]]]]; rewrite <- E; cbn -[Z.add]; lia.
Qed.

Lemma worst_snoc l a :
  worst (l ++ [a])
  = let st := ic_Status (check a) in
    let s := if st =s "skipped" then "warn" else st in
    if worseArtifactIntegrityStatus s (worst l) then s else worst l.
Proof.
  unfold worst. rewrite !count_status_snoc.
  pose proof (count_status_nonneg "fail" l) as Hf. pose proof (count_status_nonneg "warn" l) as Hw.
  pose proof (count_status_nonneg "skipped" l) as Hs.
  destruct (check_status_cases a) as [E|[E|[E|[E|[]]]]]; rewrite <- E; cbn -[Z.add Z.ltb];
    rewrite ?Z.add_0_r;
    repeat (let H := fresh in destruct (0 <? _) eqn:H; bool_prop); try lia; reflexivity.
Qed.

(** What the loop has built after the artifacts [l] *)
Lemma report_fold record t l :
  BuildArtifactIntegrityReport open s3_get record l t
  = MkIntegrityReport (worst l) "read_only_artifact_integrity" record (Z.of_nat (List.length l))
      (count_status "pass" l) (count_status "warn" l) (count_status "fail" l)
      (count_status "skipped" l) (List.map check l) t.
Proof.
  unfold BuildArtifactIntegrityReport. induction l as [|a l IH] using rev_ind; [done|].
  rewrite fold_left_app, IH. cbn [fold_left]. unfold report_add. fold check.
  cbn [ir_Status ir_Mode ir_Project ir_CheckedArtifacts ir_PassedArtifacts ir_WarnArtifacts
       ir_FailedArtifacts ir_SkippedArtifacts ir_Checks ir_GeneratedAt].
  rewrite worst_snoc, !count_status_snoc, length_app, map_app. unfold bump. cbv zeta.
  f_equal; [cbn; lia|..]; case_match; lia.
Qed.

Lemma count_status_zero st l :
  count_status st l = 0 <-> forall a, In a l -> ic_Status (check a) <> st.
Proof.
  unfold count_status. split.
  - intros H a Ha E. apply Nat2Z.inj with (m := 0%nat), length_zero_iff_nil in H.
    assert (Hin : In a []) by (rewrite <- H; apply filter_In; by rewrite E, String.eqb_refl).
    done.
  - intros H. replace (List.filter _ l) with (@nil ArtifactRecord); [done|]. symmetry.
    induction l as [|a l IH]; [done|]. cbn.
    rewrite (proj2 (String.eqb_neq _ _) (H a (or_introl eq_refl))). apply IH.
    intros b Hb. apply H. by right.
Qed.

Lemma worst_pass l : worst l = "pass" <-> forall a, In a l -> ic_Status (check a) = "pass".
Proof.
  pose proof (count_status_nonneg "fail" l) as Hf. pose proof (count_status_nonneg "warn" l) as Hw.
  pose proof (count_status_nonneg "skipped" l) as Hs.
  assert (E : worst l = "pass" <-> count_status "fail" l = 0 /\ count_status "warn" l = 0
                                  /\ count_status "skipped" l = 0).
  { unfold worst. destruct (0 <? count_status "fail" l) eqn:E1; [split; [done|bool_prop; lia]|].
    destruct (0 <? _ + _) eqn:E2; bool_prop; split; (done || lia). }
  rewrite E, !count_status_zero. split.
  - intros (H1 & H2 & H3) a Ha. specialize (H1 a Ha). specialize (H2 a Ha). specialize (H3 a Ha).
    by destruct (check_status_cases a) as [Ea|[Ea|[Ea|[Ea|[]]]]]; rewrite <- Ea in *.
  - intros H. split_and!; intros a Ha; by rewrite (H a Ha).
Qed.
End Report.

(** *** A check against the content API *)

(** The files of the store, as [os.Open] sees them *)
Definition store_files (files : gmap string string) (path : string) : opened :=
  match files !! path with
  | Some content => Opened content
  | None => NotExist ("open " +:+ path +:+ ": no such file or directory")
  end.

(** Nothing recorded as unknown: a hash, a positive size *)
Definition fully_recorded (a : ArtifactRecord) : Prop := ar_SHA256 a <> "" /\ 0 < ar_SizeBytes a.

Lemma local_failures_nil a sha n :
  local_failures a sha n = [] <-> ar_SHA256 a <> "" /\ ar_SHA256 a = sha /\ 0 < ar_SizeBytes a
                                  /\ ar_SizeBytes a = n.
Proof.
  unfold local_failures. repeat case_eqb; cbn; intuition (congruence || lia).
Qed.

Lemma remote_failures_nil a sha n :
  remote_failures a sha n = [] <-> ar_SHA256 a <> "" /\ ar_SHA256 a = sha /\ 0 < ar_SizeBytes a
                                   /\ ar_SizeBytes a = n.
Proof.
  unfold remote_failures. repeat case_eqb; cbn; intuition (congruence || lia).
Qed.

(** The two comparisons, on the same content *)
Lemma served_content s3_get a w content :
  In (ar_StorageBackend a) ["local"; "s3"; "object"] -> trim_space (ar_URI a) <> "" ->
  ReadConfigured s3_get (wd_files w) (ar_StorageBackend a) (ar_URI a) = Ok content ->
  fully_recorded a ->
  is_ok (readArtifactRecordContent s3_get a w) = true
  <-> ar_SHA256 a = sha256_hex content /\ ar_SizeBytes a = len content.
Proof.
  intros Hb Hu Hr [Hs Hz]. unfold readArtifactRecordContent. rewrite Hr.
  rewrite (proj2 (String.eqb_neq _ _) Hu), (proj2 (String.eqb_neq _ _) Hs).
  rewrite (proj2 (Z.ltb_lt _ _) Hz). cbn [andb negb].
  replace (_ && _) with false by (by destruct Hb as [<-|[<-|[<-|[]]]]).
  destruct (String.eqb_spec (ar_SHA256 a) (sha256_hex content)); cbn; [|intuition congruence].
  destruct (Z.eqb_spec (ar_SizeBytes a) (len content)); cbn; intuition congruence.
Qed.

Lemma served_backend s3_get a w c :
  readArtifactRecordContent s3_get a w = Ok c ->
  In (ar_StorageBackend a) ["local"; "s3"; "object"] /\ exists content,
    ReadConfigured s3_get (wd_files w) (ar_StorageBackend a) (ar_URI a) = Ok content.
Proof.
  unfold readArtifactRecordContent. destruct (_ && _) eqn:E; [done|]. intros H. split.
  - apply andb_false_iff in E as [E|E]; [|bool_prop; rewrite E; cbn; auto].
    apply andb_false_iff in E as [E|E]; bool_prop; rewrite E; cbn; auto.
  - destruct (_ =s ""); [done|]. destruct (ReadConfigured _ _ _ _) as [content|e]; [by exists content|done].
Qed.

(** The integrity check and the content API agree: an artifact whose URI is
    not blank passes the check exactly when its hash and its positive size are
    recorded and the content API hands out its content. *)
Theorem integrity_pass_exact s3_get a w :
  trim_space (ar_URI a) = ar_URI a -> ar_URI a <> "" ->
  ic_Status (checkArtifactIntegrity (store_files (wd_files w)) s3_get a) = "pass"
  <-> fully_recorded a /\ exists c, readArtifactRecordContent s3_get a w = Ok c.
Proof.
  intros Ht Hne. assert (Hu : trim_space (ar_URI a) <> "") by by rewrite Ht.
  assert (Hread : forall content,
    In (ar_StorageBackend a) ["local"; "s3"; "object"] ->
    ReadConfigured s3_get (wd_files w) (ar_StorageBackend a) (ar_URI a) = Ok content ->
    (ar_SHA256 a <> "" /\ ar_SHA256 a = sha256_hex content /\ 0 < ar_SizeBytes a
       /\ ar_SizeBytes a = len content
     <-> fully_recorded a /\ exists c, readArtifactRecordContent s3_get a w = Ok c)).
  { intros content Hb Hr. pose proof (served_content s3_get a w content Hb Hu Hr) as Hs.
    unfold fully_recorded. destruct (readArtifactRecordContent s3_get a w) as [c|e];
      cbn in Hs; split.
    - intros (H1 & H2 & H3 & H4). split; [done|]. by exists c.
    - intros ([H1 H3] & _). destruct (proj1 (Hs (conj H1 H3)) eq_refl). done.
    - intros (H1 & H2 & H3 & H4). by discriminate (proj2 (Hs (conj H1 H3)) (conj H2 H4)).
    - by intros (_ & c & Hc). }
  unfold checkArtifactIntegrity. cbv zeta.
  destruct (String.eqb_spec (ar_StorageBackend a) "local") as [El|Hl].
  { unfold checkLocalArtifactIntegrity, store_files. rewrite (proj2 (String.eqb_neq _ _) Hu).
    assert (Hg : ReadConfigured s3_get (wd_files w) (ar_StorageBackend a) (ar_URI a)
                 = match wd_files w !! ar_URI a with
                   | Some content => Ok content
                   | None => Err (ErrText "read local artifact") end).
    { rewrite El. change (getLocal (wd_files w) (ar_URI a) = match wd_files w !! ar_URI a with
        | Some content => Ok content | None => Err (ErrText "read local artifact") end).
      unfold getLocal. by rewrite Ht, (proj2 (String.eqb_neq _ _) Hne). }
    destruct (wd_files w !! ar_URI a) as [content|] eqn:Ef.
    - rewrite <- (Hread content); [|rewrite El; by left|done].
      rewrite <- local_failures_nil. by destruct (local_failures a _ _).
    - split; [done|]. intros (_ & c & Hc). apply served_backend in Hc as (_ & content & Hc).
      by rewrite Hg in Hc. }
  destruct (_ || _) eqn:Er.
  { split; [|intros (_ & c & Hc)].
    - unfold checkReferencedArtifactIntegrity. by case_match.
    - apply served_backend in Hc as ([Hb|[Hb|[Hb|[]]]] & _); rewrite <- Hb in Er; done. }
  destruct ((ar_StorageBackend a =s "s3") || _) eqn:Eb.
  - assert (Hb : In (ar_StorageBackend a) ["local"; "s3"; "object"])
      by (apply orb_true_iff in Eb as [Eb|Eb]; apply String.eqb_eq in Eb; rewrite Eb; cbn; auto).
    assert (Hg : ReadConfigured s3_get ∅ (ar_StorageBackend a) (ar_URI a)
                 = ReadConfigured s3_get (wd_files w) (ar_StorageBackend a) (ar_URI a))
      by (apply orb_true_iff in Eb as [Eb|Eb]; apply String.eqb_eq in Eb; by rewrite Eb).
    unfold checkRemoteArtifactIntegrity. rewrite Hg.
    destruct (ReadConfigured _ _ _ _) as [content|e] eqn:Ec.
    + rewrite <- (Hread content Hb eq_refl), <- remote_failures_nil.
      by destruct (remote_failures a _ _).
    + split; [done|]. intros (_ & c & Hc). apply served_backend in Hc as (_ & content & Hc).
      by rewrite Ec in Hc.
  - split; [done|]. intros (_ & c & Hc). apply served_backend in Hc as ([Hb|[Hb|[Hb|[]]]] & _).
    + by rewrite <- Hb in Hl.
    + by rewrite <- Hb in Eb.
    + by rewrite <- Hb in Eb.
Qed.

(** The report of a project covers each of its artifacts once, in order; its
    counters partition them by status; its status is the worst of theirs, a
    skipped artifact being a warning; and it passes exactly when every
    artifact passes. *)
Theorem integrity_report_exact open s3_get record l t :
  let r := BuildArtifactIntegrityReport open s3_get record l t in
  ir_Checks r = List.map (checkArtifactIntegrity open s3_get) l
  /\ ir_CheckedArtifacts r = Z.of_nat (List.length l)
  /\ ir_PassedArtifacts r + ir_WarnArtifacts r + ir_FailedArtifacts r + ir_SkippedArtifacts r
     = ir_CheckedArtifacts r
  /\ (ir_Status r = "fail" <-> 0 < ir_FailedArtifacts r)
  /\ (ir_Status r = "pass"
      <-> forall a, In a l -> ic_Status (checkArtifactIntegrity open s3_get a) = "pass").
Proof.
  cbv zeta. rewrite report_fold. cbn -[Z.add]. split_and!; [done..| | |apply worst_pass].
  - apply count_status_sum.
  - unfold worst. destruct (0 <? count_status _ _ "fail" l) eqn:E; bool_prop; [done|].
    split; [by case_match|lia].
Qed.

(** Content that nobody recorded a size for fails the check, although the
    content API hands it out: an empty file can never pass. *)
Example empty_artifact_fails :
  let a := MkArtifact 1 1 1 0 0 "report" "local" "/store/empty" "" (sha256_hex "") 0
             "text/plain" [] 0 in
  let w := MkWorld empty_db {[ "/store/empty" := "" ]} (MkCounters 0 0 0 0) in
  ic_Status (checkArtifactIntegrity (store_files (wd_files w)) (fun _ => Err ErrNoRows) a) = "fail"
  /\ is_ok (readArtifactRecordContent (fun _ => Err ErrNoRows) a w) = true.
Proof. vm_compute. done. Qed.
