(* ===== verification/ArtifactArchive.v ===== *)
(** * Artifact archive preview

    [internal/project/artifact_archive.go]: what an archive of a project's
    artifacts would do with each of them, by retention class.  The command
    records the preview in the command ledger with an event and an audit
    event; it never touches an artifact.

    [GeneratedAt] is a time in nanoseconds; the recorded response keeps its
    RFC 3339 text. *)

From stdpp Require Import base list strings numbers gmap.
From Stdlib Require Import ZArith Lia String.
From S2P Require Import Prelude GoString Sha256 Json GoTime Schema Tx Command Worker FilePath RunOnce Gates Workflow ProjectFile ArtifactIntegrity.

Record ArtifactArchivePreviewOptions := MkArchiveOptions {
  av_RetentionClass : string; av_Limit : Z; av_IdempotencyKey : string; av_Actor : string;
  av_Reason : string }.

Record ArtifactArchivePreviewItem := MkArchiveItem {
  ai_ArtifactID : Z; ai_ArtifactType : string; ai_StorageBackend : string; ai_URI : string;
  ai_SourcePath : string; ai_RetentionClass : string; ai_ArchiveState : string;
  ai_Action : string; ai_Decision : string; ai_Reason : string; ai_Metadata : jmap }.

Record ArtifactArchivePreviewSummary := MkArchiveSummary {
  ahs_TotalArtifacts : Z; ahs_ArchiveCandidates : Z; ahs_RetainedArtifacts : Z;
  ahs_ExternalRefs : Z; ahs_NeedsPolicy : Z }.

Record ArtifactArchivePreviewResult := MkArchiveResult {
  ah_Project : Record_; ah_Status : string; ah_Mode : string;
  ah_Summary : ArtifactArchivePreviewSummary; ah_Items : list ArtifactArchivePreviewItem;
  ah_EventID : Z; ah_AuditEventID : Z; ah_IdempotencyKey : string; ah_Created : bool;
  ah_GeneratedAt : Z; ah_ProjectWriteAttempted : bool; ah_StorageWriteAttempted : bool;
  ah_ArtifactDeleteAttempted : bool }.

Definition artifactArchivePreviewCommandType : string := "artifact.archive.preview".

Definition normalizeArtifactArchivePreviewOptions (o : ArtifactArchivePreviewOptions)
  : ArtifactArchivePreviewOptions :=
  MkArchiveOptions (trim_space (av_RetentionClass o))
    (let limit := if av_Limit o <=? 0 then 100 else av_Limit o in
     if 500 <? limit then 500 else limit)
    (trim_space (av_IdempotencyKey o)) (trim_default "local-user" (av_Actor o))
    (trim_default "artifact archive preview" (av_Reason o)).

Definition artifactArchivePreviewRequestHash (record : Record_)
    (o : ArtifactArchivePreviewOptions) : string :=
  request_hash
    [("command_type", JStr artifactArchivePreviewCommandType);
     ("project_key", JStr (p_Key record)); ("project_id", JInt (p_ID record));
     ("retention_class", JStr (av_RetentionClass o)); ("limit", JInt (av_Limit o));
     ("actor", JStr (av_Actor o)); ("reason", JStr (av_Reason o)); ("preview_only", JBool true)].

Definition artifactArchivePreviewIdempotencyKey (record : Record_)
    (o : ArtifactArchivePreviewOptions) (requestHash : string) : string :=
  let prefix := if 16 <? len requestHash then str_take 16 requestHash else requestHash in
  let retentionClass := if av_RetentionClass o =s "" then "all" else av_RetentionClass o in
  "artifact.archive.preview:" +:+ p_Key record +:+ ":" +:+ retentionClass +:+ ":"
  +:+ fmt_d (av_Limit o) +:+ ":" +:+ prefix.

(** ** Retention classes *)

(** [strings.Contains(s, word)] *)
Definition includes (word s : string) : bool := contains_bytes (bytes_of word) (bytes_of s).

Definition retentionClassForArtifact (a : ArtifactRecord) : string :=
  let value := metadataString (ar_Metadata a) "retention_class" in
  if value <>s "" then value
  else if (ar_StorageBackend a =s "external_project") || (ar_StorageBackend a =s "project_reference")
  then "external_ref"
  else if metadataBool (ar_Metadata a) "dry_run" || includes "preview" (ar_ArtifactType a)
  then "ephemeral"
  else if includes "release" (ar_ArtifactType a) || includes "distribution" (ar_ArtifactType a)
  then "release"
  else if includes "audit" (ar_ArtifactType a) || includes "approval" (ar_ArtifactType a)
  then "audit"
  else if ar_StorageBackend a =s "local" then "run_evidence"
  else "unknown".

(** State, action, decision and reason of a retention class *)
Definition archive_policy (retentionClass : string) : string * string * string * string :=
  if retentionClass =s "ephemeral"
  then ("archive_candidate", "eligible_for_future_gc_preview", "preview_only",
        "ephemeral artifacts may be cleaned only by a future explicit GC command")
  else if retentionClass =s "external_ref"
  then ("metadata_only_reference", "keep_metadata_only", "requires_archive_ownership_decision",
        "project reference originals remain in the managed project and are not copied or deleted")
  else if (retentionClass =s "run_evidence") || (retentionClass =s "audit")
          || (retentionClass =s "release")
  then ("retained", "keep", "protected_retention",
        "retention class is protected from ordinary archive or GC")
  else ("needs_policy", "manual_review", "needs_policy", "artifact retention class is unknown").

Definition artifactArchivePreviewItem (a : ArtifactRecord) : ArtifactArchivePreviewItem :=
  let retentionClass := retentionClassForArtifact a in
  let '(state, action, decision, reason) := archive_policy retentionClass in
  MkArchiveItem (ar_ID a) (ar_ArtifactType a) (ar_StorageBackend a) (ar_URI a)
    (ar_SourcePath a) retentionClass state action decision reason
    (mk [("sha256", JStr (ar_SHA256 a)); ("size_bytes", JInt (ar_SizeBytes a));
         ("content_type", JStr (ar_ContentType a));
         ("workflow_version_id", JInt (ar_WorkflowVersionID a));
         ("workflow_item_id", JInt (ar_WorkflowItemID a));
         ("project_write_attempted", JBool false); ("storage_write_attempted", JBool false);
         ("artifact_delete_attempted", JBool false)]).

(** ** The preview *)

Definition filterArtifactsByArchivePreviewRetentionClass (artifacts : list ArtifactRecord)
    (retentionClass : string) : list ArtifactRecord :=
  if retentionClass =s "" then artifacts
  else List.filter (fun a => retentionClassForArtifact a =s retentionClass) artifacts.

(** ORDER BY created_at DESC, id DESC LIMIT $2, then the filter *)
Definition listProjectArtifactsForArchivePreview (projectID : Z)
    (o : ArtifactArchivePreviewOptions) : M (list ArtifactRecord) :=
  rows <- select_rows (fun a => ar_ProjectID a =? projectID) ;;
  ret (filterArtifactsByArchivePreviewRetentionClass
         (List.map scanArtifactRecord
            (firstn (Z.to_nat (av_Limit o)) (sort_stable (later ar_CreatedAt ar_ID) rows)))
         (av_RetentionClass o)).

(** One turn of the loop that counts *)
Definition summary_add (s : ArtifactArchivePreviewSummary) (item : ArtifactArchivePreviewItem)
  : ArtifactArchivePreviewSummary :=
  let st := ai_ArchiveState item in
  MkArchiveSummary (ahs_TotalArtifacts s + 1)
    (bump st "archive_candidate" (ahs_ArchiveCandidates s))
    (bump st "retained" (ahs_RetainedArtifacts s))
    (bump st "metadata_only_reference" (ahs_ExternalRefs s))
    (bump st "needs_policy" (ahs_NeedsPolicy s)).

Definition buildArtifactArchivePreview (env : Env) (record : Record_)
    (artifacts : list ArtifactRecord) : ArtifactArchivePreviewResult :=
  let items := List.map artifactArchivePreviewItem artifacts in
  let summary := fold_left summary_add items (MkArchiveSummary 0 0 0 0 0) in
  MkArchiveResult record
    (if (0 <? ahs_ExternalRefs summary) || (0 <? ahs_NeedsPolicy summary)
     then "needs_attention" else "ready")
    "metadata_only_archive_preview" summary items 0 0 "" false (env_unixnano env)
    false false false.

(** ** Text and rows *)

Definition artifactArchivePreviewSummaryMap (s : ArtifactArchivePreviewSummary) : jmap :=
  mk [("total_artifacts", JInt (ahs_TotalArtifacts s));
      ("archive_candidates", JInt (ahs_ArchiveCandidates s));
      ("retained_artifacts", JInt (ahs_RetainedArtifacts s));
      ("external_refs", JInt (ahs_ExternalRefs s)); ("needs_policy", JInt (ahs_NeedsPolicy s))].

Definition artifactArchivePreviewMetadata (r : ArtifactArchivePreviewResult)
    (o : ArtifactArchivePreviewOptions) : jmap :=
  mk [("project_key", JStr (p_Key (ah_Project r))); ("status", JStr (ah_Status r));
      ("mode", JStr (ah_Mode r)); ("retention_class", JStr (av_RetentionClass o));
      ("limit", JInt (av_Limit o)); ("actor", JStr (av_Actor o));
      ("idempotency_key", JStr (av_IdempotencyKey o));
      ("summary", JObj (artifactArchivePreviewSummaryMap (ah_Summary r)));
      ("project_write_attempted", JBool false); ("storage_write_attempted", JBool false);
      ("artifact_delete_attempted", JBool false)].

Definition insertArtifactArchivePreviewEvent (env : Env) (r : ArtifactArchivePreviewResult)
    (o : ArtifactArchivePreviewOptions) : M Z :=
  e <- insert_row (fun id =>
         MkEvent id (p_ID (ah_Project r)) 0 0 "artifact.archive.preview.completed" "info"
           "Artifact archive preview completed" (artifactArchivePreviewMetadata r o)
           (env_now env)) ;;
  ret (e_ID e).

Definition insertArtifactArchivePreviewAuditEvent (env : Env) (r : ArtifactArchivePreviewResult)
    (o : ArtifactArchivePreviewOptions) : M Z :=
  a <- insert_row (fun id =>
         MkAudit id (p_ID (ah_Project r)) 0 "artifact.archive.preview" "manage_artifacts"
           "project" (p_Key (ah_Project r)) "allowed" (av_Reason o)
           (artifactArchivePreviewMetadata r o) (env_now env)) ;;
  ret (au_ID a).

Definition artifactArchivePreviewItemMap (i : ArtifactArchivePreviewItem) : jmap :=
  mk [("artifact_id", JInt (ai_ArtifactID i)); ("artifact_type", JStr (ai_ArtifactType i));
      ("storage_backend", JStr (ai_StorageBackend i)); ("uri", JStr (ai_URI i));
      ("source_path", JStr (ai_SourcePath i)); ("retention_class", JStr (ai_RetentionClass i));
      ("archive_state", JStr (ai_ArchiveState i)); ("action", JStr (ai_Action i));
      ("decision", JStr (ai_Decision i)); ("reason", JStr (ai_Reason i));
      ("metadata", JObj (ai_Metadata i))].

Definition artifactArchivePreviewCommandResponse (r : ArtifactArchivePreviewResult) : jmap :=
  mk [("project_id", JInt (p_ID (ah_Project r))); ("project_key", JStr (p_Key (ah_Project r)));
      ("status", JStr (ah_Status r)); ("mode", JStr (ah_Mode r));
      ("summary", JObj (artifactArchivePreviewSummaryMap (ah_Summary r)));
      ("items", JArr (List.map (fun i => JObj (artifactArchivePreviewItemMap i)) (ah_Items r)));
      ("event_id", JInt (ah_EventID r)); ("audit_event_id", JInt (ah_AuditEventID r));
      ("generated_at", JStr (format_rfc3339 (ah_GeneratedAt r)));
      ("project_write_attempted", JBool false); ("storage_write_attempted", JBool false);
      ("artifact_delete_attempted", JBool false)].

(** ** Reading the response back *)

(** The zero time unless an RFC 3339 text is there *)
Definition metadataTime (metadata : jmap) (key : string) : Z :=
  let value := metadataString metadata key in
  if value =s "" then zero_time
  else match parse_rfc3339 value with Some t => t | None => zero_time end.

Definition mapFromAny (value : option json) : jmap :=
  match value with Some (JObj m) => m | _ => [] end.

Definition artifactArchivePreviewSummaryFromAny (value : option json)
  : ArtifactArchivePreviewSummary :=
  match value with
  | Some (JObj m) =>
      MkArchiveSummary (metadataInt64 m "total_artifacts") (metadataInt64 m "archive_candidates")
        (metadataInt64 m "retained_artifacts") (metadataInt64 m "external_refs")
        (metadataInt64 m "needs_policy")
  | _ => MkArchiveSummary 0 0 0 0 0
  end.

Definition artifactArchivePreviewItemsFromAny (value : option json)
  : list ArtifactArchivePreviewItem :=
  match value with
  | Some (JArr l) =>
      flat_map (fun v =>
        match v with
        | JObj m =>
            [MkArchiveItem (metadataInt64 m "artifact_id") (metadataString m "artifact_type")
               (metadataString m "storage_backend") (metadataString m "uri")
               (metadataString m "source_path") (metadataString m "retention_class")
               (metadataString m "archive_state") (metadataString m "action")
               (metadataString m "decision") (metadataString m "reason")
               (mapFromAny (mget "metadata" m))]
        | _ => []
        end) l
  | _ => []
  end.

Definition loadArtifactArchivePreviewByCommandResponse (record : Record_) (key : string)
  : M ArtifactArchivePreviewResult :=
  response <- loadCommandResponse (p_ID record) artifactArchivePreviewCommandType key ;;
  ret (MkArchiveResult record (metadataString response "status")
         (metadataString response "mode")
         (artifactArchivePreviewSummaryFromAny (mget "summary" response))
         (artifactArchivePreviewItemsFromAny (mget "items" response))
         (metadataInt64 response "event_id") (metadataInt64 response "audit_event_id")
         key false (metadataTime response "generated_at")
         (metadataBool response "project_write_attempted")
         (metadataBool response "storage_write_attempted")
         (metadataBool response "artifact_delete_attempted")).

(** ** The command *)

(** [result.EventID = ...], [result.AuditEventID = ...] and the rest *)
Definition set_archive_event (eventID : Z) (r : ArtifactArchivePreviewResult)
  : ArtifactArchivePreviewResult :=
  MkArchiveResult (ah_Project r) (ah_Status r) (ah_Mode r) (ah_Summary r) (ah_Items r) eventID
    (ah_AuditEventID r) (ah_IdempotencyKey r) (ah_Created r) (ah_GeneratedAt r)
    (ah_ProjectWriteAttempted r) (ah_StorageWriteAttempted r) (ah_ArtifactDeleteAttempted r).

Definition set_archive_created (auditEventID : Z) (key : string)
    (r : ArtifactArchivePreviewResult) : ArtifactArchivePreviewResult :=
  MkArchiveResult (ah_Project r) (ah_Status r) (ah_Mode r) (ah_Summary r) (ah_Items r)
    (ah_EventID r) auditEventID key true (ah_GeneratedAt r) (ah_ProjectWriteAttempted r)
    (ah_StorageWriteAttempted r) (ah_ArtifactDeleteAttempted r).

Definition archivePreviewBody (env : Env) (record : Record_)
    (o : ArtifactArchivePreviewOptions) : M (res error ArtifactArchivePreviewResult) :=
  artifacts <- listProjectArtifactsForArchivePreview (p_ID record) o ;;
  let result := buildArtifactArchivePreview env record artifacts in
  eventID <- insertArtifactArchivePreviewEvent env result o ;;
  let result := set_archive_event eventID result in
  auditEventID <- insertArtifactArchivePreviewAuditEvent env result o ;;
  let result := set_archive_created auditEventID (av_IdempotencyKey o) result in
  completeCommandRequestResponse env (p_ID record) artifactArchivePreviewCommandType
    (av_IdempotencyKey o) (artifactArchivePreviewCommandResponse result) ;;;
  ret (Ok result).

Definition replayArchivePreview (record : Record_) (key : string)
  : M (res error ArtifactArchivePreviewResult) :=
  result <- loadArtifactArchivePreviewByCommandResponse record key ;;
  ret (Ok result).

(** The options the command runs with, its key filled in *)
Definition archivePreviewOptions (record : Record_) (options : ArtifactArchivePreviewOptions)
  : ArtifactArchivePreviewOptions :=
  let o := normalizeArtifactArchivePreviewOptions options in
  let requestHash := artifactArchivePreviewRequestHash record o in
  MkArchiveOptions (av_RetentionClass o) (av_Limit o)
    (if av_IdempotencyKey o =s "" then artifactArchivePreviewIdempotencyKey record o requestHash
     else av_IdempotencyKey o)
    (av_Actor o) (av_Reason o).

Definition ArtifactArchivePreview (env : Env) (record : Record_)
    (options : ArtifactArchivePreviewOptions) (w : World)
  : res error ArtifactArchivePreviewResult * World :=
  let requestHash :=
    artifactArchivePreviewRequestHash record (normalizeArtifactArchivePreviewOptions options) in
  let o := archivePreviewOptions record options in
  transact (with_command env (p_ID record) artifactArchivePreviewCommandType
    (av_IdempotencyKey o) requestHash (replayArchivePreview record (av_IdempotencyKey o))
    (archivePreviewBody env record o)) w.

Definition ArtifactArchivePreviewReadOnly (env : Env) (record : Record_)
    (options : ArtifactArchivePreviewOptions) : M ArtifactArchivePreviewResult :=
  let o := normalizeArtifactArchivePreviewOptions options in
  artifacts <- listAllProjectArtifacts (p_ID record) ;;
  ret (buildArtifactArchivePreview env record
         (filterArtifactsByArchivePreviewRetentionClass artifacts (av_RetentionClass o))).

#[export] Hint Unfold insertArtifactArchivePreviewEvent insertArtifactArchivePreviewAuditEvent
  archivePreviewBody : prims.
