(* ===== verification/FixtureWrite.v ===== *)
(** * Fixture project writes

    [internal/project/fixture_project_write.go]: queueing a run that rewrites
    one file of a fixture project, and the command a worker executes it with.
    The command passes the execution approval gate, the scope, the
    capabilities and the path permissions, reads the approved write set back
    from the artifact store, compares the file with the image the set expects,
    keeps a copy of it, writes, verifies and puts the copy back. *)

From stdpp Require Import base list strings numbers gmap.
From Stdlib Require Import ZArith Lia Ascii String.
From S2P Require Import Prelude GoString Sha256 Json JsonText Schema Tx Command Capability.
From S2P Require Import History Worker Lease FilePath Permission RunOnce RunControl Profile.
From S2P Require Import Workflow Gates Runner EnginePreview ExecutionGate ReadOnlyVerify.
From S2P Require Import ProjectFile.

(** ** Options and results *)

Record FixtureProjectWriteQueueOptions := MkFixtureProjectWriteQueueOptions {
  fwq_TargetPath : string; fwq_Content : string; fwq_ExpectedBeforeSHA256 : string;
  fwq_ExpectedBeforeSize : Z; fwq_IdempotencyKey : string; fwq_Actor : string;
  fwq_Reason : string }.

Record FixtureProjectWriteQueueResult := MkFixtureProjectWriteQueueResult {
  fwqr_Project : Record_; fwqr_Version : WorkflowVersion; fwqr_Run : RunRecord;
  fwqr_Task : RunTaskRecord; fwqr_WriteSetArtifact : ArtifactRecord; fwqr_TargetPath : string;
  fwqr_ExpectedBeforeSHA256 : string; fwqr_ExpectedBeforeSize : Z; fwqr_AfterSHA256 : string;
  fwqr_AfterSize : Z; fwqr_Created : bool; fwqr_IdempotencyKey : string; fwqr_EventID : Z;
  fwqr_AuditEventID : Z; fwqr_ProjectReadAttempted : bool; fwqr_ProjectWriteAttempted : bool;
  fwqr_ExecutionWriteAttempted : bool; fwqr_AreaFlowArtifactWritten : bool;
  fwqr_AreaFlowExecutionStateWritten : bool; fwqr_EngineCallAttempted : bool;
  fwqr_CommandsRun : bool; fwqr_SecretsResolved : bool; fwqr_NetworkUsed : bool }.

Record FixtureProjectWriteOptions := MkFixtureProjectWriteOptions {
  fwo_WorkerKey : string; fwo_RunID : Z; fwo_AllowedCapabilities : list string;
  fwo_LeaseTimeoutSeconds : Z; fwo_Metadata : option jmap; fwo_IdempotencyKey : string;
  fwo_Actor : string; fwo_Reason : string }.

Record FixtureProjectWriteResult := MkFixtureProjectWriteResult {
  fwr_Project : Record_; fwr_Version : WorkflowVersion; fwr_Run : RunRecord;
  fwr_Worker : WorkerRecord; fwr_Lease : LeaseRecord; fwr_Task : RunTaskRecord;
  fwr_CopyAttempt : RunAttemptRecord; fwr_VerifyAttempt : RunAttemptRecord;
  fwr_RollbackAttempt : RunAttemptRecord; fwr_WriteSetArtifact : ArtifactRecord;
  fwr_PreimageArtifact : ArtifactRecord; fwr_Artifact : ArtifactRecord;
  fwr_Gate : ExecutionApprovalGate; fwr_TargetPath : string; fwr_ExpectedBeforeSHA256 : string;
  fwr_ExpectedBeforeSize : Z; fwr_AfterSHA256 : string; fwr_AfterSize : Z;
  fwr_RestoredSHA256 : string; fwr_RestoredSize : Z; fwr_Status : string; fwr_Decision : string;
  fwr_Message : string; fwr_Blockers : list string; fwr_Created : bool;
  fwr_IdempotencyKey : string; fwr_EventID : Z; fwr_AuditEventID : Z;
  fwr_ProjectReadAttempted : bool; fwr_ProjectReadAllowed : bool;
  fwr_ProjectWriteAttempted : bool; fwr_ProjectWriteAllowed : bool;
  fwr_ExecutionWriteAttempted : bool; fwr_AreaFlowArtifactWritten : bool;
  fwr_AreaFlowExecutionStateWritten : bool; fwr_EngineCallAttempted : bool;
  fwr_CommandsRun : bool; fwr_SecretsResolved : bool; fwr_NetworkUsed : bool;
  fwr_TaskClaimed : bool; fwr_WorkerStarted : bool; fwr_LeaseCreated : bool;
  fwr_AttemptCreated : bool; fwr_ArtifactCreated : bool; fwr_WriteSetPassed : bool;
  fwr_VerificationPassed : bool; fwr_RollbackAttempted : bool; fwr_RollbackVerified : bool }.

(** *** Write sets

    The struct, its fields as [encoding/json] finds them, its text and the
    struct read back from a text *)

Record fixtureProjectWriteSet := MkfixtureProjectWriteSet {
  fws_Operation : string; fws_TargetPath : string; fws_TargetPathKind : string;
  fws_ExpectedBeforeSHA256 : string; fws_ExpectedBeforeSize : Z; fws_AfterSHA256 : string;
  fws_AfterSize : Z; fws_Content : string; fws_PermissionCapabilities : list string;
  fws_ApprovalRequired : bool; fws_RollbackMode : string }.

Definition fixtureProjectWriteSetFields : list (string * field_kind) :=
  [("operation", KString); ("target_path", KString); ("target_path_kind", KString);
   ("expected_before_sha256", KString); ("expected_before_size", KInt64);
   ("after_sha256", KString); ("after_size", KInt64); ("content", KString);
   ("permission_capabilities", KStrings); ("approval_required", KBool);
   ("rollback_mode", KString)].

Definition fixtureProjectWriteSetText (s : fixtureProjectWriteSet) : string :=
  marshal_indent (JObj
    [("operation", JStr (fws_Operation s)); ("target_path", JStr (fws_TargetPath s));
     ("target_path_kind", JStr (fws_TargetPathKind s));
     ("expected_before_sha256", JStr (fws_ExpectedBeforeSHA256 s));
     ("expected_before_size", JInt (fws_ExpectedBeforeSize s));
     ("after_sha256", JStr (fws_AfterSHA256 s)); ("after_size", JInt (fws_AfterSize s));
     ("content", JStr (fws_Content s));
     ("permission_capabilities", jstrs (fws_PermissionCapabilities s));
     ("approval_required", JBool (fws_ApprovalRequired s));
     ("rollback_mode", JStr (fws_RollbackMode s))]).

Definition parseFixtureProjectWriteSet (content : string) : option fixtureProjectWriteSet :=
  match unmarshal_struct fixtureProjectWriteSetFields content with
  | None => None
  | Some m =>
      let fields := fixtureProjectWriteSetFields in
      Some {| fws_Operation := string_field fields "operation" m;
            fws_TargetPath := string_field fields "target_path" m;
            fws_TargetPathKind := string_field fields "target_path_kind" m;
            fws_ExpectedBeforeSHA256 := string_field fields "expected_before_sha256" m;
            fws_ExpectedBeforeSize := int64_field fields "expected_before_size" m;
            fws_AfterSHA256 := string_field fields "after_sha256" m;
            fws_AfterSize := int64_field fields "after_size" m;
            fws_Content := string_field fields "content" m;
            fws_PermissionCapabilities := strings_field fields "permission_capabilities" m;
            fws_ApprovalRequired := bool_field fields "approval_required" m;
            fws_RollbackMode := string_field fields "rollback_mode" m |}
  end.

(** ** Requests *)

Definition fixtureProjectWriteQueueRequestHash (record : Record_) (version : WorkflowVersion)
    (o : FixtureProjectWriteQueueOptions) : string :=
  let '(afterSHA, afterSize) := hashBytes (fwq_Content o) in
  request_hash
    [("command_type", JStr "run.fixture_project_write_queue");
     ("project_id", JInt (p_ID record)); ("project_key", JStr (p_Key record));
     ("version_id", JInt (v_ID version)); ("display_label", JStr (v_DisplayLabel version));
     ("target_path", JStr (fwq_TargetPath o));
     ("expected_before_sha256", JStr (fwq_ExpectedBeforeSHA256 o));
     ("expected_before_size", JInt (fwq_ExpectedBeforeSize o)); ("after_sha256", JStr afterSHA);
     ("after_size", JInt afterSize); ("content_sha256", JStr afterSHA);
     ("content_size", JInt afterSize); ("fixture_project_write", JBool true);
     ("rollback_drill_required", JBool true); ("actor", JStr (fwq_Actor o));
     ("reason", JStr (fwq_Reason o))].

Definition fixtureProjectWriteRequestHash (record : Record_) (o : FixtureProjectWriteOptions) :
    string :=
  request_hash
    [("command_type", JStr "worker.fixture_project_write"); ("project_id", JInt (p_ID record));
     ("project_key", JStr (p_Key record)); ("worker_key", JStr (fwo_WorkerKey o));
     ("run_id", JInt (fwo_RunID o));
     ("allowed_capabilities", jstrs (fwo_AllowedCapabilities o));
     ("lease_timeout_seconds", JInt (fwo_LeaseTimeoutSeconds o));
     ("metadata", JObj (map_or_empty (fwo_Metadata o))); ("actor", JStr (fwo_Actor o));
     ("reason", JStr (fwo_Reason o)); ("fixture_project_write", JBool true)].

Definition fixtureProjectWriteQueueIdempotencyKey (record : Record_) (version : WorkflowVersion)
    (requestHash : string) : string :=
  "run.fixture_project_write_queue:" +:+ p_Key record +:+ ":" +:+ v_DisplayLabel version +:+ ":"
  +:+ commandHashPrefix requestHash.

Definition fixtureProjectWriteIdempotencyKey (record : Record_) (o : FixtureProjectWriteOptions)
    (requestHash : string) : string :=
  "worker.fixture_project_write:" +:+ p_Key record +:+ ":" +:+ fwo_WorkerKey o +:+ ":"
  +:+ fmt_d (fwo_RunID o) +:+ ":" +:+ commandHashPrefix requestHash.

(** ** Normalisation *)

Definition normalizeFixtureProjectWriteQueueOptions (record : Record_) (version : WorkflowVersion)
    (o : FixtureProjectWriteQueueOptions) : FixtureProjectWriteQueueOptions :=
  let o :=
    MkFixtureProjectWriteQueueOptions (normalizeProjectRelativePath (fwq_TargetPath o))
      (fwq_Content o)
      (to_lower (trim_space (fwq_ExpectedBeforeSHA256 o))) (fwq_ExpectedBeforeSize o)
      (trim_space (fwq_IdempotencyKey o))
      (trim_default "local-user" (fwq_Actor o))
      (trim_default "queue fixture project write run" (fwq_Reason o)) in
  if (fwq_IdempotencyKey o =s "") && (fwq_TargetPath o <>s "")
     && (fwq_ExpectedBeforeSHA256 o <>s "")
  then MkFixtureProjectWriteQueueOptions (fwq_TargetPath o) (fwq_Content o)
         (fwq_ExpectedBeforeSHA256 o) (fwq_ExpectedBeforeSize o)
         (fixtureProjectWriteQueueIdempotencyKey record version
            (fixtureProjectWriteQueueRequestHash record version o)) (fwq_Actor o) (fwq_Reason o)
  else o.

Definition normalizeFixtureProjectWriteOptions (o : FixtureProjectWriteOptions) :
    FixtureProjectWriteOptions :=
  {| fwo_WorkerKey := trim_space (fwo_WorkerKey o); fwo_RunID := fwo_RunID o;
     fwo_AllowedCapabilities :=
       normalizeCapabilityList
         (match fwo_AllowedCapabilities o with
          | [] => ["read_project"; "write_artifacts"; "write_code"]
          | l => l end);
     fwo_LeaseTimeoutSeconds :=
       if fwo_LeaseTimeoutSeconds o <=? 0 then 300 else fwo_LeaseTimeoutSeconds o;
     fwo_Metadata := Some (map_or_empty (fwo_Metadata o));
     fwo_IdempotencyKey := trim_space (fwo_IdempotencyKey o);
     fwo_Actor := trim_default "local-user" (fwo_Actor o);
     fwo_Reason := trim_default "approval-gated fixture project write" (fwo_Reason o) |}.

(** ** Queueing a run *)

Definition insertFixtureProjectWriteRun (env : Env) (record : Record_) (version : WorkflowVersion)
    (o : FixtureProjectWriteQueueOptions) : M RunRecord :=
  let '(afterSHA, afterSize) := hashBytes (fwq_Content o) in
  r <- insert_row (fun id =>
         MkRun id (p_ID record) (v_ID version) "fixture_project_write" "execution" "queued"
           "medium"
           "pause" false
           (mk [("fixture_project_write", JBool true); ("approval_gated", JBool true);
                ("target_path", JStr (fwq_TargetPath o));
                ("expected_before_sha256", JStr (fwq_ExpectedBeforeSHA256 o));
                ("expected_before_size", JInt (fwq_ExpectedBeforeSize o));
                ("after_sha256", JStr afterSHA); ("after_size", JInt afterSize);
                ("project_read_attempted", JBool false);
                ("project_write_attempted", JBool false);
                ("project_write_allowed", JBool false); ("rollback_drill_required", JBool true);
                ("rollback_verified", JBool false); ("area_flow_artifact_written", JBool false);
                ("area_flow_execution_state", JStr "queued");
                ("execution_write_attempted", JBool false);
                ("engine_call_attempted", JBool false); ("commands_run", JBool false);
                ("secrets_resolved", JBool false); ("network_used", JBool false)])
           (mk [("phase", JStr "v0.6n"); ("fixture_project_write", JBool true);
                ("approval_gated", JBool true); ("target_path", JStr (fwq_TargetPath o));
                ("actor", JStr (fwq_Actor o)); ("reason", JStr (fwq_Reason o))])
           (env_now env) None) ;;
  ret (scanRun r).

Definition insertFixtureProjectWriteTask (env : Env) (record : Record_)
    (version : WorkflowVersion)
    (run : RunRecord) (o : FixtureProjectWriteQueueOptions) : M RunTaskRecord :=
  let '(afterSHA, afterSize) := hashBytes (fwq_Content o) in
  t <- insert_row (fun id =>
         MkRunTask id (p_ID record) (v_ID version) 0 (r_ID run)
           (v_DisplayLabel version +:+ ":fixture-project-write:" +:+ fwq_TargetPath o)
           "fixture_project_write_task" "queued" "medium" 1
           (mk [("phase", JStr "v0.6n"); ("fixture_project_write", JBool true);
                ("approval_gated", JBool true); ("operation", JStr "modify");
                ("target_path", JStr (fwq_TargetPath o));
                ("target_path_kind", JStr "fixture_file");
                ("expected_before_sha256", JStr (fwq_ExpectedBeforeSHA256 o));
                ("expected_before_size", JInt (fwq_ExpectedBeforeSize o));
                ("after_sha256", JStr afterSHA); ("after_size", JInt afterSize);
                ("actor", JStr (fwq_Actor o)); ("reason", JStr (fwq_Reason o))])
           (env_now env) (env_now env)) ;;
  ret (scanRunTask t).

(** The artifact path of one of the files of a run *)
Definition fixtureWriteFile (version : WorkflowVersion) (run : RunRecord) (task : RunTaskRecord)
    (name : string) : string :=
  path_join ["versions"; v_DisplayLabel version; "fixture-project-write";
             "run-" +:+ fmt_d (r_ID run) +:+ "-task-" +:+ fmt_d (t_ID task) +:+ "-" +:+ name].

Definition fixtureWriteSet (o : FixtureProjectWriteQueueOptions) : fixtureProjectWriteSet :=
  let '(afterSHA, afterSize) := hashBytes (fwq_Content o) in
  {| fws_Operation := "modify"; fws_TargetPath := fwq_TargetPath o;
   fws_TargetPathKind := "fixture_file"; fws_ExpectedBeforeSHA256 := fwq_ExpectedBeforeSHA256 o;
   fws_ExpectedBeforeSize := fwq_ExpectedBeforeSize o; fws_AfterSHA256 := afterSHA;
   fws_AfterSize := afterSize; fws_Content := fwq_Content o;
   fws_PermissionCapabilities := ["read_project"; "write_artifacts"; "write_code"];
   fws_ApprovalRequired := true; fws_RollbackMode := "restore_preimage" |}.

Definition writeAndInsertFixtureProjectWriteSetArtifact (env : Env) (record : Record_)
    (version : WorkflowVersion) (run : RunRecord) (task : RunTaskRecord)
    (o : FixtureProjectWriteQueueOptions) : M (ArtifactRecord * string * Z) :=
  let '(afterSHA, afterSize) := hashBytes (fwq_Content o) in
  let relativePath := fixtureWriteFile version run task "write-set.json" in
  st <- writeProjectArtifact env record relativePath
    (fixtureProjectWriteSetText (fixtureWriteSet o))
          "application/json" ;;
  artifact <- insertRunArtifactRecord env (p_ID record) (v_ID version) (r_ID run)
    (t_WorkflowItemID task) "fixture_project_write_set" relativePath st
    (mk [("phase", JStr "v0.6n"); ("owned_by", JStr "areaflow");
         ("fixture_project_write", JBool true); ("artifact_role", JStr "approved_write_set");
         ("target_path", JStr (fwq_TargetPath o));
         ("expected_before_sha256", JStr (fwq_ExpectedBeforeSHA256 o));
         ("expected_before_size", JInt (fwq_ExpectedBeforeSize o));
         ("after_sha256", JStr afterSHA); ("after_size", JInt afterSize);
         ("actor", JStr (fwq_Actor o)); ("reason", JStr (fwq_Reason o))]) ;;
  ret (artifact, afterSHA, afterSize).

Definition fixtureProjectWriteQueueMetadata (r : FixtureProjectWriteQueueResult)
    (o : FixtureProjectWriteQueueOptions) : jmap :=
  mk [("project_key", JStr (p_Key (fwqr_Project r)));
      ("workflow_version_id", JInt (v_ID (fwqr_Version r)));
      ("display_label", JStr (v_DisplayLabel (fwqr_Version r)));
      ("run_id", JInt (r_ID (fwqr_Run r))); ("run_task_id", JInt (t_ID (fwqr_Task r)));
      ("write_set_artifact_id", JInt (ar_ID (fwqr_WriteSetArtifact r)));
      ("target_path", JStr (fwqr_TargetPath r));
      ("expected_before_sha256", JStr (fwqr_ExpectedBeforeSHA256 r));
      ("expected_before_size", JInt (fwqr_ExpectedBeforeSize r));
      ("after_sha256", JStr (fwqr_AfterSHA256 r)); ("after_size", JInt (fwqr_AfterSize r));
      ("actor", JStr (fwq_Actor o)); ("idempotency_key", JStr (fwq_IdempotencyKey o));
      ("fixture_project_write", JBool true); ("approval_gated", JBool true);
      ("project_read_attempted", JBool false); ("project_write_attempted", JBool false);
      ("execution_write_attempted", JBool false); ("area_flow_artifact_written", JBool true);
      ("area_flow_execution_state_written", JBool true); ("engine_call_attempted", JBool false);
      ("commands_run", JBool false); ("secrets_resolved", JBool false);
      ("network_used", JBool false)].

Definition insertFixtureProjectWriteQueueEvent (env : Env) (r : FixtureProjectWriteQueueResult)
    (o : FixtureProjectWriteQueueOptions) : M Z :=
  e <- insert_row (fun id =>
         MkEvent id (p_ID (fwqr_Project r)) (r_ID (fwqr_Run r)) (v_ID (fwqr_Version r))
           "run.fixture_project_write_queue.created" "info" "Fixture project write run queued"
           (fixtureProjectWriteQueueMetadata r o) (env_now env)) ;;
  ret (e_ID e).

Definition insertFixtureProjectWriteQueueAuditEvent (env : Env)
    (r : FixtureProjectWriteQueueResult)
    (o : FixtureProjectWriteQueueOptions) : M Z :=
  a <- insert_row (fun id =>
         MkAudit id (p_ID (fwqr_Project r)) 0 "run.fixture_project_write_queue" "manage_runs"
           "run"
           (fmt_d (r_ID (fwqr_Run r))) "allowed" (fwq_Reason o)
           (fixtureProjectWriteQueueMetadata r o) (env_now env)) ;;
  ret (au_ID a).

Definition fixtureProjectWriteQueueCommandResponse (r : FixtureProjectWriteQueueResult) : jmap :=
  mk [("project_id", JInt (p_ID (fwqr_Project r)));
      ("project_key", JStr (p_Key (fwqr_Project r)));
      ("workflow_version_id", JInt (v_ID (fwqr_Version r)));
      ("display_label", JStr (v_DisplayLabel (fwqr_Version r)));
      ("run_id", JInt (r_ID (fwqr_Run r))); ("run_task_id", JInt (t_ID (fwqr_Task r)));
      ("write_set_artifact_id", JInt (ar_ID (fwqr_WriteSetArtifact r)));
      ("target_path", JStr (fwqr_TargetPath r));
      ("expected_before_sha256", JStr (fwqr_ExpectedBeforeSHA256 r));
      ("expected_before_size", JInt (fwqr_ExpectedBeforeSize r));
      ("after_sha256", JStr (fwqr_AfterSHA256 r)); ("after_size", JInt (fwqr_AfterSize r));
      ("event_id", JInt (fwqr_EventID r)); ("audit_event_id", JInt (fwqr_AuditEventID r));
      ("fixture_project_write", JBool true); ("approval_gated", JBool true);
      ("project_read_attempted", JBool false); ("project_write_attempted", JBool false);
      ("execution_write_attempted", JBool false);
      ("area_flow_artifact_written", JBool (fwqr_AreaFlowArtifactWritten r));
      ("area_flow_execution_state_written", JBool (fwqr_AreaFlowExecutionStateWritten r));
      ("engine_call_attempted", JBool false); ("commands_run", JBool false);
      ("secrets_resolved", JBool false); ("network_used", JBool false)].

Definition set_fwqr_event (eventID : Z) (r : FixtureProjectWriteQueueResult) :
    FixtureProjectWriteQueueResult :=
  {| fwqr_Project := fwqr_Project r; fwqr_Version := fwqr_Version r; fwqr_Run := fwqr_Run r;
   fwqr_Task := fwqr_Task r; fwqr_WriteSetArtifact := fwqr_WriteSetArtifact r;
   fwqr_TargetPath := fwqr_TargetPath r;
   fwqr_ExpectedBeforeSHA256 := fwqr_ExpectedBeforeSHA256 r;
   fwqr_ExpectedBeforeSize := fwqr_ExpectedBeforeSize r; fwqr_AfterSHA256 := fwqr_AfterSHA256 r;
   fwqr_AfterSize := fwqr_AfterSize r; fwqr_Created := fwqr_Created r;
   fwqr_IdempotencyKey := fwqr_IdempotencyKey r; fwqr_EventID := eventID;
   fwqr_AuditEventID := fwqr_AuditEventID r;
   fwqr_ProjectReadAttempted := fwqr_ProjectReadAttempted r;
   fwqr_ProjectWriteAttempted := fwqr_ProjectWriteAttempted r;
   fwqr_ExecutionWriteAttempted := fwqr_ExecutionWriteAttempted r;
   fwqr_AreaFlowArtifactWritten := fwqr_AreaFlowArtifactWritten r;
   fwqr_AreaFlowExecutionStateWritten := fwqr_AreaFlowExecutionStateWritten r;
   fwqr_EngineCallAttempted := fwqr_EngineCallAttempted r;
   fwqr_CommandsRun := fwqr_CommandsRun r; fwqr_SecretsResolved := fwqr_SecretsResolved r;
   fwqr_NetworkUsed := fwqr_NetworkUsed r |}.

Definition set_fwqr_audit (auditEventID : Z) (r : FixtureProjectWriteQueueResult) :
    FixtureProjectWriteQueueResult :=
  {| fwqr_Project := fwqr_Project r; fwqr_Version := fwqr_Version r; fwqr_Run := fwqr_Run r;
   fwqr_Task := fwqr_Task r; fwqr_WriteSetArtifact := fwqr_WriteSetArtifact r;
   fwqr_TargetPath := fwqr_TargetPath r;
   fwqr_ExpectedBeforeSHA256 := fwqr_ExpectedBeforeSHA256 r;
   fwqr_ExpectedBeforeSize := fwqr_ExpectedBeforeSize r; fwqr_AfterSHA256 := fwqr_AfterSHA256 r;
   fwqr_AfterSize := fwqr_AfterSize r; fwqr_Created := fwqr_Created r;
   fwqr_IdempotencyKey := fwqr_IdempotencyKey r; fwqr_EventID := fwqr_EventID r;
   fwqr_AuditEventID := auditEventID; fwqr_ProjectReadAttempted := fwqr_ProjectReadAttempted r;
   fwqr_ProjectWriteAttempted := fwqr_ProjectWriteAttempted r;
   fwqr_ExecutionWriteAttempted := fwqr_ExecutionWriteAttempted r;
   fwqr_AreaFlowArtifactWritten := fwqr_AreaFlowArtifactWritten r;
   fwqr_AreaFlowExecutionStateWritten := fwqr_AreaFlowExecutionStateWritten r;
   fwqr_EngineCallAttempted := fwqr_EngineCallAttempted r;
   fwqr_CommandsRun := fwqr_CommandsRun r; fwqr_SecretsResolved := fwqr_SecretsResolved r;
   fwqr_NetworkUsed := fwqr_NetworkUsed r |}.

Definition loadFixtureProjectWriteQueueByCommandResponse (record : Record_)
    (version : WorkflowVersion) (idempotencyKey : string) : M FixtureProjectWriteQueueResult :=
  response <- loadCommandResponse (p_ID record) "run.fixture_project_write_queue"
    idempotencyKey ;;
  run <- loadRunForUpdate (metadataInt64 response "run_id") ;;
  task <- loadRunTaskByID (p_ID record) (metadataInt64 response "run_task_id") ;;
  writeSetArtifact <- load_if (metadataInt64 response "write_set_artifact_id") no_artifact
                        (loadArtifactByIDTx (p_ID record)) ;;
  ret {| fwqr_Project := record; fwqr_Version := version; fwqr_Run := run; fwqr_Task := task;
       fwqr_WriteSetArtifact := writeSetArtifact;
       fwqr_TargetPath := metadataString response "target_path";
       fwqr_ExpectedBeforeSHA256 := metadataString response "expected_before_sha256";
       fwqr_ExpectedBeforeSize := metadataInt64 response "expected_before_size";
       fwqr_AfterSHA256 := metadataString response "after_sha256";
       fwqr_AfterSize := metadataInt64 response "after_size"; fwqr_Created := false;
       fwqr_IdempotencyKey := idempotencyKey; fwqr_EventID := metadataInt64 response "event_id";
       fwqr_AuditEventID := metadataInt64 response "audit_event_id";
       fwqr_ProjectReadAttempted := metadataBool response "project_read_attempted";
       fwqr_ProjectWriteAttempted := metadataBool response "project_write_attempted";
       fwqr_ExecutionWriteAttempted := metadataBool response "execution_write_attempted";
       fwqr_AreaFlowArtifactWritten := metadataBool response "area_flow_artifact_written";
       fwqr_AreaFlowExecutionStateWritten := metadataBool response
         "area_flow_execution_state_written";
       fwqr_EngineCallAttempted := metadataBool response "engine_call_attempted";
       fwqr_CommandsRun := metadataBool response "commands_run";
       fwqr_SecretsResolved := metadataBool response "secrets_resolved";
       fwqr_NetworkUsed := metadataBool response "network_used" |}.

Definition queueFixtureWriteBody (env : Env) (record : Record_) (version : WorkflowVersion)
    (o : FixtureProjectWriteQueueOptions) : M (res error FixtureProjectWriteQueueResult) :=
  run <- insertFixtureProjectWriteRun env record version o ;;
  task <- insertFixtureProjectWriteTask env record version run o ;;
  written <- writeAndInsertFixtureProjectWriteSetArtifact env record version run task o ;;
  let '(writeSetArtifact, afterSHA, afterSize) := written in
  updateRunTaskMetadata env (t_ID task)
    [("write_set_artifact_id", JInt (ar_ID writeSetArtifact));
     ("target_path", JStr (fwq_TargetPath o));
     ("expected_before_sha256", JStr (fwq_ExpectedBeforeSHA256 o));
     ("expected_before_size", JInt (fwq_ExpectedBeforeSize o)); ("after_sha256", JStr afterSHA);
     ("after_size", JInt afterSize); ("fixture_project_write", JBool true);
     ("approved_write_set_source", JStr "area_flow_artifact")] ;;;
  let task :=
    task_noted "write_set_artifact_id" (JFloat (float64_of_Z (ar_ID writeSetArtifact))) task in
  let r :=
    {| fwqr_Project := record; fwqr_Version := version; fwqr_Run := run; fwqr_Task := task;
     fwqr_WriteSetArtifact := writeSetArtifact; fwqr_TargetPath := fwq_TargetPath o;
     fwqr_ExpectedBeforeSHA256 := fwq_ExpectedBeforeSHA256 o;
     fwqr_ExpectedBeforeSize := fwq_ExpectedBeforeSize o; fwqr_AfterSHA256 := afterSHA;
     fwqr_AfterSize := afterSize; fwqr_Created := true;
     fwqr_IdempotencyKey := fwq_IdempotencyKey o; fwqr_EventID := 0; fwqr_AuditEventID := 0;
     fwqr_ProjectReadAttempted := false; fwqr_ProjectWriteAttempted := false;
     fwqr_ExecutionWriteAttempted := false; fwqr_AreaFlowArtifactWritten := true;
     fwqr_AreaFlowExecutionStateWritten := true; fwqr_EngineCallAttempted := false;
     fwqr_CommandsRun := false; fwqr_SecretsResolved := false; fwqr_NetworkUsed := false |} in
  eventID <- insertFixtureProjectWriteQueueEvent env r o ;;
  let r := set_fwqr_event eventID r in
  auditEventID <- insertFixtureProjectWriteQueueAuditEvent env r o ;;
  let r := set_fwqr_audit auditEventID r in
  completeCommandRequestResponse env (p_ID record) "run.fixture_project_write_queue"
    (fwq_IdempotencyKey o)
    (fixtureProjectWriteQueueCommandResponse r) ;;;
  ret (Ok r).

Definition maxFixtureProjectWriteContentBytes : Z := 256 * 1024.

(** Once the guards are passed, [normalizeFixtureProjectWriteQueueOptions] has
    filled in the key. *)
Definition queueFixtureWriteTx (env : Env) (record : Record_) (label : string)
    (options : FixtureProjectWriteQueueOptions) : M (res error FixtureProjectWriteQueueResult) :=
  version <- authoredVersion record label ;;
  let o := normalizeFixtureProjectWriteQueueOptions record version options in
  if fwq_TargetPath o =s "" then fail (ErrText "target path is required")
  else if fwq_ExpectedBeforeSHA256 o =s ""
  then fail (ErrText "expected before sha256 is required")
  else if maxFixtureProjectWriteContentBytes <? len (fwq_Content o)
  then fail (ErrText "fixture project write content exceeds 262144 bytes")
  else
    with_command env (p_ID record) "run.fixture_project_write_queue" (fwq_IdempotencyKey o)
      (fixtureProjectWriteQueueRequestHash record version o)
      (r <- loadFixtureProjectWriteQueueByCommandResponse record version (fwq_IdempotencyKey o) ;;
       ret (Ok r))
      (queueFixtureWriteBody env record version o).

Definition QueueFixtureProjectWrite (env : Env) (record : Record_) (label : string)
    (options : FixtureProjectWriteQueueOptions) (w : World)
  : res error FixtureProjectWriteQueueResult * World :=
  transact (queueFixtureWriteTx env record label options) w.

(** ** Claiming the task *)

Definition nextFixtureProjectWriteTaskForLease (env : Env) (projectID runID : Z)
  : M (option RunTaskRecord) :=
  next_execution_task env projectID runID "fixture_project_write_task".

Definition remainingFixtureProjectWriteTaskCount (runID : Z) : M Z :=
  count_tasks (remaining_task runID "fixture_project_write_task").

Definition loadFixtureProjectWriteSet (os : WriteOS) (record : Record_) (artifactID : Z)
  : M (fixtureProjectWriteSet * ArtifactRecord) :=
  if artifactID <=? 0 then fail (ErrText "write-set artifact id is required")
  else
    artifact <- loadArtifactByIDTx (p_ID record) artifactID ;;
    artifactContent <- (fun w => (ReadArtifactContent (os_S3Get os) artifact w, w)) ;;
    match parseFixtureProjectWriteSet (cn_Content artifactContent) with
    | None => fail (ErrText "parse fixture write-set artifact")
    | Some writeSet =>
      if fws_Operation writeSet <>s "modify"
      then fail (ErrText "only modify operation is supported")
      else if (fws_TargetPath writeSet =s "") || (fws_ExpectedBeforeSHA256 writeSet =s "")
              || (fws_AfterSHA256 writeSet =s "")
      then fail (ErrText "write-set artifact is incomplete")
      else ret (writeSet, artifact)
    end.

Definition writeAndInsertFixtureProjectPreimageArtifact (env : Env) (record : Record_)
    (version : WorkflowVersion) (run : RunRecord) (task : RunTaskRecord) (targetPath : string)
    (preimage : fixtureProjectFileImage) (o : FixtureProjectWriteOptions) : M ArtifactRecord :=
  let relativePath := fixtureWriteFile version run task "preimage.bin" in
  st <- writeProjectArtifact env record relativePath (im_Content preimage)
          "application/octet-stream" ;;
  insertRunArtifactRecord env (p_ID record) (v_ID version) (r_ID run) (t_WorkflowItemID task)
    "fixture_project_write_preimage" relativePath st
    (mk [("phase", JStr "v0.6n"); ("owned_by", JStr "areaflow");
         ("fixture_project_write", JBool true); ("artifact_role", JStr "preimage");
         ("target_path", JStr targetPath); ("target_sha256", JStr (im_SHA256 preimage));
         ("target_size", JInt (im_SizeBytes preimage)); ("actor", JStr (fwo_Actor o));
         ("reason", JStr (fwo_Reason o))]).

Definition insertFixtureProjectWriteAttempt (env : Env) (record : Record_) (task : RunTaskRecord)
    (lease : LeaseRecord) (attemptKind status : string) (metadata : jmap)
    (o : FixtureProjectWriteOptions) : M RunAttemptRecord :=
  let base :=
    mk [("actor", JStr (fwo_Actor o)); ("reason", JStr (fwo_Reason o));
        ("fixture_project_write", JBool true); ("approval_gated", JBool true);
        ("project_read_attempted", JBool true); ("project_write_attempted", JBool true);
        ("project_write_allowed", JBool true); ("execution_write_attempted", JBool false);
        ("area_flow_artifact_written", JBool true);
        ("area_flow_execution_state_written", JBool true);
        ("engine_call_attempted", JBool false); ("commands_run", JBool false);
        ("secrets_resolved", JBool false); ("network_used", JBool false);
        ("lease_id", JInt (l_ID lease)); ("worker_id", JInt (l_WorkerID lease))] in
  a <- insert_row (fun id =>
         MkRunAttempt id (p_ID record) (t_WorkflowVersionID task) (t_WorkflowItemID task)
           (t_RunID task) (t_ID task) attemptKind status false (mset_all metadata base)
           (env_now env) (Some (env_now env))) ;;
  ret (scanRunAttempt a).

(** What a claimed task has done to the target when its report is written *)
Record fixtureWriteDone := MkFixtureWriteDone {
  fd_writeSet : fixtureProjectWriteSet; fd_preimage : fixtureProjectFileImage;
  fd_afterImage : fixtureProjectFileImage; fd_restoredImage : fixtureProjectFileImage;
  fd_writeSetArtifact : ArtifactRecord; fd_preimageArtifact : ArtifactRecord;
  fd_copyAttempt : RunAttemptRecord; fd_verifyAttempt : RunAttemptRecord }.

Definition fixtureWriteReport (env : Env) (record : Record_) (version : WorkflowVersion)
    (run : RunRecord) (worker : WorkerRecord) (task : RunTaskRecord) (lease : LeaseRecord)
    (gate : ExecutionApprovalGate) (d : fixtureWriteDone) (rollbackAttempt : RunAttemptRecord) :
    string :=
  let writeSet := fd_writeSet d in
  let preimage := fd_preimage d in
  let afterImage := fd_afterImage d in
  let restoredImage := fd_restoredImage d in
  let writeSetArtifact := fd_writeSetArtifact d in
  let preimageArtifact := fd_preimageArtifact d in
  let copyAttempt := fd_copyAttempt d in
  let verifyAttempt := fd_verifyAttempt d in
  marshal_indent (JObj (mk
    [("project", JStr (p_Key record)); ("workflow_version", JStr (v_DisplayLabel version));
     ("run_id", JInt (r_ID run)); ("run_task_id", JInt (t_ID task));
     ("task_key", JStr (t_TaskKey task)); ("task_kind", JStr (t_TaskKind task));
     ("worker_id", JInt (w_ID worker)); ("worker_key", JStr (w_WorkerKey worker));
     ("lease_id", JInt (l_ID lease)); ("fixture_project_write", JBool true);
     ("fixture_only", JBool true); ("approval_gated", JBool true);
     ("execution_gate_status", JStr (eg_Status gate));
     ("target_path", JStr (fws_TargetPath writeSet));
     ("operation", JStr (fws_Operation writeSet));
     ("write_set_artifact_id", JInt (ar_ID writeSetArtifact));
     ("preimage_artifact_id", JInt (ar_ID preimageArtifact));
     ("copy_attempt_id", JInt (at_ID copyAttempt));
     ("verify_attempt_id", JInt (at_ID verifyAttempt));
     ("rollback_attempt_id", JInt (at_ID rollbackAttempt));
     ("expected_before_sha256", JStr (fws_ExpectedBeforeSHA256 writeSet));
     ("expected_before_size", JInt (fws_ExpectedBeforeSize writeSet));
     ("preimage_sha256", JStr (im_SHA256 preimage));
     ("preimage_size", JInt (im_SizeBytes preimage));
     ("after_sha256", JStr (im_SHA256 afterImage));
     ("after_size", JInt (im_SizeBytes afterImage));
     ("rollback_restored_sha256", JStr (im_SHA256 restoredImage));
     ("rollback_restored_size", JInt (im_SizeBytes restoredImage));
     ("project_read_attempted", JBool true); ("project_read_allowed", JBool true);
     ("project_write_attempted", JBool true); ("project_write_allowed", JBool true);
     ("execution_write_attempted", JBool false); ("area_flow_artifact_written", JBool true);
     ("area_flow_execution_state_written", JBool true); ("engine_call_attempted", JBool false);
     ("commands_run", JBool false); ("secrets_resolved", JBool false);
     ("network_used", JBool false); ("write_set_passed", JBool true);
     ("verification_passed", JBool true); ("rollback_attempted", JBool true);
     ("rollback_verified", JBool true);
     ("unsupported_operations", jstrs (["create"; "delete"; "move"; "chmod"; "binary_rewrite";
       "symlink_target"; "project_root_escape"; "glob_bulk_write"]));
     ("generated_at", JStr (env_rfc3339 env))])).

Definition writeAndInsertFixtureProjectWriteReport (env : Env) (record : Record_)
    (version : WorkflowVersion) (run : RunRecord) (worker : WorkerRecord) (task : RunTaskRecord)
    (lease : LeaseRecord) (gate : ExecutionApprovalGate) (d : fixtureWriteDone)
    (rollbackAttempt : RunAttemptRecord) (o : FixtureProjectWriteOptions) : M ArtifactRecord :=
  let writeSet := fd_writeSet d in
  let writeSetArtifact := fd_writeSetArtifact d in
  let preimageArtifact := fd_preimageArtifact d in
  let copyAttempt := fd_copyAttempt d in
  let verifyAttempt := fd_verifyAttempt d in
  let relativePath := fixtureWriteFile version run task "report.json" in
  st <- writeProjectArtifact env record relativePath
          (fixtureWriteReport env record version run worker task lease gate d rollbackAttempt)
          "application/json" ;;
  insertRunArtifactRecord env (p_ID record) (v_ID version) (r_ID run) (t_WorkflowItemID task)
    "fixture_project_write_report" relativePath st
    (mk [("phase", JStr "v0.6n"); ("owned_by", JStr "areaflow");
         ("fixture_project_write", JBool true);
         ("artifact_role", JStr "fixture_project_write_report");
         ("target_path", JStr (fws_TargetPath writeSet));
         ("write_set_artifact_id", JInt (ar_ID writeSetArtifact));
         ("preimage_artifact_id", JInt (ar_ID preimageArtifact));
         ("copy_attempt_id", JInt (at_ID copyAttempt));
         ("verify_attempt_id", JInt (at_ID verifyAttempt));
         ("rollback_attempt_id", JInt (at_ID rollbackAttempt));
         ("rollback_verified", JBool true); ("execution_gate_status", JStr (eg_Status gate));
         ("actor", JStr (fwo_Actor o)); ("reason", JStr (fwo_Reason o))]).

Definition updateFixtureProjectWriteRunAfterTask (env : Env) (run : RunRecord)
    (o : FixtureProjectWriteOptions) (artifactID attemptID : Z) (targetPath : string)
    (writeSet : fixtureProjectWriteSet) (restoredImage : fixtureProjectFileImage) : M RunRecord :=
  done <- rollbackVerifiedRunTaskCount (r_ID run) ;;
  remaining <- remainingFixtureProjectWriteTaskCount (r_ID run) ;;
  let summary :=
    mset_all [("fixture_project_write", JBool true); ("approval_gated", JBool true);
              ("target_path", JStr targetPath); ("last_artifact_id", JInt artifactID);
              ("last_attempt_id", JInt attemptID); ("project_read_attempted", JBool true);
              ("project_read_allowed", JBool true); ("project_write_attempted", JBool true);
              ("project_write_allowed", JBool true); ("execution_write_attempted", JBool false);
              ("area_flow_artifact_written", JBool true);
              ("area_flow_execution_state_written", JBool true);
              ("engine_call_attempted", JBool false); ("commands_run", JBool false);
              ("secrets_resolved", JBool false); ("network_used", JBool false);
              ("expected_before_sha256", JStr (fws_ExpectedBeforeSHA256 writeSet));
              ("after_sha256", JStr (fws_AfterSHA256 writeSet));
              ("restored_sha256", JStr (im_SHA256 restoredImage));
              ("rollback_attempted", JBool true); ("rollback_verified", JBool true);
              ("verified_task_count", JInt done); ("remaining_task_count", JInt remaining)]
                (copyMap (r_Summary run)) in
  let metadata :=
    mset_all [("last_fixture_project_write_actor", JStr (fwo_Actor o));
              ("last_fixture_project_write_reason", JStr (fwo_Reason o));
              ("last_fixture_project_write_at", JStr (env_rfc3339 env));
              ("last_artifact_id", JInt artifactID); ("last_attempt_id", JInt attemptID);
              ("fixture_project_write", JBool true); ("approval_gated", JBool true)]
                (copyMap (r_Metadata run)) in
  rows <- update_rows (fun r => r_ID r =? r_ID run)
            (run_progress (env_now env) (remaining =? 0)
               (if remaining =? 0 then "rollback_verified" else "running") summary metadata) ;;
  r <- first_row rows ;;
  ret (scanRun r).

(** ** History and responses *)

Definition fixtureProjectWriteMetadata (r : FixtureProjectWriteResult)
    (o : FixtureProjectWriteOptions) : jmap :=
  mk [("project_key", JStr (p_Key (fwr_Project r)));
      ("workflow_version_id", JInt (v_ID (fwr_Version r)));
      ("display_label", JStr (v_DisplayLabel (fwr_Version r)));
      ("run_id", JInt (r_ID (fwr_Run r))); ("run_task_id", JInt (t_ID (fwr_Task r)));
      ("lease_id", JInt (l_ID (fwr_Lease r)));
      ("copy_attempt_id", JInt (at_ID (fwr_CopyAttempt r)));
      ("verify_attempt_id", JInt (at_ID (fwr_VerifyAttempt r)));
      ("rollback_attempt_id", JInt (at_ID (fwr_RollbackAttempt r)));
      ("write_set_artifact_id", JInt (ar_ID (fwr_WriteSetArtifact r)));
      ("preimage_artifact_id", JInt (ar_ID (fwr_PreimageArtifact r)));
      ("artifact_id", JInt (ar_ID (fwr_Artifact r))); ("worker_id", JInt (w_ID (fwr_Worker r)));
      ("worker_key", JStr (w_WorkerKey (fwr_Worker r)));
      ("target_path", JStr (fwr_TargetPath r));
      ("expected_before_sha256", JStr (fwr_ExpectedBeforeSHA256 r));
      ("expected_before_size", JInt (fwr_ExpectedBeforeSize r));
      ("after_sha256", JStr (fwr_AfterSHA256 r)); ("after_size", JInt (fwr_AfterSize r));
      ("restored_sha256", JStr (fwr_RestoredSHA256 r));
      ("restored_size", JInt (fwr_RestoredSize r)); ("status", JStr (fwr_Status r));
      ("decision", JStr (fwr_Decision r)); ("blockers", jstrs_nil (fwr_Blockers r));
      ("actor", JStr (fwo_Actor o)); ("idempotency_key", JStr (fwo_IdempotencyKey o));
      ("fixture_project_write", JBool true); ("approval_gated", JBool true);
      ("execution_gate_status", JStr (eg_Status (fwr_Gate r)));
      ("project_read_attempted", JBool (fwr_ProjectReadAttempted r));
      ("project_read_allowed", JBool (fwr_ProjectReadAllowed r));
      ("project_write_attempted", JBool (fwr_ProjectWriteAttempted r));
      ("project_write_allowed", JBool (fwr_ProjectWriteAllowed r));
      ("execution_write_attempted", JBool (fwr_ExecutionWriteAttempted r));
      ("area_flow_artifact_written", JBool (fwr_AreaFlowArtifactWritten r));
      ("area_flow_execution_state_written", JBool (fwr_AreaFlowExecutionStateWritten r));
      ("engine_call_attempted", JBool (fwr_EngineCallAttempted r));
      ("commands_run", JBool (fwr_CommandsRun r));
      ("secrets_resolved", JBool (fwr_SecretsResolved r));
      ("network_used", JBool (fwr_NetworkUsed r)); ("task_claimed", JBool (fwr_TaskClaimed r));
      ("worker_started", JBool (fwr_WorkerStarted r));
      ("lease_created", JBool (fwr_LeaseCreated r));
      ("attempt_created", JBool (fwr_AttemptCreated r));
      ("artifact_created", JBool (fwr_ArtifactCreated r));
      ("write_set_passed", JBool (fwr_WriteSetPassed r));
      ("verification_passed", JBool (fwr_VerificationPassed r));
      ("rollback_attempted", JBool (fwr_RollbackAttempted r));
      ("rollback_verified", JBool (fwr_RollbackVerified r))].

Definition insertFixtureProjectWriteEvent (env : Env) (r : FixtureProjectWriteResult)
    (o : FixtureProjectWriteOptions) : M Z :=
  e <- insert_row (fun id =>
         MkEvent id (p_ID (fwr_Project r)) (r_ID (fwr_Run r)) (v_ID (fwr_Version r))
           ("worker.fixture_project_write." +:+ fwr_Decision r)
           (if fwr_Decision r =s "denied" then "warning" else "info") (fwr_Message r)
           (fixtureProjectWriteMetadata r o) (env_now env)) ;;
  ret (e_ID e).

Definition insertFixtureProjectWriteAuditEvent (env : Env) (r : FixtureProjectWriteResult)
    (o : FixtureProjectWriteOptions) : M Z :=
  a <- insert_row (fun id =>
         MkAudit id (p_ID (fwr_Project r)) (w_ActorID (fwr_Worker r))
           "worker.fixture_project_write"
           "write_code" "path" (fwr_TargetPath r) (fwr_Decision r) (fwo_Reason o)
           (fixtureProjectWriteMetadata r o) (env_now env)) ;;
  ret (au_ID a).

Definition fixtureProjectWriteCommandResponse (r : FixtureProjectWriteResult) : jmap :=
  mk [("project_id", JInt (p_ID (fwr_Project r)));
      ("project_key", JStr (p_Key (fwr_Project r)));
      ("workflow_version_id", JInt (v_ID (fwr_Version r)));
      ("display_label", JStr (v_DisplayLabel (fwr_Version r)));
      ("run_id", JInt (r_ID (fwr_Run r))); ("run_status", JStr (r_Status (fwr_Run r)));
      ("worker_id", JInt (w_ID (fwr_Worker r)));
      ("worker_key", JStr (w_WorkerKey (fwr_Worker r)));
      ("run_task_id", JInt (t_ID (fwr_Task r))); ("task_status", JStr (t_Status (fwr_Task r)));
      ("lease_id", JInt (l_ID (fwr_Lease r)));
      ("copy_attempt_id", JInt (at_ID (fwr_CopyAttempt r)));
      ("verify_attempt_id", JInt (at_ID (fwr_VerifyAttempt r)));
      ("rollback_attempt_id", JInt (at_ID (fwr_RollbackAttempt r)));
      ("write_set_artifact_id", JInt (ar_ID (fwr_WriteSetArtifact r)));
      ("preimage_artifact_id", JInt (ar_ID (fwr_PreimageArtifact r)));
      ("artifact_id", JInt (ar_ID (fwr_Artifact r)));
      ("artifact_type", JStr (ar_ArtifactType (fwr_Artifact r)));
      ("target_path", JStr (fwr_TargetPath r));
      ("expected_before_sha256", JStr (fwr_ExpectedBeforeSHA256 r));
      ("expected_before_size", JInt (fwr_ExpectedBeforeSize r));
      ("after_sha256", JStr (fwr_AfterSHA256 r)); ("after_size", JInt (fwr_AfterSize r));
      ("restored_sha256", JStr (fwr_RestoredSHA256 r));
      ("restored_size", JInt (fwr_RestoredSize r)); ("event_id", JInt (fwr_EventID r));
      ("audit_event_id", JInt (fwr_AuditEventID r)); ("status", JStr (fwr_Status r));
      ("decision", JStr (fwr_Decision r)); ("message", JStr (fwr_Message r));
      ("blockers", jstrs_nil (fwr_Blockers r)); ("fixture_project_write", JBool true);
      ("approval_gated", JBool true); ("execution_gate_status", JStr (eg_Status (fwr_Gate r)));
      ("project_read_attempted", JBool (fwr_ProjectReadAttempted r));
      ("project_read_allowed", JBool (fwr_ProjectReadAllowed r));
      ("project_write_attempted", JBool (fwr_ProjectWriteAttempted r));
      ("project_write_allowed", JBool (fwr_ProjectWriteAllowed r));
      ("execution_write_attempted", JBool (fwr_ExecutionWriteAttempted r));
      ("area_flow_artifact_written", JBool (fwr_AreaFlowArtifactWritten r));
      ("area_flow_execution_state_written", JBool (fwr_AreaFlowExecutionStateWritten r));
      ("engine_call_attempted", JBool (fwr_EngineCallAttempted r));
      ("commands_run", JBool (fwr_CommandsRun r));
      ("secrets_resolved", JBool (fwr_SecretsResolved r));
      ("network_used", JBool (fwr_NetworkUsed r)); ("task_claimed", JBool (fwr_TaskClaimed r));
      ("worker_started", JBool (fwr_WorkerStarted r));
      ("lease_created", JBool (fwr_LeaseCreated r));
      ("attempt_created", JBool (fwr_AttemptCreated r));
      ("artifact_created", JBool (fwr_ArtifactCreated r));
      ("write_set_passed", JBool (fwr_WriteSetPassed r));
      ("verification_passed", JBool (fwr_VerificationPassed r));
      ("rollback_attempted", JBool (fwr_RollbackAttempted r));
      ("rollback_verified", JBool (fwr_RollbackVerified r))].

Definition set_fwr_event (eventID : Z) (r : FixtureProjectWriteResult) :
    FixtureProjectWriteResult :=
  {| fwr_Project := fwr_Project r; fwr_Version := fwr_Version r; fwr_Run := fwr_Run r;
   fwr_Worker := fwr_Worker r; fwr_Lease := fwr_Lease r; fwr_Task := fwr_Task r;
   fwr_CopyAttempt := fwr_CopyAttempt r; fwr_VerifyAttempt := fwr_VerifyAttempt r;
   fwr_RollbackAttempt := fwr_RollbackAttempt r; fwr_WriteSetArtifact := fwr_WriteSetArtifact r;
   fwr_PreimageArtifact := fwr_PreimageArtifact r; fwr_Artifact := fwr_Artifact r;
   fwr_Gate := fwr_Gate r; fwr_TargetPath := fwr_TargetPath r;
   fwr_ExpectedBeforeSHA256 := fwr_ExpectedBeforeSHA256 r;
   fwr_ExpectedBeforeSize := fwr_ExpectedBeforeSize r; fwr_AfterSHA256 := fwr_AfterSHA256 r;
   fwr_AfterSize := fwr_AfterSize r; fwr_RestoredSHA256 := fwr_RestoredSHA256 r;
   fwr_RestoredSize := fwr_RestoredSize r; fwr_Status := fwr_Status r;
   fwr_Decision := fwr_Decision r; fwr_Message := fwr_Message r; fwr_Blockers := fwr_Blockers r;
   fwr_Created := fwr_Created r; fwr_IdempotencyKey := fwr_IdempotencyKey r;
   fwr_EventID := eventID; fwr_AuditEventID := fwr_AuditEventID r;
   fwr_ProjectReadAttempted := fwr_ProjectReadAttempted r;
   fwr_ProjectReadAllowed := fwr_ProjectReadAllowed r;
   fwr_ProjectWriteAttempted := fwr_ProjectWriteAttempted r;
   fwr_ProjectWriteAllowed := fwr_ProjectWriteAllowed r;
   fwr_ExecutionWriteAttempted := fwr_ExecutionWriteAttempted r;
   fwr_AreaFlowArtifactWritten := fwr_AreaFlowArtifactWritten r;
   fwr_AreaFlowExecutionStateWritten := fwr_AreaFlowExecutionStateWritten r;
   fwr_EngineCallAttempted := fwr_EngineCallAttempted r; fwr_CommandsRun := fwr_CommandsRun r;
   fwr_SecretsResolved := fwr_SecretsResolved r; fwr_NetworkUsed := fwr_NetworkUsed r;
   fwr_TaskClaimed := fwr_TaskClaimed r; fwr_WorkerStarted := fwr_WorkerStarted r;
   fwr_LeaseCreated := fwr_LeaseCreated r; fwr_AttemptCreated := fwr_AttemptCreated r;
   fwr_ArtifactCreated := fwr_ArtifactCreated r; fwr_WriteSetPassed := fwr_WriteSetPassed r;
   fwr_VerificationPassed := fwr_VerificationPassed r;
   fwr_RollbackAttempted := fwr_RollbackAttempted r;
   fwr_RollbackVerified := fwr_RollbackVerified r |}.

Definition set_fwr_audit (auditEventID : Z) (r : FixtureProjectWriteResult) :
    FixtureProjectWriteResult :=
  {| fwr_Project := fwr_Project r; fwr_Version := fwr_Version r; fwr_Run := fwr_Run r;
   fwr_Worker := fwr_Worker r; fwr_Lease := fwr_Lease r; fwr_Task := fwr_Task r;
   fwr_CopyAttempt := fwr_CopyAttempt r; fwr_VerifyAttempt := fwr_VerifyAttempt r;
   fwr_RollbackAttempt := fwr_RollbackAttempt r; fwr_WriteSetArtifact := fwr_WriteSetArtifact r;
   fwr_PreimageArtifact := fwr_PreimageArtifact r; fwr_Artifact := fwr_Artifact r;
   fwr_Gate := fwr_Gate r; fwr_TargetPath := fwr_TargetPath r;
   fwr_ExpectedBeforeSHA256 := fwr_ExpectedBeforeSHA256 r;
   fwr_ExpectedBeforeSize := fwr_ExpectedBeforeSize r; fwr_AfterSHA256 := fwr_AfterSHA256 r;
   fwr_AfterSize := fwr_AfterSize r; fwr_RestoredSHA256 := fwr_RestoredSHA256 r;
   fwr_RestoredSize := fwr_RestoredSize r; fwr_Status := fwr_Status r;
   fwr_Decision := fwr_Decision r; fwr_Message := fwr_Message r; fwr_Blockers := fwr_Blockers r;
   fwr_Created := fwr_Created r; fwr_IdempotencyKey := fwr_IdempotencyKey r;
   fwr_EventID := fwr_EventID r; fwr_AuditEventID := auditEventID;
   fwr_ProjectReadAttempted := fwr_ProjectReadAttempted r;
   fwr_ProjectReadAllowed := fwr_ProjectReadAllowed r;
   fwr_ProjectWriteAttempted := fwr_ProjectWriteAttempted r;
   fwr_ProjectWriteAllowed := fwr_ProjectWriteAllowed r;
   fwr_ExecutionWriteAttempted := fwr_ExecutionWriteAttempted r;
   fwr_AreaFlowArtifactWritten := fwr_AreaFlowArtifactWritten r;
   fwr_AreaFlowExecutionStateWritten := fwr_AreaFlowExecutionStateWritten r;
   fwr_EngineCallAttempted := fwr_EngineCallAttempted r; fwr_CommandsRun := fwr_CommandsRun r;
   fwr_SecretsResolved := fwr_SecretsResolved r; fwr_NetworkUsed := fwr_NetworkUsed r;
   fwr_TaskClaimed := fwr_TaskClaimed r; fwr_WorkerStarted := fwr_WorkerStarted r;
   fwr_LeaseCreated := fwr_LeaseCreated r; fwr_AttemptCreated := fwr_AttemptCreated r;
   fwr_ArtifactCreated := fwr_ArtifactCreated r; fwr_WriteSetPassed := fwr_WriteSetPassed r;
   fwr_VerificationPassed := fwr_VerificationPassed r;
   fwr_RollbackAttempted := fwr_RollbackAttempted r;
   fwr_RollbackVerified := fwr_RollbackVerified r |}.

Definition set_fwr_target (targetPath : string) (r : FixtureProjectWriteResult) :
    FixtureProjectWriteResult :=
  {| fwr_Project := fwr_Project r; fwr_Version := fwr_Version r; fwr_Run := fwr_Run r;
   fwr_Worker := fwr_Worker r; fwr_Lease := fwr_Lease r; fwr_Task := fwr_Task r;
   fwr_CopyAttempt := fwr_CopyAttempt r; fwr_VerifyAttempt := fwr_VerifyAttempt r;
   fwr_RollbackAttempt := fwr_RollbackAttempt r; fwr_WriteSetArtifact := fwr_WriteSetArtifact r;
   fwr_PreimageArtifact := fwr_PreimageArtifact r; fwr_Artifact := fwr_Artifact r;
   fwr_Gate := fwr_Gate r; fwr_TargetPath := targetPath;
   fwr_ExpectedBeforeSHA256 := fwr_ExpectedBeforeSHA256 r;
   fwr_ExpectedBeforeSize := fwr_ExpectedBeforeSize r; fwr_AfterSHA256 := fwr_AfterSHA256 r;
   fwr_AfterSize := fwr_AfterSize r; fwr_RestoredSHA256 := fwr_RestoredSHA256 r;
   fwr_RestoredSize := fwr_RestoredSize r; fwr_Status := fwr_Status r;
   fwr_Decision := fwr_Decision r; fwr_Message := fwr_Message r; fwr_Blockers := fwr_Blockers r;
   fwr_Created := fwr_Created r; fwr_IdempotencyKey := fwr_IdempotencyKey r;
   fwr_EventID := fwr_EventID r; fwr_AuditEventID := fwr_AuditEventID r;
   fwr_ProjectReadAttempted := fwr_ProjectReadAttempted r;
   fwr_ProjectReadAllowed := fwr_ProjectReadAllowed r;
   fwr_ProjectWriteAttempted := fwr_ProjectWriteAttempted r;
   fwr_ProjectWriteAllowed := fwr_ProjectWriteAllowed r;
   fwr_ExecutionWriteAttempted := fwr_ExecutionWriteAttempted r;
   fwr_AreaFlowArtifactWritten := fwr_AreaFlowArtifactWritten r;
   fwr_AreaFlowExecutionStateWritten := fwr_AreaFlowExecutionStateWritten r;
   fwr_EngineCallAttempted := fwr_EngineCallAttempted r; fwr_CommandsRun := fwr_CommandsRun r;
   fwr_SecretsResolved := fwr_SecretsResolved r; fwr_NetworkUsed := fwr_NetworkUsed r;
   fwr_TaskClaimed := fwr_TaskClaimed r; fwr_WorkerStarted := fwr_WorkerStarted r;
   fwr_LeaseCreated := fwr_LeaseCreated r; fwr_AttemptCreated := fwr_AttemptCreated r;
   fwr_ArtifactCreated := fwr_ArtifactCreated r; fwr_WriteSetPassed := fwr_WriteSetPassed r;
   fwr_VerificationPassed := fwr_VerificationPassed r;
   fwr_RollbackAttempted := fwr_RollbackAttempted r;
   fwr_RollbackVerified := fwr_RollbackVerified r |}.

Definition set_fwr_mismatch (writeSet : fixtureProjectWriteSet)
    (writeSetArtifact : ArtifactRecord) (r : FixtureProjectWriteResult) :
    FixtureProjectWriteResult :=
  {| fwr_Project := fwr_Project r; fwr_Version := fwr_Version r; fwr_Run := fwr_Run r;
   fwr_Worker := fwr_Worker r; fwr_Lease := fwr_Lease r; fwr_Task := fwr_Task r;
   fwr_CopyAttempt := fwr_CopyAttempt r; fwr_VerifyAttempt := fwr_VerifyAttempt r;
   fwr_RollbackAttempt := fwr_RollbackAttempt r; fwr_WriteSetArtifact := writeSetArtifact;
   fwr_PreimageArtifact := fwr_PreimageArtifact r; fwr_Artifact := fwr_Artifact r;
   fwr_Gate := fwr_Gate r; fwr_TargetPath := fwr_TargetPath r;
   fwr_ExpectedBeforeSHA256 := fws_ExpectedBeforeSHA256 writeSet;
   fwr_ExpectedBeforeSize := fws_ExpectedBeforeSize writeSet;
   fwr_AfterSHA256 := fws_AfterSHA256 writeSet; fwr_AfterSize := fws_AfterSize writeSet;
   fwr_RestoredSHA256 := fwr_RestoredSHA256 r; fwr_RestoredSize := fwr_RestoredSize r;
   fwr_Status := fwr_Status r; fwr_Decision := fwr_Decision r; fwr_Message := fwr_Message r;
   fwr_Blockers := fwr_Blockers r; fwr_Created := fwr_Created r;
   fwr_IdempotencyKey := fwr_IdempotencyKey r; fwr_EventID := fwr_EventID r;
   fwr_AuditEventID := fwr_AuditEventID r; fwr_ProjectReadAttempted := true;
   fwr_ProjectReadAllowed := true; fwr_ProjectWriteAttempted := fwr_ProjectWriteAttempted r;
   fwr_ProjectWriteAllowed := fwr_ProjectWriteAllowed r;
   fwr_ExecutionWriteAttempted := fwr_ExecutionWriteAttempted r;
   fwr_AreaFlowArtifactWritten := fwr_AreaFlowArtifactWritten r;
   fwr_AreaFlowExecutionStateWritten := fwr_AreaFlowExecutionStateWritten r;
   fwr_EngineCallAttempted := fwr_EngineCallAttempted r; fwr_CommandsRun := fwr_CommandsRun r;
   fwr_SecretsResolved := fwr_SecretsResolved r; fwr_NetworkUsed := fwr_NetworkUsed r;
   fwr_TaskClaimed := fwr_TaskClaimed r; fwr_WorkerStarted := fwr_WorkerStarted r;
   fwr_LeaseCreated := fwr_LeaseCreated r; fwr_AttemptCreated := fwr_AttemptCreated r;
   fwr_ArtifactCreated := fwr_ArtifactCreated r; fwr_WriteSetPassed := fwr_WriteSetPassed r;
   fwr_VerificationPassed := fwr_VerificationPassed r;
   fwr_RollbackAttempted := fwr_RollbackAttempted r;
   fwr_RollbackVerified := fwr_RollbackVerified r |}.

Definition deniedFixtureProjectWriteResult (record : Record_) (version : WorkflowVersion)
    (run : RunRecord) (worker : WorkerRecord) (gate : ExecutionApprovalGate)
    (o : FixtureProjectWriteOptions) (message : string) (blockers : list string)
  : FixtureProjectWriteResult :=
  {| fwr_Project := record; fwr_Version := version; fwr_Run := run; fwr_Worker := worker;
   fwr_Lease := no_lease; fwr_Task := no_task; fwr_CopyAttempt := no_attempt;
   fwr_VerifyAttempt := no_attempt; fwr_RollbackAttempt := no_attempt;
   fwr_WriteSetArtifact := no_artifact; fwr_PreimageArtifact := no_artifact;
   fwr_Artifact := no_artifact; fwr_Gate := gate; fwr_TargetPath := "";
   fwr_ExpectedBeforeSHA256 := ""; fwr_ExpectedBeforeSize := 0; fwr_AfterSHA256 := "";
   fwr_AfterSize := 0; fwr_RestoredSHA256 := ""; fwr_RestoredSize := 0; fwr_Status := "blocked";
   fwr_Decision := "denied"; fwr_Message := message; fwr_Blockers := blockers;
   fwr_Created := true; fwr_IdempotencyKey := fwo_IdempotencyKey o; fwr_EventID := 0;
   fwr_AuditEventID := 0; fwr_ProjectReadAttempted := false; fwr_ProjectReadAllowed := false;
   fwr_ProjectWriteAttempted := false; fwr_ProjectWriteAllowed := false;
   fwr_ExecutionWriteAttempted := false; fwr_AreaFlowArtifactWritten := false;
   fwr_AreaFlowExecutionStateWritten := false; fwr_EngineCallAttempted := false;
   fwr_CommandsRun := false; fwr_SecretsResolved := false; fwr_NetworkUsed := false;
   fwr_TaskClaimed := false; fwr_WorkerStarted := false; fwr_LeaseCreated := false;
   fwr_AttemptCreated := false; fwr_ArtifactCreated := false; fwr_WriteSetPassed := false;
   fwr_VerificationPassed := false; fwr_RollbackAttempted := false;
   fwr_RollbackVerified := false |}.

(** The caller's copy of the result keeps its zero event ids. *)
Definition finishDeniedFixtureProjectWrite (env : Env) (r : FixtureProjectWriteResult)
    (o : FixtureProjectWriteOptions) : M unit :=
  eventID <- insertFixtureProjectWriteEvent env r o ;;
  let r := set_fwr_event eventID r in
  auditEventID <- insertFixtureProjectWriteAuditEvent env r o ;;
  let r := set_fwr_audit auditEventID r in
  completeCommandRequestResponse env (p_ID (fwr_Project r)) "worker.fixture_project_write"
    (fwo_IdempotencyKey o) (fixtureProjectWriteCommandResponse r).

Definition loadFixtureProjectWriteByCommandResponse (record : Record_) (version : WorkflowVersion)
    (gate : ExecutionApprovalGate) (idempotencyKey : string) : M FixtureProjectWriteResult :=
  response <- loadCommandResponse (p_ID record) "worker.fixture_project_write" idempotencyKey ;;
  run <- loadRunForUpdate (metadataInt64 response "run_id") ;;
  worker <- load_if (metadataInt64 response "worker_id") no_worker
    (loadWorkerByID (p_ID record)) ;;
  task <- load_if (metadataInt64 response "run_task_id") no_task
    (loadRunTaskByID (p_ID record)) ;;
  lease <- load_if (metadataInt64 response "lease_id") no_lease (loadLeaseByID (p_ID record)) ;;
  copyAttempt <- load_if (metadataInt64 response "copy_attempt_id") no_attempt
    (loadRunAttemptByID (p_ID record)) ;;
  verifyAttempt <- load_if (metadataInt64 response "verify_attempt_id") no_attempt
    (loadRunAttemptByID (p_ID record)) ;;
  rollbackAttempt <- load_if (metadataInt64 response "rollback_attempt_id") no_attempt
    (loadRunAttemptByID (p_ID record)) ;;
  writeSetArtifact <- load_if (metadataInt64 response "write_set_artifact_id") no_artifact
    (loadArtifactByIDTx (p_ID record)) ;;
  preimageArtifact <- load_if (metadataInt64 response "preimage_artifact_id") no_artifact
    (loadArtifactByIDTx (p_ID record)) ;;
  artifact <- load_if (metadataInt64 response "artifact_id") no_artifact
                (loadArtifactByIDTx (p_ID record)) ;;
  ret {| fwr_Project := record; fwr_Version := version; fwr_Run := run; fwr_Worker := worker;
       fwr_Lease := lease; fwr_Task := task; fwr_CopyAttempt := copyAttempt;
       fwr_VerifyAttempt := verifyAttempt; fwr_RollbackAttempt := rollbackAttempt;
       fwr_WriteSetArtifact := writeSetArtifact; fwr_PreimageArtifact := preimageArtifact;
       fwr_Artifact := artifact; fwr_Gate := gate;
       fwr_TargetPath := metadataString response "target_path";
       fwr_ExpectedBeforeSHA256 := metadataString response "expected_before_sha256";
       fwr_ExpectedBeforeSize := metadataInt64 response "expected_before_size";
       fwr_AfterSHA256 := metadataString response "after_sha256";
       fwr_AfterSize := metadataInt64 response "after_size";
       fwr_RestoredSHA256 := metadataString response "restored_sha256";
       fwr_RestoredSize := metadataInt64 response "restored_size";
       fwr_Status := metadataString response "status";
       fwr_Decision := metadataString response "decision";
       fwr_Message := metadataString response "message";
       fwr_Blockers := metadataStringSlice response "blockers"; fwr_Created := false;
       fwr_IdempotencyKey := idempotencyKey; fwr_EventID := metadataInt64 response "event_id";
       fwr_AuditEventID := metadataInt64 response "audit_event_id";
       fwr_ProjectReadAttempted := metadataBool response "project_read_attempted";
       fwr_ProjectReadAllowed := metadataBool response "project_read_allowed";
       fwr_ProjectWriteAttempted := metadataBool response "project_write_attempted";
       fwr_ProjectWriteAllowed := metadataBool response "project_write_allowed";
       fwr_ExecutionWriteAttempted := metadataBool response "execution_write_attempted";
       fwr_AreaFlowArtifactWritten := metadataBool response "area_flow_artifact_written";
       fwr_AreaFlowExecutionStateWritten := metadataBool response
         "area_flow_execution_state_written";
       fwr_EngineCallAttempted := metadataBool response "engine_call_attempted";
       fwr_CommandsRun := metadataBool response "commands_run";
       fwr_SecretsResolved := metadataBool response "secrets_resolved";
       fwr_NetworkUsed := metadataBool response "network_used";
       fwr_TaskClaimed := metadataBool response "task_claimed";
       fwr_WorkerStarted := metadataBool response "worker_started";
       fwr_LeaseCreated := metadataBool response "lease_created";
       fwr_AttemptCreated := metadataBool response "attempt_created";
       fwr_ArtifactCreated := metadataBool response "artifact_created";
       fwr_WriteSetPassed := metadataBool response "write_set_passed";
       fwr_VerificationPassed := metadataBool response "verification_passed";
       fwr_RollbackAttempted := metadataBool response "rollback_attempted";
       fwr_RollbackVerified := metadataBool response "rollback_verified" |}.

(** ** The command

    A denial is committed and returned together with an error. *)

Definition fixtureWrite_outcome : Type := FixtureProjectWriteResult * option error.

Definition fixtureWriteDenied (env : Env) (r : FixtureProjectWriteResult)
    (o : FixtureProjectWriteOptions) (e : error)
  : M (res error fixtureWrite_outcome) :=
  finishDeniedFixtureProjectWrite env r o ;;;
  ret (Ok (r, Some e)).

(** From the changed target to the restored one: any error on the way runs
    the deferred restore. *)
Definition fixtureWriteVerify (env : Env) (os : WriteOS) (record : Record_)
    (o : FixtureProjectWriteOptions)
    (task : RunTaskRecord) (lease : LeaseRecord) (targetPath fullPath : string)
    (writeSet : fixtureProjectWriteSet) (writeSetArtifact : ArtifactRecord)
    (preimage : fixtureProjectFileImage) (preimageArtifact : ArtifactRecord)
  : M fixtureWriteDone :=
  restoring os fullPath (im_Content preimage)
   (afterImage <- readFixtureProjectFileImage os fullPath ;;
    copyAttempt <- insertFixtureProjectWriteAttempt env record task lease "copy" "passed"
      [("target_path", JStr targetPath);
       ("expected_before_sha256", JStr (fws_ExpectedBeforeSHA256 writeSet));
       ("after_sha256", JStr (im_SHA256 afterImage));
       ("after_size", JInt (im_SizeBytes afterImage));
       ("preimage_artifact_id", JInt (ar_ID preimageArtifact));
       ("write_set_artifact_id", JInt (ar_ID writeSetArtifact))] o ;;
    let verifyStatus :=
      if (im_SHA256 afterImage <>s fws_AfterSHA256 writeSet)
         || negb (im_SizeBytes afterImage =? fws_AfterSize writeSet)
      then "failed" else "passed" in
    verifyAttempt <- insertFixtureProjectWriteAttempt env record task lease "verify" verifyStatus
      [("target_path", JStr targetPath); ("after_sha256", JStr (im_SHA256 afterImage));
       ("after_size", JInt (im_SizeBytes afterImage));
       ("expected_sha256", JStr (fws_AfterSHA256 writeSet));
       ("expected_size", JInt (fws_AfterSize writeSet))] o ;;
    if verifyStatus <>s "passed" then fail (ErrText "fixture project write verify failed")
    else if im_SHA256 afterImage <>s fws_AfterSHA256 writeSet
    then fail (ErrText "fixture project write after hash mismatch")
    else
      write_file os WriteRollback fullPath (im_Content preimage)
        "rollback fixture project target" ;;;
      restoredImage <- readFixtureProjectFileImage os fullPath ;;
      if negb (same_image restoredImage preimage)
      then fail (ErrText "fixture project rollback did not restore expected hash")
      else ret (MkFixtureWriteDone writeSet preimage afterImage restoredImage writeSetArtifact
                  preimageArtifact copyAttempt verifyAttempt)).

(** The restored target on: records only *)
Definition fixtureWriteFinish (env : Env) (record : Record_) (o : FixtureProjectWriteOptions)
    (gate : ExecutionApprovalGate) (run : RunRecord) (version : WorkflowVersion)
    (worker : WorkerRecord) (task : RunTaskRecord) (lease : LeaseRecord) (targetPath : string)
    (d : fixtureWriteDone) : M (res error fixtureWrite_outcome) :=
  let writeSet := fd_writeSet d in
  let afterImage := fd_afterImage d in
  let restoredImage := fd_restoredImage d in
  let writeSetArtifact := fd_writeSetArtifact d in
  let preimageArtifact := fd_preimageArtifact d in
  let copyAttempt := fd_copyAttempt d in
  let verifyAttempt := fd_verifyAttempt d in
  rollbackAttempt <- insertFixtureProjectWriteAttempt env record task lease "rollback" "passed"
    [("target_path", JStr targetPath); ("restored_sha256", JStr (im_SHA256 restoredImage));
     ("restored_size", JInt (im_SizeBytes restoredImage));
     ("preimage_artifact", JInt (ar_ID preimageArtifact))] o ;;
  reportArtifact <- writeAndInsertFixtureProjectWriteReport env record version run worker task
    lease gate d rollbackAttempt o ;;
  released <- releaseLeaseForWorker env (p_ID record) worker (l_ID lease) "completed"
                (Some (mk [("fixture_project_write", JBool true);
                           ("target_path", JStr targetPath);
                           ("attempt_ids", jints
                             ([at_ID copyAttempt; at_ID verifyAttempt; at_ID rollbackAttempt]));
                           ("artifact_id", JInt (ar_ID reportArtifact))])) ;;
  updateRunTaskStatus env (t_ID task) "rollback_verified" ;;;
  updated <- updateFixtureProjectWriteRunAfterTask env run o (ar_ID reportArtifact)
    (at_ID rollbackAttempt) targetPath writeSet restoredImage ;;
  let r :=
    {| fwr_Project := record; fwr_Version := version; fwr_Run := updated; fwr_Worker := worker;
     fwr_Lease := released; fwr_Task := (task_marked "rollback_verified" task);
     fwr_CopyAttempt := copyAttempt; fwr_VerifyAttempt := verifyAttempt;
     fwr_RollbackAttempt := rollbackAttempt; fwr_WriteSetArtifact := writeSetArtifact;
     fwr_PreimageArtifact := preimageArtifact; fwr_Artifact := reportArtifact; fwr_Gate := gate;
     fwr_TargetPath := targetPath;
     fwr_ExpectedBeforeSHA256 := fws_ExpectedBeforeSHA256 writeSet;
     fwr_ExpectedBeforeSize := fws_ExpectedBeforeSize writeSet;
     fwr_AfterSHA256 := im_SHA256 afterImage; fwr_AfterSize := im_SizeBytes afterImage;
     fwr_RestoredSHA256 := im_SHA256 restoredImage;
     fwr_RestoredSize := im_SizeBytes restoredImage; fwr_Status := "rollback_verified";
     fwr_Decision := "allowed"; fwr_Message := "fixture project write verified and rolled back";
     fwr_Blockers := []; fwr_Created := true; fwr_IdempotencyKey := fwo_IdempotencyKey o;
     fwr_EventID := 0; fwr_AuditEventID := 0; fwr_ProjectReadAttempted := true;
     fwr_ProjectReadAllowed := true; fwr_ProjectWriteAttempted := true;
     fwr_ProjectWriteAllowed := true; fwr_ExecutionWriteAttempted := false;
     fwr_AreaFlowArtifactWritten := true; fwr_AreaFlowExecutionStateWritten := true;
     fwr_EngineCallAttempted := false; fwr_CommandsRun := false; fwr_SecretsResolved := false;
     fwr_NetworkUsed := false; fwr_TaskClaimed := true; fwr_WorkerStarted := false;
     fwr_LeaseCreated := true; fwr_AttemptCreated := true; fwr_ArtifactCreated := true;
     fwr_WriteSetPassed := true; fwr_VerificationPassed := true; fwr_RollbackAttempted := true;
     fwr_RollbackVerified := true |} in
  eventID <- insertFixtureProjectWriteEvent env r o ;;
  let r := set_fwr_event eventID r in
  auditEventID <- insertFixtureProjectWriteAuditEvent env r o ;;
  let r := set_fwr_audit auditEventID r in
  completeCommandRequestResponse env (p_ID record) "worker.fixture_project_write"
    (fwo_IdempotencyKey o)
    (fixtureProjectWriteCommandResponse r) ;;;
  ret (Ok (r, None)).

Definition fixtureWriteClaim (env : Env) (os : WriteOS) (record : Record_)
    (o : FixtureProjectWriteOptions)
    (gate : ExecutionApprovalGate) (run : RunRecord) (version : WorkflowVersion)
    (worker : WorkerRecord) (task : RunTaskRecord) (targetPath fullPath : string)
    (writeSet : fixtureProjectWriteSet) (writeSetArtifact : ArtifactRecord)
    (preimage : fixtureProjectFileImage) : M (res error fixtureWrite_outcome) :=
  lease <- insertLeaseForTask env (p_ID record) worker task "fixture_project_write"
             (fwo_AllowedCapabilities o)
             (mk [("run_id", JInt (t_RunID task)); ("run_task_id", JInt (t_ID task));
                  ("task_key", JStr (t_TaskKey task)); ("task_kind", JStr (t_TaskKind task));
                  ("target_path", JStr targetPath); ("fixture_project_write", JBool true);
                  ("approval_gated", JBool true)])
             (fwo_Metadata o) (fwo_LeaseTimeoutSeconds o) ;;
  updateRunTaskStatus env (t_ID task) "leased" ;;;
  preimageArtifact <- writeAndInsertFixtureProjectPreimageArtifact env record version run task
    targetPath preimage o ;;
  write_file os WriteTarget fullPath (fws_Content writeSet) "write fixture project target" ;;;
  d <- fixtureWriteVerify env os record o task lease targetPath fullPath writeSet writeSetArtifact
         preimage preimageArtifact ;;
  fixtureWriteFinish env record o gate run version worker task lease targetPath d.

(** A target the caller may write to: its write set, then its image *)
Definition fixtureWriteTarget (env : Env) (os : WriteOS) (record : Record_)
    (o : FixtureProjectWriteOptions)
    (gate : ExecutionApprovalGate) (run : RunRecord) (version : WorkflowVersion)
    (worker : WorkerRecord) (task : RunTaskRecord) (targetPath fullPath : string)
  : M (res error fixtureWrite_outcome) :=
  let denied := deniedFixtureProjectWriteResult record version run worker gate o in
  loaded <- loadFixtureProjectWriteSet os record
    (metadataInt64 (t_Metadata task) "write_set_artifact_id") ;;
  let '(writeSet, writeSetArtifact) := loaded in
  if fws_TargetPath writeSet <>s targetPath
  then fail (ErrText "write-set target path mismatch")
  else
    preimage <- readFixtureProjectFileImage os fullPath ;;
    if (im_SHA256 preimage <>s fws_ExpectedBeforeSHA256 writeSet)
       || negb (im_SizeBytes preimage =? fws_ExpectedBeforeSize writeSet)
    then
      let blockers := ["expected-before hash or size does not match current fixture file"] in
      fixtureWriteDenied env
        (set_fwr_mismatch writeSet writeSetArtifact
           (set_fwr_target targetPath (denied "expected-before mismatch" blockers))) o
        (ErrFixtureProjectWriteBlocked blockers)
    else
      fixtureWriteClaim env os record o gate run version worker task targetPath fullPath writeSet
        writeSetArtifact preimage.

(** The task's target: may it be read and written, and is its path safe *)
Definition fixtureWriteTask (env : Env) (os : WriteOS) (record : Record_)
    (o : FixtureProjectWriteOptions)
    (gate : ExecutionApprovalGate) (run : RunRecord) (version : WorkflowVersion)
    (worker : WorkerRecord) (task : RunTaskRecord) : M (res error fixtureWrite_outcome) :=
  let denied := deniedFixtureProjectWriteResult record version run worker gate o in
  let targetPath := metadataString (t_Metadata task) "target_path" in
  db <- get_db ;;
  match canProjectPathInTx (db_project_permissions db) (p_ID record) "read_project"
          targetPath with
  | (false, reason) =>
      let blockers := ["target path is not readable: " +:+ reason] in
      fixtureWriteDenied env (set_fwr_target targetPath (denied "read path denied" blockers)) o
        (ErrFixtureProjectWriteBlocked blockers)
  | (true, _) =>
  match canProjectPathInTx (db_project_permissions db) (p_ID record) "write_code"
          targetPath with
  | (false, reason) =>
      let blockers := ["target path is not writable: " +:+ reason] in
      fixtureWriteDenied env (set_fwr_target targetPath (denied "write path denied" blockers)) o
        (ErrFixtureProjectWriteBlocked blockers)
  | (true, _) =>
  safe <- (fun w => (Ok (safeFixtureProjectWritePath os (p_RootPath record) targetPath w), w)) ;;
  match safe with
  | Err e =>
      let blockers := ["target path is unsafe: " +:+ e] in
      fixtureWriteDenied env (set_fwr_target targetPath (denied "write path unsafe" blockers)) o
        (ErrFixtureProjectWriteBlocked blockers)
  | Ok fullPath =>
      fixtureWriteTarget env os record o gate run version worker task targetPath fullPath
  end
  end
  end.

Definition fixtureWriteBody (env : Env) (os : WriteOS) (record : Record_)
    (o : FixtureProjectWriteOptions)
    (gate : ExecutionApprovalGate) (run : RunRecord) (version : WorkflowVersion)
    (worker : WorkerRecord) : M (res error fixtureWrite_outcome) :=
  let denied := deniedFixtureProjectWriteResult record version run worker gate o in
  if eg_Status gate <>s "pass" then
    fixtureWriteDenied env (denied "fixture project write gate blocked" (eg_Blockers gate)) o
      (ErrFixtureProjectWriteBlocked (eg_Blockers gate))
  else if negb (isFixtureProjectRecord record) then
    fixtureWriteDenied env
      (denied "project is not marked as fixture"
         ["fixture_project_write requires project key or kind to contain fixture"]) o
      (ErrFixtureProjectWriteBlocked ["project is not fixture scoped"])
  else match missingWorkerCapabilities (w_Capabilities worker) (fwo_AllowedCapabilities o) with
  | (_ :: _) as missing =>
      fixtureWriteDenied env
        (denied "worker capability denied"
           ["worker missing required capabilities: " +:+ strings_join "," missing]) o
        (ErrWorkerCapabilityDenied missing)
  | [] =>
      db <- get_db ;;
      match canProjectCapabilityInTx (db_project_permissions db) (p_ID record)
              "write_artifacts" with
      | (false, reason) =>
          let blockers := ["project write_artifacts capability denied: " +:+ reason] in
          fixtureWriteDenied env (denied "project artifact write denied" blockers) o
            (ErrFixtureProjectWriteBlocked blockers)
      | (true, _) =>
          next <- nextFixtureProjectWriteTaskForLease env (p_ID record) (r_ID run) ;;
          match next with
          | None =>
              fixtureWriteDenied env
                (denied "no queued fixture project write task"
                   ["no queued or needs_recovery fixture project write task is available"]) o
                ErrNoLeaseAvailable
          | Some task => fixtureWriteTask env os record o gate run version worker task
          end
      end
  end.

Definition fixtureWriteTx (env : Env) (os : WriteOS) (record : Record_)
    (o : FixtureProjectWriteOptions) (requestHash : string) : M
    (res error fixtureWrite_outcome) :=
  gate <- ExecutionApprovalGate_ (fun _ => None) (fwo_RunID o)
            (MkGateOptions (fwo_AllowedCapabilities o) true "fixture_project_write_gate") ;;
  run <- loadRunForUpdate (fwo_RunID o) ;;
  if negb (r_ProjectID run =? p_ID record) then fail ErrRunNotFound
  else
    version <- workflowVersionByIDTx (p_ID record) (r_WorkflowVersionID run) ;;
    worker <- loadWorkerForUpdate (p_ID record) (fwo_WorkerKey o) ;;
    with_command env (p_ID record) "worker.fixture_project_write" (fwo_IdempotencyKey o)
      requestHash
      (r <- loadFixtureProjectWriteByCommandResponse record version gate (fwo_IdempotencyKey o) ;;
       ret (Ok (r, None)))
      (fixtureWriteBody env os record o gate run version worker).

Definition set_fwo_key (key : string) (o : FixtureProjectWriteOptions) :
    FixtureProjectWriteOptions :=
  {| fwo_WorkerKey := fwo_WorkerKey o; fwo_RunID := fwo_RunID o;
   fwo_AllowedCapabilities := fwo_AllowedCapabilities o;
   fwo_LeaseTimeoutSeconds := fwo_LeaseTimeoutSeconds o; fwo_Metadata := fwo_Metadata o;
   fwo_IdempotencyKey := key; fwo_Actor := fwo_Actor o; fwo_Reason := fwo_Reason o |}.

Definition fixtureWriteOptions (record : Record_) (options : FixtureProjectWriteOptions)
  : FixtureProjectWriteOptions :=
  let o := normalizeFixtureProjectWriteOptions options in
  if fwo_IdempotencyKey o =s ""
  then set_fwo_key (fixtureProjectWriteIdempotencyKey record o
    (fixtureProjectWriteRequestHash record o)) o
  else o.

Definition WriteFixtureProject (env : Env) (os : WriteOS) (record : Record_)
    (options : FixtureProjectWriteOptions) (w : World) : res error fixtureWrite_outcome * World :=
  if fwo_RunID options <=? 0 then (Err (ErrText "run id is required"), w)
  else
    transact (fixtureWriteTx env os record (fixtureWriteOptions record options)
                (fixtureProjectWriteRequestHash record
                  (normalizeFixtureProjectWriteOptions options))) w.

#[export] Hint Unfold insertFixtureProjectWriteRun insertFixtureProjectWriteTask
   writeAndInsertFixtureProjectWriteSetArtifact insertFixtureProjectWriteQueueEvent
   insertFixtureProjectWriteQueueAuditEvent loadFixtureProjectWriteQueueByCommandResponse
   queueFixtureWriteBody queueFixtureWriteTx nextFixtureProjectWriteTaskForLease
   remainingFixtureProjectWriteTaskCount loadFixtureProjectWriteSet
   writeAndInsertFixtureProjectPreimageArtifact insertFixtureProjectWriteAttempt
   writeAndInsertFixtureProjectWriteReport updateFixtureProjectWriteRunAfterTask
   insertFixtureProjectWriteEvent insertFixtureProjectWriteAuditEvent
   finishDeniedFixtureProjectWrite loadFixtureProjectWriteByCommandResponse fixtureWriteDenied
   fixtureWriteFinish fixtureWriteClaim fixtureWriteTarget fixtureWriteTask fixtureWriteBody
   fixtureWriteTx : prims.
