(* ===== verification/ManagedWrite.v ===== *)
(** * Managed generated writes

    [internal/project/managed_generated_write_apply.go]: queueing a run that
    rewrites one file below the generated-only prefixes of a fixture or
    temporary project, and the command a worker executes it with.  It goes the
    way of the fixture project write, with the prefixes and the
    [write_generated] permission in front. *)

From stdpp Require Import base list strings numbers gmap.
From Stdlib Require Import ZArith Lia Ascii String.
From S2P Require Import Prelude GoString Sha256 Json JsonText Schema Tx Command Capability.
From S2P Require Import History Worker Lease FilePath Permission RunOnce RunControl Profile.
From S2P Require Import Workflow Gates Runner EnginePreview ExecutionGate ReadOnlyVerify.
From S2P Require Import ProjectFile.

(** ** Options and results *)

Record ManagedGeneratedWriteQueueOptions := MkManagedGeneratedWriteQueueOptions {
  mgq_TargetPath : string; mgq_Content : string; mgq_ExpectedBeforeSHA256 : string;
  mgq_ExpectedBeforeSize : Z; mgq_IdempotencyKey : string; mgq_Actor : string;
  mgq_Reason : string }.

Record ManagedGeneratedWriteQueueResult := MkManagedGeneratedWriteQueueResult {
  mgqr_Project : Record_; mgqr_Version : WorkflowVersion; mgqr_Run : RunRecord;
  mgqr_Task : RunTaskRecord; mgqr_WriteSetArtifact : ArtifactRecord; mgqr_TargetPath : string;
  mgqr_ExpectedBeforeSHA256 : string; mgqr_ExpectedBeforeSize : Z; mgqr_AfterSHA256 : string;
  mgqr_AfterSize : Z; mgqr_Created : bool; mgqr_IdempotencyKey : string; mgqr_EventID : Z;
  mgqr_AuditEventID : Z; mgqr_GeneratedOnly : bool; mgqr_GeneratedOnlyApplyOpen : bool;
  mgqr_ProjectReadAttempted : bool; mgqr_ProjectWriteAttempted : bool;
  mgqr_ExecutionWriteAttempted : bool; mgqr_AreaFlowArtifactWritten : bool;
  mgqr_AreaFlowExecutionStateWritten : bool; mgqr_EngineCallAttempted : bool;
  mgqr_CommandsRun : bool; mgqr_SecretsResolved : bool; mgqr_NetworkUsed : bool }.

Record ManagedGeneratedWriteOptions := MkManagedGeneratedWriteOptions {
  mgo_WorkerKey : string; mgo_RunID : Z; mgo_AllowedCapabilities : list string;
  mgo_LeaseTimeoutSeconds : Z; mgo_Metadata : option jmap; mgo_IdempotencyKey : string;
  mgo_Actor : string; mgo_Reason : string }.

Record ManagedGeneratedWriteResult := MkManagedGeneratedWriteResult {
  mgr_Project : Record_; mgr_Version : WorkflowVersion; mgr_Run : RunRecord;
  mgr_Worker : WorkerRecord; mgr_Lease : LeaseRecord; mgr_Task : RunTaskRecord;
  mgr_CopyAttempt : RunAttemptRecord; mgr_VerifyAttempt : RunAttemptRecord;
  mgr_RollbackAttempt : RunAttemptRecord; mgr_WriteSetArtifact : ArtifactRecord;
  mgr_PreimageArtifact : ArtifactRecord; mgr_Artifact : ArtifactRecord;
  mgr_Gate : ExecutionApprovalGate; mgr_TargetPath : string; mgr_ExpectedBeforeSHA256 : string;
  mgr_ExpectedBeforeSize : Z; mgr_AfterSHA256 : string; mgr_AfterSize : Z;
  mgr_RestoredSHA256 : string; mgr_RestoredSize : Z; mgr_Status : string; mgr_Decision : string;
  mgr_Message : string; mgr_Blockers : list string; mgr_Created : bool;
  mgr_IdempotencyKey : string; mgr_EventID : Z; mgr_AuditEventID : Z; mgr_GeneratedOnly : bool;
  mgr_GeneratedOnlyApplyOpen : bool; mgr_ProjectReadAttempted : bool;
  mgr_ProjectReadAllowed : bool; mgr_ProjectWriteAttempted : bool;
  mgr_ProjectWriteAllowed : bool; mgr_ExecutionWriteAttempted : bool;
  mgr_AreaFlowArtifactWritten : bool; mgr_AreaFlowExecutionStateWritten : bool;
  mgr_EngineCallAttempted : bool; mgr_CommandsRun : bool; mgr_SecretsResolved : bool;
  mgr_NetworkUsed : bool; mgr_TaskClaimed : bool; mgr_WorkerStarted : bool;
  mgr_LeaseCreated : bool; mgr_AttemptCreated : bool; mgr_ArtifactCreated : bool;
  mgr_WriteSetPassed : bool; mgr_VerificationPassed : bool; mgr_RollbackAttempted : bool;
  mgr_RollbackVerified : bool }.

(** *** Write sets

    The struct, its fields as [encoding/json] finds them, its text and the
    struct read back from a text *)

Record managedGeneratedWriteSet := MkmanagedGeneratedWriteSet {
  mgs_Operation : string; mgs_TargetPath : string; mgs_TargetPathKind : string;
  mgs_ExpectedBeforeSHA256 : string; mgs_ExpectedBeforeSize : Z; mgs_AfterSHA256 : string;
  mgs_AfterSize : Z; mgs_Content : string; mgs_PermissionCapabilities : list string;
  mgs_AllowedGeneratedPrefixes : list string; mgs_GeneratedOnly : bool;
  mgs_ApprovalRequired : bool; mgs_RollbackMode : string; mgs_FixtureOrTempProjectOnly : bool;
  mgs_RealAreaMatrixWriteOpened : bool }.

Definition managedGeneratedWriteSetFields : list (string * field_kind) :=
  [("operation", KString); ("target_path", KString); ("target_path_kind", KString);
   ("expected_before_sha256", KString); ("expected_before_size", KInt64);
   ("after_sha256", KString); ("after_size", KInt64); ("content", KString);
   ("permission_capabilities", KStrings); ("allowed_generated_prefixes", KStrings);
   ("generated_only", KBool); ("approval_required", KBool); ("rollback_mode", KString);
   ("fixture_or_temp_project_only", KBool); ("real_areamatrix_write_opened", KBool)].

Definition managedGeneratedWriteSetText (s : managedGeneratedWriteSet) : string :=
  marshal_indent (JObj
    [("operation", JStr (mgs_Operation s)); ("target_path", JStr (mgs_TargetPath s));
     ("target_path_kind", JStr (mgs_TargetPathKind s));
     ("expected_before_sha256", JStr (mgs_ExpectedBeforeSHA256 s));
     ("expected_before_size", JInt (mgs_ExpectedBeforeSize s));
     ("after_sha256", JStr (mgs_AfterSHA256 s)); ("after_size", JInt (mgs_AfterSize s));
     ("content", JStr (mgs_Content s));
     ("permission_capabilities", jstrs (mgs_PermissionCapabilities s));
     ("allowed_generated_prefixes", jstrs (mgs_AllowedGeneratedPrefixes s));
     ("generated_only", JBool (mgs_GeneratedOnly s));
     ("approval_required", JBool (mgs_ApprovalRequired s));
     ("rollback_mode", JStr (mgs_RollbackMode s));
     ("fixture_or_temp_project_only", JBool (mgs_FixtureOrTempProjectOnly s));
     ("real_areamatrix_write_opened", JBool (mgs_RealAreaMatrixWriteOpened s))]).

Definition parseManagedGeneratedWriteSet (content : string) : option managedGeneratedWriteSet :=
  match unmarshal_struct managedGeneratedWriteSetFields content with
  | None => None
  | Some m =>
      let fields := managedGeneratedWriteSetFields in
      Some {| mgs_Operation := string_field fields "operation" m;
            mgs_TargetPath := string_field fields "target_path" m;
            mgs_TargetPathKind := string_field fields "target_path_kind" m;
            mgs_ExpectedBeforeSHA256 := string_field fields "expected_before_sha256" m;
            mgs_ExpectedBeforeSize := int64_field fields "expected_before_size" m;
            mgs_AfterSHA256 := string_field fields "after_sha256" m;
            mgs_AfterSize := int64_field fields "after_size" m;
            mgs_Content := string_field fields "content" m;
            mgs_PermissionCapabilities := strings_field fields "permission_capabilities" m;
            mgs_AllowedGeneratedPrefixes := strings_field fields "allowed_generated_prefixes" m;
            mgs_GeneratedOnly := bool_field fields "generated_only" m;
            mgs_ApprovalRequired := bool_field fields "approval_required" m;
            mgs_RollbackMode := string_field fields "rollback_mode" m;
            mgs_FixtureOrTempProjectOnly := bool_field fields "fixture_or_temp_project_only" m;
            mgs_RealAreaMatrixWriteOpened := bool_field fields "real_areamatrix_write_opened" m |}
  end.

(** ** Requests *)

Definition managedGeneratedWriteQueueRequestHash (record : Record_) (version : WorkflowVersion)
    (o : ManagedGeneratedWriteQueueOptions) : string :=
  let '(afterSHA, afterSize) := hashBytes (mgq_Content o) in
  request_hash
    [("command_type", JStr "run.managed_generated_write_queue");
     ("project_id", JInt (p_ID record)); ("project_key", JStr (p_Key record));
     ("version_id", JInt (v_ID version)); ("display_label", JStr (v_DisplayLabel version));
     ("target_path", JStr (mgq_TargetPath o));
     ("expected_before_sha256", JStr (mgq_ExpectedBeforeSHA256 o));
     ("expected_before_size", JInt (mgq_ExpectedBeforeSize o)); ("after_sha256", JStr afterSHA);
     ("after_size", JInt afterSize); ("content_sha256", JStr afterSHA);
     ("content_size", JInt afterSize); ("generated_only", JBool true);
     ("rollback_drill_required", JBool true); ("actor", JStr (mgq_Actor o));
     ("reason", JStr (mgq_Reason o))].

Definition managedGeneratedWriteRequestHash (record : Record_)
    (o : ManagedGeneratedWriteOptions) : string :=
  request_hash
    [("command_type", JStr "worker.managed_generated_write");
     ("project_id", JInt (p_ID record)); ("project_key", JStr (p_Key record));
     ("worker_key", JStr (mgo_WorkerKey o)); ("run_id", JInt (mgo_RunID o));
     ("allowed_capabilities", jstrs (mgo_AllowedCapabilities o));
     ("lease_timeout_seconds", JInt (mgo_LeaseTimeoutSeconds o));
     ("metadata", JObj (map_or_empty (mgo_Metadata o))); ("actor", JStr (mgo_Actor o));
     ("reason", JStr (mgo_Reason o)); ("generated_only", JBool true)].

Definition managedGeneratedWriteQueueIdempotencyKey (record : Record_) (version : WorkflowVersion)
    (requestHash : string) : string :=
  "run.managed_generated_write_queue:" +:+ p_Key record +:+ ":" +:+ v_DisplayLabel version +:+ ":"
  +:+ commandHashPrefix requestHash.

Definition managedGeneratedWriteIdempotencyKey (record : Record_)
    (o : ManagedGeneratedWriteOptions)
    (requestHash : string) : string :=
  "worker.managed_generated_write:" +:+ p_Key record +:+ ":" +:+ mgo_WorkerKey o +:+ ":"
  +:+ fmt_d (mgo_RunID o) +:+ ":" +:+ commandHashPrefix requestHash.

(** ** Normalisation *)

Definition normalizeManagedGeneratedWriteQueueOptions (record : Record_)
    (version : WorkflowVersion)
    (o : ManagedGeneratedWriteQueueOptions) : ManagedGeneratedWriteQueueOptions :=
  let o :=
    MkManagedGeneratedWriteQueueOptions (normalizeProjectRelativePath (mgq_TargetPath o))
      (mgq_Content o)
      (to_lower (trim_space (mgq_ExpectedBeforeSHA256 o))) (mgq_ExpectedBeforeSize o)
      (trim_space (mgq_IdempotencyKey o))
      (trim_default "local-user" (mgq_Actor o))
      (trim_default "queue managed generated write run" (mgq_Reason o)) in
  if (mgq_IdempotencyKey o =s "") && (mgq_TargetPath o <>s "")
     && (mgq_ExpectedBeforeSHA256 o <>s "")
  then MkManagedGeneratedWriteQueueOptions (mgq_TargetPath o) (mgq_Content o)
         (mgq_ExpectedBeforeSHA256 o) (mgq_ExpectedBeforeSize o)
         (managedGeneratedWriteQueueIdempotencyKey record version
            (managedGeneratedWriteQueueRequestHash record version o)) (mgq_Actor o) (mgq_Reason o)
  else o.

Definition normalizeManagedGeneratedWriteOptions (o : ManagedGeneratedWriteOptions) :
    ManagedGeneratedWriteOptions :=
  {| mgo_WorkerKey := trim_space (mgo_WorkerKey o); mgo_RunID := mgo_RunID o;
     mgo_AllowedCapabilities :=
       normalizeCapabilityList
         (match mgo_AllowedCapabilities o with
          | [] => ["read_project"; "write_artifacts"; "write_generated"]
          | l => l end);
     mgo_LeaseTimeoutSeconds :=
       if mgo_LeaseTimeoutSeconds o <=? 0 then 300 else mgo_LeaseTimeoutSeconds o;
     mgo_Metadata := Some (map_or_empty (mgo_Metadata o));
     mgo_IdempotencyKey := trim_space (mgo_IdempotencyKey o);
     mgo_Actor := trim_default "local-user" (mgo_Actor o);
     mgo_Reason := trim_default "approval-gated managed generated write" (mgo_Reason o) |}.

(** ** Queueing a run *)

Definition insertManagedGeneratedWriteRun (env : Env) (record : Record_)
    (version : WorkflowVersion)
    (o : ManagedGeneratedWriteQueueOptions) : M RunRecord :=
  let '(afterSHA, afterSize) := hashBytes (mgq_Content o) in
  r <- insert_row (fun id =>
         MkRun id (p_ID record) (v_ID version) "managed_generated_write" "execution" "queued"
           "medium"
           "pause" false
           (mk [("managed_generated_write", JBool true); ("generated_only", JBool true);
                ("fixture_or_temp_project_only", JBool true); ("approval_gated", JBool true);
                ("target_path", JStr (mgq_TargetPath o));
                ("expected_before_sha256", JStr (mgq_ExpectedBeforeSHA256 o));
                ("expected_before_size", JInt (mgq_ExpectedBeforeSize o));
                ("after_sha256", JStr afterSHA); ("after_size", JInt afterSize);
                ("project_read_attempted", JBool false);
                ("project_write_attempted", JBool false);
                ("project_write_allowed", JBool false); ("rollback_drill_required", JBool true);
                ("rollback_verified", JBool false); ("area_flow_artifact_written", JBool true);
                ("area_flow_execution_state", JStr "queued");
                ("execution_write_attempted", JBool false);
                ("engine_call_attempted", JBool false); ("commands_run", JBool false);
                ("secrets_resolved", JBool false); ("network_used", JBool false);
                ("real_areamatrix_write_opened", JBool false)])
           (mk [("phase", JStr "v0.6p"); ("managed_generated_write", JBool true);
                ("generated_only", JBool true); ("approval_gated", JBool true);
                ("target_path", JStr (mgq_TargetPath o)); ("actor", JStr (mgq_Actor o));
                ("reason", JStr (mgq_Reason o))])
           (env_now env) None) ;;
  ret (scanRun r).

Definition insertManagedGeneratedWriteTask (env : Env) (record : Record_)
    (version : WorkflowVersion)
    (run : RunRecord) (o : ManagedGeneratedWriteQueueOptions) : M RunTaskRecord :=
  let '(afterSHA, afterSize) := hashBytes (mgq_Content o) in
  t <- insert_row (fun id =>
         MkRunTask id (p_ID record) (v_ID version) 0 (r_ID run)
           (v_DisplayLabel version +:+ ":managed-generated-write:" +:+ mgq_TargetPath o)
           "managed_generated_write_task" "queued" "medium" 1
           (mk [("phase", JStr "v0.6p"); ("managed_generated_write", JBool true);
                ("generated_only", JBool true); ("approval_gated", JBool true);
                ("operation", JStr "modify"); ("target_path", JStr (mgq_TargetPath o));
                ("target_path_kind", JStr "generated_file");
                ("expected_before_sha256", JStr (mgq_ExpectedBeforeSHA256 o));
                ("expected_before_size", JInt (mgq_ExpectedBeforeSize o));
                ("after_sha256", JStr afterSHA); ("after_size", JInt afterSize);
                ("actor", JStr (mgq_Actor o)); ("reason", JStr (mgq_Reason o))])
           (env_now env) (env_now env)) ;;
  ret (scanRunTask t).

(** The artifact path of one of the files of a run *)
Definition managedWriteFile (version : WorkflowVersion) (run : RunRecord) (task : RunTaskRecord)
    (name : string) : string :=
  path_join ["versions"; v_DisplayLabel version; "managed-generated-write";
             "run-" +:+ fmt_d (r_ID run) +:+ "-task-" +:+ fmt_d (t_ID task) +:+ "-" +:+ name].

Definition managedWriteSet (o : ManagedGeneratedWriteQueueOptions) : managedGeneratedWriteSet :=
  let '(afterSHA, afterSize) := hashBytes (mgq_Content o) in
  {| mgs_Operation := "modify"; mgs_TargetPath := mgq_TargetPath o;
   mgs_TargetPathKind := "generated_file";
   mgs_ExpectedBeforeSHA256 := mgq_ExpectedBeforeSHA256 o;
   mgs_ExpectedBeforeSize := mgq_ExpectedBeforeSize o; mgs_AfterSHA256 := afterSHA;
   mgs_AfterSize := afterSize; mgs_Content := mgq_Content o;
   mgs_PermissionCapabilities := ["read_project"; "write_artifacts"; "write_generated"];
   mgs_AllowedGeneratedPrefixes := managedGeneratedWritePrefixes; mgs_GeneratedOnly := true;
   mgs_ApprovalRequired := true; mgs_RollbackMode := "restore_preimage";
   mgs_FixtureOrTempProjectOnly := true; mgs_RealAreaMatrixWriteOpened := false |}.

Definition writeAndInsertManagedGeneratedWriteSetArtifact (env : Env) (record : Record_)
    (version : WorkflowVersion) (run : RunRecord) (task : RunTaskRecord)
    (o : ManagedGeneratedWriteQueueOptions) : M (ArtifactRecord * string * Z) :=
  let '(afterSHA, afterSize) := hashBytes (mgq_Content o) in
  let relativePath := managedWriteFile version run task "write-set.json" in
  st <- writeProjectArtifact env record relativePath
    (managedGeneratedWriteSetText (managedWriteSet o))
          "application/json" ;;
  artifact <- insertRunArtifactRecord env (p_ID record) (v_ID version) (r_ID run)
    (t_WorkflowItemID task) "managed_generated_write_set" relativePath st
    (mk [("phase", JStr "v0.6p"); ("owned_by", JStr "areaflow");
         ("managed_generated_write", JBool true); ("generated_only", JBool true);
         ("artifact_role", JStr "approved_write_set"); ("target_path", JStr (mgq_TargetPath o));
         ("expected_before_sha256", JStr (mgq_ExpectedBeforeSHA256 o));
         ("expected_before_size", JInt (mgq_ExpectedBeforeSize o));
         ("after_sha256", JStr afterSHA); ("after_size", JInt afterSize);
         ("actor", JStr (mgq_Actor o)); ("reason", JStr (mgq_Reason o))]) ;;
  ret (artifact, afterSHA, afterSize).

Definition managedGeneratedWriteQueueMetadata (r : ManagedGeneratedWriteQueueResult)
    (o : ManagedGeneratedWriteQueueOptions) : jmap :=
  mk [("project_key", JStr (p_Key (mgqr_Project r)));
      ("workflow_version_id", JInt (v_ID (mgqr_Version r)));
      ("display_label", JStr (v_DisplayLabel (mgqr_Version r)));
      ("run_id", JInt (r_ID (mgqr_Run r))); ("run_task_id", JInt (t_ID (mgqr_Task r)));
      ("write_set_artifact_id", JInt (ar_ID (mgqr_WriteSetArtifact r)));
      ("target_path", JStr (mgqr_TargetPath r));
      ("expected_before_sha256", JStr (mgqr_ExpectedBeforeSHA256 r));
      ("expected_before_size", JInt (mgqr_ExpectedBeforeSize r));
      ("after_sha256", JStr (mgqr_AfterSHA256 r)); ("after_size", JInt (mgqr_AfterSize r));
      ("actor", JStr (mgq_Actor o)); ("idempotency_key", JStr (mgq_IdempotencyKey o));
      ("managed_generated_write", JBool true); ("generated_only", JBool true);
      ("generated_only_apply_open", JBool true); ("fixture_or_temp_project_only", JBool true);
      ("project_read_attempted", JBool false); ("project_write_attempted", JBool false);
      ("execution_write_attempted", JBool false); ("area_flow_artifact_written", JBool true);
      ("area_flow_execution_state_written", JBool true); ("engine_call_attempted", JBool false);
      ("commands_run", JBool false); ("secrets_resolved", JBool false);
      ("network_used", JBool false); ("real_areamatrix_write_opened", JBool false)].

Definition insertManagedGeneratedWriteQueueEvent (env : Env)
    (r : ManagedGeneratedWriteQueueResult)
    (o : ManagedGeneratedWriteQueueOptions) : M Z :=
  e <- insert_row (fun id =>
         MkEvent id (p_ID (mgqr_Project r)) (r_ID (mgqr_Run r)) (v_ID (mgqr_Version r))
           "run.managed_generated_write_queue.created" "info" "Managed generated write run queued"
           (managedGeneratedWriteQueueMetadata r o) (env_now env)) ;;
  ret (e_ID e).

Definition insertManagedGeneratedWriteQueueAuditEvent (env : Env)
    (r : ManagedGeneratedWriteQueueResult)
    (o : ManagedGeneratedWriteQueueOptions) : M Z :=
  a <- insert_row (fun id =>
         MkAudit id (p_ID (mgqr_Project r)) 0 "run.managed_generated_write_queue" "manage_runs"
           "run"
           (fmt_d (r_ID (mgqr_Run r))) "allowed" (mgq_Reason o)
           (managedGeneratedWriteQueueMetadata r o) (env_now env)) ;;
  ret (au_ID a).

Definition managedGeneratedWriteQueueCommandResponse (r : ManagedGeneratedWriteQueueResult) :
    jmap :=
  mk [("project_id", JInt (p_ID (mgqr_Project r)));
      ("project_key", JStr (p_Key (mgqr_Project r)));
      ("workflow_version_id", JInt (v_ID (mgqr_Version r)));
      ("display_label", JStr (v_DisplayLabel (mgqr_Version r)));
      ("run_id", JInt (r_ID (mgqr_Run r))); ("run_task_id", JInt (t_ID (mgqr_Task r)));
      ("write_set_artifact_id", JInt (ar_ID (mgqr_WriteSetArtifact r)));
      ("target_path", JStr (mgqr_TargetPath r));
      ("expected_before_sha256", JStr (mgqr_ExpectedBeforeSHA256 r));
      ("expected_before_size", JInt (mgqr_ExpectedBeforeSize r));
      ("after_sha256", JStr (mgqr_AfterSHA256 r)); ("after_size", JInt (mgqr_AfterSize r));
      ("event_id", JInt (mgqr_EventID r)); ("audit_event_id", JInt (mgqr_AuditEventID r));
      ("managed_generated_write", JBool true); ("generated_only", JBool true);
      ("generated_only_apply_open", JBool (mgqr_GeneratedOnlyApplyOpen r));
      ("fixture_or_temp_project_only", JBool true); ("project_read_attempted", JBool false);
      ("project_write_attempted", JBool false); ("execution_write_attempted", JBool false);
      ("area_flow_artifact_written", JBool (mgqr_AreaFlowArtifactWritten r));
      ("area_flow_execution_state_written", JBool (mgqr_AreaFlowExecutionStateWritten r));
      ("engine_call_attempted", JBool false); ("commands_run", JBool false);
      ("secrets_resolved", JBool false); ("network_used", JBool false);
      ("real_areamatrix_write_opened", JBool false)].

Definition set_mgqr_event (eventID : Z) (r : ManagedGeneratedWriteQueueResult) :
    ManagedGeneratedWriteQueueResult :=
  {| mgqr_Project := mgqr_Project r; mgqr_Version := mgqr_Version r; mgqr_Run := mgqr_Run r;
   mgqr_Task := mgqr_Task r; mgqr_WriteSetArtifact := mgqr_WriteSetArtifact r;
   mgqr_TargetPath := mgqr_TargetPath r;
   mgqr_ExpectedBeforeSHA256 := mgqr_ExpectedBeforeSHA256 r;
   mgqr_ExpectedBeforeSize := mgqr_ExpectedBeforeSize r; mgqr_AfterSHA256 := mgqr_AfterSHA256 r;
   mgqr_AfterSize := mgqr_AfterSize r; mgqr_Created := mgqr_Created r;
   mgqr_IdempotencyKey := mgqr_IdempotencyKey r; mgqr_EventID := eventID;
   mgqr_AuditEventID := mgqr_AuditEventID r; mgqr_GeneratedOnly := mgqr_GeneratedOnly r;
   mgqr_GeneratedOnlyApplyOpen := mgqr_GeneratedOnlyApplyOpen r;
   mgqr_ProjectReadAttempted := mgqr_ProjectReadAttempted r;
   mgqr_ProjectWriteAttempted := mgqr_ProjectWriteAttempted r;
   mgqr_ExecutionWriteAttempted := mgqr_ExecutionWriteAttempted r;
   mgqr_AreaFlowArtifactWritten := mgqr_AreaFlowArtifactWritten r;
   mgqr_AreaFlowExecutionStateWritten := mgqr_AreaFlowExecutionStateWritten r;
   mgqr_EngineCallAttempted := mgqr_EngineCallAttempted r;
   mgqr_CommandsRun := mgqr_CommandsRun r; mgqr_SecretsResolved := mgqr_SecretsResolved r;
   mgqr_NetworkUsed := mgqr_NetworkUsed r |}.

Definition set_mgqr_audit (auditEventID : Z) (r : ManagedGeneratedWriteQueueResult) :
    ManagedGeneratedWriteQueueResult :=
  {| mgqr_Project := mgqr_Project r; mgqr_Version := mgqr_Version r; mgqr_Run := mgqr_Run r;
   mgqr_Task := mgqr_Task r; mgqr_WriteSetArtifact := mgqr_WriteSetArtifact r;
   mgqr_TargetPath := mgqr_TargetPath r;
   mgqr_ExpectedBeforeSHA256 := mgqr_ExpectedBeforeSHA256 r;
   mgqr_ExpectedBeforeSize := mgqr_ExpectedBeforeSize r; mgqr_AfterSHA256 := mgqr_AfterSHA256 r;
   mgqr_AfterSize := mgqr_AfterSize r; mgqr_Created := mgqr_Created r;
   mgqr_IdempotencyKey := mgqr_IdempotencyKey r; mgqr_EventID := mgqr_EventID r;
   mgqr_AuditEventID := auditEventID; mgqr_GeneratedOnly := mgqr_GeneratedOnly r;
   mgqr_GeneratedOnlyApplyOpen := mgqr_GeneratedOnlyApplyOpen r;
   mgqr_ProjectReadAttempted := mgqr_ProjectReadAttempted r;
   mgqr_ProjectWriteAttempted := mgqr_ProjectWriteAttempted r;
   mgqr_ExecutionWriteAttempted := mgqr_ExecutionWriteAttempted r;
   mgqr_AreaFlowArtifactWritten := mgqr_AreaFlowArtifactWritten r;
   mgqr_AreaFlowExecutionStateWritten := mgqr_AreaFlowExecutionStateWritten r;
   mgqr_EngineCallAttempted := mgqr_EngineCallAttempted r;
   mgqr_CommandsRun := mgqr_CommandsRun r; mgqr_SecretsResolved := mgqr_SecretsResolved r;
   mgqr_NetworkUsed := mgqr_NetworkUsed r |}.

Definition loadManagedGeneratedWriteQueueByCommandResponse (record : Record_)
    (version : WorkflowVersion) (idempotencyKey : string) : M ManagedGeneratedWriteQueueResult :=
  response <- loadCommandResponse (p_ID record) "run.managed_generated_write_queue"
    idempotencyKey ;;
  run <- loadRunForUpdate (metadataInt64 response "run_id") ;;
  task <- loadRunTaskByID (p_ID record) (metadataInt64 response "run_task_id") ;;
  writeSetArtifact <- load_if (metadataInt64 response "write_set_artifact_id") no_artifact
                        (loadArtifactByIDTx (p_ID record)) ;;
  ret {| mgqr_Project := record; mgqr_Version := version; mgqr_Run := run; mgqr_Task := task;
       mgqr_WriteSetArtifact := writeSetArtifact;
       mgqr_TargetPath := metadataString response "target_path";
       mgqr_ExpectedBeforeSHA256 := metadataString response "expected_before_sha256";
       mgqr_ExpectedBeforeSize := metadataInt64 response "expected_before_size";
       mgqr_AfterSHA256 := metadataString response "after_sha256";
       mgqr_AfterSize := metadataInt64 response "after_size"; mgqr_Created := false;
       mgqr_IdempotencyKey := idempotencyKey; mgqr_EventID := metadataInt64 response "event_id";
       mgqr_AuditEventID := metadataInt64 response "audit_event_id";
       mgqr_GeneratedOnly := metadataBool response "generated_only";
       mgqr_GeneratedOnlyApplyOpen := metadataBool response "generated_only_apply_open";
       mgqr_ProjectReadAttempted := metadataBool response "project_read_attempted";
       mgqr_ProjectWriteAttempted := metadataBool response "project_write_attempted";
       mgqr_ExecutionWriteAttempted := metadataBool response "execution_write_attempted";
       mgqr_AreaFlowArtifactWritten := metadataBool response "area_flow_artifact_written";
       mgqr_AreaFlowExecutionStateWritten := metadataBool response
         "area_flow_execution_state_written";
       mgqr_EngineCallAttempted := metadataBool response "engine_call_attempted";
       mgqr_CommandsRun := metadataBool response "commands_run";
       mgqr_SecretsResolved := metadataBool response "secrets_resolved";
       mgqr_NetworkUsed := metadataBool response "network_used" |}.

Definition queueManagedWriteBody (env : Env) (record : Record_) (version : WorkflowVersion)
    (o : ManagedGeneratedWriteQueueOptions) : M (res error ManagedGeneratedWriteQueueResult) :=
  run <- insertManagedGeneratedWriteRun env record version o ;;
  task <- insertManagedGeneratedWriteTask env record version run o ;;
  written <- writeAndInsertManagedGeneratedWriteSetArtifact env record version run task o ;;
  let '(writeSetArtifact, afterSHA, afterSize) := written in
  updateRunTaskMetadata env (t_ID task)
    [("write_set_artifact_id", JInt (ar_ID writeSetArtifact));
     ("target_path", JStr (mgq_TargetPath o));
     ("expected_before_sha256", JStr (mgq_ExpectedBeforeSHA256 o));
     ("expected_before_size", JInt (mgq_ExpectedBeforeSize o)); ("after_sha256", JStr afterSHA);
     ("after_size", JInt afterSize); ("managed_generated_write", JBool true);
     ("generated_only", JBool true); ("approved_write_set_source", JStr "area_flow_artifact")] ;;;
  let task :=
    task_noted "write_set_artifact_id" (JFloat (float64_of_Z (ar_ID writeSetArtifact))) task in
  let r :=
    {| mgqr_Project := record; mgqr_Version := version; mgqr_Run := run; mgqr_Task := task;
     mgqr_WriteSetArtifact := writeSetArtifact; mgqr_TargetPath := mgq_TargetPath o;
     mgqr_ExpectedBeforeSHA256 := mgq_ExpectedBeforeSHA256 o;
     mgqr_ExpectedBeforeSize := mgq_ExpectedBeforeSize o; mgqr_AfterSHA256 := afterSHA;
     mgqr_AfterSize := afterSize; mgqr_Created := true;
     mgqr_IdempotencyKey := mgq_IdempotencyKey o; mgqr_EventID := 0; mgqr_AuditEventID := 0;
     mgqr_GeneratedOnly := true; mgqr_GeneratedOnlyApplyOpen := true;
     mgqr_ProjectReadAttempted := false; mgqr_ProjectWriteAttempted := false;
     mgqr_ExecutionWriteAttempted := false; mgqr_AreaFlowArtifactWritten := true;
     mgqr_AreaFlowExecutionStateWritten := true; mgqr_EngineCallAttempted := false;
     mgqr_CommandsRun := false; mgqr_SecretsResolved := false; mgqr_NetworkUsed := false |} in
  eventID <- insertManagedGeneratedWriteQueueEvent env r o ;;
  let r := set_mgqr_event eventID r in
  auditEventID <- insertManagedGeneratedWriteQueueAuditEvent env r o ;;
  let r := set_mgqr_audit auditEventID r in
  completeCommandRequestResponse env (p_ID record) "run.managed_generated_write_queue"
    (mgq_IdempotencyKey o)
    (managedGeneratedWriteQueueCommandResponse r) ;;;
  ret (Ok r).

Definition maxManagedGeneratedWriteContentBytes : Z := 256 * 1024.

(** Once the guards are passed, [normalizeManagedGeneratedWriteQueueOptions] has
    filled in the key. *)
Definition queueManagedWriteTx (env : Env) (record : Record_) (label : string)
    (options : ManagedGeneratedWriteQueueOptions) : M
    (res error ManagedGeneratedWriteQueueResult) :=
  version <- authoredVersion record label ;;
  let o := normalizeManagedGeneratedWriteQueueOptions record version options in
  if mgq_TargetPath o =s "" then fail (ErrText "target path is required")
  else if negb (isManagedGeneratedPath (mgq_TargetPath o))
  then fail (ErrText "target path must stay under generated-only prefixes")
  else if mgq_ExpectedBeforeSHA256 o =s ""
  then fail (ErrText "expected before sha256 is required")
  else if maxManagedGeneratedWriteContentBytes <? len (mgq_Content o)
  then fail (ErrText "managed generated write content exceeds 262144 bytes")
  else
    with_command env (p_ID record) "run.managed_generated_write_queue" (mgq_IdempotencyKey o)
      (managedGeneratedWriteQueueRequestHash record version o)
      (r <- loadManagedGeneratedWriteQueueByCommandResponse record version
        (mgq_IdempotencyKey o) ;;
       ret (Ok r))
      (queueManagedWriteBody env record version o).

Definition QueueManagedGeneratedWrite (env : Env) (record : Record_) (label : string)
    (options : ManagedGeneratedWriteQueueOptions) (w : World)
  : res error ManagedGeneratedWriteQueueResult * World :=
  transact (queueManagedWriteTx env record label options) w.

(** ** Claiming the task *)

Definition nextManagedGeneratedWriteTaskForLease (env : Env) (projectID runID : Z)
  : M (option RunTaskRecord) :=
  next_execution_task env projectID runID "managed_generated_write_task".

Definition remainingManagedGeneratedWriteTaskCount (runID : Z) : M Z :=
  count_tasks (remaining_task runID "managed_generated_write_task").

Definition loadManagedGeneratedWriteSet (os : WriteOS) (record : Record_) (artifactID : Z)
  : M (managedGeneratedWriteSet * ArtifactRecord) :=
  if artifactID <=? 0 then fail (ErrText "write-set artifact id is required")
  else
    artifact <- loadArtifactByIDTx (p_ID record) artifactID ;;
    artifactContent <- (fun w => (ReadArtifactContent (os_S3Get os) artifact w, w)) ;;
    match parseManagedGeneratedWriteSet (cn_Content artifactContent) with
    | None => fail (ErrText "parse managed generated write-set artifact")
    | Some writeSet =>
      if mgs_Operation writeSet <>s "modify"
      then fail (ErrText "only modify operation is supported")
      else if negb (mgs_GeneratedOnly writeSet) || negb
        (isManagedGeneratedPath (mgs_TargetPath writeSet))
      then fail (ErrText "write-set artifact is not generated-only")
      else if (mgs_TargetPath writeSet =s "") || (mgs_ExpectedBeforeSHA256 writeSet =s "")
              || (mgs_AfterSHA256 writeSet =s "")
      then fail (ErrText "write-set artifact is incomplete")
      else ret (writeSet, artifact)
    end.

Definition writeAndInsertManagedGeneratedPreimageArtifact (env : Env) (record : Record_)
    (version : WorkflowVersion) (run : RunRecord) (task : RunTaskRecord) (targetPath : string)
    (preimage : fixtureProjectFileImage) (o : ManagedGeneratedWriteOptions) : M ArtifactRecord :=
  let relativePath := managedWriteFile version run task "preimage.bin" in
  st <- writeProjectArtifact env record relativePath (im_Content preimage)
          "application/octet-stream" ;;
  insertRunArtifactRecord env (p_ID record) (v_ID version) (r_ID run) (t_WorkflowItemID task)
    "managed_generated_write_preimage" relativePath st
    (mk [("phase", JStr "v0.6p"); ("owned_by", JStr "areaflow");
         ("managed_generated_write", JBool true); ("generated_only", JBool true);
         ("artifact_role", JStr "preimage"); ("target_path", JStr targetPath);
         ("target_sha256", JStr (im_SHA256 preimage));
         ("target_size", JInt (im_SizeBytes preimage)); ("actor", JStr (mgo_Actor o));
         ("reason", JStr (mgo_Reason o))]).

Definition insertManagedGeneratedWriteAttempt (env : Env) (record : Record_)
    (task : RunTaskRecord)
    (lease : LeaseRecord) (attemptKind status : string) (metadata : jmap)
    (o : ManagedGeneratedWriteOptions) : M RunAttemptRecord :=
  let base :=
    mk [("actor", JStr (mgo_Actor o)); ("reason", JStr (mgo_Reason o));
        ("managed_generated_write", JBool true); ("generated_only", JBool true);
        ("fixture_or_temp_project_only", JBool true); ("approval_gated", JBool true);
        ("project_read_attempted", JBool true); ("project_write_attempted", JBool true);
        ("project_write_allowed", JBool true); ("execution_write_attempted", JBool false);
        ("area_flow_artifact_written", JBool true);
        ("area_flow_execution_state_written", JBool true);
        ("engine_call_attempted", JBool false); ("commands_run", JBool false);
        ("secrets_resolved", JBool false); ("network_used", JBool false);
        ("lease_id", JInt (l_ID lease)); ("worker_id", JInt (l_WorkerID lease))] in
  a <- insert_row (fun id =>
         MkRunAttempt id (p_ID record) (t_WorkflowVersionID task) (t_WorkflowItemID task)
           (t_RunID task) (t_ID task) attemptKind status false (mset_all metadata base)
           (env_now env) (Some (env_now env))) ;;
  ret (scanRunAttempt a).

(** What a claimed task has done to the target when its report is written *)
Record managedWriteDone := MkManagedWriteDone {
  md_writeSet : managedGeneratedWriteSet; md_preimage : fixtureProjectFileImage;
  md_afterImage : fixtureProjectFileImage; md_restoredImage : fixtureProjectFileImage;
  md_writeSetArtifact : ArtifactRecord; md_preimageArtifact : ArtifactRecord;
  md_copyAttempt : RunAttemptRecord; md_verifyAttempt : RunAttemptRecord }.

Definition managedWriteReport (env : Env) (record : Record_) (version : WorkflowVersion)
    (run : RunRecord) (worker : WorkerRecord) (task : RunTaskRecord) (lease : LeaseRecord)
    (gate : ExecutionApprovalGate) (d : managedWriteDone) (rollbackAttempt : RunAttemptRecord) :
    string :=
  let writeSet := md_writeSet d in
  let preimage := md_preimage d in
  let afterImage := md_afterImage d in
  let restoredImage := md_restoredImage d in
  let writeSetArtifact := md_writeSetArtifact d in
  let preimageArtifact := md_preimageArtifact d in
  let copyAttempt := md_copyAttempt d in
  let verifyAttempt := md_verifyAttempt d in
  marshal_indent (JObj (mk
    [("project", JStr (p_Key record)); ("workflow_version", JStr (v_DisplayLabel version));
     ("run_id", JInt (r_ID run)); ("run_task_id", JInt (t_ID task));
     ("task_key", JStr (t_TaskKey task)); ("task_kind", JStr (t_TaskKind task));
     ("worker_id", JInt (w_ID worker)); ("worker_key", JStr (w_WorkerKey worker));
     ("lease_id", JInt (l_ID lease)); ("managed_generated_write", JBool true);
     ("generated_only", JBool true); ("fixture_or_temp_project_only", JBool true);
     ("real_areamatrix_write_opened", JBool false); ("approval_gated", JBool true);
     ("execution_gate_status", JStr (eg_Status gate));
     ("target_path", JStr (mgs_TargetPath writeSet));
     ("allowed_generated_prefixes", jstrs managedGeneratedWritePrefixes);
     ("operation", JStr (mgs_Operation writeSet));
     ("write_set_artifact_id", JInt (ar_ID writeSetArtifact));
     ("preimage_artifact_id", JInt (ar_ID preimageArtifact));
     ("copy_attempt_id", JInt (at_ID copyAttempt));
     ("verify_attempt_id", JInt (at_ID verifyAttempt));
     ("rollback_attempt_id", JInt (at_ID rollbackAttempt));
     ("expected_before_sha256", JStr (mgs_ExpectedBeforeSHA256 writeSet));
     ("expected_before_size", JInt (mgs_ExpectedBeforeSize writeSet));
     ("preimage_sha256", JStr (im_SHA256 preimage));
     ("preimage_size", JInt (im_SizeBytes preimage));
     ("after_sha256", JStr (im_SHA256 afterImage));
     ("after_size", JInt (im_SizeBytes afterImage));
     ("rollback_restored_sha256", JStr (im_SHA256 restoredImage));
     ("rollback_restored_size", JInt (im_SizeBytes restoredImage));
     ("project_read_attempted", JBool true); ("project_read_allowed", JBool true);
     ("project_write_attempted", JBool true); ("project_write_allowed", JBool true);
     ("execution_write_attempted", JBool false); ("area_flow_artifact_written", JBool true);
     ("area_flow_execution_state_written", JBool true); ("engine_call_attempted", JBool false);
     ("commands_run", JBool false); ("secrets_resolved", JBool false);
     ("network_used", JBool false); ("write_set_passed", JBool true);
     ("verification_passed", JBool true); ("rollback_attempted", JBool true);
     ("rollback_verified", JBool true);
     ("unsupported_operations", jstrs (["source_write"; "workflow_execution_write";
       "progress_json_write"; "checkpoint"; "repair"; "create"; "delete"; "move"; "chmod";
         "binary_rewrite"; "symlink_target"; "project_root_escape"; "glob_bulk_write"]));
     ("generated_at", JStr (env_rfc3339 env))])).

Definition writeAndInsertManagedGeneratedWriteReport (env : Env) (record : Record_)
    (version : WorkflowVersion) (run : RunRecord) (worker : WorkerRecord) (task : RunTaskRecord)
    (lease : LeaseRecord) (gate : ExecutionApprovalGate) (d : managedWriteDone)
    (rollbackAttempt : RunAttemptRecord) (o : ManagedGeneratedWriteOptions) : M ArtifactRecord :=
  let writeSet := md_writeSet d in
  let writeSetArtifact := md_writeSetArtifact d in
  let preimageArtifact := md_preimageArtifact d in
  let copyAttempt := md_copyAttempt d in
  let verifyAttempt := md_verifyAttempt d in
  let relativePath := managedWriteFile version run task "report.json" in
  st <- writeProjectArtifact env record relativePath
          (managedWriteReport env record version run worker task lease gate d rollbackAttempt)
          "application/json" ;;
  insertRunArtifactRecord env (p_ID record) (v_ID version) (r_ID run) (t_WorkflowItemID task)
    "managed_generated_write_report" relativePath st
    (mk [("phase", JStr "v0.6p"); ("owned_by", JStr "areaflow");
         ("managed_generated_write", JBool true); ("generated_only", JBool true);
         ("artifact_role", JStr "managed_generated_write_report");
         ("target_path", JStr (mgs_TargetPath writeSet));
         ("write_set_artifact_id", JInt (ar_ID writeSetArtifact));
         ("preimage_artifact_id", JInt (ar_ID preimageArtifact));
         ("copy_attempt_id", JInt (at_ID copyAttempt));
         ("verify_attempt_id", JInt (at_ID verifyAttempt));
         ("rollback_attempt_id", JInt (at_ID rollbackAttempt));
         ("rollback_verified", JBool true); ("execution_gate_status", JStr (eg_Status gate));
         ("actor", JStr (mgo_Actor o)); ("reason", JStr (mgo_Reason o))]).

Definition updateManagedGeneratedWriteRunAfterTask (env : Env) (run : RunRecord)
    (o : ManagedGeneratedWriteOptions) (artifactID attemptID : Z) (targetPath : string)
    (writeSet : managedGeneratedWriteSet) (restoredImage : fixtureProjectFileImage) : M
    RunRecord :=
  done <- rollbackVerifiedRunTaskCount (r_ID run) ;;
  remaining <- remainingManagedGeneratedWriteTaskCount (r_ID run) ;;
  let summary :=
    mset_all [("managed_generated_write", JBool true); ("generated_only", JBool true);
              ("fixture_or_temp_project_only", JBool true); ("target_path", JStr targetPath);
              ("last_artifact_id", JInt artifactID); ("last_attempt_id", JInt attemptID);
              ("project_read_attempted", JBool true); ("project_read_allowed", JBool true);
              ("project_write_attempted", JBool true); ("project_write_allowed", JBool true);
              ("execution_write_attempted", JBool false);
              ("area_flow_artifact_written", JBool true);
              ("area_flow_execution_state_written", JBool true);
              ("engine_call_attempted", JBool false); ("commands_run", JBool false);
              ("secrets_resolved", JBool false); ("network_used", JBool false);
              ("expected_before_sha256", JStr (mgs_ExpectedBeforeSHA256 writeSet));
              ("after_sha256", JStr (mgs_AfterSHA256 writeSet));
              ("restored_sha256", JStr (im_SHA256 restoredImage));
              ("rollback_attempted", JBool true); ("rollback_verified", JBool true);
              ("real_areamatrix_write_opened", JBool false); ("verified_task_count", JInt done);
              ("remaining_task_count", JInt remaining)] (copyMap (r_Summary run)) in
  let metadata :=
    mset_all [("last_managed_generated_write_actor", JStr (mgo_Actor o));
              ("last_managed_generated_write_reason", JStr (mgo_Reason o));
              ("last_managed_generated_write_at", JStr (env_rfc3339 env));
              ("last_artifact_id", JInt artifactID); ("last_attempt_id", JInt attemptID);
              ("managed_generated_write", JBool true); ("generated_only", JBool true)]
                (copyMap (r_Metadata run)) in
  rows <- update_rows (fun r => r_ID r =? r_ID run)
            (run_progress (env_now env) (remaining =? 0)
               (if remaining =? 0 then "rollback_verified" else "running") summary metadata) ;;
  r <- first_row rows ;;
  ret (scanRun r).

(** ** History and responses *)

Definition managedGeneratedWriteMetadata (r : ManagedGeneratedWriteResult)
    (o : ManagedGeneratedWriteOptions) : jmap :=
  mk [("project_key", JStr (p_Key (mgr_Project r)));
      ("workflow_version_id", JInt (v_ID (mgr_Version r)));
      ("display_label", JStr (v_DisplayLabel (mgr_Version r)));
      ("run_id", JInt (r_ID (mgr_Run r))); ("run_task_id", JInt (t_ID (mgr_Task r)));
      ("lease_id", JInt (l_ID (mgr_Lease r)));
      ("copy_attempt_id", JInt (at_ID (mgr_CopyAttempt r)));
      ("verify_attempt_id", JInt (at_ID (mgr_VerifyAttempt r)));
      ("rollback_attempt_id", JInt (at_ID (mgr_RollbackAttempt r)));
      ("write_set_artifact_id", JInt (ar_ID (mgr_WriteSetArtifact r)));
      ("preimage_artifact_id", JInt (ar_ID (mgr_PreimageArtifact r)));
      ("artifact_id", JInt (ar_ID (mgr_Artifact r))); ("worker_id", JInt (w_ID (mgr_Worker r)));
      ("worker_key", JStr (w_WorkerKey (mgr_Worker r)));
      ("target_path", JStr (mgr_TargetPath r));
      ("expected_before_sha256", JStr (mgr_ExpectedBeforeSHA256 r));
      ("expected_before_size", JInt (mgr_ExpectedBeforeSize r));
      ("after_sha256", JStr (mgr_AfterSHA256 r)); ("after_size", JInt (mgr_AfterSize r));
      ("restored_sha256", JStr (mgr_RestoredSHA256 r));
      ("restored_size", JInt (mgr_RestoredSize r)); ("status", JStr (mgr_Status r));
      ("decision", JStr (mgr_Decision r)); ("blockers", jstrs_nil (mgr_Blockers r));
      ("actor", JStr (mgo_Actor o)); ("idempotency_key", JStr (mgo_IdempotencyKey o));
      ("managed_generated_write", JBool true); ("generated_only", JBool (mgr_GeneratedOnly r));
      ("generated_only_apply_open", JBool (mgr_GeneratedOnlyApplyOpen r));
      ("fixture_or_temp_project_only", JBool true);
      ("real_areamatrix_write_opened", JBool false); ("approval_gated", JBool true);
      ("execution_gate_status", JStr (eg_Status (mgr_Gate r)));
      ("project_read_attempted", JBool (mgr_ProjectReadAttempted r));
      ("project_read_allowed", JBool (mgr_ProjectReadAllowed r));
      ("project_write_attempted", JBool (mgr_ProjectWriteAttempted r));
      ("project_write_allowed", JBool (mgr_ProjectWriteAllowed r));
      ("execution_write_attempted", JBool (mgr_ExecutionWriteAttempted r));
      ("area_flow_artifact_written", JBool (mgr_AreaFlowArtifactWritten r));
      ("area_flow_execution_state_written", JBool (mgr_AreaFlowExecutionStateWritten r));
      ("engine_call_attempted", JBool (mgr_EngineCallAttempted r));
      ("commands_run", JBool (mgr_CommandsRun r));
      ("secrets_resolved", JBool (mgr_SecretsResolved r));
      ("network_used", JBool (mgr_NetworkUsed r)); ("task_claimed", JBool (mgr_TaskClaimed r));
      ("worker_started", JBool (mgr_WorkerStarted r));
      ("lease_created", JBool (mgr_LeaseCreated r));
      ("attempt_created", JBool (mgr_AttemptCreated r));
      ("artifact_created", JBool (mgr_ArtifactCreated r));
      ("write_set_passed", JBool (mgr_WriteSetPassed r));
      ("verification_passed", JBool (mgr_VerificationPassed r));
      ("rollback_attempted", JBool (mgr_RollbackAttempted r));
      ("rollback_verified", JBool (mgr_RollbackVerified r))].

Definition insertManagedGeneratedWriteEvent (env : Env) (r : ManagedGeneratedWriteResult)
    (o : ManagedGeneratedWriteOptions) : M Z :=
  e <- insert_row (fun id =>
         MkEvent id (p_ID (mgr_Project r)) (r_ID (mgr_Run r)) (v_ID (mgr_Version r))
           ("worker.managed_generated_write." +:+ mgr_Decision r)
           (if mgr_Decision r =s "denied" then "warning" else "info") (mgr_Message r)
           (managedGeneratedWriteMetadata r o) (env_now env)) ;;
  ret (e_ID e).

Definition insertManagedGeneratedWriteAuditEvent (env : Env) (r : ManagedGeneratedWriteResult)
    (o : ManagedGeneratedWriteOptions) : M Z :=
  a <- insert_row (fun id =>
         MkAudit id (p_ID (mgr_Project r)) (w_ActorID (mgr_Worker r))
           "worker.managed_generated_write"
           "write_generated" "path" (mgr_TargetPath r) (mgr_Decision r) (mgo_Reason o)
           (managedGeneratedWriteMetadata r o) (env_now env)) ;;
  ret (au_ID a).

Definition managedGeneratedWriteCommandResponse (r : ManagedGeneratedWriteResult) : jmap :=
  mk [("project_id", JInt (p_ID (mgr_Project r)));
      ("project_key", JStr (p_Key (mgr_Project r)));
      ("workflow_version_id", JInt (v_ID (mgr_Version r)));
      ("display_label", JStr (v_DisplayLabel (mgr_Version r)));
      ("run_id", JInt (r_ID (mgr_Run r))); ("run_status", JStr (r_Status (mgr_Run r)));
      ("worker_id", JInt (w_ID (mgr_Worker r)));
      ("worker_key", JStr (w_WorkerKey (mgr_Worker r)));
      ("run_task_id", JInt (t_ID (mgr_Task r))); ("task_status", JStr (t_Status (mgr_Task r)));
      ("lease_id", JInt (l_ID (mgr_Lease r)));
      ("copy_attempt_id", JInt (at_ID (mgr_CopyAttempt r)));
      ("verify_attempt_id", JInt (at_ID (mgr_VerifyAttempt r)));
      ("rollback_attempt_id", JInt (at_ID (mgr_RollbackAttempt r)));
      ("write_set_artifact_id", JInt (ar_ID (mgr_WriteSetArtifact r)));
      ("preimage_artifact_id", JInt (ar_ID (mgr_PreimageArtifact r)));
      ("artifact_id", JInt (ar_ID (mgr_Artifact r)));
      ("artifact_type", JStr (ar_ArtifactType (mgr_Artifact r)));
      ("target_path", JStr (mgr_TargetPath r));
      ("expected_before_sha256", JStr (mgr_ExpectedBeforeSHA256 r));
      ("expected_before_size", JInt (mgr_ExpectedBeforeSize r));
      ("after_sha256", JStr (mgr_AfterSHA256 r)); ("after_size", JInt (mgr_AfterSize r));
      ("restored_sha256", JStr (mgr_RestoredSHA256 r));
      ("restored_size", JInt (mgr_RestoredSize r)); ("event_id", JInt (mgr_EventID r));
      ("audit_event_id", JInt (mgr_AuditEventID r)); ("status", JStr (mgr_Status r));
      ("decision", JStr (mgr_Decision r)); ("message", JStr (mgr_Message r));
      ("blockers", jstrs_nil (mgr_Blockers r)); ("managed_generated_write", JBool true);
      ("generated_only", JBool (mgr_GeneratedOnly r));
      ("generated_only_apply_open", JBool (mgr_GeneratedOnlyApplyOpen r));
      ("fixture_or_temp_project_only", JBool true);
      ("real_areamatrix_write_opened", JBool false); ("approval_gated", JBool true);
      ("execution_gate_status", JStr (eg_Status (mgr_Gate r)));
      ("project_read_attempted", JBool (mgr_ProjectReadAttempted r));
      ("project_read_allowed", JBool (mgr_ProjectReadAllowed r));
      ("project_write_attempted", JBool (mgr_ProjectWriteAttempted r));
      ("project_write_allowed", JBool (mgr_ProjectWriteAllowed r));
      ("execution_write_attempted", JBool (mgr_ExecutionWriteAttempted r));
      ("area_flow_artifact_written", JBool (mgr_AreaFlowArtifactWritten r));
      ("area_flow_execution_state_written", JBool (mgr_AreaFlowExecutionStateWritten r));
      ("engine_call_attempted", JBool (mgr_EngineCallAttempted r));
      ("commands_run", JBool (mgr_CommandsRun r));
      ("secrets_resolved", JBool (mgr_SecretsResolved r));
      ("network_used", JBool (mgr_NetworkUsed r)); ("task_claimed", JBool (mgr_TaskClaimed r));
      ("worker_started", JBool (mgr_WorkerStarted r));
      ("lease_created", JBool (mgr_LeaseCreated r));
      ("attempt_created", JBool (mgr_AttemptCreated r));
      ("artifact_created", JBool (mgr_ArtifactCreated r));
      ("write_set_passed", JBool (mgr_WriteSetPassed r));
      ("verification_passed", JBool (mgr_VerificationPassed r));
      ("rollback_attempted", JBool (mgr_RollbackAttempted r));
      ("rollback_verified", JBool (mgr_RollbackVerified r))].

Definition set_mgr_event (eventID : Z) (r : ManagedGeneratedWriteResult) :
    ManagedGeneratedWriteResult :=
  {| mgr_Project := mgr_Project r; mgr_Version := mgr_Version r; mgr_Run := mgr_Run r;
   mgr_Worker := mgr_Worker r; mgr_Lease := mgr_Lease r; mgr_Task := mgr_Task r;
   mgr_CopyAttempt := mgr_CopyAttempt r; mgr_VerifyAttempt := mgr_VerifyAttempt r;
   mgr_RollbackAttempt := mgr_RollbackAttempt r; mgr_WriteSetArtifact := mgr_WriteSetArtifact r;
   mgr_PreimageArtifact := mgr_PreimageArtifact r; mgr_Artifact := mgr_Artifact r;
   mgr_Gate := mgr_Gate r; mgr_TargetPath := mgr_TargetPath r;
   mgr_ExpectedBeforeSHA256 := mgr_ExpectedBeforeSHA256 r;
   mgr_ExpectedBeforeSize := mgr_ExpectedBeforeSize r; mgr_AfterSHA256 := mgr_AfterSHA256 r;
   mgr_AfterSize := mgr_AfterSize r; mgr_RestoredSHA256 := mgr_RestoredSHA256 r;
   mgr_RestoredSize := mgr_RestoredSize r; mgr_Status := mgr_Status r;
   mgr_Decision := mgr_Decision r; mgr_Message := mgr_Message r; mgr_Blockers := mgr_Blockers r;
   mgr_Created := mgr_Created r; mgr_IdempotencyKey := mgr_IdempotencyKey r;
   mgr_EventID := eventID; mgr_AuditEventID := mgr_AuditEventID r;
   mgr_GeneratedOnly := mgr_GeneratedOnly r;
   mgr_GeneratedOnlyApplyOpen := mgr_GeneratedOnlyApplyOpen r;
   mgr_ProjectReadAttempted := mgr_ProjectReadAttempted r;
   mgr_ProjectReadAllowed := mgr_ProjectReadAllowed r;
   mgr_ProjectWriteAttempted := mgr_ProjectWriteAttempted r;
   mgr_ProjectWriteAllowed := mgr_ProjectWriteAllowed r;
   mgr_ExecutionWriteAttempted := mgr_ExecutionWriteAttempted r;
   mgr_AreaFlowArtifactWritten := mgr_AreaFlowArtifactWritten r;
   mgr_AreaFlowExecutionStateWritten := mgr_AreaFlowExecutionStateWritten r;
   mgr_EngineCallAttempted := mgr_EngineCallAttempted r; mgr_CommandsRun := mgr_CommandsRun r;
   mgr_SecretsResolved := mgr_SecretsResolved r; mgr_NetworkUsed := mgr_NetworkUsed r;
   mgr_TaskClaimed := mgr_TaskClaimed r; mgr_WorkerStarted := mgr_WorkerStarted r;
   mgr_LeaseCreated := mgr_LeaseCreated r; mgr_AttemptCreated := mgr_AttemptCreated r;
   mgr_ArtifactCreated := mgr_ArtifactCreated r; mgr_WriteSetPassed := mgr_WriteSetPassed r;
   mgr_VerificationPassed := mgr_VerificationPassed r;
   mgr_RollbackAttempted := mgr_RollbackAttempted r;
   mgr_RollbackVerified := mgr_RollbackVerified r |}.

Definition set_mgr_audit (auditEventID : Z) (r : ManagedGeneratedWriteResult) :
    ManagedGeneratedWriteResult :=
  {| mgr_Project := mgr_Project r; mgr_Version := mgr_Version r; mgr_Run := mgr_Run r;
   mgr_Worker := mgr_Worker r; mgr_Lease := mgr_Lease r; mgr_Task := mgr_Task r;
   mgr_CopyAttempt := mgr_CopyAttempt r; mgr_VerifyAttempt := mgr_VerifyAttempt r;
   mgr_RollbackAttempt := mgr_RollbackAttempt r; mgr_WriteSetArtifact := mgr_WriteSetArtifact r;
   mgr_PreimageArtifact := mgr_PreimageArtifact r; mgr_Artifact := mgr_Artifact r;
   mgr_Gate := mgr_Gate r; mgr_TargetPath := mgr_TargetPath r;
   mgr_ExpectedBeforeSHA256 := mgr_ExpectedBeforeSHA256 r;
   mgr_ExpectedBeforeSize := mgr_ExpectedBeforeSize r; mgr_AfterSHA256 := mgr_AfterSHA256 r;
   mgr_AfterSize := mgr_AfterSize r; mgr_RestoredSHA256 := mgr_RestoredSHA256 r;
   mgr_RestoredSize := mgr_RestoredSize r; mgr_Status := mgr_Status r;
   mgr_Decision := mgr_Decision r; mgr_Message := mgr_Message r; mgr_Blockers := mgr_Blockers r;
   mgr_Created := mgr_Created r; mgr_IdempotencyKey := mgr_IdempotencyKey r;
   mgr_EventID := mgr_EventID r; mgr_AuditEventID := auditEventID;
   mgr_GeneratedOnly := mgr_GeneratedOnly r;
   mgr_GeneratedOnlyApplyOpen := mgr_GeneratedOnlyApplyOpen r;
   mgr_ProjectReadAttempted := mgr_ProjectReadAttempted r;
   mgr_ProjectReadAllowed := mgr_ProjectReadAllowed r;
   mgr_ProjectWriteAttempted := mgr_ProjectWriteAttempted r;
   mgr_ProjectWriteAllowed := mgr_ProjectWriteAllowed r;
   mgr_ExecutionWriteAttempted := mgr_ExecutionWriteAttempted r;
   mgr_AreaFlowArtifactWritten := mgr_AreaFlowArtifactWritten r;
   mgr_AreaFlowExecutionStateWritten := mgr_AreaFlowExecutionStateWritten r;
   mgr_EngineCallAttempted := mgr_EngineCallAttempted r; mgr_CommandsRun := mgr_CommandsRun r;
   mgr_SecretsResolved := mgr_SecretsResolved r; mgr_NetworkUsed := mgr_NetworkUsed r;
   mgr_TaskClaimed := mgr_TaskClaimed r; mgr_WorkerStarted := mgr_WorkerStarted r;
   mgr_LeaseCreated := mgr_LeaseCreated r; mgr_AttemptCreated := mgr_AttemptCreated r;
   mgr_ArtifactCreated := mgr_ArtifactCreated r; mgr_WriteSetPassed := mgr_WriteSetPassed r;
   mgr_VerificationPassed := mgr_VerificationPassed r;
   mgr_RollbackAttempted := mgr_RollbackAttempted r;
   mgr_RollbackVerified := mgr_RollbackVerified r |}.

Definition set_mgr_target (targetPath : string) (r : ManagedGeneratedWriteResult) :
    ManagedGeneratedWriteResult :=
  {| mgr_Project := mgr_Project r; mgr_Version := mgr_Version r; mgr_Run := mgr_Run r;
   mgr_Worker := mgr_Worker r; mgr_Lease := mgr_Lease r; mgr_Task := mgr_Task r;
   mgr_CopyAttempt := mgr_CopyAttempt r; mgr_VerifyAttempt := mgr_VerifyAttempt r;
   mgr_RollbackAttempt := mgr_RollbackAttempt r; mgr_WriteSetArtifact := mgr_WriteSetArtifact r;
   mgr_PreimageArtifact := mgr_PreimageArtifact r; mgr_Artifact := mgr_Artifact r;
   mgr_Gate := mgr_Gate r; mgr_TargetPath := targetPath;
   mgr_ExpectedBeforeSHA256 := mgr_ExpectedBeforeSHA256 r;
   mgr_ExpectedBeforeSize := mgr_ExpectedBeforeSize r; mgr_AfterSHA256 := mgr_AfterSHA256 r;
   mgr_AfterSize := mgr_AfterSize r; mgr_RestoredSHA256 := mgr_RestoredSHA256 r;
   mgr_RestoredSize := mgr_RestoredSize r; mgr_Status := mgr_Status r;
   mgr_Decision := mgr_Decision r; mgr_Message := mgr_Message r; mgr_Blockers := mgr_Blockers r;
   mgr_Created := mgr_Created r; mgr_IdempotencyKey := mgr_IdempotencyKey r;
   mgr_EventID := mgr_EventID r; mgr_AuditEventID := mgr_AuditEventID r;
   mgr_GeneratedOnly := mgr_GeneratedOnly r;
   mgr_GeneratedOnlyApplyOpen := mgr_GeneratedOnlyApplyOpen r;
   mgr_ProjectReadAttempted := mgr_ProjectReadAttempted r;
   mgr_ProjectReadAllowed := mgr_ProjectReadAllowed r;
   mgr_ProjectWriteAttempted := mgr_ProjectWriteAttempted r;
   mgr_ProjectWriteAllowed := mgr_ProjectWriteAllowed r;
   mgr_ExecutionWriteAttempted := mgr_ExecutionWriteAttempted r;
   mgr_AreaFlowArtifactWritten := mgr_AreaFlowArtifactWritten r;
   mgr_AreaFlowExecutionStateWritten := mgr_AreaFlowExecutionStateWritten r;
   mgr_EngineCallAttempted := mgr_EngineCallAttempted r; mgr_CommandsRun := mgr_CommandsRun r;
   mgr_SecretsResolved := mgr_SecretsResolved r; mgr_NetworkUsed := mgr_NetworkUsed r;
   mgr_TaskClaimed := mgr_TaskClaimed r; mgr_WorkerStarted := mgr_WorkerStarted r;
   mgr_LeaseCreated := mgr_LeaseCreated r; mgr_AttemptCreated := mgr_AttemptCreated r;
   mgr_ArtifactCreated := mgr_ArtifactCreated r; mgr_WriteSetPassed := mgr_WriteSetPassed r;
   mgr_VerificationPassed := mgr_VerificationPassed r;
   mgr_RollbackAttempted := mgr_RollbackAttempted r;
   mgr_RollbackVerified := mgr_RollbackVerified r |}.

Definition set_mgr_mismatch (writeSet : managedGeneratedWriteSet)
    (writeSetArtifact : ArtifactRecord) (r : ManagedGeneratedWriteResult) :
    ManagedGeneratedWriteResult :=
  {| mgr_Project := mgr_Project r; mgr_Version := mgr_Version r; mgr_Run := mgr_Run r;
   mgr_Worker := mgr_Worker r; mgr_Lease := mgr_Lease r; mgr_Task := mgr_Task r;
   mgr_CopyAttempt := mgr_CopyAttempt r; mgr_VerifyAttempt := mgr_VerifyAttempt r;
   mgr_RollbackAttempt := mgr_RollbackAttempt r; mgr_WriteSetArtifact := writeSetArtifact;
   mgr_PreimageArtifact := mgr_PreimageArtifact r; mgr_Artifact := mgr_Artifact r;
   mgr_Gate := mgr_Gate r; mgr_TargetPath := mgr_TargetPath r;
   mgr_ExpectedBeforeSHA256 := mgs_ExpectedBeforeSHA256 writeSet;
   mgr_ExpectedBeforeSize := mgs_ExpectedBeforeSize writeSet;
   mgr_AfterSHA256 := mgs_AfterSHA256 writeSet; mgr_AfterSize := mgs_AfterSize writeSet;
   mgr_RestoredSHA256 := mgr_RestoredSHA256 r; mgr_RestoredSize := mgr_RestoredSize r;
   mgr_Status := mgr_Status r; mgr_Decision := mgr_Decision r; mgr_Message := mgr_Message r;
   mgr_Blockers := mgr_Blockers r; mgr_Created := mgr_Created r;
   mgr_IdempotencyKey := mgr_IdempotencyKey r; mgr_EventID := mgr_EventID r;
   mgr_AuditEventID := mgr_AuditEventID r; mgr_GeneratedOnly := mgr_GeneratedOnly r;
   mgr_GeneratedOnlyApplyOpen := mgr_GeneratedOnlyApplyOpen r; mgr_ProjectReadAttempted := true;
   mgr_ProjectReadAllowed := true; mgr_ProjectWriteAttempted := mgr_ProjectWriteAttempted r;
   mgr_ProjectWriteAllowed := mgr_ProjectWriteAllowed r;
   mgr_ExecutionWriteAttempted := mgr_ExecutionWriteAttempted r;
   mgr_AreaFlowArtifactWritten := mgr_AreaFlowArtifactWritten r;
   mgr_AreaFlowExecutionStateWritten := mgr_AreaFlowExecutionStateWritten r;
   mgr_EngineCallAttempted := mgr_EngineCallAttempted r; mgr_CommandsRun := mgr_CommandsRun r;
   mgr_SecretsResolved := mgr_SecretsResolved r; mgr_NetworkUsed := mgr_NetworkUsed r;
   mgr_TaskClaimed := mgr_TaskClaimed r; mgr_WorkerStarted := mgr_WorkerStarted r;
   mgr_LeaseCreated := mgr_LeaseCreated r; mgr_AttemptCreated := mgr_AttemptCreated r;
   mgr_ArtifactCreated := mgr_ArtifactCreated r; mgr_WriteSetPassed := mgr_WriteSetPassed r;
   mgr_VerificationPassed := mgr_VerificationPassed r;
   mgr_RollbackAttempted := mgr_RollbackAttempted r;
   mgr_RollbackVerified := mgr_RollbackVerified r |}.

Definition deniedManagedGeneratedWriteResult (record : Record_) (version : WorkflowVersion)
    (run : RunRecord) (worker : WorkerRecord) (gate : ExecutionApprovalGate)
    (o : ManagedGeneratedWriteOptions) (message : string) (blockers : list string)
  : ManagedGeneratedWriteResult :=
  {| mgr_Project := record; mgr_Version := version; mgr_Run := run; mgr_Worker := worker;
   mgr_Lease := no_lease; mgr_Task := no_task; mgr_CopyAttempt := no_attempt;
   mgr_VerifyAttempt := no_attempt; mgr_RollbackAttempt := no_attempt;
   mgr_WriteSetArtifact := no_artifact; mgr_PreimageArtifact := no_artifact;
   mgr_Artifact := no_artifact; mgr_Gate := gate; mgr_TargetPath := "";
   mgr_ExpectedBeforeSHA256 := ""; mgr_ExpectedBeforeSize := 0; mgr_AfterSHA256 := "";
   mgr_AfterSize := 0; mgr_RestoredSHA256 := ""; mgr_RestoredSize := 0; mgr_Status := "blocked";
   mgr_Decision := "denied"; mgr_Message := message; mgr_Blockers := blockers;
   mgr_Created := true; mgr_IdempotencyKey := mgo_IdempotencyKey o; mgr_EventID := 0;
   mgr_AuditEventID := 0; mgr_GeneratedOnly := true; mgr_GeneratedOnlyApplyOpen := true;
   mgr_ProjectReadAttempted := false; mgr_ProjectReadAllowed := false;
   mgr_ProjectWriteAttempted := false; mgr_ProjectWriteAllowed := false;
   mgr_ExecutionWriteAttempted := false; mgr_AreaFlowArtifactWritten := false;
   mgr_AreaFlowExecutionStateWritten := false; mgr_EngineCallAttempted := false;
   mgr_CommandsRun := false; mgr_SecretsResolved := false; mgr_NetworkUsed := false;
   mgr_TaskClaimed := false; mgr_WorkerStarted := false; mgr_LeaseCreated := false;
   mgr_AttemptCreated := false; mgr_ArtifactCreated := false; mgr_WriteSetPassed := false;
   mgr_VerificationPassed := false; mgr_RollbackAttempted := false;
   mgr_RollbackVerified := false |}.

(** The caller's copy of the result keeps its zero event ids. *)
Definition finishDeniedManagedGeneratedWrite (env : Env) (r : ManagedGeneratedWriteResult)
    (o : ManagedGeneratedWriteOptions) : M unit :=
  eventID <- insertManagedGeneratedWriteEvent env r o ;;
  let r := set_mgr_event eventID r in
  auditEventID <- insertManagedGeneratedWriteAuditEvent env r o ;;
  let r := set_mgr_audit auditEventID r in
  completeCommandRequestResponse env (p_ID (mgr_Project r)) "worker.managed_generated_write"
    (mgo_IdempotencyKey o) (managedGeneratedWriteCommandResponse r).

Definition loadManagedGeneratedWriteByCommandResponse (record : Record_)
    (version : WorkflowVersion)
    (gate : ExecutionApprovalGate) (idempotencyKey : string) : M ManagedGeneratedWriteResult :=
  response <- loadCommandResponse (p_ID record) "worker.managed_generated_write" idempotencyKey ;;
  run <- loadRunForUpdate (metadataInt64 response "run_id") ;;
  worker <- load_if (metadataInt64 response "worker_id") no_worker
    (loadWorkerByID (p_ID record)) ;;
  task <- load_if (metadataInt64 response "run_task_id") no_task
    (loadRunTaskByID (p_ID record)) ;;
  lease <- load_if (metadataInt64 response "lease_id") no_lease (loadLeaseByID (p_ID record)) ;;
  artifact <- load_if (metadataInt64 response "artifact_id") no_artifact
                (loadArtifactByIDTx (p_ID record)) ;;
  ret {| mgr_Project := record; mgr_Version := version; mgr_Run := run; mgr_Worker := worker;
       mgr_Lease := lease; mgr_Task := task; mgr_CopyAttempt := no_attempt;
       mgr_VerifyAttempt := no_attempt; mgr_RollbackAttempt := no_attempt;
       mgr_WriteSetArtifact := no_artifact; mgr_PreimageArtifact := no_artifact;
       mgr_Artifact := artifact; mgr_Gate := gate;
       mgr_TargetPath := metadataString response "target_path";
       mgr_ExpectedBeforeSHA256 := metadataString response "expected_before_sha256";
       mgr_ExpectedBeforeSize := metadataInt64 response "expected_before_size";
       mgr_AfterSHA256 := metadataString response "after_sha256";
       mgr_AfterSize := metadataInt64 response "after_size";
       mgr_RestoredSHA256 := metadataString response "restored_sha256";
       mgr_RestoredSize := metadataInt64 response "restored_size";
       mgr_Status := metadataString response "status";
       mgr_Decision := metadataString response "decision";
       mgr_Message := metadataString response "message";
       mgr_Blockers := metadataStringSlice response "blockers"; mgr_Created := false;
       mgr_IdempotencyKey := idempotencyKey; mgr_EventID := metadataInt64 response "event_id";
       mgr_AuditEventID := metadataInt64 response "audit_event_id";
       mgr_GeneratedOnly := metadataBool response "generated_only";
       mgr_GeneratedOnlyApplyOpen := metadataBool response "generated_only_apply_open";
       mgr_ProjectReadAttempted := metadataBool response "project_read_attempted";
       mgr_ProjectReadAllowed := metadataBool response "project_read_allowed";
       mgr_ProjectWriteAttempted := metadataBool response "project_write_attempted";
       mgr_ProjectWriteAllowed := metadataBool response "project_write_allowed";
       mgr_ExecutionWriteAttempted := metadataBool response "execution_write_attempted";
       mgr_AreaFlowArtifactWritten := metadataBool response "area_flow_artifact_written";
       mgr_AreaFlowExecutionStateWritten := metadataBool response
         "area_flow_execution_state_written";
       mgr_EngineCallAttempted := metadataBool response "engine_call_attempted";
       mgr_CommandsRun := metadataBool response "commands_run";
       mgr_SecretsResolved := metadataBool response "secrets_resolved";
       mgr_NetworkUsed := metadataBool response "network_used";
       mgr_TaskClaimed := metadataBool response "task_claimed";
       mgr_WorkerStarted := metadataBool response "worker_started";
       mgr_LeaseCreated := metadataBool response "lease_created";
       mgr_AttemptCreated := metadataBool response "attempt_created";
       mgr_ArtifactCreated := metadataBool response "artifact_created";
       mgr_WriteSetPassed := metadataBool response "write_set_passed";
       mgr_VerificationPassed := metadataBool response "verification_passed";
       mgr_RollbackAttempted := metadataBool response "rollback_attempted";
       mgr_RollbackVerified := metadataBool response "rollback_verified" |}.

(** ** The command

    A denial is committed and returned together with an error. *)

Definition managedWrite_outcome : Type := ManagedGeneratedWriteResult * option error.

Definition managedWriteDenied (env : Env) (r : ManagedGeneratedWriteResult)
    (o : ManagedGeneratedWriteOptions) (e : error)
  : M (res error managedWrite_outcome) :=
  finishDeniedManagedGeneratedWrite env r o ;;;
  ret (Ok (r, Some e)).

(** From the changed target to the restored one: any error on the way runs
    the deferred restore. *)
Definition managedWriteVerify (env : Env) (os : WriteOS) (record : Record_)
    (o : ManagedGeneratedWriteOptions)
    (task : RunTaskRecord) (lease : LeaseRecord) (targetPath fullPath : string)
    (writeSet : managedGeneratedWriteSet) (writeSetArtifact : ArtifactRecord)
    (preimage : fixtureProjectFileImage) (preimageArtifact : ArtifactRecord)
  : M managedWriteDone :=
  restoring os fullPath (im_Content preimage)
   (afterImage <- readFixtureProjectFileImage os fullPath ;;
    copyAttempt <- insertManagedGeneratedWriteAttempt env record task lease "copy" "passed"
      [("target_path", JStr targetPath);
       ("expected_before_sha256", JStr (mgs_ExpectedBeforeSHA256 writeSet));
       ("after_sha256", JStr (im_SHA256 afterImage));
       ("after_size", JInt (im_SizeBytes afterImage));
       ("preimage_artifact_id", JInt (ar_ID preimageArtifact));
       ("write_set_artifact_id", JInt (ar_ID writeSetArtifact))] o ;;
    let verifyStatus :=
      if (im_SHA256 afterImage <>s mgs_AfterSHA256 writeSet)
         || negb (im_SizeBytes afterImage =? mgs_AfterSize writeSet)
      then "failed" else "passed" in
    verifyAttempt <- insertManagedGeneratedWriteAttempt env record task lease "verify"
      verifyStatus
      [("target_path", JStr targetPath); ("after_sha256", JStr (im_SHA256 afterImage));
       ("after_size", JInt (im_SizeBytes afterImage));
       ("expected_sha256", JStr (mgs_AfterSHA256 writeSet));
       ("expected_size", JInt (mgs_AfterSize writeSet))] o ;;
    if verifyStatus <>s "passed" then fail (ErrText "managed generated write verify failed")
    else
      write_file os WriteRollback fullPath (im_Content preimage)
        "rollback managed generated target" ;;;
      restoredImage <- readFixtureProjectFileImage os fullPath ;;
      if negb (same_image restoredImage preimage)
      then fail (ErrText "managed generated rollback did not restore expected hash")
      else ret (MkManagedWriteDone writeSet preimage afterImage restoredImage writeSetArtifact
                  preimageArtifact copyAttempt verifyAttempt)).

(** The restored target on: records only *)
Definition managedWriteFinish (env : Env) (record : Record_) (o : ManagedGeneratedWriteOptions)
    (gate : ExecutionApprovalGate) (run : RunRecord) (version : WorkflowVersion)
    (worker : WorkerRecord) (task : RunTaskRecord) (lease : LeaseRecord) (targetPath : string)
    (d : managedWriteDone) : M (res error managedWrite_outcome) :=
  let writeSet := md_writeSet d in
  let afterImage := md_afterImage d in
  let restoredImage := md_restoredImage d in
  let writeSetArtifact := md_writeSetArtifact d in
  let preimageArtifact := md_preimageArtifact d in
  let copyAttempt := md_copyAttempt d in
  let verifyAttempt := md_verifyAttempt d in
  rollbackAttempt <- insertManagedGeneratedWriteAttempt env record task lease "rollback" "passed"
    [("target_path", JStr targetPath); ("restored_sha256", JStr (im_SHA256 restoredImage));
     ("restored_size", JInt (im_SizeBytes restoredImage));
     ("preimage_artifact", JInt (ar_ID preimageArtifact))] o ;;
  reportArtifact <- writeAndInsertManagedGeneratedWriteReport env record version run worker task
    lease gate d rollbackAttempt o ;;
  released <- releaseLeaseForWorker env (p_ID record) worker (l_ID lease) "completed"
                (Some (mk [("managed_generated_write", JBool true);
                           ("generated_only", JBool true); ("target_path", JStr targetPath);
                           ("attempt_ids", jints
                             ([at_ID copyAttempt; at_ID verifyAttempt; at_ID rollbackAttempt]));
                           ("artifact_id", JInt (ar_ID reportArtifact))])) ;;
  updateRunTaskStatus env (t_ID task) "rollback_verified" ;;;
  updated <- updateManagedGeneratedWriteRunAfterTask env run o (ar_ID reportArtifact)
    (at_ID rollbackAttempt) targetPath writeSet restoredImage ;;
  let r :=
    {| mgr_Project := record; mgr_Version := version; mgr_Run := updated; mgr_Worker := worker;
     mgr_Lease := released; mgr_Task := (task_marked "rollback_verified" task);
     mgr_CopyAttempt := copyAttempt; mgr_VerifyAttempt := verifyAttempt;
     mgr_RollbackAttempt := rollbackAttempt; mgr_WriteSetArtifact := writeSetArtifact;
     mgr_PreimageArtifact := preimageArtifact; mgr_Artifact := reportArtifact; mgr_Gate := gate;
     mgr_TargetPath := targetPath;
     mgr_ExpectedBeforeSHA256 := mgs_ExpectedBeforeSHA256 writeSet;
     mgr_ExpectedBeforeSize := mgs_ExpectedBeforeSize writeSet;
     mgr_AfterSHA256 := im_SHA256 afterImage; mgr_AfterSize := im_SizeBytes afterImage;
     mgr_RestoredSHA256 := im_SHA256 restoredImage;
     mgr_RestoredSize := im_SizeBytes restoredImage; mgr_Status := "rollback_verified";
     mgr_Decision := "allowed";
     mgr_Message := "managed generated write verified and rolled back in fixture/temp project";
     mgr_Blockers := []; mgr_Created := true; mgr_IdempotencyKey := mgo_IdempotencyKey o;
     mgr_EventID := 0; mgr_AuditEventID := 0; mgr_GeneratedOnly := true;
     mgr_GeneratedOnlyApplyOpen := true; mgr_ProjectReadAttempted := true;
     mgr_ProjectReadAllowed := true; mgr_ProjectWriteAttempted := true;
     mgr_ProjectWriteAllowed := true; mgr_ExecutionWriteAttempted := false;
     mgr_AreaFlowArtifactWritten := true; mgr_AreaFlowExecutionStateWritten := true;
     mgr_EngineCallAttempted := false; mgr_CommandsRun := false; mgr_SecretsResolved := false;
     mgr_NetworkUsed := false; mgr_TaskClaimed := true; mgr_WorkerStarted := false;
     mgr_LeaseCreated := true; mgr_AttemptCreated := true; mgr_ArtifactCreated := true;
     mgr_WriteSetPassed := true; mgr_VerificationPassed := true; mgr_RollbackAttempted := true;
     mgr_RollbackVerified := true |} in
  eventID <- insertManagedGeneratedWriteEvent env r o ;;
  let r := set_mgr_event eventID r in
  auditEventID <- insertManagedGeneratedWriteAuditEvent env r o ;;
  let r := set_mgr_audit auditEventID r in
  completeCommandRequestResponse env (p_ID record) "worker.managed_generated_write"
    (mgo_IdempotencyKey o)
    (managedGeneratedWriteCommandResponse r) ;;;
  ret (Ok (r, None)).

Definition managedWriteClaim (env : Env) (os : WriteOS) (record : Record_)
    (o : ManagedGeneratedWriteOptions)
    (gate : ExecutionApprovalGate) (run : RunRecord) (version : WorkflowVersion)
    (worker : WorkerRecord) (task : RunTaskRecord) (targetPath fullPath : string)
    (writeSet : managedGeneratedWriteSet) (writeSetArtifact : ArtifactRecord)
    (preimage : fixtureProjectFileImage) : M (res error managedWrite_outcome) :=
  lease <- insertLeaseForTask env (p_ID record) worker task "managed_generated_write"
             (mgo_AllowedCapabilities o)
             (mk [("run_id", JInt (t_RunID task)); ("run_task_id", JInt (t_ID task));
                  ("task_key", JStr (t_TaskKey task)); ("task_kind", JStr (t_TaskKind task));
                  ("target_path", JStr targetPath); ("managed_generated_write", JBool true);
                  ("generated_only", JBool true); ("fixture_or_temp_only", JBool true);
                  ("approval_gated", JBool true)])
             (mgo_Metadata o) (mgo_LeaseTimeoutSeconds o) ;;
  updateRunTaskStatus env (t_ID task) "leased" ;;;
  preimageArtifact <- writeAndInsertManagedGeneratedPreimageArtifact env record version run task
    targetPath preimage o ;;
  write_file os WriteTarget fullPath (mgs_Content writeSet) "write managed generated target" ;;;
  d <- managedWriteVerify env os record o task lease targetPath fullPath writeSet writeSetArtifact
         preimage preimageArtifact ;;
  managedWriteFinish env record o gate run version worker task lease targetPath d.

(** A target the caller may write to: its write set, then its image *)
Definition managedWriteTarget (env : Env) (os : WriteOS) (record : Record_)
    (o : ManagedGeneratedWriteOptions)
    (gate : ExecutionApprovalGate) (run : RunRecord) (version : WorkflowVersion)
    (worker : WorkerRecord) (task : RunTaskRecord) (targetPath fullPath : string)
  : M (res error managedWrite_outcome) :=
  let denied := deniedManagedGeneratedWriteResult record version run worker gate o in
  loaded <- loadManagedGeneratedWriteSet os record
    (metadataInt64 (t_Metadata task) "write_set_artifact_id") ;;
  let '(writeSet, writeSetArtifact) := loaded in
  if mgs_TargetPath writeSet <>s targetPath
  then fail (ErrText "write-set target path mismatch")
  else
    preimage <- readFixtureProjectFileImage os fullPath ;;
    if (im_SHA256 preimage <>s mgs_ExpectedBeforeSHA256 writeSet)
       || negb (im_SizeBytes preimage =? mgs_ExpectedBeforeSize writeSet)
    then
      let blockers := ["expected-before hash or size does not match current generated file"] in
      managedWriteDenied env
        (set_mgr_mismatch writeSet writeSetArtifact
           (set_mgr_target targetPath (denied "expected-before mismatch" blockers))) o
        (ErrManagedGeneratedWriteBlocked blockers)
    else
      managedWriteClaim env os record o gate run version worker task targetPath fullPath writeSet
        writeSetArtifact preimage.

(** The task's target: may it be read and written, and is its path safe *)
Definition managedWriteTask (env : Env) (os : WriteOS) (record : Record_)
    (o : ManagedGeneratedWriteOptions)
    (gate : ExecutionApprovalGate) (run : RunRecord) (version : WorkflowVersion)
    (worker : WorkerRecord) (task : RunTaskRecord) : M (res error managedWrite_outcome) :=
  let denied := deniedManagedGeneratedWriteResult record version run worker gate o in
  let targetPath := metadataString (t_Metadata task) "target_path" in
  if negb (isManagedGeneratedPath targetPath) then
    let blockers := ["target path is outside generated-only prefixes"] in
    managedWriteDenied env (set_mgr_target targetPath
      (denied "generated prefix denied" blockers)) o
      (ErrManagedGeneratedWriteBlocked blockers)
  else
  db <- get_db ;;
  match canProjectPathInTx (db_project_permissions db) (p_ID record) "read_project"
          targetPath with
  | (false, reason) =>
      let blockers := ["target path is not readable: " +:+ reason] in
      managedWriteDenied env (set_mgr_target targetPath (denied "read path denied" blockers)) o
        (ErrManagedGeneratedWriteBlocked blockers)
  | (true, _) =>
  match canProjectPathInTx (db_project_permissions db) (p_ID record) "write_generated"
          targetPath with
  | (false, reason) =>
      let blockers := ["target path is not generated-writable: " +:+ reason] in
      managedWriteDenied env (set_mgr_target targetPath (denied "write path denied" blockers)) o
        (ErrManagedGeneratedWriteBlocked blockers)
  | (true, _) =>
  safe <- (fun w => (Ok (safeFixtureProjectWritePath os (p_RootPath record) targetPath w), w)) ;;
  match safe with
  | Err e =>
      let blockers := ["target path is unsafe: " +:+ e] in
      managedWriteDenied env (set_mgr_target targetPath (denied "write path unsafe" blockers)) o
        (ErrManagedGeneratedWriteBlocked blockers)
  | Ok fullPath =>
      managedWriteTarget env os record o gate run version worker task targetPath fullPath
  end
  end
  end.

Definition managedWriteBody (env : Env) (os : WriteOS) (record : Record_)
    (o : ManagedGeneratedWriteOptions)
    (gate : ExecutionApprovalGate) (run : RunRecord) (version : WorkflowVersion)
    (worker : WorkerRecord) : M (res error managedWrite_outcome) :=
  let denied := deniedManagedGeneratedWriteResult record version run worker gate o in
  if eg_Status gate <>s "pass" then
    managedWriteDenied env (denied "managed generated write gate blocked" (eg_Blockers gate)) o
      (ErrManagedGeneratedWriteBlocked (eg_Blockers gate))
  else if negb (isFixtureOrTempProjectRecord record) then
    managedWriteDenied env
      (denied "project is not fixture/temp scoped"
         ["managed generated write requires project key or kind to contain fixture or temp"]) o
      (ErrManagedGeneratedWriteBlocked ["project is not fixture/temp scoped"])
  else match missingWorkerCapabilities (w_Capabilities worker) (mgo_AllowedCapabilities o) with
  | (_ :: _) as missing =>
      managedWriteDenied env
        (denied "worker capability denied"
           ["worker missing required capabilities: " +:+ strings_join "," missing]) o
        (ErrWorkerCapabilityDenied missing)
  | [] =>
      db <- get_db ;;
      match canProjectCapabilityInTx (db_project_permissions db) (p_ID record)
              "write_artifacts" with
      | (false, reason) =>
          let blockers := ["project write_artifacts capability denied: " +:+ reason] in
          managedWriteDenied env (denied "project artifact write denied" blockers) o
            (ErrManagedGeneratedWriteBlocked blockers)
      | (true, _) =>
      match canProjectCapabilityInTx (db_project_permissions db) (p_ID record)
              "write_generated" with
      | (false, reason) =>
          let blockers := ["project write_generated capability denied: " +:+ reason] in
          managedWriteDenied env (denied "project generated write denied" blockers) o
            (ErrManagedGeneratedWriteBlocked blockers)
      | (true, _) =>
          next <- nextManagedGeneratedWriteTaskForLease env (p_ID record) (r_ID run) ;;
          match next with
          | None =>
              managedWriteDenied env
                (denied "no queued managed generated write task"
                   ["no queued or needs_recovery managed generated write task is available"]) o
                ErrNoLeaseAvailable
          | Some task => managedWriteTask env os record o gate run version worker task
          end
      end
      end
  end.

Definition managedWriteTx (env : Env) (os : WriteOS) (record : Record_)
    (o : ManagedGeneratedWriteOptions) (requestHash : string) : M
    (res error managedWrite_outcome) :=
  gate <- ExecutionApprovalGate_ (fun _ => None) (mgo_RunID o)
            (MkGateOptions (mgo_AllowedCapabilities o) true "managed_generated_write_gate") ;;
  run <- loadRunForUpdate (mgo_RunID o) ;;
  if negb (r_ProjectID run =? p_ID record) then fail ErrRunNotFound
  else
    version <- workflowVersionByIDTx (p_ID record) (r_WorkflowVersionID run) ;;
    worker <- loadWorkerForUpdate (p_ID record) (mgo_WorkerKey o) ;;
    with_command env (p_ID record) "worker.managed_generated_write" (mgo_IdempotencyKey o)
      requestHash
      (r <- loadManagedGeneratedWriteByCommandResponse record version gate
        (mgo_IdempotencyKey o) ;;
       ret (Ok (r, None)))
      (managedWriteBody env os record o gate run version worker).

Definition set_mgo_key (key : string) (o : ManagedGeneratedWriteOptions) :
    ManagedGeneratedWriteOptions :=
  {| mgo_WorkerKey := mgo_WorkerKey o; mgo_RunID := mgo_RunID o;
   mgo_AllowedCapabilities := mgo_AllowedCapabilities o;
   mgo_LeaseTimeoutSeconds := mgo_LeaseTimeoutSeconds o; mgo_Metadata := mgo_Metadata o;
   mgo_IdempotencyKey := key; mgo_Actor := mgo_Actor o; mgo_Reason := mgo_Reason o |}.

Definition managedWriteOptions (record : Record_) (options : ManagedGeneratedWriteOptions)
  : ManagedGeneratedWriteOptions :=
  let o := normalizeManagedGeneratedWriteOptions options in
  if mgo_IdempotencyKey o =s ""
  then set_mgo_key (managedGeneratedWriteIdempotencyKey record o
    (managedGeneratedWriteRequestHash record o)) o
  else o.

Definition WriteManagedGenerated (env : Env) (os : WriteOS) (record : Record_)
    (options : ManagedGeneratedWriteOptions) (w : World) : res error managedWrite_outcome *
    World :=
  if mgo_RunID options <=? 0 then (Err (ErrText "run id is required"), w)
  else
    transact (managedWriteTx env os record (managedWriteOptions record options)
                (managedGeneratedWriteRequestHash record
                  (normalizeManagedGeneratedWriteOptions options))) w.

#[export] Hint Unfold insertManagedGeneratedWriteRun insertManagedGeneratedWriteTask
   writeAndInsertManagedGeneratedWriteSetArtifact insertManagedGeneratedWriteQueueEvent
   insertManagedGeneratedWriteQueueAuditEvent loadManagedGeneratedWriteQueueByCommandResponse
   queueManagedWriteBody queueManagedWriteTx nextManagedGeneratedWriteTaskForLease
   remainingManagedGeneratedWriteTaskCount loadManagedGeneratedWriteSet
   writeAndInsertManagedGeneratedPreimageArtifact insertManagedGeneratedWriteAttempt
   writeAndInsertManagedGeneratedWriteReport updateManagedGeneratedWriteRunAfterTask
   insertManagedGeneratedWriteEvent insertManagedGeneratedWriteAuditEvent
   finishDeniedManagedGeneratedWrite loadManagedGeneratedWriteByCommandResponse
   managedWriteDenied managedWriteFinish managedWriteClaim managedWriteTarget managedWriteTask
   managedWriteBody managedWriteTx : prims.
