(* ===== verification/StatusFiles.v ===== *)
(** * The file system around a status file

    What [internal/project/status_projection_apply.go],
    [status_projection_authorization_preview.go] and
    [internal/status/exporter.go] see of the managed project's files: the
    contents are the files of the world; the answers of the operating system
    that the contents do not determine are a record of functions, by the place
    in the code that asks.  A status file is replaced by renaming a temporary
    file over it: it holds the old content or the new one, never a part. *)

From stdpp Require Import base list strings numbers gmap.
From Stdlib Require Import ZArith Lia Ascii String.
From S2P Require Import Prelude GoString FilePath.

(** Where a file or its metadata is read *)
Inductive status_read : Type :=
| ReadPreview    (** the authorization preview *)
| ReadPreimage   (** before the write *)
| ReadExporter   (** the exporter, looking at the file it may keep *)
| ReadWritten    (** verification of the write *)
| ReadFailed     (** after an error of the writer *)
| ReadRollback.  (** the rollback *)

Inductive status_write : Type := ReplaceExport | ReplaceRollback.

(** The statements after the write, in order *)
Inductive status_step : Type :=
| StepSnapshot | StepProjection | StepEvent | StepAudit | StepComplete | StepCommit.

(** What [os.Lstat] and reading a directory say below a protected path; an
    [LError] is the text of an error.  The entries of a directory come in the
    order [os.ReadDir] sorts them in. *)
Inductive lnode : Type :=
| LMissing
| LError (text : string)
| LFile
| LSymlink (target : string)
| LOther (mode : string) (size : Z)
| LDir (entries : list (string * lnode)).

(** [so_StatError] and [so_ReadError] are errors other than the absence of the
    file.  [so_MapOrder] is the order a Go map with the given keys is ranged
    over in, [so_JSONError] the text of the decoder's error.  [so_DBError] is
    the error of a statement whose outcome the rows do not determine. *)
Record StatusOS := MkStatusOS {
  so_Getwd : res string string;
  so_EvalSymlinks : string -> res string string;
  so_IsDir : string -> bool;
  so_StatError : status_read -> string -> option string;
  so_ReadError : status_read -> string -> option string;
  so_MkdirAll : string -> option string;
  so_Replace : status_write -> string -> option string;
  so_Remove : string -> option string;
  so_Lstat : status_read -> string -> lnode;
  so_MapOrder : list string -> list string;
  so_JSONError : string -> string;
  so_DBError : status_step -> option string }.

(** ** Paths *)

(** [filepath.Abs] *)
Definition filepath_abs (os : StatusOS) (path : string) : res string string :=
  if is_abs path then Ok (path_clean path)
  else match so_Getwd os with
       | Ok wd => Ok (path_join [wd; path])
       | Err e => Err e
       end.

(** [filepath.Dir] *)
Definition path_dir (path : string) : string :=
  match removelast (split_slash path) with
  | [] => "."
  | l => path_clean (strings_join "/" l +:+ "/")
  end.

(** ** Files *)

Inductive stat_result : Type :=
| StatMissing
| StatFailed (text : string)
| StatDir
| StatFile (size : Z).

Definition no_such_file (op path : string) : string :=
  op +:+ " " +:+ path +:+ ": no such file or directory".

(** [os.Stat] *)
Definition os_stat (os : StatusOS) (at_ : status_read) (path : string)
    (files : gmap string string) : stat_result :=
  match so_StatError os at_ path with
  | Some e => StatFailed e
  | None =>
      if so_IsDir os path then StatDir
      else match files !! path with
           | Some content => StatFile (len content)
           | None => StatMissing
           end
  end.

(** [os.ReadFile] *)
Definition os_read_file (os : StatusOS) (at_ : status_read) (path : string)
    (files : gmap string string) : res string string :=
  match so_ReadError os at_ path with
  | Some e => Err e
  | None =>
      match files !! path with
      | Some content => Ok content
      | None => Err (no_such_file "open" path)
      end
  end.

(** A temporary file with the content renamed over the target: [None] when it
    was replaced, else the error *)
Definition replace_atomically (os : StatusOS) (at_ : status_write) (path content : string)
    (files : gmap string string) : option string * gmap string string :=
  match so_Replace os at_ path with
  | Some e => (Some e, files)
  | None => (None, <[path := content]> files)
  end.

(** [os.Remove]; the absence of the file is no error to the callers. *)
Definition os_remove (os : StatusOS) (path : string) (files : gmap string string)
  : option string * gmap string string :=
  match so_Remove os path with
  | Some e => (Some e, files)
  | None => (None, delete path files)
  end.

Example path_dir_ex :
  List.map path_dir ["/srv/p/.areaflow/status.json"; "/a"; "a"; "a/b"; "/"]
  = ["/srv/p/.areaflow"; "/"; "."; "a"; "/"].
Proof. vm_compute. reflexivity. Qed.

(** ** Absolute paths *)

Lemma clean_fold_rooted cs out :
  Forall (fun c => has_slash c = false) cs -> Forall (fun c => normal c = true) out ->
  Forall (fun c => normal c = true) (fold_left (clean_step true) cs out).
Proof.
  revert out. induction cs as [|c cs IH]; cbn [fold_left]; intros out Hs Ho; [done|].
  inversion Hs as [|? ? Hc Hcs]; subst. apply IH; [done|]. unfold clean_step.
  destruct (c =s "") eqn:E1; [done|]. destruct (c =s ".") eqn:E2; [done|]. cbn [orb].
  destruct (c =s "..") eqn:E3.
  - destruct out as [|x out]; [done|]. inversion Ho as [|? ? Hx Hout]; subst.
    by rewrite (normal_not_dotdot x Hx).
  - constructor; [|done]. unfold normal. by rewrite E1, E2, E3, Hc.
Qed.

Lemma path_clean_abs path : is_abs path = true ->
  exists ns, Forall (fun c => normal c = true) ns /\ path_clean path = "/" +:+ strings_join "/" ns.
Proof.
  intros H. unfold path_clean. rewrite H. eexists. split; [|done]. unfold clean_components.
  apply Forall_rev, clean_fold_rooted; [apply split_slash_no_slash|done].
Qed.

(** An absolute path in the form [filepath.Clean] gives *)
Definition abs_clean (path : string) : Prop := is_abs path = true /\ path_clean path = path.

Lemma path_clean_abs_clean path : is_abs path = true -> abs_clean (path_clean path).
Proof.
  intros H. destruct (path_clean_abs path H) as (ns & Hns & ->). split; [done|].
  destruct ns as [|n ns]; [done|]. by apply path_clean_rooted.
Qed.

Lemma path_join_abs_clean root rest : is_abs root = true -> abs_clean (path_join (root :: rest)).
Proof.
  intros H. unfold path_join. cbn [List.filter]. destruct root as [|c root]; [done|].
  change (String c root <>s "") with true. cbv iota. apply path_clean_abs_clean.
  by destruct (List.filter _ rest).
Qed.

(** The working directory is an absolute path. *)
Class AbsoluteWd (os : StatusOS) : Prop :=
  getwd_abs : forall wd, so_Getwd os = Ok wd -> is_abs wd = true.

Lemma filepath_abs_clean os `{!AbsoluteWd os} path a :
  filepath_abs os path = Ok a -> abs_clean a.
Proof.
  unfold filepath_abs. destruct (is_abs path) eqn:E; [intros [= <-]; by apply path_clean_abs_clean|].
  destruct (so_Getwd os) as [wd|] eqn:Ew; [|done]. intros [= <-].
  apply path_join_abs_clean. by apply getwd_abs.
Qed.

Lemma filepath_abs_id os path : abs_clean path -> filepath_abs os path = Ok path.
Proof. intros [H1 H2]. unfold filepath_abs. by rewrite H1, H2. Qed.
