(* ===== verification/StatusShape.v ===== *)
(** * The shape of a status file

    The stable projection document: exactly the keys listed here, at every
    level.  [internal/status/exporter.go] checks it before it writes a status
    file, [internal/project/status_projection_apply.go] after one was written. *)

From stdpp Require Import base list strings numbers.
From Stdlib Require Import ZArith Lia String.
From S2P Require Import Prelude GoString Json JsonText JsonDecode StatusFiles.

Definition documentKeys : list string :=
  ["schema_version"; "project_id"; "project_name"; "area_flow_url"; "cutover_phase";
   "active_versions"; "last_synced_at"; "source_snapshot_hash"; "compatibility"].
Definition versionKeys : list string :=
  ["display_label"; "version_kind"; "lifecycle_status"; "rough_progress"].
Definition progressKeys : list string := ["percent"; "label"; "blocked"].
Definition compatibilityKeys : list string :=
  ["shim_lifecycle_state"; "offline_source"; "blocked_commands"].

(** Go's [if err != nil { return err }] on texts *)
Definition then_ok {A} (r : res string unit) (k : res string A) : res string A :=
  match r with Ok _ => k | Err e => Err e end.

Section Shape.
Context (os : StatusOS).

Definition validateExactKeys (scope : string) (document : list (string * jtext))
    (allowed : list string) : res string unit :=
  match List.find (fun k => match text_get k document with Some _ => false | None => true end)
          allowed with
  | Some key => Err (scope +:+ " missing required key " +:+ key)
  | None =>
      match List.find (fun k => negb (str_in k allowed)) (so_MapOrder os (tkeys document)) with
      | Some key => Err (scope +:+ " has unexpected key " +:+ key)
      | None => Ok tt
      end
  end.

(** [internal/project] repeats the function. *)
Definition statusProjectionVerifyExactKeys := validateExactKeys.

Definition version_scope (index : Z) : string := "active_versions[" +:+ fmt_d index +:+ "]".

(** One turn of the loop over the versions *)
Definition check_version (index : Z) (raw : jtext) : res string unit :=
  match raw with
  | TObj version =>
      then_ok (validateExactKeys (version_scope index) version versionKeys)
        match text_get "rough_progress" version with
        | Some (TObj progress) =>
            validateExactKeys (version_scope index +:+ ".rough_progress") progress progressKeys
        | _ => Err (version_scope index +:+ ".rough_progress must be an object")
        end
  | _ => Err (version_scope index +:+ " must be an object")
  end.

Fixpoint check_versions (index : Z) (versions : list jtext) : res string unit :=
  match versions with
  | [] => Ok tt
  | v :: rest => then_ok (check_version index v) (check_versions (index + 1) rest)
  end.

(** The checks after the keys of the document *)
Definition check_parts (document : list (string * jtext)) : res string unit :=
  match text_get "active_versions" document with
  | Some (TArr versions) =>
      then_ok (check_versions 0 versions)
        match text_get "compatibility" document with
        | Some (TObj compatibility) =>
            validateExactKeys "compatibility" compatibility compatibilityKeys
        | _ => Err "compatibility must be an object"
        end
  | _ => Err "active_versions must be an array"
  end.

Definition parse_document (content : string) : res string (list (string * jtext)) :=
  match unmarshal_map content with
  | Some document => Ok document
  | None => Err ("stable projection JSON must parse: " +:+ so_JSONError os content)
  end.

Definition validateStableExportJSON (content : string) : res string unit :=
  match parse_document content with
  | Err e => Err e
  | Ok document =>
      then_ok (validateExactKeys "status projection" document documentKeys) (check_parts document)
  end.

(** [verifyStableStatusProjectionJSON]: also the hash of the snapshot the file
    was made from *)
Definition verifyStableStatusProjectionJSON (content expectedSourceHash : string)
  : res string unit :=
  match parse_document content with
  | Err e => Err e
  | Ok document =>
      then_ok (statusProjectionVerifyExactKeys "status projection" document documentKeys)
        (let got := trim_space (text_value (text_get "source_snapshot_hash" document)) in
         if (got =s "") || (got <>s trim_space expectedSourceHash)
         then Err ("source_snapshot_hash mismatch: actual " +:+ got +:+ " != expected "
                   +:+ trim_space expectedSourceHash)
         else check_parts document)
  end.
End Shape.
