(* ===== verification/StatusStore.v ===== *)
(** * Status snapshots and projections in the store

    [internal/project/store.go]: the import snapshots of a project, the
    projections recorded for its targets, and the record of an export.  A
    [jsonb] value decoded into a Go map is an object, or [null] for the nil
    map; anything else is an error. *)

From stdpp Require Import base list strings numbers gmap.
From Stdlib Require Import ZArith Lia String.
From S2P Require Import Prelude GoString Sha256 Json Schema Tx Command Worker Profile Workflow Gates.

(** [Summary] is [JNull] for the nil map. *)
Record Snapshot := MkSnapshot { sn_Summary : json; sn_SourceHash : string; sn_CreatedAt : Z }.

(** [var m map[string]any; json.Unmarshal(raw, &m)] on a stored value *)
Definition unmarshal_object (j : json) : option json :=
  match j with
  | JNull => Some JNull
  | JObj m => Some (JObj (jmap_decode m))
  | _ => None
  end.

(** The members of a map; the nil map has none. *)
Definition summary_members (j : json) : jmap := match j with JObj m => m | _ => [] end.

Definition import_snapshot (projectID : Z) (s : StatusSnapshotRow) : bool :=
  (ss_ProjectID s =? projectID) && (ss_SnapshotKind s =s "import").

Definition scan_snapshot (message : string) (s : StatusSnapshotRow) : M Snapshot :=
  match unmarshal_object (ss_Summary s) with
  | Some summary => ret (MkSnapshot summary (ss_SourceHash s) (ss_CreatedAt s))
  | None => fail (ErrText message)
  end.

Definition LatestImportSnapshot (projectID : Z) : M Snapshot :=
  rows <- select_rows (import_snapshot projectID) ;;
  s <- first_row (sort_stable (later ss_CreatedAt ss_ID) rows) ;;
  scan_snapshot "parse latest import snapshot" s.

Fixpoint scan_snapshots (rows : list StatusSnapshotRow) : M (list Snapshot) :=
  match rows with
  | [] => ret []
  | s :: rest =>
      snapshot <- scan_snapshot "parse recent import snapshot" s ;;
      snapshots <- scan_snapshots rest ;;
      ret (snapshot :: snapshots)
  end.

Definition RecentImportSnapshots (projectID limit : Z) : M (list Snapshot) :=
  rows <- select_rows (import_snapshot projectID) ;;
  scan_snapshots (limit_rows 2 limit (sort_stable (later ss_CreatedAt ss_ID) rows)).

Definition scanStatusProjectionRecord (p : StatusProjectionRecord) : M StatusProjectionRecord :=
  match unmarshal_object (sj_Payload p) with
  | Some payload =>
      ret (MkStatusProjection (sj_ID p) (sj_ProjectID p) (sj_WorkflowVersionID p)
             (sj_TargetKind p) (sj_TargetURI p) (sj_SummaryState p) payload
             (sj_SourceEventID p) (sj_SourceHash p) (sj_WriteState p) (sj_GeneratedAt p)
             (sj_WrittenAt p) (jmap_decode (sj_Metadata p)))
  | None => fail (ErrText "parse status projection payload")
  end.

Fixpoint scan_projections (rows : list StatusProjectionRecord)
  : M (list StatusProjectionRecord) :=
  match rows with
  | [] => ret []
  | p :: rest =>
      projection <- scanStatusProjectionRecord p ;;
      projections <- scan_projections rest ;;
      ret (projection :: projections)
  end.

Definition ListStatusProjections (record : Record_) (limit : Z)
  : M (list StatusProjectionRecord) :=
  if p_ID record <=? 0 then fail (ErrText "project id is required")
  else
    rows <- select_rows (fun p => sj_ProjectID p =? p_ID record) ;;
    scan_projections (limit_rows 20 limit (sort_stable (later sj_GeneratedAt sj_ID) rows)).

Definition statusProjectionSummaryState (summary : json) : string :=
  match mget "summary_state" (summary_members summary) with
  | Some (JStr s) => if trim_space s <>s "" then trim_space s else "mirroring"
  | _ => "mirroring"
  end.

(** ** Recording an export

    The summary is a map that is not nil. *)

Definition statusProjectionWriteIdempotencyKey (path sourceHash summaryJSON : string) : string :=
  "project.status_projection.write:" +:+ trim_default "unknown-target" path +:+ ":"
  +:+ trim_default "no-source-hash" sourceHash +:+ ":" +:+ shortSHA256Hex summaryJSON.

Definition statusProjectionWriteRequestHash (path : string) (summary : jmap)
    (sourceHash : string) : string :=
  request_hash
    [("command_type", JStr "project.status_projection.write");
     ("target_kind", JStr "project_status_json"); ("target_uri", JStr (trim_space path));
     ("source_hash", JStr (trim_space sourceHash)); ("payload", JObj summary)].

Definition insert_mirror_snapshot (env : Env) (projectID : Z) (summary : json)
    (sourceHash path : string) : M Z :=
  s <- insert_row (fun id =>
         MkStatusSnapshot id projectID "mirror_export" summary sourceHash path (env_now env)) ;;
  ret (ss_ID s).

Definition statusExportBody (env : Env) (projectID : Z) (path : string) (summary : jmap)
    (sourceHash key : string) : M (res error unit) :=
  snapshotID <- insert_mirror_snapshot env projectID (JObj summary) sourceHash path ;;
  audit <- insert_row (fun id =>
             MkAudit id projectID 0 "status.export" "write_status" "path" path "allowed"
               "explicit status mirror export" summary (env_now env)) ;;
  projection <- insert_row (fun id =>
                  MkStatusProjection id projectID 0 "project_status_json" path
                    (statusProjectionSummaryState (JObj summary)) (JObj summary) 0 sourceHash
                    "written" (env_now env) (Some (env_now env))
                    (mk [("legacy_snapshot_kind", JStr "mirror_export");
                         ("write_boundary", JStr "status_export");
                         ("command_type", JStr "project.status_projection.write")])) ;;
  completeCommandRequestResponse env projectID "project.status_projection.write" key
    (mk [("snapshot_id", JInt snapshotID); ("audit_event_id", JInt (au_ID audit));
         ("status_projection_id", JInt (sj_ID projection));
         ("target_kind", JStr "project_status_json"); ("target_uri", JStr path);
         ("source_hash", JStr sourceHash)]) ;;;
  ret (Ok tt).

(** A repeated request returns at once. *)
Definition RecordStatusExport (env : Env) (projectID : Z) (path : string) (summary : jmap)
    (sourceHash : string) (w : World) : res error unit * World :=
  let key := statusProjectionWriteIdempotencyKey path sourceHash (marshal (JObj summary)) in
  transact (with_command env projectID "project.status_projection.write" key
    (statusProjectionWriteRequestHash path summary sourceHash) (ret (Ok tt))
    (statusExportBody env projectID path summary sourceHash key)) w.

#[export] Hint Unfold insert_mirror_snapshot statusExportBody : prims.
