(* ===== verification/StatusExport.v ===== *)
(** * The status exporter

    [internal/status/exporter.go]: the status file of a project, made from its
    latest import snapshot, and the write that replaces the file unless it
    already says the same. *)

From stdpp Require Import base list strings numbers gmap.
From Stdlib Require Import ZArith Lia String.
From S2P Require Import Prelude GoString Sha256 Json JsonText JsonDecode GoTime Schema Tx Command FilePath ReadOnlyVerify.
From S2P Require Import StatusFiles StatusShape StatusStore.

Record RoughProgress := MkRoughProgress {
  rg_Percent : Z; rg_Label : string; rg_Blocked : bool }.

Record ActiveVersion := MkActiveVersion {
  ev_DisplayLabel : string; ev_VersionKind : string; ev_LifecycleStatus : string;
  ev_RoughProgress : RoughProgress }.

Record CompatibilitySummary := MkCompatibility {
  cm_ShimLifecycleState : string; cm_OfflineSource : string; cm_BlockedCommands : list string }.

Record ExportDocument := MkExportDocument {
  ed_SchemaVersion : Z; ed_ProjectID : string; ed_ProjectName : string; ed_AreaFlowURL : string;
  ed_CutoverPhase : string; ed_ActiveVersions : list ActiveVersion; ed_LastSyncedAt : string;
  ed_SourceSnapshotHash : string; ed_Compatibility : CompatibilitySummary }.

Record WriteResult := MkWriteResult {
  wr_Target : string; wr_Hash : string; wr_Size : Z; wr_RootContained : bool;
  wr_StableProjectionValidated : bool; wr_AtomicReplaceUsed : bool }.

(** ** Reading the summary *)

Definition stringValue (data : jmap) (key : string) : string :=
  match mget key data with Some (JStr s) => s | _ => "" end.

Definition sliceValue (value : option json) : list json :=
  match value with Some (JArr l) => l | _ => [] end.

Definition nestedValue (data : jmap) (outer inner : string) : option json :=
  match mget outer data with Some (JObj nested) => mget inner nested | _ => None end.

Definition intValue (value : option json) : Z :=
  match value with Some v => anyInt64 v | None => 0 end.

Definition projectName (record : Record_) : string :=
  if p_Name record <>s "" then p_Name record else p_Key record.

Definition areaFlowURL (record : Record_) (summary : jmap) : string :=
  let value := stringValue summary "area_flow_url" in
  if value <>s "" then value else "http://127.0.0.1:3847/projects/" +:+ p_Key record.

Fixpoint first_value (summary : jmap) (keys : list string) : string :=
  match keys with
  | [] => "import_mirror"
  | key :: rest =>
      let value := stringValue summary key in
      if value <>s "" then value else first_value summary rest
  end.

Definition cutoverPhase (summary : jmap) : string :=
  first_value summary ["cutover_phase"; "shim_lifecycle_state"; "migration_phase"].

Definition shimLifecycleState (phase : string) : string :=
  if str_in phase ["read_only_shim"; "execution_forwarding"; "retired_thin_entry"] then phase
  else "not_installed".

Definition lifecycleBlocked (value : string) : bool :=
  str_in value ["blocked"; "blocked-external"; "blocked-decision"; "mixed-blocked"].

Definition clampPercent (value : Z) : Z :=
  if value <? 0 then 0 else if 100 <? value then 100 else value.

Definition roughProgress (label lifecycle : string) (summary : jmap) : RoughProgress :=
  let total := intValue (nestedValue summary "v1_execution" "total") in
  let done_ := intValue (nestedValue summary "v1_execution" "done") in
  if (label =s "v1-mvp") && (0 <? total)
  then MkRoughProgress (clampPercent (Z.quot (wrap64 (done_ * 100)) total))
         (fmt_d done_ +:+ "/" +:+ fmt_d total +:+ " v1 execution tasks completed")
         (lifecycleBlocked lifecycle)
  else MkRoughProgress (if lifecycle =s "archived" then 100 else 0)
         ("workflow version " +:+ lifecycle) (lifecycleBlocked lifecycle).

Definition active_version (summary : jmap) (item : json) : list ActiveVersion :=
  match item with
  | JObj version =>
      let label := stringValue version "display_label" in
      if label =s "" then []
      else
        let lifecycle := stringValue version "lifecycle_status" in
        let lifecycle := if lifecycle =s "" then "unknown" else lifecycle in
        let kind := stringValue version "version_kind" in
        let kind := if kind =s "" then "workflow_version" else kind in
        [MkActiveVersion label kind lifecycle (roughProgress label lifecycle summary)]
  | _ => []
  end.

Definition activeVersions (summary : jmap) : list ActiveVersion :=
  match flat_map (active_version summary) (sliceValue (mget "versions" summary)) with
  | [] =>
      if 0 <? intValue (nestedValue summary "v1_execution" "total")
      then [MkActiveVersion "v1-mvp" "workflow_version" "imported"
              (roughProgress "v1-mvp" "imported" summary)]
      else []
  | versions => versions
  end.

(** ** The document *)

Definition progress_json (p : RoughProgress) : json :=
  JObj [("percent", JInt (rg_Percent p)); ("label", JStr (rg_Label p));
        ("blocked", JBool (rg_Blocked p))].

Definition version_json (v : ActiveVersion) : json :=
  JObj [("display_label", JStr (ev_DisplayLabel v)); ("version_kind", JStr (ev_VersionKind v));
        ("lifecycle_status", JStr (ev_LifecycleStatus v));
        ("rough_progress", progress_json (ev_RoughProgress v))].

Definition compatibility_json (c : CompatibilitySummary) : json :=
  JObj [("shim_lifecycle_state", JStr (cm_ShimLifecycleState c));
        ("offline_source", JStr (cm_OfflineSource c));
        ("blocked_commands", jstrs (cm_BlockedCommands c))].

(** The struct marshals its fields in declaration order. *)
Definition document_json (d : ExportDocument) : json :=
  JObj [("schema_version", JInt (ed_SchemaVersion d)); ("project_id", JStr (ed_ProjectID d));
        ("project_name", JStr (ed_ProjectName d)); ("area_flow_url", JStr (ed_AreaFlowURL d));
        ("cutover_phase", JStr (ed_CutoverPhase d));
        ("active_versions", JArr (List.map version_json (ed_ActiveVersions d)));
        ("last_synced_at", JStr (ed_LastSyncedAt d));
        ("source_snapshot_hash", JStr (ed_SourceSnapshotHash d));
        ("compatibility", compatibility_json (ed_Compatibility d))].

(** The struct types, for the decoder *)
Definition RoughProgress_type : gtype :=
  GStruct [("percent", GInt); ("label", GString); ("blocked", GBool)].
Definition ActiveVersion_type : gtype :=
  GStruct [("display_label", GString); ("version_kind", GString); ("lifecycle_status", GString);
           ("rough_progress", RoughProgress_type)].
Definition Compatibility_type : gtype :=
  GStruct [("shim_lifecycle_state", GString); ("offline_source", GString);
           ("blocked_commands", GSlice GString)].
Definition ExportDocument_type : gtype :=
  GStruct [("schema_version", GInt); ("project_id", GString); ("project_name", GString);
           ("area_flow_url", GString); ("cutover_phase", GString);
           ("active_versions", GSlice ActiveVersion_type); ("last_synced_at", GString);
           ("source_snapshot_hash", GString); ("compatibility", Compatibility_type)].

Definition progress_value (p : RoughProgress) : gval :=
  VStruct [("percent", VInt (rg_Percent p)); ("label", VString (rg_Label p));
           ("blocked", VBool (rg_Blocked p))].
Definition version_value (v : ActiveVersion) : gval :=
  VStruct [("display_label", VString (ev_DisplayLabel v));
           ("version_kind", VString (ev_VersionKind v));
           ("lifecycle_status", VString (ev_LifecycleStatus v));
           ("rough_progress", progress_value (ev_RoughProgress v))].
Definition document_value (d : ExportDocument) : gval :=
  VStruct [("schema_version", VInt (ed_SchemaVersion d)); ("project_id", VString (ed_ProjectID d));
           ("project_name", VString (ed_ProjectName d));
           ("area_flow_url", VString (ed_AreaFlowURL d));
           ("cutover_phase", VString (ed_CutoverPhase d));
           ("active_versions", VSlice (Some (List.map version_value (ed_ActiveVersions d), [])));
           ("last_synced_at", VString (ed_LastSyncedAt d));
           ("source_snapshot_hash", VString (ed_SourceSnapshotHash d));
           ("compatibility",
             VStruct [("shim_lifecycle_state",
                        VString (cm_ShimLifecycleState (ed_Compatibility d)));
                      ("offline_source", VString (cm_OfflineSource (ed_Compatibility d)));
                      ("blocked_commands",
                        VSlice (Some (List.map VString (cm_BlockedCommands (ed_Compatibility d)),
                                      [])))])].

Definition sameDocumentExceptGenerated (a b : gval) : bool :=
  let clear v := VStruct (set_field "last_synced_at" (VString "") (fields_of v)) in
  deep_equal (clear a) (clear b).

(** ** Validation *)

Definition is_blank (s : string) : bool := trim_space s =s "".

Definition required_fields (d : ExportDocument) : list (string * string) :=
  [("project_id", ed_ProjectID d); ("project_name", ed_ProjectName d);
   ("area_flow_url", ed_AreaFlowURL d); ("cutover_phase", ed_CutoverPhase d);
   ("last_synced_at", ed_LastSyncedAt d); ("source_snapshot_hash", ed_SourceSnapshotHash d)].

Definition lookup_str (key : string) (l : list (string * string)) : string :=
  match List.find (fun kv => fst kv =s key) l with Some kv => snd kv | None => "" end.

Definition refuse_when (b : bool) (message : string) : res string unit :=
  if b then Err message else Ok tt.

Definition validate_version (index : Z) (v : ActiveVersion) : res string unit :=
  let p := ev_RoughProgress v in
  let scope := version_scope index in
  then_ok (refuse_when (is_blank (ev_DisplayLabel v)) (scope +:+ ".display_label is required"))
  (then_ok (refuse_when (is_blank (ev_VersionKind v)) (scope +:+ ".version_kind is required"))
  (then_ok (refuse_when (is_blank (ev_LifecycleStatus v)) (scope +:+ ".lifecycle_status is required"))
  (then_ok (refuse_when ((rg_Percent p <? 0) || (100 <? rg_Percent p))
              (scope +:+ ".rough_progress.percent must be between 0 and 100"))
     (refuse_when (is_blank (rg_Label p)) (scope +:+ ".rough_progress.label is required"))))).

Fixpoint validate_versions (index : Z) (l : list ActiveVersion) : res string unit :=
  match l with
  | [] => Ok tt
  | v :: rest => then_ok (validate_version index v) (validate_versions (index + 1) rest)
  end.

Fixpoint validate_commands (index : Z) (l : list string) : res string unit :=
  match l with
  | [] => Ok tt
  | c :: rest =>
      then_ok (refuse_when (is_blank c)
                 ("compatibility.blocked_commands[" +:+ fmt_d index +:+ "] is required"))
        (validate_commands (index + 1) rest)
  end.

Section Exporting.
Context (os : StatusOS).

Definition validateExportDocument (d : ExportDocument) : res string unit :=
  let c := ed_Compatibility d in
  if negb (ed_SchemaVersion d =? 1) then Err "schema_version must be 1"
  else match List.find (fun key => is_blank (lookup_str key (required_fields d)))
               (so_MapOrder os (List.map fst (required_fields d))) with
       | Some key => Err (key +:+ " is required")
       | None =>
           then_ok (validate_versions 0 (ed_ActiveVersions d))
           (then_ok (refuse_when (is_blank (cm_ShimLifecycleState c))
                       "compatibility.shim_lifecycle_state is required")
           (then_ok (refuse_when (is_blank (cm_OfflineSource c))
                       "compatibility.offline_source is required")
              match cm_BlockedCommands c with
              | [] => Err "compatibility.blocked_commands is required"
              | l => validate_commands 0 l
              end))
       end.

Definition marshalStableExportDocument (d : ExportDocument) : res string string :=
  match validateExportDocument d with
  | Err e => Err e
  | Ok _ =>
      let content := marshal_indent (document_json d) +:+ newline in
      match validateStableExportJSON os content with
      | Err e => Err e
      | Ok _ => Ok content
      end
  end.

(** ** The target *)

(** The target below the root, and the root *)
Definition statusTargetPath (record : Record_) (relPath : string)
  : res string (string * string) :=
  if is_blank (p_RootPath record) then Err ("project " +:+ p_Key record +:+ " has no root path")
  else
    let cleanRel := path_clean (trim_space relPath) in
    if (cleanRel =s ".") || (cleanRel =s "")
    then Err "status export target path is required"
    else if is_abs cleanRel
    then Err "status export target must be relative to the project root"
    else match filepath_abs os (p_RootPath record) with
         | Err e => Err ("resolve project root: " +:+ e)
         | Ok root =>
             match filepath_abs os (path_join [root; cleanRel]) with
             | Err e => Err ("resolve status export target: " +:+ e)
             | Ok target =>
                 match path_rel root target with
                 | Err e => Err ("compare status export target with project root: " +:+ e)
                 | Ok rel =>
                     if (rel =s ".") || (rel =s "..") || has_prefix "../" rel
                     then Err "status export target escapes the project root"
                     else Ok (target, root)
                 end
             end
         end.

Definition ensureStatusTargetParentContained (root target : string) : res string unit :=
  match so_EvalSymlinks os root with
  | Err e => Err ("resolve project root symlinks: " +:+ e)
  | Ok resolvedRoot =>
      match so_EvalSymlinks os (path_dir target) with
      | Err e => Err ("resolve status export parent symlinks: " +:+ e)
      | Ok resolvedParent =>
          match path_rel resolvedRoot resolvedParent with
          | Err e => Err ("compare status export parent with project root: " +:+ e)
          | Ok rel =>
              if (rel =s "..") || has_prefix "../" rel
              then Err "status export parent escapes the project root" else Ok tt
          end
      end
  end.

(** ** The write *)

Definition blockedCommands : list string :=
  ["./task-loop run"; "promotion apply"; "write execution"].

Definition exportDocument (env : Env) (record : Record_) (snapshot : Snapshot) (relPath : string)
  : ExportDocument :=
  let summary := summary_members (sn_Summary snapshot) in
  let phase := cutoverPhase summary in
  MkExportDocument 1 (p_Key record) (projectName record) (areaFlowURL record summary) phase
    (activeVersions summary) (format_rfc3339 (env_unixnano env)) (sn_SourceHash snapshot)
    (MkCompatibility (shimLifecycleState phase) relPath blockedCommands).

Definition hashContent (content : string) : string := sha256_hex content.

(** The file says the same already, but for the time. *)
Definition unchanged (document : ExportDocument) (target : string)
    (files : gmap string string) : option string :=
  match os_read_file os ReadExporter target files with
  | Ok existing =>
      match unmarshal_value ExportDocument_type existing with
      | Some existingDocument =>
          if sameDocumentExceptGenerated existingDocument (document_value document)
          then Some existing else None
      | None => None
      end
  | Err _ => None
  end.

Definition WriteWithResult (env : Env) (record : Record_) (snapshot : Snapshot)
    (relPath : string) (files : gmap string string)
  : res string WriteResult * gmap string string :=
  match statusTargetPath record relPath with
  | Err e => (Err e, files)
  | Ok (target, root) =>
      match so_MkdirAll os (path_dir target) with
      | Some e => (Err ("create status export directory: " +:+ e), files)
      | None =>
          match ensureStatusTargetParentContained root target with
          | Err e => (Err e, files)
          | Ok _ =>
              let document := exportDocument env record snapshot relPath in
              match marshalStableExportDocument document with
              | Err e => (Err ("marshal status export: " +:+ e), files)
              | Ok content =>
                  match unchanged document target files with
                  | Some existing =>
                      (Ok (MkWriteResult target (hashContent existing) (len existing)
                             true true false), files)
                  | None =>
                      match replace_atomically os ReplaceExport target content files with
                      | (Some e, files) => (Err ("write status export: " +:+ e), files)
                      | (None, files) =>
                          (Ok (MkWriteResult target (hashContent content) (len content)
                                 true true true), files)
                      end
                  end
              end
          end
      end
  end.

Definition Write (env : Env) (record : Record_) (snapshot : Snapshot) (relPath : string)
    (files : gmap string string) : res string string * gmap string string :=
  match WriteWithResult env record snapshot relPath files with
  | (Ok result, files) => (Ok (wr_Target result), files)
  | (Err e, files) => (Err e, files)
  end.
End Exporting.
