(* ===== verification/StatusProjection.v ===== *)
(** * Authorizing a status projection

    [internal/project/status_projection_authorization_preview.go],
    [status_projection_apply_gate.go] and [status_projection_apply_packet.go]:
    what is at the target, whether the project may write there, what its
    protected paths hold, the gate that compares the packet of an apply request
    with all of it, and the packet a preview offers, with the command line and
    the API request that carry it. *)

From stdpp Require Import base list strings numbers gmap.
From Stdlib Require Import ZArith Lia String.
From S2P Require Import Prelude GoString Sha256 Json JsonText JsonDecode Schema Tx Capability FilePath Permission ReadOnlyVerify.
From S2P Require Import StatusFiles StatusShape StatusStore.

Record StatusProjectionAuthorizationPreviewOptions := MkPreviewOptions {
  pvo_TargetURI : string; pvo_GeneratedAt : option Z }.

Record StatusProjectionAuthorizationPermission := MkStatusPermission {
  sm_Capability : string; sm_ResourceType : string; sm_TargetURI : string;
  sm_CapabilityAllowed : bool; sm_PathAllowed : bool; sm_Allowed : bool; sm_Reason : string }.

Record StatusProjectionPreimage := MkStatusPreimage {
  sq_TargetPath : string; sq_Exists : bool; sq_Readable : bool; sq_SizeBytes : Z;
  sq_SHA256 : string; sq_SchemaStatus : string; sq_LegacyShape : bool;
  sq_MissingRequiredFields : list string; sq_UnexpectedTopLevelFields : list string;
  sq_CompatibilityMissing : list string; sq_CompatibilityUnexpected : list string;
  sq_SourceSnapshotHash : string; sq_Message : string }.

Record StatusProjectionWriteSetEntry := MkWriteSetEntry {
  sw_TargetURI : string; sw_TargetPath : string; sw_Operation : string; sw_Capability : string;
  sw_ExpectedBeforeExists : bool; sw_ExpectedBeforeSHA256 : string;
  sw_ExpectedBeforeSizeBytes : Z; sw_RequiresPreimageMatch : bool;
  sw_RequiresSchemaValidation : bool; sw_RollbackAction : string; sw_ProtectedPath : bool }.

(** The six [WouldCreate...] and [WouldWriteProjectFile...] facts are one flag:
    they are set together.  [WouldWriteExecution...], [WouldRunEngine...] and
    the three [...Attempted] facts are never set. *)
Record StatusProjectionAuthorizationPreview := MkStatusPreview {
  sv_Project : Record_; sv_Status : string; sv_Mode : string; sv_ClaimScope : string;
  sv_NotReal100 : bool; sv_Decision : string; sv_Message : string; sv_TargetKind : string;
  sv_TargetURI : string; sv_TargetPath : string; sv_SchemaURI : string;
  sv_ValidatorPreflight : string; sv_ProtectedPathFingerprintSHA256 : string;
  sv_SourceHash : string; sv_SummaryState : string; sv_RequiredAuthorizationPhrase : string;
  sv_Permission : StatusProjectionAuthorizationPermission;
  sv_Preimage : StatusProjectionPreimage; sv_WriteSet : list StatusProjectionWriteSetEntry;
  sv_RequiredPreflight : list string; sv_RequiredPacketFields : list string;
  sv_RequiredCapabilities : list string; sv_ProtectedPaths : list string;
  sv_RollbackPlan : list string; sv_BlockedBy : list string; sv_Warnings : list string;
  sv_ForbiddenActions : list string; sv_SafetyFacts : list (string * bool);
  sv_ApplyOpen : bool; sv_ApprovalRequired : bool; sv_ApprovalStatus : string;
  sv_WouldApplyAfterApproval : bool; sv_GeneratedAt : Z }.

Record statusProjectionProtectedPathFingerprint := MkFingerprint {
  fp_Hash : string; fp_EntryCount : Z }.

Definition statusProjectionSchemaURI : string := "schemas/status-projection.schema.json".
Definition statusProjectionClaimScope : string := "package_a_status_projection_preflight_only".
Definition maxStatusProjectionPreimageBytes : Z := 1024 * 1024.

(** ** Helpers *)

Fixpoint unique_loop (seen values : list string) : list string :=
  match values with
  | [] => []
  | value :: rest =>
      if (value =s "") || str_in value seen then unique_loop seen rest
      else value :: unique_loop (value :: seen) rest
  end.

Definition uniqueStrings (values : list string) : list string := unique_loop [] values.

Definition default_target : string := ".areaflow/status.json".

Definition statusProjectionTargetKind (targetURI : string) : string :=
  let t := trim_space targetURI in
  if t =s ".areaflow/status.json" then "project_status_json"
  else if t =s "workflow/README.md" then "workflow_readme"
  else "unknown".

Definition normalizeStatusProjectionAuthorizationPreviewOptions (env : Env)
    (o : StatusProjectionAuthorizationPreviewOptions) : string * Z :=
  (trim_default default_target (pvo_TargetURI o),
   match pvo_GeneratedAt o with Some t => t | None => env_unixnano env end).

Definition statusProjectionValidatorPreflight (targetPath : string) : string :=
  "python3 scripts/validate-status-projection-schema.py " +:+ statusProjectionSchemaURI +:+ " "
  +:+ (if targetPath =s "" then "<target-status-json>" else targetPath).

Definition statusProjectionProtectedPathCheck (record : Record_) : string :=
  "git -C " +:+ trim_default "<managed-project-root>" (p_RootPath record)
  +:+ " status --short -- workflow/README.md .areaflow/status.json scripts/task_loop/console.py"
  +:+ " scripts/dev_tools/cli.py scripts/task_loop/runner.py scripts/areaflow_shim.py"
  +:+ " workflow/versions workflow/versions/v1-mvp/execution/_shared/progress.json".

Definition statusProjectionRollbackAction (preimage : StatusProjectionPreimage) : string :=
  if sq_Exists preimage then "restore the captured preimage bytes for .areaflow/status.json"
  else "delete .areaflow/status.json if apply created it".

Definition statusProjectionAuthorizationSafetyFacts : list (string * bool) :=
  [("read_only_preview", true); ("authorization_packet_preview", true); ("apply_open", false);
   ("command_request_created", false); ("status_projection_written", false);
   ("project_write_attempted", false); ("execution_write_attempted", false);
   ("engine_call_attempted", false); ("commands_run", false); ("worker_scheduled", false);
   ("secrets_resolved", false); ("network_used", false); ("workflow_readme_written", false);
   ("workflow_versions_written", false); ("legacy_progress_written", false);
   ("legacy_logs_written", false); ("legacy_checkpoint_written", false);
   ("areamatrix_protected_paths_touched", false)].

(** ** Permission *)

Definition set_permission (capabilityAllowed pathAllowed allowed : bool) (reason : string)
    (p : StatusProjectionAuthorizationPermission) : StatusProjectionAuthorizationPermission :=
  MkStatusPermission (sm_Capability p) (sm_ResourceType p) (sm_TargetURI p) capabilityAllowed
    pathAllowed allowed reason.

Fixpoint permission_loop (targetURI : string) (p : StatusProjectionAuthorizationPermission)
    (rows : list permissionRow) : StatusProjectionAuthorizationPermission :=
  match rows with
  | [] =>
      if negb (sm_CapabilityAllowed p)
      then set_permission false (sm_PathAllowed p) false "capability not allowed" p
      else if negb (sm_PathAllowed p)
      then set_permission true false false "path not allowed" p
      else set_permission true true true "allowed" p
  | r :: rest =>
      if (pr_Effect r =s "deny") && (pr_ResourceType r =s "path")
         && globMatch (pr_Pattern r) targetURI
      then set_permission (sm_CapabilityAllowed p) (sm_PathAllowed p) false
             "path denied by forbidden path" p
      else
        let capabilityAllowed :=
          if (pr_ResourceType r =s "capability") && (pr_Capability r =s "write_status")
             && (pr_Effect r =s "allow") then true else sm_CapabilityAllowed p in
        let pathAllowed :=
          if (pr_ResourceType r =s "path") && (pr_Capability r =s "write_status")
             && (pr_Effect r =s "allow") && globMatch (pr_Pattern r) targetURI
          then true else sm_PathAllowed p in
        permission_loop targetURI
          (set_permission capabilityAllowed pathAllowed false (sm_Reason p) p) rest
  end.

Definition statusProjectionAuthorizationPermission (rows : list permissionRow)
    (record : Record_) (targetURI : string) : StatusProjectionAuthorizationPermission :=
  permission_loop targetURI
    (MkStatusPermission "write_status" "path" targetURI false false false "not evaluated")
    (List.filter (fun r => (pr_ProjectID r =? p_ID record)
       && ((pr_ResourceType r =s "capability") || (pr_ResourceType r =s "path"))) rows).

(** ** Target and preimage *)

Section Target.
Context (os : StatusOS).

Definition statusProjectionTargetPath (record : Record_) (targetURI : string)
  : res string string :=
  if trim_space (p_RootPath record) =s "" then Err "project root is empty"
  else
    let relative := normalizeProjectRelativePath targetURI in
    if relative =s "" then Err "target URI must stay under project root"
    else match filepath_abs os (p_RootPath record) with
         | Err e => Err ("resolve project root: " +:+ e)
         | Ok rootAbs =>
             let target := path_join [rootAbs; relative] in
             match path_rel rootAbs target with
             | Err e => Err ("compare target path: " +:+ e)
             | Ok rel =>
                 if (rel =s ".") || (rel =s "..") || has_prefix "../" rel || is_abs rel
                 then Err "target URI escapes project root" else Ok target
             end
         end.

Definition legacyFields : list string :=
  ["version"; "generated_at"; "project"; "source"; "source_hash"; "summary"].

Definition absent_key (document : list (string * jtext)) (k : string) : bool :=
  match text_get k document with Some _ => false | None => true end.

(** [sort.Strings]; the names are distinct. *)
Definition sorted_names (l : list string) : list string := sort_stable String.ltb l.

(** The parts a shape check adds to what was read of the target *)
Definition annotateStatusProjectionSchemaShape (preimage : StatusProjectionPreimage)
    (document : list (string * jtext)) : StatusProjectionPreimage :=
  let missing := sorted_names (List.filter (absent_key document) documentKeys) in
  let unexpected :=
    sorted_names (List.filter (fun k => negb (str_in k documentKeys)) (tkeys document)) in
  let legacy := existsb (fun k => str_in k legacyFields) unexpected in
  let '(compatibilityMissing, compatibilityUnexpected) :=
    match text_get "compatibility" document with
    | Some (TObj compatibility) =>
        (sorted_names (List.filter (absent_key compatibility) compatibilityKeys),
         sorted_names (List.filter (fun k => negb (str_in k compatibilityKeys))
                   (tkeys compatibility)))
    | Some _ => (["compatibility_object"], [])
    | None => ([], [])
    end in
  let '(status, message) :=
    match missing, unexpected, compatibilityMissing, compatibilityUnexpected with
    | [], [], [], [] => ("stable", "target matches stable status projection shape")
    | _, _, _, _ =>
        if legacy then ("legacy", "target uses legacy status projection shape")
        else ("mismatch", "target does not match stable status projection shape")
    end in
  MkStatusPreimage (sq_TargetPath preimage) (sq_Exists preimage) (sq_Readable preimage)
    (sq_SizeBytes preimage) (sq_SHA256 preimage) status legacy missing unexpected
    compatibilityMissing compatibilityUnexpected
    (trim_space (text_value (text_get "source_snapshot_hash" document))) message.

(** A preimage of which no shape is known *)
Definition plain_preimage (targetPath : string) (exists_ readable : bool) (size : Z)
    (sha256 status message : string) : StatusProjectionPreimage :=
  MkStatusPreimage targetPath exists_ readable size sha256 status false [] [] [] [] "" message.

Definition inspectStatusProjectionPreimage (targetPath : res string string)
    (files : gmap string string) : StatusProjectionPreimage :=
  match targetPath with
  | Err e => plain_preimage "" false false 0 "" "invalid_target" e
  | Ok path =>
      match os_stat os ReadPreview path files with
      | StatMissing => plain_preimage path false false 0 "" "missing" "target does not exist"
      | StatFailed e =>
          plain_preimage path false false 0 "" "read_error" ("stat target: " +:+ e)
      | StatDir => plain_preimage path true false 0 "" "read_error" "target is a directory"
      | StatFile size =>
          if maxStatusProjectionPreimageBytes <? size
          then plain_preimage path true false size "" "too_large"
                 ("target exceeds " +:+ fmt_d maxStatusProjectionPreimageBytes +:+ " bytes")
          else match os_read_file os ReadPreview path files with
               | Err e =>
                   plain_preimage path true false size "" "read_error" ("read target: " +:+ e)
               | Ok content =>
                   let preimage status message :=
                     plain_preimage path true true (len content) (sha256_hex content) status
                       message in
                   match unmarshal_map content with
                   | None => preimage "mismatch" "target is not valid JSON"
                   | Some document =>
                       annotateStatusProjectionSchemaShape
                         (preimage "missing" "target does not exist") document
                   end
               end
      end
  end.

(** ** Protected paths *)

Definition statusProjectionProtectedPathFingerprintPaths : list string :=
  ["workflow/README.md"; ".areaflow/status.json"; "scripts/task_loop/console.py";
   "scripts/dev_tools/cli.py"; "scripts/task_loop/runner.py"; "scripts/areaflow_shim.py";
   "workflow/versions"; "workflow/versions/v1-mvp/execution/_shared/progress.json"].

Definition samePath (left right : string) : bool :=
  match filepath_abs os left, filepath_abs os right with
  | Ok leftAbs, Ok rightAbs => leftAbs =s rightAbs
  | _, _ => left =s right
  end.

Definition protectedPathFingerprintRel (root path : string) : res string string :=
  match path_rel root path with
  | Ok rel => Ok rel
  | Err e => Err ("compare protected path with project root: " +:+ e)
  end.

Definition tab : string := String (chr 9) "".

Definition fingerprintStatusProjectionProtectedPathEntry (at_ : status_read)
    (root path : string) (info : lnode) (files : gmap string string) : res string string :=
  match info with
  | LMissing => Err (no_such_file "lstat" path)
  | LError e => Err e
  | _ =>
      match protectedPathFingerprintRel root path with
      | Err e => Err e
      | Ok rel =>
          match info with
          | LFile =>
              match os_read_file os at_ path files with
              | Err e => Err ("read protected path " +:+ path +:+ ": " +:+ e)
              | Ok content =>
                  Ok (rel +:+ tab +:+ "file" +:+ tab +:+ fmt_d (len content) +:+ tab
                      +:+ sha256_hex content)
              end
          | LDir _ => Ok (rel +:+ tab +:+ "dir")
          | LSymlink target => Ok (rel +:+ tab +:+ "symlink" +:+ tab +:+ target)
          | LOther mode size =>
              Ok (rel +:+ tab +:+ "other" +:+ tab +:+ mode +:+ tab +:+ fmt_d size)
          | _ => Ok rel
          end
      end
  end.

(** [filepath.WalkDir]: a directory before its entries; the first error ends
    the walk. *)
Fixpoint walk_fingerprint (at_ : status_read) (root path : string) (files : gmap string string)
    (info : lnode) : res string (list string) :=
  match fingerprintStatusProjectionProtectedPathEntry at_ root path info files with
  | Err e => Err e
  | Ok entry =>
      match info with
      | LDir nodes =>
          let fix below (nodes : list (string * lnode)) : res string (list string) :=
            match nodes with
            | [] => Ok []
            | (name, node) :: rest =>
                match walk_fingerprint at_ root (path_join [path; name]) files node with
                | Err e => Err e
                | Ok l => match below rest with Err e => Err e | Ok l' => Ok (l ++ l') end
                end
            end in
          match below nodes with Err e => Err e | Ok l => Ok (entry :: l) end
      | _ => Ok [entry]
      end
  end.

Definition fingerprintStatusProjectionProtectedPath (at_ : status_read) (root path : string)
    (files : gmap string string) : res string (list string) :=
  match so_Lstat os at_ path with
  | LMissing =>
      match protectedPathFingerprintRel root path with
      | Err e => Err e
      | Ok rel => Ok [rel +:+ tab +:+ "missing"]
      end
  | LError e => Err ("stat protected path " +:+ path +:+ ": " +:+ e)
  | LDir _ as info =>
      match walk_fingerprint at_ root path files info with
      | Err e => Err ("walk protected path " +:+ path +:+ ": " +:+ e)
      | Ok l => Ok l
      end
  | info =>
      match fingerprintStatusProjectionProtectedPathEntry at_ root path info files with
      | Err e => Err e
      | Ok entry => Ok [entry]
      end
  end.

Fixpoint fingerprint_paths (at_ : status_read) (root targetPath : string)
    (files : gmap string string) (paths : list string) : res string (list string) :=
  match paths with
  | [] => Ok []
  | protectedPath :: rest =>
      let absolute := path_join [root; protectedPath] in
      if samePath absolute targetPath then fingerprint_paths at_ root targetPath files rest
      else match fingerprintStatusProjectionProtectedPath at_ root absolute files with
           | Err e => Err e
           | Ok l =>
               match fingerprint_paths at_ root targetPath files rest with
               | Err e => Err e
               | Ok l' => Ok (l ++ l')
               end
           end
  end.

Definition captureStatusProjectionProtectedPathFingerprint (at_ : status_read)
    (record : Record_) (targetURI : string) (files : gmap string string)
  : res string statusProjectionProtectedPathFingerprint :=
  match filepath_abs os (p_RootPath record) with
  | Err e => Err ("resolve project root for protected path fingerprint: " +:+ e)
  | Ok root =>
      match statusProjectionTargetPath record targetURI with
      | Err e => Err e
      | Ok targetPath =>
          match filepath_abs os targetPath with
          | Err e => Err ("resolve target path for protected path fingerprint: " +:+ e)
          | Ok targetPath =>
              match fingerprint_paths at_ root targetPath files
                      statusProjectionProtectedPathFingerprintPaths with
              | Err e => Err e
              | Ok entries =>
                  Ok (MkFingerprint (sha256_hex (strings_join newline entries))
                        (Z.of_nat (List.length entries)))
              end
          end
      end
  end.
End Target.

(** ** The authorization preview *)

Definition completionAuditTargetProjectKey : string := "areamatrix".
Definition completionAuditTargetProjectRoot : string :=
  "/Users/as/Ai-Project/project/AreaMatrix".
Definition StatusProjectionApplyRequiredApprovalReason : string :=
  "授权执行 Package A，只允许写 AreaMatrix .areaflow/status.json".

Definition statusProjectionApplyRequiresExactApprovalReason (record : Record_)
    (targetURI targetKind : string) : bool :=
  (p_Key record =s completionAuditTargetProjectKey)
  && (trim_space (p_RootPath record) =s completionAuditTargetProjectRoot)
  && (trim_space targetURI =s ".areaflow/status.json")
  && (targetKind =s "project_status_json").

(** Of a preview it reads the project, the target and its kind. *)
Definition statusProjectionRequiredAuthorizationPhrase (record : Record_)
    (targetURI targetKind : string) : string :=
  if statusProjectionApplyRequiresExactApprovalReason record targetURI targetKind
  then StatusProjectionApplyRequiredApprovalReason else "".

(** Status, decision, message and blockers, as the checks revise them *)
Record verdict := MkVerdict {
  vd_Status : string; vd_Decision : string; vd_Message : string; vd_BlockedBy : list string }.

Definition verdict_blocked (message blocker : string) (v : verdict) : verdict :=
  MkVerdict "blocked" "blocked" message (vd_BlockedBy v ++ [blocker]).

Definition preview_verdict (preimage : StatusProjectionPreimage) (targetKind : string)
    (permission : StatusProjectionAuthorizationPermission) : verdict :=
  let status := sq_SchemaStatus preimage in
  let v := MkVerdict "needs_approval" "needs_explicit_approval"
             ("status projection apply requires an explicit authorization packet before writing "
              +:+ "the managed project")
             ["explicit_status_projection_apply_approval_missing"] in
  let v :=
    if (status =s "legacy") || (status =s "mismatch")
    then MkVerdict (vd_Status v) (vd_Decision v) (vd_Message v)
           (vd_BlockedBy v ++ ["current_target_schema_mismatch_requires_preimage_review"])
    else v in
  let v :=
    if (status =s "invalid_target") || (status =s "read_error") || (status =s "too_large")
    then verdict_blocked
           "status projection authorization preview is blocked by target preimage inspection"
           status v
    else v in
  let v :=
    if targetKind <>s "project_status_json"
    then verdict_blocked
           "status projection authorization preview is blocked by unsupported target"
           "unsupported_status_projection_target" v
    else v in
  if negb (sm_Allowed permission)
  then verdict_blocked
         "status projection authorization preview is blocked by project permission policy"
         (if sm_Reason permission <>s "" then sm_Reason permission
          else "write_status_permission_not_allowed") v
  else v.

Definition statusProjectionProtectedPaths : list string :=
  [".areaflow/status.json"; "workflow/README.md"; "scripts/task_loop/console.py";
   "scripts/dev_tools/cli.py"; "scripts/task_loop/runner.py"; "scripts/areaflow_shim.py";
   "workflow/versions"; "workflow/versions/v1-mvp/execution/_shared/progress.json"].

Definition BuildStatusProjectionAuthorizationPreview (env : Env) (record : Record_)
    (snapshot : Snapshot) (o : StatusProjectionAuthorizationPreviewOptions)
    (preimage : StatusProjectionPreimage)
    (permission : StatusProjectionAuthorizationPermission)
  : StatusProjectionAuthorizationPreview :=
  let '(targetURI, generatedAt) :=
    normalizeStatusProjectionAuthorizationPreviewOptions env o in
  let targetKind := statusProjectionTargetKind targetURI in
  let validator := statusProjectionValidatorPreflight (sq_TargetPath preimage) in
  let v := preview_verdict preimage targetKind permission in
  let mismatch :=
    (sq_SchemaStatus preimage =s "legacy") || (sq_SchemaStatus preimage =s "mismatch") in
  MkStatusPreview record (vd_Status v) "status_projection_apply_authorization_preview_v1"
    statusProjectionClaimScope true (vd_Decision v) (vd_Message v) targetKind targetURI
    (sq_TargetPath preimage) statusProjectionSchemaURI validator "" (sn_SourceHash snapshot)
    (statusProjectionSummaryState (sn_Summary snapshot))
    (statusProjectionRequiredAuthorizationPhrase record targetURI targetKind)
    permission preimage
    [MkWriteSetEntry targetURI (sq_TargetPath preimage) "replace_or_create" "write_status"
       (sq_Exists preimage) (sq_SHA256 preimage) (sq_SizeBytes preimage) true true
       (statusProjectionRollbackAction preimage) true]
    ["areaflow project status-projections " +:+ p_Key record +:+ " --json"; validator;
     statusProjectionProtectedPathCheck record]
    ["target_uri"; "schema_uri"; "source_snapshot_hash"; "expected_before_exists";
     "expected_before_sha256"; "expected_before_size_bytes"; "write_set"; "validator_preflight";
     "protected_path_check"; "protected_path_fingerprint_sha256"; "rollback_plan";
     "explicit_approval"; "approval_actor"; "approval_reason"]
    ["write_status"] statusProjectionProtectedPaths
    [statusProjectionRollbackAction preimage; "rerun the validator preflight after rollback";
     "rerun the protected path check and compare the preimage fingerprint"]
    (uniqueStrings (vd_BlockedBy v))
    (uniqueStrings (if mismatch
                    then ["current target does not match stable status projection schema"]
                    else []))
    ["write_workflow_readme"; "write_workflow_versions"; "write_execution";
     "rewrite_progress_json"; "start_task_loop"; "run_engine"; "resolve_secret"; "network_call";
     "git_checkpoint"]
    statusProjectionAuthorizationSafetyFacts false true "missing"
    (vd_Status v <>s "blocked") generatedAt.

(** [preview.Status = "blocked"] and the rest, when no fingerprint could be
    captured *)
Definition preview_without_fingerprint (e : string) (p : StatusProjectionAuthorizationPreview)
  : StatusProjectionAuthorizationPreview :=
  MkStatusPreview (sv_Project p) "blocked" (sv_Mode p) (sv_ClaimScope p) (sv_NotReal100 p)
    "blocked"
    "status projection authorization preview is blocked by protected path fingerprint capture"
    (sv_TargetKind p) (sv_TargetURI p) (sv_TargetPath p) (sv_SchemaURI p)
    (sv_ValidatorPreflight p) (sv_ProtectedPathFingerprintSHA256 p) (sv_SourceHash p)
    (sv_SummaryState p) (sv_RequiredAuthorizationPhrase p) (sv_Permission p) (sv_Preimage p)
    (sv_WriteSet p) (sv_RequiredPreflight p) (sv_RequiredPacketFields p)
    (sv_RequiredCapabilities p) (sv_ProtectedPaths p) (sv_RollbackPlan p)
    (uniqueStrings (sv_BlockedBy p ++ ["protected_path_fingerprint_unavailable"; e]))
    (sv_Warnings p) (sv_ForbiddenActions p) (sv_SafetyFacts p) (sv_ApplyOpen p)
    (sv_ApprovalRequired p) (sv_ApprovalStatus p) (sv_WouldApplyAfterApproval p)
    (sv_GeneratedAt p).

Definition preview_with_fingerprint (hash : string) (p : StatusProjectionAuthorizationPreview)
  : StatusProjectionAuthorizationPreview :=
  MkStatusPreview (sv_Project p) (sv_Status p) (sv_Mode p) (sv_ClaimScope p) (sv_NotReal100 p)
    (sv_Decision p) (sv_Message p)
    (sv_TargetKind p) (sv_TargetURI p) (sv_TargetPath p) (sv_SchemaURI p)
    (sv_ValidatorPreflight p) hash (sv_SourceHash p)
    (sv_SummaryState p) (sv_RequiredAuthorizationPhrase p) (sv_Permission p) (sv_Preimage p)
    (sv_WriteSet p) (sv_RequiredPreflight p) (sv_RequiredPacketFields p)
    (sv_RequiredCapabilities p) (sv_ProtectedPaths p) (sv_RollbackPlan p) (sv_BlockedBy p)
    (sv_Warnings p) (sv_ForbiddenActions p) (sv_SafetyFacts p) (sv_ApplyOpen p)
    (sv_ApprovalRequired p) (sv_ApprovalStatus p) (sv_WouldApplyAfterApproval p)
    (sv_GeneratedAt p).

Definition StatusProjectionAuthorizationPreview_ (env : Env) (os : StatusOS) (record : Record_)
    (options : StatusProjectionAuthorizationPreviewOptions)
  : M StatusProjectionAuthorizationPreview :=
  let targetURI := fst (normalizeStatusProjectionAuthorizationPreviewOptions env options) in
  snapshot <- LatestImportSnapshot (p_ID record) ;;
  fun w =>
  let preimage :=
    inspectStatusProjectionPreimage os (statusProjectionTargetPath os record targetURI)
      (wd_files w) in
  let permission :=
    statusProjectionAuthorizationPermission (db_project_permissions (wd_db w)) record
      targetURI in
  let preview :=
    BuildStatusProjectionAuthorizationPreview env record snapshot options preimage permission in
  match captureStatusProjectionProtectedPathFingerprint os ReadPreview record targetURI
          (wd_files w) with
  | Err e => (Ok (preview_without_fingerprint e preview), w)
  | Ok fingerprint => (Ok (preview_with_fingerprint (fp_Hash fingerprint) preview), w)
  end.

(** ** The apply gate *)

Record StatusProjectionApplyGateOptions := MkGateOptions {
  go_TargetURI : string; go_ExpectedBeforeExists : option bool; go_ExpectedBeforeSHA256 : string;
  go_ExpectedBeforeSizeBytes : option Z; go_SourceHash : string; go_SchemaURI : string;
  go_ValidatorPreflight : string; go_ProtectedPathCheck : string;
  go_ProtectedPathFingerprintSHA256 : string; go_RollbackAction : string;
  go_AcceptedPreimageSchemaStatus : string; go_ExplicitApproval : bool;
  go_ApprovalActor : string; go_ApprovalReason : string; go_GeneratedAt : option Z }.

Record StatusProjectionApplyGateItem := MkGateItem {
  gi_Key : string; gi_Category : string; gi_Status : string; gi_Message : string;
  gi_Expected : string; gi_Actual : string; gi_BlockedBy : list string }.

(** The gate copies the lists of the preview; [ApplyCommandEligibleIsNotApply]
    and the like are constant, and the [...Attempted] facts are never set. *)
Record StatusProjectionApplyGate := MkApplyGate {
  ga_Authorization : StatusProjectionAuthorizationPreview; ga_Status : string; ga_Mode : string;
  ga_ClaimScope : string; ga_Decision : string; ga_Message : string;
  ga_Items : list StatusProjectionApplyGateItem; ga_RequiredAuthorizationPhrase : string;
  ga_SafetyFacts : list (string * bool); ga_ApplyCommandEligible : bool;
  ga_ApprovalStatus : string; ga_GeneratedAt : Z }.

Definition normalizeStatusProjectionApplyGateOptions (env : Env)
    (o : StatusProjectionApplyGateOptions) : StatusProjectionApplyGateOptions :=
  MkGateOptions (trim_default default_target (go_TargetURI o)) (go_ExpectedBeforeExists o)
    (trim_space (go_ExpectedBeforeSHA256 o)) (go_ExpectedBeforeSizeBytes o)
    (trim_space (go_SourceHash o)) (trim_space (go_SchemaURI o))
    (trim_space (go_ValidatorPreflight o)) (trim_space (go_ProtectedPathCheck o))
    (trim_space (go_ProtectedPathFingerprintSHA256 o)) (trim_space (go_RollbackAction o))
    (trim_space (go_AcceptedPreimageSchemaStatus o)) (go_ExplicitApproval o)
    (trim_space (go_ApprovalActor o)) (trim_space (go_ApprovalReason o))
    (Some (match go_GeneratedAt o with Some t => t | None => env_unixnano env end)).

Definition fmt_t (b : bool) : string := if b then "true" else "false".

Definition statusProjectionApplyGateItem (key category : string) (pass : bool)
    (message expected actual : string) (blockers : list string)
  : StatusProjectionApplyGateItem :=
  MkGateItem key category (if pass then "pass" else "blocked") message expected actual
    (if pass then [] else uniqueStrings blockers).

Definition statusProjectionRequiredStringItem (key category actual expected message : string)
  : StatusProjectionApplyGateItem :=
  statusProjectionApplyGateItem key category ((actual <>s "") && (actual =s expected)) message
    expected actual [key +:+ "_missing_or_mismatch"].

Definition statusProjectionNonEmptyItem (key category actual message : string)
  : StatusProjectionApplyGateItem :=
  statusProjectionApplyGateItem key category (actual <>s "") message "non-empty" actual
    [key +:+ "_missing"].

Definition statusProjectionExpectedBoolItem (key : string) (actual : option bool)
    (expected : bool) : StatusProjectionApplyGateItem :=
  statusProjectionApplyGateItem key "preimage"
    (match actual with Some b => Bool.eqb b expected | None => false end)
    "expected-before exists value must match current preimage" (fmt_t expected)
    (match actual with Some b => fmt_t b | None => "<missing>" end)
    [key +:+ "_missing_or_mismatch"].

Definition statusProjectionExpectedInt64Item (key : string) (actual : option Z) (expected : Z)
  : StatusProjectionApplyGateItem :=
  statusProjectionApplyGateItem key "preimage"
    (match actual with Some z => z =? expected | None => false end)
    "expected-before size must match current preimage" (fmt_d expected)
    (match actual with Some z => fmt_d z | None => "<missing>" end)
    [key +:+ "_missing_or_mismatch"].

Definition statusProjectionExpectedSHAItem (key actual : string)
    (preimage : StatusProjectionPreimage) : StatusProjectionApplyGateItem :=
  if negb (sq_Exists preimage)
  then statusProjectionApplyGateItem key "preimage" (actual =s "")
         "expected-before sha256 must be empty when target is absent" "" actual
         [key +:+ "_must_be_empty_when_missing"]
  else statusProjectionRequiredStringItem key "preimage" actual (sq_SHA256 preimage)
         "expected-before sha256 must match current preimage".

Definition statusProjectionApplyGateSafetyFacts : list (string * bool) :=
  [("read_only_gate", true); ("apply_open", false);
   ("apply_command_eligible_is_not_apply", true); ("command_request_created", false);
   ("status_projection_written", false); ("project_write_attempted", false);
   ("execution_write_attempted", false); ("engine_call_attempted", false);
   ("commands_run", false); ("worker_scheduled", false); ("secrets_resolved", false);
   ("network_used", false); ("areamatrix_protected_paths_touched", false)].

Definition gate_phrase (a : StatusProjectionAuthorizationPreview) : string :=
  statusProjectionRequiredAuthorizationPhrase (sv_Project a) (sv_TargetURI a) (sv_TargetKind a).

Definition approval_reason_item (a : StatusProjectionAuthorizationPreview)
    (o : StatusProjectionApplyGateOptions) : StatusProjectionApplyGateItem :=
  if gate_phrase a <>s ""
  then statusProjectionRequiredStringItem "approval_reason" "approval" (go_ApprovalReason o)
         (gate_phrase a) "approval reason must match the exact Package A authorization phrase"
  else statusProjectionNonEmptyItem "approval_reason" "approval" (go_ApprovalReason o)
         "approval reason must be recorded".

Definition status_gate_items (a : StatusProjectionAuthorizationPreview)
    (o : StatusProjectionApplyGateOptions) : list StatusProjectionApplyGateItem :=
  let preimage := sv_Preimage a in
  let permission := sv_Permission a in
  let packet key actual expected message :=
    statusProjectionRequiredStringItem key "packet" actual expected message in
  [statusProjectionApplyGateItem "authorization_preview" "authorization"
     (sv_Status a <>s "blocked") "authorization preview must not be blocked" "not blocked"
     (sv_Status a) (sv_BlockedBy a);
   statusProjectionApplyGateItem "target_supported" "target"
     (sv_TargetKind a =s "project_status_json")
     "target must be .areaflow/status.json stable projection" "project_status_json"
     (sv_TargetKind a) ["unsupported_status_projection_target"];
   statusProjectionApplyGateItem "permission_allowed" "permission" (sm_Allowed permission)
     "write_status capability and target path must be allowed" "allowed" (sm_Reason permission)
     [sm_Reason permission];
   packet "schema_uri" (go_SchemaURI o) (sv_SchemaURI a)
     "schema URI must match authorization preview";
   packet "source_snapshot_hash" (go_SourceHash o) (sv_SourceHash a)
     "source snapshot hash must match latest imported snapshot";
   packet "validator_preflight" (go_ValidatorPreflight o) (sv_ValidatorPreflight a)
     "validator preflight must match authorization preview";
   packet "protected_path_check" (go_ProtectedPathCheck o)
     (statusProjectionProtectedPathCheck (sv_Project a))
     "protected path check must match authorization preview";
   packet "protected_path_fingerprint_sha256" (go_ProtectedPathFingerprintSHA256 o)
     (sv_ProtectedPathFingerprintSHA256 a)
     "protected path fingerprint must match authorization preview";
   packet "accepted_preimage_schema_status" (go_AcceptedPreimageSchemaStatus o)
     (sq_SchemaStatus preimage)
     "packet must explicitly accept the current target schema status";
   packet "rollback_action" (go_RollbackAction o) (statusProjectionRollbackAction preimage)
     "rollback action must match authorization preview";
   statusProjectionExpectedBoolItem "expected_before_exists" (go_ExpectedBeforeExists o)
     (sq_Exists preimage);
   statusProjectionExpectedInt64Item "expected_before_size_bytes" (go_ExpectedBeforeSizeBytes o)
     (sq_SizeBytes preimage);
   statusProjectionExpectedSHAItem "expected_before_sha256" (go_ExpectedBeforeSHA256 o) preimage;
   statusProjectionApplyGateItem "explicit_approval" "approval" (go_ExplicitApproval o)
     "explicit approval must be present before apply" "true" (fmt_t (go_ExplicitApproval o))
     ["explicit_status_projection_apply_approval_missing"];
   statusProjectionNonEmptyItem "approval_actor" "approval" (go_ApprovalActor o)
     "approval actor must be recorded";
   approval_reason_item a o].

Definition item_pass (i : StatusProjectionApplyGateItem) : bool := gi_Status i =s "pass".

Definition BuildStatusProjectionApplyGate (env : Env)
    (authorization : StatusProjectionAuthorizationPreview)
    (options : StatusProjectionApplyGateOptions) : StatusProjectionApplyGate :=
  let o := normalizeStatusProjectionApplyGateOptions env options in
  let items := status_gate_items authorization o in
  let pass := forallb item_pass items in
  MkApplyGate authorization (if pass then "pass" else "blocked") "status_projection_apply_gate_v1"
    statusProjectionClaimScope (if pass then "go" else "no_go")
    (if pass
     then "status projection apply packet is ready for the protected apply command"
     else "status projection apply packet is blocked")
    items (gate_phrase authorization) statusProjectionApplyGateSafetyFacts pass
    (if pass then "approved" else "missing_or_incomplete")
    (default 0 (go_GeneratedAt o)).

Definition StatusProjectionApplyGate_ (env : Env) (os : StatusOS) (record : Record_)
    (options : StatusProjectionApplyGateOptions) : M StatusProjectionApplyGate :=
  let o := normalizeStatusProjectionApplyGateOptions env options in
  authorization <- StatusProjectionAuthorizationPreview_ env os record
                     (MkPreviewOptions (go_TargetURI o) (go_GeneratedAt o)) ;;
  ret (BuildStatusProjectionApplyGate env authorization o).

(** ** The packet preview *)

Definition statusProjectionApplyPacketMode : string := "status_projection_apply_packet_preview_v1".

Record StatusProjectionApplyPacketPreviewOptions := MkPacketOptions {
  kpo_TargetURI : string; kpo_ExplicitApproval : bool; kpo_ApprovalActor : string;
  kpo_ApprovalReason : string; kpo_GeneratedAt : option Z }.

Record StatusProjectionApplyPacket := MkApplyPacket {
  kt_TargetURI : string; kt_ExpectedBeforeExists : bool; kt_ExpectedBeforeSHA256 : string;
  kt_ExpectedBeforeSizeBytes : Z; kt_SourceHash : string; kt_SchemaURI : string;
  kt_ValidatorPreflight : string; kt_ProtectedPathCheck : string;
  kt_ProtectedPathFingerprintSHA256 : string; kt_RollbackAction : string;
  kt_AcceptedPreimageSchemaStatus : string; kt_ExplicitApproval : bool;
  kt_ApprovalActor : string; kt_ApprovalReason : string;
  kt_RequiredAuthorizationPhrase : string }.

Record StatusProjectionApplyAPIRequest := MkApplyRequest {
  kr_TargetURI : string; kr_ExpectedBeforeExists : bool; kr_ExpectedBeforeSHA256 : string;
  kr_ExpectedBeforeSizeBytes : Z; kr_SourceHash : string; kr_SchemaURI : string;
  kr_ValidatorPreflight : string; kr_ProtectedPathCheck : string;
  kr_ProtectedPathFingerprintSHA256 : string; kr_RollbackAction : string;
  kr_AcceptedPreimageSchemaStatus : string; kr_ExplicitApproval : bool;
  kr_ApprovalActor : string; kr_ApprovalReason : string;
  kr_RequiredAuthorizationPhrase : string }.

(** The three [Would...AfterApplyCommand] facts are one flag: they are set
    together.  The other facts are constant or never set. *)
Record StatusProjectionApplyPacketPreview := MkPacketPreview {
  kp_Project : Record_; kp_Status : string; kp_Mode : string; kp_ClaimScope : string;
  kp_Decision : string; kp_Message : string; kp_Blockers : list string;
  kp_RequiredAuthorizationPhrase : string;
  kp_Authorization : StatusProjectionAuthorizationPreview; kp_Gate : StatusProjectionApplyGate;
  kp_Packet : StatusProjectionApplyPacket; kp_ApplyCommand : list string;
  kp_APIRequest : StatusProjectionApplyAPIRequest; kp_RequiredHumanReview : list string;
  kp_ForbiddenActions : list string; kp_SafetyFacts : list (string * bool);
  kp_WouldApply : bool; kp_GeneratedAt : Z }.

Definition stringsTrim := trim_space.

(** The generation time is filled in. *)
Definition normalizeStatusProjectionApplyPacketPreviewOptions (env : Env)
    (o : StatusProjectionApplyPacketPreviewOptions) : StatusProjectionApplyPacketPreviewOptions :=
  MkPacketOptions (trim_default default_target (kpo_TargetURI o)) (kpo_ExplicitApproval o)
    (stringsTrim (kpo_ApprovalActor o)) (stringsTrim (kpo_ApprovalReason o))
    (Some (match kpo_GeneratedAt o with Some t => t | None => env_unixnano env end)).

Definition statusProjectionApplyPacketFromAuthorization
    (a : StatusProjectionAuthorizationPreview) (o : StatusProjectionApplyPacketPreviewOptions)
  : StatusProjectionApplyPacket :=
  MkApplyPacket (sv_TargetURI a) (sq_Exists (sv_Preimage a)) (sq_SHA256 (sv_Preimage a))
    (sq_SizeBytes (sv_Preimage a)) (sv_SourceHash a) (sv_SchemaURI a) (sv_ValidatorPreflight a)
    (statusProjectionProtectedPathCheck (sv_Project a)) (sv_ProtectedPathFingerprintSHA256 a)
    (statusProjectionRollbackAction (sv_Preimage a)) (sq_SchemaStatus (sv_Preimage a))
    (kpo_ExplicitApproval o) (kpo_ApprovalActor o) (kpo_ApprovalReason o) (gate_phrase a).

Definition statusProjectionApplyGateOptionsFromPacket (p : StatusProjectionApplyPacket)
    (generatedAt : option Z) : StatusProjectionApplyGateOptions :=
  MkGateOptions (kt_TargetURI p) (Some (kt_ExpectedBeforeExists p)) (kt_ExpectedBeforeSHA256 p)
    (Some (kt_ExpectedBeforeSizeBytes p)) (kt_SourceHash p) (kt_SchemaURI p)
    (kt_ValidatorPreflight p) (kt_ProtectedPathCheck p) (kt_ProtectedPathFingerprintSHA256 p)
    (kt_RollbackAction p) (kt_AcceptedPreimageSchemaStatus p) (kt_ExplicitApproval p)
    (kt_ApprovalActor p) (kt_ApprovalReason p) generatedAt.

(** The blockers of the preview, then those of the items that do not pass *)
Definition statusProjectionApplyPacketBlockers (a : StatusProjectionAuthorizationPreview)
    (gate : StatusProjectionApplyGate) : list string :=
  uniqueStrings (sv_BlockedBy a
    ++ flat_map (fun i => if item_pass i then []
                          else match gi_BlockedBy i with [] => [gi_Key i] | l => l end)
         (ga_Items gate)).

Definition statusProjectionApplyPacketCommand (record : Record_) (p : StatusProjectionApplyPacket)
  : list string :=
  ["areaflow"; "project"; "status-projection-apply"; p_Key record; "--target"; kt_TargetURI p;
   "--expected-before-exists"; fmt_t (kt_ExpectedBeforeExists p); "--expected-before-size";
   fmt_d (kt_ExpectedBeforeSizeBytes p); "--source-hash"; kt_SourceHash p; "--schema-uri";
   kt_SchemaURI p; "--validator-preflight"; kt_ValidatorPreflight p; "--protected-path-check";
   kt_ProtectedPathCheck p; "--protected-path-fingerprint-sha256";
   kt_ProtectedPathFingerprintSHA256 p; "--rollback-action"; kt_RollbackAction p;
   "--accept-preimage-schema"; kt_AcceptedPreimageSchemaStatus p]
  ++ (if kt_ExpectedBeforeSHA256 p <>s ""
      then ["--expected-before-sha256"; kt_ExpectedBeforeSHA256 p] else [])
  ++ (if kt_ExplicitApproval p then ["--explicit-approval"] else [])
  ++ (if kt_ApprovalActor p <>s "" then ["--approval-actor"; kt_ApprovalActor p] else [])
  ++ (if kt_ApprovalReason p <>s "" then ["--approval-reason"; kt_ApprovalReason p] else []).

Definition statusProjectionApplyPacketAPIRequest (p : StatusProjectionApplyPacket)
  : StatusProjectionApplyAPIRequest :=
  MkApplyRequest (kt_TargetURI p) (kt_ExpectedBeforeExists p) (kt_ExpectedBeforeSHA256 p)
    (kt_ExpectedBeforeSizeBytes p) (kt_SourceHash p) (kt_SchemaURI p) (kt_ValidatorPreflight p)
    (kt_ProtectedPathCheck p) (kt_ProtectedPathFingerprintSHA256 p) (kt_RollbackAction p)
    (kt_AcceptedPreimageSchemaStatus p) (kt_ExplicitApproval p) (kt_ApprovalActor p)
    (kt_ApprovalReason p) (kt_RequiredAuthorizationPhrase p).

Definition statusProjectionApplyPacketSafetyFacts : list (string * bool) :=
  [("read_only_preview", true); ("apply_packet_generated", true);
   ("apply_command_executed", false); ("command_request_created", false);
   ("status_projection_written", false); ("project_write_attempted", false);
   ("execution_write_attempted", false); ("engine_call_attempted", false);
   ("commands_run", false); ("worker_scheduled", false); ("secrets_resolved", false);
   ("network_used", false); ("areamatrix_protected_paths_touched", false)].

(** Status, decision, message and blockers *)
Definition packet_verdict (a : StatusProjectionAuthorizationPreview)
    (gate : StatusProjectionApplyGate) : verdict :=
  let blockers := statusProjectionApplyPacketBlockers a gate in
  if ga_ApplyCommandEligible gate
  then MkVerdict "ready" "ready_for_apply_command"
         "status projection apply packet is ready for the protected apply command" []
  else if (ga_Status gate =s "blocked") && (sv_Status a =s "blocked")
  then MkVerdict "blocked" "blocked"
         "status projection apply packet is blocked by authorization preview" blockers
  else MkVerdict "needs_approval" "needs_explicit_approval"
         "status projection apply packet is generated but still needs explicit approval" blockers.

Definition BuildStatusProjectionApplyPacketPreview (env : Env)
    (a : StatusProjectionAuthorizationPreview)
    (options : StatusProjectionApplyPacketPreviewOptions) : StatusProjectionApplyPacketPreview :=
  let o := normalizeStatusProjectionApplyPacketPreviewOptions env options in
  let packet := statusProjectionApplyPacketFromAuthorization a o in
  let gate :=
    BuildStatusProjectionApplyGate env a
      (statusProjectionApplyGateOptionsFromPacket packet (kpo_GeneratedAt o)) in
  let v := packet_verdict a gate in
  MkPacketPreview (sv_Project a) (vd_Status v) statusProjectionApplyPacketMode
    statusProjectionClaimScope (vd_Decision v) (vd_Message v) (vd_BlockedBy v) (gate_phrase a) a
    gate packet (statusProjectionApplyPacketCommand (sv_Project a) packet)
    (statusProjectionApplyPacketAPIRequest packet)
    ["review target preimage schema status"; "review expected-before hash and size";
     "review rollback action"; "run validator preflight before apply";
     "run protected path check before and after apply"]
    (sv_ForbiddenActions a) statusProjectionApplyPacketSafetyFacts
    (ga_ApplyCommandEligible gate) (default 0 (kpo_GeneratedAt o)).

Definition StatusProjectionApplyPacketPreview_ (env : Env) (os : StatusOS) (record : Record_)
    (options : StatusProjectionApplyPacketPreviewOptions) : M StatusProjectionApplyPacketPreview :=
  let o := normalizeStatusProjectionApplyPacketPreviewOptions env options in
  authorization <- StatusProjectionAuthorizationPreview_ env os record
                     (MkPreviewOptions (kpo_TargetURI o) (kpo_GeneratedAt o)) ;;
  ret (BuildStatusProjectionApplyPacketPreview env authorization o).
