(* ===== verification/StatusApply.v ===== *)
(** * Applying a status projection

    [internal/project/status_projection_apply.go]: the command that writes the
    status file of a project.  It checks the packet of the request against the
    gate, captures the file that is there and the protected paths, lets the
    writer replace the file, reads the result back, and records a snapshot, a
    projection, an event and an audit event; whatever fails after the write
    puts the captured file back, except the commit itself.

    The writer is an argument of the request, as in the source; it works on the
    files alone. *)

From stdpp Require Import base list strings numbers gmap.
From Stdlib Require Import ZArith Lia String.
From S2P Require Import Prelude GoString Sha256 Json JsonText GoTime Schema Tx Command Worker FilePath Permission Gates.
From S2P Require Import StatusFiles StatusShape StatusStore StatusExport StatusProjection.

Definition statusProjectionApplyCommandType : string := "project.status_projection.apply".

Record StatusProjectionWriteResult := MkStatusWriteResult {
  sx_Target : string; sx_Hash : string; sx_Size : Z; sx_RootContained : bool;
  sx_StableProjectionValidated : bool; sx_AtomicReplaceUsed : bool }.

Definition StatusProjectionWriter : Type :=
  Record_ -> Snapshot -> string -> gmap string string ->
  res string StatusProjectionWriteResult * gmap string string.

Record statusProjectionFilePreimage := MkFilePreimage {
  pm_TargetPath : string; pm_Exists : bool; pm_Content : string; pm_SHA256 : string;
  pm_SizeBytes : Z }.

Record ApplyStatusProjectionOptions := MkApplyOptions {
  apo_TargetURI : string; apo_IdempotencyKey : string; apo_Actor : string; apo_Reason : string;
  apo_Writer : option StatusProjectionWriter; apo_Gate : StatusProjectionApplyGateOptions }.

Record statusProjectionPostWriteVerification := MkVerification {
  vf_Verified : bool; vf_SHA256 : string; vf_Size : Z; vf_RootContained : bool;
  vf_StableProjectionValidated : bool }.

Record ApplyStatusProjectionResult := MkApplyResult {
  sr_Project : Record_; sr_Status : string; sr_Decision : string; sr_Message : string;
  sr_Blockers : list string; sr_EventID : Z; sr_AuditEventID : Z; sr_SnapshotID : Z;
  sr_StatusProjectionID : Z; sr_TargetKind : string; sr_TargetURI : string;
  sr_WrittenTarget : string; sr_WriteHash : string; sr_WriteSize : Z;
  sr_PreimageCaptured : bool; sr_PreimageExists : bool; sr_PreimageSHA256 : string;
  sr_PreimageSize : Z; sr_PostWriteVerified : bool; sr_PostWriteSHA256 : string;
  sr_PostWriteSize : Z; sr_ProtectedPathsVerified : bool;
  sr_ProtectedPathBeforeHash : string; sr_ProtectedPathAfterHash : string;
  sr_ExpectedProtectedPathHash : string; sr_RootContained : bool;
  sr_StableProjectionValid : bool; sr_AtomicReplaceUsed : bool;
  sr_RollbackCompensation : bool; sr_SourceHash : string; sr_SummaryState : string;
  sr_ApplyGateStatus : string; sr_ApplyGateDecision : string;
  sr_ApplyGateApprovalStatus : string; sr_ApplyCommandEligible : bool;
  sr_IdempotencyKey : string; sr_Created : bool; sr_GeneratedAt : Z;
  sr_ProjectWriteAttempted : bool; sr_ExecutionWriteAttempted : bool;
  sr_EngineCallAttempted : bool }.

(** ** Assignments to the result *)

Definition result_denied (message : string) (blockers : list string) (r : ApplyStatusProjectionResult)
  : ApplyStatusProjectionResult :=
  MkApplyResult
    (sr_Project r) "blocked" "denied" message (sr_Blockers r ++ blockers) (sr_EventID r)
    (sr_AuditEventID r) (sr_SnapshotID r) (sr_StatusProjectionID r) (sr_TargetKind r)
    (sr_TargetURI r) (sr_WrittenTarget r) (sr_WriteHash r) (sr_WriteSize r)
    (sr_PreimageCaptured r) (sr_PreimageExists r) (sr_PreimageSHA256 r) (sr_PreimageSize r)
    (sr_PostWriteVerified r) (sr_PostWriteSHA256 r) (sr_PostWriteSize r)
    (sr_ProtectedPathsVerified r) (sr_ProtectedPathBeforeHash r)
    (sr_ProtectedPathAfterHash r) (sr_ExpectedProtectedPathHash r) (sr_RootContained r)
    (sr_StableProjectionValid r) (sr_AtomicReplaceUsed r) (sr_RollbackCompensation r)
    (sr_SourceHash r) (sr_SummaryState r) (sr_ApplyGateStatus r) (sr_ApplyGateDecision r)
    (sr_ApplyGateApprovalStatus r) (sr_ApplyCommandEligible r) (sr_IdempotencyKey r)
    (sr_Created r) (sr_GeneratedAt r) (sr_ProjectWriteAttempted r)
    (sr_ExecutionWriteAttempted r) (sr_EngineCallAttempted r).

Definition result_not_attempted (r : ApplyStatusProjectionResult)
  : ApplyStatusProjectionResult :=
  MkApplyResult
    (sr_Project r) (sr_Status r) (sr_Decision r) (sr_Message r) (sr_Blockers r)
    (sr_EventID r) (sr_AuditEventID r) (sr_SnapshotID r) (sr_StatusProjectionID r)
    (sr_TargetKind r) (sr_TargetURI r) (sr_WrittenTarget r) (sr_WriteHash r) (sr_WriteSize r)
    (sr_PreimageCaptured r) (sr_PreimageExists r) (sr_PreimageSHA256 r) (sr_PreimageSize r)
    (sr_PostWriteVerified r) (sr_PostWriteSHA256 r) (sr_PostWriteSize r)
    (sr_ProtectedPathsVerified r) (sr_ProtectedPathBeforeHash r)
    (sr_ProtectedPathAfterHash r) (sr_ExpectedProtectedPathHash r) (sr_RootContained r)
    (sr_StableProjectionValid r) (sr_AtomicReplaceUsed r) (sr_RollbackCompensation r)
    (sr_SourceHash r) (sr_SummaryState r) (sr_ApplyGateStatus r) (sr_ApplyGateDecision r)
    (sr_ApplyGateApprovalStatus r) (sr_ApplyCommandEligible r) (sr_IdempotencyKey r)
    (sr_Created r) (sr_GeneratedAt r) false (sr_ExecutionWriteAttempted r)
    (sr_EngineCallAttempted r).

Definition result_preimage (p : statusProjectionFilePreimage) (r : ApplyStatusProjectionResult)
  : ApplyStatusProjectionResult :=
  MkApplyResult
    (sr_Project r) (sr_Status r) (sr_Decision r) (sr_Message r) (sr_Blockers r)
    (sr_EventID r) (sr_AuditEventID r) (sr_SnapshotID r) (sr_StatusProjectionID r)
    (sr_TargetKind r) (sr_TargetURI r) (sr_WrittenTarget r) (sr_WriteHash r) (sr_WriteSize r)
    true (pm_Exists p) (pm_SHA256 p) (pm_SizeBytes p) (sr_PostWriteVerified r)
    (sr_PostWriteSHA256 r) (sr_PostWriteSize r) (sr_ProtectedPathsVerified r)
    (sr_ProtectedPathBeforeHash r) (sr_ProtectedPathAfterHash r)
    (sr_ExpectedProtectedPathHash r) (sr_RootContained r) (sr_StableProjectionValid r)
    (sr_AtomicReplaceUsed r) (sr_RollbackCompensation r) (sr_SourceHash r)
    (sr_SummaryState r) (sr_ApplyGateStatus r) (sr_ApplyGateDecision r)
    (sr_ApplyGateApprovalStatus r) (sr_ApplyCommandEligible r) (sr_IdempotencyKey r)
    (sr_Created r) (sr_GeneratedAt r) (sr_ProjectWriteAttempted r)
    (sr_ExecutionWriteAttempted r) (sr_EngineCallAttempted r).

Definition result_protected_before (hash expected : string) (r : ApplyStatusProjectionResult)
  : ApplyStatusProjectionResult :=
  MkApplyResult
    (sr_Project r) (sr_Status r) (sr_Decision r) (sr_Message r) (sr_Blockers r)
    (sr_EventID r) (sr_AuditEventID r) (sr_SnapshotID r) (sr_StatusProjectionID r)
    (sr_TargetKind r) (sr_TargetURI r) (sr_WrittenTarget r) (sr_WriteHash r) (sr_WriteSize r)
    (sr_PreimageCaptured r) (sr_PreimageExists r) (sr_PreimageSHA256 r) (sr_PreimageSize r)
    (sr_PostWriteVerified r) (sr_PostWriteSHA256 r) (sr_PostWriteSize r)
    (sr_ProtectedPathsVerified r) hash (sr_ProtectedPathAfterHash r) expected
    (sr_RootContained r) (sr_StableProjectionValid r) (sr_AtomicReplaceUsed r)
    (sr_RollbackCompensation r) (sr_SourceHash r) (sr_SummaryState r) (sr_ApplyGateStatus r)
    (sr_ApplyGateDecision r) (sr_ApplyGateApprovalStatus r) (sr_ApplyCommandEligible r)
    (sr_IdempotencyKey r) (sr_Created r) (sr_GeneratedAt r) (sr_ProjectWriteAttempted r)
    (sr_ExecutionWriteAttempted r) (sr_EngineCallAttempted r).

Definition result_rolled_back (v : statusProjectionPostWriteVerification) (rolledBack : bool) (r : ApplyStatusProjectionResult)
  : ApplyStatusProjectionResult :=
  MkApplyResult
    (sr_Project r) (sr_Status r) (sr_Decision r) (sr_Message r) (sr_Blockers r)
    (sr_EventID r) (sr_AuditEventID r) (sr_SnapshotID r) (sr_StatusProjectionID r)
    (sr_TargetKind r) (sr_TargetURI r) (sr_WrittenTarget r) (sr_WriteHash r) (sr_WriteSize r)
    (sr_PreimageCaptured r) (sr_PreimageExists r) (sr_PreimageSHA256 r) (sr_PreimageSize r)
    false (vf_SHA256 v) (vf_Size v) (sr_ProtectedPathsVerified r)
    (sr_ProtectedPathBeforeHash r) (sr_ProtectedPathAfterHash r)
    (sr_ExpectedProtectedPathHash r) (sr_RootContained r) (sr_StableProjectionValid r)
    (sr_AtomicReplaceUsed r) (rolledBack || sr_RollbackCompensation r) (sr_SourceHash r)
    (sr_SummaryState r) (sr_ApplyGateStatus r) (sr_ApplyGateDecision r)
    (sr_ApplyGateApprovalStatus r) (sr_ApplyCommandEligible r) (sr_IdempotencyKey r)
    (sr_Created r) (sr_GeneratedAt r) (sr_ProjectWriteAttempted r)
    (sr_ExecutionWriteAttempted r) (sr_EngineCallAttempted r).

Definition result_written (x : StatusProjectionWriteResult) (r : ApplyStatusProjectionResult)
  : ApplyStatusProjectionResult :=
  MkApplyResult
    (sr_Project r) (sr_Status r) (sr_Decision r) (sr_Message r) (sr_Blockers r)
    (sr_EventID r) (sr_AuditEventID r) (sr_SnapshotID r) (sr_StatusProjectionID r)
    (sr_TargetKind r) (sr_TargetURI r) (sx_Target x) (sx_Hash x) (sx_Size x)
    (sr_PreimageCaptured r) (sr_PreimageExists r) (sr_PreimageSHA256 r) (sr_PreimageSize r)
    (sr_PostWriteVerified r) (sr_PostWriteSHA256 r) (sr_PostWriteSize r)
    (sr_ProtectedPathsVerified r) (sr_ProtectedPathBeforeHash r)
    (sr_ProtectedPathAfterHash r) (sr_ExpectedProtectedPathHash r) (sx_RootContained x)
    (sx_StableProjectionValidated x) (sx_AtomicReplaceUsed x) true (sr_SourceHash r)
    (sr_SummaryState r) (sr_ApplyGateStatus r) (sr_ApplyGateDecision r)
    (sr_ApplyGateApprovalStatus r) (sr_ApplyCommandEligible r) (sr_IdempotencyKey r)
    (sr_Created r) (sr_GeneratedAt r) (sr_ProjectWriteAttempted r)
    (sr_ExecutionWriteAttempted r) (sr_EngineCallAttempted r).

Definition result_verification (v : statusProjectionPostWriteVerification) (r : ApplyStatusProjectionResult)
  : ApplyStatusProjectionResult :=
  MkApplyResult
    (sr_Project r) (sr_Status r) (sr_Decision r) (sr_Message r) (sr_Blockers r)
    (sr_EventID r) (sr_AuditEventID r) (sr_SnapshotID r) (sr_StatusProjectionID r)
    (sr_TargetKind r) (sr_TargetURI r) (sr_WrittenTarget r) (sr_WriteHash r) (sr_WriteSize r)
    (sr_PreimageCaptured r) (sr_PreimageExists r) (sr_PreimageSHA256 r) (sr_PreimageSize r)
    (vf_Verified v) (vf_SHA256 v) (vf_Size v) (sr_ProtectedPathsVerified r)
    (sr_ProtectedPathBeforeHash r) (sr_ProtectedPathAfterHash r)
    (sr_ExpectedProtectedPathHash r) (vf_RootContained v) (vf_StableProjectionValidated v)
    (sr_AtomicReplaceUsed r) (sr_RollbackCompensation r) (sr_SourceHash r)
    (sr_SummaryState r) (sr_ApplyGateStatus r) (sr_ApplyGateDecision r)
    (sr_ApplyGateApprovalStatus r) (sr_ApplyCommandEligible r) (sr_IdempotencyKey r)
    (sr_Created r) (sr_GeneratedAt r) (sr_ProjectWriteAttempted r)
    (sr_ExecutionWriteAttempted r) (sr_EngineCallAttempted r).

Definition result_protected_after (hash : string) (r : ApplyStatusProjectionResult)
  : ApplyStatusProjectionResult :=
  MkApplyResult
    (sr_Project r) (sr_Status r) (sr_Decision r) (sr_Message r) (sr_Blockers r)
    (sr_EventID r) (sr_AuditEventID r) (sr_SnapshotID r) (sr_StatusProjectionID r)
    (sr_TargetKind r) (sr_TargetURI r) (sr_WrittenTarget r) (sr_WriteHash r) (sr_WriteSize r)
    (sr_PreimageCaptured r) (sr_PreimageExists r) (sr_PreimageSHA256 r) (sr_PreimageSize r)
    (sr_PostWriteVerified r) (sr_PostWriteSHA256 r) (sr_PostWriteSize r)
    (sr_ProtectedPathsVerified r) (sr_ProtectedPathBeforeHash r) hash
    (sr_ExpectedProtectedPathHash r) (sr_RootContained r) (sr_StableProjectionValid r)
    (sr_AtomicReplaceUsed r) (sr_RollbackCompensation r) (sr_SourceHash r)
    (sr_SummaryState r) (sr_ApplyGateStatus r) (sr_ApplyGateDecision r)
    (sr_ApplyGateApprovalStatus r) (sr_ApplyCommandEligible r) (sr_IdempotencyKey r)
    (sr_Created r) (sr_GeneratedAt r) (sr_ProjectWriteAttempted r)
    (sr_ExecutionWriteAttempted r) (sr_EngineCallAttempted r).

Definition result_protected_verified (r : ApplyStatusProjectionResult)
  : ApplyStatusProjectionResult :=
  MkApplyResult
    (sr_Project r) (sr_Status r) (sr_Decision r) (sr_Message r) (sr_Blockers r)
    (sr_EventID r) (sr_AuditEventID r) (sr_SnapshotID r) (sr_StatusProjectionID r)
    (sr_TargetKind r) (sr_TargetURI r) (sr_WrittenTarget r) (sr_WriteHash r) (sr_WriteSize r)
    (sr_PreimageCaptured r) (sr_PreimageExists r) (sr_PreimageSHA256 r) (sr_PreimageSize r)
    (sr_PostWriteVerified r) (sr_PostWriteSHA256 r) (sr_PostWriteSize r) true
    (sr_ProtectedPathBeforeHash r) (sr_ProtectedPathAfterHash r)
    (sr_ExpectedProtectedPathHash r) (sr_RootContained r) (sr_StableProjectionValid r)
    (sr_AtomicReplaceUsed r) (sr_RollbackCompensation r) (sr_SourceHash r)
    (sr_SummaryState r) (sr_ApplyGateStatus r) (sr_ApplyGateDecision r)
    (sr_ApplyGateApprovalStatus r) (sr_ApplyCommandEligible r) (sr_IdempotencyKey r)
    (sr_Created r) (sr_GeneratedAt r) (sr_ProjectWriteAttempted r)
    (sr_ExecutionWriteAttempted r) (sr_EngineCallAttempted r).

Definition result_snapshot (id : Z) (r : ApplyStatusProjectionResult)
  : ApplyStatusProjectionResult :=
  MkApplyResult
    (sr_Project r) (sr_Status r) (sr_Decision r) (sr_Message r) (sr_Blockers r)
    (sr_EventID r) (sr_AuditEventID r) id (sr_StatusProjectionID r) (sr_TargetKind r)
    (sr_TargetURI r) (sr_WrittenTarget r) (sr_WriteHash r) (sr_WriteSize r)
    (sr_PreimageCaptured r) (sr_PreimageExists r) (sr_PreimageSHA256 r) (sr_PreimageSize r)
    (sr_PostWriteVerified r) (sr_PostWriteSHA256 r) (sr_PostWriteSize r)
    (sr_ProtectedPathsVerified r) (sr_ProtectedPathBeforeHash r)
    (sr_ProtectedPathAfterHash r) (sr_ExpectedProtectedPathHash r) (sr_RootContained r)
    (sr_StableProjectionValid r) (sr_AtomicReplaceUsed r) (sr_RollbackCompensation r)
    (sr_SourceHash r) (sr_SummaryState r) (sr_ApplyGateStatus r) (sr_ApplyGateDecision r)
    (sr_ApplyGateApprovalStatus r) (sr_ApplyCommandEligible r) (sr_IdempotencyKey r)
    (sr_Created r) (sr_GeneratedAt r) (sr_ProjectWriteAttempted r)
    (sr_ExecutionWriteAttempted r) (sr_EngineCallAttempted r).

Definition result_projection (id : Z) (r : ApplyStatusProjectionResult)
  : ApplyStatusProjectionResult :=
  MkApplyResult
    (sr_Project r) (sr_Status r) (sr_Decision r) (sr_Message r) (sr_Blockers r)
    (sr_EventID r) (sr_AuditEventID r) (sr_SnapshotID r) id (sr_TargetKind r)
    (sr_TargetURI r) (sr_WrittenTarget r) (sr_WriteHash r) (sr_WriteSize r)
    (sr_PreimageCaptured r) (sr_PreimageExists r) (sr_PreimageSHA256 r) (sr_PreimageSize r)
    (sr_PostWriteVerified r) (sr_PostWriteSHA256 r) (sr_PostWriteSize r)
    (sr_ProtectedPathsVerified r) (sr_ProtectedPathBeforeHash r)
    (sr_ProtectedPathAfterHash r) (sr_ExpectedProtectedPathHash r) (sr_RootContained r)
    (sr_StableProjectionValid r) (sr_AtomicReplaceUsed r) (sr_RollbackCompensation r)
    (sr_SourceHash r) (sr_SummaryState r) (sr_ApplyGateStatus r) (sr_ApplyGateDecision r)
    (sr_ApplyGateApprovalStatus r) (sr_ApplyCommandEligible r) (sr_IdempotencyKey r)
    (sr_Created r) (sr_GeneratedAt r) (sr_ProjectWriteAttempted r)
    (sr_ExecutionWriteAttempted r) (sr_EngineCallAttempted r).

Definition result_event (id : Z) (r : ApplyStatusProjectionResult)
  : ApplyStatusProjectionResult :=
  MkApplyResult
    (sr_Project r) (sr_Status r) (sr_Decision r) (sr_Message r) (sr_Blockers r) id
    (sr_AuditEventID r) (sr_SnapshotID r) (sr_StatusProjectionID r) (sr_TargetKind r)
    (sr_TargetURI r) (sr_WrittenTarget r) (sr_WriteHash r) (sr_WriteSize r)
    (sr_PreimageCaptured r) (sr_PreimageExists r) (sr_PreimageSHA256 r) (sr_PreimageSize r)
    (sr_PostWriteVerified r) (sr_PostWriteSHA256 r) (sr_PostWriteSize r)
    (sr_ProtectedPathsVerified r) (sr_ProtectedPathBeforeHash r)
    (sr_ProtectedPathAfterHash r) (sr_ExpectedProtectedPathHash r) (sr_RootContained r)
    (sr_StableProjectionValid r) (sr_AtomicReplaceUsed r) (sr_RollbackCompensation r)
    (sr_SourceHash r) (sr_SummaryState r) (sr_ApplyGateStatus r) (sr_ApplyGateDecision r)
    (sr_ApplyGateApprovalStatus r) (sr_ApplyCommandEligible r) (sr_IdempotencyKey r)
    (sr_Created r) (sr_GeneratedAt r) (sr_ProjectWriteAttempted r)
    (sr_ExecutionWriteAttempted r) (sr_EngineCallAttempted r).

Definition result_created (auditEventID : Z) (key : string) (r : ApplyStatusProjectionResult)
  : ApplyStatusProjectionResult :=
  MkApplyResult
    (sr_Project r) (sr_Status r) (sr_Decision r) (sr_Message r) (sr_Blockers r)
    (sr_EventID r) auditEventID (sr_SnapshotID r) (sr_StatusProjectionID r) (sr_TargetKind r)
    (sr_TargetURI r) (sr_WrittenTarget r) (sr_WriteHash r) (sr_WriteSize r)
    (sr_PreimageCaptured r) (sr_PreimageExists r) (sr_PreimageSHA256 r) (sr_PreimageSize r)
    (sr_PostWriteVerified r) (sr_PostWriteSHA256 r) (sr_PostWriteSize r)
    (sr_ProtectedPathsVerified r) (sr_ProtectedPathBeforeHash r)
    (sr_ProtectedPathAfterHash r) (sr_ExpectedProtectedPathHash r) (sr_RootContained r)
    (sr_StableProjectionValid r) (sr_AtomicReplaceUsed r) (sr_RollbackCompensation r)
    (sr_SourceHash r) (sr_SummaryState r) (sr_ApplyGateStatus r) (sr_ApplyGateDecision r)
    (sr_ApplyGateApprovalStatus r) (sr_ApplyCommandEligible r) key true (sr_GeneratedAt r)
    (sr_ProjectWriteAttempted r) (sr_ExecutionWriteAttempted r) (sr_EngineCallAttempted r).

(** ** Requests *)

Definition set_gate_target (targetURI : string) (o : StatusProjectionApplyGateOptions)
  : StatusProjectionApplyGateOptions :=
  MkGateOptions targetURI (go_ExpectedBeforeExists o) (go_ExpectedBeforeSHA256 o)
    (go_ExpectedBeforeSizeBytes o) (go_SourceHash o) (go_SchemaURI o) (go_ValidatorPreflight o)
    (go_ProtectedPathCheck o) (go_ProtectedPathFingerprintSHA256 o) (go_RollbackAction o)
    (go_AcceptedPreimageSchemaStatus o) (go_ExplicitApproval o) (go_ApprovalActor o)
    (go_ApprovalReason o) (go_GeneratedAt o).

Definition normalizeApplyStatusProjectionOptions (env : Env) (o : ApplyStatusProjectionOptions)
  : ApplyStatusProjectionOptions :=
  let targetURI := trim_default default_target (apo_TargetURI o) in
  MkApplyOptions targetURI (trim_space (apo_IdempotencyKey o))
    (trim_default "local-user" (apo_Actor o))
    (trim_default "status projection apply" (apo_Reason o)) (apo_Writer o)
    (set_gate_target targetURI (normalizeStatusProjectionApplyGateOptions env (apo_Gate o))).

Definition statusProjectionApplyGateRequestHashPayload (o : StatusProjectionApplyGateOptions)
  : jmap :=
  mk ([("target_uri", JStr (go_TargetURI o));
       ("expected_before_sha256", JStr (go_ExpectedBeforeSHA256 o));
       ("source_hash", JStr (go_SourceHash o)); ("schema_uri", JStr (go_SchemaURI o));
       ("validator_preflight", JStr (go_ValidatorPreflight o));
       ("protected_path_check", JStr (go_ProtectedPathCheck o));
       ("protected_path_fingerprint_sha256", JStr (go_ProtectedPathFingerprintSHA256 o));
       ("rollback_action", JStr (go_RollbackAction o));
       ("accepted_preimage_schema_status", JStr (go_AcceptedPreimageSchemaStatus o));
       ("explicit_approval", JBool (go_ExplicitApproval o));
       ("approval_actor", JStr (go_ApprovalActor o));
       ("approval_reason", JStr (go_ApprovalReason o))]
      ++ match go_ExpectedBeforeExists o with
         | Some b => [("expected_before_exists", JBool b)] | None => [] end
      ++ match go_ExpectedBeforeSizeBytes o with
         | Some z => [("expected_before_size_bytes", JInt z)] | None => [] end).

Definition statusProjectionApplyGatePacketHash (o : StatusProjectionApplyGateOptions) : string :=
  shortSHA256Hex (marshal (JObj (statusProjectionApplyGateRequestHashPayload o))).

Definition statusProjectionApplyRequestHash (record : Record_)
    (o : ApplyStatusProjectionOptions) (snapshot : Snapshot) : string :=
  request_hash
    [("command_type", JStr statusProjectionApplyCommandType); ("project_id", JInt (p_ID record));
     ("project_key", JStr (p_Key record)); ("project_root", JStr (p_RootPath record));
     ("target_kind", JStr (statusProjectionTargetKind (apo_TargetURI o)));
     ("target_uri", JStr (apo_TargetURI o)); ("source_hash", JStr (sn_SourceHash snapshot));
     ("summary", sn_Summary snapshot); ("actor", JStr (apo_Actor o));
     ("reason", JStr (apo_Reason o));
     ("gate_packet", JObj (statusProjectionApplyGateRequestHashPayload (apo_Gate o)));
     ("protected", JBool true)].

Definition statusProjectionApplyIdempotencyKey (record : Record_)
    (o : ApplyStatusProjectionOptions) (snapshot : Snapshot) : string :=
  "project.status_projection.apply:" +:+ p_Key record +:+ ":" +:+ apo_TargetURI o +:+ ":"
  +:+ shortSHA256Hex (trim_space (p_RootPath record)) +:+ ":"
  +:+ trim_space (sn_SourceHash snapshot) +:+ ":"
  +:+ statusProjectionApplyGatePacketHash (apo_Gate o) +:+ ":"
  +:+ shortSHA256Hex (marshal (sn_Summary snapshot)).

(** ** The decision *)

(** The gate's blockers, those of an item without blockers being its key *)
Definition statusProjectionApplyGateBlockers (gate : StatusProjectionApplyGate) : list string :=
  uniqueStrings ("status_projection_apply_gate_blocked"
    :: flat_map (fun i => if item_pass i then []
                          else match gi_BlockedBy i with [] => [gi_Key i] | l => l end)
         (ga_Items gate)).

Definition apply_blockers (rows : list permissionRow) (record : Record_)
    (o : ApplyStatusProjectionOptions) (gate : StatusProjectionApplyGate) : list string :=
  (if apo_TargetURI o <>s ".areaflow/status.json"
   then ["status projection apply currently only supports .areaflow/status.json"] else [])
  ++ (if (ga_Status gate <>s "pass") || (ga_Decision gate <>s "go")
         || negb (ga_ApplyCommandEligible gate)
      then statusProjectionApplyGateBlockers gate else [])
  ++ (let '(allowed, reason) :=
        canWritePathTx rows (p_ID record) "write_status" (apo_TargetURI o) in
      if (allowed : bool) then [] else [reason]).

Definition apply_allowed (env : Env) (record : Record_) (snapshot : Snapshot)
    (o : ApplyStatusProjectionOptions) (gate : StatusProjectionApplyGate)
  : ApplyStatusProjectionResult :=
  MkApplyResult
    record "written" "allowed" "status projection written" [] 0 0 0 0
    (statusProjectionTargetKind (apo_TargetURI o)) (apo_TargetURI o) "" "" 0 false false "" 0
    false "" 0 false "" "" "" false false false false (sn_SourceHash snapshot)
    (statusProjectionSummaryState (sn_Summary snapshot)) (ga_Status gate) (ga_Decision gate)
    (ga_ApprovalStatus gate) (ga_ApplyCommandEligible gate) "" false (env_unixnano env) true
    false false.

Definition evaluateStatusProjectionApply (env : Env) (rows : list permissionRow)
    (record : Record_) (snapshot : Snapshot) (o : ApplyStatusProjectionOptions)
    (gate : StatusProjectionApplyGate) : ApplyStatusProjectionResult :=
  let result := apply_allowed env record snapshot o gate in
  match apply_blockers rows record o gate with
  | [] => result
  | blockers =>
      result_not_attempted
        (result_denied "status projection apply blocked by protected boundary" blockers result)
  end.

(** ** The write *)

Section Apply.
Context (os : StatusOS).

Definition captureStatusProjectionApplyPreimage (record : Record_) (targetURI : string)
    (files : gmap string string) : res string statusProjectionFilePreimage :=
  match statusProjectionTargetPath os record targetURI with
  | Err e => Err e
  | Ok path =>
      match os_stat os ReadPreimage path files with
      | StatMissing => Ok (MkFilePreimage path false "" "" 0)
      | StatFailed e => Err ("stat status projection preimage: " +:+ e)
      | StatDir => Err "status projection target is a directory"
      | StatFile size =>
          if maxStatusProjectionPreimageBytes <? size
          then Err ("status projection preimage exceeds "
                    +:+ fmt_d maxStatusProjectionPreimageBytes +:+ " bytes")
          else match os_read_file os ReadPreimage path files with
               | Err e => Err ("read status projection preimage: " +:+ e)
               | Ok content =>
                   Ok (MkFilePreimage path true content (sha256_hex content) (len content))
               end
      end
  end.

Definition statusProjectionApplyPreimageRecheckBlockers (preimage : statusProjectionFilePreimage)
    (o : StatusProjectionApplyGateOptions) : list string :=
  let expectedSHA := trim_space (go_ExpectedBeforeSHA256 o) in
  uniqueStrings
    (match go_ExpectedBeforeExists o with
     | None => ["expected_before_exists_missing_before_write"]
     | Some b => if Bool.eqb (pm_Exists preimage) b then []
                 else ["expected_before_exists_changed_before_write"]
     end
     ++ match go_ExpectedBeforeSizeBytes o with
        | None => ["expected_before_size_bytes_missing_before_write"]
        | Some z => if pm_SizeBytes preimage =? z then []
                    else ["expected_before_size_bytes_changed_before_write"]
        end
     ++ (if pm_Exists preimage then
           if expectedSHA =s "" then ["expected_before_sha256_missing_before_write"]
           else if pm_SHA256 preimage <>s expectedSHA
           then ["expected_before_sha256_changed_before_write"] else []
         else if expectedSHA <>s "" then ["expected_before_sha256_changed_before_write"] else [])).

(** *** Rollback: the error, if any, and the files it leaves *)

Definition restoreStatusProjectionPreimageAtomically (path content : string)
    (files : gmap string string) : option string * gmap string string :=
  replace_atomically os ReplaceRollback path content files.

Definition rollbackStatusProjectionApplyFile (preimage : statusProjectionFilePreimage)
    (writeHash : string) (files : gmap string string) : option string * gmap string string :=
  if trim_space writeHash =s "" then (Some "write hash missing", files)
  else match os_read_file os ReadRollback (pm_TargetPath preimage) files with
       | Err e => (Some ("read written status projection: " +:+ e), files)
       | Ok current =>
           if sha256_hex current <>s writeHash
           then (Some "written status projection hash changed before rollback", files)
           else if pm_Exists preimage then
             match restoreStatusProjectionPreimageAtomically (pm_TargetPath preimage)
                     (pm_Content preimage) files with
             | (Some e, files) => (Some ("restore status projection preimage: " +:+ e), files)
             | (None, files) => (None, files)
             end
           else
             match os_remove os (pm_TargetPath preimage) files with
             | (Some e, files) => (Some ("remove created status projection: " +:+ e), files)
             | (None, files) => (None, files)
             end
       end.

Definition no_verification : statusProjectionPostWriteVerification :=
  MkVerification false "" 0 false false.

(** The verification, whether something was rolled back, the error and the
    files *)
Definition rollbackStatusProjectionApplyPartialWriterError
    (preimage : statusProjectionFilePreimage) (files : gmap string string)
  : statusProjectionPostWriteVerification * bool * option string * gmap string string :=
  let path := pm_TargetPath preimage in
  match os_stat os ReadFailed path files with
  | StatMissing =>
      if negb (pm_Exists preimage) then (no_verification, false, None, files)
      else match restoreStatusProjectionPreimageAtomically path (pm_Content preimage) files with
           | (Some e, files) =>
               (no_verification, true,
                Some ("restore missing status projection preimage after writer error: " +:+ e),
                files)
           | (None, files) => (no_verification, true, None, files)
           end
  | StatFailed e =>
      (no_verification, false, Some ("stat status projection after writer error: " +:+ e), files)
  | StatDir =>
      (no_verification, false,
       Some "status projection target is a directory after writer error", files)
  | StatFile _ =>
      match os_read_file os ReadFailed path files with
      | Err e =>
          (no_verification, false, Some ("read status projection after writer error: " +:+ e),
           files)
      | Ok content =>
          let v := MkVerification false (sha256_hex content) (len content) false false in
          if pm_Exists preimage && (vf_SHA256 v =s pm_SHA256 preimage)
          then (v, false, None, files)
          else let '(e, files) := rollbackStatusProjectionApplyFile preimage (vf_SHA256 v) files in
               (v, true, e, files)
      end
  end.

(** *** Verification: what was found, and the error *)

Definition verifyStatusProjectionApplyWrittenFile (x : StatusProjectionWriteResult)
    (expectedTarget expectedSourceHash : string) (files : gmap string string)
  : statusProjectionPostWriteVerification * option string :=
  if trim_space (sx_Target x) =s ""
  then (no_verification, Some "status projection writer returned empty target")
  else match filepath_abs os (sx_Target x) with
  | Err e => (no_verification, Some ("resolve written status projection target: " +:+ e))
  | Ok actual =>
      match filepath_abs os expectedTarget with
      | Err e => (no_verification, Some ("resolve expected status projection target: " +:+ e))
      | Ok expected =>
          if actual <>s expected
          then (no_verification,
                Some ("status projection post-write target mismatch: actual " +:+ actual
                      +:+ " != expected " +:+ expected))
          else if trim_space (sx_Hash x) =s ""
          then (no_verification, Some "status projection writer returned empty hash")
          else match os_read_file os ReadWritten actual files with
          | Err e =>
              (no_verification,
               Some ("read written status projection for post-write verification: " +:+ e))
          | Ok content =>
              let sha := sha256_hex content in
              let size := len content in
              if sha <>s sx_Hash x
              then (MkVerification false sha size false false,
                    Some ("status projection post-write hash mismatch: actual " +:+ sha
                          +:+ " != reported " +:+ sx_Hash x))
              else if negb (size =? sx_Size x)
              then (MkVerification false sha size false false,
                    Some ("status projection post-write size mismatch: actual " +:+ fmt_d size
                          +:+ " != reported " +:+ fmt_d (sx_Size x)))
              else match verifyStableStatusProjectionJSON os content expectedSourceHash with
                   | Err e => (MkVerification false sha size true false, Some e)
                   | Ok _ => (MkVerification true sha size true true, None)
                   end
          end
      end
  end.

(** What the writer's part of the command leaves: an error, or the preimage,
    whether the file was written, and the result *)
Definition status_write_outcome : Type :=
  res string (statusProjectionFilePreimage * bool * ApplyStatusProjectionResult)
  * gmap string string.

Definition rollback_hash (r : ApplyStatusProjectionResult) : string :=
  if sr_PostWriteSHA256 r =s "" then sr_WriteHash r else sr_PostWriteSHA256 r.

(** A refusal after the write: the captured file is put back. *)
Definition refuse_written (preimage : statusProjectionFilePreimage) (message : string)
    (r : ApplyStatusProjectionResult) (files : gmap string string) : status_write_outcome :=
  match rollbackStatusProjectionApplyFile preimage (rollback_hash r) files with
  | (Some e, files) =>
      (Err (message +:+ "; rollback status projection file: " +:+ e), files)
  | (None, files) => (Ok (preimage, false, r), files)
  end.

Definition writer_failed (preimage : statusProjectionFilePreimage) (error_ : string)
    (r : ApplyStatusProjectionResult) (files : gmap string string) : status_write_outcome :=
  let r := result_denied "status projection write failed" [error_] r in
  let '(v, rolledBack, e, files) :=
    rollbackStatusProjectionApplyPartialWriterError preimage files in
  match e with
  | Some e =>
      (Err ("status projection write failed: " +:+ error_
            +:+ "; rollback status projection file: " +:+ e), files)
  | None => (Ok (preimage, false, result_rolled_back v rolledBack r), files)
  end.

Definition check_written (record : Record_) (snapshot : Snapshot) (targetURI before : string)
    (preimage : statusProjectionFilePreimage) (x : StatusProjectionWriteResult)
    (r : ApplyStatusProjectionResult) (files : gmap string string) : status_write_outcome :=
  let r := result_written x r in
  let '(v, e) :=
    verifyStatusProjectionApplyWrittenFile x (pm_TargetPath preimage) (sn_SourceHash snapshot)
      files in
  let r := result_verification v r in
  match e with
  | Some e =>
      refuse_written preimage ("status projection post-write verification failed: " +:+ e)
        (result_denied "status projection post-write verification failed" [e] r) files
  | None =>
      match captureStatusProjectionProtectedPathFingerprint os ReadWritten record targetURI files
      with
      | Err e =>
          refuse_written preimage
            ("status projection protected path fingerprint failed after write: " +:+ e)
            (result_denied "status projection protected path fingerprint failed after write" [e]
               (result_protected_after "" r)) files
      | Ok after =>
          let r := result_protected_after (fp_Hash after) r in
          if before <>s fp_Hash after
          then refuse_written preimage "status projection protected paths changed during write"
                 (result_denied "status projection protected paths changed during write"
                    ["protected_path_fingerprint_changed_after_write"] r) files
          else (Ok (preimage, true, result_protected_verified r), files)
      end
  end.

Definition no_preimage : statusProjectionFilePreimage := MkFilePreimage "" false "" "" 0.

Definition runStatusProjectionApplyWriter (record : Record_) (snapshot : Snapshot)
    (targetURI : string) (gateOptions : StatusProjectionApplyGateOptions)
    (writer : StatusProjectionWriter) (r : ApplyStatusProjectionResult)
    (files : gmap string string) : status_write_outcome :=
  let refused preimage message blockers r :=
    (Ok (preimage, false, result_not_attempted (result_denied message blockers r)), files) in
  match captureStatusProjectionApplyPreimage record targetURI files with
  | Err e => refused no_preimage "status projection preimage capture failed" [e] r
  | Ok preimage =>
      let r := result_preimage preimage r in
      match statusProjectionApplyPreimageRecheckBlockers preimage gateOptions with
      | (_ :: _) as blockers =>
          refused preimage "status projection preimage changed before write" blockers r
      | [] =>
          match captureStatusProjectionProtectedPathFingerprint os ReadPreimage record targetURI
                  files with
          | Err e =>
              refused preimage
                "status projection protected path fingerprint failed before write" [e] r
          | Ok before =>
              let expected := trim_space (go_ProtectedPathFingerprintSHA256 gateOptions) in
              let r := result_protected_before (fp_Hash before) expected r in
              if (expected =s "") || (fp_Hash before <>s expected)
              then refused preimage
                     "status projection protected path fingerprint changed before write"
                     ["protected_path_fingerprint_missing_or_mismatch_before_write"] r
              else match writer record snapshot targetURI files with
                   | (Err e, files) => writer_failed preimage e r files
                   | (Ok x, files) =>
                       check_written record snapshot targetURI (fp_Hash before) preimage x r files
                   end
          end
      end
  end.
End Apply.

(** ** Rows *)

(** The facts of the result every record of the command repeats *)
Definition apply_facts (r : ApplyStatusProjectionResult) : jmap :=
  [("preimage_captured", JBool (sr_PreimageCaptured r));
   ("preimage_exists", JBool (sr_PreimageExists r));
   ("preimage_sha256", JStr (sr_PreimageSHA256 r)); ("preimage_size", JInt (sr_PreimageSize r));
   ("post_write_verified", JBool (sr_PostWriteVerified r));
   ("post_write_sha256", JStr (sr_PostWriteSHA256 r));
   ("post_write_size", JInt (sr_PostWriteSize r));
   ("protected_paths_verified", JBool (sr_ProtectedPathsVerified r));
   ("protected_path_before_hash", JStr (sr_ProtectedPathBeforeHash r));
   ("protected_path_after_hash", JStr (sr_ProtectedPathAfterHash r));
   ("expected_protected_path_hash", JStr (sr_ExpectedProtectedPathHash r));
   ("root_contained", JBool (sr_RootContained r));
   ("stable_projection_validated", JBool (sr_StableProjectionValid r));
   ("atomic_replace_used", JBool (sr_AtomicReplaceUsed r));
   ("rollback_compensation_enabled", JBool (sr_RollbackCompensation r));
   ("apply_gate_status", JStr (sr_ApplyGateStatus r));
   ("apply_gate_decision", JStr (sr_ApplyGateDecision r));
   ("apply_gate_approval_status", JStr (sr_ApplyGateApprovalStatus r));
   ("apply_command_eligible", JBool (sr_ApplyCommandEligible r));
   ("project_write_attempted", JBool (sr_ProjectWriteAttempted r));
   ("execution_write_attempted", JBool (sr_ExecutionWriteAttempted r));
   ("engine_call_attempted", JBool (sr_EngineCallAttempted r))].

Definition written_facts (r : ApplyStatusProjectionResult) : jmap :=
  [("written_target", JStr (sr_WrittenTarget r)); ("write_hash", JStr (sr_WriteHash r));
   ("write_size", JInt (sr_WriteSize r))].

Definition target_facts (r : ApplyStatusProjectionResult) : jmap :=
  [("target_kind", JStr (sr_TargetKind r)); ("target_uri", JStr (sr_TargetURI r));
   ("status_projection_id", JInt (sr_StatusProjectionID r));
   ("snapshot_id", JInt (sr_SnapshotID r)); ("source_hash", JStr (sr_SourceHash r))].

(** The blockers of an allowed result are the nil slice. *)
Definition blockers_fact (r : ApplyStatusProjectionResult) : string * json :=
  ("blockers", jstrs_nil (sr_Blockers r)).

Definition insertStatusProjectionSnapshot (env : Env) (record : Record_) (snapshot : Snapshot)
    (o : ApplyStatusProjectionOptions) : M Z :=
  insert_mirror_snapshot env (p_ID record) (sn_Summary snapshot) (sn_SourceHash snapshot)
    (apo_TargetURI o).

Definition result_allowed (r : ApplyStatusProjectionResult) : bool := sr_Decision r =s "allowed".

Definition insertAppliedStatusProjection (env : Env) (record : Record_) (snapshot : Snapshot)
    (o : ApplyStatusProjectionOptions) (r : ApplyStatusProjectionResult) : M Z :=
  p <- insert_row (fun id =>
         MkStatusProjection id (p_ID record) 0 (sr_TargetKind r) (apo_TargetURI o)
           (statusProjectionSummaryState (sn_Summary snapshot)) (sn_Summary snapshot) 0
           (sn_SourceHash snapshot) (if result_allowed r then "written" else "blocked") (env_now env)
           (if result_allowed r then Some (env_unixnano env / 1000) else None)
           (mk ([("command_type", JStr statusProjectionApplyCommandType);
                 ("actor", JStr (apo_Actor o)); ("reason", JStr (apo_Reason o));
                 ("decision", JStr (sr_Decision r)); blockers_fact r]
                ++ written_facts r ++ apply_facts r))) ;;
  ret (sj_ID p).

Definition insertStatusProjectionApplyEvent (env : Env) (r : ApplyStatusProjectionResult)
    (o : ApplyStatusProjectionOptions) : M Z :=
  e <- insert_row (fun id =>
         MkEvent id (p_ID (sr_Project r)) 0 0
           (if result_allowed r then "project.status_projection.apply.completed"
            else "project.status_projection.apply.blocked")
           (if result_allowed r then "info" else "warn")
           (if result_allowed r then "Status projection apply completed"
            else "Status projection apply blocked")
           (mk (target_facts r
                ++ [("decision", JStr (sr_Decision r)); blockers_fact r;
                    ("actor", JStr (apo_Actor o)); ("reason", JStr (apo_Reason o));
                    ("idempotency_key", JStr (apo_IdempotencyKey o))]
                ++ apply_facts r)) (env_now env)) ;;
  ret (e_ID e).

Definition insertStatusProjectionApplyAuditEvent (env : Env) (r : ApplyStatusProjectionResult)
    (o : ApplyStatusProjectionOptions) : M Z :=
  a <- insert_row (fun id =>
         MkAudit id (p_ID (sr_Project r)) 0 "project.status_projection.apply" "write_status"
           "path" (sr_TargetURI r) (sr_Decision r) (apo_Reason o)
           (mk (target_facts r ++ written_facts r
                ++ [blockers_fact r; ("actor", JStr (apo_Actor o));
                    ("idempotency_key", JStr (apo_IdempotencyKey o))]
                ++ apply_facts r)) (env_now env)) ;;
  ret (au_ID a).

Definition statusProjectionApplyCommandResponse (r : ApplyStatusProjectionResult) : jmap :=
  mk ([("project_id", JInt (p_ID (sr_Project r))); ("project_key", JStr (p_Key (sr_Project r)));
       ("status", JStr (sr_Status r)); ("decision", JStr (sr_Decision r));
       ("message", JStr (sr_Message r)); blockers_fact r; ("event_id", JInt (sr_EventID r));
       ("audit_event_id", JInt (sr_AuditEventID r))]
      ++ target_facts r ++ written_facts r ++ apply_facts r
      ++ [("summary_state", JStr (sr_SummaryState r));
          ("idempotency_key", JStr (sr_IdempotencyKey r));
          ("generated_at", JStr (format_rfc3339 (sr_GeneratedAt r)))]).

Definition response_time (env : Env) (response : jmap) : Z :=
  let raw := metadataString response "generated_at" in
  if raw =s "" then env_unixnano env
  else match parse_rfc3339 raw with Some t => t | None => env_unixnano env end.

Definition loadStatusProjectionApplyByCommandResponse (env : Env) (record : Record_)
    (key : string) : M ApplyStatusProjectionResult :=
  m <- loadCommandResponse (p_ID record) statusProjectionApplyCommandType key ;;
  let generatedAt := response_time env m in
  ret (MkApplyResult
    record (metadataString m "status") (metadataString m "decision")
    (metadataString m "message") (metadataStringSlice m "blockers")
    (metadataInt64 m "event_id") (metadataInt64 m "audit_event_id")
    (metadataInt64 m "snapshot_id") (metadataInt64 m "status_projection_id")
    (metadataString m "target_kind") (metadataString m "target_uri")
    (metadataString m "written_target") (metadataString m "write_hash")
    (metadataInt64 m "write_size") (metadataBool m "preimage_captured")
    (metadataBool m "preimage_exists") (metadataString m "preimage_sha256")
    (metadataInt64 m "preimage_size") (metadataBool m "post_write_verified")
    (metadataString m "post_write_sha256") (metadataInt64 m "post_write_size")
    (metadataBool m "protected_paths_verified")
    (metadataString m "protected_path_before_hash")
    (metadataString m "protected_path_after_hash")
    (metadataString m "expected_protected_path_hash") (metadataBool m "root_contained")
    (metadataBool m "stable_projection_validated") (metadataBool m "atomic_replace_used")
    (metadataBool m "rollback_compensation_enabled") (metadataString m "source_hash")
    (metadataString m "summary_state") (metadataString m "apply_gate_status")
    (metadataString m "apply_gate_decision") (metadataString m "apply_gate_approval_status")
    (metadataBool m "apply_command_eligible") key false generatedAt
    (metadataBool m "project_write_attempted") (metadataBool m "execution_write_attempted")
    (metadataBool m "engine_call_attempted")).

(** ** The command *)

(** A statement after the write: its error puts the captured file back, if the
    write counts as done. *)
Definition handlePostWriteError (os : StatusOS) (preimage : statusProjectionFilePreimage)
    (wroteProjectFile : bool) (writeHash : string) {A} (step : status_step) (m : M A) : M A :=
  fun w =>
  match so_DBError os step with
  | None => m w
  | Some e =>
      if wroteProjectFile then
        match rollbackStatusProjectionApplyFile os preimage writeHash (wd_files w) with
        | (Some re, files) =>
            (Err (ErrText (e +:+ "; rollback status projection file: " +:+ re)),
             set_files files w)
        | (None, files) => (Err (ErrText e), set_files files w)
        end
      else (Err (ErrText e), w)
  end.

Definition run_writer (os : StatusOS) (record : Record_) (snapshot : Snapshot)
    (o : ApplyStatusProjectionOptions) (writer : StatusProjectionWriter)
    (r : ApplyStatusProjectionResult)
  : M (statusProjectionFilePreimage * bool * ApplyStatusProjectionResult) :=
  fun w =>
  if result_allowed r then
    match runStatusProjectionApplyWriter os record snapshot (apo_TargetURI o) (apo_Gate o) writer
            r (wd_files w) with
    | (Err e, files) => (Err (ErrText e), set_files files w)
    | (Ok x, files) => (Ok x, set_files files w)
    end
  else (Ok (no_preimage, false, r), w).

Definition record_apply (env : Env) (os : StatusOS) (record : Record_) (snapshot : Snapshot)
    (o : ApplyStatusProjectionOptions) (preimage : statusProjectionFilePreimage) (wrote : bool)
    (r : ApplyStatusProjectionResult) : M (res error ApplyStatusProjectionResult) :=
  let step {A} s (m : M A) := handlePostWriteError os preimage wrote (sr_WriteHash r) s m in
  snapshotID <- step StepSnapshot (insertStatusProjectionSnapshot env record snapshot o) ;;
  let r := result_snapshot snapshotID r in
  projectionID <- step StepProjection (insertAppliedStatusProjection env record snapshot o r) ;;
  let r := result_projection projectionID r in
  eventID <- step StepEvent (insertStatusProjectionApplyEvent env r o) ;;
  let r := result_event eventID r in
  auditEventID <- step StepAudit (insertStatusProjectionApplyAuditEvent env r o) ;;
  let r := result_created auditEventID (apo_IdempotencyKey o) r in
  step StepComplete
    (completeCommandRequestResponse env (p_ID record) statusProjectionApplyCommandType
       (apo_IdempotencyKey o) (statusProjectionApplyCommandResponse r)) ;;;
  match so_DBError os StepCommit with
  | Some e => fail (ErrText ("commit status projection apply: " +:+ e))
  | None => ret (Ok r)
  end.

Definition applyBody (env : Env) (os : StatusOS) (record : Record_) (snapshot : Snapshot)
    (o : ApplyStatusProjectionOptions) (writer : StatusProjectionWriter)
    (gate : StatusProjectionApplyGate) : M (res error ApplyStatusProjectionResult) :=
  db <- get_db ;;
  let r :=
    evaluateStatusProjectionApply env (db_project_permissions db) record snapshot o gate in
  written <- run_writer os record snapshot o writer r ;;
  let '(preimage, wrote, r) := written in
  record_apply env os record snapshot o preimage wrote r.

(** The options with their key filled in *)
Definition applyOptions (record : Record_) (snapshot : Snapshot)
    (o : ApplyStatusProjectionOptions) : ApplyStatusProjectionOptions :=
  MkApplyOptions (apo_TargetURI o)
    (if apo_IdempotencyKey o =s "" then statusProjectionApplyIdempotencyKey record o snapshot
     else apo_IdempotencyKey o)
    (apo_Actor o) (apo_Reason o) (apo_Writer o) (apo_Gate o).

Definition applyTx (env : Env) (os : StatusOS) (record : Record_)
    (o : ApplyStatusProjectionOptions) (writer : StatusProjectionWriter)
  : M (res error ApplyStatusProjectionResult) :=
  snapshot <- LatestImportSnapshot (p_ID record) ;;
  let requestHash := statusProjectionApplyRequestHash record o snapshot in
  let o := applyOptions record snapshot o in
  gate <- StatusProjectionApplyGate_ env os record (apo_Gate o) ;;
  with_command env (p_ID record) statusProjectionApplyCommandType (apo_IdempotencyKey o)
    requestHash
    (r <- loadStatusProjectionApplyByCommandResponse env record (apo_IdempotencyKey o) ;;
     ret (Ok r))
    (applyBody env os record snapshot o writer gate).

Definition ApplyStatusProjection (env : Env) (os : StatusOS) (record : Record_)
    (options : ApplyStatusProjectionOptions) (w : World)
  : res error ApplyStatusProjectionResult * World :=
  let o := normalizeApplyStatusProjectionOptions env options in
  match apo_Writer o with
  | None => (Err (ErrText "status projection writer is required"), w)
  | Some writer => transact (applyTx env os record o writer) w
  end.

(** ** The exporter as the writer, as the server and the command line pass it *)

Definition statusProjectionWriter (env : Env) (os : StatusOS) : StatusProjectionWriter :=
  fun record snapshot targetURI files =>
  match WriteWithResult os env record snapshot targetURI files with
  | (Err e, files) => (Err e, files)
  | (Ok x, files) =>
      (Ok (MkStatusWriteResult (wr_Target x) (wr_Hash x) (wr_Size x) (wr_RootContained x)
             (wr_StableProjectionValidated x) (wr_AtomicReplaceUsed x)), files)
  end.
