(* ===== verification/Encoding.v ===== *)
(** * Text encodings

    What the credentials of [internal/auth] and the request headers of
    [internal/api] are taken apart with: [strings.Cut], [strings.SplitN],
    [strings.Split] and [strings.Fields], [hex.DecodeString] and
    [base64.RawURLEncoding].  The decoders are proved to invert the
    encoders. *)

From stdpp Require Import base list strings numbers.
From Stdlib Require Import ZArith Lia Ascii String.
From S2P Require Import Prelude GoString Sha256.

(** ** Splitting *)

(** [strings.Cut(s, sep)] for a one-byte separator: the parts around its
    first occurrence *)
Fixpoint cut (sep : ascii) (s : string) : option (string * string) :=
  match s with
  | EmptyString => None
  | String c rest =>
      if Ascii.eqb c sep then Some ("", rest)
      else match cut sep rest with
           | Some (a, b) => Some (String c a, b)
           | None => None
           end
  end.

(** [strings.SplitN(s, sep, n)] for [n >= 1] *)
Fixpoint split_n (n : nat) (sep : ascii) (s : string) : list string :=
  match n with
  | S (S _ as n') =>
      match cut sep s with
      | Some (a, b) => a :: split_n n' sep b
      | None => [s]
      end
  | _ => [s]
  end.

(** [strings.Split(s, sep)]: one part more than there are separators, so the
    length of [s] plus one bounds their number. *)
Definition strings_split (sep : ascii) (s : string) : list string :=
  split_n (S (String.length s)) sep s.

(** [strings.TrimPrefix(s, p)] *)
Definition trim_prefix (p s : string) : string :=
  if has_prefix p s
  then String.substring (String.length p) (String.length s - String.length p) s else s.

(** [strings.Trim(s, c)] for a one-byte cutset *)
Fixpoint drop_char (c : ascii) (l : list ascii) : list ascii :=
  match l with
  | x :: rest => if Ascii.eqb x c then drop_char c rest else l
  | [] => []
  end.
Definition strings_trim (c : ascii) (s : string) : string :=
  string_of_list_ascii (rev (drop_char c (rev (drop_char c (list_ascii_of_string s))))).

(** [strings.Fields(s)]: the maximal runs of bytes between space characters;
    every round consumes at least one byte. *)
Fixpoint fields_loop (fuel : nat) (current l : list Z) : list (list Z) :=
  let flush := match current with [] => [] | _ => [current] end in
  match fuel, l with
  | S fuel', b :: rest =>
      match space_width l with
      | O => fields_loop fuel' (current ++ [b]) rest
      | n => flush ++ fields_loop fuel' [] (drop n l)
      end
  | _, _ => flush
  end.
Definition strings_fields (s : string) : list string :=
  List.map str_of_bytes (fields_loop (String.length s) [] (bytes_of s)).

(** [strings.EqualFold] on ASCII strings *)
Definition equal_fold (s t : string) : bool := to_lower s =s to_lower t.

(** ** Hexadecimal *)

Definition hex_value (c : ascii) : option Z :=
  let b := byte_of c in
  if (48 <=? b) && (b <=? 57) then Some (b - 48)
  else if (97 <=? b) && (b <=? 102) then Some (b - 87)
  else if (65 <=? b) && (b <=? 70) then Some (b - 55)
  else None.

Fixpoint hex_decode_list (l : list ascii) : option (list Z) :=
  match l with
  | [] => Some []
  | a :: b :: rest =>
      match hex_value a, hex_value b, hex_decode_list rest with
      | Some x, Some y, Some r => Some (x * 16 + y :: r)
      | _, _, _ => None
      end
  | _ => None
  end.

(** [hex.DecodeString(s)] *)
Definition hex_decode (s : string) : option (list Z) :=
  hex_decode_list (list_ascii_of_string s).

(** ** Base 64, URL alphabet, no padding *)

Definition b64_char (v : Z) : ascii :=
  chr (if v <? 26 then 65 + v else if v <? 52 then 71 + v
       else if v <? 62 then v - 4 else if v =? 62 then 45 else 95).

Definition b64_value (c : ascii) : option Z :=
  let b := byte_of c in
  if (65 <=? b) && (b <=? 90) then Some (b - 65)
  else if (97 <=? b) && (b <=? 122) then Some (b - 71)
  else if (48 <=? b) && (b <=? 57) then Some (b + 4)
  else if b =? 45 then Some 62
  else if b =? 95 then Some 63
  else None.

Fixpoint b64_encode_list (l : list Z) : list ascii :=
  match l with
  | [] => []
  | [a] => [b64_char (a / 4); b64_char (a mod 4 * 16)]
  | [a; b] => [b64_char (a / 4); b64_char (a mod 4 * 16 + b / 16); b64_char (b mod 16 * 4)]
  | a :: b :: c :: rest =>
      b64_char (a / 4) :: b64_char (a mod 4 * 16 + b / 16)
      :: b64_char (b mod 16 * 4 + c / 64) :: b64_char (c mod 64) :: b64_encode_list rest
  end.

(** [base64.RawURLEncoding.EncodeToString] *)
Definition b64_encode (l : list Z) : string := string_of_list_ascii (b64_encode_list l).

(** A quantum of four digits gives three bytes; a last quantum of two or
    three digits gives one or two, its unused low bits being ignored; a last
    quantum of one digit is an error. *)
Fixpoint b64_decode_digits (l : list ascii) : option (list Z) :=
  match l with
  | [] => Some []
  | [_] => None
  | [a; b] =>
      match b64_value a, b64_value b with
      | Some x, Some y => Some [x * 4 + y / 16]
      | _, _ => None
      end
  | [a; b; c] =>
      match b64_value a, b64_value b, b64_value c with
      | Some x, Some y, Some z => Some [x * 4 + y / 16; y mod 16 * 16 + z / 4]
      | _, _, _ => None
      end
  | a :: b :: c :: d :: rest =>
      match b64_value a, b64_value b, b64_value c, b64_value d, b64_decode_digits rest with
      | Some x, Some y, Some z, Some t, Some r =>
          Some (x * 4 + y / 16 :: y mod 16 * 16 + z / 4 :: z mod 4 * 64 + t :: r)
      | _, _, _, _, _ => None
      end
  end.

(** [base64.RawURLEncoding.DecodeString]; line breaks are skipped. *)
Definition b64_decode (s : string) : option (list Z) :=
  b64_decode_digits
    (List.filter (fun c => negb ((byte_of c =? 10) || (byte_of c =? 13)))
       (list_ascii_of_string s)).

(** ** Facts *)

Definition is_bytes (l : list Z) : Prop := Forall (fun b => 0 <= b < 256) l.

Lemma byte_range_cases (p : Z -> bool) (n : nat) :
  forallb p (List.map Z.of_nat (seq 0 n)) = true -> forall z, 0 <= z < Z.of_nat n -> p z = true.
Proof.
  intros H z Hz. rewrite forallb_forall in H. apply H. apply in_map_iff. exists (Z.to_nat z).
  split; [lia|]. apply in_seq. lia.
Qed.

Lemma hex_digit_char v :
  0 <= v < 16 ->
  hex_value (hex_digit v) = Some v /\ Ascii.eqb (hex_digit v) "_" = false.
Proof.
  intros Hv.
  pose proof (byte_range_cases (fun v => bool_decide (hex_value (hex_digit v) = Some v)
                                         && negb (Ascii.eqb (hex_digit v) "_")) 16) as H.
  specialize (H eq_refl v Hv). apply andb_true_iff in H as [H1 H2].
  split; [by eapply bool_decide_eq_true_1|by apply negb_true_iff].
Qed.

Lemma b64_char_value v :
  0 <= v < 64 ->
  b64_value (b64_char v) = Some v
  /\ negb ((byte_of (b64_char v) =? 10) || (byte_of (b64_char v) =? 13)) = true.
Proof.
  intros Hv.
  pose proof (byte_range_cases
    (fun v => bool_decide (b64_value (b64_char v) = Some v)
              && negb ((byte_of (b64_char v) =? 10) || (byte_of (b64_char v) =? 13))) 64) as H.
  specialize (H eq_refl v Hv). apply andb_true_iff in H as [H1 H2].
  split; [by eapply bool_decide_eq_true_1|done].
Qed.

Lemma hex_decode_encode l : is_bytes l -> hex_decode (hex_encode l) = Some l.
Proof.
  intros H. unfold hex_decode, hex_encode. rewrite list_ascii_of_string_of_list_ascii.
  induction H as [|b l Hb _ IH]; [done|]. cbn [flat_map app hex_decode_list].
  destruct (hex_digit_char (b / 16)) as [-> _]; [split; [apply Z.div_pos|apply Z.div_lt_upper_bound]; lia|].
  destruct (hex_digit_char (b mod 16)) as [-> _]; [apply Z.mod_pos_bound; lia|].
  rewrite IH. do 2 f_equal. pose proof (Z.div_mod b 16). lia.
Qed.

(** Induction by threes *)
Lemma list_ind3 {A} (P : list A -> Prop) :
  P [] -> (forall a, P [a]) -> (forall a b, P [a; b]) ->
  (forall a b c l, P l -> P (a :: b :: c :: l)) -> forall l, P l.
Proof.
  intros H0 H1 H2 H3. fix IH 1. intros [|a [|b [|c l]]]; [done|done|done|].
  apply H3, IH.
Qed.

Lemma b64_sextets a :
  0 <= a < 256 -> 0 <= a / 4 < 64 /\ 0 <= a mod 4 <= 3 /\ 0 <= a / 16 <= 15
  /\ 0 <= a mod 16 <= 15 /\ 0 <= a / 64 <= 3 /\ 0 <= a mod 64 < 64.
Proof. intros H. Z.div_mod_to_equations. lia. Qed.

Ltac b64_digit :=
  match goal with
  | |- context [b64_value (b64_char ?v)] =>
      rewrite (proj1 (b64_char_value v ltac:(Z.div_mod_to_equations; lia)))
  end.

Lemma b64_decode_digits_encode l :
  is_bytes l -> b64_decode_digits (b64_encode_list l) = Some l.
Proof.
  induction l as [|a|a b|a b c l IH] using list_ind3; intros H; [done| | |];
    unfold is_bytes in *;
    repeat match goal with HF : Forall _ (_ :: _) |- _ => inversion HF; subst; clear HF end;
    cbn [b64_encode_list b64_decode_digits].
  - repeat b64_digit. do 2 f_equal. Z.div_mod_to_equations. lia.
  - repeat b64_digit. repeat f_equal; Z.div_mod_to_equations; lia.
  - repeat b64_digit. rewrite IH by done.
    repeat f_equal; Z.div_mod_to_equations; lia.
Qed.

Lemma b64_encode_clean l :
  is_bytes l ->
  List.filter (fun c => negb ((byte_of c =? 10) || (byte_of c =? 13))) (b64_encode_list l)
  = b64_encode_list l.
Proof.
  intros H. apply forallb_filter_id, forallb_forall, List.Forall_forall.
  induction l as [|a|a b|a b c l IH] using list_ind3; [constructor| | |];
    unfold is_bytes in *;
    repeat match goal with HF : Forall _ (_ :: _) |- _ => inversion HF; subst; clear HF end;
    cbn [b64_encode_list]; repeat (apply List.Forall_cons); try (by constructor); try (by apply IH);
    apply b64_char_value; Z.div_mod_to_equations; lia.
Qed.

Lemma b64_decode_encode l : is_bytes l -> b64_decode (b64_encode l) = Some l.
Proof.
  intros H. unfold b64_decode, b64_encode. rewrite list_ascii_of_string_of_list_ascii.
  by rewrite b64_encode_clean, b64_decode_digits_encode.
Qed.

Lemma b64_encode_length3 (n : nat) l :
  List.length l = (3 * n)%nat -> String.length (b64_encode l) = (4 * n)%nat.
Proof.
  unfold b64_encode. rewrite string_of_list_ascii_length. revert l.
  induction n as [|n IH]; intros l Hl.
  - by destruct l.
  - destruct l as [|a [|b [|c l]]]; cbn in Hl; try lia. cbn. rewrite IH; lia.
Qed.

(** A separator that does not occur in [a] is cut at the end of [a]. *)
Lemma cut_app sep a b :
  Forall (fun c => Ascii.eqb c sep = false) (list_ascii_of_string a) ->
  cut sep (a +:+ String sep b) = Some (a, b).
Proof.
  induction a as [|c a IH]; intros H.
  - change (cut sep (String sep b) = Some ("", b)). unfold cut.
    by rewrite (proj2 (Ascii.eqb_eq sep sep) eq_refl).
  - inversion H as [|? ? Hc Ha]; subst. specialize (IH Ha).
    change (cut sep (String c (a +:+ String sep b)) = Some (String c a, b)).
    cbn [cut]. by rewrite Hc, IH.
Qed.

Lemma hex_encode_no_underscore l :
  is_bytes l ->
  Forall (fun c => Ascii.eqb c "_" = false) (list_ascii_of_string (hex_encode l)).
Proof.
  intros H. unfold hex_encode. rewrite list_ascii_of_string_of_list_ascii.
  induction H as [|b l Hb _ IH]; [constructor|]. cbn [flat_map app].
  constructor; [|constructor; [|done]]; apply hex_digit_char; Z.div_mod_to_equations; lia.
Qed.

Example strings_fields_ex : strings_fields "  Bearer   abc " = ["Bearer"; "abc"].
Proof. reflexivity. Qed.

Example strings_split_ex : strings_split "," "a,b,,c" = ["a"; "b"; ""; "c"].
Proof. reflexivity. Qed.

Example b64_ex : b64_encode [251; 255; 190] = "-_--" /\ b64_decode "-_--" = Some [251; 255; 190].
Proof. split; reflexivity. Qed.

(** ** [time.Duration] *)

(** Strip the trailing zeros of a digit string. *)
Definition strip_zeros (s : string) : string :=
  string_of_list_ascii (rev (drop_char "0" (rev (list_ascii_of_string s)))).

(** [fmtFrac]: the fraction [v mod 10^prec] with its leading zeros, without
    trailing ones; nothing at all for a zero fraction *)
Definition fmt_frac (prec v : Z) : string :=
  let f := v mod 10 ^ prec in
  if f =? 0 then ""
  else "." +:+ strip_zeros (String.substring 1 (Z.to_nat prec) (fmt_d (10 ^ prec + f))).

(** [Duration.String()], of a duration in nanoseconds *)
Definition duration_string (d : Z) : string :=
  let u := Z.abs d in
  let text :=
    if u =? 0 then "0s"
    else if u <? 1000 then fmt_d u +:+ "ns"
    else if u <? 1000000 then fmt_d (u / 1000) +:+ fmt_frac 3 u +:+ str_of_bytes [194; 181] +:+ "s"
    else if u <? 1000000000 then fmt_d (u / 1000000) +:+ fmt_frac 6 u +:+ "ms"
    else
      let sec := u / 1000000000 in
      let min := sec / 60 in
      (if 0 <? min
       then (if 0 <? min / 60 then fmt_d (min / 60) +:+ "h" else "") +:+ fmt_d (min mod 60) +:+ "m"
       else "")
      +:+ fmt_d (sec mod 60) +:+ fmt_frac 9 u +:+ "s" in
  if d <? 0 then "-" +:+ text else text.

Example duration_string_ex :
  List.map duration_string [0; 1; 1500000; 1500000000; 7776000000000000; -61000000000]
  = ["0s"; "1ns"; "1.5ms"; "1.5s"; "2160h0m0s"; "-1m1s"].
Proof. vm_compute. reflexivity. Qed.
