(* ===== verification/Auth.v ===== *)
(** * API tokens

    [internal/auth/token.go] and [store.go]: principals and what they allow,
    creation, authentication, listing and revocation of service tokens.

    A raw token is [af_<key>_<secret>]; the store keeps the key, the SHA-256
    of the whole token and its scope, never the secret.

    Randomness ([crypto/rand]) and the text PostgreSQL prints for a [jsonb]
    value are not part of the sources and are arguments.  The Go clock is read
    once per call ([env_unixnano]); the database clock is [env_now]. *)

From stdpp Require Import base list strings numbers.
From Stdlib Require Import ZArith Lia Ascii String.
From S2P Require Import Prelude GoString Sha256 Json Schema Tx Capability Encoding.

(** ** Times and randomness *)

(** A [time.Time] argument: its instant in nanoseconds and its JSON text,
    which depends on the location it carries. *)
Record GoTime := MkGoTime { gt_ns : Z; gt_text : string }.

(** [timestamptz] keeps microseconds. *)
Definition stored_time (ns : Z) : Z := ns / 1000.
Definition scanned_time (us : Z) : Z := us * 1000.

(** The [i]-th [rand.Read] of a call: an error, or the bytes it fills in *)
Definition Rand : Type := nat -> option (nat -> Z).
Definition rand_read (rnd : Rand) (i size : nat) : res error (list Z) :=
  match rnd i with
  | None => Err (ErrText "rand.Read")
  | Some f => Ok (List.map (fun k => f k mod 256) (seq 0 size))
  end.

(** ** Principals *)

Record Principal := MkPrincipal {
  pr_TokenID : Z; pr_TokenKey : string; pr_UserID : Z; pr_SessionID : Z; pr_ActorID : Z;
  pr_Actor : string; pr_AuthMode : string; pr_Roles : list string;
  pr_Projects : list string; pr_Capabilities : list string;
  pr_ScopeHash : string; pr_CSRFHash : string }.

Definition contains (values : list string) (target : string) : bool := str_in target values.

Definition AllowsProject (p : Principal) (projectKey : string) : bool :=
  contains (pr_Projects p) "*" || contains (pr_Projects p) projectKey.

Definition AllowsCapability (p : Principal) (capability : string) : bool :=
  contains (pr_Capabilities p) "*" || contains (pr_Capabilities p) capability.

(** The same loop and sort as [normalizeStringList] of [internal/project] *)
Definition normalize (values : list string) : list string := normalizeStringList values.
#[global] Arguments normalize _ : simpl never.
#[global] Arguments sha256_hex _ : simpl never.

(** ** Tokens *)

(** The expiry is an instant in nanoseconds, the other times are as stored. *)
Record TokenRecord := MkTokenRecord {
  tr_ID : Z; tr_TokenKey : string; tr_Actor : string; tr_Projects : list string;
  tr_Capabilities : list string; tr_Status : string; tr_ExpiresAt : option Z;
  tr_CreatedAt : Z; tr_RevokedAt : option Z }.

Record CreateTokenOptions := MkCreateToken {
  ct_Actor : string; ct_Reason : string; ct_Projects : list string;
  ct_Capabilities : list string; ct_ExpiresAt : option GoTime; ct_CreatedBy : string;
  ct_RotatedFrom : Z }.

Record CreatedToken := MkCreatedToken { cr_Token : string; cr_Record : TokenRecord }.

Record Service := MkService { sv_tokenMaxTTL : Z }.
Definition NewService : Service := MkService (90 * 24 * 3600 * 1000000000).
Definition WithTokenMaxTTL (value : Z) (s : Service) : Service := MkService value.

Record tokenScope := MkScope { sc_Projects : list string; sc_Capabilities : list string }.

(** [json.Marshal(scope)]: struct fields in declaration order *)
Definition scope_fields (s : tokenScope) : jmap :=
  [("projects", jstrs (sc_Projects s)); ("capabilities", jstrs (sc_Capabilities s))].

(** [json.Unmarshal] of a [[]string] field: null gives a nil slice, a null
    element an empty string, anything but an array of strings an error. *)
Fixpoint json_strings (l : list json) : option (list string) :=
  match l with
  | [] => Some []
  | j :: rest =>
      match j, json_strings rest with
      | JStr s, Some r => Some (s :: r)
      | JNull, Some r => Some ("" :: r)
      | _, _ => None
      end
  end.
Definition json_string_slice (j : json) : option (list string) :=
  match j with
  | JNull => Some []
  | JArr l => json_strings l
  | _ => None
  end.

(** [json.Unmarshal(scopeRaw, &scope)]: keys match a field up to case, a later
    key overrides an earlier one, other keys are ignored. *)
Fixpoint decode_scope_from (scope : tokenScope) (m : jmap) : option tokenScope :=
  match m with
  | [] => Some scope
  | (k, v) :: rest =>
      if equal_fold k "projects" then
        match json_string_slice v with
        | Some l => decode_scope_from (MkScope l (sc_Capabilities scope)) rest
        | None => None
        end
      else if equal_fold k "capabilities" then
        match json_string_slice v with
        | Some l => decode_scope_from (MkScope (sc_Projects scope) l) rest
        | None => None
        end
      else decode_scope_from scope rest
  end.
Definition decode_scope (m : jmap) : option tokenScope := decode_scope_from (MkScope [] []) m.

Definition tokenHash (raw : string) : string := sha256_hex raw.
Definition scopeHash (scope : string) : string := sha256_hex scope.

Definition generateTokenParts (rnd : Rand) : res error (string * string) :=
  match rand_read rnd 0 12 with
  | Err e => Err e
  | Ok keyBytes =>
      match rand_read rnd 1 32 with
      | Err e => Err e
      | Ok secretBytes => Ok (hex_encode keyBytes, b64_encode secretBytes)
      end
  end.

Definition tokenKeyFromRaw (raw : string) : option string :=
  match split_n 3 "_" raw with
  | [p0; p1; p2] =>
      if (p0 <>s "af") || negb (len p1 =? 24) || (len p2 <? 40) then None
      else match hex_decode p1 with
           | None => None
           | Some _ =>
               match b64_decode p2 with
               | Some secret => if (List.length secret =? 32)%nat then Some p1 else None
               | None => None
               end
           end
  | _ => None
  end.

(** [INSERT INTO actors ... ON CONFLICT (external_key) DO UPDATE SET
    display_name] *)
Definition upsert_actor (env : Env) (kind displayName externalKey : string) : M Z :=
  rows <- update_rows (fun a => ac_ExternalKey a =s externalKey)
            (fun a => MkActor (ac_ID a) (ac_Kind a) displayName (ac_ExternalKey a)
                              (ac_CreatedAt a)) ;;
  match rows with
  | a :: _ => ret (ac_ID a)
  | [] =>
      a <- insert_row (fun id => MkActor id kind displayName externalKey (env_now env)) ;;
      ret (ac_ID a)
  end.

Definition ensureActor (env : Env) (actor : string) : M Z :=
  upsert_actor env "user" actor ("auth:" +:+ actor).

(** The insertion of an audit event of the auth service *)
Definition insertAuthAudit (env : Env) (projectID actorID : Z)
    (action capability resourceType resource reason : string) (metadata : jmap) : M unit :=
  insert_row (fun id =>
    MkAudit id projectID actorID action capability resourceType resource "allowed" reason
            metadata (env_now env)) ;;;
  ret tt.

(** ** CreateToken *)

Definition normalize_create (o : CreateTokenOptions) : CreateTokenOptions :=
  {| ct_Actor := trim_space (ct_Actor o); ct_Reason := trim_space (ct_Reason o);
     ct_Projects := normalize (ct_Projects o);
     ct_Capabilities := normalize (ct_Capabilities o);
     ct_ExpiresAt := ct_ExpiresAt o; ct_CreatedBy := trim_space (ct_CreatedBy o);
     ct_RotatedFrom := ct_RotatedFrom o |}.

Definition token_max_ttl_bound : Z := 90 * 24 * 3600 * 1000000000.

(** The checks on the expiry *)
Definition check_expiry (s : Service) (env : Env) (o : CreateTokenOptions) : res error GoTime :=
  match ct_ExpiresAt o with
  | None => Err (ErrText "service token expiration is required")
  | Some expires =>
      if (sv_tokenMaxTTL s <=? 0) || (token_max_ttl_bound <? sv_tokenMaxTTL s)
      then Err (ErrText "service token max TTL must be between 1ns and 2160h")
      else if negb (env_unixnano env <? gt_ns expires)
              || (env_unixnano env + sv_tokenMaxTTL s <? gt_ns expires)
      then Err (ErrText ("service token expiration must be in the future and no more than "
                         +:+ duration_string (sv_tokenMaxTTL s)))
      else Ok expires
  end.

(** [INSERT INTO api_tokens]: the token key is unique and the rotated token
    must exist. *)
Definition insertToken (env : Env) (o : CreateTokenOptions) (actorID createdBy : Z)
    (tokenKey hash : string) (scope : jmap) (expires : GoTime) : M TokenRow :=
  taken <- select_rows (fun t => tk_TokenKey t =s tokenKey) ;;
  match taken with
  | _ :: _ => fail (ErrUniqueViolation "api_tokens_key_idx")
  | [] =>
      from <- select_rows (fun t => tk_ID t =? ct_RotatedFrom o) ;;
      match from, ct_RotatedFrom o =? 0 with
      | [], false => fail ErrForeignKeyViolation
      | _, _ =>
          insert_row (fun id =>
            MkToken id actorID tokenKey hash scope "active"
                    (Some (stored_time (gt_ns expires))) "service" createdBy
                    (ct_RotatedFrom o) (ct_Reason o) (env_now env) None)
      end
  end.

Definition createTokenBody (s : Service) (env : Env) (o : CreateTokenOptions)
    (tokenKey rawToken : string) : M (res error CreatedToken) :=
  let scope := MkScope (ct_Projects o) (ct_Capabilities o) in
  actorID <- ensureActor env (ct_Actor o) ;;
  createdBy <- (if ct_CreatedBy o =s "" then ret actorID else ensureActor env (ct_CreatedBy o)) ;;
  expires <- lift (check_expiry s env o) ;;
  row <- insertToken env o actorID createdBy tokenKey (tokenHash rawToken)
           (mk (scope_fields scope)) expires ;;
  insertAuthAudit env 0 createdBy "auth.token.create" "auth.token.manage" "api_token" tokenKey
    (ct_Reason o)
    (mk [("token_key", JStr tokenKey);
         ("scope_hash", JStr (scopeHash (marshal (JObj (scope_fields scope)))));
         ("projects", jstrs (ct_Projects o));
         ("capabilities", jstrs (ct_Capabilities o));
         ("expires_at", JStr (gt_text expires));
         ("rotated_from_token_id", JInt (ct_RotatedFrom o))]) ;;;
  ret (Ok (MkCreatedToken rawToken
    (MkTokenRecord (tk_ID row) tokenKey (ct_Actor o) (ct_Projects o) (ct_Capabilities o)
       "active" (Some (gt_ns expires)) (tk_CreatedAt row) None))).

Definition CreateToken (s : Service) (rnd : Rand) (env : Env) (o : CreateTokenOptions)
  : World -> res error CreatedToken * World := fun w =>
  let o := normalize_create o in
  if (ct_Actor o =s "") || (ct_Reason o =s "")
  then (Err (ErrText "actor and reason are required"), w)
  else match ct_Projects o, ct_Capabilities o with
       | [], _ | _, [] => (Err (ErrText "at least one project and capability are required"), w)
       | _, _ =>
           match generateTokenParts rnd with
           | Err e => (Err e, w)
           | Ok (tokenKey, secret) =>
               transact (createTokenBody s env o tokenKey
                           ("af_" +:+ tokenKey +:+ "_" +:+ secret)) w
           end
       end.

(** ** Authenticate *)

(** [LEFT JOIN actors a ON a.id = t.actor_id]: the display name, if any *)
Definition actor_name (db : DB) (id : Z) : option string :=
  match table_select (fun a => ac_ID a =? id) (db_actors db) with
  | a :: _ => Some (ac_DisplayName a)
  | [] => None
  end.
Definition coalesce (d : string) (o : option string) : string :=
  match o with Some s => s | None => d end.

Section JsonbText.
(** The text PostgreSQL returns for a [jsonb] value *)
Context (jsonb_text : json -> string).

(** What [Authenticate] makes of the row it found *)
Definition token_principal (env : Env) (db : DB) (rawToken : string) (t : TokenRow)
  : option Principal :=
  if (tk_TokenHash t <>s tokenHash rawToken) || (tk_Status t <>s "active")
     || match tk_ExpiresAt t with
        | Some e => negb (env_unixnano env <? scanned_time e)
        | None => false
        end
  then None
  else match decode_scope (tk_Scope t) with
       | None => None
       | Some scope =>
           let projects := normalize (sc_Projects scope) in
           let capabilities := normalize (sc_Capabilities scope) in
           match projects, capabilities with
           | [], _ | _, [] => None
           | _, _ =>
               Some {| pr_TokenID := tk_ID t; pr_TokenKey := tk_TokenKey t; pr_UserID := 0;
                       pr_SessionID := 0; pr_ActorID := tk_ActorID t;
                       pr_Actor := coalesce "token-user" (actor_name db (tk_ActorID t));
                       pr_AuthMode := "token"; pr_Roles := []; pr_Projects := projects;
                       pr_Capabilities := capabilities;
                       pr_ScopeHash := scopeHash (jsonb_text (JObj (tk_Scope t)));
                       pr_CSRFHash := "" |}
           end
       end.

Definition Authenticate (env : Env) (rawToken : string) (db : DB) : res error Principal :=
  match tokenKeyFromRaw rawToken with
  | None => Err ErrInvalidToken
  | Some tokenKey =>
      match table_select (fun t => tk_TokenKey t =s tokenKey) (db_api_tokens db) with
      | [] => Err ErrInvalidToken
      | t :: _ =>
          match token_principal env db rawToken t with
          | Some p => Ok p
          | None => Err ErrInvalidToken
          end
      end
  end.
End JsonbText.

(** ** ListTokens and RevokeToken *)

Definition token_before (a b : TokenRow) : bool :=
  (tk_CreatedAt b <? tk_CreatedAt a)
  || ((tk_CreatedAt a =? tk_CreatedAt b) && (tk_ID b <? tk_ID a)).

Definition scan_token (db : DB) (t : TokenRow) : res error TokenRecord :=
  match decode_scope (tk_Scope t) with
  | None => Err (ErrText "decode API token scope")
  | Some scope =>
      Ok (MkTokenRecord (tk_ID t) (tk_TokenKey t)
            (coalesce "token-user" (actor_name db (tk_ActorID t)))
            (normalize (sc_Projects scope)) (normalize (sc_Capabilities scope)) (tk_Status t)
            (scanned_time <$> tk_ExpiresAt t) (tk_CreatedAt t) (tk_RevokedAt t))
  end.

Fixpoint map_res {A B} (f : A -> res error B) (l : list A) : res error (list B) :=
  match l with
  | [] => Ok []
  | a :: rest =>
      match f a with
      | Err e => Err e
      | Ok b => match map_res f rest with Ok bs => Ok (b :: bs) | Err e => Err e end
      end
  end.

Definition ListTokens (db : DB) : res error (list TokenRecord) :=
  map_res (scan_token db) (sort_stable token_before (t_rows (db_api_tokens db))).

Definition revoke_token_row (env : Env) (t : TokenRow) : TokenRow :=
  MkToken (tk_ID t) (tk_ActorID t) (tk_TokenKey t) (tk_TokenHash t) (tk_Scope t) "revoked"
    (tk_ExpiresAt t) (tk_TokenType t) (tk_CreatedBy t) (tk_RotatedFrom t) (tk_Reason t)
    (tk_CreatedAt t) (Some (env_now env)).

Definition revokeTokenBody (env : Env) (tokenKey actor reason : string) : M (res error unit) :=
  actorID <- ensureActor env actor ;;
  rows <- update_rows (fun t => (tk_TokenKey t =s tokenKey) && (tk_Status t =s "active"))
            (revoke_token_row env) ;;
  match rows with
  | [_] =>
      insertAuthAudit env 0 actorID "auth.token.revoke" "auth.token.manage" "api_token" tokenKey
        reason [] ;;;
      ret (Ok tt)
  | _ => fail (ErrText ("active API token not found: " +:+ tokenKey))
  end.

Definition RevokeToken (env : Env) (tokenKey actor reason : string)
  : World -> res error unit * World := fun w =>
  let tokenKey := trim_space tokenKey in
  let actor := trim_space actor in
  let reason := trim_space reason in
  if (tokenKey =s "") || (actor =s "") || (reason =s "")
  then (Err (ErrText "token key, actor and reason are required"), w)
  else transact (revokeTokenBody env tokenKey actor reason) w.
