(* ===== verification/Rbac.v ===== *)
(** * Roles

    [internal/auth/rbac.go]: the roles and their capabilities, OIDC users,
    the principal of a user, and granting, listing and revoking role
    bindings.  A binding gives a user or a team a role in one project, or the
    role [platform_admin] everywhere; the store has at most one active binding
    per project, subject and role. *)

From stdpp Require Import base list strings numbers.
From Stdlib Require Import ZArith Lia Ascii String.
From S2P Require Import Prelude GoString Sha256 Json Schema Tx Capability Encoding Auth.

Definition RolePlatformAdmin : string := "platform_admin".
Definition RoleProjectAdmin : string := "project_admin".
Definition RoleOperator : string := "operator".
Definition RoleApprover : string := "approver".
Definition RoleAuditor : string := "auditor".
Definition RoleViewer : string := "viewer".

Definition roleCapabilities : list (string * list string) :=
  [(RolePlatformAdmin, ["*"]);
   (RoleProjectAdmin, ["read"; "admin"; "project.manage"; "auth.role.manage";
                       "auth.token.manage"; "workflow.approval.record"; "run.control";
                       "worker.control"]);
   (RoleOperator, ["read"; "run.control"; "worker.control"]);
   (RoleApprover, ["read"; "workflow.approval.record"]);
   (RoleAuditor, ["read"; "audit.read"]);
   (RoleViewer, ["read"])].

Fixpoint lookup_role (role : string) (l : list (string * list string)) : option (list string) :=
  match l with
  | [] => None
  | (r, caps) :: rest => if role =s r then Some caps else lookup_role role rest
  end.

(** A Go map used as a set of strings, and its sorted keys *)
Fixpoint distinct (l : list string) : list string :=
  match l with
  | [] => []
  | x :: rest => if str_in x rest then distinct rest else x :: distinct rest
  end.
Definition sortedKeys (l : list string) : list string := sort_stable String.ltb (distinct l).

Definition capabilities_of (role : string) : list string :=
  match lookup_role role roleCapabilities with Some caps => caps | None => [] end.

Definition CapabilitiesForRoles (roles : list string) : list string :=
  sortedKeys (flat_map capabilities_of roles).

Definition ValidRole (role : string) : bool :=
  match lookup_role (trim_space role) roleCapabilities with Some _ => true | None => false end.

(** ** Records *)

(** A nil claims map or group list is [None]. *)
Record OIDCIdentity := MkOIDCIdentity {
  oi_Issuer : string; oi_Subject : string; oi_Email : string; oi_DisplayName : string;
  oi_Groups : option (list string); oi_Claims : option jmap }.

Record UserRecord := MkUserRecord {
  ur_ID : Z; ur_ActorID : Z; ur_Actor : string; ur_Email : string; ur_DisplayName : string }.

Record RoleBinding := MkRoleBinding {
  bi_ID : Z; bi_ProjectID : Z; bi_ProjectKey : string; bi_UserID : Z; bi_TeamID : Z;
  bi_Role : string; bi_Status : string; bi_Reason : string; bi_ExpiresAt : option Z;
  bi_CreatedAt : Z }.

(** The expiry is an instant in nanoseconds. *)
Record GrantRoleOptions := MkGrantRole {
  gr_ProjectKey : string; gr_UserID : Z; gr_TeamID : Z; gr_Role : string; gr_Actor : string;
  gr_Reason : string; gr_ExpiresAt : option Z }.

Definition sha256Hex (value : string) : string := sha256_hex value.

(** ** UpsertOIDCIdentity *)

Definition normalize_identity (i : OIDCIdentity) : OIDCIdentity :=
  let email := trim_space (oi_Email i) in
  let subject := trim_space (oi_Subject i) in
  let name := trim_space (oi_DisplayName i) in
  let name := if name =s "" then email else name in
  {| oi_Issuer := trim_space (oi_Issuer i); oi_Subject := subject; oi_Email := email;
     oi_DisplayName := if name =s "" then subject else name;
     oi_Groups := oi_Groups i; oi_Claims := oi_Claims i |}.

Definition claims_json (claims : option jmap) : json :=
  match claims with Some m => JObj m | None => JNull end.
Definition groups_json (groups : option (list string)) : json :=
  match groups with Some l => jstrs l | None => JNull end.

Definition oidc_external_key (issuer subject : string) : string :=
  "oidc:" +:+ sha256Hex (issuer +:+ String (chr 0) "" +:+ subject).

(** The unique index on [lower(email)], NULL emails excepted *)
Definition email_taken (email : string) (except : Z) (u : UserRow) : bool :=
  (email <>s "") && (to_lower (us_Email u) =s to_lower email) && negb (us_ID u =? except).

(** [INSERT INTO users ... ON CONFLICT (actor_id) DO UPDATE] *)
Definition upsertUser (env : Env) (actorID : Z) (i : OIDCIdentity) (externalKey : string)
  : M UserRow :=
  let metadata := mk [("oidc_groups", groups_json (oi_Groups i))] in
  known <- select_rows (fun u => us_ActorID u =? actorID) ;;
  let except := match known with u :: _ => us_ID u | [] => 0 end in
  taken <- select_rows (email_taken (oi_Email i) except) ;;
  match taken with
  | _ :: _ => fail (ErrUniqueViolation "users_email_idx")
  | [] =>
      match known with
      | _ :: _ =>
          rows <- update_rows (fun u => us_ActorID u =? actorID)
                    (fun u => MkUser (us_ID u) (us_ActorID u) (oi_Email i) (oi_DisplayName i)
                                "active" (us_ExternalKey u) metadata (us_CreatedAt u)
                                (env_now env)) ;;
          first_row rows
      | [] =>
          insert_row (fun id => MkUser id actorID (oi_Email i) (oi_DisplayName i) "active"
                                  externalKey metadata (env_now env) (env_now env))
      end
  end.

(** [INSERT INTO user_identities ... ON CONFLICT (issuer, subject) DO UPDATE] *)
Definition upsertIdentity (env : Env) (userID : Z) (i : OIDCIdentity) (claimsHash : string)
  : M unit :=
  let is_it r := (ui_Issuer r =s oi_Issuer i) && (ui_Subject r =s oi_Subject i) in
  rows <- update_rows is_it
            (fun r => MkIdentity (ui_ID r) (ui_UserID r) (ui_Issuer r) (ui_Subject r)
                        (oi_Email i) claimsHash "active" (Some (env_now env)) (ui_CreatedAt r)
                        (env_now env)) ;;
  match rows with
  | _ :: _ => ret tt
  | [] =>
      insert_row (fun id => MkIdentity id userID (oi_Issuer i) (oi_Subject i) (oi_Email i)
                              claimsHash "active" (Some (env_now env)) (env_now env)
                              (env_now env)) ;;;
      ret tt
  end.

(** The lookup of the active identity with its user *)
Definition find_identity (db : DB) (i : OIDCIdentity) : option UserRecord :=
  match table_select (fun r => (ui_Issuer r =s oi_Issuer i) && (ui_Subject r =s oi_Subject i)
                               && (ui_Status r =s "active")) (db_user_identities db) with
  | [] => None
  | r :: _ =>
      match table_select (fun u => us_ID u =? ui_UserID r) (db_users db) with
      | [] => None
      | u :: _ =>
          Some (MkUserRecord (us_ID u) (us_ActorID u)
                  (coalesce "" (actor_name db (us_ActorID u))) (us_Email u) (us_DisplayName u))
      end
  end.

Definition upsertOIDCBody (env : Env) (i : OIDCIdentity) : M (res error UserRecord) :=
  let claimsHash := sha256_hex (marshal (claims_json (oi_Claims i))) in
  let externalKey := oidc_external_key (oi_Issuer i) (oi_Subject i) in
  db <- get_db ;;
  user <- match find_identity db i with
          | Some user => ret user
          | None =>
              actorID <- upsert_actor env "oidc_user" (oi_DisplayName i) externalKey ;;
              u <- upsertUser env actorID i externalKey ;;
              ret (MkUserRecord (us_ID u) actorID (oi_DisplayName i) (us_Email u)
                     (us_DisplayName u))
          end ;;
  upsertIdentity env (ur_ID user) i claimsHash ;;;
  ret (Ok user).

Definition UpsertOIDCIdentity (env : Env) (identity : OIDCIdentity)
  : World -> res error UserRecord * World := fun w =>
  let i := normalize_identity identity in
  if (oi_Issuer i =s "") || (oi_Subject i =s "")
  then (Err (ErrText "OIDC issuer and subject are required"), w)
  else transact (upsertOIDCBody env i) w.

(** ** PrincipalForUser *)

(** [b.status = 'active' AND (b.expires_at IS NULL OR b.expires_at > now())] *)
Definition binding_live (env : Env) (b : BindingRow) : bool :=
  (rb_Status b =s "active")
  && match rb_ExpiresAt b with None => true | Some e => env_now env <? e end.

(** The teams a user is an active member of, one entry per membership *)
Definition active_memberships (db : DB) (userID : Z) : list MembershipRow :=
  table_select (fun m => (mb_UserID m =? userID) && (mb_Status m =s "active"))
    (db_memberships db).

(** The two branches of the UNION; only the set of rows is used. *)
Definition user_bindings (env : Env) (db : DB) (userID : Z) : list BindingRow :=
  table_select (fun b => (rb_UserID b =? userID) && negb (userID =? 0) && binding_live env b)
    (db_role_bindings db)
  ++ flat_map (fun m =>
       table_select (fun b => (rb_TeamID b =? mb_TeamID m) && binding_live env b)
         (db_role_bindings db))
       (active_memberships db userID).

Definition project_key_of (db : DB) (id : Z) : string :=
  match table_select (fun p => p_ID p =? id) (db_projects db) with
  | p :: _ => p_Key p
  | [] => ""
  end.

(** The project keys one row of the query contributes *)
Definition binding_projects (db : DB) (b : BindingRow) : list string :=
  if rb_Role b =s RolePlatformAdmin then ["*"]
  else let key := project_key_of db (rb_ProjectID b) in
       if key =s "" then [] else [key].

Definition PrincipalForUser (env : Env) (user : UserRecord) (db : DB) : Principal :=
  let rows := user_bindings env db (ur_ID user) in
  let roles := sortedKeys (List.map rb_Role rows) in
  {| pr_TokenID := 0; pr_TokenKey := ""; pr_UserID := ur_ID user; pr_SessionID := 0;
     pr_ActorID := ur_ActorID user; pr_Actor := ur_Actor user; pr_AuthMode := "oidc";
     pr_Roles := roles; pr_Projects := sortedKeys (flat_map (binding_projects db) rows);
     pr_Capabilities := CapabilitiesForRoles roles; pr_ScopeHash := ""; pr_CSRFHash := "" |}.

(** ** ListRoleBindings *)

Definition binding_before (a b : BindingRow) : bool :=
  (rb_CreatedAt b <? rb_CreatedAt a)
  || ((rb_CreatedAt a =? rb_CreatedAt b) && (rb_ID b <? rb_ID a)).

Definition binding_in_project (db : DB) (projectKey : string) (b : BindingRow) : bool :=
  ((projectKey =s "") && (rb_ProjectID b =? 0))
  || (match table_select (fun p => p_ID p =? rb_ProjectID b) (db_projects db) with
      | p :: _ => p_Key p =s projectKey
      | [] => false
      end).

Definition ListRoleBindings (projectKey : string) (db : DB) : list RoleBinding :=
  let projectKey := trim_space projectKey in
  List.map (fun b =>
      MkRoleBinding (rb_ID b) (rb_ProjectID b) (project_key_of db (rb_ProjectID b))
        (rb_UserID b) (rb_TeamID b) (rb_Role b) (rb_Status b) (rb_Reason b)
        (scanned_time <$> rb_ExpiresAt b) (rb_CreatedAt b))
    (sort_stable binding_before
       (table_select (binding_in_project db projectKey) (db_role_bindings db))).

(** ** GrantRole *)

Definition normalize_grant (o : GrantRoleOptions) : GrantRoleOptions :=
  {| gr_ProjectKey := trim_space (gr_ProjectKey o); gr_UserID := gr_UserID o;
     gr_TeamID := gr_TeamID o; gr_Role := trim_space (gr_Role o);
     gr_Actor := trim_space (gr_Actor o); gr_Reason := trim_space (gr_Reason o);
     gr_ExpiresAt := gr_ExpiresAt o |}.

(** The argument checks, on normalised options *)
Definition grant_refusal (o : GrantRoleOptions) : option string :=
  if negb (ValidRole (gr_Role o)) || (gr_Actor o =s "") || (gr_Reason o =s "")
  then Some "valid role, actor and reason are required"
  else if Bool.eqb (gr_UserID o =? 0) (gr_TeamID o =? 0)
  then Some "exactly one user or team is required"
  else if (gr_Role o =s RolePlatformAdmin) && (gr_ProjectKey o <>s "")
  then Some "platform_admin cannot be project scoped"
  else if (gr_Role o <>s RolePlatformAdmin) && (gr_ProjectKey o =s "")
  then Some "project role requires project key"
  else None.

(** The unique indexes over active bindings: same project, subject and role *)
Definition same_active_binding (projectID userID teamID : Z) (role : string) (b : BindingRow)
  : bool :=
  (rb_Status b =s "active") && (rb_ProjectID b =? projectID) && (rb_Role b =s role)
  && ((negb (userID =? 0) && (rb_UserID b =? userID))
      || (negb (teamID =? 0) && (rb_TeamID b =? teamID))).

(** [INSERT INTO project_role_bindings]; the foreign keys are checked at the
    end of the statement, after the unique indexes. *)
Definition insertBinding (env : Env) (o : GrantRoleOptions) (projectID actorID : Z)
  : M BindingRow :=
  same <- select_rows (same_active_binding projectID (gr_UserID o) (gr_TeamID o) (gr_Role o)) ;;
  users <- select_rows (fun u => us_ID u =? gr_UserID o) ;;
  teams <- select_rows (fun t => te_ID t =? gr_TeamID o) ;;
  match same with
  | _ :: _ =>
      fail (ErrUniqueViolation (if gr_UserID o =? 0 then "project_role_bindings_team_active_idx"
                                else "project_role_bindings_user_active_idx"))
  | [] =>
      if match users with [] => negb (gr_UserID o =? 0) | _ => false end
         || match teams with [] => negb (gr_TeamID o =? 0) | _ => false end
      then fail ErrForeignKeyViolation
      else
        insert_row (fun id =>
          MkBindingRow id projectID (gr_UserID o) (gr_TeamID o) (gr_Role o) "active"
            (gr_Reason o) actorID (stored_time <$> gr_ExpiresAt o) None (env_now env)
            (env_now env))
  end.

(** [SELECT id FROM projects WHERE project_key = $1 AND archived_at IS NULL];
    the sources never archive a project. *)
Definition role_project (projectKey : string) : M Z :=
  if projectKey =s "" then ret 0
  else rows <- select_rows (fun p => p_Key p =s projectKey) ;;
       p <- first_row rows ;;
       ret (p_ID p).

Definition grantRoleBody (env : Env) (o : GrantRoleOptions) : M (res error RoleBinding) :=
  actorID <- ensureActor env (gr_Actor o) ;;
  projectID <- role_project (gr_ProjectKey o) ;;
  b <- insertBinding env o projectID actorID ;;
  insertAuthAudit env projectID actorID "auth.role.grant" "auth.role.manage"
    "project_role_binding" (fmt_d (rb_ID b)) (gr_Reason o)
    (mk [("binding_id", JInt (rb_ID b)); ("role", JStr (rb_Role b));
         ("user_id", JInt (rb_UserID b)); ("team_id", JInt (rb_TeamID b))]) ;;;
  ret (Ok (MkRoleBinding (rb_ID b) (rb_ProjectID b) (gr_ProjectKey o) (rb_UserID b)
             (rb_TeamID b) (rb_Role b) (rb_Status b) (rb_Reason b)
             (scanned_time <$> rb_ExpiresAt b) (rb_CreatedAt b))).

Definition GrantRole (env : Env) (options : GrantRoleOptions)
  : World -> res error RoleBinding * World := fun w =>
  let o := normalize_grant options in
  match grant_refusal o with
  | Some msg => (Err (ErrText msg), w)
  | None => transact (grantRoleBody env o) w
  end.

(** ** RevokeRole *)

Definition revoke_binding (env : Env) (b : BindingRow) : BindingRow :=
  MkBindingRow (rb_ID b) (rb_ProjectID b) (rb_UserID b) (rb_TeamID b) (rb_Role b) "revoked"
    (rb_Reason b) (rb_AssignedBy b) (rb_ExpiresAt b) (Some (env_now env)) (rb_CreatedAt b)
    (env_now env).

Definition revokeRoleBody (env : Env) (bindingID : Z) (actor reason : string)
  : M (res error unit) :=
  actorID <- ensureActor env actor ;;
  rows <- update_rows (fun b => (rb_ID b =? bindingID) && (rb_Status b =s "active"))
            (revoke_binding env) ;;
  b <- first_row rows ;;
  insertAuthAudit env (rb_ProjectID b) actorID "auth.role.revoke" "auth.role.manage"
    "project_role_binding" (fmt_d bindingID) reason [] ;;;
  ret (Ok tt).

Definition RevokeRole (env : Env) (bindingID : Z) (actor reason : string)
  : World -> res error unit * World := fun w =>
  let actor := trim_space actor in
  let reason := trim_space reason in
  if (bindingID =? 0) || (actor =s "") || (reason =s "")
  then (Err (ErrText "binding id, actor and reason are required"), w)
  else transact (revokeRoleBody env bindingID actor reason) w.

(** ** EnsureBootstrapPlatformAdmin *)

Definition EnsureBootstrapPlatformAdmin (env : Env) (user : UserRecord) (subject : string)
    (allowedSubjects : list string) : World -> res error unit * World := fun w =>
  if negb (contains (normalize allowedSubjects) (trim_space subject)) then (Ok tt, w)
  else if contains (pr_Roles (PrincipalForUser env user (wd_db w))) RolePlatformAdmin
  then (Ok tt, w)
  else
    let '(r, w) := GrantRole env (MkGrantRole "" (ur_ID user) 0 RolePlatformAdmin
                                    (ur_Actor user) "OIDC bootstrap subject allowlist" None) w in
    (match r with Ok _ => Ok tt | Err e => Err e end, w).
