(* ===== verification/Session.v ===== *)
(** * Web sessions

    [internal/auth/session.go]: creation, authentication and revocation of
    browser sessions and the validation of CSRF tokens.  A raw session is
    [afs_<key>_<secret>]; the store keeps the key and the hashes of the session
    and of its CSRF token.  A session lives until its absolute expiry or until
    it has been idle for its idle time to live; every accepted request pushes
    the idle expiry forward, never past the absolute one. *)

From stdpp Require Import base list strings numbers.
From Stdlib Require Import ZArith Lia Ascii String.
From S2P Require Import Prelude GoString Sha256 Json Schema Tx Encoding Auth Rbac.

(** The expiry is an instant in nanoseconds. *)
Record CreatedSession := MkCreatedSession {
  cs_RawSession : string; cs_RawCSRF : string; cs_Principal : Principal; cs_ExpiresAt : Z }.

(** Durations and the authentication time in nanoseconds; the zero time is
    [None]. *)
Record CreateSessionOptions := MkCreateSession {
  so_User : UserRecord; so_Issuer : string; so_AuthTime : option Z; so_IdleTTL : Z;
  so_AbsoluteTTL : Z }.

Definition opaqueHash (raw : string) : string := sha256_hex raw.

(** [randomURLToken(size)] as the [i]-th read of the call *)
Definition randomURLToken (rnd : Rand) (i size : nat) : res error string :=
  match rand_read rnd i size with
  | Err e => Err e
  | Ok value => Ok (b64_encode value)
  end.

Definition generateOpaqueParts (rnd : Rand) : res error (string * string) :=
  match rand_read rnd 0 12 with
  | Err e => Err e
  | Ok keyBytes =>
      match randomURLToken rnd 1 32 with
      | Err e => Err e
      | Ok secret => Ok (hex_encode keyBytes, secret)
      end
  end.

Definition opaqueKey (raw prefix : string) : option string :=
  match split_n 3 "_" raw with
  | [p0; p1; p2] =>
      if (p0 <>s prefix) || negb (len p1 =? 24) || (len p2 <? 40) then None
      else match hex_decode p1, b64_decode p2 with
           | Some _, Some _ => Some p1
           | _, _ => None
           end
  | _ => None
  end.

(** ** CreateSession *)

(** [INSERT INTO web_sessions]: the session key is unique, the CHECKs on the
    idle time to live and on the expiries hold, the user and actor exist. *)
Definition insertSession (env : Env) (o : CreateSessionOptions) (key sessionHash csrfHash : string)
  : M SessionRow :=
  let now := env_unixnano env in
  let idleTTLSeconds := Z.quot (so_IdleTTL o) 1000000000 in
  let idleExpiresAt := stored_time (now + so_IdleTTL o) in
  let absoluteExpiresAt := stored_time (now + so_AbsoluteTTL o) in
  let authTime := match so_AuthTime o with Some t => t | None => now end in
  if negb (0 <? idleTTLSeconds) || negb (idleExpiresAt <=? absoluteExpiresAt)
  then fail (ErrText "check_violation")
  else
    taken <- select_rows (fun s => ws_SessionKey s =s key) ;;
    users <- select_rows (fun u => us_ID u =? ur_ID (so_User o)) ;;
    actors <- select_rows (fun a => ac_ID a =? ur_ActorID (so_User o)) ;;
    match taken with
    | _ :: _ => fail (ErrUniqueViolation "web_sessions_session_key_key")
    | [] =>
        if match users with [] => true | _ => false end
           || match actors with [] => negb (ur_ActorID (so_User o) =? 0) | _ => false end
        then fail ErrForeignKeyViolation
        else
          insert_row (fun id =>
            MkSession id (ur_ID (so_User o)) (ur_ActorID (so_User o)) key sessionHash csrfHash
              (so_Issuer o) (stored_time authTime) idleTTLSeconds idleExpiresAt
              absoluteExpiresAt (stored_time now) "active" None (env_now env))
    end.

Definition with_session (p : Principal) (sessionID : Z) (csrfHash : string) : Principal :=
  {| pr_TokenID := pr_TokenID p; pr_TokenKey := pr_TokenKey p; pr_UserID := pr_UserID p;
     pr_SessionID := sessionID; pr_ActorID := pr_ActorID p; pr_Actor := pr_Actor p;
     pr_AuthMode := pr_AuthMode p; pr_Roles := pr_Roles p; pr_Projects := pr_Projects p;
     pr_Capabilities := pr_Capabilities p; pr_ScopeHash := pr_ScopeHash p;
     pr_CSRFHash := csrfHash |}.

Definition valid_session_options (o : CreateSessionOptions) : bool :=
  negb ((ur_ID (so_User o) =? 0) || (so_Issuer o =s "") || (so_IdleTTL o <=? 0)
        || (so_AbsoluteTTL o <=? 0) || (so_AbsoluteTTL o <? so_IdleTTL o)).

(** One INSERT statement, which commits by itself, and the query for the
    roles. *)
Definition createSessionBody (env : Env) (o : CreateSessionOptions) (key secret csrf : string)
  : M (res error CreatedSession) :=
  let rawSession := "afs_" +:+ key +:+ "_" +:+ secret in
  row <- insertSession env o key (opaqueHash rawSession) (opaqueHash csrf) ;;
  db <- get_db ;;
  ret (Ok (MkCreatedSession rawSession csrf
             (with_session (PrincipalForUser env (so_User o) db) (ws_ID row) (opaqueHash csrf))
             (env_unixnano env + so_AbsoluteTTL o))).

Definition CreateSession (rnd : Rand) (env : Env) (o : CreateSessionOptions)
  : World -> res error CreatedSession * World := fun w =>
  if negb (valid_session_options o)
  then (Err (ErrText "valid user, issuer and session TTLs are required"), w)
  else match generateOpaqueParts rnd with
       | Err e => (Err e, w)
       | Ok (key, secret) =>
           match randomURLToken rnd 2 32 with
           | Err e => (Err e, w)
           | Ok csrf => transact (createSessionBody env o key secret csrf) w
           end
       end.

(** ** AuthenticateSession *)

(** The session row with its user: [JOIN users u ON u.id = ws.user_id] *)
Definition find_session (db : DB) (key : string) : option (SessionRow * UserRecord) :=
  match table_select (fun s => ws_SessionKey s =s key) (db_web_sessions db) with
  | [] => None
  | s :: _ =>
      match table_select (fun u => us_ID u =? ws_UserID s) (db_users db) with
      | [] => None
      | u :: _ =>
          Some (s, MkUserRecord (us_ID u) (us_ActorID u)
                     (coalesce (us_DisplayName u) (actor_name db (us_ActorID u)))
                     (us_Email u) (us_DisplayName u))
      end
  end.

Definition session_accepted (env : Env) (rawSession : string) (s : SessionRow) : bool :=
  negb ((ws_Status s <>s "active")
        || (scanned_time (ws_IdleExpiresAt s) <? env_unixnano env)
        || (scanned_time (ws_AbsoluteExpiresAt s) <? env_unixnano env)
        || (ws_SessionHash s <>s opaqueHash rawSession)).

(** [SET last_seen_at = now(), idle_expires_at = LEAST(absolute_expires_at,
    now() + make_interval(secs => idle_ttl_seconds))] *)
Definition touch_session (env : Env) (s : SessionRow) : SessionRow :=
  MkSession (ws_ID s) (ws_UserID s) (ws_ActorID s) (ws_SessionKey s) (ws_SessionHash s)
    (ws_CSRFHash s) (ws_Issuer s) (ws_AuthTime s) (ws_IdleTTLSeconds s)
    (Z.min (ws_AbsoluteExpiresAt s) (env_now env + ws_IdleTTLSeconds s * 1000000))
    (ws_AbsoluteExpiresAt s) (env_now env) (ws_Status s) (ws_RevokedAt s) (ws_CreatedAt s).

Definition AuthenticateSession (env : Env) (rawSession : string)
  : World -> res error Principal * World := fun w =>
  match opaqueKey rawSession "afs" with
  | None => (Err ErrInvalidSession, w)
  | Some key =>
      match find_session (wd_db w) key with
      | None => (Err ErrInvalidSession, w)
      | Some (s, user) =>
          if session_accepted env rawSession s then
            (Ok (with_session (PrincipalForUser env user (wd_db w)) (ws_ID s) (ws_CSRFHash s)),
             snd (update_rows (fun s' => ws_ID s' =? ws_ID s) (touch_session env) w))
          else (Err ErrInvalidSession, w)
      end
  end.

Definition ValidateCSRF (principal : Principal) (rawCSRF : string) : bool :=
  if (pr_SessionID principal =? 0) || (pr_CSRFHash principal =s "") || (rawCSRF =s "")
  then false
  else pr_CSRFHash principal =s opaqueHash rawCSRF.

(** ** RevokeSession *)

Definition revoke_session_row (env : Env) (s : SessionRow) : SessionRow :=
  MkSession (ws_ID s) (ws_UserID s) (ws_ActorID s) (ws_SessionKey s) (ws_SessionHash s)
    (ws_CSRFHash s) (ws_Issuer s) (ws_AuthTime s) (ws_IdleTTLSeconds s) (ws_IdleExpiresAt s)
    (ws_AbsoluteExpiresAt s) (ws_LastSeenAt s) "revoked" (Some (env_now env)) (ws_CreatedAt s).

Definition revokeSessionBody (env : Env) (sessionID : Z) (actor reason : string)
  : M (res error unit) :=
  actorID <- ensureActor env actor ;;
  rows <- update_rows (fun s => (ws_ID s =? sessionID) && (ws_Status s =s "active"))
            (revoke_session_row env) ;;
  match rows with
  | [_] =>
      insertAuthAudit env 0 actorID "auth.session.revoke" "auth.session.revoke" "web_session"
        (fmt_d sessionID) reason [] ;;;
      ret (Ok tt)
  | _ => fail ErrInvalidSession
  end.

(** The actor and the reason are checked trimmed and used as given. *)
Definition RevokeSession (env : Env) (sessionID : Z) (actor reason : string)
  : World -> res error unit * World := fun w =>
  if (sessionID =? 0) || (trim_space actor =s "") || (trim_space reason =s "")
  then (Err (ErrText "session, actor and reason are required"), w)
  else transact (revokeSessionBody env sessionID actor reason) w.
