(* ===== verification/Oidc.v ===== *)
(** * OIDC login

    [internal/auth/oidc.go]: the state a login starts with, the checks of the
    callback, and the claims an identity is read from.

    The AEAD that seals the state into a cookie, the authorisation server (the
    code exchange and the verification of the ID token) and [url.Parse] are
    not part of the sources and are arguments. *)

From stdpp Require Import base list strings numbers.
From Stdlib Require Import ZArith Lia Ascii String.
From S2P Require Import Prelude GoString Json Schema Tx Encoding Auth Rbac Session.

(** The expiry is an instant in nanoseconds. *)
Record oidcState := MkOidcState {
  os_State : string; os_Nonce : string; os_Verifier : string; os_ReturnTo : string;
  os_ExpiresAt : Z }.

Record OIDCLogin := MkOIDCLogin { ol_URL : string; ol_StateCookie : string }.

(** An ID token the verifier accepted: its nonce and its decoded claims *)
Record IDToken := MkIDToken { id_Nonce : string; id_Claims : option jmap }.

(** What [safeReturnTo] reads of [url.Parse]: an absolute URL, its host, its path *)
Record ParsedRef := MkParsedRef { pu_IsAbs : bool; pu_Host : string; pu_Path : string }.

(** The collaborators of an [OIDCManager] *)
Record OIDCManager := MkOIDCManager {
  om_issuer : string;
  om_groupsClaim : string;
  om_seal : oidcState -> res error string;
  om_open : string -> option oidcState;
  om_GenerateVerifier : string;
  om_AuthCodeURL : string -> string -> string -> string;
  om_Exchange : string -> string -> res error (option string);
  om_Verify : string -> res error IDToken;
  om_url_Parse : string -> option ParsedRef }.

(** [strings.Contains(s, c)] for a byte *)
Definition has_byte (b : Z) (s : string) : bool := existsb (Z.eqb b) (bytes_of s).

Section Manager.
Context (m : OIDCManager).

Definition safeReturnTo (value : string) : string :=
  let value := trim_space value in
  if negb (has_prefix "/" value) || has_prefix "//" value || has_byte 92 value
     || has_byte 13 value || has_byte 10 value
  then "/"
  else match om_url_Parse m value with
       | None => "/"
       | Some parsed =>
           if pu_IsAbs parsed || (pu_Host parsed <>s "") || negb (has_prefix "/" (pu_Path parsed))
           then "/" else value
       end.

(** A claim as [json.Unmarshal] into [any] leaves it: an array is [[]any],
    never [[]string]. *)
Definition stringSliceClaim (value : option json) : option (list string) :=
  match value with
  | Some (JArr items) =>
      Some (normalize (flat_map (fun j => match j with JStr s => [s] | _ => [] end) items))
  | _ => None
  end.

Definition Begin (rnd : Rand) (env : Env) (returnTo : string) : res error OIDCLogin :=
  match randomURLToken rnd 0 32 with
  | Err e => Err e
  | Ok state =>
      match randomURLToken rnd 1 32 with
      | Err e => Err e
      | Ok nonce =>
          let verifier := om_GenerateVerifier m in
          match om_seal m (MkOidcState state nonce verifier (safeReturnTo returnTo)
                             (env_unixnano env + 10 * 60 * 1000000000)) with
          | Err e => Err e
          | Ok sealed => Ok (MkOIDCLogin (om_AuthCodeURL m state nonce verifier) sealed)
          end
      end
  end.

(** [claims[key].(string)], the empty string when it is not one *)
Definition claim_string (key : string) (claims : jmap) : string :=
  match mget key claims with Some (JStr s) => s | _ => "" end.

Definition Exchange (env : Env) (code receivedState stateCookie : string)
  : res error (OIDCIdentity * string) :=
  match om_open m stateCookie with
  | None => Err (ErrText "invalid or expired OIDC state")
  | Some state =>
      if (os_ExpiresAt state <? env_unixnano env) || (receivedState <>s os_State state)
      then Err (ErrText "invalid or expired OIDC state")
      else match om_Exchange m code (os_Verifier state) with
           | Err e => Err e
           | Ok rawIDToken =>
               match rawIDToken with
               | None => Err (ErrText "OIDC response has no id_token")
               | Some raw =>
                   if raw =s "" then Err (ErrText "OIDC response has no id_token") else
                   match om_Verify m raw with
                   | Err e => Err e
                   | Ok idToken =>
                       if id_Nonce idToken <>s os_Nonce state
                       then Err (ErrText "OIDC nonce mismatch")
                       else match id_Claims idToken with
                            | None => Err (ErrText "decode OIDC claims")
                            | Some claims =>
                                let subject := claim_string "sub" claims in
                                if subject =s "" then Err (ErrText "OIDC subject is required")
                                else Ok (MkOIDCIdentity (om_issuer m) subject
                                           (claim_string "email" claims)
                                           (claim_string "name" claims)
                                           (stringSliceClaim (mget (om_groupsClaim m) claims))
                                           (Some claims), os_ReturnTo state)
                            end
                   end
               end
           end
  end.

(** ** What the callback has checked *)

(** The return address is a local path. *)
Lemma safeReturnTo_local value :
  safeReturnTo value = "/"
  \/ (has_prefix "/" (safeReturnTo value) = true /\ has_prefix "//" (safeReturnTo value) = false
      /\ has_byte 92 (safeReturnTo value) = false
      /\ exists parsed, om_url_Parse m (safeReturnTo value) = Some parsed
           /\ pu_IsAbs parsed = false /\ pu_Host parsed = ""
           /\ has_prefix "/" (pu_Path parsed) = true).
Proof.
  unfold safeReturnTo. destruct (negb _ || _ || _ || _ || _) eqn:E1; [by left|].
  destruct (om_url_Parse m (trim_space value)) as [p|] eqn:E2; [|by left].
  destruct (pu_IsAbs p || _ || _) eqn:E3; [by left|]. right. bool_prop. split_and!; try done.
  by exists p.
Qed.

(** A callback that yields an identity was given the state and the cookie of
    one login, not expired, and an ID token made for it. *)
Lemma Exchange_checked env code receivedState cookie identity returnTo :
  Exchange env code receivedState cookie = Ok (identity, returnTo) ->
  exists state raw idToken,
    om_open m cookie = Some state /\ receivedState = os_State state
    /\ env_unixnano env <= os_ExpiresAt state
    /\ om_Exchange m code (os_Verifier state) = Ok (Some raw) /\ om_Verify m raw = Ok idToken
    /\ id_Nonce idToken = os_Nonce state
    /\ oi_Issuer identity = om_issuer m /\ oi_Subject identity <> "" /\ returnTo = os_ReturnTo state.
Proof.
  unfold Exchange. destruct (om_open m cookie) as [state|]; [|done].
  destruct (_ || _) eqn:E1; [done|]. apply orb_false_iff in E1 as [E1 E2]. bool_prop.
  destruct (om_Exchange m code _) as [[raw|]|] eqn:E3; try done.
  destruct (raw =s ""); [done|]. destruct (om_Verify m raw) as [idToken|] eqn:E4; [|done].
  destruct (String.eqb_spec (id_Nonce idToken) (os_Nonce state)); [|done]. cbn [negb].
  destruct (id_Claims idToken) as [claims|]; [|done]. cbv zeta.
  destruct (String.eqb_spec (claim_string "sub" claims) ""); [done|].
  intros [= <- <-]. by exists state, raw, idToken.
Qed.
End Manager.
