(* ===== verification/ApiAuth.v ===== *)
(** * Authentication and authorisation of HTTP requests

    [internal/api/server.go]: apiVersionAlias, authMiddleware, requestCapability,
    requestProjectKey, authStatusHandler and authMeHandler;
    [internal/api/auth_handlers.go]: login, callback, logout, service tokens and
    role bindings.

    The server talks to the auth service through the Go interfaces
    [TokenAuthenticator] and [SessionAuthenticator]; here these are records of
    operations ([token_service] and [session_service] are the ones of
    [internal/auth]).

    A request is what [net/http] hands over: method, path, decoded query,
    headers, cookies, the JSON value of the body ([None] when the body is not
    JSON) and its length ([None] when reading it fails).  [time.Parse] is an
    argument. *)

From stdpp Require Import base list strings numbers.
From Stdlib Require Import ZArith Lia Ascii String.
From S2P Require Import Prelude GoString Json Schema Tx Encoding Auth Rbac Session Oidc AppConfig.

(** ** Requests and responses *)

Record Request := MkRequest {
  rq_Method : string; rq_Path : string; rq_Query : list (string * string);
  rq_Headers : list (string * string); rq_Cookies : list (string * string);
  rq_RemoteAddr : string; rq_Body : option json; rq_BodyLen : option Z }.

Fixpoint assoc (k : string) (l : list (string * string)) : option string :=
  match l with
  | [] => None
  | (k', v) :: rest => if k =s k' then Some v else assoc k rest
  end.

(** [r.URL.Query().Get(k)] and [r.Header.Get(k)]: the first value or empty *)
Definition query_get (r : Request) (k : string) : string := coalesce "" (assoc k (rq_Query r)).
Definition header_get (r : Request) (k : string) : string := coalesce "" (assoc k (rq_Headers r)).
(** [r.Cookie(name)] *)
Definition cookie_get (r : Request) (name : string) : option string := assoc name (rq_Cookies r).

Record Cookie := MkCookie {
  ck_Name : string; ck_Value : string; ck_Path : string; ck_MaxAge : Z; ck_Secure : bool;
  ck_HttpOnly : bool; ck_SameSite : string }.

(** What a handler writes: an error message, an error value, JSON, or the
    records [writeJSON] encodes *)
Inductive body : Type :=
| BEmpty
| BError (message : string)
| BErr (e : error)
| BJSON (m : jmap)
| BTokens (tokens : list TokenRecord)
| BCreatedToken (created : CreatedToken)
| BBindings (projectKey : string) (bindings : list RoleBinding)
| BBinding (binding : RoleBinding).

Record Response := MkResponse {
  rs_Status : Z; rs_Body : body; rs_Cookies : list Cookie; rs_Location : string }.

Definition respond (status : Z) (b : body) : Response := MkResponse status b [] "".
Definition writeError (status : Z) (message : string) : Response := respond status (BError message).

(** ** The services behind the server *)

Record TokenAuthenticator := MkTokenAuthenticator {
  ta_Authenticate : Env -> string -> DB -> res error Principal }.

Record SessionAuthenticator := MkSessionAuthenticator {
  sa_AuthenticateSession : Env -> string -> World -> res error Principal * World;
  sa_ValidateCSRF : Principal -> string -> bool;
  sa_RevokeSession : Env -> Z -> string -> string -> World -> res error unit * World;
  sa_UpsertOIDCIdentity : Env -> OIDCIdentity -> World -> res error UserRecord * World;
  sa_EnsureBootstrapPlatformAdmin :
    Env -> UserRecord -> string -> list string -> World -> res error unit * World;
  sa_CreateSession : Env -> CreateSessionOptions -> World -> res error CreatedSession * World;
  sa_ListRoleBindings : string -> DB -> list RoleBinding;
  sa_GrantRole : Env -> GrantRoleOptions -> World -> res error RoleBinding * World;
  sa_RevokeRole : Env -> Z -> string -> string -> World -> res error unit * World;
  sa_CreateToken : Env -> CreateTokenOptions -> World -> res error CreatedToken * World;
  sa_ListTokens : DB -> res error (list TokenRecord);
  sa_RevokeToken : Env -> string -> string -> string -> World -> res error unit * World }.

Record OIDCProvider := MkOIDCProvider {
  op_Begin : Env -> string -> res error OIDCLogin;
  op_Exchange : Env -> string -> string -> string -> res error (OIDCIdentity * string) }.

(** The implementations of [internal/auth] *)
Definition token_service (jsonb_text : json -> string) : TokenAuthenticator :=
  MkTokenAuthenticator (Authenticate jsonb_text).

Definition session_service (s : Service) (rnd : Rand) : SessionAuthenticator :=
  {| sa_AuthenticateSession := AuthenticateSession;
     sa_ValidateCSRF := ValidateCSRF;
     sa_RevokeSession := RevokeSession;
     sa_UpsertOIDCIdentity := UpsertOIDCIdentity;
     sa_EnsureBootstrapPlatformAdmin := EnsureBootstrapPlatformAdmin;
     sa_CreateSession := CreateSession rnd;
     sa_ListRoleBindings := ListRoleBindings;
     sa_GrantRole := GrantRole;
     sa_RevokeRole := RevokeRole;
     sa_CreateToken := CreateToken s rnd;
     sa_ListTokens := ListTokens;
     sa_RevokeToken := RevokeToken |}.

Definition oidc_provider (m : OIDCManager) (rnd : Rand) : OIDCProvider :=
  MkOIDCProvider (Begin m rnd) (Exchange m).

(** The fields of the server the auth code uses; a nil interface is [None]. *)
Record Server := MkServer {
  sv_serverConfig : ServerConfig;
  sv_authConfig : AuthConfig;
  sv_authenticator : option TokenAuthenticator;
  sv_sessionAuthenticator : option SessionAuthenticator;
  sv_oidcProvider : option OIDCProvider }.

Definition csrfCookieName : string := "areaflow_csrf".
Definition oidcStateCookieName : string := "areaflow_oidc_state".

(** ** Paths *)

Definition isPublicAuthPath (path : string) : bool :=
  (path =s "/api/health") || (path =s "/api/ready") || (path =s "/api/auth/status")
  || (path =s "/api/auth/oidc/login") || (path =s "/api/auth/oidc/callback").

Definition bearerToken (header : string) : string * bool :=
  let returnValue :=
    match strings_fields (trim_space header) with
    | [scheme; token] => if equal_fold scheme "Bearer" then token else ""
    | _ => ""
    end in
  (returnValue, returnValue <>s "").

Definition requestCapability (r : Request) : string :=
  if has_suffix "/role-bindings" (rq_Path r) then "auth.role.manage"
  else if rq_Path r =s "/api/auth/tokens" then "auth.token.manage"
  else if rq_Path r =s "/api/auth/logout" then "read"
  else if (rq_Method r =s "GET") || (rq_Method r =s "HEAD") then "read"
  else if (rq_Method r =s "POST") && has_suffix "/approvals" (rq_Path r)
  then "workflow.approval.record"
  else if (rq_Method r =s "POST") && has_prefix "/api/runs/" (rq_Path r) then "run.control"
  else "admin".

Definition requestProjectKey (r : Request) : string :=
  let fallback := trim_space (query_get r "project_key") in
  if has_prefix "/api/projects/" (rq_Path r) then
    let rest := trim_prefix "/api/projects/" (rq_Path r) in
    if rest =s "" then fallback
    else match cut "/" rest with Some (projectKey, _) => projectKey | None => rest end
  else fallback.

Definition with_path (r : Request) (path : string) : Request :=
  MkRequest (rq_Method r) path (rq_Query r) (rq_Headers r) (rq_Cookies r) (rq_RemoteAddr r)
    (rq_Body r) (rq_BodyLen r).

(** The request [apiVersionAlias] passes on, and whether it announces the
    deprecation of the unversioned alias *)
Definition apiVersionAlias (r : Request) : Request * bool :=
  if rq_Path r =s "/api/v1" then (with_path r "/api", false)
  else if has_prefix "/api/v1/" (rq_Path r)
  then (with_path r ("/api/" +:+ trim_prefix "/api/v1/" (rq_Path r)), false)
  else (r, (rq_Path r =s "/api") || has_prefix "/api/" (rq_Path r)).

(** ** The middleware *)

(** Whether the next handler runs, and with which principal in its context *)
Inductive decision : Type :=
| Next (principal : option Principal)
| Refuse (status : Z) (message : string).

Definition localUser : Principal :=
  {| pr_TokenID := 0; pr_TokenKey := ""; pr_UserID := 0; pr_SessionID := 0; pr_ActorID := 0;
     pr_Actor := "local-user"; pr_AuthMode := ""; pr_Roles := []; pr_Projects := ["*"];
     pr_Capabilities := ["*"]; pr_ScopeHash := ""; pr_CSRFHash := "" |}.

Definition safe_method (method : string) : bool :=
  (method =s "GET") || (method =s "HEAD") || (method =s "OPTIONS").

(** The CSRF check of a session request *)
Definition csrf_valid (sa : SessionAuthenticator) (r : Request) (principal : Principal) : bool :=
  let csrfHeader := trim_space (header_get r "X-CSRF-Token") in
  match cookie_get r csrfCookieName with
  | None => false
  | Some csrfCookie =>
      negb ((csrfHeader =s "") || (csrfHeader <>s csrfCookie)
            || negb (sa_ValidateCSRF sa principal csrfHeader))
  end.

(** Who makes the request: the first half of the middleware *)
Definition authenticate_request (s : Server) (env : Env) (r : Request) (w : World)
  : (Principal + Z * string) * World :=
  let '(rawToken, hasBearer) := bearerToken (header_get r "Authorization") in
  if hasBearer then
    match sv_authenticator s with
    | None => (inr (503, "token authentication is unavailable"), w)
    | Some ta =>
        match ta_Authenticate ta env rawToken (wd_db w) with
        | Err _ => (inr (401, "invalid bearer token"), w)
        | Ok principal => (inl principal, w)
        end
    end
  else if OIDCEnabled (sv_authConfig s) then
    match sv_sessionAuthenticator s with
    | None => (inr (503, "session authentication is unavailable"), w)
    | Some sa =>
        match cookie_get r (ac_SessionCookieName (sv_authConfig s)) with
        | None => (inr (401, "web session is required"), w)
        | Some cookie =>
            let '(result, w) := sa_AuthenticateSession sa env cookie w in
            match result with
            | Err _ => (inr (401, "invalid web session"), w)
            | Ok principal =>
                if negb (safe_method (rq_Method r)) && negb (csrf_valid sa r principal)
                then (inr (403, "CSRF validation failed"), w)
                else (inl principal, w)
            end
        end
    end
  else (inr (401, "bearer token is required"), w).

(** The paths a principal without global access may use without a project *)
Definition unscoped_path (path : string) : bool :=
  (path =s "/api/projects") || (path =s "/api/auth/me") || (path =s "/api/auth/logout").

(** What the principal may do: the second half *)
Definition authorize_request (r : Request) (principal : Principal) : decision :=
  let projectKey := requestProjectKey r in
  if negb (AllowsCapability principal (requestCapability r))
  then Refuse 403 "capability is not allowed"
  else if (projectKey <>s "") && negb (AllowsProject principal projectKey)
  then Refuse 404 "project not found"
  else if (projectKey =s "") && negb (unscoped_path (rq_Path r)) && negb (AllowsProject principal "*")
  then Refuse 403 "global resource access is not allowed"
  else Next (Some principal).

Definition authMiddleware (s : Server) (env : Env) (r : Request) (w : World) : decision * World :=
  if isPublicAuthPath (rq_Path r) then (Next None, w)
  else if negb (Enabled (sv_authConfig s)) then (Next (Some localUser), w)
  else match authenticate_request s env r w with
       | (inr (status, message), w) => (Refuse status message, w)
       | (inl principal, w) => (authorize_request r principal, w)
       end.

(** [principalFromContext]: the zero principal when there is none *)
Definition zeroPrincipal : Principal := MkPrincipal 0 "" 0 0 0 "" "" [] [] [] "" "".
Definition principalFromContext (p : option Principal) : Principal :=
  match p with Some p => p | None => zeroPrincipal end.

(** ** Handlers *)

Definition authStatusHandler (s : Server) (r : Request) : Response :=
  if rq_Method r <>s "GET" then writeError 405 "method not allowed"
  else
    let mode := if OIDCEnabled (sv_authConfig s) then "oidc"
                else if Enabled (sv_authConfig s) then "token" else "disabled" in
    respond 200 (BJSON (mk [("mode", JStr mode); ("requires_token", JBool (mode =s "token"));
                            ("requires_login", JBool (mode =s "oidc"));
                            ("login_url", JStr "/api/v1/auth/oidc/login")])).

Definition authMeHandler (r : Request) (principal : Principal) : Response :=
  if rq_Method r <>s "GET" then writeError 405 "method not allowed"
  else respond 200 (BJSON (mk
    [("actor", JStr (pr_Actor principal)); ("token_key", JStr (pr_TokenKey principal));
     ("projects", jstrs_nil (pr_Projects principal));
     ("capabilities", jstrs_nil (pr_Capabilities principal));
     ("scope_hash", JStr (pr_ScopeHash principal)); ("auth_mode", JStr (pr_AuthMode principal));
     ("roles", jstrs_nil (pr_Roles principal)); ("user_id", JInt (pr_UserID principal))])).

(** [int(time.Until(expires).Seconds())] truncates towards zero. *)
Definition setSessionCookies (s : Server) (env : Env) (created : CreatedSession) : list Cookie :=
  let maxAge := Z.quot (cs_ExpiresAt created - env_unixnano env) 1000000000 in
  [MkCookie (ac_SessionCookieName (sv_authConfig s)) (cs_RawSession created) "/" maxAge true true
     "Lax";
   MkCookie csrfCookieName (cs_RawCSRF created) "/api/" maxAge true false "Strict"].

Definition clearSessionCookies (s : Server) : list Cookie :=
  [MkCookie (ac_SessionCookieName (sv_authConfig s)) "" "/" (-1) true true "Lax";
   MkCookie csrfCookieName "" "/api/" (-1) true false "Strict"].

Definition oidcLoginHandler (s : Server) (env : Env) (r : Request) : Response :=
  if rq_Method r <>s "GET" then writeError 405 "method not allowed"
  else match OIDCEnabled (sv_authConfig s), sv_oidcProvider s with
       | true, Some provider =>
           match op_Begin provider env (query_get r "return_to") with
           | Err _ => writeError 503 "OIDC login is unavailable"
           | Ok login =>
               MkResponse 302 BEmpty
                 [MkCookie oidcStateCookieName (ol_StateCookie login)
                    "/api/v1/auth/oidc/callback" 600 true true "Lax"] (ol_URL login)
           end
       | _, _ => writeError 404 "OIDC login is not enabled"
       end.

Definition oidcCallbackHandler (s : Server) (env : Env) (r : Request) (w : World)
  : Response * World :=
  if rq_Method r <>s "GET" then (writeError 405 "method not allowed", w)
  else match sv_oidcProvider s, sv_sessionAuthenticator s with
  | Some provider, Some sa =>
      match cookie_get r oidcStateCookieName with
      | None => (writeError 400 "OIDC state cookie is required", w)
      | Some stateCookie =>
          match op_Exchange provider env (query_get r "code") (query_get r "state") stateCookie with
          | Err _ => (writeError 401 "OIDC callback validation failed", w)
          | Ok (ident, returnTo) =>
              match sa_UpsertOIDCIdentity sa env ident w with
              | (Err _, w) => (writeError 500 "persist OIDC identity failed", w)
              | (Ok user, w) =>
                  match sa_EnsureBootstrapPlatformAdmin sa env user (oi_Subject ident)
                          (ac_BootstrapSubjects (sv_authConfig s)) w with
                  | (Err _, w) => (writeError 500 "bootstrap authorization failed", w)
                  | (Ok _, w) =>
                      match sa_CreateSession sa env
                              (MkCreateSession user (oi_Issuer ident) (Some (env_unixnano env))
                                 (ac_SessionIdleTTL (sv_authConfig s))
                                 (ac_SessionAbsoluteTTL (sv_authConfig s))) w with
                      | (Err _, w) => (writeError 500 "create web session failed", w)
                      | (Ok created, w) =>
                          (MkResponse 302 BEmpty
                             (setSessionCookies s env created
                              ++ [MkCookie oidcStateCookieName "" "/api/v1/auth/oidc/callback" (-1)
                                    true true "Lax"]) returnTo, w)
                      end
                  end
              end
          end
      end
  | _, _ => (writeError 503 "OIDC callback is unavailable", w)
  end.

(** [errors.Is(err, auth.ErrInvalidSession)] *)
Definition is_invalid_session (e : error) : bool :=
  match e with ErrInvalidSession => true | _ => false end.

Definition logoutHandler (s : Server) (env : Env) (r : Request) (principal : Principal) (w : World)
  : Response * World :=
  if rq_Method r <>s "POST" then (writeError 405 "method not allowed", w)
  else
    let done w := (MkResponse 204 BEmpty (clearSessionCookies s) "", w) in
    match sv_sessionAuthenticator s with
    | Some sa =>
        if pr_SessionID principal =? 0 then done w
        else match sa_RevokeSession sa env (pr_SessionID principal) (pr_Actor principal)
                     "user logout" w with
             | (Err e, w) =>
                 if is_invalid_session e then done w
                 else (writeError 500 "revoke web session failed", w)
             | (Ok _, w) => done w
             end
    | None => done w
    end.

(** *** Decoding of request bodies: [DisallowUnknownFields], keys up to case,
    null leaves a field as it is *)

Definition field_names_known (names : list string) (m : jmap) : bool :=
  forallb (fun kv => existsb (fun n => equal_fold (fst kv) n) names) m.

(** A field's last matching value; [None] for a value of the wrong type *)
Definition field (name : string) (m : jmap) : option json :=
  fold_left (fun acc kv => if equal_fold (fst kv) name
                           then match snd kv with JNull => acc | v => Some v end else acc) m None.
Definition field_string (name : string) (m : jmap) : option string :=
  match field name m with
  | None => Some ""
  | Some (JStr s) => Some s
  | Some _ => None
  end.
Definition field_int (name : string) (m : jmap) : option Z :=
  match field name m with
  | None => Some 0
  | Some (JInt z) => if (- 2 ^ 63 <=? z) && (z <? 2 ^ 63) then Some z else None
  | Some _ => None
  end.
Definition field_strings (name : string) (m : jmap) : option (list string) :=
  match field name m with
  | None => Some []
  | Some j => json_string_slice j
  end.

Record tokenRequest := MkTokenRequest {
  tq_Actor : string; tq_Reason : string; tq_Projects : list string;
  tq_Capabilities : list string; tq_ExpiresAt : string; tq_RotatedFrom : Z }.

Definition decode_token_request (b : option json) : option tokenRequest :=
  match b with
  | Some (JObj m) =>
      if negb (field_names_known ["actor"; "reason"; "projects"; "capabilities"; "expires_at";
                                  "rotated_from_token_id"] m) then None
      else match field_string "actor" m, field_string "reason" m, field_strings "projects" m,
                 field_strings "capabilities" m, field_string "expires_at" m,
                 field_int "rotated_from_token_id" m with
           | Some actor, Some reason, Some projects, Some capabilities, Some expires, Some from =>
               Some (MkTokenRequest actor reason projects capabilities expires from)
           | _, _, _, _, _, _ => None
           end
  | Some JNull => Some (MkTokenRequest "" "" [] [] "" 0)
  | _ => None
  end.

Record bindingRequest := MkBindingRequest {
  bq_UserID : Z; bq_TeamID : Z; bq_Role : string; bq_Reason : string; bq_ExpiresAt : string }.

Definition decode_binding_request (b : option json) : option bindingRequest :=
  match b with
  | Some (JObj m) =>
      if negb (field_names_known ["user_id"; "team_id"; "role"; "reason"; "expires_at"] m) then None
      else match field_int "user_id" m, field_int "team_id" m, field_string "role" m,
                 field_string "reason" m, field_string "expires_at" m with
           | Some user, Some team, Some role, Some reason, Some expires =>
               Some (MkBindingRequest user team role reason expires)
           | _, _, _, _, _ => None
           end
  | Some JNull => Some (MkBindingRequest 0 0 "" "" "")
  | _ => None
  end.

Section Handlers.
(** [time.Parse(time.RFC3339, value)] *)
Context (time_Parse : string -> option GoTime).

Definition tokensHandler (s : Server) (env : Env) (r : Request) (principal : Principal) (w : World)
  : Response * World :=
  match sv_sessionAuthenticator s with
  | None => (writeError 503 "token service is unavailable", w)
  | Some sa =>
      if rq_Method r =s "GET" then
        match sa_ListTokens sa (wd_db w) with
        | Err _ => (writeError 500 "list service tokens failed", w)
        | Ok records => (respond 200 (BTokens records), w)
        end
      else if rq_Method r =s "POST" then
        match decode_token_request (rq_Body r) with
        | None => (writeError 400 "invalid service token request", w)
        | Some request =>
            match time_Parse (tq_ExpiresAt request) with
            | None => (writeError 400 "expires_at must be RFC3339", w)
            | Some expiresAt =>
                match sa_CreateToken sa env
                        (MkCreateToken (tq_Actor request) (tq_Reason request) (tq_Projects request)
                           (tq_Capabilities request) (Some expiresAt) (pr_Actor principal)
                           (tq_RotatedFrom request)) w with
                | (Err e, w) => (respond 400 (BErr e), w)
                | (Ok created, w) => (respond 201 (BCreatedToken created), w)
                end
            end
        end
      else if rq_Method r =s "DELETE" then
        match sa_RevokeToken sa env (trim_space (query_get r "token_key")) (pr_Actor principal)
                (trim_space (query_get r "reason")) w with
        | (Err e, w) => (respond 400 (BErr e), w)
        | (Ok _, w) => (respond 204 BEmpty, w)
        end
      else (writeError 405 "method not allowed", w)
  end.

Definition roleBindingsHandler (s : Server) (env : Env) (r : Request) (principal : Principal)
    (projectKey : string) (w : World) : Response * World :=
  match sv_sessionAuthenticator s with
  | None => (writeError 503 "role binding service is unavailable", w)
  | Some sa =>
      if rq_Method r =s "GET" then
        (respond 200 (BBindings projectKey (sa_ListRoleBindings sa projectKey (wd_db w))), w)
      else if rq_Method r =s "POST" then
        match decode_binding_request (rq_Body r) with
        | None => (writeError 400 "invalid role binding request", w)
        | Some request =>
            let grant expiresAt :=
              match sa_GrantRole sa env
                      (MkGrantRole projectKey (bq_UserID request) (bq_TeamID request)
                         (bq_Role request) (pr_Actor principal) (bq_Reason request) expiresAt) w with
              | (Err e, w) => (respond 400 (BErr e), w)
              | (Ok binding, w) => (respond 201 (BBinding binding), w)
              end in
            if bq_ExpiresAt request =s "" then grant None
            else match time_Parse (bq_ExpiresAt request) with
                 | None => (writeError 400 "expires_at must be RFC3339", w)
                 | Some parsed => grant (Some (gt_ns parsed))
                 end
        end
      else if rq_Method r =s "DELETE" then
        match strconv_Atoi (trim_space (query_get r "binding_id")) with
        | Some bindingID =>
            if bindingID <=? 0 then (writeError 400 "binding_id must be a positive integer", w)
            else match sa_RevokeRole sa env bindingID (pr_Actor principal) (query_get r "reason") w with
                 | (Err e, w) => (respond 400 (BErr e), w)
                 | (Ok _, w) => (respond 204 BEmpty, w)
                 end
        | None => (writeError 400 "binding_id must be a positive integer", w)
        end
      else (writeError 405 "method not allowed", w)
  end.

(** The project key of [/api/projects/<key>/role-bindings] as [projectHandler]
    takes the path apart: slashes at either end are trimmed first. *)
Definition role_bindings_path (path : string) : option string :=
  if has_prefix "/api/projects/" path then
    match strings_split "/" (strings_trim "/" (trim_prefix "/api/projects/" path)) with
    | [projectKey; sub] => if (sub =s "role-bindings") && (projectKey <>s "") then Some projectKey
                           else None
    | _ => None
    end
  else None.

(** A request to an auth endpoint through the middleware; [None] for the paths
    other handlers serve *)
Definition serve_auth (s : Server) (env : Env) (r : Request) (w : World)
  : option Response * World :=
  let r := fst (apiVersionAlias r) in
  match authMiddleware s env r w with
  | (Refuse status message, w) => (Some (writeError status message), w)
  | (Next p, w) =>
      let principal := principalFromContext p in
      if rq_Path r =s "/api/auth/status" then (Some (authStatusHandler s r), w)
      else if rq_Path r =s "/api/auth/me" then (Some (authMeHandler r principal), w)
      else if rq_Path r =s "/api/auth/oidc/login" then (Some (oidcLoginHandler s env r), w)
      else if rq_Path r =s "/api/auth/oidc/callback" then
        let '(rs, w) := oidcCallbackHandler s env r w in (Some rs, w)
      else if rq_Path r =s "/api/auth/logout" then
        let '(rs, w) := logoutHandler s env r principal w in (Some rs, w)
      else if rq_Path r =s "/api/auth/tokens" then
        let '(rs, w) := tokensHandler s env r principal w in (Some rs, w)
      else match role_bindings_path (rq_Path r) with
           | Some projectKey =>
               let '(rs, w) := roleBindingsHandler s env r principal projectKey w in (Some rs, w)
           | None => (None, w)
           end
  end.
End Handlers.
