(* ===== verification/RateLimit.v ===== *)
(** * The login rate limiter and the security middleware

    [internal/api/security_middleware.go]: a fixed-window request counter per
    client address with a bounded number of entries, and the checks every
    request passes before authentication.

    The limiter's map is a [gmap]; a missing key is the entry with the zero
    start time.  Instants and durations are in nanoseconds.  The mutex makes
    each [Allow] atomic, so a sequence of calls is a sequence of steps. *)

From stdpp Require Import base list strings numbers gmap fin_maps.
From Stdlib Require Import ZArith Lia Ascii String.
From S2P Require Import Prelude GoString Json Schema Tx Encoding Auth AppConfig ApiAuth.

Record rateWindow := MkRateWindow { rw_started : Z; rw_count : Z }.

Record ipRateLimiter := MkLimiter {
  rl_limit : Z; rl_window : Z; rl_entries : gmap string rateWindow; rl_maxEntries : Z }.

Definition newIPRateLimiter (limit window : Z) : ipRateLimiter :=
  MkLimiter limit window ∅ 10000.

Definition set_entries (l : ipRateLimiter) (entries : gmap string rateWindow) : ipRateLimiter :=
  MkLimiter (rl_limit l) (rl_window l) entries (rl_maxEntries l).

(** [len(l.entries) >= l.maxEntries] *)
Definition full (l : ipRateLimiter) (entries : gmap string rateWindow) : bool :=
  rl_maxEntries l <=? Z.of_nat (size entries).

(** The loop that deletes the entries whose window is over *)
Definition evict (l : ipRateLimiter) (now : Z) : gmap string rateWindow :=
  filter (fun kv => now - rw_started (snd kv) < rl_window l) (rl_entries l).

(** Whether the call is allowed, the time to retry after, and the new state *)
Definition Allow (l : ipRateLimiter) (key : string) (now : Z) : (bool * Z) * ipRateLimiter :=
  match rl_entries l !! key with
  | None =>
      let entries := if full l (rl_entries l) then evict l now else rl_entries l in
      if full l (rl_entries l) && full l entries
      then ((false, rl_window l), set_entries l entries)
      else ((true, 0), set_entries l (<[key := MkRateWindow now 1]> entries))
  | Some entry =>
      if rl_window l <=? now - rw_started entry
      then ((true, 0), set_entries l (<[key := MkRateWindow now 1]> (rl_entries l)))
      else if rl_limit l <=? rw_count entry
      then ((false, rl_window l - (now - rw_started entry)), l)
      else ((true, 0),
            set_entries l (<[key := MkRateWindow (rw_started entry) (add64 (rw_count entry) 1)]>
                             (rl_entries l)))
  end.

(** A sequence of calls, and how many of them were allowed for one key *)
Fixpoint allow_all (l : ipRateLimiter) (calls : list (string * Z)) : list bool * ipRateLimiter :=
  match calls with
  | [] => ([], l)
  | (key, now) :: rest =>
      let '((ok, _), l) := Allow l key now in
      let '(oks, l) := allow_all l rest in
      (ok :: oks, l)
  end.
Definition allowed_for (key : string) (calls : list (string * Z)) (oks : list bool) : Z :=
  Z.of_nat (List.length
    (List.filter (fun co => (fst (fst co) =s key) && snd co) (combine calls oks))).

(** ** The middleware *)

Definition maxRequestBodyBytes : Z := 2 ^ 20.

Definition isOIDCRateLimitedPath (path : string) : bool :=
  (path =s "/api/auth/oidc/login") || (path =s "/api/auth/oidc/callback").

Definition hasForwardedHeaders (r : Request) : bool :=
  (trim_space (header_get r "Forwarded") <>s "")
  || (trim_space (header_get r "X-Forwarded-For") <>s "")
  || (trim_space (header_get r "X-Forwarded-Host") <>s "")
  || (trim_space (header_get r "X-Forwarded-Proto") <>s "").

Section Net.
Context {IP Network : Type} {Lib : NetLib IP Network}.

Definition remoteIP (remoteAddress : string) : option IP :=
  let host := match net_SplitHostPort (trim_space remoteAddress) with
              | Some (host, _) => host
              | None => trim_space remoteAddress
              end in
  net_ParseIP host.

Definition remoteAddressAllowed (remoteAddress : string) (trustedCIDRs : list string) : bool :=
  match remoteIP remoteAddress with
  | None => false
  | Some ip =>
      existsb (fun value => match net_ParseCIDR value with
                            | Some network => network_Contains network ip
                            | None => false
                            end) trustedCIDRs
  end.

(** The first element that parses as an address *)
Fixpoint first_ip (values : list string) : option IP :=
  match values with
  | [] => None
  | value :: rest =>
      match net_ParseIP (trim_space value) with
      | Some ip => Some ip
      | None => first_ip rest
      end
  end.

Definition clientIP (r : Request) (trustedCIDRs : list string) : string :=
  match remoteIP (rq_RemoteAddr r) with
  | None => "unknown"
  | Some remote =>
      if remoteAddressAllowed (rq_RemoteAddr r) trustedCIDRs then
        match first_ip (strings_split "," (header_get r "X-Forwarded-For")) with
        | Some ip => ip_String ip
        | None => ip_String remote
        end
      else ip_String remote
  end.

(** Whether the request goes on; the headers the middleware adds *)
Inductive sec_decision : Type :=
| Forward (headers : list (string * string))
| Block (status : Z) (message : string) (headers : list (string * string)).

(** [strconv.Itoa(max(1, int(retryAfter.Seconds())))] *)
Definition retry_after_header (retryAfter : Z) : string :=
  fmt_d (Z.max 1 (Z.quot retryAfter second)).

Definition securityMiddleware (s : Server) (limiter : option ipRateLimiter) (env : Env) (r : Request)
  : sec_decision * option ipRateLimiter :=
  let cidrs := sc_TrustedProxyCIDRs (sv_serverConfig s) in
  if hasForwardedHeaders r && negb (remoteAddressAllowed (rq_RemoteAddr r) cidrs)
  then (Block 400 "forwarded headers require a trusted proxy" [], limiter)
  else
    let pass :=
      match limiter with
      | Some l =>
          if isOIDCRateLimitedPath (rq_Path r) then
            let '((allowed, retryAfter), l) := Allow l (clientIP r cidrs) (env_unixnano env) in
            if allowed then (Forward [("Cache-Control", "no-store")], Some l)
            else (Block 429 "authentication rate limit exceeded"
                    [("Retry-After", retry_after_header retryAfter)], Some l)
          else (Forward [], limiter)
      | None => (Forward [], limiter)
      end in
    if safe_method (rq_Method r) then pass
    else match rq_BodyLen r with
         | None => (Block 400 "read request body failed" [], limiter)
         | Some n => if maxRequestBodyBytes <? n
                     then (Block 413 "request body exceeds 1 MiB limit" [], limiter)
                     else pass
         end.
End Net.

(** ** The limiter *)

(** What one key may still get: at least one call per window is allowed *)
Definition quota (l : ipRateLimiter) : Z := Z.max 1 (rl_limit l).

(** Every counter is within the quota, and there are not too many of them. *)
Definition limiter_ok (l : ipRateLimiter) : Prop :=
  rl_limit l < 2 ^ 63 /\ 0 < rl_window l /\ 1 <= rl_maxEntries l
  /\ Z.of_nat (size (rl_entries l)) <= rl_maxEntries l
  /\ map_Forall (fun _ e => 1 <= rw_count e <= quota l) (rl_entries l).

Lemma evict_lookup l now key e :
  evict l now !! key = Some e <->
  rl_entries l !! key = Some e /\ now - rw_started e < rl_window l.
Proof. unfold evict. rewrite map_lookup_filter_Some. done. Qed.

Lemma evict_size l now : (size (evict l now) <= size (rl_entries l))%nat.
Proof. apply map_subseteq_size, map_filter_subseteq. Qed.

Lemma size_insert_le {A} (m : gmap string A) k v : (size (<[k := v]> m) <= S (size m))%nat.
Proof.
  destruct (m !! k) eqn:E.
  - rewrite map_size_insert_Some by eauto. lia.
  - by rewrite map_size_insert_None.
Qed.

Lemma allow_params l key now :
  let l' := snd (Allow l key now) in
  rl_limit l' = rl_limit l /\ rl_window l' = rl_window l /\ rl_maxEntries l' = rl_maxEntries l.
Proof. unfold Allow. repeat case_match; done. Qed.

Lemma count_step l key e :
  limiter_ok l -> rl_entries l !! key = Some e -> (rl_limit l <=? rw_count e) = false ->
  add64 (rw_count e) 1 = rw_count e + 1 /\ 1 <= rw_count e + 1 <= quota l.
Proof.
  intros (Hlim & _ & _ & _ & HF) He Hc. apply Z.leb_gt in Hc. pose proof (HF _ _ He) as Hb.
  cbn in Hb. unfold quota in *. split; [|lia]. unfold add64. apply wrap64_id. split; lia.
Qed.

(** An entry that the call does not touch stays unless its window is over. *)
Lemma allow_other l key now k :
  k <> key ->
  rl_entries (snd (Allow l key now)) !! k = rl_entries l !! k
  \/ (rl_entries (snd (Allow l key now)) !! k = None
      /\ forall e, rl_entries l !! k = Some e -> rl_window l <= now - rw_started e).
Proof.
  intros Hne. unfold Allow. destruct (rl_entries l !! key) as [e|] eqn:E.
  - left. repeat case_match; cbn; rewrite ?lookup_insert_ne by done; done.
  - destruct (full l (rl_entries l)) eqn:Ef; cbn [andb].
    + assert (Hev : evict l now !! k = rl_entries l !! k
        \/ (evict l now !! k = None
            /\ forall e, rl_entries l !! k = Some e -> rl_window l <= now - rw_started e)).
      { destruct (evict l now !! k) as [e|] eqn:Ee.
        - apply evict_lookup in Ee as [Ee _]. by left.
        - right. split; [done|]. intros e He. apply Z.nlt_ge. intros Hlt.
          assert (evict l now !! k = Some e) by by apply evict_lookup. congruence. }
      destruct (full l (evict l now)); cbn; rewrite ?lookup_insert_ne by done; done.
    + left. cbn. by rewrite lookup_insert_ne.
Qed.

Lemma full_false l m : full l m = false -> Z.of_nat (size m) < rl_maxEntries l.
Proof. unfold full. apply Z.leb_gt. Qed.

(** The counters stay within the quota and their number within the bound. *)
Lemma allow_ok l key now : limiter_ok l -> limiter_ok (snd (Allow l key now)).
Proof.
  intros Hok. pose proof Hok as (H1 & H2 & H3 & H4 & HF).
  destruct (allow_params l key now) as (P1 & P2 & P3).
  unfold limiter_ok, quota. rewrite P1, P2, P3. split_and!; try done.
  - unfold Allow. destruct (rl_entries l !! key) as [e|] eqn:E.
    + repeat case_match; cbn; try done; by rewrite map_size_insert_Some by eauto.
    + destruct (full l (rl_entries l)) eqn:Ef; cbn [andb].
      * pose proof (evict_size l now). destruct (full l (evict l now)) eqn:Ee; cbn; [lia|].
        apply full_false in Ee. pose proof (size_insert_le (evict l now) key (MkRateWindow now 1)). lia.
      * cbn. apply full_false in Ef.
        pose proof (size_insert_le (rl_entries l) key (MkRateWindow now 1)). lia.
  - intros k e Hk. destruct (string_dec k key) as [->|Hne].
    + revert Hk. unfold Allow. destruct (rl_entries l !! key) as [e0|] eqn:E.
      * destruct (_ <=? _); cbn; [rewrite lookup_insert_eq; intros [= <-]; cbn; unfold quota; lia|].
        destruct (rl_limit l <=? rw_count e0) eqn:Ec; cbn.
        { rewrite E. intros [= <-]. by apply (HF key). }
        rewrite lookup_insert_eq. intros [= <-]. cbn.
        destruct (count_step l key e0 Hok E Ec) as [-> ?]. done.
      * destruct (full l (rl_entries l)); cbn [andb]; [|cbn; rewrite lookup_insert_eq; intros [= <-]; cbn; unfold quota; lia].
        destruct (full l (evict l now)); cbn; [|rewrite lookup_insert_eq; intros [= <-]; cbn; unfold quota; lia].
        intros Hk. apply evict_lookup in Hk as [Hk _]. by apply (HF key).
    + destruct (allow_other l key now k Hne) as [Eq|[Eq _]]; rewrite Eq in Hk; [|done].
      by apply (HF k).
Qed.

(** *** Counting

    An upper bound for what the key can get before the instant [D]: the rest of
    the quota of its open window, and a whole quota more when that window ends
    before [D]. *)
Definition potential (l : ipRateLimiter) (D : Z) (entry : option rateWindow) : Z :=
  match entry with
  | None => quota l
  | Some e => quota l - rw_count e + (if D <=? rw_started e + rl_window l then 0 else quota l)
  end.

Lemma allow_potential l key now k D :
  limiter_ok l -> now < D <= now + rl_window l ->
  let '((ok, _), l') := Allow l key now in
  (if (key =s k) && ok then 1 else 0) + potential l' D (rl_entries l' !! k)
  <= potential l D (rl_entries l !! k).
Proof.
  intros Hok HD. pose proof Hok as (_ & _ & _ & _ & HF).
  assert (HF' : forall e, rl_entries l !! k = Some e -> 1 <= rw_count e <= quota l) by apply HF.
  destruct (String.eqb_spec key k) as [->|Hne].
  - unfold Allow. destruct (rl_entries l !! k) as [e|] eqn:E.
    + specialize (HF' e eq_refl). destruct (Z.leb_spec (rl_window l) (now - rw_started e)).
      * cbn. rewrite lookup_insert_eq. cbn. repeat case_eqb; unfold quota in *; cbn in *; lia.
      * destruct (rl_limit l <=? rw_count e) eqn:Ec; cbn; [rewrite E; cbn; lia|].
        destruct (count_step l k e Hok E Ec) as [Ea ?].
        rewrite lookup_insert_eq. cbn. rewrite Ea. unfold quota in *. cbn in *. case_eqb; lia.
    + assert (Hnone : evict l now !! k = None).
      { destruct (evict l now !! k) eqn:Ee; [|done]. apply evict_lookup in Ee as [? _]. congruence. }
      destruct (full l (rl_entries l)); cbn [andb].
      * destruct (full l (evict l now)); cbn; [rewrite Hnone; cbn; done|].
        rewrite lookup_insert_eq. cbn. case_eqb; unfold quota; cbn; lia.
      * cbn. rewrite lookup_insert_eq. cbn. case_eqb; unfold quota; cbn; lia.
  - pose proof (allow_other l key now k) as Ho. pose proof (allow_params l key now) as Hp.
    destruct (Allow l key now) as [[ok d] l']. cbn in *. destruct Hp as (P1 & P2 & _).
    unfold potential, quota in *. rewrite P1, P2.
    destruct Ho as [Eq|[Eq Hexp]]; [congruence|by rewrite Eq|]. rewrite Eq.
    destruct (rl_entries l !! k) as [e|]; [|lia]. specialize (HF' e eq_refl). specialize (Hexp e eq_refl).
    case_eqb; lia.
Qed.

Lemma allow_all_ok l calls : limiter_ok l -> limiter_ok (snd (allow_all l calls)).
Proof.
  revert l. induction calls as [|[key now] calls IH]; intros l Hok; [done|]. cbn.
  pose proof (allow_ok l key now Hok) as Hok'. destruct (Allow l key now) as [[ok d] l']. cbn in Hok'.
  specialize (IH l' Hok'). by destruct (allow_all l' calls).
Qed.

Lemma potential_nonneg l D entry :
  (forall e, entry = Some e -> 1 <= rw_count e <= quota l) -> 0 <= potential l D entry.
Proof.
  intros H. unfold potential. destruct entry as [e|]; [|unfold quota; lia].
  specialize (H e eq_refl). case_eqb; lia.
Qed.

Lemma allowed_bound l calls k T :
  limiter_ok l -> Forall (fun c => T <= snd c < T + rl_window l) calls ->
  allowed_for k calls (fst (allow_all l calls))
  <= potential l (T + rl_window l) (rl_entries l !! k).
Proof.
  revert l. induction calls as [|[key now] calls IH]; intros l Hok HF.
  - cbn. apply potential_nonneg. intros e He. destruct Hok as (_ & _ & _ & _ & HF'). by apply (HF' k).
  - inversion HF as [|? ? Hnow HF']; subst. cbn in Hnow.
    pose proof (allow_potential l key now k (T + rl_window l) Hok ltac:(lia)) as Hstep.
    pose proof (allow_ok l key now Hok) as Hok'. pose proof (allow_params l key now) as (_ & Hw & _).
    cbn [allow_all]. destruct (Allow l key now) as [[ok d] l'] eqn:E. cbn in Hok', Hw.
    specialize (IH l' Hok'). rewrite Hw in IH. specialize (IH HF').
    destruct (allow_all l' calls) as [oks l'']. cbn [fst] in *. unfold allowed_for in *.
    cbn [combine List.filter fst snd]. destruct ((key =s k) && ok); cbn [List.length]; lia.
Qed.

(** C30. The limiter bounds what a client address gets: however the calls of all
    clients are interleaved, in any stretch of calls that lasts less than one
    window an address is allowed at most twice the limit (at most once the limit
    if it starts without an entry, and never less than one call per window); and
    the table never holds more than its maximum of entries. *)
Theorem rate_bounded l before calls k T :
  limiter_ok l -> Forall (fun c => T <= snd c < T + rl_window l) calls ->
  let l1 := snd (allow_all l before) in
  allowed_for k calls (fst (allow_all l1 calls)) <= 2 * quota l
  /\ (rl_entries l1 !! k = None -> allowed_for k calls (fst (allow_all l1 calls)) <= quota l)
  /\ Z.of_nat (size (rl_entries (snd (allow_all l1 calls)))) <= rl_maxEntries l.
Proof.
  intros Hok HF l1. pose proof (allow_all_ok l before Hok) as Hok1.
  assert (Hp : forall l calls, let l' := snd (allow_all l calls) in
    rl_limit l' = rl_limit l /\ rl_window l' = rl_window l /\ rl_maxEntries l' = rl_maxEntries l).
  { clear. intros l calls. revert l. induction calls as [|[key now] calls IH]; intros l; [done|]. cbn.
    pose proof (allow_params l key now) as (P1 & P2 & P3). destruct (Allow l key now) as [[ok d] l'].
    specialize (IH l') as (Q1 & Q2 & Q3). destruct (allow_all l' calls). cbn in *. by split_and!; etransitivity. }
  destruct (Hp l before) as (P1 & P2 & P3). fold l1 in P1, P2, P3, Hok1.
  rewrite <- P2 in HF. pose proof (allowed_bound l1 calls k T Hok1 HF) as Hb.
  assert (Hq : quota l1 = quota l) by (unfold quota; by rewrite P1).
  split_and!.
  - etransitivity; [exact Hb|]. unfold potential. rewrite Hq. destruct (rl_entries l1 !! k) as [e|] eqn:E.
    + destruct Hok1 as (_ & _ & _ & _ & HF1). pose proof (HF1 _ _ E) as He. cbn in He.
      case_eqb; unfold quota in *; lia.
    + unfold quota. lia.
  - intros E. rewrite E in Hb. cbn in Hb. lia.
  - destruct (allow_all_ok l1 calls Hok1) as (_ & _ & _ & Hs & _).
    destruct (Hp l1 calls) as (_ & _ & Q3). lia.
Qed.

Definition demo_limiter : ipRateLimiter := newIPRateLimiter 2 (60 * second).
Definition demo_calls : list (string * Z) :=
  [("a", 50 * second); ("b", 51 * second); ("a", 52 * second); ("a", 53 * second); ("a", 54 * second)].

Lemma demo_limiter_ok : limiter_ok demo_limiter.
Proof. unfold limiter_ok. cbn. rewrite map_size_empty. split_and!; try (unfold second; lia). apply map_Forall_empty. Qed.

Lemma rate_bounded_witness :
  allowed_for "a" demo_calls (fst (allow_all demo_limiter demo_calls)) = 2
  /\ allowed_for "a" demo_calls (fst (allow_all (snd (allow_all demo_limiter [("a", 0)])) demo_calls))
     <= 2 * quota demo_limiter.
Proof.
  split; [vm_compute; reflexivity|].
  apply (rate_bounded demo_limiter [("a", 0)] demo_calls "a" (10 * second) demo_limiter_ok).
  unfold demo_calls. repeat (apply List.Forall_cons; [cbn; unfold second; lia|]). constructor.
Defined.

(** A refused client that waits for the time it was told is let in, unless
    others used up the table meanwhile: the wait is positive, at most one window,
    and a call after it, with no call in between, is allowed. *)
Theorem refused_then_allowed l key now d l1 :
  limiter_ok l -> map_Forall (fun _ e => rw_started e <= now) (rl_entries l) ->
  Allow l key now = ((false, d), l1) ->
  0 < d <= rl_window l /\ fst (fst (Allow l1 key (now + d))) = true.
Proof.
  intros (H1 & H2 & H3 & H4 & HF) Hpast. unfold Allow at 1.
  destruct (rl_entries l !! key) as [e|] eqn:E.
  - destruct (Z.leb_spec (rl_window l) (now - rw_started e)); [done|].
    destruct (_ <=? _); [|done]. intros [= <- <-]. pose proof (Hpast _ _ E) as Hs. cbn in Hs.
    split; [lia|]. unfold Allow. rewrite E. destruct (Z.leb_spec (rl_window l)
      (now + (rl_window l - (now - rw_started e)) - rw_started e)); [done|lia].
  - destruct (full l (rl_entries l)) eqn:Ef; [|done]. cbn [andb].
    destruct (full l (evict l now)) eqn:Ee; [|done]. intros [= <- <-]. split; [lia|].
    assert (Hn : evict l now !! key = None).
    { destruct (evict l now !! key) eqn:Ex; [|done]. apply evict_lookup in Ex as [? _]. congruence. }
    unfold Allow. cbn [set_entries rl_entries]. rewrite Hn.
    change (full (set_entries l (evict l now)) (evict l now)) with (full l (evict l now)).
    rewrite Ee. cbn [andb].
    set (l2 := set_entries l (evict l now)).
    assert (Hempty : evict l2 (now + rl_window l) = ∅).
    { apply map_empty. intros k. destruct (evict l2 _ !! k) as [e|] eqn:Ek; [|done]. exfalso.
      apply evict_lookup in Ek as [Ek Hlt]. cbn in Ek, Hlt. apply evict_lookup in Ek as [Ek _].
      pose proof (Hpast _ _ Ek) as Hs. cbn in Hs. lia. }
    rewrite Hempty. assert (Hf : full l2 ∅ = false).
    { unfold full. apply Z.leb_gt. rewrite map_size_empty. cbn. lia. }
    by rewrite Hf.
Qed.

Lemma refused_then_allowed_witness :
  let l := snd (allow_all demo_limiter [("a", 0); ("a", second)]) in
  fst (Allow l "a" (2 * second)) = (false, 58 * second)
  /\ fst (fst (Allow l "a" (2 * second + 58 * second))) = true.
Proof.
  split; [vm_compute; reflexivity|].
  apply (refused_then_allowed (snd (allow_all demo_limiter [("a", 0); ("a", second)])) "a" (2 * second)
    (58 * second)).
  - apply allow_all_ok, demo_limiter_ok.
  - apply map_Forall_lookup. intros k e He.
    assert (Hl : forall k e, rl_entries (snd (allow_all demo_limiter [("a", 0); ("a", second)])) !! k
                             = Some e -> k = "a" -> rw_started e <= 2 * second).
    { intros k' e' Hk ->. vm_compute in Hk. injection Hk as <-. vm_compute. discriminate. }
    destruct (string_dec k "a") as [->|Hne]; [by eapply Hl|]. exfalso. revert He.
    replace (rl_entries (snd (allow_all demo_limiter [("a", 0); ("a", second)])))
      with (<["a" := MkRateWindow 0 2]> (∅ : gmap string rateWindow)) by (vm_compute; reflexivity).
    rewrite lookup_insert_ne by done. by rewrite lookup_empty.
  - vm_compute. reflexivity.
Defined.

(** ** The middleware *)

Section Middleware.
Context {IP Network : Type} {Lib : NetLib IP Network}.

(** A request passes the security middleware exactly when it has no
    forwarding headers or comes from a trusted proxy, its body (unless the
    method is a safe one) could be read and has at most one mebibyte, and, on
    the login endpoints, the limiter allows the client.  The client is the peer
    itself unless the peer is a trusted proxy, so that forwarding headers cannot
    buy an untrusted client a counter of its own. *)
Theorem security_middleware_exact s l env r :
  let cidrs := sc_TrustedProxyCIDRs (sv_serverConfig s) in
  ((exists headers, fst (securityMiddleware s (Some l) env r) = Forward headers) <->
   (hasForwardedHeaders r = true -> remoteAddressAllowed (rq_RemoteAddr r) cidrs = true)
   /\ (safe_method (rq_Method r) = true \/ exists n, rq_BodyLen r = Some n /\ n <= maxRequestBodyBytes)
   /\ (isOIDCRateLimitedPath (rq_Path r) = true ->
       fst (fst (Allow l (clientIP r cidrs) (env_unixnano env))) = true))
  /\ (remoteAddressAllowed (rq_RemoteAddr r) cidrs = false ->
      clientIP r cidrs = match remoteIP (rq_RemoteAddr r) with
                         | Some ip => ip_String ip
                         | None => "unknown"
                         end).
Proof.
  intros cidrs. split.
  2: { intros Hr. unfold clientIP. rewrite Hr. by destruct (remoteIP _). }
  unfold securityMiddleware. fold cidrs. cbv zeta.
  destruct (hasForwardedHeaders r) eqn:Eh; destruct (remoteAddressAllowed (rq_RemoteAddr r) cidrs) eqn:Er;
    cbn [negb andb].
  2: { split; [by intros [? ?]|]. intros [Hx _]. by specialize (Hx eq_refl). }
  all: destruct (isOIDCRateLimitedPath (rq_Path r)) eqn:Ep;
    destruct (Allow l (clientIP r cidrs) (env_unixnano env)) as [[[|] d] l'];
    destruct (safe_method (rq_Method r));
    try destruct (rq_BodyLen r) as [n|]; try destruct (Z.ltb_spec maxRequestBodyBytes n); cbn;
    (split; [try (intros [? ?]; done); intros _; split_and!; try done; (by left) || (right; by exists n)
            |intros (_ & Hb & Ha); try (by eexists); try (by specialize (Ha eq_refl));
             destruct Hb as [?|(? & [= <-] & ?)]; try done; lia]).
Qed.
End Middleware.

(** The header truncates the wait to whole seconds: a client that follows it may
    come back too early. *)
Example retry_after_rounds_down :
  let l := snd (allow_all demo_limiter [("a", 0); ("a", second)]) in
  let '((ok, d), l) := Allow l "a" (second + second / 2) in
  (ok, d, retry_after_header d, fst (fst (Allow l "a" (second + second / 2 + 58 * second))))
  = (false, 58 * second + second / 2, "58", false).
Proof. vm_compute. reflexivity. Qed.
