(* ===== verification/Migrate.v ===== *)
(** * Schema migrations

    [internal/migrate/migrate.go]: applying the embedded migrations in order,
    their checksums, the ledger of what was applied, and the explicit approval
    one of them needs.

    The state is what the code reads and writes: the table [schema_migrations]
    (absent on a new database) with its checksum columns (absent until the
    migration that adds them), the table [migration_ledger] (absent until the
    migration that creates it), the actors and the audit trail, and the rest of
    the schema.  Executing the SQL text of a migration is PostgreSQL's part: it
    is the argument [exec_sql], and [SqlOk] says what the code relies on.  The
    embedded directory is the argument [entries]. *)

From stdpp Require Import base list strings numbers.
From Stdlib Require Import ZArith Lia Ascii String Sorting.Sorted.
From S2P Require Import Prelude GoString Sha256 Json Schema Tx Auth.

Record Migration := MkMigration { mg_Name : string; mg_SQL : string }.

Record Status := MkStatus {
  st_Name : string; st_Applied : bool; st_ChecksumStatus : string;
  st_ExpectedSHA256 : string; st_RecordedSHA256 : string }.

Record ApprovalState := MkApprovalState {
  as_Status : string; as_MigrationHash : string; as_Actor : string; as_Reason : string;
  as_Applied : bool }.

Definition ReleaseExceptionMigrationName : string := "000012_v1_release_exceptions.sql".
Definition ChecksumMigrationName : string := "000013_v1_migration_checksums.sql".
Definition releaseExceptionApprovalLedgerPhase : string := "remediation".

(** A row of [schema_migrations]; a NULL checksum is [None]. *)
Record MigrationRow := MkMigrationRow { mr_Name : string; mr_Sha256 : option string }.

(** A row of [migration_ledger]; a NULL hash is [None]. *)
Record LedgerRow := MkLedgerRow {
  lg_MigrationName : string; lg_Phase : string; lg_Status : string; lg_Message : string;
  lg_MigrationHash : option string; lg_Evidence : jmap; lg_Remediation : string }.

Record MState (Rest : Type) := MkMState {
  ms_migrations : option (list MigrationRow);
  ms_checksums : bool;
  ms_ledger : option (list LedgerRow);
  ms_world : World;
  ms_rest : Rest }.
Arguments MkMState {Rest} _ _ _ _ _.
Arguments ms_migrations {Rest} _.
Arguments ms_checksums {Rest} _.
Arguments ms_ledger {Rest} _.
Arguments ms_world {Rest} _.
Arguments ms_rest {Rest} _.

(** A file of the embedded directory *)
Record Entry := MkEntry { en_Name : string; en_IsDir : bool; en_Content : string }.

(** [fs.ReadDir] lists by name; the sort makes the order independent of it. *)
Definition ListMigrations (entries : list Entry) : list Migration :=
  sort_stable (fun a b => String.ltb (mg_Name a) (mg_Name b))
    (List.map (fun e => MkMigration (en_Name e) (en_Content e))
       (List.filter (fun e => negb (en_IsDir e) && has_suffix ".sql" (en_Name e)) entries)).

Definition migrationHash (sql : string) : string := sha256_hex sql.

Definition approvalAllowsMigration (state : ApprovalState) (expectedHash : string) : bool :=
  (as_Status state =s "approved") && (as_MigrationHash state =s expectedHash).

Section Migrate.
Context {Rest : Type} (entries : list Entry).
(** Run the SQL of a migration: [None] when PostgreSQL reports an error *)
Context (exec_sql : string -> MState Rest -> option (MState Rest)).

Abbreviation St := (MState Rest).
Definition migrations : list Migration := ListMigrations entries.

Definition migrationByName (name : string) : res string Migration :=
  match List.find (fun m => mg_Name m =s name) migrations with
  | Some m => Ok m
  | None => Err ("migration not found: " +:+ name)
  end.

Definition ExpectedHash (name : string) : res string string :=
  match migrationByName name with
  | Ok m => Ok (migrationHash (mg_SQL m))
  | Err e => Err e
  end.

Definition ApprovalEffective (name : string) (state : ApprovalState) : res string bool :=
  match migrationByName name with
  | Ok m => Ok (approvalAllowsMigration state (migrationHash (mg_SQL m)))
  | Err e => Err e
  end.

Definition MigrationSetDigest : string :=
  migrationHash (strings_join newline
    (List.map (fun m => mg_Name m +:+ ":" +:+ migrationHash (mg_SQL m)) migrations)).

(** ** State access *)

Definition rows_of (st : St) : list MigrationRow :=
  match ms_migrations st with Some rows => rows | None => [] end.
Definition set_migrations (rows : option (list MigrationRow)) (st : St) : St :=
  MkMState rows (ms_checksums st) (ms_ledger st) (ms_world st) (ms_rest st).
Definition set_ledger (ledger : option (list LedgerRow)) (st : St) : St :=
  MkMState (ms_migrations st) (ms_checksums st) ledger (ms_world st) (ms_rest st).

(** [CREATE TABLE IF NOT EXISTS schema_migrations] *)
Definition ensureTable (st : St) : St :=
  match ms_migrations st with Some _ => st | None => set_migrations (Some []) st end.

(** After [ensureTable] the table exists; a query on a missing one would be an
    error, which the callers never meet. *)
Definition isApplied (st : St) (name : string) : bool :=
  existsb (fun r => mr_Name r =s name) (rows_of st).

Definition checksumColumnsExist (st : St) : bool := ms_checksums st.

(** [SELECT COALESCE(sha256, '') ... WHERE name = $1]; [None] is ErrNoRows *)
Definition recorded_checksum (st : St) (name : string) : option string :=
  match List.find (fun r => mr_Name r =s name) (rows_of st) with
  | Some r => Some (match mr_Sha256 r with Some h => h | None => "" end)
  | None => None
  end.

Definition requireChecksumColumns (st : St) : option string :=
  if checksumColumnsExist st then None
  else Some "migration checksum schema is not applied; run areaflow migrate up first".

(** The first mismatch, if any *)
Fixpoint mismatch_in (st : St) (ms : list Migration) : option string :=
  match ms with
  | [] => None
  | m :: rest =>
      match recorded_checksum st (mg_Name m) with
      | None | Some "" => mismatch_in st rest
      | Some recorded =>
          if recorded =s migrationHash (mg_SQL m) then mismatch_in st rest
          else Some ("migration checksum mismatch for " +:+ mg_Name m)
      end
  end.
Definition rejectChecksumMismatch (st : St) (ms : list Migration) : option string :=
  if checksumColumnsExist st then mismatch_in st ms else None.

Definition legacy_count (st : St) : Z :=
  Z.of_nat (List.length (List.filter (fun r => match mr_Sha256 r with None => true | Some _ => false end)
                           (rows_of st))).

Definition requireVerifiedChecksums (st : St) (ms : list Migration) : option string :=
  match requireChecksumColumns st with
  | Some e => Some e
  | None =>
      match rejectChecksumMismatch st ms with
      | Some e => Some e
      | None =>
          if 0 <? legacy_count st
          then Some (fmt_d (legacy_count st)
                     +:+ " applied migrations are legacy_unverified; run explicit checksum attestation before applying new migrations")
          else None
      end
  end.

(** [UPDATE schema_migrations SET sha256 = $2 WHERE name = $1 AND sha256 IS NULL] *)
Definition record_hash (name hash : string) (st : St) : St :=
  set_migrations
    (List.map (fun r => match mr_Sha256 r with
                        | None => if mr_Name r =s name then MkMigrationRow name (Some hash) else r
                        | Some _ => r
                        end) <$> ms_migrations st) st.

Definition recordAppliedRunHashes (applied : list (string * string)) (st : St) : St :=
  fold_left (fun st nh => record_hash (fst nh) (snd nh) st) applied st.

(** ** The ledger *)

Definition is_phase (name phase : string) (r : LedgerRow) : bool :=
  (lg_MigrationName r =s name) && (lg_Phase r =s phase).

(** [INSERT ... ON CONFLICT (migration_name, phase) DO UPDATE], the evidence of
    an existing row merged with the new one or replaced by it *)
Definition upsert_ledger (merge : bool) (row : LedgerRow) (ledger : list LedgerRow) : list LedgerRow :=
  if existsb (is_phase (lg_MigrationName row) (lg_Phase row)) ledger
  then List.map (fun r => if is_phase (lg_MigrationName row) (lg_Phase row) r
                          then MkLedgerRow (lg_MigrationName row) (lg_Phase row) (lg_Status row)
                                 (lg_Message row) (lg_MigrationHash row)
                                 (if merge then jsonb_concat (lg_Evidence r) (lg_Evidence row)
                                  else lg_Evidence row) (lg_Remediation row)
                          else r) ledger
  else ledger ++ [row].

Definition recordMigrationLedgerPhase (m : Migration) (phase status message remediation : string)
    (ledger : list LedgerRow) : list LedgerRow :=
  upsert_ledger true
    (MkLedgerRow (mg_Name m) phase status message (Some (migrationHash (mg_SQL m)))
       (mk [("embedded", JBool true); ("migration_hash", JStr (migrationHash (mg_SQL m)));
            ("schema_migrations_recorded", JBool (phase <>s "preflight"));
            ("migration_runner_recorded", JBool true);
            ("destructive_rollback_opened", JBool false)]) remediation) ledger.

Definition record_preflight (m : Migration) : list LedgerRow -> list LedgerRow :=
  recordMigrationLedgerPhase m "preflight" "ready" "migration preflight checks passed"
    "rerun areaflow migrate up after checking schema_migrations and embedded migration list".

Definition record_phases (m : Migration) (ledger : list LedgerRow) : list LedgerRow :=
  recordMigrationLedgerPhase m "remediation" "ready"
    "rollback/remediation wording is recorded for migration audit readiness"
    "prepare approved forward-only remediation migration; destructive rollback is not opened"
    (recordMigrationLedgerPhase m "verify" "ready"
       "migration is visible in schema_migrations before commit"
       "rerun migration ledger readiness after repairing schema state"
       (recordMigrationLedgerPhase m "apply" "ready"
          "migration SQL applied and schema_migrations row recorded"
          "restore from backup or apply a targeted remediation migration after approval"
          (record_preflight m ledger))).

(** ** apply: one transaction; an error leaves the state as it was *)

Definition insert_migration (m : Migration) (st : St) : option St :=
  if isApplied st (mg_Name m) then None
  else Some (set_migrations
         (Some (rows_of st
                ++ [MkMigrationRow (mg_Name m)
                      (if checksumColumnsExist st then Some (migrationHash (mg_SQL m)) else None)])) st).

Definition apply (m : Migration) (st : St) : res string unit * St :=
  let st1 := set_ledger (record_preflight m <$> ms_ledger st) st in
  match exec_sql (mg_SQL m) st1 with
  | None => (Err ("apply migration " +:+ mg_Name m), st)
  | Some st2 =>
      match insert_migration m st2 with
      | None => (Err ("record migration " +:+ mg_Name m), st)
      | Some st3 => (Ok tt, set_ledger (record_phases m <$> ms_ledger st3) st3)
      end
  end.

(** ** Approval, Approve, Revoke *)

(** [evidence[key].(string)] *)
Definition evidence_string (key : string) (m : jmap) : string :=
  match mget key m with Some (JStr s) => s | _ => "" end.

Definition no_approval (applied : bool) : ApprovalState := MkApprovalState "" "" "" "" applied.

(** A NULL [migration_hash] cannot be scanned into a string. *)
Definition Approval (st : St) (name : string) : res string ApprovalState :=
  match ms_migrations st, ms_ledger st with
  | Some _, Some ledger =>
      match List.find (is_phase name releaseExceptionApprovalLedgerPhase) ledger with
      | None => Ok (no_approval (isApplied st name))
      | Some r =>
          match lg_MigrationHash r with
          | None => Err "load migration approval"
          | Some hash =>
              let status := evidence_string "approval_status" (lg_Evidence r) in
              Ok (MkApprovalState (if status =s "" then lg_Status r else status) hash
                    (evidence_string "actor" (lg_Evidence r))
                    (evidence_string "reason" (lg_Evidence r)) (isApplied st name))
          end
      end
  | _, _ => Ok (no_approval false)
  end.

Definition approval_evidence_map (actor reason status : string) : jmap :=
  mk [("actor", JStr actor); ("reason", JStr reason);
      ("risk_level", JStr "R4 migration_security"); ("approval_status", JStr status)].

Definition Approve (name actor reason : string) (st : St) : res string ApprovalState * St :=
  match migrationByName name with
  | Err e => (Err e, st)
  | Ok m =>
      let actor := trim_space actor in
      let reason := trim_space reason in
      if (actor =s "") || (reason =s "")
      then (Err "migration approval actor and reason are required", st)
      else
        let st := ensureTable st in
        match ms_ledger st with
        | None => (Err ("migration ledger is required before approving " +:+ name), st)
        | Some ledger =>
            let st := set_ledger (Some (upsert_ledger false
              (MkLedgerRow name releaseExceptionApprovalLedgerPhase "pass"
                 "explicit R4 migration approval recorded" (Some (migrationHash (mg_SQL m)))
                 (approval_evidence_map actor reason "approved")
                 "revoke approval before apply or disable release exception writes after apply")
              ledger)) st in
            (Approval st name, st)
        end
  end.

Definition Revoke (name actor reason : string) (st : St) : res string ApprovalState * St :=
  match migrationByName name with
  | Err e => (Err e, st)
  | Ok m =>
      let actor := trim_space actor in
      let reason := trim_space reason in
      if (actor =s "") || (reason =s "")
      then (Err "migration revocation actor and reason are required", st)
      else
        match ms_ledger st with
        | None => (Err "revoke migration approval", st)
        | Some ledger =>
            if existsb (is_phase name releaseExceptionApprovalLedgerPhase) ledger then
              let st := set_ledger (Some (List.map (fun r =>
                if is_phase name releaseExceptionApprovalLedgerPhase r
                then MkLedgerRow (lg_MigrationName r) (lg_Phase r) "blocked"
                       "R4 migration approval revoked; release exception writes are disabled"
                       (Some (migrationHash (mg_SQL m)))
                       (approval_evidence_map actor reason "revoked")
                       "record a new explicit approval before any further release exception write"
                else r) ledger)) st in
              (Approval st name, st)
            else (Err ("migration approval not found for " +:+ name), st)
        end
  end.

Definition ApplyApproved (name : string) (st : St) : res string bool * St :=
  match migrationByName name with
  | Err e => (Err e, st)
  | Ok m =>
      let st := ensureTable st in
      if isApplied st name then (Ok false, st)
      else match Approval st name with
           | Err e => (Err e, st)
           | Ok approval =>
               if approvalAllowsMigration approval (migrationHash (mg_SQL m)) then
                 match apply m st with
                 | (Ok _, st) => (Ok true, st)
                 | (Err e, st) => (Err e, st)
                 end
               else (Err ("effective approved migration approval is required for " +:+ name), st)
           end
  end.

(** ** Up *)

(** One round of the loop: whether the migration is to be applied now *)
Definition up_ready (all : list Migration) (m : Migration) (st : St) : res string bool :=
  if isApplied st (mg_Name m) then Ok false
  else match (if String.ltb ChecksumMigrationName (mg_Name m) then requireVerifiedChecksums st all
              else None) with
       | Some e => Err e
       | None =>
           if mg_Name m =s ReleaseExceptionMigrationName then
             match Approval st (mg_Name m) with
             | Err e => Err e
             | Ok approval => Ok (approvalAllowsMigration approval (migrationHash (mg_SQL m)))
             end
           else Ok true
       end.

Fixpoint up_loop (all ms : list Migration) (applied : list string)
    (appliedThisRun : list (string * string)) (st : St) : res string (list string) * St :=
  match ms with
  | [] => (Ok applied, st)
  | m :: rest =>
      match up_ready all m st with
      | Err e => (Err e, st)
      | Ok false => up_loop all rest applied appliedThisRun st
      | Ok true =>
          match apply m st with
          | (Err e, st) => (Err e, st)
          | (Ok _, st) =>
              let appliedThisRun := appliedThisRun ++ [(mg_Name m, migrationHash (mg_SQL m))] in
              let st := if mg_Name m =s ChecksumMigrationName
                        then recordAppliedRunHashes appliedThisRun st else st in
              up_loop all rest (applied ++ [mg_Name m]) appliedThisRun st
          end
      end
  end.

Definition Up (st : St) : res string (list string) * St :=
  let st := ensureTable st in
  match rejectChecksumMismatch st migrations with
  | Some e => (Err e, st)
  | None => up_loop migrations migrations [] [] st
  end.

(** ** Statuses *)

Definition migration_status (st : St) (m : Migration) : Status :=
  let expected := migrationHash (mg_SQL m) in
  let recorded := match recorded_checksum st (mg_Name m) with Some h => h | None => "" end in
  if negb (isApplied st (mg_Name m)) then MkStatus (mg_Name m) false "pending" expected ""
  else if negb (checksumColumnsExist st)
  then MkStatus (mg_Name m) true "legacy_unverified" expected ""
  else MkStatus (mg_Name m) true
         (if recorded =s "" then "legacy_unverified"
          else if recorded =s expected then "verified" else "mismatch") expected recorded.

Definition Statuses (st : St) : list Status * St :=
  let st := ensureTable st in (List.map (migration_status st) migrations, st).

(** ** AttestLegacyHashes *)

Definition row_before (a b : MigrationRow) : bool := String.ltb (mr_Name a) (mr_Name b).

(** The rows without a checksum with the hash they should have; an error for a
    row that is not embedded or whose checksum differs *)
Fixpoint legacy_rows (rows : list MigrationRow) : res string (list (string * string)) :=
  match rows with
  | [] => Ok []
  | r :: rest =>
      match List.find (fun m => mg_Name m =s mr_Name r) migrations with
      | None => Err ("applied migration is missing from embedded set: " +:+ mr_Name r)
      | Some m =>
          let expected := migrationHash (mg_SQL m) in
          match mr_Sha256 r with
          | None | Some "" =>
              match legacy_rows rest with
              | Ok l => Ok ((mr_Name r, expected) :: l)
              | Err e => Err e
              end
          | Some recorded =>
              if recorded =s expected then legacy_rows rest
              else Err ("migration checksum mismatch for " +:+ mr_Name r)
          end
      end
  end.

Definition attest_ledger (digest : string) (nh : string * string) (ledger : list LedgerRow)
  : list LedgerRow :=
  List.map (fun r =>
    if is_phase (fst nh) "verify" r
    then MkLedgerRow (lg_MigrationName r) (lg_Phase r) (lg_Status r) (lg_Message r) (Some (snd nh))
           (jsonb_concat (lg_Evidence r)
              (mk [("checksum_attested", JBool true); ("migration_set_digest", JStr digest)]))
           (lg_Remediation r)
    else r) ledger.

Definition attest_one (digest : string) (st : St) (nh : string * string) : St :=
  let st := record_hash (fst nh) (snd nh) st in
  set_ledger (attest_ledger digest nh <$> ms_ledger st) st.

(** The actor and the audit event of the attestation *)
Definition audit_attestation (env : Env) (actor reason digest : string) (count : Z) (w : World)
  : World :=
  snd ((actorID <- upsert_actor env "user" actor ("migration-attestation:" +:+ actor) ;;
        insert_row (fun id =>
          MkAudit id 0 actorID "migration.checksum.attest" "migration_security"
            "schema_migrations" digest "allowed" reason
            (mk [("migration_set_digest", JStr digest); ("attested_count", JInt count);
                 ("hash_algorithm", JStr "sha256")]) (env_now env))) w).

Definition AttestLegacyHashes (env : Env) (actor reason expectedSetDigest : string) (st : St)
  : res string Z * St :=
  let actor := trim_space actor in
  let reason := trim_space reason in
  let expectedSetDigest := trim_space expectedSetDigest in
  if (actor =s "") || (reason =s "") || (expectedSetDigest =s "")
  then (Err "actor, reason and expected migration set digest are required", st)
  else if expectedSetDigest <>s MigrationSetDigest
  then (Err ("migration set digest mismatch: expected " +:+ expectedSetDigest +:+ ", current "
             +:+ MigrationSetDigest), st)
  else match requireChecksumColumns st with
  | Some e => (Err e, st)
  | None =>
      match legacy_rows (sort_stable row_before (rows_of st)) with
      | Err e => (Err e, st)
      | Ok legacy =>
          match legacy, ms_ledger st with
          | (name, _) :: _, None =>
              (Err ("record migration checksum ledger attestation " +:+ name), st)
          | _, _ =>
              let st := fold_left (attest_one MigrationSetDigest) legacy st in
              let count := Z.of_nat (List.length legacy) in
              (Ok count, MkMState (ms_migrations st) (ms_checksums st) (ms_ledger st)
                 (audit_attestation env actor reason MigrationSetDigest count (ms_world st))
                 (ms_rest st))
          end
      end
  end.
End Migrate.
