(* ===== verification/Demo.v ===== *)
(** * A concrete store

    One project with a queued dry run of two tasks, an environment, and the
    states a few commands reach from it: the inputs on which the theorems of
    the development are instantiated. *)

From stdpp Require Import base list strings numbers gmap.
From Stdlib Require Import ZArith Lia String.
From S2P Require Import Prelude GoString Json Schema Tx Command Worker Lease RunOnce RunControl.
From S2P Require Import Profile Workflow Gates.

Definition demo_env : Env :=
  MkEnv 5000000 5 "2026-01-01T00:00:05Z" (Some "host") (Some "/home/af") (fun _ => false)
    (fun _ => false) (fun _ => true) (fun _ _ _ => Err (ErrText "no s3")).

(** The same environment ten minutes later *)
Definition demo_later : Env :=
  MkEnv 605000000 600 "2026-01-01T00:10:05Z" (Some "host") (Some "/home/af") (fun _ => false)
    (fun _ => false) (fun _ => true) (fun _ _ _ => Err (ErrText "no s3")).

Definition demo_project : Record_ :=
  MkRecord 1 "demo" "Demo" "software" "generic" "standard" "main" "/srv/demo" "local"
    "/var/areaflow".

Definition demo_run : RunRecord :=
  MkRun 1 1 1 "preview" "dry_run" "queued" "low" "protected" true [] [] 0 None.

Definition demo_task (id : Z) : RunTaskRecord :=
  MkRunTask id 1 1 0 1 "task" "verify" "queued" "low" id [] id id.

Definition demo_db : DB :=
  set_run_tasks (MkTable [demo_task 1; demo_task 2] 3)
    (set_runs (MkTable [demo_run] 2)
       (set_projects (MkTable [demo_project] 2) empty_db)).

Definition demo_world : World := MkWorld demo_db ∅ (MkCounters 0 0 0 0).

Definition demo_register : RegisterWorkerOptions :=
  MkRegisterWorker "w1" "" "" 42 [] None 0 0 "" "" "k-register".

Definition demo_acquire : AcquireLeaseOptions :=
  MkAcquireLease "w1" 1 "" ["read_project"] None None 60 false "" "" "k-acquire".

(** A request for a capability the worker does not hold *)
Definition demo_acquire_denied : AcquireLeaseOptions :=
  MkAcquireLease "w1" 1 "" ["deploy"] None None 60 false "" "" "k-denied".

Definition demo_release : ReleaseLeaseOptions :=
  MkReleaseLease "w1" 1 "completed" None "" "" "k-release".

Definition demo_recover : RecoverLeasesOptions := MkRecoverLeases 5 "" "" None "k-recover".

Definition demo_run_once : WorkerRunOnceOptions := MkRunOnce "w1" 0 [] 0 "" "" None.

Definition demo_control (action : string) : RunControlOptions :=
  MkRunControl action ("k-" +:+ action) "" "".

(** A worker is registered; then it holds a lease on the first task. *)
Definition demo_registered : World := snd (RegisterWorker demo_env demo_project demo_register demo_world).
Definition demo_leased : World :=
  snd (AcquireLease demo_env demo_project demo_acquire demo_registered).

(** The commands take effect. *)
Example demo_registered_ok :
  is_ok (fst (RegisterWorker demo_env demo_project demo_register demo_world)) = true.
Proof. vm_compute. reflexivity. Qed.

Example demo_leased_ok :
  List.map (fun l => (l_ID l, l_RunTaskID l, l_Status l, l_ExpiresAt l))
    (t_rows (db_leases (wd_db demo_leased)))
  = [(1, 1, "active", 65000000)]
  /\ List.map t_Status (t_rows (db_run_tasks (wd_db demo_leased))) = ["leased"; "queued"].
Proof. vm_compute. done. Qed.

Example demo_run_once_ok :
  let r := RunWorkerOnce demo_env demo_project demo_run_once demo_registered in
  is_ok (fst r) = true
  /\ List.map t_Status (t_rows (db_run_tasks (wd_db (snd r)))) = ["passed"; "queued"]
  /\ List.map l_Status (t_rows (db_leases (wd_db (snd r)))) = ["completed"].
Proof. vm_compute. done. Qed.

Example demo_recover_ok :
  let w := snd (RecoverExpiredLeases demo_later demo_project demo_recover demo_leased) in
  List.map t_Status (t_rows (db_run_tasks (wd_db w))) = ["needs_recovery"; "queued"]
  /\ List.map l_Status (t_rows (db_leases (wd_db w))) = ["needs_recovery"].
Proof. vm_compute. done. Qed.

(** ** A workflow version *)

Definition demo_profile : Profile :=
  MkProfile "standard" 1 "Standard" "" (MkAdapterDefaults "generic" "standard")
    (MkVersionBinding true "explicit") ["draft"; "ready"]
    [MkStage "discussion" "" ["discussion.md"] [] ["discussion_gate"] []]
    [] [MkGate "discussion_gate" "v0.3" "gate_results"] []
    (MkArtifactPolicy "" "" "" "" "") (MkPermissionPolicy "readonly" requiredWriteGuards)
    (MkCutoverPolicy "" "" "").

(** One profile file below [/opt/areaflow], seen from a directory inside it *)
Definition demo_fs : ProfileFS :=
  MkProfileFS (Ok ["opt"; "areaflow"; "cmd"])
    (fun p => p =s "/opt/areaflow/workflow/profiles")
    (fun p => if p =s "/opt/areaflow/workflow/profiles/standard/profile.yaml"
              then ReadOk "profile_id: standard" else ReadMissing)
    (fun p => if p =s "/opt/areaflow/workflow/profiles"
              then DirOk [("README.md", false); ("standard", true)] else DirMissing)
    (fun _ => Ok demo_profile).

(** No readiness report is available. *)
Definition demo_readiness (w : World) (r : Record_) (label : string)
  : res error CutoverReadiness := Err (ErrText "no readiness").

Definition demo_create : CreateWorkflowVersionOptions :=
  MkCreateVersion "v1" "k-create" "" "" (MkBinding "" 0 "" "").

Definition demo_versioned : World :=
  snd (CreateWorkflowVersion demo_env demo_fs demo_project demo_create demo_world).

Definition demo_mark (stage itemType : string) : MarkWorkflowItemReadyOptions :=
  MkMarkReady stage itemType "" "".

(** The items the promotion gate requires are ready. *)
Definition demo_marked : World :=
  snd (MarkWorkflowItemReady demo_env demo_project "v1" (demo_mark "queue" "queue_candidate")
    (snd (MarkWorkflowItemReady demo_env demo_project "v1"
            (demo_mark "promotion_preview" "promotion_preview") demo_versioned))).

Definition demo_gate (name key : string) : RunGateOptions := MkRunGate name "" "" key.
Definition demo_promoted : World :=
  snd (RunWorkflowGate demo_env demo_fs demo_readiness demo_project "v1"
         (demo_gate "promotion_preview" "k-gate") demo_marked).

Definition demo_preview : PreviewTransitionOptions := MkPreviewTransition "" "" "alice" "" "k-p".
Definition demo_previewed : World :=
  snd (PreviewWorkflowTransition demo_env demo_project "v1" demo_preview demo_promoted).

Definition demo_approval (actor : string) : CreateApprovalOptions :=
  MkCreateApproval "" "" actor "" "high" "k-approve" 0 None.
Definition demo_approved : World :=
  snd (CreateApprovalRecord demo_env demo_project "v1" (demo_approval "bob") demo_previewed).

Example demo_workflow_ok :
  List.length (t_rows (db_workflow_items (wd_db demo_versioned))) = 10%nat
  /\ List.length (t_rows (db_workflow_item_links (wd_db demo_versioned))) = 9%nat
  /\ List.map g_Status (t_rows (db_gate_results (wd_db demo_promoted))) = ["pass"]
  /\ List.map tp_Status (t_rows (db_transition_previews (wd_db demo_previewed))) = ["ready"]
  /\ List.map ap_Decision (t_rows (db_approval_records (wd_db demo_approved))) = ["approved"].
Proof. vm_compute. done. Qed.

(** The requester of a transition cannot approve it when the risk is high. *)
Example demo_self_approval_refused :
  fst (CreateApprovalRecord demo_env demo_project "v1" (demo_approval "alice") demo_previewed)
  = Err (ErrText "high-risk approval requires an approver different from the transition requester").
Proof. vm_compute. done. Qed.

(** A passing live mapping gate *)
Example demo_live_mapping_ok :
  match RunWorkflowGate demo_env demo_fs demo_readiness demo_project "v1"
          (demo_gate "live_mapping_gate" "k-live") demo_approved with
  | (Ok g, _) => g_Status g = "pass"
  | (Err _, _) => False
  end.
Proof. vm_compute. done. Qed.
