(* ===== verification/LeaseSpec.v ===== *)
(** * What the lease commands do, branch by branch

    Abstract decisions of AcquireLease, ReleaseLease and RecoverExpiredLeases
    as pure functions of the database, and the theorems that the handlers
    return and store what the decision says, errors included. *)

From stdpp Require Import base list strings numbers gmap.
From Stdlib Require Import ZArith Lia String Sorting.Sorted.
From S2P Require Import Prelude GoString Sha256 Json Schema Tx Command Capability History Worker.
From S2P Require Import Lease RunOnce RunControl Demo.

(** ** Evaluating a handler *)

Lemma bind_run {A B} (m : M A) (k : A -> M B) w a w1 :
  m w = (Ok a, w1) -> bind m k w = k a w1.
Proof. unfold bind. by intros ->. Qed.

Lemma bind_stop {A B} (m : M A) (k : A -> M B) w e w1 :
  m w = (Err e, w1) -> bind m k w = (Err e, w1).
Proof. unfold bind. by intros ->. Qed.

(** Run the steps that cannot fail. *)
Ltac run_steps := repeat (erewrite bind_run by reflexivity).

(** ** Lookups *)

Definition find_worker (db : DB) (pid : Z) (key : string) : option WorkerRecord :=
  scanWorker <$> head (table_select (worker_is pid key) (db_workers db)).

Definition find_task (db : DB) (pid id : Z) : option RunTaskRecord :=
  scanRunTask <$> head (table_select (fun t => (t_ProjectID t =? pid) && (t_ID t =? id))
                          (db_run_tasks db)).

Lemma loadWorkerForUpdate_eq pid key w :
  loadWorkerForUpdate pid key w
  = ((if trim_space key =s "" then Err (ErrText "worker key is required")
      else match find_worker (wd_db w) pid key with
           | Some r => Ok r
           | None => Err ErrWorkerNotFound
           end), w).
Proof.
  unfold loadWorkerForUpdate, find_worker. destruct (_ =s ""); [done|].
  unfold bind, select_rows, map_err. cbn [tget workers_table].
  by destruct (table_select _ _).
Qed.

Lemma loadRunTaskForLease_eq pid id w :
  loadRunTaskForLease pid id w
  = ((if id <=? 0 then Err (ErrText "run task id is required")
      else match find_task (wd_db w) pid id with
           | Some r => Ok r
           | None => Err ErrNoLeaseAvailable
           end), w).
Proof.
  unfold loadRunTaskForLease, find_task. destruct (_ <=? 0); [done|].
  unfold bind, select_rows, map_err. cbn [tget run_tasks_table].
  by destruct (table_select _ _).
Qed.

(** ** Recovery of expired leases *)

(** The lease table after [recoverExpiredLeases] *)
Definition recovered (env : Env) (pid limit : Z) (metadata : jmap) (t : table LeaseRecord)
  : table LeaseRecord :=
  let limit := if limit <=? 0 then 20 else limit in
  table_update (fun l => existsb (Z.eqb (l_ID l)) (expired_ids env pid limit t))
    (lease_ended (env_now env) "needs_recovery" metadata) t.

Lemma recoverExpiredLeases_eq env pid limit md w :
  recoverExpiredLeases env pid limit md w
  = (Ok (List.map scanLease (List.map (lease_ended (env_now env) "needs_recovery" md)
           (table_select (fun l => existsb (Z.eqb (l_ID l))
              (expired_ids env pid (if limit <=? 0 then 20 else limit) (db_leases (wd_db w))))
              (db_leases (wd_db w))))),
     set_db (set_leases (recovered env pid limit md (db_leases (wd_db w))) (wd_db w)) w).
Proof. reflexivity. Qed.

(** ** Acquire *)

Inductive acquire_decision : Type :=
| AcquireRefused (e : error)
| AcquireDenied (worker : WorkerRecord) (missing : list string)
| AcquireGranted (worker : WorkerRecord) (task : RunTaskRecord).

(** The leases the new one has to be compatible with *)
Definition acquire_leases (env : Env) (pid : Z) (o : AcquireLeaseOptions) (db : DB)
  : table LeaseRecord :=
  if al_RecoverExpiredBefore o
  then recovered env pid 50 (map_or_empty (al_Metadata o)) (db_leases db)
  else db_leases db.

Definition acquire_decide (env : Env) (pid : Z) (o : AcquireLeaseOptions) (db : DB)
  : acquire_decision :=
  if trim_space (al_WorkerKey o) =s "" then AcquireRefused (ErrText "worker key is required")
  else match find_worker db pid (al_WorkerKey o) with
  | None => AcquireRefused ErrWorkerNotFound
  | Some worker =>
      match missingWorkerCapabilities (w_Capabilities worker) (al_AllowedCapabilities o) with
      | (_ :: _) as missing => AcquireDenied worker missing
      | [] =>
          if al_RunTaskID o <=? 0 then AcquireRefused (ErrText "run task id is required")
          else match find_task db pid (al_RunTaskID o) with
          | None => AcquireRefused ErrNoLeaseAvailable
          | Some task =>
              if existsb (blocks_task (t_ID task)) (t_rows (acquire_leases env pid o db))
              then AcquireRefused (ErrUniqueViolation "leases_active_run_task_idx")
              else AcquireGranted worker task
          end
      end
  end.

(** The lease a grant creates *)
Definition granted_lease (env : Env) (pid : Z) (worker : WorkerRecord) (task : RunTaskRecord)
    (o : AcquireLeaseOptions) (id : Z) : LeaseRecord :=
  MkLease id pid (t_RunID task) (t_ID task) (t_WorkflowItemID task) (w_ID worker)
    (al_LeaseKind o) "active" (env_now env)
    (env_now env + al_LeaseTimeoutSeconds o * 1000000) (Some (env_now env)) None
    (al_AllowedCapabilities o)
    (mset "task_kind" (JStr (t_TaskKind task))
      (mset "task_key" (JStr (t_TaskKey task))
         (mset "run_task_id" (JInt (t_ID task)) (mk (map_or_empty (al_Scope o))))))
    (map_or_empty (al_Metadata o)).

(** Tables a lease command leaves alone *)
Definition same_but_leases_tasks (db db' : DB) : Prop :=
  db_projects db' = db_projects db /\ db_actors db' = db_actors db
  /\ db_workers db' = db_workers db /\ db_worker_heartbeats db' = db_worker_heartbeats db
  /\ db_runs db' = db_runs db /\ db_run_attempts db' = db_run_attempts db
  /\ db_artifacts db' = db_artifacts db
  /\ db_workflow_versions db' = db_workflow_versions db
  /\ db_workflow_items db' = db_workflow_items db
  /\ db_workflow_item_links db' = db_workflow_item_links db
  /\ db_gate_results db' = db_gate_results db
  /\ db_transition_previews db' = db_transition_previews db
  /\ db_approval_records db' = db_approval_records db.

(** Exactly one event and one audit event, of these types, were appended. *)
Definition one_history (eventType action decision : string) (db db' : DB) : Prop :=
  (exists e, t_rows (db_events db') = t_rows (db_events db) ++ [e] /\ e_Type e = eventType)
  /\ (exists a, t_rows (db_audit_events db') = t_rows (db_audit_events db) ++ [a]
                /\ au_Action a = action /\ au_Decision a = decision).

(** Close the remaining [same_but_leases_tasks] and [one_history] goals. *)
Ltac history_leaf :=
  unfold same_but_leases_tasks, one_history;
  repeat match goal with
  | |- _ /\ _ => split
  | |- exists _, _ => eexists
  | |- _ => reflexivity
  end.

(** What a granted or denied acquire leaves behind *)
Definition acquire_post (env : Env) (pid : Z) (o : AcquireLeaseOptions) (d : acquire_decision)
    (db : DB) (r : res error LeaseRecord) (db' : DB) : Prop :=
  match d with
  | AcquireRefused e => r = Err e /\ db' = db
  | AcquireDenied worker missing =>
      r = Err (ErrWorkerCapabilityDenied missing)
      /\ db_leases db' = db_leases db /\ db_run_tasks db' = db_run_tasks db
      /\ same_but_leases_tasks db db'
      /\ one_history "lease.acquire.denied" "lease.acquire" "denied" db db'
  | AcquireGranted worker task =>
      let leases := acquire_leases env pid o db in
      r = Ok (scanLease (granted_lease env pid worker task o (t_next leases)))
      /\ db_leases db' = table_insert (granted_lease env pid worker task o) leases
      /\ db_run_tasks db'
         = table_update (fun t => t_ID t =? t_ID task)
             (task_with_status (env_now env) "leased") (db_run_tasks db)
      /\ same_but_leases_tasks db db'
      /\ one_history "lease.acquired" "lease.acquire" "allowed" db db'
  end.

Lemma existsb_select {R} (p : R -> bool) (t : table R) :
  existsb p (t_rows t) = match table_select p t with [] => false | _ => true end.
Proof.
  unfold table_select. induction (t_rows t) as [|x l IH]; [done|]. cbn.
  by destruct (p x); cbn.
Qed.

Lemma find_task_id db pid id t : find_task db pid id = Some t -> t_ID t = id /\ t_ProjectID t = pid.
Proof.
  unfold find_task. destruct (table_select _ _) as [|r l] eqn:E; [done|]. intros [= <-].
  assert (H : In r (table_select (fun t => (t_ProjectID t =? pid) && (t_ID t =? id))
                      (db_run_tasks db))) by (rewrite E; by left).
  apply table_select_In in H as [_ H]. bool_prop. done.
Qed.

Lemma insertLeaseForTask_eq env pid worker task kind caps scope md timeout w :
  insertLeaseForTask env pid worker task kind caps scope md timeout w
  = let mkrow := fun id => MkLease id pid (t_RunID task) (t_ID task) (t_WorkflowItemID task)
      (w_ID worker) kind "active" (env_now env) (env_now env + timeout * 1000000)
      (Some (env_now env)) None caps
      (mset "task_kind" (JStr (t_TaskKind task))
        (mset "task_key" (JStr (t_TaskKey task))
          (mset "run_task_id" (JInt (t_ID task)) (mk scope)))) (map_or_empty md) in
    let t := db_leases (wd_db w) in
    if existsb (blocks_task (t_ID task)) (t_rows t)
    then (Err (ErrUniqueViolation "leases_active_run_task_idx"), w)
    else (Ok (scanLease (mkrow (t_next t))), set_db (set_leases (table_insert mkrow t) (wd_db w)) w).
Proof.
  cbv zeta. rewrite existsb_select. unfold insertLeaseForTask, bind at 1, select_rows.
  cbn [tget leases_table]. by destruct (table_select _ _).
Qed.

Lemma updateRunTaskStatus_eq env id st w :
  id <> 0 ->
  updateRunTaskStatus env id st w
  = (Ok tt, set_db (set_run_tasks (table_update (fun t => t_ID t =? id)
              (task_with_status (env_now env) st) (db_run_tasks (wd_db w))) (wd_db w)) w).
Proof. intros Hid. unfold updateRunTaskStatus. by rewrite (proj2 (Z.eqb_neq _ _) Hid). Qed.

(** The optional recovery before an acquire *)
Lemma acquire_recover_run {B} env pid o w (k : M B) :
  ((if al_RecoverExpiredBefore o
    then recoverExpiredLeases env pid 50 (map_or_empty (al_Metadata o)) else ret []) ;;; k) w
  = k (set_db (set_leases (acquire_leases env pid o (wd_db w)) (wd_db w)) w).
Proof.
  unfold acquire_leases. destruct (al_RecoverExpiredBefore o); [reflexivity|].
  destruct w as [db f c]. cbn. by destruct db.
Qed.

(** The response a decided acquire records *)
Definition acquire_response (env : Env) (pid : Z) (o : AcquireLeaseOptions)
    (d : acquire_decision) (leaseID : Z) : jmap :=
  match d with
  | AcquireRefused _ => []
  | AcquireDenied worker missing =>
      leaseCommandResponse
       [("decision", JStr "denied"); ("worker_id", JInt (w_ID worker));
        ("worker_key", JStr (w_WorkerKey worker)); ("run_task_id", JInt (al_RunTaskID o));
        ("lease_kind", JStr (al_LeaseKind o)); ("missing_capabilities", jstrs missing);
        ("lease_created", JBool false)]
  | AcquireGranted worker task =>
      leaseCommandResponse
       [("decision", JStr "allowed"); ("lease_id", JInt leaseID);
        ("run_id", JInt (t_RunID task)); ("run_task_id", JInt (t_ID task));
        ("worker_id", JInt (w_ID worker)); ("worker_key", JStr (w_WorkerKey worker));
        ("lease_kind", JStr (al_LeaseKind o)); ("lease_status", JStr "active");
        ("lease_created", JBool true)]
  end.

(** A command row with its recorded response *)
Definition command_done (now : Z) (response : jmap) (c : CommandRequest) : CommandRequest :=
  MkCommand (c_ID c) (c_ProjectID c) (c_CommandType c) (c_IdempotencyKey c) (c_RequestHash c)
    response (c_CreatedAt c) (Some now).

Lemma acquireBody_spec env record o w :
  let d := acquire_decide env (p_ID record) o (wd_db w) in
  match acquireBody env record o w with
  | (Ok r, w') => (forall e, d <> AcquireRefused e)
                  /\ acquire_post env (p_ID record) o d (wd_db w) r (wd_db w')
                  /\ wd_files w' = wd_files w
                  /\ db_command_requests (wd_db w')
                     = table_update (command_is (p_ID record) "lease.acquire" (al_IdempotencyKey o))
                         (command_done (env_now env) (acquire_response env (p_ID record) o d
                            (t_next (acquire_leases env (p_ID record) o (wd_db w)))))
                         (db_command_requests (wd_db w))
  | (Err e, w') => d = AcquireRefused e /\ wd_files w' = wd_files w
  end.
Proof.
  cbv zeta. unfold acquireBody, acquire_decide, bind at 1. rewrite loadWorkerForUpdate_eq.
  destruct (trim_space _ =s ""); [done|].
  destruct (find_worker _ _ _) as [worker|]; [|done].
  destruct (missingWorkerCapabilities _ _) as [|m missing].
  - unfold acquireAllowed. rewrite acquire_recover_run. unfold bind at 1.
    rewrite loadRunTaskForLease_eq. destruct (al_RunTaskID o <=? 0) eqn:Ele; [done|].
    cbn [wd_db set_db]. change (find_task (set_leases ?t ?db)) with (find_task db).
    destruct (find_task _ _ _) as [task|] eqn:Et; [|done].
    unfold bind at 1. rewrite insertLeaseForTask_eq. cbv zeta. cbn [wd_db set_db db_leases set_leases].
    destruct (existsb _ _) eqn:Eb; [done|].
    apply find_task_id in Et as [Et _]. apply Z.leb_gt in Ele.
    erewrite bind_run by (apply updateRunTaskStatus_eq; lia).
    run_steps. cbn [ret fst snd]. split; [done|].
    split; [|split; reflexivity].
    unfold acquire_post. cbv zeta. repeat (split; [reflexivity|]). history_leaf.
  - unfold acquireDenied, recordWorkerCapabilityDenied. run_steps.
    split; [done|]. split; [|split; reflexivity]. unfold acquire_post. repeat (split; [reflexivity|]). history_leaf.
Qed.

(** A fresh command runs its body on a database that differs in the recorded
    commands only; its failure restores the database. *)
Lemma fresh_run {A} env pid ct key hash (replay body : M (res error A)) w :
  ledger_of (wd_db w) !! (pid, ct, key) = None ->
  transact (with_command env pid ct key hash replay body) w
  = match body (set_db (reserved env pid ct key hash (wd_db w)) w) with
    | (Ok r, w') => (r, w')
    | (Err e, w') => (Err e, set_db (wd_db w) w')
    end.
Proof. intros H. unfold transact. by rewrite with_command_fresh. Qed.



(** Both decisions occur: the demo request is granted, the one for a capability
    the worker lacks is denied. *)
Example acquire_decisions :
  (match acquire_decide demo_env 1 (acquireOptions demo_project demo_acquire)
           (wd_db demo_registered) with
   | AcquireGranted _ t => t_ID t =? 1 | _ => false end)
  && (match acquire_decide demo_env 1 (acquireOptions demo_project demo_acquire_denied)
              (wd_db demo_registered) with
      | AcquireDenied _ m => str_in "deploy" m | _ => false end) = true.
Proof. vm_compute. reflexivity. Qed.

(** ** Release *)

Inductive release_decision : Type :=
| ReleaseRefused (e : error)
| ReleaseDone (worker : WorkerRecord) (lease : LeaseRecord).

Definition release_decide (pid : Z) (o : ReleaseLeaseOptions) (db : DB) : release_decision :=
  if trim_space (rl_WorkerKey o) =s "" then ReleaseRefused (ErrText "worker key is required")
  else match find_worker db pid (rl_WorkerKey o) with
  | None => ReleaseRefused ErrWorkerNotFound
  | Some worker =>
      match table_select (releasable pid (rl_LeaseID o) (w_ID worker)) (db_leases db) with
      | [] => ReleaseRefused ErrLeaseNotFound
      | lease :: _ => ReleaseDone worker lease
      end
  end.

(** The status of a released lease's task *)
Definition released_task_status (status : string) : string :=
  if status =s "completed" then "passed" else "queued".

Definition release_post (env : Env) (pid : Z) (o : ReleaseLeaseOptions) (d : release_decision)
    (db : DB) (r : res error LeaseRecord) (db' : DB) : Prop :=
  match d with
  | ReleaseRefused e => r = Err e /\ db' = db
  | ReleaseDone worker lease =>
      let ended := lease_ended (env_now env) (rl_Status o) (map_or_empty (rl_Metadata o)) in
      r = Ok (scanLease (ended lease))
      /\ db_leases db'
         = table_update (releasable pid (rl_LeaseID o) (w_ID worker)) ended (db_leases db)
      /\ db_run_tasks db'
         = (if l_RunTaskID lease =? 0 then db_run_tasks db
            else table_update (fun t => t_ID t =? l_RunTaskID lease)
                   (task_with_status (env_now env) (released_task_status (rl_Status o)))
                   (db_run_tasks db))
      /\ same_but_leases_tasks db db'
      /\ one_history "lease.released" "lease.release" "allowed" db db'
  end.

Lemma releaseLeaseForWorker_eq env pid worker lid st md w :
  releaseLeaseForWorker env pid worker lid st md w
  = let p := releasable pid lid (w_ID worker) in
    let f := lease_ended (env_now env) st (map_or_empty md) in
    let w' := set_db (set_leases (table_update p f (db_leases (wd_db w))) (wd_db w)) w in
    match table_select p (db_leases (wd_db w)) with
    | [] => (Err ErrLeaseNotFound, w')
    | l :: _ => (Ok (scanLease (f l)), w')
    end.
Proof.
  cbv zeta. unfold releaseLeaseForWorker, bind at 1, update_rows.
  cbn [tget leases_table tset]. by destruct (table_select _ _).
Qed.

Lemma releaseBody_spec env record o w :
  let d := release_decide (p_ID record) o (wd_db w) in
  match releaseBody env record o w with
  | (Ok r, w') => (forall e, d <> ReleaseRefused e)
                  /\ release_post env (p_ID record) o d (wd_db w) r (wd_db w')
  | (Err e, w') => d = ReleaseRefused e
  end.
Proof.
  cbv zeta. unfold releaseBody, release_decide, bind at 1. rewrite loadWorkerForUpdate_eq.
  destruct (trim_space _ =s ""); [done|]. destruct (find_worker _ _ _) as [worker|]; [|done].
  unfold bind at 1. rewrite releaseLeaseForWorker_eq. cbv zeta.
  destruct (table_select _ _) as [|lease rest]; [done|].
  change (l_RunTaskID (scanLease (lease_ended _ _ _ ?l))) with (l_RunTaskID l).
  unfold release_post. cbv zeta. destruct (l_RunTaskID lease =? 0) eqn:Et.
  - run_steps. cbn [ret]. split; [done|]. repeat (split; [reflexivity|]). history_leaf.
  - apply Z.eqb_neq in Et. erewrite bind_run by (by apply updateRunTaskStatus_eq).
    run_steps. cbn [ret]. split; [done|]. repeat (split; [reflexivity|]). history_leaf.
Qed.

(** ReleaseLease with a fresh idempotency key ends exactly the caller's own
    active lease with the requested status, stamps the release time, returns
    the ended lease, and moves the lease's task to [passed] when the status is
    [completed] and back to [queued] otherwise; a lease that is not active or
    belongs to another worker, like an unknown worker, is refused without any
    change. *)
Theorem release_functional env record options w :
  let o := releaseOptions record options in
  ledger_of (wd_db w) !! (p_ID record, "lease.release", rl_IdempotencyKey o) = None ->
  let r := ReleaseLease env record options w in
  release_post env (p_ID record) o (release_decide (p_ID record) o (wd_db w))
    (wd_db w) (fst r) (wd_db (snd r)).
Proof.
  cbv zeta. intros Hf. unfold ReleaseLease. rewrite fresh_run by exact Hf.
  pose proof (releaseBody_spec env record (releaseOptions record options)
    (set_db (reserved env (p_ID record) "lease.release"
       (rl_IdempotencyKey (releaseOptions record options))
       (leaseReleaseRequestHash record (normalizeReleaseLeaseOptions options)) (wd_db w)) w)) as H.
  cbv zeta in H. cbn [wd_db set_db] in H.
  change (release_decide ?p ?o (reserved _ _ _ _ _ ?db)) with (release_decide p o db) in H.
  destruct (releaseBody _ _ _ _) as [[r|e] w'].
  - destruct H as (Hd & H). cbn [fst snd].
    destruct (release_decide _ _ _) as [e|]; [by destruct (Hd e)|exact H].
  - subst. rewrite H. cbn. done.
Qed.

Lemma release_functional_witness :
  let o := releaseOptions demo_project demo_release in
  ledger_of (wd_db demo_leased) !! (1, "lease.release", rl_IdempotencyKey o) = None
  /\ release_post demo_env 1 o (release_decide 1 o (wd_db demo_leased)) (wd_db demo_leased)
       (fst (ReleaseLease demo_env demo_project demo_release demo_leased))
       (wd_db (snd (ReleaseLease demo_env demo_project demo_release demo_leased))).
Proof.
  split; [vm_compute; reflexivity|].
  apply (release_functional demo_env demo_project demo_release demo_leased).
  vm_compute. reflexivity.
Defined.

(** A lease released with the status [active] stays active while its task goes
    back to the queue: the status of a release is not checked. *)
Example release_as_active :
  let o := MkReleaseLease "w1" 1 "active" None "" "" "k-release" in
  let w := snd (ReleaseLease demo_env demo_project o demo_leased) in
  List.map (fun l => (l_Status l, l_ReleasedAt l)) (t_rows (db_leases (wd_db w)))
  = [("active", Some 5000000)]
  /\ List.map t_Status (t_rows (db_run_tasks (wd_db w))) = ["queued"; "queued"].
Proof. vm_compute. done. Qed.

(** A task that has passed can be leased again: AcquireLease does not look at
    the status of the task. *)
Example passed_task_leased_again :
  let w1 := snd (ReleaseLease demo_env demo_project demo_release demo_leased) in
  let again := MkAcquireLease "w1" 1 "" ["read_project"] None None 60 false "" "" "k-again" in
  let w2 := snd (AcquireLease demo_env demo_project again w1) in
  List.map t_Status (t_rows (db_run_tasks (wd_db w1))) = ["passed"; "queued"]
  /\ List.map t_Status (t_rows (db_run_tasks (wd_db w2))) = ["leased"; "queued"].
Proof. vm_compute. done. Qed.

(** ** Recovery *)

(** The tasks of a list of leases *)
Definition task_of_leases (leases : list LeaseRecord) (t : RunTaskRecord) : bool :=
  existsb (fun l => negb (l_RunTaskID l =? 0) && (t_ID t =? l_RunTaskID l)) leases.

Lemma table_update_compose {R} (p1 p2 p : R -> bool) (f1 f2 f : R -> R) (t : table R) :
  (forall r : R, (if p2 (if p1 r then f1 r else r) then f2 (if p1 r then f1 r else r)
              else if p1 r then f1 r else r) = if p r then f r else r) ->
  table_update p2 f2 (table_update p1 f1 t) = table_update p f t.
Proof.
  intros H. unfold table_update. cbn. f_equal. rewrite map_map. by apply map_ext.
Qed.

Lemma table_update_none {R} (f : R -> R) (p : R -> bool) (t : table R) :
  (forall r : R, p r = false) -> table_update p f t = t.
Proof.
  intros H. unfold table_update. destruct t as [rows n]. cbn. f_equal.
  induction rows as [|r rows IH]; cbn; [done|]. by rewrite H, IH.
Qed.

(** What the loop over the recovered leases leaves: all their tasks wait for
    recovery, and one event and one audit event per lease. *)
Definition recovered_post (env : Env) (leases : list LeaseRecord) (db db' : DB) : Prop :=
  db_leases db' = db_leases db
  /\ db_run_tasks db' = table_update (task_of_leases leases)
       (task_with_status (env_now env) "needs_recovery") (db_run_tasks db)
  /\ same_but_leases_tasks db db'
  /\ (exists es, t_rows (db_events db') = t_rows (db_events db) ++ es
                 /\ List.length es = List.length leases
                 /\ Forall (fun e => e_Type e = "lease.recovered") es)
  /\ (exists es, t_rows (db_audit_events db') = t_rows (db_audit_events db) ++ es
                 /\ List.length es = List.length leases
                 /\ Forall (fun a => au_Action a = "lease.recover" /\ au_Decision a = "allowed") es).

Lemma recovered_post_nil env db : recovered_post env [] db db.
Proof.
  unfold recovered_post. rewrite table_update_none by done. split; [done|]. split; [done|].
  split; [unfold same_but_leases_tasks; tauto|].
  split; exists []; rewrite app_nil_r; done.
Qed.

Lemma recovered_post_cons env lease leases db d1 db' :
  recovered_post env [lease] db d1 -> recovered_post env leases d1 db' ->
  recovered_post env (lease :: leases) db db'.
Proof.
  intros (A1 & A2 & A3 & (e1 & A4 & A5 & A6) & (a1 & A7 & A8 & A9))
         (B1 & B2 & B3 & (e2 & B4 & B5 & B6) & (a2 & B7 & B8 & B9)).
  split; [congruence|]. split.
  - rewrite B2, A2. apply table_update_compose. intros t.
    unfold task_of_leases. cbn. rewrite orb_false_r.
    destruct (negb (l_RunTaskID lease =? 0) && (t_ID t =? l_RunTaskID lease)); [|done].
    cbn. by destruct (existsb _ leases).
  - split; [unfold same_but_leases_tasks in *; intuition congruence|]. split.
    + exists (e1 ++ e2). rewrite B4, A4, app_assoc, length_app, A5, B5.
      split; [done|]. split; [done|]. by apply Forall_app.
    + exists (a1 ++ a2). rewrite B7, A7, app_assoc, length_app, A8, B8.
      split; [done|]. split; [done|]. by apply Forall_app.
Qed.

Lemma recoverLoop_one env record reason lease w :
  exists w1, recoverLoop env record reason [lease] w = (Ok tt, w1)
    /\ recovered_post env [lease] (wd_db w) (wd_db w1).
Proof.
  cbn [recoverLoop]. destruct (l_RunTaskID lease =? 0) eqn:Et.
  - run_steps. eexists. split; [reflexivity|]. split; [reflexivity|]. split.
    + rewrite table_update_none; [reflexivity|]. intros t. unfold task_of_leases. cbn. by rewrite Et.
    + history_leaf; repeat constructor.
  - assert (Hne : l_RunTaskID lease <> 0) by (by apply Z.eqb_neq).
    erewrite bind_run by (by apply updateRunTaskStatus_eq). run_steps.
    eexists. split; [reflexivity|]. split; [reflexivity|]. split.
    + cbn [wd_db set_db db_run_tasks set_run_tasks]. unfold table_update. cbn.
      f_equal. apply map_ext. intros t. unfold task_of_leases. cbn.
      by rewrite Et, orb_false_r.
    + history_leaf; repeat constructor.
Qed.

Lemma recoverLoop_cons env record reason lease leases w :
  recoverLoop env record reason (lease :: leases) w
  = (recoverLoop env record reason [lease] ;;; recoverLoop env record reason leases) w.
Proof.
  cbn [recoverLoop]. unfold bind.
  destruct ((if l_RunTaskID lease =? 0 then ret tt else _) w) as [[?|?] w1]; [|done].
  destruct (insertWorkerEvent _ _ _ _ _ _ w1) as [[?|?] w2]; [|done].
  by destruct (insertWorkerAuditEvent _ _ _ _ _ _ _ _ _ w2) as [[?|?] w3].
Qed.

Lemma recoverLoop_spec env record reason leases w :
  exists w1, recoverLoop env record reason leases w = (Ok tt, w1)
    /\ recovered_post env leases (wd_db w) (wd_db w1).
Proof.
  revert w. induction leases as [|lease leases IH]; intros w.
  - exists w. split; [done|]. apply recovered_post_nil.
  - rewrite recoverLoop_cons. destruct (recoverLoop_one env record reason lease w) as (w1 & E1 & P1).
    destruct (IH w1) as (w2 & E2 & P2). exists w2. rewrite (bind_run _ _ _ _ _ E1). split; [done|].
    by eapply recovered_post_cons.
Qed.

(** The leases a recovery ends, as it returns them *)
Definition recovered_leases (env : Env) (pid limit : Z) (metadata : jmap)
    (t : table LeaseRecord) : list LeaseRecord :=
  List.map (fun l => scanLease (lease_ended (env_now env) "needs_recovery" metadata l))
    (table_select (fun l => existsb (Z.eqb (l_ID l)) (expired_ids env pid limit t)) t).

Definition recover_post (env : Env) (pid : Z) (o : RecoverLeasesOptions) (db : DB)
    (r : res error (list LeaseRecord)) (db' : DB) : Prop :=
  let md := map_or_empty (vl_Metadata o) in
  let leases := recovered_leases env pid (vl_Limit o) md (db_leases db) in
  r = Ok leases
  /\ db_leases db'
     = table_update (fun l => existsb (Z.eqb (l_ID l))
                                (expired_ids env pid (vl_Limit o) (db_leases db)))
         (lease_ended (env_now env) "needs_recovery" md) (db_leases db)
  /\ db_run_tasks db' = table_update (task_of_leases leases)
       (task_with_status (env_now env) "needs_recovery") (db_run_tasks db)
  /\ same_but_leases_tasks db db'
  /\ (exists es, t_rows (db_events db') = t_rows (db_events db) ++ es
                 /\ List.length es = List.length leases)
  /\ (exists es, t_rows (db_audit_events db') = t_rows (db_audit_events db) ++ es
                 /\ List.length es = List.length leases).

Lemma recoverBody_spec env record o w :
  vl_Limit o > 0 ->
  exists r w', recoverBody env record o w = (Ok r, w')
    /\ recover_post env (p_ID record) o (wd_db w) r (wd_db w').
Proof.
  intros Hl. unfold recoverBody. erewrite bind_run by apply recoverExpiredLeases_eq.
  rewrite (proj2 (Z.leb_gt _ _)) by lia. rewrite map_map.
  fold (recovered_leases env (p_ID record) (vl_Limit o) (map_or_empty (vl_Metadata o))
          (db_leases (wd_db w))).
  match goal with |- context [recoverLoop env record ?rs ?ls] =>
    match goal with |- context [bind _ _ ?w0] =>
      destruct (recoverLoop_spec env record rs ls w0) as (w1 & E & P)
    end end.
  erewrite bind_run by exact E. run_steps. do 2 eexists. split; [reflexivity|].
  destruct P as (P1 & P2 & P3 & (es & P4 & P5 & _) & (aus & P6 & P7 & _)).
  unfold recover_post, recovered in *. cbv zeta in *.
  rewrite (proj2 (Z.leb_gt _ _)) in P1 by lia.
  split; [reflexivity|]. split; [exact P1|]. split; [exact P2|]. split; [exact P3|].
  split; [by exists es|by exists aus].
Qed.

(** RecoverExpiredLeases always succeeds on a fresh key: the picked expired
    leases become [needs_recovery] and are returned, every task they covered
    becomes [needs_recovery], one event and one audit event is written per
    lease, and no other lease, task or table changes. *)
Theorem recover_functional env record options w :
  let o := normalizeRecoverLeasesOptions options in
  vl_IdempotencyKey o <> "" ->
  ledger_of (wd_db w) !! (p_ID record, "lease.recover", vl_IdempotencyKey o) = None ->
  let r := RecoverExpiredLeases env record options w in
  recover_post env (p_ID record) o (wd_db w) (fst r) (wd_db (snd r)).
Proof.
  cbv zeta. intros Hk Hf. unfold RecoverExpiredLeases.
  rewrite (proj2 (String.eqb_neq _ _) Hk). rewrite fresh_run by exact Hf.
  edestruct (recoverBody_spec env record (normalizeRecoverLeasesOptions options)
    (set_db (reserved env (p_ID record) "lease.recover"
       (vl_IdempotencyKey (normalizeRecoverLeasesOptions options))
       (leaseRecoverRequestHash record (normalizeRecoverLeasesOptions options)) (wd_db w)) w))
    as (r & w' & E & P); [cbn; destruct (Z.leb_spec (vl_Limit options) 0); lia|].
  rewrite E. exact P.
Qed.

Lemma recover_functional_witness :
  let o := normalizeRecoverLeasesOptions demo_recover in
  vl_IdempotencyKey o <> ""
  /\ recover_post demo_later 1 o (wd_db demo_leased)
       (fst (RecoverExpiredLeases demo_later demo_project demo_recover demo_leased))
       (wd_db (snd (RecoverExpiredLeases demo_later demo_project demo_recover demo_leased))).
Proof.
  split; [done|].
  apply (recover_functional demo_later demo_project demo_recover demo_leased);
    [done|vm_compute; reflexivity].
Defined.

(** *** Which leases are picked *)

Lemma lease_expires_before_asym a b :
  lease_expires_before a b = true -> lease_expires_before b a = false.
Proof. unfold lease_expires_before. repeat case_eqb; cbn; try done; lia. Qed.

Lemma lease_expires_before_negtrans a b c :
  lease_expires_before b a = false -> lease_expires_before c b = false ->
  lease_expires_before c a = false.
Proof. unfold lease_expires_before. repeat case_eqb; cbn; try done; lia. Qed.

Lemma sorted_take_drop {A} (R : A -> A -> Prop) l n x y :
  StronglySorted R l -> In x (take n l) -> In y (drop n l) -> R x y.
Proof.
  intros HS. revert n. induction HS as [|a l HS IH HF]; intros [|n] Hx Hy; cbn in *; try done.
  destruct Hx as [->|Hx]; [|by eapply IH].
  eapply Forall_In; [exact HF|]. rewrite <- (take_drop n l). apply in_app_iff. by right.
Qed.

Lemma In_take {A} n (l : list A) x : In x (take n l) -> In x l.
Proof. intros H. rewrite <- (take_drop n l). apply in_app_iff. by left. Qed.

(** A recovery picks at most its limit of leases, oldest expiry first: a
    lease that had expired, was not locked by another transaction and was not
    picked was left out because the limit was reached, and no picked lease
    expires after it. *)
Theorem recover_picks_oldest env pid limit (t : table LeaseRecord) :
  (Z.of_nat (List.length (expired_ids env pid limit t)) <= Z.max 0 limit)
  /\ forall l, In l (t_rows t) -> expired_lease env pid l = true ->
       ~ In (l_ID l) (expired_ids env pid limit t) ->
       Z.of_nat (List.length (expired_ids env pid limit t)) = Z.max 0 limit
       /\ forall id, In id (expired_ids env pid limit t) ->
            exists l', In l' (t_rows t) /\ l_ID l' = id
                       /\ lease_expires_before l l' = false.
Proof.
  unfold expired_ids. rewrite length_map.
  set (s := sort_stable lease_expires_before (table_select (expired_lease env pid) t)).
  assert (HS : StronglySorted (fun a b => lease_expires_before b a = false) s).
  { apply sort_stable_sorted; [apply lease_expires_before_asym|apply lease_expires_before_negtrans]. }
  split; [rewrite length_take; lia|]. intros l Hl He Hni.
  assert (Hs : In l s) by (by apply sort_stable_In, table_select_In).
  rewrite <- (take_drop (Z.to_nat limit) s) in Hs. apply in_app_iff in Hs as [Hs|Hs];
    [exfalso; apply Hni; by apply in_map|].
  split.
  - rewrite length_take. assert (Hd : (0 < List.length (drop (Z.to_nat limit) s))%nat).
    { destruct (drop _ s); [done|cbn; lia]. }
    rewrite length_drop in Hd. lia.
  - intros id Hid. apply in_map_iff in Hid as (l' & <- & Hin). exists l'.
    split; [|split; [done|by apply (sorted_take_drop _ _ _ _ _ HS Hin Hs)]].
    apply In_take in Hin. by apply sort_stable_In, table_select_In in Hin as [? _].
Qed.

(** ** Replaying an acquire *)

(** The entry of a command that was reserved and completed *)
Lemma ledger_done now resp pid ct key hash now0 db db' :
  ledger_of db !! (pid, ct, key) = None ->
  db_command_requests db'
  = table_update (command_is pid ct key) (command_done now resp)
      (table_insert (fun id => MkCommand id pid ct key hash [] now0 None) (db_command_requests db)) ->
  ledger_of db' !! (pid, ct, key) = Some (MkEntry hash (Some resp)).
Proof.
  rewrite !ledger_lookup. intros Hn ->.
  destruct (table_select _ (db_command_requests db)) eqn:E; [|done].
  replace (table_select _ _) with
    [MkCommand (t_next (db_command_requests db)) pid ct key hash resp now0 (Some now)]; [done|].
  unfold table_select, table_update, table_insert, command_done in *. cbn. rewrite map_app, List.filter_app.
  assert (Hk : forall id h r a b, command_is pid ct key (MkCommand id pid ct key h r a b) = true)
    by (intros; by apply command_is_key).
  cbn. rewrite Hk. cbn. rewrite Hk. clear Hn. symmetry.
  replace (List.filter _ _) with (@nil CommandRequest); [done|].
  induction (t_rows (db_command_requests db)) as [|c l IH]; [done|]. cbn in E |- *.
  destruct (command_is pid ct key c) eqn:Ec; [done|]. rewrite Ec. by apply IH.
Qed.

(** A lease id read back from a recorded response *)
Lemma metadataInt64_id resp k id :
  mget k resp = Some (JInt id) -> 0 <= id < 2 ^ 53 -> metadataInt64 (jmap_decode resp) k = id.
Proof.
  intros E Hid. unfold metadataInt64. rewrite mget_decode, E. cbn.
  rewrite float64_of_Z_small by lia. unfold int64_of_float. repeat case_eqb; cbn -[Z.pow]; lia.
Qed.

(** A list in normal form read back from a recorded response *)
Lemma stringSlice_normal l :
  normal_list l -> stringSliceFromAny (json_decode <$> Some (jstrs l)) = l.
Proof.
  intros [_ HF]. cbn. unfold jstrs. rewrite map_map. cbn.
  induction HF as [|x l [Ht Hne] HF IH]; [done|]. cbn. rewrite Ht.
  rewrite (proj2 (String.eqb_neq _ _) Hne). cbn. by f_equal.
Qed.

Lemma missing_normal held requested :
  normal_list (missingWorkerCapabilities held requested).
Proof.
  destruct (normalize_normal requested) as [Hnd HF]. unfold missingWorkerCapabilities. split.
  - by apply List.NoDup_filter.
  - apply List.Forall_forall. intros x Hx. apply filter_In in Hx as [Hx _].
    by apply (Forall_In _ _ _ HF).
Qed.

(** The lease a recorded acquire names is found again. *)
Lemma replayLease_granted env pid o worker task w ct key hash leases :
  let id := t_next leases in
  ledger_of (wd_db w) !! (pid, ct, key)
  = Some (MkEntry hash (Some (acquire_response env pid o (AcquireGranted worker task) id))) ->
  db_leases (wd_db w) = table_insert (granted_lease env pid worker task o) leases ->
  table_ok leases -> id < 2 ^ 53 ->
  replayLease pid ct key w
  = (Ok (Ok (scanLease (granted_lease env pid worker task o id))), w).
Proof.
  cbv zeta. intros Hl Ht Hok Hid. unfold replayLease, loadLeaseByCommandResponse, bind.
  rewrite load_refines, Hl.
  replace (metadataString _ "decision" =s "denied") with false
    by (unfold metadataString; by rewrite mget_decode).
  assert (Hid0 : 1 <= t_next leases) by apply Hok.
  rewrite (metadataInt64_id _ "lease_id" (t_next leases)) by (reflexivity || lia).
  rewrite (proj2 (Z.eqb_neq _ _)) by lia. unfold loadLeaseByID, bind, select_rows, map_err.
  cbn [tget leases_table]. rewrite Ht.
  rewrite (table_select_id (R:=LeaseRecord) _ _ (granted_lease env pid worker task o (t_next leases)));
    [done| | | |].
  - apply table_insert_ok; [done|exact Hok].
  - intros l Hp. bool_prop. done.
  - apply table_insert_In. by right.
  - cbn. by rewrite !Z.eqb_refl.
Qed.

Lemma replayLease_denied env pid o worker held w ct key hash id :
  let missing := missingWorkerCapabilities held (al_AllowedCapabilities o) in
  ledger_of (wd_db w) !! (pid, ct, key)
  = Some (MkEntry hash (Some (acquire_response env pid o (AcquireDenied worker missing) id))) ->
  replayLease pid ct key w = (Err (ErrWorkerCapabilityDenied missing), w).
Proof.
  cbv zeta. intros Hl. unfold replayLease, loadLeaseByCommandResponse, bind.
  rewrite load_refines, Hl.
  replace (metadataString _ "decision" =s "denied") with true
    by (unfold metadataString; by rewrite mget_decode).
  rewrite mget_decode. unfold fail. do 2 f_equal. f_equal.
  apply (stringSlice_normal _ (missing_normal _ _)).
Qed.

Lemma recovered_ok env pid limit md t : table_ok t -> table_ok (recovered env pid limit md t).
Proof. intros H. by apply table_update_ok. Qed.

Lemma acquire_denied_missing env pid o db worker missing :
  acquire_decide env pid o db = AcquireDenied worker missing ->
  missing = missingWorkerCapabilities (w_Capabilities worker) (al_AllowedCapabilities o).
Proof.
  unfold acquire_decide. destruct (_ =s ""); [done|]. destruct (find_worker _ _ _); [|done].
  destruct (missingWorkerCapabilities _ _) eqn:E; [by repeat case_match|].
  intros [= <- <-]. done.
Qed.

(** Sending an acquire again returns what the first call returned, the
    granted lease or the same denial, and changes nothing, in whatever
    environment the second call runs. *)
Theorem acquire_retry_same env env' record options w :
  let o := acquireOptions record options in
  ledger_of (wd_db w) !! (p_ID record, "lease.acquire", al_IdempotencyKey o) = None ->
  table_ok (db_leases (wd_db w)) -> t_next (db_leases (wd_db w)) < 2 ^ 53 ->
  (forall e, acquire_decide env (p_ID record) o (wd_db w) <> AcquireRefused e) ->
  let (r, w') := AcquireLease env record options w in
  AcquireLease env' record options w' = (r, w').
Proof.
  cbv zeta. intros Hf Hok Hid Hd. set (o := acquireOptions record options) in *.
  set (hash := leaseAcquireRequestHash record (normalizeAcquireLeaseOptions options)).
  unfold AcquireLease at 1. rewrite fresh_run by exact Hf. fold o hash.
  set (w0 := set_db (reserved env (p_ID record) "lease.acquire" (al_IdempotencyKey o) hash (wd_db w)) w).
  pose proof (acquireBody_spec env record o w0) as H. cbv zeta in H.
  change (acquire_decide env (p_ID record) o (wd_db w0))
    with (acquire_decide env (p_ID record) o (wd_db w)) in H.
  destruct (acquireBody env record o w0) as [[r|e] w'];
    [|destruct H as [E _]; by destruct (Hd e)].
  destruct H as (_ & Hp & _ & Hc).
  apply (ledger_done _ _ _ _ _ hash (env_now env) (wd_db w)) in Hc; [|exact Hf].
  assert (Hok' : table_ok (acquire_leases env (p_ID record) o (wd_db w))).
  { unfold acquire_leases. destruct (al_RecoverExpiredBefore o); [by apply recovered_ok|done]. }
  assert (Hn : t_next (acquire_leases env (p_ID record) o (wd_db w)) = t_next (db_leases (wd_db w)))
    by (unfold acquire_leases; by destruct (al_RecoverExpiredBefore o)).
  unfold AcquireLease. fold o hash. erewrite with_command_replay; [|exact Hc|done].
  destruct (acquire_decide env (p_ID record) o (wd_db w)) as [e|worker missing|worker task] eqn:Ed;
    [by destruct (Hd e)| |].
  - destruct Hp as (-> & _). apply acquire_denied_missing in Ed. subst missing.
    unfold transact. erewrite replayLease_denied by exact Hc. by destruct w'.
  - destruct Hp as (-> & Hl & _). unfold transact.
    erewrite replayLease_granted; [done|exact Hc|exact Hl|exact Hok'|].
    change (acquire_leases env (p_ID record) o (wd_db w0))
      with (acquire_leases env (p_ID record) o (wd_db w)). lia.
Qed.

Lemma acquire_retry_same_witness :
  let o := acquireOptions demo_project demo_acquire in
  ledger_of (wd_db demo_registered) !! (1, "lease.acquire", al_IdempotencyKey o) = None
  /\ let (r, w') := AcquireLease demo_env demo_project demo_acquire demo_registered in
     AcquireLease demo_later demo_project demo_acquire w' = (r, w').
Proof.
  split; [vm_compute; reflexivity|].
  apply (acquire_retry_same demo_env demo_later demo_project demo_acquire demo_registered).
  - vm_compute. reflexivity.
  - split; [by vm_compute|]. split; [constructor|constructor].
  - vm_compute. reflexivity.
  - intros e. vm_compute. discriminate.
Defined.
