(* ===== verification/WorkerSpec.v ===== *)
(** * What registration and heartbeats do

    RegisterWorker creates or refreshes the one row of a worker key;
    RecordWorkerHeartbeat refreshes an existing row and creates none. *)

From stdpp Require Import base list strings numbers gmap.
From Stdlib Require Import ZArith Lia String.
From S2P Require Import Prelude GoString Sha256 Json Schema Tx Command Capability History Worker.
From S2P Require Import Lease RunOnce RunControl Demo LeaseSpec.

(** ** Registration *)

Definition new_worker (env : Env) (pid actorID : Z) (o : RegisterWorkerOptions) (id : Z)
  : WorkerRecord :=
  MkWorker id pid actorID (rw_WorkerKey o) (rw_WorkerType o) "online" (rw_Hostname o)
    (nullablePID (rw_PID o)) (rw_Capabilities o) (map_or_empty (rw_Metadata o)) (env_now env)
    (Some (env_now env)) (rw_HeartbeatIntervalSeconds o) (rw_LeaseTimeoutSeconds o)
    (env_now env).

(** Registering again keeps the id and the time of the first registration. *)
Definition refreshed_worker (env : Env) (actorID : Z) (o : RegisterWorkerOptions)
    (r : WorkerRecord) : WorkerRecord :=
  MkWorker (w_ID r) (w_ProjectID r) actorID (w_WorkerKey r) (rw_WorkerType o) "online"
    (rw_Hostname o) (nullablePID (rw_PID o)) (rw_Capabilities o)
    (map_or_empty (rw_Metadata o)) (w_RegisteredAt r) (Some (env_now env))
    (rw_HeartbeatIntervalSeconds o) (rw_LeaseTimeoutSeconds o) (env_now env).

Definition int4_options (o : RegisterWorkerOptions) : bool :=
  fits_int4 (nullablePID (rw_PID o)) && fits_int4 (rw_HeartbeatIntervalSeconds o)
  && fits_int4 (rw_LeaseTimeoutSeconds o).

(** The actor of a worker: found by its external key, or created *)
Definition worker_actor (record : Record_) (key : string) (db : DB) : Z :=
  match table_select (fun a => ac_ExternalKey a =s "worker:" +:+ p_Key record +:+ ":" +:+ key)
          (db_actors db) with
  | a :: _ => ac_ID a
  | [] => t_next (db_actors db)
  end.

Definition register_post (env : Env) (record : Record_) (o : RegisterWorkerOptions) (db : DB)
    (r : res error WorkerRecord) (db' : DB) : Prop :=
  let pid := p_ID record in
  let actor := worker_actor record (rw_WorkerKey o) db in
  if int4_options o then
    db_leases db' = db_leases db /\ db_run_tasks db' = db_run_tasks db /\ db_runs db' = db_runs db
    /\ db_run_attempts db' = db_run_attempts db /\ db_artifacts db' = db_artifacts db
    /\ one_history "worker.registered" "worker.register" "allowed" db db'
    /\ (exists h, t_rows (db_worker_heartbeats db') = t_rows (db_worker_heartbeats db) ++ [h]
                  /\ h_Status h = "online")
    /\ match table_select (worker_is pid (rw_WorkerKey o)) (db_workers db) with
       | [] => r = Ok (scanWorker (new_worker env pid actor o (t_next (db_workers db))))
               /\ db_workers db' = table_insert (new_worker env pid actor o) (db_workers db)
       | r0 :: _ =>
           r = Ok (scanWorker (refreshed_worker env actor o r0))
           /\ db_workers db' = table_update (worker_is pid (rw_WorkerKey o))
                                 (refreshed_worker env actor o) (db_workers db)
       end
  else r = Err ErrNumericOutOfRange /\ db' = db.

Lemma ensureWorkerActor_eq env record key w :
  exists t, ensureWorkerActor env record key w
            = (Ok (worker_actor record key (wd_db w)), set_db (set_actors t (wd_db w)) w).
Proof.
  unfold ensureWorkerActor, worker_actor, bind, select_rows. cbn [tget actors_table].
  destruct (table_select _ _) as [|a l].
  - eexists. reflexivity.
  - exists (db_actors (wd_db w)). destruct w as [[] ? ?]. reflexivity.
Qed.

Lemma upsertWorker_eq env pid actor o w :
  upsertWorker env pid actor o w
  = if int4_options o then
      match table_select (worker_is pid (rw_WorkerKey o)) (db_workers (wd_db w)) with
      | [] => (Ok (scanWorker (new_worker env pid actor o (t_next (db_workers (wd_db w))))),
               set_db (set_workers (table_insert (new_worker env pid actor o)
                         (db_workers (wd_db w))) (wd_db w)) w)
      | r0 :: _ =>
          (Ok (scanWorker (refreshed_worker env actor o r0)),
           set_db (set_workers (table_update (worker_is pid (rw_WorkerKey o))
                     (refreshed_worker env actor o) (db_workers (wd_db w))) (wd_db w)) w)
      end
    else (Err ErrNumericOutOfRange, w).
Proof.
  unfold upsertWorker, int4_options. destruct (_ && _ && _); [|done]. cbn [negb].
  unfold bind at 1. unfold select_rows at 1. cbn [tget workers_table].
  destruct (table_select _ _) as [|r0 l] eqn:E; [done|].
  unfold bind, update_rows. cbn [tget workers_table]. by rewrite E.
Qed.

Lemma registerBody_spec env record o w :
  match registerBody env record o w with
  | (Ok r, w') => int4_options o = true /\ register_post env record o (wd_db w) r (wd_db w')
  | (Err e, _) => int4_options o = false /\ e = ErrNumericOutOfRange
  end.
Proof.
  unfold registerBody, register_post. cbv zeta. unfold bind at 1.
  destruct (ensureWorkerActor_eq env record (rw_WorkerKey o) w) as [t ->].
  unfold bind at 1. rewrite upsertWorker_eq. cbn [wd_db set_db db_workers set_actors].
  destruct (int4_options o); [|done].
  destruct (table_select _ (db_workers (wd_db w))) as [|r0 rest].
  - run_steps. cbn [ret]. split; [done|]. repeat (split; [reflexivity|]).
    split; [history_leaf|]. split; [by eexists|]. done.
  - run_steps. cbn [ret]. split; [done|]. repeat (split; [reflexivity|]).
    split; [history_leaf|]. split; [by eexists|]. done.
Qed.

(** RegisterWorker with a fresh key of its own refuses numbers that do not
    fit the 32-bit columns without any change; otherwise it creates the
    worker's row, online and with the normalised options, or refreshes the
    existing row in place (keeping id, project and first registration), and
    appends exactly one heartbeat, one event and one audit event; leases,
    tasks, runs, attempts and artifacts stay as they were. *)
Theorem register_functional env record options w :
  let o := normalizeRegisterWorkerOptions env record options in
  rw_IdempotencyKey o <> "" ->
  ledger_of (wd_db w) !! (p_ID record, "worker.register", rw_IdempotencyKey o) = None ->
  let (r, w') := RegisterWorker env record options w in
  register_post env record o (wd_db w) r (wd_db w').
Proof.
  cbv zeta. intros Hk Hf. unfold RegisterWorker.
  set (o := normalizeRegisterWorkerOptions env record options) in *.
  rewrite (proj2 (String.eqb_neq _ _) Hk). rewrite fresh_run by exact Hf.
  pose proof (registerBody_spec env record o (set_db (reserved env (p_ID record)
    "worker.register" (rw_IdempotencyKey o) (workerRegisterRequestHash record o) (wd_db w)) w)) as H.
  destruct (registerBody _ _ _ _) as [[r|e] w'].
  - destruct H as [Hi H]. unfold register_post in *. rewrite Hi in *. exact H.
  - destruct H as [Hi ->]. unfold register_post. by rewrite Hi.
Qed.

Lemma register_functional_witness :
  let o := normalizeRegisterWorkerOptions demo_env demo_project demo_register in
  rw_IdempotencyKey o <> ""
  /\ let (r, w') := RegisterWorker demo_env demo_project demo_register demo_world in
     register_post demo_env demo_project o (wd_db demo_world) r (wd_db w').
Proof.
  split; [done|]. apply (register_functional demo_env demo_project demo_register demo_world);
    [done|vm_compute; reflexivity].
Defined.

(** ** Heartbeats *)

Definition heartbeat_row (env : Env) (o : WorkerHeartbeatOptions) (r : WorkerRecord)
  : WorkerRecord :=
  MkWorker (w_ID r) (w_ProjectID r) (w_ActorID r) (w_WorkerKey r) (w_WorkerType r)
    (wh_Status o) (w_Hostname r) (w_PID r) (w_Capabilities r)
    (jsonb_concat (w_Metadata r) (map_or_empty (wh_Metadata o))) (w_RegisteredAt r)
    (Some (env_now env)) (w_HeartbeatIntervalSeconds r) (w_LeaseTimeoutSeconds r) (env_now env).

Definition heartbeat_post (env : Env) (pid : Z) (key : string) (o : WorkerHeartbeatOptions)
    (db : DB) (r : res error WorkerRecord) (db' : DB) : Prop :=
  match table_select (worker_is pid key) (db_workers db) with
  | [] => r = Err ErrWorkerNotFound /\ db' = db
  | r0 :: _ =>
      r = Ok (scanWorker (heartbeat_row env o r0))
      /\ db_workers db' = table_update (worker_is pid key) (heartbeat_row env o) (db_workers db)
      /\ db_leases db' = db_leases db /\ db_run_tasks db' = db_run_tasks db
      /\ db_runs db' = db_runs db
      /\ one_history "worker.heartbeat" "worker.heartbeat" "allowed" db db'
      /\ (exists h, t_rows (db_worker_heartbeats db') = t_rows (db_worker_heartbeats db) ++ [h]
                    /\ h_Status h = wh_Status o)
  end.

Lemma heartbeatBody_spec env record key o w :
  match heartbeatBody env record key o w with
  | (Ok r, w') => table_select (worker_is (p_ID record) key) (db_workers (wd_db w)) <> []
                  /\ heartbeat_post env (p_ID record) key o (wd_db w) r (wd_db w')
  | (Err e, _) => table_select (worker_is (p_ID record) key) (db_workers (wd_db w)) = []
                  /\ e = ErrWorkerNotFound
  end.
Proof.
  unfold heartbeatBody, heartbeat_post. unfold bind at 1.
  unfold heartbeatWorker at 1. unfold bind at 1. unfold update_rows at 1.
  cbn [tget workers_table]. destruct (table_select _ _) as [|r0 rest]; [done|].
  cbn [List.map first_row]. unfold bind at 1. cbn [map_err ret].
  run_steps. cbn [ret]. split; [done|]. repeat (split; [reflexivity|]).
  split; [history_leaf|]. by eexists.
Qed.

(** RecordWorkerHeartbeat on a fresh key of its own updates the status, the
    heartbeat time and the metadata of the worker's row and nothing else of
    it, and appends one heartbeat, event and audit event; for a worker that is
    not registered it fails and changes nothing. *)
Theorem heartbeat_functional env record workerKey options w :
  let o := normalizeWorkerHeartbeatOptions options in
  let key := trim_space workerKey in
  key <> "" -> wh_IdempotencyKey o <> "" ->
  ledger_of (wd_db w) !! (p_ID record, "worker.heartbeat", wh_IdempotencyKey o) = None ->
  let (r, w') := RecordWorkerHeartbeat env record workerKey options w in
  heartbeat_post env (p_ID record) key o (wd_db w) r (wd_db w').
Proof.
  cbv zeta. intros Hw Hk Hf. unfold RecordWorkerHeartbeat.
  set (o := normalizeWorkerHeartbeatOptions options) in *. set (key := trim_space workerKey) in *.
  rewrite (proj2 (String.eqb_neq _ _) Hw), (proj2 (String.eqb_neq _ _) Hk).
  rewrite fresh_run by exact Hf.
  pose proof (heartbeatBody_spec env record key o (set_db (reserved env (p_ID record)
    "worker.heartbeat" (wh_IdempotencyKey o) (workerHeartbeatRequestHash record key o)
    (wd_db w)) w)) as H.
  destruct (heartbeatBody _ _ _ _ _) as [[r|e] w'].
  - destruct H as [Hi H]. unfold heartbeat_post in *.
    change (table_select (worker_is (p_ID record) key) (db_workers (wd_db w)) <> []) in Hi.
    change (wd_db (set_db ?d w)) with d in H.
    change (db_workers (reserved _ _ _ _ _ ?d)) with (db_workers d) in H.
    destruct (table_select _ (db_workers (wd_db w))); [done|exact H].
  - destruct H as [Hi ->]. unfold heartbeat_post.
    change (table_select (worker_is (p_ID record) key) (db_workers (wd_db w)) = []) in Hi.
    by rewrite Hi.
Qed.

Lemma heartbeat_functional_witness :
  let o := MkWorkerHeartbeat "busy" None "" "" "k-heartbeat" in
  let (r, w') := RecordWorkerHeartbeat demo_later demo_project "w1" o demo_registered in
  heartbeat_post demo_later 1 "w1" (normalizeWorkerHeartbeatOptions o) (wd_db demo_registered)
    r (wd_db w').
Proof.
  cbv zeta. apply (heartbeat_functional demo_later demo_project "w1"
    (MkWorkerHeartbeat "busy" None "" "" "k-heartbeat") demo_registered);
    [done|done|vm_compute; reflexivity].
Defined.
