(* ===== verification/RunOnceSpec.v ===== *)
(** * What run-once does, branch by branch

    The decision of RunWorkerOnce as a function of the database, and the
    theorems that the handler does what it says: which task it claims, what
    it leaves in the lease, task, attempt and artifact tables, and that the
    evidence it records describes the file it wrote. *)

From stdpp Require Import base list strings numbers gmap.
From Stdlib Require Import ZArith Lia String Sorting.Sorted.
From S2P Require Import Prelude GoString Sha256 Json Schema Tx Command Capability History Worker.
From S2P Require Import Lease FilePath RunOnce RunControl Demo LeaseSpec.

Inductive run_once_decision : Type :=
| RunOnceRefused (e : error)
| RunOnceDenied (worker : WorkerRecord) (missing : list string)
| RunOnceIdle (worker : WorkerRecord)
| RunOnceClaim (worker : WorkerRecord) (task : RunTaskRecord).

(** The database in which the task is chosen: expired leases were recovered *)
Definition run_once_db (env : Env) (pid : Z) (db : DB) : DB :=
  set_leases (recovered env pid 50 (mk [("trigger", JStr "worker_run_once")]) (db_leases db)) db.

Definition next_task (env : Env) (pid runID : Z) (db : DB) : option RunTaskRecord :=
  head (sort_stable task_created_before
          (table_select (dry_run_candidate env db pid runID) (db_run_tasks db))).

Definition run_once_decide (env : Env) (pid : Z) (o : WorkerRunOnceOptions) (db : DB)
  : run_once_decision :=
  if trim_space (ro_WorkerKey o) =s "" then RunOnceRefused (ErrText "worker key is required")
  else match find_worker db pid (ro_WorkerKey o) with
  | None => RunOnceRefused ErrWorkerNotFound
  | Some worker =>
      match missingWorkerCapabilities (w_Capabilities worker) (ro_AllowedCapabilities o) with
      | (_ :: _) as missing => RunOnceDenied worker missing
      | [] =>
          match next_task env pid (ro_RunID o) (run_once_db env pid db) with
          | None => RunOnceIdle worker
          | Some task => RunOnceClaim worker task
          end
      end
  end.

(** ** The chosen task *)

Lemma task_created_before_asym a b :
  task_created_before a b = true -> task_created_before b a = false.
Proof. unfold task_created_before. repeat case_eqb; cbn; try done; lia. Qed.

Lemma task_created_before_negtrans a b c :
  task_created_before b a = false -> task_created_before c b = false ->
  task_created_before c a = false.
Proof. unfold task_created_before. repeat case_eqb; cbn; try done; lia. Qed.

(** The head of a stable sort is an element that no other must precede. *)
Lemma head_sort_stable {A} (before : A -> A -> bool) l x :
  (forall a b, before a b = true -> before b a = false) ->
  (forall a b c, before b a = false -> before c b = false -> before c a = false) ->
  head (sort_stable before l) = Some x ->
  In x l /\ forall y, In y l -> y = x \/ before y x = false.
Proof.
  intros Ha Hn E. pose proof (sort_stable_sorted before Ha Hn l) as HS.
  destruct (sort_stable before l) as [|z s] eqn:Es; [done|]. injection E as ->.
  split; [apply (sort_stable_In before); rewrite Es; by left|].
  intros y Hy. apply (sort_stable_In before) in Hy. rewrite Es in Hy.
  destruct Hy as [->|Hy]; [by left|right]. inversion HS as [|? ? _ HF]; subst.
  by apply (Forall_In _ _ _ HF).
Qed.

Lemma next_task_oldest env pid runID db t :
  next_task env pid runID db = Some t ->
  In t (t_rows (db_run_tasks db)) /\ dry_run_candidate env db pid runID t = true
  /\ forall t', In t' (t_rows (db_run_tasks db)) -> dry_run_candidate env db pid runID t' = true ->
       t' = t \/ task_created_before t' t = false.
Proof.
  intros E. apply head_sort_stable in E as [Hin Hmin];
    [|apply task_created_before_asym|apply task_created_before_negtrans].
  apply table_select_In in Hin as [? ?]. split; [done|]. split; [done|].
  intros t' H1 H2. apply Hmin. by apply table_select_In.
Qed.

(** What makes a task a candidate *)
Lemma candidate_spec env db pid runID t :
  dry_run_candidate env db pid runID t = true ->
  t_ProjectID t = pid /\ (runID = 0 \/ t_RunID t = runID)
  /\ (t_Status t = "queued" \/ t_Status t = "needs_recovery")
  /\ (exists r, In r (t_rows (db_runs db)) /\ r_ID r = t_RunID t /\ r_DryRun r = true)
  /\ (forall l, In l (t_rows (db_leases db)) -> l_RunTaskID l = t_ID t ->
        l_Status l <> "active").
Proof.
  unfold dry_run_candidate. intros H. bool_prop. split; [done|]. split_and!.
  - apply orb_true_iff in H4 as [H4|H4]; bool_prop; auto.
  - apply orb_true_iff in H2 as [H2|H2]; bool_prop; auto.
  - apply existsb_exists in H3 as (r & Hr & E). bool_prop. eauto.
  - intros l Hl Et Ea. match goal with Hn : existsb _ (t_rows (db_leases db)) = false |- _ =>
      apply not_true_iff_false in Hn; apply Hn end.
    apply existsb_exists. exists l. rewrite Et, Ea, Z.eqb_refl. done.
Qed.

(** ** The artifact *)

(** Writing an artifact leaves the database alone; a local artifact is
    described by the bytes at its URI. *)
Definition write_ok (content contentType : string) (st : Stored) (w w' : World) : Prop :=
  wd_db w' = wd_db w /\ s_SHA256 st = sha256_hex content /\ s_SizeBytes st = len content
  /\ s_ContentType st = contentType
  /\ (s_Backend st = "local" -> wd_files w' !! s_URI st = Some content).

Lemma putLocal_write env root rel content ct w st w' :
  putLocal env root rel content ct w = (Ok st, w') -> write_ok content ct st w w'.
Proof.
  unfold putLocal. intros E. repeat (case_match; try done). injection E as <- <-.
  unfold write_ok, stored. cbn. repeat (split; [done|]). intros _. by rewrite lookup_insert_eq.
Qed.

Lemma writeProjectArtifact_write env record rel content ct w st w' :
  writeProjectArtifact env record rel content ct w = (Ok st, w') -> write_ok content ct st w w'.
Proof.
  unfold writeProjectArtifact, WriteConfigured. intros E. repeat (case_match; try done); step_ok.
  - by eapply putLocal_write.
  - repeat (split; [done|]). done.
Qed.

Lemma writeProjectArtifact_db env record rel content ct w :
  wd_db (snd (writeProjectArtifact env record rel content ct w)) = wd_db w.
Proof.
  unfold writeProjectArtifact, WriteConfigured, putLocal, bind, lift.
  by repeat (case_match; simplify_eq; try done).
Qed.

(** ** A claim *)

(** The lease a claim creates and ends *)
Definition claim_lease (env : Env) (pid : Z) (worker : WorkerRecord) (task : RunTaskRecord)
    (o : WorkerRunOnceOptions) (id : Z) : LeaseRecord :=
  MkLease id pid (t_RunID task) (t_ID task) (t_WorkflowItemID task) (w_ID worker)
    "run_task" "active" (env_now env) (env_now env + ro_LeaseTimeoutSeconds o * 1000000)
    (Some (env_now env)) None (ro_AllowedCapabilities o)
    (mset "task_kind" (JStr (t_TaskKind task))
      (mset "task_key" (JStr (t_TaskKey task))
        (mset "run_task_id" (JInt (t_ID task))
          (mk (mk [("run_task_id", JInt (t_ID task)); ("run_id", JInt (t_RunID task));
                   ("task_key", JStr (t_TaskKey task)); ("task_kind", JStr (t_TaskKind task));
                   ("run_once", JBool true)])))))
    (map_or_empty (ro_Metadata o)).

(** What a claim of [task] leaves, from the database in which the task was
    chosen: the new lease is already completed, the task passed, one attempt
    and one artifact were recorded. *)
Definition claim_post (env : Env) (record : Record_) (o : WorkerRunOnceOptions)
    (worker : WorkerRecord) (task : RunTaskRecord) (db : DB)
    (res : WorkerRunOnceResult) (w' : World) : Prop :=
  let db' := wd_db w' in
  let leaseID := t_next (db_leases db) in
  let lease := claim_lease env (p_ID record) worker task o leaseID in
  let content := runOnceReport record worker task (scanLease lease) o in
  rr_Claimed res = true
  /\ (exists md,
       db_leases db' = table_insert (fun id => lease_ended (env_now env) "completed" md
                          (claim_lease env (p_ID record) worker task o id)) (db_leases db))
  /\ db_run_tasks db' = table_update (fun t => t_ID t =? t_ID task)
                          (task_with_status (env_now env) "passed") (db_run_tasks db)
  /\ (exists a, t_rows (db_run_attempts db') = t_rows (db_run_attempts db) ++ [a]
        /\ at_RunTaskID a = t_ID task /\ at_RunID a = t_RunID task /\ at_Status a = "passed"
        /\ at_DryRun a = true)
  /\ (exists a, t_rows (db_artifacts db') = t_rows (db_artifacts db) ++ [a]
        /\ ar_RunID a = t_RunID task /\ ar_SHA256 a = sha256_hex content
        /\ ar_SizeBytes a = len content
        /\ (ar_StorageBackend a = "local" -> wd_files w' !! ar_URI a = Some content))
  /\ db_runs db' = db_runs db /\ db_workers db' = db_workers db
  /\ db_command_requests db' = db_command_requests db.

(** The fresh lease is the one row the release finds. *)
Lemma release_fresh pid wid mkrow f (t : table LeaseRecord) :
  table_ok t ->
  (forall id, l_ID (mkrow id) = id /\ l_ProjectID (mkrow id) = pid
              /\ l_WorkerID (mkrow id) = wid /\ l_Status (mkrow id) = "active") ->
  table_select (releasable pid (t_next t) wid) (table_insert mkrow t) = [mkrow (t_next t)]
  /\ table_update (releasable pid (t_next t) wid) f (table_insert mkrow t)
     = table_insert (fun id => f (mkrow id)) t.
Proof.
  intros (Hn & Hnd & HF) Hrow. destruct (Hrow (t_next t)) as (E1 & E2 & E3 & E4).
  assert (Hr : releasable pid (t_next t) wid (mkrow (t_next t)) = true)
    by (unfold releasable; by rewrite E1, E2, E3, E4, !Z.eqb_refl).
  assert (Hno : Forall (fun l => releasable pid (t_next t) wid l = false) (t_rows t)).
  { eapply List.Forall_impl; [|exact HF]. cbn. intros l Hl. unfold releasable.
    rewrite (proj2 (Z.eqb_neq (l_ID l) _)) by lia. by rewrite !andb_false_r. }
  unfold table_select, table_update, table_insert. cbn.
  rewrite List.filter_app, map_app. cbn. rewrite Hr. split.
  - replace (List.filter _ _) with (@nil LeaseRecord); [done|].
    induction Hno as [|l ls Hl Hls IH]; [done|]. cbn. rewrite Hl. apply IH;
      [by inversion Hnd|by inversion HF].
  - do 2 f_equal. clear Hnd HF. induction Hno as [|l ls Hl Hls IH]; [done|]. cbn.
    by rewrite Hl, IH.
Qed.

Lemma runOnceClaim_spec env record o worker task w :
  table_ok (db_leases (wd_db w)) -> t_ID task <> 0 ->
  existsb (blocks_task (t_ID task)) (t_rows (db_leases (wd_db w))) = false ->
  let lease := claim_lease env (p_ID record) worker task o (t_next (db_leases (wd_db w))) in
  match runOnceClaim env record o worker task w with
  | (Ok r, w') => exists res, r = Ok res /\ claim_post env record o worker task (wd_db w) res w'
  | (Err e, _) =>
      (t_WorkflowVersionID task = 0 /\ e = ErrForeignKeyViolation)
      \/ exists w1 w2, writeProjectArtifact env record (runOncePath worker task)
           (runOnceReport record worker task (scanLease lease) o) "application/json" w1
           = (Err e, w2)
  end.
Proof.
  intros Hok Hid Hnb. cbv zeta. unfold runOnceClaim, bind at 1.
  rewrite insertLeaseForTask_eq. cbv zeta. rewrite Hnb.
  erewrite bind_run by (by apply updateRunTaskStatus_eq).
  unfold writeAndInsertWorkerRunOnceArtifact. cbv zeta.
  match goal with |- context [claim_lease env ?pid worker task o ?n] =>
    set (lease := claim_lease env pid worker task o n) end.
  match goal with |- context [scanLease ?l] => change l with lease end.
  match goal with |- context [bind _ _ ?w0] => set (w1 := w0) end.
  unfold bind at 1 2.
  destruct (writeProjectArtifact _ _ _ _ _ w1) as [[st|e] w2] eqn:Ew; [|right; eauto].
  apply writeProjectArtifact_write in Ew as (Hdb & Hsha & Hlen & _ & Hloc).
  unfold insertRunArtifactRecord. destruct (Z.eqb_spec (t_WorkflowVersionID task) 0) as [Hv|Hv];
    [left; done|].
  unfold bind at 1. unfold insert_row at 1. rewrite Hdb. cbn [ret].
  erewrite bind_run by reflexivity.
  unfold bind at 1. rewrite releaseLeaseForWorker_eq. cbv zeta.
  cbn [wd_db set_db tset run_attempts_table artifacts_table set_run_attempts set_artifacts
       db_leases set_leases set_run_tasks tget w1 l_ID scanLease lease claim_lease].
  assert (Hf : forall f, _) by exact (fun f => release_fresh (p_ID record) (w_ID worker)
    (claim_lease env (p_ID record) worker task o) f _ Hok ltac:(done)).
  fold (claim_lease env (p_ID record) worker task o) in *.
  rewrite (proj1 (Hf id)). erewrite bind_run by (by apply updateRunTaskStatus_eq).
  run_steps. cbn [ret]. eexists. split; [reflexivity|].
  unfold claim_post. cbv zeta. split; [reflexivity|].
  split; [eexists; apply (proj2 (Hf _))|]. split.
  { cbn [wd_db set_db db_run_tasks set_run_tasks]. apply table_update_compose. intros t.
    destruct (t_ID t =? t_ID task) eqn:E; cbn; rewrite E; done. }
  split; [eexists; split; [reflexivity|]; done|].
  split; [|done]. eexists. split; [reflexivity|]. done.
Qed.

(** ** The command *)

Definition run_once_post (env : Env) (record : Record_) (o : WorkerRunOnceOptions)
    (d : run_once_decision) (db : DB) (r : res error WorkerRunOnceResult) (w' : World) : Prop :=
  let db' := wd_db w' in
  let db1 := run_once_db env (p_ID record) db in
  match d with
  | RunOnceRefused e => r = Err e /\ db' = db
  | RunOnceDenied worker missing =>
      r = Err (ErrWorkerCapabilityDenied missing)
      /\ db_leases db' = db_leases db /\ db_run_tasks db' = db_run_tasks db
      /\ same_but_leases_tasks db db'
      /\ one_history "worker.run_once.denied" "worker.run_once" "denied" db db'
  | RunOnceIdle worker =>
      r = Ok (MkRunOnceResult record worker None None None None false)
      /\ db_leases db' = db_leases db1 /\ db_run_tasks db' = db_run_tasks db
      /\ same_but_leases_tasks db db'
  | RunOnceClaim worker task =>
      (exists res, r = Ok res /\ claim_post env record o worker (scanRunTask task) db1 res w')
      \/ (exists e, r = Err e /\ db' = db
            /\ ((t_WorkflowVersionID task = 0 /\ e = ErrForeignKeyViolation)
                \/ exists content w1 w2, writeProjectArtifact env record
                     (runOncePath worker task) content "application/json" w1 = (Err e, w2)))
  end.

(** A candidate is not blocked by an active lease. *)
Lemma candidate_free env db pid runID t :
  dry_run_candidate env db pid runID t = true ->
  existsb (blocks_task (t_ID t)) (t_rows (db_leases db)) = false.
Proof.
  intros H. apply candidate_spec in H as (_ & _ & _ & _ & H). apply not_true_iff_false.
  intros Hex. apply existsb_exists in Hex as (l & Hl & Hb). unfold blocks_task in Hb. bool_prop.
  by apply (H l).
Qed.

Lemma runOnceBody_idle env record o worker w :
  exists r w', runOnceIdle env record o worker w = (Ok r, w')
    /\ r = Ok (MkRunOnceResult record worker None None None None false)
    /\ db_leases (wd_db w') = db_leases (wd_db w)
    /\ db_run_tasks (wd_db w') = db_run_tasks (wd_db w)
    /\ same_but_leases_tasks (wd_db w) (wd_db w').
Proof.
  do 2 eexists. split; [reflexivity|]. repeat (split; [reflexivity|]). history_leaf.
Qed.

Lemma runOnceBody_denied env record o worker missing w :
  exists r w', runOnceDenied env record o worker missing w = (Ok r, w')
    /\ r = Err (ErrWorkerCapabilityDenied missing)
    /\ db_leases (wd_db w') = db_leases (wd_db w)
    /\ db_run_tasks (wd_db w') = db_run_tasks (wd_db w)
    /\ same_but_leases_tasks (wd_db w) (wd_db w')
    /\ one_history "worker.run_once.denied" "worker.run_once" "denied" (wd_db w) (wd_db w').
Proof.
  do 2 eexists. split; [reflexivity|]. repeat (split; [reflexivity|]). history_leaf.
Qed.

Lemma nextDryRunTaskForLease_eq env pid runID w :
  nextDryRunTaskForLease env pid runID w
  = (Ok (scanRunTask <$> next_task env pid runID (wd_db w)), w).
Proof.
  unfold nextDryRunTaskForLease, next_task, bind, get_db.
  by destruct (sort_stable _ _).
Qed.

(** The command implements its decision. *)
Lemma run_once_spec env record options w :
  table_ok (db_leases (wd_db w)) -> table_ok (db_run_tasks (wd_db w)) ->
  let o := normalizeWorkerRunOnceOptions options in
  let (r, w') := RunWorkerOnce env record options w in
  run_once_post env record o (run_once_decide env (p_ID record) o (wd_db w)) (wd_db w) r w'.
Proof.
  intros Hok Htok. cbv zeta. set (o := normalizeWorkerRunOnceOptions options).
  unfold RunWorkerOnce, transact. fold o. unfold runOnceBody, run_once_decide, bind at 1.
  rewrite loadWorkerForUpdate_eq. destruct (trim_space _ =s ""); [exact (conj eq_refl eq_refl)|].
  destruct (find_worker _ _ _) as [worker|]; [|exact (conj eq_refl eq_refl)].
  destruct (missingWorkerCapabilities _ _) as [|m missing].
  2: { destruct (runOnceBody_denied env record o worker (m :: missing) w)
         as (r & w' & -> & -> & P). exact (conj eq_refl P). }
  erewrite bind_run by apply recoverExpiredLeases_eq.
  erewrite bind_run by apply nextDryRunTaskForLease_eq. cbn [wd_db set_db].
  fold (run_once_db env (p_ID record) (wd_db w)).
  destruct (next_task _ _ _ _) as [task|] eqn:En; cbn [fmap option_fmap option_map].
  2: { destruct (runOnceBody_idle env record o worker
         (set_db (run_once_db env (p_ID record) (wd_db w)) w)) as (r & w' & -> & -> & P).
       exact (conj eq_refl P). }
  apply next_task_oldest in En as (Hin & Hc & _).
  assert (Hid : t_ID task <> 0).
  { destruct Htok as (_ & _ & HF). pose proof (Forall_In _ _ _ HF Hin) as Hb. cbn in Hb. lia. }
  pose proof (runOnceClaim_spec env record o worker (scanRunTask task)
    (set_db (run_once_db env (p_ID record) (wd_db w)) w)) as Hs. cbv zeta in Hs.
  specialize (Hs (recovered_ok _ _ _ _ _ Hok) Hid (candidate_free _ _ _ _ _ Hc)).
  destruct (runOnceClaim _ _ _ _ _ _) as [[r|e] w'].
  - destruct Hs as (res & -> & P). left. by exists res.
  - right. exists e. split; [done|]. split; [done|].
    destruct Hs as [?|(w1 & w2 & E)]; [by left|]. right. by do 3 eexists.
Qed.

(** C16. RunWorkerOnce does what its decision says, on every branch.  Refused:
    the error and an unchanged database.  Denied: nothing but one denied event
    and audit event.  Idle: no task is claimed and no task changes.  Claim:
    either the new lease is stored already [completed], the task is [passed],
    exactly one passed dry-run attempt and one artifact are recorded, and the
    artifact's digest and size are those of the file at its URI; or the file
    could not be written (or the task has no workflow version) and the database
    is as it was. *)
Theorem run_once_functional env record options w :
  table_ok (db_leases (wd_db w)) -> table_ok (db_run_tasks (wd_db w)) ->
  let o := normalizeWorkerRunOnceOptions options in
  let (r, w') := RunWorkerOnce env record options w in
  run_once_post env record o (run_once_decide env (p_ID record) o (wd_db w)) (wd_db w) r w'.
Proof. apply run_once_spec. Qed.

Lemma run_once_functional_witness :
  let o := normalizeWorkerRunOnceOptions demo_run_once in
  table_ok (db_run_tasks (wd_db demo_registered))
  /\ let (r, w') := RunWorkerOnce demo_env demo_project demo_run_once demo_registered in
     run_once_post demo_env demo_project o
       (run_once_decide demo_env 1 o (wd_db demo_registered)) (wd_db demo_registered) r w'.
Proof.
  assert (Ht : table_ok (db_run_tasks (wd_db demo_registered))).
  { split; [by vm_compute|]. split.
    - vm_compute. repeat constructor; cbn; intuition discriminate.
    - vm_compute. repeat constructor; discriminate. }
  split; [exact Ht|].
  apply (run_once_functional demo_env demo_project demo_run_once demo_registered); [|exact Ht].
  split; [by vm_compute|]. split; constructor.
Defined.

(** The task a run-once claims belongs to the project and to the requested
    run (if one was named), that run is a dry run, the task is queued or
    waiting for recovery and has no active lease, and no other candidate was
    created before it. *)
Theorem run_once_claims_oldest env pid o db worker t :
  run_once_decide env pid o db = RunOnceClaim worker t ->
  let db1 := run_once_db env pid db in
  In t (t_rows (db_run_tasks db))
  /\ t_ProjectID t = pid /\ (ro_RunID o = 0 \/ t_RunID t = ro_RunID o)
  /\ (t_Status t = "queued" \/ t_Status t = "needs_recovery")
  /\ (exists r, In r (t_rows (db_runs db)) /\ r_ID r = t_RunID t /\ r_DryRun r = true)
  /\ (forall l, In l (t_rows (db_leases db1)) -> l_RunTaskID l = t_ID t ->
        l_Status l <> "active")
  /\ (forall t', In t' (t_rows (db_run_tasks db)) ->
        dry_run_candidate env db1 pid (ro_RunID o) t' = true ->
        t' = t \/ task_created_before t' t = false).
Proof.
  unfold run_once_decide. intros E. repeat case_match; try done. simplify_eq.
  match goal with H : next_task _ _ _ _ = Some _ |- _ =>
    apply next_task_oldest in H as (Hin & Hc & Hmin) end.
  by apply candidate_spec in Hc as (K1 & K2 & K3 & K4 & K5).
Qed.

Lemma run_once_claims_oldest_witness :
  let o := normalizeWorkerRunOnceOptions demo_run_once in
  exists worker,
    run_once_decide demo_env 1 o (wd_db demo_registered) = RunOnceClaim worker (demo_task 1)
    /\ In (demo_task 1) (t_rows (db_run_tasks (wd_db demo_registered))).
Proof.
  cbv zeta. eexists. assert (H : run_once_decide demo_env 1
    (normalizeWorkerRunOnceOptions demo_run_once) (wd_db demo_registered)
    = RunOnceClaim _ (demo_task 1)) by (vm_compute; reflexivity).
  split; [exact H|]. apply (run_once_claims_oldest _ _ _ _ _ _ H).
Defined.

(** When run-once recovers an expired lease, the lease's task is left as it
    was: the task stays [leased] without an active lease, so that no later
    run-once picks it and no later recovery finds it. *)
Example run_once_strands_task :
  let w1 := snd (RunWorkerOnce demo_later demo_project demo_run_once demo_leased) in
  let w2 := snd (RecoverExpiredLeases demo_later demo_project demo_recover w1) in
  List.map t_Status (t_rows (db_run_tasks (wd_db w2))) = ["leased"; "passed"]
  /\ List.map l_Status (t_rows (db_leases (wd_db w2))) = ["needs_recovery"; "completed"]
  /\ next_task demo_later 1 0 (wd_db w2) = None.
Proof. vm_compute. done. Qed.

(** The artifact of a run-once carries the task's version id as it was read, 0
    where the column is NULL, which no version has: a task without a version
    fails each time, and keeps the tasks behind it waiting. *)
Example run_once_without_version_fails :
  let task := MkRunTask 1 1 0 0 1 "task" "verify" "queued" "low" 1 [] 1 1 in
  let w := set_db (set_run_tasks (MkTable [task; demo_task 2] 3) (wd_db demo_registered))
             demo_registered in
  let (r, w') := RunWorkerOnce demo_env demo_project demo_run_once w in
  r = Err ErrForeignKeyViolation /\ wd_db w' = wd_db w.
Proof. vm_compute. done. Qed.
