(* ===== verification/RunControlSpec.v ===== *)
(** * What run control does

    The statuses a run may move between ([run_transition]), the theorem that
    [evaluateRunControl] allows exactly those (and repeats of a transition
    already made), and what ControlRun stores for each decision. *)

From stdpp Require Import base list strings numbers gmap.
From Stdlib Require Import ZArith Lia String.
From S2P Require Import Prelude GoString Sha256 Json Schema Tx Command History Worker Lease.
From S2P Require Import RunOnce RunControl Demo LeaseSpec.

(** ** The state machine *)

Inductive run_transition : string -> string -> string -> Prop :=
| TStart : run_transition "start" "queued" "running"
| TDrain : run_transition "drain" "running" "draining"
| TCancelQueued : run_transition "cancel" "queued" "cancelled"
| TCancelRunning : run_transition "cancel" "running" "cancelling"
| TCancelDraining : run_transition "cancel" "draining" "cancelling".

(** An action whose effect the run already shows *)
Inductive already : string -> string -> Prop :=
| AStart : already "start" "running"
| ADraining : already "drain" "draining"
| ADrained : already "drain" "drained"
| ACancelled : already "cancel" "cancelled"
| ACancelling : already "cancel" "cancelling".

(** ** The decision *)

(** The outcome of [evaluateRunControl], as a relation on action, status and
    dry-run flag. *)
Inductive control_decides (action st : string) (dry : bool) : string -> string -> Prop :=
| DAlready : already action st -> control_decides action st dry "allowed" st
| DMove st' : run_transition action st st' -> dry = true ->
    control_decides action st dry "allowed" st'
| DDenied : ~ already action st -> (dry = false \/ forall st', ~ run_transition action st st') ->
    control_decides action st dry "denied" st.

(** Close the three kinds of branches of the decision. *)
Ltac decide_already := apply DAlready; constructor.
Ltac decide_move run :=
  cbn; destruct (r_DryRun run); cbn;
  [by apply DMove; [constructor|] | apply DDenied; [by inversion 1|by left]].
Ltac decide_denied run :=
  cbn; destruct (r_DryRun run); cbn;
  (apply DDenied; [inversion 1; congruence|right; inversion 1; congruence]).
Ltac on_status run s := destruct (String.eqb_spec (r_Status run) s) as [->|?].

(** The decision of [evaluateRunControl], in one case analysis *)
Lemma evaluate_decides record run o :
  let r := evaluateRunControl record run o in
  control_decides (rc_Action o) (r_Status run) (r_DryRun run) (cr_Decision r) (cr_Status r).
Proof.
  cbv zeta. unfold evaluateRunControl, control_switch.
  destruct (String.eqb_spec (rc_Action o) "start") as [->|N1].
  { on_status run "running"; [decide_already|].
    on_status run "queued"; [decide_move run|decide_denied run]. }
  destruct (String.eqb_spec (rc_Action o) "drain") as [->|N2].
  { on_status run "draining"; [decide_already|]. on_status run "drained"; [decide_already|].
    on_status run "running"; [decide_move run|decide_denied run]. }
  destruct (String.eqb_spec (rc_Action o) "cancel") as [->|N3].
  { on_status run "cancelled"; [decide_already|]. on_status run "cancelling"; [decide_already|].
    on_status run "queued"; [decide_move run|]. on_status run "running"; [decide_move run|].
    on_status run "draining"; [decide_move run|decide_denied run]. }
  decide_denied run.
Qed.

(** A denial names its reasons. *)
Lemma evaluate_blockers record run o :
  let r := evaluateRunControl record run o in
  cr_Decision r = "denied" <-> cr_Blockers r <> [].
Proof.
  cbv zeta. unfold evaluateRunControl, control_switch.
  repeat (case_match; simplify_eq; cbn; try (split; congruence)).
Qed.

(** [evaluateRunControl] allows exactly the transitions of the run state
    machine on dry runs and the repeats of an action whose effect the run
    already shows (which keep the status); everything else is denied, keeps
    the status and names at least one blocker. *)
Theorem control_decision record run o :
  let r := evaluateRunControl record run o in
  control_decides (rc_Action o) (r_Status run) (r_DryRun run) (cr_Decision r) (cr_Status r)
  /\ (cr_Decision r = "denied" <-> cr_Blockers r <> [])
  /\ (cr_Decision r = "allowed" <->
      already (rc_Action o) (r_Status run)
      \/ (r_DryRun run = true /\ exists st', run_transition (rc_Action o) (r_Status run) st')).
Proof.
  cbv zeta. pose proof (evaluate_decides record run o) as Hd. cbv zeta in Hd.
  split; [exact Hd|]. split; [apply evaluate_blockers|].
  inversion Hd as [Ha|st' Ht Hr|Ha Ht]; split; try done; eauto.
  intros [?|[Hr [st' Ht']]]; [done|]. destruct Ht as [Ht|Ht]; [congruence|by destruct (Ht st')].
Qed.

(** ** The command *)

Definition find_run (db : DB) (id : Z) : option RunRecord :=
  scanRun <$> head (table_select (fun r => r_ID r =? id) (db_runs db)).

Definition find_project (db : DB) (id : Z) : option Record_ :=
  head (table_select (fun p => p_ID p =? id) (db_projects db)).

(** The row of a run after an allowed control *)
Definition controlled_run (env : Env) (run : RunRecord) (o : RunControlOptions)
    (d : RunControlResult) (r : RunRecord) : RunRecord :=
  MkRun (r_ID r) (r_ProjectID r) (r_WorkflowVersionID r) (r_RunType r) (r_RunKind r)
    (cr_Status d) (r_RiskLevel r) (r_RiskPolicy r) (r_DryRun r)
    (controlSummary env run (cr_Status d) o) (controlMetadata run o) (r_StartedAt r)
    (controlFinishedAt env run (cr_Status d) d (r_FinishedAt r)).

(** The tasks after an allowed control: a cancel reaches the waiting tasks *)
Definition controlled_tasks (env : Env) (run : RunRecord) (o : RunControlOptions)
    (status : string) (t : table RunTaskRecord) : table RunTaskRecord :=
  if rc_Action o =s "cancel" then
    if status =s "cancelled" then
      table_update (waiting_task (r_ID run)) (task_with_status (env_now env) "cancelled") t
    else if status =s "cancelling" then
      table_update (waiting_task (r_ID run)) (task_with_status (env_now env) "cancel_requested") t
    else t
  else t.

(** Tables run control never writes *)
Definition same_but_runs_tasks (db db' : DB) : Prop :=
  db_projects db' = db_projects db /\ db_actors db' = db_actors db
  /\ db_workers db' = db_workers db /\ db_worker_heartbeats db' = db_worker_heartbeats db
  /\ db_leases db' = db_leases db /\ db_run_attempts db' = db_run_attempts db
  /\ db_artifacts db' = db_artifacts db
  /\ db_workflow_versions db' = db_workflow_versions db
  /\ db_workflow_items db' = db_workflow_items db
  /\ db_gate_results db' = db_gate_results db
  /\ db_transition_previews db' = db_transition_previews db
  /\ db_approval_records db' = db_approval_records db.

Definition control_post (env : Env) (record : Record_) (run : RunRecord)
    (o : RunControlOptions) (db : DB) (r : res error control_outcome) (db' : DB) : Prop :=
  let d := evaluateRunControl record run o in
  same_but_runs_tasks db db'
  /\ one_history ("run." +:+ rc_Action o +:+ "." +:+ cr_Decision d)
       (runControlCommandType (rc_Action o)) (cr_Decision d) db db'
  /\ exists result,
       cr_Decision result = cr_Decision d /\ cr_Status result = cr_Status d
       /\ cr_PreviousStatus result = r_Status run
       /\ if cr_Decision d =s "allowed" then
            r = Ok (result, None)
            /\ db_runs db' = table_update (fun r => r_ID r =? r_ID run)
                               (controlled_run env run o d) (db_runs db)
            /\ db_run_tasks db' = controlled_tasks env run o (cr_Status d) (db_run_tasks db)
          else
            r = Ok (result, Some (ErrRunControlBlocked (cr_Blockers d)))
            /\ db_runs db' = db_runs db /\ db_run_tasks db' = db_run_tasks db.

Lemma evaluate_previous record run o :
  cr_PreviousStatus (evaluateRunControl record run o) = r_Status run
  /\ (cr_Decision (evaluateRunControl record run o) = "allowed"
      \/ cr_Decision (evaluateRunControl record run o) = "denied").
Proof.
  unfold evaluateRunControl, control_switch. repeat (case_match; simplify_eq; cbn; auto).
Qed.

(** What the application of an allowed decision changes *)
Lemma updateRunControlStatus_spec env run o d w r0 rest :
  table_select (fun r => r_ID r =? r_ID run) (db_runs (wd_db w)) = r0 :: rest ->
  updateRunControlStatus env run (cr_Status d) o d w
  = (Ok (scanRun (controlled_run env run o d r0)),
     set_db (set_run_tasks (controlled_tasks env run o (cr_Status d) (db_run_tasks (wd_db w)))
       (set_runs (table_update (fun r => r_ID r =? r_ID run) (controlled_run env run o d)
          (db_runs (wd_db w))) (wd_db w))) w).
Proof.
  intros E. unfold updateRunControlStatus. unfold bind at 1. unfold update_rows at 1.
  cbn [tget runs_table]. rewrite E. cbn [List.map first_row].
  unfold controlled_tasks, controlled_run. destruct (rc_Action o =s "cancel"); [|by destruct w as [[] ? ?]].
  destruct (String.eqb_spec (cr_Status d) "cancelled") as [->|Hn]; [reflexivity|].
  destruct (String.eqb_spec (cr_Status d) "cancelling") as [->|Hn']; [reflexivity|].
  by destruct w as [[] ? ?].
Qed.

Lemma find_run_select db id run :
  find_run db id = Some run ->
  exists r0 rest, table_select (fun r => r_ID r =? id) (db_runs db) = r0 :: rest
    /\ run = scanRun r0 /\ r_ID run = id.
Proof.
  unfold find_run. destruct (table_select _ _) as [|r0 rest] eqn:E; [done|]. intros [= <-].
  exists r0, rest. split; [done|]. split; [done|].
  assert (Hin : In r0 (table_select (fun r => r_ID r =? id) (db_runs db)))
    by (rewrite E; by left).
  apply table_select_In in Hin as [_ Hin]. by bool_prop.
Qed.

Lemma controlBody_spec env record run o w id :
  find_run (wd_db w) id = Some run ->
  exists r w', controlBody env record run o w = (Ok r, w')
    /\ control_post env record run o (wd_db w) r (wd_db w').
Proof.
  intros Hf. apply find_run_select in Hf as (r0 & rest & Es & -> & Hid). rewrite <- Hid in Es.
  destruct (evaluate_previous record (scanRun r0) o) as [Hp Hd].
  unfold controlBody, controlApply, control_post.
  set (d := evaluateRunControl record (scanRun r0) o) in *. clearbody d. cbv zeta.
  destruct Hd as [Hd|Hd].
  - assert (Ha : (cr_Decision d =s "allowed") = true) by (by rewrite Hd).
    assert (Hn : (cr_Decision d =s "denied") = false) by (by rewrite Hd).
    rewrite Ha. erewrite bind_run by (erewrite bind_run by (by eapply updateRunControlStatus_spec);
      reflexivity).
    unfold controlRecord. run_steps.
    cbn [cr_Decision set_result_ids set_result_run]. rewrite Hn. do 2 eexists.
    split; [reflexivity|]. split; [unfold same_but_runs_tasks; history_leaf|].
    split; [history_leaf|].
    refine (ex_intro _ _ (conj _ (conj _ (conj _ (conj eq_refl (conj eq_refl eq_refl)))))); done.
  - assert (Ha : (cr_Decision d =s "allowed") = false) by (by rewrite Hd).
    assert (Hn : (cr_Decision d =s "denied") = true) by (by rewrite Hd).
    rewrite Ha. erewrite bind_run by reflexivity. unfold controlRecord. run_steps.
    cbn [cr_Decision set_result_ids]. rewrite Hn. do 2 eexists.
    split; [reflexivity|]. split; [unfold same_but_runs_tasks; history_leaf|].
    split; [history_leaf|].
    refine (ex_intro _ _ (conj _ (conj _ (conj _ (conj eq_refl (conj eq_refl eq_refl)))))); done.
Qed.

Lemma loadRunForUpdate_eq id w :
  loadRunForUpdate id w
  = (match find_run (wd_db w) id with Some r => Ok r | None => Err ErrRunNotFound end, w).
Proof.
  unfold loadRunForUpdate, find_run, bind, select_rows, map_err. cbn [tget runs_table].
  by destruct (table_select _ _).
Qed.

Lemma loadProjectRecordByID_eq id w :
  loadProjectRecordByID id w
  = ((if id <=? 0 then Err (ErrText "run project id is required")
      else match find_project (wd_db w) id with Some p => Ok p | None => Err ErrNoRows end), w).
Proof.
  unfold loadProjectRecordByID, find_project, bind, select_rows. cbn [tget projects_table].
  destruct (id <=? 0); [done|]. by destruct (table_select _ _).
Qed.

(** What a control command with a fresh key does, whatever it finds *)
Definition control_run_post (env : Env) (runID : Z) (o : RunControlOptions) (db : DB)
    (r : res error control_outcome) (db' : DB) : Prop :=
  if runID <=? 0 then r = Err (ErrText "run id is required") /\ db' = db
  else match find_run db runID with
  | None => r = Err ErrRunNotFound /\ db' = db
  | Some run =>
      if r_ProjectID run <=? 0
      then r = Err (ErrText "run project id is required") /\ db' = db
      else match find_project db (r_ProjectID run) with
      | None => r = Err ErrNoRows /\ db' = db
      | Some record =>
          ledger_of db !! (p_ID record, runControlCommandType (rc_Action o), rc_IdempotencyKey o)
            = None ->
          control_post env record run o db r db'
      end
  end.


(** *** Runs move only along the transitions *)

(** Whatever ControlRun does, each run keeps its status or, being a dry run,
    makes the transition its action names. *)
Definition run_moves (action : string) (r r' : RunRecord) : Prop :=
  r_ID r' = r_ID r /\ r_DryRun r' = r_DryRun r
  /\ (r_Status r' = r_Status r
      \/ (r_DryRun r = true /\ run_transition action (r_Status r) (r_Status r'))).

Lemma Forall2_refl {A} (P : A -> A -> Prop) l : (forall x, P x x) -> Forall2 P l l.
Proof. intros H. induction l; by constructor. Qed.

Lemma control_post_moves env record run o db r db' id :
  table_ok (db_runs db) -> find_run db id = Some run ->
  control_post env record run o db r db' ->
  Forall2 (run_moves (rc_Action o)) (t_rows (db_runs db)) (t_rows (db_runs db')).
Proof.
  intros Hok Hf (_ & _ & result & _ & _ & _ & Hr).
  assert (Hrefl : forall x, run_moves (rc_Action o) x x) by (intros x; split; auto).
  pose proof (evaluate_decides record run o) as Hd. cbv zeta in Hd.
  destruct (cr_Decision _ =s "allowed") eqn:Ea;
    [|destruct Hr as (_ & -> & _); by apply Forall2_refl].
  destruct Hr as (_ & -> & _). cbn. apply String.eqb_eq in Ea.
  apply find_run_select in Hf as (r0 & rest & Es & -> & Hid).
  assert (Hin0 : In r0 (t_rows (db_runs db))).
  { eapply proj1, table_select_In. rewrite Es. by left. }
  assert (HF : Forall (fun x => r_ID x = r_ID r0 -> x = r0) (t_rows (db_runs db))).
  { apply List.Forall_forall. intros x Hx Ex. by eapply (table_ok_inj (R:=RunRecord)). }
  clear Hok Es Hin0. induction HF as [|x l Hx HF IH]; cbn; constructor; [|done].
  destruct (Z.eqb_spec (r_ID x) (r_ID r0)) as [Ex|Ex]; [|apply Hrefl].
  rewrite (Hx Ex). split; [done|]. split; [done|]. cbn in *.
  inversion Hd as [H1 H2 H3|st' H1 H2 H3 H4|H1 H2 H3 H4]; subst; [by left| |congruence].
  right. done.
Qed.

(** A known key leaves the database alone, whatever it names. *)
Lemma controlTx_known env record run o hash w e :
  ledger_of (wd_db w) !! (p_ID record, runControlCommandType (rc_Action o), rc_IdempotencyKey o)
  = Some e ->
  wd_db (snd (with_command env (p_ID record) (runControlCommandType (rc_Action o))
    (rc_IdempotencyKey o) hash
    (replayControl record (runControlCommandType (rc_Action o)) (rc_IdempotencyKey o))
    (controlBody env record run o) w)) = wd_db w.
Proof.
  intros El. unfold with_command, bind. rewrite reserve_eq, El.
  destruct (_ =s _); [|done].
  unfold replayControl, loadRunControlByCommandResponse, bind. rewrite load_refines, El.
  destruct e as [h [resp|]]; [|done]. rewrite loadRunForUpdate_eq.
  by destruct (find_run _ _).
Qed.

(** Whatever ControlRun is asked and however it ends, each run keeps its
    status or, being a dry run, makes the one transition its action stands
    for; a run that is not a dry run keeps its status. *)
Theorem control_transitions env runID options w :
  table_ok (db_runs (wd_db w)) ->
  Forall2 (run_moves (rc_Action (controlOptions runID options)))
    (t_rows (db_runs (wd_db w)))
    (t_rows (db_runs (wd_db (snd (ControlRun env runID options w))))).
Proof.
  intros Hok. unfold ControlRun. set (o := controlOptions runID options).
  set (hash := runControlRequestHash _ _).
  assert (Hsame : Forall2 (run_moves (rc_Action o)) (t_rows (db_runs (wd_db w)))
                    (t_rows (db_runs (wd_db w)))) by (apply Forall2_refl; split; auto).
  destruct (runID <=? 0); [exact Hsame|].
  unfold transact, controlTx, bind at 1. rewrite loadRunForUpdate_eq.
  destruct (find_run _ _) as [run|] eqn:Ef; [|exact Hsame]. unfold bind at 1.
  rewrite loadProjectRecordByID_eq. destruct (r_ProjectID run <=? 0); [exact Hsame|].
  destruct (find_project _ _) as [record|]; [|exact Hsame].
  destruct (ledger_of (wd_db w) !! (p_ID record, runControlCommandType (rc_Action o),
    rc_IdempotencyKey o)) as [e|] eqn:El.
  - pose proof (controlTx_known env record run o hash w e El) as Hk.
    destruct (with_command _ _ _ _ _ _ _ w) as [[r|?] w']; cbn in *; [by rewrite Hk|done].
  - rewrite with_command_fresh by exact El.
    edestruct (controlBody_spec env record run o (set_db (reserved env (p_ID record)
      (runControlCommandType (rc_Action o)) (rc_IdempotencyKey o) hash (wd_db w)) w) runID)
      as (r & w' & -> & P); [exact Ef|]. cbn [snd].
    by eapply control_post_moves in P.
Qed.

Lemma control_transitions_witness :
  table_ok (db_runs (wd_db demo_world))
  /\ Forall2 (run_moves "start") [demo_run]
       (t_rows (db_runs (wd_db (snd (ControlRun demo_env 1 (demo_control "start") demo_world))))).
Proof.
  assert (Hok : table_ok (db_runs (wd_db demo_world))).
  { split; [by vm_compute|]. split; vm_compute; repeat constructor; try discriminate. by intros []. }
  split; [exact Hok|].
  apply (control_transitions demo_env 1 (demo_control "start") demo_world Hok).
Defined.

(** The early returns for a transition already made come before the test of
    the dry-run flag: a run that is not a dry run is rewritten by them. *)
Example already_skips_dry_run_guard :
  let run := MkRun 1 1 1 "" "" "running" "" "" false [] [] 0 None in
  cr_Decision (evaluateRunControl demo_project run (demo_control "start")) = "allowed"
  /\ cr_Decision (evaluateRunControl demo_project run (demo_control "drain")) = "denied".
Proof. vm_compute. done. Qed.

(** Repeating a cancel with another key moves the time at which the run
    finished. *)
Example repeated_cancel_moves_finish :
  let w1 := snd (ControlRun demo_env 1 (demo_control "cancel") demo_world) in
  let w2 := snd (ControlRun demo_later 1 (MkRunControl "cancel" "k2" "" "") w1) in
  List.map r_FinishedAt (t_rows (db_runs (wd_db w1))) = [Some 5000000]
  /\ List.map r_FinishedAt (t_rows (db_runs (wd_db w2))) = [Some 605000000].
Proof. vm_compute. done. Qed.

(** A denied control is an error the first time and a success when replayed. *)
Example denied_control_replays_as_success :
  let o := demo_control "drain" in
  let (r1, w1) := ControlRun demo_env 1 o demo_world in
  let (r2, _) := ControlRun demo_env 1 o w1 in
  match r1, r2 with
  | Ok (_, Some (ErrRunControlBlocked _)), Ok (res, None) => cr_Decision res = "denied"
  | _, _ => False
  end.
Proof. vm_compute. done. Qed.
