(* ===== verification/Steps.v ===== *)
(** * Elementary changes of the database

    Every command of the worker, run-control and execution components changes
    the database by a sequence of elementary changes: one INSERT or one
    UPDATE, under the condition the handler established before it.  [change pid] lists
    them for commands on the project [pid]; the handlers refine it
    ([register_changes], [acquire_changes], ...), so that a property of
    everything the commands do is proved by one induction over [change]. *)

From stdpp Require Import base list strings numbers relations.
From Stdlib Require Import ZArith Lia String.
From S2P Require Import Prelude GoString Json Schema Tx Command Capability History Worker.
From S2P Require Import Lease FilePath RunOnce RunControl ProjectFile.

(** The statuses the handlers write to a task *)
Definition task_status_written (s : string) : Prop :=
  In s ["leased"; "queued"; "passed"; "needs_recovery"; "cancelled"; "cancel_requested";
        "verified"; "artifact_written"; "rollback_verified"].

(** What an UPDATE of a worker row keeps *)
Definition same_worker_identity (r r' : WorkerRecord) : Prop :=
  w_ID r' = w_ID r /\ w_ProjectID r' = w_ProjectID r /\ w_WorkerKey r' = w_WorkerKey r
  /\ w_RegisteredAt r' = w_RegisteredAt r.

(** What an UPDATE of a run row keeps *)
Definition same_run_identity (r r' : RunRecord) : Prop :=
  r_ID r' = r_ID r /\ r_ProjectID r' = r_ProjectID r
  /\ r_WorkflowVersionID r' = r_WorkflowVersionID r /\ r_RunType r' = r_RunType r
  /\ r_RunKind r' = r_RunKind r /\ r_RiskLevel r' = r_RiskLevel r
  /\ r_RiskPolicy r' = r_RiskPolicy r /\ r_DryRun r' = r_DryRun r
  /\ r_StartedAt r' = r_StartedAt r.

(** ** Clearance

    What the execution approval gate asks of the store before an attempt that
    is not a dry run: an execution run whose version is approved, with a
    passing approval gate and a passing live-mapping gate. *)

Definition approved (db : DB) (pid vid : Z) (a : ApprovalRecord) : Prop :=
  In a (t_rows (db_approval_records db)) /\ ap_ProjectID a = pid
  /\ ap_WorkflowVersionID a = vid /\ ap_Decision a = "approved".

Definition gate_passed (db : DB) (pid vid : Z) (name : string) (g : GateResult) : Prop :=
  In g (t_rows (db_gate_results db)) /\ g_ProjectID g = pid /\ g_WorkflowVersionID g = vid
  /\ g_GateName g = name /\ g_Status g = "pass".

Definition version_cleared (db : DB) (pid vid : Z) : Prop :=
  (exists a, approved db pid vid a)
  /\ (exists g, gate_passed db pid vid "approval_gate" g)
  /\ (exists g, gate_passed db pid vid "live_mapping_gate" g).

Definition run_cleared (db : DB) (runID : Z) : Prop :=
  exists r, In r (t_rows (db_runs db)) /\ r_ID r = runID /\ r_RunKind r = "execution"
    /\ r_DryRun r = false /\ version_cleared db (r_ProjectID r) (r_WorkflowVersionID r).

Inductive change (pid : Z) (db : DB) : DB -> Prop :=
| ChCommandNew ct key hash now :
    table_select (command_is pid ct key) (db_command_requests db) = [] ->
    change pid db (set_command_requests (table_insert (fun id =>
      MkCommand id pid ct key hash [] now None) (db_command_requests db)) db)
| ChCommandDone ct key response now :
    change pid db (set_command_requests (table_update (command_is pid ct key)
      (fun c => MkCommand (c_ID c) (c_ProjectID c) (c_CommandType c) (c_IdempotencyKey c)
                  (c_RequestHash c) response (c_CreatedAt c) (Some now))
      (db_command_requests db)) db)
| ChActorNew mkrow :
    (forall id, ac_ID (mkrow id) = id) ->
    change pid db (set_actors (table_insert mkrow (db_actors db)) db)
| ChWorkerNew key mkrow :
    (forall id, w_ID (mkrow id) = id /\ worker_key_of (mkrow id) = (pid, key)) ->
    table_select (worker_is pid key) (db_workers db) = [] ->
    change pid db (set_workers (table_insert mkrow (db_workers db)) db)
| ChWorkerSet key f :
    (forall r, same_worker_identity r (f r)) ->
    change pid db (set_workers (table_update (worker_is pid key) f (db_workers db)) db)
| ChHeartbeatNew mkrow :
    (forall id, h_ID (mkrow id) = id /\ h_ProjectID (mkrow id) = pid) ->
    change pid db (set_worker_heartbeats (table_insert mkrow (db_worker_heartbeats db)) db)
| ChEventNew mkrow :
    (forall id, e_ID (mkrow id) = id /\ e_ProjectID (mkrow id) = pid) ->
    change pid db (set_events (table_insert mkrow (db_events db)) db)
| ChAuditNew mkrow :
    (forall id, au_ID (mkrow id) = id /\ au_ProjectID (mkrow id) = pid) ->
    change pid db (set_audit_events (table_insert mkrow (db_audit_events db)) db)
| ChLeaseNew taskID mkrow :
    (forall id, l_ID (mkrow id) = id /\ l_ProjectID (mkrow id) = pid
                /\ l_RunTaskID (mkrow id) = taskID /\ l_Status (mkrow id) = "active"
                /\ l_ReleasedAt (mkrow id) = None) ->
    table_select (blocks_task taskID) (db_leases db) = [] ->
    change pid db (set_leases (table_insert mkrow (db_leases db)) db)
| ChLeaseEnd p now status metadata :
    (forall l, In l (t_rows (db_leases db)) -> p l = true ->
               l_Status l = "active" /\ l_ProjectID l = pid) ->
    change pid db (set_leases (table_update p (lease_ended now status metadata)
                                 (db_leases db)) db)
| ChTaskStatus p now status :
    task_status_written status ->
    change pid db (set_run_tasks (table_update p (task_with_status now status)
                                    (db_run_tasks db)) db)
| ChRunSet runID f :
    (forall r, same_run_identity r (f r)) ->
    change pid db (set_runs (table_update (fun r => r_ID r =? runID) f (db_runs db)) db)
| ChRunNew mkrow :
    (forall id, r_ID (mkrow id) = id /\ r_ProjectID (mkrow id) = pid) ->
    change pid db (set_runs (table_insert mkrow (db_runs db)) db)
| ChTaskNew mkrow :
    (forall id, t_ID (mkrow id) = id /\ t_ProjectID (mkrow id) = pid) ->
    change pid db (set_run_tasks (table_insert mkrow (db_run_tasks db)) db)
| ChAttemptNew mkrow :
    (forall id, at_ID (mkrow id) = id /\ at_ProjectID (mkrow id) = pid
                /\ (at_DryRun (mkrow id) = true \/ run_cleared db (at_RunID (mkrow id)))) ->
    change pid db (set_run_attempts (table_insert mkrow (db_run_attempts db)) db)
| ChArtifactNew mkrow :
    (forall id, ar_ID (mkrow id) = id /\ ar_ProjectID (mkrow id) = pid) ->
    change pid db (set_artifacts (table_insert mkrow (db_artifacts db)) db)
| ChTaskNote p now metadata :
    change pid db (set_run_tasks (table_update p (task_with_metadata now metadata)
                                    (db_run_tasks db)) db)
| ChSnapshotNew mkrow :
    (forall id, ss_ID (mkrow id) = id /\ ss_ProjectID (mkrow id) = pid) ->
    change pid db (set_project_status_snapshots
                     (table_insert mkrow (db_project_status_snapshots db)) db)
| ChProjectionNew mkrow :
    (forall id, sj_ID (mkrow id) = id /\ sj_ProjectID (mkrow id) = pid) ->
    change pid db (set_status_projections
                     (table_insert mkrow (db_status_projections db)) db).

(** ** Primary keys *)

Definition keys_ok (db : DB) : Prop :=
  table_ok (db_actors db) /\ table_ok (db_command_requests db) /\ table_ok (db_workers db)
  /\ table_ok (db_worker_heartbeats db) /\ table_ok (db_runs db) /\ table_ok (db_run_tasks db)
  /\ table_ok (db_run_attempts db) /\ table_ok (db_leases db) /\ table_ok (db_artifacts db)
  /\ table_ok (db_events db) /\ table_ok (db_audit_events db)
  /\ table_ok (db_project_status_snapshots db) /\ table_ok (db_status_projections db).

Lemma change_keys_ok pid db db' : change pid db db' -> keys_ok db -> keys_ok db'.
Proof.
  intros Hc (H1 & H2 & H3 & H4 & H5 & H6 & H7 & H8 & H9 & H10 & H11 & H12 & H13).
  destruct Hc; unfold keys_ok; cbn -[table_insert table_update table_ok];
    repeat match goal with |- _ /\ _ => split end; try assumption;
    first [ apply table_insert_ok; [|assumption] | apply table_update_ok; [|assumption] ];
    intros x; cbn; firstorder.
Qed.

(** ** Sequences of changes *)

Definition changes (pid : Z) (db db' : DB) : Prop := keys_ok db -> rtc (change pid) db db'.

Lemma rtc_keys_ok pid db db' : rtc (change pid) db db' -> keys_ok db -> keys_ok db'.
Proof. induction 1; eauto using change_keys_ok. Qed.

#[export] Instance changes_preorder pid : PreOrder (changes pid).
Proof.
  split.
  - intros db _. apply rtc_refl.
  - intros a b c H1 H2 Ha. specialize (H1 Ha).
    etransitivity; [exact H1|]. apply H2. by eapply rtc_keys_ok.
Qed.

Lemma change_once pid db db' : change pid db db' -> changes pid db db'.
Proof. intros H _. by apply rtc_once. Qed.

(** A property of every change is a property of every sequence of changes. *)
Lemma changes_rel (R : DB -> DB -> Prop) `{!PreOrder R} pid db db' :
  (forall a b, change pid a b -> R a b) -> rtc (change pid) db db' -> R db db'.
Proof. intros H. induction 1; [reflexivity|]. etransitivity; eauto. Qed.

Lemma changes_inv (I : DB -> Prop) pid db db' :
  (forall a b, change pid a b -> I a -> I b) -> rtc (change pid) db db' -> I db -> I db'.
Proof. intros H. induction 1; eauto. Qed.

(** ** The store's steps are changes *)

Lemma insert_change {R} `{HasTable R} pid (mkrow : Z -> R) :
  (forall db, change pid db (tset (table_insert mkrow (tget db)) db)) ->
  m_rel (changes pid) (insert_row mkrow).
Proof.
  intros Hc w a w' E. apply insert_row_ok in E as [_ ->]. apply change_once. apply Hc.
Qed.

Lemma update_change {R} `{HasTable R} pid p (f : R -> R) :
  (forall db, change pid db (tset (table_update p f (tget db)) db)) ->
  m_rel (changes pid) (update_rows p f).
Proof.
  intros Hc w a w' E. apply update_rows_ok in E as [_ ->]. apply change_once. apply Hc.
Qed.

Lemma reads_changes {A} pid (m : M A) : reads m -> m_rel (changes pid) m.
Proof. intros H. by apply reads_rel; [exact _|]. Qed.

(** A row is inserted only when the selection before it was empty. *)
Lemma select_insert_change {R} `{HasTable R} {A} pid p (mkrow : Z -> R) (k : R -> M A) k' :
  (forall db, table_select p (tget db) = [] ->
     change pid db (tset (table_insert mkrow (tget db)) db)) ->
  (forall r, m_rel (changes pid) (k r)) ->
  (forall r l, m_rel (changes pid) (k' r l)) ->
  m_rel (changes pid)
    (rows <- select_rows p ;;
     match rows with
     | [] => r <- insert_row mkrow ;; k r
     | r :: l => k' r l
     end).
Proof.
  intros Hc Hk Hk' w a w' E. apply bind_ok in E as (rows & w1 & Es & E).
  apply select_rows_ok in Es as [-> ->].
  destruct (table_select p (tget (wd_db w))) as [|r l] eqn:Esel; [|by eapply Hk'].
  apply bind_ok in E as (r & w1 & Ei & E). apply insert_row_ok in Ei as [-> ->].
  etransitivity; [by apply change_once, Hc|]. by eapply Hk in E.
Qed.

Lemma reserve_changes env pid ct key hash :
  m_rel (changes pid) (reserveCommandRequest env pid ct key hash).
Proof.
  unfold reserveCommandRequest. apply select_insert_change.
  - intros db E. by apply ChCommandNew.
  - intros. apply m_rel_ret. exact _.
  - intros c l. rel_split.
Qed.

Lemma complete_changes env pid ct key resp :
  m_rel (changes pid) (completeCommandRequestResponse env pid ct key resp).
Proof.
  unfold completeCommandRequestResponse. rel_split. apply update_change.
  intros db. apply ChCommandDone.
Qed.

Lemma ensureWorkerActor_changes pid env record key :
  m_rel (changes pid) (ensureWorkerActor env record key).
Proof.
  unfold ensureWorkerActor. rel_split. apply insert_change. intros db.
  by apply ChActorNew.
Qed.

Lemma upsertWorker_changes env pid actor o : m_rel (changes pid) (upsertWorker env pid actor o).
Proof.
  unfold upsertWorker. destruct (negb _); [apply m_rel_fail|].
  apply select_insert_change.
  - intros db E. by apply (ChWorkerNew pid db (rw_WorkerKey o)).
  - intros r. rel_split.
  - intros r l. rel_split. apply update_change. intros db. by apply ChWorkerSet.
Qed.

Lemma heartbeatWorker_changes env pid key st md :
  m_rel (changes pid) (heartbeatWorker env pid key st md).
Proof.
  unfold heartbeatWorker. rel_split. apply update_change. intros db. by apply ChWorkerSet.
Qed.

Lemma insertWorkerHeartbeat_changes env pid wid st md :
  m_rel (changes pid) (insertWorkerHeartbeat env pid wid st md).
Proof.
  unfold insertWorkerHeartbeat. rel_split. apply insert_change. intros db. by apply ChHeartbeatNew.
Qed.

Lemma insertWorkerEvent_changes env pid wid ty msg md :
  m_rel (changes pid) (insertWorkerEvent env pid wid ty msg md).
Proof.
  unfold insertWorkerEvent. rel_split. apply insert_change. intros db. by apply ChEventNew.
Qed.

Lemma insertWorkerAuditEvent_changes env pid actor act cap rs dec reason md :
  m_rel (changes pid) (insertWorkerAuditEvent env pid actor act cap rs dec reason md).
Proof.
  unfold insertWorkerAuditEvent. rel_split. apply insert_change. intros db. by apply ChAuditNew.
Qed.

Lemma updateRunTaskStatus_changes pid env tid st :
  task_status_written st -> m_rel (changes pid) (updateRunTaskStatus env tid st).
Proof.
  intros Hst. unfold updateRunTaskStatus. rel_split. apply update_change. intros db.
  by apply ChTaskStatus.
Qed.

Lemma updateRunTaskMetadata_changes pid env tid additions :
  m_rel (changes pid) (updateRunTaskMetadata env tid additions).
Proof.
  unfold updateRunTaskMetadata. rel_split. apply update_change. intros db. apply ChTaskNote.
Qed.

Lemma insertLeaseForTask_changes env pid worker task kind caps scope md timeout :
  m_rel (changes pid) (insertLeaseForTask env pid worker task kind caps scope md timeout).
Proof.
  unfold insertLeaseForTask. apply select_insert_change.
  - intros db E. by apply (ChLeaseNew pid db (t_ID task)).
  - intros l. rel_split.
  - intros r l. rel_split.
Qed.

Lemma releaseLeaseForWorker_changes env pid worker lid st md :
  m_rel (changes pid) (releaseLeaseForWorker env pid worker lid st md).
Proof.
  unfold releaseLeaseForWorker. rel_split. apply update_change. intros db.
  apply ChLeaseEnd. intros l _ Hp. unfold releasable in Hp. bool_prop. done.
Qed.

#[export] Hint Resolve reserve_changes complete_changes ensureWorkerActor_changes
  upsertWorker_changes heartbeatWorker_changes insertWorkerHeartbeat_changes
  insertWorkerEvent_changes insertWorkerAuditEvent_changes updateRunTaskStatus_changes
  updateRunTaskMetadata_changes insertLeaseForTask_changes releaseLeaseForWorker_changes : rel.
#[export] Hint Extern 1 (task_status_written _) =>
  (repeat case_match; cbv; repeat first [left; reflexivity | right]) : rel.

Lemma recoverExpiredLeases_changes env pid limit md :
  m_rel (changes pid) (recoverExpiredLeases env pid limit md).
Proof.
  unfold recoverExpiredLeases. intros w a w' E Hok.
  apply bind_ok in E as (db & w1 & Eg & E). injection Eg as <- <-.
  apply bind_ok in E as (rows & w1 & Eu & E). apply update_rows_ok in Eu as [-> ->].
  apply ret_ok in E as [_ <-]. apply rtc_once. apply ChLeaseEnd. intros l Hl Hp.
  eapply expired_row in Hp; [|by apply Hok|done]. unfold expired_lease in Hp. by bool_prop.
Qed.

Lemma recordWorkerCapabilityDenied_changes env pid worker act rs reason req missing md :
  m_rel (changes pid) (recordWorkerCapabilityDenied env pid worker act rs reason req missing md).
Proof. unfold recordWorkerCapabilityDenied. rel_split. Qed.

Lemma loadLeasesByIDs_reads pid ids : reads (loadLeasesByIDs pid ids).
Proof.
  induction ids; cbn; [apply reads_ret|]. unfold loadLeaseByID. reads_split.
Qed.

Lemma recoverLoop_changes env record reason leases :
  m_rel (changes (p_ID record)) (recoverLoop env record reason leases).
Proof. induction leases; cbn; rel_split. Qed.

#[export] Hint Resolve recoverExpiredLeases_changes recordWorkerCapabilityDenied_changes
  recoverLoop_changes : rel.

(** ** Replays only read *)

Lemma replayWorker_reads pid ct key : reads (replayWorker pid ct key).
Proof. unfold replayWorker, loadWorkerByCommandResponse, loadWorkerByID. reads_split. Qed.

Lemma replayLease_reads pid ct key : reads (replayLease pid ct key).
Proof. unfold replayLease, loadLeaseByCommandResponse, loadLeaseByID. reads_split. Qed.

Lemma replayLeases_reads pid ct key : reads (replayLeases pid ct key).
Proof.
  unfold replayLeases, loadLeasesByCommandResponse. reads_split. apply loadLeasesByIDs_reads.
Qed.

Lemma loadRunForUpdate_reads id : reads (loadRunForUpdate id).
Proof. unfold loadRunForUpdate. reads_split. Qed.

Lemma loadProjectRecordByID_reads id : reads (loadProjectRecordByID id).
Proof. unfold loadProjectRecordByID. reads_split. Qed.

Lemma replayControl_reads record ct key : reads (replayControl record ct key).
Proof.
  unfold replayControl, loadRunControlByCommandResponse. reads_split.
  apply loadRunForUpdate_reads.
Qed.

Lemma loadWorkerForUpdate_reads pid key : reads (loadWorkerForUpdate pid key).
Proof. unfold loadWorkerForUpdate. reads_split. Qed.

Lemma loadRunTaskForLease_reads pid id : reads (loadRunTaskForLease pid id).
Proof. unfold loadRunTaskForLease. reads_split. Qed.

#[export] Hint Resolve replayWorker_reads replayLease_reads replayLeases_reads
  loadRunForUpdate_reads loadProjectRecordByID_reads replayControl_reads
  loadWorkerForUpdate_reads loadRunTaskForLease_reads : reads.
#[export] Hint Extern 3 (m_rel (changes _) _) =>
  (apply reads_changes; solve [eauto with reads nocore]) : rel.

(** ** The command handlers are sequences of changes *)

Lemma with_command_changes {A} env pid ct key hash (replay body : M (res error A)) :
  reads replay -> m_rel (changes pid) body ->
  m_rel (changes pid) (with_command env pid ct key hash replay body).
Proof. intros H1 H2. unfold with_command. rel_split. Qed.

Lemma registerBody_changes env record o :
  m_rel (changes (p_ID record)) (registerBody env record o).
Proof. unfold registerBody. rel_split. Qed.

Lemma heartbeatBody_changes env record key o :
  m_rel (changes (p_ID record)) (heartbeatBody env record key o).
Proof. unfold heartbeatBody. rel_split. Qed.

Lemma acquireBody_changes env record o :
  m_rel (changes (p_ID record)) (acquireBody env record o).
Proof. unfold acquireBody, acquireAllowed, acquireDenied. rel_split. Qed.

Lemma releaseBody_changes env record o :
  m_rel (changes (p_ID record)) (releaseBody env record o).
Proof. unfold releaseBody. rel_split. Qed.

Lemma recoverBody_changes env record o :
  m_rel (changes (p_ID record)) (recoverBody env record o).
Proof. unfold recoverBody. rel_split. Qed.

(** A file write leaves the database alone. *)
Lemma putLocal_changes pid env root rel content ct :
  m_rel (changes pid) (putLocal env root rel content ct).
Proof.
  intros w a w' E. unfold putLocal in E.
  repeat (case_match; try done). injection E as _ <-. reflexivity.
Qed.

Lemma writeProjectArtifact_changes pid env record rel content ct :
  m_rel (changes pid) (writeProjectArtifact env record rel content ct).
Proof.
  unfold writeProjectArtifact, WriteConfigured. rel_split; apply putLocal_changes.
Qed.

Lemma insertRunArtifactRecord_changes env pid vid rid iid ty src st md :
  m_rel (changes pid) (insertRunArtifactRecord env pid vid rid iid ty src st md).
Proof.
  unfold insertRunArtifactRecord. rel_split. apply insert_change. intros db. by apply ChArtifactNew.
Qed.

Lemma insertWorkerRunOnceAttempt_changes env record task lease report o :
  m_rel (changes (p_ID record)) (insertWorkerRunOnceAttempt env record task lease report o).
Proof.
  unfold insertWorkerRunOnceAttempt. rel_split. apply insert_change. intros db.
  apply ChAttemptNew. auto.
Qed.

#[export] Hint Resolve writeProjectArtifact_changes insertRunArtifactRecord_changes
  insertWorkerRunOnceAttempt_changes : rel.

Lemma runOnceBody_changes env record o :
  m_rel (changes (p_ID record)) (runOnceBody env record o).
Proof.
  unfold runOnceBody, nextDryRunTaskForLease, runOnceDenied, runOnceIdle, runOnceClaim,
    writeAndInsertWorkerRunOnceArtifact. rel_split.
Qed.

(** *** Run control *)

Lemma cancelTasks_changes pid env id st :
  task_status_written st -> m_rel (changes pid) (cancelTasks env id st).
Proof.
  intros Hst. unfold cancelTasks. rel_split. apply update_change. intros db.
  by apply ChTaskStatus.
Qed.
#[export] Hint Resolve cancelTasks_changes : rel.

Lemma updateRunControlStatus_changes pid env run st o result :
  m_rel (changes pid) (updateRunControlStatus env run st o result).
Proof.
  unfold updateRunControlStatus. rel_split. apply update_change. intros db.
  by apply ChRunSet.
Qed.

Lemma insertRunControlEvent_changes env result o :
  m_rel (changes (p_ID (cr_Project result))) (insertRunControlEvent env result o).
Proof.
  unfold insertRunControlEvent. rel_split. apply insert_change. intros db. by apply ChEventNew.
Qed.

Lemma insertRunControlAuditEvent_changes env result o :
  m_rel (changes (p_ID (cr_Project result))) (insertRunControlAuditEvent env result o).
Proof.
  unfold insertRunControlAuditEvent. rel_split. apply insert_change. intros db.
  by apply ChAuditNew.
Qed.

(** The project of a decision is the project it was asked for. *)
Lemma evaluateRunControl_project record run o :
  cr_Project (evaluateRunControl record run o) = record.
Proof.
  unfold evaluateRunControl, control_switch. repeat case_match; simplify_eq; done.
Qed.

Lemma controlApply_changes pid env run o result :
  m_rel (changes pid) (controlApply env run o result).
Proof. unfold controlApply. rel_split. apply updateRunControlStatus_changes. Qed.

Lemma controlApply_project env run o result w r w' :
  controlApply env run o result w = (Ok r, w') -> cr_Project r = cr_Project result.
Proof. unfold controlApply. destruct (_ =s _); intros E; step_ok; by subst. Qed.

Lemma controlRecord_changes env o result :
  m_rel (changes (p_ID (cr_Project result))) (controlRecord env (cr_Project result) o result).
Proof.
  unfold controlRecord. rel_split; [apply insertRunControlEvent_changes|].
  apply (insertRunControlAuditEvent_changes env (set_result_event _ result)).
Qed.

Lemma controlBody_changes env record run o :
  m_rel (changes (p_ID record)) (controlBody env record run o).
Proof.
  intros w a w' E. unfold controlBody in E. apply bind_ok in E as (r & w1 & E1 & E).
  pose proof (controlApply_project _ _ _ _ _ _ _ E1) as Hp.
  rewrite evaluateRunControl_project in Hp. subst record.
  etransitivity; [by eapply controlApply_changes|]. by eapply controlRecord_changes.
Qed.
