(* ===== verification/ExecutionSteps.v ===== *)
(** * The execution commands are sequences of changes

    Runner previews, read-only verification, approved artifact writes and
    fixture executions refine the elementary changes of [Steps].  The one
    condition that takes an argument is that of an attempt which is not a dry
    run: it needs a cleared run, and the run is cleared because the execution
    approval gate read it so. *)

From stdpp Require Import base list strings numbers relations.
From Stdlib Require Import ZArith Lia String.
From S2P Require Import Prelude GoString Json Schema Tx Command Capability History Worker.
From S2P Require Import Lease FilePath Permission RunOnce RunControl Profile Workflow Gates.
From S2P Require Import Runner EnginePreview ExecutionGate ReadOnlyVerify ApprovedWrite.
From S2P Require Import FixtureExecution Steps.

(** ** Reads *)

Lemma authoredVersion_reads record label : reads (authoredVersion record label).
Proof. unfold authoredVersion, GetWorkflowVersion. reads_split. Qed.

Lemma GetRun_reads id : reads (GetRun id).
Proof. unfold GetRun, listRunTasks, listRunAttempts, listRunArtifacts. reads_split. Qed.

Lemma latestGateResult_reads pid vid name : reads (latestGateResult pid vid name).
Proof. unfold latestGateResult. reads_split. Qed.

Lemma latestApprovalRecord_reads pid vid : reads (latestApprovalRecord pid vid).
Proof. unfold latestApprovalRecord. reads_split. Qed.

Lemma get_db_reads : reads get_db.
Proof. done. Qed.
#[export] Hint Resolve get_db_reads : reads.

Lemma CodexCLIAdapterPreview_reads ac record command :
  reads (CodexCLIAdapterPreview_ ac record command).
Proof. unfold CodexCLIAdapterPreview_. reads_split. Qed.

Lemma listWorkers_reads record limit : reads (listWorkers record limit).
Proof. done. Qed.

Lemma projectRecordByID_reads id : reads (projectRecordByID id).
Proof. unfold projectRecordByID. reads_split. Qed.

Lemma workflowVersionByID_reads pid vid : reads (workflowVersionByID pid vid).
Proof. unfold workflowVersionByID. reads_split. Qed.

#[export] Hint Resolve authoredVersion_reads GetRun_reads latestGateResult_reads
  latestApprovalRecord_reads CodexCLIAdapterPreview_reads listWorkers_reads
  projectRecordByID_reads workflowVersionByID_reads : reads.

(** The gate does not change anything. *)
Lemma ExecutionApprovalGate_reads ac runID o : reads (ExecutionApprovalGate_ ac runID o).
Proof. unfold ExecutionApprovalGate_. reads_split. Qed.

Lemma load_if_reads {A} id (zero : A) load :
  (forall id, reads (load id)) -> reads (load_if id zero load).
Proof. intros H. unfold load_if. destruct (_ =? _); [apply reads_ret|apply H]. Qed.

Lemma loadWorkerByID_reads pid id : reads (loadWorkerByID pid id).
Proof. unfold loadWorkerByID. reads_split. Qed.

Lemma loadLeaseByID_reads pid id : reads (loadLeaseByID pid id).
Proof. unfold loadLeaseByID. reads_split. Qed.

Lemma loadRunTaskByID_reads pid id : reads (loadRunTaskByID pid id).
Proof. unfold loadRunTaskByID. reads_split. Qed.

Lemma loadRunAttemptByID_reads pid id : reads (loadRunAttemptByID pid id).
Proof. unfold loadRunAttemptByID. reads_split. Qed.

Lemma loadArtifactByIDTx_reads pid id : reads (loadArtifactByIDTx pid id).
Proof. unfold loadArtifactByIDTx. reads_split. Qed.

Lemma next_execution_task_reads env pid runID kind :
  reads (next_execution_task env pid runID kind).
Proof. unfold next_execution_task. reads_split. Qed.

Lemma count_tasks_reads p : reads (count_tasks p).
Proof. unfold count_tasks. reads_split. Qed.

Lemma readProjectFileForVerify_reads os path : reads (readProjectFileForVerify os path).
Proof. intros w. unfold readProjectFileForVerify. by repeat case_match. Qed.

#[export] Hint Resolve ExecutionApprovalGate_reads load_if_reads loadCommandResponse_reads
  loadWorkerByID_reads loadLeaseByID_reads loadRunTaskByID_reads loadRunAttemptByID_reads
  loadArtifactByIDTx_reads next_execution_task_reads count_tasks_reads
  readProjectFileForVerify_reads : reads.

(** *** Replays *)

Lemma replayRunnerPreview_reads record version key :
  reads (replayRunnerPreview record version key).
Proof.
  unfold replayRunnerPreview, loadRunnerPreviewByIdempotency, listRunTasks, listRunAttempts,
    listRunArtifacts. reads_split. intros w. pose proof (loadCommandResponse_reads (p_ID record)
      "runner.preview" key w) as H. by destruct (loadCommandResponse _ _ _ w) as [[] ?].
Qed.

Lemma replayQueueVerify_reads record version key :
  reads (loadReadOnlyVerifyQueueByCommandResponse record version key).
Proof. unfold loadReadOnlyVerifyQueueByCommandResponse. reads_split. Qed.

Lemma replayVerify_reads record version gate key :
  reads (loadReadOnlyVerifyByCommandResponse record version gate key).
Proof. unfold loadReadOnlyVerifyByCommandResponse. reads_split. Qed.

Lemma replayQueueArtifact_reads record version key :
  reads (loadApprovedArtifactWriteQueueByCommandResponse record version key).
Proof. unfold loadApprovedArtifactWriteQueueByCommandResponse. reads_split. Qed.

Lemma replayArtifact_reads record version gate key :
  reads (loadApprovedArtifactWriteByCommandResponse record version gate key).
Proof. unfold loadApprovedArtifactWriteByCommandResponse. reads_split. Qed.

Lemma replayQueueFixture_reads record version key :
  reads (loadFixtureExecutionQueueByCommandResponse record version key).
Proof. unfold loadFixtureExecutionQueueByCommandResponse. reads_split. Qed.

Lemma replayFixture_reads record version gate key :
  reads (loadFixtureExecutionByCommandResponse record version gate key).
Proof. unfold loadFixtureExecutionByCommandResponse. reads_split. Qed.

#[export] Hint Resolve replayRunnerPreview_reads replayQueueVerify_reads replayVerify_reads
  replayQueueArtifact_reads replayArtifact_reads replayQueueFixture_reads
  replayFixture_reads : reads.
(** What a lookup of the latest row returns is a row of the table. *)
Lemma latest_In {R} (time id : R -> Z) rows r : latest time id rows = Some r -> In r rows.
Proof.
  unfold latest. destruct (sort_stable _ rows) as [|x l] eqn:E; [done|]. intros [= <-].
  apply (sort_stable_In (later time id)). rewrite E. by left.
Qed.

Lemma latest_select {R} (time id : R -> Z) p (t : table R) r :
  latest time id (table_select p t) = Some r -> In r (t_rows t) /\ p r = true.
Proof. intros E. by apply latest_In, table_select_In in E. Qed.

Lemma latestGateResult_ok pid vid name w o w' :
  latestGateResult pid vid name w = (Ok o, w') ->
  w' = w /\ forall g, o = Some g -> exists g0, In g0 (t_rows (db_gate_results (wd_db w)))
    /\ g = scanGateResult g0 /\ g_ProjectID g0 = pid /\ g_WorkflowVersionID g0 = vid
    /\ g_GateName g0 = name.
Proof.
  intros [= <- <-]. split; [done|]. intros g E. apply fmap_Some in E as (g0 & E & ->).
  apply latest_select in E as [Hin E]. bool_prop. by exists g0.
Qed.

Lemma latestApproval_ok pid vid w o w' :
  latestApprovalRecord pid vid w = (Ok o, w') ->
  w' = w /\ forall a, o = Some a -> exists a0, In a0 (t_rows (db_approval_records (wd_db w)))
    /\ a = scanApprovalRecord a0 /\ ap_ProjectID a0 = pid /\ ap_WorkflowVersionID a0 = vid.
Proof.
  intros [= <- <-]. split; [done|]. intros a E. apply fmap_Some in E as (a0 & E & ->).
  apply latest_select in E as [Hin E]. bool_prop. by exists a0.
Qed.

(** ** When the gate passes *)

Lemma gateStatusBool_blocking b : blocking (gateStatusBool b) = negb b.
Proof. by destruct b. Qed.

Lemma gate_add_pass key status message md g :
  gt_Status (gate_add key status message md g) = "pass"
  <-> gt_Status g = "pass" /\ blocking status = false.
Proof. cbn. destruct (blocking status); intuition congruence. Qed.

(** What the gate asks: an execution run, queued and not a dry run, of an
    authored version, with a runnable task; an approval that says [approved]
    and two gate results that passed; an engine preview that is not blocked,
    unless it is skipped; an online worker, and one that has the
    capabilities. *)
Definition gate_conditions (version : WorkflowVersion) (detail : RunDetail)
    (approval : option ApprovalRecord) (approvalGate liveMappingGate : option GateResult)
    (enginePreview : CodexCLIAdapterPreview) (workers : list WorkerRecord)
    (o : ExecutionApprovalGateOptions) : Prop :=
  r_RunKind (rd_Run detail) = "execution" /\ r_Status (rd_Run detail) = "queued"
  /\ r_DryRun (rd_Run detail) = false /\ v_ImportMode version = "authored"
  /\ (exists t, In t (rd_Tasks detail) /\ In (t_Status t) ["queued"; "pending"])
  /\ (exists a, approval = Some a /\ ap_Decision a = "approved")
  /\ (exists g, approvalGate = Some g /\ g_Status g = "pass")
  /\ (exists g, liveMappingGate = Some g /\ g_Status g = "pass")
  /\ (go_SkipEnginePreview o = true \/ cx_Status enginePreview <> "blocked")
  /\ (exists w, In w workers /\ w_Status w = "online"
        /\ missingWorkerCapabilities (w_Capabilities w) (requiredCapabilities o) = []).

Lemma hasRunnable_spec tasks :
  hasRunnableRunTask tasks = true
  <-> exists t, In t tasks /\ In (t_Status t) ["queued"; "pending"].
Proof.
  unfold hasRunnableRunTask, runnableRunTaskCount.
  set (p := fun t => _). split.
  - destruct (List.filter p tasks) as [|t l] eqn:E; [done|]. intros _. exists t.
    assert (Hin : In t (List.filter p tasks)) by (rewrite E; by left).
    apply filter_In in Hin as [Hin Hp]. split; [done|]. unfold p in Hp.
    apply orb_true_iff in Hp as [Hp|Hp]; bool_prop; cbn; auto.
  - intros (t & Hin & Hs). assert (Hf : In t (List.filter p tasks)).
    { apply filter_In. split; [done|]. unfold p. destruct Hs as [<-|[<-|[]]]; reflexivity. }
    destruct (List.filter p tasks); [done|]. reflexivity.
Qed.

Lemma workerWithCapabilities_spec workers caps :
  workerWithCapabilities (onlineWorkers workers) caps = true
  <-> exists w, In w workers /\ w_Status w = "online"
        /\ missingWorkerCapabilities (w_Capabilities w) caps = [].
Proof.
  unfold workerWithCapabilities, onlineWorkers. rewrite existsb_exists. split.
  - intros (w & Hin & Hm). apply filter_In in Hin as [Hin Hs]. bool_prop. exists w.
    split; [done|]. split; [done|]. by destruct (missingWorkerCapabilities _ _).
  - intros (w & Hin & Hs & Hm). exists w. rewrite filter_In, Hm, Hs. auto.
Qed.

Lemma online_some workers caps :
  workerWithCapabilities (onlineWorkers workers) caps = true ->
  (0 <? Z.of_nat (List.length (onlineWorkers workers))) = true.
Proof. by destruct (onlineWorkers workers). Qed.

Lemma approvalStatus_spec approval :
  blocking (approvalStatus approval) = false
  <-> exists a, approval = Some a /\ ap_Decision a = "approved".
Proof.
  destruct approval as [a|]; cbn [approvalStatus]; [|by split; [|intros (? & ? & ?)]].
  rewrite gateStatusBool_blocking, negb_false_iff, String.eqb_eq.
  split; [by exists a|]. by intros (? & [= ->] & ?).
Qed.

Lemma gate_passes_spec gate :
  gate_passes gate = true <-> exists g, gate = Some g /\ g_Status g = "pass".
Proof.
  destruct gate as [g|]; cbn; [|by split; [|intros (? & ? & ?)]]. rewrite String.eqb_eq.
  split; [by exists g|]. by intros (? & [= ->] & ?).
Qed.

Lemma engineStatus_spec skip preview :
  blocking (engineStatus skip preview) = false
  <-> skip = true \/ cx_Status preview <> "blocked".
Proof.
  unfold engineStatus. destruct skip; [by split; auto|].
  destruct (String.eqb_spec (cx_Status preview) "blocked"); cbn; intuition congruence.
Qed.

(** The checks of the gate, in conjunction *)
Lemma gate_pass_iff record version detail approval approvalGate liveGate preview workers o :
  eg_Status (BuildExecutionApprovalGate record version detail approval approvalGate liveGate
               preview workers o) = "pass"
  <-> gate_conditions version detail approval approvalGate liveGate preview workers o.
Proof.
  unfold BuildExecutionApprovalGate, add_engine_checks, add_approval_checks, add_run_checks.
  cbv zeta. cbn [eg_Status]. rewrite !gate_add_pass, !gateStatusBool_blocking, !negb_false_iff,
    !negb_true_iff, !String.eqb_eq, approvalStatus_spec, engineStatus_spec, !gate_passes_spec,
    hasRunnable_spec. cbn [gt_Status].
  pose proof (online_some workers (requiredCapabilities o)).
  pose proof (workerWithCapabilities_spec workers (requiredCapabilities o)).
  unfold gate_conditions. intuition.
Qed.

(** *** What the gate read *)

Lemma load_first_ok {R A} `{HasTable R} p e (f : R -> A) w a w' :
  (rows <- select_rows p ;; r <- map_err (no_rows_to e) (first_row rows) ;; ret (f r)) w
  = (Ok a, w') ->
  w' = w /\ exists r, In r (t_rows (tget (wd_db w))) /\ p r = true /\ a = f r.
Proof.
  intros E. apply bind_ok in E as (rows & w1 & Es & E). apply select_rows_ok in Es as [-> ->].
  apply bind_ok in E as (r & w2 & Ef & E). apply map_err_ok, first_row_ok in Ef as [[l El] ->].
  apply ret_ok in E as [<- <-]. split; [done|]. exists r.
  by apply select_cons_In in El as [? ?].
Qed.

Lemma loadRunForUpdate_ok id w run w' :
  loadRunForUpdate id w = (Ok run, w') ->
  w' = w /\ exists r, In r (t_rows (db_runs (wd_db w))) /\ r_ID r = id /\ run = scanRun r.
Proof.
  intros E. apply load_first_ok in E as (-> & r & Hin & Hp & ->). bool_prop. eauto.
Qed.

Lemma workflowVersionByID_ok pid vid w v w' :
  workflowVersionByID pid vid w = (Ok v, w') -> w' = w /\ v_ProjectID v = pid /\ v_ID v = vid.
Proof.
  intros E. apply load_first_ok in E as (-> & r & Hin & Hp & ->). by bool_prop.
Qed.

Lemma projectRecordByID_ok pid w p w' :
  projectRecordByID pid w = (Ok p, w') -> w' = w /\ p_ID p = pid.
Proof.
  unfold projectRecordByID. intros E. apply bind_ok in E as (rows & w1 & Es & E).
  apply select_rows_ok in Es as [-> ->]. apply map_err_ok, first_row_ok in E as [[l El] ->].
  apply select_cons_In in El as [_ Hp]. by bool_prop.
Qed.

Lemma GetRun_ok id w detail w' :
  GetRun id w = (Ok detail, w') ->
  w' = w /\ exists r, In r (t_rows (db_runs (wd_db w))) /\ r_ID r = id
                      /\ rd_Run detail = scanRun r.
Proof.
  intros E. split; [by eapply reads_ok; [apply GetRun_reads|]|].
  unfold GetRun in E. destruct (_ <=? _); [done|].
  apply bind_ok in E as (run & w1 & Er & E). apply loadRunForUpdate_ok in Er as (-> & r & H).
  exists r. step_ok. cbn. intuition congruence.
Qed.

Lemma gate_ok ac runID o w gate w' :
  ExecutionApprovalGate_ ac runID o w = (Ok gate, w') ->
  w' = w /\ (eg_Status gate = "pass" -> run_cleared (wd_db w) runID).
Proof.
  intros E. split; [by eapply reads_ok; [apply ExecutionApprovalGate_reads|]|].
  unfold ExecutionApprovalGate_ in E.
  apply bind_ok in E as (detail & w1 & Ed & E). apply GetRun_ok in Ed as (-> & r & Hr & Hid & Ed).
  apply bind_ok in E as (record & w1 & Er & E). apply projectRecordByID_ok in Er as [-> Er].
  apply bind_ok in E as (version & w1 & Ev & E). apply workflowVersionByID_ok in Ev as (-> & _ & Ev).
  apply bind_ok in E as (approval & w1 & Ea & E). apply latestApproval_ok in Ea as [-> Ha].
  apply bind_ok in E as (g1 & w1 & E1 & E). apply latestGateResult_ok in E1 as [-> H1].
  apply bind_ok in E as (g2 & w1 & E2 & E). apply latestGateResult_ok in E2 as [-> H2].
  apply bind_ok in E as (preview & w1 & _ & E). apply bind_ok in E as (workers & w2 & _ & E).
  apply ret_ok in E as [<- _]. rewrite gate_pass_iff.
  intros (Hk & _ & Hd & _ & _ & (a & -> & Hap) & (ga & -> & Hga) & (gl & -> & Hgl) & _).
  rewrite Ed in *. rewrite Er, Ev in *. cbn in *.
  destruct (Ha a eq_refl) as (a0 & Ha0 & -> & Ha1 & Ha2).
  destruct (H1 ga eq_refl) as (ga0 & Hg0 & -> & Hg1 & Hg2 & Hg3).
  destruct (H2 gl eq_refl) as (gl0 & Hl0 & -> & Hl1 & Hl2 & Hl3).
  exists r. split_and!; [done..|]. split_and!; [by exists a0|by exists ga0|by exists gl0].
Qed.

(** ** Clearance *)

Lemma change_run_cleared pid db db' runID :
  change pid db db' -> run_cleared db runID -> run_cleared db' runID.
Proof.
  intros Hc (r & Hin & Hid & Hk & Hd & Hv).
  destruct Hc; try (by exists r; split_and!).
  - exists (if r_ID r =? runID0 then f r else r). split; [apply table_update_In; eauto|].
    destruct (r_ID r =? runID0); [|done].
    destruct (H r) as (E1 & E2 & E3 & _ & E4 & _ & _ & E5 & _).
    rewrite E1, E2, E3, E4, E5. by split_and!.
  - exists r. split; [apply table_insert_In; by left|]. by split_and!.
Qed.

(** Changes for as long as a run is cleared *)
Definition cleared_changes (pid runID : Z) (db db' : DB) : Prop :=
  keys_ok db -> run_cleared db runID -> rtc (change pid) db db'.

#[export] Instance cleared_changes_preorder pid runID : PreOrder (cleared_changes pid runID).
Proof.
  split.
  - intros db _ _. apply rtc_refl.
  - intros a b c H1 H2 Ha Hr. specialize (H1 Ha Hr). etransitivity; [exact H1|].
    apply H2; [by eapply rtc_keys_ok|].
    exact (changes_inv (fun d => run_cleared d runID) pid a b
             (fun x y => change_run_cleared pid x y runID) H1 Hr).
Qed.

Lemma changes_cleared {A} pid runID (m : M A) :
  m_rel (changes pid) m -> m_rel (cleared_changes pid runID) m.
Proof. intros Hm w a w' E Hk _. by eapply Hm. Qed.

#[export] Hint Extern 2 (m_rel (cleared_changes _ _) _) =>
  (apply changes_cleared; solve [eauto with rel]) : rel.

(** A row of the table at hand was read before the next step. *)
Lemma m_rel_bind_post {A B} (R : DB -> DB -> Prop) `{!PreOrder R} (P : A -> Prop)
    (m : M A) (k : A -> M B) :
  m_rel R m -> (forall w a w', m w = (Ok a, w') -> P a) -> (forall a, P a -> m_rel R (k a)) ->
  m_rel R (bind m k).
Proof.
  intros Hm HP Hk w b w' E. apply bind_ok in E as (a & w1 & E1 & E2).
  etransitivity; [by eapply Hm|]. eapply Hk; [by eapply HP|exact E2].
Qed.

Lemma next_execution_task_run env pid runID kind w t w' :
  next_execution_task env pid runID kind w = (Ok (Some t), w') -> t_RunID t = runID.
Proof.
  intros E. unfold next_execution_task in E. apply bind_ok in E as (db & w1 & _ & E).
  destruct (sort_stable _ _) as [|x l] eqn:Es; [done|]. apply ret_ok in E as [E _].
  injection E as <-. assert (Hin : In x (sort_stable (earlier t_Sequence t_ID)
    (table_select (execution_candidate env db pid runID kind) (db_run_tasks db))))
    by (rewrite Es; by left).
  apply sort_stable_In, table_select_In in Hin as [_ Hp]. unfold execution_candidate in Hp.
  by bool_prop.
Qed.

(** ** The rows the commands write *)

Section Rows.
Context (pid : Z).

Lemma run_insert_changes (mkrow : Z -> RunRecord) :
  (forall id, r_ID (mkrow id) = id /\ r_ProjectID (mkrow id) = pid) ->
  m_rel (changes pid) (insert_row mkrow).
Proof. intros H. apply insert_change. intros db. by apply ChRunNew. Qed.

Lemma task_insert_changes (mkrow : Z -> RunTaskRecord) :
  (forall id, t_ID (mkrow id) = id /\ t_ProjectID (mkrow id) = pid) ->
  m_rel (changes pid) (insert_row mkrow).
Proof. intros H. apply insert_change. intros db. by apply ChTaskNew. Qed.

Lemma event_insert_changes (mkrow : Z -> EventRecord) :
  (forall id, e_ID (mkrow id) = id /\ e_ProjectID (mkrow id) = pid) ->
  m_rel (changes pid) (insert_row mkrow).
Proof. intros H. apply insert_change. intros db. by apply ChEventNew. Qed.

Lemma audit_insert_changes (mkrow : Z -> AuditEventRecord) :
  (forall id, au_ID (mkrow id) = id /\ au_ProjectID (mkrow id) = pid) ->
  m_rel (changes pid) (insert_row mkrow).
Proof. intros H. apply insert_change. intros db. by apply ChAuditNew. Qed.

Lemma dry_attempt_insert_changes (mkrow : Z -> RunAttemptRecord) :
  (forall id, at_ID (mkrow id) = id /\ at_ProjectID (mkrow id) = pid
              /\ at_DryRun (mkrow id) = true) ->
  m_rel (changes pid) (insert_row mkrow).
Proof.
  intros H. apply insert_change. intros db. apply ChAttemptNew. intros id.
  destruct (H id) as (? & ? & ?). auto.
Qed.

(** The attempt of a real execution, while its run is cleared *)
Lemma attempt_insert_cleared runID (mkrow : Z -> RunAttemptRecord) :
  (forall id, at_ID (mkrow id) = id /\ at_ProjectID (mkrow id) = pid
              /\ at_RunID (mkrow id) = runID) ->
  m_rel (cleared_changes pid runID) (insert_row mkrow).
Proof.
  intros H w a w' E _ Hr. apply insert_row_ok in E as [_ ->]. apply rtc_once, ChAttemptNew.
  intros id. destruct (H id) as (? & ? & ->). auto.
Qed.

Lemma run_update_changes runID f :
  (forall r, same_run_identity r (f r)) ->
  m_rel (changes pid) (update_rows (fun r => r_ID r =? runID) f).
Proof. intros H. apply update_change. intros db. by apply ChRunSet. Qed.
End Rows.

#[export] Hint Extern 1 (m_rel (changes _) (insert_row _)) =>
  (first [ by apply run_insert_changes | by apply task_insert_changes
         | by apply event_insert_changes | by apply audit_insert_changes
         | by apply dry_attempt_insert_changes ]) : rel.
#[export] Hint Extern 1 (m_rel (changes _) (update_rows _ _)) =>
  (by apply run_update_changes) : rel.

(** ** The handlers *)

Lemma runnerPreviewBody_changes env record version o preflight :
  m_rel (changes (p_ID record)) (runnerPreviewBody env record version o preflight).
Proof.
  unfold runnerPreviewBody, insertRunnerPreviewRun, insertRunnerPreviewTask,
    writeAndInsertRunnerPreviewArtifact, insertRunnerPreviewAttempt, insertRunnerPreviewEvent,
    insertRunnerPreviewAuditEvent. cbv zeta. rel_split.
Qed.

Lemma queueVerifyBody_changes env record version o :
  m_rel (changes (p_ID record)) (queueVerifyBody env record version o).
Proof.
  unfold queueVerifyBody, insertReadOnlyVerifyRun, insertReadOnlyVerifyTask,
    insertReadOnlyVerifyQueueEvent, insertReadOnlyVerifyQueueAuditEvent. cbv zeta. rel_split.
Qed.

Lemma queueArtifactBody_changes env record version o :
  m_rel (changes (p_ID record)) (queueArtifactBody env record version o).
Proof.
  unfold queueArtifactBody, insertApprovedArtifactWriteRun, insertApprovedArtifactWriteTask,
    insertApprovedArtifactWriteQueueEvent, insertApprovedArtifactWriteQueueAuditEvent.
  cbv zeta. rel_split.
Qed.

Lemma queueFixtureBody_changes env record version o :
  m_rel (changes (p_ID record)) (queueFixtureBody env record version o).
Proof.
  unfold queueFixtureBody, insertFixtureExecutionRun, insertFixtureExecutionTask,
    insertFixtureExecutionQueueEvent, insertFixtureExecutionQueueAuditEvent.
  cbv zeta. rel_split.
Qed.

(** *** Denials record history only *)

Lemma verifyDenied_changes env r o e :
  m_rel (changes (p_ID (rvr_Project r))) (verifyDenied env r o e).
Proof.
  unfold verifyDenied, finishDeniedReadOnlyVerify, insertReadOnlyVerifyEvent,
    insertReadOnlyVerifyAuditEvent. cbv zeta. rel_split.
Qed.

Lemma artifactDenied_changes env r o e :
  m_rel (changes (p_ID (awr_Project r))) (artifactDenied env r o e).
Proof.
  unfold artifactDenied, finishDeniedApprovedArtifactWrite, insertApprovedArtifactWriteEvent,
    insertApprovedArtifactWriteAuditEvent. cbv zeta. rel_split.
Qed.

Lemma fixtureDenied_changes env r o e :
  m_rel (changes (p_ID (fxr_Project r))) (fixtureDenied env r o e).
Proof.
  unfold fixtureDenied, finishDeniedFixtureExecution, insertFixtureExecutionEvent,
    insertFixtureExecutionAuditEvent. cbv zeta. rel_split.
Qed.

#[export] Hint Extern 1 (m_rel (changes _) (verifyDenied _ _ _ _)) =>
  (apply verifyDenied_changes) : rel.
#[export] Hint Extern 1 (m_rel (changes _) (artifactDenied _ _ _ _)) =>
  (apply artifactDenied_changes) : rel.
#[export] Hint Extern 1 (m_rel (changes _) (fixtureDenied _ _ _ _)) =>
  (apply fixtureDenied_changes) : rel.

(** *** Claims *)

#[export] Hint Extern 1 (m_rel (cleared_changes _ _) (insert_row _)) =>
  (by apply attempt_insert_cleared) : rel.

Lemma verifyClaim_cleared env os record o gate run version worker task tp fp :
  m_rel (cleared_changes (p_ID record) (t_RunID task))
    (verifyClaim env os record o gate run version worker task tp fp).
Proof.
  unfold verifyClaim, writeAndInsertReadOnlyVerifyArtifact, insertReadOnlyVerifyAttempt,
    updateReadOnlyVerifyRunAfterTask, verifiedRunTaskCount, remainingReadOnlyVerifyTaskCount,
    insertReadOnlyVerifyEvent, insertReadOnlyVerifyAuditEvent. cbv zeta. rel_split.
Qed.

Lemma artifactClaim_cleared env record o gate run version worker task label :
  m_rel (cleared_changes (p_ID record) (t_RunID task))
    (artifactClaim env record o gate run version worker task label).
Proof.
  unfold artifactClaim, writeAndInsertApprovedArtifact, insertApprovedArtifactWriteAttempt,
    updateApprovedArtifactWriteRunAfterTask, artifactWrittenRunTaskCount,
    remainingApprovedArtifactWriteTaskCount, insertApprovedArtifactWriteEvent,
    insertApprovedArtifactWriteAuditEvent. cbv zeta. rel_split.
Qed.

Lemma fixtureClaim_cleared env record o gate run version worker task :
  m_rel (cleared_changes (p_ID record) (t_RunID task))
    (fixtureClaim env record o gate run version worker task).
Proof.
  unfold fixtureClaim, writeAndInsertFixtureExecutionArtifact, insertFixtureExecutionAttempt,
    updateFixtureExecutionRunAfterTask, passedRunTaskCount, remainingFixtureExecutionTaskCount,
    insertFixtureExecutionEvent, insertFixtureExecutionAuditEvent. cbv zeta. rel_split.
Qed.

(** *** Bodies: without a passing gate only the denial, with it the claim *)

Ltac next_task run :=
  apply (m_rel_bind_post _ (fun next => forall t, next = Some t -> t_RunID t = r_ID run));
  [ by apply changes_cleared, reads_changes, next_execution_task_reads
  | intros w [t|] w' E ? [= <-]; by eapply next_execution_task_run in E
  | intros [t|] Ht; [specialize (Ht t eq_refl); rewrite <- Ht|] ].

Section Bodies.
Context (env : Env) (record : Record_) (gate : ExecutionApprovalGate) (run : RunRecord)
  (version : WorkflowVersion) (worker : WorkerRecord).

Lemma verifyBody_changes os o :
  eg_Status gate <> "pass" ->
  m_rel (changes (p_ID record)) (verifyBody env os record o gate run version worker).
Proof. intros H. unfold verifyBody. apply String.eqb_neq in H. rewrite H. cbn. rel_split. Qed.

Lemma verifyBody_cleared os o :
  m_rel (cleared_changes (p_ID record) (r_ID run))
    (verifyBody env os record o gate run version worker).
Proof.
  unfold verifyBody. cbv zeta. destruct (eg_Status gate <>s "pass"); [rel_split|].
  destruct (missingWorkerCapabilities _ _); [|rel_split]. next_task run; [|rel_split].
  rel_split. apply verifyClaim_cleared.
Qed.

Lemma artifactBody_changes o :
  eg_Status gate <> "pass" ->
  m_rel (changes (p_ID record)) (artifactBody env record o gate run version worker).
Proof. intros H. unfold artifactBody. apply String.eqb_neq in H. rewrite H. cbn. rel_split. Qed.

Lemma artifactBody_cleared o :
  m_rel (cleared_changes (p_ID record) (r_ID run))
    (artifactBody env record o gate run version worker).
Proof.
  unfold artifactBody. cbv zeta. destruct (eg_Status gate <>s "pass"); [rel_split|].
  destruct (missingWorkerCapabilities _ _); [|rel_split].
  apply m_rel_bind; [exact _|rel_split|]. intros db.
  destruct (canProjectCapabilityInTx _ _ _) as [[] reason]; [|rel_split].
  next_task run; [|rel_split]. apply artifactClaim_cleared.
Qed.

Lemma fixtureBody_changes o :
  eg_Status gate <> "pass" ->
  m_rel (changes (p_ID record)) (fixtureBody env record o gate run version worker).
Proof. intros H. unfold fixtureBody. apply String.eqb_neq in H. rewrite H. cbn. rel_split. Qed.

Lemma fixtureBody_cleared o :
  m_rel (cleared_changes (p_ID record) (r_ID run))
    (fixtureBody env record o gate run version worker).
Proof.
  unfold fixtureBody. cbv zeta. destruct (eg_Status gate <>s "pass"); [rel_split|].
  destruct (missingWorkerCapabilities _ _); [|rel_split]. next_task run; [|rel_split].
  apply fixtureClaim_cleared.
Qed.
End Bodies.

(** *** Transactions *)

(** The frame the three executions share: the gate, the run of the project,
    its version and the worker are read, then the command runs.  What the
    body does needs the gate's word only when the gate passed. *)
Lemma gated_changes {A} env ac record gateOptions runID workerKey ct key hash
    (replay : WorkflowVersion -> ExecutionApprovalGate -> M (res error A))
    (body : ExecutionApprovalGate -> RunRecord -> WorkflowVersion -> WorkerRecord ->
            M (res error A)) :
  (forall version gate, reads (replay version gate)) ->
  (forall gate run version worker, eg_Status gate <> "pass" ->
     m_rel (changes (p_ID record)) (body gate run version worker)) ->
  (forall gate run version worker,
     m_rel (cleared_changes (p_ID record) (r_ID run)) (body gate run version worker)) ->
  m_rel (changes (p_ID record))
    (gate <- ExecutionApprovalGate_ ac runID gateOptions ;;
     run <- loadRunForUpdate runID ;;
     if negb (r_ProjectID run =? p_ID record) then fail ErrRunNotFound
     else
       version <- workflowVersionByIDTx (p_ID record) (r_WorkflowVersionID run) ;;
       worker <- loadWorkerForUpdate (p_ID record) workerKey ;;
       with_command env (p_ID record) ct key hash (replay version gate)
         (body gate run version worker)).
Proof.
  intros Hreads Hdenied Hcleared w a w' E Hk.
  apply bind_ok in E as (gate & w1 & Eg & E). apply gate_ok in Eg as [-> Hgate].
  apply bind_ok in E as (run & w1 & Er & E). apply loadRunForUpdate_ok in Er as (-> & r & _ & Hid & Er).
  destruct (negb _); [done|].
  apply bind_ok in E as (version & w1 & Ev & E). apply workflowVersionByID_ok in Ev as [-> _].
  apply bind_ok in E as (worker & w1 & Ew & E).
  pose proof (reads_ok _ _ _ _ (loadWorkerForUpdate_reads _ _) Ew) as ->.
  destruct (String.eqb_spec (eg_Status gate) "pass") as [Hp|Hp].
  - assert (Hw : m_rel (cleared_changes (p_ID record) runID)
      (with_command env (p_ID record) ct key hash (replay version gate)
         (body gate run version worker))).
    { unfold with_command. apply m_rel_bind; [exact _|apply changes_cleared, reserve_changes|].
      intros [|]; [|by apply changes_cleared, reads_changes].
      replace runID with (r_ID run) by (subst run; done). apply Hcleared. }
    by eapply Hw; [exact E|exact Hk|apply Hgate].
  - by eapply (with_command_changes _ _ _ _ _ _ _ (Hreads version gate)
      (Hdenied gate run version worker Hp)); [exact E|].
Qed.

Lemma verifyTx_changes env os record o hash :
  m_rel (changes (p_ID record)) (verifyTx env os record o hash).
Proof.
  apply (gated_changes env (fun _ => None) record _ (rvo_RunID o) (rvo_WorkerKey o)
    "worker.read_only_verify" (rvo_IdempotencyKey o) hash
    (fun version gate => r <- loadReadOnlyVerifyByCommandResponse record version gate
                               (rvo_IdempotencyKey o) ;; ret (Ok (r, None)))
    (verifyBody env os record o)).
  - intros. reads_split.
  - intros. by apply verifyBody_changes.
  - intros. apply verifyBody_cleared.
Qed.

Lemma artifactTx_changes env record o hash :
  m_rel (changes (p_ID record)) (artifactTx env record o hash).
Proof.
  apply (gated_changes env (fun _ => None) record _ (awo_RunID o) (awo_WorkerKey o)
    "worker.approved_artifact_write" (awo_IdempotencyKey o) hash
    (fun version gate => r <- loadApprovedArtifactWriteByCommandResponse record version gate
                               (awo_IdempotencyKey o) ;; ret (Ok (r, None)))
    (artifactBody env record o)).
  - intros. reads_split.
  - intros. by apply artifactBody_changes.
  - intros. apply artifactBody_cleared.
Qed.

Lemma fixtureTx_changes env ac record o hash :
  m_rel (changes (p_ID record)) (fixtureTx env ac record o hash).
Proof.
  apply (gated_changes env ac record _ (fxo_RunID o) (fxo_WorkerKey o)
    "worker.fixture_execute" (fxo_IdempotencyKey o) hash
    (fun version gate => r <- loadFixtureExecutionByCommandResponse record version gate
                               (fxo_IdempotencyKey o) ;; ret (Ok (r, None)))
    (fixtureBody env record o)).
  - intros. reads_split.
  - intros. by apply fixtureBody_changes.
  - intros. apply fixtureBody_cleared.
Qed.

Lemma queueVerifyTx_changes env record label o :
  m_rel (changes (p_ID record)) (queueVerifyTx env record label o).
Proof.
  unfold queueVerifyTx. cbv zeta. rel_split. apply with_command_changes; [reads_split|].
  apply queueVerifyBody_changes.
Qed.

Lemma queueArtifactTx_changes env record label o :
  m_rel (changes (p_ID record)) (queueArtifactTx env record label o).
Proof.
  unfold queueArtifactTx. cbv zeta. rel_split. apply with_command_changes; [reads_split|].
  apply queueArtifactBody_changes.
Qed.

Lemma queueFixtureTx_changes env record label o :
  m_rel (changes (p_ID record)) (queueFixtureTx env record label o).
Proof.
  unfold queueFixtureTx. cbv zeta. rel_split. apply with_command_changes; [reads_split|].
  apply queueFixtureBody_changes.
Qed.

Lemma runnerPreviewTx_changes env record label o :
  m_rel (changes (p_ID record)) (runnerPreviewTx env record label o).
Proof.
  unfold runnerPreviewTx. cbv zeta. rel_split.
  apply with_command_changes; [apply replayRunnerPreview_reads|].
  apply runnerPreviewBody_changes.
Qed.
