(* ===== verification/WriteSteps.v ===== *)
(** * The project write commands are sequences of changes

    Fixture project writes and managed generated writes refine the elementary
    changes of [Steps], like the other executions: their attempts are not dry
    runs, and the run they belong to is cleared because the gate read it so. *)

From stdpp Require Import base list strings numbers relations.
From Stdlib Require Import ZArith Lia String.
From S2P Require Import Prelude GoString Json Schema Tx Command Capability History Worker.
From S2P Require Import Lease FilePath Permission RunOnce RunControl Profile Workflow Gates.
From S2P Require Import Runner EnginePreview ExecutionGate ProjectFile FixtureWrite ManagedWrite.
From S2P Require Import Steps ExecutionSteps.

(** ** Reads *)

Lemma loadFixtureProjectWriteSet_reads os record id :
  reads (loadFixtureProjectWriteSet os record id).
Proof. unfold loadFixtureProjectWriteSet. reads_split. Qed.

Lemma loadManagedGeneratedWriteSet_reads os record id :
  reads (loadManagedGeneratedWriteSet os record id).
Proof. unfold loadManagedGeneratedWriteSet. reads_split. Qed.

Lemma replayQueueFixtureWrite_reads record version key :
  reads (loadFixtureProjectWriteQueueByCommandResponse record version key).
Proof. unfold loadFixtureProjectWriteQueueByCommandResponse. reads_split. Qed.

Lemma replayFixtureWrite_reads record version gate key :
  reads (loadFixtureProjectWriteByCommandResponse record version gate key).
Proof. unfold loadFixtureProjectWriteByCommandResponse. reads_split. Qed.

Lemma replayQueueManagedWrite_reads record version key :
  reads (loadManagedGeneratedWriteQueueByCommandResponse record version key).
Proof. unfold loadManagedGeneratedWriteQueueByCommandResponse. reads_split. Qed.

Lemma replayManagedWrite_reads record version gate key :
  reads (loadManagedGeneratedWriteByCommandResponse record version gate key).
Proof. unfold loadManagedGeneratedWriteByCommandResponse. reads_split. Qed.

#[export] Hint Resolve loadFixtureProjectWriteSet_reads loadManagedGeneratedWriteSet_reads
  replayQueueFixtureWrite_reads replayFixtureWrite_reads replayQueueManagedWrite_reads
  replayManagedWrite_reads : reads.

(** ** Queueing *)

Lemma queueFixtureWriteBody_changes env record version o :
  m_rel (changes (p_ID record)) (queueFixtureWriteBody env record version o).
Proof.
  unfold queueFixtureWriteBody, insertFixtureProjectWriteRun, insertFixtureProjectWriteTask,
    writeAndInsertFixtureProjectWriteSetArtifact, insertFixtureProjectWriteQueueEvent,
    insertFixtureProjectWriteQueueAuditEvent. cbv zeta. rel_split.
Qed.

Lemma queueManagedWriteBody_changes env record version o :
  m_rel (changes (p_ID record)) (queueManagedWriteBody env record version o).
Proof.
  unfold queueManagedWriteBody, insertManagedGeneratedWriteRun, insertManagedGeneratedWriteTask,
    writeAndInsertManagedGeneratedWriteSetArtifact, insertManagedGeneratedWriteQueueEvent,
    insertManagedGeneratedWriteQueueAuditEvent. cbv zeta. rel_split.
Qed.

Lemma queueFixtureWriteTx_changes env record label o :
  m_rel (changes (p_ID record)) (queueFixtureWriteTx env record label o).
Proof.
  unfold queueFixtureWriteTx. cbv zeta. rel_split. apply with_command_changes; [reads_split|].
  apply queueFixtureWriteBody_changes.
Qed.

Lemma queueManagedWriteTx_changes env record label o :
  m_rel (changes (p_ID record)) (queueManagedWriteTx env record label o).
Proof.
  unfold queueManagedWriteTx. cbv zeta. rel_split. apply with_command_changes; [reads_split|].
  apply queueManagedWriteBody_changes.
Qed.

(** ** Denials *)

Lemma fixtureWriteDenied_changes env r o e :
  m_rel (changes (p_ID (fwr_Project r))) (fixtureWriteDenied env r o e).
Proof.
  unfold fixtureWriteDenied, finishDeniedFixtureProjectWrite, insertFixtureProjectWriteEvent,
    insertFixtureProjectWriteAuditEvent. cbv zeta. rel_split.
Qed.

Lemma managedWriteDenied_changes env r o e :
  m_rel (changes (p_ID (mgr_Project r))) (managedWriteDenied env r o e).
Proof.
  unfold managedWriteDenied, finishDeniedManagedGeneratedWrite, insertManagedGeneratedWriteEvent,
    insertManagedGeneratedWriteAuditEvent. cbv zeta. rel_split.
Qed.

#[export] Hint Extern 1 (m_rel (changes _) (fixtureWriteDenied _ _ _ _)) =>
  (apply fixtureWriteDenied_changes) : rel.
#[export] Hint Extern 1 (m_rel (changes _) (managedWriteDenied _ _ _ _)) =>
  (apply managedWriteDenied_changes) : rel.

(** ** Claims *)

Lemma fixtureWriteVerify_cleared env os record o task lease tp fp ws wsa pre prea :
  m_rel (cleared_changes (p_ID record) (t_RunID task))
    (fixtureWriteVerify env os record o task lease tp fp ws wsa pre prea).
Proof.
  apply m_rel_restoring. unfold insertFixtureProjectWriteAttempt. cbv zeta. rel_split.
Qed.

Lemma managedWriteVerify_cleared env os record o task lease tp fp ws wsa pre prea :
  m_rel (cleared_changes (p_ID record) (t_RunID task))
    (managedWriteVerify env os record o task lease tp fp ws wsa pre prea).
Proof.
  apply m_rel_restoring. unfold insertManagedGeneratedWriteAttempt. cbv zeta. rel_split.
Qed.

#[export] Hint Resolve fixtureWriteVerify_cleared managedWriteVerify_cleared : rel.

Lemma fixtureWriteClaim_cleared env os record o gate run version worker task tp fp ws wsa pre :
  m_rel (cleared_changes (p_ID record) (t_RunID task))
    (fixtureWriteClaim env os record o gate run version worker task tp fp ws wsa pre).
Proof.
  unfold fixtureWriteClaim, writeAndInsertFixtureProjectPreimageArtifact, fixtureWriteFinish,
    insertFixtureProjectWriteAttempt, writeAndInsertFixtureProjectWriteReport,
    updateFixtureProjectWriteRunAfterTask, rollbackVerifiedRunTaskCount,
    remainingFixtureProjectWriteTaskCount, insertFixtureProjectWriteEvent,
    insertFixtureProjectWriteAuditEvent. cbv zeta. rel_split.
Qed.

Lemma managedWriteClaim_cleared env os record o gate run version worker task tp fp ws wsa pre :
  m_rel (cleared_changes (p_ID record) (t_RunID task))
    (managedWriteClaim env os record o gate run version worker task tp fp ws wsa pre).
Proof.
  unfold managedWriteClaim, writeAndInsertManagedGeneratedPreimageArtifact, managedWriteFinish,
    insertManagedGeneratedWriteAttempt, writeAndInsertManagedGeneratedWriteReport,
    updateManagedGeneratedWriteRunAfterTask, rollbackVerifiedRunTaskCount,
    remainingManagedGeneratedWriteTaskCount, insertManagedGeneratedWriteEvent,
    insertManagedGeneratedWriteAuditEvent. cbv zeta. rel_split.
Qed.

#[export] Hint Resolve fixtureWriteClaim_cleared managedWriteClaim_cleared : rel.

(** ** Bodies *)

Section Bodies.
Context (env : Env) (os : WriteOS) (record : Record_) (gate : ExecutionApprovalGate)
  (run : RunRecord) (version : WorkflowVersion) (worker : WorkerRecord).

Lemma fixtureWriteTask_cleared o task :
  m_rel (cleared_changes (p_ID record) (t_RunID task))
    (fixtureWriteTask env os record o gate run version worker task).
Proof.
  unfold fixtureWriteTask, fixtureWriteTarget. cbv zeta. rel_split.
Qed.

Lemma managedWriteTask_cleared o task :
  m_rel (cleared_changes (p_ID record) (t_RunID task))
    (managedWriteTask env os record o gate run version worker task).
Proof.
  unfold managedWriteTask, managedWriteTarget. cbv zeta. rel_split.
Qed.

Lemma fixtureWriteBody_changes o :
  eg_Status gate <> "pass" ->
  m_rel (changes (p_ID record)) (fixtureWriteBody env os record o gate run version worker).
Proof.
  intros H. unfold fixtureWriteBody. apply String.eqb_neq in H. rewrite H. cbn. rel_split.
Qed.

Lemma fixtureWriteBody_cleared o :
  m_rel (cleared_changes (p_ID record) (r_ID run))
    (fixtureWriteBody env os record o gate run version worker).
Proof.
  unfold fixtureWriteBody. cbv zeta. destruct (eg_Status gate <>s "pass"); [rel_split|].
  destruct (negb _); [rel_split|].
  destruct (missingWorkerCapabilities _ _); [|rel_split].
  apply m_rel_bind; [exact _|rel_split|]. intros db.
  destruct (canProjectCapabilityInTx _ _ _) as [[] reason]; [|rel_split].
  next_task run; [|rel_split]. apply fixtureWriteTask_cleared.
Qed.

Lemma managedWriteBody_changes o :
  eg_Status gate <> "pass" ->
  m_rel (changes (p_ID record)) (managedWriteBody env os record o gate run version worker).
Proof.
  intros H. unfold managedWriteBody. apply String.eqb_neq in H. rewrite H. cbn. rel_split.
Qed.

Lemma managedWriteBody_cleared o :
  m_rel (cleared_changes (p_ID record) (r_ID run))
    (managedWriteBody env os record o gate run version worker).
Proof.
  unfold managedWriteBody. cbv zeta. destruct (eg_Status gate <>s "pass"); [rel_split|].
  destruct (negb _); [rel_split|].
  destruct (missingWorkerCapabilities _ _); [|rel_split].
  apply m_rel_bind; [exact _|rel_split|]. intros db.
  destruct (canProjectCapabilityInTx _ _ _) as [[] reason]; [|rel_split].
  destruct (canProjectCapabilityInTx _ _ _) as [[] reason']; [|rel_split].
  next_task run; [|rel_split]. apply managedWriteTask_cleared.
Qed.
End Bodies.

(** ** Transactions *)

Lemma fixtureWriteTx_changes env os record o hash :
  m_rel (changes (p_ID record)) (fixtureWriteTx env os record o hash).
Proof.
  apply (gated_changes env (fun _ => None) record _ (fwo_RunID o) (fwo_WorkerKey o)
    "worker.fixture_project_write" (fwo_IdempotencyKey o) hash
    (fun version gate => r <- loadFixtureProjectWriteByCommandResponse record version gate
                               (fwo_IdempotencyKey o) ;; ret (Ok (r, None)))
    (fixtureWriteBody env os record o)).
  - intros. reads_split.
  - intros. by apply fixtureWriteBody_changes.
  - intros. apply fixtureWriteBody_cleared.
Qed.

Lemma managedWriteTx_changes env os record o hash :
  m_rel (changes (p_ID record)) (managedWriteTx env os record o hash).
Proof.
  apply (gated_changes env (fun _ => None) record _ (mgo_RunID o) (mgo_WorkerKey o)
    "worker.managed_generated_write" (mgo_IdempotencyKey o) hash
    (fun version gate => r <- loadManagedGeneratedWriteByCommandResponse record version gate
                               (mgo_IdempotencyKey o) ;; ret (Ok (r, None)))
    (managedWriteBody env os record o)).
  - intros. reads_split.
  - intros. by apply managedWriteBody_changes.
  - intros. apply managedWriteBody_cleared.
Qed.
