(* ===== verification/StatusSteps.v ===== *)
(** * Archive previews and the status commands are sequences of changes

    An archive preview records its command, one event and one audit event; its
    replay only reads.  Applying a status projection and recording an export insert a snapshot and
    a projection besides their command and its trail; the gate and the replay
    only read, and the writer works on the files alone. *)

From stdpp Require Import base list strings numbers relations gmap.
From Stdlib Require Import ZArith Lia String.
From S2P Require Import Prelude GoString Json Schema Tx Command ArtifactArchive StatusFiles StatusShape StatusStore.
From S2P Require Import StatusProjection StatusApply Steps.

(** ** The archive preview *)

Lemma insertArtifactArchivePreviewEvent_changes env r o :
  m_rel (changes (p_ID (ah_Project r))) (insertArtifactArchivePreviewEvent env r o).
Proof.
  unfold insertArtifactArchivePreviewEvent. rel_split. apply insert_change. intros db.
  by apply ChEventNew.
Qed.

Lemma insertArtifactArchivePreviewAuditEvent_changes env r o :
  m_rel (changes (p_ID (ah_Project r))) (insertArtifactArchivePreviewAuditEvent env r o).
Proof.
  unfold insertArtifactArchivePreviewAuditEvent. rel_split. apply insert_change. intros db.
  by apply ChAuditNew.
Qed.

Lemma listProjectArtifactsForArchivePreview_reads pid o :
  reads (listProjectArtifactsForArchivePreview pid o).
Proof. unfold listProjectArtifactsForArchivePreview. reads_split. Qed.

Lemma replayArchivePreview_reads record key : reads (replayArchivePreview record key).
Proof. unfold replayArchivePreview, loadArtifactArchivePreviewByCommandResponse. reads_split. Qed.
#[export] Hint Resolve listProjectArtifactsForArchivePreview_reads replayArchivePreview_reads : reads.

Lemma archivePreviewBody_changes env record o :
  m_rel (changes (p_ID record)) (archivePreviewBody env record o).
Proof.
  unfold archivePreviewBody. cbv zeta. rel_split.
  - apply (insertArtifactArchivePreviewEvent_changes env (buildArtifactArchivePreview env record _)).
  - apply (insertArtifactArchivePreviewAuditEvent_changes env
             (set_archive_event _ (buildArtifactArchivePreview env record _))).
Qed.

Lemma archivePreview_tx_changes env record o hash :
  m_rel (changes (p_ID record))
    (with_command env (p_ID record) artifactArchivePreviewCommandType (av_IdempotencyKey o) hash
       (replayArchivePreview record (av_IdempotencyKey o)) (archivePreviewBody env record o)).
Proof.
  apply with_command_changes; [apply replayArchivePreview_reads|apply archivePreviewBody_changes].
Qed.

(** ** Reads of the status commands *)

Lemma LatestImportSnapshot_reads pid : reads (LatestImportSnapshot pid).
Proof. unfold LatestImportSnapshot, scan_snapshot. reads_split. Qed.

Lemma StatusProjectionApplyGate_reads env os record o :
  reads (StatusProjectionApplyGate_ env os record o).
Proof.
  unfold StatusProjectionApplyGate_, StatusProjectionAuthorizationPreview_.
  apply reads_bind; [|by intros]. apply reads_bind; [apply LatestImportSnapshot_reads|].
  intros s w1. cbv zeta. by destruct (captureStatusProjectionProtectedPathFingerprint _ _ _ _ _).
Qed.

Lemma replayApply_reads env record key :
  reads (loadStatusProjectionApplyByCommandResponse env record key).
Proof. unfold loadStatusProjectionApplyByCommandResponse. reads_split. Qed.

#[export] Hint Resolve LatestImportSnapshot_reads StatusProjectionApplyGate_reads
  replayApply_reads : reads.

(** ** Writes *)

Lemma handlePostWriteError_ok os pre wrote hash step {A} (m : M A) w a w' :
  handlePostWriteError os pre wrote hash step m w = (Ok a, w') -> m w = (Ok a, w').
Proof.
  unfold handlePostWriteError. destruct (so_DBError os step); [|done].
  destruct wrote; [|done]. by destruct (rollbackStatusProjectionApplyFile _ _ _ _) as [[]].
Qed.

Lemma m_rel_handlePostWriteError R os pre wrote hash step {A} (m : M A) :
  m_rel R m -> m_rel R (handlePostWriteError os pre wrote hash step m).
Proof. intros Hm w a w' E. apply handlePostWriteError_ok in E. by eapply Hm. Qed.

Lemma m_rel_run_writer R `{!PreOrder R} os record snapshot o writer r :
  m_rel R (run_writer os record snapshot o writer r).
Proof.
  intros w a w' E. unfold run_writer in E. destruct (result_allowed r); [|by injection E as _ <-].
  destruct (runStatusProjectionApplyWriter _ _ _ _ _ _ _ _) as [[x|e] files]; [|done].
  injection E as _ <-. reflexivity.
Qed.
#[export] Hint Resolve m_rel_run_writer : rel.

Lemma insert_mirror_snapshot_changes env pid summary hash path :
  m_rel (changes pid) (insert_mirror_snapshot env pid summary hash path).
Proof.
  unfold insert_mirror_snapshot. rel_split. apply insert_change. intros db. by apply ChSnapshotNew.
Qed.
#[export] Hint Resolve insert_mirror_snapshot_changes : rel.

Lemma insertAppliedStatusProjection_changes env record snapshot o r :
  m_rel (changes (p_ID record)) (insertAppliedStatusProjection env record snapshot o r).
Proof.
  unfold insertAppliedStatusProjection. rel_split. apply insert_change. intros db.
  by apply ChProjectionNew.
Qed.

Lemma insertStatusProjectionApplyEvent_changes pid env r o :
  p_ID (sr_Project r) = pid -> m_rel (changes pid) (insertStatusProjectionApplyEvent env r o).
Proof.
  intros <-. unfold insertStatusProjectionApplyEvent. rel_split. apply insert_change. intros db.
  by apply ChEventNew.
Qed.

Lemma insertStatusProjectionApplyAuditEvent_changes pid env r o :
  p_ID (sr_Project r) = pid -> m_rel (changes pid) (insertStatusProjectionApplyAuditEvent env r o).
Proof.
  intros <-. unfold insertStatusProjectionApplyAuditEvent. rel_split. apply insert_change.
  intros db. by apply ChAuditNew.
Qed.

Lemma record_apply_changes env os record snapshot o pre wrote r :
  sr_Project r = record ->
  m_rel (changes (p_ID record)) (record_apply env os record snapshot o pre wrote r).
Proof.
  intros Hr. unfold record_apply. cbv zeta.
  repeat match goal with
  | |- m_rel _ (bind _ _) => apply m_rel_bind; [exact _| |intros ?]
  | |- m_rel _ (handlePostWriteError _ _ _ _ _ _) => apply m_rel_handlePostWriteError
  end.
  - apply insert_mirror_snapshot_changes.
  - apply insertAppliedStatusProjection_changes.
  - apply insertStatusProjectionApplyEvent_changes. cbn. by rewrite Hr.
  - apply insertStatusProjectionApplyAuditEvent_changes. cbn. by rewrite Hr.
  - apply complete_changes.
  - rel_split.
Qed.

(** The writer's part keeps the project of the result. *)
Lemma run_writer_project os record snapshot o writer r w pre wrote r' w' :
  run_writer os record snapshot o writer r w = (Ok (pre, wrote, r'), w') ->
  sr_Project r' = sr_Project r.
Proof.
  unfold run_writer. destruct (result_allowed r); [|by intros [= _ _ <- _]].
  destruct (runStatusProjectionApplyWriter _ _ _ _ _ _ _ _) as [[x|e] files] eqn:E; [|done].
  intros [= -> _]. revert E. unfold runStatusProjectionApplyWriter, writer_failed, check_written,
    refuse_written. cbv zeta.
  repeat (case_match; try done); intros [= _ _ <- _]; done.
Qed.

Lemma evaluate_project env rows record snapshot o gate :
  sr_Project (evaluateStatusProjectionApply env rows record snapshot o gate) = record.
Proof. unfold evaluateStatusProjectionApply. cbv zeta. by destruct (apply_blockers _ _ _ _). Qed.

Lemma applyBody_changes env os record snapshot o writer gate :
  m_rel (changes (p_ID record)) (applyBody env os record snapshot o writer gate).
Proof.
  unfold applyBody. cbv zeta. apply m_rel_bind; [exact _|apply m_rel_get_db; exact _|intros db].
  intros w x w' E. apply bind_ok in E as ([[pre wrote] r] & w1 & Ew & E).
  etransitivity; [by apply (m_rel_run_writer (changes (p_ID record)) _ _ _ _ _ _ _ _ _ Ew)|].
  apply run_writer_project in Ew. rewrite evaluate_project in Ew.
  by apply (record_apply_changes _ _ _ _ _ _ _ _ Ew) in E.
Qed.

Lemma applyTx_changes env os record o writer :
  m_rel (changes (p_ID record)) (applyTx env os record o writer).
Proof.
  unfold applyTx. cbv zeta.
  apply m_rel_bind; [exact _|apply reads_changes, LatestImportSnapshot_reads|intros snapshot].
  apply m_rel_bind; [exact _|apply reads_changes, StatusProjectionApplyGate_reads|intros gate].
  apply with_command_changes; [reads_split|apply applyBody_changes].
Qed.

(** ** Exports *)

Lemma statusExportBody_changes env pid path summary hash key :
  m_rel (changes pid) (statusExportBody env pid path summary hash key).
Proof.
  unfold statusExportBody.
  apply m_rel_bind; [exact _|apply insert_mirror_snapshot_changes|intros s].
  apply m_rel_bind; [exact _|apply insert_change; intros db; by apply ChAuditNew|intros a].
  apply m_rel_bind; [exact _|apply insert_change; intros db; by apply ChProjectionNew|intros p].
  rel_split.
Qed.

Lemma statusExport_tx_changes env pid path summary hash :
  let key := statusProjectionWriteIdempotencyKey path hash (marshal (JObj summary)) in
  m_rel (changes pid)
    (with_command env pid "project.status_projection.write" key
       (statusProjectionWriteRequestHash path summary hash) (ret (Ok tt))
       (statusExportBody env pid path summary hash key)).
Proof. apply with_command_changes; [reads_split|apply statusExportBody_changes]. Qed.
