(* ===== verification/System.v ===== *)
(** * The system: commands in any order

    The store as a state machine whose steps are the worker, lease, run-once,
    run-control, runner-preview, archive-preview, status and execution
    commands, issued in any order, by any caller, with any options and in any
    environment.  The properties here hold of every state such a sequence
    reaches; they are proved by induction over the elementary changes of
    [Steps]. *)

From stdpp Require Import base list strings numbers relations gmap.
From Stdlib Require Import ZArith Lia String.
From S2P Require Import Prelude GoString Json Schema Tx Command Capability History Worker.
From S2P Require Import Lease FilePath RunOnce RunControl Runner EnginePreview ReadOnlyVerify.
From S2P Require Import ApprovedWrite FixtureExecution ProjectFile FixtureWrite ManagedWrite ArtifactArchive.
From S2P Require Import StatusFiles StatusStore StatusProjection StatusApply.
From S2P Require Import Demo LeaseSpec RunControlSpec Steps ExecutionSteps WriteSteps StatusSteps.

(** ** Commands *)

Inductive command : Type :=
| CRegisterWorker (record : Record_) (o : RegisterWorkerOptions)
| CWorkerHeartbeat (record : Record_) (workerKey : string) (o : WorkerHeartbeatOptions)
| CAcquireLease (record : Record_) (o : AcquireLeaseOptions)
| CReleaseLease (record : Record_) (o : ReleaseLeaseOptions)
| CRecoverLeases (record : Record_) (o : RecoverLeasesOptions)
| CRunWorkerOnce (record : Record_) (o : WorkerRunOnceOptions)
| CControlRun (runID : Z) (o : RunControlOptions)
| CPreviewRunner (record : Record_) (label : string) (o : RunnerPreviewOptions)
| CQueueVerify (record : Record_) (label : string) (o : ReadOnlyVerifyQueueOptions)
| CVerifyReadOnly (os : OS) (record : Record_) (o : ReadOnlyVerifyOptions)
| CQueueArtifact (record : Record_) (label : string) (o : ApprovedArtifactWriteQueueOptions)
| CWriteArtifact (record : Record_) (o : ApprovedArtifactWriteOptions)
| CQueueFixture (record : Record_) (label : string) (o : FixtureExecutionQueueOptions)
| CExecuteFixture (activeConfig : Z -> option ProjectConfigRecord) (record : Record_)
    (o : FixtureExecutionOptions)
| CQueueFixtureWrite (record : Record_) (label : string) (o : FixtureProjectWriteQueueOptions)
| CWriteFixture (os : WriteOS) (record : Record_) (o : FixtureProjectWriteOptions)
| CQueueManagedWrite (record : Record_) (label : string) (o : ManagedGeneratedWriteQueueOptions)
| CWriteManaged (os : WriteOS) (record : Record_) (o : ManagedGeneratedWriteOptions)
| CArchivePreview (record : Record_) (o : ArtifactArchivePreviewOptions)
| CApplyStatus (os : StatusOS) (record : Record_) (o : ApplyStatusProjectionOptions)
| CRecordStatusExport (record : Record_) (path : string) (summary : jmap) (sourceHash : string).

(** The state a command leaves, whether it succeeds or fails *)
Definition exec (env : Env) (c : command) (w : World) : World :=
  match c with
  | CRegisterWorker record o => snd (RegisterWorker env record o w)
  | CWorkerHeartbeat record key o => snd (RecordWorkerHeartbeat env record key o w)
  | CAcquireLease record o => snd (AcquireLease env record o w)
  | CReleaseLease record o => snd (ReleaseLease env record o w)
  | CRecoverLeases record o => snd (RecoverExpiredLeases env record o w)
  | CRunWorkerOnce record o => snd (RunWorkerOnce env record o w)
  | CControlRun runID o => snd (ControlRun env runID o w)
  | CPreviewRunner record label o => snd (PreviewRunner env record label o w)
  | CQueueVerify record label o => snd (QueueReadOnlyVerify env record label o w)
  | CVerifyReadOnly os record o => snd (VerifyReadOnly env os record o w)
  | CQueueArtifact record label o => snd (QueueApprovedArtifactWrite env record label o w)
  | CWriteArtifact record o => snd (WriteApprovedArtifact env record o w)
  | CQueueFixture record label o => snd (QueueFixtureExecution env record label o w)
  | CExecuteFixture ac record o => snd (ExecuteFixture env ac record o w)
  | CQueueFixtureWrite record label o => snd (QueueFixtureProjectWrite env record label o w)
  | CWriteFixture os record o => snd (WriteFixtureProject env os record o w)
  | CQueueManagedWrite record label o => snd (QueueManagedGeneratedWrite env record label o w)
  | CWriteManaged os record o => snd (WriteManagedGenerated env os record o w)
  | CArchivePreview record o => snd (ArtifactArchivePreview env record o w)
  | CApplyStatus os record o => snd (ApplyStatusProjection env os record o w)
  | CRecordStatusExport record path summary sourceHash =>
      snd (RecordStatusExport env (p_ID record) path summary sourceHash w)
  end.

Inductive step (w : World) : World -> Prop :=
| Step env c : step w (exec env c w).

Abbreviation steps := (rtc step).

(** A database before any of these commands ran: no commands, workers, leases
    or history; projects, runs and tasks may exist, with sound keys. *)
Definition initial (w : World) : Prop :=
  keys_ok (wd_db w)
  /\ t_rows (db_command_requests (wd_db w)) = [] /\ t_rows (db_workers (wd_db w)) = []
  /\ t_rows (db_leases (wd_db w)) = [].

Definition reachable (w : World) : Prop := exists w0, initial w0 /\ steps w0 w.

(** ** Every command is a sequence of changes *)

Lemma transact_changes {A} pid (m : M (res error A)) w :
  m_rel (changes pid) m -> changes pid (wd_db w) (wd_db (snd (transact m w))).
Proof.
  intros Hm. destruct (transact m w) as [r w'] eqn:E. cbn.
  exact (transact_rel (changes pid) m w r w' Hm E).
Qed.

Lemma next_workerLifecycle_db w n w1 :
  next_workerLifecycle w = (n, w1) -> wd_db w1 = wd_db w.
Proof. by intros [= _ <-]. Qed.

Lemma next_leaseRecover_db w n w1 :
  next_leaseRecover w = (n, w1) -> wd_db w1 = wd_db w.
Proof. by intros [= _ <-]. Qed.

Lemma RegisterWorker_changes env record o w :
  changes (p_ID record) (wd_db w) (wd_db (snd (RegisterWorker env record o w))).
Proof.
  unfold RegisterWorker. destruct (_ =s ""); cbn [workerRegisterIdempotencyKey].
  - unfold workerRegisterIdempotencyKey. destruct (next_workerLifecycle w) as [n w1] eqn:E.
    rewrite <- (next_workerLifecycle_db _ _ _ E).
    apply transact_changes, with_command_changes; [apply replayWorker_reads|].
    apply registerBody_changes.
  - apply transact_changes, with_command_changes; [apply replayWorker_reads|].
    apply registerBody_changes.
Qed.

Lemma RecordWorkerHeartbeat_changes env record key o w :
  changes (p_ID record) (wd_db w) (wd_db (snd (RecordWorkerHeartbeat env record key o w))).
Proof.
  unfold RecordWorkerHeartbeat. destruct (_ =s ""); [reflexivity|]. destruct (_ =s "").
  - unfold workerHeartbeatIdempotencyKey. destruct (next_workerLifecycle w) as [n w1] eqn:E.
    rewrite <- (next_workerLifecycle_db _ _ _ E).
    apply transact_changes, with_command_changes; [apply replayWorker_reads|].
    apply heartbeatBody_changes.
  - apply transact_changes, with_command_changes; [apply replayWorker_reads|].
    apply heartbeatBody_changes.
Qed.

Lemma AcquireLease_changes env record o w :
  changes (p_ID record) (wd_db w) (wd_db (snd (AcquireLease env record o w))).
Proof.
  apply transact_changes, with_command_changes; [apply replayLease_reads|].
  apply acquireBody_changes.
Qed.

Lemma ReleaseLease_changes env record o w :
  changes (p_ID record) (wd_db w) (wd_db (snd (ReleaseLease env record o w))).
Proof.
  apply transact_changes, with_command_changes; [apply replayLease_reads|].
  apply releaseBody_changes.
Qed.

Lemma RecoverExpiredLeases_changes env record o w :
  changes (p_ID record) (wd_db w) (wd_db (snd (RecoverExpiredLeases env record o w))).
Proof.
  unfold RecoverExpiredLeases. destruct (_ =s ""); cbn [leaseRecoverIdempotencyKey].
  - unfold leaseRecoverIdempotencyKey. destruct (next_leaseRecover w) as [n w1] eqn:E.
    rewrite <- (next_leaseRecover_db _ _ _ E).
    apply transact_changes, with_command_changes; [apply replayLeases_reads|].
    apply recoverBody_changes.
  - apply transact_changes, with_command_changes; [apply replayLeases_reads|].
    apply recoverBody_changes.
Qed.

Lemma RunWorkerOnce_changes env record o w :
  changes (p_ID record) (wd_db w) (wd_db (snd (RunWorkerOnce env record o w))).
Proof. apply transact_changes, runOnceBody_changes. Qed.

Lemma VerifyReadOnly_changes env os record o w :
  changes (p_ID record) (wd_db w) (wd_db (snd (VerifyReadOnly env os record o w))).
Proof.
  unfold VerifyReadOnly. destruct (_ <=? 0); [reflexivity|].
  apply transact_changes, verifyTx_changes.
Qed.

Lemma WriteApprovedArtifact_changes env record o w :
  changes (p_ID record) (wd_db w) (wd_db (snd (WriteApprovedArtifact env record o w))).
Proof.
  unfold WriteApprovedArtifact. destruct (_ <=? 0); [reflexivity|].
  apply transact_changes, artifactTx_changes.
Qed.

Lemma ExecuteFixture_changes env ac record o w :
  changes (p_ID record) (wd_db w) (wd_db (snd (ExecuteFixture env ac record o w))).
Proof.
  unfold ExecuteFixture. destruct (_ <=? 0); [reflexivity|].
  apply transact_changes, fixtureTx_changes.
Qed.

Lemma WriteFixtureProject_changes env os record o w :
  changes (p_ID record) (wd_db w) (wd_db (snd (WriteFixtureProject env os record o w))).
Proof.
  unfold WriteFixtureProject. destruct (_ <=? 0); [reflexivity|].
  apply transact_changes, fixtureWriteTx_changes.
Qed.

Lemma WriteManagedGenerated_changes env os record o w :
  changes (p_ID record) (wd_db w) (wd_db (snd (WriteManagedGenerated env os record o w))).
Proof.
  unfold WriteManagedGenerated. destruct (_ <=? 0); [reflexivity|].
  apply transact_changes, managedWriteTx_changes.
Qed.

Lemma ApplyStatusProjection_changes env os record o w :
  changes (p_ID record) (wd_db w) (wd_db (snd (ApplyStatusProjection env os record o w))).
Proof.
  unfold ApplyStatusProjection. cbv zeta. destruct (apo_Writer _); [|reflexivity].
  apply transact_changes, applyTx_changes.
Qed.

Lemma RecordStatusExport_changes env pid path summary sourceHash w :
  changes pid (wd_db w) (wd_db (snd (RecordStatusExport env pid path summary sourceHash w))).
Proof. apply transact_changes, statusExport_tx_changes. Qed.

(** The project a command works on; run control finds it through the run. *)
Definition command_project (c : command) (db : DB) : Z :=
  match c with
  | CRegisterWorker record _ | CWorkerHeartbeat record _ _ | CAcquireLease record _
  | CReleaseLease record _ | CRecoverLeases record _ | CRunWorkerOnce record _
  | CPreviewRunner record _ _ | CQueueVerify record _ _ | CVerifyReadOnly _ record _
  | CQueueArtifact record _ _ | CWriteArtifact record _ | CQueueFixture record _ _
  | CExecuteFixture _ record _ | CQueueFixtureWrite record _ _ | CWriteFixture _ record _
  | CQueueManagedWrite record _ _ | CWriteManaged _ record _
  | CArchivePreview record _ | CApplyStatus _ record _ | CRecordStatusExport record _ _ _ =>
      p_ID record
  | CControlRun runID _ =>
      match find_run db runID with Some run => r_ProjectID run | None => 0 end
  end.

Lemma find_project_id db id p : find_project db id = Some p -> p_ID p = id.
Proof.
  unfold find_project. destruct (table_select _ _) as [|p0 l] eqn:E; [done|]. intros [= <-].
  assert (Hin : In p0 (table_select (fun p => p_ID p =? id) (db_projects db)))
    by (rewrite E; by left).
  apply table_select_In in Hin as [_ Hin]. by bool_prop.
Qed.

Lemma ControlRun_changes env runID o w :
  changes (command_project (CControlRun runID o) (wd_db w)) (wd_db w)
    (wd_db (snd (ControlRun env runID o w))).
Proof.
  unfold ControlRun. destruct (_ <=? 0); [reflexivity|].
  unfold transact, controlTx, bind at 1. rewrite loadRunForUpdate_eq. cbn [command_project].
  destruct (find_run _ _) as [run|]; [|reflexivity]. unfold bind at 1.
  rewrite loadProjectRecordByID_eq. destruct (_ <=? 0); [reflexivity|].
  destruct (find_project _ _) as [record|] eqn:Ep; [|reflexivity].
  apply find_project_id in Ep. rewrite <- Ep.
  destruct (with_command _ _ _ _ _ _ _ w) as [[r|e] w'] eqn:E; [|reflexivity].
  eapply with_command_changes; [| |exact E]; [apply replayControl_reads|].
  apply controlBody_changes.
Qed.

Lemma exec_changes env c w :
  changes (command_project c (wd_db w)) (wd_db w) (wd_db (exec env c w)).
Proof.
  destruct c; cbn [exec]; first
    [ apply RegisterWorker_changes | apply RecordWorkerHeartbeat_changes
    | apply AcquireLease_changes | apply ReleaseLease_changes
    | apply RecoverExpiredLeases_changes | apply RunWorkerOnce_changes
    | apply ControlRun_changes | apply VerifyReadOnly_changes
    | apply WriteApprovedArtifact_changes | apply ExecuteFixture_changes
    | apply WriteFixtureProject_changes | apply WriteManagedGenerated_changes
    | apply ApplyStatusProjection_changes | apply RecordStatusExport_changes
    | apply transact_changes; first [ apply runnerPreviewTx_changes
        | apply queueVerifyTx_changes | apply queueArtifactTx_changes
        | apply queueFixtureTx_changes | apply queueFixtureWriteTx_changes
        | apply queueManagedWriteTx_changes | apply archivePreview_tx_changes ] ].
Qed.

(** Rule induction over the system: what every elementary change preserves
    holds along every sequence of commands. *)
Lemma step_keys_ok w w' : step w w' -> keys_ok (wd_db w) -> keys_ok (wd_db w').
Proof.
  intros [env c] Hk. eapply rtc_keys_ok; [|exact Hk]. by apply exec_changes.
Qed.

Lemma steps_keys_ok w w' : steps w w' -> keys_ok (wd_db w) -> keys_ok (wd_db w').
Proof. induction 1; eauto using step_keys_ok. Qed.

Lemma steps_rel (R : DB -> DB -> Prop) `{!PreOrder R} w w' :
  (forall pid a b, change pid a b -> R a b) ->
  keys_ok (wd_db w) -> steps w w' -> R (wd_db w) (wd_db w').
Proof.
  intros HR Hk Hs. induction Hs as [w|w w1 w' H1 H2 IH]; [reflexivity|].
  pose proof (step_keys_ok _ _ H1 Hk) as Hk1. specialize (IH Hk1). etransitivity; [|exact IH].
  destruct H1 as [env c]. eapply changes_rel; [exact _|apply HR|]. by apply exec_changes.
Qed.

Lemma reachable_inv (I : DB -> Prop) w :
  (forall w0, initial w0 -> I (wd_db w0)) ->
  (forall pid a b, change pid a b -> I a -> I b) ->
  reachable w -> I (wd_db w).
Proof.
  intros H0 Hc (w0 & Hi & Hs). pose proof (steps_rel (keeps I) w0 w Hc (proj1 Hi) Hs) as HI.
  apply HI, H0, Hi.
Qed.

(** ** At most one active lease per task *)

Definition active (l : LeaseRecord) : Prop := l_Status l = "active".

Definition active_unique (db : DB) : Prop :=
  forall l1 l2, In l1 (t_rows (db_leases db)) -> In l2 (t_rows (db_leases db)) ->
    active l1 -> active l2 -> l_RunTaskID l1 <> 0 -> l_RunTaskID l1 = l_RunTaskID l2 ->
    l_ID l1 = l_ID l2.

(** No active lease of a task exists when none blocks it. *)
Lemma blocks_task_nil taskID (t : table LeaseRecord) l :
  table_select (blocks_task taskID) t = [] -> taskID <> 0 ->
  In l (t_rows t) -> active l -> l_RunTaskID l <> taskID.
Proof.
  intros E Hne Hl Ha Et. assert (Hin : In l (table_select (blocks_task taskID) t)).
  { apply table_select_In. split; [done|]. unfold blocks_task. rewrite Et, Ha, Z.eqb_refl.
    by rewrite (proj2 (Z.eqb_neq _ _)). }
  by rewrite E in Hin.
Qed.

Lemma change_active_unique pid db db' :
  change pid db db' -> active_unique db -> active_unique db'.
Proof.
  intros Hc Hu. destruct Hc as [| | | | | | | |taskID mkrow Hrow Hsel|p now st md Hp| | | | | | | | | ];
    try exact Hu; unfold active_unique; cbn -[table_insert table_update];
    intros l1 l2 H1 H2 A1 A2 Hne Et.
  - apply table_insert_In in H1, H2. destruct (Hrow (t_next (db_leases db))) as (_ & _ & Ht & _).
    destruct H1 as [H1| ->], H2 as [H2| ->]; try done.
    + by eapply Hu.
    + exfalso. eapply blocks_task_nil; [exact Hsel| |exact H1|exact A1|]; congruence.
    + exfalso. eapply blocks_task_nil; [exact Hsel| |exact H2|exact A2|]; congruence.
  - apply table_update_In in H1 as (r1 & H1 & ->), H2 as (r2 & H2 & ->).
    assert (Hact : forall r, In r (t_rows (db_leases db)) ->
      active (if p r then lease_ended now st md r else r) -> active r).
    { intros r Hr. destruct (p r) eqn:Ep; [|done]. by destruct (Hp r Hr Ep). }
    assert (Hid : forall r, l_ID (if p r then lease_ended now st md r else r) = l_ID r)
      by (intros r; by destruct (p r)).
    assert (Htask : forall r, l_RunTaskID (if p r then lease_ended now st md r else r)
                              = l_RunTaskID r) by (intros r; by destruct (p r)).
    rewrite !Hid. rewrite !Htask in *. eauto.
Qed.

(** ** Leases only end *)

(** How one lease may change: its identity and terms are fixed; only an active
    lease changes, and a lease that changed carries its release time. *)
Definition lease_evolves (l l' : LeaseRecord) : Prop :=
  (l_ID l', l_ProjectID l', l_RunID l', l_RunTaskID l', l_WorkflowItemID l')
  = (l_ID l, l_ProjectID l, l_RunID l, l_RunTaskID l, l_WorkflowItemID l)
  /\ (l_WorkerID l', l_LeaseKind l', l_AcquiredAt l', l_ExpiresAt l', l_HeartbeatAt l')
     = (l_WorkerID l, l_LeaseKind l, l_AcquiredAt l, l_ExpiresAt l, l_HeartbeatAt l)
  /\ (l_AllowedCapabilities l', l_Scope l') = (l_AllowedCapabilities l, l_Scope l)
  /\ (l' = l \/ (active l /\ l_ReleasedAt l' <> None)).

#[export] Instance lease_evolves_preorder : PreOrder lease_evolves.
Proof.
  split.
  - intros l. unfold lease_evolves. tauto.
  - intros a b c (H1 & H2 & H3 & H4) (K1 & K2 & K3 & K4). unfold lease_evolves.
    rewrite K1, K2, K3. repeat (split; [done|]).
    destruct K4 as [->|[Hb K4]]; [done|]. destruct H4 as [->|[Ha H4]]; auto.
Qed.

Definition leases_evolve (db db' : DB) : Prop :=
  Forall (fun l => exists l', In l' (t_rows (db_leases db')) /\ lease_evolves l l')
    (t_rows (db_leases db)).

#[export] Instance leases_evolve_preorder : PreOrder leases_evolve.
Proof.
  split.
  - intros db. apply List.Forall_forall. intros l Hl. exists l. split; [done|reflexivity].
  - intros a b c H1 H2. apply List.Forall_forall. intros l Hl.
    destruct (Forall_In _ _ _ H1 Hl) as (l1 & Hl1 & E1).
    destruct (Forall_In _ _ _ H2 Hl1) as (l2 & Hl2 & E2).
    exists l2. split; [done|]. by etransitivity.
Qed.

Lemma change_leases_evolve pid db db' : change pid db db' -> leases_evolve db db'.
Proof.
  intros Hc. apply List.Forall_forall. intros l Hl.
  destruct Hc as [| | | | | | | |taskID mkrow Hrow Hsel|p now st md Hp| | | | | | | | | ];
    try (exists l; split; [done|reflexivity]).
  - exists l. split; [|reflexivity]. apply table_insert_In. by left.
  - exists (if p l then lease_ended now st md l else l). split; [apply table_update_In; eauto|].
    destruct (p l) eqn:Ep; [|reflexivity]. unfold lease_evolves. cbn.
    repeat (split; [done|]). right. split; [|done]. by destruct (Hp l Hl Ep).
Qed.

(** An ended lease carries its release time. *)
Definition ended_released (db : DB) : Prop :=
  Forall (fun l => active l \/ l_ReleasedAt l <> None) (t_rows (db_leases db)).

Lemma change_ended_released pid db db' :
  change pid db db' -> ended_released db -> ended_released db'.
Proof.
  intros Hc H. destruct Hc as [| | | | | | | |taskID mkrow Hrow Hsel|p now st md Hp| | | | | | | | | ];
    try exact H; unfold ended_released in *; cbn.
  - apply Forall_app. split; [done|]. constructor; [|constructor]. left.
    by destruct (Hrow (t_next (db_leases db))) as (_ & _ & _ & ? & _).
  - rewrite Forall_map. eapply List.Forall_impl; [|exact H]. intros l Hl. cbn in *.
    by destruct (p l); [right|].
Qed.

(** ** History, tasks, runs and workers *)

Lemma change_append_only pid db db' : change pid db db' -> append_only db db'.
Proof.
  destruct 1; first [ by apply append_only_same | split; cbn; eexists; first
    [ reflexivity | by rewrite app_nil_r ] ].
Qed.

(** A task keeps everything but its status, its metadata and the time of the
    last change. *)
Definition task_evolves (t t' : RunTaskRecord) : Prop :=
  t' = task_with_metadata (t_UpdatedAt t') (t_Metadata t')
         (task_with_status (t_UpdatedAt t') (t_Status t') t)
  /\ (t_Status t' = t_Status t \/ task_status_written (t_Status t')).

(** A list keeps its elements in place, each related to what it was; new ones
    come after them. *)
Definition extends {A} (P : A -> A -> Prop) (l l' : list A) : Prop :=
  exists kept new, l' = kept ++ new /\ Forall2 P l kept.

#[export] Instance extends_preorder {A} (P : A -> A -> Prop) `{!PreOrder P} :
  PreOrder (extends P).
Proof.
  split.
  - intros l. exists l, []. by rewrite app_nil_r.
  - intros a b c (k1 & n1 & -> & H1) (k2 & n2 & -> & H2).
    apply Forall2_app_inv_l in H2 as (k3 & k4 & H3 & _ & ->).
    exists k3, (k4 ++ n2). split; [by rewrite app_assoc|]. by etransitivity.
Qed.

Lemma extends_In {A} (P : A -> A -> Prop) (l l' : list A) x :
  extends P l l' -> In x l -> exists y, In y l' /\ P x y.
Proof.
  intros (kept & new & -> & H) Hin. induction H as [|a b l kept Hab H IH]; [done|].
  destruct Hin as [->|Hin]; [exists b; split; [by left|done]|].
  destruct (IH Hin) as (y & Hy & Hxy). exists y. split; [by right|done].
Qed.

(** The tables of tasks and runs keep their rows, in place. *)
Definition tasks_runs_evolve (db db' : DB) : Prop :=
  extends task_evolves (t_rows (db_run_tasks db)) (t_rows (db_run_tasks db'))
  /\ extends same_run_identity (t_rows (db_runs db)) (t_rows (db_runs db')).

#[export] Instance task_evolves_preorder : PreOrder task_evolves.
Proof.
  split.
  - intros t. split; [by destruct t|by left].
  - intros a b c [E1 S1] [E2 S2]. split; [rewrite E2, E1; done|].
    destruct S2 as [->|]; auto.
Qed.

#[export] Instance same_run_identity_preorder : PreOrder same_run_identity.
Proof.
  split; [by intros r|]. unfold same_run_identity. intros a b c. intuition congruence.
Qed.

#[export] Instance tasks_runs_evolve_preorder : PreOrder tasks_runs_evolve.
Proof.
  split; [intros db; split; reflexivity|].
  intros a b c [H1 H2] [K1 K2]. split; by etransitivity.
Qed.

Lemma extends_update {R} (P : R -> R -> Prop) `{!PreOrder P} p f (t : table R) :
  (forall r, P r (f r)) -> extends P (t_rows t) (t_rows (table_update p f t)).
Proof.
  intros Hf. eexists _, []. rewrite app_nil_r. split; [reflexivity|]. cbn.
  induction (t_rows t); cbn; constructor; [|done]. by destruct (p a).
Qed.

Lemma extends_insert {R} (P : R -> R -> Prop) `{!PreOrder P} mkrow (t : table R) :
  extends P (t_rows t) (t_rows (table_insert mkrow t)).
Proof. eexists _, _. split; reflexivity. Qed.

Lemma change_tasks_runs_evolve pid db db' : change pid db db' -> tasks_runs_evolve db db'.
Proof.
  destruct 1; try (split; reflexivity); split; try reflexivity;
    first [by apply (extends_insert _) | apply (extends_update _)].
  - intros t. by split; [destruct t|right].
  - done.
  - intros t. by split; [destruct t|left].
Qed.

Lemma change_workers_unique pid db db' :
  change pid db db' -> workers_unique db -> workers_unique db'.
Proof.
  intros Hc H. destruct Hc as [| | |key mkrow Hrow Hsel|key f Hf| | | | | | | | | | | | | | ];
    try exact H; unfold workers_unique; cbn -[table_update].
  - rewrite map_app. apply NoDup_snoc; [done|]. cbn.
    rewrite (proj2 (Hrow _)). by apply select_worker_nil.
  - rewrite update_worker_keys; [done|]. intros r. unfold worker_key_of.
    by destruct (Hf r) as (_ & -> & -> & _).
Qed.

Lemma change_commands_unique pid db db' :
  change pid db db' -> commands_unique db -> commands_unique db'.
Proof.
  intros Hc H. destruct Hc as [ct key hash now Hsel|ct key resp now| | | | | | | | | | | | | | | | | ];
    try exact H; unfold commands_unique; cbn.
  - rewrite map_app. apply NoDup_snoc; [done|]. by apply select_nil_notin.
  - rewrite map_map. erewrite map_ext; [exact H|]. intros c.
    by destruct (command_is pid ct key c).
Qed.

(** ** Projects do not reach into each other *)

(** The rows of a table that belong to other projects *)
Definition foreign {R} (proj : R -> Z) (pid : Z) (t : table R) : list R :=
  List.filter (fun r => negb (proj r =? pid)) (t_rows t).

(** Everything that carries a project id and is not [pid]'s is as it was:
    commands, workers, heartbeats, leases, attempts, artifacts, events, audit
    events, status snapshots and projections. *)
Definition isolated (pid : Z) (db db' : DB) : Prop :=
  foreign c_ProjectID pid (db_command_requests db') = foreign c_ProjectID pid (db_command_requests db)
  /\ foreign w_ProjectID pid (db_workers db') = foreign w_ProjectID pid (db_workers db)
  /\ foreign h_ProjectID pid (db_worker_heartbeats db')
     = foreign h_ProjectID pid (db_worker_heartbeats db)
  /\ foreign l_ProjectID pid (db_leases db') = foreign l_ProjectID pid (db_leases db)
  /\ foreign at_ProjectID pid (db_run_attempts db') = foreign at_ProjectID pid (db_run_attempts db)
  /\ foreign ar_ProjectID pid (db_artifacts db') = foreign ar_ProjectID pid (db_artifacts db)
  /\ foreign e_ProjectID pid (db_events db') = foreign e_ProjectID pid (db_events db)
  /\ foreign au_ProjectID pid (db_audit_events db') = foreign au_ProjectID pid (db_audit_events db)
  /\ foreign ss_ProjectID pid (db_project_status_snapshots db')
     = foreign ss_ProjectID pid (db_project_status_snapshots db)
  /\ foreign sj_ProjectID pid (db_status_projections db')
     = foreign sj_ProjectID pid (db_status_projections db).

#[export] Instance isolated_preorder pid : PreOrder (isolated pid).
Proof.
  split; unfold isolated; [by intros db|]. intros a b c H1 H2. intuition congruence.
Qed.

Lemma foreign_insert {R} (proj : R -> Z) pid mkrow (t : table R) :
  (forall id, proj (mkrow id) = pid) -> foreign proj pid (table_insert mkrow t) = foreign proj pid t.
Proof.
  intros H. unfold foreign. cbn. rewrite List.filter_app. cbn.
  by rewrite H, Z.eqb_refl, app_nil_r.
Qed.

Lemma foreign_update {R} (proj : R -> Z) pid p f (t : table R) :
  (forall r, proj (f r) = proj r) ->
  (forall r, In r (t_rows t) -> p r = true -> proj r = pid) ->
  foreign proj pid (table_update p f t) = foreign proj pid t.
Proof.
  intros Hf Hp. unfold foreign. cbn. induction (t_rows t) as [|r l IH]; [done|]. cbn.
  rewrite IH by (intros; apply Hp; [by right|done]).
  destruct (p r) eqn:E; [|done]. rewrite Hf, (Hp r (or_introl eq_refl) E), Z.eqb_refl. done.
Qed.

Lemma change_isolated pid db db' : change pid db db' -> isolated pid db db'.
Proof.
  intros Hc. destruct Hc; unfold isolated; cbn -[table_insert table_update foreign];
    repeat match goal with |- _ /\ _ => split end; try reflexivity;
    try first [ apply foreign_insert; intros id; by firstorder
          | apply foreign_update; [by intros|] ].
  - intros c _ E. unfold command_is in E. by bool_prop.
  - by apply foreign_insert; intros id; destruct (H id) as [_ [= -> _]].
  - apply foreign_update; [intros r; by destruct (H r) as (_ & ? & _)|].
    intros r _ E. unfold worker_is in E. by bool_prop.
  - intros l Hl E. by destruct (H l Hl E).
Qed.

(** ** The properties of the system *)

Lemma initial_demo : initial demo_world.
Proof.
  unfold initial. split; [|done]. unfold keys_ok.
  repeat match goal with |- _ /\ _ => split end;
    (split; [by vm_compute|split; vm_compute; repeat constructor; cbn; try lia;
       intuition discriminate]).
Qed.

Lemma exec_register env record o w :
  exec env (CRegisterWorker record o) w = snd (RegisterWorker env record o w).
Proof. reflexivity. Qed.

Lemma exec_acquire env record o w :
  exec env (CAcquireLease record o) w = snd (AcquireLease env record o w).
Proof. reflexivity. Qed.

Lemma demo_registered_steps : steps demo_world demo_registered.
Proof. apply rtc_once. unfold demo_registered. rewrite <- exec_register. apply Step. Qed.

Lemma demo_leased_steps : steps demo_world demo_leased.
Proof.
  eapply rtc_r; [apply demo_registered_steps|]. unfold demo_leased.
  rewrite <- exec_acquire. apply Step.
Qed.

Lemma demo_leased_reachable : reachable demo_leased.
Proof. exists demo_world. split; [apply initial_demo|apply demo_leased_steps]. Qed.

Lemma reachable_keys_ok w : reachable w -> keys_ok (wd_db w).
Proof. intros (w0 & Hi & Hs). eapply steps_keys_ok; [exact Hs|apply Hi]. Qed.

(** C1. In every reachable state a run task has at most one active lease. *)
Theorem active_lease_unique w l1 l2 :
  reachable w ->
  In l1 (t_rows (db_leases (wd_db w))) -> In l2 (t_rows (db_leases (wd_db w))) ->
  l_Status l1 = "active" -> l_Status l2 = "active" ->
  l_RunTaskID l1 <> 0 -> l_RunTaskID l1 = l_RunTaskID l2 ->
  l1 = l2.
Proof.
  intros Hr H1 H2 A1 A2 Hne Et.
  assert (Hu : active_unique (wd_db w)).
  { eapply reachable_inv; [|apply change_active_unique|exact Hr].
    intros w0 (_ & _ & _ & Hl) k1 k2. by rewrite Hl. }
  eapply (table_ok_inj (R:=LeaseRecord)); [|exact H1|exact H2|by apply Hu].
  apply (reachable_keys_ok _ Hr).
Qed.

Lemma active_lease_unique_witness :
  exists l, In l (t_rows (db_leases (wd_db demo_leased))) /\ l_Status l = "active"
    /\ l_RunTaskID l = 1
    /\ forall l', In l' (t_rows (db_leases (wd_db demo_leased))) -> l_Status l' = "active" ->
         l_RunTaskID l' = 1 -> l' = l.
Proof.
  eexists. assert (H : In (MkLease _ _ _ _ _ _ _ _ _ _ _ _ _ _ _)
    (t_rows (db_leases (wd_db demo_leased)))) by (vm_compute; left; reflexivity).
  split; [exact H|]. split; [reflexivity|]. split; [reflexivity|]. intros l' Hl' Ha Et.
  apply (active_lease_unique demo_leased _ _ demo_leased_reachable Hl' H Ha);
    [reflexivity|congruence|exact Et].
Defined.

(** C2. No command ever removes a lease or changes its terms (project, run, task,
    item, worker, kind, times, capabilities and scope); only an active lease
    can change, and then it carries a release time: a lease that ended is
    final. *)
Theorem lease_lifecycle w w' l :
  reachable w -> steps w w' -> In l (t_rows (db_leases (wd_db w))) ->
  exists l', In l' (t_rows (db_leases (wd_db w'))) /\ lease_evolves l l'
             /\ (l_Status l <> "active" -> l' = l).
Proof.
  intros Hr Hs Hl.
  pose proof (steps_rel leases_evolve w w' change_leases_evolve (reachable_keys_ok _ Hr) Hs) as H.
  destruct (Forall_In _ _ _ H Hl) as (l' & Hl' & He). exists l'. split; [done|]. split; [done|].
  intros Hna. destruct He as (_ & _ & _ & [->|[Ha _]]); done.
Qed.

Lemma lease_lifecycle_witness :
  exists l l', In l (t_rows (db_leases (wd_db demo_leased))) /\ l_ID l = 1
    /\ In l' (t_rows (db_leases (wd_db
         (exec demo_env (CReleaseLease demo_project demo_release) demo_leased))))
    /\ lease_evolves l l'.
Proof.
  assert (H : exists l, In l (t_rows (db_leases (wd_db demo_leased))) /\ l_ID l = 1).
  { eexists. vm_compute. split; [left; reflexivity|reflexivity]. }
  destruct H as (l & Hl & Hid).
  destruct (lease_lifecycle demo_leased _ l demo_leased_reachable (rtc_once _ _
    (Step demo_leased demo_env (CReleaseLease demo_project demo_release))) Hl)
    as (l' & Hl' & He & _). exact (ex_intro _ l (ex_intro _ l' (conj Hl (conj Hid (conj Hl' He))))).
Defined.

(** Events and audit events are append-only: what any sequence of commands
    leaves starts with the history it found. *)
Theorem history_append_only w w' :
  reachable w -> steps w w' ->
  exists newEvents newAudit,
    t_rows (db_events (wd_db w')) = t_rows (db_events (wd_db w)) ++ newEvents
    /\ t_rows (db_audit_events (wd_db w')) = t_rows (db_audit_events (wd_db w)) ++ newAudit.
Proof.
  intros Hr Hs.
  destruct (steps_rel append_only w w' change_append_only (reachable_keys_ok _ Hr) Hs)
    as [[es He] [au Ha]]. by exists es, au.
Qed.

Lemma history_append_only_witness :
  exists newEvents newAudit,
    t_rows (db_events (wd_db (exec demo_later (CRecoverLeases demo_project demo_recover) demo_leased)))
    = t_rows (db_events (wd_db demo_leased)) ++ newEvents
    /\ t_rows (db_audit_events (wd_db (exec demo_later (CRecoverLeases demo_project demo_recover)
         demo_leased))) = t_rows (db_audit_events (wd_db demo_leased)) ++ newAudit.
Proof.
  apply (history_append_only demo_leased _ demo_leased_reachable).
  apply rtc_once. constructor.
Defined.

(** C33. In every reachable state each table's ids are distinct and below its
    sequence, a project has one row per worker key and one command per
    idempotency key, and a lease that is no longer active has a release
    time. *)
Theorem reachable_invariant w :
  reachable w ->
  keys_ok (wd_db w) /\ workers_unique (wd_db w) /\ commands_unique (wd_db w)
  /\ ended_released (wd_db w).
Proof.
  intros Hr. split; [by apply reachable_keys_ok|]. split_and!.
  - eapply reachable_inv; [|apply change_workers_unique|exact Hr].
    intros w0 (_ & _ & Hw & _). unfold workers_unique. rewrite Hw. constructor.
  - eapply reachable_inv; [|apply change_commands_unique|exact Hr].
    intros w0 (_ & Hc & _). unfold commands_unique. rewrite Hc. constructor.
  - eapply reachable_inv; [|apply change_ended_released|exact Hr].
    intros w0 (_ & _ & _ & Hl). unfold ended_released. rewrite Hl. constructor.
Qed.

Lemma reachable_invariant_witness :
  reachable demo_leased /\ keys_ok (wd_db demo_leased) /\ ended_released (wd_db demo_leased).
Proof.
  split; [apply demo_leased_reachable|].
  destruct (reachable_invariant demo_leased demo_leased_reachable) as (H1 & _ & _ & H4). done.
Defined.

(** The commands never remove or reorder tasks and runs, and new ones come last; a task keeps
    everything but its status, metadata and update time, and only the statuses the
    handlers write ever appear; a run keeps its project, version, kind, risk
    and dry-run flag. *)
Theorem tasks_runs_persist w w' :
  reachable w -> steps w w' -> tasks_runs_evolve (wd_db w) (wd_db w').
Proof.
  intros Hr Hs.
  exact (steps_rel tasks_runs_evolve w w' change_tasks_runs_evolve (reachable_keys_ok _ Hr) Hs).
Qed.

Lemma tasks_runs_persist_witness : tasks_runs_evolve (wd_db demo_world) (wd_db demo_leased).
Proof.
  apply (tasks_runs_persist demo_world demo_leased); [|apply demo_leased_steps].
  exists demo_world. split; [apply initial_demo|apply rtc_refl].
Defined.

(** A command leaves alone everything that belongs to another project: its
    commands, workers, heartbeats, leases, attempts, artifacts, events, audit
    events, status snapshots and projections. *)
Theorem project_isolation env c w :
  reachable w -> isolated (command_project c (wd_db w)) (wd_db w) (wd_db (exec env c w)).
Proof.
  intros Hr. eapply changes_rel; [exact _|apply change_isolated|].
  apply exec_changes. by apply reachable_keys_ok.
Qed.

Lemma project_isolation_witness :
  isolated 1 (wd_db demo_leased)
    (wd_db (exec demo_env (CRunWorkerOnce demo_project demo_run_once) demo_leased)).
Proof.
  apply (project_isolation demo_env (CRunWorkerOnce demo_project demo_run_once) demo_leased).
  apply demo_leased_reachable.
Defined.
