(* ===== verification/RunOnceDrain.v ===== *)
(** * Draining the queue

    Workers call [RunWorkerOnce] until it finds no task.  Every claim ends a
    task, so that no sequence of calls, by any workers, in any environments,
    claims more tasks than were open when it began: a worker that calls until
    nothing is claimed stops. *)

From stdpp Require Import base list strings numbers relations gmap.
From Stdlib Require Import ZArith Lia String.
From S2P Require Import Prelude GoString Json Schema Tx Worker Lease FilePath RunOnce Demo.
From S2P Require Import LeaseSpec RunOnceSpec Steps System.

(** A task that a run-once may claim *)
Definition open_task (t : RunTaskRecord) : bool :=
  (t_Status t =s "queued") || (t_Status t =s "needs_recovery").

Definition open_tasks (w : World) : nat :=
  List.length (List.filter open_task (t_rows (db_run_tasks (wd_db w)))).

Definition claimed (r : res error WorkerRunOnceResult) : bool :=
  match r with Ok res => rr_Claimed res | Err _ => false end.

Lemma filter_closed {A} (p q : A -> bool) (f : A -> A) l x :
  (forall y, q y = true -> p (f y) = false) -> In x l -> q x = true -> p x = true ->
  (List.length (List.filter p (List.map (fun y => if q y then f y else y) l))
   < List.length (List.filter p l))%nat.
Proof.
  intros Hf Hx Hq Hp.
  assert (Hle : forall l, (List.length (List.filter p (List.map (fun y => if q y then f y else y) l))
                           <= List.length (List.filter p l))%nat).
  { intros l0. induction l0 as [|y l0 IH]; [done|]. cbn. destruct (q y) eqn:Eq.
    - rewrite (Hf y Eq). destruct (p y); cbn; lia.
    - destruct (p y); cbn; lia. }
  induction l as [|y l IH]; [done|]. cbn. destruct Hx as [->|Hx].
  - rewrite Hq, (Hf x Hq), Hp. cbn. specialize (Hle l). lia.
  - specialize (IH Hx). destruct (q y) eqn:Eq.
    + rewrite (Hf y Eq). destruct (p y); cbn; lia.
    + destruct (p y); cbn; lia.
Qed.

(** One call: a claim closes a task, and nothing opens one. *)
Lemma run_once_step env record o w :
  keys_ok (wd_db w) ->
  let (r, w') := RunWorkerOnce env record o w in
  if claimed r then (open_tasks w' < open_tasks w)%nat else (open_tasks w' <= open_tasks w)%nat.
Proof.
  intros Hk. pose proof (run_once_spec env record o w) as H. cbv zeta in H.
  unfold keys_ok in Hk. decompose [and] Hk. specialize (H ltac:(done) ltac:(done)).
  destruct (RunWorkerOnce env record o w) as [r w'].
  destruct (run_once_decide _ _ _ _) as [e|worker missing|worker|worker task] eqn:Ed; cbn in H.
  - destruct H as [-> E]. cbn. unfold open_tasks. by rewrite E.
  - destruct H as (-> & _ & E & _). cbn. unfold open_tasks. by rewrite E.
  - destruct H as (-> & _ & E & _). cbn. unfold open_tasks. by rewrite E.
  - destruct H as [(res & -> & Hc & _ & E & _)|(e & -> & E & _)];
      [|cbn; unfold open_tasks; by rewrite E].
    cbn [claimed]. rewrite Hc. unfold open_tasks. rewrite E.
    apply run_once_claims_oldest in Ed as (Hin & _ & _ & Hst & _).
    assert (Hop : open_task task = true)
      by (unfold open_task; destruct Hst as [->| ->]; reflexivity). cbn [t_rows table_update].
    eapply filter_closed; [done|exact Hin| |done]. by apply Z.eqb_refl.
Qed.

(** A sequence of calls, and how many of them claimed a task *)
Fixpoint run_calls (calls : list (Env * Record_ * WorkerRunOnceOptions)) (w : World)
  : nat * World :=
  match calls with
  | [] => (0%nat, w)
  | (env, record, o) :: rest =>
      let (r, w1) := RunWorkerOnce env record o w in
      let (n, w2) := run_calls rest w1 in
      ((if claimed r then S n else n), w2)
  end.

(** C26. However many workers call [RunWorkerOnce], in whatever environments
    and with whatever options, no more calls claim a task than there were open
    tasks, and each claim leaves one open task less: a loop that calls until
    nothing is claimed ends after at most one call more than that. *)
Theorem run_once_terminates calls w :
  keys_ok (wd_db w) ->
  let (n, w') := run_calls calls w in
  (n + open_tasks w' <= open_tasks w)%nat
  /\ (n = List.length calls -> (List.length calls <= open_tasks w)%nat).
Proof.
  intros Hk. assert (H : let (n, w') := run_calls calls w in (n + open_tasks w' <= open_tasks w)%nat).
  { revert w Hk. induction calls as [|[[env record] o] calls IH]; intros w Hk; cbn [run_calls]; [lia|].
    pose proof (run_once_step env record o w Hk) as Hs.
    pose proof (step_keys_ok w _ (Step w env (CRunWorkerOnce record o)) Hk) as Hk1. cbn in Hk1.
    destruct (RunWorkerOnce env record o w) as [r w1]. cbn in Hk1. specialize (IH w1 Hk1).
    destruct (run_calls calls w1) as [n w2]. destruct (claimed r); lia. }
  destruct (run_calls calls w) as [n w']. lia.
Qed.

(** Both tasks of the demonstration store are claimed, a third call is idle. *)
Lemma run_once_terminates_witness :
  let calls := [(demo_env, demo_project, demo_run_once); (demo_env, demo_project, demo_run_once);
                (demo_env, demo_project, demo_run_once)] in
  fst (run_calls calls demo_registered) = 2%nat
  /\ (fst (run_calls calls demo_registered) + open_tasks (snd (run_calls calls demo_registered))
      <= open_tasks demo_registered)%nat.
Proof.
  intros calls. split; [vm_compute; reflexivity|].
  assert (Hk : keys_ok (wd_db demo_registered))
    by exact (steps_keys_ok _ _ demo_registered_steps (proj1 initial_demo)).
  pose proof (run_once_terminates calls demo_registered Hk) as H.
  destruct (run_calls calls demo_registered) as [n w']. exact (proj1 H).
Defined.
