(* ===== verification/Idempotency.v ===== *)
(** * Idempotent commands

    What the command ledger gives to the callers of the store: a command that
    was recorded is never executed a second time.  [IdempotentCommand] is the
    promise; every keyed command of the worker, lease and run-control
    components implements it, and what a client may do about a lost response
    (send the command again) is proved from the promise alone. *)

From stdpp Require Import base list strings numbers gmap.
From Stdlib Require Import ZArith Lia String.
From S2P Require Import Prelude GoString Sha256 Json Schema Tx Command Capability History Worker.
From S2P Require Import Lease FilePath RunOnce RunControl Profile Workflow Runner EnginePreview.
From S2P Require Import ExecutionGate ReadOnlyVerify ApprovedWrite FixtureExecution ProjectFile.
From S2P Require Import FixtureWrite ManagedWrite ArtifactArchive Demo Steps ExecutionSteps.
From S2P Require Import StatusFiles StatusStore StatusProjection StatusApply.
From S2P Require Import WriteSteps StatusSteps System.

(** ** Bodies complete their command *)

Definition completed (c : CommandRequest) : Prop := c_CompletedAt c <> None.

Definition commands_complete (db : DB) : Prop :=
  Forall completed (t_rows (db_command_requests db)).

(** All commands but the one in progress are complete. *)
Definition complete_but (k : CommandRequest -> bool) (db : DB) : Prop :=
  Forall (fun c => k c = true \/ completed c) (t_rows (db_command_requests db)).

Definition commands_same (db db' : DB) : Prop :=
  db_command_requests db' = db_command_requests db.

#[export] Instance commands_same_preorder : PreOrder commands_same.
Proof. split; unfold commands_same; congruence. Qed.

(** The requests of a database: each command's key and hash *)
Definition request_of (c : CommandRequest) : ckey * string := (command_key c, c_RequestHash c).
Definition requests (db : DB) : list (ckey * string) :=
  List.map request_of (t_rows (db_command_requests db)).

(** The entries of the other keys stay. *)
Definition others_kept (k : CommandRequest -> bool) (db db' : DB) : Prop :=
  List.filter (fun c => negb (k c)) (t_rows (db_command_requests db'))
  = List.filter (fun c => negb (k c)) (t_rows (db_command_requests db)).

Definition completes (k : CommandRequest -> bool) {A} (m : M A) : Prop :=
  forall w a w', m w = (Ok a, w') -> complete_but k (wd_db w) ->
    commands_complete (wd_db w') /\ requests (wd_db w') = requests (wd_db w)
    /\ others_kept k (wd_db w) (wd_db w').

Lemma completes_bind k {A B} (m : M A) (f : A -> M B) :
  m_rel commands_same m -> (forall a, completes k (f a)) -> completes k (bind m f).
Proof.
  intros Hm Hf w b w' E Hc. apply bind_ok in E as (a & w1 & E1 & E2).
  pose proof (Hm _ _ _ E1) as E. unfold commands_same in E.
  destruct (Hf a w1 b w' E2) as (H1 & H2 & H3); [unfold complete_but; by rewrite E|].
  split; [done|]. rewrite H2. unfold requests, others_kept in *. by rewrite H3, E.
Qed.

Lemma completes_then k {A B} (m : M A) (f : A -> M B) :
  completes k m -> (forall a, m_rel commands_same (f a)) -> completes k (bind m f).
Proof.
  intros Hm Hf w b w' E Hc. apply bind_ok in E as (a & w1 & E1 & E2).
  destruct (Hm w a w1 E1 Hc) as (H1 & H2 & H3).
  pose proof (Hf _ _ _ _ E2) as E. unfold commands_same in E.
  unfold commands_complete, requests, others_kept in *. by rewrite E.
Qed.

Lemma completes_complete env pid ct key resp {A} (f : unit -> M A) :
  (forall u, m_rel commands_same (f u)) ->
  completes (command_is pid ct key)
    (bind (completeCommandRequestResponse env pid ct key resp) f).
Proof.
  intros Hf w a w' E Hc. apply bind_ok in E as (u & w1 & E1 & E2).
  unfold commands_complete, requests. rewrite (Hf _ _ _ _ E2).
  unfold completeCommandRequestResponse in E1. step_ok.
  apply update_rows_ok in H as [_ ->]. unfold others_kept.
  rewrite (Hf _ _ _ _ E2). clear E2. cbn. split_and!.
  - rewrite Forall_map. eapply List.Forall_impl; [|exact Hc]. intros c [Hk|Hc']; cbn.
    + by rewrite Hk.
    + by destruct (command_is pid ct key c).
  - rewrite map_map. apply map_ext. intros c. by destruct (command_is pid ct key c).
  - induction (t_rows _) as [|c l IH]; cbn; [done|].
    destruct (command_is pid ct key c) eqn:Ek; cbn.
    + by replace (command_is pid ct key _) with true.
    + rewrite Ek. cbn. by rewrite IH.
Qed.

Lemma completes_denied env pid ct key resp :
  completes (command_is pid ct key) (completeCommandRequestResponse env pid ct key resp).
Proof.
  intros w a w' E. eapply (completes_complete env pid ct key resp ret);
    [intros u; apply m_rel_ret; exact _|unfold bind; by rewrite E].
Qed.

Lemma completes_fail k {A} e : completes k (@fail A e).
Proof. by intros w a w' E. Qed.

(** Steps that leave the commands alone *)
Ltac commands_same_auto := rel_auto; try reflexivity.

Lemma recoverLoop_same env record reason leases :
  m_rel commands_same (recoverLoop env record reason leases).
Proof. induction leases; cbn; commands_same_auto. Qed.

Lemma putLocal_same env root rel content ct :
  m_rel commands_same (putLocal env root rel content ct).
Proof.
  intros w a w' E. unfold putLocal in E. repeat (case_match; try done).
  by injection E as _ <-.
Qed.
#[export] Hint Resolve recoverLoop_same putLocal_same : rel.
#[export] Hint Extern 3 (m_rel commands_same _) =>
  (apply reads_rel; [exact _|]; solve [eauto with reads nocore]) : rel.

(** Between the change of the target and its restoration *)
Lemma fixtureWriteVerify_same env os record o task lease tp fp ws wsa pre prea :
  m_rel commands_same (fixtureWriteVerify env os record o task lease tp fp ws wsa pre prea).
Proof. apply m_rel_restoring. commands_same_auto. Qed.

Lemma managedWriteVerify_same env os record o task lease tp fp ws wsa pre prea :
  m_rel commands_same (managedWriteVerify env os record o task lease tp fp ws wsa pre prea).
Proof. apply m_rel_restoring. commands_same_auto. Qed.

#[export] Hint Resolve fixtureWriteVerify_same managedWriteVerify_same : rel.

Create HintDb completes discriminated.
#[export] Hint Resolve completes_denied completes_fail : completes.

Ltac completes_auto :=
  repeat first
    [ solve [eauto with completes nocore]
    | match goal with
      | |- forall _, _ => intro
      | |- completes _ (bind (completeCommandRequestResponse _ _ _ _ _) _) =>
          apply completes_complete; intros; rel_split
      | |- completes _ (bind _ _) => apply completes_bind; [solve [commands_same_auto]|]
      | |- completes _ (match ?x with _ => _ end) => destruct x
      end ].

Lemma registerBody_completes env record o :
  completes (command_is (p_ID record) "worker.register" (rw_IdempotencyKey o))
    (registerBody env record o).
Proof. unfold registerBody. completes_auto. Qed.

Lemma heartbeatBody_completes env record key o :
  completes (command_is (p_ID record) "worker.heartbeat" (wh_IdempotencyKey o))
    (heartbeatBody env record key o).
Proof. unfold heartbeatBody. completes_auto. Qed.

Lemma acquireBody_completes env record o :
  completes (command_is (p_ID record) "lease.acquire" (al_IdempotencyKey o))
    (acquireBody env record o).
Proof. unfold acquireBody, acquireAllowed, acquireDenied. completes_auto. Qed.

Lemma releaseBody_completes env record o :
  completes (command_is (p_ID record) "lease.release" (rl_IdempotencyKey o))
    (releaseBody env record o).
Proof. unfold releaseBody. completes_auto. Qed.

Lemma recoverBody_completes env record o :
  completes (command_is (p_ID record) "lease.recover" (vl_IdempotencyKey o))
    (recoverBody env record o).
Proof. unfold recoverBody. completes_auto. Qed.

Lemma controlBody_completes env record run o :
  completes (command_is (p_ID record) (runControlCommandType (rc_Action o))
               (rc_IdempotencyKey o))
    (controlBody env record run o).
Proof. unfold controlBody, controlApply, controlRecord. completes_auto. Qed.

Lemma runnerPreviewBody_completes env record version o preflight :
  completes (command_is (p_ID record) "runner.preview" (rp_IdempotencyKey o))
    (runnerPreviewBody env record version o preflight).
Proof. unfold runnerPreviewBody. completes_auto. Qed.

(** *** Executions *)

Lemma queueVerifyBody_completes env record version o :
  completes (command_is (p_ID record) "run.read_only_verify_queue" (rvq_IdempotencyKey o))
    (queueVerifyBody env record version o).
Proof. unfold queueVerifyBody. completes_auto. Qed.

Lemma queueArtifactBody_completes env record version o :
  completes (command_is (p_ID record) "run.approved_artifact_write_queue" (awq_IdempotencyKey o))
    (queueArtifactBody env record version o).
Proof. unfold queueArtifactBody. completes_auto. Qed.

Lemma queueFixtureBody_completes env record version o :
  completes (command_is (p_ID record) "run.fixture_queue" (fxq_IdempotencyKey o))
    (queueFixtureBody env record version o).
Proof. unfold queueFixtureBody. completes_auto. Qed.

Lemma verifyDenied_completes env record r o e :
  rvr_Project r = record ->
  completes (command_is (p_ID record) "worker.read_only_verify" (rvo_IdempotencyKey o))
    (verifyDenied env r o e).
Proof.
  intros <-. apply completes_then; [|intros; rel_split]. unfold finishDeniedReadOnlyVerify. cbv zeta.
  completes_auto.
Qed.

Lemma artifactDenied_completes env record r o e :
  awr_Project r = record ->
  completes (command_is (p_ID record) "worker.approved_artifact_write"
               (awo_IdempotencyKey o))
    (artifactDenied env r o e).
Proof.
  intros <-. apply completes_then; [|intros; rel_split]. unfold finishDeniedApprovedArtifactWrite. cbv zeta.
  completes_auto.
Qed.

Lemma fixtureDenied_completes env record r o e :
  fxr_Project r = record ->
  completes (command_is (p_ID record) "worker.fixture_execute" (fxo_IdempotencyKey o))
    (fixtureDenied env r o e).
Proof.
  intros <-. apply completes_then; [|intros; rel_split]. unfold finishDeniedFixtureExecution. cbv zeta.
  completes_auto.
Qed.

#[export] Hint Extern 1 (completes _ (verifyDenied _ _ _ _)) =>
  (apply verifyDenied_completes; reflexivity) : completes.
#[export] Hint Extern 1 (completes _ (artifactDenied _ _ _ _)) =>
  (apply artifactDenied_completes; reflexivity) : completes.
#[export] Hint Extern 1 (completes _ (fixtureDenied _ _ _ _)) =>
  (apply fixtureDenied_completes; reflexivity) : completes.

Lemma verifyBody_completes env os record o gate run version worker :
  completes (command_is (p_ID record) "worker.read_only_verify" (rvo_IdempotencyKey o))
    (verifyBody env os record o gate run version worker).
Proof.
  unfold verifyBody, verifyClaim. cbv zeta.
  completes_auto.
Qed.

Lemma artifactBody_completes env record o gate run version worker :
  completes (command_is (p_ID record) "worker.approved_artifact_write" (awo_IdempotencyKey o))
    (artifactBody env record o gate run version worker).
Proof.
  unfold artifactBody, artifactClaim. cbv zeta.
  completes_auto.
Qed.

Lemma fixtureBody_completes env record o gate run version worker :
  completes (command_is (p_ID record) "worker.fixture_execute" (fxo_IdempotencyKey o))
    (fixtureBody env record o gate run version worker).
Proof.
  unfold fixtureBody, fixtureClaim. cbv zeta.
  completes_auto.
Qed.

(** *** Project writes *)

Lemma queueFixtureWriteBody_completes env record version o :
  completes (command_is (p_ID record) "run.fixture_project_write_queue" (fwq_IdempotencyKey o))
    (queueFixtureWriteBody env record version o).
Proof. unfold queueFixtureWriteBody. completes_auto. Qed.

Lemma queueManagedWriteBody_completes env record version o :
  completes (command_is (p_ID record) "run.managed_generated_write_queue" (mgq_IdempotencyKey o))
    (queueManagedWriteBody env record version o).
Proof. unfold queueManagedWriteBody. completes_auto. Qed.

Lemma fixtureWriteDenied_completes env record r o e :
  fwr_Project r = record ->
  completes (command_is (p_ID record) "worker.fixture_project_write" (fwo_IdempotencyKey o))
    (fixtureWriteDenied env r o e).
Proof.
  intros <-. apply completes_then; [|intros; rel_split]. unfold finishDeniedFixtureProjectWrite.
  cbv zeta. completes_auto.
Qed.

Lemma managedWriteDenied_completes env record r o e :
  mgr_Project r = record ->
  completes (command_is (p_ID record) "worker.managed_generated_write" (mgo_IdempotencyKey o))
    (managedWriteDenied env r o e).
Proof.
  intros <-. apply completes_then; [|intros; rel_split]. unfold finishDeniedManagedGeneratedWrite.
  cbv zeta. completes_auto.
Qed.

#[export] Hint Extern 1 (completes _ (fixtureWriteDenied _ _ _ _)) =>
  (apply fixtureWriteDenied_completes; reflexivity) : completes.
#[export] Hint Extern 1 (completes _ (managedWriteDenied _ _ _ _)) =>
  (apply managedWriteDenied_completes; reflexivity) : completes.

Lemma fixtureWriteBody_completes env os record o gate run version worker :
  completes (command_is (p_ID record) "worker.fixture_project_write" (fwo_IdempotencyKey o))
    (fixtureWriteBody env os record o gate run version worker).
Proof.
  unfold fixtureWriteBody, fixtureWriteTask, fixtureWriteTarget, fixtureWriteClaim,
    fixtureWriteFinish. cbv zeta. completes_auto.
Qed.

Lemma managedWriteBody_completes env os record o gate run version worker :
  completes (command_is (p_ID record) "worker.managed_generated_write" (mgo_IdempotencyKey o))
    (managedWriteBody env os record o gate run version worker).
Proof.
  unfold managedWriteBody, managedWriteTask, managedWriteTarget, managedWriteClaim,
    managedWriteFinish. cbv zeta. completes_auto.
Qed.

Lemma archivePreviewBody_completes env record o :
  completes (command_is (p_ID record) artifactArchivePreviewCommandType (av_IdempotencyKey o))
    (archivePreviewBody env record o).
Proof. unfold archivePreviewBody. cbv zeta. completes_auto. Qed.

(** A handled statement completes a command when the statement does. *)
Lemma completes_handled k os pre wrote hash step {A B} (m : M A) (f : A -> M B) :
  completes k (bind m f) -> completes k (bind (handlePostWriteError os pre wrote hash step m) f).
Proof.
  intros Hm w b w' E Hc. apply bind_ok in E as (a & w1 & Ea & E).
  apply handlePostWriteError_ok in Ea. eapply Hm; [|exact Hc]. unfold bind. by rewrite Ea.
Qed.

Lemma record_apply_completes env os record snapshot o pre wrote r :
  completes (command_is (p_ID record) statusProjectionApplyCommandType (apo_IdempotencyKey o))
    (record_apply env os record snapshot o pre wrote r).
Proof.
  unfold record_apply, insertStatusProjectionSnapshot, insert_mirror_snapshot,
    insertAppliedStatusProjection, insertStatusProjectionApplyEvent,
    insertStatusProjectionApplyAuditEvent. cbv zeta.
  do 4 (apply completes_bind;
        [apply m_rel_handlePostWriteError; commands_same_auto|intros ?]).
  apply completes_handled, completes_complete. intros u. rel_split.
Qed.

Lemma applyBody_completes env os record snapshot o writer gate :
  completes (command_is (p_ID record) statusProjectionApplyCommandType (apo_IdempotencyKey o))
    (applyBody env os record snapshot o writer gate).
Proof.
  unfold applyBody. cbv zeta.
  apply completes_bind; [commands_same_auto|intros db].
  apply completes_bind; [apply m_rel_run_writer; exact _|intros [[pre wrote] r]].
  apply record_apply_completes.
Qed.

Lemma statusExportBody_completes env pid path summary hash key :
  completes (command_is pid "project.status_projection.write" key)
    (statusExportBody env pid path summary hash key).
Proof. unfold statusExportBody, insert_mirror_snapshot. completes_auto. Qed.

Lemma runOnceBody_same env record o : m_rel commands_same (runOnceBody env record o).
Proof. commands_same_auto. Qed.

(** ** The commands of the system keep every recorded command complete *)

Lemma reserve_complete_but env pid ct key hash w w' :
  reserveCommandRequest env pid ct key hash w = (Ok true, w') ->
  commands_complete (wd_db w) -> complete_but (command_is pid ct key) (wd_db w').
Proof.
  rewrite reserve_eq. destruct (ledger_of _ !! _) as [e|]; [by destruct (_ =s _)|].
  intros [= <-] H. unfold complete_but. cbn. apply Forall_app. split.
  - eapply List.Forall_impl; [|exact H]. auto.
  - constructor; [|constructor]. left. by apply command_is_key.
Qed.

(** Entries of other keys are read from the other rows. *)
Lemma ledger_others pid ct key db k :
  k <> (pid, ct, key) ->
  ledger_of db !! k
  = (list_to_map (List.map (fun c => (command_key c, entry_of c))
       (List.filter (fun c => negb (command_is pid ct key c))
          (t_rows (db_command_requests db)))) : ledger) !! k.
Proof.
  intros Hk. unfold ledger_of. rewrite !ledger_lookup_rows.
  induction (t_rows (db_command_requests db)) as [|c l IH]; cbn; [done|].
  rewrite command_is_decide.
  destruct (decide (command_key c = (pid, ct, key))) as [E1|E1].
  - rewrite (bool_decide_eq_true_2 _ E1), bool_decide_eq_false_2 by congruence. exact IH.
  - rewrite (bool_decide_eq_false_2 _ E1). cbn. case_bool_decide; [done|exact IH].
Qed.

Lemma others_kept_ledger pid ct key db db' k :
  others_kept (command_is pid ct key) db db' -> k <> (pid, ct, key) ->
  ledger_of db' !! k = ledger_of db !! k.
Proof. intros H Hk. by rewrite !(ledger_others pid ct key) by done; rewrite H. Qed.

Lemma reserved_others_kept env pid ct key hash db :
  others_kept (command_is pid ct key) db (reserved env pid ct key hash db).
Proof.
  unfold others_kept. cbn. rewrite List.filter_app. cbn.
  rewrite (proj2 (command_is_key pid ct key (MkCommand _ _ _ _ _ _ _ _))) by done.
  cbn. by rewrite app_nil_r.
Qed.

(** What a committed command does to the ledger: recorded commands stay as
    they were recorded, and every command is complete. *)
Definition commands_kept (db db' : DB) : Prop :=
  commands_complete db -> commands_complete db' /\ ledger_of db ⊆ ledger_of db'.

#[export] Instance commands_kept_preorder : PreOrder commands_kept.
Proof.
  split; [by intros db|]. intros a b c H1 H2 Ha. destruct (H1 Ha) as [Hb ?].
  destruct (H2 Hb). split; [done|]. by etransitivity.
Qed.

Lemma with_command_kept {A} env pid ct key hash (replay body : M (res error A)) w :
  reads replay -> completes (command_is pid ct key) body ->
  commands_kept (wd_db w)
    (wd_db (snd (transact (with_command env pid ct key hash replay body) w))).
Proof.
  intros Hr Hb Hc. unfold transact.
  destruct (with_command _ _ _ _ _ _ _ w) as [[r|e] w'] eqn:E; [|done]. cbn.
  destruct (ledger_of (wd_db w) !! (pid, ct, key)) as [e|] eqn:El.
  - unfold with_command, bind in E. rewrite reserve_eq, El in E.
    destruct (_ =s _); [|done]. specialize (Hr w). rewrite E in Hr. by cbn in Hr; subst w'.
  - rewrite with_command_fresh in E by done.
    destruct (Hb _ _ _ E) as (Hc' & _ & Hk);
      [eapply reserve_complete_but; [|exact Hc]; by rewrite reserve_eq, El|].
    split; [done|]. apply map_subseteq_spec. intros k e Hke.
    assert (k <> (pid, ct, key)) by congruence.
    rewrite (others_kept_ledger _ _ _ _ _ _ Hk) by done.
    rewrite <- Hke. apply (others_kept_ledger pid ct key); [apply reserved_others_kept|done].
Qed.

(** A transaction that reads before it records its command *)
Definition tx_kept {A} (m : M (res error A)) : Prop :=
  forall w, commands_kept (wd_db w) (wd_db (snd (transact m w))).

Lemma tx_kept_fail {A} e : tx_kept (@fail (res error A) e).
Proof. intros w. reflexivity. Qed.

Lemma tx_kept_bind {A B} (m : M A) (k : A -> M (res error B)) :
  reads m -> (forall a, tx_kept (k a)) -> tx_kept (bind m k).
Proof.
  intros Hm Hk w. specialize (Hm w). unfold transact, bind.
  destruct (m w) as [[a|e] w1]; cbn in Hm; subst w1; [apply Hk|reflexivity].
Qed.

Lemma tx_kept_command {A} env pid ct key hash (replay body : M (res error A)) :
  reads replay -> completes (command_is pid ct key) body ->
  tx_kept (with_command env pid ct key hash replay body).
Proof. intros Hr Hb w. by apply with_command_kept. Qed.

Ltac tx_split :=
  repeat match goal with
  | |- tx_kept (bind _ _) => apply tx_kept_bind; [solve [reads_split]|intros]
  | |- tx_kept (if ?b then _ else _) => destruct b; [apply tx_kept_fail|]
  | |- tx_kept (with_command _ _ _ _ _ _ _) => apply tx_kept_command; [solve [reads_split]|]
  end.

Lemma runnerPreviewTx_kept env record label o : tx_kept (runnerPreviewTx env record label o).
Proof. unfold runnerPreviewTx. cbv zeta. tx_split. apply runnerPreviewBody_completes. Qed.

Lemma queueVerifyTx_kept env record label o : tx_kept (queueVerifyTx env record label o).
Proof. unfold queueVerifyTx. cbv zeta. tx_split. apply queueVerifyBody_completes. Qed.

Lemma queueArtifactTx_kept env record label o : tx_kept (queueArtifactTx env record label o).
Proof. unfold queueArtifactTx. cbv zeta. tx_split. apply queueArtifactBody_completes. Qed.

Lemma queueFixtureTx_kept env record label o : tx_kept (queueFixtureTx env record label o).
Proof. unfold queueFixtureTx. cbv zeta. tx_split. apply queueFixtureBody_completes. Qed.

Lemma verifyTx_kept env os record o hash : tx_kept (verifyTx env os record o hash).
Proof. unfold verifyTx, workflowVersionByIDTx. tx_split. apply verifyBody_completes. Qed.

Lemma artifactTx_kept env record o hash : tx_kept (artifactTx env record o hash).
Proof. unfold artifactTx, workflowVersionByIDTx. tx_split. apply artifactBody_completes. Qed.

Lemma fixtureTx_kept env ac record o hash : tx_kept (fixtureTx env ac record o hash).
Proof. unfold fixtureTx, workflowVersionByIDTx. tx_split. apply fixtureBody_completes. Qed.

Lemma queueFixtureWriteTx_kept env record label o :
  tx_kept (queueFixtureWriteTx env record label o).
Proof. unfold queueFixtureWriteTx. cbv zeta. tx_split. apply queueFixtureWriteBody_completes. Qed.

Lemma queueManagedWriteTx_kept env record label o :
  tx_kept (queueManagedWriteTx env record label o).
Proof. unfold queueManagedWriteTx. cbv zeta. tx_split. apply queueManagedWriteBody_completes. Qed.

Lemma fixtureWriteTx_kept env os record o hash : tx_kept (fixtureWriteTx env os record o hash).
Proof.
  unfold fixtureWriteTx, workflowVersionByIDTx. tx_split. apply fixtureWriteBody_completes.
Qed.

Lemma managedWriteTx_kept env os record o hash : tx_kept (managedWriteTx env os record o hash).
Proof.
  unfold managedWriteTx, workflowVersionByIDTx. tx_split. apply managedWriteBody_completes.
Qed.

Lemma applyTx_kept env os record o writer : tx_kept (applyTx env os record o writer).
Proof.
  unfold applyTx. cbv zeta. tx_split.
  match goal with |- completes _ (applyBody _ _ _ ?s ?o' _ ?g) =>
    exact (applyBody_completes env os record s o' writer g) end.
Qed.

Lemma controlTx_kept env runID o hash w :
  commands_kept (wd_db w) (wd_db (snd (transact (controlTx env runID o hash) w))).
Proof.
  pose proof (loadRunForUpdate_reads runID w) as H1.
  unfold transact, controlTx, bind at 1.
  destruct (loadRunForUpdate runID w) as [[run|e] w1]; cbn in H1; subst w1; [|done].
  pose proof (loadProjectRecordByID_reads (r_ProjectID run) w) as H2. unfold bind at 1.
  destruct (loadProjectRecordByID (r_ProjectID run) w) as [[record|e] w2]; cbn in H2; subst w2;
    [|done].
  apply (with_command_kept env (p_ID record) _ _ _ _ _ w (replayControl_reads _ _ _)
           (controlBody_completes env record run o)).
Qed.

Lemma exec_commands_kept env c w : commands_kept (wd_db w) (wd_db (exec env c w)).
Proof.
  destruct c; cbn -[transact].
  - unfold RegisterWorker, workerRegisterIdempotencyKey. destruct (_ =s "");
      [destruct (next_workerLifecycle w) as [n w1] eqn:E;
       rewrite <- (next_workerLifecycle_db _ _ _ E)|];
      (apply with_command_kept; [apply replayWorker_reads|apply registerBody_completes]).
  - unfold RecordWorkerHeartbeat, workerHeartbeatIdempotencyKey.
    destruct (_ =s ""); [reflexivity|]. destruct (_ =s "");
      [destruct (next_workerLifecycle w) as [n w1] eqn:E;
       rewrite <- (next_workerLifecycle_db _ _ _ E)|];
      (apply with_command_kept; [apply replayWorker_reads|apply heartbeatBody_completes]).
  - apply with_command_kept; [apply replayLease_reads|apply acquireBody_completes].
  - apply with_command_kept; [apply replayLease_reads|apply releaseBody_completes].
  - unfold RecoverExpiredLeases, leaseRecoverIdempotencyKey. destruct (_ =s "");
      [destruct (next_leaseRecover w) as [n w1] eqn:E;
       rewrite <- (next_leaseRecover_db _ _ _ E)|];
      (apply with_command_kept; [apply replayLeases_reads|apply recoverBody_completes]).
  - unfold RunWorkerOnce. destruct (transact _ w) as [r w'] eqn:E. cbn.
    unfold commands_kept, commands_complete, ledger_of. by rewrite (transact_rel commands_same
      _ _ _ _ (runOnceBody_same env record (normalizeWorkerRunOnceOptions o)) E).
  - unfold ControlRun. destruct (_ <=? 0); [reflexivity|]. apply controlTx_kept.
  - apply runnerPreviewTx_kept.
  - apply queueVerifyTx_kept.
  - unfold VerifyReadOnly. destruct (_ <=? 0); [reflexivity|]. apply verifyTx_kept.
  - apply queueArtifactTx_kept.
  - unfold WriteApprovedArtifact. destruct (_ <=? 0); [reflexivity|]. apply artifactTx_kept.
  - apply queueFixtureTx_kept.
  - unfold ExecuteFixture. destruct (_ <=? 0); [reflexivity|]. apply fixtureTx_kept.
  - apply queueFixtureWriteTx_kept.
  - unfold WriteFixtureProject. destruct (_ <=? 0); [reflexivity|]. apply fixtureWriteTx_kept.
  - apply queueManagedWriteTx_kept.
  - unfold WriteManagedGenerated. destruct (_ <=? 0); [reflexivity|]. apply managedWriteTx_kept.
  - apply with_command_kept; [apply replayArchivePreview_reads|].
    apply (archivePreviewBody_completes env record (archivePreviewOptions record o)).
  - unfold ApplyStatusProjection. cbv zeta. destruct (apo_Writer _); [|reflexivity].
    apply applyTx_kept.
  - apply with_command_kept; [reads_split|apply statusExportBody_completes].
Qed.

Lemma steps_commands_kept w w' : steps w w' -> commands_kept (wd_db w) (wd_db w').
Proof.
  induction 1 as [|w w1 w' [env c] _ IH]; [reflexivity|].
  etransitivity; [apply exec_commands_kept|exact IH].
Qed.

Lemma reachable_commands_complete w : reachable w -> commands_complete (wd_db w).
Proof.
  intros (w0 & (_ & Hi & _) & Hs). apply (steps_commands_kept w0 w Hs).
  unfold commands_complete. by rewrite Hi.
Qed.

(** ** The promise *)

Class IdempotentCommand {A : Type} (run : World -> res error A * World)
    (pid : Z) (ct key hash : string) := {
  (** a recorded key with another request is refused, and nothing changes *)
  ic_conflict : forall w e,
    ledger_of (wd_db w) !! (pid, ct, key) = Some e -> en_hash e <> hash ->
    run w = (Err (ErrIdempotencyConflict key), w);
  (** a recorded request changes nothing *)
  ic_replay : forall w e,
    ledger_of (wd_db w) !! (pid, ct, key) = Some e -> en_hash e = hash ->
    snd (run w) = w;
  (** a fresh request either leaves the database alone or is recorded, with
      its hash and an outcome *)
  ic_fresh : forall w,
    ledger_of (wd_db w) !! (pid, ct, key) = None -> commands_complete (wd_db w) ->
    wd_db (snd (run w)) = wd_db w
    \/ exists response, ledger_of (wd_db (snd (run w))) !! (pid, ct, key)
                        = Some (MkEntry hash (Some response));
  (** commands recorded earlier stay as they were recorded *)
  ic_kept : forall w, commands_kept (wd_db w) (wd_db (snd (run w))) }.

(** The hashes of the ledger are those of the requests. *)
Lemma ledger_hashes db : en_hash <$> ledger_of db = list_to_map (requests db).
Proof.
  unfold ledger_of, requests. rewrite <- list_to_map_fmap. f_equal.
  exact (map_map _ (prod_map id en_hash) _).
Qed.

Lemma ledger_completed db k e :
  commands_complete db -> ledger_of db !! k = Some e -> en_response e <> None.
Proof.
  unfold ledger_of. rewrite ledger_lookup_rows. intros Hc E.
  destruct (List.filter _ _) as [|c l] eqn:Ef; [done|]. injection E as <-.
  assert (Hin : In c (t_rows (db_command_requests db))).
  { eapply proj1, filter_In. rewrite Ef. by left. }
  pose proof (Forall_In _ _ _ Hc Hin) as Hcc. unfold completed in Hcc. cbn.
  by destruct (c_CompletedAt c).
Qed.

(** A handler built on [with_command] keeps the promise when its replay only
    reads and its body completes the command. *)
Lemma with_command_idempotent {A} env pid ct key hash (replay body : M (res error A)) :
  reads replay -> completes (command_is pid ct key) body ->
  IdempotentCommand (transact (with_command env pid ct key hash replay body)) pid ct key hash.
Proof.
  intros Hr Hb. split.
  - intros w e. apply with_command_conflict.
  - intros w e Hl Hh. rewrite (with_command_replay env pid ct key hash replay body w e Hl Hh).
    by apply transact_reads.
  - intros w Hl Hc. unfold transact.
    destruct (with_command env pid ct key hash replay body w) as [[r|e] w'] eqn:E; [|by left].
    right. rewrite with_command_fresh in E by done. cbn.
    destruct (Hb _ _ _ E) as (Hc' & Hreq & _);
      [eapply reserve_complete_but; [|exact Hc]; by rewrite reserve_eq, Hl|].
    pose proof (ledger_hashes (wd_db w')) as Eh. rewrite Hreq in Eh.
    apply (f_equal (lookup (pid, ct, key))) in Eh. rewrite lookup_fmap in Eh.
    assert (Hk : (list_to_map (requests (reserved env pid ct key hash (wd_db w)))
                  : gmap ckey string) !! (pid, ct, key) = Some hash).
    { unfold requests, reserved. cbn. rewrite map_app.
      change (List.map request_of [_]) with [((pid, ct, key), hash)].
      rewrite list_to_map_snoc.
      - by rewrite lookup_insert_eq.
      - intros Hin. apply list_elem_of_In in Hin. rewrite map_map in Hin.
        revert Hin. rewrite ledger_lookup in Hl. destruct (table_select _ _) eqn:Es; [|done].
        by apply select_nil_notin in Es. }
    change (wd_db (set_db ?d w)) with d in Eh. rewrite Hk in Eh.
    destruct (ledger_of (wd_db w') !! (pid, ct, key)) as [[h resp]|] eqn:El; [|done].
    pose proof (ledger_completed _ _ _ Hc' El) as Hne. cbn in *. injection Eh as ->.
    destruct resp as [resp|]; [|done]. by exists resp.
  - by apply tx_kept_command.
Qed.

(** ** The implementations *)

#[export] Instance AcquireLease_idempotent env record o :
  IdempotentCommand (AcquireLease env record o) (p_ID record) "lease.acquire"
    (al_IdempotencyKey (acquireOptions record o))
    (leaseAcquireRequestHash record (normalizeAcquireLeaseOptions o)).
Proof.
  apply with_command_idempotent; [apply replayLease_reads|apply acquireBody_completes].
Qed.

#[export] Instance ReleaseLease_idempotent env record o :
  IdempotentCommand (ReleaseLease env record o) (p_ID record) "lease.release"
    (rl_IdempotencyKey (releaseOptions record o))
    (leaseReleaseRequestHash record (normalizeReleaseLeaseOptions o)).
Proof.
  apply with_command_idempotent; [apply replayLease_reads|apply releaseBody_completes].
Qed.

#[export] Instance ArtifactArchivePreview_idempotent env record o :
  IdempotentCommand (ArtifactArchivePreview env record o) (p_ID record)
    artifactArchivePreviewCommandType (av_IdempotencyKey (archivePreviewOptions record o))
    (artifactArchivePreviewRequestHash record (normalizeArtifactArchivePreviewOptions o)).
Proof.
  apply with_command_idempotent; [apply replayArchivePreview_reads|].
  apply (archivePreviewBody_completes env record (archivePreviewOptions record o)).
Qed.

#[export] Instance RecordStatusExport_idempotent env pid path summary hash :
  IdempotentCommand (RecordStatusExport env pid path summary hash) pid
    "project.status_projection.write"
    (statusProjectionWriteIdempotencyKey path hash (marshal (JObj summary)))
    (statusProjectionWriteRequestHash path summary hash).
Proof. apply with_command_idempotent; [reads_split|apply statusExportBody_completes]. Qed.

(** The other commands draw a fresh key for a request that names none; a
    request with a key of its own is idempotent under it. *)
Section OwnKey.
Context (env : Env) (record : Record_).

Lemma RegisterWorker_idempotent o :
  trim_space (rw_IdempotencyKey o) <> "" ->
  IdempotentCommand (RegisterWorker env record o) (p_ID record) "worker.register"
    (trim_space (rw_IdempotencyKey o))
    (workerRegisterRequestHash record (normalizeRegisterWorkerOptions env record o)).
Proof.
  intros Hk. unfold RegisterWorker. cbn [rw_IdempotencyKey normalizeRegisterWorkerOptions].
  rewrite (proj2 (String.eqb_neq _ _) Hk).
  apply (with_command_idempotent env (p_ID record) "worker.register"
           (trim_space (rw_IdempotencyKey o))); [apply replayWorker_reads|].
  apply (registerBody_completes env record (normalizeRegisterWorkerOptions env record o)).
Qed.

Lemma RecordWorkerHeartbeat_idempotent workerKey o :
  trim_space workerKey <> "" -> trim_space (wh_IdempotencyKey o) <> "" ->
  IdempotentCommand (RecordWorkerHeartbeat env record workerKey o) (p_ID record)
    "worker.heartbeat" (trim_space (wh_IdempotencyKey o))
    (workerHeartbeatRequestHash record (trim_space workerKey)
       (normalizeWorkerHeartbeatOptions o)).
Proof.
  intros Hw Hk. unfold RecordWorkerHeartbeat.
  rewrite (proj2 (String.eqb_neq _ _) Hw).
  cbn [wh_IdempotencyKey normalizeWorkerHeartbeatOptions].
  rewrite (proj2 (String.eqb_neq _ _) Hk).
  apply (with_command_idempotent env (p_ID record) "worker.heartbeat"
           (trim_space (wh_IdempotencyKey o))); [apply replayWorker_reads|].
  apply (heartbeatBody_completes env record (trim_space workerKey)
           (normalizeWorkerHeartbeatOptions o)).
Qed.

Lemma RecoverExpiredLeases_idempotent o :
  trim_space (vl_IdempotencyKey o) <> "" ->
  IdempotentCommand (RecoverExpiredLeases env record o) (p_ID record) "lease.recover"
    (trim_space (vl_IdempotencyKey o))
    (leaseRecoverRequestHash record (normalizeRecoverLeasesOptions o)).
Proof.
  intros Hk. unfold RecoverExpiredLeases. cbn [vl_IdempotencyKey normalizeRecoverLeasesOptions].
  rewrite (proj2 (String.eqb_neq _ _) Hk).
  apply (with_command_idempotent env (p_ID record) "lease.recover"
           (trim_space (vl_IdempotencyKey o))); [apply replayLeases_reads|].
  apply (recoverBody_completes env record (normalizeRecoverLeasesOptions o)).
Qed.
End OwnKey.

(** ** What a client gets from the promise *)

Section Client.
Context {A B : Type} (pid : Z) (ct key hash : string).

(** A command that took effect is recorded, and stays recorded whatever
    commands follow. *)
Lemma recorded_later (run : World -> res error A * World)
    `{!IdempotentCommand run pid ct key hash} w w' :
  commands_complete (wd_db w) -> wd_db (snd (run w)) <> wd_db w -> steps (snd (run w)) w' ->
  exists response, ledger_of (wd_db w') !! (pid, ct, key) = Some (MkEntry hash (Some response)).
Proof.
  intros Hc Hne Hs. destruct (ledger_of (wd_db w) !! (pid, ct, key)) as [e|] eqn:El.
  - exfalso. apply Hne. destruct (String.eqb_spec (en_hash e) hash) as [Eh|Eh].
    + by rewrite (ic_replay w e El Eh).
    + by rewrite (ic_conflict w e El Eh).
  - destruct (ic_fresh w El Hc) as [?|[resp Hr]]; [done|]. exists resp.
    destruct (ic_kept w Hc) as [Hc1 _]. destruct (steps_commands_kept _ _ Hs Hc1) as [_ Hsub].
    by apply (proj1 (map_subseteq_spec _ _) Hsub).
Qed.
End Client.



(** The key of a command that took effect cannot be taken over: after any
    further commands, another request under the same key is refused with the
    conflict error and changes nothing. *)
Theorem key_reuse_refused {A B} (run : World -> res error A * World)
    (other : World -> res error B * World) pid ct key hash hash' w w' :
  IdempotentCommand run pid ct key hash -> IdempotentCommand other pid ct key hash' ->
  hash <> hash' -> reachable w -> wd_db (snd (run w)) <> wd_db w -> steps (snd (run w)) w' ->
  other w' = (Err (ErrIdempotencyConflict key), w').
Proof.
  intros H1 H2 Hh Hr Hne Hs.
  destruct (recorded_later pid ct key hash run w w' (reachable_commands_complete _ Hr) Hne Hs)
    as (resp & El).
  by apply (ic_conflict w' _ El).
Qed.

(** The demo acquire with another timeout *)
Definition demo_acquire_other : AcquireLeaseOptions :=
  MkAcquireLease "w1" 1 "" ["read_project"] None None 90 false "" "" "k-acquire".

Lemma key_reuse_refused_witness :
  AcquireLease demo_later demo_project demo_acquire_other demo_leased
  = (Err (ErrIdempotencyConflict "k-acquire"), demo_leased).
Proof.
  apply (key_reuse_refused (AcquireLease demo_env demo_project demo_acquire)
           (AcquireLease demo_later demo_project demo_acquire_other) 1 "lease.acquire" "k-acquire"
           _ _ demo_registered demo_leased (AcquireLease_idempotent _ _ _)
           (AcquireLease_idempotent _ _ _)).
  - intros E. vm_compute in E. discriminate E.
  - exists demo_world. split; [apply initial_demo|apply demo_registered_steps].
  - intros E. apply (f_equal (fun db => List.length (t_rows (db_leases db)))) in E.
    vm_compute in E. discriminate E.
  - unfold demo_leased. apply rtc_refl.
Defined.

(** In every reachable state each recorded command has its outcome: a replay
    finds the recorded response and never reports an incomplete command. *)
Theorem recorded_commands_complete w pid ct key :
  reachable w ->
  match ledger_of (wd_db w) !! (pid, ct, key) with
  | Some e => exists response, en_response e = Some response
      /\ loadCommandResponse pid ct key w = (Ok (jmap_decode response), w)
  | None => loadCommandResponse pid ct key w = (Err ErrNoRows, w)
  end.
Proof.
  intros Hr. rewrite load_refines.
  destruct (ledger_of (wd_db w) !! (pid, ct, key)) as [[h resp]|] eqn:El; [|done].
  pose proof (ledger_completed _ _ _ (reachable_commands_complete _ Hr) El) as Hne. cbn in *.
  destruct resp as [resp|]; [|done]. by exists resp.
Qed.

Lemma recorded_commands_complete_witness :
  match ledger_of (wd_db demo_leased) !! (1, "lease.acquire", "k-acquire") with
  | Some e => exists response, en_response e = Some response
      /\ loadCommandResponse 1 "lease.acquire" "k-acquire" demo_leased
         = (Ok (jmap_decode response), demo_leased)
  | None => False
  end.
Proof.
  pose proof (recorded_commands_complete demo_leased 1 "lease.acquire" "k-acquire"
                demo_leased_reachable) as H.
  destruct (ledger_of _ !! _) as [e|] eqn:E; [exact H|]. vm_compute in E. discriminate E.
Defined.
