(* ===== verification/WorkflowSpec.v ===== *)
(** * Gates, previews and the skeleton, specified

    What decides a gate and a transition preview, what running a gate leaves
    behind, and what the commands on a version's items do. *)

From stdpp Require Import base list strings numbers gmap.
From Stdlib Require Import ZArith Lia String.
From S2P Require Import Prelude GoString Sha256 Json Schema Tx Command History Worker.
From S2P Require Import FilePath RunOnce Profile Workflow Gates Demo.

(** ** Stage gates *)

Section Scan.
Context (items : list WorkflowItem).

Definition required_item (r : workflowGateRequiredItem) : option WorkflowItem :=
  findWorkflowItem items (ri_Stage r) (ri_ItemType r).
Definition is_missing (r : workflowGateRequiredItem) : bool :=
  match required_item r with None => true | Some _ => false end.
Definition is_placeholder (r : workflowGateRequiredItem) : bool :=
  match required_item r with None => false | Some i => isStageSkeletonPlaceholder i end.

Lemma gate_scan_spec l acc :
  let s := fold_left (gate_scan_step items) l acc in
  gc_missing s = gc_missing acc ++ List.map ri_Name (List.filter is_missing l)
  /\ gc_failures s = gc_failures acc
       ++ List.map (fun r => ri_Name r +:+ " workflow item is missing") (List.filter is_missing l)
  /\ gc_placeholders s = gc_placeholders acc ++ List.map ri_Name (List.filter is_placeholder l).
Proof.
  revert acc. induction l as [|r l IH]; intros acc; cbn -[gate_scan_step].
  - by rewrite !app_nil_r.
  - destruct (IH (gate_scan_step items acc r)) as (H1 & H2 & H3). rewrite H1, H2, H3.
    unfold is_missing, is_placeholder, gate_scan_step, required_item.
    destruct (findWorkflowItem items (ri_Stage r) (ri_ItemType r)) as [i|]; cbn.
    + split; [done|]. split; [done|]. destruct (isStageSkeletonPlaceholder i); cbn; [|done].
      by rewrite <- app_assoc.
    + rewrite <- !app_assoc. done.
Qed.
End Scan.

Lemma filter_map_nil {A B} (p : A -> bool) (f : A -> B) l :
  List.map f (List.filter p l) = [] <-> forall x, In x l -> p x = false.
Proof.
  induction l as [|x l IH]; cbn; [by split|]. destruct (p x) eqn:E; cbn.
  - split; [done|]. intros H. specialize (H x). rewrite E in H. by discriminate H; left.
  - rewrite IH. split; [intros H y [<-|Hy]; auto|]. intros H y Hy. apply H. by right.
Qed.

(** The status of a stage gate, in terms of the items the version has *)
Definition all_present (items : list WorkflowItem) (spec : workflowGateSpec) : Prop :=
  forall r, In r (gs_RequiredItems spec) -> exists i, required_item items r = Some i.
Definition all_real (items : list WorkflowItem) (spec : workflowGateSpec) : Prop :=
  forall r, In r (gs_RequiredItems spec) ->
    exists i, required_item items r = Some i /\ isStageSkeletonPlaceholder i = false.

Lemma gate_missing_nil items spec :
  gc_missing (gate_scan_all items (gs_RequiredItems spec)) = [] <-> all_present items spec.
Proof.
  destruct (gate_scan_spec items (gs_RequiredItems spec) (MkGateScan [] [] [] [])) as (H & _ & _).
  unfold gate_scan_all. rewrite H. cbn. rewrite filter_map_nil. unfold all_present, is_missing.
  split; intros Hr r Hin; specialize (Hr r Hin).
  - destruct (required_item items r); [eauto|done].
  - destruct Hr as [i ->]. done.
Qed.

Lemma placeholders_nil items spec :
  all_present items spec ->
  gc_placeholders (gate_scan_all items (gs_RequiredItems spec)) = [] <-> all_real items spec.
Proof.
  intros Hp.
  destruct (gate_scan_spec items (gs_RequiredItems spec) (MkGateScan [] [] [] [])) as (_ & _ & H).
  unfold gate_scan_all. rewrite H. cbn. rewrite filter_map_nil. unfold all_real, is_placeholder.
  split; intros Hr r Hin; specialize (Hr r Hin); destruct (Hp r Hin) as [i Hi]; rewrite Hi in *.
  - eauto.
  - by destruct Hr as (i' & [= <-] & ?).
Qed.

Lemma gate_failures_missing items spec :
  gc_failures (gate_scan_all items (gs_RequiredItems spec)) = []
  <-> gc_missing (gate_scan_all items (gs_RequiredItems spec)) = [].
Proof.
  destruct (gate_scan_spec items (gs_RequiredItems spec) (MkGateScan [] [] [] [])) as (H1 & H2 & _).
  unfold gate_scan_all. rewrite H1, H2. cbn. by rewrite !filter_map_nil.
Qed.

Lemma stage_gate_status record version items spec o :
  let r := evaluateWorkflowGate record version items spec o in
  (g_Status r = "pass" <-> all_real items spec)
  /\ (g_Status r = "blocked" <-> ~ all_present items spec)
  /\ (g_Status r = "fail" <-> all_present items spec /\ ~ all_real items spec)
  /\ (g_Status r = "pass" <-> g_Failures r = []).
Proof.
  cbv zeta. unfold evaluateWorkflowGate. cbn [g_Status g_Failures].
  pose proof (gate_missing_nil items spec) as Hm. pose proof (gate_failures_missing items spec) as Hf.
  pose proof (placeholders_nil items spec) as Hp.
  assert (Himp : all_real items spec -> all_present items spec).
  { intros Hr r Hin. destruct (Hr r Hin) as (i & Hi & _). eauto. }
  destruct (gc_missing _) as [|m ms].
  - assert (Hall : all_present items spec) by by apply Hm. specialize (Hp Hall).
    rewrite (proj2 Hf eq_refl). cbn [negb andb app].
    destruct (gc_placeholders _) as [|q qs].
    + assert (Hr : all_real items spec) by by apply Hp. repeat split; intros; try done; tauto.
    + assert (Hr : ~ all_real items spec) by (intros Hr; apply Hp in Hr; done).
      repeat split; intros; try done; tauto.
  - assert (Hn : ~ all_present items spec) by (intros Hn; apply Hm in Hn; done). cbn [negb andb].
    rewrite app_nil_r.
    assert (Hne : gc_failures (gate_scan_all items (gs_RequiredItems spec)) <> [])
      by (intros E; apply Hf in E; done).
    repeat split; intros; try done; tauto.
Qed.

(** A stage gate passes exactly when every item it requires exists and is more
    than a placeholder, is blocked exactly when a required item is missing and
    fails otherwise; it passes exactly when it reports no failure.  A transition
    is ready exactly when the latest promotion gate passed, and then names that
    gate result. *)
Theorem gate_status_exact record version items spec o gate po :
  let r := evaluateWorkflowGate record version items spec o in
  (g_Status r = "pass" <-> all_real items spec)
  /\ (g_Status r = "blocked" <-> ~ all_present items spec)
  /\ (g_Status r = "fail" <-> all_present items spec /\ ~ all_real items spec)
  /\ (g_Status r = "pass" <-> g_Failures r = [])
  /\ let p := evaluateWorkflowTransitionPreview record version gate po in
     (tp_Status p = "ready" <-> exists g, gate = Some g /\ g_Status g = "pass")
     /\ (tp_Status p = "ready" <-> tp_Blockers p = [])
     /\ (forall g, gate = Some g -> tp_GateResultID p = g_ID g).
Proof.
  cbv zeta. destruct (stage_gate_status record version items spec o) as (H1 & H2 & H3 & H4).
  repeat (split; [assumption|]). unfold evaluateWorkflowTransitionPreview.
  cbn [tp_Status tp_Blockers tp_GateResultID]. destruct gate as [g|].
  - destruct (String.eqb_spec (g_Status g) "pass") as [E|E]; cbn [negb].
    + split; [split; [by exists g|done]|]. split; [done|]. by intros ? [= <-].
    + split; [split; [done|]; by intros (? & [= <-] & ?)|]. split; [done|]. by intros ? [= <-].
  - split; [split; [done|]; by intros (? & ? & _)|]. split; [done|]. done.
Qed.

(** ** Running a gate *)

Definition find_version (db : DB) (pid : Z) (label : string) : option WorkflowVersion :=
  match table_select (version_is pid label) (db_workflow_versions db) with
  | [] => None
  | v :: _ => Some v
  end.

(** The items of a version in the order they are listed *)
Definition version_items (db : DB) (pid vid : Z) : list WorkflowItem :=
  List.map scanWorkflowItem
    (sort_stable item_before
       (table_select (fun i => (i_ProjectID i =? pid) && (i_WorkflowVersionID i =? vid))
          (db_workflow_items db))).

Definition stage_gates : list string :=
  ["discussion_gate"; "plan_doctor"; "draft_doctor"; "queue_doctor"; "promotion_preview"].

Lemma authoredVersion_ok record label w v w' :
  authoredVersion record label w = (Ok v, w') ->
  w' = w /\ label_ok label = true
  /\ exists r, find_version (wd_db w) (p_ID record) label = Some r /\ v = scanWorkflowVersion r
               /\ v_ImportMode r = "authored".
Proof.
  unfold authoredVersion, GetWorkflowVersion, ValidateWorkflowVersionLabel. intros E.
  apply bind_ok in E as (v1 & w1 & E1 & E). apply bind_ok in E1 as (u & w2 & El & E1).
  destruct (label_ok label); [|done]. apply lift_ok in El as [_ <-].
  apply bind_ok in E1 as (rows & w3 & Es & E1). apply select_rows_ok in Es as [-> ->].
  apply bind_ok in E1 as (r & w4 & Ef & E1). apply map_err_ok in Ef.
  apply first_row_ok in Ef as [[rest Er] ->]. apply ret_ok in E1 as [<- <-].
  destruct (String.eqb_spec (v_ImportMode (scanWorkflowVersion r)) "authored") as [Em|Em];
    cbn [negb] in E; [|done]. apply ret_ok in E as [<- <-]. split; [done|]. split; [done|].
  exists r. unfold find_version. cbn [tget workflow_versions_table] in Er. rewrite Er. done.
Qed.


Lemma approvalBackedResult_reads record version spec o :
  reads (approvalBackedResult record version spec o).
Proof.
  unfold approvalBackedResult, latestApprovalRecord, resolveApprovalTransitionPreview,
    latestGateResult. reads_split.
Qed.

Lemma gateResult_reads fs readinessOf record version spec o :
  reads (gateResult fs readinessOf record version spec o).
Proof.
  unfold gateResult. destruct (_ =s _); [apply reads_ret|].
  destruct (_ || _); [apply approvalBackedResult_reads|]. destruct (_ =s _).
  - intros w. unfold cutoverResult. by destruct (readinessOf _ _ _).
  - unfold ListWorkflowItems. reads_split.
Qed.

(** What a gate run, a preview or an approval leaves alone *)
Definition same_but_facts (db db' : DB) : Prop :=
  (db_projects db', db_actors db', db_workers db', db_worker_heartbeats db', db_runs db',
   db_run_tasks db', db_run_attempts db')
  = (db_projects db, db_actors db, db_workers db, db_worker_heartbeats db, db_runs db,
     db_run_tasks db, db_run_attempts db)
  /\ (db_leases db', db_artifacts db', db_workflow_versions db', db_workflow_items db',
      db_workflow_item_links db')
     = (db_leases db, db_artifacts db, db_workflow_versions db, db_workflow_items db,
        db_workflow_item_links db).

(** One event and one audit event of the project are appended. *)
Definition history_grows (pid : Z) (db db' : DB) : Prop :=
  exists e a, t_rows (db_events db') = t_rows (db_events db) ++ [e]
    /\ t_rows (db_audit_events db') = t_rows (db_audit_events db) ++ [a]
    /\ e_ProjectID e = pid /\ au_ProjectID a = pid.

Definition gate_row (env : Env) (r : GateResult) (id : Z) : GateResult :=
  MkGateResult id (g_ProjectID r) (g_WorkflowVersionID r) (g_WorkflowItemID r)
    (g_GateName r) (g_ScopeType r) (g_ScopeID r) (g_Status r) (g_Inputs r)
    (g_SourceHashes r) (g_Failures r) (g_Warnings r) (g_EvidenceArtifactIDs r)
    (g_Metadata r) (env_now env).

Lemma reserve_ok_db env pid ct key hash w b w' :
  reserveCommandRequest env pid ct key hash w = (Ok b, w') ->
  exists t, wd_db w' = set_command_requests t (wd_db w).
Proof.
  rewrite reserve_eq. destruct (ledger_of _ !! _) as [e|].
  - destruct (_ =s _); [|done]. intros [= _ <-]. exists (db_command_requests (wd_db w)).
    by destruct w as [[] ? ?].
  - intros [= _ <-]. eexists. reflexivity.
Qed.

Lemma complete_ok_db env pid ct key resp w u w' :
  completeCommandRequestResponse env pid ct key resp w = (Ok u, w') ->
  exists t, wd_db w' = set_command_requests t (wd_db w).
Proof.
  unfold completeCommandRequestResponse. intros E. apply bind_ok in E as (? & ? & Eu & E).
  apply update_rows_ok in Eu as [_ ->]. apply ret_ok in E as [_ <-]. eexists. reflexivity.
Qed.

Lemma insertWorkflowGateResult_ok env record version result o w g w' :
  insertWorkflowGateResult env record version result o w = (Ok (Ok g), w') ->
  t_rows (db_gate_results (wd_db w'))
    = t_rows (db_gate_results (wd_db w)) ++ [gate_row env result (t_next (db_gate_results (wd_db w)))]
  /\ g = scanGateResult (gate_row env result (t_next (db_gate_results (wd_db w))))
  /\ db_transition_previews (wd_db w') = db_transition_previews (wd_db w)
  /\ db_approval_records (wd_db w') = db_approval_records (wd_db w)
  /\ same_but_facts (wd_db w) (wd_db w') /\ history_grows (p_ID record) (wd_db w) (wd_db w').
Proof.
  intros E. unfold insertWorkflowGateResult in E.
  apply bind_ok in E as (b & w1 & Er & E). apply reserve_ok_db in Er as [t1 E1].
  apply bind_ok in E as (g1 & w2 & Eg & E). apply insert_ret_ok in Eg as [-> ->].
  apply bind_ok in E as (e & w3 & Ee & E). apply insert_ret_ok in Ee as [-> ->].
  apply bind_ok in E as (a & w4 & Ea & E). apply insert_ret_ok in Ea as [-> ->].
  apply bind_ok in E as (u & w5 & Ec & E). apply complete_ok_db in Ec as [t2 E2].
  apply ret_ok in E as [[= <-] <-]. rewrite E2. cbn. rewrite !E1. cbn.
  split; [done|]. split; [done|]. split; [done|]. split; [done|].
  split; [split; reflexivity|]. eexists _, _. done.
Qed.

(** Why a gate cannot run, in the order the code finds out *)
Definition version_refusal (db : DB) (pid : Z) (label : string) : option error :=
  if negb (label_ok label) then Some ErrInvalidWorkflowVersionLabel
  else match find_version db pid label with
       | None => Some (ErrWorkflowVersionNotFound label)
       | Some v => if v_ImportMode v <>s "authored"
                   then Some (ErrWorkflowVersionNotAuthored label) else None
       end.

Lemma authoredVersion_eq record label w :
  authoredVersion record label w
  = match version_refusal (wd_db w) (p_ID record) label, find_version (wd_db w) (p_ID record) label with
    | Some e, _ => (Err e, w)
    | None, Some v => (Ok (scanWorkflowVersion v), w)
    | None, None => (Err (ErrWorkflowVersionNotFound label), w)
    end.
Proof.
  unfold authoredVersion, GetWorkflowVersion, ValidateWorkflowVersionLabel, version_refusal,
    find_version, bind, lift, select_rows, map_err. cbn [tget workflow_versions_table].
  destruct (label_ok label); [|done]. cbn [negb].
  destruct (table_select _ _) as [|v l]; cbn; [done|]. by destruct (_ =s _).
Qed.

(** Whether a key was used before for another request *)
Definition key_conflict (db : DB) (pid : Z) (ct key hash : string) : bool :=
  match ledger_of db !! (pid, ct, key) with
  | Some e => en_hash e <>s hash
  | None => false
  end.

Lemma insertWorkflowGateResult_run env record version result o w :
  let conflict := key_conflict (wd_db w) (p_ID record) "workflow.gate.run" (rg_IdempotencyKey o)
                    (workflowGateRequestHash record version result o) in
  if conflict
  then insertWorkflowGateResult env record version result o w
       = (Err (ErrIdempotencyConflict (rg_IdempotencyKey o)), w)
  else exists g w', insertWorkflowGateResult env record version result o w = (Ok (Ok g), w').
Proof.
  cbv zeta. unfold key_conflict.
  pose proof (reserve_eq env (p_ID record) "workflow.gate.run" (rg_IdempotencyKey o)
    (workflowGateRequestHash record version result o) w) as Hr.
  destruct (ledger_of _ !! _) as [e|]; [destruct (_ =s _)|]; cbn [negb];
    unfold insertWorkflowGateResult, bind at 1; rewrite Hr;
    first [reflexivity | eexists _, _; reflexivity].
Qed.

(** The items a stage gate looks at *)
Lemma gateResult_stage fs rd record version spec o w :
  In (gs_GateName spec) stage_gates ->
  gateResult fs rd record version spec o w
  = (Ok (evaluateWorkflowGate record version
           (version_items (wd_db w) (p_ID record) (v_ID version)) spec o), w).
Proof.
  intros Hin. unfold gateResult.
  assert (H : (gs_GateName spec =s "profile_binding_drift") = false
    /\ (gs_GateName spec =s "approval_gate") = false
    /\ (gs_GateName spec =s "live_mapping_gate") = false
    /\ (gs_GateName spec =s "cutover_readiness_gate") = false).
  { unfold stage_gates in Hin. cbn in Hin.
    destruct Hin as [<-|[<-|[<-|[<-|[<-|[]]]]]]; done. }
  destruct H as (-> & -> & -> & ->). reflexivity.
Qed.

Lemma set_rg_key_same o : set_rg_key (rg_IdempotencyKey o) o = o.
Proof. by destruct o. Qed.

Lemma RunWorkflowGate_stage env fs rd record label o spec w :
  gate_spec (rg_GateName (normalizeRunGateOptions o)) = Some spec ->
  In (gs_GateName spec) stage_gates -> rg_IdempotencyKey o <> "" ->
  RunWorkflowGate env fs rd record label o w
  = match version_refusal (wd_db w) (p_ID record) label,
          find_version (wd_db w) (p_ID record) label with
    | None, Some v =>
        let o' := normalizeRunGateOptions o in
        transact (insertWorkflowGateResult env record (scanWorkflowVersion v)
          (evaluateWorkflowGate record (scanWorkflowVersion v)
             (version_items (wd_db w) (p_ID record) (v_ID v)) spec o') o') w
    | Some e, _ => (Err e, w)
    | None, None => (Err (ErrWorkflowVersionNotFound label), w)
    end.
Proof.
  intros Hs Hst Hk. unfold RunWorkflowGate, runGateBody. rewrite Hs. unfold transact.
  unfold bind at 1. rewrite authoredVersion_eq.
  destruct (version_refusal _ _ _) as [e|]; [by destruct w|].
  destruct (find_version _ _ _) as [v|]; [|by destruct w].
  assert (Hk' : (rg_IdempotencyKey (normalizeRunGateOptions o) =s "") = false)
    by by apply String.eqb_neq.
  rewrite Hk'. unfold bind at 1. cbn [ret]. rewrite set_rg_key_same. unfold bind at 1.
  by rewrite gateResult_stage.
Qed.

(** C21. Running a stage gate under a caller's key: it is refused, and nothing
    changes, when the version label is invalid, unknown or not authored, or when
    the key was used for another request; otherwise it succeeds, passes exactly
    when every required item of the version exists and is not a placeholder,
    appends exactly the returned gate result, one event and one audit event of
    the project, and leaves workflow items and everything else alone. *)
Theorem run_gate_functional env fs rd record label o spec w :
  gate_spec (rg_GateName (normalizeRunGateOptions o)) = Some spec ->
  In (gs_GateName spec) stage_gates -> rg_IdempotencyKey o <> "" ->
  match version_refusal (wd_db w) (p_ID record) label,
        find_version (wd_db w) (p_ID record) label with
  | None, Some v =>
      let o' := normalizeRunGateOptions o in
      let items := version_items (wd_db w) (p_ID record) (v_ID v) in
      let result := evaluateWorkflowGate record (scanWorkflowVersion v) items spec o' in
      if key_conflict (wd_db w) (p_ID record) "workflow.gate.run" (rg_IdempotencyKey o)
           (workflowGateRequestHash record (scanWorkflowVersion v) result o')
      then RunWorkflowGate env fs rd record label o w
           = (Err (ErrIdempotencyConflict (rg_IdempotencyKey o)), w)
      else exists g w', RunWorkflowGate env fs rd record label o w = (Ok g, w')
        /\ (g_Status g = "pass" <-> all_real items spec)
        /\ g = scanGateResult (gate_row env result (t_next (db_gate_results (wd_db w))))
        /\ t_rows (db_gate_results (wd_db w')) = t_rows (db_gate_results (wd_db w))
             ++ [gate_row env result (t_next (db_gate_results (wd_db w)))]
        /\ db_transition_previews (wd_db w') = db_transition_previews (wd_db w)
        /\ db_approval_records (wd_db w') = db_approval_records (wd_db w)
        /\ same_but_facts (wd_db w) (wd_db w') /\ history_grows (p_ID record) (wd_db w) (wd_db w')
  | Some e, _ => RunWorkflowGate env fs rd record label o w = (Err e, w)
  | None, None => False
  end.
Proof.
  intros Hs Hst Hk. rewrite (RunWorkflowGate_stage env fs rd record label o spec w Hs Hst Hk).
  destruct (version_refusal _ _ _) as [e|] eqn:Er; [done|].
  destruct (find_version _ _ _) as [v|] eqn:Ev.
  2: { unfold version_refusal in Er. rewrite Ev in Er. by destruct (label_ok label). }
  cbv zeta. set (o' := normalizeRunGateOptions o). set (items := version_items _ _ _).
  set (result := evaluateWorkflowGate _ _ _ _ _).
  pose proof (insertWorkflowGateResult_run env record (scanWorkflowVersion v) result o' w) as H.
  cbv zeta in H. change (rg_IdempotencyKey o') with (rg_IdempotencyKey o) in H. unfold transact.
  destruct (key_conflict _ _ _ _ _); [rewrite H; by destruct w|].
  destruct H as (g & w' & H). rewrite H. exists g, w'. split; [done|].
  apply insertWorkflowGateResult_ok in H as (H1 & -> & H2).
  split; [apply (stage_gate_status record (scanWorkflowVersion v) items spec o')|].
  split; [done|]. by split.
Qed.

(** The gate passes on the store of [Demo] once its items are ready, and not
    before. *)
Definition demo_run_gate (w : World) : res error GateResult * World :=
  RunWorkflowGate demo_env demo_fs demo_readiness demo_project "v1"
    (demo_gate "promotion_preview" "k-gate") w.

Lemma run_gate_functional_witness :
  exists g w', demo_run_gate demo_marked = (Ok g, w') /\ g_Status g = "pass"
    /\ same_but_facts (wd_db demo_marked) (wd_db w')
    /\ history_grows 1 (wd_db demo_marked) (wd_db w').
Proof.
  assert (Hs : exists spec, gate_spec "promotion_preview" = Some spec
                 /\ gs_GateName spec = "promotion_preview")
    by (eexists; split; vm_compute; reflexivity).
  destruct Hs as (spec & Hs & Hn).
  pose proof (run_gate_functional demo_env demo_fs demo_readiness demo_project "v1"
    (demo_gate "promotion_preview" "k-gate") spec demo_marked Hs) as H.
  rewrite Hn in H. specialize (H (or_intror (or_intror (or_intror (or_intror (or_introl eq_refl)))))).
  specialize (H ltac:(discriminate)).
  assert (Hv : exists v, version_refusal (wd_db demo_marked) (p_ID demo_project) "v1" = None
    /\ find_version (wd_db demo_marked) (p_ID demo_project) "v1" = Some v)
    by (eexists; split; vm_compute; reflexivity).
  destruct Hv as (v & Hv1 & Hv2). rewrite Hv1, Hv2 in H. cbv zeta in H.
  assert (Hl' : forall h, key_conflict (wd_db demo_marked) (p_ID demo_project) "workflow.gate.run"
    "k-gate" h = false).
  { intros h. unfold key_conflict in *.
    assert (Hn' : ledger_of (wd_db demo_marked) !! (p_ID demo_project, "workflow.gate.run", "k-gate")
      = None) by (vm_compute; reflexivity). by rewrite Hn'. }
  rewrite Hl' in H. destruct H as (g & w' & E & _ & _ & _ & _ & _ & H1 & H2).
  exists g, w'. split; [exact E|]. split; [|exact (conj H1 H2)].
  assert (Hg : match fst (demo_run_gate demo_marked) with Ok g => g_Status g = "pass" | Err _ => False end)
    by (vm_compute; reflexivity).
  unfold demo_run_gate in Hg. rewrite E in Hg. exact Hg.
Defined.

Example run_gate_placeholder :
  match demo_run_gate demo_versioned with
  | (Ok g, _) => g_Status g = "fail"
  | (Err _, _) => False
  end.
Proof. vm_compute. done. Qed.

(** ** Marking an item ready *)

Lemma writeProjectArtifact_ok env record rel content ct w st w' :
  writeProjectArtifact env record rel content ct w = (Ok st, w') ->
  wd_db w' = wd_db w /\ s_SHA256 st = sha256_hex content.
Proof.
  unfold writeProjectArtifact, WriteConfigured. destruct (_ || _ || _); [done|]. intros E.
  apply bind_ok in E as (p & w1 & Ep & E). apply lift_ok in Ep as [_ <-].
  destruct (_ || _).
  - unfold putLocal in E. destruct (_ =s ""); [done|]. destruct (safeRelativePath _); [|done].
    destruct (env_can_write _ _); [|done]. by injection E as <- <-.
  - destruct (_ || _); [|done]. step_ok. by subst.
Qed.

(** The item a command on a stage and type addresses *)
Definition stage_item (db : DB) (pid vid : Z) (stage itemType : string) : option WorkflowItem :=
  match table_select (fun i => (i_ProjectID i =? pid) && (i_WorkflowVersionID i =? vid)
          && (i_Stage i =s stage) && (i_ItemType i =s itemType)) (db_workflow_items db) with
  | [] => None
  | i :: _ => Some i
  end.

Lemma stage_item_In db pid vid st ty i :
  stage_item db pid vid st ty = Some i -> In i (t_rows (db_workflow_items db)).
Proof.
  unfold stage_item. destruct (table_select _ _) as [|x l] eqn:E; [done|]. intros [= <-].
  by apply select_cons_In in E as [? _].
Qed.

Lemma loadWorkflowItemByStageType_eq pid vid st ty w :
  loadWorkflowItemByStageType pid vid st ty w
  = (Ok (scanWorkflowItem <$> stage_item (wd_db w) pid vid st ty), w).
Proof.
  unfold loadWorkflowItemByStageType, bind, select_rows, stage_item.
  cbn [tget workflow_items_table]. by destruct (table_select _ _).
Qed.

(** What marking an item ready leaves alone *)
Definition same_but_items (db db' : DB) : Prop :=
  (db_projects db', db_actors db', db_command_requests db', db_workers db',
   db_worker_heartbeats db', db_runs db', db_run_tasks db', db_run_attempts db')
  = (db_projects db, db_actors db, db_command_requests db, db_workers db,
     db_worker_heartbeats db, db_runs db, db_run_tasks db, db_run_attempts db)
  /\ (db_leases db', db_workflow_versions db', db_workflow_item_links db', db_gate_results db',
      db_transition_previews db', db_approval_records db')
     = (db_leases db, db_workflow_versions db, db_workflow_item_links db, db_gate_results db,
        db_transition_previews db, db_approval_records db).

(** The updated table holds the ready item in place of the old one. *)
Lemma update_item_row env artifact md (t : table WorkflowItem) i :
  table_ok t -> In i (t_rows t) ->
  table_select (fun x => i_ID x =? i_ID i) t = [i]
  /\ t_rows (table_update (fun x => i_ID x =? i_ID i) (item_ready env artifact md) t)
     = List.map (fun x => if i_ID x =? i_ID i then item_ready env artifact md i else x) (t_rows t).
Proof.
  intros Ht Hi. split.
  - apply table_select_id; [done| |done|apply Z.eqb_refl]. intros r E. by bool_prop.
  - cbn. apply map_ext_in. intros x Hx. destruct (Z.eqb_spec (i_ID x) (i_ID i)) as [E|]; [|done].
    by rewrite (table_ok_inj t x i Ht Hx Hi E).
Qed.

Lemma updateWorkflowItemReady_eq env i artifact o w :
  table_ok (db_workflow_items (wd_db w)) -> In i (t_rows (db_workflow_items (wd_db w))) ->
  updateWorkflowItemReady env (scanWorkflowItem i) artifact o w
  = (Ok (scanWorkflowItem (item_ready env artifact
           (ready_metadata (scanWorkflowItem i) artifact o) i)),
     set_db (set_workflow_items (table_update (fun x => i_ID x =? i_ID i)
       (item_ready env artifact (ready_metadata (scanWorkflowItem i) artifact o))
       (db_workflow_items (wd_db w))) (wd_db w)) w).
Proof.
  intros Ht Hi. unfold updateWorkflowItemReady, bind, update_rows.
  cbn [tget tset workflow_items_table scanWorkflowItem i_ID].
  by rewrite (proj1 (update_item_row env artifact
    (ready_metadata (scanWorkflowItem i) artifact o) _ i Ht Hi)).
Qed.

(** Marking an item ready: an empty stage or type, a version that is invalid,
    unknown or not authored, an item that does not exist, or a marker that
    cannot be written is refused and leaves the database as it was.  Otherwise
    exactly the addressed item changes: it is ready, carries the digest of the
    marker that was written and is no placeholder any more, so the gates
    count it; one artifact, one event and one audit event are added. *)
Theorem mark_ready_functional env record label o w :
  table_ok (db_workflow_items (wd_db w)) ->
  let o' := normalizeMarkWorkflowItemReadyOptions o in
  let run := MarkWorkflowItemReady env record label o w in
  if (mr_Stage o' =s "") || (mr_ItemType o' =s "")
  then run = (Err (ErrText "stage and item type are required"), w)
  else match version_refusal (wd_db w) (p_ID record) label,
             find_version (wd_db w) (p_ID record) label with
  | Some e, _ => run = (Err e, w)
  | None, None => False
  | None, Some v =>
      match stage_item (wd_db w) (p_ID record) (v_ID v) (mr_Stage o') (mr_ItemType o') with
      | None => run = (Err (ErrText ("workflow item not found: " +:+ mr_Stage o' +:+ "/"
                         +:+ mr_ItemType o')), w)
      | Some i =>
          let version := scanWorkflowVersion v in
          let content := ready_marker_content record version (scanWorkflowItem i) o' in
          match writeProjectArtifact env record (ready_marker_path version (scanWorkflowItem i))
                  content "application/json" w with
          | (Err e, w1) => run = (Err e, set_db (wd_db w) w1)
          | (Ok st, w1) =>
              exists r w' i' a, run = (Ok r, w') /\ mk_Item r = scanWorkflowItem i'
                /\ i_Status i' = "ready" /\ i_SourceHash i' = sha256_hex content
                /\ isStageSkeletonPlaceholder (mk_Item r) = false
                /\ t_rows (db_workflow_items (wd_db w'))
                   = List.map (fun x => if i_ID x =? i_ID i then i' else x)
                       (t_rows (db_workflow_items (wd_db w)))
                /\ t_rows (db_artifacts (wd_db w')) = t_rows (db_artifacts (wd_db w)) ++ [a]
                /\ wd_files w' = wd_files w1 /\ same_but_items (wd_db w) (wd_db w')
                /\ history_grows (p_ID record) (wd_db w) (wd_db w')
          end
      end
  end.
Proof.
  intros Hk o' run. assert (Erun : run = MarkWorkflowItemReady env record label o w) by done.
  clearbody run. unfold MarkWorkflowItemReady, transact, markReadyBody in Erun. fold o' in Erun.
  destruct (_ || _); [by destruct w|]. unfold bind at 1 in Erun. rewrite authoredVersion_eq in Erun.
  destruct (version_refusal _ _ _) as [e|] eqn:Er; [by destruct w|].
  destruct (find_version _ _ _) as [v|] eqn:Ev.
  2: { unfold version_refusal in Er. rewrite Ev in Er. by destruct (label_ok label). }
  unfold bind at 1 in Erun. rewrite loadWorkflowItemByStageType_eq in Erun.
  cbn [scanWorkflowVersion v_ID] in Erun. fold (scanWorkflowVersion v) in Erun.
  destruct (stage_item _ _ _ _ _) as [i|] eqn:Ei; cbn [fmap option_fmap option_map] in Erun;
    [|by destruct w]. cbv zeta. apply stage_item_In in Ei.
  unfold writeAndInsertReadyMarkerArtifact in Erun. cbv zeta in Erun. unfold bind at 1 2 in Erun.
  destruct (writeProjectArtifact _ _ _ _ _ _) as [[st|e] w1] eqn:Ew; [|done].
  apply writeProjectArtifact_ok in Ew as [Hdb Hsha].
  unfold insertArtifactRecord, bind at 1, insert_row at 1 in Erun. cbn [ret] in Erun.
  unfold bind at 1 in Erun. rewrite updateWorkflowItemReady_eq in Erun by (cbn; rewrite ?Hdb; done).
  match type of Erun with context [item_ready env ?ar ?md i] =>
    set (artifact := ar) in *; set (i' := item_ready env artifact md i) in * end.
  cbn -[isStageSkeletonPlaceholder table_update ready_metadata] in Erun. eexists _, _, i', _.
  split; [exact Erun|]. cbn -[isStageSkeletonPlaceholder table_update table_insert ready_metadata ready_marker_content].
  split; [reflexivity|]. split; [reflexivity|]. split; [exact Hsha|]. split.
  { unfold isStageSkeletonPlaceholder. cbn [scanWorkflowItem item_ready i_SourceHash].
    change (ar_SHA256 artifact) with (s_SHA256 st). rewrite Hsha.
    destruct (String.eqb_spec (sha256_hex (ready_marker_content record (scanWorkflowVersion v)
      (scanWorkflowItem i) o')) "") as [E|]; [by apply sha256_hex_nonempty in E|done]. }
  rewrite Hdb. split; [by apply update_item_row|]. split; [reflexivity|].
  split; [reflexivity|]. split; [split; reflexivity|]. eexists _, _. done.
Qed.

Lemma mark_ready_functional_witness :
  exists r w' i', MarkWorkflowItemReady demo_env demo_project "v1"
      (demo_mark "queue" "queue_candidate") demo_versioned = (Ok r, w')
    /\ mk_Item r = scanWorkflowItem i' /\ i_Status i' = "ready"
    /\ isStageSkeletonPlaceholder (mk_Item r) = false
    /\ same_but_items (wd_db demo_versioned) (wd_db w').
Proof.
  assert (Hk : table_ok (db_workflow_items (wd_db demo_versioned))).
  { split; [by vm_compute|]. split; vm_compute; repeat constructor; cbn; try lia;
      intuition discriminate. }
  pose proof (mark_ready_functional demo_env demo_project "v1"
    (demo_mark "queue" "queue_candidate") demo_versioned Hk) as H. cbv zeta in H.
  match type of H with if ?b then _ else _ => assert (Hb : b = false) by (vm_compute; reflexivity) end.
  rewrite Hb in H.
  assert (Hv : exists v i, version_refusal (wd_db demo_versioned) (p_ID demo_project) "v1" = None
    /\ find_version (wd_db demo_versioned) (p_ID demo_project) "v1" = Some v
    /\ stage_item (wd_db demo_versioned) (p_ID demo_project) (v_ID v) "queue" "queue_candidate"
       = Some i
    /\ is_ok (fst (writeProjectArtifact demo_env demo_project
         (ready_marker_path (scanWorkflowVersion v) (scanWorkflowItem i))
         (ready_marker_content demo_project (scanWorkflowVersion v) (scanWorkflowItem i)
            (normalizeMarkWorkflowItemReadyOptions (demo_mark "queue" "queue_candidate")))
         "application/json" demo_versioned)) = true).
  { eexists _, _. split; [vm_compute; reflexivity|]. split; [vm_compute; reflexivity|].
    split; [vm_compute; reflexivity|]. vm_compute. reflexivity. }
  destruct Hv as (v & i & Hv1 & Hv2 & Hv3 & Hv4). rewrite Hv1, Hv2 in H.
  change (mr_Stage (normalizeMarkWorkflowItemReadyOptions (demo_mark "queue" "queue_candidate")))
    with "queue" in H.
  change (mr_ItemType (normalizeMarkWorkflowItemReadyOptions (demo_mark "queue" "queue_candidate")))
    with "queue_candidate" in H.
  rewrite Hv3 in H. destruct (writeProjectArtifact _ _ _ _ _ _) as [[st|e] w1]; [|discriminate Hv4].
  destruct H as (r & w' & i' & a & H1 & H2 & H3 & _ & H4 & _ & _ & _ & H5 & _).
  exists r, w', i'. exact (conj H1 (conj H2 (conj H3 (conj H4 H5)))).
Defined.

(** The same request with the same key runs the gate a second time. *)
Example gate_repeat_inserts_again :
  List.map g_ID (t_rows (db_gate_results (wd_db (snd (demo_run_gate (snd (demo_run_gate demo_marked)))))))
  = [1; 2].
Proof. vm_compute. done. Qed.

(** The caller's metadata wins over the fields an approval is built with. *)
Example approval_flag_overridden :
  mget "approval_is_execution"
    (ap_Metadata (buildApprovalRecord demo_project (MkVersion 1 1 "v1" "" "" "" "" "" false [] 0 0 None)
       None (MkCreateApproval "rejected" "" "" "" "" "" 0
               (Some [("approval_is_execution", JBool true)])))) = Some (JBool true).
Proof. vm_compute. done. Qed.
