(* ===== verification/WorkflowSystem.v ===== *)
(** * The workflow commands, in any order

    Gate results, transition previews and approvals are evidence: an approval
    counts because the preview it names was ready, and the preview was ready
    because a promotion gate had passed.  The system here interleaves the
    workflow commands with the worker and run-control commands of [System];
    its invariant says that the chain of evidence behind every approval and
    every passing live-mapping gate exists in the store. *)

From stdpp Require Import base list strings numbers relations gmap.
From Stdlib Require Import ZArith Lia String.
From S2P Require Import Prelude GoString Sha256 Json Schema Tx Command History Worker.
From S2P Require Import FilePath RunOnce Profile Workflow Gates Demo Steps ExecutionSteps System.
From S2P Require Import WorkflowSpec.

(** ** Evidence *)

(** A passing result of the promotion gate for a version *)
Definition promotion_passed (db : DB) (pid vid : Z) (g : GateResult) : Prop :=
  In g (t_rows (db_gate_results db)) /\ g_ProjectID g = pid /\ g_WorkflowVersionID g = vid
  /\ g_GateName g = "promotion_preview" /\ g_Status g = "pass".

Definition preview_backed (db : DB) (p : WorkflowTransitionPreview) : Prop :=
  tp_Status p = "ready" ->
  exists g, promotion_passed db (tp_ProjectID p) (tp_WorkflowVersionID p) g
            /\ tp_GateResultID p = g_ID g.

(** A ready preview of a version *)
Definition preview_ready (db : DB) (pid vid : Z) (p : WorkflowTransitionPreview) : Prop :=
  In p (t_rows (db_transition_previews db)) /\ tp_ProjectID p = pid
  /\ tp_WorkflowVersionID p = vid /\ tp_Status p = "ready".

(** Who asked for the transition *)
Definition requester (p : WorkflowTransitionPreview) : option json :=
  mget "actor" (tp_Metadata (scanTransitionPreview p)).

Definition approval_backed (db : DB) (a : ApprovalRecord) : Prop :=
  (ap_Decision a = "approved" \/ ap_Decision a = "rejected")
  /\ (ap_Decision a = "approved" ->
      exists p, preview_ready db (ap_ProjectID a) (ap_WorkflowVersionID a) p
        /\ ap_TransitionPreviewID a = tp_ID p
        /\ (highRiskApproval (ap_RiskLevel a) = true -> sameActor (ap_Actor a) (requester p) = false)).

Definition gate_backed (db : DB) (g : GateResult) : Prop :=
  g_Status g = "pass" ->
  (In (g_GateName g) ["approval_gate"; "live_mapping_gate"] ->
   (exists a, approved db (g_ProjectID g) (g_WorkflowVersionID g) a)
   /\ (exists p, preview_ready db (g_ProjectID g) (g_WorkflowVersionID g) p))
  /\ (g_GateName g = "live_mapping_gate" ->
      exists g', promotion_passed db (g_ProjectID g) (g_WorkflowVersionID g) g').

(** An attempt that is not a dry run belongs to a cleared run. *)
Definition attempt_backed (db : DB) (a : RunAttemptRecord) : Prop :=
  at_DryRun a = true \/ run_cleared db (at_RunID a).

Definition facts_sound (db : DB) : Prop :=
  Forall (gate_backed db) (t_rows (db_gate_results db))
  /\ Forall (preview_backed db) (t_rows (db_transition_previews db))
  /\ Forall (approval_backed db) (t_rows (db_approval_records db))
  /\ Forall (attempt_backed db) (t_rows (db_run_attempts db)).

(** ** Facts are only added, and runs keep what they are *)

Definition facts_grow (db db' : DB) : Prop :=
  (exists new, t_rows (db_gate_results db') = t_rows (db_gate_results db) ++ new)
  /\ (exists new, t_rows (db_transition_previews db') = t_rows (db_transition_previews db) ++ new)
  /\ (exists new, t_rows (db_approval_records db') = t_rows (db_approval_records db) ++ new)
  /\ extends same_run_identity (t_rows (db_runs db)) (t_rows (db_runs db')).

#[export] Instance facts_grow_preorder : PreOrder facts_grow.
Proof.
  split.
  - intros db. split_and!; [exists []; by rewrite app_nil_r..|reflexivity].
  - intros a b c ([n1 E1] & [n2 E2] & [n3 E3] & R1) ([m1 F1] & [m2 F2] & [m3 F3] & R2).
    rewrite E1 in F1. rewrite E2 in F2. rewrite E3 in F3. rewrite <- app_assoc in F1, F2, F3.
    split_and!; [by eexists..|by etransitivity].
Qed.

Lemma grow_In {A} (l l' : list A) x : (exists new, l' = l ++ new) -> In x l -> In x l'.
Proof. intros [new ->] H. apply in_or_app. by left. Qed.

(** Evidence that exists once exists for good. *)
Section Monotone.
Context (db db' : DB) (Hg : facts_grow db db').

Lemma promotion_passed_mono pid vid g : promotion_passed db pid vid g -> promotion_passed db' pid vid g.
Proof. intros [Hin H]. split; [|done]. by eapply grow_In; [apply Hg|]. Qed.

Lemma preview_ready_mono pid vid p : preview_ready db pid vid p -> preview_ready db' pid vid p.
Proof. intros [Hin H]. split; [|done]. by eapply grow_In; [apply Hg|]. Qed.

Lemma approved_mono pid vid a : approved db pid vid a -> approved db' pid vid a.
Proof. intros [Hin H]. split; [|done]. by eapply grow_In; [apply Hg|]. Qed.

Lemma gate_passed_mono pid vid name g : gate_passed db pid vid name g -> gate_passed db' pid vid name g.
Proof. intros [Hin H]. split; [|done]. by eapply grow_In; [apply Hg|]. Qed.

Lemma run_cleared_mono runID : run_cleared db runID -> run_cleared db' runID.
Proof.
  intros (r & Hin & Hid & Hk & Hd & [a Ha] & [g1 H1] & [g2 H2]).
  destruct (extends_In _ _ _ r (proj2 (proj2 (proj2 Hg))) Hin) as (r' & Hin' & Hs).
  destruct Hs as (E1 & E2 & E3 & _ & E4 & _ & _ & E5 & _). exists r'.
  rewrite E1, E2, E3, E4, E5. split_and!; [done..|]. split_and!; eexists;
    [by apply approved_mono|by apply gate_passed_mono|by apply gate_passed_mono].
Qed.

Lemma preview_backed_mono p : preview_backed db p -> preview_backed db' p.
Proof. intros H Hs. destruct (H Hs) as (g & Hp & E). eauto using promotion_passed_mono. Qed.

Lemma approval_backed_mono a : approval_backed db a -> approval_backed db' a.
Proof.
  intros [Hd H]. split; [done|]. intros Ha. destruct (H Ha) as (p & Hp & E).
  eauto using preview_ready_mono.
Qed.

Lemma gate_backed_mono g : gate_backed db g -> gate_backed db' g.
Proof.
  intros H Hs. destruct (H Hs) as [H1 H2]. split.
  - intros Hn. destruct (H1 Hn) as [[a Ha] [p Hp]].
    split; eexists; [by apply approved_mono|by apply preview_ready_mono].
  - intros Hn. destruct (H2 Hn) as [g' Hp]. eauto using promotion_passed_mono.
Qed.

Lemma attempt_backed_mono a : attempt_backed db a -> attempt_backed db' a.
Proof. intros [H|H]; [by left|]. right. by apply run_cleared_mono. Qed.

(** New rows need their own backing only. *)
Lemma facts_sound_new :
  (forall g, In g (t_rows (db_gate_results db')) ->
     In g (t_rows (db_gate_results db)) \/ gate_backed db' g) ->
  (forall p, In p (t_rows (db_transition_previews db')) ->
     In p (t_rows (db_transition_previews db)) \/ preview_backed db' p) ->
  (forall a, In a (t_rows (db_approval_records db')) ->
     In a (t_rows (db_approval_records db)) \/ approval_backed db' a) ->
  (forall a, In a (t_rows (db_run_attempts db')) ->
     In a (t_rows (db_run_attempts db)) \/ attempt_backed db' a) ->
  facts_sound db -> facts_sound db'.
Proof.
  intros N1 N2 N3 N4 (S1 & S2 & S3 & S4). unfold facts_sound. rewrite !List.Forall_forall in *.
  split_and!; intros x Hx;
    [destruct (N1 x Hx)|destruct (N2 x Hx)|destruct (N3 x Hx)|destruct (N4 x Hx)];
    eauto using gate_backed_mono, preview_backed_mono, approval_backed_mono, attempt_backed_mono.
Qed.
End Monotone.

(** What the workflow commands do to the store *)
Definition wf_rel (db db' : DB) : Prop :=
  facts_grow db db' /\ append_only db db' /\ (keys_ok db -> keys_ok db')
  /\ (facts_sound db -> facts_sound db').

#[export] Instance wf_rel_preorder : PreOrder wf_rel.
Proof.
  split.
  - intros db. split_and!; [reflexivity|reflexivity|done|done].
  - intros a b c (H1 & H2 & H3 & H4) (K1 & K2 & K3 & K4).
    split_and!; [by etransitivity|by etransitivity|auto|auto].
Qed.

Definition facts_same (db db' : DB) : Prop :=
  db_gate_results db' = db_gate_results db
  /\ db_runs db' = db_runs db /\ db_run_attempts db' = db_run_attempts db
  /\ db_transition_previews db' = db_transition_previews db
  /\ db_approval_records db' = db_approval_records db.

Lemma facts_same_wf db db' :
  facts_same db db' -> append_only db db' -> (keys_ok db -> keys_ok db') -> wf_rel db db'.
Proof.
  intros (E1 & E4 & E5 & E2 & E3) Ha Hk.
  assert (Hg : facts_grow db db').
  { unfold facts_grow. rewrite E1, E2, E3, E4.
    split_and!; [exists []; by rewrite app_nil_r..|reflexivity]. }
  split_and!; [done|done|done|].
  apply facts_sound_new; [done|..]; rewrite ?E1, ?E2, ?E3, ?E5; auto.
Qed.

(** ** The commands that only build the version *)

Ltac keys_leaf :=
  let H := fresh in
  intros H; unfold keys_ok in *; cbn -[table_insert table_update table_ok] in *;
  decompose [and] H; split_and!; try assumption;
  first [ apply table_insert_ok; [by intros|assumption]
        | apply table_update_ok; [by intros|assumption] ].

Ltac wf_leaf :=
  rel_leaf; apply facts_same_wf; [split_and!; reflexivity|append_leaf|try done; keys_leaf].

Lemma reserve_wf env pid ct key hash : m_rel wf_rel (reserveCommandRequest env pid ct key hash).
Proof. unfold reserveCommandRequest. rel_split. wf_leaf. Qed.

Lemma complete_wf env pid ct key resp :
  m_rel wf_rel (completeCommandRequestResponse env pid ct key resp).
Proof. unfold completeCommandRequestResponse. rel_split. wf_leaf. Qed.

Lemma putLocal_wf env root rel content ct : m_rel wf_rel (putLocal env root rel content ct).
Proof.
  intros w a w' E. unfold putLocal in E. repeat (case_match; try done). injection E as _ <-.
  reflexivity.
Qed.

Lemma writeProjectArtifact_wf env record rel content ct :
  m_rel wf_rel (writeProjectArtifact env record rel content ct).
Proof. unfold writeProjectArtifact, WriteConfigured. rel_split; apply putLocal_wf. Qed.

Lemma insert_item_wf env pid vid st ty ek ti status md :
  m_rel wf_rel (insert_item env pid vid st ty ek ti status md).
Proof. unfold insert_item. rel_split. wf_leaf. Qed.

Lemma insertArtifactRecord_wf env pid vid iid ty src st md :
  m_rel wf_rel (insertArtifactRecord env pid vid iid ty src st md).
Proof. unfold insertArtifactRecord. rel_split. wf_leaf. Qed.

Lemma insertWorkflowItemLink_wf env pid vid from to rt md :
  m_rel wf_rel (insertWorkflowItemLink env pid vid from to rt md).
Proof. unfold insertWorkflowItemLink. rel_split. wf_leaf. Qed.

Lemma insertAuthoredWorkflowVersion_wf env pid o :
  m_rel wf_rel (insertAuthoredWorkflowVersion env pid o).
Proof. unfold insertAuthoredWorkflowVersion. rel_split. wf_leaf. Qed.

#[export] Hint Resolve reserve_wf complete_wf writeProjectArtifact_wf insert_item_wf
  insertArtifactRecord_wf insertWorkflowItemLink_wf insertAuthoredWorkflowVersion_wf : rel.

Lemma loadWorkflowItemByExternalKey_reads pid vid key :
  reads (loadWorkflowItemByExternalKey pid vid key).
Proof. unfold loadWorkflowItemByExternalKey. reads_split. Qed.

Lemma loadWorkflowItemByStageType_reads pid vid st ty :
  reads (loadWorkflowItemByStageType pid vid st ty).
Proof. unfold loadWorkflowItemByStageType. reads_split. Qed.

#[export] Hint Resolve loadWorkflowItemByExternalKey_reads
  loadWorkflowItemByStageType_reads : reads.

Lemma loadStageSkeletonItems_reads pid version specs :
  reads (loadStageSkeletonItems pid version specs).
Proof. induction specs as [|spec rest IH]; cbn [loadStageSkeletonItems]; reads_split. Qed.

Lemma replayCreation_reads record o : reads (replayCreation record o).
Proof.
  unfold replayCreation, loadWorkflowVersionCreation, listWorkflowItemsInTx. reads_split.
Qed.

Lemma replayApproval_reads pid key : reads (replayApproval pid key).
Proof. unfold replayApproval, loadApprovalRecordByIdempotency. reads_split. Qed.

#[export] Hint Resolve loadStageSkeletonItems_reads replayCreation_reads replayApproval_reads : reads.

Lemma reads_wf {A} (m : M A) : reads m -> m_rel wf_rel m.
Proof. intros H. by apply reads_rel; [exact _|]. Qed.
#[export] Hint Extern 3 (m_rel wf_rel _) => (apply reads_wf; solve [eauto with reads nocore]) : rel.

Lemma skeleton_link_loop_wf env pid version o items specs :
  m_rel wf_rel (skeleton_link_loop env pid version o items specs).
Proof. induction specs as [|spec rest IH]; cbn [skeleton_link_loop]; rel_split. Qed.

Lemma skeleton_item_loop_wf env record version o specs :
  m_rel wf_rel (skeleton_item_loop env record version o specs).
Proof.
  induction specs as [|spec rest IH]; cbn [skeleton_item_loop]; [rel_split|].
  unfold insertStageSkeletonItem, writeAndInsertStageArtifact. rel_split.
Qed.
#[export] Hint Resolve skeleton_link_loop_wf skeleton_item_loop_wf : rel.

Lemma ensureStageSkeletonInTx_wf env record version o :
  m_rel wf_rel (ensureStageSkeletonInTx env record version o).
Proof. unfold ensureStageSkeletonInTx, ensureStageSkeletonLinks. rel_split. Qed.

Lemma recordStageSkeletonEvent_wf env record version created o :
  m_rel wf_rel (recordStageSkeletonEvent env record version created o).
Proof. unfold recordStageSkeletonEvent. cbv zeta. rel_split; wf_leaf. Qed.
#[export] Hint Resolve ensureStageSkeletonInTx_wf recordStageSkeletonEvent_wf : rel.

Lemma ensureSkeletonBody_wf env record label o :
  m_rel wf_rel (ensureSkeletonBody env record label o).
Proof. unfold ensureSkeletonBody. cbv zeta. rel_split. Qed.

Lemma createVersionBody_wf env record o : m_rel wf_rel (createVersionBody env record o).
Proof.
  unfold createVersionBody, workflowVersionLabelExists, insertVersionInitItem,
    insertWorkflowVersionCreatedEvent, insertWorkflowVersionAuditEvent, completeCommandRequest.
  cbv zeta. rel_split; wf_leaf.
Qed.

Lemma markReadyBody_wf env record label o : m_rel wf_rel (markReadyBody env record label o).
Proof.
  unfold markReadyBody, writeAndInsertReadyMarkerArtifact, updateWorkflowItemReady,
    insertWorkflowItemReadyEvent, insertWorkflowItemReadyAuditEvent. cbv zeta. rel_split; wf_leaf.
Qed.

(** ** The commands that add evidence *)

(** The rest of a body, from the state its first steps left *)
Lemma rel_run {A} (R : DB -> DB -> Prop) (m : M A) w a w' :
  m w = (Ok a, w') -> m_rel R m -> R (wd_db w) (wd_db w').
Proof. intros E Hm. by eapply Hm. Qed.

(** One row is added to one of the tables, with its backing. *)
Ltac grow_leaf :=
  split_and!; first [ reflexivity | by eexists | exists []; by rewrite app_nil_r ].

Lemma gate_insert_wf db mkrow :
  (facts_sound db -> gate_backed db (mkrow (t_next (db_gate_results db)))) ->
  wf_rel db (set_gate_results (table_insert mkrow (db_gate_results db)) db).
Proof.
  intros Hb. set (db' := set_gate_results _ _).
  assert (Hg : facts_grow db db').
  { unfold facts_grow. grow_leaf. }
  split_and!; [done|append_leaf|done|]. intros Hs. apply (facts_sound_new db db' Hg); [|by auto..|done].
  intros g Hin. apply table_insert_In in Hin as [?| ->]; [by left|right].
  apply (gate_backed_mono db db' Hg). auto.
Qed.

Lemma preview_insert_wf db mkrow :
  preview_backed db (mkrow (t_next (db_transition_previews db))) ->
  wf_rel db (set_transition_previews (table_insert mkrow (db_transition_previews db)) db).
Proof.
  intros Hb. set (db' := set_transition_previews _ _).
  assert (Hg : facts_grow db db').
  { unfold facts_grow. grow_leaf. }
  split_and!; [done|append_leaf|done|]. apply (facts_sound_new db db' Hg); [by auto| |by auto..].
  intros p Hin. apply table_insert_In in Hin as [?| ->]; [by left|right].
  by apply (preview_backed_mono db db' Hg).
Qed.

Lemma approval_insert_wf db mkrow :
  approval_backed db (mkrow (t_next (db_approval_records db))) ->
  wf_rel db (set_approval_records (table_insert mkrow (db_approval_records db)) db).
Proof.
  intros Hb. set (db' := set_approval_records _ _).
  assert (Hg : facts_grow db db').
  { unfold facts_grow. grow_leaf. }
  split_and!; [done|append_leaf|done|]. apply (facts_sound_new db db' Hg); [by auto|by auto| |by auto].
  intros a Hin. apply table_insert_In in Hin as [?| ->]; [by left|right].
  by apply (approval_backed_mono db db' Hg).
Qed.

Lemma resolvePreview_ok pid vid id w o w' :
  resolveApprovalTransitionPreview pid vid id w = (Ok o, w') ->
  w' = w /\ forall p, o = Some p -> exists p0, In p0 (t_rows (db_transition_previews (wd_db w)))
    /\ p = scanTransitionPreview p0 /\ tp_ProjectID p0 = pid /\ tp_WorkflowVersionID p0 = vid.
Proof.
  intros [= <- <-]. split; [done|]. intros p E. apply fmap_Some in E as (p0 & E & ->).
  apply latest_select in E as [Hin E]. bool_prop. by exists p0.
Qed.

Lemma event_wf (mkrow : Z -> EventRecord) :
  (forall id, e_ID (mkrow id) = id) -> m_rel wf_rel (insert_row mkrow).
Proof. intros Hid. wf_leaf. Qed.
Lemma audit_wf (mkrow : Z -> AuditEventRecord) :
  (forall id, au_ID (mkrow id) = id) -> m_rel wf_rel (insert_row mkrow).
Proof. intros Hid. wf_leaf. Qed.
Lemma next_workflowGate_wf : m_rel wf_rel next_workflowGate.
Proof. intros w a w' [= _ <-]. reflexivity. Qed.
Lemma next_transitionPreview_wf : m_rel wf_rel next_transitionPreview.
Proof. intros w a w' [= _ <-]. reflexivity. Qed.
#[export] Hint Resolve next_workflowGate_wf next_transitionPreview_wf : rel.
#[export] Hint Extern 1 (m_rel wf_rel (insert_row _)) =>
  (first [apply event_wf; reflexivity | apply audit_wf; reflexivity]) : rel.

(** *** Gates *)

(** When the two gates over approvals pass *)
Lemma approval_gate_pass record version approval preview o :
  g_Status (evaluateApprovalGate record version approval preview o) = "pass" ->
  exists a p, approval = Some a /\ ap_Decision a = "approved" /\ preview = Some p
              /\ tp_Status p = "ready".
Proof.
  unfold evaluateApprovalGate. cbn [g_Status]. destruct approval as [a|]; [|done].
  destruct (String.eqb_spec (ap_Decision a) "approved"); [|done].
  destruct preview as [p|]; [|done]. destruct (String.eqb_spec (tp_Status p) "ready"); [|done].
  intros _. by exists a, p.
Qed.

Lemma live_mapping_pass record version approval preview gate o :
  g_Status (evaluateLiveMappingGate record version approval preview gate o) = "pass" ->
  exists a p g, approval = Some a /\ ap_Decision a = "approved" /\ preview = Some p
              /\ tp_Status p = "ready" /\ gate = Some g /\ g_Status g = "pass".
Proof.
  unfold evaluateLiveMappingGate. cbn [g_Status]. destruct approval as [a|]; [|done].
  destruct (String.eqb_spec (ap_Decision a) "approved"); [|done].
  destruct preview as [p|]; [|done]. destruct (String.eqb_spec (tp_Status p) "ready"); [|done].
  destruct gate as [g|]; [|done]. destruct (String.eqb_spec (g_Status g) "pass"); [|done].
  intros _. by exists a, p, g.
Qed.

(** A result that passes is backed by what was read. *)
Lemma approvalBacked_backed record version spec o w r w' :
  approvalBackedResult record version spec o w = (Ok r, w') -> gate_backed (wd_db w) r.
Proof.
  unfold approvalBackedResult. intros E.
  apply bind_ok in E as (approval & w1 & Ea & E). apply latestApproval_ok in Ea as [-> Ha].
  apply bind_ok in E as (preview & w1 & Ep & E). apply resolvePreview_ok in Ep as [-> Hp].
  assert (Hev : forall a p, approval = Some a -> ap_Decision a = "approved" ->
    preview = Some p -> tp_Status p = "ready" ->
    (exists a, approved (wd_db w) (p_ID record) (v_ID version) a)
    /\ (exists p, preview_ready (wd_db w) (p_ID record) (v_ID version) p)).
  { intros a p E1 D1 E2 D2. destruct (Ha a E1) as (a0 & ? & -> & ? & ?).
    destruct (Hp p E2) as (p0 & ? & -> & ? & ?). split; [by exists a0|by exists p0]. }
  destruct (_ =s "approval_gate").
  - apply ret_ok in E as [<- <-]. intros Hs.
    apply approval_gate_pass in Hs as (a & p & E1 & D1 & E2 & D2).
    split; [intros _; by eapply Hev|done].
  - destruct (_ =s "live_mapping_gate"); [|done].
    apply bind_ok in E as (gate & w1 & Eg & E). apply latestGateResult_ok in Eg as [-> Hg].
    apply ret_ok in E as [<- <-]. intros Hs.
    apply live_mapping_pass in Hs as (a & p & g & E1 & D1 & E2 & D2 & E3 & D3).
    destruct (Hg g E3) as (g0 & ? & -> & ? & ? & ?).
    split; [intros _; by eapply Hev|]. intros _. by exists g0.
Qed.

Lemma other_gate_backed db g :
  ~ In (g_GateName g) ["approval_gate"; "live_mapping_gate"] -> gate_backed db g.
Proof. intros Hn _. split; [done|]. intros Hl. exfalso. apply Hn. rewrite Hl. cbn. auto. Qed.

Lemma profileDrift_name fs record version spec o :
  g_GateName (profileDriftResult fs record version spec o) = gs_GateName spec.
Proof.
  unfold profileDriftResult. destruct (workflowVersionProfileBinding version) as [b []]; [|done].
  destruct (workflowProfileRoot fs) as [root|e]; [|done]. by destruct (LoadBuiltInProfile _ _ _).
Qed.

Lemma gateResult_backed fs rd record version spec o w r w' :
  gateResult fs rd record version spec o w = (Ok r, w') -> w' = w /\ gate_backed (wd_db w) r.
Proof.
  intros E. pose proof (reads_ok _ _ _ _ (gateResult_reads fs rd record version spec o) E) as ->.
  split; [done|]. unfold gateResult in E.
  destruct (String.eqb_spec (gs_GateName spec) "profile_binding_drift") as [En|En].
  { apply ret_ok in E as [<- _]. apply other_gate_backed. rewrite profileDrift_name, En.
    cbn. intuition congruence. }
  destruct (String.eqb_spec (gs_GateName spec) "approval_gate") as [Ea|Ea];
    [by apply approvalBacked_backed in E|].
  destruct (String.eqb_spec (gs_GateName spec) "live_mapping_gate") as [El|El];
    [by apply approvalBacked_backed in E|]. cbn [orb] in E.
  assert (Hr : g_GateName r = gs_GateName spec).
  { destruct (_ =s "cutover_readiness_gate").
    - unfold cutoverResult in E. destruct (rd _ _ _); [|done]. by injection E as <-.
    - apply bind_ok in E as (items & w1 & _ & E). by apply ret_ok in E as [<- _]. }
  apply other_gate_backed. rewrite Hr. cbn. intuition congruence.
Qed.

Lemma gate_key_wf env record version spec o :
  m_rel wf_rel (if rg_IdempotencyKey o =s "" then workflowGateIdempotencyKey env record version spec o
                else ret (rg_IdempotencyKey o)).
Proof. unfold workflowGateIdempotencyKey. rel_split. Qed.

(** The steps after the insert *)
Lemma insertWorkflowGateResult_wf env record version result o w a w' :
  gate_backed (wd_db w) result ->
  insertWorkflowGateResult env record version result o w = (Ok a, w') ->
  wf_rel (wd_db w) (wd_db w').
Proof.
  intros Hb E. unfold insertWorkflowGateResult in E. apply bind_ok in E as (b & w2 & Erv & E).
  pose proof (reserve_wf _ _ _ _ _ _ _ _ Erv) as Hr. etransitivity; [exact Hr|].
  apply bind_ok in E as (g & w3 & Eg & E). apply insert_ret_ok in Eg as [-> ->].
  etransitivity; [|apply (rel_run wf_rel _ _ _ _ E); unfold insertGateEvent, insertGateAuditEvent;
    rel_split]. apply gate_insert_wf.
  intros _. apply (gate_backed_mono (wd_db w) (wd_db w2)); [apply Hr|]. exact Hb.
Qed.

Lemma runGateBody_wf env fs rd record label o :
  m_rel wf_rel (runGateBody env fs rd record label o).
Proof.
  unfold runGateBody. destruct (gate_spec _) as [spec|]; [|apply m_rel_fail].
  intros w a w' E. apply bind_ok in E as (version & w1 & Ev & E).
  apply (reads_ok _ _ _ _ (authoredVersion_reads record label)) in Ev as ->.
  apply bind_ok in E as (key & w1 & Ek & E). etransitivity; [by eapply gate_key_wf|].
  apply bind_ok in E as (result & w2 & Er & E). apply gateResult_backed in Er as [-> Hb].
  by eapply insertWorkflowGateResult_wf.
Qed.

(** *** Previews and approvals *)

Lemma preview_key_wf env record version preview o :
  m_rel wf_rel (if po_IdempotencyKey o =s ""
                then workflowTransitionPreviewIdempotencyKey env record version preview o
                else ret (po_IdempotencyKey o)).
Proof. unfold workflowTransitionPreviewIdempotencyKey. rel_split. Qed.

Lemma preview_row_backed db record version gate o id now :
  (forall g, gate = Some g -> exists g0, In g0 (t_rows (db_gate_results db))
     /\ g = scanGateResult g0 /\ g_ProjectID g0 = p_ID record
     /\ g_WorkflowVersionID g0 = v_ID version /\ g_GateName g0 = "promotion_preview") ->
  let p := evaluateWorkflowTransitionPreview record version gate o in
  preview_backed db
    (MkPreview id (tp_ProjectID p) (tp_WorkflowVersionID p) (tp_FromStage p) (tp_ToStage p)
       (tp_Status p) (tp_RequiredGateName p) (tp_GateResultID p) (tp_Blockers p)
       (tp_Warnings p) (tp_Metadata p) now).
Proof.
  intros Hg p Hs. cbn in Hs |- *. destruct gate as [g|]; [|done].
  destruct (String.eqb_spec (g_Status g) "pass") as [E|E]; [|done].
  destruct (Hg g eq_refl) as (g0 & Hin & -> & E1 & E2 & E3). exists g0. by split.
Qed.

Lemma previewBody_wf env record label o : m_rel wf_rel (previewBody env record label o).
Proof.
  unfold previewBody. intros w a w' E. apply bind_ok in E as (version & w1 & Ev & E).
  apply (reads_ok _ _ _ _ (authoredVersion_reads record label)) in Ev as ->.
  apply bind_ok in E as (gate & w1 & Eg & E). apply latestGateResult_ok in Eg as [-> Hg].
  set (p := evaluateWorkflowTransitionPreview record version gate o) in E.
  apply bind_ok in E as (key & w1 & Ek & E). apply bind_ok in E as (b & w2 & Er & E).
  apply bind_ok in E as (inserted & w3 & Ei & E). apply insert_ret_ok in Ei as [-> ->].
  assert (Hr : wf_rel (wd_db w) (wd_db w2)).
  { etransitivity; [by eapply preview_key_wf|]. by eapply reserve_wf. }
  etransitivity; [exact Hr|]. etransitivity; [|apply (rel_run wf_rel _ _ _ _ E);
    unfold insertTransitionPreviewEvent, insertTransitionPreviewAuditEvent; rel_split].
  apply preview_insert_wf.
  apply (preview_backed_mono (wd_db w) (wd_db w2)); [apply Hr|]. by apply preview_row_backed.
Qed.

(** The guards of an approval leave only backed ones. *)
Lemma approval_row_backed db record version preview o id now :
  (ca_Decision o = "approved" \/ ca_Decision o = "rejected") ->
  (forall p, preview = Some p -> exists p0, In p0 (t_rows (db_transition_previews db))
     /\ p = scanTransitionPreview p0 /\ tp_ProjectID p0 = p_ID record
     /\ tp_WorkflowVersionID p0 = v_ID version) ->
  approval_refusal o preview = None ->
  let a := buildApprovalRecord record version preview o in
  approval_backed db
    (MkApproval id (ap_ProjectID a) (ap_WorkflowVersionID a) (ap_TransitionPreviewID a)
       (ap_ApprovalKind a) (ap_Decision a) (ap_ScopeType a) (ap_ScopeID a) (ap_Actor a)
       (ap_Reason a) (ap_RiskLevel a) (ap_Metadata a) now).
Proof.
  intros Hd Hp Hr a. split; [exact Hd|]. cbn. intros Ha. unfold approval_refusal in Hr.
  rewrite Ha in Hr. destruct preview as [p|].
  2: { destruct (negb _ && _); cbn in Hr; done. }
  rewrite andb_false_r in Hr. cbn [negb andb orb default String.eqb] in Hr.
  destruct (Hp p eq_refl) as (p0 & Hin & -> & E1 & E2). exists p0. cbn in Hr.
  destruct (String.eqb_spec (tp_Status p0) "ready") as [Es|Es]; [|done]. cbn in Hr.
  split; [by split|]. split; [done|]. intros Hrisk. rewrite Hrisk in Hr. cbn in Hr.
  unfold requester. cbn. by destruct (sameActor _ _).
Qed.

Lemma approvalBody_wf env record label o : m_rel wf_rel (approvalBody env record label o).
Proof.
  unfold approvalBody. destruct (_ && _) eqn:Ed; [apply m_rel_fail|].
  assert (Hd : ca_Decision o = "approved" \/ ca_Decision o = "rejected").
  { apply andb_false_iff in Ed as [Ed|Ed]; bool_prop; auto. }
  intros w a w' E. apply bind_ok in E as (version & w1 & Ev & E).
  apply (reads_ok _ _ _ _ (authoredVersion_reads record label)) in Ev as ->.
  apply bind_ok in E as (preview & w1 & Ep & E). apply resolvePreview_ok in Ep as [-> Hp].
  destruct (approval_refusal o preview) as [e|] eqn:Er; [done|].
  set (approval := buildApprovalRecord record version preview o) in E. cbv zeta in E.
  set (key := if ca_IdempotencyKey o =s "" then _ else _) in E.
  unfold with_command in E. apply bind_ok in E as (b & w1 & Erv & E).
  pose proof (reserve_wf _ _ _ _ _ _ _ _ Erv) as Hr. etransitivity; [exact Hr|].
  destruct b; [|by apply (rel_run wf_rel _ _ _ _ E), reads_wf, replayApproval_reads].
  unfold approvalInsertBody in E.
  apply bind_ok in E as (inserted & w2 & Ei & E). apply insert_ret_ok in Ei as [-> ->].
  etransitivity; [|apply (rel_run wf_rel _ _ _ _ E);
    unfold insertApprovalEvent, insertApprovalAuditEvent; rel_split]. apply approval_insert_wf.
  apply (approval_backed_mono (wd_db w) (wd_db w1)); [apply Hr|]. by apply approval_row_backed.
Qed.

(** ** The system *)

Inductive wf_command : Type :=
| WCore (c : command)
| WCreateVersion (record : Record_) (o : CreateWorkflowVersionOptions)
| WEnsureSkeleton (record : Record_) (label : string) (o : EnsureStageSkeletonOptions)
| WMarkReady (record : Record_) (label : string) (o : MarkWorkflowItemReadyOptions)
| WRunGate (record : Record_) (label : string) (o : RunGateOptions)
| WPreview (record : Record_) (label : string) (o : PreviewTransitionOptions)
| WApprove (record : Record_) (label : string) (o : CreateApprovalOptions).

Definition wf_exec (env : Env) (fs : ProfileFS)
    (readinessOf : World -> Record_ -> string -> res error CutoverReadiness)
    (c : wf_command) (w : World) : World :=
  match c with
  | WCore c => exec env c w
  | WCreateVersion record o => snd (CreateWorkflowVersion env fs record o w)
  | WEnsureSkeleton record label o => snd (EnsureStageSkeleton env record label o w)
  | WMarkReady record label o => snd (MarkWorkflowItemReady env record label o w)
  | WRunGate record label o => snd (RunWorkflowGate env fs readinessOf record label o w)
  | WPreview record label o => snd (PreviewWorkflowTransition env record label o w)
  | WApprove record label o => snd (CreateApprovalRecord env record label o w)
  end.

Inductive wf_step (w : World) : World -> Prop :=
| WStep env fs readinessOf c : wf_step w (wf_exec env fs readinessOf c w).

Abbreviation wf_steps := (rtc wf_step).

(** No evidence exists before the first command. *)
Definition wf_initial (w : World) : Prop :=
  initial w /\ t_rows (db_run_attempts (wd_db w)) = []
  /\ t_rows (db_gate_results (wd_db w)) = []
  /\ t_rows (db_transition_previews (wd_db w)) = []
  /\ t_rows (db_approval_records (wd_db w)) = [].

Definition wf_reachable (w : World) : Prop := exists w0, wf_initial w0 /\ wf_steps w0 w.

Lemma transact_wf {A} (m : M (res error A)) w :
  m_rel wf_rel m -> wf_rel (wd_db w) (wd_db (snd (transact m w))).
Proof.
  intros Hm. destruct (transact m w) as [r w'] eqn:E. exact (transact_rel wf_rel m w r w' Hm E).
Qed.

(** The worker, run-control and execution commands add no evidence, and the
    attempts they add are backed. *)
Lemma change_grow pid db db' : change pid db db' -> facts_grow db db'.
Proof.
  intros Hc. pose proof (proj2 (change_tasks_runs_evolve _ _ _ Hc)) as Hr. unfold facts_grow.
  destruct Hc; split_and!; first [ exact Hr | exists []; by rewrite app_nil_r ].
Qed.

Lemma change_wf pid db db' : change pid db db' -> wf_rel db db'.
Proof.
  intros Hc. pose proof (change_grow _ _ _ Hc) as Hg.
  split; [done|]. split; [by eapply change_append_only|]. split; [by eapply change_keys_ok|].
  apply facts_sound_new; [done|destruct Hc; by auto..|].
  destruct Hc as [| | | | | | | | | | | | | |mkrow Hrow| | | | ]; try by auto.
  intros a Hin. apply table_insert_In in Hin as [?| ->]; [by left|right].
  apply (attempt_backed_mono db); [exact Hg|]. apply Hrow.
Qed.

Lemma CreateWorkflowVersion_wf env fs record o w :
  wf_rel (wd_db w) (wd_db (snd (CreateWorkflowVersion env fs record o w))).
Proof.
  unfold CreateWorkflowVersion. cbv zeta. destruct (ValidateWorkflowVersionLabel _); [|reflexivity].
  destruct (bind_profile _ _ _) as [o'|]; [|reflexivity]. apply transact_wf. unfold with_command.
  rel_split. apply createVersionBody_wf.
Qed.

Lemma wf_exec_rel env fs rd c w :
  keys_ok (wd_db w) -> wf_rel (wd_db w) (wd_db (wf_exec env fs rd c w)).
Proof.
  intros Hk. destruct c as [c|record o|record label o|record label o|record label o|record label o
    |record label o]; cbn [wf_exec].
  - eapply changes_rel; [exact _|apply change_wf|]. by apply exec_changes.
  - apply CreateWorkflowVersion_wf.
  - apply transact_wf, ensureSkeletonBody_wf.
  - apply transact_wf, markReadyBody_wf.
  - apply transact_wf, runGateBody_wf.
  - apply transact_wf, previewBody_wf.
  - apply transact_wf, approvalBody_wf.
Qed.

Lemma wf_steps_rel w w' :
  wf_steps w w' -> keys_ok (wd_db w) -> wf_rel (wd_db w) (wd_db w').
Proof.
  induction 1 as [w|w w1 w' H1 H2 IH]; intros Hk; [reflexivity|]. destruct H1 as [env fs rd c].
  pose proof (wf_exec_rel env fs rd c w Hk) as Hr. etransitivity; [exact Hr|].
  apply IH. by apply Hr.
Qed.

Lemma wf_reachable_sound w : wf_reachable w -> keys_ok (wd_db w) /\ facts_sound (wd_db w).
Proof.
  intros (w0 & ((Hk & Hi) & E0 & E1 & E2 & E3) & Hs). pose proof (wf_steps_rel _ _ Hs Hk) as Hr.
  split; [by apply Hr|]. apply Hr. unfold facts_sound. rewrite E0, E1, E2, E3.
  split_and!; constructor.
Qed.

(** The evidence behind an approval *)
Definition approval_evidence (db : DB) (a : ApprovalRecord) (p : WorkflowTransitionPreview)
    (g : GateResult) : Prop :=
  preview_ready db (ap_ProjectID a) (ap_WorkflowVersionID a) p
  /\ ap_TransitionPreviewID a = tp_ID p
  /\ promotion_passed db (ap_ProjectID a) (ap_WorkflowVersionID a) g
  /\ tp_GateResultID p = g_ID g
  /\ (highRiskApproval (ap_RiskLevel a) = true -> sameActor (ap_Actor a) (requester p) = false).

Lemma sound_approval_evidence db a :
  facts_sound db -> In a (t_rows (db_approval_records db)) -> ap_Decision a = "approved" ->
  exists p g, approval_evidence db a p g.
Proof.
  intros (_ & Hp & Ha & _) Hin Hd. destruct (proj2 (Forall_In _ _ _ Ha Hin) Hd) as (p & Hr & E & Hn).
  pose proof Hr as (Hip & E1 & E2 & Hs). destruct (Forall_In _ _ _ Hp Hip Hs) as (g & Hg & Eg).
  exists p, g. rewrite E1, E2 in Hg. by split_and!.
Qed.

Lemma demo_wf_initial : wf_initial demo_world.
Proof. split; [apply initial_demo|]. done. Qed.

Section DemoSteps.
Context (record : Record_) (label : string) (w : World).

Lemma create_step o : wf_step w (snd (CreateWorkflowVersion demo_env demo_fs record o w)).
Proof. exact (WStep w demo_env demo_fs demo_readiness (WCreateVersion record o)). Qed.
Lemma mark_step o : wf_step w (snd (MarkWorkflowItemReady demo_env record label o w)).
Proof. exact (WStep w demo_env demo_fs demo_readiness (WMarkReady record label o)). Qed.
Lemma gate_step o :
  wf_step w (snd (RunWorkflowGate demo_env demo_fs demo_readiness record label o w)).
Proof. exact (WStep w demo_env demo_fs demo_readiness (WRunGate record label o)). Qed.
Lemma preview_step o : wf_step w (snd (PreviewWorkflowTransition demo_env record label o w)).
Proof. exact (WStep w demo_env demo_fs demo_readiness (WPreview record label o)). Qed.
Lemma approve_step o : wf_step w (snd (CreateApprovalRecord demo_env record label o w)).
Proof. exact (WStep w demo_env demo_fs demo_readiness (WApprove record label o)). Qed.
End DemoSteps.

Lemma demo_approved_reachable : wf_reachable demo_approved.
Proof.
  exists demo_world. split; [apply demo_wf_initial|]. unfold demo_approved.
  eapply rtc_r; [|apply approve_step]. unfold demo_previewed.
  eapply rtc_r; [|apply preview_step]. unfold demo_promoted.
  eapply rtc_r; [|apply gate_step]. unfold demo_marked.
  eapply rtc_r; [|apply mark_step]. eapply rtc_r; [|apply mark_step]. unfold demo_versioned.
  eapply rtc_once, create_step.
Qed.

(** C9. Whatever commands ran before, an approval that says [approved] names a
    transition preview of the same project and version that is ready, which
    names a promotion gate result of the same project and version that passed;
    when its risk is high, the approver is not the one who requested the
    transition. *)
Theorem approvals_sound w a :
  wf_reachable w -> In a (t_rows (db_approval_records (wd_db w))) -> ap_Decision a = "approved" ->
  exists p g, approval_evidence (wd_db w) a p g.
Proof. intros Hw. apply sound_approval_evidence. by apply wf_reachable_sound. Qed.

Lemma approvals_sound_witness :
  exists a p g, In a (t_rows (db_approval_records (wd_db demo_approved)))
    /\ ap_Decision a = "approved" /\ approval_evidence (wd_db demo_approved) a p g.
Proof.
  assert (H : exists a, In a (t_rows (db_approval_records (wd_db demo_approved)))
                /\ ap_Decision a = "approved").
  { eexists. vm_compute. split; [left; reflexivity|reflexivity]. }
  destruct H as (a & Ha & Hd).
  destruct (approvals_sound demo_approved a demo_approved_reachable Ha Hd) as (p & g & He).
  exists a, p, g. exact (conj Ha (conj Hd He)).
Defined.

(** A live-mapping gate never passes without its evidence: whenever one is
    recorded as passed, the store holds an approval of the same version, the
    ready preview and the passed promotion gate behind that approval. *)
Theorem live_mapping_evidence w g0 :
  wf_reachable w -> In g0 (t_rows (db_gate_results (wd_db w))) ->
  g_GateName g0 = "live_mapping_gate" -> g_Status g0 = "pass" ->
  exists a p g, approved (wd_db w) (g_ProjectID g0) (g_WorkflowVersionID g0) a
    /\ approval_evidence (wd_db w) a p g.
Proof.
  intros Hw Hin Hn Hs. apply wf_reachable_sound in Hw as [_ Hsound].
  destruct (Forall_In _ _ _ (proj1 Hsound) Hin Hs) as [H _].
  destruct H as [[a Ha] _]; [rewrite Hn; cbn; auto|].
  destruct (sound_approval_evidence (wd_db w) a Hsound) as (p & g & He); [apply Ha|apply Ha|].
  by exists a, p, g.
Qed.

Definition demo_live : World :=
  wf_exec demo_env demo_fs demo_readiness
    (WRunGate demo_project "v1" (demo_gate "live_mapping_gate" "k-live")) demo_approved.

Lemma live_mapping_evidence_witness :
  exists g0 a p g, In g0 (t_rows (db_gate_results (wd_db demo_live))) /\ g_Status g0 = "pass"
    /\ approved (wd_db demo_live) 1 1 a /\ approval_evidence (wd_db demo_live) a p g.
Proof.
  assert (H : exists g0, In g0 (t_rows (db_gate_results (wd_db demo_live)))
    /\ g_GateName g0 = "live_mapping_gate" /\ g_Status g0 = "pass" /\ g_ProjectID g0 = 1
    /\ g_WorkflowVersionID g0 = 1).
  { eexists. vm_compute. split; [right; left; reflexivity|]. split; [reflexivity|].
    split; [reflexivity|]. split; reflexivity. }
  destruct H as (g0 & Hg & Hn & Hs & E1 & E2).
  assert (Hr : wf_reachable demo_live).
  { destruct demo_approved_reachable as (w0 & Hi & Hst). exists w0. split; [exact Hi|].
    eapply rtc_r; [exact Hst|constructor]. }
  destruct (live_mapping_evidence demo_live g0 Hr Hg Hn Hs) as (a & p & g & Ha & He).
  rewrite E1, E2 in Ha. exists g0, a, p, g. exact (conj Hg (conj Hs (conj Ha He))).
Defined.

(** Gate results, transition previews and approvals are never changed or
    removed, runs never change their project, version, kind, risk or dry-run
    flag, and history is kept: what any sequence of workflow, worker,
    run-control and execution commands leaves starts with what it found. *)
Theorem facts_append_only w w' :
  wf_reachable w -> wf_steps w w' ->
  facts_grow (wd_db w) (wd_db w') /\ append_only (wd_db w) (wd_db w').
Proof.
  intros Hw Hs. apply wf_reachable_sound in Hw as [Hk _].
  destruct (wf_steps_rel _ _ Hs Hk) as (H1 & H2 & _). done.
Qed.

Lemma facts_append_only_witness :
  List.length (t_rows (db_gate_results (wd_db demo_approved))) = 1%nat
  /\ facts_grow (wd_db demo_approved) (wd_db demo_live).
Proof.
  split; [vm_compute; reflexivity|].
  apply (facts_append_only demo_approved demo_live demo_approved_reachable).
  apply rtc_once. constructor.
Defined.
