(* ===== verification/ExecutionSpec.v ===== *)
(** * Approval-gated execution

    What the execution commands promise: the gate passes exactly under its
    conditions, a real attempt has its approvals behind it, a refused command
    leaves nothing but history, and a verification reads one file, below the
    project's root. *)

From stdpp Require Import base list strings numbers relations gmap.
From Stdlib Require Import ZArith Lia Ascii String.
From S2P Require Import Prelude GoString Sha256 Json Schema Tx Command Capability History Worker.
From S2P Require Import Lease FilePath Permission RunOnce RunControl Profile Workflow Gates.
From S2P Require Import Runner EnginePreview ExecutionGate ReadOnlyVerify ApprovedWrite.
From S2P Require Import FixtureExecution Demo Steps ExecutionSteps System WorkflowSystem.

(** ** Demonstration data *)

Definition demo_permissions : list permissionRow :=
  [MkPermission 1 "read_project" "allow" "capability" "read_project";
   MkPermission 1 "read_project" "allow" "path" "docs/**";
   MkPermission 1 "*" "deny" "path" "docs/secret/**";
   MkPermission 1 "write_artifacts" "allow" "capability" "write_artifacts"].

(** Paths without symbolic links *)
Definition demo_os : OS := MkOS (fun p => Ok p) (fun _ => false).

(** The demo project with its permissions and one document *)
Definition demo_site : World :=
  set_db (set_project_permissions demo_permissions (wd_db demo_world))
    (set_files (<["/srv/demo/docs/a.md" := "hello"]> (wd_files demo_world)) demo_world).

Definition on_site (c : wf_command) (w : World) : World :=
  wf_exec demo_env demo_fs demo_readiness c w.

(** A worker, and a version that is approved, with both gates passed *)
Definition demo_cleared : World :=
  on_site (WRunGate demo_project "v1" (demo_gate "live_mapping_gate" "k-live"))
  (on_site (WRunGate demo_project "v1" (demo_gate "approval_gate" "k-ag"))
  (on_site (WApprove demo_project "v1" (demo_approval "bob"))
  (on_site (WPreview demo_project "v1" demo_preview)
  (on_site (WRunGate demo_project "v1" (demo_gate "promotion_preview" "k-gate"))
  (on_site (WMarkReady demo_project "v1" (demo_mark "queue" "queue_candidate"))
  (on_site (WMarkReady demo_project "v1" (demo_mark "promotion_preview" "promotion_preview"))
  (on_site (WCreateVersion demo_project demo_create)
  (on_site (WCore (CRegisterWorker demo_project demo_register)) demo_site)))))))).

Definition demo_queue_verify : ReadOnlyVerifyQueueOptions :=
  MkReadOnlyVerifyQueueOptions " ./docs/x/../a.md " "" "" "".

Definition demo_queued : World :=
  on_site (WCore (CQueueVerify demo_project "v1" demo_queue_verify)) demo_cleared.

Definition demo_verify : ReadOnlyVerifyOptions :=
  MkReadOnlyVerifyOptions "w1" 2 [] 0 None "" "" "".

Definition demo_verified : World :=
  on_site (WCore (CVerifyReadOnly demo_os demo_project demo_verify)) demo_queued.

Example demo_verified_ok :
  List.map (fun a => (at_RunID a, at_AttemptKind a, at_DryRun a))
    (t_rows (db_run_attempts (wd_db demo_verified))) = [(2, "read_only_verify", false)]
  /\ List.map r_Status (t_rows (db_runs (wd_db demo_verified))) = ["queued"; "verified"].
Proof. vm_compute. done. Qed.

Lemma demo_site_initial : wf_initial demo_site.
Proof.
  split; [|done]. unfold initial. split; [|done]. unfold keys_ok.
  repeat match goal with |- _ /\ _ => split end;
    (split; [by vm_compute|split; vm_compute; repeat constructor; cbn; try lia;
       intuition discriminate]).
Qed.

Lemma on_site_step c w w0 : wf_steps w0 w -> wf_steps w0 (on_site c w).
Proof. intros H. eapply rtc_r; [exact H|constructor]. Qed.

Lemma demo_verified_reachable : wf_reachable demo_verified.
Proof.
  exists demo_site. split; [apply demo_site_initial|]. unfold demo_verified, demo_queued,
    demo_cleared. repeat apply on_site_step. apply rtc_refl.
Qed.

(** ** Real attempts are approved *)

(** C3. Whatever commands ran before, in any order, an attempt that is not a
    dry run belongs to an execution run that is not one either, whose version
    has an approval, with the ready preview and the passed promotion gate
    behind it, a passed approval gate and a passed live-mapping gate. *)
Theorem executions_are_approved w a :
  wf_reachable w -> In a (t_rows (db_run_attempts (wd_db w))) -> at_DryRun a = false ->
  exists r ap p g ga gl,
    In r (t_rows (db_runs (wd_db w))) /\ r_ID r = at_RunID a /\ r_RunKind r = "execution"
    /\ r_DryRun r = false
    /\ approved (wd_db w) (r_ProjectID r) (r_WorkflowVersionID r) ap
    /\ approval_evidence (wd_db w) ap p g
    /\ gate_passed (wd_db w) (r_ProjectID r) (r_WorkflowVersionID r) "approval_gate" ga
    /\ gate_passed (wd_db w) (r_ProjectID r) (r_WorkflowVersionID r) "live_mapping_gate" gl.
Proof.
  intros Hw Hin Hd. apply wf_reachable_sound in Hw as [_ Hs].
  destruct (Forall_In _ _ _ (proj2 (proj2 (proj2 Hs))) Hin) as [Ht|Hr]; [congruence|].
  destruct Hr as (r & Hr & Hid & Hk & Hdr & [ap Hap] & [ga Hga] & [gl Hgl]).
  destruct (sound_approval_evidence (wd_db w) ap Hs) as (p & g & He); [apply Hap|apply Hap|].
  by exists r, ap, p, g, ga, gl.
Qed.

Lemma executions_are_approved_witness :
  exists a r ap p g, In a (t_rows (db_run_attempts (wd_db demo_verified)))
    /\ at_DryRun a = false /\ r_ID r = 2
    /\ approved (wd_db demo_verified) (r_ProjectID r) (r_WorkflowVersionID r) ap
    /\ approval_evidence (wd_db demo_verified) ap p g.
Proof.
  assert (H : exists a, In a (t_rows (db_run_attempts (wd_db demo_verified)))
                /\ at_DryRun a = false /\ at_RunID a = 2).
  { eexists. vm_compute. split; [left; reflexivity|]. split; reflexivity. }
  destruct H as (a & Ha & Hd & Hid).
  destruct (executions_are_approved demo_verified a demo_verified_reachable Ha Hd)
    as (r & ap & p & g & ga & gl & _ & Hr & _ & _ & Hap & He & _).
  rewrite Hid in Hr. exists a, r, ap, p, g.
  exact (conj Ha (conj Hd (conj Hr (conj Hap He)))).
Defined.

(** ** The gate *)

Definition item_blocker (i : ReadinessItem) : string := it_Key i +:+ ": " +:+ it_Message i.

(** The status and the blockers follow from the items. *)
Definition gate_coherent (status : string) (items : list ReadinessItem) (blockers : list string)
  : Prop :=
  blockers = List.map item_blocker (List.filter (fun i => blocking (it_Status i)) items)
  /\ status = (if existsb (fun i => blocking (it_Status i)) items then "blocked" else "pass").

Lemma gate_add_coherent key status message md g :
  gate_coherent (gt_Status g) (gt_Items g) (gt_Blockers g) ->
  gate_coherent (gt_Status (gate_add key status message md g))
    (gt_Items (gate_add key status message md g)) (gt_Blockers (gate_add key status message md g)).
Proof.
  intros [H1 H2]. unfold gate_coherent, gate_add. cbn [gt_Status gt_Items gt_Blockers].
  rewrite List.filter_app, existsb_app, map_app, H1, H2. cbn.
  destruct (blocking status); cbn; [by rewrite orb_true_r|by rewrite orb_false_r].
Qed.

(** C17. The execution approval gate passes exactly for a queued execution run
    of an authored version that is not a dry run and has a runnable task,
    whose latest approval says [approved], whose latest approval and
    live-mapping gates passed, with an engine preview that is not blocked
    (unless it is skipped) and an online worker that has the required
    capabilities; otherwise its status is [blocked], and its blockers are the
    blocking checks, in order. *)
Theorem execution_gate_exact record version detail approval approvalGate liveGate preview
    workers o :
  let g := BuildExecutionApprovalGate record version detail approval approvalGate liveGate
             preview workers o in
  (eg_Status g = "pass"
   <-> gate_conditions version detail approval approvalGate liveGate preview workers o)
  /\ (eg_Status g = "pass" \/ eg_Status g = "blocked")
  /\ (eg_Status g = "pass" <-> eg_Blockers g = [])
  /\ eg_Blockers g
     = List.map item_blocker (List.filter (fun i => blocking (it_Status i)) (eg_Items g)).
Proof.
  intros g. assert (Hc : gate_coherent (eg_Status g) (eg_Items g) (eg_Blockers g)).
  { unfold g, BuildExecutionApprovalGate, add_engine_checks, add_approval_checks, add_run_checks.
    cbv zeta. cbn [eg_Status eg_Items eg_Blockers]. repeat apply gate_add_coherent. done. }
  split; [apply gate_pass_iff|]. destruct Hc as [H1 H2].
  assert (Hn : eg_Status g = "pass" <-> eg_Blockers g = []).
  { rewrite H1, H2. clear. induction (eg_Items g) as [|i items IH]; cbn; [done|].
    destruct (blocking (it_Status i)); cbn; [split; discriminate|exact IH]. }
  split_and!; [|exact Hn|exact H1]. rewrite H2. destruct (existsb _ _); auto.
Qed.

(** ** Paths below a root *)

Lemma strip_common_spec base targ :
  exists c, base = c ++ fst (strip_common base targ) /\ targ = c ++ snd (strip_common base targ).
Proof.
  revert targ. induction base as [|b base IH]; intros targ; [by exists []|].
  destruct targ as [|t targ]; [by exists []|]. cbn [strip_common].
  destruct (String.eqb_spec b t) as [->|]; [|by exists []].
  destruct (IH targ) as (c & E1 & E2). exists (t :: c). split; cbn; by f_equal.
Qed.

Lemma join_split s : strings_join "/" (split_slash s) = s.
Proof.
  induction s as [|c s IH]; [done|]. cbn [split_slash].
  pose proof (split_slash_nonempty s) as Hne.
  destruct (is_slash c) eqn:Ec.
  - unfold is_slash in Ec. apply Ascii.eqb_eq in Ec as ->.
    destruct (split_slash s) as [|x xs]; [done|]. rewrite <- IH. by destruct xs.
  - destruct (split_slash s) as [|x xs]; [done|]. rewrite <- IH. by destruct xs.
Qed.

(** A path is its components, from the root or from nowhere. *)
Lemma rel_components_path p :
  p = (if is_abs p then "/" else "") +:+ strings_join "/" (rel_components p).
Proof.
  unfold rel_components. destruct (String.eqb_spec p "") as [->|Hne]; [done|].
  destruct (String.eqb_spec p "/") as [->|Hns]; [done|]. cbn [orb].
  destruct (is_abs p) eqn:Ea; [|by rewrite join_split].
  destruct p as [|c p]; [done|]. cbn in Ea. unfold is_slash in Ea. apply Ascii.eqb_eq in Ea as ->.
  cbn [split_slash is_slash List.tl]. change (is_slash "/") with true. cbn [List.tl].
  by rewrite join_split.
Qed.

Lemma path_clean_nonempty p : path_clean p <> "".
Proof.
  unfold path_clean. destruct (is_abs p); [done|]. destruct (_ =s "") eqn:E; [done|].
  by bool_prop.
Qed.

(** The components of a directory; the current directory has none. *)
Definition dir_components (dir : string) : list string :=
  rel_components (if path_clean dir =s "." then "" else path_clean dir).

(** A file strictly below a directory, by the components of the cleaned paths *)
Definition strictly_below (dir file : string) : Prop :=
  is_abs (path_clean file) = is_abs (path_clean dir)
  /\ exists rest, rest <> [] /\ rel_components (path_clean file) = dir_components dir ++ rest.

Lemma dotdot_join n ts :
  let rel := strings_join "/" (".." :: repeat ".." n ++ ts) in
  has_prefix "../" rel || (rel =s "..") = true.
Proof.
  intros rel. unfold rel. destruct (repeat ".." n ++ ts) as [|x l]; [done|].
  by rewrite has_prefix_dotdot_ns.
Qed.

(** [filepath.Rel] leaves the directory unless it starts with [..]. *)
Lemma path_rel_below dir file rel :
  path_rel dir file = Ok rel ->
  (rel =s ".") || has_prefix "../" rel || (rel =s "..") || is_abs rel = false ->
  strictly_below dir file.
Proof.
  unfold path_rel. set (b := if path_clean dir =s "." then "" else path_clean dir).
  destruct (String.eqb_spec (path_clean file) (path_clean dir)) as [E|Hne];
    [by intros [= <-]|].
  assert (Hb : is_abs b = is_abs (path_clean dir)).
  { unfold b. by destruct (String.eqb_spec (path_clean dir) ".") as [->|]. }
  destruct (Bool.eqb _ _) eqn:Eabs; [|done]. apply eqb_prop in Eabs. cbn [negb].
  destruct (strip_common_spec (rel_components b) (rel_components (path_clean file)))
    as (c & E1 & E2).
  destruct (strip_common _ _) as [bs ts]. cbn [fst snd] in *.
  intros Hr Hg. assert (bs = []) as ->.
  { destruct bs as [|x bs]; [done|]. exfalso.
    assert (Hd : rel = strings_join "/" (".." :: repeat ".." (List.length bs) ++ ts)).
    { destruct ts; [|destruct (x =s ".."); [done|]]; by injection Hr as <-. }
    pose proof (dotdot_join (List.length bs) ts) as Hj. cbv zeta in Hj. rewrite <- Hd in Hj.
    apply orb_false_iff in Hg as [Hg _]. rewrite <- orb_assoc, Hj in Hg.
    by rewrite orb_true_r in Hg. }
  split; [congruence|]. rewrite app_nil_r in E1. exists ts.
  split; [|unfold dir_components; fold b; by rewrite E1]. intros ->. rewrite app_nil_r in E2.
  assert (Hpath : path_clean file = b).
  { etransitivity; [apply rel_components_path|]. symmetry.
    etransitivity; [apply rel_components_path|]. by rewrite Eabs, E1, E2. }
  unfold b in Hpath. destruct (_ =s "."); [|done]. by apply path_clean_nonempty in Hpath.
Qed.

Lemma safeProjectReadPath_inv os root target full :
  safeProjectReadPath os root target = Ok full ->
  exists real, os_EvalSymlinks os root = Ok real
    /\ os_EvalSymlinks os (path_join [real; normalizeProjectRelativePath target]) = Ok full
    /\ strictly_below real full.
Proof.
  unfold safeProjectReadPath. destruct (_ =s ""); [done|]. destruct (_ =s ""); [done|].
  destruct (os_EvalSymlinks os root) as [real|e]; [|done].
  destruct (os_EvalSymlinks os (path_join _)) as [f|e] eqn:Ef; [|done].
  destruct (path_rel real f) as [rel|e] eqn:Er; [|done].
  destruct (_ || _) eqn:Eg; [done|]. intros [= <-]. exists real.
  split_and!; [done|exact Ef|]. by eapply path_rel_below.
Qed.

(** ** What a command did *)

(** A command either replays its record or runs its body. *)
Lemma with_command_inv {A} env pid ct key hash (replay body : M (res error A)) w x w' :
  with_command env pid ct key hash replay body w = (Ok x, w') ->
  replay w = (Ok x, w')
  \/ ledger_of (wd_db w) !! (pid, ct, key) = None
     /\ body (set_db (reserved env pid ct key hash (wd_db w)) w) = (Ok x, w').
Proof.
  intros E. destruct (ledger_of (wd_db w) !! (pid, ct, key)) as [e|] eqn:El.
  - left. unfold with_command, bind in E. rewrite reserve_eq, El in E.
    by destruct (en_hash e =s hash).
  - right. by rewrite with_command_fresh in E.
Qed.

(** The frame of the executions, run to its result *)
Lemma gated_inv {A} env ac record gateOptions runID workerKey ct key hash
    (replay : WorkflowVersion -> ExecutionApprovalGate -> M (res error A))
    (body : ExecutionApprovalGate -> RunRecord -> WorkflowVersion -> WorkerRecord ->
            M (res error A)) w x w' :
  (gate <- ExecutionApprovalGate_ ac runID gateOptions ;;
   run <- loadRunForUpdate runID ;;
   if negb (r_ProjectID run =? p_ID record) then fail ErrRunNotFound
   else
     version <- workflowVersionByIDTx (p_ID record) (r_WorkflowVersionID run) ;;
     worker <- loadWorkerForUpdate (p_ID record) workerKey ;;
     with_command env (p_ID record) ct key hash (replay version gate)
       (body gate run version worker)) w = (Ok x, w') ->
  exists gate run version worker,
    r_ID run = runID /\ r_ProjectID run = p_ID record
    /\ (replay version gate w = (Ok x, w')
        \/ ledger_of (wd_db w) !! (p_ID record, ct, key) = None
           /\ body gate run version worker
                (set_db (reserved env (p_ID record) ct key hash (wd_db w)) w) = (Ok x, w')).
Proof.
  intros E. apply bind_ok in E as (gate & w1 & Eg & E). apply gate_ok in Eg as [-> _].
  apply bind_ok in E as (run & w1 & Er & E).
  apply loadRunForUpdate_ok in Er as (-> & r & _ & Hid & Er).
  destruct (r_ProjectID run =? p_ID record) eqn:Ep; [|done]. cbn [negb] in E.
  apply bind_ok in E as (version & w1 & Ev & E). apply workflowVersionByID_ok in Ev as [-> _].
  apply bind_ok in E as (worker & w1 & Ew & E).
  pose proof (reads_ok _ _ _ _ (loadWorkerForUpdate_reads _ _) Ew) as ->.
  exists gate, run, version, worker. bool_prop. split; [by subst run|]. split; [done|].
  by eapply with_command_inv.
Qed.

Lemma transact_committed {A} (m : M (res error A)) w x w' :
  transact m w = (Ok x, w') -> m w = (Ok (Ok x), w').
Proof. unfold transact. by destruct (m w) as [[r|e] w1]; intros [= -> ->]. Qed.

(** Take the table operations of a run apart. *)
Ltac run_ops :=
  repeat (step_ok; match goal with
  | H : insert_row _ _ = (Ok _, _) |- _ => apply insert_row_ok in H; destruct H as [-> ->]
  | H : update_rows _ _ _ = (Ok _, _) |- _ => apply update_rows_ok in H; destruct H as [-> ->]
  | H : select_rows _ _ = (Ok _, _) |- _ => apply select_rows_ok in H; destruct H as [-> ->]
  | H : first_row _ _ = (Ok _, _) |- _ => apply first_row_ok in H; destruct H as [_ ->]
  end); step_ok.

(** The tables an execution works on, and the files, are as they were. *)
Definition untouched (w w' : World) : Prop :=
  let db := wd_db w in
  let db' := wd_db w' in
  db_workers db' = db_workers db /\ db_runs db' = db_runs db
  /\ db_run_tasks db' = db_run_tasks db /\ db_leases db' = db_leases db
  /\ db_run_attempts db' = db_run_attempts db /\ db_artifacts db' = db_artifacts db
  /\ wd_files w' = wd_files w.

(** Two results of one run are the same. *)
Ltac same_result :=
  repeat match goal with
  | H : Ok _ = Ok _ |- _ => injection H as ?
  | H : (_, _) = (_, _) |- _ => injection H as ? ?
  end; subst.

Lemma verifyDenied_inv env r o e w r' e' w' :
  verifyDenied env r o e w = (Ok (Ok (r', e')), w') -> r' = r /\ e' = Some e /\ untouched w w'.
Proof.
  unfold verifyDenied, finishDeniedReadOnlyVerify, insertReadOnlyVerifyEvent,
    insertReadOnlyVerifyAuditEvent, completeCommandRequestResponse. cbv zeta.
  intros E. run_ops. same_result. by split_and!.
Qed.

Lemma artifactDenied_inv env r o e w r' e' w' :
  artifactDenied env r o e w = (Ok (Ok (r', e')), w') ->
  r' = r /\ e' = Some e /\ untouched w w'.
Proof.
  unfold artifactDenied, finishDeniedApprovedArtifactWrite, insertApprovedArtifactWriteEvent,
    insertApprovedArtifactWriteAuditEvent, completeCommandRequestResponse. cbv zeta.
  intros E. run_ops. same_result. by split_and!.
Qed.

Lemma fixtureDenied_inv env r o e w r' e' w' :
  fixtureDenied env r o e w = (Ok (Ok (r', e')), w') ->
  r' = r /\ e' = Some e /\ untouched w w'.
Proof.
  unfold fixtureDenied, finishDeniedFixtureExecution, insertFixtureExecutionEvent,
    insertFixtureExecutionAuditEvent, completeCommandRequestResponse. cbv zeta.
  intros E. run_ops. same_result. by split_and!.
Qed.

(** A claim that succeeds carries no error. *)
Lemma verifyClaim_none env os record o gate run version worker task tp fp w r e w' :
  verifyClaim env os record o gate run version worker task tp fp w = (Ok (Ok (r, e)), w') ->
  e = None.
Proof. unfold verifyClaim. cbv zeta. intros E. step_ok. by same_result. Qed.

Lemma artifactClaim_none env record o gate run version worker task label w r e w' :
  artifactClaim env record o gate run version worker task label w = (Ok (Ok (r, e)), w') ->
  e = None.
Proof. unfold artifactClaim. cbv zeta. intros E. step_ok. by same_result. Qed.

Lemma fixtureClaim_none env record o gate run version worker task w r e w' :
  fixtureClaim env record o gate run version worker task w = (Ok (Ok (r, e)), w') -> e = None.
Proof. unfold fixtureClaim. cbv zeta. intros E. step_ok. by same_result. Qed.

Lemma next_task_reads {env pid runID kind w next w1} :
  next_execution_task env pid runID kind w = (Ok next, w1) -> w1 = w.
Proof. apply reads_ok, next_execution_task_reads. Qed.

(** Where the decision of a body leads: a denial, or the claim *)
Lemma verifyBody_inv env os record o gate run version worker w r x w' :
  verifyBody env os record o gate run version worker w = (Ok (Ok (r, x)), w') ->
  ((exists e, x = Some e) /\ rvr_Decision r = "denied" /\ untouched w w')
  \/ (x = None /\ eg_Status gate = "pass"
      /\ missingWorkerCapabilities (w_Capabilities worker) (rvo_AllowedCapabilities o) = []
      /\ exists task full,
           nextReadOnlyVerifyTaskForLease env (p_ID record) (r_ID run) w = (Ok (Some task), w)
           /\ fst (canProjectPathInTx (db_project_permissions (wd_db w)) (p_ID record)
                     "read_project" (metadataString (t_Metadata task) "target_path")) = true
           /\ safeProjectReadPath os (p_RootPath record)
                (metadataString (t_Metadata task) "target_path") = Ok full
           /\ verifyClaim env os record o gate run version worker task
                (metadataString (t_Metadata task) "target_path") full w = (Ok (Ok (r, None)), w')).
Proof.
  unfold verifyBody. cbv zeta. intros E.
  destruct (String.eqb_spec (eg_Status gate) "pass") as [Hg|Hg]; cbn [negb] in E.
  2: { apply verifyDenied_inv in E as (-> & -> & Hu). left. split; [by eexists|done]. }
  destruct (missingWorkerCapabilities _ _) eqn:Em.
  2: { apply verifyDenied_inv in E as (-> & -> & Hu). left. split; [by eexists|done]. }
  apply bind_ok in E as (next & w1 & En & E). pose proof (next_task_reads En) as ->.
  destruct next as [task|].
  2: { apply verifyDenied_inv in E as (-> & -> & Hu). left. split; [by eexists|done]. }
  apply bind_ok in E as (db & w1 & Ed & E). injection Ed as <- <-.
  destruct (canProjectPathInTx _ _ _ _) as [[|] reason] eqn:Ec.
  2: { apply verifyDenied_inv in E as (-> & -> & Hu). left. split; [by eexists|done]. }
  destruct (safeProjectReadPath _ _ _) as [full|e] eqn:Es.
  2: { apply verifyDenied_inv in E as (-> & -> & Hu). left. split; [by eexists|done]. }
  right. pose proof (verifyClaim_none _ _ _ _ _ _ _ _ _ _ _ _ _ _ _ E) as ->.
  split_and!; [done..|]. exists task, full. rewrite Ec. by split_and!.
Qed.

Lemma artifactBody_inv env record o gate run version worker w r x w' :
  artifactBody env record o gate run version worker w = (Ok (Ok (r, x)), w') ->
  ((exists e, x = Some e) /\ awr_Decision r = "denied" /\ untouched w w')
  \/ (x = None /\ eg_Status gate = "pass"
      /\ fst (canProjectCapabilityInTx (db_project_permissions (wd_db w)) (p_ID record)
                "write_artifacts") = true
      /\ exists task label,
           artifactClaim env record o gate run version worker task label w
           = (Ok (Ok (r, None)), w')).
Proof.
  unfold artifactBody. cbv zeta. intros E.
  destruct (String.eqb_spec (eg_Status gate) "pass") as [Hg|Hg]; cbn [negb] in E.
  2: { apply artifactDenied_inv in E as (-> & -> & Hu). left. split; [by eexists|done]. }
  destruct (missingWorkerCapabilities _ _) eqn:Em.
  2: { apply artifactDenied_inv in E as (-> & -> & Hu). left. split; [by eexists|done]. }
  apply bind_ok in E as (db & w1 & Ed & E). injection Ed as <- <-.
  destruct (canProjectCapabilityInTx _ _ _) as [[|] reason] eqn:Ec.
  2: { apply artifactDenied_inv in E as (-> & -> & Hu). left. split; [by eexists|done]. }
  apply bind_ok in E as (next & w1 & En & E). pose proof (next_task_reads En) as ->.
  destruct next as [task|].
  2: { apply artifactDenied_inv in E as (-> & -> & Hu). left. split; [by eexists|done]. }
  right. pose proof (artifactClaim_none _ _ _ _ _ _ _ _ _ _ _ _ _ E) as ->.
  split_and!; [done..|]. by eexists _, _.
Qed.

Lemma fixtureBody_inv env record o gate run version worker w r x w' :
  fixtureBody env record o gate run version worker w = (Ok (Ok (r, x)), w') ->
  ((exists e, x = Some e) /\ fxr_Decision r = "denied" /\ untouched w w')
  \/ (x = None /\ eg_Status gate = "pass"
      /\ exists task, fixtureClaim env record o gate run version worker task w
                      = (Ok (Ok (r, None)), w')).
Proof.
  unfold fixtureBody. cbv zeta. intros E.
  destruct (String.eqb_spec (eg_Status gate) "pass") as [Hg|Hg]; cbn [negb] in E.
  2: { apply fixtureDenied_inv in E as (-> & -> & Hu). left. split; [by eexists|done]. }
  destruct (missingWorkerCapabilities _ _) eqn:Em.
  2: { apply fixtureDenied_inv in E as (-> & -> & Hu). left. split; [by eexists|done]. }
  apply bind_ok in E as (next & w1 & En & E). pose proof (next_task_reads En) as ->.
  destruct next as [task|].
  2: { apply fixtureDenied_inv in E as (-> & -> & Hu). left. split; [by eexists|done]. }
  right. pose proof (fixtureClaim_none _ _ _ _ _ _ _ _ _ _ _ _ E) as ->.
  split_and!; [done..|]. by eexists.
Qed.

Lemma load_ret_inv {A} (load : M A) w r (x : option error) w' :
  (a <- load ;; ret (Ok (a, None) : res error (A * option error))) w = (Ok (Ok (r, x)), w') ->
  load w = (Ok r, w') /\ x = None.
Proof. intros E. step_ok. by same_result. Qed.

(** ** What a verification read *)

Lemma insertLeaseForTask_files env pid worker task kind caps scope md timeout w l w' :
  insertLeaseForTask env pid worker task kind caps scope md timeout w = (Ok l, w') ->
  wd_files w' = wd_files w.
Proof.
  unfold insertLeaseForTask. cbv zeta. intros E. apply bind_ok in E as (rows & w1 & Es & E).
  apply select_rows_ok in Es as [_ ->]. destruct rows; [|done]. run_ops. done.
Qed.

Lemma updateRunTaskStatus_files env id status w u w' :
  updateRunTaskStatus env id status w = (Ok u, w') -> wd_files w' = wd_files w.
Proof. unfold updateRunTaskStatus. destruct (_ =? 0); intros E; by run_ops. Qed.

Lemma readProjectFileForVerify_ok os path w res w' :
  readProjectFileForVerify os path w = (Ok res, w') ->
  exists content, wd_files w !! path = Some content /\ os_IsDir os path = false
    /\ len content <= maxReadOnlyVerifyFileBytes
    /\ rf_SHA256 res = sha256_hex content /\ rf_SizeBytes res = len content.
Proof.
  unfold readProjectFileForVerify. destruct (os_IsDir os path); [done|].
  destruct (wd_files w !! path) as [content|]; [|done].
  destruct (_ <? _) eqn:El; [done|]. intros [= <- _]. bool_prop. by exists content.
Qed.

Lemma verifyClaim_read env os record o gate run version worker task tp fp w r w' :
  verifyClaim env os record o gate run version worker task tp fp w = (Ok (Ok (r, None)), w') ->
  rvr_TargetPath r = tp /\ rvr_Created r = true
  /\ exists content, wd_files w !! fp = Some content /\ os_IsDir os fp = false
       /\ len content <= maxReadOnlyVerifyFileBytes
       /\ rvr_TargetSHA256 r = sha256_hex content /\ rvr_TargetSizeBytes r = len content.
Proof.
  unfold verifyClaim. cbv zeta. intros E.
  apply bind_ok in E as (lease & w1 & El & E). apply insertLeaseForTask_files in El.
  apply bind_ok in E as (u & w2 & Eu & E). apply updateRunTaskStatus_files in Eu.
  apply bind_ok in E as (res & w3 & Er & E). apply readProjectFileForVerify_ok in Er.
  rewrite Eu, El in Er. step_ok. same_result. by split_and!.
Qed.


