(* ===== verification/WriteSpec.v ===== *)
(** * Writes into managed projects

    What the two write commands promise: the write set a run carries is read
    back as it was approved, a target is written only when every guard let it,
    and whatever happens the files of the project end as they were. *)

From stdpp Require Import base list strings numbers gmap.
From Stdlib Require Import ZArith Lia Ascii String.
From S2P Require Import Prelude GoString Sha256 Json JsonText Schema Tx Command Capability.
From S2P Require Import History Worker Lease FilePath Permission RunOnce RunControl Profile.
From S2P Require Import Workflow Gates Runner EnginePreview ExecutionGate ReadOnlyVerify.
From S2P Require Import ApprovedWrite FixtureExecution ProjectFile FixtureWrite ManagedWrite Demo.
From S2P Require Import Steps ExecutionSteps WriteSteps System WorkflowSystem ExecutionSpec.

(** ** Write sets are read back *)

Lemma to_valid_fixed k l :
  (List.length l <= k)%nat -> to_valid k l = l -> valid_bytes k l = true.
Proof.
  revert l. induction k as [|k IH]; intros [|b l] Hk; cbn [to_valid valid_bytes List.length] in *;
    try (done || lia).
  destruct (b <? 128) eqn:Eb.
  - assert (Ew : utf8_width (b :: l) = 1%nat) by (unfold utf8_width; by rewrite Eb).
    rewrite Ew. intros [= H]. apply (IH l); [lia|done].
  - destruct (utf8_width (b :: l)) as [|n] eqn:Ew.
    + unfold replacement. rewrite <- !app_comm_cons. cbn [app]. intros H.
      injection H as <- H. exfalso. rewrite <- H in Ew. by vm_compute in Ew.
    + intros H. apply IH; [rewrite (length_drop (b :: l) (S n)); cbn [List.length]; lia|].
      apply (app_inv_head (take (S n) (b :: l))). by rewrite take_drop.
Qed.

Lemma to_valid_range k l :
  Forall (fun b => 0 <= b < 256) l -> Forall (fun b => 0 <= b < 256) (to_valid k l).
Proof.
  revert l. induction k as [|k IH]; intros [|b l] Hl; cbn [to_valid]; try done.
  inversion Hl; subst. destruct (b <? 128); [constructor; auto|]. destruct (utf8_width _).
  - apply Forall_app. split; [repeat constructor; lia|auto].
  - apply Forall_app. split; [by apply Forall_take|]. apply IH. by apply Forall_drop.
Qed.

(** The decoder keeps exactly the strings that are valid UTF-8. *)
Lemma coerced_fixed s : coerced s = s <-> valid_utf8 s = true.
Proof.
  split; [|apply coerced_id]. unfold coerced, valid_utf8. intros H. apply to_valid_fixed.
  - by rewrite length_bytes_of.
  - apply (f_equal bytes_of) in H. rewrite bytes_of_str in H; [done|].
    apply to_valid_range, bytes_of_range.
Qed.

Lemma text_strings_map l : text_strings (List.map TStr l) = Some l.
Proof. induction l as [|s l IH]; [done|]. cbn. by rewrite IH. Qed.

Lemma nesting_jstrs l : nesting (jstrs l) <= 1.
Proof.
  unfold jstrs. cbn [nesting]. assert (H : Forall (fun j => nesting j = 0) (List.map JStr l)).
  { induction l; by constructor. }
  induction H as [|j l' H _ IH]; cbn [fold_right]; lia.
Qed.

Lemma text_of_jstrs l : text_of (jstrs l) = TArr (List.map TStr (List.map coerced l)).
Proof. unfold jstrs. cbn [text_of]. by rewrite !map_map. Qed.

(** The value a field gets from what [encoding/json] prints for it *)
Definition field_json (k : field_kind) (j : json) : Prop :=
  match k with
  | KString => exists s, j = JStr s
  | KInt64 => exists z, j = JInt z /\ - 2 ^ 63 <= z < 2 ^ 63
  | KBool => exists b, j = JBool b
  | KStrings => exists l, j = jstrs l
  end.

(** A struct prints to an object that is read back field by field. *)
Lemma unmarshal_fields fields m :
  Forall (fun kv => exists f, find_field fields (coerced (fst kv)) = Some f
                              /\ field_json (snd f) (snd kv)) m ->
  unmarshal_struct fields (marshal_indent (JObj m))
  = Some (List.map (fun kv => (coerced (fst kv), text_of (snd kv))) m).
Proof.
  intros H. unfold unmarshal_struct. rewrite unmarshal_marshal.
  - cbn [text_of]. rewrite (proj2 (forallb_forall _ _)); [done|]. intros kv Hin.
    apply in_map_iff in Hin as ([k j] & <- & Hin).
    destruct (Forall_In _ _ _ H Hin) as ([name []] & Hf & Hj); unfold member_fits;
      cbn [fst snd] in *; rewrite Hf; cbn in Hj.
    + by destruct Hj as [s ->].
    + destruct Hj as (z & -> & Hz). cbn. by rewrite parse_int64_fmt.
    + by destruct Hj as [b ->].
    + destruct Hj as [l ->]. rewrite text_of_jstrs. cbn. by rewrite text_strings_map.
  - cbn [nesting]. unfold maxNestingDepth.
    assert (Hn : fold_right (fun kv acc => Z.max (nesting (snd kv)) acc) 0 m <= 1); [|lia].
    induction H as [|[name j] m' ([n k] & _ & Hj) H IH]; [done|]. cbn [fold_right fst snd] in *.
    assert (nesting j <= 1); [|lia].
    destruct k; cbn in Hj; decompose record Hj; subst; try (by cbn). apply nesting_jstrs.
Qed.

Ltac fields_known :=
  repeat (apply List.Forall_cons; [eexists; split; [vm_compute; reflexivity|cbn; eauto]|]);
  apply List.Forall_nil.

Lemma coerced_all l : List.map coerced l = l <-> Forall (fun x => valid_utf8 x = true) l.
Proof.
  induction l as [|x l IH]; cbn; [by split|]. rewrite Forall_cons, <- IH, <- coerced_fixed.
  split; [by intros [=]|]. intros [-> ->]. reflexivity.
Qed.

Definition int64 (z : Z) : Prop := - 2 ^ 63 <= z < 2 ^ 63.

(** The value of one field of a struct that was read back *)
Ltac field_read_back :=
  first
    [ reflexivity
    | match goal with
      | |- int64_field _ _ _ = ?z =>
          transitivity (match parse_int64 (fmt_d z) with Some z => z | None => 0 end);
            [reflexivity|by rewrite parse_int64_fmt]
      | |- strings_field _ _ _ = List.map coerced ?l =>
          transitivity (match text_strings (List.map TStr (List.map coerced l)) with
                        | Some ss => ss | None => [] end);
            [reflexivity|by rewrite text_strings_map]
      end ].

(** *** Fixture project write sets *)

Definition fws_strings (s : fixtureProjectWriteSet) : list string :=
  [fws_Operation s; fws_TargetPath s; fws_TargetPathKind s; fws_ExpectedBeforeSHA256 s;
   fws_AfterSHA256 s; fws_Content s; fws_RollbackMode s] ++ fws_PermissionCapabilities s.

Definition fws_coerced (s : fixtureProjectWriteSet) : fixtureProjectWriteSet :=
  MkfixtureProjectWriteSet (coerced (fws_Operation s)) (coerced (fws_TargetPath s))
    (coerced (fws_TargetPathKind s)) (coerced (fws_ExpectedBeforeSHA256 s))
    (fws_ExpectedBeforeSize s) (coerced (fws_AfterSHA256 s)) (fws_AfterSize s)
    (coerced (fws_Content s)) (List.map coerced (fws_PermissionCapabilities s))
    (fws_ApprovalRequired s) (coerced (fws_RollbackMode s)).

Lemma parse_fixture_text s :
  int64 (fws_ExpectedBeforeSize s) -> int64 (fws_AfterSize s) ->
  parseFixtureProjectWriteSet (fixtureProjectWriteSetText s) = Some (fws_coerced s).
Proof.
  intros H1 H2. destruct s as [op tp tk bsha bsz asha asz content caps app rb].
  unfold parseFixtureProjectWriteSet, fixtureProjectWriteSetText, fws_coerced.
  cbn [fws_Operation fws_TargetPath fws_TargetPathKind fws_ExpectedBeforeSHA256
    fws_ExpectedBeforeSize fws_AfterSHA256 fws_AfterSize fws_Content fws_PermissionCapabilities
    fws_ApprovalRequired fws_RollbackMode] in *.
  rewrite unmarshal_fields by fields_known. cbn [List.map fst snd]. rewrite text_of_jstrs.
  cbv zeta. f_equal. f_equal; field_read_back.
Qed.

Lemma fws_coerced_fixed s :
  fws_coerced s = s <-> Forall (fun x => valid_utf8 x = true) (fws_strings s).
Proof.
  unfold fws_coerced, fws_strings. rewrite Forall_app, !Forall_cons, <- !coerced_fixed.
  rewrite <- (coerced_all (fws_PermissionCapabilities s)). destruct s. cbn. split.
  - intros [=]. by repeat split.
  - intros [(H1 & H2 & H3 & H4 & H5 & H6 & H7 & _) H8]. f_equal; assumption.
Qed.

(** *** Managed generated write sets *)

Definition mgs_strings (s : managedGeneratedWriteSet) : list string :=
  [mgs_Operation s; mgs_TargetPath s; mgs_TargetPathKind s; mgs_ExpectedBeforeSHA256 s;
   mgs_AfterSHA256 s; mgs_Content s; mgs_RollbackMode s]
  ++ mgs_PermissionCapabilities s ++ mgs_AllowedGeneratedPrefixes s.

Definition mgs_coerced (s : managedGeneratedWriteSet) : managedGeneratedWriteSet :=
  MkmanagedGeneratedWriteSet (coerced (mgs_Operation s)) (coerced (mgs_TargetPath s))
    (coerced (mgs_TargetPathKind s)) (coerced (mgs_ExpectedBeforeSHA256 s))
    (mgs_ExpectedBeforeSize s) (coerced (mgs_AfterSHA256 s)) (mgs_AfterSize s)
    (coerced (mgs_Content s)) (List.map coerced (mgs_PermissionCapabilities s))
    (List.map coerced (mgs_AllowedGeneratedPrefixes s)) (mgs_GeneratedOnly s)
    (mgs_ApprovalRequired s) (coerced (mgs_RollbackMode s)) (mgs_FixtureOrTempProjectOnly s)
    (mgs_RealAreaMatrixWriteOpened s).

Lemma parse_managed_text s :
  int64 (mgs_ExpectedBeforeSize s) -> int64 (mgs_AfterSize s) ->
  parseManagedGeneratedWriteSet (managedGeneratedWriteSetText s) = Some (mgs_coerced s).
Proof.
  intros H1 H2. destruct s as [op tp tk bsha bsz asha asz content caps pre gen app rb ft real].
  unfold parseManagedGeneratedWriteSet, managedGeneratedWriteSetText, mgs_coerced.
  cbn [mgs_Operation mgs_TargetPath mgs_TargetPathKind mgs_ExpectedBeforeSHA256
    mgs_ExpectedBeforeSize mgs_AfterSHA256 mgs_AfterSize mgs_Content mgs_PermissionCapabilities
    mgs_AllowedGeneratedPrefixes mgs_GeneratedOnly mgs_ApprovalRequired mgs_RollbackMode
    mgs_FixtureOrTempProjectOnly mgs_RealAreaMatrixWriteOpened] in *.
  rewrite unmarshal_fields by fields_known. cbn [List.map fst snd]. rewrite !text_of_jstrs.
  cbv zeta. f_equal. f_equal; field_read_back.
Qed.

Lemma mgs_coerced_fixed s :
  mgs_coerced s = s <-> Forall (fun x => valid_utf8 x = true) (mgs_strings s).
Proof.
  unfold mgs_coerced, mgs_strings. rewrite !Forall_app, !Forall_cons, <- !coerced_fixed.
  rewrite <- (coerced_all (mgs_PermissionCapabilities s)).
  rewrite <- (coerced_all (mgs_AllowedGeneratedPrefixes s)). destruct s. cbn. split.
  - intros [=]. by repeat split.
  - intros [(H1 & H2 & H3 & H4 & H5 & H6 & H7 & _) [H8 H9]]. f_equal; assumption.
Qed.

(** C39. A write set that is stored when a run is queued is the write set the
    worker reads back, for both commands: [encoding/json] prints it and reads
    it as it was exactly when every string in it, the content above all, is
    valid UTF-8. *)
Theorem write_set_roundtrip :
  (forall s, int64 (fws_ExpectedBeforeSize s) -> int64 (fws_AfterSize s) ->
     (parseFixtureProjectWriteSet (fixtureProjectWriteSetText s) = Some s
      <-> Forall (fun x => valid_utf8 x = true) (fws_strings s)))
  /\ (forall s, int64 (mgs_ExpectedBeforeSize s) -> int64 (mgs_AfterSize s) ->
     (parseManagedGeneratedWriteSet (managedGeneratedWriteSetText s) = Some s
      <-> Forall (fun x => valid_utf8 x = true) (mgs_strings s))).
Proof.
  split; intros s H1 H2.
  - rewrite parse_fixture_text by done. rewrite <- fws_coerced_fixed. split; [by intros [=]|].
    by intros ->.
  - rewrite parse_managed_text by done. rewrite <- mgs_coerced_fixed. split; [by intros [=]|].
    by intros ->.
Qed.

(** A write set with an escaped quote, a line separator and a tab *)
Definition demo_write_set (content : string) : fixtureProjectWriteSet :=
  MkfixtureProjectWriteSet "modify" "docs/a.md" "fixture_file" "00" 5 "01" 7 content
    ["write_code"] true "restore_preimage".

Definition demo_content : string := str_of_bytes [34; 9; 226; 128; 168; 60; 92].

Lemma write_set_roundtrip_witness :
  parseFixtureProjectWriteSet (fixtureProjectWriteSetText (demo_write_set demo_content))
  = Some (demo_write_set demo_content)
  /\ parseFixtureProjectWriteSet (fixtureProjectWriteSetText (demo_write_set (str_of_bytes [255])))
     <> Some (demo_write_set (str_of_bytes [255])).
Proof.
  assert (H5 : int64 5) by (unfold int64; lia). assert (H7 : int64 7) by (unfold int64; lia).
  split.
  - apply (proj1 write_set_roundtrip (demo_write_set demo_content) H5 H7).
    repeat constructor.
  - intros H. apply (proj1 write_set_roundtrip (demo_write_set (str_of_bytes [255])) H5 H7) in H.
    repeat match goal with H : Forall _ _ |- _ => inversion H; clear H; subst end. discriminate.
Defined.

(** ** Files a command leaves alone

    A path the artifact store of the project may write *)
Definition store_path (env : Env) (record : Record_) (path : string) : Prop :=
  exists rel p q, artifact_relative (p_Key record) rel = Ok p /\ safeRelativePath p = Ok q
    /\ path = path_join [expandHome env (trim_space (p_ArtifactRoot record)); q].

(** [m] changes no file at a path in [P], whether it succeeds or not. *)
Definition leaves (P : string -> Prop) {A} (m : M A) : Prop :=
  forall w path, P path -> wd_files (snd (m w)) !! path = wd_files w !! path.

Section Leaves.
Context (P : string -> Prop).

Lemma leaves_reads {A} (m : M A) : reads m -> leaves P m.
Proof. intros Hm w path _. by rewrite Hm. Qed.

Lemma leaves_bind {A B} (m : M A) (k : A -> M B) :
  leaves P m -> (forall a, leaves P (k a)) -> leaves P (bind m k).
Proof.
  intros Hm Hk w path Hp. unfold bind. specialize (Hm w path Hp).
  destruct (m w) as [[a|e] w1]; cbn in *; [|done]. by rewrite (Hk a w1 path Hp).
Qed.

Lemma leaves_lift {A B} (r : res error A) (k : A -> M B) :
  (forall a, r = Ok a -> leaves P (k a)) -> leaves P (bind (lift r) k).
Proof. intros H w path Hp. unfold bind, lift. destruct r as [a|e]; [by apply H|done]. Qed.

Lemma leaves_map_err {A} f (m : M A) : leaves P m -> leaves P (map_err f m).
Proof.
  intros Hm w path Hp. specialize (Hm w path Hp). unfold map_err.
  by destruct (m w) as [[a|e] w1].
Qed.

Lemma leaves_insert {R} `{HasTable R} (mkrow : Z -> R) : leaves P (insert_row mkrow).
Proof. done. Qed.
Lemma leaves_update {R} `{HasTable R} (p : R -> bool) f : leaves P (update_rows p f).
Proof. done. Qed.
Lemma leaves_put_db db : leaves P (put_db db).
Proof. done. Qed.
Lemma leaves_counters {A} (f : World -> A) (c : World -> Counters) :
  leaves P (fun w => (Ok (f w), set_counters (c w) w)).
Proof. done. Qed.

Lemma leaves_transact {A} (m : M (res error A)) w path :
  leaves P m -> P path -> wd_files (snd (transact m w)) !! path = wd_files w !! path.
Proof.
  intros Hm Hp. specialize (Hm w path Hp). unfold transact.
  by destruct (m w) as [[a|e] w1].
Qed.
End Leaves.

Create HintDb leaves discriminated.
#[export] Hint Resolve leaves_insert leaves_update leaves_put_db leaves_counters : leaves.
#[export] Hint Extern 5 (leaves _ _) => (apply leaves_reads; solve [eauto with reads]) : leaves.

Ltac leaves_split :=
  repeat first
    [ progress intros
    | match goal with
      | |- leaves _ (bind _ _) => apply leaves_bind
      | |- leaves _ (map_err _ _) => apply leaves_map_err
      | |- leaves _ (match ?x with _ => _ end) => destruct x
      end
    | solve [eauto with leaves] ].

(** The artifacts of a project are written to its store. *)
Lemma putLocal_leaves env root rel content ct (P : string -> Prop) :
  (forall q, safeRelativePath rel = Ok q -> ~ P (path_join [expandHome env (trim_space root); q])) ->
  leaves P (putLocal env root rel content ct).
Proof.
  intros H w path Hp. unfold putLocal. destruct (_ =s ""); [done|].
  destruct (safeRelativePath rel) as [q|] eqn:E; [|done]. destruct (env_can_write _ _); [|done].
  cbn. apply lookup_insert_ne. intros <-. by apply (H q).
Qed.

Lemma writeProjectArtifact_leaves env record rel content ct (P : string -> Prop) :
  (forall path, store_path env record path -> ~ P path) ->
  leaves P (writeProjectArtifact env record rel content ct).
Proof.
  intros H. unfold writeProjectArtifact, WriteConfigured. cbv zeta.
  destruct (_ || has_prefix _ _) eqn:G; [leaves_split|].
  apply leaves_lift. intros p Ep.
  destruct (_ || (_ =s "local")); [|leaves_split; apply leaves_reads; reads_split].
  apply putLocal_leaves. intros q Hq. apply H. exists rel, p, q. split; [|done].
  unfold artifact_relative. by rewrite G.
Qed.

Ltac leaves_prims := autounfold with prims; cbv zeta; leaves_split.

Lemma write_file_leaves os (P : string -> Prop) site fp content message :
  ~ P fp -> leaves P (write_file os site fp content message).
Proof.
  intros H w path Hp. assert (fp <> path) by by intros ->. unfold write_file.
  repeat case_match; cbn; try done; by apply lookup_insert_ne.
Qed.

Lemma restoring_leaves os (P : string -> Prop) {A} fp content (m : M A) :
  ~ P fp -> leaves P m -> leaves P (restoring os fp content m).
Proof.
  intros H Hm w path Hp. specialize (Hm w path Hp). unfold restoring.
  destruct (m w) as [[a|e] w1]; [done|]. cbn in *. rewrite <- Hm.
  by apply (write_file_leaves os P WriteRestore fp content "" H w1).
Qed.

#[export] Hint Resolve write_file_leaves restoring_leaves : leaves.

Lemma fixtureWriteVerify_leaves env os record (P : string -> Prop) o task lease tp fp ws wsa pre prea :
  ~ P fp -> leaves P (fixtureWriteVerify env os record o task lease tp fp ws wsa pre prea).
Proof.
  intros Hfp. unfold fixtureWriteVerify, insertFixtureProjectWriteAttempt. cbv zeta.
  apply restoring_leaves; [done|]. leaves_split.
Qed.

Lemma managedWriteVerify_leaves env os record (P : string -> Prop) o task lease tp fp ws wsa pre prea :
  ~ P fp -> leaves P (managedWriteVerify env os record o task lease tp fp ws wsa pre prea).
Proof.
  intros Hfp. unfold managedWriteVerify, insertManagedGeneratedWriteAttempt. cbv zeta.
  apply restoring_leaves; [done|]. leaves_split.
Qed.

Lemma nextFixtureWrite_reads env pid runID :
  reads (nextFixtureProjectWriteTaskForLease env pid runID).
Proof. apply next_execution_task_reads. Qed.
Lemma nextManagedWrite_reads env pid runID :
  reads (nextManagedGeneratedWriteTaskForLease env pid runID).
Proof. apply next_execution_task_reads. Qed.
#[export] Hint Resolve nextFixtureWrite_reads nextManagedWrite_reads : reads.

Section Frames.
Context (env : Env) (os : WriteOS) (record : Record_) (P : string -> Prop)
  (HP : forall path, store_path env record path -> ~ P path).

Lemma next_task_leaves pid runID kind : leaves P (next_execution_task env pid runID kind).
Proof. apply leaves_reads, next_execution_task_reads. Qed.

Hint Resolve next_task_leaves : leaves.
Hint Extern 1 (leaves _ (writeProjectArtifact _ _ _ _ _)) =>
  (apply writeProjectArtifact_leaves; exact HP) : leaves.

Lemma insertLease_leaves pid worker task kind caps scope md timeout :
  leaves P (insertLeaseForTask env pid worker task kind caps scope md timeout).
Proof. leaves_prims. Qed.

Lemma releaseLease_leaves pid worker id status md :
  leaves P (releaseLeaseForWorker env pid worker id status md).
Proof. leaves_prims. Qed.

Lemma taskStatus_leaves id status : leaves P (updateRunTaskStatus env id status).
Proof. leaves_prims. Qed.

Lemma runArtifact_leaves pid vid rid iid kind rel st md :
  leaves P (insertRunArtifactRecord env pid vid rid iid kind rel st md).
Proof. leaves_prims. Qed.

Lemma complete_leaves pid ct key r : leaves P (completeCommandRequestResponse env pid ct key r).
Proof. leaves_prims. Qed.

Lemma with_command_leaves {A} pid ct key hash (replay body : M (res error A)) :
  reads replay -> leaves P body -> leaves P (with_command env pid ct key hash replay body).
Proof. intros Hr Hb. apply (leaves_reads P) in Hr. leaves_prims. Qed.

Hint Resolve insertLease_leaves releaseLease_leaves taskStatus_leaves runArtifact_leaves
  complete_leaves : leaves.

(** *** Fixture project writes *)

Lemma fixtureWriteDenied_leaves r o e : leaves P (fixtureWriteDenied env r o e).
Proof.
  unfold fixtureWriteDenied, finishDeniedFixtureProjectWrite, insertFixtureProjectWriteEvent,
    insertFixtureProjectWriteAuditEvent. cbv zeta. leaves_split.
Qed.

Lemma fixtureWriteFinish_leaves o gate run version worker task lease tp d :
  leaves P (fixtureWriteFinish env record o gate run version worker task lease tp d).
Proof.
  unfold fixtureWriteFinish, insertFixtureProjectWriteAttempt,
    writeAndInsertFixtureProjectWriteReport, updateFixtureProjectWriteRunAfterTask,
    rollbackVerifiedRunTaskCount, remainingFixtureProjectWriteTaskCount, count_tasks,
    insertFixtureProjectWriteEvent, insertFixtureProjectWriteAuditEvent. cbv zeta. leaves_split.
Qed.

Lemma fixturePreimage_leaves version run task tp pre o :
  leaves P (writeAndInsertFixtureProjectPreimageArtifact env record version run task tp pre o).
Proof.
  unfold writeAndInsertFixtureProjectPreimageArtifact. cbv zeta. leaves_split.
Qed.

(** *** Managed generated writes *)

Lemma managedWriteDenied_leaves r o e : leaves P (managedWriteDenied env r o e).
Proof.
  unfold managedWriteDenied, finishDeniedManagedGeneratedWrite, insertManagedGeneratedWriteEvent,
    insertManagedGeneratedWriteAuditEvent. cbv zeta. leaves_split.
Qed.

Lemma managedWriteFinish_leaves o gate run version worker task lease tp d :
  leaves P (managedWriteFinish env record o gate run version worker task lease tp d).
Proof.
  unfold managedWriteFinish, insertManagedGeneratedWriteAttempt,
    writeAndInsertManagedGeneratedWriteReport, updateManagedGeneratedWriteRunAfterTask,
    rollbackVerifiedRunTaskCount, remainingManagedGeneratedWriteTaskCount, count_tasks,
    insertManagedGeneratedWriteEvent, insertManagedGeneratedWriteAuditEvent. cbv zeta. leaves_split.
Qed.

Lemma managedPreimage_leaves version run task tp pre o :
  leaves P (writeAndInsertManagedGeneratedPreimageArtifact env record version run task tp pre o).
Proof.
  unfold writeAndInsertManagedGeneratedPreimageArtifact. cbv zeta. leaves_split.
Qed.

(** *** One command, from one state *)

Definition leaves_from (w : World) {A} (m : M A) : Prop :=
  forall path, P path -> wd_files (snd (m w)) !! path = wd_files w !! path.

Lemma leaves_at {A} (m : M A) w : leaves P m -> leaves_from w m.
Proof. intros H path. apply H. Qed.

Lemma from_bind {A B} (m : M A) (k : A -> M B) w :
  leaves P m ->
  (forall a w1, m w = (Ok a, w1) ->
     (forall path, P path -> wd_files w1 !! path = wd_files w !! path) -> leaves_from w1 (k a)) ->
  leaves_from w (bind m k).
Proof.
  intros Hm Hk path Hp. specialize (Hm w). unfold bind.
  destruct (m w) as [[a|e] w1]; [|by apply Hm]. rewrite <- (Hm path Hp). by eapply Hk.
Qed.

Lemma from_reads {A B} (m : M A) (k : A -> M B) w :
  reads m -> (forall a, m w = (Ok a, w) -> leaves_from w (k a)) -> leaves_from w (bind m k).
Proof.
  intros Hm Hk. apply from_bind; [by apply leaves_reads|]. intros a w1 E _.
  pose proof (reads_ok _ _ _ _ Hm E) as ->. by apply Hk.
Qed.

Lemma image_content fp w image :
  readFixtureProjectFileImage os fp w = (Ok image, w) -> wd_files w !! fp = Some (im_Content image).
Proof.
  unfold readFixtureProjectFileImage. destruct (os_IsDir _ _); [done|].
  destruct (wd_files w !! fp) as [content|]; [|done]. destruct (_ <? _); [done|].
  by intros [= <-].
Qed.

(** *** A target that is written is restored

    Nothing is lost when no write of the target fails after it was opened, and
    the write that restores it succeeds. *)
Context (Htarget : forall p c partial, os_WriteFile os WriteTarget p c <> WriteFailed (Some partial))
  (Hrestore : forall p c, os_WriteFile os WriteRestore p c = Written).

Lemma rollback_written fp content message w u w' :
  write_file os WriteRollback fp content message w = (Ok u, w') ->
  wd_files w' !! fp = Some content.
Proof.
  unfold write_file. repeat case_match; try done. intros [= _ <-]. apply lookup_insert_eq.
Qed.

(** Every way out of a step in which the deferred restore is armed leaves the
    old contents, if the normal one does. *)
Lemma restoring_restores {A} fp content (m : M A) w :
  (forall a w', m w = (Ok a, w') -> wd_files w' !! fp = Some content) ->
  wd_files (snd (restoring os fp content m w)) !! fp = Some content.
Proof.
  intros Hm. unfold restoring. destruct (m w) as [[a|e] w1] eqn:E; [by eapply Hm|].
  cbn. unfold write_file. rewrite Hrestore. apply lookup_insert_eq.
Qed.

Lemma write_then_restore {A B} fp old new message (verify : M A) (finish : A -> M B) w :
  (P fp -> wd_files w !! fp = Some old) -> leaves (fun p => P p /\ p <> fp) verify ->
  (forall w, wd_files (snd (verify w)) !! fp = Some old) -> (forall a, leaves P (finish a)) ->
  leaves_from w (write_file os WriteTarget fp new message ;;; (a <- verify ;; finish a)).
Proof.
  intros Hold Hothers Hverify Hfinish path Hp. unfold bind at 1, write_file.
  destruct (os_WriteFile os WriteTarget fp new) as [|[partial|]] eqn:Ew;
    [|by apply Htarget in Ew|done].
  set (w1 := set_files _ w). unfold bind. destruct (verify w1) as [[a|e] w2] eqn:Ev.
  - rewrite (Hfinish a w2 path Hp). destruct (decide (path = fp)) as [->|Hne].
    + rewrite Hold by done. specialize (Hverify w1). by rewrite Ev in Hverify.
    + specialize (Hothers w1 path (conj Hp Hne)). rewrite Ev in Hothers. cbn in Hothers.
      rewrite Hothers. by apply lookup_insert_ne.
  - cbn. destruct (decide (path = fp)) as [->|Hne].
    + rewrite Hold by done. specialize (Hverify w1). by rewrite Ev in Hverify.
    + specialize (Hothers w1 path (conj Hp Hne)). rewrite Ev in Hothers. cbn in Hothers.
      rewrite Hothers. by apply lookup_insert_ne.
Qed.

(** What a verified and restored target went through *)
Lemma fixtureWriteVerify_inv o task lease tp fp ws wsa pre prea w d w' :
  fixtureWriteVerify env os record o task lease tp fp ws wsa pre prea w = (Ok d, w') ->
  fd_writeSet d = ws
  /\ readFixtureProjectFileImage os fp w = (Ok (fd_afterImage d), w)
  /\ im_SHA256 (fd_afterImage d) = fws_AfterSHA256 ws
  /\ im_SizeBytes (fd_afterImage d) = fws_AfterSize ws
  /\ same_image (fd_restoredImage d) pre = true
  /\ wd_files w' !! fp = Some (im_Content pre).
Proof.
  unfold fixtureWriteVerify. intros E. apply restoring_ok in E.
  apply bind_ok in E as (after & w1 & Er & E).
  pose proof (reads_ok _ _ _ _ (readFixtureProjectFileImage_reads _ _) Er) as ->.
  apply bind_ok in E as (copy & w1 & _ & E). cbv zeta in E.
  destruct (_ || negb _) eqn:Ev; [by step_ok|].
  apply bind_ok in E as (verify & w2 & _ & E). cbn in E. destruct (_ =s _) eqn:Es; [|done].
  apply bind_ok in E as (u & w3 & Ew & E). apply rollback_written in Ew.
  apply bind_ok in E as (restored & w4 & Er' & E).
  pose proof (reads_ok _ _ _ _ (readFixtureProjectFileImage_reads _ _) Er') as ->.
  destruct (same_image restored pre) eqn:Esame; [|done]. apply ret_ok in E as [<- <-]. bool_prop.
  by split_and!.
Qed.

Lemma fixtureWriteClaim_restores o gate run version worker task tp fp ws wsa pre w :
  (P fp -> wd_files w !! fp = Some (im_Content pre)) ->
  leaves_from w (fixtureWriteClaim env os record o gate run version worker task tp fp ws wsa pre).
Proof.
  intros Hold. unfold fixtureWriteClaim.
  apply from_bind; [auto with leaves|intros lease w1 _ H1].
  apply from_bind; [auto with leaves|intros u w2 _ H2].
  apply from_bind; [apply fixturePreimage_leaves|intros prea w3 _ H3].
  apply (write_then_restore fp (im_Content pre)).
  - intros Hp. rewrite H3, H2, H1 by done. by apply Hold.
  - apply fixtureWriteVerify_leaves. tauto.
  - intros w4. apply restoring_restores. intros d w' E.
    apply (proj2 (restoring_ok os fp (im_Content pre) _ _ _ _)) in E.
    by apply fixtureWriteVerify_inv in E as (_ & _ & _ & _ & _ & ?).
  - intros d. apply fixtureWriteFinish_leaves.
Qed.

(** The same for a managed generated write *)
Lemma managedWriteVerify_inv o task lease tp fp ws wsa pre prea w d w' :
  managedWriteVerify env os record o task lease tp fp ws wsa pre prea w = (Ok d, w') ->
  md_writeSet d = ws
  /\ readFixtureProjectFileImage os fp w = (Ok (md_afterImage d), w)
  /\ im_SHA256 (md_afterImage d) = mgs_AfterSHA256 ws
  /\ im_SizeBytes (md_afterImage d) = mgs_AfterSize ws
  /\ same_image (md_restoredImage d) pre = true
  /\ wd_files w' !! fp = Some (im_Content pre).
Proof.
  unfold managedWriteVerify. intros E. apply restoring_ok in E.
  apply bind_ok in E as (after & w1 & Er & E).
  pose proof (reads_ok _ _ _ _ (readFixtureProjectFileImage_reads _ _) Er) as ->.
  apply bind_ok in E as (copy & w1 & _ & E). cbv zeta in E.
  destruct (_ || negb _) eqn:Ev; [by step_ok|].
  apply bind_ok in E as (verify & w2 & _ & E). cbn in E. destruct (_ =s _) eqn:Es; [|done].
  apply bind_ok in E as (u & w3 & Ew & E). apply rollback_written in Ew.
  apply bind_ok in E as (restored & w4 & Er' & E).
  pose proof (reads_ok _ _ _ _ (readFixtureProjectFileImage_reads _ _) Er') as ->.
  destruct (same_image restored pre) eqn:Esame; [|done]. apply ret_ok in E as [<- <-]. bool_prop.
  by split_and!.
Qed.

Lemma managedWriteClaim_restores o gate run version worker task tp fp ws wsa pre w :
  (P fp -> wd_files w !! fp = Some (im_Content pre)) ->
  leaves_from w (managedWriteClaim env os record o gate run version worker task tp fp ws wsa pre).
Proof.
  intros Hold. unfold managedWriteClaim.
  apply from_bind; [auto with leaves|intros lease w1 _ H1].
  apply from_bind; [auto with leaves|intros u w2 _ H2].
  apply from_bind; [apply managedPreimage_leaves|intros prea w3 _ H3].
  apply (write_then_restore fp (im_Content pre)).
  - intros Hp. rewrite H3, H2, H1 by done. by apply Hold.
  - apply managedWriteVerify_leaves. tauto.
  - intros w4. apply restoring_restores. intros d w' E.
    apply (proj2 (restoring_ok os fp (im_Content pre) _ _ _ _)) in E.
    by apply managedWriteVerify_inv in E as (_ & _ & _ & _ & _ & ?).
  - intros d. apply managedWriteFinish_leaves.
Qed.

Ltac body_restores :=
  cbv zeta;
  repeat match goal with
  | |- leaves_from _ (fixtureWriteDenied _ _ _ _) => apply leaves_at, fixtureWriteDenied_leaves
  | |- leaves_from _ (managedWriteDenied _ _ _ _) => apply leaves_at, managedWriteDenied_leaves
  | |- leaves_from _ (fixtureWriteClaim _ _ _ _ _ _ _ _ _ _ _ _ _ _) =>
      apply fixtureWriteClaim_restores; intros _; by apply image_content
  | |- leaves_from _ (managedWriteClaim _ _ _ _ _ _ _ _ _ _ _ _ _ _) =>
      apply managedWriteClaim_restores; intros _; by apply image_content
  | |- leaves_from _ (fail _) => done
  | |- leaves_from _ (bind _ _) => apply from_reads; [solve [auto with reads|done]|intros ? ?]
  | |- leaves_from _ (match ?x with _ => _ end) => destruct x
  end.

Lemma fixtureWriteBody_restores o gate run version worker w :
  leaves_from w (fixtureWriteBody env os record o gate run version worker).
Proof. unfold fixtureWriteBody, fixtureWriteTask, fixtureWriteTarget. body_restores. Qed.

Lemma managedWriteBody_restores o gate run version worker w :
  leaves_from w (managedWriteBody env os record o gate run version worker).
Proof. unfold managedWriteBody, managedWriteTask, managedWriteTarget. body_restores. Qed.

Lemma fixtureWriteTx_leaves o hash : leaves P (fixtureWriteTx env os record o hash).
Proof.
  unfold fixtureWriteTx. leaves_split; try solve [apply leaves_reads; reads_split].
  apply with_command_leaves; [reads_split|]. intros w. apply fixtureWriteBody_restores.
Qed.

Lemma managedWriteTx_leaves o hash : leaves P (managedWriteTx env os record o hash).
Proof.
  unfold managedWriteTx. leaves_split; try solve [apply leaves_reads; reads_split].
  apply with_command_leaves; [reads_split|]. intros w. apply managedWriteBody_restores.
Qed.
End Frames.

(** C4. Whatever a fixture project write or a managed generated write comes to
    -- done, denied, or an error at any step before the commit -- every file
    that is not an artifact of the project has the contents it had: the target
    is put back by the rollback or by the deferred restore.  What this rests
    on is that the write of the target does not fail half way, and that the
    write that restores it succeeds. *)
Theorem project_files_restored env os record w path :
  (forall p c partial, os_WriteFile os WriteTarget p c <> WriteFailed (Some partial)) ->
  (forall p c, os_WriteFile os WriteRestore p c = Written) ->
  ~ store_path env record path ->
  (forall o, wd_files (snd (WriteFixtureProject env os record o w)) !! path = wd_files w !! path)
  /\ (forall o, wd_files (snd (WriteManagedGenerated env os record o w)) !! path
                = wd_files w !! path).
Proof.
  intros Ht Hr Hp. split; intros o.
  - unfold WriteFixtureProject. destruct (_ <=? 0); [done|].
    apply (leaves_transact (fun p => ~ store_path env record p)); [|done].
    apply fixtureWriteTx_leaves; auto.
  - unfold WriteManagedGenerated. destruct (_ <=? 0); [done|].
    apply (leaves_transact (fun p => ~ store_path env record p)); [|done].
    apply managedWriteTx_leaves; auto.
Qed.

(** ** Demonstration data

    The demonstration project as a fixture, with a generated file beside its
    document, the permissions to write both, and a worker that may *)
Definition demo_fixture : Record_ :=
  MkRecord 1 "demo" "Demo" "fixture" "generic" "standard" "main" "/srv/demo" "local"
    "/var/areaflow".

Definition demo_write_permissions : list permissionRow :=
  demo_permissions
  ++ [MkPermission 1 "write_code" "allow" "capability" "write_code";
      MkPermission 1 "write_code" "allow" "path" "docs/**";
      MkPermission 1 "read_project" "allow" "path" ".areaflow/**";
      MkPermission 1 "write_generated" "allow" "capability" "write_generated";
      MkPermission 1 "write_generated" "allow" "path" ".areaflow/generated/**"].

Definition demo_writable : World :=
  set_db (set_project_permissions demo_write_permissions (wd_db demo_cleared))
    (set_files (<["/srv/demo/.areaflow/generated/s.md" := "old"]> (wd_files demo_cleared))
       demo_cleared).

Definition demo_writer : RegisterWorkerOptions :=
  MkRegisterWorker "w2" "" "" 42 ["read_project"; "write_artifacts"; "write_code"; "write_generated"]
    None 0 0 "" "" "k-writer".

(** A store whose files have no links in their paths, every write of which has
    the outcome given *)
Definition demo_write_os (outcome : write_site -> write_outcome) : WriteOS :=
  MkWriteOS demo_os (fun _ => false) (fun site _ _ => outcome site) (fun _ => Err (ErrText "no s3")).

Definition demo_fixture_queue (content : string) : FixtureProjectWriteQueueOptions :=
  MkFixtureProjectWriteQueueOptions "docs/a.md" content (sha256_hex "hello") 5 "" "" "".
Definition demo_managed_queue : ManagedGeneratedWriteQueueOptions :=
  MkManagedGeneratedWriteQueueOptions ".areaflow/generated/s.md" "new" (sha256_hex "old") 3 "" "" "".

Definition demo_queued_write (content : string) : World :=
  snd (QueueFixtureProjectWrite demo_env demo_fixture "v1" (demo_fixture_queue content)
    (on_site (WCore (CRegisterWorker demo_fixture demo_writer)) demo_writable)).
Definition demo_queued_managed : World :=
  snd (QueueManagedGeneratedWrite demo_env demo_fixture "v1" demo_managed_queue
    (on_site (WCore (CRegisterWorker demo_fixture demo_writer)) demo_writable)).

Definition demo_fixture_write : FixtureProjectWriteOptions :=
  MkFixtureProjectWriteOptions "w2" 2 [] 0 None "" "" "".
Definition demo_managed_write : ManagedGeneratedWriteOptions :=
  MkManagedGeneratedWriteOptions "w2" 2 [] 0 None "" "" "".

(** ** What a command did *)

(** The permission rows of a project allow a capability, at a path *)
Definition may (db : DB) (record : Record_) (capability : string) : Prop :=
  fst (canProjectCapabilityInTx (db_project_permissions db) (p_ID record) capability) = true.
Definition may_path (db : DB) (record : Record_) (capability path : string) : Prop :=
  fst (canProjectPathInTx (db_project_permissions db) (p_ID record) capability path) = true.

Lemma target_written os fp content message w u w' :
  write_file os WriteTarget fp content message w = (Ok u, w') -> wd_files w' !! fp = Some content.
Proof.
  unfold write_file. repeat case_match; try done. intros [= _ <-]. apply lookup_insert_eq.
Qed.

Lemma read_image_ok os fp w image w' :
  readFixtureProjectFileImage os fp w = (Ok image, w') ->
  exists content, wd_files w !! fp = Some content /\ im_SHA256 image = sha256_hex content
    /\ im_SizeBytes image = len content /\ os_IsDir (os_read os) fp = false.
Proof.
  unfold readFixtureProjectFileImage. destruct (os_IsDir _ _); [done|].
  destruct (wd_files w !! fp) as [content|]; [|done]. destruct (_ <? _); [done|].
  intros [= <- _]. by exists content.
Qed.

Lemma safeFixtureProjectWritePath_inv os root target w full :
  safeFixtureProjectWritePath os root target w = Ok full ->
  exists real, os_EvalSymlinks (os_read os) root = Ok real
    /\ os_IsSymlink os (path_join [real; normalizeProjectRelativePath target]) = false
    /\ os_EvalSymlinks (os_read os) (path_join [real; normalizeProjectRelativePath target]) = Ok full
    /\ strictly_below real full.
Proof.
  unfold safeFixtureProjectWritePath. cbv zeta. destruct (_ =s ""); [done|].
  destruct (_ =s ""); [done|].
  destruct (os_EvalSymlinks _ root) as [real|e]; [|done]. destruct (os_IsSymlink _ _) eqn:El; [done|].
  destruct (os_IsDir _ _); [done|]. destruct (wd_files w !! _); [|done].
  destruct (os_EvalSymlinks _ (path_join _)) as [f|e] eqn:Ef; [|done].
  destruct (path_rel real f) as [rel|e] eqn:Er; [|done].
  destruct (_ || _) eqn:Eg; [done|]. intros [= <-]. exists real.
  split_and!; [done|exact El|exact Ef|]. by eapply path_rel_below.
Qed.

Lemma fixtureWriteDenied_inv env r o e w r' e' w' :
  fixtureWriteDenied env r o e w = (Ok (Ok (r', e')), w') ->
  r' = r /\ e' = Some e /\ untouched w w'.
Proof.
  unfold fixtureWriteDenied, finishDeniedFixtureProjectWrite, insertFixtureProjectWriteEvent,
    insertFixtureProjectWriteAuditEvent, completeCommandRequestResponse. cbv zeta.
  intros E. run_ops. same_result. by split_and!.
Qed.

Lemma managedWriteDenied_inv env r o e w r' e' w' :
  managedWriteDenied env r o e w = (Ok (Ok (r', e')), w') ->
  r' = r /\ e' = Some e /\ untouched w w'.
Proof.
  unfold managedWriteDenied, finishDeniedManagedGeneratedWrite, insertManagedGeneratedWriteEvent,
    insertManagedGeneratedWriteAuditEvent, completeCommandRequestResponse. cbv zeta.
  intros E. run_ops. same_result. by split_and!.
Qed.

(** A run that ended in a denial *)
Ltac denied E :=
  first [apply fixtureWriteDenied_inv in E as (-> & -> & ?)
        |apply managedWriteDenied_inv in E as (-> & -> & ?)];
  left; split; [by eexists|done].

(** ** What a command did: fixture project writes *)

Lemma fixtureWriteFinish_inv env record o gate run version worker task lease tp d w r x w' :
  fixtureWriteFinish env record o gate run version worker task lease tp d w
  = (Ok (Ok (r, x)), w') ->
  x = None /\ fwr_Gate r = gate /\ fwr_Worker r = worker /\ fwr_TargetPath r = tp
  /\ fwr_ExpectedBeforeSHA256 r = fws_ExpectedBeforeSHA256 (fd_writeSet d)
  /\ fwr_ExpectedBeforeSize r = fws_ExpectedBeforeSize (fd_writeSet d)
  /\ fwr_AfterSHA256 r = im_SHA256 (fd_afterImage d)
  /\ fwr_AfterSize r = im_SizeBytes (fd_afterImage d)
  /\ fwr_RestoredSHA256 r = im_SHA256 (fd_restoredImage d)
  /\ fwr_RestoredSize r = im_SizeBytes (fd_restoredImage d).
Proof. unfold fixtureWriteFinish. cbv zeta. intros E. step_ok. same_result. by split_and!. Qed.

Lemma fixtureWriteClaim_inv env os record o gate run version worker task tp fp ws wsa pre w r x w' :
  fixtureWriteClaim env os record o gate run version worker task tp fp ws wsa pre w
  = (Ok (Ok (r, x)), w') ->
  x = None /\ fwr_Gate r = gate /\ fwr_Worker r = worker /\ fwr_TargetPath r = tp
  /\ fwr_ExpectedBeforeSHA256 r = fws_ExpectedBeforeSHA256 ws
  /\ fwr_ExpectedBeforeSize r = fws_ExpectedBeforeSize ws
  /\ fwr_AfterSHA256 r = fws_AfterSHA256 ws /\ fwr_AfterSHA256 r = sha256_hex (fws_Content ws)
  /\ fwr_AfterSize r = len (fws_Content ws)
  /\ fwr_RestoredSHA256 r = im_SHA256 pre /\ fwr_RestoredSize r = im_SizeBytes pre.
Proof.
  unfold fixtureWriteClaim. intros E. apply bind_ok in E as (lease & w1 & _ & E).
  apply bind_ok in E as (u & w2 & _ & E). apply bind_ok in E as (prea & w3 & _ & E).
  apply bind_ok in E as (u' & w4 & Ew & E). apply target_written in Ew.
  apply bind_ok in E as (d & w5 & Ev & E).
  apply fixtureWriteVerify_inv in Ev as (Hws & Hr & Ha & Haz & Hs & _).
  apply read_image_ok in Hr as (content & Hc & Hsha & Hsz & _). rewrite Ew in Hc.
  injection Hc as <-. unfold same_image in Hs. bool_prop.
  apply fixtureWriteFinish_inv in E as (-> & -> & -> & -> & -> & -> & -> & -> & -> & ->).
  split_and!; congruence.
Qed.

(** Where the decision of a body leads: a denial, or the claim *)
Lemma fixtureWriteBody_inv env os record o gate run version worker w r x w' :
  fixtureWriteBody env os record o gate run version worker w = (Ok (Ok (r, x)), w') ->
  ((exists e, x = Some e) /\ fwr_Decision r = "denied" /\ untouched w w')
  \/ (x = None /\ eg_Status gate = "pass" /\ isFixtureProjectRecord record = true
      /\ missingWorkerCapabilities (w_Capabilities worker) (fwo_AllowedCapabilities o) = []
      /\ may (wd_db w) record "write_artifacts"
      /\ exists target full ws pre,
           may_path (wd_db w) record "read_project" target
           /\ may_path (wd_db w) record "write_code" target
           /\ safeFixtureProjectWritePath os (p_RootPath record) target w = Ok full
           /\ readFixtureProjectFileImage os full w = (Ok pre, w)
           /\ im_SHA256 pre = fws_ExpectedBeforeSHA256 ws
           /\ im_SizeBytes pre = fws_ExpectedBeforeSize ws
           /\ exists task wsa,
                fixtureWriteClaim env os record o gate run version worker task target full ws wsa
                  pre w = (Ok (Ok (r, x)), w')).
Proof.
  unfold fixtureWriteBody, may, may_path. cbv zeta. intros E.
  destruct (String.eqb_spec (eg_Status gate) "pass") as [Hg|Hg]; cbn [negb] in E; [|denied E].
  destruct (isFixtureProjectRecord record) eqn:Hf; cbn [negb] in E; [|denied E].
  destruct (missingWorkerCapabilities _ _) eqn:Em; [|denied E].
  apply bind_ok in E as (db & w1 & Ed & E). injection Ed as <- <-.
  destruct (canProjectCapabilityInTx _ _ "write_artifacts") as [[|] why] eqn:Ec; [|denied E].
  apply bind_ok in E as (next & w1 & En & E). pose proof (next_task_reads En) as ->.
  destruct next as [task|]; [|denied E]. unfold fixtureWriteTask in E. cbv zeta in E.
  apply bind_ok in E as (db & w1 & Ed & E). injection Ed as <- <-.
  destruct (canProjectPathInTx _ _ "read_project" _) as [[|] why2] eqn:Ep; [|denied E].
  destruct (canProjectPathInTx _ _ "write_code" _) as [[|] why3] eqn:Eq; [|denied E].
  apply bind_ok in E as (safe & w1 & Es & E). injection Es as <- <-.
  destruct (safeFixtureProjectWritePath _ _ _ _) as [full|e] eqn:Es; [|denied E].
  unfold fixtureWriteTarget in E. cbv zeta in E.
  apply bind_ok in E as ([ws wsa] & w1 & El & E).
  pose proof (reads_ok _ _ _ _ (loadFixtureProjectWriteSet_reads _ _ _) El) as ->.
  destruct (_ =s _); cbn [negb] in E; [|done]. apply bind_ok in E as (pre & w1 & Er & E).
  pose proof (reads_ok _ _ _ _ (readFixtureProjectFileImage_reads _ _) Er) as ->.
  destruct (_ || negb _) eqn:Eb; [denied E|]. bool_prop. right.
  assert (x = None) as -> by (by apply fixtureWriteClaim_inv in E as (-> & _)).
  split_and!; try done. eexists _, full, ws, pre. rewrite Ep, Eq. split_and!; try done.
  by exists task, wsa.
Qed.

(** ** What a command did: managed generated writes *)

Lemma managedWriteFinish_inv env record o gate run version worker task lease tp d w r x w' :
  managedWriteFinish env record o gate run version worker task lease tp d w
  = (Ok (Ok (r, x)), w') ->
  x = None /\ mgr_Gate r = gate /\ mgr_Worker r = worker /\ mgr_TargetPath r = tp
  /\ mgr_ExpectedBeforeSHA256 r = mgs_ExpectedBeforeSHA256 (md_writeSet d)
  /\ mgr_ExpectedBeforeSize r = mgs_ExpectedBeforeSize (md_writeSet d)
  /\ mgr_AfterSHA256 r = im_SHA256 (md_afterImage d)
  /\ mgr_AfterSize r = im_SizeBytes (md_afterImage d)
  /\ mgr_RestoredSHA256 r = im_SHA256 (md_restoredImage d)
  /\ mgr_RestoredSize r = im_SizeBytes (md_restoredImage d).
Proof. unfold managedWriteFinish. cbv zeta. intros E. step_ok. same_result. by split_and!. Qed.

Lemma managedWriteClaim_inv env os record o gate run version worker task tp fp ws wsa pre w r x w' :
  managedWriteClaim env os record o gate run version worker task tp fp ws wsa pre w
  = (Ok (Ok (r, x)), w') ->
  x = None /\ mgr_Gate r = gate /\ mgr_Worker r = worker /\ mgr_TargetPath r = tp
  /\ mgr_ExpectedBeforeSHA256 r = mgs_ExpectedBeforeSHA256 ws
  /\ mgr_ExpectedBeforeSize r = mgs_ExpectedBeforeSize ws
  /\ mgr_AfterSHA256 r = mgs_AfterSHA256 ws /\ mgr_AfterSHA256 r = sha256_hex (mgs_Content ws)
  /\ mgr_AfterSize r = len (mgs_Content ws)
  /\ mgr_RestoredSHA256 r = im_SHA256 pre /\ mgr_RestoredSize r = im_SizeBytes pre.
Proof.
  unfold managedWriteClaim. intros E. apply bind_ok in E as (lease & w1 & _ & E).
  apply bind_ok in E as (u & w2 & _ & E). apply bind_ok in E as (prea & w3 & _ & E).
  apply bind_ok in E as (u' & w4 & Ew & E). apply target_written in Ew.
  apply bind_ok in E as (d & w5 & Ev & E).
  apply managedWriteVerify_inv in Ev as (Hws & Hr & Ha & Haz & Hs & _).
  apply read_image_ok in Hr as (content & Hc & Hsha & Hsz & _). rewrite Ew in Hc.
  injection Hc as <-. unfold same_image in Hs. bool_prop.
  apply managedWriteFinish_inv in E as (-> & -> & -> & -> & -> & -> & -> & -> & -> & ->).
  split_and!; congruence.
Qed.

(** Where the decision of a body leads: a denial, or the claim *)
Lemma managedWriteBody_inv env os record o gate run version worker w r x w' :
  managedWriteBody env os record o gate run version worker w = (Ok (Ok (r, x)), w') ->
  ((exists e, x = Some e) /\ mgr_Decision r = "denied" /\ untouched w w')
  \/ (x = None /\ eg_Status gate = "pass" /\ isFixtureOrTempProjectRecord record = true
      /\ missingWorkerCapabilities (w_Capabilities worker) (mgo_AllowedCapabilities o) = []
      /\ may (wd_db w) record "write_artifacts" /\ may (wd_db w) record "write_generated"
      /\ exists target full ws pre,
           isManagedGeneratedPath target = true
           /\ may_path (wd_db w) record "read_project" target
           /\ may_path (wd_db w) record "write_generated" target
           /\ safeFixtureProjectWritePath os (p_RootPath record) target w = Ok full
           /\ readFixtureProjectFileImage os full w = (Ok pre, w)
           /\ im_SHA256 pre = mgs_ExpectedBeforeSHA256 ws
           /\ im_SizeBytes pre = mgs_ExpectedBeforeSize ws
           /\ exists task wsa,
                managedWriteClaim env os record o gate run version worker task target full ws wsa
                  pre w = (Ok (Ok (r, x)), w')).
Proof.
  unfold managedWriteBody, may, may_path. cbv zeta. intros E.
  destruct (String.eqb_spec (eg_Status gate) "pass") as [Hg|Hg]; cbn [negb] in E; [|denied E].
  destruct (isFixtureOrTempProjectRecord record) eqn:Hf; cbn [negb] in E; [|denied E].
  destruct (missingWorkerCapabilities _ _) eqn:Em; [|denied E].
  apply bind_ok in E as (db & w1 & Ed & E). injection Ed as <- <-.
  destruct (canProjectCapabilityInTx _ _ "write_artifacts") as [[|] why] eqn:Ec; [|denied E].
  destruct (canProjectCapabilityInTx _ _ "write_generated") as [[|] why'] eqn:Ec'; [|denied E].
  apply bind_ok in E as (next & w1 & En & E). pose proof (next_task_reads En) as ->.
  destruct next as [task|]; [|denied E]. unfold managedWriteTask in E. cbv zeta in E.
  destruct (isManagedGeneratedPath _) eqn:Eg; cbn [negb] in E; [|denied E].
  apply bind_ok in E as (db & w1 & Ed & E). injection Ed as <- <-.
  destruct (canProjectPathInTx _ _ "read_project" _) as [[|] why2] eqn:Ep; [|denied E].
  destruct (canProjectPathInTx _ _ "write_generated" _) as [[|] why3] eqn:Eq; [|denied E].
  apply bind_ok in E as (safe & w1 & Es & E). injection Es as <- <-.
  destruct (safeFixtureProjectWritePath _ _ _ _) as [full|e] eqn:Es; [|denied E].
  unfold managedWriteTarget in E. cbv zeta in E.
  apply bind_ok in E as ([ws wsa] & w1 & El & E).
  pose proof (reads_ok _ _ _ _ (loadManagedGeneratedWriteSet_reads _ _ _) El) as ->.
  destruct (_ =s _); cbn [negb] in E; [|done]. apply bind_ok in E as (pre & w1 & Er & E).
  pose proof (reads_ok _ _ _ _ (readFixtureProjectFileImage_reads _ _) Er) as ->.
  destruct (_ || negb _) eqn:Eb; [denied E|]. bool_prop. right.
  assert (x = None) as -> by (by apply managedWriteClaim_inv in E as (-> & _)).
  split_and!; try done. eexists _, full, ws, pre. rewrite Ep, Eq. split_and!; try done.
  by exists task, wsa.
Qed.

(** ** The target of a write *)

(** What is known of a target [path], and of the file it names, before and
    after a write with the given hashes: the file is strictly below the real
    root, it is no link, and it held what was expected. *)
Definition target_checked (os : WriteOS) (record : Record_) (w : World) (path : string)
    (before after restored : string * Z) : Prop :=
  exists real full content written,
    os_EvalSymlinks (os_read os) (p_RootPath record) = Ok real
    /\ os_IsSymlink os (path_join [real; normalizeProjectRelativePath path]) = false
    /\ os_EvalSymlinks (os_read os) (path_join [real; normalizeProjectRelativePath path]) = Ok full
    /\ strictly_below real full
    /\ wd_files w !! full = Some content /\ os_IsDir (os_read os) full = false
    /\ before = hashBytes content /\ after = hashBytes written /\ restored = hashBytes content.

Lemma checked os record w tp full pre written before after restored :
  safeFixtureProjectWritePath os (p_RootPath record) tp w = Ok full ->
  readFixtureProjectFileImage os full w = (Ok pre, w) ->
  before = (im_SHA256 pre, im_SizeBytes pre) -> after = (sha256_hex written, len written) ->
  restored = (im_SHA256 pre, im_SizeBytes pre) ->
  target_checked os record w tp before after restored.
Proof.
  intros Hs Hi -> -> ->. apply safeFixtureProjectWritePath_inv in Hs as (real & Hr & Hl & He & Hb).
  apply read_image_ok in Hi as (content & Hf & -> & -> & Hd).
  by exists real, full, content, written.
Qed.


Definition all_written : WriteOS := demo_write_os (fun _ => Written).


(** C31. A refused execution leaves nothing but its record: when a read-only
    verification, an approved artifact write, a fixture execution, a fixture
    project write or a managed generated write comes back with an error beside
    its result, the result says it was denied, and
    workers, runs, tasks, leases, attempts, artifacts and files are as they
    were. *)
Theorem refused_execution_untouched env os ac record w w' e :
  (forall o r, VerifyReadOnly env (os_read os) record o w = (Ok (r, Some e), w') ->
     rvr_Decision r = "denied" /\ untouched w w')
  /\ (forall o r, WriteApprovedArtifact env record o w = (Ok (r, Some e), w') ->
     awr_Decision r = "denied" /\ untouched w w')
  /\ (forall o r, ExecuteFixture env ac record o w = (Ok (r, Some e), w') ->
     fxr_Decision r = "denied" /\ untouched w w')
  /\ (forall o r, WriteFixtureProject env os record o w = (Ok (r, Some e), w') ->
     fwr_Decision r = "denied" /\ untouched w w')
  /\ (forall o r, WriteManagedGenerated env os record o w = (Ok (r, Some e), w') ->
     mgr_Decision r = "denied" /\ untouched w w').
Proof.
  split_and!; intros o r E.
  - unfold VerifyReadOnly in E. destruct (_ <=? 0); [done|]. apply transact_committed, gated_inv in E.
    destruct E as (gate & run & version & worker & _ & _ & [E|[_ E]]).
    + by apply load_ret_inv in E as [_ ?].
    + by apply verifyBody_inv in E as [(_ & ? & ?)|(? & _)].
  - unfold WriteApprovedArtifact in E. destruct (_ <=? 0); [done|].
    apply transact_committed, gated_inv in E.
    destruct E as (gate & run & version & worker & _ & _ & [E|[_ E]]).
    + by apply load_ret_inv in E as [_ ?].
    + by apply artifactBody_inv in E as [(_ & ? & ?)|(? & _)].
  - unfold ExecuteFixture in E. destruct (_ <=? 0); [done|]. apply transact_committed, gated_inv in E.
    destruct E as (gate & run & version & worker & _ & _ & [E|[_ E]]).
    + by apply load_ret_inv in E as [_ ?].
    + by apply fixtureBody_inv in E as [(_ & ? & ?)|(? & _)].
  - unfold WriteFixtureProject in E. destruct (_ <=? 0); [done|].
    apply transact_committed, gated_inv in E.
    destruct E as (gate & run & version & worker & _ & _ & [E|[_ E]]).
    + by apply load_ret_inv in E as [_ ?].
    + by apply fixtureWriteBody_inv in E as [(_ & ? & ?)|(? & _)].
  - unfold WriteManagedGenerated in E. destruct (_ <=? 0); [done|].
    apply transact_committed, gated_inv in E.
    destruct E as (gate & run & version & worker & _ & _ & [E|[_ E]]).
    + by apply load_ret_inv in E as [_ ?].
    + by apply managedWriteBody_inv in E as [(_ & ? & ?)|(? & _)].
Qed.

(** The same command for a project that is no fixture *)
Lemma refused_execution_untouched_witness :
  exists r e w', WriteFixtureProject demo_env all_written demo_project demo_fixture_write
      (demo_queued_write "new") = (Ok (r, Some e), w')
    /\ fwr_Message r = "project is not marked as fixture"
    /\ fwr_Decision r = "denied" /\ untouched (demo_queued_write "new") w'.
Proof.
  set (run := WriteFixtureProject demo_env all_written demo_project demo_fixture_write
    (demo_queued_write "new")).
  assert (H : exists r e, fst run = Ok (r, Some e)
                /\ fwr_Message r = "project is not marked as fixture").
  { eexists _, _. split; [vm_compute; reflexivity|]. vm_compute. done. }
  destruct H as (r & e & H & Hm). exists r, e, (snd run).
  assert (E : run = (Ok (r, Some e), snd run)) by (rewrite <- H; apply surjective_pairing).
  pose proof (refused_execution_untouched demo_env all_written (fun _ => None) demo_project
    (demo_queued_write "new") (snd run) e) as (_ & _ & _ & T & _).
  exact (conj E (conj Hm (T demo_fixture_write r E))).
Defined.

(** ** Restored files *)

(** The artifacts of the demonstration project are not its files. *)
Lemma demo_store_apart path :
  store_path demo_env demo_fixture path -> has_prefix "/var/areaflow/demo/" path = true.
Proof.
  intros (rel & p & q & Hp & Hq & ->).
  apply (artifact_relative_contained "demo") in Hp as (ns & Hne & Hns & ->); [|done].
  apply safe_normal in Hq as ->; [|done|by constructor].
  change (expandHome demo_env (trim_space (p_ArtifactRoot demo_fixture)))
    with ("/" +:+ strings_join "/" ["var"; "areaflow"]).
  rewrite join_root; [|done|done|].
  - destruct ns as [|n ns]; [done|]. destruct ns, n; reflexivity.
  - repeat (apply Forall_cons; split; [done|]). done.
Qed.

(** The write of the target succeeds and its rollback fails half way. *)
Definition rollback_fails : WriteOS :=
  demo_write_os (fun site => match site with WriteRollback => WriteFailed (Some "he") | _ => Written end).

Lemma project_files_restored_witness :
  fst (WriteFixtureProject demo_env rollback_fails demo_fixture demo_fixture_write
         (demo_queued_write "new")) = Err (ErrText "rollback fixture project target")
  /\ wd_files (snd (WriteFixtureProject demo_env rollback_fails demo_fixture demo_fixture_write
         (demo_queued_write "new"))) !! "/srv/demo/docs/a.md" = Some "hello".
Proof.
  split; [vm_compute; reflexivity|].
  assert (Hs : ~ store_path demo_env demo_fixture "/srv/demo/docs/a.md").
  { intros H. apply demo_store_apart in H. discriminate. }
  assert (Hf : wd_files (demo_queued_write "new") !! "/srv/demo/docs/a.md" = Some "hello")
    by (vm_compute; reflexivity).
  rewrite <- Hf. apply (proj1 (project_files_restored demo_env rollback_fails demo_fixture
    (demo_queued_write "new") "/srv/demo/docs/a.md" ltac:(done) ltac:(done) Hs)).
Defined.

(** *** What is not restored

    [os.WriteFile] truncates the target when it opens it.  The flag that arms
    the deferred restore is set only after the write returned without error,
    so a write that fails half way (no space, say) is not undone, although the
    preimage is at hand. *)
Definition target_write_fails : WriteOS :=
  demo_write_os (fun site => match site with WriteTarget => WriteFailed (Some "n") | _ => Written end).

Lemma partial_write_not_restored :
  (let run := WriteFixtureProject demo_env target_write_fails demo_fixture demo_fixture_write
                (demo_queued_write "new") in
   fst run = Err (ErrText "write fixture project target")
   /\ wd_files (snd run) !! "/srv/demo/docs/a.md" = Some "n")
  /\ (let run := WriteManagedGenerated demo_env target_write_fails demo_fixture demo_managed_write
                   demo_queued_managed in
      fst run = Err (ErrText "write managed generated target")
      /\ wd_files (snd run) !! "/srv/demo/.areaflow/generated/s.md" = Some "n").
Proof. vm_compute. done. Qed.

(** Content that is not valid UTF-8 is accepted and hashed when a write is
    queued, but [encoding/json] replaces its bytes, so what the worker writes
    never verifies. *)
Lemma invalid_content_never_verifies :
  is_ok (fst (QueueFixtureProjectWrite demo_env demo_fixture "v1"
                (demo_fixture_queue (str_of_bytes [255]))
                (on_site (WCore (CRegisterWorker demo_fixture demo_writer)) demo_writable))) = true
  /\ fst (WriteFixtureProject demo_env all_written demo_fixture demo_fixture_write
            (demo_queued_write (str_of_bytes [255])))
     = Err (ErrText "fixture project write verify failed").
Proof. vm_compute. done. Qed.

(** A managed generated write that is asked for again reports no attempts and
    neither of its write set and preimage artifacts; the fixture project write
    reports all of them. *)
Definition managed_evidence (x : res error managedWrite_outcome) : option (bool * list Z) :=
  match x with
  | Ok (r, None) => Some (mgr_Created r, [at_ID (mgr_CopyAttempt r); at_ID (mgr_VerifyAttempt r);
      at_ID (mgr_RollbackAttempt r); ar_ID (mgr_WriteSetArtifact r); ar_ID (mgr_PreimageArtifact r)])
  | _ => None
  end.
Definition fixture_evidence (x : res error fixtureWrite_outcome) : option (bool * list Z) :=
  match x with
  | Ok (r, None) => Some (fwr_Created r, [at_ID (fwr_CopyAttempt r); at_ID (fwr_VerifyAttempt r);
      at_ID (fwr_RollbackAttempt r); ar_ID (fwr_WriteSetArtifact r); ar_ID (fwr_PreimageArtifact r)])
  | _ => None
  end.

Definition managed_run (w : World) : res error managedWrite_outcome * World :=
  WriteManagedGenerated demo_env all_written demo_fixture demo_managed_write w.
Definition fixture_run (w : World) : res error fixtureWrite_outcome * World :=
  WriteFixtureProject demo_env all_written demo_fixture demo_fixture_write w.

Lemma managed_replay_omits_attempts :
  managed_evidence (fst (managed_run (snd (managed_run demo_queued_managed))))
  = Some (false, [0; 0; 0; 0; 0])
  /\ fixture_evidence (fst (fixture_run (snd (fixture_run (demo_queued_write "new")))))
     = Some (false, [1; 2; 3; 12; 13]).
Proof. vm_compute. done. Qed.
