(* ===== verification/ArtifactSpec.v ===== *)
(** * Artifacts: labels and contents

    The labels of approved artifact writes become parts of file names:
    [normalizeApprovedArtifactLabel] makes any input one safe path component.
    What was written is what is read back, or an error. *)

From stdpp Require Import base list strings numbers gmap.
From Stdlib Require Import ZArith Lia Ascii String.
From S2P Require Import Prelude GoString Sha256 Json Schema Tx FilePath Workflow Runner.
From S2P Require Import ApprovedWrite Demo.

(** ** Well-formed labels *)

(** What the loop produces: label bytes, and dashes that never follow one
    another; [d] says that a dash came before. *)
Fixpoint clean_label (d : bool) (l : list Z) : Prop :=
  match l with
  | [] => True
  | b :: r => if label_byte b then clean_label false r
              else b = 45 /\ d = false /\ clean_label true r
  end.

Lemma label_loop_clean d l : clean_label d (label_loop d l).
Proof.
  revert d. induction l as [|b l IH]; intros d; cbn; [done|].
  destruct (label_byte b) eqn:E; cbn; [by rewrite E|]. destruct d; [apply IH|]. cbn. auto.
Qed.

Lemma clean_label_fixpoint d l : clean_label d l -> label_loop d l = l.
Proof.
  revert d. induction l as [|b l IH]; intros d; cbn; [done|].
  destruct (label_byte b) eqn:E; [intros H; by rewrite IH|].
  intros (-> & -> & H). by rewrite IH.
Qed.

Lemma clean_label_weaken d l : clean_label d l -> clean_label false l.
Proof. destruct l as [|b l]; [done|]. cbn. destruct (label_byte b); intuition. Qed.

Lemma clean_label_suffix d p q : clean_label d (p ++ q) -> clean_label false q.
Proof.
  revert d. induction p as [|b p IH]; intros d; cbn; [apply clean_label_weaken|].
  destruct (label_byte b); [apply IH|]. intros (_ & _ & H). by eapply IH.
Qed.

Lemma clean_label_prefix d p q : clean_label d (p ++ q) -> clean_label d p.
Proof.
  revert d. induction p as [|b p IH]; intros d; cbn; [done|].
  destruct (label_byte b); [apply IH|]. intros (? & ? & H). split_and!; [done..|]. by eapply IH.
Qed.

Definition head_kept (l : list Z) : Prop :=
  match l with b :: _ => dash_dot b = false | [] => True end.

(** Neither end is a dash or a dot. *)
Definition trimmed (l : list Z) : Prop := head_kept l /\ head_kept (rev l).

Lemma trim_dash_l_suffix l : exists p, l = p ++ trim_dash_l l.
Proof.
  induction l as [|b l [p IH]]; [by exists []|]. cbn. destruct (dash_dot b); [|by exists []].
  exists (b :: p). cbn. by f_equal.
Qed.

Lemma trim_dash_l_head l : head_kept (trim_dash_l l).
Proof. induction l as [|b l IH]; [done|]. cbn. by destruct (dash_dot b) eqn:E. Qed.

Lemma trim_dash_l_id l : head_kept l -> trim_dash_l l = l.
Proof. destruct l; [done|]. cbn. by intros ->. Qed.

Lemma head_kept_prefix p q : p <> [] -> head_kept (p ++ q) -> head_kept p.
Proof. by destruct p. Qed.

Lemma trim_dash_infix l : exists p q, l = p ++ trim_dash l ++ q.
Proof.
  unfold trim_dash. destruct (trim_dash_l_suffix l) as [p Hp].
  destruct (trim_dash_l_suffix (rev (trim_dash_l l))) as [q Hq]. exists p, (rev q).
  rewrite <- rev_app_distr, <- Hq, rev_involutive. exact Hp.
Qed.

Lemma trim_dash_trimmed l : trimmed (trim_dash l).
Proof.
  unfold trimmed, trim_dash. rewrite rev_involutive. split; [|apply trim_dash_l_head].
  destruct (trim_dash_l_suffix (rev (trim_dash_l l))) as [q Hq].
  destruct (rev (trim_dash_l (rev (trim_dash_l l)))) as [|x r] eqn:E; [done|].
  rewrite <- E. eapply (head_kept_prefix _ (rev q)); [congruence|].
  rewrite <- rev_app_distr, <- Hq, rev_involutive. apply trim_dash_l_head.
Qed.

Lemma trim_dash_id l : trimmed l -> trim_dash l = l.
Proof.
  intros [H1 H2]. unfold trim_dash. rewrite (trim_dash_l_id l H1), trim_dash_l_id by done.
  apply rev_involutive.
Qed.

Lemma trim_dash_clean l : clean_label false l -> clean_label false (trim_dash l).
Proof.
  intros H. destruct (trim_dash_infix l) as (p & q & E). rewrite E in H.
  eapply clean_label_prefix, clean_label_suffix, H.
Qed.

Lemma trim_dash_length l : (List.length (trim_dash l) <= List.length l)%nat.
Proof.
  destruct (trim_dash_infix l) as (p & q & E). rewrite E at 2. rewrite !length_app. lia.
Qed.

(** A well-formed label *)
Definition label_wf (l : list Z) : Prop :=
  (1 <= List.length l <= 80)%nat /\ clean_label false l /\ trimmed l.

Lemma label_byte_range b : label_byte b = true -> 46 <= b <= 122.
Proof. unfold label_byte, alnum. intros H. lia. Qed.

Lemma clean_label_range d l : clean_label d l -> Forall (fun b => 45 <= b <= 122) l.
Proof.
  revert d. induction l as [|b l IH]; intros d; cbn; [constructor|].
  destruct (label_byte b) eqn:E; intros H; constructor; [| |lia|].
  - apply label_byte_range in E. lia.
  - by eapply IH.
  - destruct H as (_ & _ & H). by eapply IH.
Qed.

Lemma wf_bytes l : clean_label false l -> bytes_of (str_of_bytes l) = l.
Proof.
  intros H. apply bytes_of_str. eapply List.Forall_impl; [|by eapply clean_label_range].
  cbn. lia.
Qed.

Lemma space_width_wf l :
  Forall (fun b => 45 <= b <= 122) l -> space_width l = 0%nat /\ space_width_rev l = 0%nat.
Proof.
  intros H. destruct l as [|a l]; [done|]. inversion H as [|? ? Ha Hl]; subst.
  assert (Es : ascii_space a = false) by (unfold ascii_space; lia).
  cbn. rewrite Es. destruct l as [|b l]; [done|]. inversion Hl as [|? ? Hb Hl']; subst.
  assert (E2 : space2 a b = false /\ space2 b a = false) by (unfold space2; lia).
  destruct E2 as [-> ->]. destruct l as [|c l]; [done|]. inversion Hl' as [|? ? Hc _]; subst.
  assert (E3 : space3 a b c = false /\ space3 c b a = false) by (unfold space3; lia).
  by destruct E3 as [-> ->].
Qed.

Lemma trim_space_wf l :
  clean_label false l -> trim_space (str_of_bytes l) = str_of_bytes l.
Proof.
  intros H. apply trim_space_fixpoint. rewrite wf_bytes by done.
  pose proof (clean_label_range _ _ H) as Hr.
  split; apply space_width_wf; [done|]. by apply Forall_rev.
Qed.

(** The normal form as a byte list *)
Lemma normalize_label_wf label :
  exists l, normalizeApprovedArtifactLabel label = str_of_bytes l /\ label_wf l.
Proof.
  assert (Hd : exists l, "approved-artifact" = str_of_bytes l /\ label_wf l).
  { exists (bytes_of "approved-artifact"). split; [done|]. vm_compute. intuition lia. }
  unfold normalizeApprovedArtifactLabel. cbv zeta. destruct (_ =s ""); [done|].
  set (n := trim_dash (label_loop false (bytes_of (trim_space label)))).
  assert (Hn : clean_label false n) by apply trim_dash_clean, label_loop_clean.
  assert (Ht : trimmed n) by apply trim_dash_trimmed.
  destruct n as [|x n'] eqn:En; [done|]. rewrite <- En in *. clear En.
  set (m := if 80 <? Z.of_nat (List.length n) then trim_dash (take 80 n) else n).
  assert (Hm : clean_label false m /\ trimmed m /\ (List.length m <= 80)%nat).
  { unfold m. destruct (80 <? _) eqn:El; [|bool_prop; split_and!; [done|done|lia]].
    split_and!; [|apply trim_dash_trimmed|].
    - apply trim_dash_clean. rewrite <- (take_drop 80 n) in Hn. by eapply clean_label_prefix.
    - etransitivity; [apply trim_dash_length|]. rewrite length_take. lia. }
  destruct m as [|y m'] eqn:Em; [done|]. exists (y :: m'). destruct Hm as (H1 & H2 & H3).
  split; [done|]. split; [cbn in *; lia|done].
Qed.

Lemma normalize_wf_fixpoint l :
  label_wf l -> normalizeApprovedArtifactLabel (str_of_bytes l) = str_of_bytes l.
Proof.
  intros (Hl & Hc & Ht). unfold normalizeApprovedArtifactLabel. rewrite trim_space_wf by done.
  destruct (String.eqb_spec (str_of_bytes l) "") as [E|_].
  { apply (f_equal bytes_of) in E. rewrite wf_bytes in E by done. subst l. cbn in Hl. lia. }
  rewrite wf_bytes, clean_label_fixpoint, trim_dash_id by done. cbv zeta.
  destruct l as [|b l]; [cbn in Hl; lia|].
  destruct (80 <? _) eqn:E; [bool_prop; lia|done].
Qed.

Lemma slash_byte c : is_slash c = true -> byte_of c = 47.
Proof. unfold is_slash. intros E. apply Ascii.eqb_eq in E as ->. reflexivity. Qed.

Lemma clean_label_no_slash d l : clean_label d l -> ~ In 47 l.
Proof.
  revert d. induction l as [|b l IH]; intros d; cbn; [by auto|].
  destruct (label_byte b) eqn:E.
  - intros H [->|Hin]; [done|]. by eapply IH.
  - intros (-> & _ & H) [?|Hin]; [done|]. by eapply IH.
Qed.

Lemma label_wf_normal l : label_wf l -> normal (str_of_bytes l) = true.
Proof.
  intros (Hl & Hc & [Hh _]). pose proof (wf_bytes l Hc) as Hb. unfold normal.
  apply negb_true_iff, orb_false_iff. split.
  - destruct (String.eqb_spec (str_of_bytes l) "") as [E|_];
      [rewrite E in Hb; subst l; cbn in Hl; lia|].
    destruct (String.eqb_spec (str_of_bytes l) ".") as [E|_];
      [rewrite E in Hb; by subst l|].
    destruct (String.eqb_spec (str_of_bytes l) "..") as [E|_]; [|done].
    rewrite E in Hb. by subst l.
  - unfold has_slash. destruct (existsb is_slash _) eqn:E; [|done]. exfalso.
    apply existsb_exists in E as (c & Hin & Hs). apply (clean_label_no_slash _ _ Hc).
    rewrite <- Hb. unfold bytes_of. rewrite <- (slash_byte c Hs). by apply in_map.
Qed.

(** Whatever label a caller gives, the normalised one is between 1 and 80
    bytes, made of letters, digits, dots, underscores and single dashes, with
    neither a dash nor a dot at its ends: one path component, never [.] or
    [..].  Normalising it again changes nothing. *)
Theorem artifact_label_safe label :
  let n := normalizeApprovedArtifactLabel label in
  label_wf (bytes_of n) /\ 1 <= len n <= 80 /\ normal n = true
  /\ normalizeApprovedArtifactLabel n = n.
Proof.
  intros n. destruct (normalize_label_wf label) as (l & E & Hl). unfold n. rewrite E.
  pose proof (wf_bytes l (proj1 (proj2 Hl))) as Hb.
  split; [by rewrite Hb|]. split; [|split; [by apply label_wf_normal|by apply normalize_wf_fixpoint]].
  assert (Hlen : len (str_of_bytes l) = Z.of_nat (List.length l)).
  { unfold len, str_of_bytes. rewrite <- (length_map chr l). f_equal.
    induction (List.map chr l); cbn; [done|]. by f_equal. }
  rewrite Hlen. destruct Hl as [Hl _]. lia.
Qed.

Example artifact_label_example :
  normalizeApprovedArtifactLabel " ../../etc/passwd -- v1.. " = "etc-passwd-v1".
Proof. vm_compute. done. Qed.

(** ** Contents *)

(** The row records what the store returned. *)
Definition records (a : ArtifactRecord) (st : Stored) : Prop :=
  ar_StorageBackend a = s_Backend st /\ ar_URI a = s_URI st /\ ar_SHA256 a = s_SHA256 st
  /\ ar_SizeBytes a = s_SizeBytes st.

Lemma WriteConfigured_stored env backend root rel content ct w st w' :
  WriteConfigured env backend root rel content ct w = (Ok st, w') ->
  st = stored (s_Backend st) (s_URI st) content ct
  /\ (s_Backend st = "local" /\ wd_files w' !! s_URI st = Some content \/ s_Backend st = "s3").
Proof.
  unfold WriteConfigured. intros E. apply bind_ok in E as (clean & w1 & E1 & E). step_ok.
  destruct (_ || _); [|destruct (_ || _); [|done]].
  - unfold putLocal in E. destruct (_ =s ""); [done|].
    destruct (safeRelativePath clean) as [rel'|e]; [|done]. destruct (env_can_write _ _); [|done].
    injection E as <- <-. split; [done|]. left. split; [done|]. cbn. apply lookup_insert_eq.
  - step_ok. split; [done|by right].
Qed.

Lemma writeProjectArtifact_stored env record rel content ct w st w' :
  writeProjectArtifact env record rel content ct w = (Ok st, w') ->
  st = stored (s_Backend st) (s_URI st) content ct
  /\ (s_Backend st = "local" /\ wd_files w' !! s_URI st = Some content \/ s_Backend st = "s3").
Proof.
  unfold writeProjectArtifact. destruct (_ || _); [done|]. apply WriteConfigured_stored.
Qed.

(** Content that is handed out has the recorded hash and size. *)
Lemma read_content_checked s3_get a w c :
  readArtifactRecordContent s3_get a w = Ok c ->
  (ar_SHA256 a = "" \/ ar_SHA256 a = sha256_hex (cn_Content c))
  /\ (ar_SizeBytes a <= 0 \/ ar_SizeBytes a = len (cn_Content c)).
Proof.
  unfold readArtifactRecordContent. case_match; [done|]. destruct (_ =s ""); [done|].
  destruct (ReadConfigured _ _ _ _) as [content|e]; [|done].
  destruct ((_ <>s "") && _) eqn:E1; [done|]. destruct ((0 <? _) && _) eqn:E2; [done|]. intros [= <-]. cbn.
  apply andb_false_iff in E1, E2.
  split; [destruct E1 as [E|E]|destruct E2 as [E|E]]; bool_prop; auto.
Qed.

Lemma read_content_artifact s3_get a w c :
  readArtifactRecordContent s3_get a w = Ok c -> cn_Artifact c = a.
Proof. unfold readArtifactRecordContent. repeat (case_match; try done). by intros [= <-]. Qed.

(** C35. What the artifact store wrote is what is read back: a row that records
    a stored artifact yields its contents, from the local store whose URI has
    no blanks around it, or from an object store that returns what was put.
    At any later time, whatever happened to the stored bytes, a read either
    fails or returns contents with the recorded hash and size. *)
Theorem artifact_roundtrip env record rel content ct w st w' s3_get a :
  writeProjectArtifact env record rel content ct w = (Ok st, w') ->
  records a st -> trim_space (s_URI st) = s_URI st -> s_URI st <> "" ->
  (s_Backend st = "s3" -> s3_get (s_URI st) = Ok content) ->
  readArtifactRecordContent s3_get a w'
  = Ok (MkContent a content (trim_default "application/octet-stream" (ar_ContentType a)))
  /\ (forall s3_get2 w2 c, readArtifactRecordContent s3_get2 a w2 = Ok c ->
        sha256_hex (cn_Content c) = sha256_hex content
        /\ (0 < len content -> len (cn_Content c) = len content)).
Proof.
  intros Hw (Hb & Hu & Hh & Hz) Ht Hne Hs3.
  apply writeProjectArtifact_stored in Hw as [Est Hst].
  assert (Esha : ar_SHA256 a = sha256_hex content) by (rewrite Hh, Est; done).
  assert (Elen : ar_SizeBytes a = len content) by (rewrite Hz, Est; done).
  split.
  - assert (Hrc : ReadConfigured s3_get (wd_files w') (s_Backend st) (s_URI st) = Ok content).
    { destruct Hst as [[-> Hf]|Hst]; [|rewrite Hst; exact (Hs3 Hst)].
      change (getLocal (wd_files w') (s_URI st) = Ok content). unfold getLocal.
      by rewrite Ht, (proj2 (String.eqb_neq _ _) Hne), Hf. }
    assert (Hk : (s_Backend st <>s "local") && (s_Backend st <>s "s3")
                 && (s_Backend st <>s "object") = false)
      by (destruct Hst as [[-> _]| ->]; reflexivity).
    unfold readArtifactRecordContent.
    rewrite Hb, Hu, Hk, Ht, (proj2 (String.eqb_neq _ _) Hne), Hrc, Esha, Elen, String.eqb_refl,
      Z.eqb_refl. cbn [negb]. by rewrite !andb_false_r.
  - intros s3_get2 w2 c Hr. apply read_content_checked in Hr as [[Hr|Hr] Hl].
    + rewrite Esha in Hr. by apply sha256_hex_nonempty in Hr.
    + split; [congruence|]. intros Hp. destruct Hl as [Hl|Hl]; [lia|congruence].
Qed.

Lemma artifact_roundtrip_witness :
  exists st w' a, writeProjectArtifact demo_env demo_project "reports/a.json" "{}"
      "application/json" demo_world = (Ok st, w')
    /\ s_URI st = "/var/areaflow/demo/reports/a.json"
    /\ readArtifactRecordContent (fun _ => Err ErrNoRows) a w'
       = Ok (MkContent a "{}" "application/json").
Proof.
  set (run := writeProjectArtifact demo_env demo_project "reports/a.json" "{}"
                "application/json" demo_world).
  assert (H : exists st, fst run = Ok st /\ s_Backend st = "local"
                /\ s_URI st = "/var/areaflow/demo/reports/a.json").
  { eexists. vm_compute. split; [reflexivity|]. split; reflexivity. }
  destruct H as (st & H & Hb & Hu).
  assert (E : run = (Ok st, snd run)) by (rewrite <- H; apply surjective_pairing).
  exists st, (snd run), (MkArtifact 1 1 1 0 0 "report" (s_Backend st) (s_URI st) ""
    (s_SHA256 st) (s_SizeBytes st) "application/json" [] 0).
  split; [exact E|]. split; [exact Hu|].
  refine (proj1 (artifact_roundtrip demo_env demo_project "reports/a.json" "{}"
    "application/json" demo_world st (snd run) (fun _ => Err ErrNoRows) _ E _ _ _ _)).
  - repeat split.
  - rewrite Hu. vm_compute. reflexivity.
  - rewrite Hu. discriminate.
  - rewrite Hb. discriminate.
Defined.
