(* ===== verification/ArchiveSpec.v ===== *)
(** * What the archive preview promises

    The preview classifies every listed artifact, counts each class, protects
    what is to be retained, changes nothing but the history, and is handed out
    again for as long as its command is recorded.  The integrity report and
    the content API agree on what the store wrote. *)

From stdpp Require Import base list strings numbers gmap relations.
From Stdlib Require Import ZArith Lia String.
From S2P Require Import Prelude GoString Sha256 Json GoTime Schema Tx Command Worker FilePath RunOnce Runner Gates Workflow.
From S2P Require Import ArtifactIntegrity ArtifactArchive ArtifactSpec Demo Steps StatusSteps System Idempotency.

(** ** Classification *)

(** The artifacts an archive may ever collect are the ephemeral ones. *)
Lemma candidate_ephemeral a :
  ai_ArchiveState (artifactArchivePreviewItem a) = "archive_candidate"
  <-> retentionClassForArtifact a = "ephemeral".
Proof.
  unfold artifactArchivePreviewItem, archive_policy. cbv zeta.
  destruct (String.eqb_spec (retentionClassForArtifact a) "ephemeral") as [->|Hne]; [done|].
  split; [|done]. repeat case_match; simplify_eq; cbn; try done; intros _; simplify_eq.
Qed.

(** Every item is in one of the four states the summary counts. *)
Lemma archive_state_cases a :
  In (ai_ArchiveState (artifactArchivePreviewItem a))
     ["archive_candidate"; "retained"; "metadata_only_reference"; "needs_policy"].
Proof.
  unfold artifactArchivePreviewItem, archive_policy. cbv zeta.
  repeat case_match; simplify_eq; cbn; auto.
Qed.

Definition count_state (st : string) (l : list ArtifactArchivePreviewItem) : Z :=
  Z.of_nat (List.length (List.filter (fun i => ai_ArchiveState i =s st) l)).

Lemma summary_fold l s :
  fold_left summary_add l s
  = MkArchiveSummary (ahs_TotalArtifacts s + Z.of_nat (List.length l))
      (ahs_ArchiveCandidates s + count_state "archive_candidate" l)
      (ahs_RetainedArtifacts s + count_state "retained" l)
      (ahs_ExternalRefs s + count_state "metadata_only_reference" l)
      (ahs_NeedsPolicy s + count_state "needs_policy" l).
Proof.
  revert s. induction l as [|i l IH]; intros s.
  - cbn. rewrite !Z.add_0_r. by destruct s.
  - cbn [fold_left]. rewrite IH. unfold summary_add, bump, count_state.
    cbn [ahs_TotalArtifacts ahs_ArchiveCandidates ahs_RetainedArtifacts ahs_ExternalRefs
         ahs_NeedsPolicy List.filter]. cbv zeta.
    f_equal; [cbn [List.length]; lia|..]; destruct (_ =s _); cbn [List.length]; lia.
Qed.

Lemma count_state_sum l :
  (forall i, In i l -> In (ai_ArchiveState i)
     ["archive_candidate"; "retained"; "metadata_only_reference"; "needs_policy"]) ->
  count_state "archive_candidate" l + count_state "retained" l
  + count_state "metadata_only_reference" l + count_state "needs_policy" l
  = Z.of_nat (List.length l).
Proof.
  unfold count_state. induction l as [|i l IH]; intros H; [done|].
  specialize (IH (fun j Hj => H j (or_intror Hj))). cbn [List.filter List.length].
  destruct (H i (or_introl eq_refl)) as [E|[E|[E|[E|[]]]]]; rewrite <- E;
    cbn -[Z.of_nat Z.add List.filter]; cbn [List.length]; lia.
Qed.

Lemma count_state_pos st l :
  0 < count_state st l <-> exists i, In i l /\ ai_ArchiveState i = st.
Proof.
  unfold count_state. split.
  - intros H. destruct (List.filter _ l) as [|i l'] eqn:E; [cbn in H; lia|].
    exists i. assert (Hi : In i (i :: l')) by by left. rewrite <- E in Hi.
    apply filter_In in Hi as [Hi Es]. split; [done|]. by bool_prop.
  - intros (i & Hi & Es). destruct (List.filter _ l) as [|j l'] eqn:E; [|cbn; lia].
    assert (Hin : In i []) by (rewrite <- E; apply filter_In; by rewrite Es, String.eqb_refl).
    done.
Qed.

(** The preview lists one item per artifact, in order; the counters of its
    summary partition the items; it is ready exactly when no item is an
    external reference or lacks a policy; an item is an archive candidate
    exactly when the retention class of its artifact is [ephemeral]; and
    nothing is written. *)
Theorem archive_preview_exact env record artifacts :
  let r := buildArtifactArchivePreview env record artifacts in
  let s := ah_Summary r in
  ah_Items r = List.map artifactArchivePreviewItem artifacts
  /\ ahs_TotalArtifacts s = Z.of_nat (List.length artifacts)
  /\ ahs_ArchiveCandidates s + ahs_RetainedArtifacts s + ahs_ExternalRefs s + ahs_NeedsPolicy s
     = ahs_TotalArtifacts s
  /\ (ah_Status r = "ready" <-> forall a, In a artifacts ->
        ai_ArchiveState (artifactArchivePreviewItem a) <> "metadata_only_reference"
        /\ ai_ArchiveState (artifactArchivePreviewItem a) <> "needs_policy")
  /\ (forall a, In a artifacts ->
        ai_ArchiveState (artifactArchivePreviewItem a) = "archive_candidate"
        <-> retentionClassForArtifact a = "ephemeral")
  /\ ah_ProjectWriteAttempted r = false /\ ah_StorageWriteAttempted r = false
  /\ ah_ArtifactDeleteAttempted r = false.
Proof.
  cbv zeta. unfold buildArtifactArchivePreview. rewrite summary_fold.
  cbn [ah_Items ah_Summary ah_Status ahs_TotalArtifacts ahs_ArchiveCandidates
       ahs_RetainedArtifacts ahs_ExternalRefs ahs_NeedsPolicy ah_ProjectWriteAttempted
       ah_StorageWriteAttempted ah_ArtifactDeleteAttempted].
  rewrite !Z.add_0_l, length_map. set (items := List.map _ _).
  assert (Hcases : forall i, In i items -> In (ai_ArchiveState i)
     ["archive_candidate"; "retained"; "metadata_only_reference"; "needs_policy"]).
  { intros i Hi. apply in_map_iff in Hi as (a & <- & _). apply archive_state_cases. }
  split_and!; try done.
  - rewrite <- (length_map artifactArchivePreviewItem). by apply count_state_sum.
  - destruct (_ || _) eqn:E.
    + split; [done|]. intros H. exfalso.
      apply orb_true_iff in E as [E|E]; apply Z.ltb_lt, count_state_pos in E as (i & Hi & Es);
        apply in_map_iff in Hi as (a & <- & Ha); by destruct (H a Ha).
    + split; [|done]. intros _ a Ha. bool_prop.
      assert (Hi : In (artifactArchivePreviewItem a) items) by by apply in_map.
      split; intros Es; [assert (0 < count_state "metadata_only_reference" items)
        by (apply count_state_pos; eauto)|assert (0 < count_state "needs_policy" items)
        by (apply count_state_pos; eauto)]; lia.
  - intros a _. apply candidate_ephemeral.
Qed.

(** ** The recorded preview *)

Section Command.
Context (env : Env) (record : Record_) (o : ArtifactArchivePreviewOptions).

(** The artifacts a preview of the database lists *)
Definition previewed (db : DB) : list ArtifactRecord :=
  filterArtifactsByArchivePreviewRetentionClass
    (List.map scanArtifactRecord
       (firstn (Z.to_nat (av_Limit o)) (sort_stable (later ar_CreatedAt ar_ID)
          (table_select (fun a => ar_ProjectID a =? p_ID record) (db_artifacts db)))))
    (av_RetentionClass o).

Definition fresh_preview (db : DB) : ArtifactArchivePreviewResult :=
  set_archive_created (t_next (db_audit_events db)) (av_IdempotencyKey o)
    (set_archive_event (t_next (db_events db))
       (buildArtifactArchivePreview env record (previewed db))).

(** The world with the preview's event and audit event *)
Definition with_preview_history (w : World) : World :=
  let r := buildArtifactArchivePreview env record (previewed (wd_db w)) in
  snd (insertArtifactArchivePreviewAuditEvent env
         (set_archive_event (t_next (db_events (wd_db w))) r) o
         (snd (insertArtifactArchivePreviewEvent env r o w))).

Lemma archivePreviewBody_eq w :
  archivePreviewBody env record o w
  = let r := fresh_preview (wd_db w) in
    (Ok (Ok r), snd (completeCommandRequestResponse env (p_ID record)
                       artifactArchivePreviewCommandType (av_IdempotencyKey o)
                       (artifactArchivePreviewCommandResponse r) (with_preview_history w))).
Proof. reflexivity. Qed.

Lemma with_preview_history_db w :
  let db := wd_db w in let db' := wd_db (with_preview_history w) in
  db_command_requests db' = db_command_requests db /\ db_artifacts db' = db_artifacts db
  /\ wd_files (with_preview_history w) = wd_files w
  /\ exists e a, t_rows (db_events db') = t_rows (db_events db) ++ [e]
       /\ t_rows (db_audit_events db') = t_rows (db_audit_events db) ++ [a].
Proof. split_and!; [done..|]. eexists _, _. split; reflexivity. Qed.

Let k : ckey := (p_ID record, artifactArchivePreviewCommandType, av_IdempotencyKey o).
Let run hash := transact (with_command env (p_ID record) artifactArchivePreviewCommandType
    (av_IdempotencyKey o) hash (replayArchivePreview record (av_IdempotencyKey o))
    (archivePreviewBody env record o)).

(** A fresh preview is recorded with its response. *)
Lemma preview_fresh hash w :
  commands_unique (wd_db w) -> ledger_of (wd_db w) !! k = None ->
  exists w', run hash w = (Ok (fresh_preview (wd_db w)), w')
    /\ ledger_of (wd_db w') !! k
       = Some (MkEntry hash (Some (artifactArchivePreviewCommandResponse (fresh_preview (wd_db w)))))
    /\ db_artifacts (wd_db w') = db_artifacts (wd_db w) /\ wd_files w' = wd_files w
    /\ exists e a, t_rows (db_events (wd_db w')) = t_rows (db_events (wd_db w)) ++ [e]
         /\ t_rows (db_audit_events (wd_db w')) = t_rows (db_audit_events (wd_db w)) ++ [a].
Proof.
  intros Hu Hl. unfold run, transact. rewrite with_command_fresh by done.
  pose proof (reserve_refines env (p_ID record) artifactArchivePreviewCommandType
    (av_IdempotencyKey o) hash w Hu) as Hr. rewrite reserve_eq in Hr. fold k in Hr.
  rewrite Hl in Hr. unfold ledger_reserve in Hr. rewrite Hl in Hr.
  destruct Hr as (w1 & [= <-] & Hlr & Hur).
  set (w0 := set_db _ w) in *. rewrite archivePreviewBody_eq. cbv zeta.
  destruct (with_preview_history_db w0) as (Hc & Ha & Hf & e & a & He & Hau).
  set (wh := with_preview_history w0) in *.
  destruct (complete_refines env (p_ID record) artifactArchivePreviewCommandType
    (av_IdempotencyKey o) (artifactArchivePreviewCommandResponse (fresh_preview (wd_db w0))) wh)
    as (w' & Ew & Hlw & _); [unfold commands_unique; by rewrite Hc|].
  rewrite Ew. cbn [snd]. exists w'. split; [done|]. split.
  - rewrite Hlw. unfold ledger_complete. fold k.
    replace (ledger_of (wd_db wh)) with (ledger_of (wd_db w0)) by (unfold ledger_of; by rewrite Hc).
    by rewrite Hlr, lookup_alter_eq, lookup_insert_eq.
  - unfold completeCommandRequestResponse in Ew. injection Ew as <-.
    split; [exact Ha|]. split; [exact Hf|]. exists e, a. split; [exact He|exact Hau].
Qed.
End Command.

(** ** Reading it back *)

(** What is left of a preview once it went through the ledger: the numbers of
    an item's metadata are floats, the time of the preview is cut to a second,
    and it was not created by this call. *)
Definition recorded_preview (r : ArtifactArchivePreviewResult) : ArtifactArchivePreviewResult :=
  MkArchiveResult (ah_Project r) (ah_Status r) (ah_Mode r) (ah_Summary r)
    (List.map (fun i => MkArchiveItem (ai_ArtifactID i) (ai_ArtifactType i) (ai_StorageBackend i)
                 (ai_URI i) (ai_SourcePath i) (ai_RetentionClass i) (ai_ArchiveState i)
                 (ai_Action i) (ai_Decision i) (ai_Reason i) (jmap_decode (ai_Metadata i)))
       (ah_Items r))
    (ah_EventID r) (ah_AuditEventID r) (ah_IdempotencyKey r) false
    (ah_GeneratedAt r / second_ns * second_ns) false false false.

(** An integer a [float64] holds exactly *)
Definition float_exact (z : Z) : Prop := Z.abs z < 2 ^ 53.

Definition exact_preview (r : ArtifactArchivePreviewResult) : Prop :=
  let s := ah_Summary r in
  float_exact (ahs_TotalArtifacts s) /\ float_exact (ahs_ArchiveCandidates s)
  /\ float_exact (ahs_RetainedArtifacts s) /\ float_exact (ahs_ExternalRefs s)
  /\ float_exact (ahs_NeedsPolicy s)
  /\ Forall (fun i => float_exact (ai_ArtifactID i)) (ah_Items r)
  /\ float_exact (ah_EventID r) /\ float_exact (ah_AuditEventID r)
  /\ 0 <= year_of (ah_GeneratedAt r) <= 9999.

Lemma decoded_int m k z :
  mget k m = Some (JInt z) -> float_exact z -> metadataInt64 (jmap_decode m) k = z.
Proof.
  unfold metadataInt64, float_exact. intros E Hz. rewrite mget_decode, E. cbn.
  rewrite float64_of_Z_small by done. unfold int64_of_float.
  by replace (_ && _) with true by lia.
Qed.

Lemma decoded_str m k s :
  mget k m = Some (JStr s) -> metadataString (jmap_decode m) k = s.
Proof. unfold metadataString. intros E. by rewrite mget_decode, E. Qed.

Lemma items_read_back l :
  Forall (fun i => float_exact (ai_ArtifactID i)) l ->
  artifactArchivePreviewItemsFromAny
    (Some (json_decode (JArr (List.map (fun i => JObj (artifactArchivePreviewItemMap i)) l))))
  = List.map (fun i => MkArchiveItem (ai_ArtifactID i) (ai_ArtifactType i) (ai_StorageBackend i)
                 (ai_URI i) (ai_SourcePath i) (ai_RetentionClass i) (ai_ArchiveState i)
                 (ai_Action i) (ai_Decision i) (ai_Reason i) (jmap_decode (ai_Metadata i))) l.
Proof.
  cbn [json_decode artifactArchivePreviewItemsFromAny]. induction 1 as [|i l Hi _ IH]; [done|].
  cbn [List.map flat_map]. rewrite IH. cbn [json_decode app]. f_equal.
  change (List.map (fun kv => (fst kv, json_decode (snd kv))) (artifactArchivePreviewItemMap i))
    with (jmap_decode (artifactArchivePreviewItemMap i)).
  rewrite (decoded_int _ _ (ai_ArtifactID i)) by done.
  do 9 (erewrite decoded_str by reflexivity). f_equal.
Qed.

Lemma summary_read_back s :
  float_exact (ahs_TotalArtifacts s) -> float_exact (ahs_ArchiveCandidates s) ->
  float_exact (ahs_RetainedArtifacts s) -> float_exact (ahs_ExternalRefs s) ->
  float_exact (ahs_NeedsPolicy s) ->
  artifactArchivePreviewSummaryFromAny
    (Some (json_decode (JObj (artifactArchivePreviewSummaryMap s)))) = s.
Proof.
  intros H1 H2 H3 H4 H5. destruct s as [t c r e n]. cbn in *.
  change (List.map (fun kv => (fst kv, json_decode (snd kv))) ?m) with (jmap_decode m).
  by repeat (erewrite decoded_int; [|reflexivity|eassumption]).
Qed.

Lemma time_read_back m key t :
  mget key m = Some (JStr (format_rfc3339 t)) -> 0 <= year_of t <= 9999 ->
  metadataTime (jmap_decode m) key = t / second_ns * second_ns.
Proof.
  intros E Hy. unfold metadataTime. rewrite (decoded_str _ _ _ E). pose proof (parse_format t Hy) as Hp.
  destruct (String.eqb_spec (format_rfc3339 t) "") as [E0|_]; [by rewrite E0 in Hp|by rewrite Hp].
Qed.

Lemma replay_reads_back record hash key r w :
  ledger_of (wd_db w) !! (p_ID record, artifactArchivePreviewCommandType, key)
  = Some (MkEntry hash (Some (artifactArchivePreviewCommandResponse r))) ->
  ah_Project r = record -> ah_IdempotencyKey r = key -> exact_preview r ->
  replayArchivePreview record key w = (Ok (Ok (recorded_preview r)), w).
Proof.
  intros Hl Hp Hk (H1 & H2 & H3 & H4 & H5 & Hi & He & Ha & Hy).
  unfold replayArchivePreview, loadArtifactArchivePreviewByCommandResponse, bind at 1, bind at 1.
  rewrite load_refines, Hl. cbn [bind ret]. unfold recorded_preview.
  set (m := artifactArchivePreviewCommandResponse r).
  rewrite (decoded_str m "status" (ah_Status r)), (decoded_str m "mode" (ah_Mode r)) by reflexivity.
  rewrite (decoded_int m "event_id" (ah_EventID r)) by done.
  rewrite (decoded_int m "audit_event_id" (ah_AuditEventID r)) by done.
  rewrite (time_read_back m "generated_at" (ah_GeneratedAt r)) by done.
  rewrite !mget_decode.
  change (mget "items" m)
    with (Some (JArr (List.map (fun i => JObj (artifactArchivePreviewItemMap i)) (ah_Items r)))).
  change (mget "summary" m) with (Some (JObj (artifactArchivePreviewSummaryMap (ah_Summary r)))).
  change (json_decode <$> Some ?v) with (Some (json_decode v)).
  rewrite items_read_back, summary_read_back by done. by subst.
Qed.

Lemma reachable_commands_unique w : reachable w -> commands_unique (wd_db w).
Proof.
  apply reachable_inv; [|apply change_commands_unique]. intros w0 (_ & Hc & _).
  unfold commands_unique. rewrite Hc. constructor.
Qed.

Lemma replay_not_created record key w r w' :
  replayArchivePreview record key w = (Ok (Ok r), w') -> ah_Created r = false.
Proof.
  unfold replayArchivePreview, loadArtifactArchivePreviewByCommandResponse. intros E.
  apply bind_ok in E as (r' & w1 & E1 & E). apply ret_ok in E as [E _].
  apply bind_ok in E1 as (m & w2 & _ & E1). apply ret_ok in E1 as [E1 _]. injection E as ->. by rewrite <- E1.
Qed.

Lemma ArtifactArchivePreview_fresh_or_replay env record options w r w' :
  reachable w -> ArtifactArchivePreview env record options w = (Ok r, w') ->
  ah_Created r = true ->
  let o := archivePreviewOptions record options in
  r = fresh_preview env record o (wd_db w)
  /\ ledger_of (wd_db w') !! (p_ID record, artifactArchivePreviewCommandType, av_IdempotencyKey o)
     = Some (MkEntry (artifactArchivePreviewRequestHash record
                        (normalizeArtifactArchivePreviewOptions options))
               (Some (artifactArchivePreviewCommandResponse r)))
  /\ db_artifacts (wd_db w') = db_artifacts (wd_db w) /\ wd_files w' = wd_files w
  /\ exists e a, t_rows (db_events (wd_db w')) = t_rows (db_events (wd_db w)) ++ [e]
       /\ t_rows (db_audit_events (wd_db w')) = t_rows (db_audit_events (wd_db w)) ++ [a].
Proof.
  intros Hr E Hc o. unfold ArtifactArchivePreview in E. fold o in E.
  set (hash := artifactArchivePreviewRequestHash _ _) in *.
  destruct (ledger_of (wd_db w) !! (p_ID record, artifactArchivePreviewCommandType,
                                    av_IdempotencyKey o)) as [e|] eqn:El.
  - exfalso. destruct (String.eqb_spec (en_hash e) hash) as [Eh|Eh].
    + erewrite with_command_replay in E by done. unfold transact in E.
      destruct (replayArchivePreview _ _ w) as [[[r1|e1]|e1] w1] eqn:E1; [|done..].
      apply replay_not_created in E1. congruence.
    + by erewrite with_command_conflict in E.
  - destruct (preview_fresh env record o hash w (reachable_commands_unique w Hr) El)
      as (w2 & E2 & H1 & H2 & H3 & H4).
    rewrite E2 in E. injection E as <- <-. done.
Qed.

(** C38. A preview that was made leaves artifacts and files alone and adds one
    event and one audit event.  From then on, whatever commands run, sending
    the same request again changes nothing and hands the recorded preview out:
    the same status, counters and items, as long as its ids are exact in a
    [float64]. *)
Theorem archive_preview_recorded env env2 record options w r w' w2 :
  reachable w -> ArtifactArchivePreview env record options w = (Ok r, w') ->
  ah_Created r = true -> steps w' w2 ->
  db_artifacts (wd_db w') = db_artifacts (wd_db w) /\ wd_files w' = wd_files w
  /\ (exists e a, t_rows (db_events (wd_db w')) = t_rows (db_events (wd_db w)) ++ [e]
       /\ t_rows (db_audit_events (wd_db w')) = t_rows (db_audit_events (wd_db w)) ++ [a])
  /\ (exact_preview r ->
      ArtifactArchivePreview env2 record options w2 = (Ok (recorded_preview r), w2)).
Proof.
  intros Hr E Hc Hs.
  destruct (ArtifactArchivePreview_fresh_or_replay env record options w r w' Hr E Hc)
    as (Er & Hl & Ha & Hf & Hh). split_and!; [done..|]. intros Hx.
  assert (Hcc : commands_complete (wd_db w')).
  { apply reachable_commands_complete. destruct Hr as (w0 & Hi & Hw). exists w0. split; [done|].
    eapply rtc_r; [exact Hw|]. replace w' with (snd (ArtifactArchivePreview env record options w))
      by (by rewrite E). apply (Step w env (CArchivePreview record options)). }
  destruct (steps_commands_kept _ _ Hs Hcc) as [_ Hsub].
  eapply map_subseteq_spec in Hl; [|exact Hsub].
  unfold ArtifactArchivePreview. erewrite with_command_replay by done.
  unfold transact. by erewrite replay_reads_back by (done || by rewrite Er).
Qed.

(** *** A concrete preview *)

Definition archive_world : World :=
  snd (RunWorkerOnce demo_env demo_project demo_run_once demo_registered).

Lemma exec_run_once env record o w :
  exec env (CRunWorkerOnce record o) w = snd (RunWorkerOnce env record o w).
Proof. reflexivity. Qed.

Lemma archive_world_reachable : reachable archive_world.
Proof.
  exists demo_world. split; [apply initial_demo|]. eapply rtc_r; [apply demo_registered_steps|].
  unfold archive_world. rewrite <- exec_run_once. apply Step.
Qed.

Definition archive_options : ArtifactArchivePreviewOptions := MkArchiveOptions "" 0 "" "" "".

Definition archived : World :=
  snd (ArtifactArchivePreview demo_env demo_project archive_options archive_world).
Definition archived_later : World :=
  snd (RunWorkerOnce demo_later demo_project demo_run_once archived).

Definition archive_states (r : res error ArtifactArchivePreviewResult) : list (Z * string) :=
  match r with
  | Ok r => List.map (fun i => (ai_ArtifactID i, ai_ArchiveState i)) (ah_Items r)
  | Err _ => []
  end.

Lemma archive_preview_recorded_witness :
  List.length (t_rows (db_artifacts (wd_db archived))) = 1%nat
  /\ List.length (t_rows (db_artifacts (wd_db archived_later))) = 2%nat
  /\ exists r, ArtifactArchivePreview demo_later demo_project archive_options archived_later
               = (Ok r, archived_later)
       /\ archive_states (Ok r) = [(1, "archive_candidate")].
Proof.
  split; [vm_compute; reflexivity|]. split; [vm_compute; reflexivity|].
  assert (H : exists r, fst (ArtifactArchivePreview demo_env demo_project archive_options
                               archive_world) = Ok r
              /\ ah_Created r = true /\ exact_preview r
              /\ archive_states (Ok (recorded_preview r)) = [(1, "archive_candidate")]).
  { eexists. split; [vm_compute; reflexivity|]. split; [reflexivity|]. split; [|reflexivity].
    unfold exact_preview, float_exact. cbn. split_and!; try lia.
    - repeat constructor; cbn; lia.
    - vm_compute. discriminate.
    - vm_compute. discriminate. }
  destruct H as (r & E & Hc & Hx & Hst). exists (recorded_preview r). split; [|exact Hst].
  refine (proj2 (proj2 (proj2 (archive_preview_recorded demo_env demo_later demo_project
    archive_options archive_world r archived archived_later archive_world_reachable _ Hc _))) Hx).
  - rewrite <- E. apply surjective_pairing.
  - apply rtc_once. unfold archived_later. rewrite <- exec_run_once. apply Step.
Defined.

(** The filter is applied after the limit: the newest artifact is not of the
    class that was asked for, and the older one that is stays out of a preview
    limited to one.  The read-only preview ignores the limit and lists it. *)
Definition two_artifacts : World :=
  let row id kind time := MkArtifact id 1 1 0 0 kind "local" "/a" "" "" 1 "" [] time in
  MkWorld (set_artifacts (MkTable [row 1 "release_bundle" 1; row 2 "audit_log" 2] 3) demo_db) ∅
    (MkCounters 0 0 0 0).

Definition released (limit : Z) : ArtifactArchivePreviewOptions :=
  MkArchiveOptions "release" limit "" "" "".

Example filter_after_limit :
  archive_states (fst (ArtifactArchivePreview demo_env demo_project (released 1) two_artifacts)) = []
  /\ archive_states (fst (ArtifactArchivePreview demo_env demo_project (released 2) two_artifacts))
     = [(1, "retained")]
  /\ archive_states (fst (ArtifactArchivePreviewReadOnly demo_env demo_project (released 1)
                            two_artifacts)) = [(1, "retained")].
Proof. vm_compute. done. Qed.

(** An artifact under legal hold is reported as one without a policy. *)
Example legal_hold_unknown :
  let a := MkArtifact 1 1 1 0 0 "report" "local" "/a" "" "" 1 ""
             [("retention_class", JStr "legal_hold")] 0 in
  ai_ArchiveState (artifactArchivePreviewItem a) = "needs_policy"
  /\ ai_Reason (artifactArchivePreviewItem a) = "artifact retention class is unknown".
Proof. vm_compute. done. Qed.

(** ** Integrity of what was written *)

(** A row that records what the store wrote passes the integrity check, for
    content that is not empty: from the local store whose URI has no blanks
    around it, or from an object store that returns what was put. *)
Theorem written_artifact_passes env record rel content ct w st w' s3_get a :
  writeProjectArtifact env record rel content ct w = (Ok st, w') ->
  records a st -> trim_space (s_URI st) <> "" -> 0 < len content ->
  (s_Backend st = "s3" -> s3_get (s_URI st) = Ok content) ->
  ic_Status (checkArtifactIntegrity (store_files (wd_files w')) s3_get a) = "pass".
Proof.
  intros Hw (Hb & Hu & Hh & Hz) Hne Hlen Hs3. apply writeProjectArtifact_stored in Hw as [Est Hst].
  assert (Hf : local_failures a (sha256_hex content) (len content) = []
               /\ remote_failures a (sha256_hex content) (len content) = []).
  { rewrite local_failures_nil, remote_failures_nil, Hh, Hz, Est. cbn.
    pose proof (sha256_hex_nonempty content). tauto. }
  destruct Hf as [Hfl Hfr]. unfold checkArtifactIntegrity. rewrite Hb.
  destruct Hst as [[-> Hfile]|Hst].
  - cbn [String.eqb Ascii.eqb Bool.eqb]. unfold checkLocalArtifactIntegrity, store_files.
    rewrite Hu, (proj2 (String.eqb_neq _ _) Hne), Hfile. cbv zeta. by rewrite Hfl.
  - rewrite Hst. cbn [String.eqb Ascii.eqb Bool.eqb orb]. unfold checkRemoteArtifactIntegrity.
    rewrite Hb, Hu, Hst.
    change (ReadConfigured s3_get ∅ "s3" (s_URI st)) with (s3_get (s_URI st)).
    rewrite (Hs3 Hst). cbv zeta. by rewrite Hfr.
Qed.
