(* ===== verification/StatusWrites.v ===== *)
(** * What applying a status projection leaves

    The parts of the apply command one after the other: what putting a captured
    file back restores, what the writer's part and the statements after it
    leave of the files, what they record, when the gate lets a packet through,
    and that the exporter is a writer that touches only the target. *)

From stdpp Require Import base list strings numbers gmap.
From Stdlib Require Import ZArith Lia String.
From S2P Require Import Prelude GoString Sha256 Json JsonText JsonDecode Schema Tx Command Worker FilePath Permission Gates ReadOnlyVerify.
From S2P Require Import StatusFiles StatusShape StatusStore StatusExport StatusProjection StatusApply Steps StatusSteps System ExecutionSpec.

(** ** Files *)

(** The files say what they said: the same everywhere, but for the target,
    which the code compares by hash. *)
Definition restored (target : res string string) (a b : gmap string string) : Prop :=
  match target with
  | Ok path => (forall p, p <> path -> b !! p = a !! p)
               /\ option_map sha256_hex (b !! path) = option_map sha256_hex (a !! path)
  | Err _ => b = a
  end.

Lemma restored_refl target a : restored target a a.
Proof. by destruct target. Qed.
#[export] Hint Resolve restored_refl : core.

(** A writer that, asked for the status file of the project, touches no other *)
Class WritesOnly (os : StatusOS) (record : Record_) (writer : StatusProjectionWriter) : Prop :=
  writes_only : forall snapshot files r files' path p,
    statusProjectionTargetPath os record default_target = Ok path ->
    writer record snapshot default_target files = (r, files') ->
    p <> path -> files' !! p = files !! p.

Definition rollback_failed (e : string) : Prop :=
  exists cause why, e = cause +:+ "; rollback status projection file: " +:+ why.

(** What a capture knows of the files *)
Definition captures (pre : statusProjectionFilePreimage) (path : string)
    (files : gmap string string) : Prop :=
  pm_TargetPath pre = path
  /\ if pm_Exists pre
     then files !! path = Some (pm_Content pre) /\ pm_SHA256 pre = sha256_hex (pm_Content pre)
          /\ pm_SizeBytes pre = len (pm_Content pre)
     else files !! path = None.

Section Files.
Context (os : StatusOS).

Lemma os_stat_missing at_ path files : os_stat os at_ path files = StatMissing -> files !! path = None.
Proof. unfold os_stat. by repeat case_match. Qed.

Lemma os_read_file_ok at_ path files content :
  os_read_file os at_ path files = Ok content -> files !! path = Some content.
Proof. unfold os_read_file. repeat case_match; congruence. Qed.

Lemma capture_ok record targetURI files pre :
  captureStatusProjectionApplyPreimage os record targetURI files = Ok pre ->
  exists path, statusProjectionTargetPath os record targetURI = Ok path
               /\ captures pre path files.
Proof.
  unfold captureStatusProjectionApplyPreimage, captures.
  destruct (statusProjectionTargetPath _ _ _) as [path|]; [|done]. intros H. exists path.
  split; [done|]. destruct (os_stat _ _ _ _) eqn:Es; try done.
  - injection H as <-. cbn. by apply os_stat_missing in Es.
  - destruct (_ <? _); [done|]. destruct (os_read_file _ _ _ _) eqn:Er; [|done].
    injection H as <-. cbn. by apply os_read_file_ok in Er.
Qed.

Lemma replace_ok at_ path content files files' :
  replace_atomically os at_ path content files = (None, files') ->
  files' = <[path := content]> files.
Proof. unfold replace_atomically. destruct (so_Replace _ _ _); congruence. Qed.

(** Putting a captured file back gives the captured files. *)
Lemma put_back pre path files0 files :
  captures pre path files0 -> pm_Exists pre = true ->
  (forall p, p <> path -> files !! p = files0 !! p) ->
  <[path := pm_Content pre]> files = files0.
Proof.
  intros [_ Hc] He Ho. rewrite He in Hc. destruct Hc as [Hc _]. apply map_eq. intros p.
  destruct (decide (p = path)) as [->|Hp].
  - by rewrite lookup_insert_eq.
  - rewrite lookup_insert_ne by done. by apply Ho.
Qed.

Lemma take_away pre path files0 files :
  captures pre path files0 -> pm_Exists pre = false ->
  (forall p, p <> path -> files !! p = files0 !! p) -> delete path files = files0.
Proof.
  intros [_ Hc] He Ho. rewrite He in Hc. apply map_eq. intros p.
  destruct (decide (p = path)) as [->|Hp].
  - by rewrite lookup_delete_eq.
  - rewrite lookup_delete_ne by done. by apply Ho.
Qed.

Lemma rollback_restores pre path files0 hash files files' :
  captures pre path files0 -> (forall p, p <> path -> files !! p = files0 !! p) ->
  rollbackStatusProjectionApplyFile os pre hash files = (None, files') -> files' = files0.
Proof.
  intros Hc Ho. pose proof (proj1 Hc) as Ht.
  unfold rollbackStatusProjectionApplyFile, restoreStatusProjectionPreimageAtomically.
  destruct (_ =s ""); [done|]. destruct (os_read_file _ _ _ _); [|done]. case_match; [done|].
  destruct (pm_Exists pre) eqn:He.
  - destruct (replace_atomically _ _ _ _ _) as [[e|] f] eqn:Er; [done|]. intros [= <-].
    apply replace_ok in Er as ->. rewrite Ht. by apply put_back.
  - unfold os_remove. destruct (so_Remove _ _); [done|]. intros [= <-]. rewrite Ht.
    by eapply take_away.
Qed.

Lemma partial_rollback_restores pre path files0 files v rolledBack files' :
  captures pre path files0 -> (forall p, p <> path -> files !! p = files0 !! p) ->
  rollbackStatusProjectionApplyPartialWriterError os pre files = (v, rolledBack, None, files') ->
  restored (Ok path) files0 files'.
Proof.
  intros Hc Ho. pose proof Hc as [Ht Hf].
  unfold rollbackStatusProjectionApplyPartialWriterError,
    restoreStatusProjectionPreimageAtomically.
  destruct (os_stat _ _ _ _) eqn:Es; try done.
  - apply os_stat_missing in Es. rewrite Ht in Es. destruct (pm_Exists pre) eqn:He; cbn [negb].
    + destruct (replace_atomically _ _ _ _ _) as [[e|] f] eqn:Er; [done|]. intros [= _ _ <-].
      apply replace_ok in Er as ->. rewrite Ht. erewrite put_back by done. apply restored_refl.
    + intros [= _ _ <-]. split; [done|]. by rewrite Es, Hf.
  - destruct (os_read_file _ _ _ _) as [content|] eqn:Er; [|done].
    apply os_read_file_ok in Er. rewrite Ht in Er. cbn [vf_SHA256].
    destruct (pm_Exists pre && _) eqn:Hs.
    + intros [= _ _ <-]. apply andb_true_iff in Hs as [He Hs]. rewrite He in Hf.
      destruct Hf as (Hf & Hsha & _). apply String.eqb_eq in Hs. split; [done|].
      rewrite Er, Hf. cbn [option_map]. congruence.
    + destruct (rollbackStatusProjectionApplyFile _ _ _ _) as [e f] eqn:Eb.
      intros [= _ _ -> <-]. eapply rollback_restores in Eb as ->; [|done..]. apply restored_refl.
Qed.
End Files.

(** ** The writer's part *)

(** A write that counts as done: what was there and what is there now agree
    with the request and with the report. *)
Record wrote_status (os : StatusOS) (record : Record_) (snapshot : Snapshot)
    (gateOptions : StatusProjectionApplyGateOptions) (files0 : gmap string string)
    (pre : statusProjectionFilePreimage) (path content : string)
    (r : ApplyStatusProjectionResult) (files : gmap string string) : Prop := {
  ws_target : statusProjectionTargetPath os record default_target = Ok path;
  ws_preimage : captures pre path files0;
  ws_expected : statusProjectionApplyPreimageRecheckBlockers pre gateOptions = [];
  ws_protected : exists before after,
    captureStatusProjectionProtectedPathFingerprint os ReadPreimage record default_target files0
    = Ok before
    /\ captureStatusProjectionProtectedPathFingerprint os ReadWritten record default_target files
       = Ok after
    /\ fp_Hash before = trim_space (go_ProtectedPathFingerprintSHA256 gateOptions)
    /\ fp_Hash after = fp_Hash before;
  ws_content : files !! path = Some content;
  ws_hash : sr_WriteHash r = sha256_hex content;
  ws_size : sr_WriteSize r = len content;
  ws_stable : verifyStableStatusProjectionJSON os content (sn_SourceHash snapshot) = Ok tt;
  ws_verified : sr_PostWriteVerified r = true /\ sr_ProtectedPathsVerified r = true }.

(** What the writer's part leaves *)
Definition writer_leaves (os : StatusOS) (record : Record_) (snapshot : Snapshot)
    (gateOptions : StatusProjectionApplyGateOptions) (r0 : ApplyStatusProjectionResult)
    (files0 : gmap string string) (out : status_write_outcome) : Prop :=
  let target := statusProjectionTargetPath os record default_target in
  match out with
  | (Err e, files) => rollback_failed e
  | (Ok (pre, true, r), files) =>
      (exists path content,
         wrote_status os record snapshot gateOptions files0 pre path content r files
         /\ (forall p, p <> path -> files !! p = files0 !! p))
      /\ result_allowed r = true /\ sr_SourceHash r = sr_SourceHash r0
  | (Ok (_, false, r), files) => restored target files0 files /\ result_allowed r = false
  end.

Section Writer.
Context (os : StatusOS) (record : Record_) (snapshot : Snapshot) (writer : StatusProjectionWriter).
Context (gateOptions : StatusProjectionApplyGateOptions) (r0 : ApplyStatusProjectionResult).
Context `{!WritesOnly os record writer}.

Lemma denied_not_allowed message blockers r :
  result_allowed (result_denied message blockers r) = false.
Proof. reflexivity. Qed.

Lemma refuse_written_leaves pre path files0 message r files :
  statusProjectionTargetPath os record default_target = Ok path ->
  captures pre path files0 -> (forall p, p <> path -> files !! p = files0 !! p) ->
  result_allowed r = false ->
  writer_leaves os record snapshot gateOptions r0 files0 (refuse_written os pre message r files).
Proof.
  intros Ht Hc Ho Hr. unfold refuse_written.
  destruct (rollbackStatusProjectionApplyFile _ _ _ _) as [[e|] f] eqn:E.
  - by exists message, e.
  - eapply rollback_restores in E as ->; [|done..]. by split.
Qed.

Lemma writer_failed_leaves pre path files0 error_ r files :
  statusProjectionTargetPath os record default_target = Ok path ->
  captures pre path files0 -> (forall p, p <> path -> files !! p = files0 !! p) ->
  writer_leaves os record snapshot gateOptions r0 files0 (writer_failed os pre error_ r files).
Proof.
  intros Ht Hc Ho. unfold writer_failed.
  destruct (rollbackStatusProjectionApplyPartialWriterError os pre files)
    as [[[v b] [e|]] f] eqn:E.
  - exists ("status projection write failed: " +:+ error_), e. by rewrite string_app_assoc.
  - split; [|done]. rewrite Ht. by eapply partial_rollback_restores.
Qed.

Lemma verify_written_ok x expected hash files v :
  verifyStatusProjectionApplyWrittenFile os x expected hash files = (v, None) ->
  exists actual content,
    filepath_abs os expected = Ok actual /\ files !! actual = Some content
    /\ sx_Hash x = sha256_hex content /\ sx_Size x = len content
    /\ verifyStableStatusProjectionJSON os content hash = Ok tt
    /\ v = MkVerification true (sha256_hex content) (len content) true true.
Proof.
  unfold verifyStatusProjectionApplyWrittenFile. destruct (trim_space (sx_Target x) =s ""); [done|].
  destruct (filepath_abs os (sx_Target x)) as [actual|]; [|done].
  destruct (filepath_abs os expected) as [ex|] eqn:Ee; [|done].
  destruct (actual =s ex) eqn:Hx; [|done]. destruct (trim_space (sx_Hash x) =s ""); [done|].
  cbn [negb]. destruct (os_read_file _ _ _ _) as [content|] eqn:Er; [|done]. cbv zeta.
  destruct (sha256_hex content =s sx_Hash x) eqn:Hh; [|done].
  destruct (len content =? sx_Size x) eqn:Hs; [|done]. cbn [negb].
  destruct (verifyStableStatusProjectionJSON _ _ _) as [[]|] eqn:Ev; [|done].
  intros [= <-]. apply os_read_file_ok in Er.
  apply String.eqb_eq in Hx, Hh. apply Z.eqb_eq in Hs. subst ex. exists actual, content.
  by split_and!.
Qed.

Lemma target_path_abs `{!AbsoluteWd os} targetURI path :
  statusProjectionTargetPath os record targetURI = Ok path -> abs_clean path.
Proof.
  unfold statusProjectionTargetPath. destruct (_ =s ""); [done|]. destruct (_ =s ""); [done|].
  destruct (filepath_abs os (p_RootPath record)) as [root|] eqn:Er; [|done].
  destruct (path_rel _ _); [|done]. destruct (_ || _); [done|]. intros [= <-].
  apply path_join_abs_clean. by apply filepath_abs_clean in Er as [].
Qed.

Lemma check_written_leaves `{!AbsoluteWd os} before pre path files0 x r files :
  statusProjectionTargetPath os record default_target = Ok path ->
  captures pre path files0 -> (forall p, p <> path -> files !! p = files0 !! p) ->
  statusProjectionApplyPreimageRecheckBlockers pre gateOptions = [] ->
  captureStatusProjectionProtectedPathFingerprint os ReadPreimage record default_target files0
  = Ok before ->
  fp_Hash before = trim_space (go_ProtectedPathFingerprintSHA256 gateOptions) ->
  result_allowed r = true -> sr_SourceHash r = sr_SourceHash r0 ->
  writer_leaves os record snapshot gateOptions r0 files0
    (check_written os record snapshot default_target (fp_Hash before) pre x r files).
Proof.
  intros Ht Hc Ho He Hb Hp Hr Hs0. unfold check_written. cbv zeta.
  destruct (verifyStatusProjectionApplyWrittenFile _ _ _ _ _) as [v [e|]] eqn:Ev.
  - by eapply refuse_written_leaves.
  - destruct (captureStatusProjectionProtectedPathFingerprint os ReadWritten _ _ _)
      as [after|e] eqn:Ea; [|by eapply refuse_written_leaves].
    destruct (fp_Hash before =s fp_Hash after) eqn:Eq; cbn [negb];
      [|by eapply refuse_written_leaves].
    apply verify_written_ok in Ev as (actual & content & Ha & Hf & Hh & Hs & Hv & ->).
    rewrite (proj1 Hc), (filepath_abs_id os path) in Ha by (by eapply target_path_abs).
    injection Ha as <-. split; [|done]. exists path, content. split; [|done].
    apply String.eqb_eq in Eq. split; try done. by exists before, after.
Qed.

Lemma run_writer_leaves `{!AbsoluteWd os} files0 :
  result_allowed r0 = true ->
  writer_leaves os record snapshot gateOptions r0 files0
    (runStatusProjectionApplyWriter os record snapshot default_target gateOptions writer r0 files0).
Proof.
  intros Hr. unfold runStatusProjectionApplyWriter. cbv zeta.
  destruct (captureStatusProjectionApplyPreimage _ _ _ _) as [pre|e] eqn:Ec; [|by split].
  apply capture_ok in Ec as (path & Ht & Hc).
  destruct (statusProjectionApplyPreimageRecheckBlockers _ _) eqn:Eb; [|by split].
  destruct (captureStatusProjectionProtectedPathFingerprint _ _ _ _ _) as [before|e] eqn:Ep;
    [|by split].
  destruct (trim_space _ =s ""); [by split|]. cbn [orb].
  destruct (fp_Hash before =s _) eqn:Ef; cbn [negb]; [|by split]. apply String.eqb_eq in Ef.
  destruct (writer record snapshot default_target files0) as [[x|e] files] eqn:Ew.
  - eapply check_written_leaves; try done. intros p Hp. by eapply writes_only.
  - eapply writer_failed_leaves; [done..|]. intros p Hp. by eapply writes_only.
Qed.
End Writer.

(** ** The statements after the write *)

(** A statement that cannot fail by itself and leaves the files alone *)
Definition statement {A} (m : M A) : Prop := forall w, exists a db, m w = (Ok a, set_db db w).

Lemma statement_insert {R} `{HasTable R} (mkrow : Z -> R) : statement (insert_row mkrow).
Proof. intros w. by eexists _, _. Qed.

Lemma statement_bind {A B} (m : M A) (k : A -> M B) :
  statement m -> (forall a, statement (k a)) -> statement (bind m k).
Proof.
  intros Hm Hk w. destruct (Hm w) as (a & db & E). destruct (Hk a (set_db db w)) as (b & db' & E').
  exists b, db'. unfold bind. by rewrite E, E'.
Qed.

Lemma statement_ret {A} (a : A) : statement (ret a).
Proof. intros w. exists a, (wd_db w). by destruct w. Qed.

Lemma statement_complete env pid ct key response :
  statement (completeCommandRequestResponse env pid ct key response).
Proof. intros w. by eexists _, _. Qed.

Ltac statement_split :=
  repeat first [ apply statement_insert | apply statement_ret | apply statement_complete
               | apply statement_bind; [|intros ?] ].

(** What the transaction leaves of the files, the write having left [files] *)
Definition recording_leaves (os : StatusOS) (pre : statusProjectionFilePreimage) (wrote : bool)
    (hash : string) {A} (files : gmap string string) (out : res error A * World) : Prop :=
  match out with
  | (Ok _, w) => wd_files w = files
  | (Err e, w) =>
      if wrote then
        (exists cause, rollbackStatusProjectionApplyFile os pre hash files = (None, wd_files w)
                       /\ e = ErrText cause)
        \/ (exists cause, rollback_failed cause /\ e = ErrText cause)
        \/ wd_files w = files
           /\ exists cause, so_DBError os StepCommit = Some cause
                            /\ e = ErrText ("commit status projection apply: " +:+ cause)
      else wd_files w = files
  end.

Lemma step_leaves os pre wrote hash step files {A B} (m : M A) (k : A -> M B) w :
  statement m -> wd_files w = files ->
  (forall a w', wd_files w' = files -> recording_leaves os pre wrote hash files (k a w')) ->
  recording_leaves os pre wrote hash files
    (bind (handlePostWriteError os pre wrote hash step m) k w).
Proof.
  intros Hm <- Hk. unfold bind, handlePostWriteError. destruct (so_DBError os step) as [e|].
  - destruct wrote; [|done].
    destruct (rollbackStatusProjectionApplyFile _ _ _ _) as [[re|] f] eqn:E.
    + right. left. eexists. split; [|reflexivity]. by exists e, re.
    + left. exists e. by rewrite E.
  - destruct (Hm w) as (a & db & ->). by apply Hk.
Qed.

Lemma record_apply_leaves env os record snapshot o pre wrote r w :
  recording_leaves os pre wrote (sr_WriteHash r) (wd_files w)
    (record_apply env os record snapshot o pre wrote r w).
Proof.
  unfold record_apply. cbv zeta.
  repeat (eapply step_leaves; [statement_split|first [reflexivity|eassumption]|intros]).
  destruct (so_DBError os StepCommit) as [e|] eqn:E; [|done]. unfold fail.
  destruct wrote; [|done]. right. right. split; [done|]. by exists e.
Qed.

(** What a run of the command records: a snapshot, a projection that says
    whether the file was written, an event and an audit event, and their ids *)
Record apply_recorded (record : Record_) (snapshot : Snapshot) (r : ApplyStatusProjectionResult)
    (db db' : DB) : Prop := {
  rec_snapshot : exists s,
    t_rows (db_project_status_snapshots db') = t_rows (db_project_status_snapshots db) ++ [s]
    /\ ss_ID s = sr_SnapshotID r /\ ss_SnapshotKind s = "mirror_export"
    /\ ss_SourceHash s = sn_SourceHash snapshot;
  rec_projection : exists p,
    t_rows (db_status_projections db') = t_rows (db_status_projections db) ++ [p]
    /\ sj_ID p = sr_StatusProjectionID r /\ sj_ProjectID p = p_ID record
    /\ sj_SourceHash p = sn_SourceHash snapshot
    /\ sj_WriteState p = (if result_allowed r then "written" else "blocked")
    /\ (is_Some (sj_WrittenAt p) <-> result_allowed r = true);
  rec_event : exists e,
    t_rows (db_events db') = t_rows (db_events db) ++ [e] /\ e_ID e = sr_EventID r
    /\ e_Severity e = (if result_allowed r then "info" else "warn");
  rec_audit : exists a,
    t_rows (db_audit_events db') = t_rows (db_audit_events db) ++ [a]
    /\ au_ID a = sr_AuditEventID r /\ au_Decision a = sr_Decision r;
  rec_created : sr_Created r = true }.

(** A row that was inserted, its contents apart *)
Lemma insert_row_appends {R} `{HasTable R} (mkrow : Z -> R) w r w' :
  insert_row mkrow w = (Ok r, w') ->
  exists id, r = mkrow id
    /\ wd_db w' = tset (MkTable (t_rows (tget (wd_db w)) ++ [r]) (id + 1)) (wd_db w).
Proof. intros E. apply insert_row_ok in E as [-> ->]. by eexists. Qed.

(** Follow the databases of a run back to its first. *)
Ltac rows_of :=
  repeat (cbn; first [ reflexivity
                     | match goal with H : wd_db ?x = _ |- context [wd_db ?x] => rewrite H end ]).

Lemma record_apply_ok env os record snapshot o pre wrote r w x w' :
  record_apply env os record snapshot o pre wrote r w = (Ok x, w') ->
  exists s p e a,
    let r' := result_created a (apo_IdempotencyKey o)
                (result_event e (result_projection p (result_snapshot s r))) in
    x = Ok r' /\ apply_recorded record snapshot r' (wd_db w) (wd_db w').
Proof.
  unfold record_apply. cbv zeta. intros E. step_ok.
  repeat match goal with
  | H : handlePostWriteError _ _ _ _ _ _ _ = (Ok _, _) |- _ => apply handlePostWriteError_ok in H
  end.
  unfold insertStatusProjectionSnapshot, insert_mirror_snapshot, insertAppliedStatusProjection,
    insertStatusProjectionApplyEvent, insertStatusProjectionApplyAuditEvent,
    completeCommandRequestResponse in *. step_ok.
  destruct (so_DBError os StepCommit); [done|]. step_ok.
  repeat match goal with
  | H : insert_row _ _ = (Ok _, _) |- _ => apply insert_row_appends in H as (? & ? & ?)
  | H : update_rows _ _ _ = (Ok _, _) |- _ => apply update_rows_ok in H as [_ H]
  end.
  subst w'. do 4 eexists. split; [reflexivity|].
  split; [| | | |done]; eexists; (split; [rows_of|]).
  - match goal with H : ?x = MkStatusSnapshot _ _ _ _ _ _ _ |- _ => rewrite H end. done.
  - match goal with H : ?x = MkStatusProjection _ _ _ _ _ _ _ _ _ _ _ _ _ |- _ => rewrite H end.
    split_and!; try reflexivity. cbn. destruct (sr_Decision r =s "allowed"); split; intros H'; done.
  - match goal with H : ?x = MkEvent _ _ _ _ _ _ _ _ _ |- _ => rewrite H end. done.
  - match goal with H : ?x = MkAudit _ _ _ _ _ _ _ _ _ _ _ |- _ => rewrite H end. done.
Qed.

(** ** The command *)

Section Command.
Context (env : Env) (os : StatusOS) (record : Record_) (options : ApplyStatusProjectionOptions).
Context (writer : StatusProjectionWriter) (w : World).

Definition apply_request (snapshot : Snapshot) : ApplyStatusProjectionOptions :=
  applyOptions record snapshot (normalizeApplyStatusProjectionOptions env options).

(** The request came to the body of the command: its snapshot, its gate, and
    the world with the key reserved *)
Record fresh_apply (snapshot : Snapshot) (gate : StatusProjectionApplyGate) (w0 : World) : Prop := {
  fresh_snapshot : LatestImportSnapshot (p_ID record) w = (Ok snapshot, w);
  fresh_gate : StatusProjectionApplyGate_ env os record (apo_Gate (apply_request snapshot)) w
               = (Ok gate, w);
  fresh_reserved : exists hash,
    w0 = set_db (reserved env (p_ID record) statusProjectionApplyCommandType
                   (apo_IdempotencyKey (apply_request snapshot)) hash (wd_db w)) w }.

Lemma apply_outcome out w' :
  apo_Writer options = Some writer ->
  ApplyStatusProjection env os record options w = (out, w') ->
  (w' = w /\ forall r, out = Ok r -> sr_Created r = false)
  \/ exists snapshot gate w0 r w1,
       fresh_apply snapshot gate w0
       /\ applyBody env os record snapshot (apply_request snapshot) writer gate w0 = (r, w1)
       /\ match r with
          | Ok x => out = x /\ w' = w1
          | Err e => out = Err e /\ w' = set_db (wd_db w) w1
          end.
Proof.
  intros Hw. unfold ApplyStatusProjection. cbv zeta.
  change (apo_Writer (normalizeApplyStatusProjectionOptions env options)) with (apo_Writer options).
  rewrite Hw. unfold transact, applyTx. unfold bind at 1.
  pose proof (LatestImportSnapshot_reads (p_ID record) w) as Hs.
  destruct (LatestImportSnapshot (p_ID record) w) as [[snapshot|e] ws] eqn:Es; cbn [snd] in Hs;
    subst ws; [|intros [= <- <-]; left; by destruct w].
  fold (apply_request snapshot). unfold bind at 1. set (o := apply_request snapshot).
  pose proof (StatusProjectionApplyGate_reads env os record (apo_Gate o) w) as Hg.
  destruct (StatusProjectionApplyGate_ env os record (apo_Gate o) w) as [[gate|e] wg] eqn:Eg;
    cbn [snd] in Hg; subst wg; [|intros [= <- <-]; left; by destruct w].
  destruct (ledger_of (wd_db w) !! (p_ID record, statusProjectionApplyCommandType,
              apo_IdempotencyKey o)) as [entry|] eqn:El.
  - unfold with_command. unfold bind at 1. rewrite reserve_eq, El.
    destruct (_ =s _); [|intros [= <- <-]; left; by destruct w].
    unfold bind. pose proof (replayApply_reads env record (apo_IdempotencyKey o) w) as Hr.
    destruct (loadStatusProjectionApplyByCommandResponse _ _ _ w) as [[r|e] wr] eqn:Er;
      cbn [snd] in Hr; subst wr; intros [= <- <-]; left; (split; [by destruct w|]); [|done].
    intros r' [= <-]. unfold loadStatusProjectionApplyByCommandResponse in Er. cbv zeta in Er.
    apply bind_ok in Er as (m & w1 & _ & Er). by apply ret_ok in Er as [<- _].
  - rewrite with_command_fresh by done.
    match goal with |- context [applyBody _ _ _ _ _ _ _ ?w0] => set (w0' := w0) end.
    destruct (applyBody _ _ _ _ _ _ _ w0') as [r w1] eqn:Eb. intros E. right.
    exists snapshot, gate, w0', r, w1. split; [|split; [done|]].
    + split; [done|exact Eg|]. by eexists.
    + destruct r; injection E as <- <-; done.
Qed.

(** The checks before the write *)
Lemma evaluate_allowed rows snapshot o gate :
  result_allowed (evaluateStatusProjectionApply env rows record snapshot o gate) = true ->
  evaluateStatusProjectionApply env rows record snapshot o gate
  = apply_allowed env record snapshot o gate
  /\ apo_TargetURI o = default_target /\ ga_Status gate = "pass"
  /\ fst (canWritePathTx rows (p_ID record) "write_status" default_target) = true.
Proof.
  unfold evaluateStatusProjectionApply. cbv zeta.
  destruct (apply_blockers rows record o gate) as [|b l] eqn:Eb; [|done]. intros _.
  split; [done|]. unfold apply_blockers in Eb. apply app_eq_nil in Eb as [E1 Eb].
  apply app_eq_nil in Eb as [E2 E3].
  destruct (apo_TargetURI o =s ".areaflow/status.json") eqn:Et; [|done].
  apply String.eqb_eq in Et. split; [done|].
  destruct (ga_Status gate =s "pass") eqn:Ep; [|done]. apply String.eqb_eq in Ep.
  split; [done|]. rewrite Et in E3. unfold default_target.
  by destruct (canWritePathTx _ _ _ _) as [[] reason].
Qed.
End Command.

(** What the body of the command leaves *)
Definition body_leaves (env : Env) (os : StatusOS) (record : Record_) (snapshot : Snapshot)
    (o : ApplyStatusProjectionOptions) (gate : StatusProjectionApplyGate) (w0 : World)
    (out : res error (res error ApplyStatusProjectionResult) * World) : Prop :=
  let target := statusProjectionTargetPath os record default_target in
  match out with
  | (Ok x, w1) =>
      exists r, x = Ok r /\ apply_recorded record snapshot r (wd_db w0) (wd_db w1)
      /\ if result_allowed r then
           exists pre path content,
             wrote_status os record snapshot (apo_Gate o) (wd_files w0) pre path content r
               (wd_files w1)
             /\ (forall p, p <> path -> wd_files w1 !! p = wd_files w0 !! p)
             /\ sr_SourceHash r = sn_SourceHash snapshot
             /\ apo_TargetURI o = default_target /\ ga_Status gate = "pass"
             /\ fst (canWritePathTx (db_project_permissions (wd_db w0)) (p_ID record)
                       "write_status" default_target) = true
         else restored target (wd_files w0) (wd_files w1)
  | (Err e, w1) =>
      restored target (wd_files w0) (wd_files w1)
      \/ exists cause, e = ErrText cause
           /\ (rollback_failed cause
               \/ exists why, so_DBError os StepCommit = Some why
                              /\ cause = "commit status projection apply: " +:+ why)
  end.

(** Recording keeps what the writer's part reported. *)
Lemma wrote_status_recorded os record snapshot go files0 pre path content r files a key e p s :
  wrote_status os record snapshot go files0 pre path content r files ->
  wrote_status os record snapshot go files0 pre path content
    (result_created a key (result_event e (result_projection p (result_snapshot s r)))) files.
Proof. by intros []; split. Qed.

Lemma writer_recorded env os record snapshot o gate w0 pre wrote r files :
  let r0 := evaluateStatusProjectionApply env (db_project_permissions (wd_db w0)) record snapshot
              o gate in
  result_allowed r0 = true ->
  writer_leaves os record snapshot (apo_Gate o) r0 (wd_files w0) (Ok (pre, wrote, r), files) ->
  body_leaves env os record snapshot o gate w0
    (record_apply env os record snapshot o pre wrote r (set_files files w0)).
Proof.
  intros r0 Ea Hw. pose proof (evaluate_allowed env record _ snapshot o gate Ea) as (Er & Hev).
  pose proof (record_apply_leaves env os record snapshot o pre wrote r (set_files files w0)) as Hl.
  change (wd_files (set_files files w0)) with files in Hl.
  destruct (record_apply _ _ _ _ _ _ _ _ _) as [[x|e] w1] eqn:E; cbn in Hl.
  - apply record_apply_ok in E as (s & p & e & a & -> & Hrec).
    eexists. split; [done|]. split; [exact Hrec|].
    change (result_allowed (result_created _ _ _)) with (result_allowed r). rewrite Hl.
    destruct wrote; cbn in Hw.
    + destruct Hw as ((path & content & Hws & Ho) & Hr & Hsrc). rewrite Hr.
      exists pre, path, content. split; [by apply wrote_status_recorded|]. split; [done|].
      split; [|done]. change (sr_SourceHash r = sn_SourceHash snapshot). rewrite Hsrc. unfold r0.
      by rewrite Er.
    + destruct Hw as [Hw ->]. done.
  - destruct wrote; cbn in Hw; [|left; rewrite Hl; apply Hw].
    destruct Hw as ((path & content & Hws & Ho) & _ & _).
    destruct Hl as [(cause & Hb & ->)|[(cause & Hf & ->)|(Hf & cause & Hc & ->)]].
    + left. rewrite (ws_target _ _ _ _ _ _ _ _ _ _ Hws).
      eapply rollback_restores in Hb as ->; [apply (restored_refl (Ok path))| |done].
      apply (ws_preimage _ _ _ _ _ _ _ _ _ _ Hws).
    + right. exists cause. split; [done|]. by left.
    + right. eexists. split; [done|]. right. by exists cause.
Qed.

Lemma applyBody_leaves env os record snapshot o writer gate w0
    `{!WritesOnly os record writer, !AbsoluteWd os} :
  body_leaves env os record snapshot o gate w0
    (applyBody env os record snapshot o writer gate w0).
Proof.
  unfold applyBody, bind at 1, get_db. cbv zeta.
  set (rows := db_project_permissions (wd_db w0)).
  set (r0 := evaluateStatusProjectionApply env rows record snapshot o gate).
  unfold bind at 1, run_writer. destruct (result_allowed r0) eqn:Ea.
  - destruct (evaluate_allowed env record rows snapshot o gate Ea) as (Er & Ht & Hg & Hp).
    fold r0 in Er. rewrite Ht.
    pose proof (run_writer_leaves os record snapshot writer (apo_Gate o) r0 (wd_files w0) Ea) as Hw.
    destruct (runStatusProjectionApplyWriter _ _ _ _ _ _ _ _) as [[[[pre wrote] r]|e] files].
    + by apply writer_recorded.
    + right. by exists e; split; [|left].
  - pose proof (record_apply_leaves env os record snapshot o no_preimage false r0 w0) as Hl.
    destruct (record_apply _ _ _ _ _ _ _ _ _) as [[x|e] w1] eqn:E; cbn in Hl.
    + apply record_apply_ok in E as (s & p & e & a & -> & Hrec).
      eexists. split; [done|]. split; [done|].
      change (result_allowed (result_created _ _ _)) with (result_allowed r0).
      rewrite Ea, Hl. apply restored_refl.
    + left. rewrite Hl. apply restored_refl.
Qed.

(** ** The exporter *)

Section Exporter.
Context (env : Env) (os : StatusOS) (record : Record_).

(** What an export leaves: nothing changed, or the target holds the document *)
Lemma WriteWithResult_leaves snapshot relPath files out files' :
  WriteWithResult os env record snapshot relPath files = (out, files') ->
  files' = files
  \/ exists target root content,
       statusTargetPath os record relPath = Ok (target, root)
       /\ marshalStableExportDocument os (exportDocument env record snapshot relPath) = Ok content
       /\ files' = <[target := content]> files
       /\ out = Ok (MkWriteResult target (sha256_hex content) (len content) true true true).
Proof.
  unfold WriteWithResult. destruct (statusTargetPath os record relPath) as [[target root]|];
    [|intros [= _ <-]; by left].
  destruct (so_MkdirAll os _); [intros [= _ <-]; by left|].
  destruct (ensureStatusTargetParentContained _ _ _); [|intros [= _ <-]; by left]. cbv zeta.
  destruct (marshalStableExportDocument _ _) as [content|] eqn:Em; [|intros [= _ <-]; by left].
  destruct (unchanged _ _ _ _); [intros [= _ <-]; by left|]. unfold replace_atomically.
  destruct (so_Replace os _ _); intros [= <- <-]; [by left|]. right.
  by exists target, root, content.
Qed.

(** The exporter and the apply command find the same target. *)
Lemma same_target `{!AbsoluteWd os} path target root :
  statusProjectionTargetPath os record default_target = Ok path ->
  statusTargetPath os record default_target = Ok (target, root) -> target = path.
Proof.
  unfold statusProjectionTargetPath, statusTargetPath, is_blank.
  destruct (trim_space _ =s ""); [done|].
  change (normalizeProjectRelativePath default_target) with default_target.
  change (path_clean (trim_space default_target)) with default_target.
  change (default_target =s "") with false. change (default_target =s ".") with false.
  change (is_abs default_target) with false. cbn [orb]. cbv zeta iota.
  destruct (filepath_abs os (p_RootPath record)) as [r|] eqn:Er; [|done].
  apply filepath_abs_clean in Er as [Ha _]; [|done].
  rewrite filepath_abs_id by (by apply path_join_abs_clean).
  destruct (path_rel _ _); [|done]. destruct (_ || is_abs _); [done|]. intros [= <-].
  destruct (_ || _); [done|]. by intros [= <- _].
Qed.

#[global] Instance exporter_writes_only `{!AbsoluteWd os} :
  WritesOnly os record (statusProjectionWriter env os).
Proof.
  intros snapshot files r files' path p Hp E Hne. unfold statusProjectionWriter in E.
  destruct (WriteWithResult _ _ _ _ _ _) as [out f] eqn:Ew.
  assert (f = files') as -> by (destruct out; congruence).
  apply WriteWithResult_leaves in Ew as [->|(target & root & content & Ht & _ & -> & _)]; [done|].
  rewrite (same_target path target root) by done. by rewrite lookup_insert_ne.
Qed.
End Exporter.

(** ** The gate *)

(** The packet states the value, which is not empty. *)
Definition states (given expected : string) : Prop := given <> "" /\ given = expected.

(** What a packet must say for the gate to pass, given the preview *)
Record packet_matches (a : StatusProjectionAuthorizationPreview)
    (o : StatusProjectionApplyGateOptions) : Prop := {
  pk_preview : sv_Status a <> "blocked";
  pk_target : sv_TargetKind a = "project_status_json";
  pk_permission : sm_Allowed (sv_Permission a) = true;
  pk_schema : states (go_SchemaURI o) (sv_SchemaURI a);
  pk_source : states (go_SourceHash o) (sv_SourceHash a);
  pk_validator : states (go_ValidatorPreflight o) (sv_ValidatorPreflight a);
  pk_check : states (go_ProtectedPathCheck o) (statusProjectionProtectedPathCheck (sv_Project a));
  pk_fingerprint :
    states (go_ProtectedPathFingerprintSHA256 o) (sv_ProtectedPathFingerprintSHA256 a);
  pk_schema_status :
    states (go_AcceptedPreimageSchemaStatus o) (sq_SchemaStatus (sv_Preimage a));
  pk_rollback :
    states (go_RollbackAction o) (statusProjectionRollbackAction (sv_Preimage a));
  pk_exists : go_ExpectedBeforeExists o = Some (sq_Exists (sv_Preimage a));
  pk_size : go_ExpectedBeforeSizeBytes o = Some (sq_SizeBytes (sv_Preimage a));
  pk_sha : if sq_Exists (sv_Preimage a)
           then states (go_ExpectedBeforeSHA256 o) (sq_SHA256 (sv_Preimage a))
           else go_ExpectedBeforeSHA256 o = "";
  pk_approval : go_ExplicitApproval o = true;
  pk_actor : go_ApprovalActor o <> "";
  pk_reason : if gate_phrase a =s "" then go_ApprovalReason o <> ""
              else go_ApprovalReason o = gate_phrase a }.

Lemma item_pass_iff key category pass message expected actual blockers :
  item_pass (statusProjectionApplyGateItem key category pass message expected actual blockers)
  = pass.
Proof. by destruct pass. Qed.

Lemma required_pass key category actual expected message :
  item_pass (statusProjectionRequiredStringItem key category actual expected message) = true
  <-> states actual expected.
Proof.
  unfold statusProjectionRequiredStringItem, states. rewrite item_pass_iff, andb_true_iff.
  by rewrite negb_true_iff, String.eqb_neq, String.eqb_eq.
Qed.

Lemma nonempty_pass key category actual message :
  item_pass (statusProjectionNonEmptyItem key category actual message) = true <-> actual <> "".
Proof.
  unfold statusProjectionNonEmptyItem. by rewrite item_pass_iff, negb_true_iff, String.eqb_neq.
Qed.

Lemma bool_pass key actual expected :
  item_pass (statusProjectionExpectedBoolItem key actual expected) = true
  <-> actual = Some expected.
Proof.
  unfold statusProjectionExpectedBoolItem. rewrite item_pass_iff.
  destruct actual as [b|]; [|done]. rewrite eqb_true_iff. split; [by intros ->|by intros [= ->]].
Qed.

Lemma int64_pass key actual expected :
  item_pass (statusProjectionExpectedInt64Item key actual expected) = true
  <-> actual = Some expected.
Proof.
  unfold statusProjectionExpectedInt64Item. rewrite item_pass_iff.
  destruct actual as [z|]; [|done]. rewrite Z.eqb_eq. split; [by intros ->|by intros [= ->]].
Qed.

Lemma sha_pass key actual preimage :
  item_pass (statusProjectionExpectedSHAItem key actual preimage) = true
  <-> if sq_Exists preimage then states actual (sq_SHA256 preimage) else actual = "".
Proof.
  unfold statusProjectionExpectedSHAItem. destruct (sq_Exists preimage); cbn [negb].
  - apply required_pass.
  - by rewrite item_pass_iff, String.eqb_eq.
Qed.

Lemma reason_pass a o :
  item_pass (approval_reason_item a o) = true
  <-> if gate_phrase a =s "" then go_ApprovalReason o <> ""
      else go_ApprovalReason o = gate_phrase a.
Proof.
  unfold approval_reason_item. destruct (gate_phrase a =s "") eqn:E; cbn [negb].
  - apply nonempty_pass.
  - rewrite required_pass. unfold states. apply String.eqb_neq in E.
    split; [by intros []|intros ->; by split].
Qed.

Lemma gate_items_pass a o :
  forallb item_pass (status_gate_items a o) = true <-> packet_matches a o.
Proof.
  unfold status_gate_items. cbv zeta. cbn [forallb]. rewrite !andb_true_iff.
  rewrite !required_pass, !nonempty_pass, bool_pass, int64_pass, sha_pass, reason_pass.
  rewrite !item_pass_iff, negb_true_iff, String.eqb_neq, String.eqb_eq.
  split; [intros; destruct_and!; by split|intros []; by split_and!].
Qed.

Lemma status_gate_pass env a options :
  ga_Status (BuildStatusProjectionApplyGate env a options) = "pass"
  <-> packet_matches a (normalizeStatusProjectionApplyGateOptions env options).
Proof.
  rewrite <- gate_items_pass. unfold BuildStatusProjectionApplyGate. cbv zeta.
  cbn [ga_Status]. by destruct (forallb _ _).
Qed.
