(* ===== verification/StatusSpec.v ===== *)
(** * Status projections

    What the apply command promises: it writes only what the packet of the
    request, the gate and the permissions agree on, it reports what it did to
    the file, and whatever it refuses it leaves as it was.  The packet a preview
    makes for its reader passes the gate once it is approved. *)

From stdpp Require Import base list strings numbers gmap.
From Stdlib Require Import ZArith Lia String.
From S2P Require Import Prelude GoString Sha256 Json JsonText JsonDecode Schema Tx Command Worker FilePath Permission Gates ReadOnlyVerify.
From S2P Require Import StatusFiles StatusShape StatusStore StatusExport StatusProjection StatusApply ExecutionSpec StatusWrites Demo.

(** ** What the command promises *)

(** C6. The answer of the apply command says what happened to the project.  An
    answer that the status was written holds the hash and size of the content
    the target now has, which passed the check of its shape and source, and no
    other file changed.  Any other answer, a replay or a refusal, leaves every
    file as it was; an error does so too, unless it says that putting the
    captured file back failed or that the commit failed. *)
Theorem status_apply_truthful env os record options writer w out w' :
  apo_Writer options = Some writer -> WritesOnly os record writer -> AbsoluteWd os ->
  ApplyStatusProjection env os record options w = (out, w') ->
  let target := statusProjectionTargetPath os record default_target in
  match out with
  | Ok r =>
      if sr_Created r && result_allowed r then
        exists path content,
          target = Ok path /\ wd_files w' !! path = Some content
          /\ sr_WriteHash r = sha256_hex content /\ sr_WriteSize r = len content
          /\ verifyStableStatusProjectionJSON os content (sr_SourceHash r) = Ok tt
          /\ forall p, p <> path -> wd_files w' !! p = wd_files w !! p
      else restored target (wd_files w) (wd_files w')
  | Err e =>
      wd_db w' = wd_db w
      /\ (restored target (wd_files w) (wd_files w')
          \/ exists cause, e = ErrText cause
               /\ (rollback_failed cause
                   \/ exists why, so_DBError os StepCommit = Some why
                                  /\ cause = "commit status projection apply: " +:+ why))
  end.
Proof.
  intros Hw Hwo Hwd E. cbv zeta.
  apply (apply_outcome env os record options writer) in E
    as [[-> Hr]|(snapshot & gate & w0 & r & w1 & Hf & Eb & Eo)]; [| |done].
  - destruct out as [r|e]; [|split; [done|left; apply restored_refl]].
    rewrite (Hr r) by done. apply restored_refl.
  - pose proof (applyBody_leaves env os record snapshot (apply_request env record options snapshot)
                  writer gate w0) as Hl. rewrite Eb in Hl.
    destruct (fresh_reserved _ _ _ _ _ _ _ _ Hf) as [hash ->].
    destruct r as [x|e]; destruct Eo as [-> ->]; [|by split].
    destruct Hl as (r & -> & Hrec & Hr). rewrite (rec_created _ _ _ _ _ Hrec). cbn [andb].
    destruct (result_allowed r); [|done].
    destruct Hr as (pre & path & content & Hws & Ho & Hsrc & _). exists path, content.
    destruct Hws. rewrite Hsrc. by split_and!.
Qed.

(** C36. The gate lets a packet through exactly when the preview is not blocked,
    the target is the status file, the project may write it, and the packet
    repeats the preview: its schema, source, checks, fingerprint, rollback and
    what was at the target, with an explicit approval by a named actor for the
    reason the project demands.  Its three verdicts agree. *)
Theorem status_gate_exact env a options :
  let gate := BuildStatusProjectionApplyGate env a options in
  (ga_Status gate = "pass"
   <-> packet_matches a (normalizeStatusProjectionApplyGateOptions env options))
  /\ (ga_Decision gate = "go" <-> ga_Status gate = "pass")
  /\ (ga_ApplyCommandEligible gate = true <-> ga_Status gate = "pass").
Proof.
  cbv zeta. split; [apply status_gate_pass|]. unfold BuildStatusProjectionApplyGate. cbv zeta.
  cbn [ga_Status ga_Decision ga_ApplyCommandEligible]. by destruct (forallb _ _).
Qed.

(** ** The packet preview *)

(** The value is there and trimming leaves it alone, so a packet can repeat it. *)
Definition repeatable (s : string) : Prop := s <> "" /\ trim_space s = s.

Lemma states_trim s : states (trim_space s) s <-> repeatable s.
Proof. unfold states, repeatable. split; [intros [Hn E]; by rewrite E in Hn|intros [Hn ->]; done]. Qed.

(** What the packet made of a preview repeats *)
Definition repeated (a : StatusProjectionAuthorizationPreview) : list string :=
  [sv_SchemaURI a; sv_SourceHash a; sv_ValidatorPreflight a;
   statusProjectionProtectedPathCheck (sv_Project a); sv_ProtectedPathFingerprintSHA256 a;
   sq_SchemaStatus (sv_Preimage a); statusProjectionRollbackAction (sv_Preimage a)].

Definition approved (a : StatusProjectionAuthorizationPreview)
    (o : StatusProjectionApplyPacketPreviewOptions) : Prop :=
  kpo_ExplicitApproval o = true /\ trim_space (kpo_ApprovalActor o) <> ""
  /\ (if gate_phrase a =s "" then trim_space (kpo_ApprovalReason o) <> ""
      else trim_space (kpo_ApprovalReason o) = gate_phrase a).

#[local] Arguments trim_space : simpl never.

Lemma made_packet_matches env a o at_ :
  packet_matches a (normalizeStatusProjectionApplyGateOptions env
    (statusProjectionApplyGateOptionsFromPacket
       (statusProjectionApplyPacketFromAuthorization a
          (normalizeStatusProjectionApplyPacketPreviewOptions env o)) at_))
  <-> sv_Status a <> "blocked" /\ sv_TargetKind a = "project_status_json"
      /\ sm_Allowed (sv_Permission a) = true /\ Forall repeatable (repeated a)
      /\ (if sq_Exists (sv_Preimage a) then repeatable (sq_SHA256 (sv_Preimage a))
          else trim_space (sq_SHA256 (sv_Preimage a)) = "")
      /\ approved a o.
Proof.
  unfold repeated, approved.
  rewrite !Forall_cons, <- !states_trim, <- (trim_space_idemp (kpo_ApprovalActor o)),
    <- (trim_space_idemp (kpo_ApprovalReason o)).
  split.
  - intros []. cbn in *. destruct (sq_Exists _); split_and!; auto; by apply states_trim.
  - intros H. destruct_and!. split; cbn; try done. destruct (sq_Exists _); [by apply states_trim|done].
Qed.

(** The packet a preview writes for its reader passes the gate of that preview
    as soon as it is approved, and only then, unless the preview is blocked,
    the write is not allowed, or something the packet repeats is missing (a
    project without a snapshot has no source hash). *)
Theorem packet_ready_exact env a options :
  let k := BuildStatusProjectionApplyPacketPreview env a options in
  (kp_Status k = "ready"
   <-> sv_Status a <> "blocked" /\ sv_TargetKind a = "project_status_json"
       /\ sm_Allowed (sv_Permission a) = true /\ Forall repeatable (repeated a)
       /\ (if sq_Exists (sv_Preimage a) then repeatable (sq_SHA256 (sv_Preimage a))
           else trim_space (sq_SHA256 (sv_Preimage a)) = "")
       /\ approved a options)
  /\ (kp_WouldApply k = true <-> kp_Status k = "ready")
  /\ (kp_Status k = "ready" -> kp_Blockers k = []).
Proof.
  cbv zeta. unfold BuildStatusProjectionApplyPacketPreview, packet_verdict. cbv zeta.
  cbn [kp_Status kp_WouldApply kp_Blockers].
  rewrite <- (made_packet_matches env a options
    (kpo_GeneratedAt (normalizeStatusProjectionApplyPacketPreviewOptions env options))),
    <- (status_gate_pass env).
  unfold BuildStatusProjectionApplyGate. cbv zeta. cbn [ga_ApplyCommandEligible ga_Status].
  destruct (forallb _ _); [done|]. by destruct (_ && _).
Qed.

Lemma gate_of_preview env os record o w gate :
  StatusProjectionApplyGate_ env os record o w = (Ok gate, w) ->
  let o' := normalizeStatusProjectionApplyGateOptions env o in
  exists a,
    StatusProjectionAuthorizationPreview_ env os record
      (MkPreviewOptions (go_TargetURI o') (go_GeneratedAt o')) w = (Ok a, w)
    /\ gate = BuildStatusProjectionApplyGate env a o'.
Proof.
  cbv zeta. unfold StatusProjectionApplyGate_. intros E. apply bind_ok in E as (a & w1 & Ea & E).
  apply ret_ok in E as [<- ->]. by exists a.
Qed.

Lemma normalized_target env o :
  go_TargetURI o = default_target ->
  go_TargetURI (normalizeStatusProjectionApplyGateOptions env o) = default_target.
Proof.
  intros H. unfold normalizeStatusProjectionApplyGateOptions. cbn [go_TargetURI]. by rewrite H.
Qed.

(** C7. A status that was written was authorized: the packet of the request
    matches a preview of the project as it was when the request came, the
    permissions allow the write, the file and the protected paths were those of
    the packet, the protected paths were the same after the write, and one
    snapshot, one projection ([written]), one event and one audit event record
    it. *)
Theorem status_apply_authorized env os record options writer w r w' :
  apo_Writer options = Some writer -> WritesOnly os record writer -> AbsoluteWd os ->
  ApplyStatusProjection env os record options w = (Ok r, w') ->
  sr_Created r = true -> result_allowed r = true ->
  let packet := apo_Gate (normalizeApplyStatusProjectionOptions env options) in
  let stated := normalizeStatusProjectionApplyGateOptions env packet in
  exists snapshot a pre path content,
    LatestImportSnapshot (p_ID record) w = (Ok snapshot, w)
    /\ StatusProjectionAuthorizationPreview_ env os record
         (MkPreviewOptions default_target (go_GeneratedAt stated)) w = (Ok a, w)
    /\ packet_matches a (normalizeStatusProjectionApplyGateOptions env stated)
    /\ fst (canWritePathTx (db_project_permissions (wd_db w)) (p_ID record) "write_status"
              default_target) = true
    /\ wrote_status os record snapshot packet (wd_files w) pre path content r (wd_files w')
    /\ apply_recorded record snapshot r (wd_db w) (wd_db w').
Proof.
  intros Hw Hwo Hwd E Hc Hr. cbv zeta.
  apply (apply_outcome env os record options writer) in E
    as [[-> H]|(snapshot & gate & w0 & x & w1 & Hf & Eb & Eo)]; [| |done].
  { by rewrite (H r) in Hc. }
  destruct x as [x|e]; [destruct Eo as [<- ->]|by destruct Eo].
  pose proof (applyBody_leaves env os record snapshot (apply_request env record options snapshot)
                writer gate w0) as Hl. rewrite Eb in Hl.
  destruct (fresh_reserved _ _ _ _ _ _ _ _ Hf) as [hash ->].
  destruct Hl as (r' & [= <-] & Hrec & Hl). rewrite Hr in Hl.
  destruct Hl as (pre & path & content & Hws & _ & _ & Ht & Hg & Hp).
  pose proof (fresh_gate _ _ _ _ _ _ _ _ Hf) as Hgate.
  apply gate_of_preview in Hgate as (a & Ea & ->). cbv zeta in Ea.
  change (apo_TargetURI (apply_request env record options snapshot))
    with (go_TargetURI (apo_Gate (normalizeApplyStatusProjectionOptions env options))) in Ht.
  change (apo_Gate (apply_request env record options snapshot))
    with (apo_Gate (normalizeApplyStatusProjectionOptions env options)) in *.
  rewrite (normalized_target env _ Ht) in Ea.
  exists snapshot, a, pre, path, content. split; [apply (fresh_snapshot _ _ _ _ _ _ _ _ Hf)|].
  split; [exact Ea|]. split; [by apply status_gate_pass|]. split; [exact Hp|].
  split; [exact Hws|]. by destruct Hrec; split.
Qed.

(** ** A concrete project

    Its status may be written, and it has one import snapshot. *)

Definition status_os : StatusOS :=
  MkStatusOS (Ok "/home/af") Ok (fun _ => false) (fun _ _ => None) (fun _ _ => None)
    (fun _ => None) (fun _ _ => None) (fun _ => None) (fun _ _ => LMissing) (fun l => l)
    (fun _ => "invalid character") (fun _ => None).

#[export] Instance status_os_wd : AbsoluteWd status_os.
Proof. by intros wd [= <-]. Qed.

Definition status_summary : jmap :=
  mk [("cutover_phase", JStr "read_only_shim");
      ("versions", JArr [JObj [("display_label", JStr "v1"); ("lifecycle_status", JStr "active")]])].

Definition status_db : DB :=
  set_project_permissions
    [MkPermission 1 "write_status" "allow" "capability" "";
     MkPermission 1 "write_status" "allow" "path" ".areaflow/**"]
    (set_project_status_snapshots
       (MkTable [MkStatusSnapshot 1 1 "import" (JObj status_summary) "abc123" "" 4000000] 2)
       demo_db).

Definition status_path : string := "/srv/demo/.areaflow/status.json".

Definition status_world (files : gmap string string) : World :=
  MkWorld status_db files (MkCounters 0 0 0 0).

(** The packet that repeats a preview *)
Definition packet_of (a : StatusProjectionAuthorizationPreview) : StatusProjectionApplyGateOptions :=
  MkGateOptions (sv_TargetURI a) (Some (sq_Exists (sv_Preimage a))) (sq_SHA256 (sv_Preimage a))
    (Some (sq_SizeBytes (sv_Preimage a))) (sv_SourceHash a) (sv_SchemaURI a)
    (sv_ValidatorPreflight a) (statusProjectionProtectedPathCheck (sv_Project a))
    (sv_ProtectedPathFingerprintSHA256 a) (statusProjectionRollbackAction (sv_Preimage a))
    (sq_SchemaStatus (sv_Preimage a)) true "ops" "approved in review" None.

Definition status_options (os : StatusOS) (w : World) : ApplyStatusProjectionOptions :=
  MkApplyOptions "" "" "" "" (Some (statusProjectionWriter demo_env os))
    match fst (StatusProjectionAuthorizationPreview_ demo_env os demo_project
                 (MkPreviewOptions "" None) w) with
    | Ok a => packet_of a
    | Err _ => MkGateOptions "" None "" None "" "" "" "" "" "" "" false "" "" None
    end.

Definition status_apply (os : StatusOS) (w : World) : res error ApplyStatusProjectionResult * World :=
  ApplyStatusProjection demo_env os demo_project (status_options os w) w.

(** What a reader of the answer and of the project sees *)
Definition status_view (out : res error ApplyStatusProjectionResult * World)
  : res error (string * list string) * option string * nat :=
  (match fst out with Ok r => Ok (sr_Status r, sr_Blockers r) | Err e => Err e end,
   wd_files (snd out) !! status_path,
   List.length (t_rows (db_status_projections (wd_db (snd out))))).

(** The file does not exist yet. *)
Definition status_new : World := status_world ∅.
Definition status_request : ApplyStatusProjectionOptions := status_options status_os status_new.
Definition status_writer : StatusProjectionWriter := statusProjectionWriter demo_env status_os.

Lemma status_request_writer : apo_Writer status_request = Some status_writer.
Proof. reflexivity. Qed.

Lemma status_writer_only : WritesOnly status_os demo_project status_writer.
Proof. apply exporter_writes_only, status_os_wd. Qed.

Lemma status_written : exists r w',
  ApplyStatusProjection demo_env status_os demo_project status_request status_new = (Ok r, w')
  /\ sr_Created r = true /\ result_allowed r = true.
Proof. eexists _, _. split; [vm_compute; reflexivity|]. by vm_compute. Qed.

Lemma status_apply_truthful_witness :
  exists r w' path content,
    ApplyStatusProjection demo_env status_os demo_project status_request status_new = (Ok r, w')
    /\ wd_files w' !! path = Some content /\ sr_WriteHash r = sha256_hex content.
Proof.
  destruct status_written as (r & w' & E & Hc & Ha).
  pose proof (status_apply_truthful demo_env status_os demo_project status_request status_writer
                status_new (Ok r) w' status_request_writer status_writer_only status_os_wd E) as H.
  cbv zeta iota in H. rewrite Hc, Ha in H. cbn [andb] in H.
  destruct H as (path & content & _ & H1 & H2 & _). exists r, w', path, content.
  split; [exact E|split; [exact H1|exact H2]].
Defined.

Lemma status_apply_authorized_witness :
  exists r w' snapshot,
    ApplyStatusProjection demo_env status_os demo_project status_request status_new = (Ok r, w')
    /\ apply_recorded demo_project snapshot r (wd_db status_new) (wd_db w').
Proof.
  destruct status_written as (r & w' & E & Hc & Ha).
  destruct (status_apply_authorized demo_env status_os demo_project status_request status_writer
              status_new r w' status_request_writer status_writer_only status_os_wd E Hc Ha)
    as (snapshot & a & pre & path & content & _ & _ & _ & _ & _ & H).
  exists r, w', snapshot. split; [exact E|exact H].
Defined.

(** ** Two corners *)

Definition status_content : string := 
  default "" (wd_files (snd (status_apply status_os status_new)) !! status_path).

(** A commit that fails comes after the last rollback: the file was replaced
    and nothing records it. *)
Example commit_failure_keeps_file :
  let os := MkStatusOS (Ok "/home/af") Ok (fun _ => false) (fun _ _ => None) (fun _ _ => None)
              (fun _ => None) (fun _ _ => None) (fun _ => None) (fun _ _ => LMissing) (fun l => l)
              (fun _ => "") (fun s => match s with StepCommit => Some "broken pipe" | _ => None end) in
  status_view (status_apply os status_new)
  = (Err (ErrText "commit status projection apply: broken pipe"), Some status_content, 0%nat).
Proof. vm_compute. reflexivity. Qed.

(** The exporter keeps a file that decodes to the same document and reports it
    as validated; one more key in it and the apply command denies the write it
    asked for, as often as it is asked. *)
Example extra_key_blocks_apply :
  let content := "{" +:+ json_string "note" +:+ ": 1," +:+ String.substring 1 2000 status_content in
  status_view (status_apply status_os (status_world {[status_path := content]}))
  = (Ok ("blocked", ["status projection has unexpected key note"]), Some content, 1%nat).
Proof. vm_compute. reflexivity. Qed.
