(* ===== verification/StatusExportSpec.v ===== *)
(** * The exporter's document

    What the exporter writes is what the apply command accepts: a document it
    validates prints to a text with exactly the keys of the stable projection,
    at every level, and the hash of its snapshot is read back. *)

From stdpp Require Import base list strings numbers.
From Stdlib Require Import ZArith Lia String Permutation.
From S2P Require Import Prelude GoString Json JsonText JsonDecode Schema Tx Demo StatusFiles StatusShape StatusStore StatusExport StatusSpec.

(** A Go map is ranged over in some order of its keys. *)
Class RangesKeys (os : StatusOS) : Prop :=
  map_order : forall l, Permutation (so_MapOrder os l) l.

(** ** Reading a printed document *)

(** [json.MarshalIndent] with a newline after it is read back. *)
Lemma parse_printed j :
  nesting j <= maxNestingDepth -> parse_json (marshal_indent j +:+ newline) = Some (text_of j).
Proof.
  intros Hd. unfold parse_json, marshal_indent. rewrite bytes_of_app.
  rewrite (json_reads_back j 0%nat 0 _ (bytes_of newline)); [reflexivity|lia| |].
  - rewrite length_app. lia.
  - by vm_compute.
Qed.

(** The members of a printed object with plain names *)
Definition printed (m : jmap) : list (string * jtext) :=
  List.map (fun kv => (fst kv, text_of (snd kv))) m.

Lemma text_of_object m :
  forallb (fun kv => valid_utf8 (fst kv)) m = true -> text_of (JObj m) = TObj (printed m).
Proof.
  intros H. cbn [text_of]. f_equal. apply List.map_ext_in. intros kv Hin.
  rewrite forallb_forall in H. by rewrite coerced_id by (by apply H).
Qed.

Lemma unmarshal_printed m :
  nesting (JObj m) <= maxNestingDepth -> forallb (fun kv => valid_utf8 (fst kv)) m = true ->
  forallb (fun kv => any_fits (text_of (snd kv))) m = true ->
  unmarshal_map (marshal_indent (JObj m) +:+ newline) = Some (printed m).
Proof.
  intros Hn Hu Hf. unfold unmarshal_map. rewrite parse_printed, text_of_object by done.
  assert (H : forallb (fun kv => any_fits (snd kv)) (printed m) = true).
  { unfold printed. apply forallb_forall. intros kv Hin. apply in_map_iff in Hin as (x & <- & Hx).
    rewrite forallb_forall in Hf. by apply Hf. }
  by rewrite H.
Qed.

(** ** The keys *)

Lemma text_get_in k m : (exists v, text_get k m = Some v) <-> In k (List.map fst m).
Proof.
  unfold text_get. rewrite in_map_iff. split.
  - intros [v H]. destruct (List.find _ (rev m)) as [kv|] eqn:E; [|done].
    apply find_some in E as [Hin Hk]. apply String.eqb_eq in Hk. exists kv.
    split; [done|]. by apply in_rev.
  - intros (kv & <- & Hin). destruct (List.find _ (rev m)) as [x|] eqn:E; [by eexists|].
    apply in_rev in Hin. apply (find_none _ _ E) in Hin. by rewrite String.eqb_refl in Hin.
Qed.

Lemma find_false {A} (f : A -> bool) l : (forall x, In x l -> f x = false) -> List.find f l = None.
Proof.
  induction l as [|x l IH]; cbn; intros H; [done|]. rewrite (H x) by by left. apply IH. auto.
Qed.

Section Shape.
Context (os : StatusOS) `{!RangesKeys os}.

Lemma exact_keys scope m allowed :
  List.map fst m = allowed -> validateExactKeys os scope m allowed = Ok tt.
Proof.
  intros <-. unfold validateExactKeys. rewrite find_false, find_false; [done|..].
  - intros k Hk. apply negb_false_iff, str_in_spec.
    apply (Permutation_in k (map_order (tkeys m))) in Hk. unfold tkeys in Hk. by apply nodup_In in Hk.
  - intros k Hk. apply text_get_in in Hk as [v ->]. done.
Qed.

Lemma version_shape index v : check_version os index (text_of (version_json v)) = Ok tt.
Proof.
  unfold version_json. rewrite text_of_object by done. unfold check_version.
  rewrite exact_keys by done. cbn [then_ok].
  change (text_get "rough_progress" (printed _)) with (Some (text_of (progress_json (ev_RoughProgress v)))).
  unfold progress_json. rewrite text_of_object by done. by apply exact_keys.
Qed.

Lemma versions_shape index l :
  check_versions os index (List.map text_of (List.map version_json l)) = Ok tt.
Proof.
  revert index. induction l as [|v l IH]; intros index; [done|]. cbn [List.map check_versions].
  rewrite version_shape. apply IH.
Qed.

(** The members of the document, as [document_json] lists them *)
Definition document_members (d : ExportDocument) : jmap := summary_members (document_json d).

Lemma parts_shape d : check_parts os (printed (document_members d)) = Ok tt.
Proof.
  unfold check_parts.
  change (text_get "active_versions" (printed (document_members d)))
    with (Some (TArr (List.map text_of (List.map version_json (ed_ActiveVersions d))))).
  cbv beta iota. rewrite versions_shape. cbn [then_ok].
  change (text_get "compatibility" (printed (document_members d)))
    with (Some (text_of (compatibility_json (ed_Compatibility d)))).
  unfold compatibility_json. rewrite text_of_object by done. by apply exact_keys.
Qed.
End Shape.

(** ** Numbers and depth *)

Lemma percent_fits z : 0 <= z <= 100 -> float64_fits (fmt_d z) = true.
Proof.
  intros H. assert (Hall : forallb (fun n => float64_fits (fmt_d (Z.of_nat n))) (seq 0 101) = true)
    by (by vm_compute).
  rewrite forallb_forall in Hall. rewrite <- (Z2Nat.id z) by lia. apply Hall, in_seq. lia.
Qed.

Definition percents_in_range (d : ExportDocument) : Prop :=
  Forall (fun v => 0 <= rg_Percent (ev_RoughProgress v) <= 100) (ed_ActiveVersions d).

Lemma versions_nesting l :
  fold_right (fun j acc => Z.max (nesting j) acc) 0 (List.map version_json l) <= 2.
Proof. induction l as [|v l IH]; [done|]. cbn [List.map fold_right]. cbn in IH |- *. lia. Qed.

Lemma strings_nesting l :
  fold_right (fun j acc => Z.max (nesting j) acc) 0 (List.map JStr l) <= 0.
Proof. induction l as [|v l IH]; [done|]. cbn [List.map fold_right]. cbn in IH |- *. lia. Qed.

Lemma document_nesting d : nesting (JObj (document_members d)) <= maxNestingDepth.
Proof.
  pose proof (versions_nesting (ed_ActiveVersions d)) as H1.
  pose proof (strings_nesting (cm_BlockedCommands (ed_Compatibility d))) as H2.
  unfold maxNestingDepth, document_members, document_json, compatibility_json, jstrs.
  cbn [summary_members nesting fold_right snd]. lia.
Qed.

Lemma strings_fit l : forallb any_fits (List.map text_of (List.map JStr l)) = true.
Proof. by induction l. Qed.

Lemma document_fits d :
  ed_SchemaVersion d = 1 -> percents_in_range d ->
  forallb (fun kv => any_fits (text_of (snd kv))) (document_members d) = true.
Proof.
  intros Hs Hp. unfold document_members, document_json. cbn [summary_members forallb snd].
  rewrite Hs. cbn [text_of any_fits]. change (float64_fits (fmt_d 1)) with true. cbn [andb].
  rewrite andb_true_r. apply andb_true_iff. split.
  - induction Hp as [|v l Hv _ IH]; [done|]. cbn [List.map forallb]. rewrite IH, andb_true_r.
    cbn. by rewrite percent_fits by lia.
  - cbn. by rewrite strings_fit.
Qed.

(** ** Validation *)

Lemma then_ok_ok {A} (r : res string unit) (k : res string A) a :
  then_ok r k = Ok a -> r = Ok tt /\ k = Ok a.
Proof. by destruct r as [[]|]. Qed.

Lemma validated_percents d l index :
  ed_ActiveVersions d = l -> validate_versions index l = Ok tt -> percents_in_range d.
Proof.
  unfold percents_in_range. intros ->. revert index. induction l as [|v l IH]; intros index H;
    [constructor|]. cbn [validate_versions] in H. apply then_ok_ok in H as [Hv Hl].
  constructor; [|by eapply IH]. unfold validate_version in Hv. cbv zeta in Hv.
  do 3 apply then_ok_ok in Hv as [_ Hv]. apply then_ok_ok in Hv as [Hv _].
  unfold refuse_when in Hv. destruct (_ || _) eqn:E; [done|]. lia.
Qed.

Section Document.
Context (os : StatusOS) `{!RangesKeys os}.

Lemma validated d :
  validateExportDocument os d = Ok tt ->
  ed_SchemaVersion d = 1 /\ percents_in_range d /\ is_blank (ed_SourceSnapshotHash d) = false.
Proof.
  unfold validateExportDocument. cbv zeta. destruct (ed_SchemaVersion d =? 1) eqn:Ev; [|done].
  cbn [negb]. destruct (List.find _ _) eqn:Ef; [done|]. intros H. apply then_ok_ok in H as [H _].
  split; [lia|]. split; [by eapply validated_percents|].
  apply (find_none _ _ Ef "source_snapshot_hash").
  eapply Permutation_in; [symmetry; apply map_order|]. cbn. tauto.
Qed.

(** C37. A document the exporter validates is printed to a text that passes the
    exporter's own check of the shape, so marshalling it never fails; and the
    apply command's check of the written file passes as well, with the hash of
    the snapshot the document was made from (any hash that is valid UTF-8). *)
Theorem export_verifies d :
  validateExportDocument os d = Ok tt ->
  let content := marshal_indent (document_json d) +:+ newline in
  marshalStableExportDocument os d = Ok content
  /\ (valid_utf8 (ed_SourceSnapshotHash d) = true ->
      verifyStableStatusProjectionJSON os content (ed_SourceSnapshotHash d) = Ok tt).
Proof.
  intros Hv. cbv zeta. destruct (validated d Hv) as (H1 & H2 & H3).
  change (document_json d) with (JObj (document_members d)).
  assert (Hp : parse_document os (marshal_indent (JObj (document_members d)) +:+ newline)
               = Ok (printed (document_members d))).
  { unfold parse_document.
    by rewrite unmarshal_printed by (done || apply document_nesting || by apply document_fits). }
  split.
  - unfold marshalStableExportDocument. rewrite Hv. cbv zeta.
    change (document_json d) with (JObj (document_members d)).
    unfold validateStableExportJSON. rewrite Hp, exact_keys by done. cbn [then_ok].
    by rewrite parts_shape.
  - intros Hu. unfold verifyStableStatusProjectionJSON. rewrite Hp.
    unfold statusProjectionVerifyExactKeys. rewrite exact_keys by done. cbn [then_ok].
    change (text_get "source_snapshot_hash" (printed (document_members d)))
      with (Some (TStr (coerced (ed_SourceSnapshotHash d)))).
    cbn [text_value]. rewrite coerced_id by done. unfold is_blank in H3. rewrite H3.
    rewrite String.eqb_refl. by rewrite parts_shape.
Qed.
End Document.

#[export] Instance status_os_ranges : RangesKeys status_os.
Proof. intros l. apply Permutation_refl. Qed.

Definition demo_document : ExportDocument :=
  exportDocument demo_env demo_project (MkSnapshot (JObj status_summary) "abc123" 4000000)
    ".areaflow/status.json".

Lemma export_verifies_witness :
  validateExportDocument status_os demo_document = Ok tt
  /\ verifyStableStatusProjectionJSON status_os
       (marshal_indent (document_json demo_document) +:+ newline) "abc123" = Ok tt.
Proof.
  split; [vm_compute; reflexivity|].
  apply (proj2 (export_verifies status_os demo_document ltac:(vm_compute; reflexivity))).
  vm_compute. reflexivity.
Defined.
