(* ===== verification/MigrationSteps.v ===== *)
(** * Artifact locations: what the statements do to the table

    The statements of [ArtifactMigration] as functions on the table of
    locations, and what each preserves: primary keys, the unique index, the
    identity of a location.  [ArtifactMigrationSpec] proves the properties of
    the commands from these lemmas. *)

From stdpp Require Import base list strings numbers relations gmap.
From Stdlib Require Import ZArith Lia String.
From S2P Require Import Prelude GoString Sha256 Json GoTime Schema Tx FilePath Runner.
From S2P Require Import ArtifactMigration Steps System ArtifactSpec.

(** ** The unique index *)

Definition location_key (l : ArtifactLocation) : Z * string * string :=
  (al_ArtifactID l, al_Role l, al_URI l).

Lemma location_clash_spec l l' : location_clash l l' = true <-> location_key l = location_key l'.
Proof.
  unfold location_clash, location_is, location_key. split.
  - intros H. bool_prop. congruence.
  - intros [= -> -> ->]. by rewrite Z.eqb_refl, !String.eqb_refl.
Qed.

Lemma no_clash l rows :
  existsb (location_clash l) rows = false <-> ~ In (location_key l) (List.map location_key rows).
Proof.
  rewrite <- not_true_iff_false, existsb_exists, in_map_iff. split; intros H.
  - intros (x & E & Hx). apply H. exists x. split; [done|]. by apply location_clash_spec.
  - intros (x & Hx & E). apply H. exists x. split; [|done]. by apply location_clash_spec in E.
Qed.

Definition keys_unique (rows : list ArtifactLocation) : Prop :=
  List.NoDup (List.map location_key rows).

Lemma keys_unique_eq rows l l' :
  keys_unique rows -> In l rows -> In l' rows -> location_key l = location_key l' -> l = l'.
Proof.
  unfold keys_unique. induction rows as [|x rows IH]; [done|]. cbn. intros Hn.
  inversion Hn as [|? ? Hx Hn']; subst. intros [->|H1] [->|H2] E; auto.
  - exfalso. apply Hx. rewrite E. by apply in_map.
  - exfalso. apply Hx. rewrite <- E. by apply in_map.
Qed.

(** ** UPDATE, row by row *)

Section UpdateEach.
Context (p : ArtifactLocation -> bool) (f : ArtifactLocation -> ArtifactLocation).

Definition updated_row (l : ArtifactLocation) : ArtifactLocation := if p l then f l else l.

(** A statement that succeeds has updated every row it selects. *)
Lemma update_each_rows pre todo rows :
  update_each p f pre todo = Some rows -> rows = pre ++ List.map updated_row todo.
Proof.
  revert pre. induction todo as [|l todo IH]; intros pre; cbn; [intros [= ->]; by rewrite app_nil_r|].
  unfold updated_row at 1. destruct (p l).
  - destruct (existsb _ _); [done|]. intros E. apply IH in E. by rewrite <- app_assoc in E.
  - intros E. apply IH in E. by rewrite <- app_assoc in E.
Qed.

(** It keeps the index in force. *)
Lemma update_each_unique pre todo rows :
  update_each p f pre todo = Some rows -> keys_unique (pre ++ todo) -> keys_unique rows.
Proof.
  revert pre. induction todo as [|l todo IH]; intros pre; cbn.
  - intros [= ->]. by rewrite app_nil_r.
  - destruct (p l).
    + destruct (existsb _ _) eqn:E; [done|]. intros Hs Hu. apply (IH _ Hs).
      unfold keys_unique in *. rewrite <- app_assoc. rewrite !map_app in *. cbn in *.
      apply NoDup_remove in Hu as [Hu _].
      eapply Permutation.Permutation_NoDup; [apply Permutation_middle|].
      apply List.NoDup_cons; [|done]. apply no_clash in E. by rewrite map_app in E.
    + intros Hs Hu. apply (IH (pre ++ [l]) Hs). by rewrite <- app_assoc.
Qed.

(** When a row is updated, it clashes neither with the rows updated before it
    nor with the rows still to come. *)
Lemma update_each_visit pre todo1 l todo2 rows :
  update_each p f pre (todo1 ++ l :: todo2) = Some rows -> p l = true ->
  existsb (location_clash (f l)) ((pre ++ List.map updated_row todo1) ++ todo2) = false.
Proof.
  revert pre. induction todo1 as [|x todo1 IH]; intros pre; cbn.
  - rewrite app_nil_r. intros E Hl. rewrite Hl in E. by destruct (existsb _ _).
  - unfold updated_row at 1. destruct (p x).
    + destruct (existsb _ _); [done|]. intros E Hl. specialize (IH _ E Hl).
      by rewrite <- (app_assoc pre) in IH.
    + intros E Hl. specialize (IH _ E Hl). by rewrite <- (app_assoc pre) in IH.
Qed.
End UpdateEach.

(** ** ON CONFLICT *)

Definition upsert_table (row : Z -> ArtifactLocation)
    (merge : ArtifactLocation -> ArtifactLocation) (t : table ArtifactLocation)
  : table ArtifactLocation :=
  match table_select (location_clash (row 0)) t with
  | [] => table_insert row t
  | _ => table_update (location_clash (row 0)) merge t
  end.

Lemma upsert_location_ok row merge w l w' :
  upsert_location row merge w = (Ok l, w') ->
  w' = set_db (set_artifact_locations (upsert_table row merge (db_artifact_locations (wd_db w)))
                 (wd_db w)) w
  /\ In l (t_rows (upsert_table row merge (db_artifact_locations (wd_db w))))
  /\ (l = row (t_next (db_artifact_locations (wd_db w)))
      \/ exists l0, In l0 (t_rows (db_artifact_locations (wd_db w)))
           /\ location_clash (row 0) l0 = true /\ l = merge l0).
Proof.
  unfold upsert_location, upsert_table. intros E. apply bind_ok in E as (rows & w1 & Es & E).
  apply select_rows_ok in Es as [-> ->]. cbn [tget artifact_locations_table] in E.
  destruct (table_select _ _) as [|x xs] eqn:Esel.
  - apply insert_row_ok in E as [-> ->]. split; [done|]. split; [apply table_insert_In; by right|].
    by left.
  - apply bind_ok in E as (rows & w1 & Eu & E). apply update_rows_ok in Eu as [-> ->].
    apply first_row_ok in E as [(l' & E) ->]. split; [done|]. cbn [tget artifact_locations_table] in E.
    rewrite Esel in E. injection E as <- _. apply select_cons_In in Esel as [Hx Hc].
    split; [apply table_update_In; exists x; by rewrite Hc|]. right. by exists x.
Qed.

(** The update half changes neither the key nor what identifies a location. *)
Definition same_location (l l' : ArtifactLocation) : Prop :=
  (al_ID l', al_ProjectID l', al_ArtifactID l') = (al_ID l, al_ProjectID l, al_ArtifactID l)
  /\ (al_StorageBackend l', al_URI l', al_CreatedAt l')
     = (al_StorageBackend l, al_URI l, al_CreatedAt l)
  /\ (al_VerifiedAt l <> None -> al_VerifiedAt l' <> None).

#[export] Instance same_location_preorder : PreOrder same_location.
Proof.
  split; [by intros l|]. intros a b c (H1 & H2 & H3) (K1 & K2 & K3). unfold same_location.
  rewrite K1, K2. auto.
Qed.

Section Upsert.
Context (row : Z -> ArtifactLocation) (merge : ArtifactLocation -> ArtifactLocation).
Hypothesis row_id_ok : forall id, al_ID (row id) = id.
Hypothesis row_key : forall id, location_key (row id) = location_key (row 0).
Hypothesis merge_same : forall l, same_location l (merge l).
Hypothesis merge_role : forall l, al_Role (merge l) = al_Role l.

Lemma merge_key l : location_key (merge l) = location_key l.
Proof.
  unfold location_key. rewrite merge_role. by destruct (merge_same l) as ([= _ _ ->] & [= _ -> _] & _).
Qed.

Lemma upsert_table_ok t : table_ok t -> table_ok (upsert_table row merge t).
Proof.
  unfold upsert_table. destruct (table_select _ _) as [|x xs].
  - by apply table_insert_ok.
  - apply table_update_ok. intros l. cbn. by destruct (merge_same l) as [[= -> _ _] _].
Qed.

Lemma upsert_keys_unique t :
  keys_unique (t_rows t) -> keys_unique (t_rows (upsert_table row merge t)).
Proof.
  unfold upsert_table, keys_unique. destruct (table_select _ _) as [|x xs] eqn:E; cbn; intros Hu.
  - rewrite map_app. apply NoDup_snoc; [done|]. rewrite row_key. intros Hin.
    apply in_map_iff in Hin as (l & El & Hl).
    assert (Hs : In l (table_select (location_clash (row 0)) t))
      by (apply table_select_In; split; [done|by apply location_clash_spec]).
    by rewrite E in Hs.
  - rewrite map_map. erewrite map_ext; [exact Hu|]. intros l. cbn.
    destruct (location_clash _ l); [apply merge_key|done].
Qed.

Lemma upsert_extends t : extends same_location (t_rows t) (t_rows (upsert_table row merge t)).
Proof.
  unfold upsert_table. destruct (table_select _ _) as [|x xs].
  - apply (extends_insert _).
  - by apply (extends_update _).
Qed.

(** Every row is an old one, the new one, or an old one merged. *)
Lemma upsert_In t l :
  In l (t_rows (upsert_table row merge t)) ->
  In l (t_rows t) \/ l = row (t_next t)
  \/ exists l0, In l0 (t_rows t) /\ location_clash (row 0) l0 = true /\ l = merge l0.
Proof.
  unfold upsert_table. destruct (table_select _ _) as [|x xs].
  - intros [H|H]%table_insert_In; auto.
  - intros (l0 & H & ->)%table_update_In. destruct (location_clash _ l0) eqn:E; [|by left].
    right. right. by exists l0.
Qed.

(** A row with the key is there afterwards. *)
Lemma upsert_has t :
  exists l, In l (t_rows (upsert_table row merge t)) /\ location_key l = location_key (row 0)
    /\ (l = row (t_next t) \/ exists l0, In l0 (t_rows t) /\ l = merge l0).
Proof.
  unfold upsert_table. destruct (table_select _ _) as [|x xs] eqn:E.
  - exists (row (t_next t)). split; [apply table_insert_In; by right|]. auto.
  - apply select_cons_In in E as [Hx Hc]. exists (merge x). split; [|split; [|eauto]].
    + apply table_update_In. exists x. by rewrite Hc.
    + apply location_clash_spec in Hc. by rewrite merge_key.
Qed.

Lemma upsert_keeps t l :
  In l (t_rows t) ->
  exists l', In l' (t_rows (upsert_table row merge t)) /\ same_location l l' /\ al_Role l' = al_Role l.
Proof.
  intros Hl. unfold upsert_table. destruct (table_select _ _) as [|x xs].
  - exists l. split; [apply table_insert_In; by left|]. by split; [reflexivity|].
  - exists (if location_clash (row 0) l then merge l else l).
    split; [apply table_update_In; eauto|]. destruct (location_clash _ l); [auto|].
    by split; [reflexivity|].
Qed.
End Upsert.

(** *** The rows the commands upsert *)

Lemma location_row_id env a l v md id : al_ID (location_row env a l v md id) = id.
Proof. done. Qed.

Lemma location_row_key env a l v md id :
  location_key (location_row env a l v md id) = location_key (location_row env a l v md 0).
Proof. done. Qed.

Lemma location_merge_same l v md r : same_location r (location_merge l v md r).
Proof. unfold same_location. cbn. by destruct v. Qed.

Lemma keep_retained_same l : same_location l (keep_retained l).
Proof. done. Qed.

Create HintDb locations discriminated.
#[export] Hint Resolve location_row_id location_row_key location_merge_same keep_retained_same
  : locations.
#[export] Hint Extern 1 (al_Role _ = al_Role _) => reflexivity : locations.

(** ** The transactions as effects on the two tables *)

Definition artifact_is (pid aid : Z) (a : ArtifactRecord) : bool :=
  (ar_ProjectID a =? pid) && (ar_ID a =? aid).

Lemma loadArtifactForMigration_ok pid aid w r w' :
  loadArtifactForMigration pid aid w = (Ok r, w') ->
  w' = w /\ exists a, In a (t_rows (db_artifacts (wd_db w))) /\ ar_ProjectID a = pid
    /\ ar_ID a = aid /\ r = scanArtifactRecordWithRun a.
Proof.
  unfold loadArtifactForMigration. intros E. apply bind_ok in E as (rows & w1 & Es & E).
  apply select_rows_ok in Es as [-> ->]. step_ok.
  match goal with H : first_row _ _ = _ |- _ => apply first_row_ok in H as [(l' & H) ->] end.
  apply select_cons_In in H as [Hin Hp]. bool_prop. eauto 6.
Qed.

Lemma loadLocation_ok pid aid lid w r w' :
  loadArtifactLocationForUpdate pid aid lid w = (Ok r, w') ->
  w' = w /\ exists l, In l (t_rows (db_artifact_locations (wd_db w))) /\ al_ProjectID l = pid
    /\ al_ArtifactID l = aid /\ al_ID l = lid /\ r = scanArtifactLocation l.
Proof.
  unfold loadArtifactLocationForUpdate. intros E. apply bind_ok in E as (rows & w1 & Es & E).
  apply select_rows_ok in Es as [-> ->]. step_ok.
  match goal with H : first_row _ _ = _ |- _ => apply first_row_ok in H as [(l' & H) ->] end.
  apply select_cons_In in H as [Hin Hp]. bool_prop. eauto 7.
Qed.

Lemma audit_ok env pid action aid actor reason md w u w' :
  insertArtifactMigrationAudit env pid action aid actor reason md w = (Ok u, w') ->
  db_artifacts (wd_db w') = db_artifacts (wd_db w)
  /\ db_artifact_locations (wd_db w') = db_artifact_locations (wd_db w).
Proof.
  unfold insertArtifactMigrationAudit. intros E. step_ok.
  match goal with H : insert_row _ _ = _ |- _ => by apply insert_row_ok in H as [_ ->] end.
Qed.

Lemma upsertArtifactLocation_ok env a l v md w r w' :
  upsertArtifactLocation env a l v md w = (Ok r, w') ->
  let t := upsert_table (location_row env a l v md) (location_merge l v md)
             (db_artifact_locations (wd_db w)) in
  wd_db w' = set_artifact_locations t (wd_db w)
  /\ exists x, In x (t_rows t) /\ r = scanArtifactLocation x
       /\ (x = location_row env a l v md (t_next (db_artifact_locations (wd_db w)))
           \/ exists l0, In l0 (t_rows (db_artifact_locations (wd_db w)))
                /\ location_clash (location_row env a l v md 0) l0 = true
                /\ x = location_merge l v md l0).
Proof.
  unfold upsertArtifactLocation. intros E. step_ok.
  match goal with H : upsert_location _ _ _ = _ |- _ => apply upsert_location_ok in H as (-> & Hin & Hc) end.
  split; [done|]. eexists. split; [exact Hin|]. split; [done|exact Hc].
Qed.

(** The table after a copy *)
Definition copied (env : Env) (o : CopyArtifactOptions) (source : ArtifactRecord) (st : Stored)
    (t : table ArtifactLocation) : table ArtifactLocation :=
  let md := mk [("status", JStr "verified"); ("actor", JStr (trim_space (co_Actor o)));
                ("reason", JStr (trim_space (co_Reason o)))] in
  let v := Some (env_unixnano env / 1000) in
  let source_at := locationFromArtifact source "migration_source" in
  upsert_table (location_row env source (candidateLocation source st) v md)
    (location_merge (candidateLocation source st) v md)
    (upsert_table (location_row env source source_at None retained)
       (location_merge source_at None retained) t).

Lemma copyTx_ok env o source st w r w' :
  copyTx env o source st w = (Ok r, w') ->
  db_artifacts (wd_db w') = db_artifacts (wd_db w)
  /\ db_artifact_locations (wd_db w') = copied env o source st (db_artifact_locations (wd_db w))
  /\ exists x, In x (t_rows (db_artifact_locations (wd_db w'))) /\ r = Ok (scanArtifactLocation x)
       /\ location_key x = location_key (candidateLocation source st)
       /\ (al_SHA256 x, al_SizeBytes x, al_VerifiedAt x)
          = (s_SHA256 st, s_SizeBytes st, Some (env_unixnano env / 1000)).
Proof.
  unfold copyTx. intros E. apply bind_ok in E as (r1 & w1 & E1 & E).
  apply bind_ok in E as (r2 & w2 & E2 & E). apply bind_ok in E as (r3 & w3 & E3 & E).
  apply ret_ok in E as [<- <-]. apply upsertArtifactLocation_ok in E1 as [E1 _].
  apply upsertArtifactLocation_ok in E2 as [E2 (x & Hx & -> & Hcase)].
  apply audit_ok in E3 as [Ea El]. rewrite Ea, El, E2. cbn -[upsert_table]. rewrite E1 in *.
  cbn -[upsert_table location_clash location_row location_merge] in *. split_and!; [done..|].
  exists x. split_and!; [done..| |].
  - destruct Hcase as [->|(l0 & _ & Hc & ->)]; [done|]. apply location_clash_spec in Hc.
    etransitivity; [|symmetry; exact Hc]. done.
  - by destruct Hcase as [->|(l0 & _ & _ & ->)].
Qed.

(** The artifact row is the one with its id. *)
Definition location_of (pid aid : Z) (l : ArtifactLocation) : bool :=
  (al_ProjectID l =? pid) && (al_ArtifactID l =? aid).

Definition observing_metadata (o : ActivateArtifactOptions) : jmap :=
  mk [("artifact_migration_status", JStr "observing");
      ("artifact_migration_observation_until", JStr (format_rfc3339 (ao_ObservationUntil o)))].

(** What an activation that commits has found and done *)
Lemma activateTx_ok env record aid o w r w' :
  activateTx env record aid o w = (Ok r, w') ->
  exists a t rows,
    let source := scanArtifactRecordWithRun a in
    let locations := db_artifact_locations (wd_db w) in
    (In a (t_rows (db_artifacts (wd_db w))) /\ ar_ProjectID a = p_ID record /\ ar_ID a = aid)
    /\ (In t (t_rows locations) /\ location_of (p_ID record) aid t = true
        /\ al_ID t = ao_TargetLocationID o)
    /\ (al_VerifiedAt t <> None /\ al_SHA256 t = ar_SHA256 a /\ al_SizeBytes t = ar_SizeBytes a)
    /\ update_each (location_of (p_ID record) aid) (promote o) [] (t_rows locations) = Some rows
    /\ db_artifact_locations (wd_db w')
       = upsert_table (location_row env source (locationFromArtifact source "migration_source")
                         (Some (env_now env)) retained) keep_retained
           (MkTable rows (t_next locations))
    /\ db_artifacts (wd_db w')
       = table_update (artifact_is (p_ID record) aid)
           (moved_to (scanArtifactLocation t) (observing_metadata o)) (db_artifacts (wd_db w))
    /\ exists a', In a' (t_rows (db_artifacts (wd_db w'))) /\ ar_ID a' = aid
         /\ r = Ok (scanArtifactRecordWithRun a').
Proof.
  unfold activateTx. intros E. apply bind_ok in E as (source & w1 & E1 & E).
  apply loadArtifactForMigration_ok in E1 as (-> & a & Ha & Hp & Hi & ->).
  apply bind_ok in E as (target & w2 & E2 & E).
  apply loadLocation_ok in E2 as (-> & t & Ht & Hpt & Hat & Hit & ->).
  destruct (_ || _ || _) eqn:Eg; [done|]. apply orb_false_iff in Eg as [Eg Esz].
  apply orb_false_iff in Eg as [Ev Esha]. apply negb_false_iff in Ev, Esha, Esz.
  apply bind_ok in E as (u & w3 & E3 & E). unfold update_locations in E3.
  destruct (update_each _ _ _ _) as [rows|] eqn:Eu; [|done]. injection E3 as _ <-.
  apply bind_ok in E as (l & w4 & E4 & E). apply upsert_location_ok in E4 as (-> & _).
  apply bind_ok in E as (arts & w5 & E5 & E). apply update_rows_ok in E5 as [-> ->].
  apply bind_ok in E as (a' & w6 & E6 & E). apply first_row_ok in E6 as [(tl & E6) ->].
  apply bind_ok in E as (u' & w7 & E7 & E). apply audit_ok in E7 as [Ea El].
  apply ret_ok in E as [<- <-]. exists a, t, rows. cbn -[upsert_table table_update] in *.
  split; [done|]. split; [split_and!; [done| |done]; unfold location_of; lia|].
  split; [split_and!; [by destruct (al_VerifiedAt t)| |]; bool_prop; done|].
  split; [done|]. split; [done|]. split; [done|]. exists a'. rewrite Ea.
  assert (Hm : List.map (moved_to (scanArtifactLocation t) (observing_metadata o))
    (table_select (artifact_is (p_ID record) aid) (db_artifacts (wd_db w))) = a' :: tl) by exact E6.
  assert (Hin : In a' (a' :: tl)) by (by left). rewrite <- Hm in Hin.
  apply in_map_iff in Hin as (a0 & <- & Hin). apply table_select_In in Hin as [Hin Hs].
  split_and!; [|unfold artifact_is in Hs; bool_prop; done|done].
  apply table_update_In. exists a0. unfold artifact_is in Hs. by rewrite Hs.
Qed.

Definition stable_metadata (now_text : string) : jmap :=
  mk [("artifact_migration_status", JStr "stable");
      ("artifact_migration_observed_at", JStr now_text)].

(** The state of the artifact row that decides a completion *)
Definition location_status (a : ArtifactRecord) : string :=
  artifactMetadataString (jmap_decode (ar_Metadata a)) "artifact_migration_status".
Definition observation_until (a : ArtifactRecord) : option Z :=
  parse_rfc3339 (artifactMetadataString (jmap_decode (ar_Metadata a))
                   "artifact_migration_observation_until").

(** A completion that commits found the artifact stable and did nothing, or
    found the deadline passed and marked both rows. *)
Lemma completeTx_ok env now_text record aid o w r w' :
  completeTx env now_text record aid o w = (Ok r, w') ->
  exists a,
    (In a (t_rows (db_artifacts (wd_db w))) /\ ar_ProjectID a = p_ID record /\ ar_ID a = aid)
    /\ ((location_status a = "stable" /\ r = Ok (scanArtifactRecordWithRun a) /\ w' = w)
        \/ (exists deadline, observation_until a = Some deadline /\ deadline <= env_unixnano env
            /\ List.length (table_select (verified_primary (p_ID record) aid)
                              (db_artifact_locations (wd_db w))) = 1%nat
            /\ db_artifact_locations (wd_db w')
               = table_update (verified_primary (p_ID record) aid) (observed now_text o)
                   (db_artifact_locations (wd_db w))
            /\ db_artifacts (wd_db w')
               = table_update (artifact_is (p_ID record) aid)
                   (artifact_with_metadata (stable_metadata now_text)) (db_artifacts (wd_db w)))).
Proof.
  unfold completeTx. intros E. apply bind_ok in E as (source & w1 & E1 & E).
  apply loadArtifactForMigration_ok in E1 as (-> & a & Ha & Hp & Hi & ->). exists a.
  split; [done|]. cbn [ar_Metadata scanArtifactRecordWithRun] in E.
  fold (location_status a) (observation_until a) in E.
  destruct (String.eqb_spec (location_status a) "stable") as [Es|Es].
  { apply ret_ok in E as [<- <-]. auto. }
  right. destruct (observation_until a) as [deadline|]; [|done]. exists deadline.
  split; [done|]. destruct (_ <? _) eqn:Et; [done|]. bool_prop. split; [done|].
  apply bind_ok in E as (res & w2 & E2 & E). apply update_rows_ok in E2 as [-> ->].
  destruct (negb _) eqn:El; [done|]. bool_prop. rewrite length_map in El.
  cbn [tget artifact_locations_table] in El. split; [lia|].
  apply bind_ok in E as (arts & w3 & E3 & E). apply update_rows_ok in E3 as [-> ->].
  apply bind_ok in E as (a' & w4 & E4 & E). apply first_row_ok in E4 as [_ ->].
  apply bind_ok in E as (u' & w5 & E5 & E). apply audit_ok in E5 as [Ea Elo].
  apply ret_ok in E as [<- <-]. by rewrite Ea, Elo.
Qed.

(** Steps that may write files, but leave the database alone, whether they
    succeed or not *)
Definition db_kept {A} (m : M A) : Prop := forall w, wd_db (snd (m w)) = wd_db w.

Lemma db_kept_bind {A B} (m : M A) (k : A -> M B) :
  db_kept m -> (forall a, db_kept (k a)) -> db_kept (bind m k).
Proof.
  intros Hm Hk w. unfold bind. specialize (Hm w). destruct (m w) as [[a|e] w1]; [|done].
  cbn in Hm. by rewrite Hk.
Qed.

Lemma db_kept_reads {A} (m : M A) : reads m -> db_kept m.
Proof. intros Hm w. by rewrite Hm. Qed.

Lemma WriteConfigured_kept env backend root rel content ct :
  db_kept (WriteConfigured env backend root rel content ct).
Proof.
  unfold WriteConfigured. apply db_kept_bind; [by apply db_kept_reads|]. intros clean. cbv zeta.
  destruct (_ || _); [|destruct (_ || _); [|by apply db_kept_reads]].
  - intros w. unfold putLocal. by repeat case_match.
  - apply db_kept_bind; [by apply db_kept_reads|]. intros uri. by apply db_kept_reads.
Qed.

Lemma copyToTarget_kept env s3_get s3_back record aid o :
  db_kept (copyToTarget env s3_get s3_back record aid o).
Proof.
  unfold copyToTarget. apply db_kept_bind; [apply db_kept_reads; unfold GetArtifact; reads_split|].
  intros source. destruct (negb _); [by apply db_kept_reads|].
  apply db_kept_bind; [by apply db_kept_reads|]. intros content.
  apply db_kept_bind; [by apply db_kept_reads|]. intros rel.
  apply db_kept_bind; [apply WriteConfigured_kept|]. intros st.
  apply db_kept_bind; [by apply db_kept_reads|]. intros _.
  apply db_kept_bind; [by apply db_kept_reads|]. intros back.
  apply db_kept_bind; [by apply db_kept_reads|]. intros _. by apply db_kept_reads.
Qed.

(** Before its transaction a copy only writes files; what it returns was
    checked against the artifact row. *)
Lemma copyToTarget_ok env s3_get s3_back record aid o w source st w' :
  copyToTarget env s3_get s3_back record aid o w = (Ok (source, st), w') ->
  wd_db w' = wd_db w
  /\ exists a content,
    (In a (t_rows (db_artifacts (wd_db w))) /\ ar_ProjectID a = p_ID record /\ ar_ID a = aid)
    /\ source = scanArtifactRecordWithRun a
    /\ readArtifactRecordContent s3_get source w = Ok content
    /\ st = stored (s_Backend st) (s_URI st) (cn_Content content) (cn_ContentType content)
    /\ (s_Backend st = "local" /\ wd_files w' !! s_URI st = Some (cn_Content content)
        \/ s_Backend st = "s3")
    /\ verifyMigratedArtifact source st = Ok tt
    /\ exists back, ReadConfigured s3_back (wd_files w') (s_Backend st) (s_URI st) = Ok back
                    /\ verifyMigratedArtifactContent source back = Ok tt.
Proof.
  unfold copyToTarget. intros E. apply bind_ok in E as (src & w1 & E1 & E).
  unfold GetArtifact in E1. destruct (_ <=? 0); [done|].
  apply bind_ok in E1 as (rows & w2 & Es & E1). apply select_rows_ok in Es as [-> ->]. step_ok.
  match goal with H : first_row _ _ = _ |- _ => apply first_row_ok in H as [(l' & H) ->] end.
  apply select_cons_In in H as [Hin Hp]. bool_prop. destruct (negb _) eqn:En; [done|]. bool_prop.
  apply bind_ok in E as (content & w3 & E2 & E). injection E2 as E2 <-.
  apply bind_ok in E as (rel & w4 & E3 & E). apply lift_ok in E3 as [_ <-].
  apply bind_ok in E as (st' & w5 & E4 & E).
  pose proof (WriteConfigured_stored _ _ _ _ _ _ _ _ _ E4) as [Hst Hf].
  pose proof (WriteConfigured_kept env (co_TargetBackend o) (co_TargetRoot o) rel
    (cn_Content content) (cn_ContentType content) w) as Hdb. rewrite E4 in Hdb. cbn in Hdb.
  apply bind_ok in E as (u & w6 & E5 & E). apply lift_ok in E5 as [E5 <-]. destruct u.
  apply bind_ok in E as (back & w7 & E6 & E). injection E6 as E6 <-.
  apply bind_ok in E as (u & w8 & E7 & E). apply lift_ok in E7 as [E7 <-]. destruct u.
  apply ret_ok in E as [[= <- <-] <-]. split; [done|]. eexists _, content. eauto 12.
Qed.

(** *** Files *)

(** Transactions leave the files alone. *)
Definition files_kept {A} (m : M A) : Prop := forall w, wd_files (snd (m w)) = wd_files w.

Lemma files_kept_bind {A B} (m : M A) (k : A -> M B) :
  files_kept m -> (forall a, files_kept (k a)) -> files_kept (bind m k).
Proof.
  intros Hm Hk w. unfold bind. specialize (Hm w). destruct (m w) as [[a|e] w1]; [|done].
  cbn in Hm. by rewrite Hk.
Qed.

Lemma files_kept_reads {A} (m : M A) : reads m -> files_kept m.
Proof. intros Hm w. by rewrite Hm. Qed.

Lemma files_kept_insert {R} `{HasTable R} mkrow : files_kept (insert_row mkrow).
Proof. done. Qed.

Lemma files_kept_update {R} `{HasTable R} p f : files_kept (update_rows p f).
Proof. done. Qed.

Lemma files_kept_update_locations p f : files_kept (update_locations p f).
Proof. intros w. unfold update_locations. by destruct (update_each _ _ _ _). Qed.

Lemma transact_files {A} (m : M (res error A)) w :
  files_kept m -> wd_files (snd (transact m w)) = wd_files w.
Proof. intros Hm. specialize (Hm w). unfold transact. by destruct (m w) as [[]]. Qed.

Create HintDb files discriminated.
#[export] Hint Resolve files_kept_insert files_kept_update files_kept_update_locations : files.
#[export] Hint Extern 5 (files_kept _) => (apply files_kept_reads; reads_split) : files.

Ltac files_split :=
  repeat first
    [ progress intros
    | match goal with
      | |- files_kept (bind _ _) => apply files_kept_bind
      | |- files_kept (match ?x with _ => _ end) => destruct x
      end
    | solve [eauto with files] ].

Lemma upsert_location_files row merge : files_kept (upsert_location row merge).
Proof. unfold upsert_location. files_split. Qed.

Lemma audit_files env pid action aid actor reason md :
  files_kept (insertArtifactMigrationAudit env pid action aid actor reason md).
Proof. unfold insertArtifactMigrationAudit. files_split. Qed.
#[export] Hint Resolve upsert_location_files audit_files : files.

Lemma copyTx_files env o source st : files_kept (copyTx env o source st).
Proof. unfold copyTx, upsertArtifactLocation. files_split. Qed.

Lemma activateTx_files env record aid o : files_kept (activateTx env record aid o).
Proof.
  unfold activateTx, loadArtifactForMigration, loadArtifactLocationForUpdate. files_split.
Qed.
