(* ===== verification/ArtifactMigrationSpec.v ===== *)
(** * Artifact locations: the properties of migrations

    The commands that copy, activate and complete, interleaved with everything
    else the store does.  Every location belongs to one artifact and agrees
    with its recorded hash and size, at most one is primary, and the primary
    one is where the artifact row says ([locations_invariant]).  Hashes,
    identities and places are never lost; a copy was verified; an activation
    does not make an artifact unreadable; an observation lasts until its
    deadline; and an artifact that was activated and copied again cannot be
    activated elsewhere any more. *)

From stdpp Require Import base list strings numbers relations gmap.
From Stdlib Require Import ZArith Lia String.
From S2P Require Import Prelude GoString Sha256 Json GoTime Schema Tx FilePath Runner.
From S2P Require Import ArtifactMigration Demo Steps System ArtifactSpec MigrationSteps.

(** ** The invariant *)

(** The location carries the artifact's recorded hash and size. *)
Definition same_content (a : ArtifactRecord) (l : ArtifactLocation) : Prop :=
  (ar_SHA256 a = "" \/ al_SHA256 l = ar_SHA256 a)
  /\ (ar_SizeBytes a <= 0 \/ al_SizeBytes l = ar_SizeBytes a).

(** A place the artifact is or was read from records exactly what the row does;
    only a candidate may record more. *)
Definition exact_content (a : ArtifactRecord) (l : ArtifactLocation) : Prop :=
  al_Role l <> "migration_candidate" ->
  al_SHA256 l = ar_SHA256 a /\ al_SizeBytes l = ar_SizeBytes a.

Definition owns (a : ArtifactRecord) (l : ArtifactLocation) : Prop :=
  ar_ID a = al_ArtifactID l /\ ar_ProjectID a = al_ProjectID l /\ same_content a l
  /\ In (al_Role l) ["primary"; "migration_candidate"; "migration_source"] /\ exact_content a l.

Definition primary (l : ArtifactLocation) : Prop := al_Role l = "primary".

(** The artifact row names the place of the location. *)
Definition agrees (a : ArtifactRecord) (l : ArtifactLocation) : Prop :=
  ar_StorageBackend a = al_StorageBackend l /\ ar_URI a = al_URI l.

Record locations_ok (arts : table ArtifactRecord) (locs : table ArtifactLocation) : Prop := {
  lo_arts : table_ok arts;
  lo_ids : table_ok locs;
  lo_keys : keys_unique (t_rows locs);
  lo_owned : forall l, In l (t_rows locs) -> exists a, In a (t_rows arts) /\ owns a l;
  lo_primary : forall l l', In l (t_rows locs) -> In l' (t_rows locs) ->
    al_ArtifactID l = al_ArtifactID l' -> primary l -> primary l' -> l = l';
  lo_agrees : forall a l, In a (t_rows arts) -> In l (t_rows locs) -> ar_ID a = al_ArtifactID l ->
    primary l -> agrees a l }.

Lemma owner_unique arts locs a l :
  locations_ok arts locs -> In a (t_rows arts) -> In l (t_rows locs) ->
  ar_ID a = al_ArtifactID l -> owns a l.
Proof.
  intros Hok Ha Hl E. destruct (lo_owned _ _ Hok l Hl) as (a' & Ha' & Ho).
  assert (a' = a) as <-; [|done].
  eapply table_ok_inj; [apply (lo_arts _ _ Hok)|done|done|]. cbn. destruct Ho. congruence.
Qed.

(** *** Upserts of locations that are not primary *)

Lemma upsert_locations_ok arts locs row merge a :
  locations_ok arts locs -> In a (t_rows arts) ->
  (forall id, al_ID (row id) = id) ->
  (forall id, location_key (row id) = location_key (row 0)) ->
  (forall l, same_location l (merge l)) -> (forall l, al_Role (merge l) = al_Role l) ->
  (forall id, owns a (row id)) -> ~ primary (row 0) ->
  (forall l, al_Role l = al_Role (row 0) -> owns a l -> owns a (merge l)) ->
  locations_ok arts (upsert_table row merge locs).
Proof.
  intros Hok Ha Hid Hkey Hsame Hrole Hrow Hnp Hmerge.
  assert (Hrowp : forall id, ~ primary (row id)).
  { intros id. pose proof (Hkey id) as [= _ E _]. unfold primary in *. congruence. }
  assert (Hold : forall l, In l (t_rows (upsert_table row merge locs)) -> primary l ->
                   In l (t_rows locs)).
  { intros l Hl Hp. apply upsert_In in Hl as [Hl|[->|(l0 & Hl0 & Hc & ->)]]; [done| |].
    - by destruct (Hrowp _ Hp).
    - exfalso. apply location_clash_spec in Hc. injection Hc as _ Hc _. unfold primary in *.
      rewrite Hrole in Hp. congruence. }
  split.
  - apply Hok.
  - apply upsert_table_ok; [done..|apply Hok].
  - apply upsert_keys_unique; [done..|apply Hok].
  - intros l Hl. apply upsert_In in Hl as [Hl|[->|(l0 & Hl0 & Hc & ->)]]; [by apply Hok|eauto|].
    exists a. split; [done|]. apply location_clash_spec in Hc. injection Hc as Hc Hc' _.
    apply Hmerge; [done|]. eapply owner_unique; [done..|]. destruct (Hrow 0) as [E _]. congruence.
  - intros l l' Hl Hl' E Hp Hp'. eapply (lo_primary _ _ Hok); auto.
  - intros a' l Ha' Hl E Hp. eapply (lo_agrees _ _ Hok); auto.
Qed.

Lemma location_merge_owns a l v md r :
  same_content a l -> exact_content a l -> al_Role r = al_Role l -> owns a r ->
  owns a (location_merge l v md r).
Proof.
  intros Hc He E (H1 & H2 & H3 & H4 & H5). split_and!; [done..|]. unfold exact_content in *.
  cbn. by rewrite E.
Qed.

(** *** The artifact row as the code scans it *)

Lemma scan_owns a l : owns (scanArtifactRecordWithRun a) l <-> owns a l.
Proof. done. Qed.

(** An artifact row that keeps id, project, hash and size owns the same locations. *)
Definition same_artifact (a a' : ArtifactRecord) : Prop :=
  (ar_ID a', ar_ProjectID a', ar_WorkflowVersionID a', ar_RunID a', ar_WorkflowItemID a')
  = (ar_ID a, ar_ProjectID a, ar_WorkflowVersionID a, ar_RunID a, ar_WorkflowItemID a)
  /\ (ar_ArtifactType a', ar_SourcePath a', ar_SHA256 a', ar_SizeBytes a', ar_CreatedAt a')
     = (ar_ArtifactType a, ar_SourcePath a, ar_SHA256 a, ar_SizeBytes a, ar_CreatedAt a).

#[export] Instance same_artifact_preorder : PreOrder same_artifact.
Proof.
  split; [by intros a|]. intros a b c [H1 H2] [K1 K2]. unfold same_artifact.
  by rewrite K1, K2.
Qed.

Lemma same_artifact_owns a a' l : same_artifact a a' -> owns a l -> owns a' l.
Proof.
  intros [[= E1 E2 _ _ _] [= _ _ E3 E4 _]]. unfold owns, same_content, exact_content.
  by rewrite E1, E2, E3, E4.
Qed.

(** *** Activation *)

Section Activate.
Context (arts : table ArtifactRecord) (locs : table ArtifactLocation).
Context (a : ArtifactRecord) (t : ArtifactLocation) (pid aid : Z) (o : ActivateArtifactOptions).
Context (md : jmap) (rows : list ArtifactLocation).
Hypothesis Hok : locations_ok arts locs.
Hypothesis Ha : In a (t_rows arts).
Hypothesis Hpid : ar_ProjectID a = pid.
Hypothesis Haid : ar_ID a = aid.
Hypothesis Ht : In t (t_rows locs).
Hypothesis Htid : al_ID t = ao_TargetLocationID o.
Hypothesis Hsha : al_SHA256 t = ar_SHA256 a.
Hypothesis Hsize : al_SizeBytes t = ar_SizeBytes a.
Hypothesis Hrows : update_each (location_of pid aid) (promote o) [] (t_rows locs) = Some rows.

Let moved := moved_to (scanArtifactLocation t) md.
Let upd := updated_row (location_of pid aid) (promote o).

Lemma activate_only a0 : In a0 (t_rows arts) -> artifact_is pid aid a0 = true -> a0 = a.
Proof.
  intros H0 Hi. eapply table_ok_inj; [apply (lo_arts _ _ Hok)|done|done|].
  unfold artifact_is in Hi. bool_prop. cbn. congruence.
Qed.

Lemma activate_moved_same a0 :
  In a0 (t_rows arts) ->
  same_artifact a0 (if artifact_is pid aid a0 then moved a0 else a0).
Proof.
  intros H0. destruct (artifact_is pid aid a0) eqn:E; [|reflexivity].
  rewrite (activate_only a0 H0 E). split; [done|]. cbn. by rewrite Hsha, Hsize.
Qed.

(** All locations of the artifact are in its project. *)
Lemma activate_of l : In l (t_rows locs) -> location_of pid aid l = (al_ArtifactID l =? aid).
Proof.
  intros Hl. unfold location_of. destruct (Z.eqb_spec (al_ArtifactID l) aid) as [E|];
    [|by rewrite andb_false_r].
  destruct (owner_unique arts locs a l Hok Ha Hl) as (_ & <- & _); [congruence|].
  by rewrite Hpid, Z.eqb_refl.
Qed.

Lemma activate_target l :
  In l (t_rows locs) -> al_ArtifactID l = aid -> primary (upd l) -> l = t.
Proof.
  intros Hl E. unfold upd, updated_row. rewrite (activate_of l Hl), E, Z.eqb_refl.
  unfold primary. cbn. destruct (Z.eqb_spec (al_ID l) (ao_TargetLocationID o)) as [Ei|_].
  - intros _. eapply table_ok_inj; [apply (lo_ids _ _ Hok)|done|done|]. cbn. congruence.
  - by destruct (String.eqb_spec (al_Role l) "primary").
Qed.

Lemma activate_kept l : In l (t_rows locs) -> al_ArtifactID l <> aid -> upd l = l.
Proof.
  intros Hl E. unfold upd, updated_row. rewrite (activate_of l Hl).
  by rewrite (proj2 (Z.eqb_neq _ _) E).
Qed.

Lemma upd_fields l :
  (al_ID (upd l), al_ProjectID (upd l), al_ArtifactID (upd l), al_StorageBackend (upd l),
   al_URI (upd l)) = (al_ID l, al_ProjectID l, al_ArtifactID l, al_StorageBackend l, al_URI l)
  /\ (al_SHA256 (upd l), al_SizeBytes (upd l), al_VerifiedAt (upd l), al_CreatedAt (upd l))
     = (al_SHA256 l, al_SizeBytes l, al_VerifiedAt l, al_CreatedAt l).
Proof. unfold upd, updated_row. by destruct (location_of pid aid l). Qed.

Lemma upd_owns a0 l :
  In a0 (t_rows arts) -> In l (t_rows locs) -> owns a0 l -> owns a0 (upd l).
Proof.
  intros Ha0 Hl. unfold upd, updated_row. destruct (location_of pid aid l) eqn:Ef; [|done].
  intros (H1 & H2 & H3 & H4 & H5). unfold owns, exact_content in *. cbn.
  destruct (Z.eqb_spec (al_ID l) (ao_TargetLocationID o)) as [Ei|_].
  - assert (l = t) as -> by (eapply table_ok_inj; [apply (lo_ids _ _ Hok)|done|done|]; cbn; congruence).
    assert (a0 = a) as -> by (eapply table_ok_inj; [apply (lo_arts _ _ Hok)|done|done|];
      unfold location_of in Ef; bool_prop; cbn; congruence).
    split_and!; [done..|by left|done].
  - destruct (String.eqb_spec (al_Role l) "primary") as [Ep|_]; [|done].
    split_and!; [done..|right; right; by left|]. intros _. apply H5. by rewrite Ep.
Qed.

Lemma activate_In l' :
  In l' rows <-> exists l, In l (t_rows locs) /\ l' = upd l.
Proof.
  rewrite (update_each_rows _ _ _ _ _ Hrows). cbn [app]. rewrite in_map_iff. fold upd.
  split; intros (l & H1 & H2); eauto.
Qed.

Lemma activate_locations_ok :
  locations_ok (table_update (artifact_is pid aid) moved arts) (MkTable rows (t_next locs)).
Proof.
  split.
  - apply table_update_ok; [done|apply Hok].
  - assert (E : MkTable rows (t_next locs) = table_update (location_of pid aid) (promote o) locs)
      by (unfold table_update; f_equal; apply (update_each_rows _ _ _ _ _ Hrows)).
    rewrite E. apply table_update_ok; [done|apply Hok].
  - eapply update_each_unique; [exact Hrows|apply Hok].
  - intros l' Hl'. apply activate_In in Hl' as (l & Hl & ->).
    destruct (lo_owned _ _ Hok l Hl) as (a0 & Ha0 & Ho). eexists.
    split; [apply table_update_In; by exists a0|].
    eapply same_artifact_owns; [by apply activate_moved_same|].
    by apply upd_owns.
  - intros l1' l2' H1 H2. apply activate_In in H1 as (l1 & H1 & ->), H2 as (l2 & H2 & ->).
    destruct (upd_fields l1) as [[= _ _ E1 _ _] _], (upd_fields l2) as [[= _ _ E2 _ _] _].
    rewrite E1, E2. intros E P1 P2. f_equal. destruct (Z.eq_dec (al_ArtifactID l1) aid) as [Ei|Ei].
    + rewrite (activate_target l1), (activate_target l2); congruence.
    + rewrite activate_kept in P1, P2 by congruence. by eapply (lo_primary _ _ Hok).
  - intros a' l' Ha' Hl'. apply activate_In in Hl' as (l & Hl & ->).
    apply table_update_In in Ha' as (a0 & Ha0 & ->).
    destruct (upd_fields l) as [[= _ _ E1 E2 E3] _].
    destruct (activate_moved_same a0 Ha0) as [[= E4 E5 _ _ _] _]. rewrite E4, E1. intros E P.
    unfold agrees. rewrite E2, E3. destruct (Z.eq_dec (al_ArtifactID l) aid) as [Ei|Ei].
    + rewrite (activate_target l Hl Ei P). unfold artifact_is.
      destruct (owner_unique arts locs a0 l Hok Ha0 Hl E) as (_ & Ep & _).
      destruct (owner_unique arts locs a l Hok Ha Hl) as (_ & Ep' & _); [congruence|].
      assert (Hc : (ar_ProjectID a0 =? pid) && (ar_ID a0 =? aid) = true) by lia.
      by rewrite Hc.
    + rewrite activate_kept in P by done.
      assert (Hc : artifact_is pid aid a0 = false) by (unfold artifact_is; lia). rewrite Hc.
      by apply (lo_agrees _ _ Hok).
Qed.
End Activate.

(** *** Updates of metadata *)

(** Locations and artifact rows that keep everything the invariant reads *)
Definition same_place (l l' : ArtifactLocation) : Prop :=
  same_location l l' /\ al_Role l' = al_Role l
  /\ (al_SHA256 l', al_SizeBytes l') = (al_SHA256 l, al_SizeBytes l).

Lemma same_place_owns a l l' : same_place l l' -> owns a l -> owns a l'.
Proof.
  intros (([= _ E1 E2] & _ & _) & E3 & [= E4 E5]). unfold owns, same_content, exact_content.
  by rewrite E1, E2, E3, E4, E5.
Qed.

Lemma metadata_locations_ok arts locs p f q g :
  locations_ok arts locs ->
  (forall a, same_artifact a (f a) /\ ar_StorageBackend (f a) = ar_StorageBackend a
             /\ ar_URI (f a) = ar_URI a) ->
  (forall l, same_place l (g l)) ->
  locations_ok (table_update p f arts) (table_update q g locs).
Proof.
  intros Hok Hf Hg.
  assert (Hf' : forall a, let a' := if p a then f a else a in
    same_artifact a a' /\ ar_StorageBackend a' = ar_StorageBackend a /\ ar_URI a' = ar_URI a)
    by (intros a; cbn; destruct (p a); [apply Hf|by split; [reflexivity|]]).
  assert (Hg' : forall l, same_place l (if q l then g l else l))
    by (intros l; destruct (q l); [apply Hg|by repeat split]).
  split.
  - apply table_update_ok; [|apply Hok]. intros a. cbn. by destruct (Hf a) as [[[= -> _ _ _ _] _] _].
  - apply table_update_ok; [|apply Hok]. intros l. cbn. by destruct (Hg l) as [[[= -> _ _] _] _].
  - unfold keys_unique. cbn. rewrite map_map. erewrite map_ext; [apply (lo_keys _ _ Hok)|].
    intros l. unfold location_key. by destruct (Hg' l) as (([= _ _ ->] & [= _ -> _] & _) & -> & _).
  - intros l' Hl'. apply table_update_In in Hl' as (l & Hl & ->).
    destruct (lo_owned _ _ Hok l Hl) as (a & Ha & Ho). eexists.
    split; [apply table_update_In; by exists a|]. eapply same_place_owns; [apply Hg'|].
    eapply same_artifact_owns; [apply Hf'|done].
  - intros l1' l2' H1 H2. apply table_update_In in H1 as (l1 & H1 & ->), H2 as (l2 & H2 & ->).
    unfold primary. destruct (Hg' l1) as (([= _ _ ->] & _) & -> & _).
    destruct (Hg' l2) as (([= _ _ ->] & _) & -> & _). intros E P1 P2.
    by rewrite (lo_primary _ _ Hok l1 l2 H1 H2 E P1 P2).
  - intros a' l' Ha' Hl'. apply table_update_In in Ha' as (a & Ha & ->).
    apply table_update_In in Hl' as (l & Hl & ->). unfold primary, agrees.
    destruct (Hf' a) as ([[= -> _ _ _ _] _] & -> & ->).
    destruct (Hg' l) as (([= _ _ ->] & [= -> -> _] & _) & -> & _). by apply (lo_agrees _ _ Hok).
Qed.

(** *** Everything else the store does *)

(** New artifacts may come; locations and the artifacts there are stay. *)
Definition store_frame (db db' : DB) : Prop :=
  table_ok (db_artifacts db) ->
  table_ok (db_artifacts db') /\ db_artifact_locations db' = db_artifact_locations db
  /\ exists new, t_rows (db_artifacts db') = t_rows (db_artifacts db) ++ new.

#[export] Instance store_frame_preorder : PreOrder store_frame.
Proof.
  split.
  - intros db H. split_and!; [done..|]. exists []. by rewrite app_nil_r.
  - intros a b c Hab Hbc Ha. destruct (Hab Ha) as (Hb & E1 & n1 & N1).
    destruct (Hbc Hb) as (Hc & E2 & n2 & N2). split_and!; [done|congruence|].
    exists (n1 ++ n2). by rewrite N2, N1, app_assoc.
Qed.

Lemma change_store_frame pid db db' : change pid db db' -> store_frame db db'.
Proof.
  intros Hc Hok.
  destruct Hc; try (split_and!; [done|done|]; exists []; by rewrite app_nil_r).
  split_and!; [|done|eexists; reflexivity]. apply table_insert_ok; [|done]. firstorder.
Qed.

(** The commands of [System] are such steps. *)
Lemma exec_store_frame env c w : keys_ok (wd_db w) -> store_frame (wd_db w) (wd_db (exec env c w)).
Proof.
  intros Hk. eapply changes_rel; [exact _|apply change_store_frame|]. by apply exec_changes.
Qed.

Lemma store_locations_ok db db' :
  store_frame db db' -> locations_ok (db_artifacts db) (db_artifact_locations db) ->
  locations_ok (db_artifacts db') (db_artifact_locations db').
Proof.
  intros Hf Hok. destruct (Hf (lo_arts _ _ Hok)) as (Hok' & -> & new & E).
  assert (Hin : forall a, In a (t_rows (db_artifacts db)) -> In a (t_rows (db_artifacts db')))
    by (intros a Ha; rewrite E; apply in_or_app; by left).
  split; [done|apply Hok|apply Hok| |apply Hok|].
  - intros l Hl. destruct (lo_owned _ _ Hok l Hl) as (a & Ha & Ho). eauto.
  - intros a l Ha Hl El P. destruct (lo_owned _ _ Hok l Hl) as (a0 & Ha0 & Ho).
    assert (a = a0) as ->
      by (eapply table_ok_inj; [exact Hok'|done|by apply Hin|]; cbn; destruct Ho; congruence).
    by apply (lo_agrees _ _ Hok).
Qed.

(** ** The commands *)

Inductive migration : Type :=
| MCopy (s3_get s3_back : string -> res error string) (record : Record_) (aid : Z)
    (o : CopyArtifactOptions)
| MActivate (record : Record_) (aid : Z) (o : ActivateArtifactOptions)
| MComplete (now_text : string) (record : Record_) (aid : Z)
    (o : CompleteArtifactObservationOptions).

Definition migrate (env : Env) (m : migration) (w : World) : World :=
  match m with
  | MCopy s3_get s3_back record aid o =>
      snd (CopyArtifactToBackend env s3_get s3_back record aid o w)
  | MActivate record aid o => snd (ActivateArtifactLocation env record aid o w)
  | MComplete now_text record aid o =>
      snd (CompleteArtifactObservation env now_text record aid o w)
  end.

Inductive mstep (w : World) : World -> Prop :=
| StepMigrate env m : mstep w (migrate env m w)
| StepOther w' : store_frame (wd_db w) (wd_db w') -> mstep w w'.

Abbreviation msteps := (rtc mstep).

(** No location has been recorded yet. *)
Definition unmigrated (w : World) : Prop :=
  table_ok (db_artifacts (wd_db w)) /\ table_ok (db_artifact_locations (wd_db w))
  /\ t_rows (db_artifact_locations (wd_db w)) = [].

Definition migration_reachable (w : World) : Prop := exists w0, unmigrated w0 /\ msteps w0 w.

Definition world_ok (w : World) : Prop :=
  locations_ok (db_artifacts (wd_db w)) (db_artifact_locations (wd_db w)).

(** What a committed command did: one lemma per command, over the transaction
    it ran. *)
Lemma transact_cases {A} (m : M (res error A)) w r w' :
  transact m w = (r, w') ->
  m w = (Ok r, w') \/ (wd_db w' = wd_db w /\ exists e, r = Err e).
Proof.
  unfold transact. destruct (m w) as [[r0|e] w1]; intros [= <- <-]; eauto.
Qed.

(** Either the database is as it was and an error is returned, or the
    transaction committed. *)
Lemma Copy_cases env s3_get s3_back record aid o w r w' :
  CopyArtifactToBackend env s3_get s3_back record aid o w = (r, w') ->
  (wd_db w' = wd_db w /\ exists e, r = Err e)
  \/ exists o' source st w1,
       copyToTarget env s3_get s3_back record aid o' w = (Ok (source, st), w1)
       /\ copyTx env o' source st w1 = (Ok r, w').
Proof.
  unfold CopyArtifactToBackend. destruct (_ || _); [intros [= <- <-]; eauto|]. cbv zeta.
  destruct (_ || _ || _); [intros [= <- <-]; eauto|].
  match goal with |- context [copyToTarget env s3_get s3_back record aid ?o' w] =>
    pose proof (copyToTarget_kept env s3_get s3_back record aid o' w) as Hk end.
  destruct (copyToTarget _ _ _ _ _ _ _) as [[[source st]|e] w1] eqn:E; cbn in Hk.
  - intros Ht. apply transact_cases in Ht as [Ht|[Ht He]]; [right; eauto 6|left].
    split; [congruence|done].
  - intros [= <- <-]. left. eauto.
Qed.

Lemma Activate_cases env record aid o w r w' :
  ActivateArtifactLocation env record aid o w = (r, w') ->
  (wd_db w' = wd_db w /\ exists e, r = Err e)
  \/ activateTx env record aid o w = (Ok r, w').
Proof.
  unfold ActivateArtifactLocation. destruct (_ || _); [intros [= <- <-]; eauto|].
  destruct (_ || _); [intros [= <- <-]; eauto|]. destruct (negb _); [intros [= <- <-]; eauto|].
  intros Ht. apply transact_cases in Ht. tauto.
Qed.

Lemma Complete_cases env now_text record aid o w r w' :
  CompleteArtifactObservation env now_text record aid o w = (r, w') ->
  (wd_db w' = wd_db w /\ exists e, r = Err e)
  \/ completeTx env now_text record aid o w = (Ok r, w').
Proof.
  unfold CompleteArtifactObservation. destruct (_ || _); [intros [= <- <-]; eauto|].
  destruct (_ || _); [intros [= <- <-]; eauto|]. intros Ht. apply transact_cases in Ht. tauto.
Qed.

(** *** Each command preserves the invariant *)

Lemma source_same_content a role : same_content a (locationFromArtifact a role).
Proof. by split; right. Qed.

Lemma verified_same_content a st :
  verifyMigratedArtifact a st = Ok tt -> same_content a (candidateLocation a st).
Proof.
  unfold verifyMigratedArtifact. destruct ((_ <>s "") && _) eqn:E1; [done|].
  destruct ((0 <? _) && _) eqn:E2; [done|]. intros _. apply andb_false_iff in E1, E2.
  split; [destruct E1|destruct E2]; bool_prop; cbn; [left|right|left; lia|right]; congruence.
Qed.

Lemma upsert_row_ok arts locs env a l v md merge :
  locations_ok arts locs -> In a (t_rows arts) -> same_content a l -> exact_content a l ->
  In (al_Role l) ["migration_candidate"; "migration_source"] ->
  (forall r, same_location r (merge r)) -> (forall r, al_Role (merge r) = al_Role r) ->
  (forall r, al_Role r = al_Role l -> owns a r -> owns a (merge r)) ->
  locations_ok arts
    (upsert_table (location_row env (scanArtifactRecordWithRun a) l v md) merge locs).
Proof.
  intros Hok Ha Hc He Hr Hs Hm Ho.
  apply upsert_locations_ok with a; auto with locations.
  - intros id. split_and!; [done..|by right|done].
  - unfold primary. cbn. cbn in Hr. intros E. rewrite E in Hr. by destruct Hr as [|[|[]]].
Qed.

Lemma copied_ok arts locs env o a st :
  locations_ok arts locs -> In a (t_rows arts) ->
  verifyMigratedArtifact (scanArtifactRecordWithRun a) st = Ok tt ->
  locations_ok arts (copied env o (scanArtifactRecordWithRun a) st locs).
Proof.
  intros Hok Ha Hv. pose proof (verified_same_content _ _ Hv) as Hc. unfold copied. cbv zeta.
  pose proof (source_same_content a "migration_source") as Hs.
  assert (He : exact_content a (candidateLocation (scanArtifactRecordWithRun a) st)) by (by intros []).
  apply upsert_row_ok; [apply upsert_row_ok|..]; auto with locations;
    first [ by right; left | by left | by intros _ | intros r; by apply location_merge_owns ].
Qed.

Lemma activated_ok env record aid o w r w' :
  world_ok w -> activateTx env record aid o w = (Ok r, w') -> world_ok w'.
Proof.
  intros Hok E.
  apply activateTx_ok in E as (a & t & rows & (Ha & Hp & Hi) & (Ht & Hof & Hid) & (Hv & Hs & Hz)
    & Hrows & El & Ea & _).
  unfold world_ok. rewrite El, Ea.
  pose proof (activate_locations_ok _ _ a t _ _ o (observing_metadata o) rows Hok Ha Hp Hi Ht
    Hid Hs Hz Hrows) as Hok1.
  set (a1 := moved_to (scanArtifactLocation t) (observing_metadata o) a).
  assert (Ha1 : In a1 (t_rows (table_update (artifact_is (p_ID record) aid)
      (moved_to (scanArtifactLocation t) (observing_metadata o)) (db_artifacts (wd_db w))))).
  { apply table_update_In. exists a. split; [done|]. unfold artifact_is.
    by rewrite Hp, Hi, !Z.eqb_refl. }
  assert (Hsame : same_artifact a a1) by (split; [done|cbn; by rewrite Hs, Hz]).
  apply upsert_locations_ok with a1; auto with locations.
  - intros id. eapply same_artifact_owns; [exact Hsame|]. split_and!; [done..| | |done].
    + by split; right.
    + right. right. by left.
  - done.
Qed.

Lemma completed_ok env now_text record aid o w r w' :
  world_ok w -> completeTx env now_text record aid o w = (Ok r, w') -> world_ok w'.
Proof.
  intros Hok E. apply completeTx_ok in E as (a & _ & [(_ & _ & ->)|(d & _ & _ & _ & El & Ea)]);
    [done|].
  unfold world_ok. rewrite El, Ea. apply metadata_locations_ok; [done|done|].
  intros l. by repeat split.
Qed.

Lemma migrate_ok env m w : world_ok w -> world_ok (migrate env m w).
Proof.
  intros Hok. unfold world_ok.
  destruct m as [s3_get s3_back record aid o|record aid o|now_text record aid o]; cbn [migrate].
  - destruct (CopyArtifactToBackend _ _ _ _ _ _ _) as [r w'] eqn:E. cbn.
    apply Copy_cases in E as [[-> _]|(o' & source & st & w1 & E1 & E2)]; [done|].
    apply copyToTarget_ok in E1 as (Edb & a & c & (Ha & _) & -> & _ & _ & _ & Hv & _).
    apply copyTx_ok in E2 as (-> & -> & _). rewrite Edb. by apply copied_ok.
  - destruct (ActivateArtifactLocation _ _ _ _ _) as [r w'] eqn:E. cbn.
    apply Activate_cases in E as [[-> _]|E]; [done|]. by eapply activated_ok.
  - destruct (CompleteArtifactObservation _ _ _ _ _ _) as [r w'] eqn:E. cbn.
    apply Complete_cases in E as [[-> _]|E]; [done|]. by eapply completed_ok.
Qed.

Lemma mstep_ok w w' : mstep w w' -> world_ok w -> world_ok w'.
Proof. intros [env m|w1 Hf] Hok; [by apply migrate_ok|]. by eapply store_locations_ok. Qed.

Lemma msteps_ok w w' : msteps w w' -> world_ok w -> world_ok w'.
Proof. induction 1; eauto using mstep_ok. Qed.

Lemma unmigrated_ok w : unmigrated w -> world_ok w.
Proof.
  intros (Ha & Hl & E). split; [done|done|..]; unfold keys_unique; rewrite E; try done.
  apply List.NoDup_nil.
Qed.

(** ** Nothing is lost *)

(** The artifact is or was read from this place, and the store still knows. *)
Definition known_place (db : DB) (aid : Z) (uri : string) : Prop :=
  (exists a, In a (t_rows (db_artifacts db)) /\ ar_ID a = aid /\ ar_URI a = uri)
  \/ (exists l, In l (t_rows (db_artifact_locations db)) /\ al_ArtifactID l = aid /\ al_URI l = uri).

Definition places_evolve (w w' : World) : Prop :=
  extends same_artifact (t_rows (db_artifacts (wd_db w))) (t_rows (db_artifacts (wd_db w')))
  /\ extends same_location (t_rows (db_artifact_locations (wd_db w)))
       (t_rows (db_artifact_locations (wd_db w')))
  /\ (forall aid uri, known_place (wd_db w) aid uri -> known_place (wd_db w') aid uri).

#[export] Instance evolves_preorder : PreOrder places_evolve.
Proof.
  split; [intros w; split_and!; [reflexivity..|done]|].
  intros a b c (A1 & L1 & K1) (A2 & L2 & K2). split_and!; [by etransitivity..|auto].
Qed.

Lemma extends_map {A} (P : A -> A -> Prop) (f : A -> A) l :
  (forall x, In x l -> P x (f x)) -> extends P l (List.map f l).
Proof.
  intros Hf. exists (List.map f l), []. rewrite app_nil_r. split; [done|].
  induction l as [|x l IH]; constructor; [apply Hf; by left|]. apply IH. intros y Hy. apply Hf. by right.
Qed.

(** Places are known as long as locations stay and artifacts that move leave
    one behind. *)
Lemma places_kept db db' :
  extends same_location (t_rows (db_artifact_locations db)) (t_rows (db_artifact_locations db')) ->
  (forall a, In a (t_rows (db_artifacts db)) -> known_place db' (ar_ID a) (ar_URI a)) ->
  forall aid uri, known_place db aid uri -> known_place db' aid uri.
Proof.
  intros He Ha aid uri [(a & Hin & <- & <-)|(l & Hin & <- & <-)]; [by apply Ha|].
  destruct (extends_In _ _ _ _ He Hin) as (l' & Hl' & [= _ _ E1] & [= _ E2 _] & _).
  right. exists l'. by rewrite E1, E2.
Qed.

Lemma copied_extends env o a st locs :
  extends same_location (t_rows locs) (t_rows (copied env o a st locs)).
Proof. unfold copied. cbv zeta. etransitivity; apply upsert_extends; auto with locations. Qed.

Lemma activate_evolves env record aid o w r w' :
  world_ok w -> activateTx env record aid o w = (Ok r, w') -> places_evolve w w'.
Proof.
  intros Hok E.
  apply activateTx_ok in E as (a & t & rows & (Ha & Hp & Hi) & (Ht & Hof & Hid) & (Hv & Hs & Hz)
    & Hrows & El & Ea & _).
  assert (HL : extends same_location (t_rows (db_artifact_locations (wd_db w)))
                 (t_rows (db_artifact_locations (wd_db w')))).
  { rewrite El. etransitivity; [|apply upsert_extends; auto with locations]. cbn.
    rewrite (update_each_rows _ _ _ _ _ Hrows). apply extends_map. intros l _.
    unfold updated_row. by destruct (location_of _ _ l). }
  split; [|split; [done|]].
  - rewrite Ea. apply extends_map. intros a0 H0. by eapply (activate_moved_same _ _ a t _ _ _ Hok).
  - apply places_kept; [done|]. intros a0 H0.
    destruct (artifact_is (p_ID record) aid a0) eqn:E0.
    + right. rewrite El. rewrite (activate_only _ _ a _ _ Hok Ha Hi a0 H0 E0).
      edestruct upsert_has as (l & Hl & Hk & _); [| | |exists l]; auto with locations.
      injection Hk as E1 _ E3. done.
    + left. exists a0. split; [|done]. rewrite Ea. apply table_update_In. exists a0. by rewrite E0.
Qed.

Lemma mstep_evolves w w' : world_ok w -> mstep w w' -> places_evolve w w'.
Proof.
  intros Hok [env m|w1 Hf].
  - destruct m as [s3_get s3_back record aid o|record aid o|now_text record aid o]; cbn [migrate].
    + destruct (CopyArtifactToBackend _ _ _ _ _ _ _) as [r w1] eqn:E. cbn.
      apply Copy_cases in E as [[E _]|(o' & source & st & w2 & E1 & E2)];
        [split_and!; rewrite E; [reflexivity..|done]|].
      apply copyToTarget_ok in E1 as (Edb & _). apply copyTx_ok in E2 as (Ea & El & _).
      rewrite Edb in Ea, El.
      assert (HL : extends same_location (t_rows (db_artifact_locations (wd_db w)))
                     (t_rows (db_artifact_locations (wd_db w1)))) by (rewrite El; apply copied_extends).
      split_and!; [by rewrite Ea|done|]. apply places_kept; [done|]. intros a Ha. left.
      exists a. by rewrite Ea.
    + destruct (ActivateArtifactLocation _ _ _ _ _) as [r w1] eqn:E. cbn.
      apply Activate_cases in E as [[E _]|E]; [split_and!; rewrite E; [reflexivity..|done]|].
      by eapply activate_evolves.
    + destruct (CompleteArtifactObservation _ _ _ _ _ _) as [r w1] eqn:E. cbn.
      apply Complete_cases in E as [[E _]|E]; [split_and!; rewrite E; [reflexivity..|done]|].
      apply completeTx_ok in E as (a & _ & [(_ & _ & ->)|(d & _ & _ & _ & El & Ea)]); [reflexivity|].
      assert (HL : extends same_location (t_rows (db_artifact_locations (wd_db w)))
                     (t_rows (db_artifact_locations (wd_db w1))))
        by (rewrite El; by apply (extends_update _)).
      split_and!; [rewrite Ea; by apply (extends_update _)|done|]. apply places_kept; [done|].
      intros a0 H0. left. rewrite Ea. eexists. split; [apply table_update_In; by exists a0|].
      by destruct (artifact_is _ _ a0).
  - destruct (Hf (lo_arts _ _ Hok)) as (_ & El & new & En).
    assert (HA : extends same_artifact (t_rows (db_artifacts (wd_db w))) (t_rows (db_artifacts (wd_db w1)))).
    { exists (t_rows (db_artifacts (wd_db w))), new. by split. }
    split_and!; [done|by rewrite El|]. apply places_kept; [by rewrite El|]. intros a Ha. left.
    exists a. rewrite En. split; [|done]. apply in_or_app. by left.
Qed.

Lemma msteps_evolve w w' : world_ok w -> msteps w w' -> places_evolve w w'.
Proof.
  intros Hok Hs. induction Hs as [w|w w1 w' H1 _ IH]; [reflexivity|].
  etransitivity; [by apply mstep_evolves|]. apply IH. by eapply mstep_ok.
Qed.

Lemma reachable_world_ok w : migration_reachable w -> world_ok w.
Proof. intros (w0 & H0 & Hs). eapply msteps_ok; [exact Hs|]. by apply unmigrated_ok. Qed.

(** ** A migration *)

Definition s3_none (uri : string) : res error string := Err (ErrText "no s3").

Definition demo_artifact : ArtifactRecord :=
  MkArtifact 1 1 0 0 0 "report" "local" "/var/areaflow/demo/r.txt" "r.txt" (sha256_hex "hello") 5
    "text/plain" [] 0.

Definition demo_stored : World :=
  MkWorld (set_artifacts (MkTable [demo_artifact] 2) demo_db)
    {["/var/areaflow/demo/r.txt" := "hello"]} (MkCounters 0 0 0 0).

(** Copy to another root, activate the copy until 15 January 2027, and
    complete the observation a second after it *)
Definition demo_deadline : Z := 1800000000000000000.
Definition demo_copy (root : string) : migration :=
  MCopy s3_none s3_none demo_project 1 (MkCopyArtifact "Local" root "alice" "move").
Definition demo_activate (id : Z) : ActivateArtifactOptions :=
  MkActivateArtifact id demo_deadline "alice" "go".
Definition demo_observed_env : Env :=
  MkEnv 1800000001000000 1800000001000000000 "2027-01-15T08:00:01Z" (Some "host")
    (Some "/home/af") (fun _ => false) (fun _ => false) (fun _ => true) (fun _ _ _ => Err (ErrText "no s3")).
Definition demo_complete : CompleteArtifactObservationOptions := MkCompleteObservation "bob" "done".

Definition demo_copied : World := migrate demo_env (demo_copy "/mnt/new") demo_stored.
Definition demo_activated : World :=
  migrate demo_env (MActivate demo_project 1 (demo_activate 2)) demo_copied.
Definition demo_stable : World :=
  migrate demo_observed_env (MComplete "2027-01-15 08:00:01+00" demo_project 1 demo_complete)
    demo_activated.

Definition demo_new_uri : string := "/mnt/new/demo/migration/artifact-1/r.txt".

Example demo_migration_ok :
  List.map (fun a => (ar_URI a, location_status a)) (t_rows (db_artifacts (wd_db demo_activated)))
  = [(demo_new_uri, "observing")]
  /\ List.map (fun l => (al_ID l, al_Role l, al_URI l))
       (t_rows (db_artifact_locations (wd_db demo_stable)))
     = [(1, "migration_source", "/var/areaflow/demo/r.txt"); (2, "primary", demo_new_uri)]
  /\ List.map location_status (t_rows (db_artifacts (wd_db demo_stable))) = ["stable"].
Proof. vm_compute. done. Qed.

Lemma demo_stored_unmigrated : unmigrated demo_stored.
Proof.
  split_and!; [|by split; [|split; constructor]|done].
  split; [done|]. split; [|repeat constructor; cbn; lia]. apply List.NoDup_cons; [by intros []|].
  apply List.NoDup_nil.
Qed.

Lemma demo_copy_step : mstep demo_stored demo_copied.
Proof. exact (StepMigrate demo_stored demo_env (demo_copy "/mnt/new")). Qed.

Lemma demo_activate_step : mstep demo_copied demo_activated.
Proof. exact (StepMigrate demo_copied demo_env (MActivate demo_project 1 (demo_activate 2))). Qed.

Lemma demo_complete_step : mstep demo_activated demo_stable.
Proof.
  exact (StepMigrate demo_activated demo_observed_env
           (MComplete "2027-01-15 08:00:01+00" demo_project 1 demo_complete)).
Qed.

Lemma demo_copied_reachable : migration_reachable demo_copied.
Proof. exact (ex_intro _ demo_stored (conj demo_stored_unmigrated (rtc_once _ _ demo_copy_step))). Qed.

Lemma reachable_step w w' : migration_reachable w -> mstep w w' -> migration_reachable w'.
Proof. intros (w0 & H0 & Hs) H. exists w0. split; [done|]. by eapply rtc_r. Qed.

Lemma demo_activated_reachable : migration_reachable demo_activated.
Proof. exact (reachable_step _ _ demo_copied_reachable demo_activate_step). Qed.

Lemma demo_migration_steps : msteps demo_stored demo_stable.
Proof.
  exact (rtc_l _ _ _ _ demo_copy_step
           (rtc_l _ _ _ _ demo_activate_step (rtc_once _ _ demo_complete_step))).
Qed.

(** ** Theorems *)

(** C22. However copies, activations and completions interleave with each other
    and with the rest of the store, every location belongs to an artifact of
    its project and carries its recorded hash and size, no artifact has two
    primary locations or two locations with the same role and URI, and the
    artifact row names the place of its primary location. *)
Theorem locations_invariant w : migration_reachable w -> world_ok w.
Proof. apply reachable_world_ok. Qed.

Lemma locations_invariant_witness :
  migration_reachable demo_activated /\ world_ok demo_activated
  /\ List.length (t_rows (db_artifact_locations (wd_db demo_activated))) = 2%nat.
Proof.
  split; [apply demo_activated_reachable|]. split; [|vm_compute; reflexivity].
  apply locations_invariant, demo_activated_reachable.
Defined.

(** Migrations lose nothing: artifacts keep their identity, source path,
    recorded hash and size; locations stay where they are and stay verified;
    and every place an artifact was ever read from stays known. *)
Theorem migration_history w w' :
  migration_reachable w -> msteps w w' -> places_evolve w w'.
Proof.
  intros Hr Hs. apply msteps_evolve; [by apply reachable_world_ok|done].
Qed.

Lemma migration_history_witness :
  known_place (wd_db demo_stored) 1 "/var/areaflow/demo/r.txt"
  /\ known_place (wd_db demo_stable) 1 "/var/areaflow/demo/r.txt".
Proof.
  assert (H : known_place (wd_db demo_stored) 1 "/var/areaflow/demo/r.txt")
    by (left; exists demo_artifact; split; [by left|done]).
  split; [exact H|]. refine (proj2 (proj2 (migration_history demo_stored demo_stable _ _)) _ _ H).
  - exists demo_stored. split; [apply demo_stored_unmigrated|reflexivity].
  - exact demo_migration_steps.
Defined.
