(* ===== verification/MigrationLifecycle.v ===== *)
(** * Artifact locations: reading, observing, migrating again

    What a reader of artifact contents and an operator of migrations can rely
    on, on top of the invariant of [ArtifactMigrationSpec]. *)

From stdpp Require Import base list strings numbers relations gmap.
From Stdlib Require Import ZArith Lia String.
From S2P Require Import Prelude GoString Sha256 Json GoTime Schema Tx FilePath Runner.
From S2P Require Import ArtifactMigration Demo LeaseSpec Steps System ArtifactSpec MigrationSteps.
From S2P Require Import ArtifactMigrationSpec.

(** ** Reading *)

Lemma GetArtifact_ok aid w a w' :
  GetArtifact aid w = (Ok a, w') ->
  w' = w /\ exists a0, In a0 (t_rows (db_artifacts (wd_db w))) /\ ar_ID a0 = aid
    /\ a = scanArtifactRecordWithRun a0.
Proof.
  unfold GetArtifact. destruct (_ <=? 0); [done|]. intros E.
  apply bind_ok in E as (rows & w1 & Es & E). apply select_rows_ok in Es as [-> ->]. step_ok.
  match goal with H : first_row _ _ = _ |- _ => apply first_row_ok in H as [(l' & H) ->] end.
  apply select_cons_In in H as [Hin Hp]. bool_prop. eauto.
Qed.

(** The locations a read may fall back on *)
Definition readable_role (l : ArtifactLocation) : bool :=
  str_in (al_Role l) ["primary"; "migration_candidate"; "migration_source"].

Lemma artifactReadLocations_ok aid w :
  exists ls, artifactReadLocations aid w = (Ok ls, w)
    /\ forall l, In l ls <-> exists l0, In l0 (t_rows (db_artifact_locations (wd_db w)))
         /\ al_ArtifactID l0 = aid /\ readable_role l0 = true /\ l = scanArtifactLocation l0.
Proof.
  eexists. split; [reflexivity|]. intros l. rewrite in_map_iff. split.
  - intros (l0 & <- & H). apply sort_stable_In, table_select_In in H as [H Hp].
    exists l0. bool_prop. done.
  - intros (l0 & H & <- & Hr & ->). exists l0. split; [done|].
    apply sort_stable_In, table_select_In. split; [done|]. cbn. by rewrite Z.eqb_refl.
Qed.

(** What a fallback returns was read from a location that was not skipped. *)
Lemma read_fallback_ok s3_get record ls e w c :
  read_fallback s3_get record ls e w = Ok c ->
  exists l c', In l ls /\ skipped record l = false
    /\ readArtifactRecordContent s3_get (at_location record l) w = Ok c'
    /\ c = MkContent record (cn_Content c') (cn_ContentType c').
Proof.
  revert e. induction ls as [|l ls IH]; intros e; cbn; [done|]. destruct (skipped record l) eqn:Es.
  - intros E. destruct (IH _ E) as (l' & c' & Hl & H). exists l', c'. split; [by right|done].
  - destruct (readArtifactRecordContent _ _ _) as [c'|e'] eqn:Er.
    + intros [= <-]. exists l, c'. split; [by left|done].
    + intros E. destruct (IH _ E) as (l' & c2 & Hl & H). exists l', c2. split; [by right|done].
Qed.

(** It succeeds when one of them can be read. *)
Lemma read_fallback_succeeds s3_get record ls e w l c :
  In l ls -> skipped record l = false ->
  readArtifactRecordContent s3_get (at_location record l) w = Ok c ->
  exists c', read_fallback s3_get record ls e w = Ok c'.
Proof.
  intros Hl Hs Hr. revert e. induction ls as [|x ls IH]; intros e; [done|]. cbn.
  destruct Hl as [->|Hl].
  - rewrite Hs, Hr. eauto.
  - destruct (skipped record x); [by apply IH|].
    destruct (readArtifactRecordContent _ (at_location record x) _); [eauto|by apply IH].
Qed.

(** What is served was checked against the row or against a location that
    agrees with it. *)
Lemma served_recorded s3_get aid w c w' :
  world_ok w -> GetArtifactContent s3_get aid w = (Ok c, w') ->
  w' = w /\ exists a, In a (t_rows (db_artifacts (wd_db w))) /\ ar_ID a = aid
    /\ cn_Artifact c = scanArtifactRecordWithRun a
    /\ (ar_SHA256 a <> "" -> sha256_hex (cn_Content c) = ar_SHA256 a)
    /\ (0 < ar_SizeBytes a -> len (cn_Content c) = ar_SizeBytes a).
Proof.
  intros Hok E. unfold GetArtifactContent in E.
  apply bind_ok in E as (record & w1 & E1 & E). apply GetArtifact_ok in E1 as (-> & a & Ha & Hi & ->).
  destruct (readArtifactRecordContent _ _ _) as [c0|e] eqn:Er.
  - injection E as <- <-. split; [done|]. exists a.
    assert (Hc : cn_Artifact c0 = scanArtifactRecordWithRun a) by (by eapply read_content_artifact).
    apply read_content_checked in Er as [Hs Hz].
    cbn [ar_SHA256 ar_SizeBytes scanArtifactRecordWithRun] in *.
    split_and!; [done..| |]; intros Hn; [destruct Hs as [|Hs]|destruct Hz as [|Hz]]; done || lia.
  - destruct (artifactReadLocations_ok aid w) as (ls & Els & Hls).
    apply bind_ok in E as (ls' & w2 & E2 & E). rewrite Els in E2. injection E2 as <- <-.
    injection E as E <-. split; [done|]. exists a.
    apply read_fallback_ok in E as (l & c' & Hl & _ & Erl & ->).
    apply Hls in Hl as (l0 & Hl0 & Hal & _ & ->).
    destruct (owner_unique _ _ a l0 Hok Ha Hl0) as (_ & _ & [Hsha Hsize] & _); [congruence|].
    apply read_content_checked in Erl as [Hs Hz].
    cbn [ar_SHA256 ar_SizeBytes at_location al_SHA256 al_SizeBytes scanArtifactLocation cn_Content
      cn_Artifact] in *.
    split_and!; [done..| |]; intros Hn.
    + destruct Hsha as [|E]; [done|]. destruct Hs as [Hs|Hs]; congruence.
    + destruct Hsize as [|E]; [lia|]. destruct Hz as [Hz|Hz]; [lia|congruence].
Qed.

(** C25. Whatever location it comes from, content that is handed out in a
    state the store can reach has the hash and the size its artifact row
    records; reading changes nothing. *)
Theorem served_content_recorded s3_get aid w c w' :
  migration_reachable w -> GetArtifactContent s3_get aid w = (Ok c, w') ->
  w' = w /\ exists a, In a (t_rows (db_artifacts (wd_db w))) /\ ar_ID a = aid
    /\ cn_Artifact c = scanArtifactRecordWithRun a
    /\ (ar_SHA256 a <> "" -> sha256_hex (cn_Content c) = ar_SHA256 a)
    /\ (0 < ar_SizeBytes a -> len (cn_Content c) = ar_SizeBytes a).
Proof. intros Hr. apply served_recorded. by apply reachable_world_ok. Qed.

Lemma served_content_recorded_witness :
  exists c, GetArtifactContent s3_none 1 demo_activated = (Ok c, demo_activated)
    /\ len (cn_Content c) = 5.
Proof.
  set (run := GetArtifactContent s3_none 1 demo_activated).
  assert (H : exists c, fst run = Ok c) by (eexists; vm_compute; reflexivity).
  destruct H as [c H].
  assert (E : run = (Ok c, snd run)) by (rewrite <- H; apply surjective_pairing).
  destruct (served_content_recorded s3_none 1 demo_activated c (snd run)
    demo_activated_reachable E) as (Ew & a & Ha & _ & _ & _ & Hs).
  exists c. rewrite <- Ew. split; [exact E|].
  assert (Hz : ar_SizeBytes a = 5)
    by (vm_compute in Ha; destruct Ha as [<-|[]]; reflexivity).
  rewrite <- Hz. apply Hs. rewrite Hz. reflexivity.
Defined.

(** ** Copying *)

Lemma verified_back a back :
  verifyMigratedArtifactContent a back = Ok tt -> ar_SHA256 a <> "" -> sha256_hex back = ar_SHA256 a.
Proof.
  unfold verifyMigratedArtifactContent. destruct ((_ <>s "") && _) eqn:E; [done|]. intros _ Hn.
  apply andb_false_iff in E as [E|E]; bool_prop; congruence.
Qed.

(** C24. A copy that succeeds was read from the artifact's current place with
    the recorded hash, written, and read back: the candidate it records has
    the hash and the size of what was copied, which are the recorded ones, and
    the bytes read back from its URI have the recorded hash; in the local
    store they are the bytes that were copied.  The artifact row is untouched.
    A copy that fails, wherever it fails, leaves the database as it was. *)
Theorem copy_verified env s3_get s3_back record aid o w :
  let '(r, w') := CopyArtifactToBackend env s3_get s3_back record aid o w in
  match r with
  | Err _ => wd_db w' = wd_db w
  | Ok l =>
      db_artifacts (wd_db w') = db_artifacts (wd_db w)
      /\ exists a content backend back,
        (In a (t_rows (db_artifacts (wd_db w))) /\ ar_ProjectID a = p_ID record /\ ar_ID a = aid)
        /\ readArtifactRecordContent s3_get (scanArtifactRecordWithRun a) w = Ok content
        /\ (exists row, In row (t_rows (db_artifact_locations (wd_db w')))
                        /\ l = scanArtifactLocation row)
        /\ (al_ArtifactID l = aid /\ al_Role l = "migration_candidate" /\ al_VerifiedAt l <> None)
        /\ (al_SHA256 l = sha256_hex (cn_Content content)
            /\ al_SizeBytes l = len (cn_Content content))
        /\ ReadConfigured s3_back (wd_files w') backend (al_URI l) = Ok back
        /\ (ar_SHA256 a <> "" -> al_SHA256 l = ar_SHA256 a /\ sha256_hex back = ar_SHA256 a)
        /\ (backend = "local" -> trim_space (al_URI l) = al_URI l -> back = cn_Content content)
  end.
Proof.
  destruct (CopyArtifactToBackend _ _ _ _ _ _ _) as [r w'] eqn:E.
  apply Copy_cases in E as [[Hdb [e ->]]|(o' & source & st & w1 & E1 & E2)]; [done|].
  pose proof (copyTx_files env o' source st w1) as Hf. rewrite E2 in Hf. cbn in Hf.
  apply copyToTarget_ok in E1 as (Edb & a & content & Ha & -> & Hread & Hst & Hput & Hv & back
    & Hback & Hvb).
  apply copyTx_ok in E2 as (Ea & El & x & Hx & -> & [= Hk1 Hk2 Hk3] & [= Hs Hz Hva]).
  rewrite Edb in *. split; [done|]. exists a, content, (s_Backend st), back. rewrite Hf.
  assert (Esha : s_SHA256 st = sha256_hex (cn_Content content)) by (by rewrite Hst).
  assert (Elen : s_SizeBytes st = len (cn_Content content)) by (by rewrite Hst).
  cbn [scanArtifactLocation al_ArtifactID al_Role al_VerifiedAt al_SHA256 al_SizeBytes al_URI].
  rewrite Hk1, Hk2, Hk3, Hs, Hz, Hva.
  split; [done|]. split; [done|]. split; [by exists x|]. split; [split_and!; [apply Ha|done..]|].
  split; [done|]. split; [done|]. split.
  - intros Hn. split; [|by eapply verified_back].
    apply verified_same_content in Hv as [[Hv|Hv] _]; [done|exact Hv].
  - intros El' Ht. destruct Hput as [[_ Hput]|Hput]; [|congruence]. rewrite El' in Hback.
    change (getLocal (wd_files w1) (s_URI st) = Ok back) in Hback. unfold getLocal in Hback.
    rewrite Ht, Hput in Hback. destruct (s_URI st =s ""); [done|]. by injection Hback.
Qed.

Example copy_verified_example :
  match CopyArtifactToBackend demo_env s3_none s3_none demo_project 1
          (MkCopyArtifact "Local" "/mnt/new" "alice" "move") demo_stored with
  | (Ok l, w') => al_URI l = demo_new_uri /\ wd_files w' !! demo_new_uri = Some "hello"
  | (Err _, _) => False
  end.
Proof. vm_compute. done. Qed.

(** ** Activating *)

Lemma GetArtifact_eq aid w a :
  table_ok (db_artifacts (wd_db w)) -> In a (t_rows (db_artifacts (wd_db w))) -> ar_ID a = aid ->
  0 < aid -> GetArtifact aid w = (Ok (scanArtifactRecordWithRun a), w).
Proof.
  intros Hok Ha Hi Hp. unfold GetArtifact. rewrite (proj2 (Z.leb_gt _ _) Hp).
  unfold bind, select_rows. cbn [tget artifacts_table].
  rewrite (table_select_id _ _ a); [done|exact Hok| |done|by apply Z.eqb_eq].
  intros a' E. bool_prop. cbn. congruence.
Qed.

(** The metadata an activation and a completion write *)
Lemma observing_text o md k s :
  mget k (observing_metadata o) = Some (JStr s) ->
  artifactMetadataString (jmap_decode (jsonb_concat md (observing_metadata o))) k = trim_space s.
Proof.
  unfold artifactMetadataString. rewrite mget_decode.
  change (jsonb_concat md (observing_metadata o))
    with (mset "artifact_migration_status" (JStr "observing")
            (mset "artifact_migration_observation_until"
               (JStr (format_rfc3339 (ao_ObservationUntil o))) md)).
  change (observing_metadata o)
    with [("artifact_migration_observation_until", JStr (format_rfc3339 (ao_ObservationUntil o)));
          ("artifact_migration_status", JStr "observing")].
  rewrite !mget_mset. cbn [mget]. rewrite (String.eqb_sym k), (String.eqb_sym k).
  case_eqb; [subst|case_eqb; [|done]].
  - cbn. by intros [= <-].
  - subst. cbn. by intros [= <-].
Qed.

Lemma stable_text now_text md :
  artifactMetadataString (jmap_decode (jsonb_concat md (stable_metadata now_text)))
    "artifact_migration_status" = "stable".
Proof.
  unfold artifactMetadataString. rewrite mget_decode.
  change (jsonb_concat md (stable_metadata now_text))
    with (mset "artifact_migration_status" (JStr "stable")
            (mset "artifact_migration_observed_at" (JStr now_text) md)).
  by rewrite mget_mset_eq.
Qed.

(** Reading depends on the place, the hash and the size only. *)
Lemma read_content_same s3_get a a' w c :
  ar_StorageBackend a' = ar_StorageBackend a -> ar_URI a' = ar_URI a ->
  ar_SHA256 a' = ar_SHA256 a -> ar_SizeBytes a' = ar_SizeBytes a ->
  readArtifactRecordContent s3_get a w = Ok c ->
  exists c', readArtifactRecordContent s3_get a' w = Ok c'.
Proof.
  intros E1 E2 E3 E4. unfold readArtifactRecordContent. rewrite E1, E2, E3, E4.
  repeat (case_match; try done). eauto.
Qed.

Lemma trim_format t :
  0 <= year_of t <= 9999 -> trim_space (format_rfc3339 t) = format_rfc3339 t.
Proof.
  intros Hy. apply trim_space_fixpoint. rewrite format_bytes_of by done.
  pose proof (format_printable t Hy) as Hp.
  split; apply space_width_wf; [done|]. by apply Forall_rev.
Qed.

Lemma Activate_ok env record aid o w a' w' :
  ActivateArtifactLocation env record aid o w = (Ok a', w') ->
  0 < aid /\ 0 < p_ID record /\ wd_files w' = wd_files w
  /\ activateTx env record aid o w = (Ok (Ok a'), w').
Proof.
  intros E. pose proof (activateTx_files env record aid o) as Hf.
  unfold ActivateArtifactLocation in E. destruct (_ || _ || _) eqn:Eg; [done|].
  destruct ((trim_space _ =s "") || _ || _); [done|]. destruct (negb _); [done|].
  pose proof (transact_files _ w Hf) as Hfw. rewrite E in Hfw.
  apply transact_cases in E as [E|[_ [e [=]]]]. bool_prop. auto.
Qed.

(** The place an artifact leaves stays readable as a source, with the recorded
    hash and size. *)
Lemma activated_source env record aid o w r w' a :
  world_ok w -> activateTx env record aid o w = (Ok r, w') ->
  In a (t_rows (db_artifacts (wd_db w))) -> ar_ID a = aid ->
  (forall l, In l (t_rows (db_artifact_locations (wd_db w))) -> al_ArtifactID l = aid ->
     al_URI l = ar_URI a -> al_StorageBackend l = ar_StorageBackend a) ->
  exists a' l,
    (In a' (t_rows (db_artifacts (wd_db w'))) /\ ar_ID a' = aid /\ same_artifact a a'
     /\ location_status a' = "observing")
    /\ In l (t_rows (db_artifact_locations (wd_db w'))) /\ al_ArtifactID l = aid
    /\ al_Role l = "migration_source" /\ al_URI l = ar_URI a
    /\ al_StorageBackend l = ar_StorageBackend a
    /\ al_SHA256 l = ar_SHA256 a /\ al_SizeBytes l = ar_SizeBytes a.
Proof.
  intros Hok E Ha Hi Hb. pose proof (activated_ok _ _ _ _ _ _ _ Hok E) as Hok'.
  apply activateTx_ok in E as (a0 & t & rows & (Ha0 & Hp & Hi0) & (Ht & Hof & Hid) & (Hv & Hs & Hz)
    & Hrows & El & Ea & _).
  assert (a0 = a) as ->
    by (eapply table_ok_inj; [apply (lo_arts _ _ Hok)|done|done|]; cbn; congruence).
  set (a' := moved_to (scanArtifactLocation t) (observing_metadata o) a).
  assert (Ha' : In a' (t_rows (db_artifacts (wd_db w')))).
  { rewrite Ea. apply table_update_In. exists a. unfold artifact_is.
    by rewrite Hp, Hi, !Z.eqb_refl. }
  assert (Hst : location_status a' = "observing")
    by (exact (observing_text o (ar_Metadata a) "artifact_migration_status" "observing" eq_refl)).
  assert (Hsame : same_artifact a a') by (split; [done|cbn; by rewrite Hs, Hz]).
  edestruct (upsert_has (location_row env (scanArtifactRecordWithRun a)
    (locationFromArtifact (scanArtifactRecordWithRun a) "migration_source") (Some (env_now env))
    retained) keep_retained) as (l & Hl & [= Hk1 Hk2 Hk3] & Hcase); [auto with locations..|].
  rewrite <- El in Hl. exists a', l. split; [done|].
  destruct (owner_unique _ _ a' l Hok' Ha' Hl) as (_ & _ & _ & _ & He); [cbn; congruence|].
  destruct He as [He1 He2]; [by rewrite Hk2|].
  assert (E1 : ar_SHA256 a' = ar_SHA256 a) by exact Hs.
  assert (E2 : ar_SizeBytes a' = ar_SizeBytes a) by exact Hz.
  split_and!; [done|congruence|done|done| |congruence|congruence].
  destruct Hcase as [->|(l0 & Hl0 & ->)]; [done|].
  eapply activate_In in Hl0 as (l1 & Hl1 & E0); [|exact Hrows].
  destruct (upd_fields (p_ID record) aid o l1) as [F _]. rewrite <- E0 in F.
  injection F as _ _ F1 F2 F3. cbn in Hk1, Hk3 |- *. rewrite F2. apply Hb; congruence.
Qed.

(** C23. Activating a copy never makes an artifact unreadable: if its content
    could be read where it was, then after the activation, with the files and
    the object store as they were, it can still be read, from the new place or
    from the one it left, whatever is wrong with the new one. *)
Theorem activation_keeps_readable env record aid o s3_get w a w' r c :
  migration_reachable w -> ActivateArtifactLocation env record aid o w = (Ok r, w') ->
  GetArtifact aid w = (Ok a, w) -> readArtifactRecordContent s3_get a w = Ok c ->
  (forall l, In l (t_rows (db_artifact_locations (wd_db w))) -> al_ArtifactID l = aid ->
     al_URI l = ar_URI a -> al_StorageBackend l = ar_StorageBackend a) ->
  exists c', GetArtifactContent s3_get aid w' = (Ok c', w')
    /\ (ar_SHA256 a <> "" -> sha256_hex (cn_Content c') = sha256_hex (cn_Content c)).
Proof.
  intros Hr E Eg Er Hb. pose proof (reachable_world_ok w Hr) as Hok.
  apply Activate_ok in E as (Haid & _ & Hf & E).
  apply GetArtifact_ok in Eg as (_ & a0 & Ha0 & Hi0 & ->).
  pose proof (activated_ok _ _ _ _ _ _ _ Hok E) as Hok'.
  destruct (activated_source _ _ _ _ _ _ _ a0 Hok E Ha0 Hi0 Hb)
    as (a' & l & (Ha' & Hi' & Hsame & Hst) & Hl & Hal & Hrole & Huri & Hbk & Hsha & Hsize).
  destruct Hsame as [_ [= _ _ E1 E2 _]].
  assert (Hrd : forall x, ar_StorageBackend x = ar_StorageBackend a0 -> ar_URI x = ar_URI a0 ->
    ar_SHA256 x = ar_SHA256 a0 -> ar_SizeBytes x = ar_SizeBytes a0 ->
    exists c', readArtifactRecordContent s3_get x w' = Ok c').
  { intros x X1 X2 X3 X4. destruct (read_content_same s3_get (scanArtifactRecordWithRun a0) x w c)
      as [c' Hc']; [done..|]. exists c'. unfold readArtifactRecordContent in *. by rewrite Hf. }
  assert (Hok2 : exists c', GetArtifactContent s3_get aid w' = (Ok c', w')).
  { unfold GetArtifactContent, bind. rewrite (GetArtifact_eq aid w' a'); [|apply Hok'|done..].
    destruct (readArtifactRecordContent s3_get (scanArtifactRecordWithRun a') w') as [c1|e] eqn:E3;
      [eauto|].
    destruct (artifactReadLocations_ok aid w') as (ls & -> & Hls).
    assert (Hin : In (scanArtifactLocation l) ls).
    { apply Hls. exists l. split_and!; [done..| |done]. unfold readable_role. by rewrite Hrole. }
    assert (Hns : skipped (scanArtifactRecordWithRun a') (scanArtifactLocation l) = false).
    { apply orb_false_iff. split.
      - destruct (_ && _) eqn:Esk; [|done]. exfalso. bool_prop. cbn in H, H0.
        destruct (Hrd (scanArtifactRecordWithRun a')) as [c1 Hc1]; cbn; congruence.
      - cbn. rewrite Hrole. change (artifactMetadataString (jmap_decode (ar_Metadata a'))
          "artifact_migration_status") with (location_status a'). by rewrite Hst. }
    destruct (Hrd (at_location (scanArtifactRecordWithRun a') (scanArtifactLocation l)))
      as [c1 Hc1]; [done..|].
    destruct (read_fallback_succeeds s3_get _ ls e w' _ c1 Hin Hns Hc1) as [c2 ->]. eauto. }
  destruct Hok2 as [c' Hc']. exists c'. split; [done|]. intros Hn.
  destruct (served_recorded _ _ _ _ _ Hok' Hc') as (_ & a2 & Ha2 & Hi2 & _ & H2 & _).
  assert (a2 = a') as -> by (eapply table_ok_inj; [apply (lo_arts _ _ Hok')|done|done|]; cbn; congruence).
  cbn in Hn. rewrite H2 by congruence. apply read_content_checked in Er as [[Er|Er] _]; [done|].
  rewrite <- Er. exact E1.
Qed.

Lemma GetArtifact_reads aid : reads (GetArtifact aid).
Proof. unfold GetArtifact. reads_split. Qed.

Lemma activation_keeps_readable_witness :
  exists r c, ActivateArtifactLocation demo_env demo_project 1 (demo_activate 2) demo_copied
              = (Ok r, demo_activated)
    /\ GetArtifactContent s3_none 1 demo_activated = (Ok c, demo_activated).
Proof.
  assert (E : exists r, ActivateArtifactLocation demo_env demo_project 1 (demo_activate 2)
                          demo_copied = (Ok r, demo_activated)).
  { set (act := ActivateArtifactLocation demo_env demo_project 1 (demo_activate 2) demo_copied).
    assert (H : exists r, fst act = Ok r) by (eexists; vm_compute; reflexivity).
    destruct H as [r H]. exists r. rewrite <- H. exact (surjective_pairing act). }
  assert (Hg : fst (GetArtifact 1 demo_copied) = Ok demo_artifact) by (vm_compute; reflexivity).
  assert (Er : exists c, readArtifactRecordContent s3_none demo_artifact demo_copied = Ok c)
    by (eexists; vm_compute; reflexivity).
  assert (Hb : forallb (fun l => al_StorageBackend l =s "local")
                 (t_rows (db_artifact_locations (wd_db demo_copied))) = true)
    by (vm_compute; reflexivity).
  assert (Eg : GetArtifact 1 demo_copied = (Ok demo_artifact, demo_copied))
    by (rewrite (surjective_pairing (GetArtifact 1 demo_copied)), Hg,
          (GetArtifact_reads 1 demo_copied); reflexivity).
  destruct E as [r E], Er as [c Er]. exists r.
  destruct (activation_keeps_readable demo_env demo_project 1 (demo_activate 2) s3_none
    demo_copied demo_artifact demo_activated r c demo_copied_reachable E Eg Er) as (c' & Hc & _).
  - intros l Hl _ _. apply (proj1 (forallb_forall _ _) Hb) in Hl. by apply String.eqb_eq in Hl.
  - exists c'. split; [exact E|exact Hc].
Defined.

(** ** Observing *)

(** The artifact waits for a deadline, at a verified primary location. *)
Definition waiting (db : DB) (pid aid deadline : Z) : Prop :=
  exists a l, In a (t_rows (db_artifacts db)) /\ artifact_is pid aid a = true
    /\ location_status a = "observing" /\ observation_until a = Some deadline
    /\ In l (t_rows (db_artifact_locations db)) /\ verified_primary pid aid l = true.

(** Steps that do not activate or complete the artifact itself *)
Definition leaves (aid : Z) (m : migration) : Prop :=
  match m with
  | MCopy _ _ _ _ _ => True
  | MActivate _ aid' _ | MComplete _ _ aid' _ => aid' <> aid
  end.

Inductive elsewhere (aid : Z) (w : World) : World -> Prop :=
| ElseMigrate env m : leaves aid m -> elsewhere aid w (migrate env m w)
| ElseOther w' : store_frame (wd_db w) (wd_db w') -> elsewhere aid w w'.

Lemma verified_primary_spec pid aid l :
  verified_primary pid aid l = true <->
  al_ProjectID l = pid /\ al_ArtifactID l = aid /\ primary l /\ al_VerifiedAt l <> None.
Proof.
  unfold verified_primary, primary. destruct (al_VerifiedAt l); split.
  - intros H. bool_prop. done.
  - intros (-> & -> & -> & _). by rewrite !Z.eqb_refl.
  - rewrite andb_false_r. done.
  - by intros (_ & _ & _ & []).
Qed.

Lemma verified_primary_same pid aid l l' :
  same_location l l' -> al_Role l' = al_Role l -> verified_primary pid aid l = true ->
  verified_primary pid aid l' = true.
Proof.
  rewrite !verified_primary_spec. unfold primary.
  intros ([= _ -> ->] & _ & Hv) -> (? & ? & ? & ?). auto.
Qed.

(** An upsert keeps a verified primary location. *)
Lemma upsert_primary row merge pid aid t l :
  (forall r, same_location r (merge r)) -> (forall r, al_Role (merge r) = al_Role r) ->
  In l (t_rows t) -> verified_primary pid aid l = true ->
  exists l', In l' (t_rows (upsert_table row merge t)) /\ verified_primary pid aid l' = true.
Proof.
  intros Hs Hr Hl Hp. destruct (upsert_keeps row merge Hs Hr t l Hl) as (l' & Hl' & Hsame & Hrole).
  exists l'. split; [done|]. by eapply verified_primary_same.
Qed.

Lemma waiting_elsewhere pid aid d w w' :
  world_ok w -> elsewhere aid w w' -> waiting (wd_db w) pid aid d -> waiting (wd_db w') pid aid d.
Proof.
  intros Hok Hst (a & l & Ha & Hi & Hs & Hu & Hl & Hp).
  assert (Hia : ar_ID a = aid) by (unfold artifact_is in Hi; bool_prop; done).
  destruct Hst as [env m Hm|w1 Hf].
  - destruct m as [s3_get s3_back record aid' o|record aid' o|now_text record aid' o]; cbn [migrate].
    + destruct (CopyArtifactToBackend _ _ _ _ _ _ _) as [r w1] eqn:E. cbn.
      apply Copy_cases in E as [[-> _]|(o' & source & st & w2 & E1 & E2)]; [by exists a, l|].
      apply copyToTarget_ok in E1 as (Edb & _). apply copyTx_ok in E2 as (Ea & El & _).
      rewrite Edb in Ea, El. unfold waiting. rewrite Ea, El. unfold copied. cbv zeta.
      edestruct upsert_primary as (l1 & Hl1 & Hp1); [| |exact Hl|exact Hp|];
        [apply location_merge_same|done|].
      edestruct upsert_primary as (l2 & Hl2 & Hp2); [| |exact Hl1|exact Hp1|];
        [apply location_merge_same|done|]. by exists a, l2.
    + destruct (ActivateArtifactLocation _ _ _ _ _) as [r w1] eqn:E. cbn.
      apply Activate_cases in E as [[-> _]|E]; [by exists a, l|].
      apply activateTx_ok in E as (a0 & t & rows & _ & _ & _ & Hrows & El & Ea & _).
      unfold waiting. rewrite Ea, El. cbn in Hm.
      assert (Hl0 : In l rows).
      { eapply activate_In; [exact Hrows|]. exists l. split; [done|]. unfold updated_row.
        replace (location_of (p_ID record) aid' l) with false; [done|]. unfold location_of.
        apply verified_primary_spec in Hp as (_ & Hp & _). lia. }
      edestruct (upsert_primary (location_row env (scanArtifactRecordWithRun a0)
        (locationFromArtifact (scanArtifactRecordWithRun a0) "migration_source")
        (Some (env_now env)) retained) keep_retained pid aid
        (MkTable rows (t_next (db_artifact_locations (wd_db w))))) as (l1 & Hl1 & Hp1);
        [apply keep_retained_same|done|exact Hl0|exact Hp|].
      exists a, l1. split_and!; [|done..]. apply table_update_In. exists a. split; [done|].
      replace (artifact_is (p_ID record) aid' a) with false; [done|]. unfold artifact_is. lia.
    + destruct (CompleteArtifactObservation _ _ _ _ _ _) as [r w1] eqn:E. cbn.
      apply Complete_cases in E as [[-> _]|E]; [by exists a, l|]. cbn in Hm.
      apply completeTx_ok in E as (a0 & _ & [(_ & _ & ->)|(d' & _ & _ & _ & El & Ea)]);
        [by exists a, l|].
      unfold waiting. rewrite Ea, El. exists a, l. split_and!; [|done..| |done];
        apply table_update_In; eexists; (split; [done|]).
      * replace (artifact_is (p_ID record) aid' a) with false; [done|]. unfold artifact_is. lia.
      * replace (verified_primary (p_ID record) aid' l) with false; [done|]. symmetry.
        apply not_true_iff_false. intros H. apply verified_primary_spec in H as (_ & H & _).
        apply verified_primary_spec in Hp as (_ & Hp & _). congruence.
  - destruct (Hf (lo_arts _ _ Hok)) as (_ & El & new & En). exists a, l. rewrite El, En.
    split_and!; [|done..]. apply in_or_app. by left.
Qed.

Lemma waiting_steps pid aid d w w' :
  world_ok w -> rtc (elsewhere aid) w w' -> waiting (wd_db w) pid aid d ->
  world_ok w' /\ waiting (wd_db w') pid aid d.
Proof.
  intros Hok Hs. induction Hs as [w|w w1 w' H1 _ IH]; [done|]. intros Hw. apply IH.
  - eapply mstep_ok; [|exact Hok]. destruct H1; by constructor.
  - by eapply waiting_elsewhere.
Qed.

Lemma activate_waits env record aid o w a' w' :
  world_ok w -> ActivateArtifactLocation env record aid o w = (Ok a', w') ->
  0 <= year_of (ao_ObservationUntil o) <= 9999 ->
  waiting (wd_db w') (p_ID record) aid (ao_ObservationUntil o / second_ns * second_ns).
Proof.
  intros Hok E Hy. apply Activate_ok in E as (_ & _ & _ & E).
  apply activateTx_ok in E as (a & t & rows & (Ha & Hp & Hi) & (Ht & Hof & Hid) & (Hv & _)
    & Hrows & El & Ea & _).
  assert (Hl0 : In (promote o t) rows).
  { eapply activate_In; [exact Hrows|]. exists t. split; [done|]. unfold updated_row. by rewrite Hof. }
  edestruct (upsert_primary (location_row env (scanArtifactRecordWithRun a)
    (locationFromArtifact (scanArtifactRecordWithRun a) "migration_source")
    (Some (env_now env)) retained) keep_retained (p_ID record) aid
    (MkTable rows (t_next (db_artifact_locations (wd_db w))))) as (l1 & Hl1 & Hp1);
    [apply keep_retained_same|done|exact Hl0| |].
  { apply verified_primary_spec. unfold location_of in Hof. bool_prop. unfold primary. cbn.
    by rewrite Hid, Z.eqb_refl. }
  exists (moved_to (scanArtifactLocation t) (observing_metadata o) a), l1.
  assert (Hart : artifact_is (p_ID record) aid a = true)
    by (unfold artifact_is; by rewrite Hp, Hi, !Z.eqb_refl).
  split_and!; [|done| | |by rewrite El|done].
  - rewrite Ea. apply table_update_In. exists a. by rewrite Hart.
  - exact (observing_text o (ar_Metadata a) "artifact_migration_status" "observing" eq_refl).
  - unfold observation_until. cbn [ar_Metadata moved_to].
    rewrite (observing_text o (ar_Metadata a) "artifact_migration_observation_until"
      (format_rfc3339 (ao_ObservationUntil o)) eq_refl).
    by rewrite trim_format, parse_format.
Qed.

Lemma loadArtifactForMigration_eq pid aid w a :
  table_ok (db_artifacts (wd_db w)) -> In a (t_rows (db_artifacts (wd_db w))) ->
  artifact_is pid aid a = true ->
  table_select (artifact_is pid aid) (db_artifacts (wd_db w)) = [a].
Proof.
  intros Hok Ha Hi. apply table_select_id; [done| |done|done].
  unfold artifact_is in *. intros a' E. bool_prop. cbn. congruence.
Qed.

Lemma verified_primary_one pid aid w l :
  world_ok w -> In l (t_rows (db_artifact_locations (wd_db w))) ->
  verified_primary pid aid l = true ->
  table_select (verified_primary pid aid) (db_artifact_locations (wd_db w)) = [l].
Proof.
  intros Hok Hl Hp. pose proof (proj1 (verified_primary_spec _ _ _) Hp) as (_ & Hal & Hpl & _).
  destruct (lo_ids _ _ Hok) as (_ & Hnd & _). unfold table_select.
  assert (Hall : forall x, In x (List.filter (verified_primary pid aid)
    (t_rows (db_artifact_locations (wd_db w)))) -> x = l).
  { intros x Hx. apply filter_In in Hx as [Hx Hpx].
    apply verified_primary_spec in Hpx as (_ & Hax & Hpx & _).
    eapply (lo_primary _ _ Hok); [done|done|congruence|done|done]. }
  assert (Hin : In l (List.filter (verified_primary pid aid)
    (t_rows (db_artifact_locations (wd_db w))))) by (by apply filter_In).
  assert (Hn : List.NoDup (List.filter (verified_primary pid aid)
    (t_rows (db_artifact_locations (wd_db w))))) by (apply List.NoDup_filter; by eapply NoDup_map_inv).
  destruct (List.filter _ _) as [|x [|y r]]; [done|by rewrite (Hall x) by (by left)|].
  exfalso. inversion Hn as [|? ? Hx _]; subst. apply Hx. left.
  rewrite (Hall x), (Hall y); [done|right|]; by left.
Qed.

(** A completion of a waiting artifact succeeds exactly when the deadline has
    passed. *)
Lemma complete_waiting env now_text record aid c w d :
  world_ok w -> waiting (wd_db w) (p_ID record) aid d ->
  let '(r, w') := transact (completeTx env now_text record aid c) w in
  if env_unixnano env <? d
  then r = Err (ErrText "artifact observation period has not completed") /\ wd_db w' = wd_db w
  else exists a', In a' (t_rows (db_artifacts (wd_db w'))) /\ ar_ID a' = aid
         /\ r = Ok (scanArtifactRecordWithRun a') /\ location_status a' = "stable".
Proof.
  intros Hok (a & l & Ha & Hi & Hs & Hu & Hl & Hp).
  pose proof (loadArtifactForMigration_eq _ _ _ _ (lo_arts _ _ Hok) Ha Hi) as Hsel.
  pose proof (verified_primary_one _ _ _ _ Hok Hl Hp) as Hone.
  unfold transact, completeTx.
  rewrite (bind_run (loadArtifactForMigration (p_ID record) aid) _ w (scanArtifactRecordWithRun a) w)
    by (unfold loadArtifactForMigration, bind, select_rows; cbn [tget artifacts_table];
        fold (artifact_is (p_ID record) aid); by rewrite Hsel).
  change (artifactMetadataString (ar_Metadata (scanArtifactRecordWithRun a))
    "artifact_migration_status") with (location_status a). rewrite Hs.
  change ("observing" =s "stable") with false.
  change (parse_rfc3339 (artifactMetadataString (ar_Metadata (scanArtifactRecordWithRun a))
    "artifact_migration_observation_until")) with (observation_until a). cbv iota. rewrite Hu.
  destruct (env_unixnano env <? d); [done|].
  unfold bind at 1, update_rows at 1. cbn [tget artifact_locations_table]. rewrite Hone.
  cbn [List.map List.length negb]. change (negb (Z.of_nat 1 =? 1)) with false. cbv iota.
  unfold bind at 1, update_rows at 1. cbn [tget artifacts_table wd_db set_db tset db_artifacts
    artifact_locations_table set_artifact_locations].
  fold (artifact_is (p_ID record) aid). rewrite Hsel. cbn [List.map].
  set (a' := artifact_with_metadata _ a). exists a'.
  assert (Ha' : In a' (t_rows (table_update (artifact_is (p_ID record) aid)
    (artifact_with_metadata (stable_metadata now_text)) (db_artifacts (wd_db w)))))
    by (apply table_update_In; exists a; by rewrite Hi).
  split_and!; [exact Ha'|unfold artifact_is in Hi; bool_prop; done|done|apply stable_text].
Qed.

(** The observation period is kept: from an activation on, whatever else
    happens to this and other artifacts, a completion fails and changes
    nothing before the deadline, to the second, and at or after it succeeds
    and makes the artifact stable. *)
Theorem observation_period env record aid o w a w1 w2 env' now_text c :
  migration_reachable w -> ActivateArtifactLocation env record aid o w = (Ok a, w1) ->
  0 <= year_of (ao_ObservationUntil o) <= 9999 -> rtc (elsewhere aid) w1 w2 ->
  trim_space (cb_Actor c) <> "" -> trim_space (cb_Reason c) <> "" ->
  let '(r, w3) := CompleteArtifactObservation env' now_text record aid c w2 in
  if env_unixnano env' <? ao_ObservationUntil o / second_ns * second_ns
  then r = Err (ErrText "artifact observation period has not completed") /\ wd_db w3 = wd_db w2
  else exists a', In a' (t_rows (db_artifacts (wd_db w3))) /\ ar_ID a' = aid
         /\ r = Ok (scanArtifactRecordWithRun a') /\ location_status a' = "stable".
Proof.
  intros Hr E Hy Hs Hca Hcr. pose proof (reachable_world_ok w Hr) as Hok.
  pose proof (activate_waits _ _ _ _ _ _ _ Hok E Hy) as Hw.
  apply Activate_ok in E as (Haid & Hpid & _ & E). apply activated_ok in E; [|done].
  destruct (waiting_steps _ _ _ _ _ E Hs Hw) as [Hok2 Hw2].
  unfold CompleteArtifactObservation.
  rewrite (proj2 (Z.leb_gt _ _) Haid), (proj2 (Z.leb_gt _ _) Hpid), (proj2 (String.eqb_neq _ _) Hca),
    (proj2 (String.eqb_neq _ _) Hcr). by apply complete_waiting.
Qed.

Lemma demo_activated_run :
  exists r, ActivateArtifactLocation demo_env demo_project 1 (demo_activate 2) demo_copied
            = (Ok r, demo_activated).
Proof.
  set (act := ActivateArtifactLocation demo_env demo_project 1 (demo_activate 2) demo_copied).
  assert (H : exists r, fst act = Ok r) by (eexists; vm_compute; reflexivity).
  destruct H as [r H]. exists r. rewrite <- H. exact (surjective_pairing act).
Qed.

Lemma observation_period_witness :
  fst (CompleteArtifactObservation demo_env "now" demo_project 1 demo_complete demo_activated)
  = Err (ErrText "artifact observation period has not completed")
  /\ exists a', In a' (t_rows (db_artifacts (wd_db demo_stable))) /\ location_status a' = "stable".
Proof.
  destruct demo_activated_run as [r E].
  assert (Hy : 0 <= year_of (ao_ObservationUntil (demo_activate 2)) <= 9999)
    by (vm_compute; split; discriminate).
  assert (Ht : forall s, s = "bob" \/ s = "done" -> trim_space s <> "")
    by (intros s [->| ->]; vm_compute; discriminate).
  pose proof (fun env t => observation_period demo_env demo_project 1 (demo_activate 2) demo_copied r
    demo_activated demo_activated env t demo_complete demo_copied_reachable E Hy
    (rtc_refl _ _) (Ht _ (or_introl eq_refl)) (Ht _ (or_intror eq_refl))) as H.
  split.
  - specialize (H demo_env "now"). destruct (CompleteArtifactObservation _ _ _ _ _ _) as [x w3].
    exact (proj1 H).
  - specialize (H demo_observed_env "2027-01-15 08:00:01+00").
    assert (Es : demo_stable = snd (CompleteArtifactObservation demo_observed_env
      "2027-01-15 08:00:01+00" demo_project 1 demo_complete demo_activated)) by exact eq_refl.
    rewrite Es. destruct (CompleteArtifactObservation _ _ _ _ _ _) as [x w3].
    destruct H as (a' & Ha & _ & _ & Hs). exists a'. split; [exact Ha|exact Hs].
Defined.

(** ** Migrating again *)

(** The artifact's primary location and a source location have the same URI. *)
Definition pinned (locs : list ArtifactLocation) (aid lid : Z) : Prop :=
  exists p s, (In p locs /\ al_ID p = lid /\ al_ArtifactID p = aid /\ primary p)
    /\ (In s locs /\ al_ArtifactID s = aid /\ al_Role s = "migration_source")
    /\ al_URI s = al_URI p.

Lemma pinned_map locs locs' aid lid :
  (forall l, In l locs -> exists l', In l' locs' /\ same_location l l' /\ al_Role l' = al_Role l) ->
  pinned locs aid lid -> pinned locs' aid lid.
Proof.
  intros Hk (p & s & (Hp & Hid & Hap & Hpp) & (Hs & Has & Hrs) & Hu).
  destruct (Hk p Hp) as (p' & Hp' & ([= E1 _ E2] & [= _ E3 _] & _) & E4).
  destruct (Hk s Hs) as (s' & Hs' & ([= _ _ F2] & [= _ F3 _] & _) & F4).
  exists p', s'. unfold primary in *. rewrite E1, E2, E3, E4, F2, F3, F4. done.
Qed.

Lemma upsert_pinned row merge t aid lid :
  (forall r, same_location r (merge r)) -> (forall r, al_Role (merge r) = al_Role r) ->
  pinned (t_rows t) aid lid -> pinned (t_rows (upsert_table row merge t)) aid lid.
Proof. intros Hs Hr. apply pinned_map. intros l Hl. by apply upsert_keeps. Qed.

(** Promoting another location of a pinned artifact meets the unique index,
    whichever of the two rows is visited first. *)
Lemma pinned_blocks pid o locs aid lid rows :
  (forall l, In l locs -> al_ArtifactID l = aid -> al_ProjectID l = pid) ->
  pinned locs aid lid -> ao_TargetLocationID o <> lid ->
  update_each (location_of pid aid) (promote o) [] locs = Some rows -> False.
Proof.
  intros Hpid (p & s & (Hp & Hid & Hap & Hpp) & (Hs & Has & Hrs) & Hu) Hne E.
  assert (Hof : forall l, In l locs -> al_ArtifactID l = aid -> location_of pid aid l = true)
    by (intros l Hl El; unfold location_of; by rewrite (Hpid l Hl El), El, !Z.eqb_refl).
  pose proof (Hof p Hp Hap) as Hofp. pose proof (Hof s Hs Has) as Hofs.
  assert (Hkp : location_key (promote o p) = (aid, "migration_source", al_URI p)).
  { unfold location_key, primary in *. cbn. rewrite Hpp, Hap.
    by rewrite (proj2 (Z.eqb_neq (al_ID p) (ao_TargetLocationID o))) by congruence. }
  assert (Hks : location_key s = (aid, "migration_source", al_URI p))
    by (unfold location_key; by rewrite Has, Hrs, Hu).
  apply in_split in Hp as (l1 & l2 & El). rewrite El in E, Hs.
  pose proof (update_each_visit _ _ _ _ _ _ _ E Hofp) as Hn. apply no_clash in Hn. apply Hn.
  rewrite Hkp, map_app, in_app_iff. cbn [app]. apply in_app_iff in Hs as [Hs|[<-|Hs]].
  - destruct (Z.eq_dec (al_ID s) (ao_TargetLocationID o)) as [Et|Et].
    + exfalso. apply in_split in Hs as (l3 & l4 & ->). rewrite <- app_assoc in E. cbn in E.
      pose proof (update_each_visit _ _ _ _ _ _ _ E Hofs) as Hn2. apply no_clash in Hn2. apply Hn2.
      rewrite map_app, in_app_iff. right. rewrite map_app, in_app_iff. right. left.
      unfold location_key, primary in *. cbn. by rewrite Et, Z.eqb_refl, Has, Hu, Hap, Hpp.
    + left. rewrite map_map. apply in_map_iff. exists s. split; [|done]. unfold updated_row.
      rewrite Hofs. unfold location_key. cbn. rewrite Hrs, Has, Hu.
      by rewrite (proj2 (Z.eqb_neq _ _) Et).
  - unfold primary in Hpp. congruence.
  - right. rewrite <- Hks. by apply in_map.
Qed.

Lemma pinned_activate env record aid lid o w r w' aid' :
  world_ok w -> pinned (t_rows (db_artifact_locations (wd_db w))) aid lid ->
  activateTx env record aid' o w = (Ok r, w') ->
  (aid' = aid -> ao_TargetLocationID o = lid)
  /\ pinned (t_rows (db_artifact_locations (wd_db w'))) aid lid.
Proof.
  intros Hok Hpin E.
  apply activateTx_ok in E as (a & t & rows & (Ha & Hp & Hi) & _ & _ & Hrows & El & _).
  assert (Ht : aid' = aid -> ao_TargetLocationID o = lid).
  { intros ->. destruct (Z.eq_dec (ao_TargetLocationID o) lid) as [|Hne]; [done|]. exfalso.
    eapply pinned_blocks; [|exact Hpin|exact Hne|exact Hrows]. intros l Hl Hal.
    destruct (owner_unique _ _ a l Hok Ha Hl) as (_ & Hpl & _); congruence. }
  split; [exact Ht|]. rewrite El. apply upsert_pinned; [apply keep_retained_same|done|]. cbn.
  destruct Hpin as (p & s & (Hpl & Hid & Hap & Hpp) & (Hs & Has & Hrs) & Hu).
  assert (Hrole : forall l, In l (t_rows (db_artifact_locations (wd_db w))) -> al_ArtifactID l = aid ->
    (al_ID l = lid <-> primary l) ->
    al_Role (updated_row (location_of (p_ID record) aid') (promote o) l) = al_Role l).
  { intros l Hl Hal Hlid. unfold updated_row. destruct (location_of _ _ l) eqn:Eo; [|done].
    unfold location_of in Eo. bool_prop. cbn. rewrite Ht by congruence.
    destruct (Z.eqb_spec (al_ID l) lid) as [Ei|Ei].
    - symmetry. by apply Hlid.
    - destruct (String.eqb_spec (al_Role l) "primary") as [E|]; [|done]. by destruct Ei; apply Hlid. }
  destruct (upd_fields (p_ID record) aid' o p) as [[= F1 _ F2 _ F3] _].
  destruct (upd_fields (p_ID record) aid' o s) as [[= _ _ G2 _ G3] _].
  exists (updated_row (location_of (p_ID record) aid') (promote o) p),
    (updated_row (location_of (p_ID record) aid') (promote o) s).
  assert (Hsp : al_ID s = lid <-> primary s).
  { split; [|unfold primary; congruence]. intros E. assert (s = p) as ->; [|done].
    eapply table_ok_inj; [apply (lo_ids _ _ Hok)|done|done|]. cbn. congruence. }
  unfold primary in *. rewrite F1, F2, F3, G2, G3, !Hrole by tauto.
  split_and!; try done; eapply activate_In; eauto.
Qed.

Lemma pinned_mstep w w' aid lid :
  world_ok w -> mstep w w' -> pinned (t_rows (db_artifact_locations (wd_db w))) aid lid ->
  pinned (t_rows (db_artifact_locations (wd_db w'))) aid lid.
Proof.
  intros Hok [env m|w1 Hf] Hpin.
  - destruct m as [s3_get s3_back record aid' o|record aid' o|now_text record aid' o]; cbn [migrate].
    + destruct (CopyArtifactToBackend _ _ _ _ _ _ _) as [r w1] eqn:E. cbn.
      apply Copy_cases in E as [[-> _]|(o' & source & st & w2 & E1 & E2)]; [done|].
      apply copyToTarget_ok in E1 as (Edb & _). apply copyTx_ok in E2 as (_ & El & _).
      rewrite Edb in El. rewrite El. unfold copied. cbv zeta.
      apply upsert_pinned; [apply location_merge_same|done|].
      by apply upsert_pinned; [apply location_merge_same| |].
    + destruct (ActivateArtifactLocation _ _ _ _ _) as [r w1] eqn:E. cbn.
      apply Activate_cases in E as [[-> _]|E]; [done|]. by eapply pinned_activate.
    + destruct (CompleteArtifactObservation _ _ _ _ _ _) as [r w1] eqn:E. cbn.
      apply Complete_cases in E as [[-> _]|E]; [done|].
      apply completeTx_ok in E as (a0 & _ & [(_ & _ & ->)|(d' & _ & _ & _ & -> & _)]); [done|].
      eapply pinned_map; [|exact Hpin]. intros l Hl. eexists. split; [apply table_update_In; by exists l|].
      by destruct (verified_primary _ _ l).
  - by destruct (Hf (lo_arts _ _ Hok)) as (_ & -> & _).
Qed.

Lemma pinned_msteps w w' aid lid :
  world_ok w -> msteps w w' -> pinned (t_rows (db_artifact_locations (wd_db w))) aid lid ->
  world_ok w' /\ pinned (t_rows (db_artifact_locations (wd_db w'))) aid lid.
Proof.
  intros Hok Hs. induction Hs as [w|w w1 w' H1 _ IH]; [done|]. intros Hp. apply IH.
  - by eapply mstep_ok.
  - by eapply pinned_mstep.
Qed.

(** Copying an activated artifact records its current place a second time, as
    a source. *)
Lemma copy_pins env s3_get s3_back record aid o w l w1 p :
  world_ok w -> In p (t_rows (db_artifact_locations (wd_db w))) -> al_ArtifactID p = aid ->
  primary p -> CopyArtifactToBackend env s3_get s3_back record aid o w = (Ok l, w1) ->
  pinned (t_rows (db_artifact_locations (wd_db w1))) aid (al_ID p).
Proof.
  intros Hok Hp Hap Hpp E.
  apply Copy_cases in E as [[_ [e [=]]]|(o' & source & st & w2 & E1 & E2)].
  apply copyToTarget_ok in E1 as (Edb & a & c & (Ha & _ & Hi) & -> & _).
  apply copyTx_ok in E2 as (_ & El & _). rewrite Edb in El. rewrite El. unfold copied. cbv zeta.
  apply upsert_pinned; [apply location_merge_same|done|].
  set (row := location_row env (scanArtifactRecordWithRun a) _ None retained).
  set (merge := location_merge _ None retained).
  assert (Hms : forall r, same_location r (merge r)) by apply location_merge_same.
  assert (Hmr : forall r, al_Role (merge r) = al_Role r) by done.
  destruct (upsert_has row merge (fun _ => eq_refl) Hms Hmr (db_artifact_locations (wd_db w)))
    as (s & Hs & [= Hs1 Hs2 Hs3] & _).
  destruct (upsert_keeps row merge Hms Hmr _ p Hp) as (p' & Hp' & ([= F1 _ F2] & [= _ F3 _] & _) & F4).
  destruct (lo_agrees _ _ Hok a p Ha Hp) as [_ Hu]; [congruence|done|].
  exists p', s. unfold primary in *. rewrite F1, F2, F3, F4, Hs1, Hs2, Hs3. cbn. done.
Qed.

(** An artifact can be moved only once: after an activated artifact was
    copied again, no activation of any other location of it, the new copy
    included, ever succeeds; each meets the unique index of
    [artifact_locations] and changes nothing. *)
Theorem migrated_once env s3_get s3_back record aid o w l w1 p w2 env' record' o' :
  migration_reachable w -> In p (t_rows (db_artifact_locations (wd_db w))) ->
  al_ArtifactID p = aid -> primary p ->
  CopyArtifactToBackend env s3_get s3_back record aid o w = (Ok l, w1) -> msteps w1 w2 ->
  ao_TargetLocationID o' <> al_ID p ->
  let '(r, w3) := ActivateArtifactLocation env' record' aid o' w2 in
  (exists e, r = Err e) /\ wd_db w3 = wd_db w2.
Proof.
  intros Hr Hp Hap Hpp E Hs Hne. pose proof (reachable_world_ok w Hr) as Hok.
  pose proof (copy_pins _ _ _ _ _ _ _ _ _ _ Hok Hp Hap Hpp E) as Hpin.
  assert (Hok1 : world_ok w1).
  { eapply mstep_ok; [|exact Hok].
    pose proof (StepMigrate w env (MCopy s3_get s3_back record aid o)) as H. cbn in H.
    by rewrite E in H. }
  destruct (pinned_msteps _ _ _ _ Hok1 Hs Hpin) as [Hok2 Hpin2].
  destruct (ActivateArtifactLocation _ _ _ _ _) as [r w3] eqn:Ea.
  apply Activate_cases in Ea as [[-> He]|Ea]; [done|]. exfalso. apply Hne.
  by eapply (pinned_activate _ _ _ _ _ _ _ _ aid Hok2 Hpin2 Ea).
Qed.

(** The stable artifact is copied to a third place, which cannot be activated. *)
Definition demo_recopy : CopyArtifactOptions := MkCopyArtifact "local" "/mnt/third" "alice" "again".

Lemma migrated_once_witness :
  exists l w1,
    CopyArtifactToBackend demo_observed_env s3_none s3_none demo_project 1 demo_recopy demo_stable
    = (Ok l, w1)
    /\ exists e, fst (ActivateArtifactLocation demo_env demo_project 1
                        (MkActivateArtifact 4 demo_deadline "alice" "go") w1) = Err e.
Proof.
  assert (E : exists l w1, CopyArtifactToBackend demo_observed_env s3_none s3_none demo_project 1
                             demo_recopy demo_stable = (Ok l, w1)).
  { set (run := CopyArtifactToBackend demo_observed_env s3_none s3_none demo_project 1 demo_recopy
                  demo_stable).
    assert (H : exists l, fst run = Ok l) by (eexists; vm_compute; reflexivity).
    destruct H as [l H]. exists l, (snd run). rewrite <- H. apply surjective_pairing. }
  assert (Hp : exists p, nth_error (t_rows (db_artifact_locations (wd_db demo_stable))) 1 = Some p
                 /\ al_ID p = 2 /\ al_ArtifactID p = 1 /\ al_Role p = "primary")
    by (eexists; vm_compute; split_and!; reflexivity).
  destruct E as (l & w1 & E), Hp as (p & Hp & Hid & Hap & Hpp). apply nth_error_In in Hp.
  exists l, w1. split; [exact E|].
  pose proof (migrated_once demo_observed_env s3_none s3_none demo_project 1 demo_recopy demo_stable l
    w1 p w1 demo_env demo_project (MkActivateArtifact 4 demo_deadline "alice" "go")
    (reachable_step _ _ demo_activated_reachable demo_complete_step) Hp Hap Hpp E (rtc_refl _ _)) as H.
  destruct (ActivateArtifactLocation _ _ _ _ _) as [r w3]. destruct H as [H _]; [|exact H].
  rewrite Hid. discriminate.
Defined.

(** ** The copy's place *)

(** A source path that cleans to [..] is not refused: the copy goes to a file
    named like the directory that holds every other copy of the project. *)
Example migration_path_escapes :
  artifactMigrationRelativePath demo_project
    (MkArtifact 7 1 0 0 0 "report" "local" "/x" "a/../.." "" 0 "" [] 0) = Ok "demo/migration"
  /\ artifactMigrationRelativePath demo_project
       (MkArtifact 7 1 0 0 0 "report" "local" "/x" "../x" "" 0 "" [] 0)
     = Err (ErrText "artifact source path is outside project namespace").
Proof. vm_compute. done. Qed.
