(* ===== verification/AuthSpec.v ===== *)
(** * What the credentials and roles decide

    Characterisations of the auth components taken one call at a time: which
    raw tokens a stored token accepts, which rows the service finds, and what
    the principal of a user may do. *)

From stdpp Require Import base list strings numbers.
From Stdlib Require Import ZArith Lia Ascii String Sorting.Sorted.
From S2P Require Import Prelude GoString Sha256 Json Schema Tx Capability Encoding Auth Rbac.
From S2P Require Import Session.

(** ** Raw credentials *)

Lemma rand_read_bytes rnd i size l :
  rand_read rnd i size = Ok l -> is_bytes l /\ List.length l = size.
Proof.
  unfold rand_read. destruct (rnd i) as [f|]; [|done]. intros [= <-]. split.
  - apply Forall_map, List.Forall_forall. intros k _. cbn. apply Z.mod_pos_bound. lia.
  - by rewrite length_map, length_seq.
Qed.

(** The three parts of a raw credential are recovered. *)
Lemma split_credential prefix keyBytes secret :
  Forall (fun c => Ascii.eqb c "_" = false) (list_ascii_of_string prefix) ->
  is_bytes keyBytes ->
  split_n 3 "_" (prefix +:+ "_" +:+ hex_encode keyBytes +:+ "_" +:+ secret)
  = [prefix; hex_encode keyBytes; secret].
Proof.
  intros Hp Hk. cbn [split_n].
  change ("_" +:+ hex_encode keyBytes +:+ "_" +:+ secret)
    with (String "_" (hex_encode keyBytes +:+ "_" +:+ secret)).
  rewrite cut_app by done.
  change (hex_encode keyBytes +:+ "_" +:+ secret)
    with (hex_encode keyBytes +:+ String "_" secret).
  by rewrite cut_app by by apply hex_encode_no_underscore.
Qed.

Lemma hex_key_len l : List.length l = 12%nat -> len (hex_encode l) = 24.
Proof. intros H. unfold len. rewrite hex_encode_length, H. done. Qed.

Lemma b64_secret_len l : List.length l = 32%nat -> 40 <= len (b64_encode l).
Proof.
  intros H. unfold len, b64_encode. rewrite string_of_list_ascii_length.
  do 32 (destruct l as [|? l]; [done|]). destruct l; [|done]. cbn. lia.
Qed.

(** A generated token parses back to the key it was generated with. *)
Lemma token_key_generated rnd key secret :
  generateTokenParts rnd = Ok (key, secret) ->
  tokenKeyFromRaw ("af_" +:+ key +:+ "_" +:+ secret) = Some key.
Proof.
  unfold generateTokenParts. destruct (rand_read rnd 0 12) as [kb|] eqn:Ek; [|done].
  destruct (rand_read rnd 1 32) as [sb|] eqn:Es; [|done]. intros [= <- <-].
  apply rand_read_bytes in Ek as [Hk Lk], Es as [Hs Ls].
  unfold tokenKeyFromRaw.
  change ("af_" +:+ hex_encode kb +:+ "_" +:+ b64_encode sb)
    with ("af" +:+ "_" +:+ hex_encode kb +:+ "_" +:+ b64_encode sb).
  rewrite split_credential; [|by repeat constructor|done].
  rewrite hex_key_len by done. pose proof (b64_secret_len sb Ls).
  rewrite (proj2 (Z.ltb_ge _ _)) by lia. cbn [negb orb String.eqb Ascii.eqb Bool.eqb Z.eqb].
  rewrite hex_decode_encode, b64_decode_encode by done. by rewrite Ls.
Qed.

(** The same for sessions *)
Lemma session_key_generated rnd key secret :
  generateOpaqueParts rnd = Ok (key, secret) ->
  opaqueKey ("afs_" +:+ key +:+ "_" +:+ secret) "afs" = Some key.
Proof.
  unfold generateOpaqueParts, randomURLToken. destruct (rand_read rnd 0 12) as [kb|] eqn:Ek; [|done].
  destruct (rand_read rnd 1 32) as [sb|] eqn:Es; [|done]. intros [= <- <-].
  apply rand_read_bytes in Ek as [Hk Lk], Es as [Hs Ls].
  unfold opaqueKey.
  change ("afs_" +:+ hex_encode kb +:+ "_" +:+ b64_encode sb)
    with ("afs" +:+ "_" +:+ hex_encode kb +:+ "_" +:+ b64_encode sb).
  rewrite split_credential; [|by repeat constructor|done].
  rewrite hex_key_len by done. pose proof (b64_secret_len sb Ls).
  rewrite (proj2 (Z.ltb_ge _ _)) by lia. cbn [negb orb String.eqb Ascii.eqb Bool.eqb Z.eqb].
  by rewrite hex_decode_encode, b64_decode_encode by done.
Qed.

(** ** Sets of strings *)

Lemma distinct_In x l : In x (distinct l) <-> In x l.
Proof.
  induction l as [|y l IH]; [done|]. cbn. destruct (str_in y l) eqn:E.
  - rewrite IH. apply str_in_spec in E. split; [by right|]. intros [->|?]; done.
  - cbn. rewrite IH. done.
Qed.

Lemma sortedKeys_In x l : In x (sortedKeys l) <-> In x l.
Proof. unfold sortedKeys. by rewrite sort_stable_In, distinct_In. Qed.

Lemma contains_spec l x : contains l x = true <-> In x l.
Proof. apply str_in_spec. Qed.

(** A list of strings in normal form is a fixed point of the loop, up to the
    order the sort gives it. *)
Lemma sort_stable_fixpoint l :
  StronglySorted (fun a b => String.ltb b a = false) l -> sort_stable String.ltb l = l.
Proof.
  induction 1 as [|x l HS IH HF]; [done|]. cbn. rewrite IH. destruct l as [|y l]; [done|].
  cbn. inversion HF as [|? ? Hy]; subst. cbn in Hy. by rewrite Hy.
Qed.

Lemma normalize_fixed l : normalize (normalize l) = normalize l.
Proof.
  unfold normalize, normalizeStringList at 1.
  rewrite normalize_loop_fixpoint.
  - apply sort_stable_fixpoint.
    exact (sort_stable_sorted String.ltb ltb_asym ltb_negtrans _).
  - unfold normalizeStringList. destruct (normalize_normal l) as [Hn Hf].
    unfold normalizeCapabilityList in *. split.
    + eapply Permutation_NoDup; [apply sort_stable_perm|done].
    + by rewrite <- sort_stable_perm.
  - by intros ? ? [].
Qed.

Lemma normalize_nonempty l :
  normalize l <> [] <-> exists y, In y l /\ trim_space y <> "".
Proof.
  split.
  - intros H. destruct (normalize l) as [|x r] eqn:E; [done|].
    assert (Hx : In x (normalize l)) by (rewrite E; by left).
    apply normalizeStringList_In in Hx as (Hne & y & Hy & <-). eauto.
  - intros (y & Hy & Hne) E.
    assert (Hin : In (trim_space y) (normalize l)) by (apply normalizeStringList_In; eauto).
    by rewrite E in Hin.
Qed.

(** ** Authentication of a token *)

Lemma json_strings_map l : json_strings (List.map JStr l) = Some l.
Proof. induction l as [|x l IH]; [done|]. cbn. by rewrite IH. Qed.

(** The scope a token was created with is read back. *)
Lemma decode_scope_fields projects capabilities :
  decode_scope (mk (scope_fields (MkScope projects capabilities)))
  = Some (MkScope projects capabilities).
Proof.
  change (mk _) with [("capabilities", jstrs capabilities); ("projects", jstrs projects)].
  unfold decode_scope. cbn [decode_scope_from].
  change (equal_fold "capabilities" "projects") with false.
  change (equal_fold "capabilities" "capabilities") with true.
  change (equal_fold "projects" "projects") with true.
  unfold json_string_slice, jstrs. by rewrite !json_strings_map.
Qed.

(** When the row with the key of the raw token authenticates it *)
Definition token_accepts (env : Env) (raw : string) (t : TokenRow) (scope : tokenScope) : Prop :=
  tk_TokenHash t = sha256_hex raw /\ tk_Status t = "active"
  /\ (forall e, tk_ExpiresAt t = Some e -> env_unixnano env < e * 1000)
  /\ decode_scope (tk_Scope t) = Some scope
  /\ normalize (sc_Projects scope) <> [] /\ normalize (sc_Capabilities scope) <> [].

Lemma token_principal_exact jt env db raw t p :
  token_principal jt env db raw t = Some p <->
  exists scope, token_accepts env raw t scope
    /\ p = {| pr_TokenID := tk_ID t; pr_TokenKey := tk_TokenKey t; pr_UserID := 0;
              pr_SessionID := 0; pr_ActorID := tk_ActorID t;
              pr_Actor := coalesce "token-user" (actor_name db (tk_ActorID t));
              pr_AuthMode := "token"; pr_Roles := [];
              pr_Projects := normalize (sc_Projects scope);
              pr_Capabilities := normalize (sc_Capabilities scope);
              pr_ScopeHash := sha256_hex (jt (JObj (tk_Scope t))); pr_CSRFHash := "" |}.
Proof.
  unfold token_principal, token_accepts, tokenHash, scanned_time, scopeHash. split.
  - destruct (String.eqb_spec (tk_TokenHash t) (sha256_hex raw)) as [Eh|]; [|done].
    destruct (String.eqb_spec (tk_Status t) "active") as [Es|]; [|done]. cbn [negb orb].
    intros H.
    assert (He : forall e, tk_ExpiresAt t = Some e -> env_unixnano env < e * 1000).
    { intros e Ee. rewrite Ee in H. destruct (Z.ltb_spec (env_unixnano env) (e * 1000)); done. }
    assert (H2 : match tk_ExpiresAt t with
                 | Some e => negb (env_unixnano env <? e * 1000) | None => false end = false).
    { destruct (tk_ExpiresAt t) as [e|]; [|done].
      rewrite (proj2 (Z.ltb_lt _ _)); [done|]. by apply He. }
    rewrite H2 in H. destruct (decode_scope (tk_Scope t)) as [scope|]; [|done].
    exists scope. destruct (normalize (sc_Projects scope)) eqn:E1; [done|].
    destruct (normalize (sc_Capabilities scope)) eqn:E2; [done|]. injection H as <-.
    split_and!; done.
  - intros (scope & (Eh & Es & He & Ed & H1 & H2) & ->).
    rewrite Eh, Es, !String.eqb_refl, Ed. cbn [negb orb].
    assert (Hx : match tk_ExpiresAt t with
                 | Some e => negb (env_unixnano env <? e * 1000) | None => false end = false).
    { destruct (tk_ExpiresAt t) as [e|]; [|done].
      rewrite (proj2 (Z.ltb_lt _ _)); [done|]. by apply He. }
    rewrite Hx. by destruct (normalize (sc_Projects scope)), (normalize (sc_Capabilities scope)).
Qed.

Lemma token_principal_none jt env db raw t :
  token_principal jt env db raw t = None <-> ~ exists scope, token_accepts env raw t scope.
Proof.
  destruct (token_principal jt env db raw t) as [p|] eqn:E.
  - apply token_principal_exact in E as (scope & H & _). split; [done|]. intros Hn.
    exfalso. apply Hn. by exists scope.
  - split; [|done]. intros _ (scope & H).
    assert (Hs : exists p, token_principal jt env db raw t = Some p).
    { eexists. apply token_principal_exact. exists scope. by split. }
    destruct Hs as [p Hp]. congruence.
Qed.

(** The raw token decides which row answers. *)
Definition unique_by {R} (key : R -> string) (l : list R) : Prop :=
  List.NoDup (List.map key l).

Lemma unique_select {R} (key : R -> string) k (t : table R) r :
  unique_by key (t_rows t) -> In r (t_rows t) -> key r = k ->
  table_select (fun r' => key r' =s k) t = [r].
Proof.
  unfold unique_by, table_select. intros Hnd Hin <-.
  induction (t_rows t) as [|x l IH]; [done|]. cbn in *.
  inversion Hnd as [|? ? Hni Hnd']; subst. destruct Hin as [->|Hin].
  - rewrite String.eqb_refl. f_equal.
    destruct (List.filter _ l) as [|y l'] eqn:E; [done|]. exfalso.
    assert (Hy : In y (List.filter (fun r' => key r' =s key r) l)) by (rewrite E; by left).
    apply filter_In in Hy as [Hy Hk]. apply String.eqb_eq in Hk. apply Hni. rewrite <- Hk.
    by apply in_map.
  - destruct (String.eqb_spec (key x) (key r)) as [Ek|]; [|by apply IH].
    exfalso. apply Hni. rewrite Ek. by apply in_map.
Qed.

(** ** The principal of a user *)

(** The live bindings of a user, its own and those of its teams *)
Definition holds_binding (env : Env) (db : DB) (userID : Z) (b : BindingRow) : Prop :=
  In b (t_rows (db_role_bindings db)) /\ binding_live env b = true
  /\ ((rb_UserID b = userID /\ userID <> 0)
      \/ exists m, In m (t_rows (db_memberships db)) /\ mb_UserID m = userID
           /\ mb_Status m = "active" /\ rb_TeamID b = mb_TeamID m).

Lemma user_bindings_In env db userID b :
  In b (user_bindings env db userID) <-> holds_binding env db userID b.
Proof.
  unfold user_bindings, holds_binding. rewrite in_app_iff, in_flat_map. split.
  - intros [H|(m & Hm & H)]; apply table_select_In in H as [Hin H]; bool_prop.
    + split_and!; [done|done|by left].
    + apply table_select_In in Hm as [Hm Hc]. bool_prop. split_and!; [done|done|].
      right. by exists m.
  - intros (Hin & Hl & [[Hu Hz]|(m & Hm & Hu & Hs & Ht)]).
    + left. apply table_select_In. rewrite Hu, Hl, Z.eqb_refl.
      by rewrite (proj2 (Z.eqb_neq _ _) Hz).
    + right. exists m. split.
      * apply table_select_In. by rewrite Hu, Hs, Z.eqb_refl.
      * apply table_select_In. by rewrite Ht, Hl, Z.eqb_refl.
Qed.

(** What a role allows *)
Definition role_allows (role capability : string) : Prop :=
  role = RolePlatformAdmin \/ In capability (capabilities_of role).

Lemma lookup_role_star role caps l :
  lookup_role role l = Some caps -> In "*" caps ->
  Forall (fun rc => In "*" (snd rc) -> fst rc = RolePlatformAdmin) l ->
  role = RolePlatformAdmin.
Proof.
  induction l as [|[r c] l IH]; [done|]. cbn. intros E Hs HF.
  inversion HF as [|? ? Hh Ht]; subst. cbn in Hh.
  destruct (String.eqb_spec role r) as [->|]; [injection E as ->; by apply Hh|by apply IH].
Qed.

Lemma star_only_platform role : In "*" (capabilities_of role) -> role = RolePlatformAdmin.
Proof.
  unfold capabilities_of. destruct (lookup_role role roleCapabilities) as [caps|] eqn:E; [|done].
  intros Hs. eapply lookup_role_star; [exact E|exact Hs|]. unfold roleCapabilities.
  repeat (apply List.Forall_cons; [cbn; intuition discriminate|]). constructor.
Qed.

Lemma CapabilitiesForRoles_In roles c :
  In c (CapabilitiesForRoles roles) <-> exists r, In r roles /\ In c (capabilities_of r).
Proof. unfold CapabilitiesForRoles. by rewrite sortedKeys_In, in_flat_map. Qed.

Lemma principal_capability env user db c :
  AllowsCapability (PrincipalForUser env user db) c = true <->
  exists b, holds_binding env db (ur_ID user) b /\ role_allows (rb_Role b) c.
Proof.
  unfold AllowsCapability. rewrite orb_true_iff, !contains_spec. cbn.
  rewrite !CapabilitiesForRoles_In. unfold role_allows.
  setoid_rewrite sortedKeys_In. setoid_rewrite in_map_iff.
  setoid_rewrite user_bindings_In. split.
  - intros [(r & (b & <- & Hb) & Hs)|(r & (b & <- & Hb) & Hc)]; exists b; (split; [done|]).
    + left. by apply star_only_platform.
    + by right.
  - intros (b & Hb & [Hr|Hc]).
    + left. exists (rb_Role b). split; [by exists b|]. rewrite Hr. cbn. auto.
    + right. exists (rb_Role b). split; [by exists b|done].
Qed.

Lemma principal_project env user db k :
  AllowsProject (PrincipalForUser env user db) k = true <->
  exists b, holds_binding env db (ur_ID user) b
    /\ (rb_Role b = RolePlatformAdmin
        \/ let key := project_key_of db (rb_ProjectID b) in
           key <> "" /\ (key = k \/ key = "*")).
Proof.
  unfold AllowsProject. rewrite orb_true_iff, !contains_spec. cbn. rewrite !sortedKeys_In.
  rewrite !in_flat_map. setoid_rewrite user_bindings_In. unfold binding_projects. split.
  - intros [(b & Hb & H)|(b & Hb & H)]; exists b; (split; [done|]);
      (destruct (String.eqb_spec (rb_Role b) RolePlatformAdmin); [by left|right]);
      (destruct (String.eqb_spec (project_key_of db (rb_ProjectID b)) ""); [done|]);
      destruct H as [H|[]]; auto.
  - intros (b & Hb & [Hr|(Hne & [Hk|Hk])]).
    + left. exists b. rewrite Hr. split; [done|]. by left.
    + destruct (String.eqb_spec (rb_Role b) RolePlatformAdmin) as [Hr|Hr].
      * left. exists b. rewrite Hr. split; [done|by left].
      * right. exists b. split; [done|].
        rewrite (proj2 (String.eqb_neq _ _) Hr), (proj2 (String.eqb_neq _ _) Hne). by left.
    + left. exists b. split; [done|]. destruct (String.eqb_spec (rb_Role b) RolePlatformAdmin);
        [by left|]. rewrite (proj2 (String.eqb_neq _ _) Hne). by left.
Qed.
