(* ===== verification/AuthSystem.v ===== *)
(** * Tokens, sessions and roles over time

    The auth commands in any order, with any clock and any randomness: what
    they may do to a stored token, session or binding ([evolves]), and the
    invariant of the auth tables. *)

From stdpp Require Import base list strings numbers relations gmap.
From Stdlib Require Import ZArith Lia Ascii String.
From S2P Require Import Prelude GoString Sha256 Json Schema Tx History Capability Encoding Auth.
From S2P Require Import Rbac Session AuthSpec.

(** ** Rows that only evolve

    Every row of the first table is still there, related by [ev] to what it
    was; rows are added at the end. *)

Section Evolve.
Context {R : Type} (ev : R -> R -> Prop) `{!PreOrder ev}.

Definition evolves (t t' : table R) : Prop :=
  exists old new, t_rows t' = old ++ new /\ Forall2 ev (t_rows t) old.

#[global] Instance evolves_preorder : PreOrder evolves.
Proof.
  split.
  - intros t. exists (t_rows t), []. rewrite app_nil_r. split; [done|].
    apply Forall_Forall2_diag, List.Forall_forall. reflexivity.
  - intros a b c (o1 & n1 & E1 & F1) (o2 & n2 & E2 & F2). rewrite E1 in F2.
    apply Forall2_app_inv_l in F2 as (o3 & o4 & F3 & F4 & ->).
    exists o3, (o4 ++ n2). rewrite app_assoc. split; [done|].
    by etransitivity.
Qed.

Lemma evolves_insert mkrow t : evolves t (table_insert mkrow t).
Proof.
  exists (t_rows t), [mkrow (t_next t)]. split; [done|].
  apply Forall_Forall2_diag, List.Forall_forall. reflexivity.
Qed.

Lemma evolves_update p f t :
  (forall r, p r = true -> ev r (f r)) -> evolves t (table_update p f t).
Proof.
  intros H. exists (t_rows (table_update p f t)), []. rewrite app_nil_r. split; [done|].
  cbn. induction (t_rows t) as [|r l IH]; [constructor|]. cbn. constructor; [|done].
  destruct (p r) eqn:E; [by apply H|reflexivity].
Qed.

Lemma evolves_In t t' r : evolves t t' -> In r (t_rows t) -> exists r', In r' (t_rows t') /\ ev r r'.
Proof.
  intros (old & new & -> & F) Hin. apply list_elem_of_In in Hin.
  destruct (list_elem_of_lookup_1 _ _ Hin) as [i Hi].
  destruct (Forall2_lookup_l _ _ _ _ _ F Hi) as (r' & Hr' & He). exists r'. split; [|done].
  apply in_or_app. left. apply list_elem_of_In. by eapply list_elem_of_lookup_2.
Qed.
End Evolve.

(** A status that may only go from active to revoked *)
Definition status_ev (s s' : string) : Prop := s' = s \/ (s = "active" /\ s' = "revoked").

Lemma status_ev_trans a b c : status_ev a b -> status_ev b c -> status_ev a c.
Proof. unfold status_ev. intuition congruence. Qed.

(** What never changes of a token, a session, a binding *)
Definition token_ev (t t' : TokenRow) : Prop :=
  (tk_ID t', tk_ActorID t', tk_TokenKey t', tk_TokenHash t', tk_Scope t', tk_ExpiresAt t',
   tk_TokenType t', tk_CreatedBy t', tk_RotatedFrom t', tk_Reason t', tk_CreatedAt t')
  = (tk_ID t, tk_ActorID t, tk_TokenKey t, tk_TokenHash t, tk_Scope t, tk_ExpiresAt t,
     tk_TokenType t, tk_CreatedBy t, tk_RotatedFrom t, tk_Reason t, tk_CreatedAt t)
  /\ status_ev (tk_Status t) (tk_Status t').

Definition session_ev (s s' : SessionRow) : Prop :=
  (ws_ID s', ws_UserID s', ws_ActorID s', ws_SessionKey s', ws_SessionHash s', ws_CSRFHash s',
   ws_Issuer s', ws_AuthTime s', ws_IdleTTLSeconds s', ws_AbsoluteExpiresAt s', ws_CreatedAt s')
  = (ws_ID s, ws_UserID s, ws_ActorID s, ws_SessionKey s, ws_SessionHash s, ws_CSRFHash s,
     ws_Issuer s, ws_AuthTime s, ws_IdleTTLSeconds s, ws_AbsoluteExpiresAt s, ws_CreatedAt s)
  /\ status_ev (ws_Status s) (ws_Status s').

Definition binding_ev (b b' : BindingRow) : Prop :=
  (rb_ID b', rb_ProjectID b', rb_UserID b', rb_TeamID b', rb_Role b', rb_Reason b',
   rb_AssignedBy b', rb_ExpiresAt b', rb_CreatedAt b')
  = (rb_ID b, rb_ProjectID b, rb_UserID b, rb_TeamID b, rb_Role b, rb_Reason b,
     rb_AssignedBy b, rb_ExpiresAt b, rb_CreatedAt b)
  /\ status_ev (rb_Status b) (rb_Status b').

(** A user keeps its identity; its contact data may change. *)
Definition user_ev (u u' : UserRow) : Prop :=
  (us_ID u', us_ActorID u', us_ExternalKey u', us_CreatedAt u')
  = (us_ID u, us_ActorID u, us_ExternalKey u, us_CreatedAt u).

#[export] Instance user_ev_preorder : PreOrder user_ev.
Proof. split; [by intros ?|]. unfold user_ev. intros ? ? ? E1 E2. congruence. Qed.

Ltac ev_preorder :=
  split; [intros ?; split; [reflexivity|by left]
         |intros ? ? ? [E1 S1] [E2 S2]; split; [congruence|by eapply status_ev_trans]].

#[export] Instance token_ev_preorder : PreOrder token_ev.
Proof. ev_preorder. Qed.
#[export] Instance session_ev_preorder : PreOrder session_ev.
Proof. ev_preorder. Qed.
#[export] Instance binding_ev_preorder : PreOrder binding_ev.
Proof. ev_preorder. Qed.

(** ** The invariant of the auth tables *)

Definition session_bounded (s : SessionRow) : Prop := ws_IdleExpiresAt s <= ws_AbsoluteExpiresAt s.

(** Exactly one subject; the platform role is the one without a project. *)
Definition binding_wf (b : BindingRow) : Prop :=
  (rb_UserID b = 0 <-> rb_TeamID b <> 0) /\ (rb_Role b = RolePlatformAdmin <-> rb_ProjectID b = 0)
  /\ ValidRole (rb_Role b) = true.

(** Two active bindings of one subject in one project to one role are one. *)
Definition same_grant (b b' : BindingRow) : Prop :=
  rb_ProjectID b = rb_ProjectID b' /\ rb_Role b = rb_Role b'
  /\ ((rb_UserID b <> 0 /\ rb_UserID b = rb_UserID b')
      \/ (rb_TeamID b <> 0 /\ rb_TeamID b = rb_TeamID b')).

Definition bindings_unique (t : table BindingRow) : Prop :=
  forall b b', In b (t_rows t) -> In b' (t_rows t) ->
    rb_Status b = "active" -> rb_Status b' = "active" -> same_grant b b' -> rb_ID b = rb_ID b'.

Definition auth_inv (db : DB) : Prop :=
  table_ok (db_api_tokens db) /\ unique_by tk_TokenKey (t_rows (db_api_tokens db))
  /\ table_ok (db_web_sessions db) /\ unique_by ws_SessionKey (t_rows (db_web_sessions db))
  /\ Forall session_bounded (t_rows (db_web_sessions db))
  /\ table_ok (db_role_bindings db) /\ Forall binding_wf (t_rows (db_role_bindings db))
  /\ bindings_unique (db_role_bindings db) /\ table_ok (db_projects db).

(** What an auth command may do to the store *)
Definition auth_rel (db db' : DB) : Prop :=
  evolves token_ev (db_api_tokens db) (db_api_tokens db')
  /\ evolves session_ev (db_web_sessions db) (db_web_sessions db')
  /\ evolves binding_ev (db_role_bindings db) (db_role_bindings db')
  /\ evolves user_ev (db_users db) (db_users db')
  /\ append_only db db' /\ (auth_inv db -> auth_inv db').

#[export] Instance auth_rel_preorder : PreOrder auth_rel.
Proof.
  split.
  - intros db. split_and!; try reflexivity. done.
  - intros a b c (H1 & H2 & H3 & H4 & H5 & H6) (K1 & K2 & K3 & K4 & K5 & K6).
    split_and!; try by etransitivity. auto.
Qed.

(** No token, session, binding or project changes. *)
Lemma auth_same db db' :
  (db_api_tokens db', db_web_sessions db', db_role_bindings db', db_projects db')
  = (db_api_tokens db, db_web_sessions db, db_role_bindings db, db_projects db) ->
  evolves user_ev (db_users db) (db_users db') ->
  append_only db db' -> auth_rel db db'.
Proof.
  intros [= E1 E2 E3 E4] Hu Ha. unfold auth_rel, auth_inv. rewrite E1, E2, E3, E4.
  split_and!; try reflexivity; done.
Qed.

Ltac users_leaf :=
  first [ reflexivity
        | apply evolves_insert; exact _
        | apply evolves_update; [exact _|intros ? _; reflexivity] ].

Ltac auth_leaf := rel_leaf; apply auth_same; [reflexivity|users_leaf|append_leaf].

(** ** The steps that touch other tables *)

Lemma upsert_actor_rel env kind name key : m_rel auth_rel (upsert_actor env kind name key).
Proof. unfold upsert_actor. rel_split; auth_leaf. Qed.

Lemma ensureActor_rel env actor : m_rel auth_rel (ensureActor env actor).
Proof. apply upsert_actor_rel. Qed.

Lemma insertAuthAudit_rel env pid aid a c rt r reason md :
  m_rel auth_rel (insertAuthAudit env pid aid a c rt r reason md).
Proof. unfold insertAuthAudit. rel_split. auth_leaf. Qed.

(** The audit trail is the only table the insertion changes. *)
Lemma insertAuthAudit_ok env pid aid a c rt r reason md w x w' :
  insertAuthAudit env pid aid a c rt r reason md w = (Ok x, w') ->
  exists audits, w' = set_db (set_audit_events audits (wd_db w)) w.
Proof.
  unfold insertAuthAudit. intros E. apply bind_ok in E as (row & w1 & E & Er).
  apply insert_row_ok in E as [_ ->]. apply ret_ok in Er as [_ <-]. by eexists.
Qed.

Lemma upsertUser_rel env aid i key : m_rel auth_rel (upsertUser env aid i key).
Proof. unfold upsertUser. cbv zeta. rel_split; auth_leaf. Qed.

Lemma upsertIdentity_rel env uid i h : m_rel auth_rel (upsertIdentity env uid i h).
Proof. unfold upsertIdentity. cbv zeta. rel_split; auth_leaf. Qed.

#[export] Hint Resolve upsert_actor_rel ensureActor_rel insertAuthAudit_rel upsertUser_rel
  upsertIdentity_rel : rel.

(** ** Tokens *)

Lemma unique_insert {R} (key : R -> string) mkrow (t : table R) :
  unique_by key (t_rows t) ->
  table_select (fun r => key r =s key (mkrow (t_next t))) t = [] ->
  unique_by key (t_rows (table_insert mkrow t)).
Proof.
  unfold unique_by. intros Hu Hs. cbn. rewrite map_app. apply NoDup_snoc; [done|].
  intros Hin. apply in_map_iff in Hin as (r & Er & Hin).
  assert (Hr : In r (table_select (fun r => key r =s key (mkrow (t_next t))) t)).
  { apply table_select_In. split; [done|]. rewrite Er. apply String.eqb_refl. }
  by rewrite Hs in Hr.
Qed.

Lemma unique_update {R} (key : R -> string) p f (t : table R) :
  (forall r, key (f r) = key r) -> unique_by key (t_rows t) ->
  unique_by key (t_rows (table_update p f t)).
Proof.
  unfold unique_by. intros Hk Hu. cbn. rewrite map_map. erewrite map_ext; [done|].
  intros r. cbn. by destruct (p r).
Qed.

Lemma insertToken_ok env o aid cby key h scope e w r w' :
  insertToken env o aid cby key h scope e w = (Ok r, w') ->
  table_select (fun t => tk_TokenKey t =s key) (db_api_tokens (wd_db w)) = []
  /\ insert_row (fun id =>
       MkToken id aid key h scope "active" (Some (stored_time (gt_ns e))) "service" cby
               (ct_RotatedFrom o) (ct_Reason o) (env_now env) None) w = (Ok r, w').
Proof.
  unfold insertToken. intros E.
  apply bind_ok in E as (taken & w1 & Et & E). apply select_rows_ok in Et as [-> ->].
  destruct (table_select _ _) as [|? ?] eqn:Hs in E; [|done]. split; [exact Hs|].
  apply bind_ok in E as (from & w1 & Ef & E). apply select_rows_ok in Ef as [_ ->].
  revert E. repeat case_match; done.
Qed.

Lemma insertToken_rel env o aid cby key h scope e :
  m_rel auth_rel (insertToken env o aid cby key h scope e).
Proof.
  intros w a w' E. apply insertToken_ok in E as [Hs Hi].
  apply insert_row_ok in Hi as [_ ->]. cbn [wd_db set_db]. split_and!; try reflexivity.
  - apply evolves_insert; exact _.
  - append_leaf.
  - unfold auth_inv. intros (H1 & H2 & H). split_and!; try apply H.
    + apply table_insert_ok; [by intros|done].
    + by apply unique_insert.
Qed.

Lemma revoke_tokens_rel env p :
  (forall t, p t = true -> tk_Status t = "active") ->
  m_rel auth_rel (update_rows p (revoke_token_row env)).
Proof.
  intros Hp. rel_leaf. split_and!; try reflexivity.
  - apply evolves_update; [exact _|]. intros r Hr. split; [done|]. right. split; [by apply Hp|done].
  - append_leaf.
  - unfold auth_inv. intros (H1 & H2 & H). split_and!; try apply H.
    + apply table_update_ok; [by intros|done].
    + by apply unique_update.
Qed.

Lemma createTokenBody_rel s env o key raw : m_rel auth_rel (createTokenBody s env o key raw).
Proof. unfold createTokenBody. cbv zeta. rel_split. apply insertToken_rel. Qed.

Lemma revokeTokenBody_rel env key actor reason :
  m_rel auth_rel (revokeTokenBody env key actor reason).
Proof.
  unfold revokeTokenBody. rel_split. apply revoke_tokens_rel. intros t Ht. by bool_prop.
Qed.

(** ** Sessions *)

Lemma insertSession_rel env o key h c : m_rel auth_rel (insertSession env o key h c).
Proof.
  unfold insertSession. cbv zeta. destruct (_ || _) eqn:Ec; [apply m_rel_fail|].
  apply orb_false_iff in Ec as [_ Ec]. bool_prop.
  intros w a w' E.
  apply bind_ok in E as (taken & w1 & Et & E). apply select_rows_ok in Et as [-> ->].
  apply bind_ok in E as (users & w1 & Eu & E). apply select_rows_ok in Eu as [_ ->].
  apply bind_ok in E as (actors & w1 & Ea & E). apply select_rows_ok in Ea as [_ ->].
  destruct (table_select _ _) as [|? ?] eqn:Hs in E; [|done].
  destruct (_ || _); [done|]. apply insert_row_ok in E as [_ ->]. cbn [wd_db set_db].
  split_and!; try reflexivity.
  - apply evolves_insert; exact _.
  - append_leaf.
  - unfold auth_inv. intros (H1 & H2 & H3 & H4 & H5 & H). split_and!; try apply H; try done.
    + apply table_insert_ok; [by intros|done].
    + by apply unique_insert.
    + cbn. apply Forall_app. split; [done|]. constructor; [|constructor]. done.
Qed.

Lemma Forall_update {R} (P : R -> Prop) p f (t : table R) :
  (forall r, P r -> p r = true -> P (f r)) -> Forall P (t_rows t) ->
  Forall P (t_rows (table_update p f t)).
Proof.
  intros Hf HF. cbn. rewrite Forall_map. eapply List.Forall_impl; [|exact HF]. cbn.
  intros r Hr. destruct (p r) eqn:E; auto.
Qed.

Lemma update_sessions_rel p f :
  (forall s, p s = true -> session_ev s (f s)) ->
  (forall s, session_bounded s -> session_bounded (f s)) ->
  (forall s, ws_ID (f s) = ws_ID s /\ ws_SessionKey (f s) = ws_SessionKey s) ->
  m_rel auth_rel (update_rows p f).
Proof.
  intros He Hb Hk. rel_leaf. split_and!; try reflexivity.
  - by apply evolves_update; [exact _|].
  - append_leaf.
  - unfold auth_inv. intros (H1 & H2 & H3 & H4 & H5 & H). split_and!; try apply H; try done.
    + apply table_update_ok; [intros s; apply Hk|done].
    + apply unique_update; [intros s; apply Hk|done].
    + apply Forall_update; auto.
Qed.

Lemma createSessionBody_rel env o key secret csrf :
  m_rel auth_rel (createSessionBody env o key secret csrf).
Proof. unfold createSessionBody. cbv zeta. rel_split. apply insertSession_rel. Qed.

Lemma revokeSessionBody_rel env id actor reason :
  m_rel auth_rel (revokeSessionBody env id actor reason).
Proof.
  unfold revokeSessionBody. rel_split. apply update_sessions_rel; [|done|done].
  intros s Hs. bool_prop. split; [done|]. by right.
Qed.

Lemma touch_rel env id :
  m_rel auth_rel (update_rows (fun s => ws_ID s =? id) (touch_session env)).
Proof.
  apply update_sessions_rel; [|intros s _; apply Z.le_min_l|done].
  intros s _. split; [done|]. by left.
Qed.

(** ** Bindings *)

Lemma update_bindings_rel env id :
  m_rel auth_rel (update_rows (fun b => (rb_ID b =? id) && (rb_Status b =s "active"))
                    (revoke_binding env)).
Proof.
  rel_leaf. split_and!; try reflexivity.
  - apply evolves_update; [exact _|]. intros b Hb. bool_prop. split; [done|]. by right.
  - append_leaf.
  - unfold auth_inv. intros (H1 & H2 & H3 & H4 & H5 & H6 & H7 & H8 & H9).
    split_and!; try done.
    + apply table_update_ok; [by intros|done].
    + apply Forall_update; auto.
    + intros b b' Hb Hb' Sb Sb' Hg.
      apply table_update_In in Hb as (b0 & Hb0 & ->), Hb' as (b1 & Hb1 & ->).
      destruct (_ && _); [done|]. destruct (_ && _); [done|]. by apply H8.
Qed.

Lemma role_project_ok key w id w' :
  role_project key w = (Ok id, w') ->
  w' = w /\ (table_ok (db_projects (wd_db w)) -> key <> "" -> id <> 0) /\ (key = "" -> id = 0).
Proof.
  unfold role_project. destruct (String.eqb_spec key "") as [->|Hne].
  - intros [= <- <-]. done.
  - intros E. apply bind_ok in E as (rows & w1 & Er & E). apply select_rows_ok in Er as [-> ->].
    apply bind_ok in E as (p & w1 & Ep & E). apply first_row_ok in Ep as [[l Hl] ->].
    apply ret_ok in E as [<- <-]. split; [done|]. split; [|done].
    intros (_ & _ & Hid) _. apply select_cons_In in Hl as [Hin _].
    pose proof (Forall_In _ _ _ Hid Hin). cbn in *. lia.
Qed.

(** What the checks on the options leave *)
Lemma grant_allowed o :
  grant_refusal o = None ->
  ValidRole (gr_Role o) = true /\ (gr_UserID o = 0 <-> gr_TeamID o <> 0)
  /\ (gr_Role o = RolePlatformAdmin <-> gr_ProjectKey o = "")
  /\ gr_Actor o <> "" /\ gr_Reason o <> "".
Proof.
  unfold grant_refusal. destruct (ValidRole (gr_Role o)) eqn:Ev; [|done]. cbn [negb orb].
  destruct (String.eqb_spec (gr_Actor o) ""); [done|].
  destruct (String.eqb_spec (gr_Reason o) ""); [done|]. cbn [orb].
  destruct (Z.eqb_spec (gr_UserID o) 0), (Z.eqb_spec (gr_TeamID o) 0); cbn [Bool.eqb]; try done;
    destruct (String.eqb_spec (gr_Role o) RolePlatformAdmin),
      (String.eqb_spec (gr_ProjectKey o) ""); cbn; try done; intros _; split_and!; tauto.
Qed.

Lemma insertBinding_rel env o pid aid w a w' :
  grant_refusal o = None ->
  (table_ok (db_projects (wd_db w)) -> gr_ProjectKey o <> "" -> pid <> 0) ->
  (gr_ProjectKey o = "" -> pid = 0) ->
  insertBinding env o pid aid w = (Ok a, w') -> auth_rel (wd_db w) (wd_db w').
Proof.
  intros Hg Hp1 Hp2 E. apply grant_allowed in Hg as (Hv & Hx & Hr & _).
  unfold insertBinding in E.
  apply bind_ok in E as (same & w1 & Es & E). apply select_rows_ok in Es as [-> ->].
  apply bind_ok in E as (users & w1 & Eu & E). apply select_rows_ok in Eu as [_ ->].
  apply bind_ok in E as (teams & w1 & Et & E). apply select_rows_ok in Et as [_ ->].
  destruct (table_select _ _) as [|? ?] eqn:Hs in E; [|done].
  destruct (_ || _); [done|]. apply insert_row_ok in E as [_ ->]. cbn [wd_db set_db].
  split_and!; try reflexivity.
  - apply evolves_insert; exact _.
  - append_leaf.
  - unfold auth_inv. intros (H1 & H2 & H3 & H4 & H5 & H6 & H7 & H8 & H9).
    assert (Hnew : forall b, In b (t_rows (db_role_bindings (wd_db w))) -> rb_Status b = "active" ->
      rb_ProjectID b = pid -> rb_Role b = gr_Role o ->
      (gr_UserID o <> 0 /\ rb_UserID b = gr_UserID o)
      \/ (gr_TeamID o <> 0 /\ rb_TeamID b = gr_TeamID o) -> False).
    { intros b Hb Sb E1 E2 E3.
      assert (Hin : In b (table_select (same_active_binding pid (gr_UserID o) (gr_TeamID o) (gr_Role o))
                            (tget (wd_db w)))).
      { apply table_select_In. split; [exact Hb|]. unfold same_active_binding.
        rewrite Sb, E1, E2, Z.eqb_refl, !String.eqb_refl. cbn [andb].
        destruct E3 as [[Hn ->]|[Hn ->]]; rewrite (proj2 (Z.eqb_neq _ _) Hn), Z.eqb_refl; [done|].
        apply orb_true_r. }
      by rewrite Hs in Hin. }
    split_and!; try done.
    + apply table_insert_ok; [by intros|done].
    + cbn. apply Forall_app. split; [done|]. constructor; [|constructor].
      unfold binding_wf. cbn. split_and!; [exact Hx| |exact Hv]. rewrite Hr. split; [exact Hp2|].
      intros Hz. destruct (string_dec (gr_ProjectKey o) ""); [done|]. by destruct (Hp1 H9).
    + intros b b' Hb Hb' Sb Sb' (G1 & G2 & G3).
      apply table_insert_In in Hb as [Hb| ->], Hb' as [Hb'| ->]; cbn in *.
      * by apply H8.
      * exfalso. eapply (Hnew b); try done. destruct G3 as [[? ?]|[? ?]]; [left|right]; split; congruence.
      * exfalso. eapply (Hnew b'); try done. destruct G3 as [[? ?]|[? ?]]; [left|right]; split; congruence.
      * done.
Qed.

Lemma grantRoleBody_rel env o :
  grant_refusal o = None -> m_rel auth_rel (grantRoleBody env o).
Proof.
  intros Hg w a w' E. unfold grantRoleBody in E.
  apply bind_ok in E as (actorID & w1 & Ea & E).
  etransitivity; [by eapply ensureActor_rel|].
  apply bind_ok in E as (pid & w2 & Ep & E). apply role_project_ok in Ep as (-> & Hp1 & Hp2).
  apply bind_ok in E as (b & w2 & Eb & E). etransitivity; [by eapply insertBinding_rel|].
  refine ((_ : m_rel auth_rel _) _ _ _ E). rel_split.
Qed.

Lemma revokeRoleBody_rel env id actor reason :
  m_rel auth_rel (revokeRoleBody env id actor reason).
Proof. unfold revokeRoleBody. rel_split. apply update_bindings_rel. Qed.

Lemma upsertOIDCBody_rel env i : m_rel auth_rel (upsertOIDCBody env i).
Proof. unfold upsertOIDCBody. cbv zeta. rel_split. Qed.

(** ** The system *)

Inductive auth_command : Type :=
| ACreateToken (s : Service) (rnd : Rand) (o : CreateTokenOptions)
| ARevokeToken (tokenKey actor reason : string)
| AUpsertIdentity (identity : OIDCIdentity)
| ABootstrap (user : UserRecord) (subject : string) (allowed : list string)
| AGrantRole (o : GrantRoleOptions)
| ARevokeRole (bindingID : Z) (actor reason : string)
| ACreateSession (rnd : Rand) (o : CreateSessionOptions)
| AAuthenticateSession (rawSession : string)
| ARevokeSession (sessionID : Z) (actor reason : string).

Definition auth_exec (env : Env) (c : auth_command) (w : World) : World :=
  match c with
  | ACreateToken s rnd o => snd (CreateToken s rnd env o w)
  | ARevokeToken key actor reason => snd (RevokeToken env key actor reason w)
  | AUpsertIdentity identity => snd (UpsertOIDCIdentity env identity w)
  | ABootstrap user subject allowed => snd (EnsureBootstrapPlatformAdmin env user subject allowed w)
  | AGrantRole o => snd (GrantRole env o w)
  | ARevokeRole id actor reason => snd (RevokeRole env id actor reason w)
  | ACreateSession rnd o => snd (CreateSession rnd env o w)
  | AAuthenticateSession raw => snd (AuthenticateSession env raw w)
  | ARevokeSession id actor reason => snd (RevokeSession env id actor reason w)
  end.

Inductive auth_step (w : World) : World -> Prop :=
| AuthStep env c : auth_step w (auth_exec env c w).

Abbreviation auth_steps := (rtc auth_step).

Lemma transact_auth {A} (m : M (res error A)) w :
  m_rel auth_rel m -> auth_rel (wd_db w) (wd_db (snd (transact m w))).
Proof.
  intros Hm. destruct (transact m w) as [r w'] eqn:E. exact (transact_rel auth_rel m w r w' Hm E).
Qed.

Lemma CreateToken_rel s rnd env o w :
  auth_rel (wd_db w) (wd_db (snd (CreateToken s rnd env o w))).
Proof.
  unfold CreateToken. cbv zeta. destruct (_ || _); [reflexivity|].
  destruct (ct_Projects _); [reflexivity|]. destruct (ct_Capabilities _); [reflexivity|].
  destruct (generateTokenParts rnd) as [[key secret]|]; [|reflexivity].
  apply transact_auth, createTokenBody_rel.
Qed.

Lemma GrantRole_rel env o w : auth_rel (wd_db w) (wd_db (snd (GrantRole env o w))).
Proof.
  unfold GrantRole. cbv zeta. destruct (grant_refusal _) eqn:E; [reflexivity|].
  by apply transact_auth, grantRoleBody_rel.
Qed.

Lemma Bootstrap_rel env user subject allowed w :
  auth_rel (wd_db w) (wd_db (snd (EnsureBootstrapPlatformAdmin env user subject allowed w))).
Proof.
  unfold EnsureBootstrapPlatformAdmin. do 2 (destruct (contains _ _); cbn [negb]; try reflexivity).
  pose proof (GrantRole_rel env (MkGrantRole "" (ur_ID user) 0 RolePlatformAdmin (ur_Actor user)
    "OIDC bootstrap subject allowlist" None) w) as H. by destruct (GrantRole _ _ _).
Qed.

Lemma CreateSession_rel rnd env o w :
  auth_rel (wd_db w) (wd_db (snd (CreateSession rnd env o w))).
Proof.
  unfold CreateSession. destruct (negb _); [reflexivity|].
  destruct (generateOpaqueParts rnd) as [[key secret]|]; [|reflexivity].
  destruct (randomURLToken rnd 2 32); [|reflexivity]. apply transact_auth, createSessionBody_rel.
Qed.

Lemma AuthenticateSession_rel env raw w :
  auth_rel (wd_db w) (wd_db (snd (AuthenticateSession env raw w))).
Proof.
  unfold AuthenticateSession. destruct (opaqueKey raw "afs") as [key|]; [|reflexivity].
  destruct (find_session _ _) as [[s user]|]; [|reflexivity].
  destruct (session_accepted env raw s); [|reflexivity]. cbn [snd].
  exact (touch_rel env (ws_ID s) w _ _ eq_refl).
Qed.

Lemma auth_exec_rel env c w : auth_rel (wd_db w) (wd_db (auth_exec env c w)).
Proof.
  destruct c; cbn [auth_exec]; auto using CreateToken_rel, GrantRole_rel, Bootstrap_rel,
    CreateSession_rel, AuthenticateSession_rel.
  - unfold RevokeToken. cbv zeta. destruct (_ || _); [reflexivity|].
    apply transact_auth, revokeTokenBody_rel.
  - unfold UpsertOIDCIdentity. cbv zeta. destruct (_ || _); [reflexivity|].
    apply transact_auth, upsertOIDCBody_rel.
  - unfold RevokeRole. cbv zeta. destruct (_ || _); [reflexivity|].
    apply transact_auth, revokeRoleBody_rel.
  - unfold RevokeSession. destruct (_ || _); [reflexivity|].
    apply transact_auth, revokeSessionBody_rel.
Qed.

Lemma auth_steps_rel w w' : auth_steps w w' -> auth_rel (wd_db w) (wd_db w').
Proof.
  induction 1 as [w|w w1 w' H1 H2 IH]; [reflexivity|]. destruct H1 as [env c].
  etransitivity; [apply auth_exec_rel|exact IH].
Qed.

(** ** Tokens over time *)

(** The row a successful creation leaves *)
Lemma CreateToken_row s rnd env o w c w1 :
  CreateToken s rnd env o w = (Ok c, w1) ->
  exists key secret e t,
    generateTokenParts rnd = Ok (key, secret)
    /\ cr_Token c = "af_" +:+ key +:+ "_" +:+ secret
    /\ ct_ExpiresAt o = Some e /\ check_expiry s env o = Ok e
    /\ normalize (ct_Projects o) <> [] /\ normalize (ct_Capabilities o) <> []
    /\ In t (t_rows (db_api_tokens (wd_db w1))) /\ tk_ID t = tr_ID (cr_Record c)
    /\ tk_TokenKey t = key /\ tk_TokenHash t = sha256_hex (cr_Token c)
    /\ tk_Scope t = mk (scope_fields (MkScope (normalize (ct_Projects o))
                                              (normalize (ct_Capabilities o))))
    /\ tk_Status t = "active" /\ tk_ExpiresAt t = Some (stored_time (gt_ns e)).
Proof.
  unfold CreateToken. cbv zeta. destruct (_ || _); [done|].
  cbn [normalize_create ct_Projects ct_Capabilities].
  destruct (normalize (ct_Projects o)) as [|p ps] eqn:Ep; [done|].
  destruct (normalize (ct_Capabilities o)) as [|cap caps] eqn:Ec; [done|].
  destruct (generateTokenParts rnd) as [[key secret]|] eqn:Eg; [|done].
  unfold transact. destruct (createTokenBody _ _ _ _ _ _) as [[r|e] wb] eqn:Eb; [|done].
  intros [= -> ->]. unfold createTokenBody in Eb. cbv zeta in Eb.
  apply bind_ok in Eb as (aid & w2 & _ & Eb). apply bind_ok in Eb as (cby & w3 & _ & Eb).
  apply bind_ok in Eb as (e & w4 & Ee & Eb). apply lift_ok in Ee as [Ee ->].
  apply bind_ok in Eb as (row & w5 & Er & Eb). apply bind_ok in Eb as ([] & w6 & Ea & Eb).
  apply ret_ok in Eb as [[= <-] <-].
  assert (Hrow : In row (t_rows (db_api_tokens (wd_db w5)))
    /\ row = MkToken (tk_ID row) aid key (tokenHash ("af_" +:+ key +:+ "_" +:+ secret))
         (mk (scope_fields (MkScope (p :: ps) (cap :: caps)))) "active"
         (Some (stored_time (gt_ns e))) "service" cby (ct_RotatedFrom o)
         (trim_space (ct_Reason o)) (env_now env) None).
  { apply insertToken_ok in Er as [_ Er]. apply insert_row_ok in Er as [-> ->].
    cbn [normalize_create ct_Projects ct_Capabilities]. rewrite Ep, Ec.
    split; [apply in_or_app; right; by left|done]. }
  destruct Hrow as [Hin Hrow].
  apply insertAuthAudit_ok in Ea as [audits ->].
  exists key, secret, e, row. split; [done|]. split; [done|].
  assert (Hx : ct_ExpiresAt o = Some e).
  { unfold check_expiry in Ee. cbn in Ee. destruct (ct_ExpiresAt o); [|done].
    destruct (_ || _); [done|]. destruct (_ || _); [done|]. congruence. }
  split; [done|]. split; [exact Ee|]. split; [done|]. split; [done|].
  split; [exact Hin|]. rewrite Hrow. done.
Qed.

Lemma unique_row {R} (key : R -> string) (l : list R) r r' :
  unique_by key l -> In r l -> In r' l -> key r = key r' -> r = r'.
Proof.
  unfold unique_by. induction l as [|x l IH]; [done|]. cbn. intros Hnd.
  inversion Hnd as [|? ? Hni Hnd']; subst. intros [->|H1] [->|H2] E; auto.
  - exfalso. apply Hni. rewrite E. by apply in_map.
  - exfalso. apply Hni. rewrite <- E. by apply in_map.
Qed.

(** With unique keys, authentication is decided by the row with the key. *)
Lemma Authenticate_row jt env raw db key t :
  unique_by tk_TokenKey (t_rows (db_api_tokens db)) ->
  tokenKeyFromRaw raw = Some key -> In t (t_rows (db_api_tokens db)) -> tk_TokenKey t = key ->
  Authenticate jt env raw db
  = match token_principal jt env db raw t with Some p => Ok p | None => Err ErrInvalidToken end.
Proof.
  intros Hu Hk Hin Ht. unfold Authenticate. rewrite Hk.
  by rewrite (unique_select tk_TokenKey key (db_api_tokens db) t).
Qed.
