(* ===== verification/AuthLifecycle.v ===== *)
(** * The life of tokens, sessions and role bindings

    From creation to expiry or revocation, whatever auth commands run in
    between. *)

From stdpp Require Import base list strings numbers relations gmap.
From Stdlib Require Import ZArith Lia Ascii String.
From S2P Require Import Prelude GoString Sha256 Json Schema Tx History Capability Encoding Auth.
From S2P Require Import Rbac Session Demo AuthSpec AuthSystem.

(** ** A concrete store: the demo project, one user, a token and a session *)

Definition auth_env (seconds : Z) : Env :=
  MkEnv (seconds * 1000000) (seconds * 1000000000) "2026-01-01T00:00:00Z" None None
    (fun _ => false) (fun _ => false) (fun _ => true) (fun _ _ _ => Err (ErrText "no s3")).

(** The [k]-th byte of the [i]-th read *)
Definition demo_rand : Rand := fun i => Some (fun k => Z.of_nat (i * 37 + k * 11 + 5)).

Definition demo_identity : OIDCIdentity :=
  MkOIDCIdentity "https://issuer" "subject-1" "ada@example.org" "Ada" (Some ["dev"]) (Some []).
Definition demo_user_world : World := snd (UpsertOIDCIdentity (auth_env 10) demo_identity demo_world).
Definition demo_user : UserRecord := MkUserRecord 1 1 "Ada" "ada@example.org" "Ada".

Definition demo_create_token : CreateTokenOptions :=
  MkCreateToken "ci" "deploy pipeline" ["demo"] ["read"; "run.control"]
    (Some (MkGoTime (3610 * 1000000000) "1970-01-01T01:00:10Z")) "Ada" 0.
Definition demo_token_run := CreateToken NewService demo_rand (auth_env 10) demo_create_token demo_user_world.
Definition demo_token_world : World := snd demo_token_run.

Definition demo_session : CreateSessionOptions :=
  MkCreateSession demo_user "https://issuer" None (600 * 1000000000) (3600 * 1000000000).
Definition demo_session_run := CreateSession demo_rand (auth_env 10) demo_session demo_token_world.
Definition demo_session_world : World := snd demo_session_run.

Definition demo_grant : GrantRoleOptions :=
  MkGrantRole "demo" 1 0 "operator" "Ada" "on call" None.
Definition demo_granted : World := snd (GrantRole (auth_env 10) demo_grant demo_session_world).

(** The names of the states are unfolded before the commands they stand for. *)
#[local] Strategy 100 [CreateToken CreateSession GrantRole UpsertOIDCIdentity Authenticate
  AuthenticateSession RevokeToken RevokeSession RevokeRole].

Lemma auth_inv_demo : auth_inv (wd_db demo_world).
Proof.
  unfold auth_inv, table_ok, unique_by, bindings_unique. cbn.
  split_and!; repeat constructor; cbn; try lia; tauto.
Qed.

Section DemoAuthSteps.
Context (w : World).
Lemma upsert_auth_step env i : auth_step w (snd (UpsertOIDCIdentity env i w)).
Proof. exact (AuthStep w env (AUpsertIdentity i)). Qed.
Lemma token_auth_step s rnd env o : auth_step w (snd (CreateToken s rnd env o w)).
Proof. exact (AuthStep w env (ACreateToken s rnd o)). Qed.
Lemma session_auth_step rnd env o : auth_step w (snd (CreateSession rnd env o w)).
Proof. exact (AuthStep w env (ACreateSession rnd o)). Qed.
Lemma grant_auth_step env o : auth_step w (snd (GrantRole env o w)).
Proof. exact (AuthStep w env (AGrantRole o)). Qed.
End DemoAuthSteps.

(** The invariant holds wherever the commands lead. *)
Lemma auth_inv_steps w w' : auth_steps w w' -> auth_inv (wd_db w) -> auth_inv (wd_db w').
Proof. intros Hs. apply (auth_steps_rel _ _ Hs). Qed.

Lemma demo_user_inv : auth_inv (wd_db demo_user_world).
Proof. eapply auth_inv_steps, auth_inv_demo. apply rtc_once, upsert_auth_step. Qed.

Lemma demo_granted_steps : auth_steps demo_token_world demo_granted.
Proof. eapply rtc_l; [apply session_auth_step|]. apply rtc_once, grant_auth_step. Qed.

Lemma run_result {A B} (p : A * B) a : fst p = a -> p = (a, snd p).
Proof. intros <-. apply surjective_pairing. Qed.

(** ** Tokens *)

Lemma check_expiry_ok s env o e :
  check_expiry s env o = Ok e ->
  env_unixnano env < gt_ns e <= env_unixnano env + sv_tokenMaxTTL s
  /\ sv_tokenMaxTTL s <= token_max_ttl_bound.
Proof.
  unfold check_expiry. destruct (ct_ExpiresAt o) as [x|]; [|done].
  destruct ((sv_tokenMaxTTL s <=? 0) || _) eqn:E1; [done|].
  destruct (negb _ || _) eqn:E2; [done|]. intros [= <-].
  apply orb_false_iff in E1 as [_ E1], E2 as [E2 E3]. bool_prop. lia.
Qed.

(** C11. A token that [CreateToken] returned stays what it is: in every later
    state there is exactly its row, and presenting the token is accepted
    exactly when it has not been revoked and its expiry (kept to the
    microsecond, at most 90 days after its creation) lies ahead; an accepted
    token speaks for the projects and capabilities it was created with,
    normalised, and for nothing else.  A refused one is always refused with
    [ErrInvalidToken]. *)
Theorem token_lifecycle s rnd env o w c w1 w2 jt env2 :
  auth_inv (wd_db w) -> CreateToken s rnd env o w = (Ok c, w1) -> auth_steps w1 w2 ->
  exists t e,
    In t (t_rows (db_api_tokens (wd_db w2))) /\ tk_ID t = tr_ID (cr_Record c)
    /\ (tk_Status t = "active" \/ tk_Status t = "revoked")
    /\ ct_ExpiresAt o = Some e
    /\ env_unixnano env < gt_ns e <= env_unixnano env + token_max_ttl_bound
    /\ match Authenticate jt env2 (cr_Token c) (wd_db w2) with
       | Ok p => tk_Status t = "active" /\ env_unixnano env2 < gt_ns e / 1000 * 1000
           /\ pr_TokenID p = tr_ID (cr_Record c)
           /\ pr_Projects p = normalize (ct_Projects o)
           /\ pr_Capabilities p = normalize (ct_Capabilities o)
       | Err err => err = ErrInvalidToken
           /\ (tk_Status t = "revoked" \/ gt_ns e / 1000 * 1000 <= env_unixnano env2)
       end.
Proof.
  intros Hi Hc Hs. pose proof (CreateToken_row _ _ _ _ _ _ _ Hc)
    as (key & secret & e & t & Hg & Ht & He & Hx & Hp & Hcap & Hin & Eid & Ek & Eh & Es & Est & Ee).
  pose proof (CreateToken_rel s rnd env o w) as H1. rewrite Hc in H1. cbn [snd] in H1.
  pose proof (auth_steps_rel _ _ Hs) as H2.
  assert (Hi2 : auth_inv (wd_db w2)) by (apply H2, H1, Hi).
  destruct (evolves_In _ _ _ _ (proj1 H2) Hin) as (t2 & Hin2 & [= F1 F2 F3 F4 F5 F6 _ _ _ _ _] & Hst).
  exists t2, e. split; [done|]. split; [congruence|].
  split; [destruct Hst as [->|[_ ->]]; auto|]. split; [done|].
  pose proof (check_expiry_ok _ _ _ _ Hx). split; [lia|].
  rewrite (Authenticate_row jt env2 (cr_Token c) (wd_db w2) key t2);
    [|apply Hi2|rewrite Ht; by eapply token_key_generated|done|congruence].
  assert (Hd : decode_scope (tk_Scope t2)
    = Some (MkScope (normalize (ct_Projects o)) (normalize (ct_Capabilities o)))).
  { rewrite F5, Es. apply decode_scope_fields. }
  destruct (token_principal jt env2 (wd_db w2) (cr_Token c) t2) as [p|] eqn:Ep.
  - apply token_principal_exact in Ep as (scope & (A1 & A2 & A3 & A4 & _) & ->).
    rewrite Hd in A4. injection A4 as <-. cbn. rewrite !normalize_fixed.
    split_and!; try done; [|congruence]. apply A3. by rewrite F6, Ee.
  - split; [done|]. apply token_principal_none in Ep.
    destruct Hst as [Hst|[_ Hst]]; [|by left]. right. apply Z.nlt_ge. intros Hlt. apply Ep.
    exists (MkScope (normalize (ct_Projects o)) (normalize (ct_Capabilities o))).
    split_and!; cbn; rewrite ?normalize_fixed; try done; try congruence.
    intros x Hx2. rewrite F6, Ee in Hx2. by injection Hx2 as <-.
Qed.

Lemma token_lifecycle_witness :
  exists c t e, fst demo_token_run = Ok c
    /\ In t (t_rows (db_api_tokens (wd_db demo_granted))) /\ tk_ID t = tr_ID (cr_Record c)
    /\ is_ok (Authenticate (fun _ => "") (auth_env 3000) (cr_Token c) (wd_db demo_granted)) = true
    /\ env_unixnano (auth_env 3000) < gt_ns e.
Proof.
  assert (H : exists c, fst demo_token_run = Ok c
    /\ is_ok (Authenticate (fun _ => "") (auth_env 3000) (cr_Token c) (wd_db demo_granted)) = true).
  { eexists. split; [vm_compute; reflexivity|vm_compute; reflexivity]. }
  destruct H as (c & Hc & Hok).
  assert (Hrun : CreateToken NewService demo_rand (auth_env 10) demo_create_token demo_user_world
                 = (Ok c, demo_token_world)).
  { unfold demo_token_world. unfold demo_token_run in *. by apply run_result. }
  destruct (token_lifecycle NewService demo_rand (auth_env 10) demo_create_token demo_user_world c
    demo_token_world demo_granted (fun _ => "") (auth_env 3000) demo_user_inv Hrun
    demo_granted_steps) as (t & e & Hin & Hid & _ & _ & _ & Ha).
  exists c, t, e. split; [exact Hc|]. split; [exact Hin|]. split; [exact Hid|].
  split; [exact Hok|]. revert Hok Ha. destruct (Authenticate _ _ _ _); intros Hok Ha.
  - destruct Ha as (_ & Hlt & _). eapply Z.lt_le_trans; [exact Hlt|].
    rewrite Z.mul_comm. apply Z.mul_div_le. reflexivity.
  - discriminate Hok.
Defined.

(** ** Sessions *)

(** The row a successful creation leaves *)
Lemma CreateSession_row rnd env o w c w1 :
  CreateSession rnd env o w = (Ok c, w1) ->
  exists key secret csrf s u,
    generateOpaqueParts rnd = Ok (key, secret) /\ randomURLToken rnd 2 32 = Ok csrf
    /\ c = MkCreatedSession ("afs_" +:+ key +:+ "_" +:+ secret) csrf
             (with_session (PrincipalForUser env (so_User o) (wd_db w1)) (ws_ID s)
                (sha256_hex csrf))
             (env_unixnano env + so_AbsoluteTTL o)
    /\ In s (t_rows (db_web_sessions (wd_db w1)))
    /\ ws_SessionKey s = key /\ ws_SessionHash s = sha256_hex (cs_RawSession c)
    /\ ws_CSRFHash s = sha256_hex csrf /\ ws_Status s = "active"
    /\ ws_UserID s = ur_ID (so_User o)
    /\ ws_AbsoluteExpiresAt s = stored_time (env_unixnano env + so_AbsoluteTTL o)
    /\ ws_IdleExpiresAt s = stored_time (env_unixnano env + so_IdleTTL o)
    /\ In u (t_rows (db_users (wd_db w1))) /\ us_ID u = ur_ID (so_User o).
Proof.
  unfold CreateSession. destruct (negb _); [done|].
  destruct (generateOpaqueParts rnd) as [[key secret]|] eqn:Eg; [|done].
  destruct (randomURLToken rnd 2 32) as [csrf|] eqn:Ec; [|done].
  unfold transact. destruct (createSessionBody _ _ _ _ _ _) as [[r|e] wb] eqn:Eb; [|done].
  intros [= -> ->]. unfold createSessionBody in Eb. cbv zeta in Eb.
  apply bind_ok in Eb as (row & w2 & Er & Eb). apply bind_ok in Eb as (db & w3 & [= <- <-] & Eb).
  apply ret_ok in Eb as [[= <-] <-]. unfold insertSession in Er. cbv zeta in Er.
  destruct (_ || _); [done|].
  apply bind_ok in Er as (taken & w3 & Et & Er). apply select_rows_ok in Et as [_ ->].
  apply bind_ok in Er as (users & w3 & Eu & Er). apply select_rows_ok in Eu as [-> ->].
  apply bind_ok in Er as (actors & w3 & Ea & Er). apply select_rows_ok in Ea as [_ ->].
  destruct taken; [|done].
  destruct (table_select (fun u => us_ID u =? ur_ID (so_User o)) (tget (wd_db w))) as [|u us] eqn:Hu;
    [done|]. cbn [orb] in Er. apply select_cons_In in Hu as [Hu Eid].
  revert Er. destruct (match actors with [] => _ | _ => _ end); [done|]. intros Er.
  apply insert_row_ok in Er as [Erow ->].
  exists key, secret, csrf, row, u. split; [done|]. split; [done|]. split; [done|].
  split; [rewrite Erow; apply in_or_app; right; by left|].
  rewrite Erow. bool_prop. split_and!; done.
Qed.

Lemma unique_find {R} (p : R -> bool) (t : table R) r :
  In r (t_rows t) -> p r = true -> exists r' l, table_select p t = r' :: l.
Proof.
  intros Hin Hp. destruct (table_select p t) as [|r' l] eqn:E; [|eauto].
  assert (Hr : In r (table_select p t)) by by apply table_select_In. by rewrite E in Hr.
Qed.

(** The session is found as long as its row and its user exist. *)
Lemma find_session_row db key s u :
  unique_by ws_SessionKey (t_rows (db_web_sessions db)) ->
  In s (t_rows (db_web_sessions db)) -> ws_SessionKey s = key ->
  In u (t_rows (db_users db)) -> us_ID u = ws_UserID s ->
  exists user, find_session db key = Some (s, user) /\ ur_ID user = ws_UserID s.
Proof.
  intros Hu Hs Hk Hin Hid. unfold find_session. rewrite (unique_select ws_SessionKey key _ s) by done.
  destruct (unique_find (fun u => us_ID u =? ws_UserID s) (db_users db) u) as (u' & l & E);
    [done|by rewrite Hid, Z.eqb_refl|].
  rewrite E. apply select_cons_In in E as [_ E]. bool_prop. eauto.
Qed.

Lemma session_accepted_exact env raw s :
  session_accepted env raw s = true <->
  ws_Status s = "active" /\ env_unixnano env <= ws_IdleExpiresAt s * 1000
  /\ env_unixnano env <= ws_AbsoluteExpiresAt s * 1000 /\ ws_SessionHash s = sha256_hex raw.
Proof.
  unfold session_accepted, scanned_time, opaqueHash.
  rewrite negb_true_iff, !orb_false_iff, !negb_false_iff, !String.eqb_eq, !Z.ltb_ge. tauto.
Qed.

Lemma csrf_generated rnd i csrf : randomURLToken rnd i 32 = Ok csrf -> csrf <> "".
Proof.
  unfold randomURLToken. destruct (rand_read rnd i 32) as [b|] eqn:E; [|done]. intros [= <-] E2.
  apply rand_read_bytes in E as [_ Hl]. pose proof (b64_secret_len b Hl) as H.
  rewrite E2 in H. unfold len in H. cbn in H. lia.
Qed.

(** The CSRF token a session was issued with validates. *)
Lemma csrf_of_session p csrf :
  pr_SessionID p <> 0 -> csrf <> "" -> pr_CSRFHash p = sha256_hex csrf -> ValidateCSRF p csrf = true.
Proof.
  intros Hid Hne Hh. unfold ValidateCSRF, opaqueHash. rewrite Hh.
  rewrite (proj2 (Z.eqb_neq _ _) Hid).
  rewrite (proj2 (String.eqb_neq _ _)) by apply sha256_hex_nonempty.
  rewrite (proj2 (String.eqb_neq _ _) Hne). apply String.eqb_refl.
Qed.

(** What accepting a session returns *)
Definition session_principal (env : Env) (db : DB) (c : CreatedSession) (s : SessionRow)
    (p : Principal) : Prop :=
  pr_SessionID p = ws_ID s /\ pr_UserID p = ws_UserID s /\ ValidateCSRF p (cs_RawCSRF c) = true
  /\ exists user, ur_ID user = ws_UserID s
     /\ pr_Roles p = pr_Roles (PrincipalForUser env user db)
     /\ pr_Projects p = pr_Projects (PrincipalForUser env user db)
     /\ pr_Capabilities p = pr_Capabilities (PrincipalForUser env user db).

(** C12. A session that [CreateSession] returned is accepted in a later state
    exactly when it has not been revoked and the clock has not passed its idle
    expiry, which never lies beyond the absolute expiry set at creation.  An
    accepted session speaks for its user with the roles of that moment,
    validates the CSRF token it was issued with, and has its idle expiry moved
    to the idle time to live after the database clock, capped by the absolute
    expiry; a refused one changes nothing. *)
Theorem session_lifecycle rnd env o w c w1 w2 env2 :
  auth_inv (wd_db w) -> CreateSession rnd env o w = (Ok c, w1) -> auth_steps w1 w2 ->
  exists s, In s (t_rows (db_web_sessions (wd_db w2)))
    /\ ws_ID s = pr_SessionID (cs_Principal c) /\ ws_UserID s = ur_ID (so_User o)
    /\ ws_IdleExpiresAt s <= ws_AbsoluteExpiresAt s
    /\ ws_AbsoluteExpiresAt s * 1000 <= cs_ExpiresAt c
    /\ match AuthenticateSession env2 (cs_RawSession c) w2 with
       | (Ok p, w3) =>
           ws_Status s = "active" /\ env_unixnano env2 <= ws_IdleExpiresAt s * 1000
           /\ session_principal env2 (wd_db w2) c s p
           /\ exists s3, In s3 (t_rows (db_web_sessions (wd_db w3))) /\ ws_ID s3 = ws_ID s
              /\ ws_IdleExpiresAt s3
                 = Z.min (ws_AbsoluteExpiresAt s) (env_now env2 + ws_IdleTTLSeconds s * 1000000)
       | (Err err, w3) => err = ErrInvalidSession /\ w3 = w2
           /\ (ws_Status s <> "active" \/ ws_IdleExpiresAt s * 1000 < env_unixnano env2)
       end.
Proof.
  intros Hi Hc Hs. pose proof (CreateSession_row _ _ _ _ _ _ Hc)
    as (key & secret & csrf & s & u & Hg & Hcs & -> & Hin & Ek & Eh & Ecs & Est & Eu & Ea & _ & Hu & Eid).
  pose proof (CreateSession_rel rnd env o w) as H1. rewrite Hc in H1. cbn [snd] in H1.
  pose proof (auth_steps_rel _ _ Hs) as H2.
  assert (Hi2 : auth_inv (wd_db w2)) by (apply H2, H1, Hi).
  destruct H2 as (_ & Hse & _ & Hue & _ & _).
  destruct (evolves_In _ _ _ _ Hse Hin) as (s2 & Hin2 & [= F1 F2 F3 F4 F5 F6 _ _ F7 F8 _] & Hst).
  destruct (evolves_In _ _ _ _ Hue Hu) as (u2 & Hu2 & [= G1 _ _ _]).
  destruct Hi2 as (_ & _ & Hok & Huk & Hb & _). pose proof (Forall_In _ _ _ Hb Hin2) as Hb2.
  unfold session_bounded in Hb2.
  assert (Habs : ws_AbsoluteExpiresAt s2 * 1000 <= env_unixnano env + so_AbsoluteTTL o).
  { rewrite F8, Ea. unfold stored_time. rewrite Z.mul_comm. apply Z.mul_div_le. lia. }
  exists s2. cbn [cs_RawSession cs_RawCSRF cs_ExpiresAt cs_Principal with_session pr_SessionID] in *.
  split; [done|]. split; [congruence|]. split; [congruence|]. split; [done|]. split; [exact Habs|].
  unfold AuthenticateSession. rewrite (session_key_generated rnd key secret Hg).
  destruct (find_session_row (wd_db w2) key s2 u2) as (user & -> & Hid); try done; try congruence.
  destruct (session_accepted env2 _ s2) eqn:Eacc.
  - apply session_accepted_exact in Eacc as (A1 & A2 & A3 & A4).
    split; [done|]. split; [done|]. split.
    + split_and!; cbn; [done|congruence| |by exists user].
      destruct Hok as (_ & _ & Hids). pose proof (Forall_In _ _ _ Hids Hin2) as Hid2. cbn in Hid2.
      apply csrf_of_session; cbn; [lia|by eapply csrf_generated|congruence].
    + exists (touch_session env2 s2). split; [|done].
      apply table_update_In. exists s2. by rewrite Z.eqb_refl.
  - split; [done|]. split; [done|].
    destruct (string_dec (ws_Status s2) "active") as [Ha|]; [|by left]. right.
    apply Z.nle_gt. intros Hle.
    assert (Hacc : session_accepted env2 ("afs_" +:+ key +:+ "_" +:+ secret) s2 = true).
    { apply session_accepted_exact. split_and!; [done|done|lia|congruence]. }
    congruence.
Qed.

Lemma session_lifecycle_witness :
  exists c s, fst demo_session_run = Ok c
    /\ In s (t_rows (db_web_sessions (wd_db demo_granted))) /\ ws_UserID s = 1
    /\ is_ok (fst (AuthenticateSession (auth_env 500) (cs_RawSession c) demo_granted)) = true
    /\ is_ok (fst (AuthenticateSession (auth_env 700) (cs_RawSession c) demo_granted)) = false
    /\ ws_IdleExpiresAt s <= ws_AbsoluteExpiresAt s.
Proof.
  assert (H : exists c, fst demo_session_run = Ok c
    /\ is_ok (fst (AuthenticateSession (auth_env 500) (cs_RawSession c) demo_granted)) = true
    /\ is_ok (fst (AuthenticateSession (auth_env 700) (cs_RawSession c) demo_granted)) = false).
  { eexists. split; [vm_compute; reflexivity|].
    split; [vm_compute; reflexivity|vm_compute; reflexivity]. }
  destruct H as (c & Hc & Hok & Hno).
  assert (Hrun : CreateSession demo_rand (auth_env 10) demo_session demo_token_world
                 = (Ok c, demo_session_world)).
  { unfold demo_session_world. unfold demo_session_run in *. by apply run_result. }
  assert (Hinv : auth_inv (wd_db demo_token_world)).
  { eapply auth_inv_steps, demo_user_inv. apply rtc_once, token_auth_step. }
  destruct (session_lifecycle demo_rand (auth_env 10) demo_session demo_token_world c
    demo_session_world demo_granted (auth_env 500) Hinv Hrun) as (s & Hin & _ & Hu & Hle & _).
  { apply rtc_once, grant_auth_step. }
  exists c, s. exact (conj Hc (conj Hin (conj Hu (conj Hok (conj Hno Hle))))).
Defined.

(** ** Revocation *)

(** A successful transaction ran its body to the end. *)
Lemma transact_ok {A} (m : M (res error A)) w a w' :
  transact m w = (Ok a, w') -> m w = (Ok (Ok a), w').
Proof. unfold transact. destruct (m w) as [[r|e] w1]; intros [= E <-]; by subst. Qed.

(** The rows an update selected are in the table as the update left them. *)
Lemma updated_In {R} (p : R -> bool) f (t : table R) r l :
  List.map f (table_select p t) = r :: l ->
  exists r0, In r0 (t_rows t) /\ p r0 = true /\ r = f r0 /\ In r (t_rows (table_update p f t)).
Proof.
  destruct (table_select p t) as [|r0 l0] eqn:E; [done|]. intros [= <- _].
  apply select_cons_In in E as [Hin Hp]. exists r0. split_and!; try done.
  apply table_update_In. exists r0. by rewrite Hp.
Qed.

Lemma RevokeToken_row env key actor reason w w1 :
  RevokeToken env key actor reason w = (Ok tt, w1) ->
  exists t, In t (t_rows (db_api_tokens (wd_db w1))) /\ tk_TokenKey t = trim_space key
    /\ tk_Status t = "revoked".
Proof.
  unfold RevokeToken. cbv zeta. destruct (_ || _); [done|]. intros E. apply transact_ok in E.
  unfold revokeTokenBody in E. apply bind_ok in E as (aid & w2 & _ & E).
  apply bind_ok in E as (rows & w3 & Eu & E). apply update_rows_ok in Eu as [-> ->].
  destruct (List.map _ _) as [|r [|? ?]] eqn:Er in E; [done| |done].
  apply updated_In in Er as (r0 & _ & Hp & -> & Hin). bool_prop.
  apply bind_ok in E as (au & w4 & Ea & E). apply ret_ok in E as [_ <-].
  apply insertAuthAudit_ok in Ea as [audits ->].
  exists (revoke_token_row env r0). split; [exact Hin|]. done.
Qed.

Lemma RevokeSession_row env id actor reason w w1 :
  RevokeSession env id actor reason w = (Ok tt, w1) ->
  exists s, In s (t_rows (db_web_sessions (wd_db w1))) /\ ws_ID s = id /\ ws_Status s = "revoked".
Proof.
  unfold RevokeSession. destruct (_ || _); [done|]. intros E. apply transact_ok in E.
  unfold revokeSessionBody in E. apply bind_ok in E as (aid & w2 & _ & E).
  apply bind_ok in E as (rows & w3 & Eu & E). apply update_rows_ok in Eu as [-> ->].
  destruct (List.map _ _) as [|r [|? ?]] eqn:Er in E; [done| |done].
  apply updated_In in Er as (r0 & _ & Hp & -> & Hin). bool_prop.
  apply bind_ok in E as (au & w4 & Ea & E). apply ret_ok in E as [_ <-].
  apply insertAuthAudit_ok in Ea as [audits ->].
  exists (revoke_session_row env r0). split; [exact Hin|]. done.
Qed.

Lemma RevokeRole_row env id actor reason w w1 :
  RevokeRole env id actor reason w = (Ok tt, w1) ->
  exists b, In b (t_rows (db_role_bindings (wd_db w1))) /\ rb_ID b = id /\ rb_Status b = "revoked".
Proof.
  unfold RevokeRole. cbv zeta. destruct (_ || _); [done|]. intros E. apply transact_ok in E.
  unfold revokeRoleBody in E. apply bind_ok in E as (aid & w2 & _ & E).
  apply bind_ok in E as (rows & w3 & Eu & E). apply update_rows_ok in Eu as [-> ->].
  apply bind_ok in E as (b & w4 & Ef & E). apply first_row_ok in Ef as [[l Er] ->].
  apply updated_In in Er as (r0 & _ & Hp & -> & Hin). bool_prop.
  apply bind_ok in E as (au & w4 & Ea & E). apply ret_ok in E as [_ <-].
  apply insertAuthAudit_ok in Ea as [audits ->].
  exists (revoke_binding env r0). split; [exact Hin|]. done.
Qed.

Lemma revoked_stays s s' : status_ev s s' -> s = "revoked" -> s' = "revoked".
Proof. unfold status_ev. intuition congruence. Qed.

Lemma inactive_stays s s' : status_ev s s' -> s <> "active" -> s' <> "active".
Proof. unfold status_ev. intuition congruence. Qed.

(** A session that is not active is never accepted again. *)
Lemma inactive_session_refused w1 w2 row env2 raw q w3 :
  auth_inv (wd_db w1) -> auth_steps w1 w2 ->
  In row (t_rows (db_web_sessions (wd_db w1))) -> ws_Status row <> "active" ->
  AuthenticateSession env2 raw w2 = (Ok q, w3) -> pr_SessionID q <> ws_ID row.
Proof.
  intros Hi Hs Hin Hst Ha Hid. destruct (auth_steps_rel _ _ Hs) as (_ & Hse & _ & _ & _ & Hinv).
  destruct (evolves_In _ _ _ _ Hse Hin) as (s2 & Hin2 & [= F1 _ _ _ _ _ _ _ _ _ _] & He).
  apply (inactive_stays _ _ He) in Hst.
  unfold AuthenticateSession in Ha. destruct (opaqueKey raw "afs") as [k|]; [|done].
  destruct (find_session (wd_db w2) k) as [[s' user]|] eqn:Ef; [|done].
  destruct (session_accepted env2 raw s') eqn:Eacc; [|done]. injection Ha as <- _. cbn in Hid.
  apply session_accepted_exact in Eacc as (Hact & _).
  assert (Hin' : In s' (t_rows (db_web_sessions (wd_db w2)))).
  { unfold find_session in Ef. destruct (table_select _ (db_web_sessions _)) eqn:Et; [done|].
    apply select_cons_In in Et as [Hx _]. repeat case_match; try done. by injection Ef as <- _. }
  destruct (Hinv Hi) as (_ & _ & Hok & _).
  assert (s' = s2) by (apply (table_ok_inj _ _ _ Hok Hin' Hin2); cbn; congruence). congruence.
Qed.

(** C13. Revocation is final.  After a successful [RevokeToken] no raw token
    with that key is ever accepted again, after a successful [RevokeSession]
    no request is ever accepted for that session, and after a successful
    [RevokeRole] that binding never again counts among the roles of anyone,
    whatever auth commands follow and whatever the clocks say. *)
Theorem revocation_is_final w w1 w2 :
  auth_inv (wd_db w) -> auth_steps w1 w2 ->
  (forall env key actor reason, RevokeToken env key actor reason w = (Ok tt, w1) ->
     forall jt env2 raw, tokenKeyFromRaw raw = Some (trim_space key) ->
       Authenticate jt env2 raw (wd_db w2) = Err ErrInvalidToken)
  /\ (forall env id actor reason, RevokeSession env id actor reason w = (Ok tt, w1) ->
      forall env2 raw p w3, AuthenticateSession env2 raw w2 = (Ok p, w3) -> pr_SessionID p <> id)
  /\ (forall env id actor reason, RevokeRole env id actor reason w = (Ok tt, w1) ->
      forall env2 user b, holds_binding env2 (wd_db w2) user b -> rb_ID b <> id).
Proof.
  intros Hi Hs. pose proof (auth_steps_rel _ _ Hs) as H2.
  assert (Hstep : forall env c w1', w1' = auth_exec env c w -> auth_inv (wd_db w1')).
  { intros env c w1' ->. apply (auth_exec_rel env c w), Hi. }
  split_and!.
  - intros env key actor reason E jt env2 raw Hraw.
    assert (Hi1 : auth_inv (wd_db w1)).
    { apply (Hstep env (ARevokeToken key actor reason)). cbn. by rewrite E. }
    apply RevokeToken_row in E as (t & Hin & Hk & Hst).
    destruct (evolves_In _ _ _ _ (proj1 H2) Hin) as (t2 & Hin2 & [= _ _ F3 _ _ _ _ _ _ _ _] & He).
    rewrite (Authenticate_row jt env2 raw (wd_db w2) (trim_space key) t2); [|apply H2, Hi1|done|done|congruence].
    apply (revoked_stays _ _ He) in Hst.
    destruct (token_principal jt env2 (wd_db w2) raw t2) as [p|] eqn:Ep; [|done].
    apply token_principal_exact in Ep as (scope & (_ & Ha & _) & _). congruence.
  - intros env id actor reason E env2 raw p w3 Ha Hid.
    assert (Hi1 : auth_inv (wd_db w1)).
    { apply (Hstep env (ARevokeSession id actor reason)). cbn. by rewrite E. }
    apply RevokeSession_row in E as (s & Hin & Hk & Hst).
    apply (inactive_session_refused w1 w2 s env2 raw p w3); try done; [congruence|congruence].
  - intros env id actor reason E env2 user b (Hin' & Hl & _) Hid.
    assert (Hi1 : auth_inv (wd_db w1)).
    { apply (Hstep env (ARevokeRole id actor reason)). cbn. by rewrite E. }
    apply RevokeRole_row in E as (b1 & Hin & Hk & Hst).
    destruct H2 as (_ & _ & Hbe & _ & _ & Hinv).
    destruct (evolves_In _ _ _ _ Hbe Hin) as (b2 & Hin2 & [= F1 _ _ _ _ _ _ _ _] & He).
    apply (revoked_stays _ _ He) in Hst. destruct (Hinv Hi1) as (_ & _ & _ & _ & _ & Hok & _).
    assert (b = b2) by (apply (table_ok_inj _ _ _ Hok Hin' Hin2); cbn; congruence). subst b2.
    unfold binding_live in Hl. rewrite Hst in Hl. done.
Qed.

Lemma demo_granted_inv : auth_inv (wd_db demo_granted).
Proof.
  eapply auth_inv_steps, demo_user_inv. eapply rtc_l; [apply token_auth_step|].
  apply demo_granted_steps.
Qed.

Definition demo_key : string := "05101b26313c47525d68737e".
Definition demo_revoked : World :=
  snd (RevokeToken (auth_env 20) demo_key "Ada" "leaked" demo_granted).

Lemma revocation_is_final_witness :
  RevokeToken (auth_env 20) demo_key "Ada" "leaked" demo_granted = (Ok tt, demo_revoked)
  /\ tokenKeyFromRaw "af_05101b26313c47525d68737e_KjVAS1ZhbHeCjZijrrnEz9rl8PsGERwnMj1IU15pdH8"
     = Some (trim_space demo_key)
  /\ Authenticate (fun _ => "") (auth_env 30)
       "af_05101b26313c47525d68737e_KjVAS1ZhbHeCjZijrrnEz9rl8PsGERwnMj1IU15pdH8"
       (wd_db demo_revoked) = Err ErrInvalidToken.
Proof.
  assert (E : RevokeToken (auth_env 20) demo_key "Ada" "leaked" demo_granted = (Ok tt, demo_revoked)).
  { unfold demo_revoked. apply run_result. vm_compute. reflexivity. }
  assert (Hk : tokenKeyFromRaw
    "af_05101b26313c47525d68737e_KjVAS1ZhbHeCjZijrrnEz9rl8PsGERwnMj1IU15pdH8"
     = Some (trim_space demo_key)) by (vm_compute; reflexivity).
  split; [exact E|]. split; [exact Hk|].
  destruct (revocation_is_final demo_granted demo_revoked demo_revoked demo_granted_inv
    (rtc_refl _ _)) as (Ht & _ & _).
  exact (Ht (auth_env 20) demo_key "Ada" "leaked" E (fun _ => "") (auth_env 30) _ Hk).
Defined.

(** ** Role bindings *)

(** C28. In every state the auth commands can reach, a binding has exactly one
    subject (a user or a team), a known role, and no project exactly when the
    role is [platform_admin]; no subject holds one role twice in one project
    through active bindings; the idle expiry of a session never lies beyond
    its absolute expiry; and no two tokens and no two sessions share a key. *)
Theorem auth_tables_invariant w w' :
  auth_inv (wd_db w) -> auth_steps w w' ->
  (forall b, In b (t_rows (db_role_bindings (wd_db w'))) -> binding_wf b)
  /\ (forall b b', In b (t_rows (db_role_bindings (wd_db w'))) ->
        In b' (t_rows (db_role_bindings (wd_db w'))) ->
        rb_Status b = "active" -> rb_Status b' = "active" -> same_grant b b' -> b = b')
  /\ (forall s, In s (t_rows (db_web_sessions (wd_db w'))) ->
        ws_IdleExpiresAt s <= ws_AbsoluteExpiresAt s)
  /\ unique_by tk_TokenKey (t_rows (db_api_tokens (wd_db w')))
  /\ unique_by ws_SessionKey (t_rows (db_web_sessions (wd_db w'))).
Proof.
  intros Hi Hs. apply (auth_inv_steps _ _ Hs) in Hi
    as (H1 & H2 & H3 & H4 & H5 & H6 & H7 & H8 & H9). split_and!; try done.
  - intros b Hb. exact (Forall_In _ _ _ H7 Hb).
  - intros b b' Hb Hb' Sb Sb' Hg. apply (table_ok_inj _ _ _ H6 Hb Hb'). cbn. by apply H8.
  - intros s Hx. exact (Forall_In _ _ _ H5 Hx).
Qed.

Lemma auth_tables_invariant_witness :
  List.length (t_rows (db_role_bindings (wd_db demo_granted))) = 1%nat
  /\ forall b, In b (t_rows (db_role_bindings (wd_db demo_granted))) -> binding_wf b.
Proof.
  split; [vm_compute; reflexivity|].
  apply (auth_tables_invariant demo_user_world demo_granted demo_user_inv).
  eapply rtc_l; [apply token_auth_step|]. apply demo_granted_steps.
Defined.

(** A user may do what the roles it holds at that moment allow: a
    capability is allowed exactly when some active, unexpired binding of the
    user or of a team it is an active member of has a role that includes it (or
    is [platform_admin]); a project is visible exactly when such a binding
    names it (or is [platform_admin]). *)
Theorem principal_exact env user db c k :
  (AllowsCapability (PrincipalForUser env user db) c = true <->
   exists b, holds_binding env db (ur_ID user) b /\ role_allows (rb_Role b) c)
  /\ (AllowsProject (PrincipalForUser env user db) k = true <->
      exists b, holds_binding env db (ur_ID user) b
        /\ (rb_Role b = RolePlatformAdmin
            \/ let key := project_key_of db (rb_ProjectID b) in
               key <> "" /\ (key = k \/ key = "*"))).
Proof. split; [apply principal_capability|apply principal_project]. Qed.
