(* ===== verification/ApiSpec.v ===== *)
(** * Which requests reach a handler

    The middleware against the interfaces of the auth service, and the whole
    of login, requests and logout against the service itself. *)

From stdpp Require Import base list strings numbers relations gmap.
From Stdlib Require Import ZArith Lia Ascii String.
From S2P Require Import Prelude GoString Sha256 Json Schema Tx Encoding Auth Rbac Session Oidc.
From S2P Require Import AppConfig ApiAuth Demo AuthSpec AuthSystem AuthLifecycle.

(** ** The middleware *)

(** The request proves that it speaks for [p]: a bearer token the service
    accepts, or, in OIDC mode and without a bearer token, a session the service
    accepts, with a valid CSRF token unless the method is a safe one. *)
Definition credentials (s : Server) (env : Env) (r : Request) (w : World) (p : Principal) : Prop :=
  (exists raw ta, bearerToken (header_get r "Authorization") = (raw, true)
     /\ sv_authenticator s = Some ta /\ ta_Authenticate ta env raw (wd_db w) = Ok p)
  \/ (snd (bearerToken (header_get r "Authorization")) = false
      /\ OIDCEnabled (sv_authConfig s) = true
      /\ exists sa cookie, sv_sessionAuthenticator s = Some sa
         /\ cookie_get r (ac_SessionCookieName (sv_authConfig s)) = Some cookie
         /\ fst (sa_AuthenticateSession sa env cookie w) = Ok p
         /\ (safe_method (rq_Method r) = true \/ csrf_valid sa r p = true)).

(** [p] may make the request: its capability, and its project, or the access to
    all projects when the request names none *)
Definition permitted (r : Request) (p : Principal) : Prop :=
  AllowsCapability p (requestCapability r) = true
  /\ ((requestProjectKey r <> "" /\ AllowsProject p (requestProjectKey r) = true)
      \/ (requestProjectKey r = ""
          /\ (unscoped_path (rq_Path r) = true \/ AllowsProject p "*" = true))).

Lemma authenticate_request_exact s env r w p :
  fst (authenticate_request s env r w) = inl p <-> credentials s env r w p.
Proof.
  unfold authenticate_request, credentials.
  destruct (bearerToken (header_get r "Authorization")) as [raw [|]] eqn:Eb; cbn [snd].
  - split.
    + destruct (sv_authenticator s) as [ta|]; [|done].
      destruct (ta_Authenticate ta env raw (wd_db w)) eqn:E; [|done]. intros [= <-]. left. eauto 10.
    + intros [(raw' & ta & [= <-] & -> & ->)|(? & _)]; done.
  - destruct (OIDCEnabled (sv_authConfig s)); cycle 1.
    { split; [done|]. intros [(? & ? & ? & _)|(_ & ? & _)]; done. }
    destruct (sv_sessionAuthenticator s) as [sa|]; cycle 1.
    { split; [done|]. intros [(? & ? & ? & _)|(_ & _ & ? & ? & ? & _)]; done. }
    destruct (cookie_get r _) as [cookie|]; cycle 1.
    { split; [done|]. intros [(? & ? & ? & _)|(_ & _ & ? & ? & _ & ? & _)]; done. }
    destruct (sa_AuthenticateSession sa env cookie w) as [[q|e] w'] eqn:Ea; cycle 1.
    { split; [done|]. intros [(? & ? & ? & _)|(_ & _ & ? & ? & [= <-] & [= <-] & E & _)]; [done|].
      by rewrite Ea in E. }
    destruct (safe_method (rq_Method r)) eqn:Es, (csrf_valid sa r q) eqn:Ec; cbn [negb andb fst];
      split; try (intros [= <-]; right; split; [done|]; split; [done|]; exists sa, cookie;
                  rewrite Ea; by auto); try done;
      intros [(? & ? & ? & _)|(_ & _ & ? & ? & [= <-] & [= <-] & E & [Hs|Hs])]; try done;
      rewrite Ea in E; injection E as <-; congruence.
Qed.

Lemma authorize_request_exact r p q :
  authorize_request r p = Next q <-> permitted r p /\ q = Some p.
Proof.
  unfold authorize_request, permitted.
  destruct (AllowsCapability p (requestCapability r)); cbn [negb]; [|by split; [|intros [[] _]]].
  destruct (String.eqb_spec (requestProjectKey r) "") as [E|E]; cbn [negb andb].
  - destruct (unscoped_path (rq_Path r)), (AllowsProject p "*"); cbn [negb andb]; split;
      try done; try (intros [= <-]; tauto); try (intros [_ ->]; done).
    intros [[_ [[? _]|[_ [?|?]]]] _]; done.
  - destruct (AllowsProject p (requestProjectKey r)); cbn [negb andb]; split;
      try done; try (intros [= <-]; tauto); try (intros [_ ->]; done).
    intros [[_ [[_ ?]|[? _]]] _]; done.
Qed.

(** C10. With authentication enabled, a request to anything but the public
    endpoints reaches its handler exactly when its credentials are accepted for
    some principal and that principal may make it; the handler then sees that
    principal.  Every other request is refused with 401, 403, 404 or 503.  With
    authentication disabled every request runs as the local user with all
    rights. *)
Theorem middleware_exact s env r w :
  isPublicAuthPath (rq_Path r) = false ->
  (Enabled (sv_authConfig s) = true ->
   (forall q, fst (authMiddleware s env r w) = Next q <->
      exists p, q = Some p /\ credentials s env r w p /\ permitted r p)
   /\ (forall status message, fst (authMiddleware s env r w) = Refuse status message ->
         In status [401; 403; 404; 503]))
  /\ (Enabled (sv_authConfig s) = false ->
      authMiddleware s env r w = (Next (Some localUser), w)).
Proof.
  intros Hp. unfold authMiddleware. rewrite Hp.
  destruct (Enabled (sv_authConfig s)); (split; intros He; try done). cbn [negb]. split.
  - intros q. destruct (authenticate_request s env r w) as [[p|[status message]] w'] eqn:E; cbn [fst].
    + rewrite authorize_request_exact. split.
      * intros [H ->]. exists p. split; [done|]. split; [|done].
        apply authenticate_request_exact. by rewrite E.
      * intros (p' & -> & Hc & H). apply authenticate_request_exact in Hc. rewrite E in Hc.
        injection Hc as <-. done.
    + split; [done|]. intros (p & _ & Hc & _). apply authenticate_request_exact in Hc.
      by rewrite E in Hc.
  - intros status message.
    destruct (authenticate_request s env r w) as [[p|[st msg]] w'] eqn:E; cbn [fst].
    + unfold authorize_request. repeat case_match; intros [= <- <-]; cbn; auto.
    + intros [= <- <-]. unfold authenticate_request in E. repeat case_match; try done;
        injection E as <- <- <-; cbn; auto.
Qed.

(** ** Login *)

(** The browser sends back the cookies of the login, with the CSRF token in the
    header when the method needs it, and no bearer token. *)
Definition carries (s : Server) (r : Request) (rawSession csrf : string) : Prop :=
  snd (bearerToken (header_get r "Authorization")) = false
  /\ cookie_get r (ac_SessionCookieName (sv_authConfig s)) = Some rawSession
  /\ (safe_method (rq_Method r) = true
      \/ (cookie_get r csrfCookieName = Some csrf
          /\ trim_space (header_get r "X-CSRF-Token") = csrf)).

(** A callback that redirects went through its three steps. *)
Lemma callback_steps s svc rnd env r w rs w1 :
  sv_sessionAuthenticator s = Some (session_service svc rnd) ->
  oidcCallbackHandler s env r w = (rs, w1) -> rs_Status rs = 302 ->
  exists ident user wa wb created,
    UpsertOIDCIdentity env ident w = (Ok user, wa)
    /\ EnsureBootstrapPlatformAdmin env user (oi_Subject ident)
         (ac_BootstrapSubjects (sv_authConfig s)) wa = (Ok tt, wb)
    /\ CreateSession rnd env
         (MkCreateSession user (oi_Issuer ident) (Some (env_unixnano env))
            (ac_SessionIdleTTL (sv_authConfig s)) (ac_SessionAbsoluteTTL (sv_authConfig s))) wb
       = (Ok created, w1)
    /\ rs_Cookies rs = setSessionCookies s env created
         ++ [MkCookie oidcStateCookieName "" "/api/v1/auth/oidc/callback" (-1) true true "Lax"].
Proof.
  intros Hsa. unfold oidcCallbackHandler. rewrite Hsa.
  destruct (_ <>s "GET"); [by intros [= <- <-]|].
  destruct (sv_oidcProvider s) as [provider|]; [|by intros [= <- <-]].
  destruct (cookie_get r oidcStateCookieName) as [cookie|]; [|by intros [= <- <-]].
  destruct (op_Exchange provider _ _ _ _) as [[ident returnTo]|]; [|by intros [= <- <-]].
  cbn [session_service sa_UpsertOIDCIdentity sa_EnsureBootstrapPlatformAdmin sa_CreateSession].
  destruct (UpsertOIDCIdentity env ident w) as [[user|] wa] eqn:E1; [|by intros [= <- <-]].
  destruct (EnsureBootstrapPlatformAdmin env user _ _ wa) as [[[]|] wb] eqn:E2; [|by intros [= <- <-]].
  destruct (CreateSession rnd env _ wb) as [[created|] wc] eqn:E3; [|by intros [= <- <-]].
  intros [= <- <-] _. by exists ident, user, wa, wb, created.
Qed.

(** The steps of a login are auth commands. *)
Lemma callback_inv env ident user subject allowed w r1 wa r2 wb :
  UpsertOIDCIdentity env ident w = (r1, wa) ->
  EnsureBootstrapPlatformAdmin env user subject allowed wa = (r2, wb) ->
  auth_inv (wd_db w) -> auth_inv (wd_db wb).
Proof.
  intros E1 E2. apply auth_inv_steps.
  eapply rtc_l; [|apply rtc_once].
  - exact (AuthStep w env (AUpsertIdentity ident)).
  - cbn [auth_exec]. rewrite E1. cbn [snd].
    pose proof (AuthStep wa env (ABootstrap user subject allowed)) as H. cbn [auth_exec] in H.
    by rewrite E2 in H.
Qed.

Lemma login_session s svc rnd env r w rs w1 :
  sv_sessionAuthenticator s = Some (session_service svc rnd) ->
  OIDCEnabled (sv_authConfig s) = true -> auth_inv (wd_db w) ->
  oidcCallbackHandler s env r w = (rs, w1) -> rs_Status rs = 302 ->
  exists rawSession csrf maxAge user,
    rs_Cookies rs =
      [MkCookie (ac_SessionCookieName (sv_authConfig s)) rawSession "/" maxAge true true "Lax";
       MkCookie csrfCookieName csrf "/api/" maxAge true false "Strict";
       MkCookie oidcStateCookieName "" "/api/v1/auth/oidc/callback" (-1) true true "Lax"]
    /\ forall env2 r2, carries s r2 rawSession csrf ->
         env_unixnano env2
           <= (env_unixnano env + ac_SessionIdleTTL (sv_authConfig s)) / 1000 * 1000 ->
         exists p u, credentials s env2 r2 w1 p /\ pr_UserID p = ur_ID user /\ ur_ID u = ur_ID user
           /\ pr_Roles p = pr_Roles (PrincipalForUser env2 u (wd_db w1))
           /\ pr_Projects p = pr_Projects (PrincipalForUser env2 u (wd_db w1))
           /\ pr_Capabilities p = pr_Capabilities (PrincipalForUser env2 u (wd_db w1)).
Proof.
  intros Hsa Ho Hi E Hst. destruct (callback_steps _ _ _ _ _ _ _ _ Hsa E Hst)
    as (ident & user & wa & wb & created & E1 & E2 & E3 & Ec).
  pose proof (CreateSession_row _ _ _ _ _ _ E3)
    as (key & secret & csrf & row & u & Hg & Hcs & Hcr & Hin & Ek & Eh & Ecs & Est & Eu & Ea & Ei & Hu & Eid).
  exists (cs_RawSession created), csrf, (Z.quot (cs_ExpiresAt created - env_unixnano env) 1000000000), user.
  split; [rewrite Ec, Hcr; done|]. intros env2 r2 (Hb & Hcook & Hm) Hclock.
  assert (Hi1 : auth_inv (wd_db w1)).
  { pose proof (CreateSession_rel rnd env
      (MkCreateSession user (oi_Issuer ident) (Some (env_unixnano env))
         (ac_SessionIdleTTL (sv_authConfig s)) (ac_SessionAbsoluteTTL (sv_authConfig s))) wb) as H.
    rewrite E3 in H. apply H. by eapply callback_inv. }
  destruct Hi1 as (_ & _ & Hok & Huk & Hb1 & _). pose proof (Forall_In _ _ _ Hb1 Hin) as Hle.
  unfold session_bounded in Hle. cbn [so_IdleTTL so_AbsoluteTTL so_User] in *.
  destruct (find_session_row (wd_db w1) key row u) as (usr & Hf & Hid); try done; try congruence.
  assert (Hrun : fst (AuthenticateSession env2 (cs_RawSession created) w1)
    = Ok (with_session (PrincipalForUser env2 usr (wd_db w1)) (ws_ID row) (ws_CSRFHash row))).
  { unfold AuthenticateSession. rewrite Hcr at 1. cbn [cs_RawSession].
    rewrite (session_key_generated rnd key secret Hg), Hf.
    rewrite (proj2 (session_accepted_exact env2 (cs_RawSession created) row)); [done|].
    unfold stored_time in *. split_and!; [done|lia|lia|congruence]. }
  eexists _, usr. split; [right; split; [done|]; split; [done|]|].
  - exists (session_service svc rnd), (cs_RawSession created). split; [done|]. split; [done|].
    split; [exact Hrun|]. destruct Hm as [Hm|[Hc Hh]]; [by left|right]. unfold csrf_valid.
    rewrite Hc, Hh. pose proof (csrf_generated _ _ _ Hcs) as Hne.
    rewrite (proj2 (String.eqb_neq _ _) Hne), String.eqb_refl. cbn [negb orb session_service sa_ValidateCSRF].
    destruct Hok as (_ & _ & Hids). pose proof (Forall_In _ _ _ Hids Hin) as Hpos. cbn in Hpos.
    rewrite csrf_of_session; [done|cbn; lia|done|done].
  - cbn. split_and!; try done; congruence.
Qed.

Lemma oidc_enabled cfg : OIDCEnabled cfg = true -> Enabled cfg = true.
Proof.
  unfold OIDCEnabled, Enabled, equal_fold. intros H. apply String.eqb_eq in H. rewrite H. done.
Qed.


Definition demo_auth_config : AuthConfig :=
  MkAuthConfig "oidc" "https://issuer" "client" "/secret" "https://af/cb" "groups" "/session"
    "areaflow_session" (600 * second) (3600 * second) (24 * hour) ["subject-1"].
Definition demo_server : Server :=
  MkServer (MkServerConfig "127.0.0.1" "3847" "" [] false) demo_auth_config
    (Some (token_service (fun _ => ""))) (Some (session_service NewService demo_rand))
    (Some (MkOIDCProvider (fun _ _ => Err (ErrText "unused"))
             (fun _ _ _ _ => Ok (demo_identity, "/")))).
Definition demo_callback : Request :=
  MkRequest "GET" "/api/auth/oidc/callback" [("code", "c"); ("state", "s")] []
    [(oidcStateCookieName, "sealed")] "10.0.0.1:1" None (Some 0).
Definition demo_login := oidcCallbackHandler demo_server (auth_env 10) demo_callback demo_world.

(** A request of the logged-in browser *)
Definition demo_browse (method path rawSession csrf : string) (body : option json) : Request :=
  MkRequest method path [] [("X-CSRF-Token", csrf)]
    [("areaflow_session", rawSession); (csrfCookieName, csrf)] "10.0.0.1:1" body (Some 0).

(** The names of the states are unfolded before the commands they stand for. *)
#[local] Strategy 100 [oidcCallbackHandler authMiddleware logoutHandler CreateToken CreateSession
  GrantRole UpsertOIDCIdentity AuthenticateSession RevokeSession PrincipalForUser].


(** A browser without cookies is refused at the projects list. *)
Lemma middleware_exact_witness :
  let r := MkRequest "GET" "/api/projects" [] [] [] "10.0.0.1:1" None (Some 0) in
  (forall q, fst (authMiddleware demo_server (auth_env 300) r (snd demo_login)) = Next q <->
     exists p, q = Some p /\ credentials demo_server (auth_env 300) r (snd demo_login) p /\ permitted r p)
  /\ (exists message, fst (authMiddleware demo_server (auth_env 300) r (snd demo_login))
                      = Refuse 401 message).
Proof.
  intros r.
  destruct (middleware_exact demo_server (auth_env 300) r (snd demo_login) eq_refl) as [H _].
  destruct (H eq_refl) as [Hn _]. split; [exact Hn|]. eexists. reflexivity.
Defined.

(** ** Logout *)

(** The refusal of a revocation says that the session is not active. *)
Lemma RevokeSession_refused env id actor reason w w1 row :
  table_ok (db_web_sessions (wd_db w)) -> RevokeSession env id actor reason w = (Err ErrInvalidSession, w1) ->
  In row (t_rows (db_web_sessions (wd_db w))) -> ws_ID row = id ->
  ws_Status row <> "active" /\ wd_db w1 = wd_db w.
Proof.
  unfold RevokeSession. destruct (_ || _); [done|]. intros Hok E Hin Hid.
  unfold transact in E. destruct (revokeSessionBody env id actor reason w) as [[r|e] wb] eqn:Eb.
  - injection E as -> ->. exfalso. unfold revokeSessionBody in Eb.
    apply bind_ok in Eb as (aid & w2 & _ & Eb). apply bind_ok in Eb as (rows & w3 & _ & Eb).
    by destruct rows as [|? [|? ?]].
  - injection E as -> <-. split; [|done]. intros Hact. unfold revokeSessionBody, bind in Eb.
    destruct (ensureActor env actor w) as [[aid|e] w2] eqn:Ea.
    2: { unfold ensureActor, upsert_actor, bind, update_rows, insert_row, ret in Ea.
         by destruct (List.map _ _) in Ea. }
    pose proof (ensureActor_rel env actor w aid w2 Ea) as (_ & Hse & _).
    assert (Hsame : db_web_sessions (wd_db w2) = db_web_sessions (wd_db w)).
    { unfold ensureActor, upsert_actor, bind, update_rows, insert_row, ret in Ea.
      destruct (List.map _ _) in Ea; by injection Ea as _ <-. }
    unfold update_rows in Eb. cbn [tget web_sessions_table] in Eb. rewrite Hsame in Eb.
    rewrite (table_select_id _ (db_web_sessions (wd_db w)) row) in Eb; [done|done| |done|].
    + intros r' Hr. bool_prop. cbn. congruence.
    + by rewrite Hid, Hact, Z.eqb_refl.
Qed.

(** Logging out is final: once the logout of a session has answered 204, no
    request is ever authenticated for that session again. *)
Theorem logout_is_final s svc rnd env r p w rs w1 w2 row :
  sv_sessionAuthenticator s = Some (session_service svc rnd) -> auth_inv (wd_db w) ->
  In row (t_rows (db_web_sessions (wd_db w))) -> ws_ID row = pr_SessionID p ->
  logoutHandler s env r p w = (rs, w1) -> rs_Status rs = 204 -> auth_steps w1 w2 ->
  forall env2 raw q w3, AuthenticateSession env2 raw w2 = (Ok q, w3) ->
    pr_SessionID q <> pr_SessionID p.
Proof.
  intros Hsa Hi Hin Hid E Hst Hs env2 raw q w3 Ha.
  assert (Hpos : pr_SessionID p <> 0).
  { destruct Hi as (_ & _ & (_ & _ & Hids) & _). pose proof (Forall_In _ _ _ Hids Hin). cbn in *. lia. }
  unfold logoutHandler in E. rewrite Hsa in E. destruct (_ <>s "POST"); [by injection E as <- _|].
  cbv zeta in E. rewrite (proj2 (Z.eqb_neq _ _) Hpos) in E. cbn [session_service sa_RevokeSession] in E.
  destruct (RevokeSession env (pr_SessionID p) (pr_Actor p) "user logout" w) as [[[]|e] wa] eqn:Er.
  - injection E as <- ->. pose proof (auth_exec_rel env (ARevokeSession (pr_SessionID p) (pr_Actor p)
      "user logout") w) as Hrel. cbn [auth_exec] in Hrel. rewrite Er in Hrel.
    apply RevokeSession_row in Er as (row' & Hin' & Hid' & Hrev).
    rewrite <- Hid'. eapply (inactive_session_refused w1 w2 row'); try done; [|congruence].
    by apply Hrel.
  - destruct (is_invalid_session e) eqn:Ei; [|by injection E as <- _]. destruct e; try done.
    injection E as <- ->. destruct (RevokeSession_refused _ _ _ _ _ _ row (proj1 (proj2 (proj2 Hi))) Er Hin Hid)
      as [Hna Hdb]. rewrite <- Hid.
    apply (inactive_session_refused w1 w2 row env2 raw q w3); rewrite ?Hdb; done.
Qed.

Definition demo_logout : Response * World :=
  logoutHandler demo_server (auth_env 20) (demo_browse "POST" "/api/auth/logout" "" "" None)
    (with_session (PrincipalForUser (auth_env 20) demo_user (wd_db demo_session_world)) 1 "")
    demo_session_world.

Lemma logout_is_final_witness :
  rs_Status (fst demo_logout) = 204
  /\ forall env2 raw q w3, AuthenticateSession env2 raw (snd demo_logout) = (Ok q, w3) ->
       pr_SessionID q <> 1.
Proof.
  assert (Hst : rs_Status (fst demo_logout) = 204) by (vm_compute; reflexivity).
  split; [exact Hst|].
  assert (Hinv : auth_inv (wd_db demo_session_world)).
  { eapply auth_inv_steps, demo_user_inv. eapply rtc_l; [apply token_auth_step|].
    apply rtc_once, session_auth_step. }
  assert (Hrow : exists row, In row (t_rows (db_web_sessions (wd_db demo_session_world))) /\ ws_ID row = 1).
  { eexists. vm_compute. split; [left; reflexivity|reflexivity]. }
  destruct Hrow as (row & Hin & Hid).
  exact (logout_is_final demo_server NewService demo_rand (auth_env 20)
    (demo_browse "POST" "/api/auth/logout" "" "" None)
    (with_session (PrincipalForUser (auth_env 20) demo_user (wd_db demo_session_world)) 1 "")
    demo_session_world (fst demo_logout) (snd demo_logout) (snd demo_logout) row eq_refl Hinv Hin Hid
    (surjective_pairing _) Hst (rtc_refl _ _)).
Defined.
