(* ===== verification/AuthFindings.v ===== *)
(** * Where access control is wider than it reads

    Runs of the modelled handlers that show behaviours the sources do not
    intend: each is a concrete request sequence evaluated to its response. *)

From stdpp Require Import base list strings numbers gmap.
From Stdlib Require Import ZArith Lia Ascii String.
From S2P Require Import Prelude GoString Sha256 Json Schema Tx Encoding Auth Rbac Session Oidc.
From S2P Require Import AppConfig ApiAuth Demo AuthLifecycle ApiSpec.

(** Two projects, one logged-in user (its session and CSRF token are those of
    [demo_rand]), and the roles each example grants *)
Definition other_project : Record_ :=
  MkRecord 2 "other" "Other" "software" "generic" "standard" "main" "/srv/other" "local"
    "/var/areaflow".
Definition two_projects : World :=
  set_db (set_projects (MkTable [demo_project; other_project] 3) (wd_db demo_world)) demo_world.
Definition logged_in : World :=
  snd (CreateSession demo_rand (auth_env 10) demo_session
         (snd (UpsertOIDCIdentity (auth_env 10) demo_identity two_projects))).

Definition demo_raw : string := "afs_05101b26313c47525d68737e_KjVAS1ZhbHeCjZijrrnEz9rl8PsGERwnMj1IU15pdH8".
Definition demo_csrf : string :=
  match fst demo_session_run with Ok c => cs_RawCSRF c | Err _ => "" end.

Definition grant (project role : string) (w : World) : World :=
  snd (GrantRole (auth_env 10) (MkGrantRole project 1 0 role "admin" "setup" None) w).

Definition request (method path : string) (query : list (string * string)) (body : option json)
  : Request :=
  MkRequest method path query [("X-CSRF-Token", demo_csrf)]
    [("areaflow_session", demo_raw); (csrfCookieName, demo_csrf)] "10.0.0.1:1" body (Some 0).

Definition parse_hour (_ : string) : option GoTime := Some (MkGoTime (3610 * second) "t").
Definition status_of (r : option Response * World) : option Z := rs_Status <$> fst r.
Definition serve (w : World) (r : Request) : option Response * World :=
  serve_auth parse_hour demo_server (auth_env 20) r w.

(** A user who administers only the project [demo] asks for a token, naming that
    project in the query, and gets one for every project and capability. *)
Example project_admin_mints_global_token :
  let w := grant "demo" RoleProjectAdmin logged_in in
  let body := Some (JObj (mk [("actor", JStr "x"); ("reason", JStr "y"); ("projects", jstrs ["*"]);
                              ("capabilities", jstrs ["*"]); ("expires_at", JStr "t")])) in
  let '(rs, w') := serve w (request "POST" "/api/v1/auth/tokens" [("project_key", "demo")] body) in
  match rs with
  | Some (MkResponse 201 (BCreatedToken c) _ _) =>
      match Authenticate (fun _ => "") (auth_env 30) (cr_Token c) (wd_db w') with
      | Ok p => (AllowsProject p "other", AllowsCapability p "admin") = (true, true)
      | Err _ => False
      end
  | _ => False
  end.
Proof. vm_compute. reflexivity. Qed.

(** A viewer may not read the role bindings, except with a slash at the end of
    the path. *)
Example viewer_lists_bindings_with_slash :
  let w := grant "demo" RoleViewer logged_in in
  (status_of (serve w (request "GET" "/api/v1/projects/demo/role-bindings" [] None)),
   status_of (serve w (request "GET" "/api/v1/projects/demo/role-bindings/" [] None)))
  = (Some 403, Some 200).
Proof. vm_compute. reflexivity. Qed.

(** The administrator of [demo] revokes a binding of the project [other] through
    the path of its own project. *)
Example project_admin_revokes_foreign_binding :
  let w := grant "other" RoleViewer (grant "demo" RoleProjectAdmin logged_in) in
  let '(rs, w') := serve w (request "DELETE" "/api/v1/projects/demo/role-bindings"
                              [("binding_id", "2"); ("reason", "r")] None) in
  (rs_Status <$> rs,
   List.map (fun b => (rb_ProjectID b, rb_Status b)) (t_rows (db_role_bindings (wd_db w'))))
  = (Some 204, [(1, "active"); (2, "revoked")]).
Proof. vm_compute. reflexivity. Qed.

(** Capabilities are pooled over projects: a viewer of [demo] who administers
    [other] passes as an administrator of [demo]. *)
Example roles_pool_over_projects :
  let w := grant "other" RoleProjectAdmin (grant "demo" RoleViewer logged_in) in
  let only := grant "demo" RoleViewer logged_in in
  let r := request "POST" "/api/projects/demo/workflow-versions" [] None in
  (match fst (authMiddleware demo_server (auth_env 20) r only) with Next _ => true | _ => false end,
   match fst (authMiddleware demo_server (auth_env 20) r w) with Next _ => true | _ => false end)
  = (false, true).
Proof. vm_compute. reflexivity. Qed.

(** An expired binding keeps the status active, so that the role cannot be
    granted again. *)
Example expired_binding_blocks_regrant :
  let o expires := MkGrantRole "demo" 1 0 RoleViewer "admin" "setup" expires in
  let w := snd (GrantRole (auth_env 10) (o (Some (60 * second))) logged_in) in
  (pr_Roles (PrincipalForUser (auth_env 100) demo_user (wd_db w)),
   fst (GrantRole (auth_env 100) (o None) w))
  = ([], Err (ErrUniqueViolation "project_role_bindings_user_active_idx")).
Proof. vm_compute. reflexivity. Qed.

(** An idle time to live below one second passes the validation of the
    configuration and makes every login fail. *)
Example subsecond_idle_ttl_breaks_login :
  let cfg := MkAuthConfig "oidc" "i" "c" "f" "r" "groups" "s" "areaflow_session" (second / 2)
               (3600 * second) (24 * hour) [] in
  (AuthConfig_Validate cfg,
   is_ok (fst (CreateSession demo_rand (auth_env 10)
     (MkCreateSession demo_user "i" None (ac_SessionIdleTTL cfg) (ac_SessionAbsoluteTTL cfg))
     demo_user_world)))
  = (None, false).
Proof. vm_compute. reflexivity. Qed.

(** A disabled identity is enabled again by the next login of its subject. *)
Example login_reenables_disabled_identity :
  let disable r := MkIdentity (ui_ID r) (ui_UserID r) (ui_Issuer r) (ui_Subject r)
    (ui_EmailSnapshot r) (ui_ClaimsHash r) "disabled" (ui_LastAuthenticatedAt r) (ui_CreatedAt r)
    (ui_UpdatedAt r) in
  let w := snd (update_rows (fun _ => true) disable logged_in) in
  let '(r, w') := UpsertOIDCIdentity (auth_env 50) demo_identity w in
  (is_ok r, List.map ui_Status (t_rows (db_user_identities (wd_db w))),
   List.map ui_Status (t_rows (db_user_identities (wd_db w'))))
  = (true, ["disabled"], ["active"]).
Proof. vm_compute. reflexivity. Qed.
