(* ===== verification/MigrateSpec.v ===== *)
(** * Properties of the migration runner *)

From stdpp Require Import base list strings numbers.
From Stdlib Require Import ZArith Lia Ascii String Sorting.Sorted.
From S2P Require Import Prelude GoString Sha256 Json Schema Tx Auth AuthSpec Demo Migrate.

(** What the runner relies on when PostgreSQL executes a migration: it leaves
    the rows of [schema_migrations] alone, never drops the checksum columns, and
    leaves an existing ledger alone; a ledger it creates has no row for the
    release-exception migration unless that one was applied before.  (The
    embedded files do so: only 000011 creates the ledger, with rows for the
    applied migrations and itself, and only 000013 alters [schema_migrations],
    adding columns.) *)
Class SqlOk {Rest} (exec_sql : string -> MState Rest -> option (MState Rest)) : Prop := {
  sql_rows sql st st' : exec_sql sql st = Some st' -> ms_migrations st' = ms_migrations st;
  sql_checksums sql st st' :
    exec_sql sql st = Some st' -> ms_checksums st = true -> ms_checksums st' = true;
  sql_ledger sql st st' ledger :
    exec_sql sql st = Some st' -> ms_ledger st = Some ledger -> ms_ledger st' = Some ledger;
  sql_new_ledger sql st st' ledger :
    exec_sql sql st = Some st' -> ms_ledger st = None -> ms_ledger st' = Some ledger ->
    isApplied st ReleaseExceptionMigrationName = false ->
    Forall (fun r => lg_MigrationName r <> ReleaseExceptionMigrationName) ledger }.

Section Spec.
Context {Rest : Type} (entries : list Entry).
Context (exec_sql : string -> MState Rest -> option (MState Rest)).
Context {Hsql : SqlOk exec_sql}.

Abbreviation St := (MState Rest).
Abbreviation ms := (migrations entries).

Definition names (st : St) : list string := List.map mr_Name (rows_of st).

(** The primary key of [schema_migrations], and no checksum without a column for it *)
Definition rows_wf (st : St) : Prop :=
  List.NoDup (names st)
  /\ (ms_checksums st = false -> Forall (fun r => mr_Sha256 r = None) (rows_of st)).

(** File names of a directory are distinct. *)
Definition distinct_files : Prop := List.NoDup (List.map mg_Name ms).

Lemma isApplied_spec (st : St) name : isApplied st name = true <-> In name (names st).
Proof.
  unfold isApplied, names. rewrite existsb_exists, in_map_iff. split.
  - intros (r & Hin & E). apply String.eqb_eq in E. eauto.
  - intros (r & <- & Hin). exists r. by rewrite String.eqb_refl.
Qed.

Lemma isApplied_false (st : St) name : isApplied st name = false <-> ~ In name (names st).
Proof. rewrite <- isApplied_spec. destruct (isApplied st name); split; congruence. Qed.

(** ** One migration *)

Lemma find_map_same {A} (p : A -> bool) f l :
  (forall x, p (f x) = p x) -> (forall x, p x = true -> f x = x) ->
  List.find p (List.map f l) = List.find p l.
Proof.
  intros H1 H2. induction l as [|x l IH]; [done|]. cbn. rewrite H1. destruct (p x) eqn:E; [|done].
  by rewrite H2.
Qed.

Lemma find_snoc {A} (p : A -> bool) l x : p x = false -> List.find p (l ++ [x]) = List.find p l.
Proof. intros Hx. induction l as [|y l IH]; cbn; [by rewrite Hx|by rewrite IH]. Qed.

Lemma is_phase_ne name name' phase phase' r :
  name' <> name -> is_phase name' phase' r = true -> is_phase name phase r = false.
Proof.
  unfold is_phase. intros Hne H. bool_prop. subst. by rewrite (proj2 (String.eqb_neq _ _) Hne).
Qed.

(** A phase recorded for one migration does not touch the rows of another. *)
Lemma ledger_other name phase m ph s msg rem (ledger : list LedgerRow) :
  mg_Name m <> name ->
  List.find (is_phase name phase) (recordMigrationLedgerPhase m ph s msg rem ledger)
  = List.find (is_phase name phase) ledger.
Proof.
  intros Hne. unfold recordMigrationLedgerPhase, upsert_ledger. cbn [lg_MigrationName lg_Phase].
  destruct (existsb _ ledger).
  - apply find_map_same; intros r; destruct (is_phase (mg_Name m) ph r) eqn:E; try done;
      pose proof (is_phase_ne name (mg_Name m) phase ph r Hne E) as Hf; rewrite Hf; [|done].
    unfold is_phase. cbn. by rewrite (proj2 (String.eqb_neq _ _) Hne).
  - apply find_snoc. unfold is_phase. cbn. by rewrite (proj2 (String.eqb_neq _ _) Hne).
Qed.

Lemma apply_ok m (st st' : St) :
  apply exec_sql m st = (Ok tt, st') ->
  ms_migrations st <> None ->
  isApplied st (mg_Name m) = false
  /\ rows_of st' = rows_of st
       ++ [MkMigrationRow (mg_Name m)
             (if ms_checksums st' then Some (migrationHash (mg_SQL m)) else None)]
  /\ ms_migrations st' <> None
  /\ (ms_checksums st = true -> ms_checksums st' = true)
  /\ (mg_Name m <> ReleaseExceptionMigrationName ->
      isApplied st ReleaseExceptionMigrationName = false ->
      Approval st' ReleaseExceptionMigrationName = Approval st ReleaseExceptionMigrationName).
Proof.
  unfold apply. set (st1 := set_ledger _ st).
  destruct (exec_sql (mg_SQL m) st1) as [st2|] eqn:E; [|done].
  pose proof (sql_rows _ _ _ E) as Hr. change (ms_migrations st1) with (ms_migrations st) in Hr.
  unfold insert_migration.
  assert (Hap : forall name, isApplied st2 name = isApplied st name).
  { intros name. unfold isApplied, rows_of. by rewrite Hr. }
  rewrite Hap. destruct (isApplied st (mg_Name m)) eqn:Ea; [done|].
  assert (Hro : rows_of st2 = rows_of st) by (unfold rows_of; by rewrite Hr).
  intros [= Hst] Hn.
  assert (Hrows : rows_of st' = rows_of st
    ++ [MkMigrationRow (mg_Name m) (if ms_checksums st' then Some (migrationHash (mg_SQL m)) else None)])
    by (rewrite <- Hst, <- Hro; done).
  assert (Em' : exists rows', ms_migrations st' = Some rows') by (rewrite <- Hst; by eexists).
  assert (El' : ms_ledger st' = record_phases m <$> ms_ledger st2) by (rewrite <- Hst; done).
  assert (Hc' : ms_checksums st' = ms_checksums st2) by (rewrite <- Hst; done).
  clear Hst. destruct Em' as [rows' Em'].
  split; [done|]. split; [done|]. split; [congruence|].
  split; [intros Hc; rewrite Hc'; exact (sql_checksums (mg_SQL m) st1 st2 E Hc)|].
  intros Hne Hrel. destruct (ms_migrations st) as [rows|] eqn:Em; [|done].
  assert (Hrel' : isApplied st' ReleaseExceptionMigrationName = false).
  { apply isApplied_false. unfold names. rewrite Hrows, map_app, in_app_iff. cbn.
    apply isApplied_false in Hrel. unfold names in Hrel. tauto. }
  unfold Approval. rewrite Em', El', Hrel', Hrel, Em.
  destruct (ms_ledger st) as [ledger|] eqn:El.
  - assert (El2 : ms_ledger st2 = Some (record_preflight m ledger)).
    { apply (sql_ledger (mg_SQL m) st1 st2 _ E). unfold st1. cbn. by rewrite ?El. }
    rewrite El2. cbn. unfold record_phases, record_preflight. by rewrite !ledger_other.
  - destruct (ms_ledger st2) as [ledger|] eqn:El2; [|done]. cbn.
    assert (HF : Forall (fun r => lg_MigrationName r <> ReleaseExceptionMigrationName) ledger).
    { apply (sql_new_ledger (mg_SQL m) st1 st2 _ E); [unfold st1; cbn; by rewrite ?El|done|].
      unfold isApplied, rows_of in *. unfold st1. cbn [set_ledger ms_migrations]. exact Hrel. }
    unfold record_phases, record_preflight. rewrite !ledger_other by done.
    destruct (List.find _ ledger) as [r|] eqn:Ef; [|done]. exfalso.
    apply find_some in Ef as [Hin Hp]. unfold is_phase in Hp. bool_prop.
    by apply (Forall_In _ _ _ HF Hin).
Qed.

(** ** Checksums *)

(** The checksum recorded for an embedded migration is missing or its own. *)
Definition sum_ok (m : Migration) (r : MigrationRow) : Prop :=
  mr_Name r = mg_Name m ->
  mr_Sha256 r = None \/ mr_Sha256 r = Some "" \/ mr_Sha256 r = Some (migrationHash (mg_SQL m)).
Definition sums_match (st : St) : Prop :=
  forall r m, In r (rows_of st) -> In m ms -> sum_ok m r.

Lemma find_by_name (st : St) name r :
  List.NoDup (names st) -> In r (rows_of st) -> mr_Name r = name ->
  List.find (fun r => mr_Name r =s name) (rows_of st) = Some r.
Proof.
  unfold names. intros Hnd Hin <-. induction (rows_of st) as [|x l IH]; [done|]. cbn in *.
  inversion Hnd as [|? ? Hni Hnd']; subst. destruct Hin as [->|Hin]; [by rewrite String.eqb_refl|].
  destruct (String.eqb_spec (mr_Name x) (mr_Name r)) as [E|]; [|by apply IH].
  exfalso. apply Hni. rewrite E. by apply in_map.
Qed.

Lemma mismatch_in_none (st : St) l :
  List.NoDup (names st) ->
  (mismatch_in st l = None <-> forall r m, In r (rows_of st) -> In m l -> sum_ok m r).
Proof.
  intros Hnd. induction l as [|m l IH]; cbn; [by split|].
  assert (Hrow : (match recorded_checksum st (mg_Name m) with
                  | None => True | Some h => h = "" \/ h = migrationHash (mg_SQL m) end)
                 <-> forall r, In r (rows_of st) -> sum_ok m r).
  { unfold recorded_checksum, sum_ok. split.
    - intros H r Hr Hn. rewrite (find_by_name st _ r Hnd Hr Hn) in H.
      destruct (mr_Sha256 r); [|by left]. right. destruct H as [->| ->]; auto.
    - intros H. destruct (List.find _ _) as [r|] eqn:E; [|done].
      apply find_some in E as [Hr Hn]. apply String.eqb_eq in Hn.
      destruct (H r Hr Hn) as [->|[->| ->]]; auto. }
  assert (Hsplit : (forall r m0, In r (rows_of st) -> m = m0 \/ In m0 l -> sum_ok m0 r) <->
    (forall r, In r (rows_of st) -> sum_ok m r)
    /\ (forall r m0, In r (rows_of st) -> In m0 l -> sum_ok m0 r)).
  { split; [intros H; split; eauto|]. intros [H1 H2] r m0 Hr [<-|Hm]; auto. }
  rewrite Hsplit, <- Hrow, <- IH. destruct (recorded_checksum st (mg_Name m)) as [h|]; [|tauto].
  destruct h as [|c h]; [tauto|].
  destruct (String.eqb_spec (String c h) (migrationHash (mg_SQL m))); intuition congruence.
Qed.

(** Recording a checksum that was missing *)
Definition with_hash (name hash : string) (r : MigrationRow) : MigrationRow :=
  match mr_Sha256 r with
  | None => if mr_Name r =s name then MkMigrationRow name (Some hash) else r
  | Some _ => r
  end.

Lemma record_hash_rows name hash (st : St) :
  rows_of (record_hash name hash st) = List.map (with_hash name hash) (rows_of st).
Proof. unfold record_hash, rows_of. cbn. by destruct (ms_migrations st). Qed.

Lemma with_hash_name name hash r : mr_Name (with_hash name hash r) = mr_Name r.
Proof. unfold with_hash. destruct (mr_Sha256 r); [done|]. by case_eqb. Qed.

Lemma record_hash_names name hash (st : St) : names (record_hash name hash st) = names st.
Proof.
  unfold names. rewrite record_hash_rows, map_map. apply map_ext. apply with_hash_name.
Qed.

(** What an operation that only fills in checksums keeps *)
Definition hash_only (st st' : St) : Prop :=
  names st' = names st /\ ms_ledger st' = ms_ledger st /\ ms_checksums st' = ms_checksums st
  /\ (ms_migrations st = None <-> ms_migrations st' = None).

#[local] Instance hash_only_preorder : PreOrder hash_only.
Proof.
  split; [by intros ?|]. unfold hash_only. intros a b c (H1 & H2 & H3 & H4) (K1 & K2 & K3 & K4).
  split_and!; try congruence; tauto.
Qed.

Lemma record_hash_only name hash (st : St) : hash_only st (record_hash name hash st).
Proof.
  split_and!; [apply record_hash_names|done|done|]. unfold record_hash. cbn.
  by destruct (ms_migrations st).
Qed.

(** The pairs of a run are embedded migrations with their hashes. *)
Definition own_hashes (run : list (string * string)) : Prop :=
  Forall (fun nh => exists m, In m ms /\ nh = (mg_Name m, migrationHash (mg_SQL m))) run.

Lemma migration_by_name m m' :
  distinct_files -> In m ms -> In m' ms -> mg_Name m = mg_Name m' -> m = m'.
Proof.
  unfold distinct_files. intros Hnd. induction ms as [|x l IH]; [done|]. cbn in *.
  inversion Hnd as [|? ? Hni Hnd']; subst. intros [->|H1] [->|H2] E; auto.
  - exfalso. apply Hni. rewrite E. by apply in_map.
  - exfalso. apply Hni. rewrite <- E. by apply in_map.
Qed.

Lemma recordAppliedRunHashes_ok run (st : St) :
  distinct_files -> own_hashes run ->
  hash_only st (recordAppliedRunHashes run st)
  /\ (sums_match st -> sums_match (recordAppliedRunHashes run st)).
Proof.
  intros Hd. unfold recordAppliedRunHashes. revert st.
  induction run as [|[n h] run IH]; intros st Hrun; [done|]. cbn.
  inversion Hrun as [|? ? Hx Hrun']; subst. destruct Hx as (m & Hm & [= -> ->]).
  destruct (IH (record_hash (mg_Name m) (migrationHash (mg_SQL m)) st) Hrun') as [H1 H2].
  split; [etransitivity; [apply record_hash_only|exact H1]|]. intros Hs. apply H2.
  intros r m' Hr Hm'. rewrite record_hash_rows in Hr. apply in_map_iff in Hr as (r0 & <- & Hr0).
  intros Hn. rewrite with_hash_name in Hn. unfold with_hash.
  destruct (mr_Sha256 r0) eqn:E0; [rewrite E0; rewrite <- E0; by apply (Hs r0 m')|].
  destruct (String.eqb_spec (mr_Name r0) (mg_Name m)) as [E|]; [|by left]. right; right. cbn.
  by rewrite (migration_by_name m m' Hd Hm Hm' ltac:(congruence)).
Qed.

Lemma hash_only_approval (st st' : St) name : hash_only st st' -> Approval st' name = Approval st name.
Proof.
  intros (Hn & Hl & _ & Hm). unfold Approval. rewrite Hl.
  assert (Ha : isApplied st' name = isApplied st name).
  { destruct (isApplied st name) eqn:E.
    - apply isApplied_spec. rewrite Hn. by apply isApplied_spec.
    - apply isApplied_false. rewrite Hn. by apply isApplied_false. }
  rewrite Ha. destruct (ms_migrations st), (ms_migrations st'); try done; intuition congruence.
Qed.

(** ** The loop *)

Definition up_inv (st : St) : Prop :=
  ms_migrations st <> None /\ rows_wf st /\ sums_match st.

Lemma apply_inv m (st st' : St) :
  distinct_files -> In m ms -> apply exec_sql m st = (Ok tt, st') -> up_inv st ->
  up_inv st' /\ names st' = names st ++ [mg_Name m].
Proof.
  intros Hd Hm E (Hn & (Hnd & Hnone) & Hs).
  destruct (apply_ok m st st' E Hn) as (Ha & Hrows & Hn' & Hc & _).
  assert (Hnames : names st' = names st ++ [mg_Name m]).
  { unfold names. by rewrite Hrows, map_app. }
  split; [|done]. split; [done|]. split; [split|].
  - rewrite Hnames. apply NoDup_snoc; [done|]. by apply isApplied_false.
  - intros Hf. rewrite Hrows, Hf. apply Forall_app. split; [|by constructor].
    apply Hnone. destruct (ms_checksums st) eqn:E1; [|done]. by rewrite (Hc eq_refl) in Hf.
  - intros r m' Hr Hm'. rewrite Hrows in Hr. apply in_app_iff in Hr as [Hr|[<-|[]]]; [by apply Hs|].
    intros Hx. cbn in Hx. rewrite (migration_by_name m m' Hd Hm Hm' Hx). cbn.
    destruct (ms_checksums st'); auto.
Qed.

Lemma hash_only_inv (st st' : St) :
  hash_only st st' -> sums_match st' -> ms_checksums st = true -> up_inv st -> up_inv st'.
Proof.
  intros (H1 & H2 & H3 & H4) Hs Hc (Hn & (Hnd & Hnone) & _).
  split; [tauto|]. split; [|done]. split; [by rewrite H1|]. intros Hf. congruence.
Qed.

(** The release exception that is not approved is the only one left out. *)
Definition settled (st : St) (m : Migration) : Prop :=
  isApplied st (mg_Name m) = true
  \/ (mg_Name m = ReleaseExceptionMigrationName
      /\ exists a, Approval st (mg_Name m) = Ok a
           /\ approvalAllowsMigration a (migrationHash (mg_SQL m)) = false).

Lemma isApplied_app (st st' : St) new name :
  names st' = names st ++ new ->
  isApplied st' name = isApplied st name || str_in name new.
Proof.
  intros H. destruct (isApplied st' name) eqn:E.
  - apply isApplied_spec in E. rewrite H in E. apply in_app_iff in E as [E|E]; symmetry;
      apply orb_true_iff; [left; by apply isApplied_spec|right; by apply str_in_spec].
  - apply isApplied_false in E. rewrite H in E. symmetry. apply orb_false_iff. split.
    + apply isApplied_false. rewrite in_app_iff in E. tauto.
    + apply str_in_false. rewrite in_app_iff in E. tauto.
Qed.

(** The checksum migration brings the columns its run fills in. *)
Definition checksum_sql_adds_columns : Prop :=
  forall m st st', In m ms -> mg_Name m = ChecksumMigrationName ->
    exec_sql (mg_SQL m) st = Some st' -> ms_checksums st' = true.

Lemma apply_checksum_columns m (st st' : St) :
  checksum_sql_adds_columns -> In m ms -> mg_Name m = ChecksumMigrationName ->
  apply exec_sql m st = (Ok tt, st') -> ms_checksums st' = true.
Proof.
  intros Hadd Hm Hn. unfold apply. destruct (exec_sql _ _) as [st2|] eqn:E; [|done].
  unfold insert_migration. destruct (isApplied st2 (mg_Name m)); [done|]. intros [= <-]. cbn.
  by eapply Hadd.
Qed.

Section Loop.
Context (Hd : distinct_files) (Hcols : checksum_sql_adds_columns).

(** What one iteration that applies [m] leaves *)
Definition after_apply (m : Migration) (run : list (string * string)) (st : St) : St :=
  if mg_Name m =s ChecksumMigrationName then recordAppliedRunHashes run st else st.

Lemma after_apply_ok m run (st st1 : St) :
  In m ms -> own_hashes run -> apply exec_sql m st = (Ok tt, st1) -> up_inv st ->
  let st2 := after_apply m run st1 in
  up_inv st2 /\ names st2 = names st ++ [mg_Name m]
  /\ (mg_Name m <> ReleaseExceptionMigrationName ->
      isApplied st ReleaseExceptionMigrationName = false ->
      Approval st2 ReleaseExceptionMigrationName = Approval st ReleaseExceptionMigrationName).
Proof.
  intros Hm Hrun E Hi. destruct (apply_inv m st st1 Hd Hm E Hi) as [Hi1 Hn1].
  pose proof (apply_ok m st st1 E (proj1 Hi)) as (_ & _ & _ & _ & Happ).
  unfold after_apply. destruct (String.eqb_spec (mg_Name m) ChecksumMigrationName) as [Ec|Ec];
    [|by split_and!].
  destruct (recordAppliedRunHashes_ok run st1 Hd Hrun) as [Hh Hs]. split_and!.
  - eapply hash_only_inv; [exact Hh|apply Hs, Hi1| |done]. by eapply apply_checksum_columns.
  - destruct Hh as (-> & _). done.
  - intros Hne Hrel. rewrite (hash_only_approval st1); auto.
Qed.

Lemma up_loop_ok all l applied run (st : St) applied' st' :
  up_loop exec_sql all l applied run st = (Ok applied', st') ->
  (forall m, In m l -> In m ms) -> List.NoDup (List.map mg_Name l) -> own_hashes run -> up_inv st ->
  exists new, applied' = applied ++ new /\ sublist new (List.map mg_Name l)
    /\ names st' = names st ++ new /\ up_inv st'
    /\ (forall m, In m l -> settled st' m)
    /\ (isApplied st' ReleaseExceptionMigrationName = false ->
        Approval st' ReleaseExceptionMigrationName = Approval st ReleaseExceptionMigrationName).
Proof.
  revert applied run st. induction l as [|m l IH]; intros applied run st E Hl Hnd Hrun Hi; cbn in E.
  { injection E as <- <-. exists []. rewrite !app_nil_r. split_and!; try done. }
  cbn in Hnd. inversion Hnd as [|? ? Hni Hnd']; subst.
  assert (Hm : In m ms) by (apply Hl; by left).
  assert (Hl' : forall m, In m l -> In m ms) by (intros; apply Hl; by right).
  destruct (up_ready all m st) as [[|]|e] eqn:Er; [| |done].
  - destruct (apply exec_sql m st) as [[[]|e] st1] eqn:Ea; [|done].
    set (run' := run ++ [(mg_Name m, migrationHash (mg_SQL m))]) in E.
    assert (Hrun' : own_hashes run').
    { apply Forall_app. split; [done|]. constructor; [by exists m|constructor]. }
    fold (after_apply m run' st1) in E.
    destruct (after_apply_ok m run' st st1 Hm Hrun' Ea Hi) as (Hi2 & Hn2 & Happ).
    destruct (IH _ _ _ E Hl' Hnd' Hrun' Hi2) as (new & -> & Hsub & Hn & Hi' & Hset & Happ').
    exists (mg_Name m :: new). rewrite <- app_assoc. split; [done|].
    split; [by constructor|]. split; [by rewrite Hn, Hn2, <- app_assoc|]. split; [done|]. split.
    + intros m' [<-|Hm']; [|by apply Hset]. left. apply isApplied_spec. rewrite Hn, Hn2.
      rewrite !in_app_iff. left. right. by left.
    + intros Hrel. rewrite Happ' by done.
      rewrite (isApplied_app _ _ _ _ Hn), (isApplied_app _ _ _ _ Hn2) in Hrel.
      apply orb_false_iff in Hrel as [Hrel _]. apply orb_false_iff in Hrel as [Hrel Hx].
      apply Happ; [|done]. intros Heq. apply str_in_false in Hx. apply Hx. left. done.
  - destruct (IH _ _ _ E Hl' Hnd' Hrun Hi) as (new & -> & Hsub & Hn & Hi' & Hset & Happ').
    exists new. split; [done|]. split; [by constructor|]. split_and!; try done.
    intros m' [<-|Hm']; [|by apply Hset]. unfold up_ready in Er.
    destruct (isApplied st (mg_Name m)) eqn:Eap.
    { left. by rewrite (isApplied_app _ _ _ _ Hn), Eap. }
    destruct (if String.ltb _ _ then _ else _); [done|].
    destruct (String.eqb_spec (mg_Name m) ReleaseExceptionMigrationName) as [Erel|]; [|done].
    destruct (Approval st (mg_Name m)) as [a|] eqn:Eapp; [|done]. injection Er as Er.
    right. split; [done|]. exists a. split; [|done].
    rewrite Erel, Happ'; [by rewrite <- Erel|]. rewrite <- Erel, (isApplied_app _ _ _ _ Hn), Eap. cbn.
    apply str_in_false. intros Hin. apply Hni. by eapply list_elem_of_In, elem_of_sublist; [|exact Hsub];
      apply list_elem_of_In.
Qed.

(** A settled state is left alone. *)
Lemma up_loop_settled all l applied run (st : St) :
  (forall m, In m l -> settled st m) -> up_loop exec_sql all l applied run st = (Ok applied, st).
Proof.
  revert applied run. induction l as [|m l IH]; intros applied run Hs; [done|]. cbn.
  assert (Hr : up_ready all m st = Ok false).
  { unfold up_ready. destruct (Hs m) as [->|(Hn & a & Ha & Hf)]; [by left|done|].
    destruct (isApplied st (mg_Name m)); [done|]. rewrite Ha, Hf, Hn. done. }
  rewrite Hr. apply IH. intros m' Hm'. apply Hs. by right.
Qed.
End Loop.

Lemma ensureTable_inv (st : St) :
  rows_wf st -> rows_wf (ensureTable st) /\ ms_migrations (ensureTable st) <> None
  /\ names (ensureTable st) = names st
  /\ ms_checksums (ensureTable st) = ms_checksums st /\ ms_ledger (ensureTable st) = ms_ledger st.
Proof.
  unfold ensureTable, rows_wf, names, rows_of. destruct (ms_migrations st) eqn:E; cbn; rewrite ?E; done.
Qed.

Lemma checked_sums (st : St) : rows_wf st -> rejectChecksumMismatch st ms = None -> sums_match st.
Proof.
  intros [Hnd Hnone] H. unfold rejectChecksumMismatch, checksumColumnsExist in H.
  destruct (ms_checksums st) eqn:E.
  - exact (proj1 (mismatch_in_none st ms Hnd) H).
  - intros r m Hr _ _. left. exact (Forall_In _ _ _ (Hnone eq_refl) Hr).
Qed.

Lemma sums_checked (st : St) : rows_wf st -> sums_match st -> rejectChecksumMismatch st ms = None.
Proof.
  intros [Hnd _] H. unfold rejectChecksumMismatch, checksumColumnsExist.
  destruct (ms_checksums st); [|done]. exact (proj2 (mismatch_in_none st ms Hnd) H).
Qed.

(** Names come in increasing order. *)
Definition in_order (l : list string) : Prop :=
  StronglySorted (fun a b => String.ltb b a = false) l.

Lemma migrations_in_order : in_order (List.map mg_Name ms).
Proof.
  unfold in_order, migrations, ListMigrations.
  pose proof (sort_stable_sorted (fun a b => String.ltb (mg_Name a) (mg_Name b))
    (fun a b => ltb_asym (mg_Name a) (mg_Name b))
    (fun a b c => ltb_negtrans (mg_Name a) (mg_Name b) (mg_Name c))
    (List.map (fun e => MkMigration (en_Name e) (en_Content e))
       (List.filter (fun e => negb (en_IsDir e) && has_suffix ".sql" (en_Name e)) entries))) as H.
  induction H as [|m l HS IH HF]; cbn; constructor; [done|]. by apply Forall_map.
Qed.

Lemma sublist_in_order l l' : sublist l l' -> in_order l' -> in_order l.
Proof.
  unfold in_order. induction 1 as [|x l l' Hs IH|x l l' Hs IH]; intros H; [done| |].
  - inversion H as [|? ? H1 H2]; subst. constructor; [by apply IH|].
    apply List.Forall_forall. intros y Hy. apply (Forall_In _ _ _ H2).
    apply list_elem_of_In. eapply elem_of_sublist; [by apply list_elem_of_In|done].
  - inversion H; subst. by apply IH.
Qed.

Lemma up_ok (st : St) applied st' :
  distinct_files -> checksum_sql_adds_columns -> rows_wf st ->
  Up entries exec_sql st = (Ok applied, st') ->
  sublist applied (List.map mg_Name ms) /\ names st' = names st ++ applied /\ up_inv st'
  /\ (forall m, In m ms -> settled st' m)
  /\ (isApplied st' ReleaseExceptionMigrationName = false ->
      Approval st' ReleaseExceptionMigrationName
      = Approval (ensureTable st) ReleaseExceptionMigrationName).
Proof.
  intros Hd Hc Hwf. destruct (ensureTable_inv st Hwf) as (Hwf' & Hn & Hnm & _).
  unfold Up. destruct (rejectChecksumMismatch (ensureTable st) ms) eqn:Er; [done|]. intros E.
  assert (Hi : up_inv (ensureTable st)) by (split_and!; [done|done|by apply checked_sums]).
  destruct (up_loop_ok Hd Hc _ _ _ _ _ _ _ E (fun m H => H) Hd ltac:(constructor) Hi)
    as (new & -> & Hsub & Hnames & Hi' & Hset & Happ).
  rewrite Hnm in Hnames. by split_and!.
Qed.

(** [Up] applies what is missing, in order, each migration once: the names
    it reports are embedded migrations in increasing order that were not applied
    before, and exactly they are added to [schema_migrations]; afterwards every
    embedded migration is applied, except possibly the release-exception one when
    its approval does not allow it; and running [Up] again succeeds, applies
    nothing and changes nothing. *)
Theorem up_applies_once (st : St) applied st' :
  distinct_files -> checksum_sql_adds_columns -> rows_wf st ->
  Up entries exec_sql st = (Ok applied, st') ->
  in_order applied
  /\ (forall n, In n applied -> In n (List.map mg_Name ms) /\ isApplied st n = false)
  /\ names st' = names st ++ applied /\ List.NoDup (names st')
  /\ (forall m, In m ms -> settled st' m)
  /\ Up entries exec_sql st' = (Ok [], st').
Proof.
  intros Hd Hc Hwf E. destruct (up_ok st applied st' Hd Hc Hwf E) as (Hsub & Hn & Hi & Hset & _).
  assert (Hnd : List.NoDup (names st')) by apply Hi.
  split; [by eapply sublist_in_order, migrations_in_order|]. split_and!; try done.
  - intros n Hin. split.
    + apply list_elem_of_In. eapply elem_of_sublist; [by apply list_elem_of_In|done].
    + apply isApplied_false. intros Hx. rewrite Hn in Hnd. apply in_split in Hin as (l1 & l2 & ->).
      rewrite app_assoc in Hnd. apply NoDup_remove_2 in Hnd. apply Hnd. rewrite !in_app_iff. tauto.
  - destruct Hi as (Hne & Hwf' & Hs). unfold Up.
    assert (Het : ensureTable st' = st') by (unfold ensureTable; by destruct (ms_migrations st')).
    rewrite Het, sums_checked by done. by apply up_loop_settled.
Qed.

(** ** A new database *)

(** Every row has a checksum, in a column that is there. *)
Definition all_recorded (st : St) : Prop :=
  ms_checksums st = true /\ Forall (fun r => mr_Sha256 r <> None) (rows_of st).

Lemma recorded_verified (st : St) : up_inv st -> all_recorded st -> requireVerifiedChecksums st ms = None.
Proof.
  intros (_ & Hwf & Hs) [Hc Hr]. unfold requireVerifiedChecksums, requireChecksumColumns, checksumColumnsExist.
  rewrite Hc, sums_checked by done. replace (legacy_count st) with 0; [done|].
  unfold legacy_count. symmetry. induction Hr as [|r l Hr _ IH]; [done|]. cbn. by destruct (mr_Sha256 r).
Qed.

(** The run that applied every row fills in every checksum. *)
Lemma run_hashes_recorded run (st : St) :
  Forall (fun r => mr_Sha256 r <> None \/ In (mr_Name r) (List.map fst run)) (rows_of st) ->
  Forall (fun r => mr_Sha256 r <> None) (rows_of (recordAppliedRunHashes run st)).
Proof.
  unfold recordAppliedRunHashes. revert st. induction run as [|[n h] run IH]; intros st H; cbn.
  { eapply Forall_impl; [|exact H]. intros r [?|[]]; done. }
  apply IH. rewrite record_hash_rows. apply Forall_map. eapply Forall_impl; [|exact H].
  intros r Hr. cbn in *. rewrite with_hash_name. unfold with_hash.
  destruct (mr_Sha256 r) eqn:Es; [left; by rewrite Es|].
  destruct (String.eqb_spec (mr_Name r) n) as [E|Hne]; [by left|].
  destruct Hr as [?|[E|Hr]]; [done|by subst|by right].
Qed.

Lemma run_hashes_nonempty run (st : St) :
  own_hashes run -> Forall (fun r => mr_Sha256 r <> Some "") (rows_of st) ->
  Forall (fun r => mr_Sha256 r <> Some "") (rows_of (recordAppliedRunHashes run st)).
Proof.
  unfold recordAppliedRunHashes. intros Hr. revert st.
  induction Hr as [|nh run (m & _ & ->) _ IH]; intros st H; [done|]. cbn. apply IH.
  rewrite record_hash_rows. apply Forall_map. eapply Forall_impl; [|exact H].
  intros r Hne. cbn. unfold with_hash. destruct (mr_Sha256 r) eqn:Es; [exact Hne|].
  destruct (_ =s _); [|exact Hne]. cbn. intros [= Hx].
Qed.

(** PostgreSQL executes every embedded migration. *)
Definition sql_total : Prop := forall m (st : St), In m ms -> exec_sql (mg_SQL m) st <> None.

Lemma apply_succeeds m (st : St) :
  sql_total -> In m ms -> isApplied st (mg_Name m) = false ->
  exists st', apply exec_sql m st = (Ok tt, st').
Proof.
  intros Ht Hm Ha. unfold apply. set (st1 := set_ledger _ st).
  destruct (exec_sql (mg_SQL m) st1) as [st2|] eqn:E; [|by destruct (Ht m st1 Hm)].
  unfold insert_migration, isApplied, rows_of in *. rewrite (sql_rows _ _ _ E).
  change (ms_migrations st1) with (ms_migrations st). rewrite Ha. by eexists.
Qed.

(** What holds between two rounds on a new database: the rows are those of this
    run, the exception is not approved, and once the checksum migration is
    applied every row has its checksum. *)
Definition fresh_inv (run : list (string * string)) (st : St) : Prop :=
  up_inv st /\ own_hashes run /\ names st = List.map fst run
  /\ isApplied st ReleaseExceptionMigrationName = false
  /\ Approval st ReleaseExceptionMigrationName = Ok (no_approval false)
  /\ Forall (fun r => mr_Sha256 r <> Some "") (rows_of st)
  /\ (In ChecksumMigrationName (names st) -> all_recorded st).

Lemma fresh_round m run (st : St) :
  distinct_files -> checksum_sql_adds_columns -> sql_total ->
  In m ms -> mg_Name m <> ReleaseExceptionMigrationName -> fresh_inv run st ->
  isApplied st (mg_Name m) = false ->
  let run' := run ++ [(mg_Name m, migrationHash (mg_SQL m))] in
  exists st1, apply exec_sql m st = (Ok tt, st1) /\ fresh_inv run' (after_apply m run' st1)
    /\ names (after_apply m run' st1) = names st ++ [mg_Name m].
Proof.
  intros Hd Hc Ht Hm Hne (Hi & Hown & Hn & Hrel & Happ & Hse & Hrec) Ha run'.
  destruct (apply_succeeds m st Ht Hm Ha) as [st1 E]. exists st1. split; [done|].
  assert (Hown' : own_hashes run').
  { apply Forall_app. split; [done|]. constructor; [by exists m|constructor]. }
  destruct (after_apply_ok Hd Hc m run' st st1 Hm Hown' E Hi) as (Hi' & Hn' & Happ').
  split; [|done]. split; [done|]. split; [done|].
  split; [rewrite Hn', Hn; unfold run'; by rewrite map_app|].
  split; [rewrite (isApplied_app _ _ _ _ Hn'), Hrel; apply str_in_false; intros [?|[]]; congruence|].
  split; [by rewrite Happ'|].
  destruct (apply_ok m st st1 E (proj1 Hi)) as (_ & Hrows & _ & Hkeep & _).
  assert (Hse1 : Forall (fun r => mr_Sha256 r <> Some "") (rows_of st1)).
  { rewrite Hrows. apply Forall_app. split; [done|]. constructor; [|constructor]. cbn.
    destruct (ms_checksums st1); [|done]. intros [= Hx]. }
  split; [unfold after_apply; destruct (_ =s _); [by apply run_hashes_nonempty|done]|]. intros Hin.
  unfold after_apply. destruct (String.eqb_spec (mg_Name m) ChecksumMigrationName) as [Em|Em].
  - pose proof (apply_checksum_columns m st st1 Hc Hm Em E) as Hcol. split.
    + destruct (recordAppliedRunHashes_ok run' st1 Hd Hown') as [(_ & _ & -> & _) _]. done.
    + apply run_hashes_recorded. rewrite Hrows. unfold run'. rewrite map_app, <- Hn. apply Forall_app. split.
      * apply List.Forall_forall. intros r Hr. right. apply in_app_iff. left. by apply in_map.
      * constructor; [|constructor]. right. apply in_app_iff. right. by left.
  - rewrite Hn' in Hin. apply in_app_iff in Hin as [Hin|[?|[]]]; [|done].
    destruct (Hrec Hin) as [Hcol Hall]. specialize (Hkeep Hcol). split; [done|].
    rewrite Hrows, Hkeep. apply Forall_app. split; [done|]. by repeat constructor.
Qed.

Lemma up_loop_fresh l applied run (st : St) :
  distinct_files -> checksum_sql_adds_columns -> sql_total ->
  (forall m, In m l -> In m ms) -> List.NoDup (List.map mg_Name l) -> in_order (List.map mg_Name l) ->
  (forall m, In m l -> isApplied st (mg_Name m) = false) ->
  In ChecksumMigrationName (names st ++ List.map mg_Name l) -> fresh_inv run st ->
  exists applied' run' st', up_loop exec_sql ms l applied run st = (Ok applied', st') /\ fresh_inv run' st'
    /\ In ChecksumMigrationName (names st').
Proof.
  intros Hd Hc Ht. revert applied run st.
  induction l as [|m l IH]; intros applied run st Hl Hnd Hord Hnew Hin Hf.
  { rewrite app_nil_r in Hin. by exists applied, run, st. }
  cbn in Hnd, Hord. inversion Hnd as [|? ? Hni Hnd']; subst. inversion Hord as [|? ? Hord' Hle]; subst.
  assert (Hm : In m ms) by (apply Hl; by left).
  assert (Hl' : forall m, In m l -> In m ms) by (intros; apply Hl; by right).
  assert (Ha : isApplied st (mg_Name m) = false) by (apply Hnew; by left).
  assert (Hver : (if String.ltb ChecksumMigrationName (mg_Name m) then requireVerifiedChecksums st ms
                  else None) = None).
  { destruct (String.ltb ChecksumMigrationName (mg_Name m)) eqn:El; [|done].
    apply recorded_verified; [apply Hf|]. apply Hf. apply in_app_iff in Hin as [Hin|[Hin|Hin]]; [done| |].
    - rewrite Hin in El. done.
    - by rewrite (Forall_In _ _ _ Hle Hin) in El. }
  cbn. unfold up_ready. rewrite Ha, Hver.
  destruct (String.eqb_spec (mg_Name m) ReleaseExceptionMigrationName) as [Er|Er].
  - pose proof Hf as (_ & _ & _ & _ & Happ & _). rewrite Er, Happ. cbn. apply IH; try done.
    + intros m' Hm'. apply Hnew. by right.
    + apply in_app_iff in Hin as [?|[Hx|?]]; [by apply in_app_iff; left| |by apply in_app_iff; right].
      by rewrite Er in Hx.
  - destruct (fresh_round m run st Hd Hc Ht Hm Er Hf Ha) as (st1 & E & Hf' & Hn'). rewrite E.
    fold (after_apply m (run ++ [(mg_Name m, migrationHash (mg_SQL m))]) st1). apply IH; try done.
    + intros m' Hm'. rewrite (isApplied_app _ _ _ _ Hn'), Hnew by by right. cbn.
      rewrite orb_false_r. apply String.eqb_neq. intros Hx. apply Hni. rewrite <- Hx. by apply in_map.
    + rewrite Hn', <- app_assoc. done.
Qed.

(** C18. [Up] on a new database succeeds when PostgreSQL executes the embedded
    files: it applies every embedded migration except the release-exception one,
    which has no approval yet, and the recorded checksum of every migration it
    applied is verified, those applied before the checksum columns existed
    included. *)
Theorem up_on_new_database (st : St) :
  distinct_files -> checksum_sql_adds_columns -> sql_total ->
  In ChecksumMigrationName (List.map mg_Name ms) ->
  ms_migrations st = None -> ms_ledger st = None ->
  exists applied st', Up entries exec_sql st = (Ok applied, st')
    /\ forall m, In m ms ->
         st_ChecksumStatus (migration_status st' m)
         = (if mg_Name m =s ReleaseExceptionMigrationName then "pending" else "verified").
Proof.
  intros Hd Hc Ht Hin Hm Hl.
  assert (Hrows : rows_of (ensureTable st) = []) by (unfold ensureTable, rows_of; by rewrite Hm).
  assert (Hwf : rows_wf st).
  { unfold rows_wf, names, rows_of. rewrite Hm. split; constructor. }
  destruct (ensureTable_inv st Hwf) as (Hwf' & Hne & Hnm & _ & Hled).
  assert (Hs : sums_match (ensureTable st)) by (intros r m Hr; by rewrite Hrows in Hr).
  assert (Hf : fresh_inv [] (ensureTable st)).
  { unfold fresh_inv, names, isApplied. rewrite Hrows. do 4 (split; [done || constructor|]).
    split; [unfold Approval; rewrite Hled, Hl; by destruct (ms_migrations (ensureTable st))|].
    split; [constructor|done]. }
  destruct (up_loop_fresh ms [] [] (ensureTable st) Hd Hc Ht) as (applied & run & st' & E & Hf' & Hck); try done.
  { apply migrations_in_order. }
  { intros m _. unfold isApplied. by rewrite Hrows. }
  { by apply in_app_iff; right. }
  assert (HU : Up entries exec_sql st = (Ok applied, st')) by (unfold Up; by rewrite sums_checked).
  exists applied, st'. split; [done|]. intros m Hmi.
  destruct (up_ok st applied st' Hd Hc Hwf HU) as (_ & _ & (_ & Hwf2 & Hsum) & Hset & _).
  destruct Hf' as (_ & _ & _ & Hrel & _ & Hse & Hrec). destruct (Hrec Hck) as [Hcol Hall].
  unfold migration_status, checksumColumnsExist. rewrite Hcol.
  destruct (String.eqb_spec (mg_Name m) ReleaseExceptionMigrationName) as [->|Hn]; [by rewrite Hrel|].
  destruct (Hset m Hmi) as [Hap|[? _]]; [|done]. rewrite Hap. cbn [negb st_ChecksumStatus].
  apply isApplied_spec, in_map_iff in Hap as (r & Hr & Hinr).
  unfold recorded_checksum. rewrite (find_by_name st' _ r (proj1 Hwf2) Hinr Hr).
  destruct (Hsum r m Hinr Hmi Hr) as [Hx|[Hx|Hx]]; [by destruct (Forall_In _ _ _ Hall Hinr)| |].
  - by destruct (Forall_In _ _ _ Hse Hinr).
  - rewrite Hx, String.eqb_refl. by rewrite (proj2 (String.eqb_neq _ _) (sha256_hex_nonempty _)).
Qed.

(** ** Approval of the release exception *)

Inductive migrate_command : Type :=
| MUp
| MApprove (name actor reason : string)
| MRevoke (name actor reason : string)
| MApplyApproved (name : string)
| MStatuses
| MAttest (env : Env) (actor reason digest : string).

Definition migrate_exec (c : migrate_command) (st : St) : St :=
  match c with
  | MUp => snd (Up entries exec_sql st)
  | MApprove name actor reason => snd (Approve entries name actor reason st)
  | MRevoke name actor reason => snd (Revoke entries name actor reason st)
  | MApplyApproved name => snd (ApplyApproved entries exec_sql name st)
  | MStatuses => snd (Statuses entries st)
  | MAttest env actor reason digest => snd (AttestLegacyHashes entries env actor reason digest st)
  end.

(** The approval in force when a command starts *)
Definition exception_approved (st : St) : Prop :=
  exists m a, In m ms /\ mg_Name m = ReleaseExceptionMigrationName
    /\ Approval st ReleaseExceptionMigrationName = Ok a
    /\ as_Status a = "approved" /\ as_MigrationHash a = migrationHash (mg_SQL m).

Lemma up_loop_approval all l applied run (st : St) r st' :
  distinct_files -> up_loop exec_sql all l applied run st = (r, st') ->
  (forall m, In m l -> In m ms) -> own_hashes run -> ms_migrations st <> None ->
  isApplied st ReleaseExceptionMigrationName = false ->
  isApplied st' ReleaseExceptionMigrationName = true -> exception_approved st.
Proof.
  intros Hd. revert applied run st. induction l as [|m l IH]; intros applied run st E Hl Hrun Hne H0 H1;
    cbn in E; [injection E as _ <-; congruence|].
  assert (Hm : In m ms) by (apply Hl; by left).
  assert (Hl' : forall m, In m l -> In m ms) by (intros; apply Hl; by right).
  destruct (up_ready all m st) as [[|]|e] eqn:Er; [| |injection E as _ <-; congruence].
  2: by eapply IH.
  destruct (string_dec (mg_Name m) ReleaseExceptionMigrationName) as [Hrel|Hrel].
  { unfold up_ready in Er. rewrite Hrel, H0, String.eqb_refl in Er.
    change (String.ltb ChecksumMigrationName ReleaseExceptionMigrationName) with false in Er. cbv iota in Er.
    destruct (Approval st ReleaseExceptionMigrationName) as [a|] eqn:Ea; [|done].
    injection Er as Er. unfold approvalAllowsMigration in Er. bool_prop. by exists m, a. }
  destruct (apply exec_sql m st) as [[[]|e] st1] eqn:Ea.
  2: { injection E as _ <-. unfold apply in Ea. exfalso. revert Ea. repeat case_match; congruence. }
  pose proof (apply_ok m st st1 Ea Hne) as (_ & Hrows & Hn1 & _ & Happ). specialize (Happ Hrel H0).
  set (run' := run ++ [(mg_Name m, migrationHash (mg_SQL m))]) in E.
  assert (Hrun' : own_hashes run').
  { apply Forall_app. split; [done|]. constructor; [by exists m|constructor]. }
  set (st2 := if mg_Name m =s ChecksumMigrationName then _ else _) in E.
  assert (Hh : hash_only st1 st2).
  { unfold st2. destruct (_ =s _); [|reflexivity]. by apply recordAppliedRunHashes_ok. }
  assert (Happ2 : Approval st2 ReleaseExceptionMigrationName = Approval st ReleaseExceptionMigrationName).
  { rewrite (hash_only_approval st1); auto. }
  assert (H2 : isApplied st2 ReleaseExceptionMigrationName = false).
  { apply isApplied_false. destruct Hh as (-> & _). unfold names. rewrite Hrows, map_app, in_app_iff.
    apply isApplied_false in H0. cbn. tauto. }
  assert (Hn2 : ms_migrations st2 <> None) by (destruct Hh as (_ & _ & _ & Hx); tauto).
  destruct (IH _ _ _ E Hl' Hrun' Hn2 H2 H1) as (m' & a & Hm' & Hn' & Ha & Hs & Hh').
  exists m', a. rewrite <- Happ2. by split_and!.
Qed.

Lemma attest_names digest l (st : St) : names (fold_left (attest_one digest) l st) = names st.
Proof.
  revert st. induction l as [|nh l IH]; intros st; [done|]. cbn. rewrite IH.
  change (names (attest_one digest st nh)) with (names (record_hash (fst nh) (snd nh) st)).
  apply record_hash_names.
Qed.

Lemma same_names (st st' : St) name : names st' = names st -> isApplied st' name = isApplied st name.
Proof. intros H. rewrite (isApplied_app st st' [] name) by by rewrite app_nil_r. apply orb_false_r. Qed.

Lemma names_kept c (st : St) :
  match c with MUp | MApplyApproved _ => False | _ => True end ->
  names (migrate_exec c st) = names st.
Proof.
  assert (Het : names (ensureTable st) = names st).
  { unfold ensureTable, names, rows_of. by destruct (ms_migrations st) eqn:E; cbn; rewrite ?E. }
  destruct c as [|name actor reason|name actor reason|name| |env actor reason digest]; intros H; try done;
    cbn [migrate_exec].
  - unfold Approve. destruct (migrationByName entries name); [|done]. cbv zeta.
    destruct (_ || _); [done|]. destruct (ms_ledger (ensureTable st)); [|done].
    exact Het.
  - unfold Revoke. destruct (migrationByName entries name); [|done]. cbv zeta.
    destruct (_ || _); [done|]. destruct (ms_ledger st); [|done]. by destruct (existsb _ _).
  - unfold AttestLegacyHashes. cbv zeta. destruct (_ || _); [done|]. destruct (_ <>s _); [done|].
    destruct (requireChecksumColumns st); [done|].
    destruct (legacy_rows entries _) as [legacy|]; [|done].
    destruct legacy as [|[n h] legacy]; [done|]. destruct (ms_ledger st); [|done].
    exact (attest_names (MigrationSetDigest entries) ((n, h) :: legacy) st).
Qed.

Lemma migrationByName_In name m : migrationByName entries name = Ok m -> In m ms /\ mg_Name m = name.
Proof.
  unfold migrationByName. destruct (List.find _ _) as [x|] eqn:E; [|done]. intros [= <-].
  apply find_some in E as [Hin Hn]. by apply String.eqb_eq in Hn.
Qed.

(** C14. The release-exception migration is never applied without its approval:
    whatever migration command runs, and whether it succeeds or fails half way,
    if that migration was not applied before and is applied after, then the
    ledger held an approval with the status approved for exactly the SQL that was
    applied (its SHA-256). *)
Theorem exception_needs_approval c (st : St) :
  distinct_files ->
  isApplied st ReleaseExceptionMigrationName = false ->
  isApplied (migrate_exec c st) ReleaseExceptionMigrationName = true ->
  exception_approved (ensureTable st).
Proof.
  intros Hd H0 H1.
  assert (Hsafe : match c with MUp | MApplyApproved _ => False | _ => True end ->
    exception_approved (ensureTable st)).
  { intros Hc. rewrite (same_names st) in H1 by by apply names_kept. congruence. }
  assert (Het : names (ensureTable st) = names st /\ ms_migrations (ensureTable st) <> None).
  { unfold ensureTable, names, rows_of. by destruct (ms_migrations st) eqn:E; cbn; rewrite ?E. }
  destruct Het as [Het Hne]. assert (H0' : isApplied (ensureTable st) ReleaseExceptionMigrationName = false)
    by by rewrite (same_names st).
  destruct c as [|name actor reason|name actor reason|name| |env actor reason digest];
    try (by apply Hsafe); cbn [migrate_exec] in H1.
  - unfold Up in H1. destruct (rejectChecksumMismatch (ensureTable st) ms); cbn [snd] in H1;
      [congruence|]. destruct (up_loop _ _ _ _ _ _) as [r st'] eqn:E. cbn [snd] in H1.
    eapply up_loop_approval; try done. constructor.
  - unfold ApplyApproved in H1. destruct (migrationByName entries name) as [m|] eqn:Em; [|cbn in H1; congruence].
    apply migrationByName_In in Em as [Hm Hname]. cbv zeta in H1.
    destruct (isApplied (ensureTable st) name) eqn:Ea; [cbn in H1; congruence|].
    destruct (Approval (ensureTable st) name) as [a|] eqn:Eap; [|cbn in H1; congruence].
    destruct (approvalAllowsMigration a (migrationHash (mg_SQL m))) eqn:Eal; [|cbn in H1; congruence].
    destruct (apply exec_sql m (ensureTable st)) as [[[]|e] st'] eqn:E; cbn [snd] in H1.
    + destruct (apply_ok m _ _ E Hne) as (_ & Hrows & _).
      apply isApplied_spec in H1. unfold names in H1. rewrite Hrows, map_app, in_app_iff in H1.
      destruct H1 as [H1|[H1|[]]]; [by apply isApplied_false in H0'|]. cbn in H1.
      unfold approvalAllowsMigration in Eal. bool_prop. exists m, a. split_and!; try done. congruence.
    + unfold apply in E. revert E. repeat case_match; congruence.
Qed.

(** ** Tampering *)

(** A migration whose recorded checksum is not that of the embedded file
    stops everything: [Up] reports it and applies nothing, attestation is
    refused, and the status of the migration says mismatch. *)
Theorem tampering_is_detected (st : St) r m env actor reason digest :
  distinct_files -> rows_wf st -> ms_checksums st = true ->
  In r (rows_of st) -> In m ms -> mr_Name r = mg_Name m ->
  (exists h, mr_Sha256 r = Some h /\ h <> "" /\ h <> migrationHash (mg_SQL m)) ->
  (exists e, Up entries exec_sql st = (Err e, st))
  /\ (exists e, AttestLegacyHashes entries env actor reason digest st = (Err e, st))
  /\ st_ChecksumStatus (migration_status st m) = "mismatch".
Proof.
  intros Hd Hwf Hc Hr Hm Hn (h & Eh & Hh1 & Hh2).
  assert (Het : ensureTable st = st).
  { unfold ensureTable. unfold rows_of in Hr. by destruct (ms_migrations st). }
  assert (Hbad : mismatch_in st ms <> None).
  { intros Hx. apply (mismatch_in_none st ms (proj1 Hwf)) with (r := r) (m := m) in Hx; try done.
    destruct (Hx Hn) as [?|[?|?]]; congruence. }
  split_and!.
  - unfold Up. rewrite Het. unfold rejectChecksumMismatch, checksumColumnsExist. rewrite Hc.
    destruct (mismatch_in st ms) as [e|]; [by exists e|done].
  - unfold AttestLegacyHashes. cbv zeta. destruct (_ || _); [by eexists|].
    destruct (_ <>s _); [by eexists|]. destruct (requireChecksumColumns st); [by eexists|].
    destruct (legacy_rows entries (sort_stable row_before (rows_of st))) as [l|e] eqn:El; [exfalso|by eexists].
    assert (Hin : In r (sort_stable row_before (rows_of st))) by by apply sort_stable_In.
    revert l El Hin. induction (sort_stable row_before (rows_of st)) as [|x rows IH]; intros l El Hin; [done|].
    cbn in El. destruct (List.find _ _) as [mx|] eqn:Ef; [|done].
    destruct Hin as [->|Hin].
    + apply find_some in Ef as [Hmx Ex]. apply String.eqb_eq in Ex.
      assert (mx = m) as -> by (apply migration_by_name; [done|done|done|congruence]).
      rewrite Eh in El. destruct h as [|c0 h]; [done|].
      by rewrite (proj2 (String.eqb_neq _ _) Hh2) in El.
    + destruct (mr_Sha256 x) as [hx|].
      * destruct hx as [|c0 hx]; [destruct (legacy_rows entries rows) as [l'|]; [by apply (IH l')|done]|].
        destruct (_ =s _); [by apply (IH l)|done].
      * destruct (legacy_rows entries rows) as [l'|]; [by apply (IH l')|done].
  - unfold migration_status.
    assert (Ha : isApplied st (mg_Name m) = true).
    { apply isApplied_spec. rewrite <- Hn. unfold names. by apply in_map. }
    rewrite Ha. unfold checksumColumnsExist, recorded_checksum. rewrite Hc. cbn [negb].
    rewrite (find_by_name st _ r (proj1 Hwf) Hr Hn), Eh. cbn.
    by rewrite (proj2 (String.eqb_neq _ _) Hh1), (proj2 (String.eqb_neq _ _) Hh2).
Qed.
End Spec.

(** ** A small directory *)

Definition demo_entries : list Entry :=
  [MkEntry "000013_v1_migration_checksums.sql" false "sums"; MkEntry "000001_core.sql" false "core";
   MkEntry "README.md" false "text"; MkEntry "000011_ledger.sql" false "ledger";
   MkEntry "000012_v1_release_exceptions.sql" false "exceptions"; MkEntry "archive.sql" true "";
   MkEntry "000014_history.sql" false "history"].

(** The migrations named by their effect: [ledger] creates the ledger, [sums]
    adds the checksum columns, the others leave these tables alone. *)
Definition demo_exec (sql : string) (st : MState Z) : option (MState Z) :=
  let ledger := if sql =s "ledger" then Some (match ms_ledger st with Some l => l | None => [] end) else ms_ledger st in
  Some (MkMState (ms_migrations st) (ms_checksums st || (sql =s "sums")) ledger (ms_world st)
          (ms_rest st + 1)).

#[local] Instance demo_sql_ok : SqlOk demo_exec.
Proof.
  split.
  - by intros sql st st' [= <-].
  - intros sql st st' [= <-] H. cbn. by rewrite H.
  - intros sql st st' ledger [= <-] H. cbn. rewrite H. by destruct (sql =s "ledger").
  - intros sql st st' ledger [= <-] H. cbn. rewrite H.
    destruct (sql =s "ledger"); intros [= <-] _; constructor.
Qed.

Definition demo_state : MState Z := MkMState None false None (MkWorld empty_db ∅ (MkCounters 0 0 0 0)) 0.

Lemma demo_distinct : distinct_files demo_entries.
Proof. apply (NoDup_ListNoDup _). apply (bool_decide_unpack _). by vm_compute. Qed.

Lemma demo_adds_columns : checksum_sql_adds_columns demo_entries demo_exec.
Proof.
  intros m st st' Hm Hn [= <-]. vm_compute in Hm. cbn.
  repeat destruct Hm as [<-|Hm]; try done. cbn. apply orb_true_r.
Qed.

Lemma up_applies_once_witness :
  exists st', Up demo_entries demo_exec demo_state
      = (Ok ["000001_core.sql"; "000011_ledger.sql"; ChecksumMigrationName; "000014_history.sql"], st')
    /\ Up demo_entries demo_exec st' = (Ok [], st').
Proof.
  destruct (Up demo_entries demo_exec demo_state) as [r st'] eqn:E. exists st'.
  assert (Hr : r = Ok ["000001_core.sql"; "000011_ledger.sql"; ChecksumMigrationName; "000014_history.sql"]).
  { transitivity (fst (r, st')); [reflexivity|]. rewrite <- E. vm_compute. reflexivity. }
  subst r. split; [reflexivity|].
  refine (proj2 (proj2 (proj2 (proj2 (proj2
    (up_applies_once demo_entries demo_exec demo_state _ st' demo_distinct demo_adds_columns _ E)))))).
  split; [constructor|]. intros _. constructor.
Defined.

Lemma up_on_new_database_witness :
  exists applied st', Up demo_entries demo_exec demo_state = (Ok applied, st')
    /\ st_ChecksumStatus (migration_status st' (MkMigration "000001_core.sql" "core")) = "verified".
Proof.
  destruct (up_on_new_database demo_entries demo_exec demo_state demo_distinct demo_adds_columns)
    as (applied & st' & E & H).
  - intros m st _. discriminate.
  - vm_compute. right; right; right; left. reflexivity.
  - reflexivity.
  - reflexivity.
  - exists applied, st'. split; [exact E|].
    apply (H (MkMigration "000001_core.sql" "core")). vm_compute. left. reflexivity.
Defined.

(** The directory applied, then the exception approved *)
Definition demo_migrated : MState Z :=
  snd (Approve demo_entries ReleaseExceptionMigrationName "ops" "planned"
         (snd (Up demo_entries demo_exec demo_state))).

Lemma exception_needs_approval_witness : exception_approved demo_entries (ensureTable demo_migrated).
Proof.
  apply (exception_needs_approval demo_entries demo_exec (MApplyApproved ReleaseExceptionMigrationName)
           demo_migrated demo_distinct); vm_compute; reflexivity.
Defined.

(** The file of the first migration was edited after it had been applied. *)
Definition demo_edited : MState Z :=
  MkMState (Some [MkMigrationRow "000001_core.sql" (Some (migrationHash "edited"))]) true (Some [])
    (ms_world demo_state) 0.

Lemma tampering_is_detected_witness :
  (exists e, Up demo_entries demo_exec demo_edited = (Err e, demo_edited))
  /\ st_ChecksumStatus (migration_status demo_edited (MkMigration "000001_core.sql" "core")) = "mismatch".
Proof.
  destruct (tampering_is_detected demo_entries demo_exec demo_edited
              (MkMigrationRow "000001_core.sql" (Some (migrationHash "edited")))
              (MkMigration "000001_core.sql" "core") demo_env "" "" "" demo_distinct)
    as (H1 & _ & H3).
  - split; [|intros; done]. repeat constructor. intros [].
  - reflexivity.
  - left; reflexivity.
  - vm_compute. left; reflexivity.
  - reflexivity.
  - exists (migrationHash "edited"). split; [reflexivity|]. split; vm_compute; discriminate.
  - split; assumption.
Defined.
